(* ===== verification/_CoqProject ===== *)
-Q . S2P
Prelude.v
Double.v
Float.v
CJson.v
CJsonParse.v
CJsonPrint.v
CJsonRound.v
MsgPack.v
Store.v
Undo.v
Arena.v
Protocol.v
Schema.v
RenderTree.v
Color.v
Animation.v
Layout.v
Widget.v
Session.v
Boxes.v
Displays.v
Choice.v
Forms.v
TextEditor.v
Panels.v
Runs.v
Project.v
Recorder.v
Fil.v
Tools.v
Theme.v
Validator.v
Graph.v
Terminal.v
TermDraw.v
Headless.v
Factories.v
Client.v
Checkpoint.v
Socket.v
Daemon.v
Codegen.v
Canvas.v
PropEditor.v
Builder.v
Outside.v
Hub.v
WidgetBuilder.v
