(* ===== verification/Prelude.v ===== *)
(** * FILLY

    A model of the core of FILLY, a library and daemon that show dialog widgets
    ("ask the user for a choice, a date, a text") on a terminal or a screen, and
    of the builder that wires such widgets into programs.

    ** The program

    A client sends a request, a JSON or MessagePack document that names a widget
    and its parameters (src/src/protocol). The registry makes the widget
    (src/src/core/widget.c), and a session drives it (src/src/core/session.c):
    in every turn the widget renders a tree of nodes (render.h) into a frame
    arena (arena.c), the tree is given its styles by the theme (theme.c), moved
    by the animations (animation.c), laid out (layout.c) and handed to a
    backend with the parts that changed; an event of the backend goes to the
    widget (src/src/core/widgets), which may answer with a result, and the
    result is printed as the response. Programs share state through the
    key/value store (store.c), undo stacks (undo.c) and recordings of sessions
    (recorder.c). A daemon (src/src/backend/daemon) serves such requests to
    clients over a socket, and a relay (src/src/core/client.c, relay.c) shows on a
    terminal what the daemon draws. Scripts in the language FIL (src/src/script)
    act on the store, on data and as validations. The builder (src/src/builder)
    keeps a project of widgets, connections and handlers, edits it on a canvas, in
    a graph and in a property editor, checks it, saves it as JSON and writes it as
    a plugin in C.

    ** The files

    - [Prelude]: the outcome monad [exec] of C functions ([Done], [Fail],
      [Fault]), machine integers ([u8], [u64], [swrap]), strings and
      indexed access, which the other files share.
    - [Double], [Float]: C's [double] and [float] as IEEE 754 data of
      [SpecFloat], conversions, [strtod] and "%1.15g"; the rounding of binary32
      products.
    - [CJson], [CJsonParse], [CJsonPrint], [CJsonRound]: src/src/cJSON.c and
      cJSON.h. The tree and its accessors, the parser over an indexed buffer,
      the printer over its growing buffer, and the round trip of the two.
    - [MsgPack], [Protocol], [Schema]: src/src/protocol/msgpack.c, protocol.c,
      schema.c.
    - [Store], [Undo], [Arena], [Recorder]: the files of that name under
      src/src/core.
    - [RenderTree], [Color], [Theme], [Animation], [Layout]: render.h, render.c,
      theme.c, animation.c and layout.c of src/src/core. [Color] holds the first
      functions of theme.c.
    - [Widget], [Session]: widget.c, widget_base.c, event.h and session.c of
      src/src/core. The class [Widget.Widget] is the table of functions a widget
      gives to a session; the theorems on the event loop are stated for every
      instance of it.
    - [Boxes], [Displays], [Choice], [Forms], [TextEditor], [Panels], [Tools]:
      the widgets of src/src/core/widgets, one Module for each .c file. Every
      Module has the state as a record, [render], [handle_event] and the
      constructor, and an instance of the class.
    - [Factories]: src/src/core/widget_factories.c: the tables of parameters and
      the constructors behind the registry, for a widget of any type
      ([Factories.AnyWidget]).
    - [Runs]: the event loop with such widgets in it.
    - [Outside], [Hub], [WidgetBuilder]: file_picker.c and progress.c, hub.c, and
      widget_builder.c of the same directory: widgets that look at directories and
      run commands, or hold widgets of the registry themselves.
    - [Fil]: src/src/script/fil.c.
    - [Project], [Validator], [Graph]: project.c, validator.c and
      connection_graph.c of src/src/builder.
    - [Terminal], [TermDraw]: terminal.c and renderer.c of
      src/src/backend/terminal. The bytes that come are a list with its pauses;
      what is drawn is the text sent, and [TermDraw.Screen] is a terminal that
      shows it, written for the theorems.
    - [Headless]: src/src/backend/headless/headless.c, its ring of events and
      its drawing into text.
    - [Client]: src/src/core/client.c and relay.c: the requests, the buffer of what
      comes from the daemon and the loops that wait for it, and the keys of the
      relay.
    - [Checkpoint]: src/src/backend/daemon/checkpoint.c and the sessions it keeps.
    - [Socket], [Daemon]: src/src/backend/daemon/daemon.c. [Socket] is its backend
      that draws into a connection and takes the events from it; [Daemon] has the
      messages, the table of sessions, the handshake, the life of a connection
      ([Daemon.handle_client]) and the limit on connections ([Daemon.Accept]).
      What a handler writes and the state it leaves are the values of a small
      monad, [Daemon.io].
    - [Codegen], [Canvas], [PropEditor]: codegen.c, canvas.c and property_editor.c
      of src/src/builder.
    - [Builder]: src/src/builder/filly_build.c, the widget made of the canvas, the
      graph, the property editor, the validator and the code generator, as an
      instance of the class [Widget.Widget], so that the event loop of [Session]
      runs it. The renderer of the source takes an area its caller does not give
      it; it is a parameter.

    ** Reading the model

    A C function becomes a Gallina function on the state it reads and writes. A
    function that can go wrong answers in [exec]: [Fail] is the error return of
    the code, and [Fault] is a run the C standard gives no meaning to (a NULL
    pointer used, a read or write outside an object, memory used after it was
    freed) or one that has not ended when the fuel of the model is spent. A
    theorem that some function never faults is therefore both memory safety
    of the accesses the model indexes and termination.

    Integers that wrap or are masked in the code wrap in the model (sizes of
    the arena, bytes of MessagePack, versions of the store, cells of colours);
    coordinates and counters of the user interface are unbounded integers, and
    each file says so. Linked lists whose links the code only walks are lists;
    those it relinks (undo, animation definitions) are heaps of pointers, with
    freed memory absent. Strings end at their NUL.

    ** Fuel

    - The JSON parser has [parse_fuel], three steps for each byte and one more;
      [cJSON_Parse_safe] shows that it never runs out. [decode_string] has the
      length of the literal.
    - [grow] of the arena doubles a 64-bit size at most 64 times.
    - [digits_of] prints at most 20 digits; [dec_exponent] finds the decimal
      exponent of a double, which is within 700 of its first guess.
    - The expression, statement and loop counters of FIL are a function of the
      length of the script; [fil_eval_total] shows that they are enough.
    - [resolve_var] of a theme follows a chain of variables not longer than
      their number and one more; [theme_values] shows the value it gives.
    - A session runs over a given list of polled events, one turn for each.
    - The bytes behind an escape character are read by recursion on what comes;
      [terminal_input_safe] shows that a poll always ends. [write_all] runs over
      the counts that [write] answers, and [write_all_ends] says when they are
      enough.
    - A stream is the list of the pieces in which its bytes arrive. The client
      reads it with [Client.reads_in], more than the reads there can be; the lines
      of its buffer are taken with the length of the buffer, as each is shorter
      than what it is taken from. A session on a socket has as many rounds as
      lines come.

    ** The theorems

    Safety and termination: the JSON parser on any text, FIL on any script, the
    graph and the widgets on any sequence of events, animations on any run of
    their clock, the allocator. Round trips: JSON, MessagePack, requests and
    responses, projects, recordings, keys and mouse reports of a terminal, what a
    checkpoint keeps. Refinements: undo is a history with a cursor, the store
    a finite map, the text editor and the input line a text with a cursor, the
    ring of the headless backend a bounded queue, a connection to the daemon a
    request and its answer. Reference definitions: schema
    checking decides conformance, focus order is the list of focusable nodes,
    hit testing the topmost node, the checks of a project the properties they
    are named after, a key sent through the relay the key that was typed. Drawing:
    what the terminal backend sends is put on a
    reference terminal, and no cell outside the window shows anything, wherever
    the text is cut off, while the cells of a text show its lines. Invariants: typed edges of the graph, unique
    item identifiers and selections, answers that are taken from the items offered,
    sessions of the daemon that do not see each other's messages. Functional
    behaviour: a layout that puts every node where a relation written for it
    says, the cascade of theme rules over all members of a style, the
    frames a loop draws, the answers of widgets, a parameter that is typed.
    Composition: a request for a
    widget is served from its JSON to its answer, whatever its parameters are, as
    long as the drawings fit the arena of the session ([requests_served]); the client, the daemon and the widget between them
    ([request_answered]); a hub and the widgets of its items ([hub_answers]); the
    script that the code generator writes, under the
    interpreter that checks it ([validate_verdict]); and the builder inside the
    event loop, which keeps the keys that the builder needs
    ([builder_adds_nothing]). Conditions of a theorem that restrict the inputs
    (printable texts, integer numbers in JSON, lengths below a limit) are named in
    its comment.

    Where the code does something else than it says, a theorem shows the run,
    as the overflow of the printer's buffer by control characters, of whose
    escapes it keeps five bytes ([print_control_overflow],
    [control_not_read_back]), errors the documents name and the validator does not
    report ([documented_errors_missed]), the widgets that fault on an empty list of
    choices, the progress box that runs no command at all ([progress_never_runs])
    and the widget builder that makes nothing but menus ([builder_makes_menus]).

    ** Not modelled

    The graphics backend (Wayland and OpenGL) and the pixels of the headless one
    are I/O and pixels; drawing into pixels is an argument where the canvas of the
    builder uses it. Of the terminal backend and of the daemon the system
    calls are arguments; the start of the daemon, its signals, the watch on the
    files of themes and the handler of clients that draw with the graphics backend
    are left out, and so are the signatures and the sandbox of plugins
    (verify.c, sandbox.c), which are calls of libsodium and of the kernel. The
    command line and the plugins are processes. Bindings, tests and tools use the
    library from outside; stb, the font headers and the generated Wayland
    protocol are third-party code. Of src/src/core, accessibility, clipboard,
    log, i18n, config, crypto and shm wrap services of the system, shaper.c and
    vector.c are geometry in floating point over font tables. Of the widgets,
    terminal_emulator is a process behind a pseudo terminal. What the file picker
    and the progress box find in the system are arguments; the constructors of
    these, of the hub and of the widget builder are arguments of [Factories],
    which comes before them. A drawing is the tree that is left when the arena
    does not grow while it is made: [Arena] models the growth, which frees what was
    given out, and [Factories.Served.frames_run] the frames of a session in it.
    Memory that is only released has no counterpart, and allocation succeeds, except where a file
    says that it models either. *)

From Stdlib Require Export Ascii String ZArith Lia.
From stdpp Require Export base numbers list strings gmap option.

#[global] Open Scope Z_scope.

(** ** Outcome of a C function

    [Done a] is a normal return, [Fail] the documented error return (NULL,
    false, -1) and [Fault] a run the C standard gives no meaning to, or one
    that does not end within the fuel of the model. *)

Inductive fault :=
  | NullDeref       (* a NULL pointer is dereferenced *)
  | OutOfBounds     (* a read or a write outside an allocated object *)
  | UseAfterFree    (* a read through a pointer that was freed *)
  | Diverges        (* the loop did not end within the fuel *)
  | Overflow        (* signed arithmetic leaves its type *)
  | Indeterminate.  (* a variable is read that was never set *)

#[global] Instance fault_eq_dec : EqDecision fault.
Proof. solve_decision. Defined.

Inductive exec (A : Type) :=
  | Done (a : A)
  | Fail
  | Fault (f : fault).
Arguments Done {A} a.
Arguments Fail {A}.
Arguments Fault {A} f.

#[global] Instance exec_ret : MRet exec := fun A a => Done a.
#[global] Instance exec_bind : MBind exec := fun A B k m =>
  match m with Done a => k a | Fail => Fail | Fault f => Fault f end.
#[global] Instance exec_fmap : FMap exec := fun A B g m =>
  match m with Done a => Done (g a) | Fail => Fail | Fault f => Fault f end.

(** Turn a lookup into an access: a missing element is an out-of-bounds
    access, a missing pointer a NULL dereference. *)
Definition at_index {A} (o : option A) : exec A :=
  match o with Some a => Done a | None => Fault OutOfBounds end.
Definition deref {A} (o : option A) : exec A :=
  match o with Some a => Done a | None => Fault NullDeref end.

(** [no_fault m]: the run has a meaning. *)
Definition no_fault {A} (m : exec A) : Prop :=
  match m with Fault _ => False | _ => True end.

Lemma Done_inj {A} (a b : A) : Done a = Done b -> a = b.
Proof. by intros [= ->]. Qed.
Lemma exec_bind_Done {A B} (k : A -> exec B) (m : exec A) b :
  m ≫= k = Done b <-> exists a, m = Done a /\ k a = Done b.
Proof.
  destruct m as [a| |f]; simpl; split.
  - intros H. by exists a.
  - intros (a' & [= <-] & H). exact H.
  - discriminate.
  - by intros (a' & ? & _).
  - discriminate.
  - by intros (a' & ? & _).
Qed.

Lemma no_fault_bind {A B} (k : A -> exec B) (m : exec A) :
  no_fault m -> (forall a, m = Done a -> no_fault (k a)) -> no_fault (m ≫= k).
Proof. destruct m; simpl; auto. Qed.

(** [returns m P]: the run ends normally, with a result that satisfies [P]. *)
Definition returns {A} (m : exec A) (P : A -> Prop) : Prop :=
  match m with Done a => P a | _ => False end.
Lemma returns_Done {A} (m : exec A) P : returns m P -> exists a, m = Done a /\ P a.
Proof. destruct m as [a| |]; [by exists a|done..]. Qed.
Lemma returns_bind {A B} (k : A -> exec B) (m : exec A) (P : A -> Prop) (Q : B -> Prop) :
  returns m P -> (forall a, P a -> returns (k a) Q) -> returns (m ≫= k) Q.
Proof. destruct m as [a| |]; simpl; [auto|done..]. Qed.
Lemma returns_mono {A} (m : exec A) (P Q : A -> Prop) : returns m P -> (forall a, P a -> Q a) -> returns m Q.
Proof. destruct m as [a| |]; simpl; [auto|done..]. Qed.
Lemma returns_index {A} (l : list A) i : (i < length l)%nat -> returns (at_index (l !! i)) (fun x => l !! i = Some x).
Proof. intros [x Hx]%lookup_lt_is_Some. by rewrite Hx. Qed.

(** Case analysis on the outer [match] of the goal or of a hypothesis,
    keeping the equation. *)
Ltac case_one :=
  match goal with
  | |- context [match ?x with _ => _ end] => destruct x eqn:?
  end.
Ltac case_in H :=
  match type of H with
  | context [match ?x with _ => _ end] => destruct x eqn:?
  end.
Ltac simp_bool :=
  repeat match goal with
  | H : (_ && _)%bool = true |- _ => apply andb_true_iff in H as [? ?]
  | H : (_ || _)%bool = false |- _ => apply orb_false_iff in H as [? ?]
  | H : negb _ = true |- _ => apply negb_true_iff in H
  | H : negb _ = false |- _ => apply negb_false_iff in H
  | H : (_ <? _) = true |- _ => apply Z.ltb_lt in H
  | H : (_ <? _) = false |- _ => apply Z.ltb_ge in H
  | H : (_ <=? _) = true |- _ => apply Z.leb_le in H
  | H : (_ <=? _) = false |- _ => apply Z.leb_gt in H
  | H : (_ =? _) = true |- _ => apply Z.eqb_eq in H
  | H : (_ =? _) = false |- _ => apply Z.eqb_neq in H
  end.

(** ** Machine integers *)

Definition INT_MAX : Z := 2147483647.
Definition INT_MIN : Z := -2147483648.
Definition is_int (z : Z) : Prop := INT_MIN <= z <= INT_MAX.
#[global] Instance is_int_dec z : Decision (is_int z).
Proof. unfold is_int. apply _. Defined.

Definition u8 (z : Z) : Z := z mod 256.
Definition u16 (z : Z) : Z := z mod 2 ^ 16.
Definition u32 (z : Z) : Z := z mod 2 ^ 32.
Definition u64 (z : Z) : Z := z mod 2 ^ 64.
(** The value of an expression of type [int]. *)
Definition as_int (z : Z) : exec Z := if bool_decide (is_int z) then Done z else Fault Overflow.
(** Reinterpretation of the low [w] bits as a signed integer. *)
Definition swrap (w : Z) (z : Z) : Z := (z + 2 ^ (w - 1)) mod 2 ^ w - 2 ^ (w - 1).
Definition s8 := swrap 8.
Definition s16 := swrap 16.
Definition s32 := swrap 32.
Definition s64 := swrap 64.

Lemma u8_range z : 0 <= u8 z < 256.
Proof. apply Z.mod_pos_bound. lia. Qed.
Lemma swrap_id w z : 0 < w -> - 2 ^ (w - 1) <= z < 2 ^ (w - 1) -> swrap w z = z.
Proof.
  intros Hw Hz. unfold swrap.
  assert (2 ^ w = 2 * 2 ^ (w - 1)).
  { rewrite <-Z.pow_succ_r by lia. f_equal. lia. }
  rewrite Z.mod_small by lia. lia.
Qed.
Lemma swrap_mod w z : 0 < w -> swrap w (z mod 2 ^ w) = swrap w z.
Proof.
  intros Hw. unfold swrap. f_equal. rewrite Zplus_mod_idemp_l. done.
Qed.

(** C integer division truncates towards zero. *)
Definition cdiv (a b : Z) : Z := Z.quot a b.
Definition cmod (a b : Z) : Z := Z.rem a b.

(** ** Characters and strings

    A C string is its characters before the terminator; [char] is signed. *)
Definition uchar (c : ascii) : Z := Z.of_N (N_of_ascii c).
Definition schar (c : ascii) : Z := s8 (uchar c).
Definition NUL : ascii := "000"%char.
Definition DQUOTE : ascii := "034"%char.
Definition c_string (s : string) : Prop := NUL ∉ list_ascii_of_string s.
Definition strlen (s : string) : Z := Z.of_nat (String.length s).

Abbreviation chars := list_ascii_of_string.
Abbreviation of_chars := string_of_list_ascii.
(** A literal of the source, written with apostrophes for its double quotes. *)
Definition quoted (s : string) : list ascii := map (fun c => if Ascii.eqb c "'"%char then DQUOTE else c) (chars s).

(** [ctype.h] in the C locale, and [strstr] as a test. *)
Definition toupper (c : ascii) : ascii := if ((97 <=? uchar c) && (uchar c <=? 122))%bool then ascii_of_N (N_of_ascii c - 32) else c.
Definition tolower (c : ascii) : ascii := if ((65 <=? uchar c) && (uchar c <=? 90))%bool then ascii_of_N (N_of_ascii c + 32) else c.
Fixpoint has_prefix (p s : list ascii) : bool :=
  match p, s with [], _ => true | c :: p', d :: s' => Ascii.eqb c d && has_prefix p' s' | _, _ => false end.
Fixpoint strstr (s p : list ascii) : bool :=
  has_prefix p s || match s with [] => false | _ :: s' => strstr s' p end.

Definition isdigit (c : ascii) : bool := let n := uchar c in (48 <=? n) && (n <=? 57).
(** The characters at the front that [f] holds of. *)
Fixpoint span (f : ascii -> bool) (l : list ascii) : list ascii :=
  match l with c :: l' => if f c then c :: span f l' else [] | [] => [] end.

Lemma span_app f a l : Forall (fun c => f c = true) a -> span f (a ++ l) = a ++ span f l.
Proof. induction 1 as [|c a Hc _ IH]; [done|]. cbn. by rewrite Hc, IH. Qed.

(** The digits of [atoi]: [strtol] saturates, the conversion to [int] wraps. *)
Definition digits_value (l : list ascii) : Z := foldl (fun v c => 10 * v + (uchar c - 48)) 0 l.
Definition isspace (c : ascii) : bool := let n := uchar c in (n =? 32) || ((9 <=? n) && (n <=? 13)).
Definition atoi (l : list ascii) : Z :=
  let l := drop (length (span isspace l)) l in
  let '(neg, l) := match l with
    | c :: l' => if uchar c =? 45 then (true, l') else if uchar c =? 43 then (false, l') else (false, l)
    | [] => (false, l)
    end in
  let v := digits_value (span isdigit l) in
  s32 (if neg then Z.max (- v) (- 2 ^ 63) else Z.min v (2 ^ 63 - 1)).

(** "%d" of [sscanf]: blanks, a sign, digits; and at most [n] such numbers with
    the character [sep] between them. *)
Definition scan_d (l : list ascii) : option (Z * list ascii) :=
  let l := drop (length (span isspace l)) l in
  let '(sign, r) := match l with c :: l' => if Ascii.eqb c "-" || Ascii.eqb c "+" then (1%nat, l') else (O, l) | [] => (O, l) end in
  let ds := span isdigit r in
  match ds with [] => None | _ => Some (atoi (take (sign + length ds) l), drop (length ds) r) end.
Fixpoint scan_ints (sep : ascii) (n : nat) (l : list ascii) : list Z :=
  match n with
  | O => []
  | S n' =>
      match scan_d l with
      | Some (v, c :: l') => if Ascii.eqb c sep then v :: scan_ints sep n' l' else [v]
      | Some (v, []) => [v]
      | None => []
      end
  end.

Lemma length_chars s : length (chars s) = String.length s.
Proof. induction s; simpl; [done | by rewrite IHs]. Qed.

Lemma chars_app s t : chars (s +:+ t) = chars s ++ chars t.
Proof. induction s as [|c s IH]; [done|].
  change (c :: chars (s +:+ t) = c :: chars s ++ chars t). by rewrite IH.
Qed.

Lemma uchar_range c : 0 <= uchar c < 256.
Proof. unfold uchar. pose proof (N_ascii_bounded c). lia. Qed.

Lemma uchar_ascii_of_N n : (n < 256)%N -> uchar (ascii_of_N n) = Z.of_N n.
Proof. intros H. unfold uchar. by rewrite N_ascii_embedding. Qed.

(** [strndup s n]: what [snprintf(buf, n + 1, "%s", s)] leaves in [buf]. *)
Fixpoint strtake (n : nat) (s : string) : string :=
  match n, s with
  | S n', String c s' => String c (strtake n' s')
  | _, _ => EmptyString
  end.

Lemma strtake_all n s : (String.length s <= n)%nat -> strtake n s = s.
Proof. revert s. induction n as [|n IH]; intros [|c s] H; cbn in *; try done; [lia|]. by rewrite IH by lia. Qed.

(** Decimal digits of a number, as "%d" prints it. *)
Definition digit (d : Z) : ascii := ascii_of_N (Z.to_N (48 + d)).

Fixpoint digits_of (fuel : nat) (n : Z) (acc : list ascii) : list ascii :=
  match fuel with
  | O => acc
  | S fuel' =>
      let acc' := digit (n mod 10) :: acc in
      if n <? 10 then acc' else digits_of fuel' (n / 10) acc'
  end.
(** Every number below [10 ^ 20] has at most 20 digits: 64-bit integers fit. *)
Definition dec_chars (n : Z) : list ascii := digits_of 20 n [].
Definition int_chars (z : Z) : list ascii :=
  if z <? 0 then "-"%char :: dec_chars (- z) else dec_chars z.
Definition int_string (z : Z) : string := of_chars (int_chars z).

Definition is_dec (c : ascii) : Prop := isdigit c = true.
Lemma digits_of_value fuel : forall (n : Z) (acc : list ascii) (v : Z), 0 <= n < 10 ^ Z.of_nat fuel -> (0 < fuel)%nat ->
  exists D : list ascii, digits_of fuel n acc = D ++ acc /\ (0 < length D <= fuel)%nat /\ Forall is_dec D /\
    (forall k : nat, n < 10 ^ Z.of_nat k -> (0 < k)%nat -> (length D <= k)%nat) /\
    foldl (fun v c => 10 * v + (uchar c - 48)) v D = v * 10 ^ Z.of_nat (length D) + n.
Proof.
  induction fuel as [|fuel IH]; intros n acc v Hn Hf; [lia|]. cbn [digits_of].
  assert (0 <= n mod 10 < 10) as Hd by (apply Z.mod_pos_bound; lia).
  assert (uchar (digit (n mod 10)) = 48 + n mod 10) as Hu.
  { unfold digit. rewrite uchar_ascii_of_N by lia. by rewrite Z2N.id by lia. }
  assert (is_dec (digit (n mod 10))) as Hdig.
  { unfold is_dec, isdigit. rewrite Hu. apply andb_true_iff. split; apply Z.leb_le; lia. }
  destruct (n <? 10) eqn:Hlt; simp_bool.
  - exists [digit (n mod 10)]. split; [done|]. split; [cbn; lia|]. split; [by repeat constructor|]. split; [cbn; lia|].
    cbn [foldl length]. rewrite Hu, Z.mod_small by lia. change (10 ^ Z.of_nat 1) with 10. lia.
  - rewrite Nat2Z.inj_succ, Z.pow_succ_r in Hn by lia.
    assert (fuel <> 0)%nat. { intros ->. change (10 * 10 ^ Z.of_nat 0) with 10 in Hn. lia. }
    destruct (IH (n / 10) (digit (n mod 10) :: acc) v) as (D & -> & HD & Hall & Hk & Hv); [|lia|].
    { split; [apply Z.div_pos; lia|apply Z.div_lt_upper_bound; lia]. }
    exists (D ++ [digit (n mod 10)]). split; [by rewrite <-app_assoc|]. rewrite length_app. cbn [length].
    split; [lia|]. split; [apply Forall_app; split; [done|by repeat constructor]|]. split.
    + intros [|k] Hn' Hpos; [lia|]. destruct k as [|k]; [change (10 ^ Z.of_nat 1) with 10 in Hn'; lia|].
      specialize (Hk (S k)). rewrite Nat2Z.inj_succ, Z.pow_succ_r in Hn' by lia.
      assert (n / 10 < 10 ^ Z.of_nat (S k)) by (apply Z.div_lt_upper_bound; lia). specialize (Hk ltac:(done) ltac:(lia)). lia.
    + rewrite foldl_app, Hv. cbn [foldl]. rewrite Hu, Nat2Z.inj_add, Z.pow_add_r by lia. change (10 ^ Z.of_nat 1) with 10.
      pose proof (Z.div_mod n 10). lia.
Qed.
(** The digits of [n] are read back as [n]. *)
Lemma dec_chars_value n : 0 <= n < 10 ^ 20 ->
  Forall is_dec (dec_chars n) /\ (0 < length (dec_chars n))%nat /\ digits_value (dec_chars n) = n /\
  (forall k : nat, n < 10 ^ Z.of_nat k -> (0 < k)%nat -> (length (dec_chars n) <= k)%nat).
Proof.
  intros Hn. destruct (digits_of_value 20 n [] 0 Hn ltac:(lia)) as (D & HD & Hl & Hall & Hk & Hv).
  rewrite app_nil_r in HD. unfold dec_chars, digits_value. rewrite HD, Hv. split; [done|]. split; [lia|]. by split.
Qed.
(** ** Lists *)

Lemma drop_length_app {A} (l k : list A) n : n = length l -> drop n (l ++ k) = k.
Proof. intros ->. apply drop_app_length. Qed.

Lemma lookup_length_app {A} (l : list A) x k n : n = length l -> (l ++ x :: k) !! n = Some x.
Proof. intros ->. by apply list_lookup_middle. Qed.

(** [c ∉ chars lit] for literals. *)
Ltac not_in_literal :=
  let H := fresh in
  intros H; repeat (apply elem_of_cons in H as [H|H]; [discriminate H|]);
  exact (not_elem_of_nil _ H).

Create HintDb filly.
#[export] Hint Resolve uchar_range u8_range : filly.
