(* ===== verification/Double.v ===== *)
(** The C type [double] as the code uses it: conversions from and to [int],
    comparison, [strtod] on the alphabet [parse_number] collects, and the
    "%1.15g" of [print_number]. Values are IEEE 754 binary64 data of the
    Standard Library's [SpecFloat]; [float] (binary32) is used by the widgets, the styles and the
    animations. *)

From Stdlib Require Import SpecFloat.
From S2P Require Import Prelude.

Definition double := spec_float.
Definition d_prec : Z := 53.
Definition d_emax : Z := 1024.

#[global] Instance double_eq_dec : EqDecision double.
Proof. solve_decision. Defined.

(** [(double)z] for an integer of any size, rounded to nearest even. *)
Definition d_of_Z (z : Z) : double := binary_normalize d_prec d_emax z 0 false.

(** Truncation of a finite value towards zero. *)
Definition sf_trunc (x : spec_float) : option Z :=
  match x with
  | S754_zero _ => Some 0
  | S754_finite s m e =>
      let a := if e <? 0 then Z.pos m / 2 ^ (- e) else Z.pos m * 2 ^ e in
      Some (if s then - a else a)
  | _ => None
  end.

(** [(num >= INT_MAX) ? INT_MAX : (num <= (double)INT_MIN) ? INT_MIN : (int)num]:
    the saturating conversion that [parse_number] and [cJSON_CreateNumber]
    share. Of the values that reach the cast only NaN has no integer part;
    the x86 conversion gives [INT_MIN] for it. *)
Definition d_to_valueint (x : double) : Z :=
  if SFleb (d_of_Z INT_MAX) x then INT_MAX
  else if SFleb x (d_of_Z INT_MIN) then INT_MIN
  else match sf_trunc x with Some z => z | None => INT_MIN end.

(** ** strtod

    The C library reads an optional sign, digits with an optional point, and
    an optional exponent, and rounds the decimal value to the nearest double.
    [parse_number] only hands it characters of [0-9+-eE.]. *)

Definition is_digit (c : ascii) : bool := (48 <=? uchar c) && (uchar c <=? 57).
Definition digit_val (c : ascii) : Z := uchar c - 48.

(** Digits read from the left: the value, how many, and what is left. *)
Fixpoint scan_digits (l : list ascii) (acc : Z) (n : nat) : Z * nat * list ascii :=
  match l with
  | c :: l' => if is_digit c then scan_digits l' (10 * acc + digit_val c) (S n) else (acc, n, l)
  | [] => (acc, n, l)
  end.

Definition char_in (c : ascii) (s : string) : bool := existsb (Ascii.eqb c) (chars s).

(** The exponent part, if it is well formed: its value and its length. *)
Definition scan_exponent (l : list ascii) : Z * nat :=
  match l with
  | c :: l' =>
      if char_in c "eE" then
        let '(neg, sgn, l'') :=
          match l' with
          | d :: r => if Ascii.eqb d "-"%char then (true, 1%nat, r)
                      else if Ascii.eqb d "+"%char then (false, 1%nat, r) else (false, 0%nat, l')
          | [] => (false, 0%nat, l')
          end in
        let '(v, n, _) := scan_digits l'' 0 0 in
        if (n =? 0)%nat then (0, 0%nat) else (if neg : bool then - v else v, (1 + sgn + n)%nat)
      else (0, 0%nat)
  | [] => (0, 0%nat)
  end.

(** The value [m * 10 ^ e] with a sign, correctly rounded. *)
Definition d_of_decimal (neg : bool) (m e : Z) : double :=
  if 0 <=? e then
    binary_normalize d_prec d_emax ((if neg then -1 else 1) * (m * 10 ^ e)) 0 neg
  else
    match m, 10 ^ (- e) with
    | Zpos p, Zpos q =>
        let '(mz, ez, lz) := SFdiv_core_binary d_prec d_emax (Zpos p) 0 (Zpos q) 0 in
        binary_round_aux d_prec d_emax neg mz ez lz
    | _, _ => S754_zero neg
    end.

(** [strtod s]: the value and the number of characters used (0: no number). *)
Definition strtod (s : list ascii) : double * nat :=
  let '(neg, sgn, l) :=
    match s with
    | c :: r => if Ascii.eqb c "-"%char then (true, 1%nat, r)
                else if Ascii.eqb c "+"%char then (false, 1%nat, r) else (false, 0%nat, s)
    | [] => (false, 0%nat, s)
    end in
  let '(ip, ni, l1) := scan_digits l 0 0 in
  let '(m, nf, pt, l2) :=
    match l1 with
    | c :: r =>
        if Ascii.eqb c "."%char then
          let '(m, nf, l2) := scan_digits r ip 0 in (m, nf, 1%nat, l2)
        else (ip, 0%nat, 0%nat, l1)
    | [] => (ip, 0%nat, 0%nat, l1)
    end in
  if (ni + nf =? 0)%nat then (S754_zero false, 0%nat)
  else
    let '(ev, ne) := scan_exponent l2 in
    (d_of_decimal neg m (ev - Z.of_nat nf), (sgn + ni + pt + nf + ne)%nat).

(** ** "%1.15g" *)

(** [m * 2 ^ e] as a fraction. *)
Definition sf_fraction (m : positive) (e : Z) : Z * Z :=
  if e <? 0 then (Zpos m, 2 ^ (- e)) else (Zpos m * 2 ^ e, 1).

Definition div_round_even (n d : Z) : Z :=
  let q := n / d in
  let r := n mod d in
  if 2 * r <? d then q else if d <? 2 * r then q + 1 else if Z.even q then q else q + 1.

(** The decimal exponent [x] with [10 ^ x <= n / d < 10 ^ (x + 1)]: start from
    a guess of the bit length and walk; two steps suffice for a good guess. *)
Fixpoint dec_exponent (fuel : nat) (n d x : Z) : Z :=
  let ge k := if 0 <=? k then d * 10 ^ k <=? n else d <=? n * 10 ^ (- k) in
  match fuel with
  | O => x
  | S fuel' =>
      if negb (ge x) then dec_exponent fuel' n d (x - 1)
      else if ge (x + 1) then dec_exponent fuel' n d (x + 1) else x
  end.

(** [n / d] scaled so that 15 digits stand before the point, rounded. *)
Definition sig_digits (n d x : Z) : Z :=
  let k := 14 - x in
  if 0 <=? k then div_round_even (n * 10 ^ k) d else div_round_even n (d * 10 ^ (- k)).

Fixpoint strip_zeros (l : list ascii) : list ascii :=
  match l with
  | c :: l' => if Ascii.eqb c "0"%char then strip_zeros l' else l
  | [] => []
  end.
(** Digits after the point: trailing zeros removed, and the point with them. *)
Definition fraction_part (ds : list ascii) : list ascii :=
  match rev (strip_zeros (rev ds)) with [] => [] | l => "."%char :: l end.

Definition exponent_chars (x : Z) : list ascii :=
  "e"%char :: (if x <? 0 then "-"%char else "+"%char) ::
  (if Z.abs x <? 10 then ["0"%char] else []) ++ dec_chars (Z.abs x).

Definition g15_pos (m : positive) (e : Z) : list ascii :=
  let '(n, d) := sf_fraction m e in
  let x0 := dec_exponent 700 n d ((Zpos (digits2_pos m) + e) * 3 / 10) in
  let v := sig_digits n d x0 in
  let '(v, x) := if v =? 10 ^ 15 then (10 ^ 14, x0 + 1) else (v, x0) in
  let ds := dec_chars v in
  if (x <? -4) || (15 <=? x) then
    take 1 ds ++ fraction_part (drop 1 ds) ++ exponent_chars x
  else if x <? 0 then
    "0"%char :: fraction_part (replicate (Z.to_nat (- x - 1)) "0"%char ++ ds)
  else take (Z.to_nat (x + 1)) ds ++ fraction_part (drop (Z.to_nat (x + 1)) ds).

Definition g15 (x : double) : list ascii :=
  match x with
  | S754_zero s => (if s then ["-"%char] else []) ++ ["0"%char]
  | S754_infinity s => chars (if s then "-inf" else "inf")
  | S754_nan => chars "nan"
  | S754_finite s m e => (if s then ["-"%char] else []) ++ g15_pos m e
  end.

(** ** float *)

Definition float := spec_float.
#[global] Instance float_eq_dec : EqDecision float := double_eq_dec.
Definition f_zero : float := S754_zero false.
Definition f_prec : Z := 24.
Definition f_emax : Z := 128.
Definition f_of_Z (z : Z) : spec_float := binary_normalize f_prec f_emax z 0 false.
Definition f_mul := SFmul f_prec f_emax.
Definition f_div := SFdiv f_prec f_emax.
Definition f_add := SFadd f_prec f_emax.
Definition f_sub := SFsub f_prec f_emax.
(** The literal [n / 10 ^ k] with suffix f. *)
Definition f_lit (n k : Z) : spec_float :=
  match n, 10 ^ k with
  | Zpos p, Zpos q =>
      let '(mz, ez, lz) := SFdiv_core_binary f_prec f_emax (Zpos p) 0 (Zpos q) 0 in
      binary_round_aux f_prec f_emax false mz ez lz
  | _, _ => S754_zero false
  end.
(** [(float)x] of a double. *)
Definition f_of_d (x : double) : float :=
  match x with
  | S754_finite s m e => binary_normalize f_prec f_emax (if s then Zneg m else Zpos m) e s
  | _ => x
  end.
(** [(int)x]; a value with no integer part converts to [INT_MIN] on x86. *)
Definition f_to_int (x : spec_float) : Z :=
  match sf_trunc x with Some z => if bool_decide (is_int z) then z else INT_MIN | None => INT_MIN end.
(** [(int)(z * lit)] as the widgets compute their box sizes. *)
Definition scale_int (z n k : Z) : Z := f_to_int (f_mul (f_of_Z z) (f_lit n k)).

Example strtod_ex1 : (g15 (strtod (chars "-12.5e1")).1, (strtod (chars "-12.5e1")).2) = (chars "-125", 7%nat).
Proof. vm_compute. reflexivity. Qed.
Example g15_ex : map (fun s => of_chars (g15 (strtod (chars s)).1)) ["0.1"; "1e21"; "3.14159265358979"; "1e-7"; "123456789012345678"; "0.30000000000000004"; "5e-324"; "1.5"]
  = ["0.1"; "1e+21"; "3.14159265358979"; "1e-07"; "1.23456789012346e+17"; "0.3"; "4.94065645841247e-324"; "1.5"].
Proof. vm_compute. reflexivity. Qed.
Example scale_ex : (scale_int 80 6 1, scale_int 100 7 1, scale_int 10 8 1) = (48, 70, 8).
Proof. vm_compute. reflexivity. Qed.

(** ** Integers are represented exactly *)

Lemma digits2_bounds p :
  2 ^ (Z.pos (digits2_pos p) - 1) <= Z.pos p < 2 ^ Z.pos (digits2_pos p).
Proof.
  induction p as [p IH|p IH|]; cbn [digits2_pos]; [| |lia].
  all: rewrite Pos2Z.inj_succ; unfold Z.succ.
  all: replace (Z.pos (digits2_pos p) + 1 - 1) with (Z.pos (digits2_pos p)) by lia.
  all: rewrite Z.pow_add_r by lia.
  all: replace (Z.pos (digits2_pos p)) with ((Z.pos (digits2_pos p) - 1) + 1) in |- * at 1 by lia.
  all: rewrite Z.pow_add_r by lia; lia.
Qed.

Lemma digits2_le p n : 0 <= n -> Z.pos p < 2 ^ n -> Z.pos (digits2_pos p) <= n.
Proof.
  intros Hn Hp. destruct (decide (Z.pos (digits2_pos p) <= n)) as [|H]; [done|].
  pose proof (digits2_bounds p) as [Hl _].
  assert (2 ^ n <= 2 ^ (Z.pos (digits2_pos p) - 1)) by (apply Z.pow_le_mono_r; lia). lia.
Qed.

Lemma digits2_iter p k :
  Z.pos (digits2_pos (Pos.iter xO p k)) = Z.pos (digits2_pos p) + Z.pos k.
Proof.
  induction k as [|k IH] using Pos.peano_ind; [cbn; lia|].
  rewrite Pos.iter_succ. cbn [digits2_pos]. lia.
Qed.

Lemma pos_iter_xO p k : Z.pos (Pos.iter xO p k) = Z.pos p * 2 ^ Z.pos k.
Proof.
  induction k as [|k IH] using Pos.peano_ind; [cbn; lia|].
  rewrite Pos.iter_succ. change (Z.pos ((Pos.iter xO p k)~0)) with (2 * Z.pos (Pos.iter xO p k)).
  rewrite IH, Pos2Z.inj_succ, Z.pow_succ_r; lia.
Qed.

(** An integer of fewer than 53 bits: its significand is shifted up to 53. *)
Lemma round_exact s p k :
  Z.pos (digits2_pos p) + Z.pos k = 53 ->
  binary_round d_prec d_emax s p 0 = S754_finite s (Pos.iter xO p k) (- Z.pos k).
Proof.
  intros Hk. pose proof (digits2_iter p k) as Hd.
  unfold binary_round, shl_align, fexp, emin, d_prec, d_emax in *.
  rewrite Z.max_l, Z.sub_0_r by lia.
  replace (Z.pos (digits2_pos p) + 0 - 53) with (Z.neg k) by lia.
  unfold binary_round_aux, shr_fexp, fexp, emin. cbn [shr_record_of_loc Zdigits2].
  rewrite Hd, Z.max_l by lia.
  replace (_ - Z.neg k) with 0 by lia. cbn [shr loc_of_shr_record shr_m round_nearest_even shr_record_of_loc Zdigits2].
  rewrite Hd, Z.max_l by lia.
  replace (_ - Z.neg k) with 0 by lia. cbn [shr shr_m].
  rewrite (proj2 (Z.leb_le _ _)) by lia. done.
Qed.

Lemma d_of_Z_repr p : Z.pos p <= 2147483648 ->
  exists k, Z.pos (digits2_pos p) + Z.pos k = 53 /\ 21 <= Z.pos k /\
    forall s, binary_round d_prec d_emax s p 0 = S754_finite s (Pos.iter xO p k) (- Z.pos k).
Proof.
  intros Hp. pose proof (digits2_le p 32 ltac:(lia) ltac:(change (2^32) with 4294967296; lia)).
  exists (Z.to_pos (53 - Z.pos (digits2_pos p))).
  assert (Z.pos (digits2_pos p) + Z.pos (Z.to_pos (53 - Z.pos (digits2_pos p))) = 53)
    by (rewrite Z2Pos.id; lia).
  split; [done|]. split; [lia|]. intros s. by apply round_exact.
Qed.

Lemma iter_trunc p k : Z.pos (Pos.iter xO p k) / 2 ^ Z.pos k = Z.pos p.
Proof. rewrite pos_iter_xO. apply Z.div_mul. pose proof (Z.pow_pos_nonneg 2 (Z.pos k)). lia. Qed.

Lemma compare_finite_pos p k m e :
  SFcompare (S754_finite false m e) (S754_finite false (Pos.iter xO p k) (- Z.pos k))
  = Some (match e ?= - Z.pos k with Eq => (m ?= Pos.iter xO p k)%positive | c => c end).
Proof. cbn. by destruct (e ?= _). Qed.

Lemma valueint_pos p : Z.pos p <= INT_MAX -> d_to_valueint (d_of_Z (Z.pos p)) = Z.pos p.
Proof.
  unfold INT_MAX. intros Hp. destruct (d_of_Z_repr p) as (k & Hk & Hk21 & Hr); [lia|].
  pose proof (digits2_le p 31 ltac:(lia) ltac:(change (2^31) with 2147483648; lia)).
  unfold d_to_valueint, d_of_Z, binary_normalize. rewrite !Hr.
  change (match INT_MAX with 0 => _ | Z.pos m => _ | Z.neg m => _ end)
    with (S754_finite false 9007199250546688 (-22)).
  unfold SFleb at 1. rewrite compare_finite_pos.
  destruct (-22 ?= - Z.pos k) eqn:Hc.
  - apply Z.compare_eq in Hc. assert (k = 22%positive) as -> by lia.
    pose proof (pos_iter_xO p 22) as Hi. change (2 ^ 22) with 4194304 in Hi.
    pose proof (iter_trunc p 22) as Ht.
    revert Hi Ht. generalize (Pos.iter xO p 22). intros q Hi Ht. unfold INT_MAX.
    destruct (9007199250546688 ?= q)%positive eqn:Hm.
    + apply Pos.compare_eq in Hm. lia.
    + apply Pos2Z.pos_lt_pos in Hm. lia.
    + exact Ht.
  - exfalso. change (-22 < - Z.pos k) in Hc. lia.
  - cbn [SFcompare SFleb]. unfold SFleb. cbn [SFcompare]. cbn [sf_trunc].
    rewrite (proj2 (Z.ltb_lt (- Z.pos k) 0)) by lia.
    rewrite Z.opp_involutive. by rewrite iter_trunc.
Qed.

Lemma valueint_neg p : Z.pos p <= - INT_MIN -> d_to_valueint (d_of_Z (Z.neg p)) = Z.neg p.
Proof.
  unfold INT_MIN. intros Hp. destruct (d_of_Z_repr p) as (k & Hk & Hk21 & Hr); [lia|].
  unfold d_to_valueint, d_of_Z, binary_normalize. rewrite !Hr.
  change (match INT_MAX with 0 => _ | Z.pos m => _ | Z.neg m => _ end)
    with (S754_finite false 9007199250546688 (-22)).
  change (match INT_MIN with 0 => _ | Z.pos m => _ | Z.neg m => _ end)
    with (S754_finite true 4503599627370496 (-21)).
  assert (forall b, (if b : bool then INT_MIN else Z.neg p) = Z.neg p ->
    (if b then INT_MIN else match sf_trunc (S754_finite true (Pos.iter xO p k) (- Z.pos k))
       with Some z => z | None => INT_MIN end) = Z.neg p) as Hb.
  { intros b H. destruct b; [done|]. cbn [sf_trunc].
    rewrite (proj2 (Z.ltb_lt (- Z.pos k) 0)), Z.opp_involutive, iter_trunc by lia. done. }
  unfold SFleb at 1. cbn [SFcompare]. apply Hb.
  destruct (SFleb _ _) eqn:Hle; [|done].
  unfold SFleb in Hle. cbn [SFcompare] in Hle.
  destruct (- Z.pos k ?= -21) eqn:Hc; [|done|].
  - apply Z.compare_eq in Hc. pose proof (digits2_bounds p) as [Hl _].
    replace (Z.pos (digits2_pos p)) with 32 in Hl by lia. change (2 ^ (32 - 1)) with 2147483648 in Hl.
    unfold INT_MIN. lia.
  - change (- Z.pos k > -21) in Hc. lia.
Qed.

(** Reading back as an [int] the double made from an [int] is the identity. *)
Lemma valueint_of_Z z : is_int z -> d_to_valueint (d_of_Z z) = z.
Proof.
  intros [Hl Hu]. destruct z as [|p|p]; [reflexivity | by apply valueint_pos |].
  apply valueint_neg. unfold INT_MIN in *. lia.
Qed.

Definition d_isnan (x : double) : bool := match x with S754_nan => true | _ => false end.
Definition d_isinf (x : double) : bool := match x with S754_infinity _ => true | _ => false end.

(** The double of an [int] is finite and equal to itself. *)
Lemma d_of_Z_regular z : is_int z ->
  d_isnan (d_of_Z z) = false /\ d_isinf (d_of_Z z) = false /\ SFeqb (d_of_Z z) (d_of_Z z) = true.
Proof.
  unfold is_int, INT_MIN, INT_MAX. intros Hz. destruct z as [|p|p]; [done| |].
  all: destruct (d_of_Z_repr p) as (k & _ & _ & Hr); [lia|].
  all: unfold d_of_Z, binary_normalize; rewrite Hr; split; [done|split; [done|]].
  all: unfold SFeqb; cbn; rewrite Z.compare_refl; fold (Pos.compare (Pos.iter xO p k) (Pos.iter xO p k));
    by rewrite Pos.compare_refl.
Qed.

#[export] Hint Resolve valueint_of_Z : filly.
