(* ===== verification/Float.v ===== *)
(** Rounding of binary32 products and quotients. A fraction of a small integer
    lies between zero and the integer, and an integer scaled by a quotient stays
    within the dividend, also after every operation has been rounded. *)

From Stdlib Require Import SpecFloat.
From S2P Require Import Prelude Double.

(** [iter_pos] and the record of a right shift: the quotient, and whether a bit
    was lost. *)
Definition shifted (x : Z) (k : Z) (r : shr_record) : Prop :=
  shr_m r = x / 2 ^ k /\ (shr_r r || shr_s r = true -> x mod 2 ^ k <> 0).

Lemma shr_1_shifted x k r : 0 <= x -> 0 <= k -> shifted x k r -> shifted x (k + 1) (shr_1 r).
Proof.
  unfold shifted. intros Hx Hk [Hm Hl]. destruct r as [m r s]. cbn [shr_m shr_r shr_s] in *. subst m.
  assert (0 <= x / 2 ^ k) as H0 by (apply Z.div_pos; [done|]; apply Z.pow_pos_nonneg; lia).
  assert (x / 2 ^ (k + 1) = x / 2 ^ k / 2) as Hd by (rewrite Z.pow_add_r, Z.div_div by lia; done).
  assert (x mod 2 ^ (k + 1) = 2 ^ k * ((x / 2 ^ k) mod 2) + x mod 2 ^ k) as Hmod by (rewrite Z.pow_add_r, Z.rem_mul_r by lia; change (2 ^ 1) with 2; lia).
  assert (0 < 2 ^ k) as Hp by (apply Z.pow_pos_nonneg; lia). pose proof (Z.mod_pos_bound x (2 ^ k) Hp).
  rewrite Hd, Hmod. clear Hd Hmod. revert H0. generalize (x / 2 ^ k). intros m H0. unfold shr_1.
  destruct m as [|[p|p|]|p]; cbn [shr_m shr_r shr_s]; [| | | |lia].
  - split; [done|]. intros Hs. specialize (Hl Hs). change (0 mod 2) with 0. lia.
  - split; [rewrite Pos2Z.inj_xI; Z.div_mod_to_equations; lia|]. intros _. replace (Z.pos p~1 mod 2) with 1 by (rewrite Pos2Z.inj_xI; Z.div_mod_to_equations; lia). lia.
  - split; [rewrite Pos2Z.inj_xO; Z.div_mod_to_equations; lia|]. cbn. intros Hs. specialize (Hl Hs). replace (Z.pos p~0 mod 2) with 0 by (rewrite Pos2Z.inj_xO; Z.div_mod_to_equations; lia). lia.
  - split; [done|]. intros _. change (1 mod 2) with 1. lia.
Qed.
Lemma iter_shifted x p : 0 <= x -> forall k r, 0 <= k -> shifted x k r -> shifted x (k + Z.pos p) (SpecFloat.iter_pos shr_1 p r).
Proof.
  intros Hx. induction p as [p IH|p IH|]; intros k r Hk Hr; cbn [SpecFloat.iter_pos].
  - replace (k + Z.pos p~1) with (k + 1 + Z.pos p + Z.pos p) by lia. apply IH; [lia|]. apply IH; [lia|]. by apply shr_1_shifted.
  - replace (k + Z.pos p~0) with (k + Z.pos p + Z.pos p) by lia. apply IH; [lia|]. by apply IH.
  - by apply shr_1_shifted.
Qed.

(** A shift to 24 bits of a number of at most [n] in units of [2 ^ e]; [n]
    counts units of [2 ^ - j]. *)
Lemma shr_fexp_spec j x e n : 0 <= j <= 100 -> 0 <= x -> e <= - j -> x <= n * 2 ^ (- j - e) -> n < 2 ^ 24 ->
  exists r e', shr_fexp f_prec f_emax x e loc_Exact = (r, e') /\ e <= e' <= - j /\ shifted x (e' - e) r.
Proof.
  intros Hj Hx He Hn Hb. unfold shr_fexp, shr. cbn [shr_record_of_loc]. set (k := fexp f_prec f_emax (Zdigits2 x + e) - e).
  assert (shifted x 0 {| shr_m := x; shr_r := false; shr_s := false |}) as H0 by (split; cbn; [by rewrite Z.div_1_r|done]).
  destruct k as [|p|p] eqn:Ek; [exists {| shr_m := x; shr_r := false; shr_s := false |}, e; rewrite Z.sub_diag; by split_and!| |exists {| shr_m := x; shr_r := false; shr_s := false |}, e; rewrite Z.sub_diag; by split_and!].
  exists (SpecFloat.iter_pos shr_1 p {| shr_m := x; shr_r := false; shr_s := false |}), (e + Z.pos p). split; [done|].
  split; [|replace (e + Z.pos p - e) with (0 + Z.pos p) by lia; by apply iter_shifted]. split; [lia|].
  destruct (Z.le_gt_cases (e + Z.pos p) (- j)) as [|Hpos]; [done|exfalso].
  assert (Zdigits2 x + e - 24 = e + Z.pos p) as Hf by (unfold k, fexp, emin, f_prec, f_emax in Ek; lia).
  destruct x as [|q|q]; cbn [Zdigits2] in Hf; [lia| |lia]. pose proof (digits2_bounds q) as [Hl _].
  assert (2 ^ (24 + (- j - e)) <= 2 ^ (Z.pos (digits2_pos q) - 1)) as H1 by (apply Z.pow_le_mono_r; lia).
  rewrite Z.pow_add_r in H1 by lia. assert (0 < 2 ^ (- j - e)) by (apply Z.pow_pos_nonneg; lia). nia.
Qed.

Lemma round_up x k n r : 0 <= x -> 0 <= k -> x <= n * 2 ^ k -> shifted x k r ->
  0 <= round_nearest_even (shr_m r) (loc_of_shr_record r) <= n.
Proof.
  intros Hx Hk Hn [Hm Hl]. assert (0 < 2 ^ k) as Hp by (apply Z.pow_pos_nonneg; lia).
  assert (0 <= x / 2 ^ k <= n) as Hq by (split; [apply Z.div_pos; lia|apply Z.div_le_upper_bound; lia]).
  assert (shr_r r || shr_s r = true -> x / 2 ^ k < n) as Hlt.
  { intros Hrs. specialize (Hl Hrs). apply Z.div_lt_upper_bound; [done|]. destruct (Z.eq_dec x (n * 2 ^ k)) as [->|]; [by rewrite Z.mod_mul in Hl by lia|lia]. }
  rewrite <-Hm in *. destruct r as [m [] []]; cbn [shr_m shr_r shr_s loc_of_shr_record round_nearest_even] in *; try specialize (Hlt eq_refl); [lia|destruct (Z.even m); lia|lia|lia].
Qed.

(** The rounded value of [m * 2 ^ e], when that is at most [n * 2 ^ - j]. *)
Lemma round_trunc_half j s m e n : 0 <= j <= 100 -> e <= - j -> Z.pos m <= n * 2 ^ (- j - e) -> n < 2 ^ 24 ->
  exists z, sf_trunc (binary_round_aux f_prec f_emax s (Z.pos m) e loc_Exact) = Some (if s then - z else z) /\ 0 <= z <= n / 2 ^ j.
Proof.
  intros Hj He Hm Hn. destruct (shr_fexp_spec j (Z.pos m) e n) as (r1 & e1 & E1 & He1 & Hs1); try done.
  unfold binary_round_aux. rewrite E1. set (q := round_nearest_even _ _).
  assert (0 <= q <= n * 2 ^ (- j - e1)) as Hq.
  { apply (round_up (Z.pos m) (e1 - e)); [lia|lia| |done]. rewrite <-Z.mul_assoc, <-Z.pow_add_r by lia. by replace (- j - e1 + (e1 - e)) with (- j - e) by lia. }
  clearbody q. destruct (shr_fexp_spec j q e1 n) as (r2 & e2 & E2 & He2 & [Hs2 _]); try lia. rewrite E2, Hs2.
  assert (0 < 2 ^ (e2 - e1)) as Hp by (apply Z.pow_pos_nonneg; lia).
  assert (0 <= q / 2 ^ (e2 - e1) <= n * 2 ^ (- j - e2)) as Hz.
  { split; [apply Z.div_pos; lia|]. apply Z.div_le_upper_bound; [done|].
    replace (2 ^ (e2 - e1) * (n * 2 ^ (- j - e2))) with (n * 2 ^ (- j - e1)); [lia|]. replace (- j - e1) with ((e2 - e1) + (- j - e2)) by lia. rewrite Z.pow_add_r by lia. lia. }
  assert (0 < 2 ^ j) as Hp3 by (apply Z.pow_pos_nonneg; lia). assert (0 < 2 ^ (- j - e2)) as Hp2 by (apply Z.pow_pos_nonneg; lia).
  destruct (q / 2 ^ (e2 - e1)) as [|p|p]; [exists 0; cbn; assert (0 <= n / 2 ^ j) by (apply Z.div_pos; nia); by destruct s| |lia].
  rewrite (proj2 (Z.leb_le e2 _)) by (unfold f_emax, f_prec; lia). cbn [sf_trunc].
  destruct (Z.ltb_spec e2 0).
  - exists (Z.pos p / 2 ^ (- e2)). split; [done|]. assert (2 ^ (- e2) = 2 ^ (- j - e2) * 2 ^ j) as E by (rewrite <-Z.pow_add_r by lia; f_equal; lia).
    split; [apply Z.div_pos; lia|]. rewrite E, <-Z.div_div by lia. apply Z.div_le_mono; [done|]. apply Z.div_le_upper_bound; lia.
  - replace e2 with 0 in * by lia. replace j with 0 in * by lia. exists (Z.pos p * 2 ^ 0). split; [done|]. change (2 ^ (- 0 - 0)) with 1 in Hz. change (2 ^ 0) with 1. rewrite Z.div_1_r. lia.
Qed.
Lemma round_trunc s m e n : e <= 0 -> Z.pos m <= n * 2 ^ (- e) -> n < 2 ^ 24 ->
  exists z, sf_trunc (binary_round_aux f_prec f_emax s (Z.pos m) e loc_Exact) = Some (if s then - z else z) /\ 0 <= z <= n.
Proof.
  intros He Hm Hn. destruct (round_trunc_half 0 s m e n) as (z & E & Hz); [lia|lia|done|done|]. exists z. rewrite Z.div_1_r in Hz. done.
Qed.

(** ** Fractions of small integers *)

Lemma round_canonical s m e : fexp f_prec f_emax (Z.pos (digits2_pos m) + e) = e -> e <= 0 ->
  binary_round_aux f_prec f_emax s (Z.pos m) e loc_Exact = S754_finite s m e.
Proof.
  intros Hc He. unfold binary_round_aux, shr_fexp. cbn [shr_record_of_loc Zdigits2]. rewrite Hc, Z.sub_diag.
  cbn [shr loc_of_shr_record shr_m round_nearest_even Zdigits2 shr_record_of_loc]. rewrite Hc, Z.sub_diag. cbn [shr shr_m].
  by rewrite (proj2 (Z.leb_le e _)) by (unfold f_emax, f_prec; lia).
Qed.
Lemma f_round_int s p : Z.pos p < 2 ^ 24 -> exists q e, binary_round f_prec f_emax s p 0 = S754_finite s q e /\ e <= 0 /\ Z.pos q = Z.pos p * 2 ^ (- e).
Proof.
  intros Hp. pose proof (digits2_le p 24 ltac:(lia) Hp) as Hd. unfold binary_round, shl_align.
  replace (fexp f_prec f_emax (Z.pos (digits2_pos p) + 0) - 0) with (Z.pos (digits2_pos p) - 24) by (unfold fexp, emin, f_prec, f_emax; lia).
  destruct (Z.pos (digits2_pos p) - 24) as [|k|k] eqn:Ek; [|lia|].
  - exists p, 0. split; [apply round_canonical; [unfold fexp, emin, f_prec, f_emax; lia|lia]|]. split; [lia|]. cbn. lia.
  - replace (fexp f_prec f_emax (Z.pos (digits2_pos p) + 0)) with (Z.neg k) by (unfold fexp, emin, f_prec, f_emax; lia).
    exists (Pos.iter xO p k), (Z.neg k). split; [apply round_canonical; [rewrite digits2_iter; unfold fexp, emin, f_prec, f_emax; lia|lia]|].
    split; [lia|]. by rewrite pos_iter_xO.
Qed.

(** Zero, or a positive value below one. *)
Definition fraction (t : float) : Prop :=
  match t with S754_finite false m e => e <= 0 /\ Z.pos m <= 2 ^ (- e) | _ => False end.
Lemma f_mul_fraction n t : fraction t -> - 2 ^ 24 < n < 2 ^ 24 -> Z.min 0 n <= f_to_int (f_mul (f_of_Z n) t) <= Z.max 0 n.
Proof.
  destruct t as [| | |[] m e]; [done..|]. intros [He Hm] Hn.
  assert (forall s p, Z.pos p < 2 ^ 24 -> exists z, sf_trunc (f_mul (binary_round f_prec f_emax s p 0) (S754_finite false m e)) = Some (if s then - z else z) /\ 0 <= z <= Z.pos p) as H.
  { intros s p Hp. destruct (f_round_int s p Hp) as (q & e1 & -> & He1 & Hq). unfold f_mul, SFmul. rewrite xorb_false_r. apply round_trunc; [lia| |done].
    rewrite Pos2Z.inj_mul, Hq, Z.opp_add_distr, Z.pow_add_r by lia. assert (0 <= 2 ^ (- e1)) by (apply Z.pow_nonneg; lia). nia. }
  unfold f_to_int, f_of_Z, binary_normalize. destruct n as [|p|p].
  - cbn. rewrite bool_decide_true by (unfold is_int, INT_MIN, INT_MAX; lia). lia.
  - destruct (H false p) as (z & -> & Hz); [lia|]. rewrite bool_decide_true by (unfold is_int, INT_MIN, INT_MAX; lia). lia.
  - destruct (H true p) as (z & -> & Hz); [lia|]. rewrite bool_decide_true by (unfold is_int, INT_MIN, INT_MAX; lia). lia.
Qed.

(** A binary32 value strictly between zero and one. *)
Lemma between_fraction t : valid_binary f_prec f_emax t = true -> d_isnan t = false ->
  SFleb t f_zero = false -> SFleb (f_lit 1 0) t = false -> fraction t.
Proof.
  change (f_lit 1 0) with (S754_finite false 8388608 (-23)). destruct t as [|[]| |[] m e]; try done.
  cbn [valid_binary]. unfold bounded, canonical_mantissa. intros Hv _ _ Hlt. simp_bool. pose proof (digits2_bounds m) as [_ Hu].
  assert (Z.pos (digits2_pos m) <= 24) as Hd by (unfold fexp, emin, f_prec, f_emax in *; lia).
  assert (2 ^ Z.pos (digits2_pos m) <= 2 ^ 24) as H24 by (apply Z.pow_le_mono_r; lia).
  unfold SFleb, SFcompare in Hlt. unfold fraction. destruct (-23 ?= e) eqn:E.
  - apply Z.compare_eq in E. subst e. split; [lia|]. change (Pos.compare_cont Eq 8388608 m) with (8388608 ?= m)%positive in Hlt.
    destruct (8388608 ?= m)%positive eqn:Em; try done. apply Pos.compare_gt_iff in Em. change (2 ^ (- (-23))) with 8388608. apply Pos2Z.pos_lt_pos in Em. clear - Em. lia.
  - done.
  - change (-23 > e) in E. split; [lia|]. assert (2 ^ 24 <= 2 ^ (- e)) by (apply Z.pow_le_mono_r; lia). lia.
Qed.

(** ** Quotients of small integers *)

Lemma digits_between n k : 0 <= k -> 2 ^ k <= n < 2 ^ (k + 1) -> Zdigits2 n = k + 1.
Proof.
  intros Hk Hn. assert (0 < 2 ^ k) by (apply Z.pow_pos_nonneg; lia). destruct n as [|p|p]; [lia| |lia]. cbn [Zdigits2]. pose proof (digits2_bounds p) as [Hl Hu].
  destruct (Z.lt_trichotomy (Z.pos (digits2_pos p)) (k + 1)) as [Hlt|[E|Hgt]]; [|done|].
  - assert (2 ^ Z.pos (digits2_pos p) <= 2 ^ k) by (apply Z.pow_le_mono_r; lia). lia.
  - assert (2 ^ (k + 1) <= 2 ^ (Z.pos (digits2_pos p) - 1)) by (apply Z.pow_le_mono_r; lia). lia.
Qed.
Lemma shr_m_of_loc m l : shr_m (shr_record_of_loc m l) = m.
Proof. by destruct l as [|[]]. Qed.
Lemma round_even_or_up m l : round_nearest_even m l = m \/ round_nearest_even m l = m + 1.
Proof. destruct l as [|[]]; cbn; auto. destruct (Z.even m); auto. Qed.

(** The second half of rounding, after the mantissa was rounded. *)
Lemma finish_round n e : 2 ^ 23 <= n <= 2 ^ 24 -> -125 <= e <= 0 -> exists m e',
  (let '(r, e'') := shr_fexp f_prec f_emax n e loc_Exact in
   match shr_m r with Z0 => S754_zero false | Zpos m => if e'' <=? f_emax - f_prec then S754_finite false m e'' else S754_infinity false | _ => S754_nan end)
  = S754_finite false m e' /\ 2 ^ 23 <= Z.pos m < 2 ^ 24 /\ e <= e' <= e + 1 /\ Z.pos m * 2 ^ (e' - e) = n.
Proof.
  intros Hn He. unfold shr_fexp. destruct (Z.eq_dec n (2 ^ 24)) as [->|Hlt].
  - rewrite (digits_between (2 ^ 24) 24) by lia. replace (fexp f_prec f_emax (24 + 1 + e) - e) with 1 by (unfold fexp, emin, f_prec, f_emax; lia).
    exists (2 ^ 23)%positive, (e + 1). cbn [shr shr_record_of_loc]. change (shr_m (SpecFloat.iter_pos shr_1 1 {| shr_m := 2 ^ 24; shr_r := false; shr_s := false |})) with (Z.pos (2 ^ 23)).
    rewrite (proj2 (Z.leb_le (e + 1) _)) by (unfold f_emax, f_prec; lia). split; [done|]. replace (e + 1 - e) with 1 by lia. split_and!; try done; lia.
  - rewrite (digits_between n 23) by lia. replace (fexp f_prec f_emax (23 + 1 + e) - e) with 0 by (unfold fexp, emin, f_prec, f_emax; lia).
    destruct n as [|p|p]; [lia| |lia]. exists p, e. cbn [shr shr_record_of_loc shr_m]. rewrite (proj2 (Z.leb_le e _)) by (unfold f_emax, f_prec; lia).
    split; [done|]. rewrite Z.sub_diag. split_and!; lia.
Qed.
Lemma round_quotient q e l : 2 ^ 23 <= q < 2 ^ 25 -> -125 <= e <= -1 -> exists m e',
  binary_round_aux f_prec f_emax false q e l = S754_finite false m e' /\ 2 ^ 23 <= Z.pos m < 2 ^ 24 /\ e <= e' <= e + 2 /\
  Z.pos m * 2 ^ (e' - e) * 2 ^ 23 <= q * (2 ^ 23 + 1).
Proof.
  intros Hq He. unfold binary_round_aux. unfold shr_fexp at 1. destruct (Z.lt_ge_cases q (2 ^ 24)) as [Hs|Hb].
  - rewrite (digits_between q 23) by lia. replace (fexp f_prec f_emax (23 + 1 + e) - e) with 0 by (unfold fexp, emin, f_prec, f_emax; lia).
    cbn [shr]. rewrite shr_m_of_loc. destruct (round_even_or_up q (loc_of_shr_record (shr_record_of_loc q l))) as [-> | ->];
      (destruct (finish_round q e) as (m & e' & E & Hm & He' & Hv) || idtac); try lia.
    + exists m, e'. rewrite E. split_and!; try done; try lia.
    + destruct (finish_round (q + 1) e) as (m2 & e2 & E2 & Hm2 & He2 & Hv2); try lia. exists m2, e2. rewrite E2. split_and!; try done; try lia.
  - rewrite (digits_between q 24) by lia. replace (fexp f_prec f_emax (24 + 1 + e) - e) with 1 by (unfold fexp, emin, f_prec, f_emax; lia).
    cbn [shr SpecFloat.iter_pos]. assert (shr_m (shr_1 (shr_record_of_loc q l)) = q / 2) as Hh.
    { pose proof (shr_m_of_loc q l) as E. destruct (shr_record_of_loc q l) as [x r s]. cbn [shr_m] in E. subst x. unfold shr_1.
      destruct q as [|[p|p|]|p]; cbn [shr_m]; try lia; [rewrite Pos2Z.inj_xI|rewrite Pos2Z.inj_xO]; Z.div_mod_to_equations; lia. }
    rewrite Hh. set (l' := loc_of_shr_record _). clearbody l'. clear Hh.
    assert (exists n, round_nearest_even (q / 2) l' = n /\ 2 ^ 23 <= n <= 2 ^ 24 /\ 2 * n <= q + 2) as (n & -> & Hn & Hn2).
    { eexists. split; [done|]. destruct (round_even_or_up (q / 2) l') as [-> | ->]; Z.div_mod_to_equations; lia. }
    destruct (finish_round n (e + 1)) as (m & e' & E & Hm & He' & Hv); [lia..|]. exists m, e'. rewrite E. split_and!; try done; try lia.
    replace (e' - e) with (e' - (e + 1) + 1) by lia. rewrite Z.pow_add_r by lia. change (2 ^ 1) with 2. nia.
Qed.

(** The binary32 data of a positive integer below [2 ^ 24]. *)
Lemma f_small p : Z.pos p < 2 ^ 24 -> exists m e, f_of_Z (Z.pos p) = S754_finite false m e /\ -23 <= e <= 0 /\
  Z.pos m = Z.pos p * 2 ^ (- e) /\ 2 ^ 23 <= Z.pos m < 2 ^ 24.
Proof.
  intros Hp. pose proof (digits2_le p 24 ltac:(lia) Hp) as Hd. pose proof (digits2_bounds p) as [Hl Hu].
  destruct (f_round_int false p Hp) as (m & e & E & He & Hm). exists m, e. 
  assert (e = Z.pos (digits2_pos p) - 24) as ->.
  { revert E. unfold binary_round, shl_align.
    replace (fexp f_prec f_emax (Z.pos (digits2_pos p) + 0)) with (Z.pos (digits2_pos p) - 24) by (unfold fexp, emin, f_prec, f_emax; lia). rewrite Z.sub_0_r.
    destruct (Z.pos (digits2_pos p) - 24) as [|k|k] eqn:Ek; [|lia|];
      (rewrite round_canonical; [intros [= _ <-]; done| |lia]); rewrite ?digits2_iter; unfold fexp, emin, f_prec, f_emax; lia. }
  split; [exact E|]. split; [lia|]. split; [done|]. rewrite Hm.
  assert (2 ^ 23 = 2 ^ (Z.pos (digits2_pos p) - 1) * 2 ^ (- (Z.pos (digits2_pos p) - 24))) as -> by (rewrite <-Z.pow_add_r by lia; f_equal; lia).
  assert (2 ^ 24 = 2 ^ Z.pos (digits2_pos p) * 2 ^ (- (Z.pos (digits2_pos p) - 24))) as -> by (rewrite <-Z.pow_add_r by lia; f_equal; lia).
  assert (0 < 2 ^ (- (Z.pos (digits2_pos p) - 24))) by (apply Z.pow_pos_nonneg; lia). nia.
Qed.

(** A quotient is at most one part in [2 ^ 23] above the rational. *)
Lemma f_quotient p q : Z.pos p < 2 ^ 24 -> Z.pos q < 2 ^ 24 -> exists m e, f_div (f_of_Z (Z.pos p)) (f_of_Z (Z.pos q)) = S754_finite false m e /\
  2 ^ 23 <= Z.pos m < 2 ^ 24 /\ -47 <= e <= 1 /\ Z.pos m * Z.pos q * 2 ^ (e + 47) * 2 ^ 23 <= Z.pos p * 2 ^ 47 * (2 ^ 23 + 1).
Proof.
  intros Hp Hq. destruct (f_small p Hp) as (m1 & e1 & -> & He1 & Hm1 & Hn1). destruct (f_small q Hq) as (m2 & e2 & -> & He2 & Hm2 & Hn2).
  unfold f_div, SFdiv, SFdiv_core_binary. rewrite !(digits_between (Z.pos _) 23) by lia.
  replace (Z.min (fexp f_prec f_emax (23 + 1 + e1 - (23 + 1 + e2))) (e1 - e2)) with (e1 - e2 - 24) by (unfold fexp, emin, f_prec, f_emax; lia).
  cbv zeta. replace (e1 - e2 - (e1 - e2 - 24)) with 24 by lia. cbv iota. rewrite Z.shiftl_mul_pow2 by lia.
  pose proof (Z_div_mod (Z.pos m1 * 2 ^ 24) (Z.pos m2) ltac:(lia)) as Hdiv. destruct (Z.div_eucl _ _) as [k r]. destruct Hdiv as [Hk Hr].
  assert (2 ^ 23 <= k < 2 ^ 25) as Hkr by nia. cbn [xorb].
  destruct (round_quotient k (e1 - e2 - 24) (new_location (Z.pos m2) r) Hkr) as (m & e & -> & Hm & He & Hv); [lia|].
  exists m, e. split; [done|]. split; [done|]. split; [lia|].
  set (d := e - (e1 - e2 - 24)) in *. assert (0 <= d) by lia.
  assert (Z.pos m * 2 ^ d * 2 ^ 23 * Z.pos m2 <= Z.pos m1 * 2 ^ 24 * (2 ^ 23 + 1)) as Hb by nia.
  rewrite Hm1, Hm2 in Hb. clear Hv Hk Hr Hkr Hm1 Hm2 Hn1 Hn2.
  assert (2 ^ (e + 47) * (2 ^ (- e1) * 2 ^ 24) = 2 ^ d * 2 ^ (- e2) * 2 ^ 47) as E by (rewrite <-!Z.pow_add_r by lia; f_equal; lia).
  assert (0 < 2 ^ (- e1)) by (apply Z.pow_pos_nonneg; lia). assert (0 < 2 ^ 24 * 2 ^ (- e1)) as H2 by lia.
  apply (Z.mul_le_mono_pos_r _ _ _ H2).
  replace (Z.pos m * Z.pos q * 2 ^ (e + 47) * 2 ^ 23 * (2 ^ 24 * 2 ^ (- e1))) with (Z.pos m * Z.pos q * 2 ^ 23 * (2 ^ (e + 47) * (2 ^ (- e1) * 2 ^ 24))) by ring.
  rewrite E. replace (Z.pos m * Z.pos q * 2 ^ 23 * (2 ^ d * 2 ^ (- e2) * 2 ^ 47)) with (Z.pos m * 2 ^ d * 2 ^ 23 * (Z.pos q * 2 ^ (- e2)) * 2 ^ 47) by ring.
  replace (Z.pos p * 2 ^ 47 * (2 ^ 23 + 1) * (2 ^ 24 * 2 ^ (- e1))) with (Z.pos p * 2 ^ (- e1) * 2 ^ 24 * (2 ^ 23 + 1) * 2 ^ 47) by ring.
  apply Z.mul_le_mono_nonneg_r; [lia|exact Hb].
Qed.

(** A normal positive value. *)
Definition normal (x : float) : Prop := match x with S754_finite false m e => 2 ^ 23 <= Z.pos m < 2 ^ 24 /\ -47 <= e <= 1 | _ => False end.
(** Its size in units of [2 ^ -47], and the order of the sizes. *)
Definition units (x : float) : Z := match x with S754_finite _ m e => Z.pos m * 2 ^ (e + 47) | _ => 0 end.
Lemma f_ltb_units x y : normal x -> normal y -> SFltb x y = (units x <? units y).
Proof.
  destruct x as [| | |[] m e], y as [| | |[] m' e']; try done. cbn [normal units]. intros [Hm He] [Hm' He'].
  assert (forall m e m' e', 2 ^ 23 <= m < 2 ^ 24 -> 2 ^ 23 <= m' < 2 ^ 24 -> -47 <= e -> e < e' -> m * 2 ^ (e + 47) < m' * 2 ^ (e' + 47)) as Hlt.
  { clear. intros m e m' e' Hm Hm' He Hl. assert (2 * 2 ^ (e + 47) <= 2 ^ (e' + 47)) as H by (rewrite <-Z.pow_succ_r by lia; apply Z.pow_le_mono_r; lia).
    assert (0 < 2 ^ (e + 47)) by (apply Z.pow_pos_nonneg; lia). nia. }
  unfold SFltb, SFcompare. destruct (Z.compare_spec e e') as [<-|Hl|Hg].
  - assert (0 < 2 ^ (e + 47)) as Hp by (apply Z.pow_pos_nonneg; lia). change (Pos.compare_cont Eq m m') with (m ?= m')%positive.
    destruct (Pos.compare_spec m m') as [->|H|H]; symmetry; [by rewrite Z.ltb_irrefl|apply Z.ltb_lt; nia|apply Z.ltb_ge; nia].
  - symmetry. apply Z.ltb_lt. apply Hlt; lia.
  - symmetry. apply Z.ltb_ge. apply Z.lt_le_incl. apply Hlt; lia.
Qed.

(** An integer scaled by at most the quotient [p / q] does not grow past [p]. *)
Lemma f_scaled p q s : Z.pos p < 2 ^ 22 -> Z.pos q < 2 ^ 24 -> normal s -> units s <= units (f_div (f_of_Z (Z.pos p)) (f_of_Z (Z.pos q))) ->
  0 <= f_to_int (f_mul (f_of_Z (Z.pos q)) s) <= Z.pos p.
Proof.
  intros Hp Hq. destruct (f_quotient p q) as (m & e & -> & Hm & He & Hv); [lia|done|]. destruct s as [| | |[] ms es]; try done.
  cbn [normal units]. intros [Hms Hes] Hu. destruct (f_small q Hq) as (mq & eq & -> & Heq & Hmq & Hnq).
  unfold f_mul, SFmul. cbn [xorb].
  assert (Z.pos ms * Z.pos q * 2 ^ (es + 47) * 2 ^ 23 <= Z.pos p * 2 ^ 47 * (2 ^ 23 + 1)) as Hb.
  { assert (0 < 2 ^ (es + 47)) by (apply Z.pow_pos_nonneg; lia). assert (0 < 2 ^ (e + 47)) by (apply Z.pow_pos_nonneg; lia). nia. }
  clear Hv Hu Hm He m e.
  assert (eq + es <= -1) as Hneg.
  { destruct (Z.le_gt_cases (eq + es) (-1)) as [|Hc]; [done|exfalso].
    assert (2 ^ (es + 47) * 2 ^ 23 >= 2 ^ 47 * 2 ^ (23 + es)) as _ by (rewrite <-!Z.pow_add_r by lia; replace (es + 47 + 23) with (47 + (23 + es)) by lia; lia).
    assert (2 ^ (- eq) * 2 ^ 47 <= 2 ^ (es + 47)) as H1 by (rewrite <-Z.pow_add_r by lia; apply Z.pow_le_mono_r; lia).
    assert (0 < 2 ^ (- eq)) by (apply Z.pow_pos_nonneg; lia).
    assert (Z.pos ms * (Z.pos mq * 2 ^ 47) * 2 ^ 23 <= Z.pos p * 2 ^ 47 * (2 ^ 23 + 1)) as H2 by (rewrite Hmq; nia). nia. }
  destruct (round_trunc_half 1 false (mq * ms) (eq + es) (2 * Z.pos p + 1)) as (z & E & Hz); [lia|lia| |lia|].
  - rewrite Pos2Z.inj_mul, Hmq. set (k := - 1 - (eq + es)).
    assert (2 ^ (- eq) * 2 ^ 48 = 2 ^ k * 2 ^ (es + 47) * 2 ^ 2) as E by (rewrite <-!Z.pow_add_r by lia; f_equal; lia).
    assert (0 < 2 ^ k) by (apply Z.pow_pos_nonneg; lia).
    assert (Z.pos q * Z.pos ms * 2 ^ (es + 47) <= Z.pos p * 2 ^ 47 + 2 ^ 46) as Hb2 by nia. clear Hb Hmq Hnq.
    assert (Z.pos q * 2 ^ (- eq) * Z.pos ms * 2 ^ 48 <= (2 * Z.pos p + 1) * 2 ^ k * 2 ^ 48) as H2; [|by apply (Z.mul_le_mono_pos_r _ _ (2 ^ 48)) in H2].
    replace (Z.pos q * 2 ^ (- eq) * Z.pos ms * 2 ^ 48) with (Z.pos q * Z.pos ms * (2 ^ (- eq) * 2 ^ 48)) by ring. rewrite E.
    replace (Z.pos q * Z.pos ms * (2 ^ k * 2 ^ (es + 47) * 2 ^ 2)) with (Z.pos q * Z.pos ms * 2 ^ (es + 47) * (2 ^ k * 2 ^ 2)) by ring. nia.
  - unfold f_to_int. rewrite E. assert ((2 * Z.pos p + 1) / 2 ^ 1 = Z.pos p) as Hd by (change (2 ^ 1) with 2; Z.div_mod_to_equations; lia).
    rewrite Hd in Hz. rewrite bool_decide_true by (unfold is_int, INT_MIN, INT_MAX; lia). lia.
Qed.
