(* ===== verification/CJson.v ===== *)
(** The JSON tree of src/src/cJSON.c and cJSON.h: the item structure, the
    constructors, the accessors, deep copy and detaching. An item's children
    are a list in place of the [next]/[prev] links; memory is not modelled, so
    [cJSON_Delete] has no counterpart and allocation succeeds. *)

From Stdlib Require Import SpecFloat.
From S2P Require Import Prelude Double.

(** The [#define]d type codes; the flags [cJSON_IsReference] and
    [cJSON_StringIsConst] are never set by the functions of the file. *)
Inductive cJSON_type :=
  | cJSON_Invalid | cJSON_False | cJSON_True | cJSON_NULL | cJSON_Number
  | cJSON_String | cJSON_Array | cJSON_Object.
#[global] Instance cJSON_type_eq_dec : EqDecision cJSON_type.
Proof. solve_decision. Defined.

Definition type_code (t : cJSON_type) : Z :=
  match t with
  | cJSON_Invalid => 0 | cJSON_False => 1 | cJSON_True => 2 | cJSON_NULL => 4
  | cJSON_Number => 8 | cJSON_String => 16 | cJSON_Array => 32 | cJSON_Object => 64
  end.

(** [key] is the C field [string]: the name of the item in its object. *)
Inductive cJSON := Item {
  type : cJSON_type;
  valuestring : option string;
  valueint : Z;
  valuedouble : double;
  key : option string;
  child : list cJSON
}.

Section cJSON_ind.
Variable P : cJSON -> Prop.
Hypothesis HItem : forall t vs vi vd k ch, Forall P ch -> P (Item t vs vi vd k ch).
Fixpoint cJSON_ind' (i : cJSON) : P i :=
  match i with
  | Item t vs vi vd k ch =>
      HItem t vs vi vd k ch
        ((fix go l : Forall P l :=
            match l with [] => Forall_nil_2 P | x :: l' => Forall_cons_2 P x l' (cJSON_ind' x) (go l') end) ch)
  end.
End cJSON_ind.

(** ** Items *)

Definition cJSON_New_Item : cJSON := Item cJSON_Invalid None 0 (S754_zero false) None [].

Definition set_type (t : cJSON_type) (i : cJSON) : cJSON :=
  Item t (valuestring i) (valueint i) (valuedouble i) (key i) (child i).
Definition set_key (k : option string) (i : cJSON) : cJSON :=
  Item (type i) (valuestring i) (valueint i) (valuedouble i) k (child i).
Definition set_child (ch : list cJSON) (i : cJSON) : cJSON :=
  Item (type i) (valuestring i) (valueint i) (valuedouble i) (key i) ch.
Definition set_string (s : option string) (i : cJSON) : cJSON :=
  Item (type i) s (valueint i) (valuedouble i) (key i) (child i).
Definition set_number (vi : Z) (vd : double) (i : cJSON) : cJSON :=
  Item (type i) (valuestring i) vi vd (key i) (child i).

Definition cJSON_CreateNull : cJSON := set_type cJSON_NULL cJSON_New_Item.
Definition cJSON_CreateTrue : cJSON := set_type cJSON_True cJSON_New_Item.
Definition cJSON_CreateFalse : cJSON := set_type cJSON_False cJSON_New_Item.
Definition cJSON_CreateBool (b : bool) : cJSON :=
  set_type (if b then cJSON_True else cJSON_False) cJSON_New_Item.
Definition cJSON_CreateNumber (num : double) : cJSON :=
  set_number (d_to_valueint num) num (set_type cJSON_Number cJSON_New_Item).
(** [cJSON_strdup(NULL)] is NULL, and the item is then given back. *)
Definition cJSON_CreateString (s : option string) : option cJSON :=
  match s with
  | Some v => Some (set_string (Some v) (set_type cJSON_String cJSON_New_Item))
  | None => None
  end.
Definition cJSON_CreateArray : cJSON := set_type cJSON_Array cJSON_New_Item.
Definition cJSON_CreateObject : cJSON := set_type cJSON_Object cJSON_New_Item.

(** ** Adding children

    The result of the C functions is whether the item was added; here [None]
    stands for "not added, the parent is unchanged". *)
Definition add_item_to_array (array : cJSON) (item : option cJSON) : option cJSON :=
  match item with
  | None => None
  | Some i => Some (set_child (child array ++ [i]) array)
  end.
Definition cJSON_AddItemToArray (array : cJSON) (item : option cJSON) : cJSON :=
  default array (add_item_to_array array item).

Definition add_item_to_object (object : cJSON) (name : string) (item : option cJSON) : option cJSON :=
  match item with
  | None => None
  | Some i => add_item_to_array object (Some (set_key (Some name) i))
  end.
Definition cJSON_AddItemToObject (object : cJSON) (name : string) (item : option cJSON) : cJSON :=
  default object (add_item_to_object object name item).
Definition cJSON_AddStringToObject (object : cJSON) (name : string) (s : option string) : cJSON :=
  default object (add_item_to_object object name (cJSON_CreateString s)).
Definition cJSON_AddNumberToObject (object : cJSON) (name : string) (num : double) : cJSON :=
  default object (add_item_to_object object name (Some (cJSON_CreateNumber num))).
Definition cJSON_AddBoolToObject (object : cJSON) (name : string) (b : bool) : cJSON :=
  default object (add_item_to_object object name (Some (cJSON_CreateBool b))).
Definition cJSON_AddNullToObject (object : cJSON) (name : string) : cJSON :=
  default object (add_item_to_object object name (Some cJSON_CreateNull)).

(** [cJSON_AddNumberToObject(o, name, n)] for an [int] argument [n]. *)
Definition AddInt (o : cJSON) (name : string) (n : Z) : cJSON := cJSON_AddNumberToObject o name (d_of_Z n).

Definition cJSON_CreateStringArray (strings : list (option string)) : cJSON :=
  foldl (fun arr s => cJSON_AddItemToArray arr (cJSON_CreateString s)) cJSON_CreateArray strings.

(** ** Access *)

Definition get_array_item (array : option cJSON) (index : nat) : option cJSON :=
  match array with Some a => child a !! index | None => None end.
Definition cJSON_GetArrayItem (array : option cJSON) (index : Z) : option cJSON :=
  if index <? 0 then None else get_array_item array (Z.to_nat index).
Definition cJSON_GetArraySize (array : option cJSON) : Z :=
  match array with Some a => Z.of_nat (length (child a)) | None => 0 end.

(** The walk stops at the first child with the name, and at a child with no
    name at all. *)
Fixpoint find_child (name : string) (l : list cJSON) : option cJSON :=
  match l with
  | [] => None
  | c :: l' =>
      match key c with
      | None => None
      | Some k => if decide (name = k) then Some c else find_child name l'
      end
  end.
Definition get_object_item (object : option cJSON) (name : string) : option cJSON :=
  match object with Some o => find_child name (child o) | None => None end.
Definition cJSON_GetObjectItem (object : option cJSON) (name : string) : option cJSON :=
  get_object_item object name.

Definition type_is (t : cJSON_type) (item : option cJSON) : bool :=
  match item with Some i => bool_decide (type i = t) | None => false end.
Definition cJSON_IsString := type_is cJSON_String.
Definition cJSON_IsNumber := type_is cJSON_Number.
Definition cJSON_IsArray := type_is cJSON_Array.
Definition cJSON_IsObject := type_is cJSON_Object.
Definition cJSON_IsTrue := type_is cJSON_True.
Definition cJSON_IsFalse := type_is cJSON_False.
Definition cJSON_IsNull := type_is cJSON_NULL.
Definition cJSON_IsBool (item : option cJSON) : bool :=
  match item with Some i => negb (Z.land (type_code (type i)) (Z.lor 2 1) =? 0) | None => false end.

Definition cJSON_GetStringValue (item : option cJSON) : option string :=
  if cJSON_IsString item then item ≫= valuestring else None.
Definition cJSON_GetNumberValue (item : option cJSON) : double :=
  match item with
  | Some i => if cJSON_IsNumber item then valuedouble i else S754_nan
  | None => S754_nan
  end.

(** ** Deep copy *)

Fixpoint cJSON_Duplicate (item : cJSON) (recurse : bool) : cJSON :=
  match item with
  | Item t vs vi vd k ch =>
      Item t vs vi vd k (if recurse then map (fun c => cJSON_Duplicate c true) ch else [])
  end.

(** ** Detaching *)

Fixpoint detach_child (name : string) (l : list cJSON) : option (cJSON * list cJSON) :=
  match l with
  | [] => None
  | c :: l' =>
      match key c with
      | None => None
      | Some k =>
          if decide (name = k) then Some (c, l')
          else match detach_child name l' with Some (x, r) => Some (x, c :: r) | None => None end
      end
  end.
(** The detached item, if any, and the object without it. *)
Definition cJSON_DetachItemFromObject (object : cJSON) (name : string) : option cJSON * cJSON :=
  match detach_child name (child object) with
  | Some (x, r) => (Some x, set_child r object)
  | None => (None, object)
  end.

(** ** Properties *)

(** Every child has a name, as in any object the library builds. *)
Definition keyed (l : list cJSON) : Prop := Forall (fun c => is_Some (key c)) l.

Lemma find_child_app name l c k : keyed l -> key c = Some k ->
  find_child name (l ++ [c]) =
  match find_child name l with Some x => Some x | None => if decide (name = k) then Some c else None end.
Proof.
  intros Hl Hk. induction Hl as [|x l [kx Hx] Hl IH]; simpl.
  - by rewrite Hk.
  - rewrite Hx. destruct (decide (name = kx)); [done|]. exact IH.
Qed.

Lemma find_child_None_app name l c : keyed l -> key c = Some name ->
  find_child name l = None -> find_child name (l ++ [c]) = Some c.
Proof. intros Hl Hc Hn. rewrite (find_child_app _ _ _ _ Hl Hc), Hn. by case_decide. Qed.

Lemma child_AddItem o name i :
  child (cJSON_AddItemToObject o name (Some i)) = child o ++ [set_key (Some name) i].
Proof. done. Qed.

Lemma cJSON_Duplicate_id i : cJSON_Duplicate i true = i.
Proof.
  induction i as [t vs vi vd k ch IH] using cJSON_ind'. simpl. f_equal.
  induction IH as [|c ch Hc _ IHch]; simpl; by f_equal.
Qed.

Lemma detach_child_find name l x r :
  detach_child name l = Some (x, r) -> find_child name l = Some x /\ length l = S (length r).
Proof.
  revert r. induction l as [|c l IH]; intros r H; simpl in *; [done|].
  destruct (key c); [|done]. case_decide.
  - by injection H as <- <-.
  - destruct (detach_child name l) as [[y r']|] eqn:E; [|done].
    injection H as <- <-. destruct (IH r' eq_refl) as [-> Hl]. simpl. by rewrite Hl.
Qed.

Lemma detach_child_other name name' l x r : keyed l -> name <> name' ->
  detach_child name l = Some (x, r) -> find_child name' r = find_child name' l.
Proof.
  intros Hl Hne. revert r. induction Hl as [|c l [kc Hc] Hl IH]; intros r H; simpl in *; [done|].
  rewrite Hc in *. case_decide; subst.
  - injection H as <- <-. by case_decide.
  - destruct (detach_child name l) as [[y r']|] eqn:E; [|done].
    injection H as <- <-. simpl. rewrite Hc. case_decide; [done|]. by apply IH.
Qed.

Lemma detach_child_None name l : detach_child name l = None <-> find_child name l = None.
Proof.
  induction l as [|c l IH]; simpl; [done|]. destruct (key c); [|done].
  case_decide; [done|]. destruct (detach_child name l) as [[??]|]; naive_solver.
Qed.
