(* ===== verification/CJsonParse.v ===== *)
(** The JSON parser of src/src/cJSON.c: [cJSON_Parse] and the functions under
    it, over a NUL-terminated buffer with an offset and a nesting depth. Every
    read is an indexed access to the buffer and every write of a decoded
    string is checked against its allocation, so that "no [Fault]" is memory
    safety; loops take fuel and running out of it is [Fault Diverges]. *)

From Stdlib Require Import SpecFloat.
From S2P Require Import Prelude Double CJson.

Record parse_buffer := PB { content : list ascii; offset : nat; depth : nat }.

Definition set_offset (o : nat) (b : parse_buffer) : parse_buffer := PB (content b) o (depth b).
Definition set_depth (d : nat) (b : parse_buffer) : parse_buffer := PB (content b) (offset b) d.
Definition adv (n : nat) (b : parse_buffer) : parse_buffer := set_offset (offset b + n) b.

Definition can_read (b : parse_buffer) (size : nat) : bool := (offset b + size <=? length (content b))%nat.
Definition can_access_at_index (b : parse_buffer) (i : nat) : bool := (offset b + i <? length (content b))%nat.
Definition buffer_at_offset (b : parse_buffer) : list ascii := drop (offset b) (content b).

(** [can_access_at_index(b, 0) && buffer_at_offset(b)[0] == c]. *)
Definition peek_is (b : parse_buffer) (c : ascii) : bool :=
  match content b !! offset b with Some x => Ascii.eqb x c | None => false end.
(** [can_read(b, n) && !strncmp(buffer_at_offset(b), lit, n)]. *)
Definition starts_with (b : parse_buffer) (lit : string) : bool :=
  can_read b (String.length lit) && bool_decide (take (String.length lit) (buffer_at_offset b) = chars lit).

(** ** Whitespace *)

Fixpoint skip_le_32 (l : list ascii) (o : nat) : nat :=
  match l with c :: l' => if uchar c <=? 32 then skip_le_32 l' (S o) else o | [] => o end.
Definition buffer_skip_whitespace (b : parse_buffer) : parse_buffer :=
  let o := skip_le_32 (buffer_at_offset b) (offset b) in
  set_offset (if (o =? length (content b))%nat then pred o else o) b.

(** ** Strings *)

Definition hex_digit (c : ascii) : option Z :=
  let u := uchar c in
  if (48 <=? u) && (u <=? 57) then Some (u - 48)
  else if (65 <=? u) && (u <=? 70) then Some (10 + u - 65)
  else if (97 <=? u) && (u <=? 102) then Some (10 + u - 97)
  else None.

(** The value of [n] digits; a character that is no digit makes the whole 0. *)
Fixpoint parse_hex (n : nat) (l : list ascii) (h : Z) : Z :=
  match n, l with
  | S n', c :: l' =>
      match hex_digit c with
      | Some d => parse_hex n' l' (if (n' =? 0)%nat then h + d else Z.shiftl (h + d) 4)
      | None => 0
      end
  | S _, [] => 0
  | O, _ => h
  end.
Definition parse_hex4 (l : list ascii) : Z := parse_hex 4 l 0.

Definition byte_of (z : Z) : ascii := ascii_of_N (Z.to_N (u8 z)).

(** The bytes at positions [n] down to 1 of a UTF-8 sequence. *)
Fixpoint utf8_tail (n : nat) (codepoint : Z) (acc : list ascii) : Z * list ascii :=
  match n with
  | O => (codepoint, acc)
  | S n' => utf8_tail n' (Z.shiftr codepoint 6) (byte_of (Z.land (Z.lor codepoint 128) 191) :: acc)
  end.
Definition utf8_encode (codepoint : Z) : option (list ascii) :=
  let enc n mark :=
    let '(cp, tl) := utf8_tail n codepoint [] in
    Some (byte_of (Z.land (Z.lor cp mark) 255) :: tl) in
  if codepoint <? 128 then Some [byte_of (Z.land codepoint 127)]
  else if codepoint <? 2048 then enc 1%nat 192
  else if codepoint <? 65536 then enc 2%nat 224
  else if codepoint <=? 1114111 then enc 3%nat 240
  else None.

(** [input] is the text from the backslash on, [avail] how much of it lies
    before the closing quote. The bytes and the length of the sequence; [None]
    is the C function's 0. *)
Definition utf16_literal_to_utf8 (input : list ascii) (avail : nat) : option (list ascii * nat) :=
  if (avail <? 6)%nat then None else
  let first_code := parse_hex4 (drop 2 input) in
  if (56320 <=? first_code) && (first_code <=? 57343) then None else
  if (55296 <=? first_code) && (first_code <=? 56319) then
    if (avail - 6 <? 6)%nat then None else
    let second := drop 6 input in
    if negb (bool_decide (take 2 second = ["\"%char; "u"%char])) then None else
    let second_code := parse_hex4 (drop 2 second) in
    if (second_code <? 56320) || (57343 <? second_code) then None else
    let codepoint := 65536 + Z.lor (Z.shiftl (Z.land first_code 1023) 10) (Z.land second_code 1023) in
    (fun bs => (bs, 12%nat)) <$> utf8_encode codepoint
  else (fun bs => (bs, 6%nat)) <$> utf8_encode first_code.

(** The first pass: how far the closing quote is and how many backslashes
    were skipped on the way. *)
Fixpoint scan_string (l : list ascii) : option (nat * nat) :=
  match l with
  | [] => None
  | c :: l' =>
      if Ascii.eqb c DQUOTE then Some (0%nat, 0%nat)
      else if Ascii.eqb c "\"%char then
        match l' with
        | [] => None
        | _ :: l'' => (fun '(n, k) => (S (S n), S k)) <$> scan_string l''
        end
      else (fun '(n, k) => (S n, k)) <$> scan_string l'
  end.

(** Writing [bs] behind [out] into an object of [size] bytes. *)
Definition emit (size : nat) (out bs : list ascii) : exec (list ascii) :=
  if (length out + length bs <=? size)%nat then Done (out ++ bs) else Fault OutOfBounds.

Definition simple_escape (c : ascii) : option ascii :=
  if Ascii.eqb c "b"%char then Some "008"%char
  else if Ascii.eqb c "f"%char then Some "012"%char
  else if Ascii.eqb c "n"%char then Some "010"%char
  else if Ascii.eqb c "r"%char then Some "013"%char
  else if Ascii.eqb c "t"%char then Some "009"%char
  else if Ascii.eqb c DQUOTE || char_in c "\/" then Some c
  else None.

(** The second pass: [l] is the text at [input_pointer], [n] the distance to
    the closing quote. *)
Fixpoint decode_string (fuel size : nat) (l : list ascii) (n : nat) (out : list ascii) : exec (list ascii) :=
  match n with
  | O => Done out
  | S n' =>
      match fuel with
      | O => Fault Diverges
      | S fuel' =>
          c ← at_index (l !! 0%nat);
          if negb (Ascii.eqb c "\"%char) then
            out' ← emit size out [c];
            decode_string fuel' size (drop 1 l) n' out'
          else
            e ← at_index (l !! 1%nat);
            match simple_escape e with
            | Some r =>
                out' ← emit size out [r];
                decode_string fuel' size (drop 2 l) (n - 2) out'
            | None =>
                if Ascii.eqb e "u"%char then
                  match utf16_literal_to_utf8 l n with
                  | Some (bs, seq_len) =>
                      out' ← emit size out bs;
                      decode_string fuel' size (drop seq_len l) (n - seq_len) out'
                  | None => Fail
                  end
                else Fail
            end
      end
  end.

(** What a C string function sees of a byte sequence. *)
Fixpoint until_nul (l : list ascii) : list ascii :=
  match l with c :: l' => if Ascii.eqb c NUL then [] else c :: until_nul l' | [] => [] end.

Definition parse_string (item : cJSON) (b : parse_buffer) : exec (cJSON * parse_buffer) :=
  c ← at_index (content b !! offset b);
  if negb (Ascii.eqb c DQUOTE) then Fail else
  match scan_string (drop 1 (buffer_at_offset b)) with
  | None => Fail
  | Some (n, skipped) =>
      let allocation_length := (n + 1 - skipped)%nat in
      out ← decode_string n (allocation_length + 1) (drop 1 (buffer_at_offset b)) n [];
      _ ← emit (allocation_length + 1) out [NUL];
      Done (set_string (Some (of_chars (until_nul out))) (set_type cJSON_String item),
            adv (n + 2) b)
  end.

(** ** Numbers *)

Fixpoint number_run (l : list ascii) : list ascii :=
  match l with
  | c :: l' => if is_digit c || char_in c "+-eE." then c :: number_run l' else []
  | [] => []
  end.

Definition parse_number (item : cJSON) (b : parse_buffer) : exec (cJSON * parse_buffer) :=
  let '(number, used) := strtod (number_run (buffer_at_offset b)) in
  if (used =? 0)%nat then Fail
  else Done (set_type cJSON_Number (set_number (d_to_valueint number) number item), adv used b).

(** ** Values *)

Definition is_number_start (b : parse_buffer) : bool :=
  match content b !! offset b with
  | Some c => Ascii.eqb c "-"%char || is_digit c
  | None => false
  end.

Fixpoint parse_value (fuel : nat) (item : cJSON) (b : parse_buffer) : exec (cJSON * parse_buffer) :=
  match fuel with
  | O => Fault Diverges
  | S f =>
      if starts_with b "null" then Done (set_type cJSON_NULL item, adv 4 b)
      else if starts_with b "false" then Done (set_type cJSON_False item, adv 5 b)
      else if starts_with b "true" then
        Done (set_type cJSON_True (set_number 1 (valuedouble item) item), adv 4 b)
      else if peek_is b DQUOTE then parse_string item b
      else if is_number_start b then parse_number item b
      else if peek_is b "["%char then parse_array f item b
      else if peek_is b "{"%char then parse_object f item b
      else Fail
  end
with parse_array (fuel : nat) (item : cJSON) (b : parse_buffer) : exec (cJSON * parse_buffer) :=
  match fuel with
  | O => Fault Diverges
  | S f =>
      if (1000 <=? depth b)%nat then Fail else
      let b := set_depth (S (depth b)) b in
      c ← at_index (content b !! offset b);
      if negb (Ascii.eqb c "["%char) then Fail else
      let b := buffer_skip_whitespace (adv 1 b) in
      if peek_is b "]"%char then
        Done (set_child [] (set_type cJSON_Array item), adv 1 (set_depth (pred (depth b)) b))
      else if negb (can_access_at_index b 0) then Fail
      else
        '(items, b) ← parse_elements f [] (set_offset (pred (offset b)) b);
        if negb (peek_is b "]"%char) then Fail
        else Done (set_child items (set_type cJSON_Array item), adv 1 (set_depth (pred (depth b)) b))
  end
with parse_elements (fuel : nat) (acc : list cJSON) (b : parse_buffer) : exec (list cJSON * parse_buffer) :=
  match fuel with
  | O => Fault Diverges
  | S f =>
      let b := buffer_skip_whitespace (adv 1 b) in
      '(i, b) ← parse_value f cJSON_New_Item b;
      let b := buffer_skip_whitespace b in
      if peek_is b ","%char then parse_elements f (acc ++ [i]) b else Done (acc ++ [i], b)
  end
with parse_object (fuel : nat) (item : cJSON) (b : parse_buffer) : exec (cJSON * parse_buffer) :=
  match fuel with
  | O => Fault Diverges
  | S f =>
      if (1000 <=? depth b)%nat then Fail else
      let b := set_depth (S (depth b)) b in
      if negb (peek_is b "{"%char) then Fail else
      let b := buffer_skip_whitespace (adv 1 b) in
      if peek_is b "}"%char then
        Done (set_child [] (set_type cJSON_Object item), adv 1 (set_depth (pred (depth b)) b))
      else if negb (can_access_at_index b 0) then Fail
      else
        '(items, b) ← parse_members f [] (set_offset (pred (offset b)) b);
        if negb (peek_is b "}"%char) then Fail
        else Done (set_child items (set_type cJSON_Object item), adv 1 (set_depth (pred (depth b)) b))
  end
with parse_members (fuel : nat) (acc : list cJSON) (b : parse_buffer) : exec (list cJSON * parse_buffer) :=
  match fuel with
  | O => Fault Diverges
  | S f =>
      if negb (can_access_at_index b 1) then Fail else
      let b := buffer_skip_whitespace (adv 1 b) in
      '(i, b) ← parse_string cJSON_New_Item b;
      let b := buffer_skip_whitespace b in
      let i := set_string None (set_key (valuestring i) i) in
      if negb (peek_is b ":"%char) then Fail else
      let b := buffer_skip_whitespace (adv 1 b) in
      '(i, b) ← parse_value f i b;
      let b := buffer_skip_whitespace b in
      if peek_is b ","%char then parse_members f (acc ++ [i]) b else Done (acc ++ [i], b)
  end.

(** [strlen(value) + 1] bytes, the terminator included. *)
Definition buffer_of (value : string) : parse_buffer := PB (chars value ++ [NUL]) 0 0.
Definition parse_fuel (value : string) : nat := 3 * (String.length value + 1) + 1.

(** [Fail] is the NULL of the C function. Text behind the first value is
    ignored, as in the code. *)
Definition cJSON_Parse (value : string) : exec cJSON :=
  '(i, _) ← parse_value (parse_fuel value) cJSON_New_Item (buffer_skip_whitespace (buffer_of value));
  Done i.

(** Test inputs write an apostrophe for a double quote. *)
Definition q (s : string) : string := of_chars (quoted s).
Example parse_ex1 :
  (fun i => (cJSON_GetStringValue (cJSON_GetObjectItem (Some i) "a"),
             (fun x => valueint x) <$> cJSON_GetObjectItem (Some i) "b",
             cJSON_GetArraySize (cJSON_GetObjectItem (Some i) "c")))
    <$> cJSON_Parse (q " {'a' : 'x\u00e9\n', 'b':-12 , 'c':[true, [], {} ]} junk")
  = Done (Some (String "x" (String "195" (String "169" (String "010" EmptyString)))), Some (-12), 3).
Proof. vm_compute. reflexivity. Qed.
Example parse_ex2 : cJSON_Parse (q "{'a':}") = Fail /\ cJSON_Parse "[1,2" = Fail /\ cJSON_Parse EmptyString = Fail.
Proof. vm_compute. auto. Qed.

(** ** Memory safety of the string decoder

    [Safe l n m]: from a text [l] whose closing quote is [n] characters away
    by the pairing of the first pass, the second pass writes at most [m] more
    bytes; the second disjunct is a position in the middle of a pair, which a
    "\u" with fewer than four hexadecimal digits can leave behind. *)
Definition Safe (l : list ascii) (n m : nat) : Prop :=
  (exists k, scan_string l = Some (n, k) /\ (n <= m + k)%nat) \/
  (exists x l' n' k, l = x :: l' /\ n = S n' /\ scan_string l' = Some (n', k) /\ (n <= m + k)%nat).

Lemma scan_bound l n k : scan_string l = Some (n, k) -> (n < length l /\ 2 * k <= n)%nat.
Proof.
  revert n k. induction l as [l IH] using (induction_ltof1 _ (@length ascii)). unfold ltof in IH.
  intros n k H. destruct l as [|c l]; simpl in H; [done|].
  destruct (Ascii.eqb c DQUOTE); [injection H as <- <-; simpl; lia|].
  destruct (Ascii.eqb c "\"%char).
  - destruct l as [|d l]; [done|].
    destruct (scan_string l) as [[n' k']|] eqn:E; [|done]. injection H as <- <-.
    apply IH in E; simpl; lia.
  - destruct (scan_string l) as [[n' k']|] eqn:E; [|done]. injection H as <- <-.
    apply IH in E; simpl; lia.
Qed.

Lemma scan_quote l n k : scan_string l = Some (n, k) -> l !! n = Some DQUOTE.
Proof.
  revert n k. induction l as [l IH] using (induction_ltof1 _ (@length ascii)). unfold ltof in IH.
  intros n k H. destruct l as [|c l]; simpl in H; [done|].
  destruct (Ascii.eqb_spec c DQUOTE); [injection H as <- <-; by subst|].
  destruct (Ascii.eqb c "\"%char).
  - destruct l as [|d l]; [done|].
    destruct (scan_string l) as [[n' k']|] eqn:E; [|done]. injection H as <- <-.
    apply IH in E; [done | simpl; lia].
  - destruct (scan_string l) as [[n' k']|] eqn:E; [|done]. injection H as <- <-.
    apply IH in E; [done | simpl; lia].
Qed.

Lemma Safe_length l n m : Safe l n m -> (n < length l)%nat.
Proof.
  intros [(k & H & _)|(x & l' & n' & k & -> & -> & H & _)]; apply scan_bound in H; simpl; lia.
Qed.

(** Skipping a character never raises the bound. *)
Lemma Safe_drop1 l n m : Safe l (S n) m -> Safe (drop 1 l) n m.
Proof.
  intros [(k & H & Hm)|(x & l' & n' & k & -> & [= <-] & H & Hm)].
  - destruct l as [|c l]; simpl in *; [done|].
    destruct (Ascii.eqb c DQUOTE); [done|].
    destruct (Ascii.eqb c "\"%char).
    + destruct l as [|d l]; [done|].
      destruct (scan_string l) as [[n' k']|] eqn:E; [|done]. injection H as <- <-.
      right. exists d, l, n', k'. repeat split; try done. lia.
    + destruct (scan_string l) as [[n' k']|] eqn:E; [|done]. injection H as <- <-.
      left. exists k'. split; [done|]. lia.
  - left. exists k. split; [done|]. lia.
Qed.

(** An ordinary character lowers it by one, and a pair as well. *)
Lemma Safe_plain c l n m : Safe (c :: l) (S n) m -> c <> "\"%char ->
  exists m', m = S m' /\ Safe l n m'.
Proof.
  intros [(k & H & Hm)|(x & l' & n' & k & [= <- <-] & [= <-] & H & Hm)] Hc.
  - simpl in H. destruct (Ascii.eqb c DQUOTE); [done|].
    destruct (Ascii.eqb_spec c "\"%char); [done|].
    destruct (scan_string l) as [[n' k']|] eqn:E; [|done]. injection H as <- <-.
    pose proof (scan_bound _ _ _ E). exists (pred m). split; [lia|]. left. exists k'. split; [done|]. lia.
  - pose proof (scan_bound _ _ _ H). exists (pred m). split; [lia|].
    left. exists k. split; [done|]. lia.
Qed.

Lemma Safe_pair e l n m : Safe ("\"%char :: e :: l) (S n) m ->
  exists m', m = S m' /\ ((1 <= n)%nat -> Safe l (n - 1) m').
Proof.
  intros [(k & H & Hm)|(x & l' & n' & k & [= <- <-] & [= <-] & H & Hm)].
  - change (scan_string ("\"%char :: e :: l)) with ((fun '(n, k) => (S (S n), S k)) <$> scan_string l) in H.
    destruct (scan_string l) as [[n' k']|] eqn:E; [|done]. injection H as <- <-.
    pose proof (scan_bound _ _ _ E). exists (pred m). split; [lia|]. intros _. left. exists k'. split; [|lia].
    by rewrite E, Nat.sub_1_r.
  - pose proof (scan_bound _ _ _ H). exists (pred m). split; [lia|]. intros Hn.
    destruct n as [|n]; [lia|]. rewrite Nat.sub_1_r. simpl pred.
    apply (Safe_drop1 (e :: l) n). left. exists k. split; [done|]. lia.
Qed.

Lemma Safe_dropn j l n m : Safe l (j + n) m -> Safe (drop j l) n m.
Proof.
  revert l. induction j as [|j IH]; intros l H; [done|].
  replace (drop (S j) l) with (drop j (drop 1 l)) by (rewrite drop_drop; f_equal; lia).
  apply IH. by apply Safe_drop1.
Qed.

Lemma hex_digit_not_backslash c d : hex_digit c = Some d -> c <> "\"%char.
Proof. by intros H ->. Qed.

(** Four hexadecimal digits lower the bound by four. *)
Lemma parse_hex_Safe j : forall l h n m, Safe l (j + n) m -> parse_hex j l h <> 0 ->
  exists m', m = (j + m')%nat /\ Safe (drop j l) n m'.
Proof.
  induction j as [|j IH]; intros l h n m HS Hh; [by exists m|].
  destruct l as [|c l]; simpl in Hh; [done|].
  destruct (hex_digit c) as [d|] eqn:Hd; [|done].
  destruct (Safe_plain _ _ _ _ HS (hex_digit_not_backslash _ _ Hd)) as (m1 & -> & H1).
  destruct (IH _ _ _ _ H1 Hh) as (m2 & -> & H2). by exists m2.
Qed.

Lemma utf8_tail_length n cp acc : length (utf8_tail n cp acc).2 = (n + length acc)%nat.
Proof. revert cp acc. induction n as [|n IH]; intros cp acc; [done|]. simpl. rewrite IH. simpl. lia. Qed.

Lemma utf8_encode_length cp bs : utf8_encode cp = Some bs ->
  (length bs <= 4)%nat /\ (cp < 128 -> length bs = 1%nat).
Proof.
  unfold utf8_encode. intros H.
  repeat match type of H with
  | context [if ?b then _ else _] => destruct b eqn:?; simp_bool
  | context [utf8_tail ?n cp []] => pose proof (utf8_tail_length n cp []); destruct (utf8_tail n cp [])
  end; simplify_eq; cbn in *; repeat split; lia.
Qed.

(** A decoded "\u" sequence is paid for by the characters it uses up. *)
Lemma utf16_Safe e l n m bs seq :
  Safe ("\"%char :: e :: l) n m ->
  utf16_literal_to_utf8 ("\"%char :: e :: l) n = Some (bs, seq) ->
  exists m', (m = length bs + m')%nat /\ (seq <= n)%nat /\ (0 < seq)%nat /\
    Safe (drop seq ("\"%char :: e :: l)) (n - seq) m'.
Proof.
  intros HS H. unfold utf16_literal_to_utf8 in H.
  destruct (Nat.ltb_spec n 6) as [|Hn]; [done|].
  destruct n as [|n]; [lia|].
  change (drop 2 ("\"%char :: e :: l)) with l in H.
  destruct (Safe_pair _ _ _ _ HS) as (m1 & -> & HS1).
  replace (n - 1)%nat with (4 + (n - 5))%nat in HS1 by lia. specialize (HS1 ltac:(lia)).
  destruct (_ && _); [done|].
  destruct ((55296 <=? parse_hex4 l) && _) eqn:Hsur.
  - destruct (Nat.ltb_spec (S n - 6) 6) as [|Hn2]; [done|].
    change (drop 6 ("\"%char :: e :: l)) with (drop 4 l) in H.
    destruct (bool_decide_reflect (take 2 (drop 4 l) = ["\"%char; "u"%char])) as [Ht|]; [|done].
    destruct (_ || _) eqn:Hsec in H; [done|]. simp_bool.
    destruct (utf8_encode _) as [bs'|] eqn:Hu; [|done]. injection H as <- <-.
    apply utf8_encode_length in Hu as [Hb _].
    destruct (parse_hex_Safe 4 l 0 _ _ HS1) as (m2 & -> & HS2);
      [unfold parse_hex4 in *; lia|].
    destruct (drop 4 l) as [|a [|b l4]] eqn:Hl4; try done. injection Ht as -> ->.
    replace (n - 5)%nat with (S (n - 6)) in HS2 by lia.
    destruct (Safe_pair _ _ _ _ HS2) as (m3 & -> & HS3).
    replace (n - 6 - 1)%nat with (4 + (n - 11))%nat in HS3 by lia. specialize (HS3 ltac:(lia)).
    change (drop 2 ("\"%char :: "u"%char :: l4)) with l4 in *.
    destruct (parse_hex_Safe 4 l4 0 _ _ HS3) as (m4 & -> & HS4);
      [unfold parse_hex4 in *; lia|].
    exists (6 - length bs' + 4 + m4)%nat. split; [lia|]. split; [lia|]. split; [lia|].
    replace (drop 12 ("\"%char :: e :: l)) with (drop 4 l4).
    2: { change (drop 12 ("\"%char :: e :: l)) with (drop (4 + 6) l).
         rewrite <-drop_drop, Hl4. done. }
    replace (S n - 12)%nat with (n - 11)%nat by lia.
    destruct HS4 as [(k & ? & ?)|(x & l' & n' & k & ? & ? & ? & ?)];
      [left; exists k | right; exists x, l', n', k]; repeat split; try done; lia.
  - destruct (utf8_encode _) as [bs'|] eqn:Hu; [|done]. injection H as <- <-.
    apply utf8_encode_length in Hu as [Hb Hb1].
    change (drop 6 ("\"%char :: e :: l)) with (drop 4 l).
    replace (S n - 6)%nat with (n - 5)%nat by lia.
    destruct (decide (parse_hex4 l = 0)) as [Hz|Hz].
    + exists m1. rewrite Hb1 by lia. split; [lia|]. split; [lia|]. split; [lia|]. by apply Safe_dropn.
    + destruct (parse_hex_Safe 4 l 0 _ _ HS1 Hz) as (m2 & -> & HS2).
      exists (5 - length bs' + m2)%nat. split; [lia|]. split; [lia|]. split; [lia|].
      destruct HS2 as [(k & ? & ?)|(x & l' & n' & k & ? & ? & ? & ?)];
        [left; exists k | right; exists x, l', n', k]; repeat split; try done; lia.
Qed.

Lemma decode_safe fuel size : forall l n out m, Safe l n m -> (n <= fuel)%nat ->
  (length out + m < size)%nat ->
  match decode_string fuel size l n out with
  | Done out' => (length out' < size)%nat | Fail => True | Fault _ => False
  end.
Proof.
  induction fuel as [|fuel IH]; intros l n out m HS Hf Hm.
  { destruct n; [simpl; lia | lia]. }
  destruct n as [|n]; [simpl; lia|]. cbn [decode_string].
  pose proof (Safe_length _ _ _ HS) as Hl. destruct l as [|c l]; [simpl in Hl; lia|].
  cbn [lookup list_lookup at_index mbind exec_bind].
  destruct (Ascii.eqb_spec c "\"%char) as [->|Hc]; simpl negb; cbv iota.
  - destruct l as [|e l]; [simpl in Hl; lia|]. cbn [list_lookup lookup at_index mbind exec_bind].
    destruct (simple_escape e) as [r|] eqn:He.
    + destruct (Safe_pair _ _ _ _ HS) as (m' & -> & HS').
      unfold emit. rewrite (proj2 (Nat.leb_le _ _)) by (simpl; lia). cbn [mbind exec_bind drop].
      destruct n as [|n]; [destruct fuel; simpl; rewrite length_app; simpl; lia|].
      apply (IH _ _ _ m'); [|lia|rewrite length_app; simpl; lia].
      specialize (HS' ltac:(lia)). by replace (S (S n) - 2)%nat with (S n - 1)%nat by lia.
    + destruct (Ascii.eqb e "u"%char); [|done].
      destruct (utf16_literal_to_utf8 _ _) as [[bs seq]|] eqn:Hu; [|done].
      destruct (utf16_Safe _ _ _ _ _ _ HS Hu) as (m' & -> & Hseq & Hpos & HS').
      unfold emit. rewrite (proj2 (Nat.leb_le _ _)) by lia. cbn [mbind exec_bind].
      apply (IH _ _ _ m'); [done|lia|rewrite length_app; lia].
  - destruct (Safe_plain _ _ _ _ HS Hc) as (m' & -> & HS').
    unfold emit. rewrite (proj2 (Nat.leb_le _ _)) by (simpl; lia). cbn [mbind exec_bind drop].
    apply (IH _ _ _ m'); [done|lia|rewrite length_app; simpl; lia].
Qed.

(** ** Memory safety and termination of the parser *)

(** A position inside a NUL-terminated buffer. *)
Definition buffer_ok (b : parse_buffer) : Prop :=
  (offset b < length (content b))%nat /\ list.last (content b) = Some NUL.

(** [b'] is a later position of the buffer of [b]. *)
Definition later (b b' : parse_buffer) : Prop :=
  buffer_ok b' /\ content b' = content b /\ depth b' = depth b /\ (offset b < offset b')%nat.

(** A run that does not fault, and whose result satisfies [Q]. *)
Definition safe_post {A} (Q : A -> Prop) (m : exec A) : Prop :=
  match m with Done a => Q a | Fail => True | Fault _ => False end.

Lemma safe_post_bind {A B} (P : A -> Prop) (Q : B -> Prop) (m : exec A) (k : A -> exec B) :
  safe_post P m -> (forall a, P a -> safe_post Q (k a)) -> safe_post Q (m ≫= k).
Proof. destruct m; simpl; auto. Qed.

Lemma safe_post_mono {A} (P Q : A -> Prop) (m : exec A) :
  (forall a, P a -> Q a) -> safe_post P m -> safe_post Q m.
Proof. destruct m; simpl; auto. Qed.

Lemma not_last_lt b c : buffer_ok b -> content b !! offset b = Some c -> c <> NUL ->
  (offset b + 1 < length (content b))%nat.
Proof.
  intros [Hlt Hlast] Hc Hne.
  destruct (decide (offset b + 1 = length (content b))%nat) as [He|]; [|lia].
  rewrite last_lookup in Hlast. replace (pred (length (content b))) with (offset b) in Hlast by lia.
  congruence.
Qed.

Lemma skip_le_32_spec l o : (o <= skip_le_32 l o <= o + length l)%nat.
Proof.
  revert o. induction l as [|c l IH]; intros o; simpl; [lia|].
  destruct (uchar c <=? 32); [|lia]. specialize (IH (S o)). lia.
Qed.

Lemma skip_ok b : buffer_ok b ->
  buffer_ok (buffer_skip_whitespace b) /\ content (buffer_skip_whitespace b) = content b /\
  depth (buffer_skip_whitespace b) = depth b /\ (offset b <= offset (buffer_skip_whitespace b))%nat.
Proof.
  intros [Hlt Hlast]. unfold buffer_skip_whitespace, buffer_ok. cbn [content offset depth set_offset].
  pose proof (skip_le_32_spec (buffer_at_offset b) (offset b)) as Hs.
  unfold buffer_at_offset in *. rewrite length_drop in Hs.
  destruct (Nat.eqb_spec (skip_le_32 (drop (offset b) (content b)) (offset b)) (length (content b)));
    repeat split; try done; lia.
Qed.

Lemma peek_is_adv b c : buffer_ok b -> peek_is b c = true -> c <> NUL -> buffer_ok (adv 1 b).
Proof.
  unfold peek_is. intros Hb Hp Hne. destruct (content b !! offset b) as [x|] eqn:Hx; [|done].
  apply Ascii.eqb_eq in Hp as ->. pose proof (not_last_lt _ _ Hb Hx Hne).
  split; [done|]. apply Hb.
Qed.

Lemma starts_with_later b lit : buffer_ok b -> starts_with b lit = true -> NUL ∉ chars lit ->
  (0 < String.length lit)%nat -> later b (adv (String.length lit) b).
Proof.
  unfold starts_with, can_read. intros Hb H Hnul Hpos. apply andb_true_iff in H as [Hr Ht].
  apply Nat.leb_le in Hr. apply bool_decide_eq_true in Ht.
  split; [split; [|apply Hb]|repeat split; simpl; lia]. simpl.
  destruct (decide (offset b + String.length lit = length (content b))%nat) as [He|]; [exfalso|lia].
  destruct Hb as [Hlt Hlast]. apply Hnul. rewrite <-Ht.
  rewrite last_lookup in Hlast.
  apply list_elem_of_lookup. exists (pred (String.length lit)).
  rewrite lookup_take, decide_True by lia. unfold buffer_at_offset.
  rewrite lookup_drop, <-Hlast. f_equal. lia.
Qed.

Lemma parse_string_safe i b : buffer_ok b -> safe_post (fun r => later b r.2) (parse_string i b).
Proof.
  intros Hb. unfold parse_string, buffer_at_offset.
  destruct (lookup_lt_is_Some_2 _ _ (proj1 Hb)) as [c Hc]. rewrite Hc.
  cbn [at_index mbind exec_bind].
  destruct (Ascii.eqb_spec c DQUOTE) as [->|]; [|done]. simpl negb. cbv iota.
  destruct (scan_string _) as [[n k]|] eqn:Hscan; [|done].
  pose proof (scan_bound _ _ _ Hscan) as [Hn Hk]. pose proof (scan_quote _ _ _ Hscan) as Hq.
  assert (HS : Safe (drop 1 (drop (offset b) (content b))) n (n - k)).
  { left. exists k. split; [done|lia]. }
  pose proof (decode_safe n (n + 1 - k + 1) _ n [] _ HS ltac:(lia) ltac:(simpl; lia)) as Hd.
  destruct (decode_string _ _ _ _ _) as [out| |f]; [|done|done].
  cbn [mbind exec_bind]. unfold emit. rewrite (proj2 (Nat.leb_le _ _)) by (simpl; lia).
  cbn [mbind exec_bind safe_post snd].
  rewrite drop_drop, lookup_drop in Hq.
  assert (offset b + n + 2 < length (content b))%nat.
  { pose proof (not_last_lt (adv (n + 1) b) DQUOTE) as Hlt. simpl in Hlt.
    replace (offset b + (n + 1) + 1)%nat with (offset b + n + 2)%nat in Hlt by lia. apply Hlt.
    - split; [|apply Hb]. simpl. apply lookup_lt_Some in Hq. lia.
    - rewrite <-Hq. f_equal. lia.
    - done. }
  split; [split; [simpl; lia|apply Hb]|]. simpl. repeat split; lia.
Qed.

Lemma scan_digits_length l acc n v n' l' : scan_digits l acc n = (v, n', l') ->
  (n <= n')%nat /\ l = take (n' - n) l ++ l' /\ length l = (n' - n + length l')%nat.
Proof.
  revert acc n. induction l as [|c l IH]; intros acc n H; simpl in H.
  { injection H as <- <- <-. rewrite Nat.sub_diag. done. }
  destruct (is_digit c).
  - apply IH in H as (Hn & Hl & Hlen). split; [lia|].
    replace (n' - n)%nat with (S (n' - S n)) by lia. simpl. split; [by rewrite <-Hl|lia].
  - injection H as <- <- <-. rewrite Nat.sub_diag. done.
Qed.

Lemma scan_exponent_length l v n : scan_exponent l = (v, n) -> (n <= length l)%nat.
Proof.
  unfold scan_exponent. destruct l as [|c l]; [intros [= <- <-]; simpl; lia|].
  destruct (char_in c "eE"); [|intros [= <- <-]; simpl; lia].
  set (sg := match l with [] => _ | _ => _ end). assert (length sg.2 + sg.1.2 <= length l)%nat as Hsg.
  { subst sg. destruct l as [|d l]; [done|]. destruct (Ascii.eqb d "-"%char); [simpl; lia|].
    destruct (Ascii.eqb d "+"%char); simpl; lia. }
  destruct sg as [[neg sgn] l'']. simpl in Hsg.
  destruct (scan_digits l'' 0 0) as [[v' n'] r] eqn:E. apply scan_digits_length in E as (_ & _ & ?).
  destruct (n' =? 0)%nat; intros [= <- <-]; simpl; lia.
Qed.

Lemma strtod_length l v n : strtod l = (v, n) -> (n <= length l)%nat.
Proof.
  unfold strtod. set (sg := match l with [] => (false, 0%nat, l) | _ => _ end).
  assert (length sg.2 + sg.1.2 <= length l)%nat as Hsg.
  { subst sg. destruct l as [|d l]; [done|]. destruct (Ascii.eqb d "-"%char); [simpl; lia|].
    destruct (Ascii.eqb d "+"%char); simpl; lia. }
  destruct sg as [[neg sgn] l0]. simpl in Hsg.
  destruct (scan_digits l0 0 0) as [[ip ni] l1] eqn:E1. apply scan_digits_length in E1 as (_ & _ & H1).
  set (fr := match l1 with [] => _ | _ => _ end).
  assert (length fr.2 + fr.1.1.2 + fr.1.2 <= length l1)%nat as Hfr.
  { subst fr. destruct l1 as [|c r]; [done|]. destruct (Ascii.eqb c "."%char); [|simpl; lia].
    destruct (scan_digits r ip 0) as [[m nf] l2] eqn:E2. apply scan_digits_length in E2 as (_ & _ & ?).
    simpl. lia. }
  destruct fr as [[[m nf] pt] l2]. simpl in Hfr.
  destruct (ni + nf =? 0)%nat; [intros [= <- <-]; lia|].
  destruct (scan_exponent l2) as [ev ne] eqn:E3. apply scan_exponent_length in E3.
  intros [= <- <-]. lia.
Qed.

Lemma number_run_prefix l : exists r, l = number_run l ++ r.
Proof.
  induction l as [|c l [r IH]]; simpl; [by exists []|].
  destruct (_ || _); [exists r; simpl; by f_equal | by eexists].
Qed.

Lemma number_run_no_nul l : NUL ∉ number_run l.
Proof.
  induction l as [|c l IH]; simpl; [apply not_elem_of_nil|].
  destruct (_ || _) eqn:E; [|apply not_elem_of_nil].
  rewrite not_elem_of_cons. split; [|done]. intros <-. done.
Qed.

Lemma parse_number_safe i b : buffer_ok b -> safe_post (fun r => later b r.2) (parse_number i b).
Proof.
  intros Hb. unfold parse_number.
  destruct (strtod _) as [v n] eqn:E. apply strtod_length in E.
  destruct (Nat.eqb_spec n 0); [done|]. simpl.
  destruct (number_run_prefix (buffer_at_offset b)) as [r Hr].
  pose proof (number_run_no_nul (buffer_at_offset b)) as Hnn.
  split; [split; [|apply Hb]|repeat split; simpl; lia]. simpl.
  assert (offset b + length (number_run (buffer_at_offset b)) < length (content b))%nat; [|lia].
  destruct Hb as [Hlt Hlast]. unfold buffer_at_offset in *.
  assert (length r <> 0%nat) as Hr0.
  { intros H0. apply Hnn. apply nil_length_inv in H0 as ->. rewrite app_nil_r in Hr. rewrite <-Hr.
    rewrite last_lookup in Hlast. apply list_elem_of_lookup.
    exists (pred (length (content b)) - offset b)%nat. rewrite lookup_drop, <-Hlast. f_equal. lia. }
  apply (f_equal length) in Hr. rewrite length_app, length_drop in Hr. lia.
Qed.

Lemma later_trans_skip b b' : buffer_ok b -> later b b' -> later b (buffer_skip_whitespace b').
Proof.
  intros Hb (Hok & Hc & Hd & Ho). destruct (skip_ok _ Hok) as (? & ? & ? & ?).
  split; [done|]. repeat split; [congruence|congruence|lia].
Qed.

Lemma later_adv_skip b c : buffer_ok b -> peek_is b c = true -> c <> NUL ->
  later b (buffer_skip_whitespace (adv 1 b)).
Proof.
  intros Hb Hp Hc. apply later_trans_skip; [done|].
  split; [by eapply peek_is_adv|]. repeat split; simpl; lia.
Qed.

Lemma later_trans b b1 b2 : later b b1 -> later b1 b2 -> later b b2.
Proof. intros (? & ? & ? & ?) (? & ? & ? & ?). split; [done|]. repeat split; [congruence..|lia]. Qed.

Lemma later_adv b b1 c : later b b1 -> peek_is b1 c = true -> c <> NUL -> later b (adv 1 b1).
Proof.
  intros Hl Hp Hc. eapply later_trans; [done|].
  split; [eapply peek_is_adv; [apply Hl|done|done]|]. repeat split; simpl; lia.
Qed.

Definition rest (b : parse_buffer) : nat := length (content b) - offset b.

(** The five mutually recursive functions at once: with fuel for the text that
    is left, none of them faults, and each ends at a later position. *)
Definition parser_ok (fuel : nat) : Prop :=
  (forall i b, buffer_ok b -> (3 * rest b + 1 <= fuel)%nat ->
     safe_post (fun r => later b r.2) (parse_value fuel i b)) /\
  (forall i b, buffer_ok b -> (3 * rest b <= fuel)%nat ->
     safe_post (fun r => later b r.2) (parse_array fuel i b)) /\
  (forall acc b, buffer_ok b -> buffer_ok (adv 1 b) -> (3 * rest b - 1 <= fuel)%nat ->
     safe_post (fun r => later b r.2) (parse_elements fuel acc b)) /\
  (forall i b, buffer_ok b -> (3 * rest b <= fuel)%nat ->
     safe_post (fun r => later b r.2) (parse_object fuel i b)) /\
  (forall acc b, buffer_ok b -> buffer_ok (adv 1 b) -> (3 * rest b - 1 <= fuel)%nat ->
     safe_post (fun r => later b r.2) (parse_members fuel acc b)).

Lemma rest_later b b' : later b b' -> (rest b' + 1 <= rest b)%nat.
Proof. unfold rest. intros ([? _] & Hc & _ & ?). rewrite Hc in *. lia. Qed.

Lemma adv1_skip_later b : buffer_ok b -> buffer_ok (adv 1 b) -> later b (buffer_skip_whitespace (adv 1 b)).
Proof. intros Hb Ha. apply later_trans_skip; [done|]. split; [done|]. repeat split; simpl; lia. Qed.

Lemma value_safe_step f : parser_ok f -> forall i b, buffer_ok b -> (3 * rest b + 1 <= S f)%nat ->
  safe_post (fun r => later b r.2) (parse_value (S f) i b).
Proof.
  intros (_ & Ha & _ & Ho & _) i b Hb Hf. cbn [parse_value].
  repeat match goal with
  | |- context [if starts_with ?b ?lit then _ else _] =>
      let Hs := fresh in destruct (starts_with b lit) eqn:Hs;
      [apply starts_with_later in Hs; [exact Hs | done | not_in_literal | simpl; lia]|]
  end.
  destruct (peek_is b DQUOTE); [by apply parse_string_safe|].
  destruct (is_number_start b); [by apply parse_number_safe|].
  destruct (peek_is b "["%char); [apply Ha; [done|lia]|].
  destruct (peek_is b "{"%char); [apply Ho; [done|lia]|done].
Qed.

(** The closing bracket ends the value at a later position, at the depth the
    value started with. *)
Lemma close_later b b1 c : later (set_depth (S (depth b)) b) b1 -> peek_is b1 c = true -> c <> NUL ->
  later b (adv 1 (set_depth (pred (depth b1)) b1)).
Proof.
  intros (Hok & Hc & Hd & Ho) Hp Hne.
  pose proof (peek_is_adv _ _ Hok Hp Hne) as [Ha Hl].
  split; [split; [exact Ha|exact Hl]|]. simpl in *. rewrite Hd. repeat split; [done|lia].
Qed.

Lemma container_body b b1 {A} (m : exec (A * parse_buffer)) (mk : A -> cJSON) c :
  later (set_depth (S (depth b)) b) b1 ->
  safe_post (fun r => later (set_offset (pred (offset b1)) b1) r.2) m -> c <> NUL ->
  safe_post (fun r => later b r.2)
    ('(items, b2) ← m; if negb (peek_is b2 c) then Fail
     else Done (mk items, adv 1 (set_depth (pred (depth b2)) b2))).
Proof.
  intros Hl Hm Hc. eapply safe_post_bind; [exact Hm|]. intros [items b2] H2. cbn in H2 |- *.
  destruct (peek_is b2 c) eqn:Hp; [|done]. simpl.
  apply (close_later _ _ c); [|done|done].
  destruct Hl as (? & Hc1 & Hd1 & Ho1), H2 as (? & Hc2 & Hd2 & Ho2). simpl in *.
  split; [done|]. repeat split; simpl; [congruence|congruence|lia].
Qed.

Lemma pred_ok b b1 : later b b1 ->
  buffer_ok (set_offset (pred (offset b1)) b1) /\ buffer_ok (adv 1 (set_offset (pred (offset b1)) b1)) /\
  (rest (set_offset (pred (offset b1)) b1) <= rest b)%nat.
Proof.
  intros ([Hlt Hlast] & Hc & _ & Ho). unfold buffer_ok, rest. simpl. rewrite Hc in *.
  replace (pred (offset b1) + 1)%nat with (offset b1) by lia. repeat split; try done; lia.
Qed.

Lemma array_safe_step f : parser_ok f -> forall i b, buffer_ok b -> (3 * rest b <= S f)%nat ->
  safe_post (fun r => later b r.2) (parse_array (S f) i b).
Proof.
  intros (_ & _ & He & _) i b Hb Hf. cbn [parse_array].
  destruct (1000 <=? depth b)%nat; [done|]. cbn [set_depth content offset].
  destruct (lookup_lt_is_Some_2 _ _ (proj1 Hb)) as [c Hc]. rewrite Hc. cbn [at_index mbind exec_bind].
  destruct (Ascii.eqb_spec c "["%char) as [->|]; [|done]. simpl negb. cbv iota.
  set (b1 := buffer_skip_whitespace _).
  assert (later (set_depth (S (depth b)) b) b1) as Hl.
  { apply (later_adv_skip _ "["%char); [done| |done]. unfold peek_is. simpl. by rewrite Hc. }
  destruct (peek_is b1 "]"%char) eqn:Hp; [simpl; by eapply close_later|].
  destruct (negb _); [done|].
  destruct (pred_ok _ _ Hl) as (Hok1 & Hok2 & Hr).
  apply (container_body b b1); [done| |done]. apply He; [done|done|].
  change (rest (set_depth (S (depth b)) b)) with (rest b) in Hr. lia.
Qed.

Lemma object_safe_step f : parser_ok f -> forall i b, buffer_ok b -> (3 * rest b <= S f)%nat ->
  safe_post (fun r => later b r.2) (parse_object (S f) i b).
Proof.
  intros (_ & _ & _ & _ & Hm) i b Hb Hf. cbn [parse_object].
  destruct (1000 <=? depth b)%nat; [done|].
  destruct (peek_is (set_depth (S (depth b)) b) "{"%char) eqn:Hpb; [|done]. simpl negb. cbv iota.
  set (b1 := buffer_skip_whitespace _).
  assert (later (set_depth (S (depth b)) b) b1) as Hl by (by apply (later_adv_skip _ "{"%char)).
  destruct (peek_is b1 "}"%char) eqn:Hp; [simpl; by eapply close_later|].
  destruct (negb _); [done|].
  destruct (pred_ok _ _ Hl) as (Hok1 & Hok2 & Hr).
  apply (container_body b b1); [done| |done]. apply Hm; [done|done|].
  change (rest (set_depth (S (depth b)) b)) with (rest b) in Hr. lia.
Qed.

Lemma elements_safe_step f : parser_ok f -> forall acc b, buffer_ok b -> buffer_ok (adv 1 b) ->
  (3 * rest b - 1 <= S f)%nat -> safe_post (fun r => later b r.2) (parse_elements (S f) acc b).
Proof.
  intros (Hv & _ & He & _) acc b Hb Ha Hf. cbn [parse_elements].
  pose proof (adv1_skip_later _ Hb Ha) as Hl. pose proof (rest_later _ _ Hl).
  eapply safe_post_bind; [apply Hv; [apply Hl|lia]|]. intros [i b2] H2. cbn in H2 |- *.
  assert (later b (buffer_skip_whitespace b2)) as Hl2.
  { apply later_trans_skip; [done|]. by eapply later_trans. }
  pose proof (rest_later _ _ Hl2).
  destruct (peek_is _ ","%char) eqn:Hp; [|done].
  eapply safe_post_mono; [|apply He; [apply Hl2|by eapply peek_is_adv; [apply Hl2|..]|lia]].
  intros r Hr. by eapply later_trans.
Qed.

Lemma members_safe_step f : parser_ok f -> forall acc b, buffer_ok b -> buffer_ok (adv 1 b) ->
  (3 * rest b - 1 <= S f)%nat -> safe_post (fun r => later b r.2) (parse_members (S f) acc b).
Proof.
  intros (Hv & _ & _ & _ & Hm) acc b Hb Ha Hf. cbn [parse_members].
  destruct (negb _); [done|].
  pose proof (adv1_skip_later _ Hb Ha) as Hl.
  eapply safe_post_bind; [apply parse_string_safe, Hl|]. intros [i b2] H2. cbn in H2 |- *.
  assert (later b (buffer_skip_whitespace b2)) as Hl2.
  { apply later_trans_skip; [done|]. by eapply later_trans. }
  destruct (peek_is _ ":"%char) eqn:Hp; [|done]. simpl negb. cbv iota.
  assert (later b (buffer_skip_whitespace (adv 1 (buffer_skip_whitespace b2)))) as Hl3.
  { apply later_trans_skip; [done|]. by eapply later_adv. }
  pose proof (rest_later _ _ Hl3).
  eapply safe_post_bind; [apply Hv; [apply Hl3|lia]|]. intros [i3 b3] H3. cbn in H3 |- *.
  assert (later b (buffer_skip_whitespace b3)) as Hl4.
  { apply later_trans_skip; [done|]. by eapply later_trans. }
  pose proof (rest_later _ _ Hl4).
  destruct (peek_is (buffer_skip_whitespace b3) ","%char) eqn:Hp4; [|done].
  eapply safe_post_mono; [|apply Hm; [apply Hl4|by eapply peek_is_adv; [apply Hl4|..]|lia]].
  intros r Hr. by eapply later_trans.
Qed.

Lemma parser_safe fuel : parser_ok fuel.
Proof.
  induction fuel as [|f IH].
  - assert (forall b, buffer_ok b -> (1 <= rest b)%nat) by (unfold buffer_ok, rest; intros b [? _]; lia).
    repeat split; intros; exfalso;
      match goal with Hb : buffer_ok ?b |- _ => specialize (H b Hb); lia end.
  - split; [by apply value_safe_step|]. split; [by apply array_safe_step|].
    split; [by apply elements_safe_step|]. split; [by apply object_safe_step|by apply members_safe_step].
Qed.

Lemma buffer_of_ok s : buffer_ok (buffer_of s).
Proof.
  split; [simpl; rewrite length_app; simpl; lia|]. simpl. by rewrite last_snoc.
Qed.

Lemma no_fault_parse s : no_fault (cJSON_Parse s).
Proof.
  unfold cJSON_Parse. destruct (skip_ok _ (buffer_of_ok s)) as (Hok & Hc & _ & _).
  pose proof (proj1 (parser_safe (parse_fuel s)) cJSON_New_Item _ Hok) as H.
  destruct (parse_value _ _ _) as [[i b]| |f]; [done|done|].
  exfalso. apply H. unfold rest, parse_fuel. rewrite Hc. simpl.
  rewrite length_app, length_chars. simpl. lia.
Qed.

(** C1: [cJSON_Parse] on any text reads only inside the buffer, writes only
    inside the strings it allocates and returns: an item or NULL. *)
Theorem cJSON_Parse_safe s : (exists i, cJSON_Parse s = Done i) \/ cJSON_Parse s = Fail.
Proof. pose proof (no_fault_parse s) as H. destruct (cJSON_Parse s); [left; by eexists|by right|done]. Qed.
