(* ===== verification/CJsonPrint.v ===== *)
(** The JSON printer of src/src/cJSON.c: [cJSON_PrintUnformatted] over its
    growing output buffer. [text] is the terminated string the buffer holds;
    a write past [plength] bytes is a [Fault]. Beside it stands the reference
    text [json_text] of an item, and the theorem that the printer produces it. *)

From Stdlib Require Import SpecFloat.
From S2P Require Import Prelude Double CJson.

Record printbuffer := PBuf { text : list ascii; plength : Z; poffset : nat }.

(** Space for [needed] bytes and a terminator behind the offset. [realloc] is
    taken to succeed, and [noalloc] is false in every caller. *)
Definition ensure (p : printbuffer) (needed : Z) : exec printbuffer :=
  if (0 <? plength p) && (plength p <=? Z.of_nat (poffset p)) then Fail
  else if INT_MAX <? needed then Fail
  else
    let needed := needed + Z.of_nat (poffset p) + 1 in
    if needed <=? plength p then Done p else Done (PBuf (text p) (needed * 2) (poffset p)).

Definition update_offset (p : printbuffer) : printbuffer := PBuf (text p) (plength p) (length (text p)).
Definition advance (n : nat) (p : printbuffer) : printbuffer := PBuf (text p) (plength p) (poffset p + n).

(** Bytes written at the offset, with a terminator when [nul] is 1. *)
Definition put (bs : list ascii) (nul : nat) (p : printbuffer) : exec printbuffer :=
  if Z.of_nat (poffset p + length bs + nul) <=? plength p
  then Done (PBuf (take (poffset p) (text p) ++ bs) (plength p) (poffset p))
  else Fault OutOfBounds.

(** ** Scalars *)

Definition number_chars (vi : Z) (vd : double) : list ascii :=
  if d_isnan vd || d_isinf vd then chars "null"
  else if SFeqb vd (d_of_Z vi) then int_chars vi
  else g15 vd.

Definition print_number (vi : Z) (vd : double) (p : printbuffer) : exec printbuffer :=
  let number_buffer := number_chars vi vd in
  p ← ensure p (Z.of_nat (length number_buffer) + 1);
  p ← put number_buffer 1 p;
  Done (advance (length number_buffer) p).

Definition needs_escape (c : ascii) : bool :=
  Ascii.eqb c DQUOTE || Ascii.eqb c "\"%char || (uchar c <? 32).
Definition hex_char (d : Z) : ascii :=
  ascii_of_N (Z.to_N (if d <? 10 then 48 + d else 87 + d)).
(** What is left of "u%04x" of a byte: [sprintf] writes five characters and a
    terminator, the code moves its pointer by four, so that the next character,
    at the latest the closing quote, overwrites the last hexadecimal digit. The
    terminator of the [sprintf] is never behind the one of the whole text. *)
Definition u_escape (c : ascii) : list ascii :=
  ["u"%char; "0"%char; "0"%char; hex_char (uchar c / 16)].
Definition escape_letter (c : ascii) : option ascii :=
  if Ascii.eqb c DQUOTE then Some DQUOTE
  else if Ascii.eqb c "\"%char then Some "\"%char
  else if Ascii.eqb c "008"%char then Some "b"%char
  else if Ascii.eqb c "012"%char then Some "f"%char
  else if Ascii.eqb c "010"%char then Some "n"%char
  else if Ascii.eqb c "013"%char then Some "r"%char
  else if Ascii.eqb c "009"%char then Some "t"%char
  else None.
Definition escape_char (c : ascii) : list ascii :=
  if negb (needs_escape c) then [c]
  else "\"%char :: match escape_letter c with Some e => [e] | None => u_escape c end.

Definition escaped (s : list ascii) : list ascii := mjoin (map escape_char s).
Definition count_escapes (s : list ascii) : nat := length (filter (fun c => needs_escape c = true) s).

Definition print_string_ptr (input : option string) (p : printbuffer) : exec printbuffer :=
  match input with
  | None =>
      ensure p 3 ≫= put [DQUOTE; DQUOTE] 1
  | Some s =>
      let output_length := Z.of_nat (length (chars s) + count_escapes (chars s)) in
      p ← ensure p (output_length + 3);
      let out := DQUOTE :: escaped (chars s) ++ [DQUOTE] in
      p ← put out 1 p;
      Done (advance (length out) p)
  end.

(** ** Trees *)

Definition put_lit (lit : string) (p : printbuffer) : exec printbuffer :=
  ensure p (Z.of_nat (length (chars lit)) + 1) ≫= put (chars lit) 1.
(** [ensure(needed); *p++ = c; *p = 0; offset++], the terminator if [nul] is 1. *)
Definition put_char (needed : Z) (nul : nat) (c : ascii) (p : printbuffer) : exec printbuffer :=
  p ← ensure p needed; p ← put [c] nul p; Done (advance 1 p).
Definition open_bracket : ascii -> printbuffer -> exec printbuffer := put_char 1 0.
Definition put_mark : ascii -> printbuffer -> exec printbuffer := put_char 2 1.

Definition print_separator (last : bool) (p : printbuffer) : exec printbuffer :=
  if last then Done p else put_mark ","%char p.

Fixpoint print_value (item : cJSON) (p : printbuffer) : exec printbuffer :=
  match item with
  | Item t vs vi vd _ ch =>
      match t with
      | cJSON_NULL => put_lit "null" p
      | cJSON_False => put_lit "false" p
      | cJSON_True => put_lit "true" p
      | cJSON_Number => print_number vi vd p
      | cJSON_String => print_string_ptr vs p
      | cJSON_Array =>
          p ← open_bracket "["%char p;
          p ← (fix print_elements (l : list cJSON) (p : printbuffer) : exec printbuffer :=
                 match l with
                 | [] => Done p
                 | current :: next =>
                     p ← print_value current p;
                     p ← print_separator (match next with [] => true | _ => false end) (update_offset p);
                     print_elements next p
                 end) ch p;
          put_mark "]"%char p
      | cJSON_Object =>
          p ← open_bracket "{"%char p;
          p ← (fix print_members (l : list cJSON) (p : printbuffer) : exec printbuffer :=
                 match l with
                 | [] => Done p
                 | current :: next =>
                     p ← print_string_ptr (key current) p;
                     p ← put_char 1 1 ":"%char (update_offset p);
                     p ← print_value current p;
                     p ← print_separator (match next with [] => true | _ => false end) (update_offset p);
                     print_members next p
                 end) ch p;
          put_mark "}"%char p
      | cJSON_Invalid => Fail
      end
  end.

Definition cJSON_PrintUnformatted (item : cJSON) : exec string :=
  p ← print_value item (PBuf [] 256 0);
  Done (of_chars (text (update_offset p))).

Definition print_elements : list cJSON -> printbuffer -> exec printbuffer :=
  fix print_elements (l : list cJSON) (p : printbuffer) : exec printbuffer :=
     match l with
     | [] => Done p
     | current :: next =>
         p ← print_value current p;
         p ← print_separator (match next with [] => true | _ => false end) (update_offset p);
         print_elements next p
     end.
Definition print_members : list cJSON -> printbuffer -> exec printbuffer :=
  fix print_members (l : list cJSON) (p : printbuffer) : exec printbuffer :=
     match l with
     | [] => Done p
     | current :: next =>
         p ← print_string_ptr (key current) p;
         p ← put_char 1 1 ":"%char (update_offset p);
         p ← print_value current p;
         p ← print_separator (match next with [] => true | _ => false end) (update_offset p);
         print_members next p
     end.

(** ** The reference text *)

Definition string_text (s : option string) : list ascii :=
  DQUOTE :: escaped (from_option chars [] s) ++ [DQUOTE].

Fixpoint json_text (item : cJSON) : list ascii :=
  match item with
  | Item t vs vi vd _ ch =>
      match t with
      | cJSON_NULL => chars "null"
      | cJSON_False => chars "false"
      | cJSON_True => chars "true"
      | cJSON_Number => number_chars vi vd
      | cJSON_String => string_text vs
      | cJSON_Array =>
          "["%char ::
          (fix elements (l : list cJSON) : list ascii :=
             match l with
             | [] => []
             | c :: l' => json_text c ++ match l' with [] => [] | _ => [","%char] end ++ elements l'
             end) ch ++ ["]"%char]
      | cJSON_Object =>
          "{"%char ::
          (fix members (l : list cJSON) : list ascii :=
             match l with
             | [] => []
             | c :: l' => string_text (key c) ++ ":"%char :: json_text c ++
                          match l' with [] => [] | _ => [","%char] end ++ members l'
             end) ch ++ ["}"%char]
      | cJSON_Invalid => []
      end
  end.
Definition comma {A} (l : list A) : list ascii := match l with [] => [] | _ => [","%char] end.
Definition elements_text : list cJSON -> list ascii :=
  fix elements (l : list cJSON) : list ascii :=
    match l with [] => [] | c :: l' => json_text c ++ comma l' ++ elements l' end.
Definition members_text : list cJSON -> list ascii :=
  fix members (l : list cJSON) : list ascii :=
    match l with
    | [] => []
    | c :: l' => string_text (key c) ++ ":"%char :: json_text c ++ comma l' ++ members l'
    end.

#[global] Arguments string_text : simpl never.

(** No character of the string needs the form \u00XX: those the code counts as
    one extra byte while it writes four, and whose last digit it loses. *)
Definition no_u_escape (s : string) : bool :=
  forallb (fun c => negb (needs_escape c) || match escape_letter c with Some _ => true | None => false end) (chars s).
Definition no_u_escape_opt (s : option string) : bool := from_option no_u_escape true s.
Fixpoint printable (item : cJSON) : bool :=
  match item with
  | Item t vs _ _ _ ch =>
      match t with
      | cJSON_Invalid => false
      | cJSON_String => no_u_escape_opt vs
      | cJSON_Array => forallb printable ch
      | cJSON_Object => forallb (fun c => no_u_escape_opt (key c) && printable c) ch
      | _ => true
      end
  end.

(** ** The printer produces the reference text *)

(** The terminated text lies inside the buffer, and the offset inside it. *)
Definition buffer_inv (p : printbuffer) : Prop :=
  Z.of_nat (length (text p)) < plength p /\ (poffset p <= length (text p))%nat.
(** Moreover nothing was written behind the offset. *)
Definition settled (p : printbuffer) : Prop :=
  Z.of_nat (length (text p)) < plength p /\ poffset p = length (text p).

(** [m] appends [t] to the settled buffer [p]. *)
Definition appends (p : printbuffer) (t : list ascii) (m : exec printbuffer) : Prop :=
  exists p', m = Done p' /\ buffer_inv p' /\ text p' = text p ++ t /\ poffset p' = poffset p.
Definition appends_settled (p : printbuffer) (t : list ascii) (m : exec printbuffer) : Prop :=
  exists p', m = Done p' /\ settled p' /\ text p' = text p ++ t.

Lemma settled_inv p : settled p -> buffer_inv p.
Proof. intros [? Ho]. split; [done|]. rewrite Ho. lia. Qed.

Lemma update_settled p : buffer_inv p -> settled (update_offset p).
Proof. intros [? _]. by split. Qed.

Lemma ensure_put p needed bs nul : settled p -> needed <= INT_MAX ->
  Z.of_nat (length bs + nul) <= needed + 1 -> Z.of_nat (length bs) < needed + 1 ->
  exists p', ensure p needed ≫= put bs nul = Done p' /\
    text p' = text p ++ bs /\ poffset p' = poffset p /\ Z.of_nat (length (text p')) < plength p'.
Proof.
  intros [Hlt Ho] Hn Hbs Hbs2. unfold ensure.
  rewrite (proj2 (andb_false_iff _ _)) by (right; apply Z.leb_gt; lia).
  rewrite (proj2 (Z.ltb_ge _ _)) by lia. rewrite Ho.
  destruct (_ <=? plength p) eqn:Hfit; simp_bool; cbn [mbind exec_bind]; unfold put;
    cbn [text plength poffset]; rewrite ?Ho, (proj2 (Z.leb_le _ _)) by lia;
    eexists; (split; [done|]); cbn [text plength poffset]; rewrite firstn_all;
    (split; [done|]); (split; [lia|]); rewrite length_app; lia.
Qed.

Ltac ensure_put p needed bs nul :=
  let E := fresh "E" in let p' := fresh "p" in
  destruct (ensure_put p needed bs nul) as (p' & E & ? & ? & ?); [done| | | |].

Lemma bind_assoc_exec {A B C} (m : exec A) (k : A -> exec B) (h : B -> exec C) :
  (m ≫= k) ≫= h = m ≫= (fun a => k a ≫= h).
Proof. by destruct m. Qed.

Lemma put_lit_appends lit p : settled p -> Z.of_nat (length (chars lit)) + 1 <= INT_MAX ->
  appends p (chars lit) (put_lit lit p).
Proof.
  intros Hp Hl. unfold put_lit.
  destruct (ensure_put p (Z.of_nat (length (chars lit)) + 1) (chars lit) 1) as (p' & -> & Ht & Ho & Hlt);
    [done|lia..|].
  exists p'. split; [done|]. split; [split; [done|]|done].
  rewrite Ho, Ht, (proj2 Hp), length_app. lia.
Qed.

(** The common shape: room, bytes, terminator or not, offset moved behind. *)
Lemma put_advance_appends p needed bs nul : settled p -> needed <= INT_MAX ->
  Z.of_nat (length bs + nul) <= needed + 1 -> Z.of_nat (length bs) < needed + 1 ->
  appends_settled p bs (p1 ← ensure p needed; p2 ← put bs nul p1; Done (advance (length bs) p2)).
Proof.
  intros Hp Hn Hb1 Hb2. rewrite <-bind_assoc_exec.
  destruct (ensure_put p needed bs nul) as (p' & -> & Ht & Ho & Hlt); [done..|].
  cbn [mbind exec_bind]. eexists. split; [done|]. split; [|done].
  split; [done|]. cbn. rewrite Ho, Ht, (proj2 Hp), length_app. lia.
Qed.

Lemma escaped_cons c s : escaped (c :: s) = escape_char c ++ escaped s.
Proof. done. Qed.
Lemma count_escapes_cons c s :
  count_escapes (c :: s) = ((if needs_escape c then 1 else 0) + count_escapes s)%nat.
Proof. unfold count_escapes. rewrite filter_cons. by destruct (needs_escape c). Qed.

Lemma escaped_length s : no_u_escape (of_chars s) = true ->
  length (escaped s) = (length s + count_escapes s)%nat.
Proof.
  unfold no_u_escape. rewrite list_ascii_of_string_of_list_ascii.
  induction s as [|c s IH]; [done|]. rewrite escaped_cons, count_escapes_cons, length_app.
  intros H. apply andb_true_iff in H as [Hc Hs]. rewrite (IH Hs). unfold escape_char.
  destruct (needs_escape c); simpl in Hc |- *; [|lia].
  destruct (escape_letter c); [simpl; lia | done].
Qed.

Lemma print_string_appends s p : settled p -> no_u_escape_opt s = true ->
  Z.of_nat (length (string_text s)) + 1 <= INT_MAX ->
  exists p', print_string_ptr s p = Done p' /\ buffer_inv p' /\ text p' = text p ++ string_text s.
Proof.
  intros Hp Hs Hl. destruct s as [s|].
  - simpl in Hs. unfold string_text in *. cbn [from_option] in *.
    pose proof (escaped_length (chars s)) as Hesc. rewrite string_of_list_ascii_of_string in Hesc.
    specialize (Hesc Hs). cbn [length] in Hl. rewrite length_app in Hl. cbn [length] in Hl.
    unfold print_string_ptr.
    destruct (put_advance_appends p (Z.of_nat (length (chars s) + count_escapes (chars s)) + 3)
      (DQUOTE :: escaped (chars s) ++ [DQUOTE]) 1) as (p' & Hd & Hs' & Ht).
    1: done. 1-3: cbn [length]; rewrite ?length_app; cbn [length]; lia.
    exists p'. split; [exact Hd|]. split; [by apply settled_inv|done].
  - unfold print_string_ptr.
    destruct (ensure_put p 3 [DQUOTE; DQUOTE] 1) as (p' & -> & Ht & Ho & Hlt);
      [done|unfold INT_MAX; lia|simpl; lia|simpl; lia|].
    exists p'. split; [done|]. split; [|done]. split; [done|]. rewrite Ho, Ht, (proj2 Hp), length_app. lia.
Qed.

(** [print_value] appends the text of the item. *)
Definition prints (i : cJSON) : Prop := forall p, settled p -> printable i = true ->
  Z.of_nat (length (json_text i)) + 1 <= INT_MAX ->
  exists p', print_value i p = Done p' /\ buffer_inv p' /\ text p' = text p ++ json_text i.

Lemma put_mark_appends c p : settled p -> appends_settled p [c] (put_mark c p).
Proof. intros Hp. apply (put_advance_appends p 2 [c] 1); [done|unfold INT_MAX; simpl; lia..]. Qed.
Lemma open_bracket_appends c p : settled p -> appends_settled p [c] (open_bracket c p).
Proof. intros Hp. apply (put_advance_appends p 1 [c] 0); [done|unfold INT_MAX; simpl; lia..]. Qed.

Lemma separator_appends {A} (l : list A) p : buffer_inv p ->
  appends_settled p (comma l) (print_separator (match l with [] => true | _ => false end) (update_offset p)).
Proof.
  intros Hp. apply update_settled in Hp. destruct l as [|x l]; simpl.
  - exists (update_offset p). split; [done|]. split; [done|]. by rewrite app_nil_r.
  - destruct (put_mark_appends ","%char _ Hp) as (p' & ? & ? & ?). by exists p'.
Qed.

Lemma elements_appends l : Forall prints l -> forall p, settled p -> forallb printable l = true ->
  Z.of_nat (length (elements_text l)) + 1 <= INT_MAX ->
  appends_settled p (elements_text l) (print_elements l p).
Proof.
  intros Hl. induction Hl as [|c l Hc Hl IH]; intros p Hp Hpr Hlen; simpl.
  { exists p. split; [done|]. split; [done|]. by rewrite app_nil_r. }
  simpl in Hpr, Hlen. apply andb_true_iff in Hpr as [Hpc Hpl].
  rewrite !length_app in Hlen.
  destruct (Hc p Hp Hpc ltac:(lia)) as (p1 & -> & Hi1 & Ht1). cbn [mbind exec_bind].
  destruct (separator_appends l p1 Hi1) as (p2 & -> & Hs2 & Ht2). cbn [mbind exec_bind].
  destruct (IH p2 Hs2 Hpl ltac:(lia)) as (p3 & E & Hs3 & Ht3).
  exists p3. split; [exact E|]. split; [done|]. by rewrite Ht3, Ht2, Ht1, <-!app_assoc.
Qed.

#[local] Opaque string_text.
Lemma members_appends l : Forall prints l -> forall p, settled p ->
  forallb (fun c => no_u_escape_opt (key c) && printable c) l = true ->
  Z.of_nat (length (members_text l)) + 1 <= INT_MAX ->
  appends_settled p (members_text l) (print_members l p).
Proof.
  intros Hl. induction Hl as [|c l Hc Hl IH]; intros p Hp Hpr Hlen; simpl.
  { exists p. split; [done|]. split; [done|]. by rewrite app_nil_r. }
  simpl in Hpr. apply andb_true_iff in Hpr as [Hpc Hpl]. apply andb_true_iff in Hpc as [Hpk Hpc].
  cbn [members_text] in Hlen. rewrite length_app in Hlen. cbn [length] in Hlen. rewrite !length_app in Hlen.
  destruct (print_string_appends (key c) p Hp Hpk ltac:(lia)) as (p1 & -> & Hi1 & Ht1).
  apply update_settled in Hi1. cbn [mbind exec_bind].
  destruct (put_advance_appends (update_offset p1) 1 [":"%char] 1) as (p2 & E2 & Hs2 & Ht2);
    [done|unfold INT_MAX; simpl; lia..|].
  change (put_char 1 1 ":"%char (update_offset p1) = Done p2) in E2. rewrite E2. cbn [mbind exec_bind].
  destruct (Hc p2 Hs2 Hpc ltac:(lia)) as (p3 & -> & Hi3 & Ht3). cbn [mbind exec_bind].
  destruct (separator_appends l p3 Hi3) as (p4 & -> & Hs4 & Ht4). cbn [mbind exec_bind].
  destruct (IH p4 Hs4 Hpl ltac:(lia)) as (p5 & E & Hs5 & Ht5).
  exists p5. split; [exact E|]. split; [done|].
  rewrite Ht5, Ht4, Ht3, Ht2. cbn [text update_offset]. rewrite Ht1. by rewrite <-!app_assoc.
Qed.

#[local] Transparent string_text.
Lemma prints_all i : prints i.
Proof.
  induction i as [t vs vi vd k ch IH] using cJSON_ind'. intros p Hp Hpr Hlen.
  destruct t; simpl in Hpr; try done.
  1-3: destruct (put_lit_appends _ _ Hp Hlen) as (p' & E & Hi & Ht & _); by exists p'.
  - destruct (put_advance_appends p (Z.of_nat (length (number_chars vi vd)) + 1) (number_chars vi vd) 1)
      as (p' & E & Hs & Ht); [done|exact Hlen|lia..|].
    exists p'. split; [exact E|]. split; [by apply settled_inv|done].
  - by apply print_string_appends.
  - change (json_text (Item cJSON_Array vs vi vd k ch)) with ("["%char :: elements_text ch ++ ["]"%char]) in *.
    cbn [length] in Hlen. rewrite length_app in Hlen. cbn [length] in Hlen.
    destruct (open_bracket_appends "["%char p Hp) as (p1 & E1 & Hs1 & Ht1).
    destruct (elements_appends ch IH p1 Hs1 Hpr ltac:(lia)) as (p2 & E2 & Hs2 & Ht2).
    destruct (put_mark_appends "]"%char p2 Hs2) as (p3 & E3 & Hs3 & Ht3).
    exists p3. split.
    { cbn [print_value]. rewrite E1. cbn [mbind exec_bind]. fold print_elements. rewrite E2. exact E3. }
    split; [by apply settled_inv|]. rewrite Ht3, Ht2, Ht1. by rewrite <-!app_assoc.
  - change (json_text (Item cJSON_Object vs vi vd k ch)) with ("{"%char :: members_text ch ++ ["}"%char]) in *.
    cbn [length] in Hlen. rewrite length_app in Hlen. cbn [length] in Hlen.
    destruct (open_bracket_appends "{"%char p Hp) as (p1 & E1 & Hs1 & Ht1).
    destruct (members_appends ch IH p1 Hs1 Hpr ltac:(lia)) as (p2 & E2 & Hs2 & Ht2).
    destruct (put_mark_appends "}"%char p2 Hs2) as (p3 & E3 & Hs3 & Ht3).
    exists p3. split.
    { cbn [print_value]. rewrite E1. cbn [mbind exec_bind]. fold print_members. rewrite E2. exact E3. }
    split; [by apply settled_inv|]. rewrite Ht3, Ht2, Ht1. by rewrite <-!app_assoc.
Qed.

(** A printable item of moderate size: the printer stays inside its buffer,
    succeeds, and returns exactly the reference text. *)
Lemma print_text i : printable i = true -> Z.of_nat (length (json_text i)) < INT_MAX ->
  cJSON_PrintUnformatted i = Done (of_chars (json_text i)).
Proof.
  intros Hpr Hlen. unfold cJSON_PrintUnformatted.
  destruct (prints_all i (PBuf [] 256 0)) as (p & -> & _ & Ht); [by split|done|lia|].
  cbn. by rewrite Ht.
Qed.

(** ** The overflow of print_string_ptr *)

Definition control_string (n : nat) : string := of_chars (replicate n "001"%char).

Lemma control_escaped n :
  length (escaped (replicate n "001"%char)) = (5 * n)%nat /\ count_escapes (replicate n "001"%char) = n.
Proof.
  induction n as [|n [IHe IHc]]; [done|].
  change (replicate (S n) "001"%char) with ("001"%char :: replicate n "001"%char).
  rewrite escaped_cons, count_escapes_cons, length_app, IHe, IHc. split; [simpl; lia|done].
Qed.

(** C34: the printer counts one extra byte for every character it escapes and
    keeps five bytes for a control character that has no short escape (a
    backslash, u, 00 and one digit; the second digit is overwritten): a string of 51 or more (up to
    a thousand million) characters of code 1 is written past the end of the
    output buffer. *)
Theorem print_control_overflow n : 51 <= Z.of_nat n <= 1000000000 ->
  cJSON_PrintUnformatted (set_string (Some (control_string n)) (set_type cJSON_String cJSON_New_Item))
  = Fault OutOfBounds.
Proof.
  intros Hn. unfold cJSON_PrintUnformatted. cbn [print_value set_string set_type cJSON_New_Item type].
  unfold print_string_ptr, control_string. rewrite !list_ascii_of_string_of_list_ascii.
  destruct (control_escaped n) as [He Hc]. rewrite Hc, length_replicate.
  unfold ensure. cbn [plength poffset text Z.of_nat andb Z.ltb Z.leb Z.compare].
  rewrite (proj2 (Z.ltb_ge _ _)) by (unfold INT_MAX; lia).
  assert (forall sz, sz <= 256 \/ sz = (Z.of_nat (n + n) + 3 + 0 + 1) * 2 ->
    put (DQUOTE :: escaped (replicate n "001"%char) ++ [DQUOTE]) 1 (PBuf [] sz 0) = Fault OutOfBounds) as Hput.
  { intros sz Hsz. unfold put. cbn [plength poffset length]. rewrite length_app, He. cbn [length].
    rewrite (proj2 (Z.leb_gt _ _)); [done|lia]. }
  change (256 <=? Z.of_nat 0) with false. cbv iota.
  destruct (_ <=? 256); cbn [mbind exec_bind]; (rewrite Hput; [done|]); [by left|by right].
Qed.

Lemma print_control_overflow_witness : 51 <= Z.of_nat 51 <= 1000000000 /\
  cJSON_PrintUnformatted (set_string (Some (control_string 51)) (set_type cJSON_String cJSON_New_Item)) = Fault OutOfBounds.
Proof. split; [vm_compute; split; discriminate|]. apply (print_control_overflow 51). vm_compute; split; discriminate. Defined.
