(* ===== verification/CJsonRound.v ===== *)
(** Round trip of the JSON text: [cJSON_Parse] reads back what
    [cJSON_PrintUnformatted] writes. *)

From Stdlib Require Import SpecFloat.
From S2P Require Import Prelude Double CJson CJsonParse CJsonPrint.

(** ** Items that survive the round trip

    Numbers are integers in the range of [int]; strings hold no terminator;
    members have a name. *)
Definition no_nul (s : string) : bool := negb (existsb (Ascii.eqb NUL) (chars s)).
Definition c_string_ok (s : option string) : bool := from_option no_nul false s.

Fixpoint json_ok (i : cJSON) : bool :=
  match i with
  | Item t vs vi vd _ ch =>
      match t with
      | cJSON_Invalid => false
      | cJSON_Number => bool_decide (is_int vi) && bool_decide (vd = d_of_Z vi)
      | cJSON_String => c_string_ok vs
      | cJSON_Array => forallb json_ok ch
      | cJSON_Object => forallb (fun c => c_string_ok (key c) && json_ok c) ch
      | _ => true
      end
  end.

Fixpoint nesting (i : cJSON) : nat :=
  match i with
  | Item t _ _ _ _ ch =>
      match t with
      | cJSON_Array | cJSON_Object => S (list_max (map nesting ch))
      | _ => 0
      end
  end.

(** What the parser makes of the text of [i]: the fields the text does not
    carry are those of a new item, and a true value has [valueint] 1. *)
Fixpoint parsed_as (k : option string) (i : cJSON) : cJSON :=
  match i with
  | Item t vs vi vd _ ch =>
      let n := set_key k (set_type t cJSON_New_Item) in
      match t with
      | cJSON_True => set_number 1 (S754_zero false) n
      | cJSON_Number => set_number vi vd n
      | cJSON_String => set_string vs n
      | cJSON_Array => set_child (map (parsed_as None) ch) n
      | cJSON_Object => set_child (map (fun c => parsed_as (key c) c) ch) n
      | _ => n
      end
  end.

(** ** Positions *)

Lemma at_lookup b c l : buffer_at_offset b = c :: l -> content b !! offset b = Some c.
Proof.
  unfold buffer_at_offset. intros H.
  rewrite <-(Nat.add_0_r (offset b)), <-lookup_drop, H. done.
Qed.

Lemma at_peek b c l d : buffer_at_offset b = c :: l -> peek_is b d = Ascii.eqb c d.
Proof. intros H. unfold peek_is. by rewrite (at_lookup _ _ _ H). Qed.

Lemma at_access b c l : buffer_at_offset b = c :: l -> can_access_at_index b 0 = true.
Proof.
  intros H. apply at_lookup, lookup_lt_Some in H. unfold can_access_at_index. apply Nat.ltb_lt. lia.
Qed.

Lemma at_adv b x l n : buffer_at_offset b = x ++ l -> n = length x -> buffer_at_offset (adv n b) = l.
Proof.
  unfold buffer_at_offset. intros H ->. simpl. by rewrite <-drop_drop, H, drop_app_length.
Qed.
Lemma at_adv1 b c l : buffer_at_offset b = c :: l -> buffer_at_offset (adv 1 b) = l.
Proof. intros H. by apply (at_adv _ [c]). Qed.

Lemma at_depth d b : buffer_at_offset (set_depth d b) = buffer_at_offset b.
Proof. done. Qed.

Lemma at_skip b c l : buffer_at_offset b = c :: l -> 32 < uchar c -> buffer_skip_whitespace b = b.
Proof.
  intros H Hc. unfold buffer_skip_whitespace. rewrite H. simpl.
  rewrite (proj2 (Z.leb_gt _ _)) by done.
  apply at_lookup, lookup_lt_Some in H.
  rewrite (proj2 (Nat.eqb_neq _ _)) by lia. by destruct b.
Qed.

Lemma adv_adv n m b : adv n (adv m b) = adv (m + n) b.
Proof. unfold adv, set_offset. simpl. f_equal. lia. Qed.
Lemma adv_0 b : adv 0 b = b.
Proof. destruct b. unfold adv, set_offset. simpl. by rewrite Nat.add_0_r. Qed.

Lemma starts_with_false b c l d lit : buffer_at_offset b = c :: l -> c <> d ->
  starts_with b (String d lit) = false.
Proof.
  intros H Hne. unfold starts_with. rewrite H. apply andb_false_intro2, bool_decide_eq_false. simpl.
  congruence.
Qed.

(** ** Strings *)

Lemma no_nul_spec s : no_nul s = true -> NUL ∉ chars s.
Proof.
  unfold no_nul. intros H Hin. apply negb_true_iff in H.
  assert (existsb (Ascii.eqb NUL) (chars s) = true); [|congruence].
  apply existsb_exists. exists NUL. split; [by apply list_elem_of_In | done].
Qed.

Lemma until_nul_id l : NUL ∉ l -> until_nul l = l.
Proof.
  induction l as [|c l IH]; [done|]. rewrite not_elem_of_cons. intros [Hc Hl]. simpl.
  destruct (Ascii.eqb_spec c NUL); [by subst|]. by rewrite IH.
Qed.

(** A character that needs no \u escape, and the two forms of its [escape_char]. *)
Definition short_escape (c : ascii) : bool :=
  negb (needs_escape c) || match escape_letter c with Some _ => true | None => false end.
Lemma no_u_escape_spec s : no_u_escape s = true -> Forall (fun c => short_escape c = true) (chars s).
Proof. intros H. apply List.Forall_forall. exact (proj1 (forallb_forall _ _) H). Qed.

Lemma escape_cases c : short_escape c = true ->
  (escape_char c = [c] /\ needs_escape c = false /\ c <> DQUOTE /\ c <> "\"%char) \/
  (exists e, escape_char c = ["\"%char; e] /\ needs_escape c = true /\ simple_escape e = Some c).
Proof.
  intros Hc. unfold short_escape in Hc. unfold escape_char. destruct (needs_escape c) eqn:Hn; simpl in Hc |- *.
  - right. destruct (escape_letter c) as [e|] eqn:He; [|done]. clear Hc.
    exists e. split; [done|]. split; [done|]. unfold escape_letter in He.
    repeat match type of He with
    | (if Ascii.eqb ?x ?y then _ else _) = _ => destruct (Ascii.eqb_spec x y) as [->|]; [by injection He as <-|]
    end. done.
  - left. split; [done|]. split; [done|]. unfold needs_escape in Hn.
    apply orb_false_iff in Hn as [Hn _]. apply orb_false_iff in Hn as [H1 H2].
    split; by apply Ascii.eqb_neq.
Qed.

Lemma scan_plain c l : c <> DQUOTE -> c <> "\"%char ->
  scan_string (c :: l) = (fun '(n, k) => (S n, k)) <$> scan_string l.
Proof.
  intros H1 H2. simpl. by rewrite (proj2 (Ascii.eqb_neq _ _) H1), (proj2 (Ascii.eqb_neq _ _) H2).
Qed.
Lemma scan_pair e l : scan_string ("\"%char :: e :: l) = (fun '(n, k) => (S (S n), S k)) <$> scan_string l.
Proof. done. Qed.

Lemma scan_escaped s l : Forall (fun c => short_escape c = true) s ->
  scan_string (escaped s ++ DQUOTE :: l) = Some (length (escaped s), count_escapes s).
Proof.
  induction 1 as [|c s Hc Hs IH]; [done|].
  rewrite escaped_cons, count_escapes_cons, <-app_assoc, length_app.
  destruct (escape_cases c Hc) as [(-> & -> & ? & ?)|(e & -> & -> & _)]; cbn [app length].
  - rewrite scan_plain, IH by done. done.
  - rewrite scan_pair, IH. done.
Qed.

Lemma escaped_long s : Forall (fun c => short_escape c = true) s -> (length s + count_escapes s <= length (escaped s))%nat.
Proof.
  induction 1 as [|c s Hc Hs IH]; [done|].
  rewrite escaped_cons, count_escapes_cons, length_app.
  destruct (escape_cases c Hc) as [(-> & -> & _)|(e & -> & -> & _)]; simpl; lia.
Qed.

Lemma emit_ok size out bs : (length out + length bs <= size)%nat -> emit size out bs = Done (out ++ bs).
Proof. intros H. unfold emit. by rewrite (proj2 (Nat.leb_le _ _)). Qed.

Lemma decode_plain f size c l n out : c <> "\"%char ->
  decode_string (S f) size (c :: l) (S n) out = (out' ← emit size out [c]; decode_string f size l n out').
Proof. intros H. cbn [decode_string]. cbn. by rewrite (proj2 (Ascii.eqb_neq _ _) H). Qed.
Lemma decode_simple f size e r l n out : simple_escape e = Some r ->
  decode_string (S f) size ("\"%char :: e :: l) (S (S n)) out = (out' ← emit size out [r]; decode_string f size l n out').
Proof. intros H. cbn [decode_string]. cbn. by rewrite H, Nat.sub_0_r. Qed.

Lemma decode_escaped s l : Forall (fun c => short_escape c = true) s -> forall fuel size out,
  (length (escaped s) <= fuel)%nat -> (length out + length s <= size)%nat ->
  decode_string fuel size (escaped s ++ l) (length (escaped s)) out = Done (out ++ s).
Proof.
  induction 1 as [|c s Hc Hs IH]; intros fuel size out Hf Hsz.
  { rewrite app_nil_r. by destruct fuel. }
  rewrite escaped_cons, <-app_assoc in *. rewrite length_app in *. simpl in Hsz.
  destruct fuel as [|fuel].
  { destruct (escape_cases c Hc) as [(E & _)|(e & E & _)]; rewrite E in Hf; simpl in Hf; lia. }
  destruct (escape_cases c Hc) as [(E & _ & _ & Hb)|(e & E & _ & He)];
    rewrite E in Hf |- *; cbn [app length] in Hf |- *; cbn [Nat.add].
  - rewrite decode_plain, emit_ok by (done || simpl; lia). cbn [mbind exec_bind].
    rewrite IH by (rewrite ?length_app; simpl; lia). by rewrite <-app_assoc.
  - erewrite decode_simple, emit_ok by (done || simpl; lia). cbn [mbind exec_bind].
    rewrite IH by (rewrite ?length_app; simpl; lia). by rewrite <-app_assoc.
Qed.

Lemma parse_string_text i b s l : buffer_at_offset b = string_text (Some s) ++ l -> no_nul s = true -> no_u_escape s = true ->
  parse_string i b =
  Done (set_string (Some s) (set_type cJSON_String i), adv (length (string_text (Some s))) b).
Proof.
  unfold string_text. cbn [from_option]. intros H Hs Hu. apply no_nul_spec in Hs. apply no_u_escape_spec in Hu.
  cbn [app] in H. rewrite <-app_assoc in H. cbn [app] in H.
  unfold parse_string. rewrite (at_lookup _ _ _ H), H. cbn [at_index mbind exec_bind drop].
  change (Ascii.eqb DQUOTE DQUOTE) with true. cbn [negb].
  rewrite !drop_0. rewrite scan_escaped by done.
  pose proof (escaped_long _ Hu).
  rewrite decode_escaped by (done || simpl; lia). cbn [app mbind exec_bind].
  rewrite emit_ok by (simpl; lia). cbn [mbind exec_bind].
  rewrite until_nul_id, string_of_list_ascii_of_string by done.
  do 3 f_equal. cbn [length]. rewrite length_app. simpl. lia.
Qed.

(** ** Integers *)

Lemma digit_spec d : 0 <= d < 10 -> is_digit (digit d) = true /\ digit_val (digit d) = d.
Proof.
  intros Hd. unfold is_digit, digit_val, digit.
  rewrite uchar_ascii_of_N by lia. rewrite Z2N.id by lia.
  split; [apply andb_true_iff; split; apply Z.leb_le; lia | lia].
Qed.

Lemma scan_digits_cons d l a k : 0 <= d < 10 ->
  scan_digits (digit d :: l) a k = scan_digits l (10 * a + d) (S k).
Proof. intros Hd. destruct (digit_spec d Hd) as [H1 H2]. cbn. by rewrite H1, H2. Qed.

(** The digits of [n], whatever follows them. *)
Lemma digits_of_spec fuel : forall n acc, 0 <= n < 10 ^ Z.of_nat fuel -> (0 < fuel)%nat ->
  exists D, digits_of fuel n acc = D ++ acc /\ (0 < length D)%nat /\
    Forall (fun c => is_digit c = true) D /\
    forall a k r, scan_digits (D ++ r) a k = scan_digits r (a * 10 ^ Z.of_nat (length D) + n) (k + length D)%nat.
Proof.
  induction fuel as [|fuel IH]; intros n acc Hn Hf; [lia|]. cbn [digits_of].
  assert (0 <= n mod 10 < 10) as Hd by (apply Z.mod_pos_bound; lia).
  destruct (digit_spec _ Hd) as [Hdig _].
  destruct (n <? 10) eqn:Hlt; simp_bool.
  - exists [digit (n mod 10)]. split; [done|]. split; [simpl; lia|]. split; [by repeat constructor|].
    intros a k r. cbn [app length]. rewrite scan_digits_cons by done. f_equal; [|lia].
    rewrite Z.mod_small by lia. change (10 ^ Z.of_nat 1) with 10. lia.
  - rewrite Nat2Z.inj_succ, Z.pow_succ_r in Hn by lia.
    assert (fuel <> 0)%nat.
    { intros ->. change (10 * 10 ^ Z.of_nat 0) with 10 in Hn. lia. }
    destruct (IH (n / 10) (digit (n mod 10) :: acc)) as (D & -> & HD & Hall & Hscan); [|lia|].
    { split; [apply Z.div_pos; lia | apply Z.div_lt_upper_bound; lia]. }
    exists (D ++ [digit (n mod 10)]). split; [by rewrite <-app_assoc|].
    split; [rewrite length_app; lia|].
    split; [apply Forall_app; split; [done|by repeat constructor]|].
    intros a k r. rewrite <-app_assoc, Hscan. cbn [app]. rewrite scan_digits_cons by done.
    rewrite length_app. cbn [length].
    rewrite Nat2Z.inj_add, Z.pow_add_r by lia. change (10 ^ Z.of_nat 1) with 10.
    f_equal; [|lia]. pose proof (Z.div_mod n 10). lia.
Qed.

Lemma dec_chars_spec n : 0 <= n < 10 ^ 20 ->
  (0 < length (dec_chars n))%nat /\ Forall (fun c => is_digit c = true) (dec_chars n) /\
  scan_digits (dec_chars n) 0 0 = (n, length (dec_chars n), []).
Proof.
  intros Hn. destruct (digits_of_spec 20 n [] Hn ltac:(lia)) as (D & HD & Hpos & Hall & Hs).
  rewrite app_nil_r in HD. unfold dec_chars. rewrite HD. split; [done|]. split; [done|].
  specialize (Hs 0 0%nat []). rewrite app_nil_r in Hs. exact Hs.
Qed.

Definition number_char (c : ascii) : bool := is_digit c || char_in c "+-eE.".

Lemma number_run_app D c l : Forall (fun c => number_char c = true) D -> number_char c = false ->
  number_run (D ++ c :: l) = D.
Proof.
  intros HD Hc. unfold number_char in *. induction HD as [|d D Hd HD IH]; simpl.
  - by rewrite Hc.
  - by rewrite Hd, IH.
Qed.

Lemma int_chars_number z : is_int z -> Forall (fun c => number_char c = true) (int_chars z).
Proof.
  unfold is_int, INT_MIN, INT_MAX. intros Hz. unfold int_chars.
  destruct (z <? 0) eqn:Hs; simp_bool.
  - constructor; [done|]. destruct (dec_chars_spec (- z)) as (_ & H & _); [lia|].
    eapply Forall_impl; [|exact H]. intros c Hc. unfold number_char. by rewrite Hc.
  - destruct (dec_chars_spec z) as (_ & H & _); [lia|].
    eapply Forall_impl; [|exact H]. intros c Hc. unfold number_char. by rewrite Hc.
Qed.

Lemma digit_not_sign c : is_digit c = true -> Ascii.eqb c "-"%char = false /\ Ascii.eqb c "+"%char = false.
Proof.
  intros H. split; apply Ascii.eqb_neq; intros ->; done.
Qed.

(** The core of [strtod] on an unsigned digit string. *)
Lemma strtod_int z : is_int z -> strtod (int_chars z) = (d_of_Z z, length (int_chars z)).
Proof.
  unfold is_int, INT_MIN, INT_MAX. intros Hz. unfold int_chars.
  destruct (z <? 0) eqn:Hs; simp_bool.
  - destruct (dec_chars_spec (- z)) as (Hpos & Hd & Hscan); [lia|].
    unfold strtod. change (Ascii.eqb "-" "-") with true. cbv iota. rewrite Hscan. cbv iota.
    rewrite (proj2 (Nat.eqb_neq _ _)) by lia. cbn [scan_exponent]. f_equal; [|simpl; lia].
    unfold d_of_decimal. change (0 <=? 0 - Z.of_nat 0) with true. cbv iota.
    change (10 ^ (0 - Z.of_nat 0)) with 1. rewrite Z.mul_1_r. replace (-1 * - z) with z by lia.
    destruct z as [|p|p]; [lia|lia|done].
  - destruct (dec_chars_spec z) as (Hpos & Hd & Hscan); [lia|].
    destruct (dec_chars z) as [|c D]; [simpl in Hpos; lia|].
    inversion_clear Hd as [|?? Hc _]. destruct (digit_not_sign _ Hc) as [H1 H2].
    unfold strtod. rewrite H1, H2, Hscan. cbv iota.
    rewrite (proj2 (Nat.eqb_neq _ _)) by lia. cbn [scan_exponent]. f_equal; [|simpl; lia].
    unfold d_of_decimal. change (0 <=? 0 - Z.of_nat 0) with true. cbv iota.
    change (10 ^ (0 - Z.of_nat 0)) with 1. rewrite Z.mul_1_r. replace (1 * z) with z by lia. done.
Qed.

Lemma number_chars_int z : is_int z -> number_chars z (d_of_Z z) = int_chars z.
Proof. intros Hz. unfold number_chars. by destruct (d_of_Z_regular z Hz) as (-> & -> & ->). Qed.

Lemma parse_number_text i b z c l : is_int z -> number_char c = false ->
  buffer_at_offset b = int_chars z ++ c :: l ->
  parse_number i b =
  Done (set_type cJSON_Number (set_number z (d_of_Z z) i), adv (length (int_chars z)) b).
Proof.
  intros Hz Hc Hb. unfold parse_number. rewrite Hb, number_run_app, strtod_int by (done || by apply int_chars_number).
  rewrite valueint_of_Z by done.
  rewrite (proj2 (Nat.eqb_neq _ _)); [done|].
  unfold int_chars. unfold is_int, INT_MIN, INT_MAX in Hz.
  destruct (z <? 0) eqn:Hs; simp_bool; [simpl; lia|].
  destruct (dec_chars_spec z); lia.
Qed.

(** ** Values *)

Lemma starts_with_true b lit l : buffer_at_offset b = chars lit ++ l -> lit <> EmptyString ->
  starts_with b lit = true.
Proof.
  intros H Hne. unfold starts_with, can_read. rewrite H.
  rewrite <-length_chars, take_app_length, (bool_decide_eq_true_2 _ eq_refl), andb_true_r.
  apply Nat.leb_le. pose proof (f_equal length H) as Hl.
  unfold buffer_at_offset in Hl. rewrite length_drop, length_app in Hl.
  destruct lit; [done|]. simpl in *. lia.
Qed.

Lemma is_number_start_at b c l : buffer_at_offset b = c :: l ->
  is_number_start b = Ascii.eqb c "-"%char || is_digit c.
Proof. intros H. unfold is_number_start. by rewrite (at_lookup _ _ _ H). Qed.

(** Which branch [parse_value] takes is decided by the first character. *)
Lemma dispatch f i b c l : buffer_at_offset b = c :: l ->
  c <> "n"%char -> c <> "f"%char -> c <> "t"%char ->
  parse_value (S f) i b =
  if Ascii.eqb c DQUOTE then parse_string i b
  else if Ascii.eqb c "-"%char || is_digit c then parse_number i b
  else if Ascii.eqb c "["%char then parse_array f i b
  else if Ascii.eqb c "{"%char then parse_object f i b
  else Fail.
Proof.
  intros H Hn Hf Ht. cbn [parse_value].
  rewrite (starts_with_false _ _ _ _ _ H Hn), (starts_with_false _ _ _ _ _ H Hf), (starts_with_false _ _ _ _ _ H Ht).
  rewrite !(at_peek _ _ _ _ H), (is_number_start_at _ _ _ H). done.
Qed.

(** A new item, whatever its type field holds. *)
Definition fresh_item (k : option string) (i : cJSON) : Prop :=
  exists t, i = Item t None 0 (S754_zero false) k [].

Definition reads (i : cJSON) : Prop := forall fuel k item b c l,
  printable i = true -> json_ok i = true -> (nesting i + depth b <= 1000)%nat -> fresh_item k item ->
  buffer_at_offset b = json_text i ++ c :: l -> number_char c = false ->
  (3 * length (json_text i) + 1 <= fuel)%nat ->
  parse_value fuel item b = Done (parsed_as k i, adv (length (json_text i)) b).

Lemma int_chars_head z : is_int z -> exists c D, int_chars z = c :: D /\ (c = "-"%char \/ is_digit c = true).
Proof.
  unfold is_int, INT_MIN, INT_MAX. intros Hz. unfold int_chars.
  destruct (z <? 0) eqn:Hs; simp_bool; [by repeat eexists; left|].
  destruct (dec_chars_spec z) as (Hpos & Hd & _); [lia|].
  destruct (dec_chars z) as [|c D]; [simpl in Hpos; lia|].
  inversion_clear Hd. repeat eexists. by right.
Qed.

Lemma number_head c : (c = "-"%char \/ is_digit c = true) ->
  32 < uchar c /\ c <> "]"%char /\ c <> "}"%char /\ c <> "n"%char /\ c <> "f"%char /\ c <> "t"%char /\ c <> DQUOTE.
Proof.
  intros [->|H]; [by repeat split|]. assert (48 <= uchar c) by (unfold is_digit in H; simp_bool; lia).
  split; [lia|]. repeat split; intros ->; done.
Qed.

Lemma json_text_head i : json_ok i = true ->
  exists c l, json_text i = c :: l /\ 32 < uchar c /\ c <> "]"%char /\ c <> "}"%char.
Proof.
  destruct i as [t vs vi vd k ch]. destruct t; simpl; intros H; try done; try (by repeat eexists).
  simp_bool. apply bool_decide_eq_true in H, H0. subst vd. rewrite number_chars_int by done.
  destruct (int_chars_head vi) as (c & D & -> & Hc); [done|].
  destruct (number_head _ Hc) as (? & ? & ? & _). by repeat eexists.
Qed.

Lemma comma_cases {A} (l : list A) : (l = [] /\ comma l = []) \/ (exists x k, l = x :: k /\ comma l = [","%char]).
Proof. destruct l; [by left | right; by repeat eexists]. Qed.

Lemma peek_cons b c l d : buffer_at_offset b = c :: l -> c <> d -> peek_is b d = false.
Proof. intros H Hne. rewrite (at_peek _ _ _ _ H). by apply Ascii.eqb_neq. Qed.
Lemma peek_same b c l : buffer_at_offset b = c :: l -> peek_is b c = true.
Proof. intros H. rewrite (at_peek _ _ _ _ H). by apply Ascii.eqb_eq. Qed.

Lemma nesting_cons c ch : list_max (map nesting (c :: ch)) = Nat.max (nesting c) (list_max (map nesting ch)).
Proof. done. Qed.

Lemma reads_elements ch : Forall reads ch -> ch <> [] -> forall fuel acc b l,
  forallb printable ch = true -> forallb json_ok ch = true -> (list_max (map nesting ch) + depth b <= 1000)%nat ->
  buffer_at_offset (adv 1 b) = elements_text ch ++ "]"%char :: l ->
  (3 * length (elements_text ch) + 2 <= fuel)%nat ->
  parse_elements fuel acc b = Done (acc ++ map (parsed_as None) ch, adv (1 + length (elements_text ch)) b).
Proof.
  intros Hch. induction Hch as [|c ch Hc Hch IH]; [done|]. intros _ fuel acc b l Hpr Hok Hn Hb Hf.
  cbn [forallb] in Hok, Hpr. apply andb_true_iff in Hok as [Hokc Hokch]. apply andb_true_iff in Hpr as [Hpc Hpch].
  rewrite nesting_cons in Hn. cbn [elements_text] in Hb, Hf. fold elements_text in Hb, Hf.
  rewrite <-!app_assoc in Hb. rewrite !length_app in Hf.
  destruct fuel as [|fuel]; [lia|]. cbn [parse_elements].
  destruct (json_text_head _ Hokc) as (c0 & t0 & Ht0 & Hc0 & _).
  assert (buffer_skip_whitespace (adv 1 b) = adv 1 b) as ->.
  { eapply at_skip; [|exact Hc0]. rewrite Hb, Ht0. done. }
  destruct (comma_cases ch) as [[-> Hcm]|(x & ch' & -> & Hcm)].
  - cbn [comma app elements_text] in Hb. rewrite Hcm in *. cbn [elements_text length] in Hf.
    rewrite (Hc fuel None _ _ "]"%char l) by (done || (simpl; lia) || by eexists).
    cbn [mbind exec_bind]. assert (Hb2 := at_adv _ _ _ _ Hb eq_refl).
    rewrite (at_skip _ _ _ Hb2) by done. rewrite (peek_cons _ _ _ _ Hb2) by done.
    cbn [elements_text map]. rewrite Hcm, !app_nil_r, adv_adv. done.
  - rewrite Hcm in *. cbn [app] in Hb. cbn [length] in Hf.
    rewrite (Hc fuel None _ _ ","%char _) by (done || (simpl; lia) || by eexists).
    cbn [mbind exec_bind]. assert (Hb2 := at_adv _ _ _ _ Hb eq_refl).
    rewrite (at_skip _ _ _ Hb2) by done. rewrite (peek_same _ _ _ Hb2).
    rewrite (IH ltac:(done) fuel _ _ l); [|done|done|cbn [adv set_offset depth]; lia|exact (at_adv1 _ _ _ Hb2)|lia].
    rewrite !adv_adv. f_equal. f_equal; [by rewrite <-app_assoc|].
    f_equal. cbn [elements_text]. fold elements_text. rewrite !length_app, Hcm. simpl. lia.
Qed.

Lemma members_text_cons c ch :
  members_text (c :: ch) = string_text (key c) ++ ":"%char :: json_text c ++ comma ch ++ members_text ch.
Proof. done. Qed.

Lemma reads_members ch : Forall reads ch -> ch <> [] -> forall fuel acc b l,
  forallb (fun c => no_u_escape_opt (key c) && printable c) ch = true ->
  forallb (fun c => c_string_ok (key c) && json_ok c) ch = true ->
  (list_max (map nesting ch) + depth b <= 1000)%nat ->
  buffer_at_offset (adv 1 b) = members_text ch ++ "}"%char :: l ->
  (3 * length (members_text ch) + 2 <= fuel)%nat ->
  parse_members fuel acc b =
  Done (acc ++ map (fun c => parsed_as (key c) c) ch, adv (1 + length (members_text ch)) b).
Proof.
  intros Hch. induction Hch as [|c ch Hc Hch IH]; [done|]. intros _ fuel acc b l Hpr Hok Hn Hb Hf.
  cbn [forallb] in Hok, Hpr. apply andb_true_iff in Hok as [Hokc Hokch]. apply andb_true_iff in Hokc as [Hk Hokc].
  apply andb_true_iff in Hpr as [Hpc Hpch]. apply andb_true_iff in Hpc as [Hpk Hpc].
  destruct (key c) as [k|] eqn:Hkey; [|done]. simpl in Hk, Hpk.
  rewrite nesting_cons in Hn. cbn [members_text] in Hb, Hf. fold members_text in Hb, Hf. rewrite Hkey in Hb, Hf.
  rewrite <-!app_assoc in Hb. cbn [app] in Hb. rewrite <-!app_assoc in Hb.
  rewrite length_app in Hf. cbn [length] in Hf. rewrite !length_app in Hf.
  destruct fuel as [|fuel]; [lia|]. cbn [parse_members].
  assert (can_access_at_index b 1 = true) as ->.
  { pose proof (at_lookup (adv 1 b) DQUOTE _ Hb) as Hl. apply lookup_lt_Some in Hl. by apply Nat.ltb_lt. }
  cbn [negb].
  rewrite (at_skip (adv 1 b) DQUOTE _ Hb) by done.
  rewrite (parse_string_text _ _ _ _ Hb Hk Hpk). cbn [mbind exec_bind].
  assert (Hb1 := at_adv _ _ _ _ Hb eq_refl).
  rewrite (at_skip _ _ _ Hb1) by done. rewrite (peek_same _ _ _ Hb1). cbn [negb].
  assert (Hb2 := at_adv1 _ _ _ Hb1).
  destruct (json_text_head _ Hokc) as (c0 & t0 & Ht0 & Hc0 & _).
  assert (Hsk := fun H => at_skip (adv 1 (adv (length (string_text (Some k))) (adv 1 b))) c0 (t0 ++ comma ch ++ members_text ch ++ "}"%char :: l) H Hc0).
  rewrite Hsk by (by rewrite Hb2, Ht0). clear Hsk.
  destruct (comma_cases ch) as [[-> Hcm]|(x & ch' & -> & Hcm)].
  - cbn [comma app members_text] in Hb2. rewrite Hcm in *. cbn [members_text length] in Hf.
    rewrite (Hc fuel (Some k) _ _ "}"%char l) by (done || (simpl; lia) || by eexists).
    cbn [mbind exec_bind]. assert (Hb3 := at_adv _ _ _ _ Hb2 eq_refl).
    rewrite (at_skip _ _ _ Hb3) by done. rewrite (peek_cons _ _ _ _ Hb3) by done.
    cbn [members_text map]. rewrite Hkey, Hcm, !app_nil_r, !adv_adv, length_app. by do 3 f_equal.
  - rewrite Hcm in *. cbn [app] in Hb2. cbn [length] in Hf.
    rewrite (Hc fuel (Some k) _ _ ","%char _) by (done || (simpl; lia) || by eexists).
    cbn [mbind exec_bind]. assert (Hb3 := at_adv _ _ _ _ Hb2 eq_refl).
    rewrite (at_skip _ _ _ Hb3) by done. rewrite (peek_same _ _ _ Hb3).
    rewrite (IH ltac:(done) fuel _ _ l); [|done|done|cbn [adv set_offset depth]; lia|exact (at_adv1 _ _ _ Hb3)|lia].
    rewrite !adv_adv. f_equal. f_equal; [rewrite <-app_assoc; cbn [map app]; by rewrite Hkey|].
    f_equal. rewrite (members_text_cons c (x :: ch')), Hkey, Hcm, length_app. cbn [length].
    rewrite !length_app. simpl. lia.
Qed.

Lemma reads_array t vs vi vd k ch : Forall reads ch -> t = cJSON_Array -> reads (Item t vs vi vd k ch).
Proof.
  intros Hch -> fuel k' item b c l Hpr Hok Hn [t0 ->] Hb Hc Hf.
  change (json_text (Item cJSON_Array vs vi vd k ch)) with ("["%char :: elements_text ch ++ ["]"%char]) in *.
  cbn [app length] in Hb, Hf |- *. rewrite <-app_assoc in Hb. rewrite length_app in Hf |- *.
  cbn [app length] in Hb, Hf |- *. cbn [nesting] in Hn. cbn [json_ok] in Hok. cbn [printable] in Hpr.
  destruct fuel as [|[|fuel]]; [lia..|].
  rewrite (dispatch _ _ _ _ _ Hb) by done. cbn [Ascii.eqb Bool.eqb orb].
  change (Ascii.eqb "[" DQUOTE) with false. cbn [parse_array].
  rewrite (proj2 (Nat.leb_gt _ _)) by lia.
  rewrite (at_lookup (set_depth _ b) _ _ Hb). cbn [at_index mbind exec_bind].
  change (Ascii.eqb "[" "[") with true. cbn [negb].
  set (b1 := set_depth (S (depth b)) b) in *. change (buffer_at_offset b) with (buffer_at_offset b1) in Hb.
  assert (Hb1 := at_adv1 _ _ _ Hb).
  destruct ch as [|x ch].
  - cbn [elements_text app length] in *. rewrite (at_skip _ _ _ Hb1), (peek_same _ _ _ Hb1) by done.
    cbn. unfold adv, set_offset, b1, set_depth. cbn. do 3 f_equal. lia.
  - pose proof Hok as Hok'. cbn [forallb] in Hok'. apply andb_true_iff in Hok' as [Hx _].
    destruct (json_text_head _ Hx) as (c0 & t1 & Ht1 & Hc0 & Hne & _).
    pose proof Hb1 as Hb1'. cbn [elements_text] in Hb1'. rewrite Ht1 in Hb1'. cbn [app] in Hb1'.
    rewrite (at_skip _ _ _ Hb1' Hc0), (peek_cons _ _ _ _ Hb1' Hne), (at_access _ _ _ Hb1'). cbn [negb].
    assert (adv 1 (set_offset (pred (offset (adv 1 b1))) (adv 1 b1)) = adv 1 b1) as Ha.
    { unfold adv, set_offset. cbn. f_equal. lia. }
    rewrite (reads_elements _ Hch) with (l := c :: l); [|done|done|done|change (depth (set_offset (pred (offset (adv 1 b1))) (adv 1 b1))) with (S (depth b)); lia|by rewrite Ha|lia].
    cbn [mbind exec_bind app].
    assert (adv (1 + length (elements_text (x :: ch))) (set_offset (pred (offset (adv 1 b1))) (adv 1 b1))
            = adv (1 + length (elements_text (x :: ch))) b1) as ->.
    { unfold adv, set_offset. cbn [content offset depth]. f_equal. lia. }
    assert (Hb2 : buffer_at_offset (adv (1 + length (elements_text (x :: ch))) b1) = "]"%char :: c :: l).
    { rewrite <-adv_adv. by apply (at_adv _ (elements_text (x :: ch))). }
    rewrite (peek_same _ _ _ Hb2). cbn [negb]. do 2 f_equal.
    unfold adv, set_offset, b1, set_depth. cbn [content offset depth pred]. f_equal. lia.
Qed.

Lemma reads_object t vs vi vd k ch : Forall reads ch -> t = cJSON_Object -> reads (Item t vs vi vd k ch).
Proof.
  intros Hch -> fuel k' item b c l Hpr Hok Hn [t0 ->] Hb Hc Hf.
  change (json_text (Item cJSON_Object vs vi vd k ch)) with ("{"%char :: members_text ch ++ ["}"%char]) in *.
  cbn [app length] in Hb, Hf |- *. rewrite <-app_assoc in Hb. rewrite length_app in Hf |- *.
  cbn [app length] in Hb, Hf |- *. cbn [nesting] in Hn. cbn [json_ok] in Hok. cbn [printable] in Hpr.
  destruct fuel as [|[|fuel]]; [lia..|].
  rewrite (dispatch _ _ _ _ _ Hb) by done.
  change (Ascii.eqb "{" DQUOTE) with false. cbn [parse_object Ascii.eqb Bool.eqb orb].
  rewrite (proj2 (Nat.leb_gt _ _)) by lia.
  set (b1 := set_depth (S (depth b)) b) in *. change (buffer_at_offset b) with (buffer_at_offset b1) in Hb.
  rewrite (peek_same _ _ _ Hb). cbn [negb].
  assert (Hb1 := at_adv1 _ _ _ Hb).
  destruct ch as [|x ch].
  - cbn [members_text app length] in *. rewrite (at_skip _ _ _ Hb1), (peek_same _ _ _ Hb1) by done.
    cbn. unfold adv, set_offset, b1, set_depth. cbn. do 3 f_equal. lia.
  - pose proof Hb1 as Hb1'. cbn [members_text] in Hb1'. unfold string_text in Hb1'. cbn [app] in Hb1'.
    rewrite (at_skip _ _ _ Hb1'), (peek_cons _ _ _ _ Hb1'), (at_access _ _ _ Hb1') by done. cbn [negb].
    assert (adv 1 (set_offset (pred (offset (adv 1 b1))) (adv 1 b1)) = adv 1 b1) as Ha.
    { unfold adv, set_offset. cbn. f_equal. lia. }
    rewrite (reads_members _ Hch) with (l := c :: l); [|done|done|done|change (depth (set_offset (pred (offset (adv 1 b1))) (adv 1 b1))) with (S (depth b)); lia|by rewrite Ha|lia].
    cbn [mbind exec_bind app].
    assert (adv (1 + length (members_text (x :: ch))) (set_offset (pred (offset (adv 1 b1))) (adv 1 b1))
            = adv (1 + length (members_text (x :: ch))) b1) as ->.
    { unfold adv, set_offset. cbn [content offset depth]. f_equal. lia. }
    assert (Hb2 : buffer_at_offset (adv (1 + length (members_text (x :: ch))) b1) = "}"%char :: c :: l).
    { rewrite <-adv_adv. by apply (at_adv _ (members_text (x :: ch))). }
    rewrite (peek_same _ _ _ Hb2). cbn [negb]. do 2 f_equal.
    unfold adv, set_offset, b1, set_depth. cbn [content offset depth pred]. f_equal. lia.
Qed.

Lemma reads_all i : reads i.
Proof.
  induction i as [t vs vi vd k ch IH] using cJSON_ind'.
  destruct t; [| | | | | |by apply reads_array|by apply reads_object].
  all: intros fuel k' item b c l Hpr Hok Hn [t0 ->] Hb Hc Hf; (destruct fuel as [|fuel]; [lia|]).
  - done.
  - cbn [parse_value]. rewrite (starts_with_false _ _ _ _ _ Hb), (starts_with_true _ _ _ Hb) by done. done.
  - cbn [parse_value]. rewrite !(starts_with_false _ _ _ _ _ Hb), (starts_with_true _ _ _ Hb) by done. done.
  - cbn [parse_value]. rewrite (starts_with_true _ _ _ Hb) by done. done.
  - cbn [json_ok] in Hok. apply andb_true_iff in Hok as [Hz Hd]. apply bool_decide_eq_true in Hz, Hd. subst vd.
    cbn [json_text] in *. rewrite (number_chars_int _ Hz) in *.
    destruct (int_chars_head _ Hz) as (c0 & D & HD & Hh).
    destruct (number_head _ Hh) as (_ & _ & _ & ? & ? & ? & Hq).
    pose proof Hb as Hb'. rewrite HD in Hb'. cbn [app] in Hb'.
    rewrite (dispatch _ _ _ _ _ Hb') by done. rewrite (proj2 (Ascii.eqb_neq _ _) Hq).
    assert (Ascii.eqb c0 "-" || is_digit c0 = true)%bool as ->.
    { destruct Hh as [->| ->]; [done|apply orb_true_r]. }
    by rewrite (parse_number_text _ _ _ _ _ Hz Hc Hb).
  - cbn [json_ok] in Hok. destruct vs as [s|]; [|done]. cbn [json_text] in *.
    pose proof Hb as Hb'. unfold string_text in Hb'. cbn [app] in Hb'.
    rewrite (dispatch _ _ _ _ _ Hb') by done. change (Ascii.eqb DQUOTE DQUOTE) with true.
    by rewrite (parse_string_text _ _ _ _ Hb Hok Hpr).
Qed.

(** The parser reads back the reference text of an item. *)
Lemma parse_json_text i : printable i = true -> json_ok i = true -> (nesting i <= 1000)%nat ->
  cJSON_Parse (of_chars (json_text i)) = Done (parsed_as None i).
Proof.
  intros Hpr Hok Hn. unfold cJSON_Parse.
  assert (buffer_at_offset (buffer_of (of_chars (json_text i))) = json_text i ++ [NUL]) as Hb.
  { unfold buffer_of, buffer_at_offset. cbn. by rewrite drop_0, list_ascii_of_string_of_list_ascii. }
  destruct (json_text_head _ Hok) as (c & l & Ht & Hc & _).
  rewrite (at_skip _ c (l ++ [NUL])) by (done || by rewrite Hb, Ht).
  rewrite (reads_all i _ None _ _ NUL []); [done|done|done|cbn; lia|by eexists|done|done|].
  unfold parse_fuel. rewrite <-length_chars, list_ascii_of_string_of_list_ascii. lia.
Qed.

(** ** The characters of the text

    None is below the space, so there is no line feed in it and no NUL. *)
Definition plain (l : list ascii) : Prop := Forall (fun c => 32 <= uchar c) l.
Lemma plain_not c l : plain l -> uchar c < 32 -> c ∉ l.
Proof. unfold plain. rewrite list.Forall_forall. intros H Hc Hin. specialize (H c Hin). cbn beta in H. lia. Qed.
Lemma plain_char c : negb (uchar c <? 32) = true -> 32 <= uchar c.
Proof. intros H%negb_true_iff. by apply Z.ltb_ge in H. Qed.
Lemma escape_char_plain c : plain (escape_char c).
Proof. destruct c as [[] [] [] [] [] [] [] []]; by apply (bool_decide_unpack _). Qed.
Lemma string_text_plain s : plain (string_text s).
Proof.
  unfold string_text. apply List.Forall_cons; [done|]. apply Forall_app. split; [|by apply List.Forall_cons].
  unfold escaped. induction (from_option chars [] s) as [|c l IH]; [constructor|]. apply Forall_app. split; [apply escape_char_plain|exact IH].
Qed.
Lemma int_chars_plain z : is_int z -> plain (int_chars z).
Proof.
  intros Hz. refine (List.Forall_impl _ _ (int_chars_number z Hz)). intros c. destruct c as [[] [] [] [] [] [] [] []]; vm_compute; done.
Qed.
Lemma plain_literal s : forallb (fun c => negb (uchar c <? 32)) (chars s) = true -> plain (chars s).
Proof. rewrite forallb_forall. intros H. apply list.Forall_forall. intros c Hc. apply plain_char, H. by apply list_elem_of_In. Qed.
Lemma comma_plain {A} (l : list A) : plain (comma l).
Proof. destruct l; repeat constructor. done. Qed.
Lemma json_text_plain i : json_ok i = true -> plain (json_text i).
Proof.
  induction i as [t vs vi vd k ch IH] using cJSON_ind'. destruct t; cbn [json_ok]; try done.
  - intros _. by apply plain_literal.
  - intros _. by apply plain_literal.
  - intros _. by apply plain_literal.
  - intros [Hz Hd]%andb_true_iff. apply bool_decide_eq_true in Hz, Hd. subst vd. cbn [json_text]. rewrite number_chars_int by done. by apply int_chars_plain.
  - intros _. apply string_text_plain.
  - intros Hok. change (plain ("["%char :: elements_text ch ++ ["]"%char])). apply List.Forall_cons; [done|]. apply Forall_app. split; [|by apply List.Forall_cons].
    induction IH as [|c ch Hc _ IHl]; [constructor|]. cbn [forallb] in Hok. apply andb_true_iff in Hok as [H1 H2].
    cbn [elements_text]. apply Forall_app. split; [by apply Hc|]. apply Forall_app. split; [apply comma_plain|by apply IHl].
  - intros Hok. change (plain ("{"%char :: members_text ch ++ ["}"%char])). apply List.Forall_cons; [done|]. apply Forall_app. split; [|by apply List.Forall_cons].
    induction IH as [|c ch Hc _ IHl]; [constructor|]. cbn [forallb] in Hok. apply andb_true_iff in Hok as [H1 H2]. apply andb_true_iff in H1 as [_ H1].
    cbn [members_text]. apply Forall_app. split; [apply string_text_plain|]. apply List.Forall_cons; [done|].
    apply Forall_app. split; [by apply Hc|]. apply Forall_app. split; [apply comma_plain|by apply IHl].
Qed.

(** The same, for a text that is followed by a line feed. *)
Definition LF : ascii := "010".
Lemma parse_json_line i : printable i = true -> json_ok i = true -> (nesting i <= 1000)%nat ->
  cJSON_Parse (of_chars (json_text i) +:+ String LF EmptyString) = Done (parsed_as None i).
Proof.
  intros Hpr Hok Hn. unfold cJSON_Parse. set (s := of_chars (json_text i) +:+ String LF EmptyString).
  assert (chars s = json_text i ++ [LF]) as Hs by (unfold s; by rewrite chars_app, list_ascii_of_string_of_list_ascii).
  assert (buffer_at_offset (buffer_of s) = json_text i ++ LF :: [NUL]) as Hb.
  { unfold buffer_of, buffer_at_offset. cbn. rewrite drop_0, Hs, <-(assoc_L (++)). done. }
  destruct (json_text_head _ Hok) as (c & l & Ht & Hc & _).
  rewrite (at_skip _ c (l ++ LF :: [NUL])) by (done || by rewrite Hb, Ht).
  rewrite (reads_all i _ None _ _ LF [NUL]); [done|done|done|cbn; lia|by eexists|done|done|].
  unfold parse_fuel. rewrite <-length_chars, Hs, length_app. cbn. lia.
Qed.

(** C2: printing a JSON tree whose numbers are integers and whose strings need
    no \u escape succeeds without leaving the output buffer, and parsing
    the text gives the tree back, with exactly the fields JSON text carries. *)
Theorem json_roundtrip i :
  printable i = true -> json_ok i = true -> (nesting i <= 1000)%nat ->
  Z.of_nat (length (json_text i)) < INT_MAX ->
  exists s, cJSON_PrintUnformatted i = Done s /\ cJSON_Parse s = Done (parsed_as None i).
Proof.
  intros Hp Hok Hn Hl. exists (of_chars (json_text i)).
  split; [by apply print_text | by apply parse_json_text].
Qed.

Definition sample : cJSON :=
  let o := cJSON_AddStringToObject cJSON_CreateObject "k" (Some (String "010" "v")) in
  let o := AddInt o "n" (-2147483648) in
  cJSON_AddItemToObject o "a" (Some (cJSON_CreateStringArray [Some "x"; Some "y"; None])).

Lemma json_roundtrip_witness :
  exists s, cJSON_PrintUnformatted sample = Done s /\ cJSON_Parse s = Done (parsed_as None sample).
Proof. apply (json_roundtrip sample); vm_compute; first [reflexivity | lia]. Defined.

(** A control character is not read back: the digit lost behind it makes the
    parser take the next character of the string as the last digit. *)
Lemma control_not_read_back :
  let item := set_string (Some (String "001" "abc")) (set_type cJSON_String cJSON_New_Item) in
  (s ← cJSON_PrintUnformatted item; j ← cJSON_Parse s; Done (valuestring j)) = Done (Some (String "010" "bc")).
Proof. vm_compute. reflexivity. Qed.
