(* ===== verification/MsgPack.v ===== *)
(** The MessagePack writer and reader of src/src/protocol/msgpack.c. Bytes are
    integers below 256; a writer is the bytes it holds and its capacity, a
    reader its buffer and position. Reads past the end give zero bytes, writes
    past the end are dropped, as in the code. The two calls in
    [(read_byte(r)<<8)|read_byte(r)] are taken left to right, the order the
    format needs; C leaves it open. *)

From S2P Require Import Prelude.

(** ** Writer *)

Record MsgPackWriter := Writer { wbuf : list Z; wsize : nat }.

Definition msgpack_writer_init (size : nat) : MsgPackWriter := Writer [] size.

Definition write_byte (w : MsgPackWriter) (b : Z) : MsgPackWriter :=
  if (length (wbuf w) <? wsize w)%nat then Writer (wbuf w ++ [u8 b]) (wsize w) else w.
Definition write_bytes (w : MsgPackWriter) (data : list Z) : MsgPackWriter := foldl write_byte w data.

(** [for (i = n-1; i >= 0; i--) write_byte(w, (uint8_t)(val >> (8*i)))]. *)
Fixpoint write_be (n : nat) (w : MsgPackWriter) (val : Z) : MsgPackWriter :=
  match n with
  | O => w
  | S n' => write_be n' (write_byte w (Z.shiftr val (8 * Z.of_nat n'))) val
  end.

Definition msgpack_write_nil (w : MsgPackWriter) := write_byte w 192.
Definition msgpack_write_bool (w : MsgPackWriter) (val : bool) := write_byte w (if val then 195 else 194).

Definition msgpack_write_int (w : MsgPackWriter) (val : Z) : MsgPackWriter :=
  if 0 <=? val then
    if val <=? 127 then write_byte w val
    else if val <=? 255 then write_byte (write_byte w 204) val
    else if val <=? 65535 then write_byte (write_byte (write_byte w 205) (Z.shiftr val 8)) val
    else if val <=? 4294967295 then write_be 4 (write_byte w 206) val
    else write_be 8 (write_byte w 207) val
  else
    if -32 <=? val then write_byte w (Z.lor 224 (Z.land val 31))
    else if -128 <=? val then write_byte (write_byte w 208) val
    else if -32768 <=? val then write_byte (write_byte (write_byte w 209) (Z.shiftr val 8)) val
    else if -2147483648 <=? val then write_be 4 (write_byte w 210) val
    else write_be 8 (write_byte w 211) val.

(** The double is given by the 64 bits [memcpy] takes out of it. *)
Definition msgpack_write_float (w : MsgPackWriter) (bits : Z) : MsgPackWriter := write_be 8 (write_byte w 203) bits.

Definition msgpack_write_str (w : MsgPackWriter) (str : list Z) (len : Z) : MsgPackWriter :=
  let w :=
    if len <=? 31 then write_byte w (Z.lor 160 len)
    else if len <=? 255 then write_byte (write_byte w 217) len
    else if len <=? 65535 then write_byte (write_byte (write_byte w 218) (Z.shiftr len 8)) len
    else write_be 4 (write_byte w 219) len in
  write_bytes w (take (Z.to_nat len) str).

Definition msgpack_write_array_header (w : MsgPackWriter) (count : Z) : MsgPackWriter :=
  if count <=? 15 then write_byte w (Z.lor 144 count)
  else if count <=? 65535 then write_byte (write_byte (write_byte w 220) (Z.shiftr count 8)) count
  else write_be 4 (write_byte w 221) count.
Definition msgpack_write_map_header (w : MsgPackWriter) (count : Z) : MsgPackWriter :=
  if count <=? 15 then write_byte w (Z.lor 128 count)
  else if count <=? 65535 then write_byte (write_byte (write_byte w 222) (Z.shiftr count 8)) count
  else write_be 4 (write_byte w 223) count.

(** ** Reader *)

Record MsgPackReader := Reader { rbuf : list Z; rpos : nat }.

Definition msgpack_reader_init (buf : list Z) : MsgPackReader := Reader buf 0.

Definition read_byte (r : MsgPackReader) : Z * MsgPackReader :=
  match rbuf r !! rpos r with
  | Some b => (b, Reader (rbuf r) (S (rpos r)))
  | None => (0, r)
  end.

Definition msgpack_read_type (r : MsgPackReader) : Z := default (-1) (rbuf r !! rpos r).
Definition msgpack_read_bool (r : MsgPackReader) : bool * MsgPackReader :=
  let '(b, r) := read_byte r in (b =? 195, r).

(** [for (i = 0; i < n; i++) v = (v<<8)|read_byte(r)] in a type that [wrap]s. *)
Fixpoint read_be (wrap : Z -> Z) (n : nat) (v : Z) (r : MsgPackReader) : Z * MsgPackReader :=
  match n with
  | O => (v, r)
  | S n' => let '(b, r) := read_byte r in read_be wrap n' (wrap (Z.lor (Z.shiftl v 8) b)) r
  end.

Definition msgpack_read_int (r : MsgPackReader) : Z * MsgPackReader :=
  let '(b, r) := read_byte r in
  if b <=? 127 then (b, r)
  else if Z.land b 224 =? 224 then (s8 b, r)
  else if b =? 204 then read_byte r
  else if b =? 205 then read_be s32 2 0 r
  else if b =? 206 then read_be u32 4 0 r
  else if b =? 207 then let '(v, r) := read_be u64 8 0 r in (s64 v, r)
  else if b =? 208 then let '(v, r) := read_byte r in (s8 v, r)
  else if b =? 209 then let '(v, r) := read_be s32 2 0 r in (s16 v, r)
  else if b =? 210 then read_be s32 4 0 r
  else if b =? 211 then read_be s64 8 0 r
  else (0, r).

Definition msgpack_read_float (r : MsgPackReader) : Z * MsgPackReader :=
  let '(b, r) := read_byte r in
  if negb (b =? 203) then (0, r) else read_be u64 8 0 r.

(** [for (i = 0; i < l; i++) s[i] = read_byte(r)]. *)
Fixpoint read_n (n : nat) (r : MsgPackReader) : list Z * MsgPackReader :=
  match n with
  | O => ([], r)
  | S n' => let '(b, r) := read_byte r in let '(l, r) := read_n n' r in (b :: l, r)
  end.

Definition msgpack_read_str (r : MsgPackReader) : list Z * Z * MsgPackReader :=
  let '(b, r) := read_byte r in
  let '(l, r) :=
    if Z.land b 224 =? 160 then (Z.land b 31, r)
    else if b =? 217 then read_byte r
    else if b =? 218 then read_be s32 2 0 r
    else if b =? 219 then read_be u64 4 0 r
    else (0, r) in
  let '(s, r) := read_n (Z.to_nat l) r in
  (s, l, r).

Definition msgpack_read_array (r : MsgPackReader) : Z * MsgPackReader :=
  let '(b, r) := read_byte r in
  if Z.land b 240 =? 144 then (Z.land b 15, r)
  else if b =? 220 then read_be s32 2 0 r
  else if b =? 221 then read_be u64 4 0 r
  else (0, r).
Definition msgpack_read_map (r : MsgPackReader) : Z * MsgPackReader :=
  let '(b, r) := read_byte r in
  if Z.land b 240 =? 128 then (Z.land b 15, r)
  else if b =? 222 then read_be s32 2 0 r
  else if b =? 223 then read_be u64 4 0 r
  else (0, r).

(** ** A sequence of writer calls *)

Inductive write_op :=
  | OpNil | OpBool (b : bool) | OpInt (v : Z) | OpFloat (bits : Z)
  | OpStr (s : list Z) | OpArray (n : Z) | OpMap (n : Z).

Definition run_op (w : MsgPackWriter) (o : write_op) : MsgPackWriter :=
  match o with
  | OpNil => msgpack_write_nil w
  | OpBool b => msgpack_write_bool w b
  | OpInt v => msgpack_write_int w v
  | OpFloat bits => msgpack_write_float w bits
  | OpStr s => msgpack_write_str w s (Z.of_nat (length s))
  | OpArray n => msgpack_write_array_header w n
  | OpMap n => msgpack_write_map_header w n
  end.
Definition run_ops (w : MsgPackWriter) (os : list write_op) : MsgPackWriter := foldl run_op w os.

(** ** The byte sequences of the format *)

Fixpoint be (n : nat) (val : Z) : list Z :=
  match n with O => [] | S n' => u8 (Z.shiftr val (8 * Z.of_nat n')) :: be n' val end.

Definition enc_int (v : Z) : list Z :=
  if 0 <=? v then
    if v <=? 127 then [u8 v] else if v <=? 255 then [204; u8 v]
    else if v <=? 65535 then 205 :: be 2 v else if v <=? 4294967295 then 206 :: be 4 v else 207 :: be 8 v
  else
    if -32 <=? v then [u8 (Z.lor 224 (Z.land v 31))] else if -128 <=? v then [208; u8 v]
    else if -32768 <=? v then 209 :: be 2 v else if -2147483648 <=? v then 210 :: be 4 v else 211 :: be 8 v.
Definition enc_len (fix_tag fix_max t16 t32 n : Z) : list Z :=
  if n <=? fix_max then [u8 (Z.lor fix_tag n)] else if n <=? 65535 then t16 :: be 2 n else t32 :: be 4 n.
Definition enc_str (s : list Z) : list Z :=
  let len := Z.of_nat (length s) in
  (if len <=? 31 then [u8 (Z.lor 160 len)] else if len <=? 255 then [217; u8 len]
   else if len <=? 65535 then 218 :: be 2 len else 219 :: be 4 len) ++ map u8 s.
Definition enc_op (o : write_op) : list Z :=
  match o with
  | OpNil => [192] | OpBool b => [if b then 195 else 194] | OpInt v => enc_int v
  | OpFloat bits => 203 :: be 8 bits | OpStr s => enc_str s
  | OpArray n => enc_len 144 15 220 221 n | OpMap n => enc_len 128 15 222 223 n
  end.

(** ** Writing is appending, cut at the capacity *)

Definition push (w : MsgPackWriter) (bs : list Z) : MsgPackWriter :=
  Writer (take (wsize w) (wbuf w ++ bs)) (wsize w).
Definition writer_ok (w : MsgPackWriter) : Prop := (length (wbuf w) <= wsize w)%nat.

Lemma push_ok w bs : writer_ok (push w bs).
Proof. unfold writer_ok, push. simpl. rewrite length_take. lia. Qed.

Lemma push_nil w : writer_ok w -> push w [] = w.
Proof. destruct w. unfold push, writer_ok. simpl. intros. by rewrite app_nil_r, take_ge. Qed.

Lemma push_push w a b : push (push w a) b = push w (a ++ b).
Proof.
  unfold push. simpl. f_equal. rewrite app_assoc.
  destruct (decide (wsize w <= length (wbuf w ++ a))%nat) as [H|H].
  - rewrite (take_app_le (take _ _)), (take_app_le (wbuf w ++ a)) by (rewrite ?length_take; lia).
    by rewrite take_take, Nat.min_id.
  - by rewrite (take_ge (wbuf w ++ a)) by lia.
Qed.

Lemma write_byte_push w b : writer_ok w -> write_byte w b = push w [u8 b].
Proof.
  unfold writer_ok, write_byte, push. destruct w as [buf size]. simpl. intros Hw.
  destruct (Nat.ltb_spec (length buf) size).
  - by rewrite take_ge by (rewrite length_app; simpl; lia).
  - rewrite take_app_le by lia. by rewrite take_ge by lia.
Qed.

Lemma write_be_push n : forall w v, writer_ok w -> write_be n w v = push w (be n v).
Proof.
  induction n as [|n IH]; intros w v Hw; simpl; [by rewrite push_nil|].
  rewrite write_byte_push, IH, push_push by (done || apply push_ok). done.
Qed.

Lemma write_bytes_push d : forall w, writer_ok w -> write_bytes w d = push w (map u8 d).
Proof.
  unfold write_bytes. induction d as [|b d IH]; intros w Hw; simpl; [by rewrite push_nil|].
  rewrite write_byte_push, IH, push_push by (done || apply push_ok). done.
Qed.

Lemma write_byte_ok w b : writer_ok w -> writer_ok (write_byte w b).
Proof. intros Hw. rewrite write_byte_push by done. apply push_ok. Qed.

Ltac writer_ok := repeat apply write_byte_ok; (done || apply push_ok).
Ltac writer :=
  repeat first [rewrite write_byte_push by writer_ok
               |rewrite write_be_push by writer_ok
               |rewrite write_bytes_push by writer_ok
               |rewrite push_push];
  try reflexivity.

Lemma be2_shift v : be 2 v = [u8 (Z.shiftr v 8); u8 v].
Proof. unfold be. simpl. by rewrite Z.shiftr_0_r. Qed.

Lemma run_op_push w o : writer_ok w -> run_op w o = push w (enc_op o).
Proof.
  intros Hw. destruct o; simpl.
  - unfold msgpack_write_nil. by writer.
  - unfold msgpack_write_bool. writer. by destruct b.
  - unfold msgpack_write_int, enc_int. repeat (destruct (_ <=? _); [|]); writer; by rewrite ?be2_shift.
  - unfold msgpack_write_float. by writer.
  - unfold msgpack_write_str, enc_str. rewrite Nat2Z.id, firstn_all.
    repeat (destruct (_ <=? _); [|]); writer; by rewrite ?be2_shift.
  - unfold msgpack_write_array_header, enc_len. repeat (destruct (_ <=? _); [|]); writer; by rewrite ?be2_shift.
  - unfold msgpack_write_map_header, enc_len. repeat (destruct (_ <=? _); [|]); writer; by rewrite ?be2_shift.
Qed.

Lemma run_ops_push os : forall w, writer_ok w -> run_ops w os = push w (mjoin (map enc_op os)).
Proof.
  unfold run_ops. induction os as [|o os IH]; intros w Hw; cbn [foldl map]; [by rewrite push_nil|].
  rewrite run_op_push, IH, push_push by (done || apply push_ok). done.
Qed.

(** ** Reading *)

(** The bytes still to be read, and the reader behind the next [n] of them. *)
Definition pending (r : MsgPackReader) : list Z := drop (rpos r) (rbuf r).
Definition skip (n : nat) (r : MsgPackReader) : MsgPackReader := Reader (rbuf r) (rpos r + n).

Lemma pending_lookup r b l : pending r = b :: l -> rbuf r !! rpos r = Some b.
Proof. unfold pending. intros H. rewrite <-(Nat.add_0_r (rpos r)), <-lookup_drop, H. done. Qed.
Lemma pending_skip r x l n : pending r = x ++ l -> n = length x -> pending (skip n r) = l.
Proof. unfold pending, skip. intros H ->. simpl. by rewrite <-drop_drop, H, drop_app_length. Qed.

Lemma read_byte_at r b l : pending r = b :: l -> read_byte r = (b, skip 1 r).
Proof.
  intros H. unfold read_byte, skip. rewrite (pending_lookup _ _ _ H). by rewrite Nat.add_1_r.
Qed.
Lemma skip_skip n m r : skip n (skip m r) = skip (m + n) r.
Proof. unfold skip. simpl. f_equal. lia. Qed.

Lemma lor_shift v b : 0 <= b < 256 -> Z.lor (Z.shiftl v 8) b = v * 256 + b.
Proof.
  intros Hb. pose proof (Z.add_lor_land (Z.shiftl v 8) b) as H.
  assert (Z.land (Z.shiftl v 8) b = 0) as Hz.
  { apply Z.bits_inj'. intros i Hi. rewrite Z.land_spec, Z.bits_0, Z.shiftl_spec by lia.
    destruct (decide (i < 8)); [by rewrite Z.testbit_neg_r by lia|].
    replace b with (b mod 2 ^ 8) by (apply Z.mod_small; change (2 ^ 8) with 256; lia).
    rewrite Z.mod_pow2_bits_high by lia. apply andb_false_r. }
  rewrite Hz in H. rewrite Z.shiftl_mul_pow2 in H |- * by lia. change (2 ^ 8) with 256 in *. lia.
Qed.

(** The wrap-around of an integer type, compatible with shifting bytes in. *)
Class Wraps (f : Z -> Z) := wraps_step : forall x m b, f (f x * m + b) = f (x * m + b).
#[global] Instance mod_wraps m : Wraps (fun z => z mod m).
Proof.
  intros x k b. by rewrite <-Zplus_mod_idemp_l, Zmult_mod_idemp_l, Zplus_mod_idemp_l.
Qed.
#[global] Instance u32_wraps : Wraps u32 := mod_wraps _.
#[global] Instance u64_wraps : Wraps u64 := mod_wraps _.
Lemma swrap_cong w x : swrap w x mod 2 ^ w = x mod 2 ^ w.
Proof. unfold swrap. rewrite Zminus_mod_idemp_l. f_equal. lia. Qed.
Lemma swrap_wraps w : 0 < w -> Wraps (swrap w).
Proof.
  intros Hw x m b. rewrite <-(swrap_mod w (_ * m + b)), <-(swrap_mod w (x * m + b)) by done.
  f_equal. rewrite <-Zplus_mod_idemp_l, <-Zmult_mod_idemp_l, <-(Zplus_mod_idemp_l (x * m)), <-(Zmult_mod_idemp_l x).
  by rewrite swrap_cong.
Qed.
#[global] Instance s32_wraps : Wraps s32 := swrap_wraps 32 eq_refl.
#[global] Instance s64_wraps : Wraps s64 := swrap_wraps 64 eq_refl.

Lemma wraps_idem f `{!Wraps f} x : f (f x) = f x.
Proof. pose proof (wraps_step x 1 0) as H. by rewrite !Z.mul_1_r, !Z.add_0_r in H. Qed.

Lemma be_value n v : (v mod 2 ^ (8 * Z.of_nat (S n))) =
  u8 (Z.shiftr v (8 * Z.of_nat n)) * 2 ^ (8 * Z.of_nat n) + v mod 2 ^ (8 * Z.of_nat n).
Proof.
  unfold u8. rewrite Z.shiftr_div_pow2 by lia.
  replace (8 * Z.of_nat (S n)) with (8 * Z.of_nat n + 8) by lia.
  rewrite Z.pow_add_r by lia. change (2 ^ 8) with 256.
  pose proof (Z.pow_pos_nonneg 2 (8 * Z.of_nat n) ltac:(lia) ltac:(lia)).
  rewrite Z.rem_mul_r by lia. lia.
Qed.

Lemma read_be_spec f `{!Wraps f} n : forall v x r l, f v = v -> pending r = be n x ++ l ->
  read_be f n v r = (f (v * 2 ^ (8 * Z.of_nat n) + x mod 2 ^ (8 * Z.of_nat n)), skip n r).
Proof.
  induction n as [|n IH]; intros v x r l Hv Hr.
  { change (8 * Z.of_nat 0) with 0. rewrite Z.pow_0_r, Z.mod_1_r, Z.mul_1_r, Z.add_0_r, Hv. simpl.
    unfold skip. rewrite Nat.add_0_r. by destruct r. }
  cbn [be app] in Hr. cbn [read_be]. rewrite (read_byte_at _ _ _ Hr).
  pose proof (u8_range (Z.shiftr x (8 * Z.of_nat n))) as Hb. rewrite lor_shift by done.
  set (b := u8 (Z.shiftr x (8 * Z.of_nat n))) in *.
  rewrite (IH _ x _ l); [|apply (wraps_idem f)|by apply (pending_skip _ [b])].
  rewrite skip_skip. f_equal. rewrite be_value. fold b. rewrite wraps_step. f_equal.
  replace (8 * Z.of_nat (S n)) with (8 + 8 * Z.of_nat n) by lia.
  rewrite Z.pow_add_r by lia. change (2 ^ 8) with 256. lia.
Qed.

(** [m] read exactly the bytes [bs] in front of [r], with result [v]. *)
Definition reads_as {A} (rd : MsgPackReader -> A * MsgPackReader) (bs : list Z) (v : A) : Prop :=
  forall r l, pending r = bs ++ l -> rd r = (v, skip (length bs) r).

Lemma be_length n v : length (be n v) = n.
Proof. induction n as [|n IH]; simpl; [done|]. by rewrite IH. Qed.

Lemma read_be_at f `{!Wraps f} n x y r l : pending r = be n x ++ l -> f 0 = 0 ->
  f (x mod 2 ^ (8 * Z.of_nat n)) = y -> read_be f n 0 r = (y, skip n r).
Proof. intros Hr H0 <-. by rewrite (read_be_spec f n 0 x r l). Qed.

Ltac first_byte H :=
  cbn [app] in H;
  match type of H with pending ?r = ?b :: ?l =>
    rewrite (read_byte_at r b l H); cbv iota beta;
    let H' := fresh H in pose proof (pending_skip r [b] l 1 H eq_refl) as H'
  end.

(** A property of a finite range of tags, checked on each. *)
Lemma check_range (P : Z -> Prop) lo n v : Forall P (seqZ lo n) -> lo <= v < lo + n -> P v.
Proof. intros H Hv. rewrite list.Forall_forall in H. apply H, elem_of_seqZ. lia. Qed.

Lemma fixint_tag v : -32 <= v < 0 ->
  (u8 (Z.lor 224 (Z.land v 31)) <=? 127) = false /\
  Z.land (u8 (Z.lor 224 (Z.land v 31))) 224 = 224 /\ s8 (u8 (Z.lor 224 (Z.land v 31))) = v.
Proof.
  intros Hv.
  apply (check_range (fun v => (u8 (Z.lor 224 (Z.land v 31)) <=? 127) = false /\
    Z.land (u8 (Z.lor 224 (Z.land v 31))) 224 = 224 /\ s8 (u8 (Z.lor 224 (Z.land v 31))) = v) (-32) 32);
    [by repeat constructor | lia].
Qed.

Lemma s_range w v : 0 < w -> - 2 ^ (w - 1) <= v < 2 ^ (w - 1) -> swrap w (v mod 2 ^ w) = v.
Proof. intros Hw Hv. rewrite swrap_mod by done. by apply swrap_id. Qed.

Ltac pows :=
  change (2 ^ (16 - 1)) with 32768 in *; change (2 ^ (32 - 1)) with 2147483648 in *;
  change (2 ^ (64 - 1)) with 9223372036854775808 in *; change (2 ^ (8 - 1)) with 128 in *;
  change (2 ^ 8) with 256 in *; change (2 ^ 16) with 65536 in *;
  change (2 ^ 32) with 4294967296 in *; change (2 ^ 64) with 18446744073709551616 in *.

Lemma enc_int_reads v : - 2 ^ 63 <= v < 2 ^ 63 -> reads_as msgpack_read_int (enc_int v) v.
Proof.
  change (2 ^ 63) with 9223372036854775808. intros Hv r l Hr.
  unfold enc_int in *. unfold msgpack_read_int.
  destruct (0 <=? v) eqn:H0; simp_bool.
  - destruct (v <=? 127) eqn:H1; simp_bool; [|destruct (v <=? 255) eqn:H2; simp_bool;
      [|destruct (v <=? 65535) eqn:H3; simp_bool; [|destruct (v <=? 4294967295) eqn:H4; simp_bool]]].
    + first_byte Hr. unfold u8. rewrite Z.mod_small by lia. by rewrite (proj2 (Z.leb_le _ _)).
    + first_byte Hr. cbn [Z.leb Z.land Z.compare Pos.compare Pos.compare_cont Z.eqb].
      rewrite (read_byte_at _ _ _ Hr0), skip_skip. unfold u8. by rewrite Z.mod_small by lia.
    + first_byte Hr. rewrite (read_be_at s32 2 v v _ l Hr0), skip_skip; [done|done|].
      change (2 ^ (8 * Z.of_nat 2)) with 65536. rewrite Z.mod_small by lia. apply swrap_id; [done|pows; lia].
    + first_byte Hr. rewrite (read_be_at u32 4 v v _ l Hr0), skip_skip; [done|done|].
      change (8 * Z.of_nat 4) with 32. unfold u32. pows. rewrite Z.mod_mod, Z.mod_small; lia.
    + first_byte Hr. rewrite (read_be_at u64 8 v v _ l Hr0), skip_skip; [|done|].
      * cbn [length]. f_equal. apply swrap_id; [done|pows; lia].
      * change (8 * Z.of_nat 8) with 64. unfold u64. pows. rewrite Z.mod_mod, Z.mod_small; lia.
  - destruct (-32 <=? v) eqn:H1; simp_bool; [|destruct (-128 <=? v) eqn:H2; simp_bool;
      [|destruct (-32768 <=? v) eqn:H3; simp_bool; [|destruct (-2147483648 <=? v) eqn:H4; simp_bool]]].
    + first_byte Hr. destruct (fixint_tag v ltac:(lia)) as (-> & -> & ->). done.
    + first_byte Hr.
      rewrite (read_byte_at _ _ _ Hr0), skip_skip. cbn [length]. f_equal.
      change (s8 (v mod 2 ^ 8) = v). apply s_range; [done|pows; lia].
    + first_byte Hr. rewrite (read_be_at s32 2 v (v mod 2 ^ 16) _ l Hr0), skip_skip; [|done|].
      * cbn [length]. f_equal. apply s_range; [done|pows; lia].
      * change (8 * Z.of_nat 2) with 16. apply swrap_id; [done|].
        pose proof (Z.mod_pos_bound v (2 ^ 16) eq_refl). pows; lia.
    + first_byte Hr. rewrite (read_be_at s32 4 v v _ l Hr0), skip_skip; [done|done|].
      apply (s_range 32); [done|pows; lia].
    + first_byte Hr. rewrite (read_be_at s64 8 v v _ l Hr0), skip_skip; [done|done|].
      apply (s_range 64); [done|pows; lia].
Qed.

Lemma enc_len_reads rd fix_tag fix_mask t16 t32 n :
  0 <= n < 2 ^ 32 ->
  (forall r m l, pending r = u8 (Z.lor fix_tag m) :: l -> 0 <= m <= 15 -> rd r = (m, skip 1 r)) ->
  (forall r m l, pending r = t16 :: be 2 m ++ l -> rd r = read_be s32 2 0 (skip 1 r)) ->
  (forall r m l, pending r = t32 :: be 4 m ++ l -> rd r = read_be u64 4 0 (skip 1 r)) ->
  fix_mask = 15 -> reads_as rd (enc_len fix_tag fix_mask t16 t32 n) n.
Proof.
  change (2 ^ 32) with 4294967296. intros Hn Hfix H16 H32 -> r l Hr. unfold enc_len in *.
  destruct (n <=? 15) eqn:H1; simp_bool; [|destruct (n <=? 65535) eqn:H2; simp_bool].
  - by rewrite (Hfix _ n l Hr) by lia.
  - cbn [app] in Hr. rewrite (H16 _ n l Hr).
    rewrite (read_be_at s32 2 n n _ l), skip_skip; [done|by apply (pending_skip _ [t16])|done|].
    change (8 * Z.of_nat 2) with 16. pows. rewrite Z.mod_small by lia. apply swrap_id; [done|pows; lia].
  - cbn [app] in Hr. rewrite (H32 _ n l Hr).
    rewrite (read_be_at u64 4 n n _ l), skip_skip; [done|by apply (pending_skip _ [t32])|done|].
    change (8 * Z.of_nat 4) with 32. unfold u64. pows. rewrite !Z.mod_small; rewrite ?Z.mod_small; lia.
Qed.

Lemma array_tag m : 0 <= m <= 15 ->
  Z.land (u8 (Z.lor 144 m)) 240 = 144 /\ Z.land (u8 (Z.lor 144 m)) 15 = m.
Proof.
  intros Hm. apply (check_range (fun m => Z.land (u8 (Z.lor 144 m)) 240 = 144 /\ Z.land (u8 (Z.lor 144 m)) 15 = m) 0 16);
    [by repeat constructor | lia].
Qed.
Lemma map_tag m : 0 <= m <= 15 ->
  Z.land (u8 (Z.lor 128 m)) 240 = 128 /\ Z.land (u8 (Z.lor 128 m)) 15 = m.
Proof.
  intros Hm. apply (check_range (fun m => Z.land (u8 (Z.lor 128 m)) 240 = 128 /\ Z.land (u8 (Z.lor 128 m)) 15 = m) 0 16);
    [by repeat constructor | lia].
Qed.
Lemma str_tag m : 0 <= m <= 31 ->
  Z.land (u8 (Z.lor 160 m)) 224 = 160 /\ Z.land (u8 (Z.lor 160 m)) 31 = m.
Proof.
  intros Hm. apply (check_range (fun m => Z.land (u8 (Z.lor 160 m)) 224 = 160 /\ Z.land (u8 (Z.lor 160 m)) 31 = m) 0 32);
    [by repeat constructor | lia].
Qed.

Lemma enc_array_reads n : 0 <= n < 2 ^ 32 -> reads_as msgpack_read_array (enc_len 144 15 220 221 n) n.
Proof.
  intros Hn. apply enc_len_reads; try done; unfold msgpack_read_array; intros r m l Hr.
  - intros Hm. rewrite (read_byte_at _ _ _ Hr). by destruct (array_tag m Hm) as [-> ->].
  - by rewrite (read_byte_at _ _ _ Hr).
  - by rewrite (read_byte_at _ _ _ Hr).
Qed.
Lemma enc_map_reads n : 0 <= n < 2 ^ 32 -> reads_as msgpack_read_map (enc_len 128 15 222 223 n) n.
Proof.
  intros Hn. apply enc_len_reads; try done; unfold msgpack_read_map; intros r m l Hr.
  - intros Hm. rewrite (read_byte_at _ _ _ Hr). by destruct (map_tag m Hm) as [-> ->].
  - by rewrite (read_byte_at _ _ _ Hr).
  - by rewrite (read_byte_at _ _ _ Hr).
Qed.

Lemma read_n_at s : forall r l, pending r = s ++ l -> read_n (length s) r = (s, skip (length s) r).
Proof.
  induction s as [|b s IH]; intros r l Hr.
  { simpl. unfold skip. rewrite Nat.add_0_r. by destruct r. }
  simpl. rewrite (read_byte_at _ _ _ Hr). rewrite (IH _ l) by (by apply (pending_skip _ [b])).
  by rewrite skip_skip.
Qed.

Lemma enc_str_reads s : Z.of_nat (length s) < 2 ^ 32 -> map u8 s = s ->
  reads_as msgpack_read_str (enc_str s) (s, Z.of_nat (length s)).
Proof.
  change (2 ^ 32) with 4294967296. intros Hn Hs r l Hr. unfold enc_str in *. rewrite Hs in *.
  rewrite <-app_assoc in Hr. unfold msgpack_read_str.
  set (n := Z.of_nat (length s)) in *.
  assert (forall k, pending (skip k r) = s ++ l ->
    (let '(s0, r1) := read_n (Z.to_nat n) (skip k r) in (s0, n, r1)) = (s, n, skip (k + length s) r)) as Hrest.
  { intros k Hk. subst n. rewrite Nat2Z.id, (read_n_at _ _ l Hk). by rewrite skip_skip. }
  destruct (n <=? 31) eqn:H1; simp_bool; [|destruct (n <=? 255) eqn:H2; simp_bool; [|destruct (n <=? 65535) eqn:H3; simp_bool]].
  - first_byte Hr. destruct (str_tag n ltac:(lia)) as [-> ->]. cbn [Z.eqb Pos.eqb]. by apply (Hrest 1%nat).
  - first_byte Hr. rewrite (read_byte_at _ _ _ Hr0). cbn [Z.land Pos.land Z.eqb Pos.eqb].
    change (Z.land 217 224 =? 160) with false. cbv iota. rewrite skip_skip.
    unfold u8. rewrite Z.mod_small by lia. apply (Hrest 2%nat). rewrite <-(skip_skip 1 1).
    by apply (pending_skip _ [u8 n]).
  - first_byte Hr. change (Z.land 218 224 =? 160) with false. cbn [Z.eqb Pos.eqb].
    rewrite (read_be_at s32 2 n n _ (s ++ l) Hr0), skip_skip; [|done|].
    + cbv iota. rewrite length_app. apply (Hrest 3%nat). rewrite <-(skip_skip 2 1). by apply (pending_skip _ (be 2 n)).
    + change (8 * Z.of_nat 2) with 16. pows. rewrite Z.mod_small by lia. apply swrap_id; [done|pows; lia].
  - first_byte Hr. change (Z.land 219 224 =? 160) with false. cbn [Z.eqb Pos.eqb].
    rewrite (read_be_at u64 4 n n _ (s ++ l) Hr0), skip_skip; [|done|].
    + cbv iota. rewrite length_app. apply (Hrest 5%nat). rewrite <-(skip_skip 4 1). by apply (pending_skip _ (be 4 n)).
    + change (8 * Z.of_nat 4) with 32. unfold u64. pows. rewrite !Z.mod_small; rewrite ?Z.mod_small; lia.
Qed.

(** ** What the codec guarantees *)

(** What a writer with room appended is read back in place. *)
Lemma push_read {A} (rd : MsgPackReader -> A * MsgPackReader) w bs v rest :
  (length (wbuf w) + length bs <= wsize w)%nat -> reads_as rd bs v ->
  let w' := push w bs in
  rd (Reader (wbuf w' ++ rest) (length (wbuf w))) = (v, Reader (wbuf w' ++ rest) (length (wbuf w'))).
Proof.
  intros Hroom Hrd. unfold push. cbn [wbuf].
  rewrite take_ge by (rewrite length_app; lia).
  rewrite (Hrd _ rest); unfold skip, pending; cbn [rbuf rpos]; [by rewrite length_app|].
  by rewrite <-app_assoc, drop_app_length.
Qed.

(** C20: every 64-bit integer, array or map length and string the writer encodes
    with room to spare is read back, consuming exactly the bytes written. *)
Theorem msgpack_roundtrip w v n s rest :
  - 2 ^ 63 <= v < 2 ^ 63 -> 0 <= n < 2 ^ 32 -> Z.of_nat (length s) < 2 ^ 32 -> map u8 s = s ->
  writer_ok w -> (length (wbuf w) + length s + 9 <= wsize w)%nat ->
  let wi := msgpack_write_int w v in
  let wa := msgpack_write_array_header w n in
  let wm := msgpack_write_map_header w n in
  let ws := msgpack_write_str w s (Z.of_nat (length s)) in
  let start w' := Reader (wbuf w' ++ rest) (length (wbuf w)) in
  let stop w' := Reader (wbuf w' ++ rest) (length (wbuf w')) in
  msgpack_read_int (start wi) = (v, stop wi) /\
  msgpack_read_array (start wa) = (n, stop wa) /\
  msgpack_read_map (start wm) = (n, stop wm) /\
  msgpack_read_str (start ws) = (s, Z.of_nat (length s), stop ws).
Proof.
  intros Hv Hn Hl Hs Hw Hroom. cbv zeta.
  pose proof (run_op_push w (OpInt v) Hw) as Ei. pose proof (run_op_push w (OpArray n) Hw) as Ea.
  pose proof (run_op_push w (OpMap n) Hw) as Em. pose proof (run_op_push w (OpStr s) Hw) as Es.
  cbn [run_op enc_op] in Ei, Ea, Em, Es. rewrite Ei, Ea, Em, Es.
  split; [|split; [|split]]; apply push_read.
  - unfold enc_int. repeat (destruct (_ <=? _); [|]); cbn; lia.
  - by apply enc_int_reads.
  - unfold enc_len. repeat (destruct (_ <=? _); [|]); cbn; lia.
  - by apply enc_array_reads.
  - unfold enc_len. repeat (destruct (_ <=? _); [|]); cbn; lia.
  - by apply enc_map_reads.
  - unfold enc_str. rewrite length_app, length_map. repeat (destruct (_ <=? _); [|]); cbn; lia.
  - by apply enc_str_reads.
Qed.

Lemma msgpack_roundtrip_witness :
  msgpack_read_int (Reader (wbuf (msgpack_write_int (Writer [1] 40) (-40000)) ++ [7]) 1) =
  (-40000, Reader [1; 210; 255; 255; 99; 192; 7] 6).
Proof.
  exact (proj1 (msgpack_roundtrip (Writer [1] 40) (-40000) 5 [65; 66] [7]
    ltac:(split; [vm_compute; discriminate | reflexivity]) ltac:(split; [vm_compute; discriminate | reflexivity])
    eq_refl eq_refl ltac:(vm_compute; lia) ltac:(vm_compute; lia))).
Defined.

(** whatever sequence of calls is made on a writer of [size] bytes, the
    bytes held are the encodings of the calls, cut at the capacity. *)
Theorem msgpack_writer_truncates size os :
  wbuf (run_ops (msgpack_writer_init size) os) = take size (mjoin (map enc_op os)).
Proof.
  rewrite run_ops_push; [done|]. unfold writer_ok. simpl. lia.
Qed.
