(* ===== verification/Store.v ===== *)
(** The key/value store with subscriptions of src/src/core/store.c, and its
    refinement of a finite map. The entries are the linked list in its order;
    the [write] calls to subscribers are returned as a list of messages. *)

From S2P Require Import Prelude.

Record Entry := mkEntry { ekey : string; evalue : string; subs : list Z }.
Record Store := mkStore { head : list Entry; version : Z }.

Definition store_new : Store := mkStore [] 0.

Fixpoint find_entry (l : list Entry) (k : string) : option Entry :=
  match l with
  | [] => None
  | e :: l' => if decide (ekey e = k) then Some e else find_entry l' k
  end.

Definition store_get (s : Store) (k : string) : option string := evalue <$> find_entry (head s) k.
Definition store_get_safe (s : option Store) (k : string) : option string :=
  match s with Some s => store_get s k | None => None end.
Definition store_get_bool (s : Store) (k : string) : bool :=
  match store_get s k with Some v => bool_decide (v = "yes") | None => false end.

(** [snprintf] into 512 bytes keeps 511 characters. *)
Definition state_message (k v : string) : string :=
  let dq := of_chars [DQUOTE] in
  strtake 511 ("{" +:+ dq +:+ "type" +:+ dq +:+ ":" +:+ dq +:+ "state" +:+ dq +:+ "," +:+ dq +:+ "key" +:+ dq +:+ ":" +:+ dq +:+ k
    +:+ dq +:+ "," +:+ dq +:+ "value" +:+ dq +:+ ":" +:+ dq +:+ v +:+ dq +:+ "}" +:+ of_chars ["010"%char]).

(** One [write]: the descriptor and the bytes. *)
Definition message : Type := Z * string.

(** The walk updates the first entry with the key, if there is one. *)
Fixpoint set_entry (l : list Entry) (k v : string) : option (list Entry * list message) :=
  match l with
  | [] => None
  | e :: l' =>
      if decide (ekey e = k) then
        Some (mkEntry (ekey e) v (subs e) :: l', map (fun fd => (fd, state_message k v)) (subs e))
      else
        match set_entry l' k v with Some (r, ms) => Some (e :: r, ms) | None => None end
  end.
Definition store_set (s : Store) (k v : string) : Store * list message :=
  match set_entry (head s) k v with
  | Some (l, ms) => (mkStore l (version s + 1), ms)
  | None => (mkStore (mkEntry k v [] :: head s) (version s + 1), [])
  end.

Fixpoint alter_entry (f : list Z -> list Z) (l : list Entry) (k : string) : option (list Entry) :=
  match l with
  | [] => None
  | e :: l' =>
      if decide (ekey e = k) then Some (mkEntry (ekey e) (evalue e) (f (subs e)) :: l')
      else cons e <$> alter_entry f l' k
  end.
Definition store_subscribe (s : Store) (k : string) (client_fd : Z) : Store :=
  match alter_entry (cons client_fd) (head s) k with
  | Some l => mkStore l (version s)
  | None => mkStore (mkEntry k EmptyString [client_fd] :: head s) (version s)
  end.
Definition store_unsubscribe (s : Store) (k : string) (client_fd : Z) : Store :=
  match alter_entry (filter (fun fd => fd <> client_fd)) (head s) k with
  | Some l => mkStore l (version s)
  | None => s
  end.

(** The cursor starts at 0 and moves on with every hit. *)
Definition store_enum (s : option Store) (idx : Z) : option (string * string * Z) :=
  match s with
  | None => None
  | Some s =>
      if idx <? 0 then None
      else match head s !! Z.to_nat idx with
           | Some e => Some (ekey e, evalue e, idx + 1)
           | None => None
           end
  end.
Definition store_get_version (s : option Store) : Z := match s with Some s => version s | None => 0 end.

(** ** The specification: two finite maps *)

Module Spec.
Record t := mk { vals : gmap string string; listeners : gmap string (list Z) }.
Definition empty : t := mk ∅ ∅.
Definition set (m : t) (k v : string) : t * list message :=
  let fds := default [] (listeners m !! k) in
  (mk (<[k := v]> (vals m)) (<[k := fds]> (listeners m)), map (fun fd => (fd, state_message k v)) fds).
Definition subscribe (m : t) (k : string) (fd : Z) : t :=
  match listeners m !! k with
  | Some fds => mk (vals m) (<[k := fd :: fds]> (listeners m))
  | None => mk (<[k := EmptyString]> (vals m)) (<[k := [fd]]> (listeners m))
  end.
Definition unsubscribe (m : t) (k : string) (fd : Z) : t :=
  mk (vals m) (alter (filter (fun x => x <> fd)) k (listeners m)).
End Spec.

Definition abs (s : Store) : Spec.t :=
  Spec.mk (list_to_map ((fun e => (ekey e, evalue e)) <$> head s))
          (list_to_map ((fun e => (ekey e, subs e)) <$> head s)).

#[local] Opaque state_message.

(** ** Lemmas on the entry list *)

Section field.
Context {A : Type} (g : Entry -> A).
Definition field_map (l : list Entry) : gmap string A := list_to_map ((fun e => (ekey e, g e)) <$> l).

Lemma field_map_cons e l : field_map (e :: l) = <[ekey e := g e]> (field_map l).
Proof. done. Qed.

Lemma field_map_lookup l k : field_map l !! k = g <$> find_entry l k.
Proof.
  induction l as [|e l IH]; [done|]. rewrite field_map_cons, lookup_insert. simpl.
  by case_decide.
Qed.
End field.

Lemma ekeys_cons (e : Entry) (r l : list Entry) : ekey <$> r = ekey <$> l -> ekey <$> (e :: r) = ekey <$> (e :: l).
Proof. intros H. rewrite !fmap_cons. by f_equal. Qed.

Lemma set_entry_spec l k v :
  match set_entry l k v with
  | Some (r, ms) => exists e, find_entry l k = Some e /\
      ms = map (fun fd => (fd, state_message k v)) (subs e) /\
      field_map evalue r = <[k := v]> (field_map evalue l) /\
      field_map subs r = field_map subs l /\ ekey <$> r = ekey <$> l
  | None => find_entry l k = None
  end.
Proof.
  induction l as [|e l IH]; [done|]. simpl. case_decide as Hk.
  - exists e. subst k. rewrite !field_map_cons. cbn. by rewrite insert_insert_eq.
  - destruct (set_entry l k v) as [[r ms]|]; [|done].
    destruct IH as (e' & Hf & Hms & Hv & Hs & Hkeys). exists e'. rewrite !field_map_cons, Hv, Hs.
    repeat split; [done|done|by apply insert_insert_ne|]. by apply ekeys_cons.
Qed.

Lemma alter_entry_spec f l k :
  match alter_entry f l k with
  | Some r => exists e, find_entry l k = Some e /\ field_map evalue r = field_map evalue l /\
      field_map subs r = <[k := f (subs e)]> (field_map subs l) /\ ekey <$> r = ekey <$> l
  | None => find_entry l k = None
  end.
Proof.
  induction l as [|e l IH]; [done|]. simpl. case_decide as Hk.
  - exists e. subst k. rewrite !field_map_cons. cbn. by rewrite insert_insert_eq.
  - destruct (alter_entry f l k) as [r|]; [|done]. simpl.
    destruct IH as (e' & Hf & Hv & Hs & Hkeys). exists e'. rewrite !field_map_cons, Hv, Hs.
    repeat split; [done|by apply insert_insert_ne|]. by apply ekeys_cons.
Qed.

(** ** Refinement *)

(** What a client reads is the abstract value. *)
Lemma store_get_abs s k : store_get s k = Spec.vals (abs s) !! k.
Proof. symmetry. apply (field_map_lookup evalue). Qed.

Lemma listeners_abs s k : Spec.listeners (abs s) !! k = subs <$> find_entry (head s) k.
Proof. apply (field_map_lookup subs). Qed.

Lemma abs_eq s m :
  field_map evalue (head s) = Spec.vals m -> field_map subs (head s) = Spec.listeners m -> abs s = m.
Proof. destruct m. unfold abs. cbn. unfold field_map. by intros -> ->. Qed.

Lemma store_set_abs s k v :
  (abs (store_set s k v).1, (store_set s k v).2) = Spec.set (abs s) k v.
Proof.
  unfold store_set, Spec.set. rewrite listeners_abs.
  pose proof (set_entry_spec (head s) k v) as H. destruct (set_entry _ _ _) as [[r ms]|].
  - destruct H as (e & Hf & -> & Hv & Hs & _). rewrite Hf. cbn [fst snd fmap option_fmap option_map default].
    f_equal. apply abs_eq; cbn [head Spec.vals Spec.listeners]; [exact Hv|].
    rewrite Hs. symmetry. apply insert_id. etransitivity; [apply listeners_abs | by rewrite Hf].
  - rewrite H. done.
Qed.

Lemma store_subscribe_abs s k fd : abs (store_subscribe s k fd) = Spec.subscribe (abs s) k fd.
Proof.
  unfold store_subscribe, Spec.subscribe. rewrite listeners_abs.
  pose proof (alter_entry_spec (cons fd) (head s) k) as H. destruct (alter_entry _ _ _) as [r|].
  - destruct H as (e & Hf & Hv & Hs & _). rewrite Hf. by apply abs_eq.
  - rewrite H. done.
Qed.

Lemma store_unsubscribe_abs s k fd : abs (store_unsubscribe s k fd) = Spec.unsubscribe (abs s) k fd.
Proof.
  unfold store_unsubscribe, Spec.unsubscribe. pose proof (listeners_abs s k) as Hlook.
  pose proof (alter_entry_spec (filter (fun x => x <> fd)) (head s) k) as H. destruct (alter_entry _ _ _) as [r|].
  - destruct H as (e & Hf & Hv & Hs & _). rewrite Hf in Hlook. apply abs_eq; [exact Hv|].
    cbn [head Spec.listeners]. rewrite Hs. apply map_eq. intros i. rewrite lookup_alter, lookup_insert.
    case_decide; [subst; by rewrite Hlook | done].
  - rewrite H in Hlook. apply abs_eq; [done|]. apply map_eq. intros i. cbn [Spec.listeners].
    rewrite lookup_alter. case_decide; [subst; by rewrite Hlook | done].
Qed.

(** ** Operations in sequence *)

Inductive store_op := OSet (k v : string) | OSub (k : string) (fd : Z) | OUnsub (k : string) (fd : Z).

Definition run_store (s : Store) (o : store_op) : Store * list message :=
  match o with
  | OSet k v => store_set s k v
  | OSub k fd => (store_subscribe s k fd, [])
  | OUnsub k fd => (store_unsubscribe s k fd, [])
  end.
Definition run_spec (m : Spec.t) (o : store_op) : Spec.t * list message :=
  match o with
  | OSet k v => Spec.set m k v
  | OSub k fd => (Spec.subscribe m k fd, [])
  | OUnsub k fd => (Spec.unsubscribe m k fd, [])
  end.
(** A history: the final state and all messages in order. *)
Definition history {S} (step : S -> store_op -> S * list message) (s : S) (os : list store_op) : S * list message :=
  foldl (fun '(s, ms) o => let '(s', ms') := step s o in (s', ms ++ ms')) (s, []) os.

Definition is_set (o : store_op) : bool := match o with OSet _ _ => true | _ => false end.

Lemma run_store_abs s o : (abs (run_store s o).1, (run_store s o).2) = run_spec (abs s) o.
Proof.
  destruct o; simpl; [apply store_set_abs | by rewrite store_subscribe_abs | by rewrite store_unsubscribe_abs].
Qed.

Lemma run_store_version s o : version (run_store s o).1 = version s + (if is_set o then 1 else 0).
Proof.
  destruct o; simpl.
  - unfold store_set. by destruct (set_entry _ _ _) as [[??]|].
  - unfold store_subscribe. destruct (alter_entry _ _ _); simpl; lia.
  - unfold store_unsubscribe. destruct (alter_entry _ _ _); simpl; lia.
Qed.

Definition keys (s : Store) : list string := ekey <$> head s.

Lemma find_entry_None l k : find_entry l k = None -> k ∉ (ekey <$> l).
Proof.
  induction l as [|e l IH]; [intros _; apply not_elem_of_nil|]. simpl. case_decide; [done|].
  intros Hn. rewrite not_elem_of_cons. split; [congruence|by apply IH].
Qed.

(** Keys stay unique: every operation prepends only a key that is missing. *)
Lemma run_store_nodup s o : NoDup (keys s) -> NoDup (keys (run_store s o).1).
Proof.
  unfold keys. intros H. destruct o as [k v|k fd|k fd]; simpl.
  - unfold store_set. pose proof (set_entry_spec (head s) k v) as Hs.
    destruct (set_entry _ _ _) as [[r ms]|]; simpl.
    + destruct Hs as (e & _ & _ & _ & _ & ->). done.
    + constructor; [by apply find_entry_None | done].
  - unfold store_subscribe. pose proof (alter_entry_spec (cons fd) (head s) k) as Hs.
    destruct (alter_entry _ _ _) as [r|]; simpl.
    + destruct Hs as (e & _ & _ & _ & ->). done.
    + constructor; [by apply find_entry_None | done].
  - unfold store_unsubscribe. pose proof (alter_entry_spec (filter (fun x => x <> fd)) (head s) k) as Hs.
    destruct (alter_entry _ _ _) as [r|]; simpl; [|done].
    destruct Hs as (e & _ & _ & _ & ->). done.
Qed.

Lemma history_app {S} (step : S -> store_op -> S * list message) os s ms :
  foldl (fun '(s, ms) o => let '(s', ms') := step s o in (s', ms ++ ms')) (s, ms) os =
  ((history step s os).1, ms ++ (history step s os).2).
Proof.
  unfold history. revert s ms. induction os as [|o os IH]; intros s ms; simpl; [by rewrite app_nil_r|].
  destruct (step s o) as [s' ms']. rewrite IH. rewrite (IH s' ms'). simpl. by rewrite app_assoc.
Qed.

Lemma history_cons {S} (step : S -> store_op -> S * list message) s o os :
  history step s (o :: os) = ((history step (step s o).1 os).1, (step s o).2 ++ (history step (step s o).1 os).2).
Proof.
  unfold history at 1. simpl. destruct (step s o) as [s' ms']. apply history_app.
Qed.

(** C19: over any sequence of set, subscribe and unsubscribe the linked list
    behaves as a finite map: same values for every key, same messages to the
    same descriptors in the same order, the version counts the sets, and every
    key has one entry. *)
Theorem store_refines os :
  let '(s', ms) := history run_store store_new os in
  (forall k, store_get s' k = Spec.vals (history run_spec Spec.empty os).1 !! k) /\
  ms = (history run_spec Spec.empty os).2 /\
  version s' = Z.of_nat (length (filter (fun o => is_set o = true) os)) /\
  NoDup (keys s').
Proof.
  assert (forall os s, NoDup (keys s) ->
    (abs (history run_store s os).1, (history run_store s os).2) = history run_spec (abs s) os /\
    version (history run_store s os).1 = version s + Z.of_nat (length (filter (fun o => is_set o = true) os)) /\
    NoDup (keys (history run_store s os).1)) as H.
  { clear. intros os. induction os as [|o os IH]; intros s Hs; [repeat split; [simpl; lia|done]|].
    rewrite !history_cons. cbn [fst snd]. destruct (IH _ (run_store_nodup s o Hs)) as (Ha & Hv & Hn).
    pose proof (run_store_abs s o) as Hstep. rewrite <-Hstep in *. cbn [fst snd]. rewrite <-Ha. cbn [fst snd].
    split; [done|]. split; [|done]. rewrite Hv, run_store_version, filter_cons.
    destruct (is_set o); simpl; lia. }
  destruct (H os store_new) as (Ha & Hv & Hn); [constructor|].
  destruct (history run_store store_new os) as [s' ms]. change (abs store_new) with Spec.empty in Ha.
  rewrite <-Ha. cbn [fst snd] in *. repeat split; try done. intros k. apply store_get_abs.
Qed.
