(* ===== verification/Undo.v ===== *)
(** The undo stack of src/src/core/undo.c: a doubly linked list of actions in a
    heap of pointers, and its refinement of a history with a cursor. A pointer
    that is not in the heap is freed memory. *)

From S2P Require Import Prelude.

Abbreviation ptr := nat.

Section stack.
(** What the actions act on. *)
Context {D : Type}.

Record WidgetAction := mkAction {
  description : string;
  undo : option (D -> D);
  redo : option (D -> D);
  has_free_data : bool;
  prev : option ptr;
  next : option ptr
}.
Record UndoStack := mkUndoStack {
  head : option ptr; current : option ptr; tail : option ptr;
  depth : Z; max_depth : Z
}.
(** The heap, the document, and the actions whose [free_data] ran. *)
Record World := mkWorld { heap : gmap ptr WidgetAction; doc : D; released : list ptr }.

Definition read (w : World) (p : ptr) : exec WidgetAction :=
  match heap w !! p with Some a => Done a | None => Fault UseAfterFree end.
Definition write (w : World) (p : ptr) (f : WidgetAction -> WidgetAction) : exec World :=
  a ← read w p; Done (mkWorld (<[p := f a]> (heap w)) (doc w) (released w)).
Definition with_prev (q : option ptr) (a : WidgetAction) : WidgetAction :=
  mkAction (description a) (undo a) (redo a) (has_free_data a) q (next a).
Definition with_next (q : option ptr) (a : WidgetAction) : WidgetAction :=
  mkAction (description a) (undo a) (redo a) (has_free_data a) (prev a) q.
(** [if (a->free_data) a->free_data(a->data); free(a->description); free(a)] *)
Definition release (w : World) (p : ptr) : exec World :=
  a ← read w p;
  Done (mkWorld (delete p (heap w)) (doc w) (if has_free_data a then p :: released w else released w)).

Definition undo_stack_new (m : Z) : UndoStack := mkUndoStack None None None 0 (if 0 <? m then m else 100).

(** [while (s->current && s->current->next)] *)
Fixpoint drop_redo (fuel : nat) (cur : option ptr) (w : World) : exec World :=
  match fuel with
  | O => Fault Diverges
  | S fuel' =>
      match cur with
      | None => Done w
      | Some c =>
          a ← read w c;
          match next a with
          | None => Done w
          | Some tmp =>
              w1 ← write w c (with_next None);
              w2 ← write w1 tmp (with_prev None);
              w3 ← release w2 tmp;
              drop_redo fuel' cur w3
          end
      end
  end.

(** [while (s->depth > s->max_depth)]; the fuel is the number of rounds. *)
Fixpoint evict (fuel : nat) (s : UndoStack) (w : World) : exec (UndoStack * World) :=
  if depth s <=? max_depth s then Done (s, w)
  else match fuel with
  | O => Fault Diverges
  | S fuel' =>
      old ← deref (head s);
      a ← read w old;
      w1 ← (match next a with Some h => write w h (with_prev None) | None => Done w end);
      w2 ← release w1 old;
      evict fuel' (mkUndoStack (next a) (current s) (tail s) (depth s - 1) (max_depth s)) w2
  end.

Definition undo_stack_push (s : option UndoStack) (action : option ptr) (w : World) : exec (option UndoStack * World) :=
  match s, action with
  | Some s, Some action =>
      w1 ← drop_redo 2 (current s) w;
      '(s2, w2) ← (match head s with
        | None => Done (mkUndoStack (Some action) (Some action) (Some action) (depth s) (max_depth s), w1)
        | Some _ =>
            c ← deref (current s);
            wa ← write w1 c (with_next (Some action));
            wb ← write wa action (with_prev (Some c));
            Done (mkUndoStack (head s) (Some action) (Some action) (depth s) (max_depth s), wb)
        end : exec (UndoStack * World));
      let s3 := mkUndoStack (head s2) (current s2) (tail s2) (depth s2 + 1) (max_depth s2) in
      '(s4, w4) ← evict (Z.to_nat (depth s3 - max_depth s3)) s3 w2;
      Done (Some s4, w4)
  | _, _ => Done (s, w)
  end.

Definition set_current (s : UndoStack) (c : option ptr) : UndoStack :=
  mkUndoStack (head s) c (tail s) (depth s) (max_depth s).

Definition undo_stack_undo (s : option UndoStack) (w : World) : exec (option UndoStack * World * bool) :=
  match s with
  | Some s =>
      match current s with
      | None => Done (Some s, w, false)
      | Some c =>
          a ← read w c;
          match undo a with
          | None => Done (Some s, w, false)
          | Some f => Done (Some (set_current s (prev a)), mkWorld (heap w) (f (doc w)) (released w), true)
          end
      end
  | None => Done (None, w, false)
  end.

(** [s->current ? s->current->next : s->head] *)
Definition redo_target (s : UndoStack) (w : World) : exec (option ptr) :=
  match current s with Some c => a ← read w c; Done (next a) | None => Done (head s) end.

Definition undo_stack_redo (s : option UndoStack) (w : World) : exec (option UndoStack * World * bool) :=
  match s with
  | Some s =>
      target ← redo_target s w;
      match target with
      | None => Done (Some s, w, false)
      | Some t =>
          a ← read w t;
          match redo a with
          | None => Done (Some s, w, false)
          | Some f => Done (Some (set_current s (Some t)), mkWorld (heap w) (f (doc w)) (released w), true)
          end
      end
  | None => Done (None, w, false)
  end.

Definition undo_stack_peek_undo (s : option UndoStack) (w : World) : exec (option string) :=
  match s with
  | Some s => match current s with Some c => a ← read w c; Done (Some (description a)) | None => Done None end
  | None => Done None
  end.
Definition undo_stack_peek_redo (s : option UndoStack) (w : World) : exec (option string) :=
  match s with
  | Some s =>
      target ← redo_target s w;
      match target with Some t => a ← read w t; Done (Some (description a)) | None => Done None end
  | None => Done None
  end.

(** The walk of [undo_stack_clear]: every node of the heap is freed at most
    once, so the size of the heap bounds the walk. *)
Fixpoint clear_from (fuel : nat) (p : option ptr) (w : World) : exec World :=
  match p with
  | None => Done w
  | Some a =>
      match fuel with
      | O => Fault Diverges
      | S fuel' => x ← read w a; w1 ← release w a; clear_from fuel' (next x) w1
      end
  end.
Definition undo_stack_clear (s : option UndoStack) (w : World) : exec (option UndoStack * World) :=
  match s with
  | Some s =>
      w1 ← clear_from (size (heap w)) (head s) w;
      Done (Some (mkUndoStack None None None 0 (max_depth s)), w1)
  | None => Done (None, w)
  end.
(** The stack itself is gone; what is left is the heap of actions. *)
Definition undo_stack_free (s : option UndoStack) (w : World) : exec World :=
  '(_, w1) ← undo_stack_clear s w; Done w1.

(** ** The list in the heap *)

Definition or_head (l : list ptr) (q : option ptr) : option ptr := match l with [] => q | b :: _ => Some b end.

(** The pointers [l] are linked in both directions, with [p] before the first
    and [q] after the last. *)
Fixpoint seg (h : gmap ptr WidgetAction) (p : option ptr) (l : list ptr) (q : option ptr) : Prop :=
  match l with
  | [] => True
  | a :: l' => exists x, h !! a = Some x /\ prev x = p /\ next x = or_head l' q /\ seg h (Some a) l' q
  end.

Fixpoint or_last (p : option ptr) (l : list ptr) : option ptr := match l with [] => p | b :: l' => or_last (Some b) l' end.

Lemma or_head_app l1 l2 q : or_head (l1 ++ l2) q = or_head l1 (or_head l2 q).
Proof. by destruct l1. Qed.
Lemma or_last_snoc p l a : or_last p (l ++ [a]) = Some a.
Proof. revert p. induction l as [|b l IH]; intros p; [done|]. apply IH. Qed.

Lemma seg_app h p l1 l2 q : seg h p (l1 ++ l2) q <-> seg h p l1 (or_head l2 q) /\ seg h (or_last p l1) l2 q.
Proof.
  revert p. induction l1 as [|a l1 IH]; intros p; simpl; [tauto|].
  split.
  - intros (x & ? & ? & Hn & Hs). apply IH in Hs as [??]. rewrite or_head_app in Hn. eauto 10.
  - intros [(x & ? & ? & Hn & Hs) ?]. exists x. rewrite or_head_app. rewrite IH. eauto 10.
Qed.
Lemma seg_insert h p l q a x : a ∉ l -> seg h p l q -> seg (<[a := x]> h) p l q.
Proof.
  revert p. induction l as [|b l IH]; intros p Ha; [done|]. simpl.
  intros (y & Hy & ? & ? & ?). apply not_elem_of_cons in Ha as [??].
  exists y. rewrite lookup_insert_ne by done. eauto 10.
Qed.
Lemma seg_delete h p l q a : a ∉ l -> seg h p l q -> seg (delete a h) p l q.
Proof.
  revert p. induction l as [|b l IH]; intros p Ha; [done|]. simpl.
  intros (y & Hy & ? & ? & ?). apply not_elem_of_cons in Ha as [??].
  exists y. rewrite lookup_delete_ne by done. eauto 10.
Qed.
(** Redirecting the last link, and the first one backwards. *)
Lemma seg_set_last h p l c q q' : NoDup (l ++ [c]) -> seg h p (l ++ [c]) q ->
  exists x, h !! c = Some x /\ next x = q /\ seg (<[c := with_next q' x]> h) p (l ++ [c]) q'.
Proof.
  intros Hnd. rewrite seg_app. simpl. intros [Hl (x & Hx & Hp & Hn & _)]. exists x.
  split; [done|]. split; [done|]. apply seg_app. simpl. split.
  - apply seg_insert; [|done]. apply list.NoDup_app in Hnd as (_ & Hd & _). intros Hc. apply (Hd c Hc). left.
  - eexists. rewrite lookup_insert_eq. eauto.
Qed.
Lemma seg_set_first h p p' a l q : a ∉ l -> seg h p (a :: l) q ->
  exists x, h !! a = Some x /\ next x = or_head l q /\ seg (<[a := with_prev p' x]> h) p' (a :: l) q.
Proof.
  intros Ha. simpl. intros (x & Hx & Hp & Hn & Hs). exists x. split; [done|]. split; [done|].
  eexists. rewrite lookup_insert_eq. split; [done|]. split; [done|]. split; [done|]. by apply seg_insert.
Qed.

(** What a node is, apart from its links. *)
Record act := mkAct { a_description : string; a_undo : option (D -> D); a_redo : option (D -> D); a_free : bool }.
Definition payload (x : WidgetAction) : act := mkAct (description x) (undo x) (redo x) (has_free_data x).
(** [h'] keeps the payload of every node in [l]. *)
Definition keeps (h h' : gmap ptr WidgetAction) (l : list ptr) : Prop :=
  forall b, b ∈ l -> payload <$> h' !! b = payload <$> h !! b.

Lemma keeps_insert h a x y l : h !! a = Some x -> payload y = payload x -> keeps h (<[a := y]> h) l.
Proof. intros Hx Hy b _. rewrite lookup_insert. case_decide; [subst; rewrite Hx; simpl; by rewrite Hy|done]. Qed.
Lemma keeps_delete h a l : a ∉ l -> keeps h (delete a h) l.
Proof. intros Ha b Hb. rewrite lookup_delete_ne; [done|congruence]. Qed.
Lemma keeps_trans h1 h2 h3 l : keeps h1 h2 l -> keeps h2 h3 l -> keeps h1 h3 l.
Proof. intros H1 H2 b Hb. by rewrite H2, H1. Qed.
Lemma keeps_mono h h' l l' : keeps h h' l -> l' ⊆ l -> keeps h h' l'.
Proof. intros H Hl b Hb. apply H, Hl, Hb. Qed.
Lemma payload_with_next q x : payload (with_next q x) = payload x.
Proof. done. Qed.
Lemma payload_with_prev q x : payload (with_prev q x) = payload x.
Proof. done. Qed.

Lemma write_Done w p x f : heap w !! p = Some x -> write w p f = Done (mkWorld (<[p := f x]> (heap w)) (doc w) (released w)).
Proof. intros H. unfold write, read. by rewrite H. Qed.
Lemma read_Done w p x : heap w !! p = Some x -> read w p = Done x.
Proof. intros H. unfold read. by rewrite H. Qed.
Lemma release_Done w p x : heap w !! p = Some x ->
  release w p = Done (mkWorld (delete p (heap w)) (doc w) (if has_free_data x then p :: released w else released w)).
Proof. intros H. unfold release, read. by rewrite H. Qed.

(** The redo tail: the node after the cursor is freed; the nodes behind it are
    no longer reachable. *)
Lemma drop_redo_spec w l1 c l2 : NoDup (l1 ++ c :: l2) -> seg (heap w) None (l1 ++ c :: l2) None ->
  exists w', drop_redo 2 (Some c) w = Done w' /\ doc w' = doc w /\ seg (heap w') None (l1 ++ [c]) None /\
    keeps (heap w) (heap w') (l1 ++ [c]) /\ (forall b, b ∉ c :: l2 -> heap w' !! b = heap w !! b).
Proof.
  intros Hnd Hs. destruct l2 as [|t l3].
  - exists w. pose proof Hs as (Hs1 & x & Hx & _ & Hn & _)%seg_app. simpl in Hn.
    simpl. unfold read. rewrite Hx. simpl. rewrite Hn. done.
  - change (c :: t :: l3) with ([c] ++ t :: l3) in Hs, Hnd. rewrite (assoc_L (++)) in Hs, Hnd.
    pose proof (proj1 (list.NoDup_app _ _) Hnd) as (Hn1 & Hdis & [Ht Hn3]%list.NoDup_cons).
    pose proof Hs as (Hs1 & y & Hy & _)%seg_app.
    destruct (seg_set_last (heap w) None l1 c _ None Hn1 Hs1) as (x & Hx & Hxn & Hs').
    assert (t ∉ l1 ++ [c]) as Htl. { intros Hin. apply (Hdis t Hin). left. }
    assert (t <> c) as Htc. { intros ->. apply Htl. apply elem_of_app. right. left. }
    assert (forall h', h' !! c = Some (with_next None x) -> forall d r, drop_redo 1 (Some c) (mkWorld h' d r) = Done (mkWorld h' d r)) as Hone.
    { intros h' Hc d r. simpl. unfold read. cbn [heap]. by rewrite Hc. }
    eexists. split.
    + cbn [drop_redo]. rewrite (read_Done _ _ _ Hx). cbn [mbind exec_bind]. rewrite Hxn. cbn [or_head].
      rewrite (write_Done _ _ _ _ Hx). cbn [mbind exec_bind].
      erewrite write_Done; [|cbn [heap]; rewrite lookup_insert_ne by done; exact Hy]. cbn [mbind exec_bind heap].
      erewrite release_Done; [|cbn [heap]; apply lookup_insert_eq]. cbn [mbind exec_bind heap doc released].
      apply Hone. rewrite lookup_delete_ne, lookup_insert_ne, lookup_insert_eq by done. done.
    + cbn [doc heap]. split; [done|]. split; [by apply seg_delete, seg_insert|]. split.
      * eapply keeps_trans; [apply (keeps_insert _ c x (with_next None x)); done|].
        eapply keeps_trans; [|by apply keeps_delete].
        eapply keeps_insert; [rewrite lookup_insert_ne by done; exact Hy|done].
      * intros b Hb. apply not_elem_of_cons in Hb as [? [??]%not_elem_of_cons].
        by rewrite lookup_delete_ne, !lookup_insert_ne by done.
Qed.

(** Eviction of the oldest of at least two actions. *)
Lemma evict_spec s w a b l : NoDup (a :: b :: l) -> seg (heap w) None (a :: b :: l) None ->
  head s = Some a -> depth s = max_depth s + 1 ->
  exists w', evict 1 s w = Done (mkUndoStack (Some b) (current s) (tail s) (depth s - 1) (max_depth s), w') /\
    doc w' = doc w /\ seg (heap w') None (b :: l) None /\ keeps (heap w) (heap w') (b :: l).
Proof.
  intros Hnd (x & Hx & _ & Hn & Hs) Hh Hd. apply list.NoDup_cons in Hnd as [Ha Hnd].
  apply not_elem_of_cons in Ha as [Hab Ha]. pose proof (proj1 (list.NoDup_cons _ _) Hnd) as [Hb _].
  destruct (seg_set_first (heap w) _ None b l None Hb Hs) as (y & Hy & _ & Hs').
  eexists. split.
  - cbn [evict]. rewrite (proj2 (Z.leb_gt _ _)) by lia. rewrite Hh. cbn [deref mbind exec_bind].
    rewrite (read_Done _ _ _ Hx). cbn [mbind exec_bind]. rewrite Hn. cbn [or_head].
    rewrite (write_Done _ _ _ _ Hy). cbn [mbind exec_bind].
    erewrite release_Done; [|cbn [heap]; rewrite lookup_insert_ne by done; exact Hx]. cbn [mbind exec_bind heap doc released depth max_depth].
    rewrite (proj2 (Z.leb_le _ _)) by lia. done.
  - cbn [doc heap]. split; [done|]. split; [apply seg_delete; [|done]; by apply not_elem_of_cons|].
    eapply keeps_trans; [|apply keeps_delete; by apply not_elem_of_cons].
    by eapply keeps_insert.
Qed.

(** ** The specification: a list of actions with a cursor *)

Record hist := mkHist { items : list act; pos : nat; count : Z; hdoc : D }.

(** Adding while every action is undone has no meaning in the code. *)
Definition spec_push (limit : Z) (h : hist) (a : act) : option hist :=
  match pos h, items h with
  | O, _ :: _ => None
  | _, _ =>
      let l := take (pos h) (items h) ++ [a] in
      if count h <? limit then Some (mkHist l (length l) (count h + 1) (hdoc h))
      else Some (mkHist (list.tail l) (length (list.tail l)) (count h) (hdoc h))
  end.
Definition spec_undo (h : hist) : hist * bool :=
  match pos h with
  | O => (h, false)
  | S k => match items h !! k ≫= a_undo with
           | Some f => (mkHist (items h) k (count h) (f (hdoc h)), true)
           | None => (h, false)
           end
  end.
Definition spec_redo (h : hist) : hist * bool :=
  match items h !! pos h ≫= a_redo with
  | Some f => (mkHist (items h) (S (pos h)) (count h) (f (hdoc h)), true)
  | None => (h, false)
  end.
Definition spec_clear (h : hist) : hist := mkHist [] 0 0 (hdoc h).

Definition before (l : list ptr) (k : nat) : option ptr := match k with O => None | S k' => l !! k' end.
Definition nodes (h : gmap ptr WidgetAction) (l : list ptr) (its : list act) : Prop :=
  Forall2 (fun p a => payload <$> h !! p = Some a) l its.

Record reps (limit : Z) (s : UndoStack) (w : World) (h : hist) (l : list ptr) : Prop := mkReps {
  r_nodup : NoDup l;
  r_seg : seg (heap w) None l None;
  r_head : head s = or_head l None;
  r_cur : current s = before l (pos h);
  r_pos : (pos h <= length l)%nat;
  r_count : depth s = count h;
  r_bound : Z.of_nat (length l) <= count h <= limit;
  r_empty : l = [] -> count h = 0;
  r_max : max_depth s = limit;
  r_limit : 0 < limit;
  r_doc : doc w = hdoc h;
  r_nodes : nodes (heap w) l (items h)
}.

Lemma nodes_keeps h h' l its : nodes h l its -> keeps h h' l -> nodes h' l its.
Proof.
  intros Hn Hk. induction Hn as [|p a l its Hp Hn IH]; constructor.
  - rewrite Hk; [done|left].
  - apply IH. intros b Hb. apply Hk. by right.
Qed.

(** Dropping the redo tail and linking a fresh node after the cursor. *)
Lemma push_linked w l1 c l2 p x : NoDup (l1 ++ c :: l2) -> seg (heap w) None (l1 ++ c :: l2) None ->
  heap w !! p = Some x -> next x = None -> p ∉ l1 ++ c :: l2 ->
  exists w1 wa wb, drop_redo 2 (Some c) w = Done w1 /\ write w1 c (with_next (Some p)) = Done wa /\
    write wa p (with_prev (Some c)) = Done wb /\ doc wb = doc w /\
    seg (heap wb) None (l1 ++ [c; p]) None /\ keeps (heap w) (heap wb) (l1 ++ [c; p]).
Proof.
  intros Hnd Hs Hp Hn Hpl. apply not_elem_of_app in Hpl as [Hp1 Hp2].
  destruct (drop_redo_spec w l1 c l2 Hnd Hs) as (w1 & Hw1 & Hd & Hs1 & Hk & Hf).
  assert (NoDup (l1 ++ [c])) as Hnd1.
  { change (c :: l2) with ([c] ++ l2) in Hnd. rewrite (assoc_L (++)) in Hnd. by apply list.NoDup_app in Hnd as [? _]. }
  destruct (seg_set_last (heap w1) None l1 c _ (Some p) Hnd1 Hs1) as (y & Hy & _ & Hs2).
  assert (p <> c) as Hpc by (intros ->; apply Hp2; left).
  assert (heap w1 !! p = Some x) as Hp3 by (by rewrite Hf).
  exists w1. eexists. eexists. split; [done|]. split; [by apply write_Done|].
  split; [apply write_Done; cbn [heap]; rewrite lookup_insert_ne by done; exact Hp3|].
  cbn [heap doc]. split; [done|]. split.
  - change [c; p] with ([c] ++ [p]). rewrite (assoc_L (++)). apply seg_app. cbn [or_head]. split.
    + apply seg_insert; [|done]. rewrite not_elem_of_app, not_elem_of_cons. repeat split; [done|done|apply not_elem_of_nil].
    + rewrite or_last_snoc. eexists. rewrite lookup_insert_eq. done.
  - intros b Hb. destruct (decide (b = p)) as [->|Hbp].
    + rewrite lookup_insert_eq, Hp. done.
    + rewrite lookup_insert_ne by done.
      assert (b ∈ l1 ++ [c]) as Hb'.
      { rewrite elem_of_app, !elem_of_cons in Hb. rewrite elem_of_app, elem_of_cons.
        destruct Hb as [Hb|[Hb|[Hb|Hb]]]; [by left|by right; left|by subst|by apply elem_of_nil in Hb]. }
      rewrite <-(Hk b Hb'). rewrite lookup_insert. case_decide; [subst; by rewrite Hy|done].
Qed.

Lemma split_at (l : list ptr) k : (S k <= length l)%nat ->
  exists c, before l (S k) = Some c /\ l = take k l ++ c :: drop (S k) l /\ take (S k) l = take k l ++ [c].
Proof.
  intros Hk. destruct (lookup_lt_is_Some_2 l k ltac:(lia)) as [c Hc]. exists c.
  split; [done|]. split; [by rewrite take_drop_middle | by apply take_S_r].
Qed.

Lemma reps_push limit s w h l p x : reps limit s w h l ->
  heap w !! p = Some x -> prev x = None -> next x = None -> p ∉ l ->
  match spec_push limit h (payload x) with
  | None => undo_stack_push (Some s) (Some p) w = Fault NullDeref
  | Some h' => exists s' w' l', undo_stack_push (Some s) (Some p) w = Done (Some s', w') /\ reps limit s' w' h' l'
  end.
Proof.
  intros [Hnd Hs Hh Hc Hpos Hcnt Hb Hemp Hm Hlim Hd Hn] Hp Hprev Hnext Hpl.
  pose proof (Forall2_length Hn) as Hlen. unfold spec_push, undo_stack_push.
  destruct (pos h) as [|k] eqn:Hpk.
  - cbn [before] in Hc. rewrite Hc. cbn [drop_redo mbind exec_bind]. rewrite Hh. destruct l as [|a l].
    + destruct (items h) eqn:Hi; [|done]. assert (count h = 0) as H0 by auto.
      cbn [or_head mbind exec_bind]. rewrite Hcnt, H0, Hm, (proj2 (Z.ltb_lt _ _)) by lia.
      cbn [take app length]. exists (mkUndoStack (Some p) (Some p) (Some p) 1 limit), w, [p]. split.
      * cbn [depth max_depth head current tail]. replace (Z.to_nat (0 + 1 - limit)) with O by lia.
        cbn [evict depth max_depth]. by rewrite (proj2 (Z.leb_le _ _)) by lia.
      * constructor; cbn; try done; try lia; [apply NoDup_singleton| |].
        -- eexists. eauto.
        -- constructor; [|constructor]. by rewrite Hp.
    + destruct (items h); [done|]. cbn [or_head]. done.
  - destruct (split_at l k Hpos) as (c & Hbc & Hl & Ht). rewrite Hc, Hbc.
    rewrite Hl in Hnd, Hs, Hpl.
    destruct (push_linked w _ c _ p x Hnd Hs Hp Hnext Hpl) as (w1 & wa & wb & H1 & H2 & H3 & H4 & H5 & H6).
    rewrite H1. cbn [mbind exec_bind]. rewrite Hh. destruct l as [|a l']; [simpl in Hpos; lia|].
    cbn [or_head deref mbind exec_bind]. rewrite H2. cbn [mbind exec_bind]. rewrite H3.
    cbn [mbind exec_bind head depth max_depth current tail].
    set (l := a :: l') in *.
    assert (nodes (heap wb) (take (S k) l ++ [p]) (take (S k) (items h) ++ [payload x])) as Hnb.
    { eapply nodes_keeps; [|rewrite Ht, <-(assoc_L (++)); exact H6].
      apply Forall2_app; [by apply Forall2_take|]. constructor; [by rewrite Hp|constructor]. }
    assert (NoDup (take (S k) l ++ [p])) as Hndb.
    { rewrite Ht. rewrite list.NoDup_app. split; [|split; [|apply NoDup_singleton]].
      - rewrite <-Ht. change (c :: drop (S k) l) with ([c] ++ drop (S k) l) in Hnd. rewrite (assoc_L (++)), <-Ht in Hnd.
        by apply list.NoDup_app in Hnd as [? _].
      - intros y Hy ->%list_elem_of_singleton. apply Hpl. rewrite elem_of_app, elem_of_cons.
        rewrite elem_of_app, list_elem_of_singleton in Hy. tauto. }
    assert (length (take (S k) l ++ [p]) = S (S k)) as Hlb by (rewrite length_app, length_take; simpl in *; lia).
    pose proof (Forall2_length Hnb) as Hlb'.
    assert (take (S k) l ++ [p] = take k l ++ [c; p]) as Happ by (rewrite Ht, <-(assoc_L (++)); done).
    assert (before (take (S k) l ++ [p]) (S (S k)) = Some p) as Hlast.
    { cbn [before]. rewrite Ht, <-(assoc_L (++)). rewrite Ht, <-(assoc_L (++)) in Hlb.
      rewrite length_app in Hlb. cbn in Hlb. rewrite lookup_app_r by lia.
      replace (S k - length (take k l))%nat with 1%nat by lia. done. }
    destruct (items h) as [|i0 its] eqn:Hits; [simpl in Hlen; lia|]. rewrite <-Hits in *.
    rewrite Hcnt, Hm. destruct (count h <? limit) eqn:Hlt; simp_bool.
    + eexists _, wb, (take (S k) l ++ [p]). split.
      * replace (Z.to_nat (count h + 1 - limit)) with O by lia. cbn [evict depth max_depth].
        rewrite (proj2 (Z.leb_le _ _)) by lia. reflexivity.
      * constructor; cbn [head current tail depth max_depth items pos count hdoc];
          rewrite <-?Hlb'; try done; try lia.
        -- by rewrite Happ.
        -- rewrite Hlb. by rewrite Hlast.
        -- by rewrite H4.
    + destruct (take (S k) l ++ [p]) as [|o [|o2 r]] eqn:Hor; [done|done|].
      rewrite <-Happ in H5.
      destruct (evict_spec (mkUndoStack (Some a) (Some p) (Some p) (count h + 1) limit) wb o o2 r Hndb H5)
        as (w' & He1 & He2 & He3 & He4); [|cbn; lia|].
      { cbn. unfold l in Hor. simpl in Hor. congruence. }
      exists (mkUndoStack (Some o2) (Some p) (Some p) (count h) limit), w', (o2 :: r). split.
      * replace (Z.to_nat (count h + 1 - limit)) with 1%nat by lia. rewrite He1.
        cbn [mbind exec_bind current tail depth max_depth]. by replace (count h + 1 - 1) with (count h) by lia.
      * destruct (take (S k) (items h) ++ [payload x]) as [|b [|b2 bs]] eqn:Hbs; [done|done|].
        apply Forall2_cons_1 in Hnb as [_ Hnb]. cbn in Hlb, Hlb'.
        assert (Hnd2 := proj2 (proj1 (list.NoDup_cons _ _) Hndb)).
        constructor; cbn [head current tail depth max_depth items pos count hdoc list.tail]; try done.
        -- cbn in Hlast. replace (length (b2 :: bs)) with (S k) by (simpl; lia). cbn [before]. done.
        -- simpl; lia.
        -- simpl. lia.
        -- by rewrite He2, H4.
        -- eapply nodes_keeps; [exact Hnb|exact He4].
Qed.

Lemma reps_at limit s w h l k a : reps limit s w h l -> items h !! k = Some a ->
  exists p x, l !! k = Some p /\ heap w !! p = Some x /\ payload x = a /\
    prev x = before l k /\ next x = l !! S k.
Proof.
  intros Hr Ha. destruct (Forall2_lookup_r _ _ _ _ _ (r_nodes _ _ _ _ _ Hr) Ha) as (p & Hp & Hx).
  destruct (heap w !! p) as [x|] eqn:Hhp; [|done]. exists p, x. simpl in Hx. injection Hx as Hx.
  split; [done|]. split; [done|]. split; [done|].
  pose proof (r_seg _ _ _ _ _ Hr) as Hs. rewrite <-(take_drop_middle l k p Hp) in Hs.
  apply seg_app in Hs as [_ (y & Hy & Hpr & Hne & _)]. rewrite Hhp in Hy. injection Hy as <-.
  split.
  - rewrite Hpr. destruct k as [|k]; [done|]. simpl.
    assert (k < length l)%nat as Hk by (apply lookup_lt_Some in Hp; lia).
    destruct (lookup_lt_is_Some_2 l k Hk) as [c Hc]. rewrite Hc, (take_S_r _ _ _ Hc). apply or_last_snoc.
  - rewrite Hne. pose proof (lookup_drop l (S k) 0) as Hd. rewrite Nat.add_0_r in Hd. rewrite <-Hd.
    by destruct (drop (S k) l).
Qed.

Lemma reps_move limit s w h l k d : reps limit s w h l -> (k <= length l)%nat ->
  reps limit (set_current s (before l k)) (mkWorld (heap w) d (released w)) (mkHist (items h) k (count h) d) l.
Proof. intros [] Hk. by constructor. Qed.

Lemma reps_undo limit s w h l : reps limit s w h l ->
  exists s' w', undo_stack_undo (Some s) w = Done (Some s', w', (spec_undo h).2) /\ reps limit s' w' (spec_undo h).1 l.
Proof.
  intros Hr. unfold undo_stack_undo, spec_undo. rewrite (r_cur _ _ _ _ _ Hr). pose proof (r_pos _ _ _ _ _ Hr) as Hp.
  pose proof (Forall2_length (r_nodes _ _ _ _ _ Hr)) as Hlen.
  destruct (pos h) as [|k]; [by exists s, w|].
  destruct (lookup_lt_is_Some_2 (items h) k ltac:(lia)) as [a Ha].
  destruct (reps_at _ _ _ _ _ _ _ Hr Ha) as (p & x & Hpk & Hx & <- & Hpr & _).
  cbn [before]. rewrite Hpk, (read_Done _ _ _ Hx), Ha. cbn [mbind exec_bind option_bind payload a_undo].
  destruct (undo x) as [f|]; [|by exists s, w]. eexists _, _. split; [done|].
  rewrite Hpr, (r_doc _ _ _ _ _ Hr). apply reps_move; [done|lia].
Qed.

Lemma reps_redo_target limit s w h l : reps limit s w h l -> redo_target s w = Done (l !! pos h).
Proof.
  intros Hr. unfold redo_target. rewrite (r_cur _ _ _ _ _ Hr). pose proof (r_pos _ _ _ _ _ Hr) as Hp.
  pose proof (Forall2_length (r_nodes _ _ _ _ _ Hr)) as Hlen.
  destruct (pos h) as [|k].
  - rewrite (r_head _ _ _ _ _ Hr). by destruct l.
  - destruct (lookup_lt_is_Some_2 (items h) k ltac:(lia)) as [a Ha].
    destruct (reps_at _ _ _ _ _ _ _ Hr Ha) as (p & x & Hpk & Hx & _ & _ & Hn).
    cbn [before]. rewrite Hpk, (read_Done _ _ _ Hx). cbn. by rewrite Hn.
Qed.

Lemma reps_redo limit s w h l : reps limit s w h l ->
  exists s' w', undo_stack_redo (Some s) w = Done (Some s', w', (spec_redo h).2) /\ reps limit s' w' (spec_redo h).1 l.
Proof.
  intros Hr. unfold undo_stack_redo, spec_redo. rewrite (reps_redo_target _ _ _ _ _ Hr).
  pose proof (Forall2_length (r_nodes _ _ _ _ _ Hr)) as Hlen. cbn [mbind exec_bind].
  destruct (items h !! pos h) as [a|] eqn:Ha.
  - destruct (reps_at _ _ _ _ _ _ _ Hr Ha) as (p & x & Hpk & Hx & <- & _ & _).
    rewrite Hpk, (read_Done _ _ _ Hx). cbn [mbind exec_bind option_bind payload a_redo].
    destruct (redo x) as [f|]; [|by exists s, w]. eexists _, _. split; [done|].
    rewrite (r_doc _ _ _ _ _ Hr), <-Hpk. change (l !! pos h) with (before l (S (pos h))). apply reps_move; [done|].
    apply lookup_lt_Some in Hpk. lia.
  - apply lookup_ge_None in Ha. rewrite (lookup_ge_None_2 l) by lia. by exists s, w.
Qed.

(** What the user is shown is the action next to the cursor. *)
Lemma reps_peek limit s w h l : reps limit s w h l ->
  undo_stack_peek_undo (Some s) w = Done (match pos h with O => None | S k => a_description <$> items h !! k end) /\
  undo_stack_peek_redo (Some s) w = Done (a_description <$> items h !! pos h).
Proof.
  intros Hr. pose proof (Forall2_length (r_nodes _ _ _ _ _ Hr)) as Hlen. pose proof (r_pos _ _ _ _ _ Hr) as Hp.
  unfold undo_stack_peek_undo, undo_stack_peek_redo. rewrite (reps_redo_target _ _ _ _ _ Hr). cbn [mbind exec_bind]. split.
  - rewrite (r_cur _ _ _ _ _ Hr). destruct (pos h) as [|k]; [done|].
    destruct (lookup_lt_is_Some_2 (items h) k ltac:(lia)) as [a Ha].
    destruct (reps_at _ _ _ _ _ _ _ Hr Ha) as (p & x & Hpk & Hx & <- & _ & _).
    cbn [before]. by rewrite Hpk, (read_Done _ _ _ Hx), Ha.
  - destruct (items h !! pos h) as [a|] eqn:Ha.
    + destruct (reps_at _ _ _ _ _ _ _ Hr Ha) as (p & x & Hpk & Hx & <- & _ & _).
      by rewrite Hpk, (read_Done _ _ _ Hx).
    + apply lookup_ge_None in Ha. by rewrite (lookup_ge_None_2 l) by lia.
Qed.

Lemma clear_from_spec l : forall p w fuel, NoDup l -> seg (heap w) p l None -> (length l <= fuel)%nat ->
  exists w', clear_from fuel (or_head l None) w = Done w' /\ doc w' = doc w.
Proof.
  induction l as [|a l IH]; intros p w fuel Hnd Hs Hf; [by exists w; destruct fuel|].
  destruct fuel as [|fuel]; [simpl in Hf; lia|]. destruct Hs as (x & Hx & _ & Hn & Hs).
  apply list.NoDup_cons in Hnd as [Ha Hnd]. cbn [or_head clear_from].
  rewrite (read_Done _ _ _ Hx). cbn [mbind exec_bind]. rewrite (release_Done _ _ _ Hx). cbn [mbind exec_bind].
  rewrite Hn. set (w1 := mkWorld (delete a (heap w)) (doc w) _).
  destruct (IH (Some a) w1 fuel Hnd) as (w' & H1 & H2); [by apply seg_delete|simpl in Hf; lia|].
  rewrite H1. by exists w'.
Qed.

Lemma reps_length_heap limit s w h l : reps limit s w h l -> (length l <= size (heap w))%nat.
Proof.
  intros Hr. rewrite <-size_dom, <-(size_list_to_set (C := gset ptr) l) by apply Hr. apply subseteq_size.
  intros p Hp%elem_of_list_to_set. apply list_elem_of_lookup in Hp as [i Hi].
  destruct (Forall2_lookup_l _ _ _ _ _ (r_nodes _ _ _ _ _ Hr) Hi) as (a & _ & Hx).
  apply elem_of_dom. destruct (heap w !! p); [by eexists|done].
Qed.

Lemma reps_clear limit s w h l : reps limit s w h l ->
  exists s' w', undo_stack_clear (Some s) w = Done (Some s', w') /\ reps limit s' w' (spec_clear h) [].
Proof.
  intros Hr. unfold undo_stack_clear. rewrite (r_head _ _ _ _ _ Hr).
  destruct (clear_from_spec l None w (size (heap w))) as (w' & H1 & H2);
    [apply Hr|apply Hr|by eapply reps_length_heap|].
  rewrite H1. eexists _, _. split; [done|]. pose proof (r_max _ _ _ _ _ Hr). pose proof (r_limit _ _ _ _ _ Hr).
  constructor; cbn; try done; try lia; [constructor| |constructor]. by rewrite H2, (r_doc _ _ _ _ _ Hr).
Qed.

(** ** Operations in sequence *)

Inductive op := OPush (a : act) | OUndo | ORedo | OClear.

(** The client allocates the action it pushes. *)
Definition alloc (w : World) (a : act) : ptr * World :=
  let p := fresh (dom (heap w) : gset ptr) in
  (p, mkWorld (<[p := mkAction (a_description a) (a_undo a) (a_redo a) (a_free a) None None]> (heap w)) (doc w) (released w)).

Definition run_op (s : option UndoStack) (w : World) (o : op) : exec (option UndoStack * World * bool) :=
  match o with
  | OPush a => let '(p, w1) := alloc w a in '(s', w') ← undo_stack_push s (Some p) w1; Done (s', w', true)
  | OUndo => undo_stack_undo s w
  | ORedo => undo_stack_redo s w
  | OClear => '(s', w') ← undo_stack_clear s w; Done (s', w', true)
  end.
Definition spec_op (limit : Z) (h : hist) (o : op) : option (hist * bool) :=
  match o with
  | OPush a => h' ← spec_push limit h a; Some (h', true)
  | OUndo => Some (spec_undo h)
  | ORedo => Some (spec_redo h)
  | OClear => Some (spec_clear h, true)
  end.
Fixpoint run_ops (s : option UndoStack) (w : World) (os : list op) : exec (option UndoStack * World * list bool) :=
  match os with
  | [] => Done (s, w, [])
  | o :: os' =>
      '(s1, w1, b) ← run_op s w o;
      '(s2, w2, bs) ← run_ops s1 w1 os';
      Done (s2, w2, b :: bs)
  end.
Fixpoint spec_ops (limit : Z) (h : hist) (os : list op) : option (hist * list bool) :=
  match os with
  | [] => Some (h, [])
  | o :: os' =>
      '(h1, b) ← spec_op limit h o;
      '(h2, bs) ← spec_ops limit h1 os';
      Some (h2, b :: bs)
  end.

Lemma reps_alloc limit s w h l a : reps limit s w h l -> reps limit s (alloc w a).2 h l /\ (alloc w a).1 ∉ l.
Proof.
  intros Hr. set (p := (alloc w a).1).
  assert (heap w !! p = None) as Hp. { apply not_elem_of_dom. apply (is_fresh (dom (heap w) : gset ptr)). }
  assert (p ∉ l) as Hpl.
  { intros Hin. apply list_elem_of_lookup in Hin as [i Hi].
    destruct (Forall2_lookup_l _ _ _ _ _ (r_nodes _ _ _ _ _ Hr) Hi) as (b & _ & Hx). by rewrite Hp in Hx. }
  split; [|done]. destruct Hr. constructor; cbn; try done; [by apply seg_insert|].
  eapply nodes_keeps; [done|]. intros b Hb. rewrite lookup_insert_ne; [done|]. intros <-. done.
Qed.

Lemma run_op_spec limit s w h l o : reps limit s w h l ->
  match spec_op limit h o with
  | None => run_op (Some s) w o = Fault NullDeref
  | Some (h', b) => exists s' w' l', run_op (Some s) w o = Done (Some s', w', b) /\ reps limit s' w' h' l'
  end.
Proof.
  intros Hr. destruct o as [a| | |]; cbn [spec_op run_op].
  - destruct (reps_alloc _ _ _ _ _ a Hr) as [Hr' Hp]. destruct (alloc w a) as [p w1] eqn:Ha. cbn [fst snd] in *.
    assert (heap w1 !! p = Some (mkAction (a_description a) (a_undo a) (a_redo a) (a_free a) None None)) as Hx.
    { injection Ha as <- <-. apply lookup_insert_eq. }
    pose proof (reps_push _ _ _ _ _ p _ Hr' Hx eq_refl eq_refl Hp) as H.
    replace (payload _) with a in H by by destruct a.
    destruct (spec_push limit h a) as [h'|]; cbn [mbind option_bind].
    + destruct H as (s' & w' & l' & -> & H). by exists s', w', l'.
    + by rewrite H.
  - destruct (spec_undo h) as [h' b] eqn:E. destruct (reps_undo _ _ _ _ _ Hr) as (s' & w' & H1 & H2).
    rewrite E in *. eauto.
  - destruct (spec_redo h) as [h' b] eqn:E. destruct (reps_redo _ _ _ _ _ Hr) as (s' & w' & H1 & H2).
    rewrite E in *. eauto.
  - destruct (reps_clear _ _ _ _ _ Hr) as (s' & w' & H1 & H2). rewrite H1. cbn. eauto.
Qed.

Lemma run_ops_spec limit os : forall s w h l, reps limit s w h l ->
  match spec_ops limit h os with
  | None => run_ops (Some s) w os = Fault NullDeref
  | Some (h', bs) => exists s' w' l', run_ops (Some s) w os = Done (Some s', w', bs) /\ reps limit s' w' h' l'
  end.
Proof.
  induction os as [|o os IH]; intros s w h l Hr; [by exists s, w, l|]. cbn [spec_ops run_ops].
  pose proof (run_op_spec _ _ _ _ _ o Hr) as Ho. destruct (spec_op limit h o) as [[h1 b]|]; cbn [mbind option_bind]; [|by rewrite Ho].
  destruct Ho as (s1 & w1 & l1 & -> & Hr1). cbn [mbind exec_bind]. specialize (IH _ _ _ _ Hr1).
  destruct (spec_ops limit h1 os) as [[h2 bs]|]; cbn; [|by rewrite IH].
  destruct IH as (s2 & w2 & l2 & -> & Hr2). cbn. eauto.
Qed.

Definition limit_of (m : Z) : Z := if 0 <? m then m else 100.
Lemma reps_new m d : reps (limit_of m) (undo_stack_new m) (mkWorld ∅ d []) (mkHist [] 0 0 d) [].
Proof.
  assert (0 < limit_of m) by (unfold limit_of; destruct (0 <? m) eqn:?; simp_bool; lia).
  constructor; cbn; try done; try lia; constructor.
Qed.

(** C3: over any sequence of pushes, undos, redos and clears on a new stack the
    linked list behaves as a list of actions with a cursor: it returns the same
    booleans and leaves the same document, nothing that was freed is read
    again, and the run goes wrong (a NULL dereference) in exactly one way:
    a push while every action is undone. *)
Theorem undo_refines (m : Z) (d : D) (os : list op) :
  match spec_ops (limit_of m) (mkHist [] 0 0 d) os with
  | None => run_ops (Some (undo_stack_new m)) (mkWorld ∅ d []) os = Fault NullDeref
  | Some (h, bs) => exists s w, run_ops (Some (undo_stack_new m)) (mkWorld ∅ d []) os = Done (Some s, w, bs) /\
      doc w = hdoc h /\ depth s = count h /\
      undo_stack_peek_undo (Some s) w = Done (match pos h with O => None | S k => a_description <$> items h !! k end) /\
      undo_stack_peek_redo (Some s) w = Done (a_description <$> items h !! pos h)
  end.
Proof.
  pose proof (run_ops_spec _ os _ _ _ _ (reps_new m d)) as H.
  destruct (spec_ops _ _ os) as [[h bs]|]; [|done]. destruct H as (s & w & l & H1 & H2).
  exists s, w. pose proof (reps_peek _ _ _ _ _ H2) as [??]. destruct H2. eauto 10.
Qed.

Lemma spec_ops_cons limit h o os : spec_ops limit h (o :: os) =
  ('(h1, b) ← spec_op limit h o; '(h2, bs) ← spec_ops limit h1 os; Some (h2, b :: bs)).
Proof. done. Qed.
Lemma spec_ops_app limit h os1 os2 : spec_ops limit h (os1 ++ os2) =
  ('(h1, b1) ← spec_ops limit h os1; '(h2, b2) ← spec_ops limit h1 os2; Some (h2, b1 ++ b2)).
Proof.
  revert h. induction os1 as [|o os1 IH]; intros h; cbn [app spec_ops mbind option_bind].
  - destruct (spec_ops limit h os2) as [[??]|]; done.
  - destruct (spec_op limit h o) as [[h1 b]|]; [|done]. cbn [mbind option_bind]. rewrite IH.
    destruct (spec_ops limit h1 os1) as [[h2 b2]|]; [|done]. cbn [mbind option_bind].
    by destruct (spec_ops limit h2 os2) as [[??]|].
Qed.

Lemma spec_push_fill limit a d (n k : nat) : Z.of_nat (k + n) <= limit ->
  exists bs, spec_ops limit (mkHist (replicate k a) k (Z.of_nat k) d) (replicate n (OPush a)) =
    Some (mkHist (replicate (k + n) a) (k + n) (Z.of_nat (k + n)) d, bs).
Proof.
  revert k. induction n as [|n IH]; intros k Hk; [rewrite Nat.add_0_r; by exists []|].
  cbn [replicate spec_ops spec_op].
  assert (spec_push limit (mkHist (replicate k a) k (Z.of_nat k) d) a = Some (mkHist (replicate (S k) a) (S k) (Z.of_nat (S k)) d)) as ->.
  { assert (take k (replicate k a) ++ [a] = replicate (S k) a) as Ht.
    { rewrite take_ge by (rewrite length_replicate; lia). by rewrite <-replicate_cons_app. }
    unfold spec_push. cbn [pos items count hdoc]. rewrite (proj2 (Z.ltb_lt _ _)), Ht, length_replicate by lia.
    destruct k; cbn [replicate]; repeat f_equal; lia. }
  cbn [mbind option_bind]. destruct (IH (S k)) as [bs ->]; [lia|]. rewrite Nat.add_succ_r. cbn. by eexists.
Qed.

Lemma spec_undo_all limit a f its c n k d : a_undo a = Some f -> its = replicate (n + k) a ->
  exists bs d', spec_ops limit (mkHist its (n + k) c d) (replicate n OUndo) = Some (mkHist its k c d', bs).
Proof.
  intros Hf ->. remember (replicate (n + k) a) as its eqn:Hi. assert (forall i, (i < n + k)%nat -> its !! i = Some a) as Hl.
  { intros i ?. rewrite Hi. by apply lookup_replicate_2. }
  clear Hi. revert d. induction n as [|n IH]; intros d; [by eexists [], d|].
  cbn [replicate spec_ops spec_op spec_undo pos Nat.add items]. rewrite Hl by lia. cbn [mbind option_bind]. rewrite Hf.
  cbn [count hdoc]. destruct (IH ltac:(intros; apply Hl; lia) (f d)) as (bs & d' & ->). cbn. by eexists _, _.
Qed.

Lemma spec_push_collapsed limit its a d n : (1 <= length its)%nat ->
  exists bs, spec_ops limit (mkHist its 1 limit d) (replicate (S n) (OPush a)) = Some (mkHist [a] 1 limit d, bs).
Proof.
  revert its. induction n as [|n IH]; intros its Hl; (destruct its as [|i its]; [simpl in Hl; lia|]).
  - exists [true]. cbn. by rewrite Z.ltb_irrefl.
  - rewrite (eq_refl : replicate (S (S n)) (OPush a) = OPush a :: replicate (S n) (OPush a)).
    destruct (IH [a]) as (bs & H); [simpl; lia|].
    assert (spec_op limit (mkHist (i :: its) 1 limit d) (OPush a) = Some (mkHist [a] 1 limit d, true)) as Hstep
      by (cbn; by rewrite Z.ltb_irrefl).
    exists (true :: bs). rewrite spec_ops_cons, Hstep. cbn [mbind option_bind]. by rewrite H.
Qed.

(** dropping the redo tail does not lower [depth]. After a full history is
    undone down to one action, every further push evicts the previous one:
    whatever the limit, one action can be undone from then on. *)
Theorem undo_history_collapses (m : nat) (a : act) (f : D -> D) (d : D) (n : nat) :
  (2 <= m)%nat -> a_undo a = Some f ->
  exists s w bs, run_ops (Some (undo_stack_new (Z.of_nat m))) (mkWorld ∅ d [])
      (replicate m (OPush a) ++ replicate (m - 1) OUndo ++ replicate (S n) (OPush a) ++ [OUndo; OUndo]) =
    Done (Some s, w, bs ++ [true; false]) /\ depth s = Z.of_nat m.
Proof.
  intros Hm Hf. set (os := _ ++ _).
  assert (exists bs d', spec_ops (Z.of_nat m) (mkHist [] 0 0 d) os = Some (mkHist [a] 0 (Z.of_nat m) d', bs ++ [true; false])) as (bs & d' & Hs).
  { unfold os. rewrite !spec_ops_app.
    destruct (spec_push_fill (Z.of_nat m) a d m 0) as [b1 H1]; [simpl; lia|].
    destruct (spec_undo_all (Z.of_nat m) a f (replicate m a) (Z.of_nat m) (m - 1) 1 d Hf) as (b2 & d2 & H2); [f_equal; lia|].
    destruct (spec_push_collapsed (Z.of_nat m) (replicate m a) a d2 n) as (b3 & H3); [rewrite length_replicate; lia|].
    replace (m - 1 + 1)%nat with m in H2 by lia.
    cbn [Nat.add replicate] in H1. change (Z.of_nat 0) with 0 in H1. rewrite H1. cbn [mbind option_bind].
    rewrite spec_ops_app, H2. cbn [mbind option_bind]. rewrite spec_ops_app, H3. cbn. rewrite Hf. cbn.
    exists (b1 ++ b2 ++ b3), (f d2). by rewrite <-!(assoc_L (++)). }
  pose proof (run_ops_spec _ os _ _ _ _ (reps_new (Z.of_nat m) d)) as H.
  unfold limit_of in H. rewrite (proj2 (Z.ltb_lt _ _)), Hs in H by lia.
  destruct H as (s & w & l & H & Hr). exists s, w, bs. split; [done|]. by rewrite (r_count _ _ _ _ _ Hr).
Qed.
End stack.

Definition add1 : act := mkAct (D := Z) "add" (Some (fun x => x - 1)) (Some (fun x => x + 1)) false.

Lemma undo_history_collapses_witness :
  (2 <= 3)%nat /\ a_undo add1 = Some (fun x : Z => x - 1) /\
  exists s w bs, run_ops (Some (undo_stack_new 3)) (mkWorld ∅ 7 [])
      (replicate 3 (OPush add1) ++ replicate 2 OUndo ++ replicate 2 (OPush add1) ++ [OUndo; OUndo]) =
    Done (Some s, w, bs ++ [true; false]) /\ depth s = 3.
Proof.
  split; [lia|]. split; [reflexivity|].
  apply (undo_history_collapses 3 add1 (fun x => x - 1) 7 1); [lia|reflexivity].
Defined.
