(* ===== verification/Arena.v ===== *)
(** The bump allocator of src/src/core/arena.c. Sizes are [size_t], bytes that
    were never written are [None]; a pointer into the arena is a block and an
    offset, and [realloc] gives a new block: pointers into the old one may no
    longer be used. *)

From S2P Require Import Prelude.

Record Arena := mkArena { block : nat; buffer : list (option Z); capacity : Z; offset : Z }.

Section arena.
(** Whether the system has a block of that size. *)
Context (available : Z -> bool).

Definition arena_new (initial_capacity : Z) : option Arena :=
  if available initial_capacity
  then Some (mkArena 0 (replicate (Z.to_nat initial_capacity) None) initial_capacity 0) else None.

Definition arena_reset (a : option Arena) : option Arena :=
  match a with Some a => Some (mkArena (block a) (buffer a) (capacity a) 0) | None => None end.

(** [realloc]: the common part is kept. *)
Definition realloc (a : Arena) (n : Z) : option Arena :=
  if available n then Some (mkArena (S (block a)) (resize (Z.to_nat n) None (buffer a)) n (offset a)) else None.

(** A write of [bytes] at [off]. *)
Definition store_bytes (a : Arena) (off : Z) (bytes : list (option Z)) : exec Arena :=
  let o := Z.to_nat off in
  if (o + length bytes <=? length (buffer a))%nat
  then Done (mkArena (block a) (take o (buffer a) ++ bytes ++ drop (o + length bytes) (buffer a)) (capacity a) (offset a))
  else Fault OutOfBounds.

(** [while (new_cap < need) new_cap *= 2] *)
Fixpoint grow (fuel : nat) (new_cap need : Z) : exec Z :=
  if new_cap <? need then
    match fuel with O => Fault Diverges | S fuel' => grow fuel' (u64 (new_cap * 2)) need end
  else Done new_cap.

(** [(size + 7) & ~7] *)
Definition align8 (size : Z) : Z := Z.land (u64 (size + 7)) (2 ^ 64 - 8).

Definition arena_alloc (a : option Arena) (size : Z) : exec (Arena * (nat * Z)) :=
  match a with
  | None => Fail
  | Some a =>
      let aligned := align8 size in
      let need := u64 (offset a + aligned) in
      a1 ← (if capacity a <? need then
              new_cap ← grow 64 (u64 (capacity a * 2)) need;
              match realloc a new_cap with Some a1 => Done a1 | None => Fail end
            else Done a : exec Arena);
      let p := offset a1 in
      a2 ← store_bytes (mkArena (block a1) (buffer a1) (capacity a1) (u64 (p + aligned))) p (replicate (Z.to_nat aligned) (Some 0));
      Done (a2, (block a2, p))
  end.

Definition arena_strdup (a : option Arena) (src : option string) : exec (Arena * (nat * Z)) :=
  match a, src with
  | Some a, Some s =>
      '(a1, (b, p)) ← arena_alloc (Some a) (strlen s + 1);
      a2 ← store_bytes a1 p (map (fun c => Some (uchar c)) (chars s) ++ [Some 0]);
      Done (a2, (b, p))
  | _, _ => Fail
  end.

Definition arena_maybe_shrink (a : Arena) : Arena :=
  if ((4 * 1024 * 1024 <? capacity a) && (offset a <? capacity a / 4))%bool then
    let new_cap := u64 (offset a * 2) in
    let new_cap := if new_cap <? 1024 * 1024 then 1024 * 1024 else new_cap in
    match realloc a new_cap with Some a' => a' | None => a end
  else a.

(** ** Well-formedness *)

Definition wf (a : Arena) : Prop :=
  0 < capacity a < 2 ^ 63 /\ length (buffer a) = Z.to_nat (capacity a) /\
  0 <= offset a <= capacity a /\ offset a mod 8 = 0.

(** No object is larger than [PTRDIFF_MAX]. *)
Hypothesis available_max : forall n, available n = true -> n < 2 ^ 63.

Definition bytes_at (a : Arena) (off : Z) (n : nat) : list (option Z) := take n (drop (Z.to_nat off) (buffer a)).

Lemma u64_small z : 0 <= z < 2 ^ 64 -> u64 z = z.
Proof. apply Z.mod_small. Qed.

Lemma align8_spec size : 0 <= size < 2 ^ 63 ->
  align8 size mod 8 = 0 /\ size <= align8 size < size + 8.
Proof.
  intros Hs. unfold align8. rewrite u64_small by (change (2^63) with 9223372036854775808 in Hs; change (2^64) with 18446744073709551616; lia).
  assert (Z.land (size + 7) (2 ^ 64 - 8) = 8 * ((size + 7) / 8)) as ->.
  { change 8 with (2 ^ 3) at 2. change 8 with (2 ^ 3) at 2.
    rewrite <-Z.shiftr_div_pow2, Z.mul_comm, <-Z.shiftl_mul_pow2 by lia.
    apply Z.bits_inj'. intros i Hi. rewrite Z.land_spec, Z.shiftl_spec by done.
    destruct (decide (i < 3)) as [H|H].
    - rewrite (Z.testbit_neg_r _ (i - 3)) by lia.
      assert (i = 0 \/ i = 1 \/ i = 2) as [->|[->| ->]] by lia; apply andb_false_r.
    - rewrite Z.shiftr_spec by lia. replace (i - 3 + 3) with i by lia.
      change (2 ^ 64 - 8) with (Z.shiftl (Z.ones 61) 3). rewrite Z.shiftl_spec by lia.
      destruct (decide (i < 64)) as [H'|H'].
      + rewrite Z.ones_spec_low by lia. apply andb_true_r.
      + rewrite Z.ones_spec_high by lia. rewrite andb_false_r. symmetry.
        destruct (decide (size + 7 = 0)); [lia|]. apply Z.bits_above_log2; [lia|].
        apply Z.log2_lt_pow2; [lia|]. apply Z.lt_le_trans with (2 ^ 64); [|apply Z.pow_le_mono_r; lia].
        change (2^63) with 9223372036854775808 in Hs; change (2^64) with 18446744073709551616; lia. }
  pose proof (Z.div_mod (size + 7) 8 ltac:(lia)). pose proof (Z.mod_pos_bound (size + 7) 8 ltac:(lia)).
  split; [|lia]. rewrite Z.mul_comm. by apply Z_mod_mult.
Qed.

Lemma grow_spec fuel : forall c need, 0 < c < 2 ^ 64 -> need < 2 ^ 63 -> need <= c * 2 ^ Z.of_nat fuel ->
  exists n, grow fuel c need = Done n /\ need <= n /\ c <= n /\ (n = c \/ n < 2 * need).
Proof.
  induction fuel as [|fuel IH]; intros c need Hc Hn Hf; cbn [grow].
  - rewrite (proj2 (Z.ltb_ge _ _)) by lia. exists c. auto with lia.
  - destruct (c <? need) eqn:E; simp_bool; [|exists c; auto with lia].
    assert (u64 (c * 2) = c * 2) as ->.
    { apply u64_small. change (2 ^ 64) with (2 * 2 ^ 63). lia. }
    rewrite Nat2Z.inj_succ, Z.pow_succ_r in Hf by lia.
    destruct (IH (c * 2) need) as (n & -> & H1 & H2 & H3); [|done|lia|].
    { change (2 ^ 64) with (2 * 2 ^ 63). lia. }
    exists n. split; [done|]. lia.
Qed.

Lemma store_bytes_spec a off bytes : 0 <= off -> (Z.to_nat off + length bytes <= length (buffer a))%nat ->
  exists a', store_bytes a off bytes = Done a' /\ block a' = block a /\ capacity a' = capacity a /\ offset a' = offset a /\
    length (buffer a') = length (buffer a) /\ bytes_at a' off (length bytes) = bytes /\
    (forall o n, 0 <= o -> o + Z.of_nat n <= off -> bytes_at a' o n = bytes_at a o n).
Proof.
  intros H0 Hl. unfold store_bytes. rewrite (proj2 (Nat.leb_le _ _) Hl). eexists. split; [done|].
  cbn [block capacity offset buffer]. do 3 (split; [done|]). split; [|split].
  - rewrite !length_app, length_take, length_drop. lia.
  - unfold bytes_at. cbn [buffer]. rewrite drop_app_length' by (rewrite length_take; lia). by rewrite take_app_length.
  - intros o n Ho Hon. unfold bytes_at. cbn [buffer]. rewrite drop_app_le by (rewrite length_take; lia).
    rewrite take_app_le by (rewrite length_drop, length_take; lia).
    rewrite <-(take_drop (Z.to_nat off) (buffer a)) at 2. rewrite drop_app_le by (rewrite length_take; lia).
    rewrite take_app_le by (rewrite length_drop, length_take; lia). done.
Qed.

Lemma realloc_spec a n a' : realloc a n = Some a' -> offset a <= n -> length (buffer a) = Z.to_nat (capacity a) -> offset a <= capacity a ->
  available n = true /\ block a' = S (block a) /\ capacity a' = n /\ offset a' = offset a /\ length (buffer a') = Z.to_nat n /\
  (forall o k, 0 <= o -> o + Z.of_nat k <= offset a -> bytes_at a' o k = bytes_at a o k).
Proof.
  unfold realloc. destruct (available n) eqn:E; [|done]. intros [= <-] H1 H2 H3. cbn [block capacity offset buffer].
  do 4 (split; [done|]). split; [apply length_resize|]. intros o k Ho Hk. unfold bytes_at. cbn [buffer].
  destruct (decide (n <= capacity a)).
  - rewrite resize_le by lia. rewrite <-(take_drop (Z.to_nat n) (buffer a)) at 2.
    rewrite drop_app_le by (rewrite length_take; lia). rewrite take_app_le by (rewrite length_drop, length_take; lia). done.
  - rewrite resize_ge by lia. rewrite drop_app_le by lia. rewrite take_app_le by (rewrite length_drop; lia). done.
Qed.

(** an allocation that succeeds returns zeroed bytes, aligned to 8, that
    start at the old offset and end inside the buffer; what was allocated
    before keeps its bytes; the arena stays well formed. The growth loop ends.
    Only the system can make it fail. *)
Theorem arena_alloc_spec a size : wf a -> 0 <= size -> offset a + size + 7 < 2 ^ 63 ->
  match arena_alloc (Some a) size with
  | Done (a', (b, p)) =>
      wf a' /\ p = offset a /\ p mod 8 = 0 /\ b = block a' /\ p + size <= offset a' < p + size + 8 /\
      bytes_at a' p (Z.to_nat size) = replicate (Z.to_nat size) (Some 0) /\
      (forall o n, 0 <= o -> o + Z.of_nat n <= offset a -> bytes_at a' o n = bytes_at a o n) /\
      (b = block a <-> p + align8 size <= capacity a)
  | Fail => exists n, available n = false /\ offset a + size <= n
  | Fault _ => False
  end.
Proof.
  intros (Hc & Hlen & Ho & Hal) Hs Hov. unfold arena_alloc.
  change (2 ^ 63) with 9223372036854775808 in *.
  destruct (align8_spec size) as [Ha8 Ha]; [change (2 ^ 63) with 9223372036854775808; lia|].
  set (al := align8 size) in *. rewrite (u64_small (offset a + al)) by (change (2 ^ 64) with 18446744073709551616; lia).
  assert (forall a1, offset a1 = offset a -> 0 < capacity a1 < 9223372036854775808 -> length (buffer a1) = Z.to_nat (capacity a1) ->
    offset a + al <= capacity a1 ->
    (forall o n, 0 <= o -> o + Z.of_nat n <= offset a -> bytes_at a1 o n = bytes_at a o n) ->
    exists a2, store_bytes (mkArena (block a1) (buffer a1) (capacity a1) (u64 (offset a1 + al))) (offset a1) (replicate (Z.to_nat al) (Some 0)) = Done a2 /\
      wf a2 /\ block a2 = block a1 /\ offset a2 = offset a + al /\
      bytes_at a2 (offset a1) (Z.to_nat size) = replicate (Z.to_nat size) (Some 0) /\
      (forall o n, 0 <= o -> o + Z.of_nat n <= offset a -> bytes_at a2 o n = bytes_at a o n)) as Hlast.
  { intros a1 E1 Hc1 Hl1 Hfit Hb1.
    destruct (store_bytes_spec (mkArena (block a1) (buffer a1) (capacity a1) (u64 (offset a1 + al))) (offset a1) (replicate (Z.to_nat al) (Some 0)))
      as (a2 & H1 & H2 & H3 & H4 & H5 & H6 & H7); [lia|cbn [buffer]; rewrite length_replicate; lia|].
    cbn [block capacity offset buffer] in *. rewrite u64_small in H4 by (change (2 ^ 64) with 18446744073709551616; lia).
    exists a2. split; [done|]. rewrite length_replicate in H6. split; [|split; [done|split; [lia|split]]].
    - unfold wf. rewrite H3, H4, H5. repeat split; try lia.
      rewrite E1, Z.add_mod, Hal, Ha8 by lia. done.
    - unfold bytes_at in *. rewrite <-(take_replicate_add (Z.to_nat size) (Z.to_nat al - Z.to_nat size) (Some 0)).
      replace (Z.to_nat size + _)%nat with (Z.to_nat al) by lia. rewrite <-H6, take_take. f_equal. lia.
    - intros o n ??. rewrite H7 by lia. rewrite <-Hb1 by lia. done. }
  destruct (capacity a <? offset a + al) eqn:Hcap; simp_bool.
  - rewrite (u64_small (capacity a * 2)) by (change (2 ^ 64) with 18446744073709551616; lia).
    edestruct (grow_spec 64 (capacity a * 2) (offset a + al)) as (n & -> & Hn1 & Hn2 & _);
      [change (2 ^ 64) with 18446744073709551616; lia|change (2 ^ 63) with 9223372036854775808; lia| |].
    { change (2 ^ Z.of_nat 64) with 18446744073709551616. lia. }
    cbn [mbind exec_bind]. destruct (realloc a n) as [a1|] eqn:Hr.
    + apply realloc_spec in Hr as (Hav & E1 & E2 & E3 & E4 & E5); [|lia|done|lia].
      apply available_max in Hav. change (2 ^ 63) with 9223372036854775808 in Hav. cbn [mbind exec_bind].
      destruct (Hlast a1 E3) as (a2 & -> & H1 & H2 & H3 & H4 & H5); [rewrite E2; lia|by rewrite E2|rewrite E2; lia|done|].
      cbn [mbind exec_bind]. rewrite E3 in *. split; [done|]. do 3 (split; [done|]). split; [lia|]. split; [done|]. split; [done|].
      rewrite H2, E1. lia.
    + cbn. unfold realloc in Hr. destruct (available n) eqn:E; [done|]. exists n. split; [done|lia].
  - cbn [mbind exec_bind]. destruct (Hlast a eq_refl) as (a2 & -> & H1 & H2 & H3 & H4 & H5); try done.
    cbn [mbind exec_bind]. split; [done|]. do 3 (split; [done|]). split; [lia|]. split; [done|]. split; [done|].
    rewrite H2. lia.
Qed.

Lemma bytes_at_store a off bytes a' : 0 <= off -> store_bytes a off bytes = Done a' ->
  (Z.to_nat off + length bytes <= length (buffer a))%nat ->
  bytes_at a' off (length bytes) = bytes /\ block a' = block a /\ offset a' = offset a /\ capacity a' = capacity a /\
  length (buffer a') = length (buffer a) /\
  (forall o n, 0 <= o -> o + Z.of_nat n <= off -> bytes_at a' o n = bytes_at a o n).
Proof.
  intros H0 Hd Hl. destruct (store_bytes_spec a off bytes H0 Hl) as (a2 & H1 & ? & ? & ? & ? & ? & ?).
  rewrite Hd in H1. injection H1 as ->. auto 10.
Qed.

(** a string copied into the arena reads back with its terminator, inside
    the bytes allocated for it. *)
Theorem arena_strdup_spec a s a' b p : wf a -> offset a + strlen s + 8 < 2 ^ 63 ->
  arena_strdup (Some a) (Some s) = Done (a', (b, p)) ->
  wf a' /\ p = offset a /\ p + strlen s + 1 <= offset a' /\
  bytes_at a' p (S (String.length s)) = map (fun c => Some (uchar c)) (chars s) ++ [Some 0] /\
  (forall o n, 0 <= o -> o + Z.of_nat n <= offset a -> bytes_at a' o n = bytes_at a o n).
Proof.
  intros Hwf Hov. unfold arena_strdup. assert (0 <= strlen s) by (unfold strlen; lia).
  assert (0 <= offset a) by apply Hwf.
  pose proof (arena_alloc_spec a (strlen s + 1) Hwf ltac:(lia) ltac:(lia)) as Hs.
  destruct (arena_alloc (Some a) (strlen s + 1)) as [[a1 [b1 p1]]| |]; [|done|done].
  destruct Hs as (Hwf1 & -> & _ & _ & Hb & _ & Hpre & _). cbn [mbind exec_bind].
  destruct (store_bytes a1 _ _) as [a2| |] eqn:E; [|done|done]. cbn [mbind exec_bind]. intros [= -> _ <-].
  assert (length (map (fun c => Some (uchar c)) (chars s) ++ [Some 0]) = S (String.length s)) as Hlen.
  { rewrite length_app, length_map, length_chars. simpl. lia. }
  destruct Hwf1 as (Hc1 & Hl1 & Ho1 & Hal1).
  apply bytes_at_store in E as (E1 & E2 & E3 & E4 & E5 & E6); [|lia|rewrite Hlen; unfold strlen in *; lia].
  rewrite Hlen in E1. split; [unfold wf; by rewrite E3, E4, E5|]. split; [done|]. split; [lia|]. split; [done|].
  intros o n ??. rewrite E6 by lia. by apply Hpre.
Qed.

(** shrinking keeps every allocated byte and leaves room for them. *)
Theorem arena_maybe_shrink_keeps a : wf a ->
  wf (arena_maybe_shrink a) /\ offset (arena_maybe_shrink a) = offset a /\ capacity (arena_maybe_shrink a) <= capacity a /\
  (forall o n, 0 <= o -> o + Z.of_nat n <= offset a -> bytes_at (arena_maybe_shrink a) o n = bytes_at a o n).
Proof.
  intros (Hc & Hlen & Ho & Hal). unfold arena_maybe_shrink.
  assert (wf a) as Hwf by done.
  destruct (_ && _)%bool eqn:E; [|split; [done|]; auto with lia]. simp_bool. change (2 ^ 63) with 9223372036854775808 in Hc.
  pose proof (Z.mul_div_le (capacity a) 4 ltac:(lia)).
  rewrite u64_small by (change (2 ^ 64) with 18446744073709551616; lia).
  set (n := if _ <? _ then _ else _).
  assert (offset a <= n /\ 0 < n <= capacity a) as [Hn1 Hn2].
  { unfold n. destruct (_ <? _) eqn:?; simp_bool; lia. }
  destruct (realloc a n) as [a'|] eqn:Hr; [|split; [done|]; auto with lia].
  apply realloc_spec in Hr as (_ & E1 & E2 & E3 & E4 & E5); [|lia|done|lia].
  unfold wf. rewrite E2, E3, E4. change (2 ^ 63) with 9223372036854775808. repeat split; try done; lia.
Qed.

Fixpoint arena_allocs (a : Arena) (sizes : list Z) : exec (Arena * list (nat * Z)) :=
  match sizes with
  | [] => Done (a, [])
  | n :: sizes' => '(a1, p) ← arena_alloc (Some a) n; '(a2, ps) ← arena_allocs a1 sizes'; Done (a2, p :: ps)
  end.
(** An upper bound of what the sizes take with their padding. *)
Definition room (sizes : list Z) : Z := foldr (fun n acc => n + 8 + acc) 0 sizes.

(** A frame: the arena is reset and gives out memory for the tree, whose pointers
    are used once all of it is there. A pointer from before the buffer
    moved is one into memory that was freed. *)
Definition arena_frame (a : Arena) (sizes : list Z) : exec Arena :=
  '(a', ps) ← arena_allocs (mkArena (block a) (buffer a) (capacity a) 0) sizes;
  if forallb (fun p => (fst p =? block a')%nat) ps then Done a' else Fault UseAfterFree.

(** What fits does not move the buffer. *)
Lemma arena_alloc_fits a size : wf a -> 0 <= size -> offset a + size + 8 <= capacity a ->
  exists a', arena_alloc (Some a) size = Done (a', (block a, offset a)) /\ wf a' /\ block a' = block a /\ capacity a' = capacity a /\
    offset a' <= offset a + size + 8.
Proof.
  intros Hwf Hs Hfit. pose proof Hwf as (Hc & Hl & Ho & Hal). change (2 ^ 63) with 9223372036854775808 in Hc.
  pose proof (arena_alloc_spec a size Hwf Hs ltac:(change (2 ^ 63) with 9223372036854775808; lia)) as Hspec.
  destruct (align8_spec size ltac:(change (2 ^ 63) with 9223372036854775808; lia)) as [_ Ha].
  unfold arena_alloc in *. cbv zeta in *. set (al := align8 size) in *.
  assert (u64 (offset a + al) = offset a + al) as Eu by (apply u64_small; change (2 ^ 64) with 18446744073709551616; lia).
  rewrite Eu in *. destruct (Z.ltb_spec (capacity a) (offset a + al)); [lia|]. cbn [mbind exec_bind] in *.
  destruct (store_bytes_spec (mkArena (block a) (buffer a) (capacity a) (u64 (offset a + al))) (offset a) (replicate (Z.to_nat al) (Some 0)))
    as (a2 & E & Eb & Ec & _); [lia|cbn [buffer]; rewrite length_replicate; lia|]. rewrite E in *. cbn [mbind exec_bind] in *.
  destruct Hspec as (Hwf2 & _ & _ & _ & Hoff & _). exists a2. cbn [block capacity] in *. rewrite Eb. repeat split; try done; try apply Hwf2; lia.
Qed.
Lemma arena_allocs_fit sizes : forall a, wf a -> Forall (fun n => 0 <= n) sizes -> offset a + room sizes <= capacity a ->
  exists a' ps, arena_allocs a sizes = Done (a', ps) /\ wf a' /\ block a' = block a /\ capacity a' = capacity a /\ Forall (fun p => fst p = block a) ps.
Proof.
  induction sizes as [|n sizes IH]; intros a Hwf Hs Hr; [by exists a, []|]. inversion_clear Hs as [|? ? Hn Hss]. cbn [room foldr] in Hr. fold (room sizes) in Hr.
  assert (0 <= room sizes) as Hr0. { clear -Hss. induction Hss as [|m l Hm _ IHl]; [done|]. cbn [room foldr]. fold (room l). lia. }
  destruct (arena_alloc_fits a n Hwf Hn ltac:(lia)) as (a1 & E & Hwf1 & Hb & Hc & Ho).
  destruct (IH a1 Hwf1 Hss ltac:(lia)) as (a2 & ps & E2 & Hwf2 & Hb2 & Hc2 & Hps). exists a2, ((block a, offset a) :: ps).
  cbn [arena_allocs]. rewrite E. cbn [mbind exec_bind]. rewrite E2. cbn [mbind exec_bind]. rewrite Hb2, Hc2, Hb, Hc. rewrite Hb in Hps.
  split; [done|]. split; [done|]. split; [done|]. split; [done|]. by constructor.
Qed.
Lemma arena_frame_fits a sizes : wf a -> Forall (fun n => 0 <= n) sizes -> room sizes <= capacity a ->
  exists a', arena_frame a sizes = Done a' /\ wf a' /\ capacity a' = capacity a.
Proof.
  intros (Hc & Hl & Ho & Hal) Hs Hr. unfold arena_frame.
  destruct (arena_allocs_fit sizes (mkArena (block a) (buffer a) (capacity a) 0)) as (a' & ps & -> & Hwf' & Hb & Hc' & Hps);
    [unfold wf; cbn [capacity buffer offset]; repeat split; try done; lia|done|done|].
  cbn [mbind exec_bind block capacity] in *. exists a'. split; [|done]. rewrite Hb.
  replace (forallb _ ps) with true; [done|]. symmetry. apply forallb_forall. intros p Hp. rewrite List.Forall_forall in Hps. rewrite (Hps p Hp). apply Nat.eqb_refl.
Qed.

(** C23: the ranges of a sequence of allocations are inside the buffer and
    pairwise disjoint, in the order of the calls. *)
Theorem arena_allocs_disjoint a sizes a' ps : wf a -> Forall (fun n => 0 <= n) sizes ->
  offset a + room sizes < 2 ^ 63 -> arena_allocs a sizes = Done (a', ps) ->
  wf a' /\ length ps = length sizes /\
  (forall i n q, sizes !! i = Some n -> ps !! i = Some q -> offset a <= q.2 /\ q.2 + n <= offset a' <= capacity a') /\
  (forall i j n q q', (i < j)%nat -> sizes !! i = Some n -> ps !! i = Some q -> ps !! j = Some q' -> q.2 + n <= q'.2).
Proof.
  revert a ps. induction sizes as [|n sizes IH]; intros a ps Hwf Hpos Hroom.
  { intros [= -> <-]. split; [done|]. split; [done|]. by split. }
  apply list.Forall_cons in Hpos as [Hn Hpos]. cbn [room foldr] in Hroom. fold (room sizes) in Hroom.
  assert (0 <= room sizes) as Hr0 by (clear -Hpos; induction Hpos; simpl; lia).
  pose proof (arena_alloc_spec a n Hwf Hn ltac:(lia)) as Hs. cbn [arena_allocs].
  destruct (arena_alloc (Some a) n) as [[a1 [b p]]| |]; [|done|done].
  destruct Hs as (Hwf1 & Hp & _ & _ & Hb & _ & _ & _). cbn [mbind exec_bind].
  destruct (arena_allocs a1 sizes) as [[a2 ps2]| |] eqn:E; [|done|done]. cbn [mbind exec_bind]. intros [= -> <-].
  destruct (IH a1 ps2 Hwf1 Hpos ltac:(lia) E) as (Hwf2 & Hlen & Hin & Hdis).
  assert (offset a1 <= offset a') as Hmono.
  { clear -E Hin Hlen Hwf1 Hpos. destruct sizes as [|m sizes].
    - injection E as -> <-. lia.
    - destruct ps2 as [|q ps2]; [done|]. destruct (Hin 0%nat m q eq_refl eq_refl). apply list.Forall_cons in Hpos as [? _]. lia. }
  split; [done|]. split; [simpl; by rewrite Hlen|]. pose proof (proj1 (proj2 (proj2 Hwf2))) as Ho2. split.
  - intros [|i] m q Hm Hq; simpl in Hm, Hq.
    + injection Hm as <-. injection Hq as <-. cbn [snd]. lia.
    + destruct (Hin i m q Hm Hq). lia.
  - intros [|i] [|j] m q q' Hij Hm Hq Hq'; simpl in Hm, Hq, Hq'; [lia| |lia|].
    + injection Hm as <-. injection Hq as <-. destruct (lookup_lt_is_Some_2 sizes j) as [m' Hm'].
      { rewrite <-Hlen. by eapply lookup_lt_Some. }
      destruct (Hin j m' q' Hm' Hq'). cbn [snd]. lia.
    + apply (Hdis i j m q q'); [lia|done..].
Qed.
End arena.

(** the growth loop doubles the capacity, so from capacity 0 it never
    ends, whatever the fuel: the first allocation in an arena made with size 0
    hangs. *)
Theorem arena_empty_diverges available size : available 0 = true -> 0 < size < 2 ^ 63 ->
  (forall fuel, grow fuel 0 (align8 size) = Fault Diverges) /\
  arena_alloc available (arena_new available 0) size = Fault Diverges.
Proof.
  intros Hav Hs. destruct (align8_spec size ltac:(lia)) as [_ Ha].
  assert (forall fuel, grow fuel 0 (align8 size) = Fault Diverges) as Hg.
  { intros fuel. induction fuel as [|fuel IH]; cbn [grow]; rewrite (proj2 (Z.ltb_lt _ _)) by lia; [done|exact IH]. }
  split; [done|]. unfold arena_alloc, arena_new. rewrite Hav. cbn [capacity offset].
  change (2 ^ 63) with 9223372036854775808 in Hs.
  rewrite Z.add_0_l, u64_small by (change (2 ^ 64) with 18446744073709551616; lia).
  rewrite (proj2 (Z.ltb_lt _ _)) by lia. change (u64 (0 * 2)) with 0. by rewrite Hg.
Qed.

(** ** At concrete inputs *)

Definition some_memory (n : Z) : bool := n <? 2 ^ 40.
Lemma some_memory_max n : some_memory n = true -> n < 2 ^ 63.
Proof. unfold some_memory. intros H. apply Z.ltb_lt in H. change (2 ^ 40) with 1099511627776 in H. change (2 ^ 63) with 9223372036854775808. lia. Qed.
Definition arena16 : Arena := mkArena 0 (replicate 16 None) 16 0.
Lemma arena16_wf : wf arena16.
Proof. unfold wf, arena16. cbn [capacity buffer offset]. change (2 ^ 63) with 9223372036854775808. repeat split; lia. Qed.

Lemma arena_alloc_spec_witness : wf arena16 /\
  match arena_alloc some_memory (Some arena16) 20 with
  | Done (a', (b, p)) =>
      wf a' /\ p = offset arena16 /\ p mod 8 = 0 /\ b = block a' /\ p + 20 <= offset a' < p + 20 + 8 /\
      bytes_at a' p (Z.to_nat 20) = replicate (Z.to_nat 20) (Some 0) /\
      (forall o n, 0 <= o -> o + Z.of_nat n <= offset arena16 -> bytes_at a' o n = bytes_at arena16 o n) /\
      (b = block arena16 <-> p + align8 20 <= capacity arena16)
  | Fail => exists n, some_memory n = false /\ offset arena16 + 20 <= n
  | Fault _ => False
  end.
Proof.
  split; [exact arena16_wf|]. apply (arena_alloc_spec some_memory some_memory_max arena16 20 arena16_wf);
    [lia|change (2 ^ 63) with 9223372036854775808; simpl; lia].
Defined.

Definition arena_after (m : exec (Arena * (nat * Z))) : Arena := match m with Done (a, _) => a | _ => arena16 end.
Lemma arena_strdup_spec_witness : exists a',
  arena_strdup some_memory (Some arena16) (Some "hello") = Done (a', (0%nat, 0)) /\ bytes_at a' 0 6 = map Some [104; 101; 108; 108; 111; 0].
Proof.
  exists (arena_after (arena_strdup some_memory (Some arena16) (Some "hello"))). split; [reflexivity|].
  apply (arena_strdup_spec some_memory some_memory_max arena16 "hello" _ 0%nat 0 arena16_wf);
    [change (2 ^ 63) with 9223372036854775808; unfold strlen; simpl; lia|reflexivity].
Defined.

Lemma arena_maybe_shrink_keeps_witness : wf arena16 /\ wf (arena_maybe_shrink some_memory arena16).
Proof. split; [exact arena16_wf|]. apply (arena_maybe_shrink_keeps some_memory arena16 arena16_wf). Defined.

Definition allocs_after (m : exec (Arena * list (nat * Z))) : Arena := match m with Done (a, _) => a | _ => arena16 end.
Lemma arena_allocs_disjoint_witness : exists a', arena_allocs some_memory arena16 [3; 9; 1] = Done (a', [(0%nat, 0); (1%nat, 8); (1%nat, 24)]) /\ wf a'.
Proof.
  exists (allocs_after (arena_allocs some_memory arena16 [3; 9; 1])). split; [reflexivity|].
  apply (arena_allocs_disjoint some_memory some_memory_max arena16 [3; 9; 1] _ [(0%nat, 0); (1%nat, 8); (1%nat, 24)] arena16_wf);
    [repeat constructor; lia|change (2 ^ 63) with 9223372036854775808; simpl; lia|reflexivity].
Defined.

Lemma arena_empty_diverges_witness : some_memory 0 = true /\ arena_alloc some_memory (arena_new some_memory 0) 5 = Fault Diverges.
Proof.
  split; [reflexivity|]. apply (arena_empty_diverges some_memory 5); [reflexivity|change (2 ^ 63) with 9223372036854775808; lia].
Defined.
