(* ===== verification/Protocol.v ===== *)
(** The wire messages of src/src/protocol/protocol.c: a widget request read
    from JSON and a widget response written as JSON. *)

From Stdlib Require Import SpecFloat.
From S2P Require Import Prelude Double CJson CJsonParse CJsonPrint CJsonRound.

Record WidgetRequest := mkRequest {
  widget : option string; params : option cJSON; step : Z; total : Z;
  session_id : option string; tty : option string; relay : bool; headless : bool;
  anchor : option string; x : Z; y : Z; relative_to : option string; dx : Z; dy : Z;
  z_index : Z; overflow : option string; tooltip : option string; tab_index : Z; draggable : bool
}.
Record WidgetResponse := mkResponse { result : option cJSON; cancelled : bool; error : option string }.

Section fields.
Variable root : cJSON.
(** [if (w && w->valuestring) req->f = strdup(w->valuestring)] *)
Definition string_field (k : string) : option string := cJSON_GetObjectItem (Some root) k ≫= valuestring.
(** [if (s) req->f = s->valueint] *)
Definition int_field (k : string) : Z := default 0 (valueint <$> cJSON_GetObjectItem (Some root) k).
(** [if (r) req->f = r->valueint ? true : false] *)
Definition flag_field (k : string) : bool := negb (int_field k =? 0).
(** [if (x && x->type == cJSON_Number) req->f = x->valueint] *)
Definition number_field (k : string) : Z :=
  match cJSON_GetObjectItem (Some root) k with
  | Some i => if decide (type i = cJSON_Number) then valueint i else 0
  | None => 0
  end.
Definition request_fields : WidgetRequest :=
  {| widget := string_field "widget";
     params := (fun p => cJSON_Duplicate p true) <$> cJSON_GetObjectItem (Some root) "params";
     step := int_field "step"; total := int_field "total";
     session_id := string_field "session_id"; tty := string_field "tty";
     relay := flag_field "relay"; headless := flag_field "headless";
     anchor := string_field "anchor"; x := number_field "x"; y := number_field "y";
     relative_to := string_field "relative_to"; dx := number_field "dx"; dy := number_field "dy";
     z_index := number_field "z_index"; overflow := string_field "overflow"; tooltip := string_field "tooltip";
     tab_index := number_field "tab_index"; draggable := flag_field "draggable" |}.
End fields.

Definition widget_request_parse (json_str : string) : exec WidgetRequest :=
  root ← cJSON_Parse json_str; Done (request_fields root).

Definition response_json (resp : WidgetResponse) : cJSON :=
  let root := cJSON_CreateObject in
  let root := cJSON_AddStringToObject root "type" (Some "response") in
  let root := match result resp with
    | Some r => cJSON_AddItemToObject root "result" (Some (cJSON_Duplicate r true))
    | None => cJSON_AddNullToObject root "result"
    end in
  let root := cJSON_AddBoolToObject root "cancelled" (cancelled resp) in
  match error resp with Some e => cJSON_AddStringToObject root "error" (Some e) | None => root end.
Definition widget_response_to_json (resp : WidgetResponse) : exec string := cJSON_PrintUnformatted (response_json resp).

(** ** What a request means

    The fields as values of the JSON text, whichever way the tree was made. *)
Definition string_of (i : cJSON) : option string :=
  match type i with cJSON_String => valuestring i | _ => None end.
Definition int_of (i : cJSON) : Z :=
  match type i with cJSON_Number => valueint i | cJSON_True => 1 | _ => 0 end.

Section meaning.
Variable root : cJSON.
Definition str (k : string) : option string := cJSON_GetObjectItem (Some root) k ≫= string_of.
Definition int (k : string) : Z := default 0 (int_of <$> cJSON_GetObjectItem (Some root) k).
Definition number (k : string) : Z :=
  match cJSON_GetObjectItem (Some root) k with
  | Some i => match type i with cJSON_Number => valueint i | _ => 0 end
  | None => 0
  end.
Definition request_of : WidgetRequest :=
  {| widget := str "widget"; params := (fun p => parsed_as (key p) p) <$> cJSON_GetObjectItem (Some root) "params";
     step := int "step"; total := int "total"; session_id := str "session_id"; tty := str "tty";
     relay := negb (int "relay" =? 0); headless := negb (int "headless" =? 0);
     anchor := str "anchor"; x := number "x"; y := number "y"; relative_to := str "relative_to";
     dx := number "dx"; dy := number "dy"; z_index := number "z_index"; overflow := str "overflow";
     tooltip := str "tooltip"; tab_index := number "tab_index"; draggable := negb (int "draggable" =? 0) |}.
End meaning.

Lemma find_child_parsed k l : find_child k (map (fun c => parsed_as (key c) c) l) = (fun c => parsed_as (key c) c) <$> find_child k l.
Proof.
  induction l as [|c l IH]; [done|]. cbn [map find_child].
  assert (key (parsed_as (key c) c) = key c) as -> by (destruct c as [[] ? ? ? ? ?]; done).
  destruct (key c) as [kc|] eqn:E; [|done]. case_decide; [cbn; by rewrite E|exact IH].
Qed.

Lemma valuestring_parsed k i : valuestring (parsed_as k i) = string_of i.
Proof. by destruct i as [[] ? ? ? ? ?]. Qed.
Lemma valueint_parsed k i : valueint (parsed_as k i) = int_of i.
Proof. by destruct i as [[] ? ? ? ? ?]. Qed.
Lemma type_parsed k i : type (parsed_as k i) = type i.
Proof. by destruct i as [[] ? ? ? ? ?]. Qed.

Lemma lookup_parsed root k : type root = cJSON_Object ->
  cJSON_GetObjectItem (Some (parsed_as None root)) k = (fun c => parsed_as (key c) c) <$> cJSON_GetObjectItem (Some root) k.
Proof.
  destruct root as [t vs vi vd kk ch]. cbn [type]. intros ->. apply find_child_parsed.
Qed.

Lemma request_fields_parsed root : type root = cJSON_Object -> request_fields (parsed_as None root) = request_of root.
Proof.
  intros Ht.
  assert (forall k, string_field (parsed_as None root) k = str root k) as Hs.
  { intros k. unfold string_field, str. rewrite lookup_parsed by done.
    destruct (cJSON_GetObjectItem _ k); [apply valuestring_parsed|done]. }
  assert (forall k, int_field (parsed_as None root) k = int root k) as Hi.
  { intros k. unfold int_field, int. rewrite lookup_parsed by done.
    destruct (cJSON_GetObjectItem _ k); [apply valueint_parsed|done]. }
  assert (forall k, number_field (parsed_as None root) k = number root k) as Hn.
  { intros k. unfold number_field, number. rewrite lookup_parsed by done.
    destruct (cJSON_GetObjectItem _ k) as [i|]; [|done]. cbn [fmap option_fmap option_map].
    rewrite type_parsed, valueint_parsed. unfold int_of. destruct (type i); done. }
  unfold request_fields, request_of, flag_field. rewrite !Hs, !Hi, !Hn, lookup_parsed by done.
  f_equal. destruct (cJSON_GetObjectItem _ "params"); [|done]. cbn [fmap option_fmap option_map]. by rewrite cJSON_Duplicate_id.
Qed.

(** C27: a request sent as the JSON text the library itself prints of an object
    is read back field by field with the meaning of the text: strings from
    strings only, numbers from numbers (a true counts 1 where the code does not
    test the type), flags from any non-zero value, and the parameters in full.
    The object has no numbers but integers that fit an int, no strings with a NUL or a control
    character without a short escape, at most 1000 levels and a text shorter than
    2^31 - 1 bytes; texts others write (with spaces, fractions or \u escapes) are
    not spoken of. *)
Theorem request_roundtrip root :
  type root = cJSON_Object -> printable root = true -> json_ok root = true -> (nesting root <= 1000)%nat ->
  Z.of_nat (length (json_text root)) < INT_MAX ->
  exists s, cJSON_PrintUnformatted root = Done s /\ widget_request_parse s = Done (request_of root).
Proof.
  intros Ht Hp Hok Hn Hl. exists (of_chars (json_text root)). split; [by apply print_text|].
  unfold widget_request_parse. rewrite parse_json_text by done. cbn [mbind exec_bind].
  by rewrite request_fields_parsed.
Qed.

(** The parts of a response that fit in JSON text. *)
Definition response_ok (resp : WidgetResponse) : Prop :=
  let i := response_json resp in
  printable i = true /\ json_ok i = true /\ (nesting i <= 1000)%nat /\ Z.of_nat (length (json_text i)) < INT_MAX.

(** the other side reads from the response line what the widget answered:
    its kind, the result tree, whether it was cancelled, and the error. *)
Theorem response_roundtrip resp : response_ok resp ->
  exists s i, widget_response_to_json resp = Done s /\ cJSON_Parse s = Done i /\
    cJSON_GetStringValue (cJSON_GetObjectItem (Some i) "type") = Some "response" /\
    cJSON_GetObjectItem (Some i) "result" =
      Some (match result resp with Some r => parsed_as (Some "result") r | None => set_key (Some "result") cJSON_CreateNull end) /\
    cJSON_IsTrue (cJSON_GetObjectItem (Some i) "cancelled") = cancelled resp /\
    cJSON_GetStringValue (cJSON_GetObjectItem (Some i) "error") = error resp.
Proof.
  intros (Hp & Hok & Hn & Hl). exists (of_chars (json_text (response_json resp))), (parsed_as None (response_json resp)).
  split; [by apply print_text|]. split; [by apply parse_json_text|].
  assert (type (response_json resp) = cJSON_Object) as Ht.
  { unfold response_json. destruct (result resp), (error resp); done. }
  rewrite !lookup_parsed by done. clear. unfold response_json.
  destruct (result resp) as [r|], (error resp) as [e|], (cancelled resp); cbn;
    try rewrite cJSON_Duplicate_id; repeat split; try done; destruct r as [[] ? ? ? ? ?]; done.
Qed.

Definition sample_request : cJSON :=
  let o := cJSON_AddStringToObject cJSON_CreateObject "widget" (Some "menu") in
  let o := cJSON_AddItemToObject o "params" (Some (cJSON_AddStringToObject cJSON_CreateObject "title" (Some "Pick"))) in
  let o := AddInt o "step" 2 in
  let o := cJSON_AddBoolToObject o "relay" true in
  AddInt o "dx" (-7).

Lemma request_roundtrip_witness : exists s, cJSON_PrintUnformatted sample_request = Done s /\
  widget_request_parse s = Done (request_of sample_request) /\
  relay (request_of sample_request) = true /\ dx (request_of sample_request) = -7.
Proof.
  destruct (request_roundtrip sample_request) as (s & H1 & H2); [vm_compute; first [reflexivity|lia]..|].
  exists s. split; [exact H1|]. split; [exact H2|]. split; reflexivity.
Defined.

Definition sample_response : WidgetResponse := mkResponse (Some sample) false (Some "late").
Lemma response_roundtrip_witness : response_ok sample_response /\ exists s, widget_response_to_json sample_response = Done s.
Proof.
  assert (response_ok sample_response) as H by (unfold response_ok; repeat split; vm_compute; first [reflexivity|lia]).
  split; [exact H|]. destruct (response_roundtrip sample_response H) as (s & i & Hs & _). exists s. exact Hs.
Defined.
