(* ===== verification/Schema.v ===== *)
(** The schema check of src/src/protocol/schema.c, and the relation it decides:
    which JSON values conform to a schema. *)

From S2P Require Import Prelude CJson CJsonParse.

Definition get (i : cJSON) (k : string) : option cJSON := cJSON_GetObjectItem (Some i) k.

(** The error message, or [None] when the node passes. *)
Definition verdict : Type := option string.

Definition validate_type (node schema : cJSON) : verdict :=
  match get schema "type" ≫= valuestring with
  | None => None
  | Some t =>
      let n := Some node in
      if bool_decide (t = "string") && negb (cJSON_IsString n) then Some "Expected string"
      else if bool_decide (t = "number") && negb (cJSON_IsNumber n) then Some "Expected number"
      else if bool_decide (t = "boolean") && negb (cJSON_IsBool n || cJSON_IsTrue n || cJSON_IsFalse n) then Some "Expected boolean"
      else if bool_decide (t = "object") && negb (cJSON_IsObject n) then Some "Expected object"
      else if bool_decide (t = "array") && negb (cJSON_IsArray n) then Some "Expected array"
      else None
  end%bool.

(** The loop over [required]: [strcmp] with the missing key. *)
Fixpoint in_required (req : list cJSON) (k : option string) : exec bool :=
  match req with
  | [] => Done false
  | r :: req' =>
      match valuestring r with
      | None => in_required req' k
      | Some v => k' ← deref k; if decide (v = k') then Done true else in_required req' k
      end
  end.
Definition missing_message (k : string) : string := strtake 255 ("Missing required field: " +:+ k).

(** [cJSON_GetObjectItem] with a name that may be NULL. *)
Definition get_opt (i : cJSON) (k : option string) : option cJSON := k ≫= get i.

Section walk.
Variable validate_node : cJSON -> option cJSON -> exec verdict.
Fixpoint validate_properties (node : cJSON) (required : option cJSON) (props : list cJSON) : exec verdict :=
  match props with
  | [] => Done None
  | c :: props' =>
      let continue := validate_properties node required props' in
      match get_opt node (key c) with
      | None =>
          missing ← (match required with Some r => in_required (child r) (key c) | None => Done false end);
          if (missing : bool) then Done (Some (missing_message (default EmptyString (key c)))) else continue
      | Some v =>
          e ← validate_node v (Some c);
          match e with Some m => Done (Some m) | None => continue end
      end
  end.
Definition validate_object (node schema : cJSON) : exec verdict :=
  match get schema "properties" with
  | None => Done None
  | Some props => validate_properties node (get schema "required") (child props)
  end.
Fixpoint validate_items (nodes : list cJSON) (items : cJSON) : exec verdict :=
  match nodes with
  | [] => Done None
  | c :: nodes' =>
      e ← validate_node c (Some items);
      match e with Some m => Done (Some m) | None => validate_items nodes' items end
  end.
Definition validate_array (node schema : cJSON) : exec verdict :=
  match get schema "items" with None => Done None | Some items => validate_items (child node) items end.
End walk.

(** The recursion goes down the schema: its depth is enough fuel. *)
Fixpoint validate_node (fuel : nat) (node : cJSON) (schema : option cJSON) : exec verdict :=
  match schema with
  | None => Done None
  | Some schema =>
      match fuel with
      | O => Fault Diverges
      | S fuel' =>
          match validate_type node schema with
          | Some m => Done (Some m)
          | None =>
              match type node with
              | cJSON_Object => validate_object (validate_node fuel') node schema
              | cJSON_Array => validate_array (validate_node fuel') node schema
              | _ => Done None
              end
          end
      end
  end.

Fixpoint depth (s : cJSON) : nat := match s with Item _ _ _ _ _ ch => S (list_max (map depth ch)) end.

Definition schema_validate (json_str schema_str : string) : exec verdict :=
  match cJSON_Parse json_str with
  | Fail => Done (Some "Invalid JSON")
  | Fault f => Fault f
  | Done node =>
      match cJSON_Parse schema_str with
      | Fail => Done (Some "Invalid schema JSON")
      | Fault f => Fault f
      | Done schema => validate_object (validate_node (depth schema)) node schema
      end
  end.

(** ** The specification *)

Definition type_ok (node schema : cJSON) : Prop :=
  forall t, get schema "type" ≫= valuestring = Some t ->
    (t = "string" -> type node = cJSON_String) /\ (t = "number" -> type node = cJSON_Number) /\
    (t = "boolean" -> type node = cJSON_True \/ type node = cJSON_False) /\
    (t = "object" -> type node = cJSON_Object) /\ (t = "array" -> type node = cJSON_Array).

Definition is_required (schema : cJSON) (k : string) : Prop :=
  exists r i, get schema "required" = Some r /\ i ∈ child r /\ valuestring i = Some k.

Inductive conforms : cJSON -> cJSON -> Prop :=
  | Conforms schema node :
      type_ok node schema ->
      (type node = cJSON_Object -> properties_ok schema node) ->
      (type node = cJSON_Array -> forall items, get schema "items" = Some items ->
         forall c, c ∈ child node -> conforms items c) ->
      conforms schema node
with properties_ok : cJSON -> cJSON -> Prop :=
  | PropertiesOk schema node :
      (forall props c k, get schema "properties" = Some props -> c ∈ child props -> key c = Some k ->
         (forall v, get node k = Some v -> conforms c v) /\
         (get node k = None -> ~ is_required schema k)) ->
      properties_ok schema node.

(** Every property of the schema has a name: they are given as an object. *)
Fixpoint named (s : cJSON) : Prop :=
  match s with
  | Item _ _ _ _ _ ch =>
      (forall p, find_child "properties" ch = Some p -> Forall (fun c => is_Some (key c)) (child p)) /\
      (fix all l := match l with [] => True | c :: l' => named c /\ all l' end) ch
  end.

Lemma named_child s c : named s -> c ∈ child s -> named c.
Proof.
  destruct s as [t vs vi vd k ch]. simpl. intros [_ H]. induction ch as [|d ch IH]; intros Hc; [by apply elem_of_nil in Hc|].
  apply elem_of_cons in Hc as [->|Hc]; [apply H|]. apply IH; [apply H | exact Hc].
Qed.
Lemma find_child_in k l c : find_child k l = Some c -> c ∈ l.
Proof.
  induction l as [|d l IH]; [done|]. simpl. destruct (key d); [|done].
  case_decide; [intros [= ->]; left | intros H'; right; by apply IH].
Qed.
Lemma depth_child s c : c ∈ child s -> (depth c < depth s)%nat.
Proof.
  destruct s as [t vs vi vd k ch]. cbn [child depth]. intros Hc.
  assert (depth c <= list_max (map depth ch))%nat; [|lia].
  pose proof (proj1 (list_max_le (map depth ch) _) (le_n _)) as H. rewrite List.Forall_forall in H.
  apply H, in_map. by apply list_elem_of_In.
Qed.

Lemma validate_type_spec node schema : validate_type node schema = None <-> type_ok node schema.
Proof.
  unfold validate_type, type_ok. destruct (get schema "type" ≫= valuestring) as [t|]; [|naive_solver].
  unfold cJSON_IsString, cJSON_IsNumber, cJSON_IsTrue, cJSON_IsFalse, cJSON_IsObject, cJSON_IsArray, cJSON_IsBool, type_is.
  split.
  - intros H t' [= <-]. revert H.
    repeat match goal with |- context [bool_decide (t = ?s)] => destruct (bool_decide_reflect (t = s)) as [->|?] end;
    destruct (type node) eqn:E; vm_compute; try done; intros _; repeat split; intros ?; auto; congruence.
  - intros H. specialize (H t eq_refl) as (H1 & H2 & H3 & H4 & H5).
    repeat match goal with |- context [bool_decide (t = ?s)] => destruct (bool_decide_reflect (t = s)) as [->|_] end; cbn [andb];
    rewrite ?H1, ?H2, ?H4, ?H5 by done; try done.
    destruct H3 as [H3|H3]; [done|rewrite H3; done|rewrite H3; done].
Qed.

Lemma get_child s k c : get s k = Some c -> c ∈ child s.
Proof. apply find_child_in. Qed.

Lemma in_required_spec req k : exists b, in_required req (Some k) = Done b /\
  (b = true <-> exists i, i ∈ req /\ valuestring i = Some k).
Proof.
  induction req as [|r req (b & IH & Hb)]; cbn [in_required].
  - exists false. split; [done|]. split; [done|]. by intros (i & ?%elem_of_nil & _).
  - destruct (valuestring r) as [v|] eqn:E; cbn [deref mbind exec_bind].
    + case_decide as Hv.
      * exists true. subst. split; [done|]. split; [|done]. intros _. exists r. split; [left|done].
      * exists b. split; [done|]. rewrite Hb. split; intros (i & Hi & ?); exists i.
        -- split; [by right|done].
        -- apply elem_of_cons in Hi as [->|?]; [congruence|done].
    + exists b. split; [done|]. rewrite Hb. split; intros (i & Hi & ?); exists i.
      * split; [by right|done].
      * apply elem_of_cons in Hi as [->|?]; [congruence|done].
Qed.

(** [m] decides [P]: it has a verdict, and the verdict is "no error" iff [P]. *)
Definition decides (m : exec verdict) (P : Prop) : Prop :=
  exists e, m = Done e /\ (e = None <-> P).

Lemma decides_iff m P Q : decides m P -> (P <-> Q) -> decides m Q.
Proof. intros (e & H1 & H2) H. exists e. split; [done|]. by rewrite H2. Qed.

Section walk_spec.
Context (V : cJSON -> option cJSON -> exec verdict) (schema : cJSON).
(** The walk is given for the parts of the schema. *)
Hypothesis V_ok : forall c n, c ∈ child schema \/ (exists p, p ∈ child schema /\ c ∈ child p) ->
  decides (V n (Some c)) (conforms c n).

Lemma validate_properties_spec node props : Forall (fun c => is_Some (key c)) props ->
  (forall c, c ∈ props -> exists p, p ∈ child schema /\ c ∈ child p) ->
  decides (validate_properties V node (get schema "required") props)
    (forall c k, c ∈ props -> key c = Some k ->
       (forall v, get node k = Some v -> conforms c v) /\ (get node k = None -> ~ is_required schema k)).
Proof.
  intros Hk Hp. induction Hk as [|c props [k Hk] Hks IH]; cbn [validate_properties].
  { exists None. split; [done|]. split; [|done]. by intros _ c k ?%elem_of_nil. }
  assert (forall Q : Prop, decides (validate_properties V node (get schema "required") props)
      (forall d k', d ∈ props -> key d = Some k' ->
       (forall v, get node k' = Some v -> conforms d v) /\ (get node k' = None -> ~ is_required schema k')) ->
    ((forall v, get node k = Some v -> conforms c v) /\ (get node k = None -> ~ is_required schema k)) ->
    decides (validate_properties V node (get schema "required") props)
     (forall d k', d ∈ c :: props -> key d = Some k' ->
       (forall v, get node k' = Some v -> conforms d v) /\ (get node k' = None -> ~ is_required schema k'))) as Hgo.
  { intros _ Hd Hc. eapply decides_iff; [exact Hd|]. split; intros H d k' Hd' Hk'.
    - apply elem_of_cons in Hd' as [->|?]; [rewrite Hk in Hk'; by injection Hk' as <-|by apply H].
    - apply H; [by right|done]. }
  specialize (Hgo True (IH ltac:(intros d Hd; apply Hp; by right))).
  rewrite Hk. cbn [get_opt mbind option_bind]. destruct (get node k) as [v|] eqn:Hv.
  - destruct (V_ok c v) as (e & -> & He); [right; apply Hp; left|]. cbn [mbind exec_bind].
    destruct e as [m|].
    + exists (Some m). split; [done|]. split; [done|]. intros H. exfalso.
      destruct (H c k) as [H1 _]; [left|done|]. specialize (H1 v Hv). by apply He in H1.
    + apply Hgo. split; [|done]. intros v' [= <-]. by apply He.
  - assert (exists b, match get schema "required" with Some r => in_required (child r) (Some k) | None => Done false end = Done b /\
      (b = true <-> is_required schema k)) as (b & -> & Hb).
    { unfold is_required. destruct (get schema "required") as [r|].
      - destruct (in_required_spec (child r) k) as (b & -> & Hb). exists b. split; [done|]. rewrite Hb. split.
        + intros (i & ? & ?). by exists r, i.
        + intros (r' & i & [= <-] & ? & ?). by exists i.
      - exists false. split; [done|]. split; [done|]. by intros (r & i & ? & _). }
    cbn [mbind exec_bind]. destruct b.
    + eexists. split; [done|]. split; [done|]. intros H. exfalso.
      destruct (H c k) as [_ H2]; [left|done|]. apply H2; [done|]. by apply Hb.
    + apply Hgo. split; [by intros ??|]. intros _ H%Hb. done.
Qed.

Lemma validate_object_spec node : named schema -> decides (validate_object V node schema) (properties_ok schema node).
Proof.
  intros Hn. unfold validate_object. destruct (get schema "properties") as [p|] eqn:Hp.
  - eapply decides_iff; [apply (validate_properties_spec node (child p))|].
    + destruct schema as [? ? ? ? ? ch]. apply Hn. exact Hp.
    + intros c Hc. exists p. split; [by eapply get_child|done].
    + split.
      * intros H. constructor. intros p' c k Hp' Hc Hk. rewrite Hp in Hp'. injection Hp' as <-. by apply H.
      * intros H c k Hc Hk. inversion H as [? ? H']; subst. by apply (H' p).
  - exists None. split; [done|]. split; [|done]. intros _. constructor. intros p c k Hp'. by rewrite Hp in Hp'.
Qed.

Lemma validate_array_spec node : decides (validate_array V node schema)
  (forall items, get schema "items" = Some items -> forall c, c ∈ child node -> conforms items c).
Proof.
  unfold validate_array. destruct (get schema "items") as [it|] eqn:Hit; [|exists None; naive_solver].
  apply decides_iff with (P := forall c, c ∈ child node -> conforms it c).
  2:{ split; [intros H ? [= <-]; exact H|intros H; by apply H]. }
  induction (child node) as [|c l IH]; cbn [validate_items].
  - exists None. split; [done|]. split; [|done]. by intros _ c ?%elem_of_nil.
  - destruct (V_ok it c) as (e & -> & He); [left; by eapply get_child|]. cbn [mbind exec_bind]. destruct e as [m|].
    + exists (Some m). split; [done|]. split; [done|]. intros H. exfalso. specialize (H c ltac:(left)). by apply He in H.
    + eapply decides_iff; [exact IH|]. split; intros H d Hd.
      * apply elem_of_cons in Hd as [->|?]; [by apply He|by apply H].
      * apply H. by right.
Qed.
End walk_spec.

Lemma parts_depth s c fuel : (depth s <= S fuel)%nat ->
  c ∈ child s \/ (exists p, p ∈ child s /\ c ∈ child p) -> (depth c <= fuel)%nat.
Proof. intros Hs [H%depth_child|(p & H1%depth_child & H2%depth_child)]; lia. Qed.
Lemma parts_named s c : named s -> c ∈ child s \/ (exists p, p ∈ child s /\ c ∈ child p) -> named c.
Proof. intros Hs [H|(p & H1 & H2)]; [by eapply named_child|]. eapply named_child; [|done]. by eapply named_child. Qed.

Lemma validate_node_spec fuel : forall schema node, (depth schema <= fuel)%nat -> named schema ->
  decides (validate_node fuel node (Some schema)) (conforms schema node).
Proof.
  induction fuel as [|fuel IH]; intros schema node Hd Hn; [destruct schema; simpl in Hd; lia|].
  cbn [validate_node].
  assert (V_ok : forall c n, c ∈ child schema \/ (exists p, p ∈ child schema /\ c ∈ child p) ->
    decides (validate_node fuel n (Some c)) (conforms c n)).
  { intros c n Hc. apply IH; [by eapply parts_depth|by eapply parts_named]. }
  pose proof (validate_type_spec node schema) as Ht. destruct (validate_type node schema) as [m|].
  { eexists. split; [done|]. split; [done|]. intros H. inversion H as [? ? H1]; subst. by apply Ht in H1. }
  assert (type_ok node schema) as Hty by by apply Ht.
  destruct (type node) eqn:E;
    try (exists None; split; [done|]; split; [|done]; intros _; constructor; [done|congruence|congruence]).
  - eapply decides_iff; [by apply validate_array_spec|]. split.
    + intros H. constructor; [done|congruence|done].
    + intros H. inversion H as [? ? _ _ H3]; subst. by apply H3.
  - eapply decides_iff; [by apply validate_object_spec|]. split.
    + intros H. constructor; [done|done|congruence].
    + intros H. inversion H as [? ? _ H3 _]; subst. by apply H3.
Qed.

(** C25: the check of a document against a schema whose properties are named
    always gives a verdict, and it accepts exactly the JSON documents whose
    properties conform to the schema. *)
Theorem schema_validate_decides json_str schema_str schema :
  cJSON_Parse schema_str = Done schema -> named schema ->
  exists e, schema_validate json_str schema_str = Done e /\
    (e = None <-> exists node, cJSON_Parse json_str = Done node /\ properties_ok schema node).
Proof.
  intros Hs Hn. unfold schema_validate. rewrite Hs. pose proof (no_fault_parse json_str) as Hsafe.
  destruct (cJSON_Parse json_str) as [node| |f]; [|eexists; naive_solver|done].
  destruct (validate_object_spec (validate_node (depth schema)) schema) with (node := node) as (e & H1 & H2).
  - intros c n Hc. apply validate_node_spec; [|by eapply parts_named].
    eapply parts_depth; [|exact Hc]. lia.
  - done.
  - exists e. split; [done|]. rewrite H2. naive_solver.
Qed.

(** a schema without properties accepts every document: the [type] and the
    [items] of the root of the schema are not looked at. *)
Theorem schema_root_unchecked json_str schema_str schema node :
  cJSON_Parse schema_str = Done schema -> get schema "properties" = None -> cJSON_Parse json_str = Done node ->
  schema_validate json_str schema_str = Done None.
Proof. intros Hs Hp Hn. unfold schema_validate. rewrite Hs, Hn. unfold validate_object. by rewrite Hp. Qed.

Definition schema_text : string := q "{'type':'object','required':['name'],'properties':{'name':{'type':'string'},'tags':{'type':'array','items':{'type':'number'}}}}".
Definition parsed (s : string) : cJSON := match cJSON_Parse s with Done i => i | _ => cJSON_New_Item end.

Example schema_accepts : schema_validate (q "{'name':'a','tags':[1,2]}") schema_text = Done None.
Proof. vm_compute. reflexivity. Qed.
Example schema_rejects : schema_validate (q "{'tags':[1,'x'],'name':'a'}") schema_text = Done (Some "Expected number").
Proof. vm_compute. reflexivity. Qed.

Lemma schema_validate_decides_witness :
  exists e, schema_validate (q "{'tags':[1]}") schema_text = Done e /\
    (e = None <-> exists node, cJSON_Parse (q "{'tags':[1]}") = Done node /\ properties_ok (parsed schema_text) node).
Proof.
  apply (schema_validate_decides _ schema_text (parsed schema_text)); [vm_compute; reflexivity|].
  vm_compute. repeat split; intros; try discriminate;
    match goal with H : Some _ = Some _ |- _ => injection H as <- end; repeat constructor; eexists; reflexivity.
Defined.

Lemma schema_root_unchecked_witness : schema_validate "5" (q "{'type':'object'}") = Done None.
Proof. apply (schema_root_unchecked _ _ (parsed (q "{'type':'object'}")) (parsed "5")); vm_compute; reflexivity. Defined.
