(* ===== verification/RenderTree.v ===== *)
(** The render tree of src/src/core/render.h and render.c: its nodes, default
    style, and the passes that walk it. Child arrays are lists (NULL is the
    empty list); colours are [uint32_t]; the arrays of a fixed size in a style
    are lists of that length. *)

From Stdlib Require Import SpecFloat.
From S2P Require Import Prelude Double.

Record Rect := mkRect { rx : Z; ry : Z; rw : Z; rh : Z }.
#[global] Instance Rect_eq_dec : EqDecision Rect.
Proof. solve_decision. Defined.
Definition rect_new (x y w h : Z) : Rect := mkRect x y w h.

Inductive Alignment := ALIGN_LEFT | ALIGN_CENTER | ALIGN_RIGHT.
Inductive BorderStyle := BORDER_NONE | BORDER_SINGLE | BORDER_DOUBLE | BORDER_ROUNDED | BORDER_SOLID | BORDER_DASHED | BORDER_DOTTED.
Inductive Orientation := ORIENT_HORIZONTAL | ORIENT_VERTICAL.
Inductive Overflow := OVERFLOW_VISIBLE | OVERFLOW_CLIP | OVERFLOW_SCROLL.
Inductive AnchorMode :=
  | ANCHOR_TOP_LEFT | ANCHOR_TOP_CENTER | ANCHOR_TOP_RIGHT | ANCHOR_CENTER_LEFT | ANCHOR_CENTER | ANCHOR_CENTER_RIGHT
  | ANCHOR_BOTTOM_LEFT | ANCHOR_BOTTOM_CENTER | ANCHOR_BOTTOM_RIGHT | ANCHOR_ABSOLUTE | ANCHOR_RELATIVE.
Inductive CursorStyle :=
  | CURSOR_DEFAULT | CURSOR_POINTER | CURSOR_TEXT | CURSOR_MOVE
  | CURSOR_RESIZE_N | CURSOR_RESIZE_S | CURSOR_RESIZE_E | CURSOR_RESIZE_W
  | CURSOR_RESIZE_NE | CURSOR_RESIZE_NW | CURSOR_RESIZE_SE | CURSOR_RESIZE_SW | CURSOR_NOT_ALLOWED.
Inductive GradientType := GRADIENT_NONE | GRADIENT_LINEAR | GRADIENT_RADIAL.
#[global] Instance AnchorMode_eq_dec : EqDecision AnchorMode.
Proof. solve_decision. Defined.
#[global] Instance Overflow_eq_dec : EqDecision Overflow.
Proof. solve_decision. Defined.

Record EdgeInsets := mkInsets { top : Z; bottom : Z; left : Z; right : Z }.
Definition edgeinsets_zero : EdgeInsets := mkInsets 0 0 0 0.

(** [(a<<24)|(r<<16)|(g<<8)|b] of bytes promoted to [int], as [uint32_t]. *)
Definition rgba (r g b a : Z) : Z :=
  u32 (Z.lor (Z.lor (Z.lor (Z.shiftl a 24) (Z.shiftl r 16)) (Z.shiftl g 8)) b).

Definition MAX_SHADOWS : Z := 4.
Record ShadowLayer := mkShadow { offset_x : Z; offset_y : Z; blur : Z; spread : Z; sh_color : Z }.
Record GradientStop := mkStop { stop_offset : float; stop_color : Z }.
Definition MAX_GRADIENT_STOPS : Z := 8.
Record Gradient := mkGradient {
  gradient_type : GradientType; angle : float; center_x : float; center_y : float; stops : list GradientStop; stop_count : Z
}.
Record WidgetStyle := mkStyle {
  fg_color : Z; bg_color : Z; border_color : Z; accent_color : Z;
  border_width : Z; border_radius : Z;
  border_top_width : Z; border_bottom_width : Z; border_left_width : Z; border_right_width : Z;
  border_top_color : Z; border_bottom_color : Z; border_left_color : Z; border_right_color : Z;
  border_top_style : BorderStyle; border_bottom_style : BorderStyle;
  border_left_style : BorderStyle; border_right_style : BorderStyle;
  padding : list Z; margin : list Z;
  min_width : Z; min_height : Z; max_width : Z; max_height : Z;
  font_family : option string; font_size : Z; font_weight : Z; font_italic : bool;
  text_align : Alignment; opacity : float; shadows : list ShadowLayer; shadow_count : Z; gradient : Gradient; backdrop_blur : Z;
  letter_spacing : float; line_height : float; text_transform : Z; transition_ms : Z;
  scale_x : float; scale_y : float; rotation : float; translate_x : float; translate_y : float;
  cursor_style : CursorStyle
}.

Definition shadow_zero : ShadowLayer := mkShadow 0 0 0 0 0.
Definition gradient_zero : Gradient := mkGradient GRADIENT_NONE f_zero f_zero f_zero (replicate 8 (mkStop f_zero 0)) 0.
(** The style of a node cleared with [memset]. *)
Definition style_zero : WidgetStyle := {|
  fg_color := 0; bg_color := 0; border_color := 0; accent_color := 0; border_width := 0; border_radius := 0;
  border_top_width := 0; border_bottom_width := 0; border_left_width := 0; border_right_width := 0;
  border_top_color := 0; border_bottom_color := 0; border_left_color := 0; border_right_color := 0;
  border_top_style := BORDER_NONE; border_bottom_style := BORDER_NONE;
  border_left_style := BORDER_NONE; border_right_style := BORDER_NONE;
  padding := [0; 0; 0; 0]; margin := [0; 0; 0; 0];
  min_width := 0; min_height := 0; max_width := 0; max_height := 0;
  font_family := None; font_size := 0; font_weight := 0; font_italic := false;
  text_align := ALIGN_LEFT; opacity := f_zero; shadows := replicate 4 shadow_zero; shadow_count := 0;
  gradient := gradient_zero; backdrop_blur := 0;
  letter_spacing := f_zero; line_height := f_zero; text_transform := 0; transition_ms := 0;
  scale_x := f_zero; scale_y := f_zero; rotation := f_zero; translate_x := f_zero; translate_y := f_zero;
  cursor_style := CURSOR_DEFAULT
|}.
Definition widgetstyle_default : WidgetStyle := {|
  fg_color := rgba 0xd0 0xd0 0xd0 255; bg_color := rgba 0x1a 0x1a 0x2e 255;
  border_color := rgba 0x2a 0x2a 0x4a 255; accent_color := rgba 0xe9 0x45 0x60 255;
  border_width := 1; border_radius := 4;
  border_top_width := 0; border_bottom_width := 0; border_left_width := 0; border_right_width := 0;
  border_top_color := 0; border_bottom_color := 0; border_left_color := 0; border_right_color := 0;
  border_top_style := BORDER_SOLID; border_bottom_style := BORDER_SOLID;
  border_left_style := BORDER_SOLID; border_right_style := BORDER_SOLID;
  padding := [8; 12; 8; 12]; margin := [0; 0; 0; 0];
  min_width := 0; min_height := 0; max_width := 0; max_height := 0;
  font_family := None; font_size := 14; font_weight := 400; font_italic := false;
  text_align := ALIGN_LEFT; opacity := f_lit 1 0; shadows := replicate 4 shadow_zero; shadow_count := 0;
  gradient := gradient_zero; backdrop_blur := 0;
  letter_spacing := f_zero; line_height := f_lit 12 1; text_transform := 0; transition_ms := 150;
  scale_x := f_lit 1 0; scale_y := f_lit 1 0; rotation := f_zero; translate_x := f_zero; translate_y := f_zero;
  cursor_style := CURSOR_DEFAULT
|}.

Record ListItem := mkListItem { li_label : option string; li_meta : option string }.
Definition listitem_new (label : option string) : ListItem := mkListItem label None.

(** The nodes of a tree widget and the fields of a form; the value of a field is
    its characters. *)
Inductive TreeNode := mkTreeNode (tn_label : string) (tn_expanded : bool) (tn_children : list TreeNode).
Record FormField := mkField {
  ff_label : string; ff_type : string; ff_value : list ascii; ff_placeholder : string; ff_choices : list string
}.

Inductive RenderNodeType :=
  | TCONTAINER | TTEXT | TLIST | TINPUT | TCHECKBOX | TTOGGLE | TSPINNER | TSEPARATOR | TBADGE | TCURSOR
  | TTABLE | TTREE | TGAUGE | TCALENDAR | TFORM | TTABS | TSPLIT_PANES | TCONTEXT_MENU | TTOAST
  | TFLEX | TGRID | TVECTOR | TRICH_TEXT | TIMAGE | TCANVAS | TMARKDOWN | TPLOT | TVIDEO.
#[global] Instance RenderNodeType_eq_dec : EqDecision RenderNodeType.
Proof. solve_decision. Defined.

(** The members of the union: the node types with neither children nor a pass
    that reads them are [Leaf]s. *)
Inductive Leaf :=
  | RNODE_SPINNER (message : option string) (frame : Z)
  | RNODE_SEPARATOR (separator_orientation : Orientation)
  | RNODE_BADGE (badge_text : option string)
  | RNODE_TOAST (toast_message : option string)
  | RNODE_VECTOR (path fill stroke : option string) (stroke_width : float)
  | RNODE_RICH_TEXT (spans : option string)
  | RNODE_IMAGE (source fit : option string) (width height : Z)
  | RNODE_CANVAS (script : option string) (canvas_width canvas_height : Z)
  | RNODE_MARKDOWN (markdown_content : option string)
  | RNODE_PLOT (plot_type : option string) (data : list double) (labels : list string)
  | RNODE_VIDEO (video_source : option string) (loop : bool).
Definition leaf_type (l : Leaf) : RenderNodeType :=
  match l with
  | RNODE_SPINNER _ _ => TSPINNER | RNODE_SEPARATOR _ => TSEPARATOR | RNODE_BADGE _ => TBADGE | RNODE_TOAST _ => TTOAST
  | RNODE_VECTOR _ _ _ _ => TVECTOR | RNODE_RICH_TEXT _ => TRICH_TEXT | RNODE_IMAGE _ _ _ _ => TIMAGE | RNODE_CANVAS _ _ _ => TCANVAS
  | RNODE_MARKDOWN _ => TMARKDOWN | RNODE_PLOT _ _ _ => TPLOT | RNODE_VIDEO _ _ => TVIDEO
  end.
Inductive Content (T : Type) :=
  | RNODE_CONTAINER (bg : option string) (border : BorderStyle) (insets : EdgeInsets) (children : list T)
  | RNODE_TEXT (content : option string) (align : Alignment)
  | RNODE_LIST (items : list ListItem) (selected : Z)
  | RNODE_INPUT (text placeholder : option string) (cursor : Z) (masked : bool)
  | RNODE_CHECKBOX (label : option string) (checked focused : bool)
  | RNODE_TOGGLE (label : option string) (value focused : bool)
  | RNODE_TABLE (headers : list string) (rows : list (list string)) (selected_row selected_col : Z)
  | RNODE_TREE (nodes : list TreeNode) (selected_path : option Z)
  | RNODE_GAUGE (percent : Z) (label : option string)
  | RNODE_CALENDAR (year month selected_day : Z)
  | RNODE_FORM (fields : list FormField) (focused : Z) (submit_label : option string)
  | RNODE_TABS (tab_labels : list string) (active : Z) (child : option T)
  | RNODE_SPLIT_PANES (orientation : Orientation) (split_position split_position2 : Z) (first second third : option T)
  | RNODE_FLEX (direction wrap justify align_items : option string) (children : list T)
  | RNODE_GRID (columns rows : Z) (children : list T)
  | RNODE_CURSOR (x y : Z)
  | RNODE_CONTEXT_MENU (items : list ListItem) (selected : Z)
  | RNODE_LEAF (l : Leaf).
Arguments RNODE_CONTAINER {T}. Arguments RNODE_TEXT {T}. Arguments RNODE_LIST {T}. Arguments RNODE_INPUT {T}.
Arguments RNODE_CHECKBOX {T}. Arguments RNODE_TOGGLE {T}. Arguments RNODE_TABLE {T}. Arguments RNODE_TREE {T}. Arguments RNODE_GAUGE {T}.
Arguments RNODE_CALENDAR {T}. Arguments RNODE_FORM {T}. Arguments RNODE_TABS {T}. Arguments RNODE_SPLIT_PANES {T}.
Arguments RNODE_FLEX {T}. Arguments RNODE_GRID {T}. Arguments RNODE_CURSOR {T}. Arguments RNODE_CONTEXT_MENU {T}. Arguments RNODE_LEAF {T}.

Definition content_type {T} (u : Content T) : RenderNodeType :=
  match u with
  | RNODE_CONTAINER _ _ _ _ => TCONTAINER | RNODE_TEXT _ _ => TTEXT | RNODE_LIST _ _ => TLIST
  | RNODE_INPUT _ _ _ _ => TINPUT | RNODE_CHECKBOX _ _ _ => TCHECKBOX | RNODE_TOGGLE _ _ _ => TTOGGLE | RNODE_TABLE _ _ _ _ => TTABLE
  | RNODE_TREE _ _ => TTREE | RNODE_GAUGE _ _ => TGAUGE | RNODE_CALENDAR _ _ _ => TCALENDAR | RNODE_FORM _ _ _ => TFORM
  | RNODE_TABS _ _ _ => TTABS | RNODE_SPLIT_PANES _ _ _ _ _ _ => TSPLIT_PANES | RNODE_FLEX _ _ _ _ _ => TFLEX
  | RNODE_GRID _ _ _ => TGRID | RNODE_CURSOR _ _ => TCURSOR | RNODE_CONTEXT_MENU _ _ => TCONTEXT_MENU | RNODE_LEAF l => leaf_type l
  end.

Record NodeInfo := mkInfo {
  rect : Rect; target_rect : Rect; has_target_rect : bool;
  style_class : option string; state : option string;
  resolved_style : WidgetStyle; dirty : bool; z_index : Z;
  anchor : AnchorMode; anchor_dx : Z; anchor_dy : Z; relative_to : option string;
  overflow : Overflow; tooltip : option string; tab_index : Z;
  role : option string; access_label : option string
}.
(** [memset(&tree, 0, sizeof(tree))] *)
Definition info_zero : NodeInfo := {|
  rect := mkRect 0 0 0 0; target_rect := mkRect 0 0 0 0; has_target_rect := false;
  style_class := None; state := None; resolved_style := style_zero; dirty := false; z_index := 0;
  anchor := ANCHOR_TOP_LEFT; anchor_dx := 0; anchor_dy := 0; relative_to := None;
  overflow := OVERFLOW_VISIBLE; tooltip := None; tab_index := 0; role := None; access_label := None |}.

Inductive RenderTree := mkTree { info : NodeInfo; u : Content RenderTree }.
Definition type (t : RenderTree) : RenderNodeType := content_type (u t).

Definition set_rect (r : Rect) (i : NodeInfo) : NodeInfo :=
  mkInfo r (target_rect i) (has_target_rect i) (style_class i) (state i) (resolved_style i) (dirty i) (z_index i)
    (anchor i) (anchor_dx i) (anchor_dy i) (relative_to i) (overflow i) (tooltip i) (tab_index i) (role i) (access_label i).
Definition set_has_target (b : bool) (i : NodeInfo) : NodeInfo :=
  mkInfo (rect i) (target_rect i) b (style_class i) (state i) (resolved_style i) (dirty i) (z_index i)
    (anchor i) (anchor_dx i) (anchor_dy i) (relative_to i) (overflow i) (tooltip i) (tab_index i) (role i) (access_label i).
Definition set_dirty (b : bool) (i : NodeInfo) : NodeInfo :=
  mkInfo (rect i) (target_rect i) (has_target_rect i) (style_class i) (state i) (resolved_style i) b (z_index i)
    (anchor i) (anchor_dx i) (anchor_dy i) (relative_to i) (overflow i) (tooltip i) (tab_index i) (role i) (access_label i).
Definition set_info (i : NodeInfo) (t : RenderTree) : RenderTree := mkTree i (u t).
Definition on_info (f : NodeInfo -> NodeInfo) (t : RenderTree) : RenderTree := mkTree (f (info t)) (u t).

(** ** The nodes below a node *)

Definition opt_list {T} (o : option T) : list T := match o with Some x => [x] | None => [] end.
(** The arrays the passes call "children": of a container, a flex box, a grid. *)
Definition stack_children {T} (c : Content T) : list T :=
  match c with RNODE_CONTAINER _ _ _ ch | RNODE_FLEX _ _ _ _ ch | RNODE_GRID _ _ ch => ch | _ => [] end.
(** All nodes right below: also the pane of tabs and of a split. *)
Definition kids {T} (c : Content T) : list T :=
  match c with
  | RNODE_CONTAINER _ _ _ ch | RNODE_FLEX _ _ _ _ ch | RNODE_GRID _ _ ch => ch
  | RNODE_TABS _ _ ch => opt_list ch
  | RNODE_SPLIT_PANES _ _ _ a b c => opt_list a ++ opt_list b ++ opt_list c
  | _ => []
  end.

Section tree_ind.
Variable P : RenderTree -> Prop.
Hypothesis HTree : forall i c, Forall P (kids c) -> P (mkTree i c).
Fixpoint RenderTree_ind' (t : RenderTree) : P t :=
  let all := fix all (l : list RenderTree) : Forall P l :=
    match l with [] => Forall_nil_2 P | x :: l' => Forall_cons_2 P x l' (RenderTree_ind' x) (all l') end in
  let one (o : option RenderTree) : Forall P (opt_list o) :=
    match o with Some x => Forall_cons_2 P x [] (RenderTree_ind' x) (Forall_nil_2 P) | None => Forall_nil_2 P end in
  match t with
  | mkTree i c =>
      HTree i c
        match c as c return Forall P (kids c) with
        | RNODE_CONTAINER _ _ _ ch => all ch
        | RNODE_FLEX _ _ _ _ ch => all ch
        | RNODE_GRID _ _ ch => all ch
        | RNODE_TABS _ _ ch => one ch
        | RNODE_SPLIT_PANES _ _ _ a b c => Forall_app_2 P (opt_list a) _ (one a) (Forall_app_2 P (opt_list b) _ (one b) (one c))
        | _ => Forall_nil_2 P
        end
  end.
End tree_ind.

Fixpoint height (t : RenderTree) : nat :=
  let o (x : option RenderTree) := match x with Some x => height x | None => O end in
  match t with
  | mkTree _ c => S (match c with
      | RNODE_CONTAINER _ _ _ ch | RNODE_FLEX _ _ _ _ ch | RNODE_GRID _ _ ch => list_max (map height ch)
      | RNODE_TABS _ _ ch => o ch
      | RNODE_SPLIT_PANES _ _ _ a b c => Nat.max (o a) (Nat.max (o b) (o c))
      | _ => O
      end)
  end.

Lemma height_kid t c : c ∈ kids (u t) -> (height c < height t)%nat.
Proof.
  destruct t as [i k]. cbn [u].
  assert (forall l, c ∈ l -> (height c <= list_max (map height l))%nat) as Hl.
  { intros l Hc. pose proof (proj1 (list_max_le (map height l) _) (le_n _)) as H. rewrite List.Forall_forall in H.
    apply H, in_map. by apply list_elem_of_In. }
  assert (forall o, c ∈ opt_list o -> (height c <= match o with Some x => height x | None => O end)%nat) as Ho.
  { intros [x|] H; [apply list_elem_of_singleton in H as ->; done|by apply elem_of_nil in H]. }
  destruct k; cbn [kids height]; intros H; try (by apply elem_of_nil in H); try (specialize (Hl _ H); lia).
  - specialize (Ho _ H). lia.
  - rewrite !elem_of_app in H. destruct H as [H|[H|H]]; specialize (Ho _ H); lia.
Qed.

(** ** Marking dirty: the pass stops at tabs and at split panes *)

Fixpoint render_tree_mark_dirty (t : RenderTree) : RenderTree :=
  match t with
  | mkTree i c =>
      mkTree (set_dirty true i)
        (match c with
         | RNODE_CONTAINER bg b p ch => RNODE_CONTAINER bg b p (map render_tree_mark_dirty ch)
         | RNODE_FLEX d w j a ch => RNODE_FLEX d w j a (map render_tree_mark_dirty ch)
         | RNODE_GRID cs rs ch => RNODE_GRID cs rs (map render_tree_mark_dirty ch)
         | c => c
         end)
  end.

(** ** The tree without its geometry *)

Definition content_map {A B} (f : A -> B) (c : Content A) : Content B :=
  match c with
  | RNODE_CONTAINER bg b p ch => RNODE_CONTAINER bg b p (map f ch)
  | RNODE_TEXT s a => RNODE_TEXT s a
  | RNODE_LIST it s => RNODE_LIST it s
  | RNODE_INPUT t p c m => RNODE_INPUT t p c m
  | RNODE_CHECKBOX l c f => RNODE_CHECKBOX l c f
  | RNODE_TOGGLE l v f => RNODE_TOGGLE l v f
  | RNODE_TABLE h r a b => RNODE_TABLE h r a b
  | RNODE_TREE n p => RNODE_TREE n p
  | RNODE_GAUGE p l => RNODE_GAUGE p l
  | RNODE_CALENDAR y m d => RNODE_CALENDAR y m d
  | RNODE_FORM n f s => RNODE_FORM n f s
  | RNODE_TABS ls a ch => RNODE_TABS ls a (option_map f ch)
  | RNODE_SPLIT_PANES o s1 s2 a b c => RNODE_SPLIT_PANES o s1 s2 (option_map f a) (option_map f b) (option_map f c)
  | RNODE_FLEX d w j a ch => RNODE_FLEX d w j a (map f ch)
  | RNODE_GRID cs rs ch => RNODE_GRID cs rs (map f ch)
  | RNODE_CURSOR x y => RNODE_CURSOR x y
  | RNODE_CONTEXT_MENU it s => RNODE_CONTEXT_MENU it s
  | RNODE_LEAF l => RNODE_LEAF l
  end.

Definition blank (i : NodeInfo) : NodeInfo := set_has_target false (set_rect (mkRect 0 0 0 0) i).
Fixpoint skeleton (t : RenderTree) : RenderTree :=
  match t with mkTree i c => mkTree (blank i) (content_map skeleton c) end.

Lemma skeleton_unfold t : skeleton t = mkTree (blank (info t)) (content_map skeleton (u t)).
Proof. by destruct t. Qed.

Lemma height_skeleton t : height (skeleton t) = height t.
Proof.
  induction t as [i c IH] using RenderTree_ind'. destruct c as [bg b p ch| | | | | | | | | | |ls a ch|o s1 s2 a b c|d w j a ch|cs rs ch| | |];
    cbn [skeleton content_map height]; try done; cbn [kids] in IH.
  - f_equal. f_equal. induction IH as [|x l Hx _ IHl]; [done|]. cbn [map]. by rewrite Hx, IHl.
  - f_equal. destruct ch; [|done]. cbn in *. by inversion IH.
  - apply Forall_app in IH as [Ha [Hb Hc]%Forall_app].
    destruct a, b, c; cbn in *; rewrite ?list.Forall_singleton in Ha; rewrite ?list.Forall_singleton in Hb;
      rewrite ?list.Forall_singleton in Hc; rewrite ?Ha, ?Hb, ?Hc; done.
  - f_equal. f_equal. induction IH as [|x l Hx _ IHl]; [done|]. cbn [map]. by rewrite Hx, IHl.
  - f_equal. f_equal. induction IH as [|x l Hx _ IHl]; [done|]. cbn [map]. by rewrite Hx, IHl.
Qed.

Lemma skeleton_height t t' : skeleton t = skeleton t' -> height t = height t'.
Proof. intros H. by rewrite <-height_skeleton, H, height_skeleton. Qed.

Lemma kids_map {A B} (f : A -> B) (c : Content A) : kids (content_map f c) = map f (kids c).
Proof.
  destruct c; cbn; try done; [by destruct child|]. rewrite !map_app. by destruct first, second, third.
Qed.
Lemma stack_children_map {A B} (f : A -> B) (c : Content A) : stack_children (content_map f c) = map f (stack_children c).
Proof. by destruct c. Qed.
Lemma Forall_stack {T} (P : T -> Prop) (c : Content T) : Forall P (kids c) -> Forall P (stack_children c).
Proof. by destruct c. Qed.
