(* ===== verification/Color.v ===== *)
(** Colours as text and as [uint32_t]: the first functions of
    src/src/core/theme.c. The conversion "%02x" of [sscanf] and [atof] are the
    C library's, on all their inputs. *)

From Stdlib Require Import SpecFloat.
From S2P Require Import Prelude Double RenderTree.

(** ** The C library *)

Definition hex_val (c : ascii) : option Z :=
  let n := uchar c in
  if (48 <=? n) && (n <=? 57) then Some (n - 48)
  else if (97 <=? n) && (n <=? 102) then Some (n - 87)
  else if (65 <=? n) && (n <=? 70) then Some (n - 55) else None.

(** "%2x": blanks, then at most two characters of a number in base 16, which
    may have a sign; "0x" alone is the start of a number and not one. *)
Definition scan_hex2 (l : list ascii) : option (Z * list ascii) :=
  match drop (length (span isspace l)) l with
  | [] => None
  | c :: l' =>
      match hex_val c with
      | Some v =>
          match l' with
          | d :: l'' =>
              match hex_val d with
              | Some w => Some (16 * v + w, l'')
              | None => if (v =? 0) && (Ascii.eqb d "x" || Ascii.eqb d "X") then None else Some (v, l')
              end
          | [] => Some (v, [])
          end
      | None =>
          if Ascii.eqb c "+" || Ascii.eqb c "-" then
            match l' with
            | d :: l'' =>
                match hex_val d with Some w => Some (if Ascii.eqb c "-" then u32 (- w) else w, l'') | None => None end
            | [] => None
            end
          else None
      end
  end.
(** [n] of them in a row, into variables that keep their value after a failure. *)
Fixpoint scan_bytes (l : list ascii) (vars : list Z) : list Z :=
  match vars with
  | [] => []
  | _ :: vs => match scan_hex2 l with Some (v, l') => v :: scan_bytes l' vs | None => vars end
  end.

(** The mantissa of a number in base 16. *)
Fixpoint scan_hex (l : list ascii) (acc : Z) (n : nat) : Z * nat * list ascii :=
  match l with
  | c :: l' => match hex_val c with Some v => scan_hex l' (16 * acc + v) (S n) | None => (acc, n, l) end
  | [] => (acc, n, l)
  end.
Definition is_char (a b : ascii) (c : ascii) : bool := Ascii.eqb c a || Ascii.eqb c b.
Definition scan_p (l : list ascii) : Z :=
  match l with
  | c :: l' =>
      if is_char "p" "P" c then
        match l' with
        | d :: r => if Ascii.eqb d "-" then - (scan_digits r 0 0).1.1 else (scan_digits (if Ascii.eqb d "+" then r else l') 0 0).1.1
        | [] => 0
        end
      else 0
  | [] => 0
  end.
Definition strtod_hex (neg : bool) (l : list ascii) : option double :=
  let '(ip, ni, l1) := scan_hex l 0 0 in
  let '(m, nf, l2) := match l1 with c :: r => if Ascii.eqb c "." then scan_hex r ip 0 else (ip, 0%nat, l1) | [] => (ip, 0%nat, l1) end in
  if (ni + nf =? 0)%nat then None
  else Some (binary_normalize d_prec d_emax (if neg then - m else m) (scan_p l2 - 4 * Z.of_nat nf) neg).
(** [strtod] without the end pointer, and with the words and the base 16 that
    [Double.strtod] leaves to this function. *)
Definition atof (s : list ascii) : double :=
  let l := drop (length (span isspace s)) s in
  let '(neg, r) := match l with c :: l' => if Ascii.eqb c "-" then (true, l') else if Ascii.eqb c "+" then (false, l') else (false, l) | [] => (false, l) end in
  let low := map tolower r in
  if has_prefix (chars "inf") low then S754_infinity neg
  else if has_prefix (chars "nan") low then S754_nan
  else match (if has_prefix (chars "0x") low then strtod_hex neg (drop 2 r) else None) with
       | Some x => x
       | None => (strtod l).1
       end.

(** ** Parsing and printing *)

(** The bytes of a colour. *)
Definition a_of (c : Z) : Z := Z.land (Z.shiftr c 24) 255.
Definition r_of (c : Z) : Z := Z.land (Z.shiftr c 16) 255.
Definition g_of (c : Z) : Z := Z.land (Z.shiftr c 8) 255.
Definition b_of (c : Z) : Z := Z.land c 255.
Definition pack (a r g b : Z) : Z := u32 (Z.lor (Z.lor (Z.lor (Z.shiftl a 24) (Z.shiftl r 16)) (Z.shiftl g 8)) b).

Definition parse_color (s : option string) : Z :=
  match s with
  | None => 0xFF000000
  | Some s =>
      let l := match chars s with c :: l' => if Ascii.eqb c "#" then l' else c :: l' | [] => [] end in
      let of4 v := match v with [r; g; b; a] => pack a r g b | _ => 0 end in
      if (length l =? 6)%nat then of4 (scan_bytes l [0; 0; 0] ++ [255])
      else if (length l =? 8)%nat then of4 (scan_bytes l [0; 0; 0; 255])
      else of4 [0; 0; 0; 255]
  end.

Definition hex_digit (v : Z) : ascii := ascii_of_N (Z.to_N (if v <? 10 then 48 + v else 87 + v)).
Definition hex2 (v : Z) : list ascii := [hex_digit (v / 16); hex_digit (v mod 16)].
Definition color_to_hex (c : Z) : string :=
  of_chars ("#"%char :: hex2 (a_of c) ++ hex2 (r_of c) ++ hex2 (g_of c) ++ hex2 (b_of c)).

(** ** Computing with colours *)

Definition clamp_int (v lo hi : Z) : Z := if v <? lo then lo else if hi <? v then hi else v.
Definition clamp_float (v lo hi : float) : float := if SFltb v lo then lo else if SFltb hi v then hi else v.
Definition color_lighten (c : Z) (amount : float) : Z :=
  let d := f_to_int (f_mul (f_of_Z 255) amount) in
  pack (a_of c) (clamp_int (r_of c + d) 0 255) (clamp_int (g_of c + d) 0 255) (clamp_int (b_of c + d) 0 255).
Definition color_darken (c : Z) (amount : float) : Z :=
  let d := f_to_int (f_mul (f_of_Z 255) amount) in
  pack (a_of c) (clamp_int (r_of c - d) 0 255) (clamp_int (g_of c - d) 0 255) (clamp_int (b_of c - d) 0 255).
Definition color_alpha (c : Z) (amount : float) : Z :=
  let a := clamp_int (f_to_int (f_mul (f_of_Z (a_of c)) amount)) 0 255 in
  u32 (Z.lor (Z.shiftl a 24) (Z.land c 0x00FFFFFF)).
Definition color_mix (c1 c2 : Z) (t : float) : Z :=
  let t := clamp_float t f_zero (f_lit 1 0) in
  let mix x y := f_to_int (f_add (f_mul (f_of_Z x) (f_sub (f_lit 1 0) t)) (f_mul (f_of_Z y) t)) in
  pack (mix (a_of c1) (a_of c2)) (mix (r_of c1) (r_of c2)) (mix (g_of c1) (g_of c2)) (mix (b_of c1) (b_of c2)).

Example parse_color_ex : map parse_color [None; Some "#ff8000"; Some "102030"; Some "#11223344"; Some "zz"; Some "12 3-4"]%string
  = [0xFF000000; 0xFFFF8000; 0xFF102030; 0x44112233; 0xFF000000; 0xFFFFFFFC].
Proof. vm_compute. reflexivity. Qed.
Example atof_ex : map (fun s => of_chars (g15 (atof (chars s)))) [" 0.5)"; "0x1.8p1"; "-inf"; "x"]%string = ["0.5"; "3"; "-inf"; "0"]%string.
Proof. vm_compute. reflexivity. Qed.

(** ** The bytes of a colour *)

Definition is_byte (v : Z) : Prop := 0 <= v < 256.

Lemma land_255 x : Z.land x 255 = x mod 256.
Proof. exact (Z.land_ones x 8 ltac:(lia)). Qed.
Lemma bytes_range c : is_byte (a_of c) /\ is_byte (r_of c) /\ is_byte (g_of c) /\ is_byte (b_of c).
Proof. unfold is_byte, a_of, r_of, g_of, b_of. rewrite !land_255. repeat split; apply Z.mod_pos_bound; lia. Qed.

Lemma lor_shift_bytes x y n : 0 <= n -> 0 <= y < 2 ^ n -> Z.lor (Z.shiftl x n) y = x * 2 ^ n + y.
Proof.
  intros Hn Hy. rewrite <-Z.add_lor_land, <-Z.shiftl_mul_pow2 by lia.
  replace (Z.land (Z.shiftl x n) y) with 0; [lia|]. symmetry. apply Z.bits_inj_0. intros i. rewrite Z.land_spec.
  destruct (Z.lt_ge_cases i n) as [Hi|Hi]; [by rewrite Z.shiftl_spec_low|].
  destruct (Z.eq_dec y 0) as [->|]; [by rewrite Z.bits_0, andb_false_r|].
  rewrite (Z.bits_above_log2 y i), andb_false_r; [done|lia|]. apply Z.lt_le_trans with n; [|done]. by apply Z.log2_lt_pow2; lia.
Qed.
Lemma pack_sum a r g b : is_byte a -> is_byte r -> is_byte g -> is_byte b -> pack a r g b = a * 2 ^ 24 + r * 2 ^ 16 + g * 2 ^ 8 + b.
Proof.
  unfold is_byte, pack, u32. intros. rewrite <-!Z.lor_assoc.
  rewrite (lor_shift_bytes g b 8) by lia. rewrite (lor_shift_bytes r _ 16) by lia. rewrite (lor_shift_bytes a _ 24) by lia.
  rewrite Z.mod_small by lia. lia.
Qed.
Lemma pack_bytes a r g b : is_byte a -> is_byte r -> is_byte g -> is_byte b ->
  a_of (pack a r g b) = a /\ r_of (pack a r g b) = r /\ g_of (pack a r g b) = g /\ b_of (pack a r g b) = b.
Proof.
  intros Ha Hr Hg Hb. rewrite pack_sum by done. unfold is_byte, a_of, r_of, g_of, b_of in *. rewrite !land_255, !Z.shiftr_div_pow2 by lia.
  repeat split; Z.div_mod_to_equations; lia.
Qed.

Lemma hex_digit_val d : 0 <= d < 16 -> hex_val (hex_digit d) = Some d.
Proof.
  intros Hd. assert (forall n, (n < 16)%nat -> hex_val (hex_digit (Z.of_nat n)) = Some (Z.of_nat n)) as H.
  { intros n Hn. do 16 (destruct n as [|n]; [reflexivity|]). lia. }
  specialize (H (Z.to_nat d)). rewrite Z2Nat.id in H by lia. apply H. lia.
Qed.
Lemma hex_digit_blank d : 0 <= d < 16 -> isspace (hex_digit d) = false.
Proof.
  intros Hd. unfold hex_digit, isspace. rewrite uchar_ascii_of_N by (case_match; lia). rewrite Z2N.id by (case_match; lia).
  destruct (Z.ltb_spec d 10); apply orb_false_iff; split; [lia| |lia|]; apply andb_false_iff; right; lia.
Qed.
Lemma scan_hex2_hex2 v l : is_byte v -> scan_hex2 (hex2 v ++ l) = Some (v, l).
Proof.
  unfold is_byte. intros Hv. assert (0 <= v / 16 < 16 /\ 0 <= v mod 16 < 16) as [H1 H2] by (Z.div_mod_to_equations; lia).
  unfold scan_hex2, hex2. cbn [app span]. rewrite hex_digit_blank by done. cbn [length drop]. rewrite !hex_digit_val by done.
  do 2 f_equal. Z.div_mod_to_equations; lia.
Qed.

(** Reading the text of the bytes. *)
Lemma parse_color_hex6 r g b : is_byte r -> is_byte g -> is_byte b ->
  parse_color (Some (of_chars ("#"%char :: hex2 r ++ hex2 g ++ hex2 b))) = pack 255 r g b.
Proof.
  intros Hr Hg Hb. unfold parse_color. rewrite list_ascii_of_string_of_list_ascii. change (Ascii.eqb "#" "#") with true. cbv iota zeta.
  change (length (hex2 r ++ hex2 g ++ hex2 b) =? 6)%nat with true. cbv iota. cbn [scan_bytes].
  rewrite (scan_hex2_hex2 r), (scan_hex2_hex2 g) by done. rewrite <-(app_nil_r (hex2 b)), scan_hex2_hex2 by done. done.
Qed.
Lemma parse_color_hex8 r g b a : is_byte r -> is_byte g -> is_byte b -> is_byte a ->
  parse_color (Some (of_chars ("#"%char :: hex2 r ++ hex2 g ++ hex2 b ++ hex2 a))) = pack a r g b.
Proof.
  intros Hr Hg Hb Ha. unfold parse_color. rewrite list_ascii_of_string_of_list_ascii. change (Ascii.eqb "#" "#") with true. cbv iota zeta.
  change (length (hex2 r ++ hex2 g ++ hex2 b ++ hex2 a) =? 6)%nat with false. change (length (hex2 r ++ hex2 g ++ hex2 b ++ hex2 a) =? 8)%nat with true.
  cbv iota. cbn [scan_bytes]. rewrite (scan_hex2_hex2 r), (scan_hex2_hex2 g), (scan_hex2_hex2 b) by done.
  rewrite <-(app_nil_r (hex2 a)), scan_hex2_hex2 by done. done.
Qed.

(** [color_to_hex] writes the opacity first and [parse_color] reads it last:
    going through the text rotates the bytes of a colour. *)
Definition rotated (c : Z) : Z := pack (b_of c) (a_of c) (r_of c) (g_of c).
Lemma color_hex_rotates c : parse_color (Some (color_to_hex c)) = rotated c.
Proof. destruct (bytes_range c) as (Ha & Hr & Hg & Hb). by apply parse_color_hex8. Qed.

Lemma clamp_byte v : is_byte (clamp_int v 0 255).
Proof. unfold is_byte, clamp_int. destruct (Z.ltb_spec v 0); [lia|]. destruct (Z.ltb_spec 255 v); lia. Qed.
(** A fifth of the range up or down, within the range, at the same opacity. *)
Lemma color_lighten_spec c : let l := color_lighten c (f_lit 2 1) in
  a_of l = a_of c /\ r_of l = Z.min 255 (r_of c + 51) /\ g_of l = Z.min 255 (g_of c + 51) /\ b_of l = Z.min 255 (b_of c + 51).
Proof.
  intros l. destruct (bytes_range c) as (Ha & Hr & Hg & Hb).
  destruct (pack_bytes (a_of c) (clamp_int (r_of c + 51) 0 255) (clamp_int (g_of c + 51) 0 255) (clamp_int (b_of c + 51) 0 255)) as (Ea & Er & Eg & Eb);
    try done; try apply clamp_byte. 
  change l with (pack (a_of c) (clamp_int (r_of c + 51) 0 255) (clamp_int (g_of c + 51) 0 255) (clamp_int (b_of c + 51) 0 255)).
  rewrite Ea, Er, Eg, Eb. unfold clamp_int, is_byte in *. repeat split; (rewrite (proj2 (Z.ltb_ge _ _)) by lia); destruct (Z.ltb_spec 255 (r_of c + 51)), (Z.ltb_spec 255 (g_of c + 51)), (Z.ltb_spec 255 (b_of c + 51)); lia.
Qed.
Lemma color_darken_spec c : let l := color_darken c (f_lit 2 1) in
  a_of l = a_of c /\ r_of l = Z.max 0 (r_of c - 51) /\ g_of l = Z.max 0 (g_of c - 51) /\ b_of l = Z.max 0 (b_of c - 51).
Proof.
  intros l. destruct (bytes_range c) as (Ha & Hr & Hg & Hb).
  destruct (pack_bytes (a_of c) (clamp_int (r_of c - 51) 0 255) (clamp_int (g_of c - 51) 0 255) (clamp_int (b_of c - 51) 0 255)) as (Ea & Er & Eg & Eb);
    try done; try apply clamp_byte. 
  change l with (pack (a_of c) (clamp_int (r_of c - 51) 0 255) (clamp_int (g_of c - 51) 0 255) (clamp_int (b_of c - 51) 0 255)).
  rewrite Ea, Er, Eg, Eb. unfold clamp_int, is_byte in *. repeat split; destruct (Z.ltb_spec (r_of c - 51) 0), (Z.ltb_spec (g_of c - 51) 0), (Z.ltb_spec (b_of c - 51) 0); try rewrite (proj2 (Z.ltb_ge _ _)) by lia; lia.
Qed.
