(* ===== verification/Animation.v ===== *)
(** Animations of styles: src/src/core/animation.c and animation.h.

    The static registry and the definitions it points to are the state
    [Registry]: a definition is reached through its pointer, and a pointer to
    freed memory is not in the heap. Of a render tree the functions use its
    node and its array of running animations ([Animated]). Floats are binary32
    data; [powf] and [sinf], whose results the C library leaves open, are
    parameters. Differences and products of coordinates are unbounded. *)

From Stdlib Require Import SpecFloat.
From S2P Require Import Prelude Double Float CJson RenderTree Color.

Inductive EasingFunction :=
  | EASE_LINEAR | EASE_IN | EASE_OUT | EASE_IN_OUT | EASE_IN_CUBIC | EASE_OUT_CUBIC | EASE_IN_OUT_CUBIC | EASE_BOUNCE | EASE_ELASTIC.
Inductive TuiAnimType := TUI_ANIM_NONE | TUI_ANIM_SLIDE_IN | TUI_ANIM_FADE | TUI_ANIM_TYPEWRITER.
#[global] Instance TuiAnimType_eq_dec : EqDecision TuiAnimType.
Proof. solve_decision. Defined.

(** A value and its [has_] flag are an option. [has_padding], [has_margin],
    [has_shadow] and [has_gradient] are never set. *)
Record AnimKeyframe := mkKeyframe {
  time_offset : float; easing : EasingFunction;
  k_fg : option Z; k_bg : option Z; k_border : option Z; k_accent : option Z;
  k_border_width : option Z; k_border_radius : option Z; k_font_size : option Z; k_font_weight : option Z;
  k_opacity : option float; k_scale : option (float * float); k_rotation : option float; k_translate : option (float * float);
  k_rect : option Rect
}.
Record AnimationDef := mkDef {
  name : string; keyframes : list AnimKeyframe; duration_ms : Z; loop : bool; repeat_count : Z; auto_reverse : bool;
  trigger_on_complete : option string; fil_on_complete : option string; tui_type : TuiAnimType
}.
Definition keyframe_count (d : AnimationDef) : Z := Z.of_nat (length (keyframes d)).
(** [def] is a pointer. *)
Record AnimInstance := mkInst {
  animation_name : string; start_time : Z; playing : bool; paused : bool; speed : float;
  current_keyframe : Z; next_keyframe : Z; segment_progress : float; loop_iteration : Z; reversed : bool;
  def : nat; slide_origin_x : Z; slide_origin_y : Z; typewriter_pos : Z; typewriter_last_ms : Z
}.
Record Animated := mkAnimated { node : NodeInfo; active_animations : list AnimInstance }.

(** ** Easing *)

Definition f1 : float := f_lit 1 0.
Definition f2 : float := f_lit 2 0.
Definition f4 : float := f_lit 4 0.
Definition half : float := f_lit 5 1.
(** [M_PI] *)
Definition d_pi : double := S754_finite false 7074237752028440 (-51).
Definition d_mul := SFmul d_prec d_emax.
Definition d_div := SFdiv d_prec d_emax.

Definition ease_linear (t : float) : float := t.
Definition ease_in_quad (t : float) : float := f_mul t t.
Definition ease_out_quad (t : float) : float := f_mul t (f_sub f2 t).
Definition ease_in_out_quad (t : float) : float :=
  if SFltb t half then f_mul (f_mul f2 t) t else f_add (SFopp f1) (f_mul (f_sub f4 (f_mul f2 t)) t).
Definition ease_in_cubic (t : float) : float := f_mul (f_mul t t) t.
Definition ease_out_cubic (t : float) : float := let t := f_sub t f1 in f_add (f_mul (f_mul t t) t) f1.
Definition ease_in_out_cubic (t : float) : float :=
  if SFltb t half then f_mul (f_mul (f_mul f4 t) t) t
  else let s := f_sub (f_mul f2 t) f2 in f_add (f_mul (f_mul (f_sub t f1) s) s) f1.
Definition ease_bounce (t : float) : float :=
  let d := f_lit 275 2 in let k := f_lit 75625 4 in
  if SFltb t (f_div f1 d) then f_mul (f_mul k t) t
  else if SFltb t (f_div f2 d) then let t := f_sub t (f_div (f_lit 15 1) d) in f_add (f_mul (f_mul k t) t) (f_lit 75 2)
  else if SFltb t (f_div (f_lit 25 1) d) then let t := f_sub t (f_div (f_lit 225 2) d) in f_add (f_mul (f_mul k t) t) (f_lit 9375 4)
  else let t := f_sub t (f_div (f_lit 2625 3) d) in f_add (f_mul (f_mul k t) t) (f_lit 984375 6).

Section libm.
Variable powf : float -> float -> float.
Variable sinf : float -> float.

(** [M_PI] makes the argument of [sinf] a double. *)
Definition ease_elastic (t : float) : float :=
  if SFeqb t f_zero || SFeqb t f1 then t
  else f_add (f_mul (powf f2 (f_mul (SFopp (f_lit 10 0)) t))
    (sinf (f_of_d (d_div (d_mul (f_sub t (f_lit 75 3)) (d_mul f2 d_pi)) (f_lit 3 1))))) f1.
Definition easing_apply (fn : EasingFunction) (t : float) : float :=
  match fn with
  | EASE_LINEAR => ease_linear t | EASE_IN => ease_in_quad t | EASE_OUT => ease_out_quad t | EASE_IN_OUT => ease_in_out_quad t
  | EASE_IN_CUBIC => ease_in_cubic t | EASE_OUT_CUBIC => ease_out_cubic t | EASE_IN_OUT_CUBIC => ease_in_out_cubic t
  | EASE_BOUNCE => ease_bounce t | EASE_ELASTIC => ease_elastic t
  end.
End libm.

(** ** Interpolation *)

Definition lerp_with {A} (a b : A) (t : float) (between : A) : A :=
  if SFleb t f_zero then a else if SFleb f1 t then b else between.
Definition step (d : Z) (t : float) : Z := f_to_int (f_mul (f_of_Z d) t).
Definition anim_lerp_color (a b : Z) (t : float) : Z :=
  let ch f := f a + step (f b - f a) t in
  lerp_with a b t (pack (ch a_of) (ch r_of) (ch g_of) (ch b_of)).
Definition anim_lerp_int (a b : Z) (t : float) : Z := lerp_with a b t (a + step (b - a) t).
Definition anim_lerp_float (a b : float) (t : float) : float := lerp_with a b t (f_add a (f_mul (f_sub b a) t)).
Definition anim_lerp_rect (from to : Rect) (t : float) : Rect :=
  mkRect (anim_lerp_int (rx from) (rx to) t) (anim_lerp_int (ry from) (ry to) t)
    (anim_lerp_int (rw from) (rw to) t) (anim_lerp_int (rh from) (rh to) t).

(** [(i < count) ? &a[i] : &a[count - 1]]: of an empty array that is the
    element before its first. *)
Definition layer {A} (l : list A) (count : Z) (i : nat) : exec A :=
  if Z.of_nat i <? count then at_index (l !! i) else if count <=? 0 then Fault OutOfBounds else at_index (l !! Z.to_nat (count - 1)).
Definition lerp_shadow (from to : WidgetStyle) (t : float) (i : nat) : exec ShadowLayer :=
  a ← layer (shadows from) (shadow_count from) i; b ← layer (shadows to) (shadow_count to) i;
  Done (mkShadow (anim_lerp_int (offset_x a) (offset_x b) t) (anim_lerp_int (offset_y a) (offset_y b) t)
    (anim_lerp_int (blur a) (blur b) t) (anim_lerp_int (spread a) (spread b) t) (anim_lerp_color (sh_color a) (sh_color b) t)).
Definition lerp_stop (from to : Gradient) (t : float) (i : nat) : exec GradientStop :=
  a ← layer (stops from) (stop_count from) i; b ← layer (stops to) (stop_count to) i;
  Done (mkStop (anim_lerp_float (stop_offset a) (stop_offset b) t) (anim_lerp_color (stop_color a) (stop_color b) t)).
Definition set_front {A} (front l : list A) : list A := front ++ drop (length front) l.
Definition lerp_gradient (from to : Gradient) (t : float) : exec Gradient :=
  match gradient_type from, gradient_type to with
  | GRADIENT_NONE, _ | _, GRADIENT_NONE => Done from
  | _, ty =>
      let n := Z.max (stop_count from) (stop_count to) in
      l ← mapM (lerp_stop from to t) (seq 0 (Z.to_nat (Z.min n MAX_GRADIENT_STOPS)));
      Done (mkGradient ty (anim_lerp_float (angle from) (angle to) t) (anim_lerp_float (center_x from) (center_x to) t)
        (anim_lerp_float (center_y from) (center_y to) t) (set_front l (stops from)) n)
  end.
(** A shadow behind the last of the array would be written to the fields after it. *)
Definition lerp_shadows (from to : WidgetStyle) (t : float) (n : Z) : exec (list ShadowLayer) :=
  l ← mapM (lerp_shadow from to t) (seq 0 (Z.to_nat n));
  if MAX_SHADOWS <? n then Fault OutOfBounds else Done (set_front l (shadows from)).
Definition anim_lerp_style (from to : WidgetStyle) (t : float) : exec WidgetStyle :=
  if SFleb t f_zero then Done from else if SFleb f1 t then Done to else
  let int get := anim_lerp_int (get from) (get to) t in
  let flt get := anim_lerp_float (get from) (get to) t in
  let color get := anim_lerp_color (get from) (get to) t in
  let n := Z.max (shadow_count from) (shadow_count to) in
  sh ← lerp_shadows from to t n;
  gr ← lerp_gradient (gradient from) (gradient to) t;
  Done {| fg_color := color fg_color; bg_color := color bg_color; border_color := color border_color; accent_color := color accent_color;
    border_width := int border_width; border_radius := int border_radius;
    border_top_width := border_top_width from; border_bottom_width := border_bottom_width from;
    border_left_width := border_left_width from; border_right_width := border_right_width from;
    border_top_color := border_top_color from; border_bottom_color := border_bottom_color from;
    border_left_color := border_left_color from; border_right_color := border_right_color from;
    border_top_style := border_top_style from; border_bottom_style := border_bottom_style from;
    border_left_style := border_left_style from; border_right_style := border_right_style from;
    padding := zip_with (fun a b => anim_lerp_int a b t) (padding from) (padding to);
    margin := zip_with (fun a b => anim_lerp_int a b t) (margin from) (margin to);
    min_width := min_width from; min_height := min_height from; max_width := max_width from; max_height := max_height from;
    font_family := font_family from; font_size := int font_size; font_weight := int font_weight; font_italic := font_italic from;
    text_align := text_align from; opacity := flt opacity; shadows := sh; shadow_count := n; gradient := gr;
    backdrop_blur := int backdrop_blur;
    letter_spacing := letter_spacing from; line_height := line_height from; text_transform := text_transform from;
    transition_ms := transition_ms from;
    scale_x := flt scale_x; scale_y := flt scale_y; rotation := flt rotation; translate_x := flt translate_x; translate_y := flt translate_y;
    cursor_style := cursor_style from |}.

(** ** The registry *)

Record Registry := mkRegistry { heap : gmap nat AnimationDef; registry : list nat; next_ptr : nat }.
Definition registry_init : Registry := mkRegistry ∅ [] 0.
Definition def_at (r : Registry) (p : nat) : exec AnimationDef :=
  match heap r !! p with Some d => Done d | None => Fault UseAfterFree end.
(** [calloc] and [animation_registry_register] *)
Definition animation_registry_register (d : AnimationDef) (r : Registry) : Registry :=
  mkRegistry (<[next_ptr r := d]> (heap r)) (registry r ++ [next_ptr r]) (S (next_ptr r)).
Fixpoint lookup_in (r : Registry) (n : string) (l : list nat) : exec (option nat) :=
  match l with
  | [] => Done None
  | p :: l' => d ← def_at r p; if decide (name d = n) then Done (Some p) else lookup_in r n l'
  end.
Definition animation_registry_lookup (r : Registry) (n : string) : exec (option nat) := lookup_in r n (registry r).
Definition animation_registry_clear (r : Registry) : Registry :=
  mkRegistry (foldr delete (heap r) (registry r)) [] (next_ptr r).

Definition parse_easing (s : string) : EasingFunction :=
  if decide (s = "ease-in")%string then EASE_IN else if decide (s = "ease-out")%string then EASE_OUT
  else if decide (s = "ease-in-out")%string then EASE_IN_OUT else if decide (s = "ease-in-cubic")%string then EASE_IN_CUBIC
  else if decide (s = "ease-out-cubic")%string then EASE_OUT_CUBIC else if decide (s = "ease-in-out-cubic")%string then EASE_IN_OUT_CUBIC
  else if decide (s = "bounce")%string then EASE_BOUNCE else if decide (s = "elastic")%string then EASE_ELASTIC else EASE_LINEAR.
Definition parse_tui_type (s : string) : TuiAnimType :=
  if decide (s = "slide-in")%string then TUI_ANIM_SLIDE_IN else if decide (s = "fade")%string then TUI_ANIM_FADE
  else if decide (s = "typewriter")%string then TUI_ANIM_TYPEWRITER else TUI_ANIM_NONE.

Section loading.
Variable o : cJSON.
Definition member (k : string) : option cJSON := cJSON_GetObjectItem (Some o) k.
Definition member_string (k : string) : option string := member k ≫= valuestring.
Definition member_color (k : string) : option Z := (fun s => parse_color (Some s)) <$> member_string k.
Definition member_int (k : string) : option Z := valueint <$> member k.
Definition member_float (k : string) : option float := (fun i => f_of_d (valuedouble i)) <$> member k.
Definition member_true (k : string) : bool := match member k with Some i => bool_decide (CJson.type i = cJSON_True) | None => false end.
(** Two members under one flag: what is not given stays zero. *)
Definition member_pair (k1 k2 : string) : option (float * float) :=
  match member_float k1, member_float k2 with
  | None, None => None
  | a, b => Some (default f_zero a, default f_zero b)
  end.
Definition member_rect : option Rect :=
  match member_int "x", member_int "y", member_int "w", member_int "h" with
  | None, None, None, None => None
  | x, y, w, h => Some (mkRect (default 0 x) (default 0 y) (default 0 w) (default 0 h))
  end.
Definition load_keyframe : AnimKeyframe := {|
  time_offset := default f_zero (member_float "time");
  easing := match member_string "easing" with Some s => parse_easing s | None => EASE_LINEAR end;
  k_fg := member_color "fg_color"; k_bg := member_color "bg_color"; k_border := member_color "border_color"; k_accent := member_color "accent_color";
  k_border_width := member_int "border_width"; k_border_radius := member_int "border_radius";
  k_font_size := member_int "font_size"; k_font_weight := member_int "font_weight";
  k_opacity := member_float "opacity"; k_scale := member_pair "scale_x" "scale_y"; k_rotation := member_float "rotation";
  k_translate := member_pair "translate_x" "translate_y"; k_rect := member_rect |}.
End loading.

(** [strdup(NULL)] for a child without a name. *)
Definition load_def (child : cJSON) (kfs : list cJSON) : exec AnimationDef :=
  n ← deref (key child);
  Done {| name := n; keyframes := map load_keyframe kfs;
    duration_ms := default 300 (member_int child "duration"); loop := member_true child "loop";
    repeat_count := default 1 (member_int child "repeat"); auto_reverse := member_true child "auto_reverse";
    trigger_on_complete := member_string child "on_complete"; fil_on_complete := member_string child "fil_on_complete";
    tui_type := match member_string child "tui" with Some s => parse_tui_type s | None => TUI_ANIM_NONE end |}.
Fixpoint load_animations (l : list cJSON) (r : Registry) : exec Registry :=
  match l with
  | [] => Done r
  | c :: l' =>
      match member c "keyframes" with
      | Some a => if cJSON_IsArray (Some a) then d ← load_def c (child a); load_animations l' (animation_registry_register d r) else load_animations l' r
      | None => load_animations l' r
      end
  end.
Definition animation_registry_load_from_theme (j : option cJSON) (r : Registry) : exec Registry :=
  match j with
  | Some a => if cJSON_IsObject j then load_animations (child a) r else Done r
  | None => Done r
  end.

(** ** Playing *)

Definition start (now : Z) (d : AnimationDef) (i : AnimInstance) : AnimInstance :=
  {| animation_name := animation_name i; start_time := now; playing := true; paused := false; speed := speed i;
     current_keyframe := 0; next_keyframe := if 1 <? keyframe_count d then 1 else 0; segment_progress := f_zero;
     loop_iteration := 0; reversed := false; def := def i; slide_origin_x := slide_origin_x i; slide_origin_y := slide_origin_y i;
     typewriter_pos := 0; typewriter_last_ms := now |}.
Definition instance_new (p : nat) (d : AnimationDef) (now : Z) : AnimInstance :=
  mkInst (name d) now true false f1 0 (if 1 <? keyframe_count d then 1 else 0) f_zero 0 false p 0 0 0 now.
Definition set_playing (b : bool) (i : AnimInstance) : AnimInstance :=
  mkInst (animation_name i) (start_time i) b (paused i) (speed i) (current_keyframe i) (next_keyframe i) (segment_progress i)
    (loop_iteration i) (reversed i) (def i) (slide_origin_x i) (slide_origin_y i) (typewriter_pos i) (typewriter_last_ms i).
Definition set_paused (b : bool) (start : Z) (i : AnimInstance) : AnimInstance :=
  mkInst (animation_name i) start (playing i) b (speed i) (current_keyframe i) (next_keyframe i) (segment_progress i)
    (loop_iteration i) (reversed i) (def i) (slide_origin_x i) (slide_origin_y i) (typewriter_pos i) (typewriter_last_ms i).
Definition set_origin (x y : Z) (i : AnimInstance) : AnimInstance :=
  mkInst (animation_name i) (start_time i) (playing i) (paused i) (speed i) (current_keyframe i) (next_keyframe i) (segment_progress i)
    (loop_iteration i) (reversed i) (def i) x y (typewriter_pos i) (typewriter_last_ms i).
Definition set_time (start : Z) (rev : bool) (iter : Z) (i : AnimInstance) : AnimInstance :=
  mkInst (animation_name i) start (playing i) (paused i) (speed i) (current_keyframe i) (next_keyframe i) (segment_progress i)
    iter rev (def i) (slide_origin_x i) (slide_origin_y i) (typewriter_pos i) (typewriter_last_ms i).

(** The loops over the instances stop at the first of a name. *)
Fixpoint find_instance (n : string) (l : list AnimInstance) : option nat :=
  match l with
  | [] => None
  | i :: l' => if decide (animation_name i = n) then Some 0%nat else S <$> find_instance n l'
  end.
Definition on_instance (n : string) (f : AnimInstance -> exec AnimInstance) (t : Animated) : exec Animated :=
  match find_instance n (active_animations t) with
  | Some k => i ← at_index (active_animations t !! k); i ← f i; Done (mkAnimated (node t) (<[k := i]> (active_animations t)))
  | None => Done t
  end.

Definition animation_play_custom (r : Registry) (t : Animated) (p : nat) (now : Z) : exec Animated :=
  d ← def_at r p;
  match find_instance (name d) (active_animations t) with
  | Some k => i ← at_index (active_animations t !! k); Done (mkAnimated (node t) (<[k := start now d i]> (active_animations t)))
  | None => Done (mkAnimated (node t) (active_animations t ++ [instance_new p d now]))
  end.
Definition animation_play (r : Registry) (t : Animated) (n : string) (now : Z) : exec Animated :=
  p ← animation_registry_lookup r n;
  match p with Some p => animation_play_custom r t p now | None => Done t end.
Definition animation_stop (t : Animated) (n : string) : exec Animated := on_instance n (fun i => Done (set_playing false i)) t.
Definition animation_pause (t : Animated) (n : string) : exec Animated := on_instance n (fun i => Done (set_paused true (start_time i) i)) t.
(** [(long long)(segment_progress * duration_ms)]; the x86 conversion of a
    value that does not fit gives the least [long long]. *)
Definition f_to_longlong (x : float) : Z :=
  match sf_trunc x with Some z => if bool_decide (- 2 ^ 63 <= z < 2 ^ 63) then z else - 2 ^ 63 | None => - 2 ^ 63 end.
Definition animation_resume (r : Registry) (t : Animated) (n : string) (now : Z) : exec Animated :=
  on_instance n (fun i => d ← def_at r (def i);
    Done (set_paused false (now - f_to_longlong (f_mul (segment_progress i) (f_of_Z (duration_ms d)))) i)) t.
Definition animation_slide_init (t : Animated) (n : string) (x y : Z) : exec Animated := on_instance n (fun i => Done (set_origin x y i)) t.
Definition animation_free_instances (t : Animated) : Animated := mkAnimated (node t) [].

(** ** One tick *)

Definition set_style (s : WidgetStyle) (i : NodeInfo) : NodeInfo :=
  mkInfo (rect i) (target_rect i) (has_target_rect i) (style_class i) (state i) s (dirty i) (z_index i)
    (anchor i) (anchor_dx i) (anchor_dy i) (relative_to i) (overflow i) (tooltip i) (tab_index i) (role i) (access_label i).

(** [if (k->has_fg) style.fg_color = k->fg_color; ...] *)
Definition styled (k : AnimKeyframe) (s : WidgetStyle) : WidgetStyle := {|
  fg_color := default (fg_color s) (k_fg k); bg_color := default (bg_color s) (k_bg k);
  border_color := default (border_color s) (k_border k); accent_color := default (accent_color s) (k_accent k);
  border_width := default (border_width s) (k_border_width k); border_radius := default (border_radius s) (k_border_radius k);
  border_top_width := border_top_width s; border_bottom_width := border_bottom_width s;
  border_left_width := border_left_width s; border_right_width := border_right_width s;
  border_top_color := border_top_color s; border_bottom_color := border_bottom_color s;
  border_left_color := border_left_color s; border_right_color := border_right_color s;
  border_top_style := border_top_style s; border_bottom_style := border_bottom_style s;
  border_left_style := border_left_style s; border_right_style := border_right_style s;
  padding := padding s; margin := margin s;
  min_width := min_width s; min_height := min_height s; max_width := max_width s; max_height := max_height s;
  font_family := font_family s; font_size := default (font_size s) (k_font_size k); font_weight := default (font_weight s) (k_font_weight k);
  font_italic := font_italic s; text_align := text_align s; opacity := default (opacity s) (k_opacity k);
  shadows := shadows s; shadow_count := shadow_count s; gradient := gradient s; backdrop_blur := backdrop_blur s;
  letter_spacing := letter_spacing s; line_height := line_height s; text_transform := text_transform s; transition_ms := transition_ms s;
  scale_x := default (scale_x s) (fst <$> k_scale k); scale_y := default (scale_y s) (snd <$> k_scale k);
  rotation := default (rotation s) (k_rotation k);
  translate_x := default (translate_x s) (fst <$> k_translate k); translate_y := default (translate_y s) (snd <$> k_translate k);
  cursor_style := cursor_style s |}.

(** With reduced motion every running animation jumps to its last keyframe and ends. *)
Definition finish_instance (r : Registry) (n : NodeInfo) (i : AnimInstance) : exec (NodeInfo * AnimInstance) :=
  if playing i && negb (paused i) then
    d ← def_at r (def i);
    match list.last (keyframes d) with
    | None => Done (n, i)
    | Some k =>
        let n := set_rect (default (rect n) (k_rect k)) n in
        Done (set_dirty true (set_style (styled k (resolved_style n)) n), set_playing false i)
    end
  else Done (n, i).

(** What the time says: the animation has ended, or its progress. *)
Inductive Progress := Ended | At (i : AnimInstance) (total : float).
Definition advance (d : AnimationDef) (now : Z) (i : AnimInstance) : Progress :=
  let total := f_mul (f_div (f_of_Z (now - start_time i)) (f_of_Z (duration_ms d))) (speed i) in
  let total := if SFltb total f_zero then f_zero else total in
  let '(i, total) := if auto_reverse d && negb (reversed i) && SFleb f1 total then (set_time now true (loop_iteration i) i, f_zero) else (i, total) in
  let '(i, total) := if auto_reverse d && reversed i && SFleb f1 total then (set_time now false (loop_iteration i + 1) i, f_zero) else (i, total) in
  if negb (auto_reverse d) && SFleb f1 total then
    if loop d && ((repeat_count d <? 0) || (loop_iteration i <? repeat_count d - 1))
    then At (set_time now (reversed i) (loop_iteration i + 1) i) f_zero
    else Ended
  else At i (if SFltb f1 total then f1 else total).

(** The first pair of neighbours around the progress, or the first and the
    last keyframe. *)
Definition offset_of (d : AnimationDef) (k : AnimKeyframe) : float := f_div (time_offset k) (f_of_Z (duration_ms d)).
Fixpoint segment (d : AnimationDef) (total : float) (i : nat) (l : list AnimKeyframe) : option nat :=
  match l with
  | a :: (b :: _) as l' => if SFleb (offset_of d a) total && SFleb total (offset_of d b) then Some i else segment d total (S i) l'
  | _ => None
  end.

Section libm.
Variable powf : float -> float -> float.
Variable sinf : float -> float.

Definition show_segment (d : AnimationDef) (total : float) (now : Z) (n : NodeInfo) (i : AnimInstance) : exec (NodeInfo * AnimInstance) :=
  let '(from, to) := match segment d total 0 (keyframes d) with Some k => (k, S k) | None => (0%nat, (length (keyframes d) - 1)%nat) end in
  fk ← at_index (keyframes d !! from); tk ← at_index (keyframes d !! to);
  let from_t := offset_of d fk in
  let duration := f_sub (offset_of d tk) from_t in
  let t := if SFltb f_zero duration then f_div (f_sub total from_t) duration else f1 in
  let eased := easing_apply powf sinf (easing fk) t in
  let n' :=
    match k_rect fk, k_rect tk with
    | None, None => n
    | a, b => set_rect (anim_lerp_rect (default (rect n) a) (default (rect n) b) eased) n
    end in
  s ← anim_lerp_style (styled fk (resolved_style n)) (styled tk (resolved_style n)) eased;
  let types := bool_decide (tui_type d = TUI_ANIM_TYPEWRITER) && (30 <=? now - typewriter_last_ms i) in
  Done (set_dirty true (set_style s n'),
    mkInst (animation_name i) (start_time i) (playing i) (paused i) (speed i) (Z.of_nat from) (Z.of_nat to) t
      (loop_iteration i) (reversed i) (def i) (slide_origin_x i) (slide_origin_y i)
      (if types then typewriter_pos i + 1 else typewriter_pos i) (if types then now else typewriter_last_ms i)).
Definition update_instance (r : Registry) (now : Z) (n : NodeInfo) (i : AnimInstance) : exec (NodeInfo * AnimInstance) :=
  if negb (playing i) || paused i then Done (n, i) else
  d ← def_at r (def i);
  if keyframe_count d =? 0 then Done (n, i) else
  match advance d now i with
  | Ended => Done (set_dirty true n, set_playing false i)
  | At i total => show_segment d total now n i
  end.

(** One instance after another, on the same node. *)
Fixpoint each_instance (f : NodeInfo -> AnimInstance -> exec (NodeInfo * AnimInstance)) (n : NodeInfo) (l : list AnimInstance) : exec (NodeInfo * list AnimInstance) :=
  match l with
  | [] => Done (n, [])
  | i :: l' => '(n, i) ← f n i; '(n, l') ← each_instance f n l'; Done (n, i :: l')
  end.
Definition animation_update (r : Registry) (t : Animated) (now : Z) (prefers_reduced_motion : bool) : exec Animated :=
  '(n, l) ← each_instance (if prefers_reduced_motion then finish_instance r else update_instance r now) (node t) (active_animations t);
  Done (mkAnimated n l).
End libm.

(** ** Interpolated values *)

(** a value between two integers, a rectangle or a colour, at a time that is a
    binary32 number: before the start and behind the end it is the one end or
    the other, and in between every integer, and every byte of a colour, lies
    between those of the two ends, also after the rounding of the product. The
    integers may be up to 2^24 apart. *)
Theorem anim_lerp_between t : valid_binary f_prec f_emax t = true -> d_isnan t = false ->
  (forall a b, SFleb t f_zero = true -> anim_lerp_int a b t = a /\ anim_lerp_color a b t = a) /\
  (forall a b, SFleb t f_zero = false -> SFleb f1 t = true -> anim_lerp_int a b t = b /\ anim_lerp_color a b t = b) /\
  (forall a b, - 2 ^ 24 < b - a < 2 ^ 24 -> Z.min a b <= anim_lerp_int a b t <= Z.max a b) /\
  (forall a b f, f ∈ [a_of; r_of; g_of; b_of] -> Z.min (f a) (f b) <= f (anim_lerp_color a b t) <= Z.max (f a) (f b)).
Proof.
  intros Hv Hn. assert (forall d, SFleb t f_zero = false -> SFleb f1 t = false -> - 2 ^ 24 < d < 2 ^ 24 -> Z.min 0 d <= step d t <= Z.max 0 d) as Hs.
  { intros d H0 H1 Hd. apply f_mul_fraction; [by apply between_fraction|done]. }
  unfold anim_lerp_int, anim_lerp_color, lerp_with. split_and!.
  - intros a b ->. done.
  - intros a b -> ->. done.
  - intros a b Hd. destruct (SFleb t f_zero) eqn:E0; [lia|]. destruct (SFleb f1 t) eqn:E1; [lia|]. specialize (Hs (b - a) eq_refl eq_refl Hd). lia.
  - intros a b f Hf. destruct (SFleb t f_zero) eqn:E0; [lia|]. destruct (SFleb f1 t) eqn:E1; [lia|].
    destruct (bytes_range a) as (? & ? & ? & ?), (bytes_range b) as (? & ? & ? & ?). unfold is_byte in *.
    pose proof (Hs (a_of b - a_of a) eq_refl eq_refl ltac:(lia)). pose proof (Hs (r_of b - r_of a) eq_refl eq_refl ltac:(lia)).
    pose proof (Hs (g_of b - g_of a) eq_refl eq_refl ltac:(lia)). pose proof (Hs (b_of b - b_of a) eq_refl eq_refl ltac:(lia)).
    destruct (pack_bytes (a_of a + step (a_of b - a_of a) t) (r_of a + step (r_of b - r_of a) t)
      (g_of a + step (g_of b - g_of a) t) (b_of a + step (b_of b - b_of a) t)) as (Ea & Er & Eg & Eb); [unfold is_byte; lia..|].
    rewrite !elem_of_cons in Hf. destruct Hf as [->|[->|[->|[->|Hf]]]]; [rewrite Ea; lia|rewrite Er; lia|rewrite Eg; lia|rewrite Eb; lia|by apply not_elem_of_nil in Hf].
Qed.
(** Half way from black to white. *)
Lemma anim_lerp_between_witness : anim_lerp_color 0xFF000000 0xFFFFFFFF half = 0xFF7F7F7F /\
  Z.min (r_of 0xFF000000) (r_of 0xFFFFFFFF) <= r_of (anim_lerp_color 0xFF000000 0xFFFFFFFF half) <= Z.max (r_of 0xFF000000) (r_of 0xFFFFFFFF).
Proof. split; [reflexivity|]. apply (anim_lerp_between half); [reflexivity|reflexivity|]. right. by left. Defined.

(** ** Nothing outside its arrays *)

(** The arrays of a style have their size, and its counts stay below it. *)
Definition style_wf (s : WidgetStyle) : Prop :=
  length (shadows s) = 4%nat /\ 0 <= shadow_count s <= 4 /\ length (stops (gradient s)) = 8%nat /\ 0 <= stop_count (gradient s) <= 8.

Lemma layer_in {A} (l : list A) n i : (Z.to_nat n <= length l)%nat -> (i < Z.to_nat n)%nat -> exists x, layer l n i = Done x.
Proof.
  intros Hn Hi. unfold layer. rewrite (proj2 (Z.ltb_lt _ _)) by lia. destruct (lookup_lt_is_Some_2 l i) as [x ->]; [lia|]. by exists x.
Qed.
Lemma mapM_seq {A} (f : nat -> exec A) n : (forall i, (i < n)%nat -> exists x, f i = Done x) -> exists l, mapM f (seq 0 n) = Done l /\ length l = n.
Proof.
  assert (forall k, (forall i, (k <= i < k + n)%nat -> exists x, f i = Done x) -> exists l, mapM f (seq k n) = Done l /\ length l = n) as H.
  { induction n as [|n IH]; intros k Hf; [by exists []|]. destruct (Hf k) as [x Hx]; [lia|]. destruct (IH (S k)) as (l & Hl & Hlen); [intros i Hi; apply Hf; lia|].
    exists (x :: l). cbn [seq mapM]. rewrite Hx. cbn [mbind exec_bind]. rewrite Hl. cbn. by rewrite Hlen. }
  intros Hf. apply H. intros i Hi. apply Hf. lia.
Qed.
Lemma set_front_length {A} (f l : list A) : (length f <= length l)%nat -> length (set_front f l) = length l.
Proof. intros H. unfold set_front. rewrite length_app, length_drop. lia. Qed.

Lemma anim_lerp_style_ok from to t : style_wf from -> style_wf to ->
  shadow_count from = shadow_count to -> stop_count (gradient from) = stop_count (gradient to) ->
  exists s, anim_lerp_style from to t = Done s /\ style_wf s.
Proof.
  intros Hf Ht Hs Hg. pose proof Hf as (F1 & F2 & F3 & F4). pose proof Ht as (T1 & T2 & T3 & T4).
  unfold anim_lerp_style. destruct (SFleb t f_zero); [by exists from|]. destruct (SFleb f1 t); [by exists to|].
  rewrite <-Hs, Z.max_id. unfold lerp_shadows.
  destruct (mapM_seq (lerp_shadow from to t) (Z.to_nat (shadow_count from))) as (sh & Hsh & Hshl).
  { intros i Hi. unfold lerp_shadow. destruct (layer_in (shadows from) (shadow_count from) i) as [a ->]; [lia|done|].
    rewrite <-Hs. destruct (layer_in (shadows to) (shadow_count from) i) as [b ->]; [lia|done|]. by eexists. }
  rewrite Hsh. cbn [mbind exec_bind]. rewrite (proj2 (Z.ltb_ge _ _)) by (unfold MAX_SHADOWS; lia).
  assert (exists g, lerp_gradient (gradient from) (gradient to) t = Done g /\ length (stops g) = 8%nat /\ 0 <= stop_count g <= 8) as (g & Hgr & Hgw).
  { unfold lerp_gradient. rewrite <-Hg, Z.max_id.
    destruct (mapM_seq (lerp_stop (gradient from) (gradient to) t) (Z.to_nat (Z.min (stop_count (gradient from)) MAX_GRADIENT_STOPS))) as (st & Hst & Hstl).
    { intros i Hi. unfold MAX_GRADIENT_STOPS in Hi. unfold lerp_stop. destruct (layer_in (stops (gradient from)) (stop_count (gradient from)) i) as [a ->]; [lia|lia|].
      rewrite <-Hg. destruct (layer_in (stops (gradient to)) (stop_count (gradient from)) i) as [b ->]; [lia|lia|]. by eexists. }
    rewrite Hst. cbn [mbind exec_bind]. unfold MAX_GRADIENT_STOPS in Hstl.
    destruct (gradient_type (gradient from)), (gradient_type (gradient to)); (eexists; split; [reflexivity|]); try done;
      cbn [stops stop_count]; (split; [rewrite set_front_length; [done|lia]|done]). }
  rewrite Hgr. cbn [mbind exec_bind]. eexists. split; [reflexivity|]. unfold style_wf. cbn [shadows shadow_count gradient].
  split_and!; [rewrite set_front_length; [done|lia]|lia|lia|apply Hgw..].
Qed.
Lemma styled_wf k s : style_wf s -> style_wf (styled k s).
Proof. done. Qed.

Lemma segment_bound d total l : forall i k, segment d total i l = Some k -> (i <= k)%nat /\ (S k < i + length l)%nat.
Proof.
  induction l as [|a [|b l] IH]; intros i k H; [done|done|]. cbn [segment] in H. destruct (_ && _) eqn:E.
  - injection H as <-. cbn [length]. lia.
  - apply IH in H. cbn [length] in *. lia.
Qed.

(** The definitions that may be reached. *)
Definition reg_ok (r : Registry) : Prop := forall p, p ∈ registry r -> exists d, heap r !! p = Some d.
Definition instance_ok (r : Registry) (i : AnimInstance) : Prop := exists d, heap r !! def i = Some d /\ name d = animation_name i.
Definition anim_ok (r : Registry) (t : Animated) : Prop :=
  style_wf (resolved_style (node t)) /\ Forall (instance_ok r) (active_animations t) /\ NoDup (map animation_name (active_animations t)).

(** What a step leaves as it is. *)
Definition same_instance (i j : AnimInstance) : Prop := def j = def i /\ animation_name j = animation_name i.
Lemma advance_same d now i j total : advance d now i = At j total -> same_instance i j.
Proof.
  unfold advance. set (total0 := if SFltb _ _ then _ else _). destruct (_ && _ && _); cbn [reversed];
  repeat (destruct (_ && _)); intros H; first [discriminate H | injection H as <- _; done | idtac];
  repeat (destruct (_ : bool); try discriminate H); by injection H as <- _.
Qed.

Section libm.
Variable powf : float -> float -> float.
Variable sinf : float -> float.

Definition step_ok (n : NodeInfo) (i : AnimInstance) (m : exec (NodeInfo * AnimInstance)) : Prop :=
  exists n' j, m = Done (n', j) /\ style_wf (resolved_style n') /\ same_instance i j.

Lemma finish_instance_ok r n i : style_wf (resolved_style n) -> instance_ok r i -> step_ok n i (finish_instance r n i).
Proof.
  intros Hn (d & Hd & _). unfold finish_instance, def_at. destruct (_ && _); [|by exists n, i]. rewrite Hd. cbn [mbind exec_bind].
  destruct (list.last _); [|by exists n, i]. eexists _, _. split; [reflexivity|]. split; [exact Hn|done].
Qed.
(** Drawing a segment changes nothing that decides the course. *)
Definition same_course (i j : AnimInstance) : Prop :=
  same_instance i j /\ start_time j = start_time i /\ playing j = playing i /\ paused j = paused i /\ speed j = speed i /\
  loop_iteration j = loop_iteration i /\ reversed j = reversed i.
Lemma show_segment_ok d total now n i : keyframes d <> [] -> style_wf (resolved_style n) ->
  exists n' j, show_segment powf sinf d total now n i = Done (n', j) /\ style_wf (resolved_style n') /\ same_course i j.
Proof.
  intros Hk Hn. assert (0 < length (keyframes d))%nat as Hpos by (destruct (keyframes d); [done|cbn; lia]).
  unfold show_segment. set (ft := match segment _ _ _ _ with Some _ => _ | None => _ end).
  assert (ft.1 < length (keyframes d) /\ ft.2 < length (keyframes d))%nat as [H1 H2].
  { unfold ft. destruct (segment d total 0 (keyframes d)) as [k|] eqn:Es; [apply segment_bound in Es|]; cbn; lia. }
  destruct ft as [from to]. cbn [fst snd] in *. destruct (lookup_lt_is_Some_2 _ _ H1) as [fk ->], (lookup_lt_is_Some_2 _ _ H2) as [tk ->].
  cbn [at_index mbind exec_bind]. set (eased := easing_apply _ _ _ _).
  destruct (anim_lerp_style_ok (styled fk (resolved_style n)) (styled tk (resolved_style n)) eased) as (s & Hs & Hw); [done..|].
  rewrite Hs. cbn [mbind exec_bind]. eexists _, _. split; [reflexivity|]. by split.
Qed.
Lemma update_instance_ok r now n i : style_wf (resolved_style n) -> instance_ok r i -> step_ok n i (update_instance powf sinf r now n i).
Proof.
  intros Hn (d & Hd & _). unfold update_instance, def_at. destruct (_ || _); [by exists n, i|]. rewrite Hd. cbn [mbind exec_bind].
  unfold keyframe_count. destruct (Z.eqb_spec (Z.of_nat (length (keyframes d))) 0) as [|Hk]; [by exists n, i|].
  destruct (advance d now i) as [|j total] eqn:Ea; [by eexists _, _|]. apply advance_same in Ea as [Ed En].
  destruct (show_segment_ok d total now n j) as (n' & k & -> & Hw & [Ed' En'] & _); [by intros E; rewrite E in Hk|done|].
  exists n', k. split; [done|]. split; [done|]. split; congruence.
Qed.
Lemma each_instance_ok r f l : (forall n i, style_wf (resolved_style n) -> instance_ok r i -> step_ok n i (f n i)) ->
  forall n, style_wf (resolved_style n) -> Forall (instance_ok r) l ->
  exists n' l', each_instance f n l = Done (n', l') /\ style_wf (resolved_style n') /\ Forall2 same_instance l l'.
Proof.
  intros Hf. induction l as [|i l IH]; intros n Hn Hl; [by exists n, []|]. apply Forall_cons_1 in Hl as [Hi Hl]. cbn [each_instance].
  destruct (Hf n i Hn Hi) as (n1 & j & -> & Hn1 & Hj). cbn [mbind exec_bind]. destruct (IH n1 Hn1 Hl) as (n2 & l2 & -> & Hn2 & Hl2).
  cbn [mbind exec_bind]. exists n2, (j :: l2). split; [done|]. split; [done|]. by constructor.
Qed.
Lemma same_instances_ok r l l' : Forall2 same_instance l l' -> Forall (instance_ok r) l -> Forall (instance_ok r) l' /\ map animation_name l' = map animation_name l.
Proof.
  induction 1 as [|i j l l' [Hd Hn] _ IH]; intros H; [done|]. apply Forall_cons_1 in H as [Hi H]. destruct (IH H) as [H1 H2].
  split; [|cbn; by rewrite Hn, H2]. constructor; [|done]. unfold instance_ok. by rewrite Hd, Hn.
Qed.
Lemma animation_update_ok r t now reduced : anim_ok r t -> exists t', animation_update powf sinf r t now reduced = Done t' /\ anim_ok r t'.
Proof.
  intros (Hs & Hl & Hd). unfold animation_update.
  destruct (each_instance_ok r (if reduced then finish_instance r else update_instance powf sinf r now) (active_animations t)) with (n := node t) as (n & l & -> & Hn & H2);
    [destruct reduced; [apply finish_instance_ok|apply update_instance_ok]|done|done|].
  eexists. split; [reflexivity|]. destruct (same_instances_ok r _ _ H2 Hl) as [H3 H4]. split; [done|]. split; [done|]. cbn [active_animations]. by rewrite H4.
Qed.
End libm.

(** ** Runs *)

Inductive anim_op :=
  | Play (n : string) (now : Z) | PlayCustom (p : nat) (now : Z) | Stop (n : string) | Pause (n : string) | Resume (n : string) (now : Z)
  | Slide (n : string) (x y : Z) | Tick (now : Z) (reduced : bool) | FreeInstances.
Section runs.
Variable powf : float -> float -> float.
Variable sinf : float -> float.

Definition run_anim (r : Registry) (t : Animated) (o : anim_op) : exec Animated :=
  match o with
  | Play n now => animation_play r t n now
  | PlayCustom p now => animation_play_custom r t p now
  | Stop n => animation_stop t n
  | Pause n => animation_pause t n
  | Resume n now => animation_resume r t n now
  | Slide n x y => animation_slide_init t n x y
  | Tick now reduced => animation_update powf sinf r t now reduced
  | FreeInstances => Done (animation_free_instances t)
  end.
Fixpoint run_anims (r : Registry) (t : Animated) (os : list anim_op) : exec Animated :=
  match os with [] => Done t | o :: os' => t ← run_anim r t o; run_anims r t os' end.
(** [animation_play_custom] is given a definition that is there. *)
Definition op_ok (r : Registry) (o : anim_op) : Prop :=
  match o with PlayCustom p _ => exists d, heap r !! p = Some d | _ => True end.

Lemma find_instance_some n l k : find_instance n l = Some k -> exists i, l !! k = Some i /\ animation_name i = n.
Proof.
  revert k. induction l as [|i l IH]; intros k; [done|]. cbn [find_instance]. case_decide as Hi; [intros [= <-]; by exists i|].
  destruct (find_instance n l) as [k'|] eqn:E; [|done]. intros [= <-]. by apply IH.
Qed.
Lemma find_instance_none n l : find_instance n l = None -> n ∉ map animation_name l.
Proof.
  induction l as [|i l IH]; [intros _; apply not_elem_of_nil|]. cbn [find_instance map]. case_decide as Hi; [done|].
  destruct (find_instance n l); [done|]. intros _. apply not_elem_of_cons. split; [congruence|by apply IH].
Qed.
Lemma insert_ok r n l k i j : Forall (instance_ok r) l -> NoDup (map animation_name l) -> style_wf (resolved_style n) ->
  l !! k = Some i -> same_instance i j -> anim_ok r (mkAnimated n (<[k := j]> l)).
Proof.
  intros Hl Hd Hn Hk [Ed En]. split; [done|]. split.
  - apply Forall_insert; [done|]. unfold instance_ok. rewrite Ed, En. by apply (proj1 (list.Forall_lookup _ _) Hl k i).
  - cbn [active_animations]. change (NoDup (animation_name <$> <[k := j]> l)). rewrite list_fmap_insert, list_insert_id; [done|].
    rewrite list_lookup_fmap, Hk. cbn. by rewrite En.
Qed.
Lemma on_instance_ok r t n f : anim_ok r t -> (forall i, instance_ok r i -> exists j, f i = Done j /\ same_instance i j) ->
  exists t', on_instance n f t = Done t' /\ anim_ok r t'.
Proof.
  intros Ht Hf. pose proof Ht as (Hn & Hl & Hd). unfold on_instance. destruct (find_instance n _) as [k|] eqn:E; [|by exists t].
  apply find_instance_some in E as (i & Hi & _). rewrite Hi. cbn [at_index mbind exec_bind].
  destruct (Hf i) as (j & -> & Hj); [by apply (proj1 (list.Forall_lookup _ _) Hl k i)|]. cbn [mbind exec_bind]. eexists. split; [reflexivity|]. by eapply insert_ok.
Qed.
Lemma play_custom_ok r t p d now : anim_ok r t -> heap r !! p = Some d -> exists t', animation_play_custom r t p now = Done t' /\ anim_ok r t'.
Proof.
  intros Ht Hp. pose proof Ht as (Hn & Hl & Hd). unfold animation_play_custom, def_at. rewrite Hp. cbn [mbind exec_bind].
  destruct (find_instance _ _) as [k|] eqn:E.
  - apply find_instance_some in E as (i & Hi & _). rewrite Hi. cbn [at_index mbind exec_bind]. eexists. split; [reflexivity|]. by eapply insert_ok.
  - apply find_instance_none in E. eexists. split; [reflexivity|]. split; [done|]. cbn [active_animations]. split.
    + apply Forall_app. split; [done|]. constructor; [by exists d|constructor].
    + rewrite map_app. apply list.NoDup_app. split; [done|]. split; [|apply NoDup_singleton]. intros x Hx Hy. apply list_elem_of_singleton in Hy as ->. done.
Qed.
Lemma lookup_in_ok r n l : (forall p, p ∈ l -> exists d, heap r !! p = Some d) ->
  exists o, lookup_in r n l = Done o /\ match o with Some p => exists d, heap r !! p = Some d /\ name d = n | None => True end.
Proof.
  intros Hl. induction l as [|p l IH]; [by exists None|]. cbn [lookup_in]. unfold def_at. destruct (Hl p) as [d Hp]; [by left|]. rewrite Hp. cbn [mbind exec_bind].
  case_decide; [exists (Some p); split; [done|by exists d]|]. apply IH. intros q Hq. apply Hl. by right.
Qed.

(** C29: whatever is played, stopped, paused, resumed and drawn, in any order and at
    any times, no animation function reads or writes outside the arrays of
    keyframes, shadows and gradient stops or through a freed definition, as
    long as the registry is not cleared; every run ends, the running instances
    keep distinct names and each points to the definition of its name. *)
Theorem animation_safe r t os : reg_ok r -> anim_ok r t -> Forall (op_ok r) os -> exists t', run_anims r t os = Done t' /\ anim_ok r t'.
Proof.
  intros Hr Ht Hos. revert t Ht. induction Hos as [|o os Ho _ IH]; intros t Ht; [by exists t|]. cbn [run_anims].
  assert (exists t', run_anim r t o = Done t' /\ anim_ok r t') as (t1 & -> & H1); [|by apply IH].
  destruct o as [n now|p now|n|n|n now|n x y|now reduced|]; cbn [run_anim op_ok] in *.
  - unfold animation_play, animation_registry_lookup. destruct (lookup_in_ok r n (registry r) Hr) as ([p|] & -> & Hp); cbn [mbind exec_bind]; [|by exists t].
    destruct Hp as (d & Hp & _). by eapply play_custom_ok.
  - destruct Ho as [d Hp]. by eapply play_custom_ok.
  - apply on_instance_ok; [done|]. intros i _. by eexists.
  - apply on_instance_ok; [done|]. intros i _. by eexists.
  - apply on_instance_ok; [done|]. intros i (d & Hd & _). unfold def_at. rewrite Hd. by eexists.
  - apply on_instance_ok; [done|]. intros i _. by eexists.
  - by apply animation_update_ok.
  - eexists. split; [reflexivity|]. split; [apply Ht|]. split; constructor.
Qed.
End runs.

Definition flash : AnimationDef := {| name := "flash"; keyframes :=
    [mkKeyframe f_zero EASE_BOUNCE (Some 0xFF000000) None None None None None None None (Some f1) None None None None;
     mkKeyframe (f_lit 200 0) EASE_LINEAR (Some 0xFFFFFFFF) None None None None None None None (Some f_zero) None None None (Some (mkRect 1 2 3 4))];
  duration_ms := 200; loop := true; repeat_count := 2; auto_reverse := false; trigger_on_complete := None; fil_on_complete := None; tui_type := TUI_ANIM_NONE |}.
Definition plain_node : Animated := mkAnimated (set_style widgetstyle_default info_zero) [].
Lemma animation_safe_witness : let r := animation_registry_register flash registry_init in
  exists t, run_anims (fun _ x => x) (fun x => x) r plain_node [Play "flash" 0; Tick 100 false; Pause "flash"; Resume "flash" 500; Tick 10000 false; Tick 20000 false] = Done t /\
    map playing (active_animations t) = [false] /\ anim_ok r t.
Proof.
  intros r. destruct (animation_safe (fun _ x => x) (fun x => x) r plain_node [Play "flash" 0; Tick 100 false; Pause "flash"; Resume "flash" 500; Tick 10000 false; Tick 20000 false]) as (t & Ht & Hok).
  - intros p Hp. apply list_elem_of_singleton in Hp as ->. by exists flash.
  - split; [by vm_compute|]. split; constructor.
  - repeat constructor.
  - exists t. split; [exact Ht|]. split; [|exact Hok]. vm_compute in Ht. injection Ht as <-. reflexivity.
Defined.

(** ** The course of an animation *)

Lemma not_lt_zero t : SFltb t f_zero = false -> d_isnan t = true \/ SFleb f_zero t = true.
Proof. destruct t as [[]|[]| |[] m e]; cbn; auto. Qed.
Lemma not_above_one t : SFltb f1 t = false -> d_isnan t = true \/ SFleb t f1 = true.
Proof.
  change f1 with (S754_finite false 8388608 (-23)). destruct t as [[]|[]| |[] m e]; intros H; try (discriminate H || (by left) || (right; reflexivity)).
  right. unfold SFltb, SFleb, SFcompare in *. rewrite (Z.compare_antisym (-23) e). destruct (-23 ?= e) eqn:E; cbn [CompOpp]; [|discriminate H|reflexivity].
  change (Pos.compare_cont Eq 8388608 m) with (8388608 ?= m)%positive in H. change (Pos.compare_cont Eq m 8388608) with (m ?= 8388608)%positive.
  rewrite (Pos.compare_antisym 8388608 m). destruct (8388608 ?= m)%positive; [reflexivity|discriminate H|reflexivity].
Qed.
Lemma full_not_negative t : SFleb f1 t = true -> SFltb t f_zero = false.
Proof. change f1 with (S754_finite false 8388608 (-23)). destruct t as [[]|[]| |[] m e]; intros H; (reflexivity || discriminate H). Qed.

(** The time since the start, in durations. *)
Definition progress (d : AnimationDef) (now since : Z) (sp : float) : float :=
  f_mul (f_div (f_of_Z (now - since)) (f_of_Z (duration_ms d))) sp.
Definition full (d : AnimationDef) (now since : Z) (sp : float) : Prop := SFleb f1 (progress d now since sp) = true.
Definition last_lap (d : AnimationDef) (i : AnimInstance) : Prop := loop d = false \/ 0 <= repeat_count d <= loop_iteration i + 1.

(** What one tick makes of the time: the progress handed to the drawing is
    between zero and one (or not a number, when the duration is zero at the
    very start); an animation ends exactly when its duration has passed and it
    was on its last lap, and one that reverses never ends, whatever its repeat
    count says. *)
Lemma animation_progress d now i :
  match advance d now i with
  | Ended => auto_reverse d = false /\ full d now (start_time i) (speed i) /\ last_lap d i
  | At j total =>
      (d_isnan total = true \/ SFleb f_zero total = true /\ SFleb total f1 = true) /\
      (auto_reverse d = true \/ ~ full d now (start_time i) (speed i) \/ ~ last_lap d i /\ loop_iteration j = loop_iteration i + 1 /\ start_time j = now)
  end.
Proof.
  unfold advance. fold (progress d now (start_time i) (speed i)). unfold full. set (p := progress _ _ _ _).
  set (t := if SFltb p f_zero then f_zero else p).
  assert (d_isnan t = true \/ SFleb f_zero t = true) as Hlow by (unfold t; destruct (SFltb p f_zero) eqn:E; [by right|by apply not_lt_zero]).
  assert (SFleb f1 t = SFleb f1 p) as Hfull.
  { unfold t. destruct (SFltb p f_zero) eqn:E; [|done]. destruct (SFleb f1 p) eqn:E1; [|done]. apply full_not_negative in E1. congruence. }
  assert (forall u, (d_isnan u = true \/ SFleb f_zero u = true) -> let w := if SFltb f1 u then f1 else u in d_isnan w = true \/ SFleb f_zero w = true /\ SFleb w f1 = true) as Hcap.
  { intros u Hu. cbn zeta. destruct (SFltb f1 u) eqn:E; [by right|]. destruct Hu; [by left|]. destruct (not_above_one _ E); auto. }
  rewrite <-Hfull. clearbody t. clear Hfull p.
  assert (SFleb f1 f_zero = false /\ (d_isnan f_zero = true \/ SFleb f_zero f_zero = true)) as [H10 H00] by (split; [done|by right]).
  destruct (auto_reverse d) eqn:Ear; cbn [andb negb].
  - destruct (negb (reversed i) && SFleb f1 t) eqn:E1; cbn [andb reversed set_time].
    + rewrite H10. split; [by apply Hcap|by left].
    + destruct (reversed i && SFleb f1 t) eqn:E2; (split; [by apply Hcap|by left]).
  - destruct (SFleb f1 t) eqn:E1; cbn [andb]; [|split; [by apply Hcap|right; left; done]].
    destruct (loop d && _) eqn:E2.
    + split; [by right|]. right. right. cbn [loop_iteration start_time set_time]. split; [|done]. apply andb_true_iff in E2 as [El Er].
      unfold last_lap. rewrite El. intros [|Hl]; [done|]. apply orb_true_iff in Er as [Er|Er]; simp_bool; lia.
    + split; [done|]. split; [done|]. unfold last_lap. destruct (loop d); [right; simp_bool; lia|by left].
Qed.

Section libm.
Variable powf : float -> float -> float.
Variable sinf : float -> float.
Variable r : Registry.
Variable d : AnimationDef.

(** An instance in the middle of its animation. *)
Definition running (i : AnimInstance) : Prop := playing i = true /\ paused i = false /\ heap r !! def i = Some d.

Lemma update_advance now n i : running i -> keyframes d <> [] -> style_wf (resolved_style n) ->
  exists n' j, update_instance powf sinf r now n i = Done (n', j) /\ style_wf (resolved_style n') /\
    match advance d now i with Ended => playing j = false | At k _ => same_course k j end.
Proof.
  intros (Hp & Hq & Hd) Hk Hn. unfold update_instance, def_at. rewrite Hp, Hq, Hd. cbn [negb orb mbind exec_bind].
  unfold keyframe_count. destruct (Z.eqb_spec (Z.of_nat (length (keyframes d))) 0) as [Hz|_]; [destruct (keyframes d); [done|cbn in Hz; lia]|].
  destruct (advance d now i) as [|k total]; [by eexists _, _|]. by apply show_segment_ok.
Qed.
(** Each lap takes its full duration from the end of the one before. *)
Fixpoint all_full (since : Z) (sp : float) (ts : list Z) : Prop :=
  match ts with [] => True | t :: ts' => full d t since sp /\ all_full t sp ts' end.

Lemma advance_playing now i j total : advance d now i = At j total -> playing j = playing i /\ paused j = paused i /\ speed j = speed i.
Proof.
  unfold advance. set (total0 := if SFltb _ _ then _ else _). destruct (_ && _ && _); cbn [reversed];
  repeat (destruct (_ && _)); intros H; first [discriminate H | injection H as <- _; done | idtac];
  repeat (destruct (_ : bool); try discriminate H); by injection H as <- _.
Qed.

Lemma tick_one t i now : active_animations t = [i] -> running i -> keyframes d <> [] -> style_wf (resolved_style (node t)) ->
  exists t' j, run_anim powf sinf r t (Tick now false) = Done t' /\ active_animations t' = [j] /\ style_wf (resolved_style (node t')) /\
    match advance d now i with Ended => playing j = false | At k _ => same_course k j end.
Proof.
  intros Ht Hi Hk Hn. destruct (update_advance now (node t) i Hi Hk Hn) as (n & j & E & Hw & Hj). cbn [run_anim]. unfold animation_update. rewrite Ht.
  cbn [each_instance]. rewrite E. cbn [mbind exec_bind]. by eexists _, j.
Qed.

(** C30: an animation that loops and does not reverse itself plays
    [repeat_count] times and then ends: drawn once its duration has passed, lap by
    lap, it is still playing after every lap but the last and has stopped after
    the last one; a count of zero or one is one lap. It is the only animation of
    its node, is running and not paused, has keyframes and a count that is not
    negative, and the counts of the node's style lie within its arrays. (One that reverses itself never counts a lap and plays without
    end.) *)
Theorem animation_plays_out ts : forall t i now, style_wf (resolved_style (node t)) -> active_animations t = [i] -> running i ->
  keyframes d <> [] -> auto_reverse d = false -> loop d = true -> 0 <= repeat_count d ->
  0 <= loop_iteration i -> loop_iteration i + Z.of_nat (length ts) = Z.max 0 (repeat_count d - 1) -> all_full (start_time i) (speed i) (ts ++ [now]) ->
  exists t1 t2, run_anims powf sinf r t (map (fun x => Tick x false) ts) = Done t1 /\ map playing (active_animations t1) = [true] /\
    run_anim powf sinf r t1 (Tick now false) = Done t2 /\ map playing (active_animations t2) = [false].
Proof.
  induction ts as [|u ts IH]; intros t i now Hn Ht Hi Hk Ha Hl Hr Hi0 Hlaps Hf; cbn [app all_full length map run_anims] in *.
  - destruct (tick_one t i now Ht Hi Hk Hn) as (t2 & k & E & E2 & _ & Hk2). pose proof (animation_progress d now i) as Hp.
    destruct (advance d now i) as [|j total].
    + exists t, t2. split; [done|]. rewrite Ht. cbn [map]. destruct Hi as (-> & _ & _). split; [done|]. split; [exact E|]. rewrite E2. cbn. by rewrite Hk2.
    + destruct Hp as [_ [Hp|[Hp|[Hp _]]]]; [congruence|destruct Hp; apply Hf|]. destruct Hp. right. lia.
  - destruct Hf as [Hu Hf]. destruct (tick_one t i u Ht Hi Hk Hn) as (t1 & j & E & E1 & Hw & Hj). pose proof (animation_progress d u i) as Hp.
    destruct (advance d u i) as [|k total] eqn:Ea.
    + destruct Hp as (_ & _ & [Hp|Hp]); [congruence|lia].
    + destruct Hp as [_ [Hp|[Hp|(_ & Hit & Hst)]]]; [congruence|by destruct Hp|]. pose proof (advance_playing u i k total Ea) as (Hpl & Hpa & Hsp).
      pose proof (advance_same _ _ _ _ _ Ea) as [Hd _]. destruct Hj as ([Jd _] & Jst & Jpl & Jpa & Jsp & Jit & _), Hi as (I1 & I2 & I3).
      destruct (IH t1 j now) as (t2 & t3 & H2 & H3 & H4 & H5); try done.
      * split; [congruence|]. split; [congruence|]. by rewrite Jd, Hd.
      * rewrite Jit, Hit. lia.
      * rewrite Jit, Hit. lia.
      * by rewrite Jst, Hst, Jsp, Hsp.
      * exists t2, t3. rewrite E. by split.
Qed.
End libm.
(** Two laps of [flash]. *)
Lemma animation_plays_out_witness : let r := animation_registry_register flash registry_init in
  let t := mkAnimated (set_style widgetstyle_default info_zero) [instance_new 0 flash 0] in
  exists t1 t2, run_anims (fun _ x => x) (fun x => x) r t [Tick 250 false] = Done t1 /\ map playing (active_animations t1) = [true] /\
    run_anim (fun _ x => x) (fun x => x) r t1 (Tick 500 false) = Done t2 /\ map playing (active_animations t2) = [false].
Proof.
  intros r t. apply (animation_plays_out (fun _ x => x) (fun x => x) r flash [250] t (instance_new 0 flash 0) 500);
    [repeat split; vm_compute; (done || discriminate)|reflexivity|repeat split; reflexivity|done|reflexivity|reflexivity|vm_compute; discriminate|vm_compute; discriminate|reflexivity|].
  split; [vm_compute; reflexivity|]. split; [vm_compute; reflexivity|exact I].
Defined.

(** Clearing the registry, which freeing any theme does, leaves the running
    animations with a pointer to freed memory. *)
Lemma animation_dangles powf sinf r p d n now : heap r !! p = Some d -> p ∈ registry r ->
  animation_update powf sinf (animation_registry_clear r) (mkAnimated n [instance_new p d 0]) now false = Fault UseAfterFree.
Proof.
  intros Hp Hin. unfold animation_update. cbn [active_animations node each_instance]. unfold update_instance. cbn [playing paused instance_new negb orb def].
  unfold def_at. assert (heap (animation_registry_clear r) !! p = None) as ->; [|done]. unfold animation_registry_clear. cbn [heap].
  induction (registry r) as [|q l IH]; [by apply not_elem_of_nil in Hin|]. cbn [foldr]. apply elem_of_cons in Hin as [<-|Hin]; [by rewrite lookup_delete_eq|].
  destruct (decide (q = p)) as [->|]; [by rewrite lookup_delete_eq|]. rewrite lookup_delete_ne by done. by apply IH.
Qed.
