(* ===== verification/Layout.v ===== *)
(** The layout pass of src/src/core/layout.c. Coordinates are unbounded
    integers; [qsort] is the C library's, a parameter that orders the children
    by their z-index in some way. *)

From S2P Require Import Prelude RenderTree.

(** From the keys to the positions in sorted order. *)
Section layout.
Context (qsort : list Z -> list nat).

Definition compute_anchor (node : NodeInfo) (surface_w surface_h : Z) : NodeInfo :=
  let r := rect node in
  let hc := cdiv (surface_w - rw r) 2 in let hr := surface_w - rw r in
  let vc := cdiv (surface_h - rh r) 2 in let vb := surface_h - rh r in
  let place x y := set_rect (mkRect (x + anchor_dx node) (y + anchor_dy node) (rw r) (rh r)) node in
  match anchor node with
  | ANCHOR_TOP_LEFT => place 0 0
  | ANCHOR_TOP_CENTER => place hc 0
  | ANCHOR_TOP_RIGHT => place hr 0
  | ANCHOR_CENTER_LEFT => place 0 vc
  | ANCHOR_CENTER => place hc vc
  | ANCHOR_CENTER_RIGHT => place hr vc
  | ANCHOR_BOTTOM_LEFT => place 0 vb
  | ANCHOR_BOTTOM_CENTER => place hc vb
  | ANCHOR_BOTTOM_RIGHT => place hr vb
  | ANCHOR_ABSOLUTE | ANCHOR_RELATIVE => node
  end.

Definition clamp_overflow (node : NodeInfo) (px py pw ph : Z) : NodeInfo :=
  match overflow node with
  | OVERFLOW_CLIP =>
      let r := rect node in
      let x := if rx r <? px then px else rx r in
      let y := if ry r <? py then py else ry r in
      let w := if px + pw <? x + rw r then px + pw - x else rw r in
      let h := if py + ph <? y + rh r then py + ph - y else rh r in
      set_rect (mkRect x y w h) node
  | _ => node
  end.

Definition apply_min_max (node : NodeInfo) : NodeInfo :=
  let ws := resolved_style node in
  let r := rect node in
  let w := if (0 <? min_width ws) && (rw r <? min_width ws) then min_width ws else rw r in
  let h := if (0 <? min_height ws) && (rh r <? min_height ws) then min_height ws else rh r in
  let w := if (0 <? max_width ws) && (max_width ws <? w) then max_width ws else w in
  let h := if (0 <? max_height ws) && (max_height ws <? h) then max_height ws else h in
  set_rect (mkRect (rx r) (ry r) w h) node.

Definition measure_text_width (text : option string) (size : Z) (is_pixel : bool) : Z :=
  match text with
  | None => 0
  | Some s => if is_pixel then cdiv (strlen s * size) 2 else strlen s
  end.

(** The loop over the characters: lines and column. *)
Fixpoint text_lines (per_line : Z) (s : list ascii) (lines col : Z) : Z :=
  match s with
  | [] => lines
  | c :: s' =>
      if Ascii.eqb c "010" then text_lines per_line s' (lines + 1) 0
      else if per_line <=? col + 1 then text_lines per_line s' (lines + 1) 0
      else text_lines per_line s' lines (col + 1)
  end.
Definition measure_text_height (text : option string) (size max_w : Z) (is_pixel : bool) : Z :=
  match text with
  | None => if is_pixel then 30 else 1
  | Some s =>
      let row_h := if is_pixel then size + 8 else 1 in
      if max_w <=? 0 then row_h
      else
        let char_w := if is_pixel then cdiv size 2 else 1 in
        let char_w := if char_w <=? 0 then 1 else char_w in
        text_lines (cdiv max_w char_w) (chars s) 1 0 * row_h
  end.

(** ** Flex boxes *)

Definition is_word (o : option string) (w : string) : bool :=
  match o with Some s => bool_decide (s = w) | None => false end.

Definition flex_child_size (is_row is_pixel : bool) (child : RenderTree) : Z :=
  let i := info child in
  match u child with
  | RNODE_TEXT (Some s) _ => measure_text_width (Some s) (font_size (resolved_style i)) is_pixel
  | _ =>
      if has_target_rect i then (if is_row then rw (target_rect i) else rh (target_rect i))
      else if 0 <? rw (rect i) then (if is_row then rw (rect i) else rh (rect i))
      else 0
  end.

Record flex := mkFlex {
  f_row : bool; f_wrap : bool; f_x : Z; f_y : Z; f_w : Z; f_avail : Z; f_grow : Z; f_gap : Z; f_row_h : Z; f_count : Z
}.
Definition child_width (f : flex) (i : NodeInfo) : Z :=
  let w := if has_target_rect i then rw (target_rect i) else rw (rect i) in
  let w := if w <=? 0 then (if 0 <? f_grow f then f_grow f else cdiv (f_avail f) (f_count f)) else w in
  let ws := resolved_style i in
  if (0 <? min_width ws) && (w <? min_width ws) then min_width ws else w.
Definition child_height (f : flex) (i : NodeInfo) : Z :=
  let h := if has_target_rect i then rh (target_rect i) else rh (rect i) in
  let h := if h <=? 0 then f_row_h f else h in
  let ws := resolved_style i in
  if (0 <? min_height ws) && (h <? min_height ws) then min_height ws else h.

(** The second loop: [pos], [line_pos] and [line_h] are its variables. *)
Fixpoint flex_place (f : flex) (children : list RenderTree) (pos line_pos line_h : Z) : list RenderTree * Z :=
  match children with
  | [] => ([], line_h)
  | c :: rest =>
      let w := child_width f (info c) in
      let h := child_height f (info c) in
      let wraps := f_wrap f && f_row f && (f_x f + f_w f <? line_pos + w) && (f_x f <? line_pos) in
      let pos := if wraps then f_y f + line_h + f_gap f else pos in
      let line_pos := if wraps then f_x f else line_pos in
      let r := if f_row f then mkRect line_pos pos w h else mkRect (f_x f) line_pos (f_w f) h in
      let line_h := if line_h <? h then h else line_h in
      let '(rest', line_h') := flex_place f rest pos (line_pos + (if f_row f then w else h) + f_gap f) line_h in
      (on_info (set_rect r) c :: rest', line_h')
  end.

(** The children in place, and the rectangle of the node. *)
Definition layout_flex (direction wrap : option string) (r : Rect) (children : list RenderTree)
    (off_x off_y max_w max_h : Z) (is_pixel : bool) : list RenderTree * Rect :=
  match children with
  | [] => ([], r)
  | _ =>
      let is_row := negb (is_word direction "column") in
      let row_h := if is_pixel then 30 else 1 in
      let avail := if is_row then max_w else max_h in
      let sizes := map (flex_child_size is_row is_pixel) children in
      let fixed_size := foldl (fun acc s => if 0 <? s then acc + s else acc) 0 sizes in
      let total_grow := foldl (fun acc s => if 0 <? s then acc else acc + 1) 0 sizes in
      let gap := if is_pixel then 8 else 1 in
      let count := Z.of_nat (length children) in
      let remaining := avail - fixed_size - gap * (count - 1) in
      let grow_unit := if 0 <? total_grow then cdiv remaining total_grow else 0 in
      let pos := if is_row then off_x else off_y in
      let f := mkFlex is_row (is_word wrap "wrap") off_x off_y max_w avail grow_unit gap row_h count in
      let '(placed, line_h) := flex_place f children pos pos 0 in
      (map (on_info apply_min_max) placed,
       if is_row then mkRect (rx r) (ry r) max_w (off_y + line_h + gap - ry r) else mkRect (rx r) (ry r) max_w max_h)
  end.

(** ** Grids *)

Definition grid_cell (cols cell_w row_h gap off_x off_y : Z) (i : nat) (c : RenderTree) : RenderTree :=
  let col := cmod (Z.of_nat i) cols in
  let row := cdiv (Z.of_nat i) cols in
  on_info (fun n => apply_min_max (set_rect (mkRect (off_x + col * (cell_w + gap)) (off_y + row * (row_h + gap)) cell_w row_h) n)) c.

Definition layout_grid (columns : Z) (r : Rect) (children : list RenderTree) (off_x off_y max_w : Z) (is_pixel : bool)
    : list RenderTree * Rect :=
  match children with
  | [] => ([], r)
  | _ =>
      let cols := if 0 <? columns then columns else 1 in
      let gap := if is_pixel then 8 else 1 in
      let cell_w := cdiv (max_w - gap * (cols - 1)) cols in
      let row_h := if is_pixel then 30 else 1 in
      let rows := cdiv (Z.of_nat (length children) + cols - 1) cols in
      (imap (grid_cell cols cell_w row_h gap off_x off_y) children, mkRect (rx r) (ry r) max_w (rows * (row_h + gap) - gap))
  end.

(** ** Nodes *)

(** The height a stacked child gets from its content. *)
Definition stacked_height (c : RenderTree) (content_w row_h : Z) (is_pixel : bool) : Z :=
  match u c with
  | RNODE_TEXT (Some s) _ => measure_text_height (Some s) (font_size (resolved_style (info c))) content_w is_pixel
  | RNODE_LIST items _ => if (0 <? length items)%nat then row_h * Z.of_nat (length items) else row_h
  | RNODE_TABLE _ rows _ _ => row_h * (Z.of_nat (length rows) + 1)
  | RNODE_TREE n _ => row_h * Z.of_nat (length n)
  | RNODE_CALENDAR _ _ _ => row_h * 10
  | RNODE_GAUGE _ _ => row_h * 2
  | RNODE_FORM n _ _ => row_h * (Z.of_nat (length n) + 1)
  | _ => row_h
  end.

Definition move_rect (dx dy : Z) (r : Rect) : Rect := mkRect (rx r + dx) (ry r + dy) (rw r) (rh r).
(** The first sibling with the class the child is placed against. *)
Definition find_relative (children : list RenderTree) (name : string) : option RenderTree :=
  List.find (fun c => is_word (style_class (info c)) name) children.
Definition relative_start (children : list RenderTree) (c : RenderTree) : RenderTree :=
  let i := info c in
  let c1 := match relative_to i with
    | Some name =>
        match find_relative children name with
        | Some rel => on_info (set_rect (mkRect (rx (rect (info rel)) + anchor_dx i) (ry (rect (info rel)) + anchor_dy i)
                                          (rw (rect i)) (rh (rect i)))) c
        | None => c
        end
    | None => c
    end in
  on_info (fun i1 => set_rect (move_rect (anchor_dx i) (anchor_dy i) (rect i1)) i1) c1.

Section stack.
Variable layout_node : RenderTree -> Z -> Z -> Z -> Z -> exec RenderTree.
Context (content_x content_y content_w content_h : Z) (is_pixel : bool).
(** The loop over the children in z-order, in place; [cur_y] runs down. *)
Fixpoint layout_children (order : list nat) (children : list RenderTree) (cur_y : Z) : exec (list RenderTree) :=
  match order with
  | [] => Done children
  | j :: order' =>
      child ← at_index (children !! j);
      match anchor (info child) with
      | ANCHOR_ABSOLUTE =>
          child' ← layout_node child content_x content_y content_w content_h;
          layout_children order' (<[j := child']> children) cur_y
      | ANCHOR_RELATIVE =>
          child' ← layout_node (relative_start children child) content_x content_y content_w content_h;
          layout_children order' (<[j := child']> children) cur_y
      | _ =>
          let row_h := if is_pixel then 30 else 1 in
          let h := stacked_height child content_w row_h is_pixel in
          child' ← layout_node (on_info (set_rect (mkRect content_x cur_y content_w h)) child) content_x cur_y content_w h;
          layout_children order' (<[j := child']> children) (cur_y + rh (rect (info child')))
      end
  end.
End stack.

(** The node's own rectangle, before its content. *)
Definition own_rect (node : NodeInfo) (off_x off_y max_w max_h : Z) : NodeInfo :=
  let node := if has_target_rect node then set_has_target false (set_rect (target_rect node) node) else node in
  let node := match anchor node with ANCHOR_ABSOLUTE | ANCHOR_RELATIVE => node | _ => compute_anchor node max_w max_h end in
  clamp_overflow (apply_min_max node) off_x off_y max_w max_h.

(** [if (child) layout_node(child, ...)] *)
Definition opt_layout (f : RenderTree -> exec RenderTree) (o : option RenderTree) : exec (option RenderTree) :=
  match o with Some c => c' ← f c; Done (Some c') | None => Done None end.

Fixpoint layout_node (fuel : nat) (is_pixel : bool) (node : RenderTree) (off_x off_y max_w max_h : Z) : exec RenderTree :=
  match fuel with
  | O => Fault Diverges
  | S fuel' =>
      if ((max_w <=? 0) || (max_h <=? 0))%bool then Done node
      else
        let i := own_rect (info node) off_x off_y max_w max_h in
        let x := off_x + rx (rect i) in
        let y := off_y + ry (rect i) in
        let w := rw (rect i) in
        let h := rh (rect i) in
        let rec := layout_node fuel' is_pixel in
        match u node with
        | RNODE_CONTAINER bg b p children =>
            children' ← layout_children rec x y w h is_pixel (qsort (map (fun c => z_index (info c)) children)) children y;
            Done (mkTree i (RNODE_CONTAINER bg b p children'))
        | RNODE_FLEX d wr j a children =>
            let '(children', r) := layout_flex d wr (rect i) children x y w h is_pixel in
            Done (mkTree (set_rect r i) (RNODE_FLEX d wr j a children'))
        | RNODE_GRID cs rs children =>
            let '(children', r) := layout_grid cs (rect i) children x y w is_pixel in
            Done (mkTree (set_rect r i) (RNODE_GRID cs rs children'))
        | RNODE_TABS ls ac child =>
            let tab_h := if is_pixel then 30 else 1 in
            child' ← opt_layout (fun c => rec c x (y + tab_h) w (h - tab_h)) child;
            Done (mkTree i (RNODE_TABS ls ac child'))
        | RNODE_SPLIT_PANES o sp sp2 first second third =>
            match o with
            | ORIENT_HORIZONTAL =>
                let s := if 0 <? sp then sp else cdiv w 2 in
                first' ← opt_layout (fun c => rec c x y s h) first;
                second' ← opt_layout (fun c => rec c (x + s + 1) y (w - s - 1) h) second;
                Done (mkTree i (RNODE_SPLIT_PANES o sp sp2 first' second' third))
            | ORIENT_VERTICAL =>
                let s := if 0 <? sp then sp else cdiv h 2 in
                first' ← opt_layout (fun c => rec c x y w s) first;
                second' ← opt_layout (fun c => rec c x (y + s + 1) w (h - s - 1)) second;
                Done (mkTree i (RNODE_SPLIT_PANES o sp sp2 first' second' third))
            end
        | c => Done (mkTree i c)
        end
  end.

(** The recursion goes down the tree: its height is enough fuel. *)
Definition layout_tree (tree : option RenderTree) (surface_w surface_h : Z) (is_pixel : bool) : exec (option RenderTree) :=
  match tree with
  | None => Done None
  | Some t =>
      if ((surface_w <=? 0) || (surface_h <=? 0))%bool then Done (Some t)
      else
        t' ← layout_node (height t) is_pixel (on_info (set_rect (mkRect 0 0 surface_w surface_h)) t) 0 0 surface_w surface_h;
        Done (Some t')
  end.
(** ** The pass keeps the tree *)

Lemma skeleton_on_info f t : (forall i, blank (f i) = blank i) -> skeleton (on_info f t) = skeleton t.
Proof. intros H. rewrite !skeleton_unfold. cbn [on_info info u]. by rewrite H. Qed.
Lemma blank_set_rect r i : blank (set_rect r i) = blank i.
Proof. done. Qed.
Lemma blank_apply_min_max i : blank (apply_min_max i) = blank i.
Proof. done. Qed.
Lemma blank_own_rect i a b c d : blank (own_rect i a b c d) = blank i.
Proof.
  unfold own_rect. set (j := if has_target_rect i then _ else i).
  assert (blank j = blank i) as <- by (unfold j; by destruct (has_target_rect i)).
  set (k := match anchor j with ANCHOR_TOP_LEFT => _ | _ => _ end).
  assert (blank k = blank j) as <-.
  { unfold k, compute_anchor. by destruct (anchor j). }
  unfold clamp_overflow. by destruct (overflow (apply_min_max k)).
Qed.

Lemma flex_place_skeleton f ch p lp lh : map skeleton (flex_place f ch p lp lh).1 = map skeleton ch.
Proof.
  revert p lp lh. induction ch as [|c ch IH]; intros p lp lh; [done|]. cbn [flex_place].
  match goal with |- context [flex_place f ch ?a ?b ?d] => specialize (IH a b d); destruct (flex_place f ch a b d) as [r l] end.
  cbn [fst map] in *. rewrite IH, skeleton_on_info; done.
Qed.
Lemma map_on_info_skeleton f l : (forall i, blank (f i) = blank i) -> map skeleton (map (on_info f) l) = map skeleton l.
Proof. intros H. rewrite map_map. apply map_ext. intros t. by apply skeleton_on_info. Qed.
Lemma layout_flex_skeleton d w r ch a b c e px : map skeleton (layout_flex d w r ch a b c e px).1 = map skeleton ch.
Proof.
  destruct ch as [|c0 ch]; [done|]. unfold layout_flex.
  match goal with |- context [flex_place ?f ?l ?p ?q ?h] => pose proof (flex_place_skeleton f l p q h) as H; destruct (flex_place f l p q h) as [x y] end.
  cbn [fst] in *. rewrite map_on_info_skeleton; [exact H|apply blank_apply_min_max].
Qed.
Lemma layout_grid_skeleton cs r ch a b c px : map skeleton (layout_grid cs r ch a b c px).1 = map skeleton ch.
Proof.
  destruct ch as [|c0 ch]; [done|]. unfold layout_grid. cbn [fst].
  generalize (c0 :: ch). intros l. apply list_eq. intros i.
  change (map skeleton l) with (skeleton <$> l). change (map skeleton) with (fmap (M := list) skeleton).
  rewrite !list_lookup_fmap, list_lookup_imap. destruct (l !! i) as [c1|]; [|done].
  cbn [fmap option_fmap option_map]. f_equal. by apply skeleton_on_info.
Qed.

(** [qsort] orders the positions: none is lost, none is made up. *)
Hypothesis qsort_perm : forall ks, qsort ks ≡ₚ seq 0 (length ks).

Definition keeps (f : RenderTree -> Z -> Z -> Z -> Z -> exec RenderTree) (n : nat) : Prop :=
  forall t x y w h, (height t <= n)%nat -> exists t', f t x y w h = Done t' /\ skeleton t' = skeleton t.

Lemma skeleton_relative_start ch c : skeleton (relative_start ch c) = skeleton c.
Proof.
  unfold relative_start. rewrite skeleton_on_info by done.
  destruct (relative_to (info c)); [|done]. destruct (find_relative ch s); [|done]. by apply skeleton_on_info.
Qed.

Lemma skeleton_insert (l : list RenderTree) j c c' : l !! j = Some c -> skeleton c' = skeleton c ->
  map skeleton (<[j := c']> l) = map skeleton l.
Proof.
  intros Hj Hc. change (map skeleton) with (fmap (M := list) skeleton). rewrite list_fmap_insert, Hc.
  apply list_insert_id. by rewrite list_lookup_fmap, Hj.
Qed.

Lemma layout_children_keeps f n x y w h px order : keeps f n -> forall ch cur_y,
  Forall (fun c => (height c <= n)%nat) ch -> Forall (fun j => (j < length ch)%nat) order ->
  exists ch', layout_children f x y w h px order ch cur_y = Done ch' /\ map skeleton ch' = map skeleton ch.
Proof.
  intros Hf. induction order as [|j order IH]; intros ch cur_y Hh Ho; [by exists ch|].
  apply list.Forall_cons in Ho as [Hj Ho]. destruct (lookup_lt_is_Some_2 ch j Hj) as [c Hc].
  cbn [layout_children]. rewrite Hc. cbn [at_index mbind exec_bind].
  assert (forall c1 a b d e k, skeleton c1 = skeleton c ->
    exists ch', (c' ← f c1 a b d e; layout_children f x y w h px order (<[j := c']> ch) (k c')) = Done ch' /\
      map skeleton ch' = map skeleton ch) as Hstep.
  { intros c1 a b d e k Hc1. destruct (Hf c1 a b d e) as (c' & -> & Hc').
    - rewrite (skeleton_height _ _ Hc1). rewrite list.Forall_forall in Hh. apply Hh. by eapply list_elem_of_lookup_2.
    - cbn [mbind exec_bind]. destruct (IH (<[j := c']> ch) (k c')) as (ch' & -> & Hch').
      + apply Forall_insert; [done|]. rewrite (skeleton_height c' c) by congruence.
        rewrite list.Forall_forall in Hh. apply Hh. by eapply list_elem_of_lookup_2.
      + by rewrite length_insert.
      + exists ch'. split; [done|]. rewrite Hch'. apply (skeleton_insert _ _ c); congruence. }
  destruct (anchor (info c)); apply Hstep; try done; [by rewrite skeleton_on_info..|]. apply skeleton_relative_start.
Qed.

Lemma opt_layout_keeps f n o (k : RenderTree -> exec RenderTree) : keeps f n ->
  (forall c, c ∈ opt_list o -> (height c <= n)%nat) ->
  (forall c, exists x y w h, k c = f c x y w h) ->
  exists o', opt_layout k o = Done o' /\ option_map skeleton o' = option_map skeleton o.
Proof.
  intros Hf Ho Hk. destruct o as [c|]; [|by exists None]. cbn [opt_layout].
  destruct (Hk c) as (x & y & w & h & ->). destruct (Hf c x y w h) as (c' & -> & Hc); [apply Ho; left|].
  exists (Some c'). cbn. by rewrite Hc.
Qed.

Lemma layout_node_keeps fuel px : keeps (layout_node fuel px) fuel.
Proof.
  induction fuel as [|fuel IH]; intros t x y w h Ht; [destruct t; simpl in Ht; lia|].
  cbn [layout_node]. destruct (_ || _)%bool; [by exists t|].
  set (i := own_rect (info t) x y w h). assert (blank i = blank (info t)) as Hi by apply blank_own_rect.
  assert (forall c, c ∈ kids (u t) -> (height c <= fuel)%nat) as Hk.
  { intros c Hc%height_kid. lia. }
  rewrite (skeleton_unfold t). destruct (u t) as [bg b p ch| | | | | | | | | | |ls a ch|o s1 s2 a b c|d wr j a ch|cs rs ch| | |]; cbn [kids] in Hk;
    try (eexists; split; [done|]; rewrite skeleton_unfold; cbn [info u content_map]; by rewrite Hi).
  - destruct (layout_children_keeps _ fuel (x + rx (rect i)) (y + ry (rect i)) (rw (rect i)) (rh (rect i)) px
      (qsort (map (fun c => z_index (info c)) ch)) IH ch (y + ry (rect i))) as (ch' & -> & Hch).
    + by apply list.Forall_forall.
    + rewrite qsort_perm, length_map. apply list.Forall_forall. intros j Hj%elem_of_seq. lia.
    + eexists. split; [done|]. cbn. by rewrite Hi, Hch.
  - destruct (opt_layout_keeps _ fuel ch (fun c => layout_node fuel px c (x + rx (rect i)) (y + ry (rect i) + (if px then 30 else 1))
      (rw (rect i)) (rh (rect i) - (if px then 30 else 1))) IH Hk) as (ch' & -> & Hch); [intros c; by eexists _, _, _, _|].
    eexists. split; [done|]. cbn. by rewrite Hi, Hch.
  - assert (forall f g, (forall q, exists x y w h, f q = layout_node fuel px q x y w h) ->
      (forall q, exists x y w h, g q = layout_node fuel px q x y w h) ->
      exists t', (first' ← opt_layout f a; second' ← opt_layout g b; Done (mkTree i (RNODE_SPLIT_PANES o s1 s2 first' second' c))) = Done t' /\
        skeleton t' = mkTree (blank (info t)) (content_map skeleton (RNODE_SPLIT_PANES o s1 s2 a b c))) as Hgo.
    { intros f g Hf Hg.
      destruct (opt_layout_keeps _ fuel a f IH) as (a' & -> & Ha); [intros q Hq; apply Hk; rewrite !elem_of_app; auto|done|].
      destruct (opt_layout_keeps _ fuel b g IH) as (b' & -> & Hb); [intros q Hq; apply Hk; rewrite !elem_of_app; auto|done|].
      eexists. split; [done|]. cbn. by rewrite Hi, Ha, Hb. }
    destruct o; apply Hgo; intros q; by eexists _, _, _, _.
  - pose proof (layout_flex_skeleton d wr (rect i) ch (x + rx (rect i)) (y + ry (rect i)) (rw (rect i)) (rh (rect i)) px) as Hfl.
    destruct (layout_flex _ _ _ _ _ _ _ _ _) as [ch' r]. eexists. split; [done|]. cbn in *. by rewrite Hfl, blank_set_rect, Hi.
  - pose proof (layout_grid_skeleton cs (rect i) ch (x + rx (rect i)) (y + ry (rect i)) (rw (rect i)) px) as Hfl.
    destruct (layout_grid _ _ _ _ _ _ _) as [ch' r]. eexists. split; [done|]. cbn in *. by rewrite Hfl, blank_set_rect, Hi.
Qed.

Lemma layout_total (t : RenderTree) (surface_w surface_h : Z) (is_pixel : bool) :
  exists t', layout_tree (Some t) surface_w surface_h is_pixel = Done (Some t') /\ skeleton t' = skeleton t.
Proof.
  unfold layout_tree. destruct (_ || _)%bool; [by exists t|].
  set (t1 := on_info (set_rect (mkRect 0 0 surface_w surface_h)) t).
  assert (skeleton t1 = skeleton t) as H1 by by apply skeleton_on_info.
  destruct (layout_node_keeps (height t) is_pixel t1 0 0 surface_w surface_h) as (t' & -> & Ht').
  - by rewrite (skeleton_height t1 t).
  - exists t'. split; [done|]. congruence.
Qed.

(** ** The specification: where every node goes

    The size of a limit is 0 when there is none. *)
Definition bounded (least most v : Z) : Z :=
  let v := if 0 <? least then Z.max least v else v in if 0 <? most then Z.min most v else v.
Definition bounded_rect (i : NodeInfo) (r : Rect) : Rect :=
  let ws := resolved_style i in mkRect (rx r) (ry r) (bounded (min_width ws) (max_width ws) (rw r)) (bounded (min_height ws) (max_height ws) (rh r)).
(** Which part of the free space is to the left of and above an anchored node, in halves. *)
Definition halves (a : AnchorMode) : option (Z * Z) :=
  match a with
  | ANCHOR_TOP_LEFT => Some (0, 0) | ANCHOR_TOP_CENTER => Some (1, 0) | ANCHOR_TOP_RIGHT => Some (2, 0)
  | ANCHOR_CENTER_LEFT => Some (0, 1) | ANCHOR_CENTER => Some (1, 1) | ANCHOR_CENTER_RIGHT => Some (2, 1)
  | ANCHOR_BOTTOM_LEFT => Some (0, 2) | ANCHOR_BOTTOM_CENTER => Some (1, 2) | ANCHOR_BOTTOM_RIGHT => Some (2, 2)
  | ANCHOR_ABSOLUTE | ANCHOR_RELATIVE => None
  end.
(** The rectangle of a node with room [a]: its target if it has one, at its
    anchor, within its limits, and clipped when it is to be. *)
Definition own_place (a : Rect) (i : NodeInfo) : Rect :=
  let r := if has_target_rect i then target_rect i else rect i in
  let '(x, y) := match halves (anchor i) with
    | Some (hx, hy) => (Z.quot ((rw a - rw r) * hx) 2 + anchor_dx i, Z.quot ((rh a - rh r) * hy) 2 + anchor_dy i)
    | None => (rx r, ry r)
    end in
  let r := bounded_rect i (mkRect x y (rw r) (rh r)) in
  match overflow i with
  | OVERFLOW_CLIP =>
      let x := Z.max (rx a) (rx r) in let y := Z.max (ry a) (ry r) in
      mkRect x y (Z.min (rw r) (rx a + rw a - x)) (Z.min (rh r) (ry a + rh a - y))
  | _ => r
  end.
(** A node that is laid out loses its target; nothing else of it changes. *)
Definition placed (r : Rect) (i : NodeInfo) : NodeInfo := set_has_target false (set_rect r i).
Definition content_area (a : Rect) (i : NodeInfo) : Rect :=
  let r := own_place a i in mkRect (rx a + rx r) (ry a + ry r) (rw r) (rh r).

Definition unit_h (px : bool) : Z := if px then 30 else 1.
Definition gap_of (px : bool) : Z := if px then 8 else 1.
(** Only the rectangle of a child of a grid or a flex box changes. *)
Definition put_at (r : Rect) (c : RenderTree) : RenderTree := mkTree (set_rect (bounded_rect (info c) r) (info c)) (u c).

Definition cell (b : Rect) (cols : Z) (px : bool) (k : Z) : Rect :=
  let w := Z.quot (rw b - gap_of px * (cols - 1)) cols in
  mkRect (rx b + (k mod cols) * (w + gap_of px)) (ry b + (k / cols) * (unit_h px + gap_of px)) w (unit_h px).

(** The length a child of a flex box asks for, 0 or less when it takes a share. *)
Definition wanted (row px : bool) (c : RenderTree) : Z :=
  let i := info c in
  match u c with
  | RNODE_TEXT (Some s) _ => if px then Z.quot (strlen s * font_size (resolved_style i)) 2 else strlen s
  | _ => let r := if has_target_rect i then target_rect i else if 0 <? rw (rect i) then rect i else mkRect 0 0 0 0 in
         if row then rw r else rh r
  end.
Definition share (row px : bool) (b : Rect) (ch : list RenderTree) : Z :=
  let avail := if row then rw b else rh b in
  let n := Z.of_nat (length ch) in
  let fixed := List.filter (fun w => 0 <? w) (map (wanted row px) ch) in
  let growing := n - Z.of_nat (length fixed) in
  let each := if 0 <? growing then Z.quot (avail - foldr Z.add 0 fixed - gap_of px * (n - 1)) growing else 0 in
  if 0 <? each then each else Z.quot avail n.
Definition at_least_of (least v : Z) : Z := if 0 <? least then Z.max least v else v.
Definition flex_size (row px : bool) (b : Rect) (part : Z) (c : RenderTree) : Z * Z :=
  let i := info c in let r := if has_target_rect i then target_rect i else rect i in let ws := resolved_style i in
  (if row then at_least_of (min_width ws) (if rw r <=? 0 then part else rw r) else rw b,
   at_least_of (min_height ws) (if rh r <=? 0 then unit_h px else rh r)).
Definition tallest (rs : list Rect) : Z := foldr Z.max 0 (map rh rs).
(** The place behind [r], when [before] are the rectangles so far, [r] included. *)
Definition next_place (row wrap px : bool) (b : Rect) (before : list Rect) (r : Rect) (w : Z) : Z * Z :=
  if row then
    let x := rx r + rw r + gap_of px in
    if wrap && (rx b + rw b <? x + w) && (rx b <? x) then (rx b, ry b + tallest before + gap_of px) else (x, ry r)
  else (rx b, ry r + rh r + gap_of px).
(** The rectangles of the children of a flex box, before their limits; the
    first line of a row is as far down as the box is to the right. *)
Definition flexed (row wrap px : bool) (b : Rect) (ch : list RenderTree) (rs : list Rect) : Prop :=
  length rs = length ch /\
  (forall k c r, ch !! k = Some c -> rs !! k = Some r -> (rw r, rh r) = flex_size row px b (share row px b ch) c) /\
  (forall r, rs !! 0%nat = Some r -> (rx r, ry r) = (rx b, if row then rx b else ry b)) /\
  (forall k r q, rs !! k = Some r -> rs !! S k = Some q -> (rx q, ry q) = next_place row wrap px b (take (S k) rs) r (rw q)).

(** A child placed against the first sibling with the class it names is moved twice by its offset. *)
Definition beside (ch : list RenderTree) (c : RenderTree) : RenderTree :=
  let i := info c in let r := rect i in
  let '(x, y) := match relative_to i ≫= (fun n => List.find (fun q => bool_decide (style_class (info q) = Some n)) ch) with
    | Some q => (rx (rect (info q)) + 2 * anchor_dx i, ry (rect (info q)) + 2 * anchor_dy i)
    | None => (rx r + anchor_dx i, ry r + anchor_dy i)
    end in
  mkTree (set_rect (mkRect x y (rw r) (rh r)) i) (u c).
Definition leaf_content (c : Content RenderTree) : Prop :=
  match c with RNODE_CONTAINER _ _ _ _ | RNODE_FLEX _ _ _ _ _ | RNODE_GRID _ _ _ | RNODE_TABS _ _ _ | RNODE_SPLIT_PANES _ _ _ _ _ _ => False | _ => True end.

(** The height of a child of a container, in rows of the surface; the rows of a
    text are its lines, each broken when it is as long as the container is wide. *)
Fixpoint line_sizes (n : Z) (s : list ascii) : list Z :=
  match s with [] => [n] | c :: s' => if Ascii.eqb c "010" then n :: line_sizes 0 s' else line_sizes (n + 1) s' end.
Definition broken (per : Z) (sizes : list Z) : Z := foldr Z.add 0 (map (fun n => n / per + 1) sizes).
Definition content_height (px : bool) (w : Z) (c : RenderTree) : Z :=
  let rows := Z.of_nat in
  match u c with
  | RNODE_TEXT (Some s) _ =>
      let size := font_size (resolved_style (info c)) in let char_w := if px then Z.max 1 (Z.quot size 2) else 1 in
      (if w <=? 0 then 1 else broken (Z.max 1 (w / char_w)) (line_sizes 0 (chars s))) * (if px then size + 8 else 1)
  | RNODE_LIST items _ => Z.max 1 (rows (length items)) * unit_h px
  | RNODE_TABLE _ lines _ _ => (1 + rows (length lines)) * unit_h px
  | RNODE_FORM fields _ _ => (1 + rows (length fields)) * unit_h px
  | RNODE_TREE nodes _ => rows (length nodes) * unit_h px
  | RNODE_CALENDAR _ _ _ => 10 * unit_h px
  | RNODE_GAUGE _ _ => 2 * unit_h px
  | _ => unit_h px
  end.

Inductive Laid (px : bool) : Rect -> RenderTree -> RenderTree -> Prop :=
  | laid_nowhere a t : rw a <= 0 \/ rh a <= 0 -> Laid px a t t
  | laid_leaf a i c : 0 < rw a -> 0 < rh a -> leaf_content c -> Laid px a (mkTree i c) (mkTree (placed (own_place a i) i) c)
  | laid_container a i bg bd p ch ch' : 0 < rw a -> 0 < rh a ->
      Stacked px (content_area a i) (qsort (map (fun c => z_index (info c)) ch)) ch (ry (content_area a i)) ch' ->
      Laid px a (mkTree i (RNODE_CONTAINER bg bd p ch)) (mkTree (placed (own_place a i) i) (RNODE_CONTAINER bg bd p ch'))
  | laid_flex a i d wr j al ch rs : 0 < rw a -> 0 < rh a -> ch <> [] ->
      let row := negb (bool_decide (d = Some "column"%string)) in
      let r := own_place a i in let b := content_area a i in
      flexed row (bool_decide (wr = Some "wrap"%string)) px b ch rs ->
      Laid px a (mkTree i (RNODE_FLEX d wr j al ch))
        (mkTree (placed (mkRect (rx r) (ry r) (rw r) (if row then ry b + tallest rs + gap_of px - ry r else rh r)) i)
                (RNODE_FLEX d wr j al (zip_with put_at rs ch)))
  | laid_flex_empty a i d wr j al : 0 < rw a -> 0 < rh a ->
      Laid px a (mkTree i (RNODE_FLEX d wr j al [])) (mkTree (placed (own_place a i) i) (RNODE_FLEX d wr j al []))
  | laid_grid a i columns rows ch : 0 < rw a -> 0 < rh a -> ch <> [] ->
      let cols := Z.max 1 columns in let r := own_place a i in
      Laid px a (mkTree i (RNODE_GRID columns rows ch))
        (mkTree (placed (mkRect (rx r) (ry r) (rw r) ((Z.of_nat (length ch) + cols - 1) / cols * (unit_h px + gap_of px) - gap_of px)) i)
                (RNODE_GRID columns rows (imap (fun k => put_at (cell (content_area a i) cols px (Z.of_nat k))) ch)))
  | laid_grid_empty a i columns rows : 0 < rw a -> 0 < rh a ->
      Laid px a (mkTree i (RNODE_GRID columns rows [])) (mkTree (placed (own_place a i) i) (RNODE_GRID columns rows []))
  | laid_tabs a i ls ac o o' : 0 < rw a -> 0 < rh a -> let b := content_area a i in
      LaidOpt px (mkRect (rx b) (ry b + unit_h px) (rw b) (rh b - unit_h px)) o o' ->
      Laid px a (mkTree i (RNODE_TABS ls ac o)) (mkTree (placed (own_place a i) i) (RNODE_TABS ls ac o'))
  | laid_columns a i at1 at2 o1 o2 o3 o1' o2' : 0 < rw a -> 0 < rh a -> let b := content_area a i in let s := if 0 <? at1 then at1 else Z.quot (rw b) 2 in
      LaidOpt px (mkRect (rx b) (ry b) s (rh b)) o1 o1' -> LaidOpt px (mkRect (rx b + s + 1) (ry b) (rw b - s - 1) (rh b)) o2 o2' ->
      Laid px a (mkTree i (RNODE_SPLIT_PANES ORIENT_HORIZONTAL at1 at2 o1 o2 o3))
        (mkTree (placed (own_place a i) i) (RNODE_SPLIT_PANES ORIENT_HORIZONTAL at1 at2 o1' o2' o3))
  | laid_rows a i at1 at2 o1 o2 o3 o1' o2' : 0 < rw a -> 0 < rh a -> let b := content_area a i in let s := if 0 <? at1 then at1 else Z.quot (rh b) 2 in
      LaidOpt px (mkRect (rx b) (ry b) (rw b) s) o1 o1' -> LaidOpt px (mkRect (rx b) (ry b + s + 1) (rw b) (rh b - s - 1)) o2 o2' ->
      Laid px a (mkTree i (RNODE_SPLIT_PANES ORIENT_VERTICAL at1 at2 o1 o2 o3))
        (mkTree (placed (own_place a i) i) (RNODE_SPLIT_PANES ORIENT_VERTICAL at1 at2 o1' o2' o3))
with LaidOpt (px : bool) : Rect -> option RenderTree -> option RenderTree -> Prop :=
  | laid_none b : LaidOpt px b None None
  | laid_some b c c' : Laid px b c c' -> LaidOpt px b (Some c) (Some c')
(** The children of a container one after another, [y] running down. *)
with Stacked (px : bool) : Rect -> list nat -> list RenderTree -> Z -> list RenderTree -> Prop :=
  | stacked_end b ch y : Stacked px b [] ch y ch
  | stacked_absolute b k ks ch y c c' ch' : ch !! k = Some c -> anchor (info c) = ANCHOR_ABSOLUTE ->
      Laid px b c c' -> Stacked px b ks (<[k := c']> ch) y ch' -> Stacked px b (k :: ks) ch y ch'
  | stacked_relative b k ks ch y c c' ch' : ch !! k = Some c -> anchor (info c) = ANCHOR_RELATIVE ->
      Laid px b (beside ch c) c' -> Stacked px b ks (<[k := c']> ch) y ch' -> Stacked px b (k :: ks) ch y ch'
  | stacked_row b k ks ch y c c' ch' : ch !! k = Some c -> halves (anchor (info c)) <> None ->
      let r := mkRect (rx b) y (rw b) (content_height px (rw b) c) in
      Laid px r (mkTree (set_rect r (info c)) (u c)) c' -> Stacked px b ks (<[k := c']> ch) (y + rh (rect (info c'))) ch' ->
      Stacked px b (k :: ks) ch y ch'.

Lemma bounded_min_max lo hi v : (let w := if (0 <? lo) && (v <? lo) then lo else v in if (0 <? hi) && (hi <? w) then hi else w) = bounded lo hi v.
Proof.
  unfold bounded. cbn zeta. assert ((if (0 <? lo) && (v <? lo) then lo else v) = if 0 <? lo then Z.max lo v else v) as ->
    by (destruct (Z.ltb_spec 0 lo), (Z.ltb_spec v lo); cbn [andb]; lia).
  set (w := if 0 <? lo then _ else _). destruct (Z.ltb_spec 0 hi), (Z.ltb_spec hi w); cbn [andb]; lia.
Qed.
Lemma apply_min_max_bounded i : apply_min_max i = set_rect (bounded_rect i (rect i)) i.
Proof.
  unfold apply_min_max, bounded_rect. cbn zeta. f_equal. f_equal; apply bounded_min_max.
Qed.
Lemma clamp_overflow_clip i a : clamp_overflow i (rx a) (ry a) (rw a) (rh a) =
  set_rect (match overflow i with
    | OVERFLOW_CLIP => let r := rect i in let x := Z.max (rx a) (rx r) in let y := Z.max (ry a) (ry r) in
        mkRect x y (Z.min (rw r) (rx a + rw a - x)) (Z.min (rh r) (ry a + rh a - y))
    | _ => rect i end) i.
Proof.
  unfold clamp_overflow. destruct (overflow i) eqn:E; [by destruct i|clear E|by destruct i]. cbn zeta.
  assert (forall u v, (if u <? v then v else u) = Z.max v u) as Hmax by (intros u v; destruct (Z.ltb_spec u v); lia).
  rewrite !Hmax. f_equal. f_equal; match goal with |- context [?a <? ?b] => destruct (Z.ltb_spec a b) end; lia.
Qed.
Lemma compute_anchor_halves i W H : match anchor i with ANCHOR_ABSOLUTE | ANCHOR_RELATIVE => i | _ => compute_anchor i W H end =
  set_rect (let r := rect i in let '(x, y) := match halves (anchor i) with
    | Some (hx, hy) => (Z.quot ((W - rw r) * hx) 2 + anchor_dx i, Z.quot ((H - rh r) * hy) 2 + anchor_dy i)
    | None => (rx r, ry r) end in mkRect x y (rw r) (rh r)) i.
Proof.
  assert (forall v, Z.quot (v * 0) 2 = 0) as H0 by (intros; by rewrite Z.mul_0_r).
  assert (forall v, Z.quot (v * 1) 2 = cdiv v 2) as H1 by (intros; by rewrite Z.mul_1_r).
  assert (forall v, Z.quot (v * 2) 2 = v) as H2 by (intros; by rewrite Z.quot_mul).
  unfold compute_anchor. destruct (anchor i); cbn [halves]; cbv beta iota zeta; rewrite ?H0, ?H1, ?H2; done || (by destruct i as [[] ? ? ? ? ? ? ? ? ? ? ? ? ? ? ? ?]).
Qed.
Lemma own_rect_placed a i : own_rect i (rx a) (ry a) (rw a) (rh a) = placed (own_place a i) i.
Proof.
  unfold own_rect. set (j := if has_target_rect i then _ else _).
  assert (j = placed (if has_target_rect i then target_rect i else rect i) i) as ->.
  { subst j. unfold placed. destruct (has_target_rect i) eqn:E; [done|]. destruct i. cbn in E. by subst. }
  set (r := if has_target_rect i then _ else _). cbn zeta. rewrite compute_anchor_halves, apply_min_max_bounded, clamp_overflow_clip.
  unfold own_place. fold r. cbn [anchor anchor_dx anchor_dy overflow resolved_style rect set_rect placed set_has_target].
  by destruct (match halves (anchor i) with Some _ => _ | None => _ end).
Qed.

Lemma put_at_bounded r c : on_info (fun n => apply_min_max (set_rect r n)) c = put_at r c.
Proof. unfold on_info, put_at. by rewrite apply_min_max_bounded. Qed.

(** *** Grids *)

Lemma layout_grid_cells columns r (a : Rect) ch px : ch <> [] -> let cols := Z.max 1 columns in
  layout_grid columns r ch (rx a) (ry a) (rw a) px =
  (imap (fun k => put_at (cell a cols px (Z.of_nat k))) ch,
   mkRect (rx r) (ry r) (rw a) ((Z.of_nat (length ch) + cols - 1) / cols * (unit_h px + gap_of px) - gap_of px)).
Proof.
  intros Hne cols. unfold layout_grid. destruct ch as [|c0 ch]; [done|].
  assert ((if 0 <? columns then columns else 1) = cols) as -> by (subst cols; destruct (Z.ltb_spec 0 columns); lia).
  assert (0 < cols) as Hc by (subst cols; lia). f_equal.
  - apply imap_ext. intros k c _. unfold grid_cell, cell. rewrite put_at_bounded. unfold cmod, cdiv.
    by rewrite Z.rem_mod_nonneg, (Z.quot_div_nonneg (Z.of_nat k)) by lia.
  - f_equal. unfold cdiv, unit_h, gap_of. rewrite Z.quot_div_nonneg; [done|cbn [length]; lia|lia].
Qed.

(** *** Flex boxes *)

Lemma flex_wanted row px c : flex_child_size row px c = wanted row px c.
Proof.
  unfold flex_child_size, wanted. destruct (u c) as [|[s|]| | | | | | | | | | | | | | | |]; try done;
    destruct (has_target_rect (info c)), (0 <? rw (rect (info c))), row; done.
Qed.
Lemma fixed_sum l acc : foldl (fun acc s => if 0 <? s then acc + s else acc) acc l = acc + foldr Z.add 0 (List.filter (fun w => 0 <? w) l).
Proof. revert acc. induction l as [|w l IH]; intros acc; cbn; [lia|]. rewrite IH. destruct (0 <? w); cbn; lia. Qed.
Lemma growing_count l acc : foldl (fun acc s => if 0 <? s then acc else acc + 1) acc l = acc + Z.of_nat (length l) - Z.of_nat (length (List.filter (fun w => 0 <? w) l)).
Proof. revert acc. induction l as [|w l IH]; intros acc; cbn; [lia|]. rewrite IH. destruct (0 <? w); cbn; lia. Qed.
Lemma least_of least v : (if (0 <? least) && (v <? least) then least else v) = at_least_of least v.
Proof. unfold at_least_of. destruct (Z.ltb_spec 0 least), (Z.ltb_spec v least); cbn; lia. Qed.
Lemma tallest_nonneg rs : 0 <= tallest rs.
Proof. induction rs as [|r rs IH]; unfold tallest in *; cbn [map foldr] in *; lia. Qed.
Lemma tallest_cons r rs : tallest (r :: rs) = Z.max (rh r) (tallest rs).
Proof. done. Qed.

(** The loop from any of its states on: [lx], [pos] and [h] are its variables. *)
Lemma flex_place_chain (row wrap px : bool) b part f ch : f_row f = row -> f_wrap f = wrap -> f_x f = rx b -> f_y f = ry b -> f_w f = rw b -> f_gap f = gap_of px ->
  (forall c, c ∈ ch -> (if row then child_width f (info c) else rw b, child_height f (info c)) = flex_size row px b part c) ->
  forall pos lx h, 0 <= h -> exists rs, flex_place f ch pos lx h = (zip_with (fun r c => on_info (set_rect r) c) rs ch, Z.max h (tallest rs)) /\ length rs = length ch /\
    (forall k c r, ch !! k = Some c -> rs !! k = Some r -> (rw r, rh r) = flex_size row px b part c) /\
    (forall r, rs !! 0%nat = Some r -> (rx r, ry r) =
      if row then (if wrap && (rx b + rw b <? lx + rw r) && (rx b <? lx) then (rx b, ry b + h + gap_of px) else (lx, pos)) else (rx b, lx)) /\
    (forall k r q, rs !! k = Some r -> rs !! S k = Some q -> (rx q, ry q) =
      if row then
        let x := rx r + rw r + gap_of px in
        if wrap && (rx b + rw b <? x + rw q) && (rx b <? x) then (rx b, ry b + Z.max h (tallest (take (S k) rs)) + gap_of px) else (x, ry r)
      else (rx b, ry r + rh r + gap_of px)).
Proof.
  intros E1 E2 E3 E4 E5 E6. induction ch as [|c ch IH]; intros Hs pos lx h Hh; [exists []; split_and!; [cbn; f_equal; lia|done..]|].
  cbn [flex_place]. rewrite E1, E2, E3, E4, E5, E6. set (w := child_width f (info c)). set (hc := child_height f (info c)).
  assert ((if h <? hc then hc else h) = Z.max h hc) as -> by (destruct (Z.ltb_spec h hc); lia).
  pose proof (Hs c (list_elem_of_here c ch)) as Hc. fold w hc in Hc.
  set (wraps := wrap && row && (rx b + rw b <? lx + w) && (rx b <? lx)). set (pos1 := if wraps then _ else pos). set (lx1 := if wraps then rx b else lx).
  destruct (IH (fun c' Hc' => Hs c' (list_elem_of_further c' c ch Hc')) pos1 (lx1 + (if row then w else hc) + gap_of px) (Z.max h hc)) as (rs & -> & Hlen & Hsz & Hhd & Hch); [lia|].
  exists ((if row then mkRect lx1 pos1 w hc else mkRect (rx b) lx1 (rw b) hc) :: rs). set (r := if row then mkRect lx1 pos1 w hc else _).
  assert (rw r = (if row then w else rw b) /\ rh r = hc) as [Hrw Hrh] by (subst r; by destruct row). split_and!.
  - cbn [zip_with]. f_equal. rewrite tallest_cons, Hrh. lia.
  - cbn. by rewrite Hlen.
  - intros [|k] c' r' Hk Hr'; cbn in Hk, Hr'; [|by eapply Hsz]. injection Hk as <-. injection Hr' as <-. by rewrite Hrw, Hrh.
  - intros r' [= <-]. subst r. destruct row; cbn [rx ry rw]; [|subst lx1 wraps; by rewrite andb_false_r]. subst pos1 lx1 wraps. rewrite andb_true_r.
    case_match; case_match; try reflexivity; exfalso; congruence.
  - intros [|k] r' q Hr' Hq; cbn in Hr', Hq.
    + injection Hr' as <-. rewrite (Hhd q Hq). subst r. destruct row; cbn [rx ry rw]; [|done]. cbn zeta.
      change (tallest (take 1 (mkRect lx1 pos1 w hc :: rs))) with (Z.max hc 0). by replace (Z.max h (Z.max hc 0)) with (Z.max h hc) by lia.
    + rewrite (Hch k r' q Hr' Hq). destruct row; [|done]. cbn zeta. change (take (S (S k)) (r :: rs)) with (r :: take (S k) rs).
      rewrite tallest_cons, Hrh. by replace (Z.max (Z.max h hc) (tallest (take (S k) rs))) with (Z.max h (Z.max hc (tallest (take (S k) rs)))) by lia.
Qed.

Lemma layout_flex_rects d wr (r a : Rect) ch px : ch <> [] ->
  let row := negb (bool_decide (d = Some "column"%string)) in
  exists rs, flexed row (bool_decide (wr = Some "wrap"%string)) px a ch rs /\
    layout_flex d wr r ch (rx a) (ry a) (rw a) (rh a) px =
    (zip_with put_at rs ch, mkRect (rx r) (ry r) (rw a) (if row then ry a + tallest rs + gap_of px - ry r else rh a)).
Proof.
  intros Hne row. assert (forall o w, is_word o w = bool_decide (o = Some w)) as Hword.
  { intros [s0|] w; cbn; [|by rewrite bool_decide_false]. apply bool_decide_ext. split; [by intros ->|by intros [= ->]]. }
  unfold layout_flex. destruct ch as [|c0 ch0]; [done|]. set (ch := c0 :: ch0) in *. rewrite !Hword. fold row. cbn zeta.
  set (f := mkFlex _ _ _ _ _ _ _ _ _ _).
  destruct (flex_place_chain row (bool_decide (wr = Some "wrap"%string)) px a (share row px a ch) f ch) with (pos := if row then rx a else ry a) (lx := if row then rx a else ry a) (h := 0)
    as (rs & -> & Hlen & Hsz & Hhd & Hch); try done.
  { intros c _. unfold flex_size, child_width, child_height. rewrite !least_of. subst f. cbn [f_grow f_avail f_count f_row_h].
    assert (forall (b0 : bool) (q1 q2 : Rect), (if b0 then rh q1 else rh q2) = rh (if b0 then q1 else q2)) as Eh by (by intros []).
    assert (forall (b0 : bool) (q1 q2 : Rect), (if b0 then rw q1 else rw q2) = rw (if b0 then q1 else q2)) as Ew by (by intros []).
    rewrite Eh, Ew. f_equal. destruct row; [|reflexivity]. f_equal. destruct (_ <=? 0); [|reflexivity]. unfold share, cdiv. cbn zeta.
    rewrite fixed_sum, growing_count, length_map, (map_ext _ _ (flex_wanted true px)), !Z.add_0_l. reflexivity. }
  exists rs. split.
  - split_and!; [done|done| |].
    + intros q Hq. rewrite (Hhd q Hq). destruct row; [|done]. by rewrite Z.ltb_irrefl, andb_false_r.
    + intros k q q' Hq Hq'. rewrite (Hch k q q' Hq Hq'). unfold next_place. destruct row; [|done]. cbn zeta.
      by rewrite Z.max_r by apply tallest_nonneg.
  - rewrite Z.max_r by apply tallest_nonneg. f_equal; [|by destruct row].
    clear. generalize ch. clear ch c0 ch0. induction rs as [|q rs IH]; intros [|c ch]; [done..|]. cbn [zip_with map]. apply (f_equal2 cons); [exact (put_at_bounded q c)|apply IH].
Qed.

(** *** The pass *)

Lemma at_index_Done {A} (o : option A) c : at_index o = Done c -> o = Some c.
Proof. by destruct o as [x|]; [intros [= ->]|]. Qed.

Lemma relative_beside ch c : relative_start ch c = beside ch c.
Proof.
  unfold relative_start, beside, find_relative. destruct (relative_to (info c)) as [n|] eqn:E; [|done].
  assert (forall l, List.find (fun q => is_word (style_class (info q)) n) l = List.find (fun q => bool_decide (style_class (info q) = Some n)) l) as ->.
  { intros l. induction l as [|q l IH]; [done|]. cbn [List.find]. rewrite IH. destruct (style_class (info q)) as [s0|]; cbn [is_word]; [|by rewrite bool_decide_false].
    by rewrite (bool_decide_ext (s0 = n) (Some s0 = Some n)) by (split; [by intros ->|by intros [= ->]]). }
  cbn [mbind option_bind]. destruct (List.find _ ch) as [q|]; [|done]. unfold on_info. cbn [info u]. f_equal.
  unfold set_rect, move_rect. cbn. f_equal. f_equal; lia.
Qed.

Lemma line_sizes_longer p n s : 0 < p -> broken p (line_sizes (n + p) s) = 1 + broken p (line_sizes n s).
Proof.
  intros Hp. revert n. induction s as [|c s IH]; intros n; cbn [line_sizes].
  - unfold broken. cbn. replace (n + p) with (n + 1 * p) by lia. rewrite Z.div_add by lia. lia.
  - destruct (Ascii.eqb c "010").
    + unfold broken. cbn [map foldr]. replace (n + p) with (n + 1 * p) by lia. rewrite Z.div_add by lia. lia.
    + replace (n + p + 1) with (n + 1 + p) by lia. apply IH.
Qed.
Lemma text_lines_broken per s : let p := Z.max 1 per in forall lines col, 0 <= col < p -> text_lines per s lines col = lines - 1 + broken p (line_sizes col s).
Proof.
  intros p. induction s as [|c s IH]; intros lines col Hc; cbn [text_lines line_sizes].
  - unfold broken. cbn. rewrite Z.div_small by done. lia.
  - destruct (Ascii.eqb c "010").
    + rewrite IH by lia. unfold broken. cbn [map foldr]. rewrite Z.div_small by done. lia.
    + destruct (Z.leb_spec per (col + 1)).
      * assert (col + 1 = 0 + p) as -> by lia. rewrite line_sizes_longer, IH by lia. lia.
      * rewrite IH by lia. done.
Qed.
Lemma stacked_height_content c w px : stacked_height c w (unit_h px) px = content_height px w c.
Proof.
  unfold stacked_height, content_height. destruct (u c) as [|[s|]| | | | | | | | | | | | | | | |]; cbn zeta; try done; try lia.
  - unfold measure_text_height, cdiv. destruct (Z.leb_spec w 0); [lia|]. destruct px.
    + set (cw := Z.quot _ 2). assert ((if cw <=? 0 then 1 else cw) = Z.max 1 cw) as -> by (destruct (Z.leb_spec cw 0); lia).
      rewrite text_lines_broken by lia. rewrite Z.quot_div_nonneg by lia. lia.
    + change (if 1 <=? 0 then 1 else 1) with 1. rewrite text_lines_broken by lia. rewrite Z.quot_div_nonneg by lia. lia.
  - destruct (Nat.ltb_spec 0 (length items)); [rewrite Z.max_r by lia; lia|]. rewrite Z.max_l by lia. lia.
Qed.

Lemma layout_children_stacked (f : RenderTree -> Z -> Z -> Z -> Z -> exec RenderTree) b px :
  (forall c a c', f c (rx a) (ry a) (rw a) (rh a) = Done c' -> Laid px a c c') ->
  forall order ch y ch', layout_children f (rx b) (ry b) (rw b) (rh b) px order ch y = Done ch' -> Stacked px b order ch y ch'.
Proof.
  intros Hf. induction order as [|k order IH]; intros ch y ch' H; cbn [layout_children] in H; [injection H as <-; constructor|].
  apply exec_bind_Done in H as (c & Hc & H). apply at_index_Done in Hc.
  destruct (decide (anchor (info c) = ANCHOR_ABSOLUTE)) as [Ea|Ha]; [|destruct (decide (anchor (info c) = ANCHOR_RELATIVE)) as [Er|Hr]].
  - rewrite Ea in H. apply exec_bind_Done in H as (c' & Hc' & H). eapply stacked_absolute; [done|done|by apply Hf|by apply IH].
  - rewrite Er in H. apply exec_bind_Done in H as (c' & Hc' & H). rewrite relative_beside in Hc'. eapply stacked_relative; [done|done|by apply Hf|by apply IH].
  - assert (halves (anchor (info c)) <> None) as Hh by (by destruct (anchor (info c))).
    assert (exists c', f (on_info (set_rect (mkRect (rx b) y (rw b) (stacked_height c (rw b) (unit_h px) px))) c) (rx b) y (rw b) (stacked_height c (rw b) (unit_h px) px) = Done c' /\
      layout_children f (rx b) (ry b) (rw b) (rh b) px order (<[k := c']> ch) (y + rh (rect (info c'))) = Done ch') as (c' & Hc' & H').
    { destruct (anchor (info c)); try done; apply exec_bind_Done in H as (c' & Hc' & H); by exists c'. }
    eapply stacked_row; [done|done|apply Hf; rewrite stacked_height_content in Hc'; exact Hc'|by apply IH].
Qed.
Lemma opt_laid px (f : RenderTree -> exec RenderTree) b o o' : (forall c c', f c = Done c' -> Laid px b c c') -> opt_layout f o = Done o' -> LaidOpt px b o o'.
Proof.
  intros Hf H. destruct o as [c|]; cbn [opt_layout] in H; [|injection H as <-; constructor].
  apply exec_bind_Done in H as (c' & Hc & H). injection H as <-. constructor. by apply Hf.
Qed.

Lemma layout_node_laid px fuel : forall a t t', layout_node fuel px t (rx a) (ry a) (rw a) (rh a) = Done t' -> Laid px a t t'.
Proof.
  induction fuel as [|fuel IH]; intros a t t' H; [done|]. cbn [layout_node] in H.
  destruct (Z.leb_spec (rw a) 0); [injection H as <-; apply laid_nowhere; by left|].
  destruct (Z.leb_spec (rh a) 0); [injection H as <-; apply laid_nowhere; by right|]. cbn [orb] in H. rewrite own_rect_placed in H.
  destruct t as [i c]. cbn [info u] in H. set (r := own_place a i) in *. change (rect (placed r i)) with r in H.
  set (b := content_area a i). change (rx a + rx r) with (rx b) in H. change (ry a + ry r) with (ry b) in H.
  change (rw r) with (rw b) in H. change (rh r) with (rh b) in H.
  destruct c as [bg bd p ch| | | | | | | | | | |ls ac o|[] s1 s2 o1 o2 o3|d wr j al ch|cs rs ch| | |];
    try (injection H as <-; by apply laid_leaf).
  - apply exec_bind_Done in H as (ch' & Hch & H). injection H as <-. apply laid_container; [done|done|].
    eapply layout_children_stacked; [|exact Hch]. intros q a' q'. apply IH.
  - apply exec_bind_Done in H as (o' & Ho & H). injection H as <-. apply laid_tabs; [done|done|].
    eapply opt_laid; [|exact Ho]. intros q q'. apply (IH (mkRect (rx b) (ry b + unit_h px) (rw b) (rh b - unit_h px))).
  - apply exec_bind_Done in H as (o1' & Ho1 & H). apply exec_bind_Done in H as (o2' & Ho2 & H). injection H as <-. apply laid_columns; [done|done|..].
    + eapply opt_laid; [|exact Ho1]. intros q q'. apply (IH (mkRect (rx b) (ry b) (if 0 <? s1 then s1 else Z.quot (rw b) 2) (rh b))).
    + eapply opt_laid; [|exact Ho2]. intros q q'. apply (IH (mkRect (rx b + (if 0 <? s1 then s1 else Z.quot (rw b) 2) + 1) (ry b) (rw b - (if 0 <? s1 then s1 else Z.quot (rw b) 2) - 1) (rh b))).
  - apply exec_bind_Done in H as (o1' & Ho1 & H). apply exec_bind_Done in H as (o2' & Ho2 & H). injection H as <-. apply laid_rows; [done|done|..].
    + eapply opt_laid; [|exact Ho1]. intros q q'. apply (IH (mkRect (rx b) (ry b) (rw b) (if 0 <? s1 then s1 else Z.quot (rh b) 2))).
    + eapply opt_laid; [|exact Ho2]. intros q q'. apply (IH (mkRect (rx b) (ry b + (if 0 <? s1 then s1 else Z.quot (rh b) 2) + 1) (rw b) (rh b - (if 0 <? s1 then s1 else Z.quot (rh b) 2) - 1))).
  - destruct (decide (ch = [])) as [->|Hne]; [injection H as <-; by apply laid_flex_empty|].
    destruct (layout_flex_rects d wr r b ch px Hne) as (rs & Hrs & E). rewrite E in H. injection H as <-.
    apply (laid_flex px a i d wr j al ch rs); done.
  - destruct (decide (ch = [])) as [->|Hne]; [injection H as <-; by apply laid_grid_empty|].
    pose proof (layout_grid_cells cs r b ch px Hne) as E. cbn zeta in E. rewrite E in H. injection H as <-. by apply laid_grid.
Qed.

(** C22: the layout of any tree on any surface ends, and the tree it leaves is the
    one the specification [Laid] describes. On a surface without room nothing
    changes; otherwise the root gets the whole surface. A node in an area without
    room is left as it is. Any other node takes its target rectangle, if it has
    one, or its own; an anchor other than absolute and relative then aligns it
    inside the area's size, counted from zero (so that a child of a container is
    moved back from its row); its style's limits bound it, and it is cut to the area
    when it clips. The children of a container, in the order [qsort] gives for
    their z-index, stand at their own place, at a place beside the sibling they
    name, or below one another, each as high as its content; a tab's child has the
    space below the titles; split panes are given the two sides. The children of
    a grid are put in its cells and those of a flex box in its lines, and they
    are not laid out themselves. Only rectangles change, and the mark of a target
    rectangle, which is cleared once it is used. Coordinates are unbounded
    integers, and [qsort] any function that returns a permutation. *)
Theorem layout_tree_places (t : RenderTree) (surface_w surface_h : Z) (is_pixel : bool) :
  exists t', layout_tree (Some t) surface_w surface_h is_pixel = Done (Some t') /\
    (surface_w <= 0 \/ surface_h <= 0 -> t' = t) /\
    (0 < surface_w -> 0 < surface_h ->
      let all := mkRect 0 0 surface_w surface_h in Laid is_pixel all (mkTree (set_rect all (info t)) (u t)) t').
Proof.
  destruct (layout_total t surface_w surface_h is_pixel) as (t' & H & _). exists t'. split; [done|]. unfold layout_tree in H.
  destruct (Z.leb_spec surface_w 0); [injection H as <-; split; [done|lia]|].
  destruct (Z.leb_spec surface_h 0); [injection H as <-; split; [done|lia]|]. cbn [orb] in H.
  split; [lia|]. intros _ _. apply exec_bind_Done in H as (t2 & H & E). injection E as ->. by apply (layout_node_laid _ _ (mkRect 0 0 surface_w surface_h)) in H.
Qed.
End layout.

(** ** Geometry *)

(** No style limit, so that [apply_min_max] keeps the rectangle. *)
Definition unconstrained (i : NodeInfo) : Prop :=
  let ws := resolved_style i in min_width ws = 0 /\ min_height ws = 0 /\ max_width ws = 0 /\ max_height ws = 0.

Lemma apply_min_max_id i : unconstrained i -> rect (apply_min_max i) = rect i.
Proof.
  intros (H1 & H2 & H3 & H4). unfold apply_min_max. rewrite H1, H2, H3, H4. cbn. by destruct (rect i).
Qed.

Definition before_or_above (gap : Z) (a b : Rect) : Prop := rx a + rw a + gap <= rx b \/ ry a + rh a + gap <= ry b.
Definition apart (gap : Z) (a b : Rect) : Prop := before_or_above gap a b \/ before_or_above gap b a.

Lemma grid_index i cols : 0 < cols -> 0 <= i -> cmod i cols = i mod cols /\ cdiv i cols = i / cols.
Proof. intros. split; [apply Z.rem_mod_nonneg | apply Z.quot_div_nonneg]; lia. Qed.

(** the cells of a grid lie side by side: inside the width and the height
    the grid takes, and apart from each other by the gap. *)
Theorem layout_grid_apart columns r children off_x off_y max_w (is_pixel : bool) :
  let gap := if is_pixel then 8 else 1 in
  let '(cells, box) := layout_grid columns r children off_x off_y max_w is_pixel in
  0 < columns -> columns + gap * (columns - 1) <= max_w -> Forall (fun c => unconstrained (info c)) children ->
  length cells = length children /\
  (forall i a, cells !! i = Some a ->
     let q := rect (info a) in
     0 < rw q /\ off_x <= rx q /\ rx q + rw q <= off_x + max_w /\ off_y <= ry q /\ ry q + rh q <= off_y + rh box) /\
  (forall i j a b, i <> j -> cells !! i = Some a -> cells !! j = Some b -> apart gap (rect (info a)) (rect (info b))).
Proof.
  intros gap. destruct children as [|c0 ch]; [by intros; repeat split|].
  unfold layout_grid. generalize (c0 :: ch) as l; clear c0 ch. intros l Hc Hw Hu.
  rewrite (proj2 (Z.ltb_lt 0 columns)) by done. fold gap. set (row_h := if is_pixel then 30 else 1).
  assert (0 < gap /\ 0 < row_h) as [Hg Hr] by (unfold gap, row_h; destruct is_pixel; lia).
  set (cell_w := cdiv (max_w - gap * (columns - 1)) columns).
  assert (0 < cell_w /\ columns * cell_w <= max_w - gap * (columns - 1)) as [Hcw0 Hcw].
  { unfold cell_w, cdiv. rewrite Z.quot_div_nonneg by lia. split; [apply Z.div_str_pos; lia|apply Z.mul_div_le; lia]. }
  set (rows := cdiv (Z.of_nat (length l) + columns - 1) columns).
  assert (forall i a, imap (grid_cell columns cell_w row_h gap off_x off_y) l !! i = Some a ->
    rect (info a) = mkRect (off_x + Z.of_nat i mod columns * (cell_w + gap)) (off_y + Z.of_nat i / columns * (row_h + gap)) cell_w row_h /\
    (i < length l)%nat) as Hcell.
  { intros i a Ha. pose proof (lookup_lt_Some _ _ _ Ha) as Hlt. rewrite length_imap in Hlt.
    rewrite list_lookup_imap in Ha. destruct (l !! i) as [c|] eqn:Hi; [|done]. injection Ha as <-.
    unfold grid_cell. destruct (grid_index (Z.of_nat i) columns Hc ltac:(lia)) as [-> ->]. cbn [on_info info].
    rewrite apply_min_max_id; [done|]. rewrite list.Forall_forall in Hu. apply (Hu c). by eapply list_elem_of_lookup_2. }
  split; [by rewrite length_imap|]. split.
  - intros i a Ha. destruct (Hcell i a Ha) as [-> Hi]. cbn [rx ry rw rh].
    pose proof (Z.mod_pos_bound (Z.of_nat i) columns Hc). pose proof (Z.div_pos (Z.of_nat i) columns ltac:(lia) Hc).
    assert (Z.of_nat i / columns + 1 <= rows) as Hrow.
    { unfold rows, cdiv. rewrite Z.quot_div_nonneg by lia.
      replace (Z.of_nat (length l) + columns - 1) with (Z.of_nat (length l) - 1 + 1 * columns) by lia.
      rewrite Z.div_add by lia. pose proof (Z.div_le_mono (Z.of_nat i) (Z.of_nat (length l) - 1) columns Hc ltac:(lia)). lia. }
    repeat split; nia.
  - intros i j a b Hij Ha Hb. destruct (Hcell i a Ha) as [-> _]. destruct (Hcell j b Hb) as [-> _].
    unfold apart, before_or_above. cbn [rx ry rw rh].
    pose proof (Z.div_mod (Z.of_nat i) columns ltac:(lia)). pose proof (Z.div_mod (Z.of_nat j) columns ltac:(lia)).
    destruct (Z.lt_trichotomy (Z.of_nat i / columns) (Z.of_nat j / columns)) as [H1|[H1|H1]]; [left; right; nia| |right; right; nia].
    destruct (Z.lt_trichotomy (Z.of_nat i mod columns) (Z.of_nat j mod columns)) as [H2|[H2|H2]];
      [left; left; nia| |right; left; nia].
    exfalso. apply Hij. rewrite H1, H2 in *. lia.
Qed.

Lemma flex_place_rects f ch pos line_pos line_h : f_wrap f = false ->
  let l := (flex_place f ch pos line_pos line_h).1 in
  (forall i a, l !! i = Some a -> (if f_row f then ry (rect (info a)) = pos else rx (rect (info a)) = f_x f)) /\
  (forall a, l !! 0%nat = Some a -> (if f_row f then rx (rect (info a)) else ry (rect (info a))) = line_pos) /\
  (forall i a, l !! i = Some a -> exists c, ch !! i = Some c /\ resolved_style (info a) = resolved_style (info c) /\
     (if f_row f then rw (rect (info a)) = child_width f (info c) else rh (rect (info a)) = child_height f (info c))) /\
  (forall i a b, l !! i = Some a -> l !! S i = Some b ->
     if f_row f then rx (rect (info b)) = rx (rect (info a)) + rw (rect (info a)) + f_gap f
     else ry (rect (info b)) = ry (rect (info a)) + rh (rect (info a)) + f_gap f).
Proof.
  intros Hw. revert pos line_pos line_h. induction ch as [|c ch IH]; intros pos line_pos line_h; [done|].
  cbn [flex_place]. rewrite Hw. cbn [andb].
  match goal with |- context [flex_place f ch ?a ?b ?d] => specialize (IH a b d); destruct (flex_place f ch a b d) as [r l] end.
  cbn [fst] in *. destruct IH as (H1 & H2 & H3 & H4). split; [|split; [|split]].
  - intros [|i] a Ha; cbn in Ha; [|by apply (H1 i a)]. injection Ha as <-. by destruct (f_row f).
  - intros a Ha. cbn in Ha. injection Ha as <-. by destruct (f_row f).
  - intros [|i] a Ha; cbn in Ha; [|by apply (H3 i a)]. injection Ha as <-. exists c. split; [done|]. split; [done|]. by destruct (f_row f).
  - intros [|i] a b Ha Hb; cbn in Ha, Hb; [|by apply (H4 i a b)]. injection Ha as <-. specialize (H2 b Hb).
    destruct (f_row f); cbn [on_info info set_rect rect rx ry rw rh] in *; lia.
Qed.

Lemma child_width_min f i : 0 < min_width (resolved_style i) -> min_width (resolved_style i) <= child_width f i.
Proof. unfold child_width. set (w := if _ <=? 0 then _ else _). destruct (Z.ltb_spec 0 (min_width (resolved_style i))), (Z.ltb_spec w (min_width (resolved_style i))); cbn; lia. Qed.
Lemma child_height_min f i : 0 < min_height (resolved_style i) -> min_height (resolved_style i) <= child_height f i.
Proof. unfold child_height. set (w := if _ <=? 0 then _ else _). destruct (Z.ltb_spec 0 (min_height (resolved_style i))), (Z.ltb_spec w (min_height (resolved_style i))); cbn; lia. Qed.

(** Growing to a minimum was done before: the last step only shrinks. *)
Lemma apply_min_max_shrinks f i c : resolved_style i = resolved_style (info c) ->
  (if f_row f then rw (rect i) = child_width f (info c) else rh (rect i) = child_height f (info c)) ->
  let i' := apply_min_max i in rx (rect i') = rx (rect i) /\ ry (rect i') = ry (rect i) /\
    (if f_row f then rw (rect i') <= rw (rect i) else rh (rect i') <= rh (rect i)).
Proof.
  intros Hs Hw. unfold apply_min_max. cbn [set_rect rect rx ry rw rh]. split; [done|]. split; [done|].
  pose proof (child_width_min f (info c)). pose proof (child_height_min f (info c)). rewrite Hs.
  destruct (f_row f); rewrite Hw;
  repeat match goal with |- context [?a <? ?b] => destruct (Z.ltb_spec a b) end; cbn [andb] in *; lia.
Qed.

(** the children of a flex box that does not wrap follow each other along
    the main axis, apart by at least the gap, whatever their limits. In a row
    the cross coordinate is the x offset of the box: the code starts [pos] at
    [off_x] and then uses it as y. *)
Theorem layout_flex_in_order direction wrap r children off_x off_y max_w max_h (is_pixel : bool) :
  let gap := if is_pixel then 8 else 1 in
  let is_row := negb (is_word direction "column") in
  let placed := (layout_flex direction wrap r children off_x off_y max_w max_h is_pixel).1 in
  is_word wrap "wrap" = false ->
  (forall i a b, placed !! i = Some a -> placed !! S i = Some b ->
     if is_row then rx (rect (info a)) + rw (rect (info a)) + gap <= rx (rect (info b))
     else ry (rect (info a)) + rh (rect (info a)) + gap <= ry (rect (info b))) /\
  (forall a, placed !! 0%nat = Some a -> if is_row then rx (rect (info a)) = off_x else ry (rect (info a)) = off_y) /\
  (forall i a, placed !! i = Some a -> if is_row then ry (rect (info a)) = off_x else rx (rect (info a)) = off_x).
Proof.
  intros gap is_row placed Hw. destruct children as [|c0 ch]; [done|]. unfold placed, layout_flex. fold is_row. clear placed.
  match goal with |- context [flex_place ?f ?l ?p ?q ?h] => set (F := f); pose proof (flex_place_rects F l p q h Hw) as H; destruct (flex_place F l p q h) as [x y] end.
  cbn [fst] in *. destruct H as (H1 & H2 & H3 & H4). change (f_row F) with is_row in *. change (f_gap F) with gap in *. change (f_x F) with off_x in *.
  assert (forall i a, map (on_info apply_min_max) x !! i = Some a -> exists a', x !! i = Some a' /\
    rx (rect (info a)) = rx (rect (info a')) /\ ry (rect (info a)) = ry (rect (info a')) /\
    (if is_row then rw (rect (info a)) <= rw (rect (info a')) else rh (rect (info a)) <= rh (rect (info a')))) as Hm.
  { intros i a Ha. change (map (on_info apply_min_max) x) with (on_info apply_min_max <$> x) in Ha. rewrite list_lookup_fmap in Ha.
    destruct (x !! i) as [a'|] eqn:Hx; [|done]. injection Ha as <-. exists a'. split; [done|].
    destruct (H3 i a' Hx) as (c & _ & Hs & Hwd). exact (apply_min_max_shrinks F (info a') c Hs Hwd). }
  split; [|split].
  - intros i a b Ha Hb. destruct (Hm _ _ Ha) as (a' & Ha' & Hax & Hay & Hsz). destruct (Hm _ _ Hb) as (b' & Hb' & Hbx & Hby & _).
    specialize (H4 i a' b' Ha' Hb'). destruct is_row; lia.
  - intros a Ha. destruct (Hm _ _ Ha) as (a' & Ha' & Hax & Hay & Hsz). specialize (H2 a' Ha'). destruct is_row; lia.
  - intros i a Ha. destruct (Hm _ _ Ha) as (a' & Ha' & Hax & Hay & Hsz). specialize (H1 i a' Ha'). destruct is_row; lia.
Qed.

(** ** Stacked children *)

Section overlap.
Context (qsort : list Z -> list nat).
Hypothesis qsort_perm : forall ks, qsort ks ≡ₚ seq 0 (length ks).

(** A node as the widgets make them: [memset] leaves the anchor at the top left. *)
Definition plain (i : NodeInfo) : Prop :=
  anchor i = ANCHOR_TOP_LEFT /\ anchor_dx i = 0 /\ anchor_dy i = 0 /\ has_target_rect i = false /\ overflow i <> OVERFLOW_CLIP.

Definition at_origin (t : RenderTree) : Prop := rx (rect (info t)) = 0 /\ ry (rect (info t)) = 0.

Lemma own_rect_origin i x y w h : plain i -> rx (rect (own_rect i x y w h)) = 0 /\ ry (rect (own_rect i x y w h)) = 0.
Proof.
  intros (Ha & Hx & Hy & Ht & Ho). unfold own_rect. rewrite Ht, Ha. unfold compute_anchor. rewrite Ha, Hx, Hy.
  unfold clamp_overflow. cbn [apply_min_max set_rect overflow]. by destruct (overflow i).
Qed.

Lemma layout_node_origin fuel px t x y w h t' : plain (info t) -> 0 < w -> 0 < h ->
  layout_node qsort fuel px t x y w h = Done t' -> at_origin t'.
Proof.
  intros Hp Hw Hh. destruct fuel as [|fuel]; [done|]. cbn [layout_node].
  rewrite (proj2 (Z.leb_gt _ _)), (proj2 (Z.leb_gt _ _)) by lia. cbn [orb].
  pose proof (own_rect_origin (info t) x y w h Hp) as Ho. set (i := own_rect _ _ _ _ _) in *.
  assert (forall c, Done (mkTree i c) = Done t' -> at_origin t') as Hi by (intros c [= <-]; exact Ho).
  assert (forall A (m : exec A) k, m ≫= k = Done t' -> (forall a, k a = Done t' -> at_origin t') -> at_origin t') as Hb.
  { intros A m k (a & _ & H)%exec_bind_Done Hk. by apply (Hk a). }
  destruct (u t); try apply Hi.
  - intros H. eapply Hb; [exact H|]. intros ? Hz; exact (Hi _ Hz).
  - intros H. eapply Hb; [exact H|]. intros ? Hz; exact (Hi _ Hz).
  - destruct orientation; intros H; (eapply Hb; [exact H|]); intros ? H1; (eapply Hb; [exact H1|]); intros ? Hz; exact (Hi _ Hz).
  - destruct children; cbn [layout_flex]; [intros [= <-]; exact Ho|].
    destruct (flex_place _ _ _ _ _) as [l1 lh]. intros [= <-]. destruct (negb _); exact Ho.
  - destruct children; cbn [layout_grid]; intros [= <-]; exact Ho.
Qed.

Lemma layout_children_origin f x y w h (px : bool) order :
  (forall c a b d e c', plain (info c) -> 0 < d -> 0 < e -> f c a b d e = Done c' -> at_origin c') -> 0 < w ->
  forall ch cur_y ch', NoDup order ->
  (forall j c, j ∈ order -> ch !! j = Some c -> plain (info c) /\ 0 < stacked_height c w (if px then 30 else 1) px) ->
  layout_children f x y w h px order ch cur_y = Done ch' ->
  forall j c', ch' !! j = Some c' -> (j ∈ order -> at_origin c') /\ (j ∉ order -> ch !! j = Some c').
Proof.
  intros Hf Hw. induction order as [|k order IH]; intros ch cur_y ch' Hnd Hp.
  { intros [= ->] j c' Hj. split; [by intros ?%elem_of_nil|done]. }
  apply list.NoDup_cons in Hnd as [Hk Hnd]. cbn [layout_children].
  destruct (ch !! k) as [c|] eqn:Hc; [|done]. cbn [at_index mbind exec_bind].
  destruct (Hp k c) as [Hpc Hhc]; [left|done|]. pose proof Hpc as (Ha & _). rewrite Ha.
  destruct (f _ _ _ _ _) as [c1| |] eqn:Hf1; [|done|done]. cbn [mbind exec_bind]. intros Hrest j c' Hj.
  apply Hf in Hf1; [|exact Hpc|done|done].
  assert (forall j' d, j' ∈ order -> <[k := c1]> ch !! j' = Some d ->
    plain (info d) /\ 0 < stacked_height d w (if px then 30 else 1) px) as Hp'.
  { intros j' d Hj' Hd. rewrite list_lookup_insert_ne in Hd; [|intros E; apply Hk; by rewrite E].
    apply (Hp j' d); [by right|done]. }
  destruct (IH _ _ _ Hnd Hp' Hrest j c' Hj) as [H1 H2].
  destruct (decide (j = k)) as [->|Hjk].
  - split; [|intros H; exfalso; apply H; left]. intros _. specialize (H2 Hk).
    rewrite list_lookup_insert_eq in H2 by (by eapply lookup_lt_Some). by injection H2 as <-.
  - split.
    + intros [->|?]%elem_of_cons; [done|by apply H1].
    + intros H%not_elem_of_cons. specialize (H2 (proj2 H)). by rewrite list_lookup_insert_ne in H2.
Qed.

(** a container gives its stacked children their rows one below the other
    and then lays each out with the default anchor, which puts it back at the
    top left: after the pass every child's rectangle starts at the origin of
    the container, so they lie on top of each other. *)
Theorem container_children_overlap bg b insets children surface_w surface_h (is_pixel : bool) t' :
  0 < surface_w -> 0 < surface_h ->
  Forall (fun c => plain (info c) /\ 0 < stacked_height c surface_w (if is_pixel then 30 else 1) is_pixel) children ->
  layout_tree qsort (Some (mkTree info_zero (RNODE_CONTAINER bg b insets children))) surface_w surface_h is_pixel = Done (Some t') ->
  length (stack_children (u t')) = length children /\ Forall at_origin (stack_children (u t')).
Proof.
  intros Hw Hh Hch. unfold layout_tree. rewrite (proj2 (Z.leb_gt _ _)), (proj2 (Z.leb_gt _ _)) by lia. cbn [orb].
  set (t := mkTree info_zero _). destruct (height t) as [|fuel] eqn:Hht; [done|].
  cbn [layout_node on_info info u t]. rewrite (proj2 (Z.leb_gt _ _)), (proj2 (Z.leb_gt _ _)) by lia. cbn [orb].
  set (i := own_rect _ _ _ _ _).
  assert (rect i = mkRect 0 0 surface_w surface_h) as Hi by done. rewrite Hi. cbn [rx ry rw rh].
  destruct (layout_children _ _ _ _ _ _ _ _ _) as [ch'| |] eqn:Hl; [|done|done]. cbn [mbind exec_bind]. intros [= <-]. cbn [u stack_children].
  assert (length ch' = length children) as Hlen.
  { assert (Forall (fun c => (height c <= fuel)%nat) children) as Hle.
    { apply list.Forall_forall. intros c Hc. pose proof (height_kid t c Hc). lia. }
    destruct (layout_children_keeps _ fuel (0 + 0) (0 + 0) surface_w surface_h is_pixel (qsort (map (fun c => z_index (info c)) children))
      (layout_node_keeps qsort qsort_perm fuel is_pixel) children (0 + 0) Hle) as (ch2 & H2 & Hsk).
    - rewrite qsort_perm, length_map. apply list.Forall_forall. intros j Hj%elem_of_seq. lia.
    - rewrite Hl in H2. injection H2 as <-. apply (f_equal length) in Hsk. by rewrite !length_map in Hsk. }
  split; [done|]. apply list.Forall_forall. intros c' Hc'. apply list_elem_of_lookup in Hc' as [j Hj].
  assert (j ∈ qsort (map (fun c => z_index (info c)) children)) as Hin.
  { rewrite qsort_perm, length_map. apply elem_of_seq. apply lookup_lt_Some in Hj. lia. }
  eapply layout_children_origin in Hl; [by apply Hl| |done| | |exact Hj].
  - intros ??????. apply layout_node_origin.
  - rewrite qsort_perm. apply NoDup_seq.
  - intros k c _ Hk. rewrite list.Forall_forall in Hch. apply (Hch c). by eapply list_elem_of_lookup_2.
Qed.
End overlap.

(** ** At concrete inputs *)

(** Insertion sort of the positions by key. *)
Fixpoint insert_key (k : Z) (j : nat) (l : list (Z * nat)) : list (Z * nat) :=
  match l with [] => [(k, j)] | (k', j') :: l' => if k <? k' then (k, j) :: l else (k', j') :: insert_key k j l' end.
Definition sort_keys (ks : list Z) : list nat :=
  map snd (foldl (fun acc '(k, j) => insert_key k j acc) [] (zip ks (seq 0 (length ks)))).

Lemma insert_key_perm k j l : map snd (insert_key k j l) ≡ₚ j :: map snd l.
Proof.
  induction l as [|[k' j'] l IH]; [done|]. simpl. destruct (k <? k'); [done|]. simpl. rewrite IH. by constructor.
Qed.
Lemma sort_keys_perm ks : sort_keys ks ≡ₚ seq 0 (length ks).
Proof.
  unfold sort_keys. assert (forall l acc, map snd (foldl (fun acc '(k, j) => insert_key k j acc) acc l) ≡ₚ map snd l ++ map snd acc) as H.
  { induction l as [|[k j] l IH]; intros acc; [done|]. simpl. rewrite IH, insert_key_perm. by rewrite Permutation_middle. }
  rewrite H. simpl. rewrite app_nil_r. change (map snd) with (fmap (M := list) (@snd Z nat)). rewrite snd_zip; [done|]. by rewrite length_seq.
Qed.

Definition leaf (s : string) : RenderTree := mkTree info_zero (RNODE_TEXT (Some s) ALIGN_LEFT).
Definition two_lines : RenderTree := mkTree info_zero (RNODE_CONTAINER None BORDER_NONE edgeinsets_zero [leaf "one"; leaf "two"]).
Definition grid_leaf : RenderTree := mkTree info_zero (RNODE_LEAF (RNODE_BADGE (Some "x"%string))).

Lemma layout_tree_places_witness :
  (forall ks, sort_keys ks ≡ₚ seq 0 (length ks)) /\
  exists t', layout_tree sort_keys (Some two_lines) 80 24 false = Done (Some t') /\
    (80 <= 0 \/ 24 <= 0 -> t' = two_lines) /\
    (0 < 80 -> 0 < 24 ->
      let all := mkRect 0 0 80 24 in Laid sort_keys false all (mkTree (set_rect all (info two_lines)) (u two_lines)) t').
Proof. split; [exact sort_keys_perm|]. exact (layout_tree_places sort_keys sort_keys_perm two_lines 80 24 false). Defined.

Definition laid_out (m : exec (option RenderTree)) : RenderTree := match m with Done (Some t) => t | _ => grid_leaf end.
Lemma container_children_overlap_witness :
  Forall at_origin (stack_children (u (laid_out (layout_tree sort_keys (Some two_lines) 80 24 false)))).
Proof.
  apply (container_children_overlap sort_keys sort_keys_perm None BORDER_NONE edgeinsets_zero [leaf "one"; leaf "two"] 80 24 false);
    [lia|lia| |vm_compute; reflexivity].
  repeat constructor; vm_compute; congruence.
Defined.

Lemma layout_grid_apart_witness :
  let cells := (layout_grid 2 (mkRect 0 0 0 0) [grid_leaf; grid_leaf; grid_leaf] 5 7 20 false).1 in
  Forall (fun c => unconstrained (info c)) [grid_leaf; grid_leaf; grid_leaf] /\
  (forall i j a b, i <> j -> cells !! i = Some a -> cells !! j = Some b -> apart 1 (rect (info a)) (rect (info b))).
Proof.
  intros cells. split; [repeat constructor|].
  apply (layout_grid_apart 2 (mkRect 0 0 0 0) [grid_leaf; grid_leaf; grid_leaf] 5 7 20 false); [lia|lia|].
  repeat constructor.
Defined.

Lemma layout_flex_in_order_witness :
  let placed := (layout_flex None None (mkRect 0 0 0 0) [leaf "one"; leaf "two"] 5 7 20 3 false).1 in
  is_word None "wrap" = false /\
  (forall i a, placed !! i = Some a -> ry (rect (info a)) = 5).
Proof.
  split; [reflexivity|]. apply (layout_flex_in_order None None (mkRect 0 0 0 0) [leaf "one"; leaf "two"] 5 7 20 3 false). reflexivity.
Defined.
