(* ===== verification/Widget.v ===== *)
(** Widgets as src/src/core/widget.c, widget_base.c and event.h see them: events,
    results, the common base, the table of operations a widget gives to the
    session (a class), and the registry of factories. *)

From S2P Require Import Prelude Protocol RenderTree.

Inductive KeyCode :=
  | KEY_BACKSPACE | KEY_ENTER | KEY_LEFT | KEY_RIGHT | KEY_UP | KEY_DOWN
  | KEY_HOME | KEY_END | KEY_PAGEUP | KEY_PAGEDOWN | KEY_TAB | KEY_BACKTAB
  | KEY_DELETE | KEY_INSERT
  | KEY_F1 | KEY_F2 | KEY_F3 | KEY_F4 | KEY_F5 | KEY_F6 | KEY_F7 | KEY_F8 | KEY_F9 | KEY_F10 | KEY_F11 | KEY_F12
  | KEY_CHAR | KEY_ESC | KEY_NULL.
#[global] Instance KeyCode_eq_dec : EqDecision KeyCode.
Proof. solve_decision. Defined.
Inductive EventType :=
  | EVENT_NONE | EVENT_KEY | EVENT_RESIZE | EVENT_MOUSE_MOTION | EVENT_MOUSE_BUTTON
  | EVENT_MOUSE_SCROLL | EVENT_MOUSE_DRAG_START | EVENT_MOUSE_DRAG_MOVE | EVENT_MOUSE_DRAG_END.
#[global] Instance EventType_eq_dec : EqDecision EventType.
Proof. solve_decision. Defined.
Inductive MouseState := MOUSE_PRESS | MOUSE_RELEASE | MOUSE_MOTION | MOUSE_SCROLL_UP | MOUSE_SCROLL_DOWN.
#[global] Instance MouseState_eq_dec : EqDecision MouseState.
Proof. solve_decision. Defined.

(** [ch] is the byte as the signed [char] of the structure. *)
Record Event := mkEvent {
  type : EventType; code : KeyCode; ch : Z; ex : Z; ey : Z; button : Z; mouse_state : MouseState
}.
Definition key_event (k : KeyCode) (c : Z) : Event := mkEvent EVENT_KEY k c 0 0 0 MOUSE_PRESS.

Inductive EventResult :=
  | EVENT_RESULT_HANDLED
  | EVENT_RESULT_RESPONSE (response : WidgetResponse)
  | EVENT_RESULT_UNHANDLED.
Definition event_result_handled : EventResult := EVENT_RESULT_HANDLED.
Definition event_result_response (r : WidgetResponse) : EventResult := EVENT_RESULT_RESPONSE r.
Definition event_result_unhandled : EventResult := EVENT_RESULT_UNHANDLED.

Record WidgetBase := mkBase { dirty : bool; accepts_text_input : bool; render_area : Rect; base_tab_index : Z }.
(** [widget_base_init] copies the data behind the base, not the base. *)
Definition widget_base_init : WidgetBase := mkBase true false (mkRect 0 0 0 0) 0.
(** What the other constructors set: [calloc], then dirty and tab index -1. *)
Definition base_new (text_input : bool) : WidgetBase := mkBase true text_input (mkRect 0 0 0 0) (-1).
Definition base_set_dirty (d : bool) (b : WidgetBase) : WidgetBase := mkBase d (accepts_text_input b) (render_area b) (base_tab_index b).

(** What a widget promises to the session. Rendering may change its data. *)
Class Widget (W : Type) := {
  base : W -> WidgetBase;
  set_base : WidgetBase -> W -> W;
  render : W -> exec (W * RenderTree);
  handle_event : W -> Event -> exec (W * EventResult);
  base_set_base : forall b w, base (set_base b w) = b;
  set_base_base : forall w, set_base (base w) w = w;
  set_base_twice : forall b b' w, set_base b (set_base b' w) = set_base b w
}.

Definition widget_base_is_dirty {W} `{Widget W} (w : W) : bool := dirty (base w).
Definition widget_base_clear_dirty {W} `{Widget W} (w : W) : W := set_base (base_set_dirty false (base w)) w.
Definition mark_dirty {W} `{Widget W} (w : W) : W := set_base (base_set_dirty true (base w)) w.

(** ** A widget under a sequence of events *)

Section events.
Context {W : Type} `{Widget W}.

(** The events until the widget answers. *)
Fixpoint run_events (w : W) (evs : list Event) : exec (W * option WidgetResponse) :=
  match evs with
  | [] => Done (w, None)
  | e :: evs' =>
      '(w', r) ← handle_event w e;
      match r with
      | EVENT_RESULT_RESPONSE resp => Done (w', Some resp)
      | _ => run_events w' evs'
      end
  end.

(** One event keeps [I] and answers only with [R]. *)
Definition handles (I : W -> Prop) (R : W -> WidgetResponse -> Prop) : Prop :=
  forall w e, I w -> exists w' r, handle_event w e = Done (w', r) /\ I w' /\
    match r with EVENT_RESULT_RESPONSE resp => R w' resp | _ => True end.

Lemma run_events_handles I R : handles I R -> forall evs w, I w ->
  exists w' r, run_events w evs = Done (w', r) /\ I w' /\ match r with Some resp => R w' resp | None => True end.
Proof.
  intros Hh evs. induction evs as [|e evs IH]; intros w Hw; [by exists w, None|]. cbn [run_events].
  destruct (Hh w e Hw) as (w1 & r & -> & Hi & Hr). cbn [mbind exec_bind].
  destruct r; [by apply IH | by exists w1, (Some response) | by apply IH].
Qed.
End events.

(** ** The registry *)

Section registry.
Context {W : Type}.
(** A factory may be missing (NULL), may make no widget, and may fault. *)
Definition WidgetFactory : Type := WidgetRequest -> exec (option W).
Record RegistryEntry := mkEntry { name : string; factory : option WidgetFactory; is_plugin : bool }.
Abbreviation registry := (list RegistryEntry).

Definition widget_registry_register (r : registry) (n : string) (f : option WidgetFactory) : registry := mkEntry n f false :: r.
Definition widget_registry_register_plugin (r : registry) (n : string) (f : option WidgetFactory) : registry := mkEntry n f true :: r.
Definition widget_registry_clear_plugins (r : registry) : registry := filter (fun e => is_plugin e = false) r.

Definition make (e : RegistryEntry) (req : WidgetRequest) : exec (option W) :=
  match factory e with Some f => f req | None => Done None end.
(** [strcmp] with a request that names no widget reads through NULL. *)
Fixpoint widget_registry_create (r : registry) (req : WidgetRequest) : exec (option W) :=
  match r with
  | [] => Done None
  | e :: r' =>
      wanted ← deref (widget req);
      if decide (name e = wanted) then make e req
      else widget_registry_create r' req
  end.
Definition widget_registry_enum (r : registry) (idx : Z) : option (string * option WidgetFactory * Z) :=
  match r !! Z.to_nat idx with Some e => Some (name e, factory e, idx + 1) | None => None end.
Definition widget_registry_count (r : registry) : Z := Z.of_nat (length r).

(** What a name stands for: the latest registration under it. *)
Definition lookup (r : registry) (n : string) : option RegistryEntry := List.find (fun e => bool_decide (name e = n)) r.

Inductive reg_op := Register (n : string) (f : option WidgetFactory) | RegisterPlugin (n : string) (f : option WidgetFactory) | ClearPlugins.
Definition run_reg (r : registry) (o : reg_op) : registry :=
  match o with
  | Register n f => widget_registry_register r n f
  | RegisterPlugin n f => widget_registry_register_plugin r n f
  | ClearPlugins => widget_registry_clear_plugins r
  end.
(** The operations that do not concern plugins. *)
Definition not_plugin (o : reg_op) : bool := match o with Register _ _ => true | _ => false end.

Lemma run_reg_filter os : forall r,
  filter (fun e => is_plugin e = false) (foldl run_reg r os) =
  foldl run_reg (filter (fun e => is_plugin e = false) r) (filter (fun o => not_plugin o = true) os).
Proof.
  induction os as [|o os IH]; intros r; [done|]. cbn [foldl]. rewrite IH. destruct o; cbn; try done.
  - unfold widget_registry_clear_plugins. f_equal. by rewrite list_filter_filter_l.
Qed.

Lemma create_lookup r req n : widget req = Some n ->
  widget_registry_create r req = match lookup r n with Some e => make e req | None => Done None end.
Proof.
  intros Hn. induction r as [|e r IH]; [done|]. cbn [widget_registry_create lookup List.find]. rewrite Hn. cbn [deref mbind exec_bind].
  unfold lookup. cbn [List.find]. case_decide as Hd.
  - by rewrite bool_decide_true.
  - rewrite bool_decide_false by done. exact IH.
Qed.

(** reloading plugins leaves the built-in widgets as they were: after any
    registrations, clearing the plugins gives the registry that the built-in
    registrations alone give, and a request for a name makes the widget of its
    latest built-in registration. *)
Theorem registry_reload (os : list reg_op) (req : WidgetRequest) (n : string) :
  let reg := widget_registry_clear_plugins (foldl run_reg [] os) in
  let builtin := foldl run_reg [] (filter (fun o => not_plugin o = true) os) in
  reg = builtin /\
  (widget req = Some n -> widget_registry_create reg req = match lookup builtin n with Some e => make e req | None => Done None end) /\
  (widget req = None -> reg <> [] -> widget_registry_create reg req = Fault NullDeref).
Proof.
  intros reg builtin. assert (reg = builtin) as E by apply (run_reg_filter os []).
  split; [exact E|]. rewrite E. split; [apply create_lookup|]. intros Hn. destruct builtin; [done|]. intros _. cbn. by rewrite Hn.
Qed.
End registry.
