(* ===== verification/Session.v ===== *)
(** The session of src/src/core/session.c: focus order, hit testing, frame
    deltas, the keymap, and the event loop that drives one widget. The theme and
    the animations are not part of this model: a frame is the laid-out tree. *)

From S2P Require Import Prelude Undo Protocol Widget RenderTree Layout.

(** ** Focus order *)

(** [current_tab] and [found] are the in-out parameters. *)
Fixpoint find_focusable (t : RenderTree) (target current_tab : Z) : option RenderTree * Z :=
  let one (o : option RenderTree) (s : option RenderTree * Z) : option RenderTree * Z :=
    match o, s with
    | Some c, (None, cur) => find_focusable c target cur
    | _, _ => s
    end in
  let all := fix all (l : list RenderTree) (s : option RenderTree * Z) : option RenderTree * Z :=
    match l with
    | [] => s
    | c :: l' => match s with (None, cur) => all l' (find_focusable c target cur) | _ => s end
    end in
  match t with
  | mkTree i c =>
      let down (cur : Z) :=
        match c with
        | RNODE_CONTAINER _ _ _ ch => all ch (None, cur)
        | RNODE_FLEX _ _ _ _ ch => all ch (None, cur)
        | RNODE_GRID _ _ ch => all ch (None, cur)
        | RNODE_TABS _ _ ch => one ch (None, cur)
        | RNODE_SPLIT_PANES _ _ _ a b c => one c (one b (one a (None, cur)))
        | _ => (None, cur)
        end in
      if 0 <=? tab_index i then
        (if current_tab =? target then (Some (mkTree i c), current_tab) else down (current_tab + 1))
      else down current_tab
  end.

Fixpoint count_focusable (t : RenderTree) : Z :=
  let one (o : option RenderTree) : Z := match o with Some c => count_focusable c | None => 0 end in
  let all := fix all (l : list RenderTree) : Z := match l with [] => 0 | c :: l' => count_focusable c + all l' end in
  match t with
  | mkTree i c =>
      (if 0 <=? tab_index i then 1 else 0) +
      match c with
      | RNODE_CONTAINER _ _ _ ch => all ch
      | RNODE_FLEX _ _ _ _ ch => all ch
      | RNODE_GRID _ _ ch => all ch
      | RNODE_TABS _ _ ch => one ch
      | RNODE_SPLIT_PANES _ _ _ a b c => one a + one b + one c
      | _ => 0
      end
  end.

(** ** Hit testing *)

(** The loop runs from the last child to the first. *)
Fixpoint last_hit {A B} (f : A -> option B) (l : list A) : option B :=
  match l with
  | [] => None
  | c :: l' => match last_hit f l' with Some r => Some r | None => f c end
  end.

Fixpoint hit_test (node : RenderTree) (px py off_x off_y : Z) : option RenderTree :=
  match node with
  | mkTree i c =>
      let x := off_x + rx (rect i) in
      let y := off_y + ry (rect i) in
      let all := fix all (l : list RenderTree) : option RenderTree :=
        match l with
        | [] => None
        | c :: l' => match all l' with Some r => Some r | None => hit_test c px py x y end
        end in
      if ((px <? x) || (x + rw (rect i) <=? px) || (py <? y) || (y + rh (rect i) <=? py))%bool then None
      else
        match (match c with
               | RNODE_CONTAINER _ _ _ ch => all ch
               | RNODE_FLEX _ _ _ _ ch => all ch
               | RNODE_GRID _ _ ch => all ch
               | _ => None
               end) with
        | Some hit => Some hit
        | None => Some (mkTree i c)
        end
  end.
Definition hit_test_opt (node : option RenderTree) (px py : Z) : option RenderTree :=
  match node with Some t => hit_test t px py 0 0 | None => None end.

(** ** Frame deltas *)

Definition differs (cur prev : NodeInfo) : bool :=
  (negb (rx (rect cur) =? rx (rect prev)) || negb (ry (rect cur) =? ry (rect prev)) ||
   negb (rw (rect cur) =? rw (rect prev)) || negb (rh (rect cur) =? rh (rect prev)) || dirty cur)%bool.

Fixpoint compute_delta (cur prev : RenderTree) : list (RenderNodeType * Rect) :=
  let both := fix both (l l' : list RenderTree) :=
    match l, l' with c :: l, c' :: l' => compute_delta c c' ++ both l l' | _, _ => [] end in
  match cur, prev with
  | mkTree i c, mkTree i' c' =>
      if decide (content_type c = content_type c') then
        (if differs i i' then [(content_type c, rect i)] else []) ++
        match c, c' with
        | RNODE_CONTAINER _ _ _ l, RNODE_CONTAINER _ _ _ l' => both l l'
        | RNODE_FLEX _ _ _ _ l, RNODE_FLEX _ _ _ _ l' => both l l'
        | RNODE_GRID _ _ l, RNODE_GRID _ _ l' => both l l'
        | _, _ => []
        end
      else []
  end.
Definition session_compute_delta (current previous : option RenderTree) : list (RenderNodeType * Rect) :=
  match current, previous with Some c, Some p => compute_delta c p | _, _ => [] end.

(** ** The keymap *)

Record KeyBinding := mkBinding { bkey : string; bcode : KeyCode; bch : Z }.
Definition session_load_keymap (m : list KeyBinding) (k : string) (c : KeyCode) (ch : Z) : list KeyBinding :=
  m ++ [mkBinding k c ch].
Definition default_keymap : list KeyBinding :=
  [mkBinding "j" KEY_DOWN 0; mkBinding "k" KEY_UP 0; mkBinding "q" KEY_ESC 0; mkBinding "h" KEY_LEFT 0;
   mkBinding "l" KEY_RIGHT 0; mkBinding "i" KEY_ENTER 0; mkBinding (of_chars ["009"%char]) KEY_TAB 0].

(** The loop over the bindings: the first one-character key that matches. *)
Fixpoint translate (m : list KeyBinding) (c : KeyCode) (ch : Z) : KeyCode * Z :=
  match m with
  | [] => (c, ch)
  | b :: m' =>
      match chars (bkey b) with
      | [k] => if (bool_decide (c = KEY_CHAR) && (ch =? schar k))%bool then (bcode b, bch b) else translate m' c ch
      | _ => translate m' c ch
      end
  end.

Fixpoint strchr (c : ascii) (s : list ascii) : option (list ascii * list ascii) :=
  match s with
  | [] => None
  | d :: s' => if Ascii.eqb d c then Some ([], s') else match strchr c s' with Some (a, b) => Some (d :: a, b) | None => None end
  end.
(** One binding [scope|key|action] of a script. *)
Definition fil_binding (m : list KeyBinding) (entry : string) : list KeyBinding :=
  match strchr "|" (chars entry) with
  | None => m
  | Some (_, rest) =>
      match strchr "|" rest with
      | None => m
      | Some (key, act) =>
          let key := of_chars key in
          let action := of_chars act in
          let code :=
            if decide (key = "Escape") then KEY_ESC else if decide (key = "Enter") then KEY_ENTER
            else if decide (key = "Up") then KEY_UP else if decide (key = "Down") then KEY_DOWN
            else if decide (key = "Left") then KEY_LEFT else if decide (key = "Right") then KEY_RIGHT
            else if decide (key = "Tab") then KEY_TAB else if strlen key =? 1 then KEY_CHAR else KEY_NULL in
          if decide (code = KEY_NULL) then m
          else
            let ch := if decide (code = KEY_CHAR) then match chars key with c :: _ => schar c | [] => 0 end else 0 in
            let '(code, ch) :=
              if decide (action = "back") then (KEY_ESC, 0) else if decide (action = "select") then (KEY_ENTER, ch)
              else if decide (action = "move-up") then (KEY_UP, ch) else if decide (action = "move-down") then (KEY_DOWN, ch)
              else if decide (action = "move-left") then (KEY_LEFT, ch) else if decide (action = "move-right") then (KEY_RIGHT, ch)
              else if decide (action = "confirm") then (KEY_ENTER, ch) else if decide (action = "cancel") then (KEY_ESC, ch)
              else (code, ch) in
            session_load_keymap m key code ch
      end
  end.
Definition session_load_keymap_from_fil (m : list KeyBinding) (bindings : list string) : list KeyBinding := foldl fil_binding m bindings.

Definition is_printable_paste (text : string) : bool :=
  forallb (fun c => let ch := uchar c in
    negb ((ch <? 32) && negb (Ascii.eqb c "010") && negb (Ascii.eqb c "009") && negb (Ascii.eqb c "013")) && negb (ch =? 127))%bool (chars text).

(** ** The focus order *)

(** The reference: the focusable nodes, each before those below it. *)
Definition focusable (t : RenderTree) : bool := 0 <=? tab_index (info t).
Fixpoint focus_order (t : RenderTree) : list RenderTree :=
  match t with mkTree i c => (if focusable t then [t] else []) ++ concat (kids (content_map focus_order c)) end.

Lemma focus_order_unfold t : focus_order t = (if focusable t then [t] else []) ++ concat (map focus_order (kids (u t))).
Proof. destruct t as [i c]. cbn [focus_order u]. by rewrite kids_map. Qed.

Fixpoint find_list (target : Z) (l : list RenderTree) (cur : Z) : option RenderTree * Z :=
  match l with
  | [] => (None, cur)
  | c :: l' => match find_focusable c target cur with (None, cur') => find_list target l' cur' | s => s end
  end.

Lemma find_focusable_unfold t target cur : find_focusable t target cur =
  if focusable t then (if cur =? target then (Some t, cur) else find_list target (kids (u t)) (cur + 1))
  else find_list target (kids (u t)) cur.
Proof.
  destruct t as [i c]. cbn [find_focusable u focusable info].
  assert (forall l s, (fix all (l : list RenderTree) (s : option RenderTree * Z) : option RenderTree * Z :=
    match l with
    | [] => s
    | c :: l' => match s with (None, cur) => all l' (find_focusable c target cur) | _ => s end
    end) l s = match s with (None, cur) => find_list target l cur | _ => s end) as Hall.
  { induction l as [|x l IH]; intros [[y|] k]; try done. cbn [find_list]. rewrite IH. by destruct (find_focusable x target k) as [[?|] ?]. }
  unfold focusable. cbn [info].
  destruct c as [bg b p ch| | | | | | | | | | |ls a ch|o s1 s2 a b c|d w j al ch|cs rs ch| | |]; cbn [kids find_list]; rewrite ?Hall; try done.
  - destruct ch; cbn [opt_list find_list]; [|done].
    destruct (0 <=? tab_index i), (cur =? target); try done; match goal with |- context [find_focusable ?x ?y ?z] => by destruct (find_focusable x y z) as [[?|] ?] end.
  - destruct (0 <=? tab_index i), (cur =? target); try done; destruct a, b, c; cbn [opt_list find_list app]; try done;
    repeat match goal with |- context [find_focusable ?x ?y ?z] => destruct (find_focusable x y z) as [[?|] ?] end; done.
Qed.

Lemma count_focusable_unfold t : count_focusable t = (if focusable t then 1 else 0) + foldr (fun c n => count_focusable c + n) 0 (kids (u t)).
Proof.
  destruct t as [i c]. unfold focusable. cbn [count_focusable u info]. f_equal.
  assert (forall l, (fix all (l : list RenderTree) : Z := match l with [] => 0 | c :: l' => count_focusable c + all l' end) l =
    foldr (fun c n => count_focusable c + n) 0 l) as Hall.
  { induction l as [|x l IH]; [done|]. cbn [foldr]. by rewrite IH. }
  destruct c as [bg b p ch| | | | | | | | | | |ls a ch|o s1 s2 a b c|d w j al ch|cs rs ch| | |]; cbn [kids foldr]; rewrite ?Hall; try done.
  - destruct ch; cbn; lia.
  - destruct a, b, c; cbn; lia.
Qed.

Lemma count_focusable_length t : count_focusable t = Z.of_nat (length (focus_order t)).
Proof.
  induction t as [i c IH] using RenderTree_ind'. rewrite count_focusable_unfold, focus_order_unfold, length_app. cbn [u].
  assert (foldr (fun c n => count_focusable c + n) 0 (kids c) = Z.of_nat (length (concat (map focus_order (kids c))))) as ->.
  { induction IH as [|x l Hx _ IHl]; [done|]. cbn [foldr map concat]. rewrite length_app, Hx, IHl. lia. }
  destruct (focusable (mkTree i c)); cbn [length]; lia.
Qed.

(** What a search over the nodes [l] must return. *)
Definition search (l : list RenderTree) (target cur : Z) (r : option RenderTree * Z) : Prop :=
  r.1 = (if target <? cur then None else l !! Z.to_nat (target - cur)) /\
  (r.1 = None -> r.2 = cur + Z.of_nat (length l)).

Lemma search_app l1 l2 target cur r1 r2 : search l1 target cur r1 ->
  (r1.1 = None -> search l2 target r1.2 r2) ->
  search (l1 ++ l2) target cur (match r1 with (None, _) => r2 | s => s end).
Proof.
  intros [H1 H2] H. destruct r1 as [[x|] c1]; cbn [fst snd] in *.
  - split; [|done]. cbn. destruct (target <? cur) eqn:E; [done|]. rewrite lookup_app_l; [done|]. by eapply lookup_lt_Some.
  - specialize (H2 eq_refl). destruct (H eq_refl) as [H3 H4]. split.
    + rewrite H3. destruct (target <? cur) eqn:E; simp_bool.
      * rewrite (proj2 (Z.ltb_lt _ _)) by lia. done.
      * symmetry in H1. apply lookup_ge_None in H1. rewrite (proj2 (Z.ltb_ge _ _)) by lia.
        rewrite lookup_app_r by lia. f_equal. lia.
    + intros Hn. rewrite (H4 Hn), length_app. lia.
Qed.

Lemma find_focusable_search t target : forall cur, search (focus_order t) target cur (find_focusable t target cur).
Proof.
  induction t as [i c IH] using RenderTree_ind'. intros cur. rewrite find_focusable_unfold, focus_order_unfold. cbn [u].
  assert (forall k, search (concat (map focus_order (kids c))) target k (find_list target (kids c) k)) as Hl.
  { induction IH as [|x l Hx _ IHl]; intros k.
    - split; cbn; [by destruct (target <? k)|lia].
    - cbn [map concat find_list]. pose proof (search_app _ _ _ _ _ _ (Hx k) (fun _ => IHl (find_focusable x target k).2)) as Hs.
      destruct (find_focusable x target k) as [[?|] ?]; exact Hs. }
  destruct (focusable (mkTree i c)); [|exact (Hl cur)].
  destruct (cur =? target) eqn:E; simp_bool.
  - subst. split; [|done]. cbn [fst]. by rewrite Z.ltb_irrefl, Z.sub_diag.
  - apply (search_app [mkTree i c] _ target cur (None, cur + 1)); [|intros _; apply Hl].
    split; cbn [fst snd]; [|done]. destruct (target <? cur) eqn:E'; simp_bool; [done|].
    destruct (Z.to_nat (target - cur)) eqn:Hn; [lia|done].
Qed.

(** C24: the n-th tab stop is the n-th focusable node of the tree in preorder,
    through every kind of node with nodes below it, and the count is their
    number; so stepping modulo the count always lands on a node. *)
Theorem find_focusable_nth t (n : nat) :
  (find_focusable t (Z.of_nat n) 0).1 = focus_order t !! n /\
  count_focusable t = Z.of_nat (length (focus_order t)) /\
  (0 < count_focusable t -> forall k, exists x, (find_focusable t (k mod count_focusable t) 0).1 = Some x /\ focusable x = true).
Proof.
  assert (forall k : Z, 0 <= k -> (find_focusable t k 0).1 = focus_order t !! Z.to_nat k) as H.
  { intros k Hk. destruct (find_focusable_search t k 0) as [-> _]. rewrite (proj2 (Z.ltb_ge _ _)) by lia. f_equal. lia. }
  split; [rewrite H by lia; f_equal; lia|]. split; [apply count_focusable_length|].
  intros Hc k. pose proof (Z.mod_pos_bound k (count_focusable t) Hc) as Hb. rewrite H by lia.
  rewrite count_focusable_length in *. destruct (lookup_lt_is_Some_2 (focus_order t) (Z.to_nat (k mod Z.of_nat (length (focus_order t))))) as [x Hx]; [lia|].
  exists x. split; [done|]. apply list_elem_of_lookup_2 in Hx. clear -Hx. revert x Hx.
  induction t as [i c IH] using RenderTree_ind'. intros x. rewrite focus_order_unfold, elem_of_app. cbn [u]. intros [Hx|Hx].
  - destruct (focusable (mkTree i c)) eqn:E; [apply list_elem_of_singleton in Hx; by subst|by apply elem_of_nil in Hx].
  - induction IH as [|y l Hy _ IHl]; [by apply elem_of_nil in Hx|]. cbn [map concat] in Hx. apply elem_of_app in Hx as [Hx|Hx]; [by apply Hy|by apply IHl].
Qed.

(** ** Hit testing *)

(** [placed t ox oy r x y]: below [t], drawn at the offset [(ox, oy)], the node
    [r] has its top left corner at [(x, y)]. *)
Inductive placed : RenderTree -> Z -> Z -> RenderTree -> Z -> Z -> Prop :=
  | PlacedHere t ox oy : placed t ox oy t (ox + rx (rect (info t))) (oy + ry (rect (info t)))
  | PlacedBelow t ox oy c r x y : c ∈ stack_children (u t) ->
      placed c (ox + rx (rect (info t))) (oy + ry (rect (info t))) r x y -> placed t ox oy r x y.
Definition contains (t : RenderTree) (x y px py : Z) : Prop :=
  x <= px < x + rw (rect (info t)) /\ y <= py < y + rh (rect (info t)).

Lemma hit_test_unfold t px py ox oy : hit_test t px py ox oy =
  let x := ox + rx (rect (info t)) in let y := oy + ry (rect (info t)) in
  if ((px <? x) || (x + rw (rect (info t)) <=? px) || (py <? y) || (y + rh (rect (info t)) <=? py))%bool then None
  else match last_hit (fun c => hit_test c px py x y) (stack_children (u t)) with Some h => Some h | None => Some t end.
Proof.
  destruct t as [i c]. cbn [hit_test info u]. destruct (_ || _)%bool; [done|].
  set (x := ox + _). set (y := oy + _).
  assert (forall l, (fix all (l : list RenderTree) : option RenderTree :=
    match l with [] => None | c :: l' => match all l' with Some r => Some r | None => hit_test c px py x y end end) l =
    last_hit (fun c => hit_test c px py x y) l) as Hall.
  { induction l as [|d l IH]; [done|]. cbn [last_hit]. by rewrite IH. }
  destruct c; cbn [stack_children last_hit]; rewrite ?Hall; done.
Qed.

Lemma last_hit_Some {A B} (f : A -> option B) l r : last_hit f l = Some r -> exists c, c ∈ l /\ f c = Some r.
Proof.
  induction l as [|c l IH]; [done|]. cbn [last_hit]. destruct (last_hit f l) as [r'|].
  - intros H. destruct (IH H) as (d & Hd & Hf). exists d. split; [by right|done].
  - intros H. exists c. split; [left|done].
Qed.
Lemma last_hit_None {A B} (f : A -> option B) l : last_hit f l = None -> forall c, c ∈ l -> f c = None.
Proof.
  induction l as [|c l IH]; [intros _ c ?%elem_of_nil; done|]. cbn [last_hit]. destruct (last_hit f l); [done|].
  intros H d [->|Hd]%elem_of_cons; [done|by apply IH].
Qed.

(** a point hits the tree exactly when it is inside the root, and the node
    it hits is a node at whose place on the surface the point lies, with none
    of the nodes stacked on it there. *)
Theorem hit_test_topmost t px py ox oy :
  (hit_test t px py ox oy = None <-> ~ contains t (ox + rx (rect (info t))) (oy + ry (rect (info t))) px py) /\
  (forall r, hit_test t px py ox oy = Some r ->
     exists x y, placed t ox oy r x y /\ contains r x y px py /\
       forall c, c ∈ stack_children (u r) -> ~ contains c (x + rx (rect (info c))) (y + ry (rect (info c))) px py).
Proof.
  assert (forall t ox oy, hit_test t px py ox oy = None <-> ~ contains t (ox + rx (rect (info t))) (oy + ry (rect (info t))) px py) as Hnone.
  { clear. intros t ox oy. rewrite hit_test_unfold. cbn zeta. unfold contains. destruct (_ || _)%bool eqn:E.
    - split; [|done]. intros _. repeat (apply orb_true_iff in E as [E|E]); first [apply Z.ltb_lt in E|apply Z.leb_le in E]; lia.
    - simp_bool. destruct (last_hit _ _); split; try done; lia. }
  split; [apply Hnone|]. revert ox oy. induction t as [i c IH] using RenderTree_ind'. intros ox oy r Hr.
  rewrite hit_test_unfold in Hr. cbn zeta in Hr. destruct (_ || _)%bool eqn:E; [done|]. simp_bool. cbn [info u] in *.
  destruct (last_hit _ _) as [h|] eqn:Hh.
  - injection Hr as <-. apply last_hit_Some in Hh as (d & Hd & Hf).
    apply Forall_stack in IH. rewrite list.Forall_forall in IH. destruct (IH d Hd _ _ _ Hf) as (x & y & Hp & Hc).
    exists x, y. split; [|done]. by eapply PlacedBelow.
  - injection Hr as <-. eexists _, _. split; [constructor|]. cbn [info u]. split; [unfold contains; cbn [info]; lia|].
    intros d Hd. apply Hnone. by apply (last_hit_None _ _ Hh).
Qed.

(** ** Frame deltas *)

(** The nodes the delta passes reach: through containers, flex boxes, grids. *)
Fixpoint stack_nodes (t : RenderTree) : list RenderTree :=
  match t with mkTree i c => t :: concat (stack_children (content_map stack_nodes c)) end.
Definition entry (t : RenderTree) : RenderNodeType * Rect := (content_type (u t), rect (info t)).

Lemma differs_self i : differs i i = dirty i.
Proof. unfold differs. by rewrite !Z.eqb_refl. Qed.

Lemma delta_unfold cur prev : compute_delta cur prev =
  if decide (content_type (u cur) = content_type (u prev)) then
    (if differs (info cur) (info prev) then [entry cur] else []) ++
    concat (zip_with compute_delta (stack_children (u cur)) (stack_children (u prev)))
  else [].
Proof.
  destruct cur as [i c], prev as [i' c']. cbn [compute_delta u info]. case_decide as Hd; [|done]. f_equal.
  assert (forall l l', (fix both (l l' : list RenderTree) :=
    match l, l' with c :: l, c' :: l' => compute_delta c c' ++ both l l' | _, _ => [] end) l l' = concat (zip_with compute_delta l l')) as Hb.
  { induction l as [|x l IH]; intros [|x' l']; try done. cbn [zip_with concat]. by rewrite IH. }
  destruct c, c'; cbn [content_type stack_children] in *; rewrite ?Hb, ?zip_with_nil_r; done.
Qed.

Lemma content_type_mark c : content_type (match c with
   | RNODE_CONTAINER bg b p ch => RNODE_CONTAINER bg b p (map render_tree_mark_dirty ch)
   | RNODE_FLEX d w j a ch => RNODE_FLEX d w j a (map render_tree_mark_dirty ch)
   | RNODE_GRID cs rs ch => RNODE_GRID cs rs (map render_tree_mark_dirty ch)
   | c => c end) = content_type c.
Proof. by destruct c. Qed.

(** against itself a tree's delta is its dirty nodes in tree order, and
    after [render_tree_mark_dirty] the delta lists every node that the passes
    reach; both passes stop at tabs and at split panes. *)
Theorem delta_of_dirty t :
  session_compute_delta (Some t) (Some t) = map entry (filter (fun n => dirty (info n) = true) (stack_nodes t)) /\
  session_compute_delta (Some (render_tree_mark_dirty t)) (Some t) = map entry (stack_nodes t).
Proof.
  cbn [session_compute_delta]. induction t as [i c IH] using RenderTree_ind'. apply Forall_stack in IH.
  rewrite !delta_unfold. cbn [render_tree_mark_dirty u info stack_nodes]. rewrite content_type_mark, stack_children_map.
  rewrite !decide_True by done. rewrite differs_self.
  assert (differs (set_dirty true i) i = true) as ->. { unfold differs. by rewrite orb_true_r. }
  split.
  - rewrite filter_cons. cbn [info].
    assert (concat (zip_with compute_delta (stack_children c) (stack_children c)) =
      map entry (filter (fun n => dirty (info n) = true) (concat (map stack_nodes (stack_children c))))) as ->.
    { induction IH as [|x l [Hx _] _ IHl]; [done|]. cbn [zip_with concat map]. by rewrite Hx, IHl, list.filter_app, map_app. }
    destruct (dirty i); [rewrite decide_True by done|rewrite decide_False by done]; done.
  - cbn [map app]. f_equal; [unfold entry; cbn [u info]; by rewrite content_type_mark|].
    transitivity (concat (zip_with compute_delta (map render_tree_mark_dirty (stack_children c)) (stack_children c))).
    { by destruct c. }
    induction IH as [|x l [_ Hx] _ IHl]; [done|]. cbn [zip_with concat map]. by rewrite Hx, IHl, map_app.
Qed.

(** ** The event loop *)

Section loop.
Context (qsort : list Z -> list nat).
Context {W : Type} `{Widget W}.

(** What is fixed while the session runs: the backend's kind. *)
Record Config := mkConfig { is_pixel : bool; is_interactive : bool; can_copy : bool }.
(** What one round of the loop reads: the size of the surface, the next event,
    the text of the clipboard if there is one, the store's version, the clock. *)
Record Input := mkInput { size : Z * Z; ev : Event; clipboard : option string; store_version : option Z; now : Z }.
(** What a round shows to the outside. *)
Inductive Output := ODraw (t : RenderTree) | OCopy (text : string) | OWarn.

(** The widget is the document of the undo stack. *)
Record Session := mkSession {
  world : World (D := W); session_undo : UndoStack; keymap : list KeyBinding;
  last_render_tree : option RenderTree; focused_widget_id : option string;
  tooltip_target_id : option string; tooltip_hover_start : Z;
  last_size : Z * Z; idle_count : Z; last_store_version : Z
}.
Definition wgt (s : Session) : W := doc (world s).
Definition set_world (wd : World) (s : Session) : Session :=
  mkSession wd (session_undo s) (keymap s) (last_render_tree s) (focused_widget_id s) (tooltip_target_id s)
    (tooltip_hover_start s) (last_size s) (idle_count s) (last_store_version s).
Definition set_wgt (w : W) (s : Session) : Session := set_world (mkWorld (heap (world s)) w (released (world s))) s.
Definition set_undo (un : UndoStack) (s : Session) : Session :=
  mkSession (world s) un (keymap s) (last_render_tree s) (focused_widget_id s) (tooltip_target_id s)
    (tooltip_hover_start s) (last_size s) (idle_count s) (last_store_version s).
Definition set_tooltip (t : option string) (start : Z) (s : Session) : Session :=
  mkSession (world s) (session_undo s) (keymap s) (last_render_tree s) (focused_widget_id s) t
    start (last_size s) (idle_count s) (last_store_version s).
Definition set_focused (f : option string) (s : Session) : Session :=
  mkSession (world s) (session_undo s) (keymap s) (last_render_tree s) f (tooltip_target_id s)
    (tooltip_hover_start s) (last_size s) (idle_count s) (last_store_version s).
Definition set_last_size (z : Z * Z) (s : Session) : Session :=
  mkSession (world s) (session_undo s) (keymap s) (last_render_tree s) (focused_widget_id s) (tooltip_target_id s)
    (tooltip_hover_start s) z (idle_count s) (last_store_version s).
Definition set_idle (n : Z) (s : Session) : Session :=
  mkSession (world s) (session_undo s) (keymap s) (last_render_tree s) (focused_widget_id s) (tooltip_target_id s)
    (tooltip_hover_start s) (last_size s) n (last_store_version s).
Definition set_store_version (v : Z) (s : Session) : Session :=
  mkSession (world s) (session_undo s) (keymap s) (last_render_tree s) (focused_widget_id s) (tooltip_target_id s)
    (tooltip_hover_start s) (last_size s) (idle_count s) v.
Definition touch (s : Session) : Session := set_wgt (mark_dirty (wgt s)) s.

(** One frame: render, lay out, draw, and the widget is clean. *)
Definition frame (cfg : Config) (z : Z * Z) (s : Session) : exec (Session * list Output) :=
  '(w, tree) ← render (wgt s);
  laid ← layout_tree qsort (Some tree) z.1 z.2 (is_pixel cfg);
  Done (set_wgt (widget_base_clear_dirty w) s, match laid with Some t => [ODraw t] | None => [] end).

(** [wb->render_area.w = term_w; wb->render_area.h = term_h] *)
Definition resize (z : Z * Z) (w : W) : W :=
  let b := base w in
  set_base (mkBase (Widget.dirty b) (accepts_text_input b) (mkRect (rx (render_area b)) (ry (render_area b)) z.1 z.2) (base_tab_index b)) w.

Definition session_start (cfg : Config) (w : W) (z : Z * Z) : exec (Session * list Output) :=
  let b := base w in
  let w := set_base (mkBase (Widget.dirty b) (accepts_text_input b) (rect_new 0 0 z.1 z.2) (base_tab_index b)) w in
  frame cfg z (mkSession (mkWorld ∅ w []) (undo_stack_new 100) default_keymap None None None 0 z 0 0).

(** The loop over the pasted characters; the results are dropped. *)
Fixpoint paste (w : W) (text : list ascii) : exec W :=
  match text with
  | [] => Done w
  | c :: text' => '(w', _) ← handle_event w (key_event KEY_CHAR (schar c)); paste w' text'
  end.

Definition timeout : WidgetResponse := mkResponse None false None.
(** The end of the session frees the focus and the tooltip. *)
Definition finish (s : Session) : Session := set_focused None (set_tooltip None (tooltip_hover_start s) s).
Definition round : Type := exec (Session * list Output * option WidgetResponse).
Definition continue (s : Session) : round := Done (s, [], None).

Definition on_tab (s : Session) : exec Session :=
  match last_render_tree s with
  | None => Done s
  | Some t =>
      let total := count_focusable t in
      if total <=? 0 then Done s
      else
        (** the code passes NULL for [found] when there is a focus already *)
        match focused_widget_id s with
        | Some _ => Fault NullDeref
        | None =>
            match (find_focusable t (cmod 1 total) 0).1 with
            | Some found => match style_class (info found) with Some c => Done (touch (set_focused (Some c) s)) | None => Done s end
            | None => Done s
            end
        end
  end.

Definition dispatch (s : Session) (i : Input) (e : Event) : round :=
  let s := set_idle 0 s in
  '(w', result) ← handle_event (wgt s) e;
  let s := set_wgt w' s in
  match result with
  | EVENT_RESULT_RESPONSE r => Done (finish s, [], Some r)
  | _ =>
      match store_version i with
      | Some ver => if ver =? last_store_version s then continue s else continue (set_store_version ver (touch s))
      | None => continue s
      end
  end.

Definition on_key (s : Session) (i : Input) : round :=
  let e := ev i in
  let translated :=
    if accepts_text_input (base (wgt s)) then e
    else let '(c, k) := translate (keymap s) (code e) (ch e) in mkEvent (Widget.type e) c k (ex e) (ey e) (button e) (mouse_state e) in
  if decide (code e = KEY_TAB) then s' ← on_tab s; continue s' else dispatch s i translated.

(** ctrl-C, ctrl-V, ctrl-Z and ctrl-Y come before the keymap. *)
Definition on_char (cfg : Config) (s : Session) (i : Input) : round :=
  let c := ch (ev i) in
  if c =? 3 then
    Done (s, match clipboard i with Some t => if can_copy cfg then [OCopy t] else [] | None => [] end, None)
  else if c =? 22 then
    match clipboard i with
    | Some t =>
        if is_printable_paste t
        then w' ← paste (wgt s) (chars t); continue (touch (set_wgt w' s))
        else Done (touch s, [OWarn], None)
    | None => continue (touch s)
    end
  else if c =? 26 then
    '(un, wd, done) ← undo_stack_undo (Some (session_undo s)) (world s);
    if (done : bool) then continue (touch (set_world wd (set_undo (default (session_undo s) un) s))) else on_key s i
  else if c =? 25 then
    '(un, wd, done) ← undo_stack_redo (Some (session_undo s)) (world s);
    if (done : bool) then continue (touch (set_world wd (set_undo (default (session_undo s) un) s))) else on_key s i
  else on_key s i.

Definition on_event (cfg : Config) (s : Session) (i : Input) : round :=
  let e := ev i in
  match Widget.type e with
  | EVENT_NONE =>
      if is_interactive cfg then
        match tooltip_target_id s with
        | Some t => if 500 <=? now i - tooltip_hover_start s then continue (set_tooltip (Some t) (now i) (touch s)) else continue s
        | None => continue s
        end
      else
        let s := set_idle (idle_count s + 1) s in
        if 5000 <? idle_count s then Done (finish s, [], Some timeout) else continue s
  | EVENT_RESIZE => continue s
  | EVENT_MOUSE_MOTION =>
      let s := set_tooltip None 0 s in
      let s := match hit_test_opt (last_render_tree s) (ex e) (ey e) with
        | Some hit => match tooltip (info hit) with
            | Some (String c t) => set_tooltip (Some (String c t)) (now i) s
            | _ => s
            end
        | None => s
        end in
      continue (touch s)
  | EVENT_MOUSE_DRAG_START | EVENT_MOUSE_DRAG_MOVE | EVENT_MOUSE_DRAG_END => continue (touch s)
  | EVENT_MOUSE_BUTTON =>
      if (bool_decide (mouse_state e = MOUSE_PRESS) && (button e =? 3))%bool then
        match hit_test_opt (last_render_tree s) (ex e) (ey e) with
        | Some hit =>
            if decide (content_type (u hit) = TCONTAINER)
            then '(w', _) ← handle_event (wgt s) (key_event KEY_F2 0); continue (set_wgt w' s)
            else continue s
        | None => continue s
        end
      else dispatch s i e
  | EVENT_MOUSE_SCROLL => dispatch s i e
  | EVENT_KEY => if decide (code e = KEY_CHAR) then on_char cfg s i else on_key s i
  end.

Definition iteration (cfg : Config) (s : Session) (i : Input) : round :=
  let s := if decide (size i = last_size s) then s else set_last_size (size i) (set_wgt (resize (size i) (mark_dirty (wgt s))) s) in
  '(s, outs) ← (if widget_base_is_dirty (wgt s) then frame cfg (size i) s else Done (s, []) : exec (Session * list Output));
  '(s, outs', r) ← on_event cfg s i;
  Done (s, outs ++ outs', r).

(** Rounds until a response or the end of the inputs. *)
Fixpoint session_loop (cfg : Config) (s : Session) (ins : list Input) : round :=
  match ins with
  | [] => continue s
  | i :: ins' =>
      '(s1, o1, r) ← iteration cfg s i;
      match r with
      | Some r => Done (s1, o1, Some r)
      | None => '(s2, o2, r2) ← session_loop cfg s1 ins'; Done (s2, o1 ++ o2, r2)
      end
  end.
Definition session_run (cfg : Config) (w : W) (z : Z * Z) (ins : list Input) : round :=
  '(s, o) ← session_start cfg w z;
  '(s', o', r) ← session_loop cfg s ins;
  Done (s', o ++ o', r).
End loop.

(** Split a run that ended in [Done] into its steps. *)
Ltac run_steps :=
  repeat match goal with
  | H : mbind _ _ = Done _ |- _ => apply exec_bind_Done in H as (? & ? & H)
  | H : Done _ = Done _ |- _ => injection H as H; subst
  | H : Fault _ = Done _ |- _ => discriminate H
  | H : Fail = Done _ |- _ => discriminate H
  | x : _ * _ |- _ => destruct x
  | H : continue _ = Done _ |- _ => unfold continue in H
  | H : (if ?b then _ else _) = Done _ |- _ => destruct b eqn:?
  | H : match ?x with _ => _ end = Done _ |- _ => destruct x eqn:?
  end.

Section loop_facts.
Context (qsort : list Z -> list nat).
Context {W : Type} `{Widget W}.

Definition no_focus (s : Session (W := W)) : Prop :=
  last_render_tree s = None /\ focused_widget_id s = None /\ tooltip_target_id s = None.

Lemma dispatch_no_focus s i e s' o r : no_focus s -> dispatch s i e = Done (s', o, r) -> no_focus s'.
Proof. intros (H1 & H2 & H3) Hd. unfold dispatch in Hd. run_steps; done. Qed.
Lemma on_key_no_focus s i s' o r : no_focus s -> on_key s i = Done (s', o, r) -> no_focus s'.
Proof.
  intros Hs Hk. unfold on_key in Hk. destruct (decide _); [|by eapply dispatch_no_focus].
  unfold on_tab in Hk. rewrite (proj1 Hs) in Hk. by run_steps.
Qed.
Lemma on_char_no_focus cfg s i s' o r : no_focus s -> on_char cfg s i = Done (s', o, r) -> no_focus s'.
Proof.
  intros Hs Hc. assert (forall q, on_key s i = Done q -> no_focus q.1.1) as Hk.
  { intros [[s1 o1] r1]. by apply on_key_no_focus. }
  unfold on_char in Hc. run_steps; try done; try exact (Hk _ Hc); destruct Hs as (?&?&?); by repeat split.
Qed.
Lemma on_event_no_focus cfg s i s' o r : no_focus s -> on_event cfg s i = Done (s', o, r) -> no_focus s'.
Proof.
  intros Hs He. pose proof Hs as (H1 & H2 & H3). unfold on_event in He.
  assert (forall q, dispatch s i (ev i) = Done q -> no_focus q.1.1) as Hd by (intros [[? ?] ?]; by apply dispatch_no_focus).
  assert (forall q, on_key s i = Done q -> no_focus q.1.1) as Hk by (intros [[? ?] ?]; by apply on_key_no_focus).
  assert (forall q, on_char cfg s i = Done q -> no_focus q.1.1) as Hc by (intros [[? ?] ?]; by apply on_char_no_focus).
  cbn zeta in He. destruct (Widget.type (ev i)); cbn [set_tooltip last_render_tree] in He; rewrite ?H1, ?H3 in He; cbn [hit_test_opt] in He;
    run_steps; try done; first [exact (Hd _ He)|exact (Hk _ He)|exact (Hc _ He)|by repeat split].
Qed.
Lemma frame_no_focus cfg z s s' o : no_focus s -> frame qsort cfg z s = Done (s', o) -> no_focus s'.
Proof. intros (H1 & H2 & H3) Hf. unfold frame in Hf. by run_steps. Qed.
Lemma iteration_no_focus cfg s i s' o r : no_focus s -> iteration qsort cfg s i = Done (s', o, r) -> no_focus s'.
Proof.
  intros Hs Hi. unfold iteration in Hi. cbn zeta in Hi.
  set (s1 := if decide _ then _ else _) in Hi. assert (no_focus s1) as Hs1 by (unfold s1; by destruct (decide _)).
  apply exec_bind_Done in Hi as ([s2 o2] & Hf & Hi). apply exec_bind_Done in Hi as ([[s3 o3] r3] & He & Hi). injection Hi as <- <- <-.
  eapply on_event_no_focus; [|exact He]. destruct (widget_base_is_dirty _); [by eapply frame_no_focus|by run_steps].
Qed.

(** the tree the session tests against is never set: in every run the
    focus and the tooltip stay empty, Tab selects nothing, and the search with
    the NULL result pointer is never reached. *)
Theorem session_focus_dead cfg w z ins s o r :
  session_run qsort cfg w z ins = Done (s, o, r) ->
  last_render_tree s = None /\ focused_widget_id s = None /\ tooltip_target_id s = None.
Proof.
  intros Hr. unfold session_run in Hr. apply exec_bind_Done in Hr as ([s0 o0] & Hs & Hr).
  apply exec_bind_Done in Hr as ([[s1 o1] r1] & Hl & Hr). injection Hr as <- _ _.
  assert (no_focus s0) as H0. { unfold session_start in Hs. by eapply frame_no_focus in Hs. }
  clear Hs. change (no_focus s1). revert s0 o1 H0 Hl. induction ins as [|i ins IH]; intros s0 o1 H0 Hl; [cbn [session_loop] in Hl; by run_steps|].
  cbn [session_loop] in Hl. apply exec_bind_Done in Hl as ([[s2 o2] r2] & Hi & Hl). apply iteration_no_focus in Hi; [|done].
  destruct r2; [by run_steps|]. apply exec_bind_Done in Hl as ([[s3 o3] r3] & Hl & He). injection He as <- _ <-. by eapply IH.
Qed.

Definition is_draw (o : Output) : bool := match o with ODraw _ => true | _ => false end.

Lemma dispatch_draws (s : Session (W := W)) i e s' o r : dispatch s i e = Done (s', o, r) -> filter (fun x => is_draw x = true) o = [].
Proof. intros Hd. unfold dispatch in Hd. by run_steps. Qed.
Lemma on_key_draws (s : Session (W := W)) i s' o r : on_key s i = Done (s', o, r) -> filter (fun x => is_draw x = true) o = [].
Proof. intros Hk. unfold on_key in Hk. destruct (decide _); [by run_steps|by eapply dispatch_draws]. Qed.
Lemma on_event_draws cfg (s : Session (W := W)) i s' o r : on_event cfg s i = Done (s', o, r) -> filter (fun x => is_draw x = true) o = [].
Proof.
  intros He. unfold on_event, on_char in He. cbn zeta in He. run_steps; try done; try (repeat case_match; done); first [by eapply dispatch_draws|by eapply on_key_draws].
Qed.

(** a round draws exactly when the widget is dirty or the surface changed
    its size, and what it draws is the layout, for the current size, of what
    the widget renders. *)
Theorem iteration_draws cfg s i s' o r : iteration qsort cfg s i = Done (s', o, r) ->
  let w := if decide (size i = last_size s) then wgt s else resize (size i) (mark_dirty (wgt s)) in
  let draws := filter (fun x => is_draw x = true) o in
  if widget_base_is_dirty w
  then exists w' tree laid, render w = Done (w', tree) /\
    layout_tree qsort (Some tree) (size i).1 (size i).2 (is_pixel cfg) = Done laid /\
    draws = match laid with Some t => [ODraw t] | None => [] end
  else draws = [].
Proof.
  intros Hi w draws. unfold iteration in Hi. cbn zeta in Hi.
  set (s1 := if decide _ then _ else _) in Hi. assert (wgt s1 = w) as Hw by (unfold s1, w; by destruct (decide _)).
  apply exec_bind_Done in Hi as ([s2 o2] & Hf & Hi). apply exec_bind_Done in Hi as ([[s3 o3] r3] & He & Hi). injection Hi as <- <- <-.
  apply on_event_draws in He. unfold draws. rewrite list.filter_app, He, app_nil_r. rewrite Hw in Hf.
  destruct (widget_base_is_dirty w); [|by run_steps]. unfold frame in Hf. rewrite Hw in Hf.
  apply exec_bind_Done in Hf as ([w' tree] & H1 & Hf). apply exec_bind_Done in Hf as (laid & H2 & Hf). injection Hf as <- <-.
  exists w', tree, laid. split; [done|]. split; [done|]. by destruct laid.
Qed.

Hypothesis qsort_perm : forall ks, qsort ks ≡ₚ seq 0 (length ks).
Hypothesis render_total : forall w : W, exists w' t, render w = Done (w', t).

Lemma frame_total cfg z s : exists s' o, frame qsort cfg z s = Done (s', o) /\ idle_count s' = idle_count s.
Proof.
  unfold frame. destruct (render_total (wgt s)) as (w' & t & ->). cbn [mbind exec_bind].
  destruct (layout_total qsort qsort_perm t z.1 z.2 (is_pixel cfg)) as (t' & -> & _). cbn. by eexists _, _.
Qed.

Lemma iteration_idle cfg s i : is_interactive cfg = false -> Widget.type (ev i) = EVENT_NONE ->
  exists s' o, iteration qsort cfg s i = Done (s', o, if 5000 <? idle_count s + 1 then Some timeout else None) /\
    idle_count s' = idle_count s + 1.
Proof.
  intros Hc He. unfold iteration. cbn zeta. set (s1 := if decide _ then _ else _).
  assert (idle_count s1 = idle_count s) as H1 by (unfold s1; by destruct (decide _)).
  assert (exists s2 o2, (if widget_base_is_dirty (wgt s1) then frame qsort cfg (size i) s1 else Done (s1, [])) = Done (s2, o2) /\
    idle_count s2 = idle_count s) as (s2 & o2 & -> & H2).
  { destruct (widget_base_is_dirty _); [|by exists s1, []]. destruct (frame_total cfg (size i) s1) as (s2 & o2 & -> & ?).
    exists s2, o2. split; [done|]. congruence. }
  cbn [mbind exec_bind]. unfold on_event. rewrite He, Hc. cbn zeta. cbn [set_idle idle_count]. rewrite H2.
  destruct (5000 <? idle_count s + 1); by eexists _, _.
Qed.

(** C33: without input a session on a non-interactive backend ends: after 5001
    empty rounds, and no sooner, it returns a response that is neither a
    result nor a cancellation. *)
Theorem session_times_out cfg w z ins : is_interactive cfg = false ->
  Forall (fun i => Widget.type (ev i) = EVENT_NONE) ins ->
  exists s o, session_run qsort cfg w z ins = Done (s, o, if 5000 <? Z.of_nat (length ins) then Some timeout else None).
Proof.
  intros Hc Hins. unfold session_run, session_start. cbn zeta.
  match goal with |- context [frame qsort cfg z ?s] => destruct (frame_total cfg z s) as (s1 & o1 & -> & H1) end.
  cbn [idle_count] in H1. cbn [mbind exec_bind].
  assert (forall n s, 0 <= n <= 5000 -> idle_count s = n -> exists s' o, session_loop qsort cfg s ins =
    Done (s', o, if 5000 <? n + Z.of_nat (length ins) then Some timeout else None)) as Hl.
  { clear -Hc Hins qsort_perm render_total. induction Hins as [|i ins Hi _ IH]; intros n s Hn Hs.
    - exists s, []. rewrite (proj2 (Z.ltb_ge _ _)) by (simpl; lia). done.
    - cbn [session_loop]. destruct (iteration_idle cfg s i Hc Hi) as (s2 & o2 & -> & H2). rewrite Hs in *. cbn [mbind exec_bind].
      destruct (5000 <? n + 1) eqn:E; simp_bool.
      + exists s2, o2. rewrite (proj2 (Z.ltb_lt _ _)) by (simpl; lia). done.
      + destruct (IH (n + 1) s2 ltac:(lia) H2) as (s3 & o3 & ->). cbn [mbind exec_bind]. eexists _, _.
        cbn [length]. rewrite Nat2Z.inj_succ. replace (n + 1 + Z.of_nat (length ins)) with (n + Z.succ (Z.of_nat (length ins))) by lia. done. }
  destruct (Hl 0 s1 ltac:(lia) H1) as (s2 & o2 & ->). cbn. by eexists _, _.
Qed.
End loop_facts.
