(* ===== verification/Boxes.v ===== *)
(** What the widgets of src/src/core/widgets share: the nodes of a dialog box
    and the two kinds of answers. Strings copied into the session's arena are
    their text, and a drawing is the tree it leaves when the arena has room for
    it: the widgets keep their pointers while they ask for more memory, and one
    that makes the arena grow uses freed memory. [Arena.arena_frame] is the
    arena's part of a frame, and [Factories.Served.frames_run] draws in it. *)

From Stdlib Require Import SpecFloat.
From S2P Require Import Prelude Double CJson Protocol Widget RenderTree.

Definition cancelled_response : EventResult := event_result_response (mkResponse None true None).
Definition answer (r : option cJSON) : EventResult := event_result_response (mkResponse r false None).

Definition set_class (c : string) (i : NodeInfo) : NodeInfo :=
  mkInfo (rect i) (target_rect i) (has_target_rect i) (Some c) (state i) (resolved_style i) (dirty i) (z_index i)
    (anchor i) (anchor_dx i) (anchor_dy i) (relative_to i) (overflow i) (tooltip i) (tab_index i) (role i) (access_label i).
Definition set_state (s : string) (i : NodeInfo) : NodeInfo :=
  mkInfo (rect i) (target_rect i) (has_target_rect i) (style_class i) (Some s) (resolved_style i) (dirty i) (z_index i)
    (anchor i) (anchor_dx i) (anchor_dy i) (relative_to i) (overflow i) (tooltip i) (tab_index i) (role i) (access_label i).
Definition set_access (r : string) (l : option string) (i : NodeInfo) : NodeInfo :=
  mkInfo (rect i) (target_rect i) (has_target_rect i) (style_class i) (state i) (resolved_style i) (dirty i) (z_index i)
    (anchor i) (anchor_dx i) (anchor_dy i) (relative_to i) (overflow i) (tooltip i) (tab_index i) (Some r) l.
Definition set_tab_index (t : Z) (i : NodeInfo) : NodeInfo :=
  mkInfo (rect i) (target_rect i) (has_target_rect i) (style_class i) (state i) (resolved_style i) (dirty i) (z_index i)
    (anchor i) (anchor_dx i) (anchor_dy i) (relative_to i) (overflow i) (tooltip i) t (role i) (access_label i).

(** A child in memory the arena cleared, and did not move since. *)
Definition child_node (cls : string) (r : Rect) (c : Content RenderTree) : RenderTree :=
  mkTree (set_class cls (set_rect r info_zero)) c.
Definition with_state (s : string) (t : RenderTree) : RenderTree := mkTree (set_state s (info t)) (u t).
Definition text_node (r : Rect) (s : string) (a : Alignment) : RenderTree := child_node "text" r (RNODE_TEXT (Some s) a).

(** Escape, and the cases of a key handler. *)
Definition cancelled_answer (r : WidgetResponse) : Prop := r = mkResponse None true None.
Ltac key_cases ev := destruct (Widget.type ev); [|destruct (code ev)|..].

(** [d->title && strlen(d->title)] *)
Definition shown (o : option string) : option string :=
  match o with Some EmptyString => None | o => o end.
Definition is_shown (o : option string) : bool := match shown o with Some _ => true | None => false end.

(** The container node of a widget, centred in its area. *)
Definition box (b : WidgetBase) (r l : string) (title : option string) (w h : Z) (children : list RenderTree) : RenderTree :=
  let area := render_area b in
  let i := set_tab_index (if 0 <=? base_tab_index b then base_tab_index b else 0) (set_class "container" info_zero) in
  mkTree (set_rect (rect_new (cdiv (rw area - w) 2) (cdiv (rh area - h) 2) w h) (set_access r (Some (default l title)) i))
    (RNODE_CONTAINER None BORDER_SINGLE edgeinsets_zero children).

(** [if (x > limit) x = limit] *)
Definition at_most (limit x : Z) : Z := if limit <? x then limit else x.
Definition at_least (limit x : Z) : Z := if x <? limit then limit else x.

Definition list_items (labels : list string) : list ListItem := map (fun l => mkListItem (Some l) None) labels.
(** [" %s %s"] with a mark *)
Definition marked (size : nat) (mark choice : string) : string := strtake size (" " +:+ mark +:+ " " +:+ choice).

(** The positions of the choices that contain the query, whatever the case. *)
Definition contains (query : list ascii) (choice : string) : bool := strstr (map tolower (chars choice)) (map tolower query).
Definition matching (choices : list string) (query : list ascii) : list nat :=
  let all := seq 0 (length choices) in
  match query with
  | [] => all
  | _ => filter (fun i => match choices !! i with Some c => contains query c | None => false end = true) all
  end.
Lemma contains_nil c : contains [] c = true.
Proof. unfold contains. by destruct (map tolower (chars c)). Qed.
Lemma matching_spec choices query i : i ∈ matching choices query <-> exists c, choices !! i = Some c /\ contains query c = true.
Proof.
  assert (i ∈ seq 0 (length choices) <-> exists c, choices !! i = Some c) as Hs by (rewrite elem_of_seq; pose proof (lookup_lt_is_Some choices i) as Hl; unfold is_Some in Hl; lia || intuition lia).
  unfold matching. destruct query as [|q0 query].
  - rewrite Hs. split; intros (c & Hc); [exists c; split; [done|apply contains_nil]|exists c; apply Hc].
  - rewrite list_elem_of_filter, Hs. split.
    + intros [Hm (c & Hc)]. exists c. by rewrite Hc in Hm.
    + intros (c & Hc & Hm). split; [by rewrite Hc|by exists c].
Qed.

Fixpoint count_true (l : list bool) : Z :=
  match l with [] => 0 | b :: l' => (if b then 1 else 0) + count_true l' end.

Lemma count_true_range l : 0 <= count_true l <= Z.of_nat (length l).
Proof. induction l as [|[] l IH]; cbn [count_true length]; lia. Qed.
Lemma count_true_set l i b : l !! i = Some b -> count_true (<[i := negb b]> l) = count_true l + (if b then -1 else 1).
Proof.
  revert i. induction l as [|c l IH]; intros [|i] H; try done.
  - injection H as ->. destruct b; cbn; lia.
  - change (<[S i := negb b]> (c :: l)) with (c :: <[i := negb b]> l). cbn [count_true]. rewrite (IH i H). lia.
Qed.

(** The choices whose flag is set, in order. *)
Fixpoint picked (choices : list string) (flags : list bool) : list string :=
  match choices, flags with
  | c :: cs, f :: fs => if f then c :: picked cs fs else picked cs fs
  | _, _ => []
  end.
Definition picked_array (choices : list string) (flags : list bool) : cJSON :=
  foldl (fun arr '(c, f) => if (f : bool) then cJSON_AddItemToArray arr (cJSON_CreateString (Some c)) else arr)
    cJSON_CreateArray (zip choices flags).

Definition string_item (s : string) : cJSON := set_string (Some s) (set_type cJSON_String cJSON_New_Item).

Lemma picked_array_spec choices flags : picked_array choices flags = set_child (map string_item (picked choices flags)) cJSON_CreateArray.
Proof.
  unfold picked_array. assert (forall l, foldl (fun arr '(c, f) => if (f : bool) then cJSON_AddItemToArray arr (cJSON_CreateString (Some c)) else arr)
    (set_child l cJSON_CreateArray) (zip choices flags) = set_child (l ++ map string_item (picked choices flags)) cJSON_CreateArray) as H.
  { revert flags. induction choices as [|c cs IH]; intros [|f fs] l; cbn [zip zip_with foldl picked map]; try by rewrite app_nil_r.
    destruct f; [|apply IH]. cbn [map]. change (string_item c :: ?x) with ([string_item c] ++ x). 
    rewrite (assoc_L (++)). exact (IH fs (l ++ [string_item c])). }
  exact (H []).
Qed.
