(* ===== verification/Displays.v ===== *)
(** Widgets that show something and are dismissed, or step through a few values:
    src/src/core/widgets/separator.c, rich_text.c, tooltip.c, badge.c, video.c,
    notification.c, spinner.c, gauge.c, summary.c, plot.c, image.c, markdown.c,
    color_picker.c and split_panes.c.

    The clock, the files and the image decoder of stb are parameters: what the
    n-th call of [time] answers, what a path holds, the size of the picture at a
    path. *)

From Stdlib Require Import SpecFloat.
From S2P Require Import Prelude Double Float CJson Protocol Widget RenderTree Color Boxes.

(** A node of a widget that is skipped by the focus unless it was given a tab
    index, without and with a style class. *)
Definition bare_node (b : WidgetBase) (r : string) (l : option string) (rc : Rect) (c : Content RenderTree) : RenderTree :=
  mkTree (set_rect rc (set_access r l (set_tab_index (if 0 <=? base_tab_index b then base_tab_index b else -1) info_zero))) c.
Definition shown_node (cls : string) (b : WidgetBase) (r : string) (l : option string) (rc : Rect) (c : Content RenderTree) : RenderTree :=
  on_info (set_class cls) (bare_node b r l rc c).
Definition framed (children : list RenderTree) : Content RenderTree := RNODE_CONTAINER None BORDER_SINGLE edgeinsets_zero children.
Definition centred (area : Rect) (w h : Z) : Rect := rect_new (cdiv (rw area - w) 2) (cdiv (rh area - h) 2) w h.
(** Any key answers, with no value. *)
Definition dismissed {D} (d : D) (ev : Event) : exec (D * EventResult) :=
  match Widget.type ev with EVENT_KEY => Done (d, answer None) | _ => Done (d, event_result_unhandled) end.
Definition muted_text (r : Rect) (s : string) : RenderTree := with_state "muted" (text_node r s ALIGN_LEFT).
Definition title_text (r : Rect) (s : string) : RenderTree := with_state "title" (text_node r s ALIGN_LEFT).

(** ** separator.c *)

Module Separator.
Record SeparatorData := mk { wb : WidgetBase; orientation : Orientation }.
Definition with_base (b : WidgetBase) (d : SeparatorData) : SeparatorData := mk b (orientation d).
Definition separator_render (d : SeparatorData) : RenderTree :=
  shown_node "separator" (wb d) "separator" (Some EmptyString) (render_area (wb d)) (RNODE_LEAF (RNODE_SEPARATOR (orientation d))).
Definition separator_handle_event (d : SeparatorData) (ev : Event) : exec (SeparatorData * EventResult) :=
  match Widget.type ev, code ev with EVENT_KEY, KEY_ESC => Done (d, answer None) | _, _ => Done (d, event_result_unhandled) end.
Definition separator_widget_new (o : Orientation) : SeparatorData := mk (base_new false) o.
#[global] Program Instance separator_widget : Widget SeparatorData := {|
  base := wb; set_base := with_base; render d := Done (d, separator_render d); handle_event := separator_handle_event |}.
Solve Obligations with by destruct w.
End Separator.

(** ** rich_text.c, tooltip.c, badge.c and video.c *)

Module RichText.
Record RichTextData := mk { wb : WidgetBase; content : string }.
Definition with_base (b : WidgetBase) (d : RichTextData) : RichTextData := mk b (content d).
Definition rich_text_render (d : RichTextData) : RenderTree :=
  shown_node "rich_text" (wb d) "text" (Some (content d)) (render_area (wb d)) (RNODE_LEAF (RNODE_RICH_TEXT (Some (content d)))).
Definition rich_text_handle_event : RichTextData -> Event -> exec (RichTextData * EventResult) := dismissed.
Definition rich_text_widget_new (c : string) : RichTextData := mk (base_new false) c.
#[global] Program Instance rich_text_widget : Widget RichTextData := {|
  base := wb; set_base := with_base; render d := Done (d, rich_text_render d); handle_event := rich_text_handle_event |}.
Solve Obligations with by destruct w.
End RichText.

Module Tooltip.
Record TooltipData := mk { wb : WidgetBase; text : string }.
Definition with_base (b : WidgetBase) (d : TooltipData) : TooltipData := mk b (text d).
Definition tooltip_render (d : TooltipData) : RenderTree :=
  shown_node "text" (wb d) "tooltip" (Some (text d)) (render_area (wb d)) (RNODE_TEXT (Some (text d)) ALIGN_LEFT).
Definition tooltip_handle_event : TooltipData -> Event -> exec (TooltipData * EventResult) := dismissed.
Definition tooltip_widget_new (t : string) : TooltipData := mk (base_new false) t.
#[global] Program Instance tooltip_widget : Widget TooltipData := {|
  base := wb; set_base := with_base; render d := Done (d, tooltip_render d); handle_event := tooltip_handle_event |}.
Solve Obligations with by destruct w.
End Tooltip.

Module Badge.
Record BadgeData := mk { wb : WidgetBase; text : string }.
Definition with_base (b : WidgetBase) (d : BadgeData) : BadgeData := mk b (text d).
(** The tab index stays that of cleared memory. *)
Definition badge_render (d : BadgeData) : RenderTree :=
  let is_gui := 200 <? rw (render_area (wb d)) in
  let text_w := if is_gui then strlen (text d) * 14 + 24 else strlen (text d) + 4 in
  mkTree (set_rect (rect_new 0 0 text_w (if is_gui then 34 else 1)) (set_access "label" (Some (text d)) (set_class "badge" info_zero)))
    (RNODE_LEAF (RNODE_BADGE (Some (text d)))).
Definition badge_handle_event : BadgeData -> Event -> exec (BadgeData * EventResult) := dismissed.
Definition badge_widget_new (t : string) : BadgeData := mk (base_new false) t.
#[global] Program Instance badge_widget : Widget BadgeData := {|
  base := wb; set_base := with_base; render d := Done (d, badge_render d); handle_event := badge_handle_event |}.
Solve Obligations with by destruct w.
End Badge.

Module Video.
Record VideoData := mk { wb : WidgetBase; source : string; loops : bool }.
Definition with_base (b : WidgetBase) (d : VideoData) : VideoData := mk b (source d) (loops d).
Definition video_render (d : VideoData) : RenderTree :=
  let area := render_area (wb d) in
  shown_node "video" (wb d) "video" (Some (source d)) (rect_new 0 0 (rw area) (rh area)) (RNODE_LEAF (RNODE_VIDEO (Some (source d)) (loops d))).
Definition video_handle_event : VideoData -> Event -> exec (VideoData * EventResult) := dismissed.
Definition video_widget_new (s : option string) (l : bool) : VideoData := mk (base_new false) (default EmptyString s) l.
#[global] Program Instance video_widget : Widget VideoData := {|
  base := wb; set_base := with_base; render d := Done (d, video_render d); handle_event := video_handle_event |}.
Solve Obligations with by destruct w.
End Video.

(** ** notification.c *)

Module Notification.
Section notification.
(** What the n-th call of [time(NULL)] answers. *)
Variable time : nat -> Z.
(** [calls] counts the calls of [time] so far. *)
Record NotificationData := mk { wb : WidgetBase; message : string; duration : Z; start : Z; calls : nat }.
Definition with_base (b : WidgetBase) (d : NotificationData) : NotificationData := mk b (message d) (duration d) (start d) (calls d).
Definition called (d : NotificationData) : NotificationData := mk (wb d) (message d) (duration d) (start d) (S (calls d)).
Definition expired (d : NotificationData) : bool := duration d <? time (calls d) - start d.
Definition notification_render (d : NotificationData) : NotificationData * RenderTree :=
  let area := render_area (wb d) in
  let w := at_most (rw area - 4) 40 in
  (called d,
   if expired d then bare_node (wb d) "notification" (Some (message d)) (rect_new 0 0 0 0) (RNODE_TEXT (Some EmptyString) ALIGN_LEFT)
   else bare_node (wb d) "notification" (Some (message d)) (rect_new (rx area + rw area - w - 2) (ry area + rh area - 3 - 2) w 3)
     (framed [child_node "toast" (rect_new 1 1 (w - 2) 1) (RNODE_LEAF (RNODE_TOAST (Some (message d))))])).
Definition notification_handle_event (d : NotificationData) (ev : Event) : exec (NotificationData * EventResult) :=
  Done (called d, if expired d then answer None else event_result_handled).
Definition notification_widget_new (m : string) (dur : Z) (n : nat) : NotificationData := mk (base_new false) m dur (time n) (S n).
#[global] Program Instance notification_widget : Widget NotificationData := {|
  base := wb; set_base := with_base; render d := Done (notification_render d); handle_event := notification_handle_event |}.
Solve Obligations with by destruct w.
End notification.
End Notification.

(** ** spinner.c, gauge.c and summary.c *)

Module Spinner.
Record SpinnerData := mk { wb : WidgetBase; message : string; frame : Z }.
Definition with_base (b : WidgetBase) (d : SpinnerData) : SpinnerData := mk b (message d) (frame d).
Definition spinner_render (d : SpinnerData) : RenderTree :=
  let area := render_area (wb d) in
  let box_w := at_most (rw area - 2) 40 in
  let box_h := at_most (rh area - 2) 5 in
  shown_node "container" (wb d) "spinner" (Some (message d)) (centred area box_w box_h)
    (framed [child_node "spinner" (rect_new 1 1 (box_w - 2) 1) (RNODE_LEAF (RNODE_SPINNER (Some (message d)) (frame d)));
             muted_text (rect_new 1 (box_h - 2) (box_w - 2) 1) "Esc:cancel"]).
Definition spinner_handle_event (d : SpinnerData) (ev : Event) : exec (SpinnerData * EventResult) :=
  let d := mk (base_set_dirty true (wb d)) (message d) (cmod (frame d + 1) 10) in
  match Widget.type ev, code ev with EVENT_KEY, KEY_ESC => Done (d, cancelled_response) | _, _ => Done (d, event_result_handled) end.
Definition spinner_widget_new (m : string) : SpinnerData := mk (base_new false) m 0.
#[global] Program Instance spinner_widget : Widget SpinnerData := {|
  base := wb; set_base := with_base; render d := Done (d, spinner_render d); handle_event := spinner_handle_event |}.
Solve Obligations with by destruct w.
End Spinner.

Module Gauge.
Record GaugeData := mk { wb : WidgetBase; title : string; label : string; percent : Z }.
Definition with_base (b : WidgetBase) (d : GaugeData) : GaugeData := mk b (title d) (label d) (percent d).
Definition gauge_render (d : GaugeData) : RenderTree :=
  let area := render_area (wb d) in
  let box_w := at_most (rw area - 2) 50 in
  let box_h := at_most (rh area - 2) 6 in
  shown_node "container" (wb d) "gauge" (Some (title d)) (centred area box_w box_h)
    (framed [title_text (rect_new 1 0 (box_w - 2) 1) (title d);
             child_node "gauge" (rect_new 1 2 (box_w - 2) 2) (RNODE_GAUGE (percent d) (Some (label d)));
             muted_text (rect_new 1 (box_h - 2) (box_w - 2) 1) "Any key to dismiss"]).
Definition gauge_handle_event : GaugeData -> Event -> exec (GaugeData * EventResult) := dismissed.
Definition gauge_widget_new (t : string) (p : Z) (l : string) : GaugeData := mk (base_new false) t l p.
#[global] Program Instance gauge_widget : Widget GaugeData := {|
  base := wb; set_base := with_base; render d := Done (d, gauge_render d); handle_event := gauge_handle_event |}.
Solve Obligations with by destruct w.
End Gauge.

Module Summary.
Section summary.
(** The characters of the files that can be opened. *)
Variable files : string -> option (list ascii).
Record SummaryData := mk { wb : WidgetBase; title : string; text : string }.
Definition with_base (b : WidgetBase) (d : SummaryData) : SummaryData := mk b (title d) (text d).
Definition summary_render (d : SummaryData) : RenderTree :=
  let area := render_area (wb d) in
  let box_w := at_most (rw area - 2) (scale_int (rw area) 8 1) in
  let box_h := at_most (rh area - 2) (scale_int (rh area) 8 1) in
  shown_node "container" (wb d) "summary" (Some (title d)) (centred area box_w box_h)
    (framed [title_text (rect_new 1 0 (box_w - 2) 1) (title d);
             text_node (rect_new 1 1 (box_w - 2) (box_h - 3)) (text d) ALIGN_LEFT;
             muted_text (rect_new 1 (box_h - 2) (box_w - 2) 1) "Any key to continue  Esc:cancel"]).
Definition summary_handle_event (d : SummaryData) (ev : Event) : exec (SummaryData * EventResult) :=
  match Widget.type ev with
  | EVENT_KEY => match code ev with KEY_ESC => Done (d, cancelled_response) | _ => Done (d, answer None) end
  | _ => Done (d, event_result_unhandled)
  end.
Definition summary_widget_new (t : string) (m path : option string) : SummaryData :=
  mk (base_new false) t
    (match path with
     | Some p => match files p with
                 | Some l => of_chars (span (fun c => negb (Ascii.eqb c NUL)) l)
                 | None => "[Error reading file]"%string
                 end
     | None => default EmptyString m
     end).
End summary.
#[global] Program Instance summary_widget : Widget SummaryData := {|
  base := wb; set_base := with_base; render d := Done (d, summary_render d); handle_event := summary_handle_event |}.
Solve Obligations with by destruct w.
End Summary.

(** ** plot.c *)

Module Plot.
Record PlotData := mk { wb : WidgetBase; plot_type : string; data : list double; labels : list string }.
Definition with_base (b : WidgetBase) (d : PlotData) : PlotData := mk b (plot_type d) (data d) (labels d).
Definition data_count (d : PlotData) : Z := Z.of_nat (length (data d)).
(** The node is turned into a container after its plot was filled in: of the
    members of the union only the first pointer, the type, is left, where the
    container has its background. *)
Definition plot_render (d : PlotData) : RenderTree :=
  let area := render_area (wb d) in
  let ch := if 200 <? rw area then 30 else 1 in
  let box_w := at_most (rw area - 2) (scale_int (rw area) 8 1) in
  let box_h := at_most (rh area - 2) (scale_int (rh area) 8 1) in
  let title := strtake 127 (plot_type d +:+ " chart (" +:+ int_string (data_count d) +:+ " points)") in
  shown_node "plot" (wb d) "plot" (Some (plot_type d)) (centred area box_w box_h)
    (RNODE_CONTAINER (Some (plot_type d)) BORDER_SINGLE edgeinsets_zero
      [title_text (rect_new ch 0 (box_w - 2 * ch) ch) title;
       muted_text (rect_new ch (box_h - 2 * ch) (box_w - 2 * ch) ch) "Any key to continue"]).
Definition plot_handle_event : PlotData -> Event -> exec (PlotData * EventResult) := dismissed.
(** [n] elements of [l] *)
Definition first_of {A} (n : Z) (l : list A) : exec (list A) := mapM (fun i => at_index (l !! i)) (seq 0 (Z.to_nat n)).
(** The label after the last is the NULL that ends the array. *)
Definition plot_widget_new (t : option string) (xs : list double) (n : Z) (ls : option (list string)) (ln : Z) : exec PlotData :=
  if n <? 0 then Fault OutOfBounds else
  xs ← first_of n xs;
  ls ← match ls with
       | Some ls => mapM (fun i => if (i <=? length ls)%nat then deref (ls !! i) else Fault OutOfBounds) (seq 0 (Z.to_nat ln))
       | None => Done (replicate (Z.to_nat ln) EmptyString)
       end;
  Done (mk (base_new false) (default "line"%string t) xs ls).
#[global] Program Instance plot_widget : Widget PlotData := {|
  base := wb; set_base := with_base; render d := Done (d, plot_render d); handle_event := plot_handle_event |}.
Solve Obligations with by destruct w.
End Plot.

(** ** image.c *)

Module Image.
Section image.
(** The size of the picture [stbi_load] finds at a path. *)
Variable stbi_load : string -> option (Z * Z).
(** [pixels]: the size of the picture that was loaded, with [loaded]. *)
Record ImageData := mk { wb : WidgetBase; source : string; fit : string; width : Z; height : Z; pixels : option (Z * Z) }.
Definition with_base (b : WidgetBase) (d : ImageData) : ImageData := mk b (source d) (fit d) (width d) (height d) (pixels d).
Definition load (d : ImageData) : ImageData :=
  match pixels d, source d with
  | None, String _ _ => mk (wb d) (source d) (fit d) (width d) (height d) (stbi_load (source d))
  | _, _ => d
  end.
(** The size of a picture of [pix_w] times [pix_h] in a display. *)
Definition fitted (fit : string) (display_w display_h pix_w pix_h : Z) : Z * Z :=
  let scale_x := f_div (f_of_Z display_w) (f_of_Z pix_w) in
  let scale_y := f_div (f_of_Z display_h) (f_of_Z pix_h) in
  let scale :=
    if decide (fit = "cover"%string) then (if SFltb scale_y scale_x then scale_x else scale_y)
    else if decide (fit = "fill"%string) then f_zero
    else (if SFltb scale_x scale_y then scale_x else scale_y) in
  if SFltb f_zero scale then (f_to_int (f_mul (f_of_Z pix_w) scale), f_to_int (f_mul (f_of_Z pix_h) scale))
  else (display_w, display_h).
Definition image_render (d0 : ImageData) : ImageData * RenderTree :=
  let area := render_area (wb d0) in
  let d := load d0 in
  let display_w := if 0 <? width d then width d else rw area in
  let display_h := if 0 <? height d then height d else rh area in
  let node r w h := shown_node "image" (wb d) "image" (Some (source d)) r (RNODE_LEAF (RNODE_IMAGE (Some (source d)) (Some (fit d)) w h)) in
  (d, match pixels d with
      | Some (pix_w, pix_h) =>
          if (0 <? pix_w) && (0 <? pix_h) then
            let '(img_w, img_h) := fitted (fit d) display_w display_h pix_w pix_h in
            node (centred area img_w img_h) img_w img_h
          else node (rect_new 0 0 display_w display_h) display_w display_h
      | None => node (rect_new 0 0 display_w display_h) display_w display_h
      end).
Definition image_handle_event (d : ImageData) (ev : Event) : exec (ImageData * EventResult) :=
  match Widget.type ev with
  | EVENT_KEY | EVENT_MOUSE_BUTTON => Done (d, answer None)
  | _ => Done (d, event_result_unhandled)
  end.
Definition image_widget_new (s f : option string) (w h : Z) : ImageData :=
  mk (base_new false) (default EmptyString s) (default "contain"%string f) w h None.
#[global] Program Instance image_widget : Widget ImageData := {|
  base := wb; set_base := with_base; render d := Done (image_render d); handle_event := image_handle_event |}.
Solve Obligations with by destruct w.
End image.
End Image.

(** ** markdown.c *)

Module Markdown.
Record MarkdownData := mk { wb : WidgetBase; content : string }.
Definition with_base (b : WidgetBase) (d : MarkdownData) : MarkdownData := mk b (content d).
Definition LF : ascii := "010".
Definition line_count (l : list ascii) : nat := S (length (List.filter (Ascii.eqb LF) l)).
(** The tokens of [strtok_r] at line feeds; [cur] is the token begun. *)
Fixpoint tokens (l cur : list ascii) : list (list ascii) :=
  let flush := match cur with [] => [] | _ => [cur] end in
  match l with
  | [] => flush
  | c :: l' => if Ascii.eqb c LF then flush ++ tokens l' [] else tokens l' (cur ++ [c])
  end.
(** What is shown of a line, and whether as a title. *)
Definition shown_line (l : list ascii) : list ascii * bool :=
  if has_prefix (chars "# ") l then (drop 2 l, true)
  else if has_prefix (chars "## ") l then (drop 3 l, true)
  else if has_prefix (chars "- ") l then (take 1023 (chars "  • " ++ drop 2 l), false)
  else (l, false).
Definition parse_line (l : list ascii) (r : Rect) : RenderTree :=
  let '(s, is_title) := shown_line l in
  if is_title : bool then title_text r (of_chars s) else text_node r (of_chars s) ALIGN_LEFT.
(** Each line in its place of the array with [room] places left. *)
Fixpoint parse_lines (room : nat) (i : Z) (w ch : Z) (ls : list (list ascii)) : exec (list RenderTree) :=
  match ls, room with
  | [], _ => Done []
  | _ :: _, O => Fault OutOfBounds
  | l :: ls', S room' => ts ← parse_lines room' (i + 1) w ch ls'; Done (parse_line l (rect_new 1 (1 + i * ch) w ch) :: ts)
  end.
Definition markdown_render (d : MarkdownData) : exec (MarkdownData * RenderTree) :=
  let area := render_area (wb d) in
  let ch := if 200 <? rw area then 30 else 1 in
  let box_w := at_most (rw area - 2) (scale_int (rw area) 8 1) in
  children ← parse_lines (line_count (chars (content d))) 0 (box_w - 2) ch (tokens (chars (content d)) []);
  let box_h := at_most (rh area) (Z.of_nat (length children) * ch + 2) in
  Done (d, shown_node "container" (wb d) "markdown" (Some "Markdown content"%string) (centred area box_w box_h) (framed children)).
Definition markdown_handle_event : MarkdownData -> Event -> exec (MarkdownData * EventResult) := dismissed.
Definition markdown_widget_new (c : option string) : MarkdownData := mk (base_new false) (default EmptyString c).
#[global] Program Instance markdown_widget : Widget MarkdownData := {|
  base := wb; set_base := with_base; render := markdown_render; handle_event := markdown_handle_event |}.
Solve Obligations with by destruct w.
End Markdown.

(** ** color_picker.c *)

Module ColorPicker.
Record ColorPickerData := mk { wb : WidgetBase; title : string; r : Z; g : Z; b : Z; channel : Z }.
Definition with_base (x : WidgetBase) (d : ColorPickerData) : ColorPickerData := mk x (title d) (r d) (g d) (b d) (channel d).
(** "%02X" *)
Definition HEX_digit (v : Z) : ascii := ascii_of_N (Z.to_N (if v <? 10 then 48 + v else 55 + v)).
Fixpoint HEX_digits (fuel : nat) (v : Z) (acc : list ascii) : list ascii :=
  match fuel with
  | O => acc
  | S fuel' => let acc := HEX_digit (v mod 16) :: acc in if v <? 16 then acc else HEX_digits fuel' (v / 16) acc
  end.
Definition HEX2 (v : Z) : list ascii := let v := u32 v in (if v <? 16 then ["0"%char] else []) ++ HEX_digits 8 v [].
Definition hex (d : ColorPickerData) : list ascii := "#"%char :: HEX2 (r d) ++ HEX2 (g d) ++ HEX2 (b d).

(** [for (j = from; j < to; j++) bar[j] = c] in an array of 128. *)
Definition fill (from to : Z) (c : ascii) (bar : list ascii) : exec (list ascii) :=
  if to <=? from then Done bar
  else if (from <? 0) || (128 <? to) then Fault OutOfBounds
  else Done (take (Z.to_nat from) bar ++ replicate (Z.to_nat (to - from)) c ++ drop (Z.to_nat to) bar).
Definition filled (v bar_w : Z) : Z := f_to_int (f_mul (f_div (f_of_Z v) (f_of_Z 255)) (f_of_Z bar_w)).
Definition bar (v bar_w : Z) : exec (list ascii) :=
  l ← fill 0 (filled v bar_w) "#" (replicate 128 NUL);
  l ← fill (filled v bar_w) bar_w "." l;
  let s := span (fun c => negb (Ascii.eqb c NUL)) l in
  if (length s =? 128)%nat then Fault OutOfBounds else Done s.
(** "%3d" *)
Definition pad3 (v : Z) : string := let s := chars (int_string v) in of_chars (replicate (3 - length s) " "%char ++ s).
Definition channel_line (d : ColorPickerData) (bar_w : Z) (i : nat) (name : string) (v : Z) : exec string :=
  s ← bar v bar_w;
  Done (strtake 127 ((if Z.of_nat i =? channel d then ">"%string else " "%string) +:+ " " +:+ name +:+ " " +:+ pad3 v +:+ " " +:+ of_chars s)).
Definition cp_render (d : ColorPickerData) : exec (ColorPickerData * RenderTree) :=
  let area := render_area (wb d) in
  let is_gui := 200 <? rw area in
  let ch := if is_gui then 30 else 1 in
  let edge := if is_gui then 4 else 2 in
  let box_w := at_most (rw area - edge) (if is_gui then 560 else 50) in
  let box_h := at_most (rh area - edge) (if is_gui then 300 else 11) in
  let preview_len := at_least 0 (if is_gui then 20 else if 48 <? box_w - 4 then 48 else box_w - 4) in
  let bar_w := if is_gui then 40 else box_w - 20 in
  let w := box_w - 2 * ch in
  lr ← channel_line d bar_w 0 "R" (r d); lg ← channel_line d bar_w 1 "G" (g d); lb ← channel_line d bar_w 2 "B" (b d);
  let i := set_tab_index (if 0 <=? base_tab_index (wb d) then base_tab_index (wb d) else 0) (set_class "container" info_zero) in
  Done (d, mkTree (set_rect (centred area box_w box_h) (set_access "color-picker" (Some (title d)) i))
    (framed [title_text (rect_new ch 0 w ch) (title d);
             text_node (rect_new ch ch w ch) (of_chars (take 15 (hex d))) ALIGN_LEFT;
             text_node (rect_new ch (2 * ch) w ch) (of_chars (replicate (Z.to_nat preview_len) "#"%char)) ALIGN_LEFT;
             text_node (rect_new ch (4 * ch) w ch) lr ALIGN_LEFT;
             text_node (rect_new ch (5 * ch) w ch) lg ALIGN_LEFT;
             text_node (rect_new ch (6 * ch) w ch) lb ALIGN_LEFT;
             muted_text (rect_new ch (8 * ch) w ch) "Up/Down:channel  Left/Right:-/+  Enter:confirm  Esc:cancel";
             mkTree (set_rect (rect_new ch (9 * ch) w ch) info_zero) (RNODE_TEXT (Some EmptyString) ALIGN_LEFT)])).
(** [d->base.dirty = true] with another channel, or another value of it. *)
Definition on_channel (f : Z -> Z) (d : ColorPickerData) : ColorPickerData :=
  let x := base_set_dirty true (wb d) in
  if channel d =? 0 then mk x (title d) (f (r d)) (g d) (b d) (channel d)
  else if channel d =? 1 then mk x (title d) (r d) (f (g d)) (b d) (channel d)
  else mk x (title d) (r d) (g d) (f (b d)) (channel d).
Definition set_channel (c : Z) (d : ColorPickerData) : ColorPickerData := mk (base_set_dirty true (wb d)) (title d) (r d) (g d) (b d) c.
Definition cp_handle_event (d : ColorPickerData) (ev : Event) : exec (ColorPickerData * EventResult) :=
  match Widget.type ev with
  | EVENT_KEY =>
      match code ev with
      | KEY_ESC => Done (d, cancelled_response)
      | KEY_UP => Done (set_channel (if 0 <? channel d then channel d - 1 else channel d) d, event_result_handled)
      | KEY_DOWN => Done (set_channel (if channel d <? 2 then channel d + 1 else channel d) d, event_result_handled)
      | KEY_LEFT => Done (on_channel (fun v => if 0 <=? v - 1 then v - 1 else 0) d, event_result_handled)
      | KEY_RIGHT => Done (on_channel (fun v => if v + 1 <=? 255 then v + 1 else 255) d, event_result_handled)
      | KEY_ENTER => Done (d, answer (cJSON_CreateString (Some (of_chars (take 7 (hex d))))))
      | _ => Done (d, event_result_unhandled)
      end
  | _ => Done (d, event_result_unhandled)
  end.
Definition color_picker_widget_new (t : string) : ColorPickerData := mk (base_new false) t 128 128 128 0.
#[global] Program Instance color_picker_widget : Widget ColorPickerData := {|
  base := wb; set_base := with_base; render := cp_render; handle_event := cp_handle_event |}.
Solve Obligations with by destruct w.
End ColorPicker.

(** ** split_panes.c *)

Module SplitPanes.
Section split.
(** The widgets in the panes. *)
Context {W : Type} `{Widget W}.
Record SplitPanesData := mk { wb : WidgetBase; orientation : Orientation; first : W; second : W; split_position : Z; active_pane : Z }.
Definition with_base (x : WidgetBase) (d : SplitPanesData) : SplitPanesData :=
  mk x (orientation d) (first d) (second d) (split_position d) (active_pane d).
Definition set_panes (a b : W) (d : SplitPanesData) : SplitPanesData := mk (wb d) (orientation d) a b (split_position d) (active_pane d).
Definition activate (n : Z) (d : SplitPanesData) : SplitPanesData :=
  mk (base_set_dirty true (wb d)) (orientation d) (first d) (second d) (split_position d) n.
Definition sp_render (d : SplitPanesData) : exec (SplitPanesData * RenderTree) :=
  let area := render_area (wb d) in
  let i := set_tab_index (if 0 <=? base_tab_index (wb d) then base_tab_index (wb d) else -1)
    (set_access "split-panes" (Some EmptyString) (set_class "split_panes" info_zero)) in
  let pos := if 0 <? split_position d then split_position d
    else match orientation d with ORIENT_HORIZONTAL => cdiv (rw area) 2 | ORIENT_VERTICAL => cdiv (rh area) 2 end in
  '(a, t1) ← render (first d); '(b, t2) ← render (second d);
  Done (set_panes a b d, mkTree i (RNODE_SPLIT_PANES (orientation d) pos 0 (Some t1) (Some t2) None)).
(** The event goes to the active pane. *)
Definition pane_handle_event (d : SplitPanesData) (ev : Event) : exec (SplitPanesData * EventResult) :=
  '(d, res) ← (if active_pane d =? 0 then '(a, res) ← handle_event (first d) ev; Done (set_panes a (second d) d, res)
               else '(b, res) ← handle_event (second d) ev; Done (set_panes (first d) b d, res));
  Done (match res with EVENT_RESULT_UNHANDLED => d | _ => with_base (base_set_dirty true (wb d)) d end, res).
Definition sp_handle_event (d : SplitPanesData) (ev : Event) : exec (SplitPanesData * EventResult) :=
  match Widget.type ev with
  | EVENT_KEY =>
      match code ev with
      | KEY_ESC => Done (d, answer None)
      | KEY_F1 => Done (activate 0 d, event_result_handled)
      | KEY_F2 => Done (activate 1 d, event_result_handled)
      | _ => pane_handle_event d ev
      end
  | _ => pane_handle_event d ev
  end.
Definition split_panes_widget_new (o : Orientation) (a b : W) : SplitPanesData := mk widget_base_init o a b 0 0.
#[global] Program Instance split_panes_widget : Widget SplitPanesData := {|
  base := wb; set_base := with_base; render := sp_render; handle_event := sp_handle_event |}.
Solve Obligations with by destruct w.
End split.
Arguments SplitPanesData : clear implicits.
End SplitPanes.

(** ** What the widgets promise *)

(** *** The colour picker *)

Module Picker.
Import ColorPicker.

Definition in_range (d : ColorPickerData) : Prop := is_byte (r d) /\ is_byte (g d) /\ is_byte (b d) /\ 0 <= channel d <= 2.
Definition colour (d : ColorPickerData) : Z := pack 255 (r d) (g d) (b d).

Lemma HEX_digit_val v : 0 <= v < 16 -> hex_val (HEX_digit v) = Some v /\ isspace (HEX_digit v) = false.
Proof.
  intros Hv. assert (forall n, (n < 16)%nat -> hex_val (HEX_digit (Z.of_nat n)) = Some (Z.of_nat n) /\ isspace (HEX_digit (Z.of_nat n)) = false) as H.
  { intros n Hn. do 16 (destruct n as [|n]; [split; reflexivity|]). lia. }
  specialize (H (Z.to_nat v)). rewrite Z2Nat.id in H by lia. apply H. lia.
Qed.
Lemma HEX2_digits v : is_byte v -> HEX2 v = [HEX_digit (v / 16); HEX_digit (v mod 16)].
Proof.
  unfold is_byte. intros Hv. unfold HEX2, u32. rewrite (Z.mod_small v (2 ^ 32)) by lia. cbn [HEX_digits].
  destruct (Z.ltb_spec v 16).
  - rewrite (Z.div_small v 16) by lia. reflexivity.
  - rewrite (proj2 (Z.ltb_lt (v / 16) 16)) by (apply Z.div_lt_upper_bound; lia). rewrite (Z.mod_small (v / 16) 16) by (split; [apply Z.div_pos; lia|apply Z.div_lt_upper_bound; lia]). reflexivity.
Qed.
Lemma scan_HEX2 v l : is_byte v -> scan_hex2 (HEX2 v ++ l) = Some (v, l).
Proof.
  intros Hv. rewrite HEX2_digits by done. unfold is_byte in Hv. destruct (HEX_digit_val (v / 16)) as [H1 B1]; [Z.div_mod_to_equations; lia|].
  destruct (HEX_digit_val (v mod 16)) as [H2 _]; [Z.div_mod_to_equations; lia|].
  unfold scan_hex2. cbn [app span]. rewrite B1. cbn [length drop]. rewrite H1, H2. do 2 f_equal. Z.div_mod_to_equations; lia.
Qed.
Lemma parse_hex d : in_range d -> parse_color (Some (of_chars (hex d))) = colour d.
Proof.
  intros (Hr & Hg & Hb & _). unfold parse_color, hex. rewrite list_ascii_of_string_of_list_ascii. change (Ascii.eqb "#" "#") with true. cbv iota zeta.
  assert (length (HEX2 (r d) ++ HEX2 (g d) ++ HEX2 (b d)) = 6%nat) as -> by (by rewrite !HEX2_digits). cbn [Nat.eqb scan_bytes].
  rewrite (scan_HEX2 (r d)), (scan_HEX2 (g d)) by done. rewrite <-(app_nil_r (HEX2 (b d))), scan_HEX2 by done. done.
Qed.

(** The colour a result names. *)
Definition names_colour (c : Z) (resp : WidgetResponse) : Prop :=
  exists s, resp = mkResponse (Some (string_item s)) false None /\ parse_color (Some s) = c.
Lemma take_hex d : in_range d -> take 7 (hex d) = hex d.
Proof. intros (Hr & Hg & Hb & _). unfold hex. by rewrite !HEX2_digits. Qed.
Lemma enter_names d : in_range d -> exists resp, cp_handle_event d (key_event KEY_ENTER 0) = Done (d, EVENT_RESULT_RESPONSE resp) /\ names_colour (colour d) resp.
Proof. intros Hd. eexists. split; [done|]. rewrite take_hex by done. eexists. split; [done|by apply parse_hex]. Qed.

Lemma on_channel_range f d : in_range d -> (forall v, is_byte v -> is_byte (f v)) -> in_range (on_channel f d).
Proof.
  intros (Hr & Hg & Hb & Hc) Hf. unfold on_channel, in_range. repeat case_match; cbn [r g b channel]; auto.
Qed.
Lemma picker_handles : handles in_range (fun d resp => cancelled_answer resp \/ names_colour (colour d) resp).
Proof.
  intros d ev Hd. cbn [handle_event color_picker_widget]. unfold cp_handle_event.
  key_cases ev; try (by eexists _, _; split_and!).
  - destruct (enter_names d Hd) as (resp & E & Hn). unfold cp_handle_event in E. cbn in E. eexists _, _. split; [exact E|]. split; [done|by right].
  - eexists _, _. split; [done|]. split; [apply on_channel_range; [done|]; intros v; unfold is_byte; case_match; simp_bool; lia|done].
  - eexists _, _. split; [done|]. split; [apply on_channel_range; [done|]; intros v; unfold is_byte; case_match; simp_bool; lia|done].
  - destruct Hd as (Hr & Hg & Hb & Hc). eexists _, _. split; [done|]. split; [|done]. unfold in_range. cbn [set_channel r g b channel]. split_and!; try done; case_match; simp_bool; lia.
  - destruct Hd as (Hr & Hg & Hb & Hc). eexists _, _. split; [done|]. split; [|done]. unfold in_range. cbn [set_channel r g b channel]. split_and!; try done; case_match; simp_bool; lia.
  - eexists _, _. split; [done|]. split; [done|by left].
Qed.

(** The bar: the filled share of a channel, rounded as the code rounds it. *)
Lemma f_mul_comm x y : f_mul x y = f_mul y x.
Proof.
  unfold f_mul, SFmul. destruct x as [s|s| |s m e], y as [s'|s'| |s' m' e']; try (by rewrite xorb_comm); try done.
  by rewrite xorb_comm, Pos.mul_comm, Z.add_comm.
Qed.
Lemma share_fraction v : is_byte v -> v <> 0 -> fraction (f_div (f_of_Z v) (f_of_Z 255)).
Proof.
  intros Hv H0. unfold is_byte in Hv. assert (forallb (fun n => match f_div (f_of_Z (Z.of_nat n)) (f_of_Z 255) with
    S754_finite false m e => (e <=? 0) && (Z.pos m <=? 2 ^ (- e)) | _ => false end) (seq 1 255) = true) as H by (vm_compute; reflexivity).
  rewrite forallb_forall in H. specialize (H (Z.to_nat v)). rewrite in_seq, Z2Nat.id in H by lia. specialize (H ltac:(lia)).
  unfold fraction. repeat case_match; try done. simp_bool. lia.
Qed.
Lemma filled_range v w : is_byte v -> - 2 ^ 24 < w < 2 ^ 24 -> Z.min 0 w <= filled v w <= Z.max 0 w.
Proof.
  intros Hv Hw. unfold filled. rewrite f_mul_comm. destruct (Z.eq_dec v 0) as [->|H0]; [|apply f_mul_fraction; [by apply share_fraction|done]].
  change (f_div (f_of_Z 0) (f_of_Z 255)) with (S754_zero false).
  assert (exists s, f_mul (f_of_Z w) (S754_zero false) = S754_zero s) as [s ->]; [|change (f_to_int (S754_zero s)) with 0; lia].
  unfold f_of_Z, binary_normalize. destruct w as [|p|p]; [by eexists|destruct (f_round_int false p) as (q & e & -> & _); [lia|by eexists]|].
  destruct (f_round_int true p) as (q & e & -> & _); [lia|by eexists].
Qed.
Lemma bar_spec v w : is_byte v -> - 2 ^ 24 < w < 128 ->
  bar v w = Done (replicate (Z.to_nat (filled v w)) "#"%char ++ replicate (Z.to_nat (w - filled v w)) "."%char) /\ Z.min 0 w <= filled v w <= Z.max 0 w.
Proof.
  intros Hv Hw. pose proof (filled_range v w Hv ltac:(lia)) as Hf. split; [|done]. revert Hf. unfold bar. generalize (filled v w). intros f Hf.
  set (stop := fun c => negb (Ascii.eqb c NUL)).
  assert (fill 0 f "#" (replicate 128 NUL) = Done (replicate (Z.to_nat f) "#"%char ++ replicate (128 - Z.to_nat f) NUL)) as ->.
  { unfold fill. destruct (Z.leb_spec f 0); [replace (Z.to_nat f) with 0%nat by lia; done|].
    rewrite (proj2 (Z.ltb_ge 128 f)) by lia. cbn [orb Z.ltb Z.compare]. rewrite Z.sub_0_r. change (Z.to_nat 0) with 0%nat. rewrite drop_replicate. done. }
  cbn [mbind exec_bind].
  assert (fill f w "." (replicate (Z.to_nat f) "#"%char ++ replicate (128 - Z.to_nat f) NUL) =
    Done (replicate (Z.to_nat f) "#"%char ++ replicate (Z.to_nat (w - f)) "."%char ++ replicate (128 - Z.to_nat (Z.max 0 w)) NUL)) as ->.
  { unfold fill. destruct (Z.leb_spec w f).
    - replace (Z.to_nat (w - f)) with 0%nat by lia. replace (Z.to_nat (Z.max 0 w)) with (Z.to_nat f) by lia. done.
    - rewrite (proj2 (Z.ltb_ge f 0)), (proj2 (Z.ltb_ge 128 w)) by lia. cbn [orb]. do 2 f_equal.
      + rewrite take_app_le by (rewrite length_replicate; lia). by rewrite take_ge by (rewrite length_replicate; lia).
      + f_equal. rewrite drop_app_ge by (rewrite length_replicate; lia). rewrite length_replicate, drop_replicate. f_equal. lia. }
  cbn [mbind exec_bind]. cbv zeta. rewrite !span_app by (apply Forall_replicate; done).
  assert (span stop (replicate (128 - Z.to_nat (Z.max 0 w)) NUL) = []) as -> by (destruct (128 - Z.to_nat (Z.max 0 w))%nat eqn:E; [lia|done]).
  rewrite app_nil_r. rewrite length_app, !length_replicate. by rewrite (proj2 (Nat.eqb_neq _ _)) by lia.
Qed.
Lemma picker_draws d : in_range d -> 0 <= rw (render_area (wb d)) < 2 ^ 24 -> exists t, cp_render d = Done (d, t).
Proof.
  intros (Hr & Hg & Hb & _) Ha. unfold cp_render. cbv zeta. set (w := if _ : bool then 40 else _).
  assert (- 2 ^ 24 < w < 128) as Hw by (unfold w, at_most; repeat case_match; simp_bool; lia). clearbody w.
  unfold channel_line. destruct (bar_spec (r d) w) as [-> _]; [done..|]. destruct (bar_spec (g d) w) as [-> _]; [done..|]. destruct (bar_spec (b d) w) as [-> _]; [done..|].
  cbn [mbind exec_bind]. by eexists.
Qed.

(** The keys that take a channel from 128 to a value, and those that choose a colour. *)
Definition keys_to (v : Z) : list Event :=
  if 128 <=? v then replicate (Z.to_nat (v - 128)) (key_event KEY_RIGHT 0) else replicate (Z.to_nat (128 - v)) (key_event KEY_LEFT 0).
Definition choose (r g b : Z) : list Event :=
  keys_to r ++ [key_event KEY_DOWN 0] ++ keys_to g ++ [key_event KEY_DOWN 0] ++ keys_to b ++ [key_event KEY_ENTER 0].

Definition looks (d : ColorPickerData) : Z * Z * Z * Z := (r d, g d, b d, channel d).
Definition chosen (d : ColorPickerData) : Z := if channel d =? 0 then r d else if channel d =? 1 then g d else b d.
Lemma on_channel_ext f h d d' : looks d = looks d' -> f (chosen d) = h (chosen d) -> looks (on_channel f d) = looks (on_channel h d').
Proof.
  unfold looks, chosen, on_channel. intros [= -> -> -> ->] H. repeat case_match; cbn [r g b channel]; by rewrite ?H.
Qed.
Lemma on_channel_twice f h d : looks (on_channel f (on_channel h d)) = looks (on_channel (fun v => f (h v)) d).
Proof.
  destruct d as [x t0 r0 g0 b0 c]. unfold looks, on_channel. cbn [channel wb title r g b].
  destruct (c =? 0) eqn:E0; [|destruct (c =? 1) eqn:E1]; cbn [channel wb title r g b]; by rewrite ?E0, ?E1.
Qed.
Lemma chosen_on f d : chosen (on_channel f d) = f (chosen d).
Proof.
  destruct d as [x t0 r0 g0 b0 c]. unfold chosen, on_channel. cbn [channel wb title r g b].
  destruct (c =? 0) eqn:E0; [|destruct (c =? 1) eqn:E1]; cbn [channel wb title r g b]; by rewrite ?E0, ?E1.
Qed.
Lemma on_channel_id f d : f (chosen d) = chosen d -> looks (on_channel f d) = looks d.
Proof. unfold looks, chosen, on_channel. intros H. repeat case_match; cbn [r g b channel]; by rewrite ?H. Qed.

Lemma moves k s n : (k = KEY_RIGHT /\ s = 1 \/ k = KEY_LEFT /\ s = -1) -> forall d evs, is_byte (chosen d) -> is_byte (chosen d + s * Z.of_nat n) ->
  exists d', run_events d (replicate n (key_event k 0) ++ evs) = run_events d' evs /\ looks d' = looks (on_channel (fun v => v + s * Z.of_nat n) d).
Proof.
  intros Hk. induction n as [|n IH]; intros d evs H0 H1.
  - exists d. split; [done|]. rewrite on_channel_id by lia. done.
  - assert (exists f, cp_handle_event d (key_event k 0) = Done (on_channel f d, event_result_handled) /\ f (chosen d) = chosen d + s) as (f & E & Hf).
    { unfold is_byte in *. destruct Hk as [[-> ->]|[-> ->]]; (eexists; split; [done|]); cbv beta; case_match; simp_bool; lia. }
    cbn [replicate app run_events]. cbn [handle_event color_picker_widget]. rewrite E. cbn [mbind exec_bind event_result_handled].
    destruct (IH (on_channel f d) evs) as (d' & E' & L); [rewrite chosen_on, Hf; unfold is_byte in *; lia..|].
    exists d'. split; [exact E'|]. rewrite L, on_channel_twice. apply on_channel_ext; [done|]. rewrite Hf. lia.
Qed.
Lemma keys_to_go v d evs : is_byte v -> chosen d = 128 ->
  exists d', run_events d (keys_to v ++ evs) = run_events d' evs /\ looks d' = looks (on_channel (fun _ => v) d).
Proof.
  intros Hv H. unfold keys_to. unfold is_byte in Hv. destruct (Z.leb_spec 128 v).
  - destruct (moves KEY_RIGHT 1 (Z.to_nat (v - 128)) ltac:(by left) d evs) as (d' & E & L); [unfold is_byte; lia..|].
    exists d'. split; [exact E|]. rewrite L. apply on_channel_ext; [done|lia].
  - destruct (moves KEY_LEFT (-1) (Z.to_nat (128 - v)) ltac:(by right) d evs) as (d' & E & L); [unfold is_byte; lia..|].
    exists d'. split; [exact E|]. rewrite L. apply on_channel_ext; [done|lia].
Qed.
End Picker.

(** the colour picker under any events: each is handled, the three channels
    stay bytes, it can be drawn on any surface, and it answers with a
    cancellation or with the text of the colour it shows, which the theme's
    parser reads back. *)
Theorem picker_answers d evs : Picker.in_range d -> 0 <= rw (render_area (ColorPicker.wb d)) < 2 ^ 24 ->
  (exists d' res, run_events d evs = Done (d', res) /\ Picker.in_range d' /\
    match res with Some resp => cancelled_answer resp \/ Picker.names_colour (Picker.colour d') resp | None => True end) /\
  no_fault (ColorPicker.cp_render d).
Proof.
  intros Hd Ha. split; [exact (run_events_handles _ _ Picker.picker_handles evs d Hd)|]. by destruct (Picker.picker_draws d Hd Ha) as [t ->].
Qed.
Lemma picker_answers_witness :
  let d := ColorPicker.with_base (mkBase true false (mkRect 0 0 80 24) (-1)) (ColorPicker.color_picker_widget_new "ink") in
  no_fault (ColorPicker.cp_render d) /\
  exists d', run_events d [key_event KEY_RIGHT 0; key_event KEY_ENTER 0] = Done (d', Some (mkResponse (Some (string_item "#818080")) false None)).
Proof.
  intros d. destruct (picker_answers d [key_event KEY_RIGHT 0; key_event KEY_ENTER 0]) as [(d' & res & E & _) Hn]; [by repeat split|done|].
  split; [exact Hn|]. exists d'. rewrite E. f_equal. f_equal. by vm_compute in E; injection E as _ <-.
Defined.

(** Every colour can be chosen: from a new colour picker there are keys
    after which it answers with that colour. *)
Theorem picker_reaches t r g b : is_byte r -> is_byte g -> is_byte b ->
  exists d' resp, run_events (ColorPicker.color_picker_widget_new t) (Picker.choose r g b) = Done (d', Some resp) /\ Picker.names_colour (pack 255 r g b) resp.
Proof.
  intros Hr Hg Hb. unfold Picker.choose.
  destruct (Picker.keys_to_go r (ColorPicker.color_picker_widget_new t) ([key_event KEY_DOWN 0] ++ Picker.keys_to g ++ [key_event KEY_DOWN 0] ++ Picker.keys_to b ++ [key_event KEY_ENTER 0]) Hr) as (d1 & -> & [= R1 G1 B1 C1]); [done|].
  set (d1' := ColorPicker.set_channel 1 d1). assert (forall evs, run_events d1 ([key_event KEY_DOWN 0] ++ evs) = run_events d1' evs) as ->.
  { intros evs. unfold d1'. cbn. unfold ColorPicker.cp_handle_event. cbn [Widget.type code key_event]. rewrite C1. done. }
  destruct (Picker.keys_to_go g d1' ([key_event KEY_DOWN 0] ++ Picker.keys_to b ++ [key_event KEY_ENTER 0]) Hg) as (d2 & -> & [= R2 G2 B2 C2]); [done|].
  set (d2' := ColorPicker.set_channel 2 d2). assert (forall evs, run_events d2 ([key_event KEY_DOWN 0] ++ evs) = run_events d2' evs) as ->.
  { intros evs. unfold d2'. cbn. unfold ColorPicker.cp_handle_event. cbn [Widget.type code key_event]. rewrite C2. done. }
  destruct (Picker.keys_to_go b d2' [key_event KEY_ENTER 0] Hb) as (d3 & -> & [= R3 G3 B3 C3]); [unfold Picker.chosen; cbn; lia|].
  assert (ColorPicker.r d3 = r /\ ColorPicker.g d3 = g /\ ColorPicker.b d3 = b /\ ColorPicker.channel d3 = 2) as (Er & Eg & Eb & Ec).
  { cbn in *. split_and!; congruence. }
  destruct (Picker.enter_names d3) as (resp & E & Hn); [unfold Picker.in_range; rewrite Er, Eg, Eb, Ec; split_and!; try done; lia|].
  exists d3, resp. cbn [run_events handle_event ColorPicker.color_picker_widget]. rewrite E. split; [done|]. unfold Picker.colour in Hn. by rewrite Er, Eg, Eb in Hn.
Qed.
Lemma picker_reaches_witness : exists d' resp,
  run_events (ColorPicker.color_picker_widget_new "ink") (Picker.choose 0xd0 7 255) = Done (d', Some resp) /\ Picker.names_colour 0xffd007ff resp.
Proof. exact (picker_reaches "ink" 0xd0 7 255 ltac:(by split) ltac:(by split) ltac:(by split)). Defined.

(** *** Markdown *)

Module Lines.
Import Markdown.
(** The lines of a text, the empty ones too. *)
Fixpoint lines_of (l : list ascii) : list (list ascii) :=
  match l with
  | [] => [[]]
  | c :: l' => if Ascii.eqb c LF then [] :: lines_of l' else match lines_of l' with x :: xs => (c :: x) :: xs | [] => [[c]] end
  end.
Definition written (l : list ascii) : bool := match l with [] => false | _ => true end.

Lemma lines_of_cons l : exists x xs, lines_of l = x :: xs.
Proof. destruct l as [|c l]; cbn; [by eexists _, _|]. repeat case_match; by eexists _, _. Qed.
Lemma line_count_spec l : line_count l = length (lines_of l).
Proof.
  unfold line_count. induction l as [|c l IH]; [done|]. cbn [List.filter lines_of]. rewrite Ascii.eqb_sym.
  destruct (Ascii.eqb c LF); cbn [length]; [by rewrite IH|]. destruct (lines_of_cons l) as (x & xs & E). by rewrite E in *.
Qed.
Lemma tokens_spec l : forall cur x xs, lines_of l = x :: xs -> tokens l cur = List.filter written ((cur ++ x) :: xs).
Proof.
  induction l as [|c l IH]; intros cur x xs; cbn [lines_of tokens].
  - intros [= <- <-]. rewrite app_nil_r. by destruct cur.
  - destruct (lines_of_cons l) as (y & ys & E). destruct (Ascii.eqb c LF).
    + intros [= <- <-]. rewrite app_nil_r, (IH [] y ys E), E. by destruct cur.
    + rewrite E. intros [= <- <-]. rewrite (IH _ y ys E). by rewrite <-(assoc_L (++)).
Qed.
Lemma tokens_lines l : tokens l [] = List.filter written (lines_of l).
Proof. destruct (lines_of_cons l) as (x & xs & E). by rewrite (tokens_spec l [] x xs E), E. Qed.

Lemma parse_lines_spec w ch ls : forall room i, (length ls <= room)%nat ->
  parse_lines room i w ch ls = Done (imap (fun k l => parse_line l (rect_new 1 (1 + (i + Z.of_nat k) * ch) w ch)) ls).
Proof.
  induction ls as [|l ls IH]; intros room i Hr; [by destruct room|]. destruct room as [|room]; [by cbn in Hr; lia|].
  cbn [parse_lines imap]. rewrite IH by (cbn in Hr; lia). cbn [mbind exec_bind]. do 2 f_equal; [by rewrite Z.add_0_r|].
  apply imap_ext. intros k l' _. cbn. do 3 f_equal. lia.
Qed.
Lemma filter_length_le {A} (f : A -> bool) l : (length (List.filter f l) <= length l)%nat.
Proof. induction l as [|x l IH]; [done|]. cbn. destruct (f x); cbn; lia. Qed.
End Lines.

(** A text is drawn as its lines: rendering stays within the array sized by
    the line feeds, whatever the content, and the children are the lines that
    are not empty, in order, one to a row. *)
Theorem markdown_lines d : exists t h w ch, Markdown.markdown_render d = Done (d, t) /\
  kids (u t) = imap (fun i l => Markdown.parse_line l (rect_new 1 (1 + Z.of_nat i * ch) w ch))
    (List.filter Lines.written (Lines.lines_of (chars (Markdown.content d)))) /\
  rh (rect (info t)) = h /\ h = Z.min (rh (render_area (Markdown.wb d))) (Z.of_nat (length (kids (u t))) * ch + 2).
Proof.
  unfold Markdown.markdown_render. cbv zeta. set (ch := if _ : bool then 30 else 1). set (w := at_most _ _).
  rewrite Lines.parse_lines_spec by (rewrite Lines.line_count_spec, Lines.tokens_lines; apply Lines.filter_length_le).
  cbn [mbind exec_bind]. do 4 eexists. split; [done|]. split; [cbn; by rewrite Lines.tokens_lines|]. split; [done|].
  cbn. unfold at_most. case_match; simp_bool; lia.
Qed.
Lemma markdown_lines_witness : exists t,
  Markdown.markdown_render (Markdown.with_base (mkBase true false (mkRect 0 0 80 24) (-1)) (Markdown.markdown_widget_new (Some ("# top" +:+ String "010" (String "010" "- item")))%string)) = Done (t.1, t.2) /\
  map (fun c => match u c with RNODE_TEXT s _ => s | _ => None end) (kids (u t.2)) = [Some "top"; Some "  • item"]%string.
Proof.
  destruct (markdown_lines (Markdown.with_base (mkBase true false (mkRect 0 0 80 24) (-1)) (Markdown.markdown_widget_new (Some ("# top" +:+ String "010" (String "010" "- item")))%string)))
    as (t & h & w & ch & E & Ek & _). eexists (_, t). split; [exact E|]. cbn [snd]. rewrite Ek. vm_compute. reflexivity.
Defined.

(** *** Widgets that wait *)

Section clock.
Variable time : nat -> Z.
#[local] Instance notification_at : Widget Notification.NotificationData := Notification.notification_widget time.

Lemma notification_waits evs : forall d rest,
  (forall i, (i < length evs)%nat -> time (Notification.calls d + i) - Notification.start d <= Notification.duration d) ->
  exists d', run_events d (evs ++ rest) = run_events d' rest /\ Notification.calls d' = (Notification.calls d + length evs)%nat /\
    Notification.start d' = Notification.start d /\ Notification.duration d' = Notification.duration d.
Proof.
  induction evs as [|e evs IH]; intros d rest H; [exists d; split_and!; try done; cbn; lia|].
  destruct (IH (Notification.called d) rest) as (d' & E & Ec & Es & Ed); [intros i Hi; specialize (H (S i) ltac:(cbn; lia)); cbn in *; by rewrite Nat.add_succ_r in H|].
  exists d'. split; [|split_and!; try done; rewrite Ec; cbn; lia]. rewrite <-E. cbn. unfold Notification.expired.
  rewrite (proj2 (Z.ltb_ge _ _)); [done|]. specialize (H 0%nat ltac:(cbn; lia)). rewrite Nat.add_0_r in H. lia.
Qed.

(** a notification stays for its time: it takes every event while the clock is
    within its duration, and the first event after that dismisses it. *)
Theorem notification_expires m dur n evs e rest :
  (forall i, (i < length evs)%nat -> time (S n + i) - time n <= dur) -> dur < time (S n + length evs) - time n ->
  (exists d, run_events (Notification.notification_widget_new time m dur n) evs = Done (d, None)) /\
  exists d, run_events (Notification.notification_widget_new time m dur n) (evs ++ e :: rest) = Done (d, Some (mkResponse None false None)).
Proof.
  intros Hw He. split.
  - destruct (notification_waits evs (Notification.notification_widget_new time m dur n) [] Hw) as (d' & E & _). rewrite app_nil_r in E. exists d'. by rewrite E.
  - destruct (notification_waits evs (Notification.notification_widget_new time m dur n) (e :: rest) Hw) as (d' & -> & Ec & Es & Ed).
    eexists. cbn [run_events handle_event notification_at Notification.notification_widget]. unfold Notification.notification_handle_event, Notification.expired.
    rewrite Ec, Es, Ed. rewrite (proj2 (Z.ltb_lt _ _)) by exact He. done.
Qed.
End clock.
(** A clock that ticks at every call, and a duration of two. *)
Lemma notification_expires_witness :
  exists d, @run_events _ (notification_at Z.of_nat) (Notification.notification_widget_new Z.of_nat "saved" 2 0)
    [key_event KEY_UP 0; key_event KEY_UP 0; key_event KEY_UP 0] = Done (d, Some (mkResponse None false None)).
Proof.
  destruct (notification_expires Z.of_nat "saved" 2 0 [key_event KEY_UP 0; key_event KEY_UP 0] (key_event KEY_UP 0) []) as [_ H]; [|done|exact H].
  intros i Hi. cbn in Hi. lia.
Defined.

Lemma spinner_handles : handles (fun d => 0 <= Spinner.frame d < 10) (fun _ r => cancelled_answer r).
Proof.
  intros d ev Hd. cbn [handle_event Spinner.spinner_widget]. unfold Spinner.spinner_handle_event, cmod.
  assert (0 <= Z.rem (Spinner.frame d + 1) 10 < 10) by (apply Z.rem_bound_pos; lia).
  key_cases ev; eexists _, _; (split; [done|]); by split.
Qed.

(** *** Two panes *)

Section lift.
Context {W : Type} `{Widget W} (I : W -> Prop) (R : W -> WidgetResponse -> Prop) (Hpane : handles I R).

Definition panes_inv (d : SplitPanes.SplitPanesData W) : Prop := I (SplitPanes.first d) /\ I (SplitPanes.second d).
(** The answer of the active pane, or the one of the escape key. *)
Definition panes_answer (d : SplitPanes.SplitPanesData W) (r : WidgetResponse) : Prop :=
  r = mkResponse None false None \/ R (if SplitPanes.active_pane d =? 0 then SplitPanes.first d else SplitPanes.second d) r.
Lemma panes_handles : handles panes_inv panes_answer.
Proof using Hpane.
  intros d ev (H1 & H2). assert (exists d' r, SplitPanes.pane_handle_event d ev = Done (d', r) /\ panes_inv d' /\
    match r with EVENT_RESULT_RESPONSE resp => panes_answer d' resp | _ => True end) as Hp.
  { unfold SplitPanes.pane_handle_event. destruct (SplitPanes.active_pane d =? 0) eqn:Ea.
    - destruct (Hpane _ ev H1) as (w & r & -> & Hw & Hr). cbn [mbind exec_bind]. eexists _, r. split; [done|].
      destruct r; (split; [by split|]); try done. right. cbn. by rewrite Ea.
    - destruct (Hpane _ ev H2) as (w & r & -> & Hw & Hr). cbn [mbind exec_bind]. eexists _, r. split; [done|].
      destruct r; (split; [by split|]); try done. right. cbn. by rewrite Ea. }
  cbn [handle_event SplitPanes.split_panes_widget]. unfold SplitPanes.sp_handle_event.
  key_cases ev; try exact Hp; eexists _, _; (split; [done|]); (split; [by split|]); try done; by left.
Qed.
End lift.

(** *** Images *)

Lemma quotient_normal p q : 0 < p < 2 ^ 24 -> 0 < q < 2 ^ 24 -> normal (f_div (f_of_Z p) (f_of_Z q)).
Proof. intros Hp Hq. destruct p as [|p|p], q as [|q|q]; try lia. destruct (f_quotient p q) as (m & e & -> & Hm & He & _); [lia..|]. by split. Qed.
Lemma scaled_within p q s : 0 < p < 2 ^ 22 -> 0 < q < 2 ^ 24 -> normal s -> units s <= units (f_div (f_of_Z p) (f_of_Z q)) ->
  0 <= f_to_int (f_mul (f_of_Z q) s) <= p.
Proof. intros Hp Hq. destruct p as [|p|p], q as [|q|q]; try lia. apply f_scaled; lia. Qed.

(** a picture that is to be contained is drawn inside its display: whatever
    the rounding of the scale, neither side of it exceeds the display's. *)
Theorem image_contained fit dw dh pw ph : fit <> "cover"%string -> fit <> "fill"%string ->
  0 < dw < 2 ^ 22 -> 0 < dh < 2 ^ 22 -> 0 < pw < 2 ^ 24 -> 0 < ph < 2 ^ 24 ->
  let '(w, h) := Image.fitted fit dw dh pw ph in 0 <= w <= dw /\ 0 <= h <= dh.
Proof.
  intros Hc Hf Hdw Hdh Hpw Hph. unfold Image.fitted. rewrite (decide_False _ _ Hc), (decide_False _ _ Hf). cbv zeta.
  pose proof (quotient_normal dw pw ltac:(lia) Hpw) as Hx. pose proof (quotient_normal dh ph ltac:(lia) Hph) as Hy.
  rewrite (f_ltb_units _ _ Hx Hy). set (s := if _ <? _ then _ else _).
  assert (normal s /\ units s <= units (f_div (f_of_Z dw) (f_of_Z pw)) /\ units s <= units (f_div (f_of_Z dh) (f_of_Z ph))) as (Hn & H1 & H2).
  { unfold s. destruct (Z.ltb_spec (units (f_div (f_of_Z dw) (f_of_Z pw))) (units (f_div (f_of_Z dh) (f_of_Z ph)))); (split; [done|lia]). }
  clearbody s. assert (SFltb f_zero s = true) as -> by (destruct s as [| | |[] m e]; done).
  split; apply scaled_within; (done || lia).
Qed.
Lemma image_contained_witness :
  (let '(w, h) := Image.fitted "contain" 80 24 640 480 in 0 <= w <= 80 /\ 0 <= h <= 24) /\ Image.fitted "contain" 80 24 640 480 = (32, 24).
Proof. split; [apply (image_contained "contain" 80 24 640 480); [done..|lia|lia|lia|lia]|by vm_compute]. Defined.
