(* ===== verification/Choice.v ===== *)
(** The widgets that choose from a list: src/src/core/widgets/menu.c,
    radio_group.c, checklist.c and multiselect.c. *)

From Stdlib Require Import SpecFloat.
From S2P Require Import Prelude Double CJson Protocol Widget RenderTree Boxes.

(** ** menu.c *)

Module Menu.
Record MenuData := mk { wb : WidgetBase; title : option string; message : option string; choices : list string; selected : Z }.
Definition with_base (b : WidgetBase) (d : MenuData) : MenuData := mk b (title d) (message d) (choices d) (selected d).
Definition count (d : MenuData) : Z := Z.of_nat (length (choices d)).
(** [d->selected = s; d->base.dirty = true] *)
Definition select (s : Z) (d : MenuData) : MenuData := mk (base_set_dirty true (wb d)) (title d) (message d) (choices d) s.

Definition menu_render (d : MenuData) : RenderTree :=
  let area := render_area (wb d) in
  let t := is_shown (title d) in
  let m := is_shown (message d) in
  let inner_h := count d + (if t then 1 else 0) + (if m then 2 else 0) + 1 in
  let box_w := at_least 30 (at_most (rw area - 2) (scale_int (rw area) 6 1)) in
  let box_h := at_most (rh area) (inner_h + 2) in
  let content_w := box_w - 2 in
  let row1 := if t then 2 else 1 in
  let row2 := if m then row1 + 2 else row1 in
  box (wb d) "menu" "Menu" (title d) box_w box_h
    (match shown (title d) with Some s => [with_state "title" (text_node (rect_new 1 1 content_w 1) s ALIGN_CENTER)] | None => [] end ++
     match shown (message d) with Some s => [text_node (rect_new 1 row1 content_w 2) s ALIGN_CENTER] | None => [] end ++
     [child_node "list" (rect_new 1 row2 content_w (count d)) (RNODE_LIST (list_items (choices d)) (selected d));
      with_state "muted" (text_node (rect_new 1 (row2 + count d) content_w 1) "Up/Down:move  Enter:select  Esc:cancel" ALIGN_CENTER)]).

Definition menu_handle_event (d : MenuData) (ev : Event) : exec (MenuData * EventResult) :=
  match Widget.type ev with
  | EVENT_KEY =>
      match code ev with
      | KEY_ESC => Done (d, cancelled_response)
      | KEY_UP => Done (if 0 <? selected d then select (selected d - 1) d else d, event_result_handled)
      | KEY_DOWN => Done (if selected d + 1 <? count d then select (selected d + 1) d else d, event_result_handled)
      | KEY_ENTER => c ← at_index (choices d !! Z.to_nat (selected d)); Done (d, answer (cJSON_CreateString (Some c)))
      | _ => Done (d, event_result_unhandled)
      end
  | _ => Done (d, event_result_unhandled)
  end.

Definition menu_widget_new (t m : option string) (cs : list string) (def : Z) : MenuData :=
  mk (base_new false) t m cs (if (0 <=? def) && (def <? Z.of_nat (length cs)) then def else 0)%bool.

#[global] Program Instance menu_widget : Widget MenuData := {|
  base := wb; set_base := with_base; render d := Done (d, menu_render d); handle_event := menu_handle_event |}.
Solve Obligations with by destruct w.
End Menu.

(** ** radio_group.c *)

Module RadioGroup.
Record RadioGroupData := mk { wb : WidgetBase; title : option string; message : option string; choices : list string; selected : Z }.
Definition with_base (b : WidgetBase) (d : RadioGroupData) : RadioGroupData := mk b (title d) (message d) (choices d) (selected d).
Definition count (d : RadioGroupData) : Z := Z.of_nat (length (choices d)).
Definition select (s : Z) (d : RadioGroupData) : RadioGroupData := mk (base_set_dirty true (wb d)) (title d) (message d) (choices d) s.

Definition radio_group_render (d : RadioGroupData) : RenderTree :=
  let area := render_area (wb d) in
  let box_w := at_most (rw area - 2) (scale_int (rw area) 5 1) in
  let box_h := at_most (rh area - 2) (scale_int (rh area) 6 1) in
  let list_y := if is_shown (message d) then 3 else 1 in
  let labels := imap (fun i c => marked 511 (if Z.of_nat i =? selected d then "(●)" else "( )") c) (choices d) in
  box (wb d) "radio-group" "Radio group" (title d) box_w box_h
    (match shown (title d) with Some s => [with_state "title" (text_node (rect_new 1 0 (box_w - 2) 1) s ALIGN_LEFT)] | None => [] end ++
     match shown (message d) with Some s => [text_node (rect_new 1 1 (box_w - 2) 2) s ALIGN_LEFT] | None => [] end ++
     [child_node "list" (rect_new 1 list_y (box_w - 2) (box_h - list_y - 2)) (RNODE_LIST (list_items labels) (selected d));
      with_state "muted" (text_node (rect_new 1 (box_h - 2) (box_w - 2) 1) "Up/Down:move  Enter:select  Esc:cancel" ALIGN_LEFT)]).

Definition radio_group_handle_event (d : RadioGroupData) (ev : Event) : exec (RadioGroupData * EventResult) :=
  match Widget.type ev with
  | EVENT_KEY =>
      match code ev with
      | KEY_ESC => Done (d, cancelled_response)
      | KEY_UP => Done (if 0 <? selected d then select (selected d - 1) d else d, event_result_handled)
      | KEY_DOWN => Done (if selected d + 1 <? count d then select (selected d + 1) d else d, event_result_handled)
      | KEY_ENTER => c ← at_index (choices d !! Z.to_nat (selected d)); Done (d, answer (cJSON_CreateString (Some c)))
      | _ => Done (d, event_result_unhandled)
      end
  | _ => Done (d, event_result_unhandled)
  end.

Definition radio_group_widget_new (t m : option string) (cs : list string) (def : Z) : RadioGroupData :=
  mk (base_new false) t m cs (if (0 <=? def) && (def <? Z.of_nat (length cs)) then def else 0)%bool.

#[global] Program Instance radio_widget : Widget RadioGroupData := {|
  base := wb; set_base := with_base; render d := Done (d, radio_group_render d); handle_event := radio_group_handle_event |}.
Solve Obligations with by destruct w.
End RadioGroup.

(** ** checklist.c *)

Module Checklist.
Record ChecklistData := mk {
  wb : WidgetBase; title : option string; message : option string; choices : list string;
  selected : Z; min_sel : Z; max_sel : Z; checked : list bool
}.
Definition with_base (b : WidgetBase) (d : ChecklistData) : ChecklistData :=
  mk b (title d) (message d) (choices d) (selected d) (min_sel d) (max_sel d) (checked d).
Definition count (d : ChecklistData) : Z := Z.of_nat (length (choices d)).
Definition set_dirty (d : ChecklistData) : ChecklistData := with_base (base_set_dirty true (wb d)) d.
Definition select (s : Z) (d : ChecklistData) : ChecklistData :=
  mk (base_set_dirty true (wb d)) (title d) (message d) (choices d) s (min_sel d) (max_sel d) (checked d).
Definition set_checked (l : list bool) (d : ChecklistData) : ChecklistData :=
  mk (wb d) (title d) (message d) (choices d) (selected d) (min_sel d) (max_sel d) l.

Definition checklist_render (d : ChecklistData) : RenderTree :=
  let area := render_area (wb d) in
  let is_gui := 200 <? rw area in
  let ch := if is_gui then 30 else 1 in
  let edge := if is_gui then 4 else 2 in
  let box_w := at_most (rw area - edge) (if is_gui then scale_int (rw area) 5 1 else scale_int (rw area) 7 1) in
  let box_h := at_most (rh area - edge) (scale_int (rh area) 8 1) in
  let list_y := if is_shown (message d) then 3 * ch else ch in
  let list_h := box_h - list_y - 2 * ch in
  let labels := zip_with (fun c k => marked 1023 (if (k : bool) then "[x]" else "[ ]") c) (choices d) (checked d) in
  let footer := strtake 255 ("Selected: " +:+ int_string (count_true (checked d)) +:+ "/" +:+ int_string (count d) +:+ "  Space:toggle  Enter:confirm  Esc:cancel") in
  box (wb d) "checklist" "Checklist" (title d) box_w box_h
    (match shown (title d) with Some s => [with_state "title" (text_node (rect_new ch 0 (box_w - 2 * ch) ch) s ALIGN_LEFT)] | None => [] end ++
     match shown (message d) with Some s => [text_node (rect_new ch ch (box_w - 2 * ch) (2 * ch)) s ALIGN_LEFT] | None => [] end ++
     [child_node "list" (rect_new ch list_y (box_w - 2 * ch) (if 0 <? list_h then list_h else ch)) (RNODE_LIST (list_items labels) (selected d));
      with_state "muted" (text_node (rect_new ch (box_h - 2 * ch) (box_w - 2 * ch) ch) footer ALIGN_LEFT)]).

Definition checklist_handle_event (d : ChecklistData) (ev : Event) : exec (ChecklistData * EventResult) :=
  match Widget.type ev with
  | EVENT_KEY =>
      let cc := count_true (checked d) in
      match code ev with
      | KEY_ESC => Done (d, cancelled_response)
      | KEY_UP => Done (if 0 <? selected d then select (selected d - 1) d else d, event_result_handled)
      | KEY_DOWN => Done (if selected d + 1 <? count d then select (selected d + 1) d else d, event_result_handled)
      | KEY_CHAR =>
          if ch ev =? 32 then
            let i := Z.to_nat (selected d) in
            k ← at_index (checked d !! i);
            let l := if (k : bool) then (if min_sel d <? cc then <[i := false]> (checked d) else checked d)
                     else (if cc <? max_sel d then <[i := true]> (checked d) else checked d) in
            Done (set_dirty (set_checked l d), event_result_handled)
          else Done (d, event_result_handled)
      | KEY_ENTER =>
          if ((min_sel d <=? cc) && (cc <=? max_sel d))%bool
          then Done (d, answer (Some (picked_array (choices d) (checked d))))
          else Done (d, event_result_handled)
      | _ => Done (d, event_result_unhandled)
      end
  | _ => Done (d, event_result_unhandled)
  end.

(** Every choice that equals a default is checked. *)
Definition checklist_widget_new (t m : option string) (cs : list string) (min_s max_s : Z) (defaults : list string) : ChecklistData :=
  let count := Z.of_nat (length cs) in
  mk (base_new false) t m cs 0 min_s (if 0 <? max_s then max_s else count)
    (foldl (fun flags d => zip_with (fun c f => if decide (c = d) then true else f) cs flags) (replicate (length cs) false) defaults).

#[global] Program Instance checklist_widget : Widget ChecklistData := {|
  base := wb; set_base := with_base; render d := Done (d, checklist_render d); handle_event := checklist_handle_event |}.
Solve Obligations with by destruct w.
End Checklist.

(** ** multiselect.c *)

Module Multiselect.
(** [filtered] holds the positions the last rendering showed. *)
Record MultiselectData := mk {
  wb : WidgetBase; title : option string; message : option string; choices : list string;
  query : list ascii; placeholder : string; cursor : Z; min_sel : Z; max_sel : Z; filtered : list nat; selected : list bool
}.
Definition with_base (b : WidgetBase) (d : MultiselectData) : MultiselectData :=
  mk b (title d) (message d) (choices d) (query d) (placeholder d) (cursor d) (min_sel d) (max_sel d) (filtered d) (selected d).
Definition count (d : MultiselectData) : Z := Z.of_nat (length (choices d)).
Definition set_dirty (d : MultiselectData) : MultiselectData := with_base (base_set_dirty true (wb d)) d.
Definition set_cursor (c : Z) (d : MultiselectData) : MultiselectData :=
  mk (wb d) (title d) (message d) (choices d) (query d) (placeholder d) c (min_sel d) (max_sel d) (filtered d) (selected d).
Definition set_query (q : list ascii) (d : MultiselectData) : MultiselectData :=
  mk (wb d) (title d) (message d) (choices d) q (placeholder d) 0 (min_sel d) (max_sel d) (filtered d) (selected d).
Definition set_selected (l : list bool) (d : MultiselectData) : MultiselectData :=
  mk (wb d) (title d) (message d) (choices d) (query d) (placeholder d) (cursor d) (min_sel d) (max_sel d) (filtered d) l.

Definition ms_update (d : MultiselectData) : MultiselectData :=
  let f := matching (choices d) (query d) in
  let n := Z.of_nat (length f) in
  mk (wb d) (title d) (message d) (choices d) (query d) (placeholder d)
    (if n <=? cursor d then (if 0 <? n then n - 1 else 0) else cursor d) (min_sel d) (max_sel d) f (selected d).

(** The data after the update, and the tree. *)
Definition multiselect_render (d0 : MultiselectData) : exec (MultiselectData * RenderTree) :=
  let d := ms_update d0 in
  let area := render_area (wb d) in
  let box_w := at_most (rw area - 2) (scale_int (rw area) 7 1) in
  let box_h := at_most (rh area - 2) (scale_int (rh area) 8 1) in
  let y1 := if is_shown (title d) then 1 else 0 in
  let y2 := if is_shown (message d) then y1 + 2 else y1 in
  let qb := strtake 511 ("> " +:+ of_chars (query d)) in
  let list_h := box_h - (y2 + 1) - 2 in
  labels ← (fix go (l : list nat) : exec (list string) :=
    match l with
    | [] => Done []
    | i :: l' => k ← at_index (selected d !! i); c ← at_index (choices d !! i); r ← go l';
                 Done (marked 1023 (if (k : bool) then "[x]" else "[ ]") c :: r)
    end) (filtered d);
  let footer := strtake 255 ("Selected: " +:+ int_string (count_true (selected d)) +:+ "/" +:+ int_string (count d) +:+ "  Space:toggle  Enter:confirm  Esc:cancel") in
  Done (d, box (wb d) "multiselect" "Multiselect" (title d) box_w box_h
    (match shown (title d) with Some s => [with_state "title" (text_node (rect_new 1 0 (box_w - 2) 1) s ALIGN_LEFT)] | None => [] end ++
     match shown (message d) with Some s => [text_node (rect_new 1 y1 (box_w - 2) 2) s ALIGN_LEFT] | None => [] end ++
     [child_node "input" (rect_new 1 y2 (box_w - 2) 1) (RNODE_INPUT (Some qb) (Some (placeholder d)) (strlen qb) false);
      child_node "list" (rect_new 1 (y2 + 1) (box_w - 2) (if 0 <? list_h then list_h else 1)) (RNODE_LIST (list_items labels) (cursor d));
      with_state "muted" (text_node (rect_new 1 (box_h - 2) (box_w - 2) 1) footer ALIGN_LEFT)])).

Definition multiselect_handle_event (d : MultiselectData) (ev : Event) : exec (MultiselectData * EventResult) :=
  match Widget.type ev with
  | EVENT_KEY =>
      let n := Z.of_nat (length (filtered d)) in
      let sc := count_true (selected d) in
      match code ev with
      | KEY_ESC => Done (d, cancelled_response)
      | KEY_UP => Done (if 0 <? cursor d then set_dirty (set_cursor (cursor d - 1) d) else d, event_result_handled)
      | KEY_DOWN => Done (if cursor d + 1 <? n then set_dirty (set_cursor (cursor d + 1) d) else d, event_result_handled)
      | KEY_CHAR =>
          if ch ev =? 32 then
            if ((0 <? n) && (cursor d <? n))%bool then
              orig ← at_index (filtered d !! Z.to_nat (cursor d));
              k ← at_index (selected d !! orig);
              let l := if (k : bool) then (if min_sel d <? sc then <[orig := false]> (selected d) else selected d)
                       else (if sc <? max_sel d then <[orig := true]> (selected d) else selected d) in
              Done (set_dirty (set_selected l d), event_result_handled)
            else Done (d, event_result_handled)
          else if u8 (ch ev) =? 0 then Done (set_dirty (set_query (query d) d), event_result_handled)
          else Done (set_dirty (set_query (query d ++ [ascii_of_N (Z.to_N (u8 (ch ev)))]) d), event_result_handled)
      | KEY_BACKSPACE =>
          match query d with
          | [] => Done (d, event_result_handled)
          | q => Done (set_dirty (set_query (removelast q) d), event_result_handled)
          end
      | KEY_ENTER =>
          if ((min_sel d <=? sc) && (sc <=? max_sel d))%bool
          then Done (d, answer (Some (picked_array (choices d) (selected d))))
          else Done (d, event_result_handled)
      | _ => Done (d, event_result_unhandled)
      end
  | _ => Done (d, event_result_unhandled)
  end.

Definition multiselect_widget_new (t m : option string) (cs : list string) (ph : option string) (min_s max_s : Z) : MultiselectData :=
  mk (base_new true) t m cs [] (default "Type to filter..." ph) 0 min_s
    (if 0 <? max_s then max_s else Z.of_nat (length cs)) [] (replicate (length cs) false).

#[global] Program Instance multiselect_widget : Widget MultiselectData := {|
  base := wb; set_base := with_base; render := multiselect_render; handle_event := multiselect_handle_event |}.
Solve Obligations with by destruct w.
End Multiselect.

(** ** What the widgets answer *)

Lemma menu_handles cs : cs <> [] ->
  handles (W := Menu.MenuData) (fun d => Menu.choices d = cs /\ 0 <= Menu.selected d < Z.of_nat (length cs))
    (fun d r => cancelled_answer r \/ exists c, cs !! Z.to_nat (Menu.selected d) = Some c /\ r = mkResponse (Some (string_item c)) false None).
Proof.
  intros Hne d ev [Hc Hs]. unfold handle_event, Menu.menu_widget, Menu.menu_handle_event, Menu.count. rewrite Hc.
  key_cases ev; try (eexists _, _; split; [done|]; split; [split; done|]; by (done || left)).
  - destruct (lookup_lt_is_Some_2 cs (Z.to_nat (Menu.selected d))) as [c Hl]; [lia|]. rewrite Hl.
    eexists _, _. split; [done|]. split; [done|]. right. by exists c.
  - destruct (0 <? Menu.selected d) eqn:E; simp_bool; eexists _, _; (split; [done|]); (split; [|done]); split; cbn; try done; lia.
  - destruct (Menu.selected d + 1 <? Z.of_nat (length cs)) eqn:E; simp_bool; eexists _, _; (split; [done|]); (split; [|done]); split; cbn; try done; lia.
Qed.

(** whatever keys arrive, a menu made with at least one choice keeps its
    cursor on a choice, never reads outside the array, and answers with a
    cancellation or with exactly the choice under the cursor. *)
Theorem menu_answers t m cs def evs : cs <> [] ->
  exists d r, run_events (Menu.menu_widget_new t m cs def) evs = Done (d, r) /\
    0 <= Menu.selected d < Z.of_nat (length cs) /\
    match r with
    | None => True
    | Some r => cancelled_answer r \/ exists c, cs !! Z.to_nat (Menu.selected d) = Some c /\ r = mkResponse (Some (string_item c)) false None
    end.
Proof.
  intros Hne. destruct (run_events_handles _ _ (menu_handles cs Hne) evs (Menu.menu_widget_new t m cs def)) as (d & r & H & [_ Hs] & Hr).
  - split; [done|]. cbn. destruct cs; [done|]. destruct (_ && _)%bool eqn:E; simp_bool; cbn [length] in *; lia.
  - exists d, r. done.
Qed.

(** with no choice at all, Enter in a menu or in a radio group reads the
    first element of an empty array. *)
Theorem empty_choice_faults t m def :
  Menu.menu_handle_event (Menu.menu_widget_new t m [] def) (key_event KEY_ENTER 0) = Fault OutOfBounds /\
  RadioGroup.radio_group_handle_event (RadioGroup.radio_group_widget_new t m [] def) (key_event KEY_ENTER 0) = Fault OutOfBounds.
Proof. split; unfold Menu.menu_handle_event, RadioGroup.radio_group_handle_event; cbn; by destruct (Z.to_nat _). Qed.

Definition checklist_inv (cs : list string) (lo hi : Z) (d : Checklist.ChecklistData) : Prop :=
  Checklist.choices d = cs /\ length (Checklist.checked d) = length cs /\ 0 <= Checklist.selected d < Z.of_nat (length cs) /\
  Checklist.min_sel d = lo /\ Checklist.max_sel d = hi.
Definition picks_between (cs : list string) (flags : list bool) (lo hi : Z) (r : WidgetResponse) : Prop :=
  r = mkResponse (Some (set_child (map string_item (picked cs flags)) cJSON_CreateArray)) false None /\
  lo <= Z.of_nat (length (picked cs flags)) <= hi.

Lemma length_picked cs flags : length cs = length flags -> Z.of_nat (length (picked cs flags)) = count_true flags.
Proof.
  revert flags. induction cs as [|c cs IH]; intros [|[] flags] H; try done; cbn [picked count_true length] in *; injection H as H;
    specialize (IH flags H); lia.
Qed.

(** Toggling one flag within the limits keeps the number of flags. *)
Lemma toggle_count lo hi flags i k n : flags !! i = Some k -> n = count_true flags -> n <= hi ->
  let l := if (k : bool) then (if lo <? n then <[i := false]> flags else flags) else (if n <? hi then <[i := true]> flags else flags) in
  length l = length flags /\ count_true l <= hi /\ (lo <= n -> lo <= count_true l).
Proof.
  intros Hi -> Hh. pose proof (count_true_set flags i k Hi) as Hc.
  destruct k; cbn [negb] in Hc; [destruct (lo <? count_true flags) eqn:E|destruct (count_true flags <? hi) eqn:E]; simp_bool;
    cbn zeta; rewrite ?length_insert, ?Hc; lia.
Qed.

Lemma checklist_handles cs lo hi :
  handles (W := Checklist.ChecklistData) (fun d => checklist_inv cs lo hi d /\ count_true (Checklist.checked d) <= hi)
    (fun d r => cancelled_answer r \/ picks_between cs (Checklist.checked d) lo hi r).
Proof.
  intros d ev [(Hc & Hlen & Hs & Hlo & Hhi) Hn]. unfold handle_event, Checklist.checklist_widget, Checklist.checklist_handle_event, Checklist.count.
  rewrite Hc, Hlo, Hhi. assert (checklist_inv cs lo hi d /\ count_true (Checklist.checked d) <= hi) as Hi by (unfold checklist_inv; auto 10).
  key_cases ev; try (eexists _, _; split; [done|]; split; [exact Hi|]; by (done || left)).
  - destruct (_ && _)%bool eqn:E; simp_bool; eexists _, _; (split; [done|]); (split; [exact Hi|]); [|done]. right.
    rewrite picked_array_spec. split; [done|]. rewrite length_picked; [done|congruence].
  - destruct (0 <? Checklist.selected d) eqn:E; simp_bool; eexists _, _; (split; [done|]); (split; [|done]); [|exact Hi].
    unfold checklist_inv. cbn. repeat split; try done; lia.
  - destruct (Checklist.selected d + 1 <? _) eqn:E; simp_bool; eexists _, _; (split; [done|]); (split; [|done]); [|exact Hi].
    unfold checklist_inv. cbn. repeat split; try done; lia.
  - destruct (ch ev =? 32); [|eexists _, _; split; [done|]; split; [exact Hi|done]].
    destruct (lookup_lt_is_Some_2 (Checklist.checked d) (Z.to_nat (Checklist.selected d))) as [k Hk]; [lia|]. rewrite Hk. cbn [at_index mbind exec_bind].
    destruct (toggle_count lo hi _ _ _ _ Hk eq_refl Hn) as (Hl & Hh & _). eexists _, _. split; [done|]. split; [|done].
    split; [|exact Hh]. unfold checklist_inv. cbn. repeat split; first [done|lia|by rewrite <-Hlen].
Qed.

Lemma checklist_new_length t m cs lo hi defaults : length (Checklist.checked (Checklist.checklist_widget_new t m cs lo hi defaults)) = length cs.
Proof.
  cbn. assert (forall fl, length fl = length cs -> length (foldl (fun flags d => zip_with (fun c (f : bool) => if decide (c = d) then true else f) cs flags) fl defaults) = length cs) as H.
  { induction defaults as [|x ds IH]; intros fl Hf; [done|]. cbn [foldl]. apply IH. rewrite length_zip_with. lia. }
  apply H. apply length_replicate.
Qed.

(** whatever keys arrive, a checklist never has more choices checked than
    its maximum (when its defaults respect it), and it answers with a
    cancellation or with the array of the checked choices, in their order, at
    least the minimum and at most the maximum of them. *)
Theorem checklist_answers t m cs lo hi defaults evs :
  let d0 := Checklist.checklist_widget_new t m cs lo hi defaults in
  cs <> [] -> count_true (Checklist.checked d0) <= Checklist.max_sel d0 ->
  exists d r, run_events d0 evs = Done (d, r) /\ count_true (Checklist.checked d) <= Checklist.max_sel d0 /\
    match r with
    | None => True
    | Some r => cancelled_answer r \/ picks_between cs (Checklist.checked d) lo (Checklist.max_sel d0) r
    end.
Proof.
  intros d0 Hne Hn. destruct (run_events_handles _ _ (checklist_handles cs lo (Checklist.max_sel d0)) evs d0) as (d & r & H & [_ Hc] & Hr).
  - split; [|exact Hn]. split; [done|]. split; [apply checklist_new_length|]. split; [destruct cs; cbn; [done|lia]|done].
  - exists d, r. done.
Qed.

Definition multiselect_inv (cs : list string) (lo hi : Z) (d : Multiselect.MultiselectData) : Prop :=
  Multiselect.choices d = cs /\ length (Multiselect.selected d) = length cs /\ 0 <= Multiselect.cursor d /\
  Forall (fun i => (i < length cs)%nat) (Multiselect.filtered d) /\ Multiselect.min_sel d = lo /\ Multiselect.max_sel d = hi /\
  count_true (Multiselect.selected d) <= hi.

Lemma ms_update_inv cs lo hi d : multiselect_inv cs lo hi d -> multiselect_inv cs lo hi (Multiselect.ms_update d).
Proof.
  intros (Hc & Hl & Hcu & Hf & Hlo & Hhi & Hn). unfold multiselect_inv, Multiselect.ms_update.
  cbn [Multiselect.choices Multiselect.selected Multiselect.cursor Multiselect.filtered Multiselect.min_sel Multiselect.max_sel].
  repeat split; try done.
  - repeat case_match; simp_bool; lia.
  - rewrite Hc. apply list.Forall_forall. intros i Hi. destruct (Multiselect.query d); [|apply list_elem_of_filter in Hi as [_ Hi]];
      apply elem_of_seq in Hi; lia.
Qed.

(** The keys, between which the session may render. *)
Lemma multiselect_handles cs lo hi :
  handles (W := Multiselect.MultiselectData) (multiselect_inv cs lo hi)
    (fun d r => cancelled_answer r \/ picks_between cs (Multiselect.selected d) lo hi r).
Proof.
  intros d ev Hi. pose proof Hi as (Hc & Hl & Hcu & Hf & Hlo & Hhi & Hn).
  unfold handle_event, Multiselect.multiselect_widget, Multiselect.multiselect_handle_event. rewrite Hc, Hlo, Hhi.
  key_cases ev; try (eexists _, _; split; [done|]; split; [exact Hi|]; by (done || left)).
  - destruct (Multiselect.query d); eexists _, _; (split; [done|]); (split; [|done]); [exact Hi|].
    unfold multiselect_inv. cbn. auto 10 with lia.
  - destruct (_ && _)%bool eqn:E; simp_bool; eexists _, _; (split; [done|]); (split; [exact Hi|]); [|done]. right.
    rewrite picked_array_spec. split; [done|]. rewrite length_picked; [done|congruence].
  - destruct (0 <? Multiselect.cursor d) eqn:E; simp_bool; eexists _, _; (split; [done|]); (split; [|done]); [|exact Hi].
    unfold multiselect_inv. cbn. auto 10 with lia.
  - destruct (Multiselect.cursor d + 1 <? _) eqn:E; simp_bool; eexists _, _; (split; [done|]); (split; [|done]); [|exact Hi].
    unfold multiselect_inv. cbn. auto 10 with lia.
  - destruct (ch ev =? 32).
    + destruct (_ && _)%bool eqn:E; simp_bool; [|eexists _, _; split; [done|]; split; [exact Hi|done]].
      destruct (lookup_lt_is_Some_2 (Multiselect.filtered d) (Z.to_nat (Multiselect.cursor d))) as [o Ho]; [lia|]. rewrite Ho. cbn [at_index mbind exec_bind].
      assert (o < length cs)%nat as Hoc by (rewrite list.Forall_forall in Hf; apply Hf; by eapply list_elem_of_lookup_2).
      destruct (lookup_lt_is_Some_2 (Multiselect.selected d) o) as [k Hk]; [lia|]. rewrite Hk. cbn [at_index mbind exec_bind].
      destruct (toggle_count lo hi _ _ _ _ Hk eq_refl Hn) as (Hl' & Hh & _). eexists _, _. split; [done|]. split; [|done].
      unfold multiselect_inv. cbn. repeat split; first [done|lia|by rewrite <-Hl].
    + destruct (u8 (ch ev) =? 0); eexists _, _; (split; [done|]); (split; [|done]); unfold multiselect_inv; cbn; auto 10 with lia.
Qed.

Lemma multiselect_new_inv t m cs ph lo hi :
  multiselect_inv cs lo (if 0 <? hi then hi else Z.of_nat (length cs)) (Multiselect.multiselect_widget_new t m cs ph lo hi).
Proof.
  unfold multiselect_inv. cbn. rewrite length_replicate. repeat split; try done.
  assert (count_true (replicate (length cs) false) = 0) as -> by (induction (length cs); cbn; lia). case_match; simp_bool; lia.
Qed.

(** a multiselect keeps to its limits too, with renderings (which refilter
    the list) and keys in any order: the positions it holds stay inside the
    arrays although they are those of the last rendering. *)
Theorem multiselect_safe cs lo hi d evs : multiselect_inv cs lo hi d ->
  (exists d' r, run_events (Multiselect.ms_update d) evs = Done (d', r) /\ multiselect_inv cs lo hi d' /\
    match r with None => True | Some r => cancelled_answer r \/ picks_between cs (Multiselect.selected d') lo hi r end) /\
  no_fault (Multiselect.multiselect_render d) /\
  (forall t m ph, 0 < hi -> multiselect_inv cs lo hi (Multiselect.multiselect_widget_new t m cs ph lo hi)).
Proof.
  intros Hi. apply ms_update_inv in Hi as Hu. split; [|split].
  - destruct (run_events_handles _ _ (multiselect_handles cs lo hi) evs _ Hu) as (d' & r & H & Hi' & Hr). by exists d', r.
  - destruct Hu as (Hc & Hl & _ & Hf & _). unfold Multiselect.multiselect_render. apply no_fault_bind; [|done].
    set (d1 := Multiselect.ms_update d) in *. rewrite Hc in *. induction Hf as [|i l Hil _ IH]; [done|].
    destruct (lookup_lt_is_Some_2 (Multiselect.selected d1) i) as [k Hk]; [lia|].
    destruct (lookup_lt_is_Some_2 cs i Hil) as [c Hcs]. rewrite Hk, Hcs. cbn [at_index mbind exec_bind].
    apply no_fault_bind; [exact IH|done].
  - intros t m ph Hh. pose proof (multiselect_new_inv t m cs ph lo hi) as H. by rewrite (proj2 (Z.ltb_lt _ _)) in H by done.
Qed.

(** ** At concrete inputs *)

Definition key (k : KeyCode) : Event := key_event k 0.

Lemma menu_answers_witness : exists d, run_events (Menu.menu_widget_new None None ["a"; "b"] 0) [key KEY_DOWN; key KEY_DOWN; key KEY_ENTER] =
  Done (d, Some (mkResponse (Some (string_item "b")) false None)).
Proof.
  destruct (menu_answers None None ["a"; "b"] 0 [key KEY_DOWN; key KEY_DOWN; key KEY_ENTER]) as (d & r & H & _); [discriminate|].
  exists d. rewrite H. vm_compute in H. injection H as <- <-. reflexivity.
Defined.

Lemma checklist_answers_witness : exists d r, run_events (Checklist.checklist_widget_new None None ["a"; "b"] 1 1 ["b"]) [key_event KEY_CHAR 32; key KEY_ENTER] = Done (d, r) /\
  count_true (Checklist.checked d) <= 1.
Proof.
  destruct (checklist_answers None None ["a"; "b"] 1 1 ["b"] [key_event KEY_CHAR 32; key KEY_ENTER]) as (d & r & H & Hc & _);
    [discriminate|vm_compute; discriminate|]. exists d, r. split; [exact H|exact Hc].
Defined.

Lemma multiselect_safe_witness : no_fault (Multiselect.multiselect_render (Multiselect.multiselect_widget_new None None ["Ab"; "c"] None 0 2)).
Proof.
  apply (multiselect_safe ["Ab"; "c"] 0 2 _ []). unfold multiselect_inv. vm_compute. repeat split; try discriminate; constructor.
Defined.
