(* ===== verification/Forms.v ===== *)
(** The widgets that take a value: src/src/core/widgets/input.c (as made by
    [input_widget_new], without a validation script), yesno.c, toggle.c,
    calendar.c, range_slider.c and table.c. *)

From Stdlib Require Import SpecFloat.
From S2P Require Import Prelude Double CJson Protocol Widget RenderTree Boxes.

Definition byte (ch : Z) : ascii := ascii_of_N (Z.to_N (u8 ch)).

(** ** input.c *)

Module Input.
Section input.
(** POSIX regular expressions: whether a pattern compiles, and matches. *)
Context (regcomp_ok : string -> bool) (regexec : string -> string -> bool).

(** [text] is the whole allocation: the string, its terminator, and what is
    left behind it. *)
Record InputData := mk {
  wb : WidgetBase; title : option string; message : option string; text : list ascii; cursor : Z;
  placeholder : string; validation : option string
}.
Definition with_base (b : WidgetBase) (d : InputData) : InputData :=
  mk b (title d) (message d) (text d) (cursor d) (placeholder d) (validation d).
Definition set_cursor (c : Z) (d : InputData) : InputData :=
  mk (wb d) (title d) (message d) (text d) c (placeholder d) (validation d).
Definition set_text (t : list ascii) (c : Z) (d : InputData) : InputData :=
  mk (base_set_dirty true (wb d)) (title d) (message d) t c (placeholder d) (validation d).

(** [strlen(t)]: up to the first terminator, which must be there. *)
Fixpoint strlen_buf (t : list ascii) : exec nat :=
  match t with
  | [] => Fault OutOfBounds
  | c :: t' => if Ascii.eqb c NUL then Done O else S <$> strlen_buf t'
  end.
(** The string at the start of the buffer. *)
Definition content (t : list ascii) : exec string := n ← strlen_buf t; Done (of_chars (take n t)).
(** [n] bytes from [off]; a negative count is a huge [size_t]. *)
Definition copy (t : list ascii) (off n : Z) : exec (list ascii) :=
  if ((0 <=? off) && (0 <=? n) && (off + n <=? Z.of_nat (length t)))%bool
  then Done (take (Z.to_nat n) (drop (Z.to_nat off) t)) else Fault OutOfBounds.
(** [memmove(t + dst, t + src, n)] *)
Definition memmove (t : list ascii) (dst src n : Z) : exec (list ascii) :=
  m ← copy t src n;
  if ((0 <=? dst) && (dst + n <=? Z.of_nat (length t)))%bool
  then Done (take (Z.to_nat dst) t ++ m ++ drop (Z.to_nat (dst + n)) t) else Fault OutOfBounds.
Definition suffix (t : list ascii) (off : Z) : exec (list ascii) := copy t off (Z.of_nat (length t) - off).

Definition input_render (d : InputData) : exec RenderTree :=
  let area := render_area (wb d) in
  let box_w := at_most (rw area - 2) 60 in
  let box_h := at_most (rh area - 2) 10 in
  let input_y := match message d with Some _ => 4 | None => 2 end in
  s ← content (text d);
  Done (box (wb d) "input" "Input" (title d) box_w box_h
    (match shown (title d) with Some s => [with_state "title" (text_node (rect_new 1 0 (box_w - 2) 1) s ALIGN_LEFT)] | None => [] end ++
     match shown (message d) with Some s => [text_node (rect_new 1 1 (box_w - 2) 2) s ALIGN_LEFT] | None => [] end ++
     [child_node "input" (rect_new 1 input_y (box_w - 2) 1) (RNODE_INPUT (Some s) (Some (placeholder d)) (cursor d) false);
      with_state "muted" (text_node (rect_new 1 (box_h - 2) (box_w - 2) 1) "Type + Enter:confirm  Esc:cancel" ALIGN_LEFT)])).

Definition input_handle_event (d : InputData) (ev : Event) : exec (InputData * EventResult) :=
  match Widget.type ev with
  | EVENT_KEY =>
      match code ev with
      | KEY_ESC => Done (d, cancelled_response)
      | KEY_ENTER =>
          s ← content (text d);
          if match validation d with Some p => negb (regexec p s) | None => false end then Done (d, event_result_handled)
          else Done (d, answer (cJSON_CreateString (Some s)))
      | KEY_CHAR =>
          len ← strlen_buf (text d);
          before ← copy (text d) 0 (cursor d);
          after ← copy (text d) (cursor d) (Z.of_nat len - cursor d);
          Done (set_text (before ++ byte (ch ev) :: after ++ [NUL]) (cursor d + 1) d, event_result_handled)
      | KEY_BACKSPACE =>
          if 0 <? cursor d then
            s ← suffix (text d) (cursor d); n ← strlen_buf s;
            t ← memmove (text d) (cursor d - 1) (cursor d) (Z.of_nat n + 1);
            Done (set_text t (cursor d - 1) d, event_result_handled)
          else Done (d, event_result_handled)
      | KEY_DELETE =>
          len ← strlen_buf (text d);
          if cursor d <? Z.of_nat len then
            s ← suffix (text d) (cursor d); n ← strlen_buf s;
            t ← memmove (text d) (cursor d) (cursor d + 1) (Z.of_nat n);
            Done (set_text t (cursor d) d, event_result_handled)
          else Done (d, event_result_handled)
      | KEY_LEFT => Done (if 0 <? cursor d then set_cursor (cursor d - 1) d else d, event_result_handled)
      | KEY_RIGHT => len ← strlen_buf (text d); Done (if cursor d <? Z.of_nat len then set_cursor (cursor d + 1) d else d, event_result_handled)
      | KEY_HOME => Done (set_cursor 0 d, event_result_handled)
      | KEY_END => len ← strlen_buf (text d); Done (set_cursor (Z.of_nat len) d, event_result_handled)
      | _ => Done (d, event_result_unhandled)
      end
  | _ => Done (d, event_result_unhandled)
  end.

Definition input_widget_new (t m default_text ph valid : option string) : InputData :=
  let s := default EmptyString default_text in
  mk (base_new true) t m (chars s ++ [NUL]) (strlen s) (default EmptyString ph)
    (match valid with Some p => if regcomp_ok p then Some p else None | None => None end).

#[global] Program Instance input_widget : Widget InputData := {|
  base := wb; set_base := with_base; render d := t ← input_render d; Done (d, t); handle_event := input_handle_event |}.
Solve Obligations with by destruct w.

(** *** The specification: a line with a cursor *)

Record line := mkLine { left_of : list ascii; right_of : list ascii }.
Definition edit (k : KeyCode) (c : ascii) (l : line) : line :=
  match k with
  | KEY_CHAR => mkLine (left_of l ++ [c]) (right_of l)
  | KEY_BACKSPACE => match left_of l with [] => l | _ => mkLine (removelast (left_of l)) (right_of l) end
  | KEY_DELETE => mkLine (left_of l) (list.tail (right_of l))
  | KEY_LEFT => match list.last (left_of l) with Some x => mkLine (removelast (left_of l)) (x :: right_of l) | None => l end
  | KEY_RIGHT => match right_of l with x :: r => mkLine (left_of l ++ [x]) r | [] => l end
  | KEY_HOME => mkLine [] (left_of l ++ right_of l)
  | KEY_END => mkLine (left_of l ++ right_of l) []
  | _ => l
  end.
Definition whole (l : line) : string := of_chars (left_of l ++ right_of l).
Definition reps (d : InputData) (l : line) : Prop :=
  exists junk, text d = left_of l ++ right_of l ++ NUL :: junk /\ cursor d = Z.of_nat (length (left_of l)) /\
    NUL ∉ left_of l ++ right_of l.

Lemma strlen_buf_app t junk : NUL ∉ t -> strlen_buf (t ++ NUL :: junk) = Done (length t).
Proof.
  induction t as [|c t IH]; intros H; [done|]. apply not_elem_of_cons in H as [Hc H].
  cbn [app strlen_buf]. destruct (Ascii.eqb_spec c NUL); [by subst|]. by rewrite IH.
Qed.
Lemma copy_app a b c n : n = Z.of_nat (length b) -> copy (a ++ b ++ c) (Z.of_nat (length a)) n = Done b.
Proof.
  intros ->. unfold copy. rewrite !length_app.
  rewrite (proj2 (Z.leb_le _ _)), (proj2 (Z.leb_le _ _)), (proj2 (Z.leb_le _ _)) by lia. cbn [andb].
  rewrite !Nat2Z.id. by rewrite drop_app_length, take_app_length.
Qed.
Lemma content_app t junk : NUL ∉ t -> content (t ++ NUL :: junk) = Done (of_chars t).
Proof. intros H. unfold content. rewrite strlen_buf_app by done. cbn. by rewrite take_app_length. Qed.

Lemma memmove_app a x b c dst src n : dst = Z.of_nat (length a) -> src = Z.of_nat (length (a ++ x)) -> n = Z.of_nat (length b) ->
  exists r, memmove (a ++ x ++ b ++ c) dst src n = Done (a ++ b ++ r) /\ length r = length (x ++ c).
Proof.
  intros -> -> ->. unfold memmove. rewrite (assoc_L (++) a x). rewrite copy_app by done. cbn [mbind exec_bind].
  rewrite !length_app. rewrite (proj2 (Z.leb_le _ _)), (proj2 (Z.leb_le _ _)) by lia. cbn [andb].
  eexists. rewrite Nat2Z.id, <-(assoc_L (++) a x), take_app_length. split; [done|].
  rewrite length_drop, !length_app. lia.
Qed.

Lemma suffix_app a b : suffix (a ++ b) (Z.of_nat (length a)) = Done b.
Proof.
  pose proof (copy_app a b [] (Z.of_nat (length (a ++ b)) - Z.of_nat (length a))) as H. rewrite app_nil_r in H.
  apply H. rewrite length_app. lia.
Qed.

(** One key that is not a NUL character. *)
Lemma input_handle_edit d l ev : reps d l -> Widget.type ev = EVENT_KEY -> code ev <> KEY_ENTER -> code ev <> KEY_ESC ->
  (code ev = KEY_CHAR -> byte (ch ev) <> NUL) ->
  exists d' r, input_handle_event d ev = Done (d', r) /\ reps d' (edit (code ev) (byte (ch ev)) l) /\
    validation d' = validation d /\ match r with EVENT_RESULT_RESPONSE _ => False | _ => True end.
Proof.
  intros (junk & Ht & Hc & Hn) Hty Hne Hns Hch. pose proof Hn as [Hnl Hnr]%not_elem_of_app. destruct l as [ls rs]. cbn [left_of right_of] in *.
  assert (reps d (mkLine ls rs)) as Hd by (by exists junk).
  assert (strlen_buf (text d) = Done (length ls + length rs)%nat) as Hlen.
  { rewrite Ht, (assoc_L (++)), strlen_buf_app, length_app; done. }
  assert (suffix (text d) (cursor d) = Done (rs ++ NUL :: junk)) as Hsuf by (rewrite Ht, Hc; apply suffix_app).
  unfold input_handle_event. rewrite Hty.
  destruct (code ev) eqn:Hk; try done; try (eexists _, _; split; [done|]; split; [exact Hd|done]); cbn [edit left_of right_of].
  - (* backspace *) induction ls as [|y ys _] using rev_ind.
    + rewrite Hc. eexists _, _. split; [done|]. split; [by exists junk|done].
    + destruct (0 <? cursor d) eqn:E; simp_bool; [|rewrite length_app in Hc; cbn in Hc; lia].
      rewrite Hsuf. cbn [mbind exec_bind]. rewrite strlen_buf_app by done. cbn [mbind exec_bind].
      destruct (memmove_app ys [y] (rs ++ [NUL]) junk (cursor d - 1) (cursor d) (Z.of_nat (length rs) + 1)) as (r & Hr & _);
        [rewrite Hc, length_app; cbn; lia|by rewrite Hc|rewrite length_app; cbn; lia|].
      replace (ys ++ [y] ++ (rs ++ [NUL]) ++ junk) with (text d) in Hr by (rewrite Ht, <-!(assoc_L (++)); done).
      rewrite Hr. cbn [mbind exec_bind]. eexists _, _. split; [done|]. split; [|done].
      exists r. cbn [text set_text cursor]. destruct (ys ++ [y]) eqn:Eys; [by destruct ys|]. rewrite <-Eys, removelast_last.
      cbn [left_of right_of]. split; [by rewrite <-!(assoc_L (++))|]. split; [rewrite Hc, <-Eys, length_app; cbn; lia|].
      rewrite <-Eys, not_elem_of_app in Hnl. apply not_elem_of_app. tauto.
  - (* left *) induction ls as [|y ys _] using rev_ind.
    + rewrite Hc. eexists _, _. split; [done|]. split; [by exists junk|done].
    + rewrite last_snoc, removelast_last. destruct (0 <? cursor d) eqn:E; simp_bool; [|rewrite length_app in Hc; cbn in Hc; lia].
      eexists _, _. split; [done|]. split; [|done]. exists junk. cbn [set_cursor text cursor left_of right_of].
      split; [by rewrite Ht, <-(assoc_L (++))|]. split; [rewrite Hc, length_app; cbn; lia|]. by rewrite <-(assoc_L (++)) in Hn.
  - (* right *) rewrite Hlen. cbn [mbind exec_bind]. destruct rs as [|y rs].
    + rewrite (proj2 (Z.ltb_ge _ _)) by (rewrite Hc; cbn; lia). eexists _, _. split; [done|]. split; [exact Hd|done].
    + rewrite (proj2 (Z.ltb_lt _ _)) by (rewrite Hc; cbn; lia). eexists _, _. split; [done|]. split; [|done].
      exists junk. cbn [set_cursor text cursor left_of right_of]. split; [by rewrite Ht, <-(assoc_L (++))|].
      split; [rewrite Hc, length_app; cbn; lia|]. by rewrite <-(assoc_L (++)).
  - (* home *) eexists _, _. split; [done|]. split; [|done]. exists junk. cbn. by rewrite Ht, (assoc_L (++)).
  - (* end *) rewrite Hlen. cbn [mbind exec_bind]. eexists _, _. split; [done|]. split; [|done].
    exists junk. cbn. rewrite Ht, (assoc_L (++)), app_nil_r, length_app. done.
  - (* delete *) rewrite Hlen. cbn [mbind exec_bind]. destruct rs as [|y rs].
    + rewrite (proj2 (Z.ltb_ge _ _)) by (rewrite Hc; cbn; lia). eexists _, _. split; [done|]. split; [exact Hd|done].
    + rewrite (proj2 (Z.ltb_lt _ _)) by (rewrite Hc; cbn; lia). rewrite Hsuf. cbn [mbind exec_bind].
      rewrite strlen_buf_app by done. cbn [mbind exec_bind].
      destruct (memmove_app ls [y] (rs ++ [NUL]) junk (cursor d) (cursor d + 1) (Z.of_nat (length (y :: rs)))) as (r & Hr & _);
        [done|rewrite Hc, length_app; cbn; lia|rewrite length_app; cbn; lia|].
      replace (ls ++ [y] ++ (rs ++ [NUL]) ++ junk) with (text d) in Hr by (rewrite Ht, <-!(assoc_L (++)); done).
      rewrite Hr. cbn [mbind exec_bind]. eexists _, _. split; [done|]. split; [|done].
      exists r. cbn [text set_text cursor left_of right_of list.tail]. split; [by rewrite <-!(assoc_L (++))|]. split; [done|].
      rewrite not_elem_of_app, not_elem_of_cons in Hn. apply not_elem_of_app. tauto.
  - (* char *) rewrite Hlen. cbn [mbind exec_bind].
    assert (copy (text d) 0 (cursor d) = Done ls) as -> by (rewrite Ht; apply (copy_app [] ls); done). cbn [mbind exec_bind].
    assert (copy (text d) (cursor d) (Z.of_nat (length ls + length rs) - cursor d) = Done rs) as ->.
    { rewrite Ht, Hc. apply copy_app. lia. }
    cbn [mbind exec_bind]. eexists _, _. split; [done|]. split; [|done]. exists []. cbn [text set_text cursor left_of right_of].
    split; [by rewrite <-(assoc_L (++))|]. split; [rewrite length_app; cbn; lia|]. specialize (Hch eq_refl).
    rewrite !not_elem_of_app, not_elem_of_cons. repeat split; first [done|congruence|apply not_elem_of_nil|idtac]; try (intros E; by apply Hch).
Qed.

(** What the keys mean: editing, until a line is accepted or given up. *)
Fixpoint type_keys (valid : option string) (l : line) (evs : list Event) : line * option WidgetResponse :=
  match evs with
  | [] => (l, None)
  | e :: evs' =>
      match Widget.type e, code e with
      | EVENT_KEY, KEY_ESC => (l, Some (mkResponse None true None))
      | EVENT_KEY, KEY_ENTER =>
          if match valid with Some p => regexec p (whole l) | None => true end
          then (l, Some (mkResponse (Some (string_item (whole l))) false None)) else type_keys valid l evs'
      | EVENT_KEY, k => type_keys valid (edit k (byte (ch e)) l) evs'
      | _, _ => type_keys valid l evs'
      end
  end.
Definition no_nul_key (e : Event) : Prop := Widget.type e = EVENT_KEY -> code e = KEY_CHAR -> byte (ch e) <> NUL.

Lemma input_run evs : forall d l, Forall no_nul_key evs -> reps d l ->
  exists d', run_events d evs = Done (d', (type_keys (validation d) l evs).2) /\ reps d' (type_keys (validation d) l evs).1.
Proof.
  induction evs as [|e evs IH]; intros d l Hf Hr; [by exists d|]. apply list.Forall_cons in Hf as [He Hf].
  cbn [run_events type_keys]. unfold handle_event, input_widget.
  destruct (Widget.type e) eqn:Hty;
    try (unfold input_handle_event; rewrite Hty; cbn [mbind exec_bind event_result_unhandled]; by apply IH).
  destruct (decide (code e = KEY_ESC)) as [E|Hesc].
  { unfold input_handle_event. rewrite Hty, E. by exists d. }
  destruct (decide (code e = KEY_ENTER)) as [E|Hent].
  { unfold input_handle_event. rewrite Hty, E. destruct Hr as (junk & Ht & Hc & Hn).
    rewrite Ht, (assoc_L (++)), content_app by done. cbn [mbind exec_bind]. fold (whole l).
    destruct (validation d) as [p|] eqn:Hv; [destruct (regexec p (whole l))|]; cbn [negb mbind exec_bind answer event_result_response event_result_handled].
    - exists d. split; [done|]. by exists junk.
    - rewrite <-Hv. apply IH; [done|]. by exists junk.
    - exists d. split; [done|]. by exists junk. }
  destruct (input_handle_edit d l e Hr Hty Hent Hesc (He Hty)) as (d' & r & -> & Hr' & Hv & Hres). cbn [mbind exec_bind].
  replace (match code e with KEY_ESC => _ | KEY_ENTER => _ | _ => _ end) with (type_keys (validation d) (edit (code e) (byte (ch e)) l) evs)
    by (destruct (code e); done).
  rewrite <-Hv. destruct r; [by apply IH|done|by apply IH].
Qed.

(** C26: typing without a NUL character: the buffer surgery of the input widget
    is editing a line at a cursor. Nothing is read or written outside the
    buffer, and the answer is the line as it stands, once it is valid. *)
Theorem input_edits (t m : option string) (s : string) (ph valid : option string) (evs : list Event) :
  c_string s -> Forall no_nul_key evs ->
  exists (d : InputData) (l : line) (r : option WidgetResponse),
    run_events (input_widget_new t m (Some s) ph valid) evs = Done (d, r) /\ reps d l /\
    type_keys (validation (input_widget_new t m (Some s) ph valid)) (mkLine (chars s) []) evs = (l, r).
Proof.
  intros Hs Hf. destruct (input_run evs (input_widget_new t m (Some s) ph valid) (mkLine (chars s) []) Hf) as (d & H1 & H2).
  - exists []. cbn. unfold strlen. rewrite length_chars, app_nil_r. done.
  - destruct (type_keys _ _ evs) as [l r]. by exists d, l, r.
Qed.

(** the terminal backend delivers Ctrl-Space as the character 0. It ends
    the string before the cursor, and the next character is inserted with a
    negative copy length: outside the buffer. *)
Theorem input_nul_faults t m s ph valid c : c_string s ->
  run_events (input_widget_new t m (Some s) ph valid) [key_event KEY_CHAR 0; key_event KEY_CHAR c] = Fault OutOfBounds.
Proof.
  intros Hs. unfold input_widget_new. cbn [run_events handle_event input_widget default].
  set (d := mk _ _ _ _ _ _ _).
  assert (text d = chars s ++ [NUL]) as Ht by done. assert (cursor d = Z.of_nat (length (chars s))) as Hc by (cbn; unfold strlen; by rewrite length_chars).
  assert (input_handle_event d (key_event KEY_CHAR 0) = Done (set_text (chars s ++ NUL :: [NUL]) (cursor d + 1) d, event_result_handled)) as ->.
  { unfold input_handle_event. cbn [Widget.type code key_event]. rewrite Ht, strlen_buf_app by done. cbn [mbind exec_bind]. rewrite Hc.
    rewrite (copy_app [] (chars s) [NUL]) by done. cbn [mbind exec_bind].
    by rewrite (copy_app (chars s) [] [NUL]) by (cbn; lia). }
  cbn [mbind exec_bind event_result_handled]. unfold input_handle_event. cbn [Widget.type code key_event set_text text cursor].
  rewrite strlen_buf_app by done. cbn [mbind exec_bind]. rewrite Hc.
  destruct (copy (chars s ++ [NUL; NUL]) 0 _) as [x| |f] eqn:E; cbn [mbind exec_bind].
  - unfold copy. rewrite (proj2 (Z.leb_gt 0 (Z.of_nat (length (chars s)) - _))) by lia. by rewrite andb_false_r.
  - unfold copy in E. by destruct (_ && _)%bool.
  - unfold copy in E. destruct (_ && _)%bool; [done|]. by injection E as <-.
Qed.
End input.
End Input.

(** ** yesno.c *)

Module YesNo.
Record YesNoData := mk { wb : WidgetBase; title : option string; message : option string; selected_yes : bool }.
Definition with_base (b : WidgetBase) (d : YesNoData) : YesNoData := mk b (title d) (message d) (selected_yes d).

Definition yesno_render (d : YesNoData) : RenderTree :=
  let area := render_area (wb d) in
  let box_w := at_most (rw area - 2) 50 in
  let box_h := at_most (rh area - 2) 10 in
  let bx := cdiv (box_w - 20) 2 in
  let mark (b : bool) := if b then "selected" else "normal" in
  box (wb d) "yesno" "Confirm" (title d) box_w box_h
    (match shown (title d) with Some s => [with_state "title" (text_node (rect_new 1 0 (box_w - 2) 1) s ALIGN_LEFT)] | None => [] end ++
     match shown (message d) with Some s => [text_node (rect_new 1 2 (box_w - 2) 2) s ALIGN_LEFT] | None => [] end ++
     [with_state (mark (selected_yes d)) (text_node (rect_new bx 5 8 1) "[ Yes ]" ALIGN_LEFT);
      with_state (mark (negb (selected_yes d))) (text_node (rect_new (bx + 10) 5 8 1) "[ No ]" ALIGN_LEFT);
      with_state "muted" (text_node (rect_new 1 (box_h - 2) (box_w - 2) 1) "h/l:choose  Enter:confirm  y/n:quick  Esc:cancel" ALIGN_LEFT)]).

Definition yesno_handle_event (d : YesNoData) (ev : Event) : exec (YesNoData * EventResult) :=
  match Widget.type ev with
  | EVENT_KEY =>
      match code ev with
      | KEY_ESC => Done (d, cancelled_response)
      | KEY_LEFT | KEY_RIGHT | KEY_TAB =>
          Done (mk (base_set_dirty true (wb d)) (title d) (message d) (negb (selected_yes d)), event_result_handled)
      | KEY_ENTER => Done (d, answer (Some (cJSON_CreateBool (selected_yes d))))
      | KEY_CHAR =>
          if ((ch ev =? 121) || (ch ev =? 89))%bool then Done (d, answer (Some (cJSON_CreateBool true)))
          else if ((ch ev =? 110) || (ch ev =? 78))%bool then Done (d, answer (Some (cJSON_CreateBool false)))
          else Done (d, event_result_unhandled)
      | _ => Done (d, event_result_unhandled)
      end
  | _ => Done (d, event_result_unhandled)
  end.
Definition yesno_widget_new (t m : option string) (default_yes : bool) : YesNoData := mk (base_new false) t m default_yes.

#[global] Program Instance yesno_widget : Widget YesNoData := {|
  base := wb; set_base := with_base; render d := Done (d, yesno_render d); handle_event := yesno_handle_event |}.
Solve Obligations with by destruct w.
End YesNo.

(** ** toggle.c *)

Module Toggle.
Record ToggleData := mk { wb : WidgetBase; title : option string; label : string; value : bool }.
Definition with_base (b : WidgetBase) (d : ToggleData) : ToggleData := mk b (title d) (label d) (value d).

Definition toggle_render (d : ToggleData) : RenderTree :=
  let area := render_area (wb d) in
  let box_w := at_most (rw area - 2) 40 in
  let box_h := at_most (rh area - 2) 5 in
  box (wb d) "toggle" (label d) (title d) box_w box_h
    [with_state "title" (child_node "text" (rect_new 1 0 (box_w - 2) 1) (RNODE_TEXT (title d) ALIGN_LEFT));
     child_node "toggle" (rect_new 1 2 (box_w - 2) 1) (RNODE_TOGGLE (Some (label d)) (value d) false);
     with_state "muted" (text_node (rect_new 1 (box_h - 2) (box_w - 2) 1) "Space:toggle  Enter:confirm  Esc:cancel" ALIGN_LEFT)].

Definition toggle_handle_event (d : ToggleData) (ev : Event) : exec (ToggleData * EventResult) :=
  match Widget.type ev with
  | EVENT_KEY =>
      match code ev with
      | KEY_ESC => Done (d, cancelled_response)
      | KEY_CHAR =>
          Done (if ch ev =? 32 then mk (base_set_dirty true (wb d)) (title d) (label d) (negb (value d)) else d, event_result_handled)
      | KEY_ENTER => Done (d, answer (Some (cJSON_CreateBool (value d))))
      | _ => Done (d, event_result_unhandled)
      end
  | _ => Done (d, event_result_unhandled)
  end.
Definition toggle_widget_new (t : option string) (l : string) (default_val : bool) : ToggleData := mk (base_new false) t l default_val.

#[global] Program Instance toggle_widget : Widget ToggleData := {|
  base := wb; set_base := with_base; render d := Done (d, toggle_render d); handle_event := toggle_handle_event |}.
Solve Obligations with by destruct w.
End Toggle.

(** ** calendar.c *)

Module Calendar.
Record CalendarData := mk { wb : WidgetBase; title : string; year : Z; month : Z; selected_day : Z }.
Definition with_base (b : WidgetBase) (d : CalendarData) : CalendarData := mk b (title d) (year d) (month d) (selected_day d).
Definition set_day (n : Z) (d : CalendarData) : CalendarData := mk (base_set_dirty true (wb d)) (title d) (year d) (month d) n.

Definition leap (y : Z) : bool := ((cmod y 4 =? 0) && (negb (cmod y 100 =? 0) || (cmod y 400 =? 0)))%bool.
Definition days_in_month (y m : Z) : Z :=
  if bool_decide (m ∈ [1; 3; 5; 7; 8; 10; 12]) then 31
  else if bool_decide (m ∈ [4; 6; 9; 11]) then 30
  else if m =? 2 then (if leap y then 29 else 28)
  else 30.

Definition months : list string := ["Jan"; "Feb"; "Mar"; "Apr"; "May"; "Jun"; "Jul"; "Aug"; "Sep"; "Oct"; "Nov"; "Dec"].
Definition calendar_render (d : CalendarData) : exec RenderTree :=
  let area := render_area (wb d) in
  let is_gui := 200 <? rw area in
  let ch := if is_gui then 30 else 1 in
  let edge := if is_gui then 4 else 2 in
  let box_w := at_most (rw area - edge) (if is_gui then 560 else 40) in
  let box_h := at_most (rh area - edge) (if is_gui then 360 else 12) in
  m ← (if month d <? 1 then Fault OutOfBounds else at_index (months !! Z.to_nat (month d - 1)));
  Done (box (wb d) "calendar" EmptyString (Some (title d)) box_w box_h
    [with_state "title" (text_node (rect_new ch 0 (box_w - 2 * ch) ch) (strtake 63 (title d +:+ " " +:+ m)) ALIGN_LEFT);
     child_node "calendar" (rect_new ch ch (box_w - 2 * ch) (box_h - 3 * ch)) (RNODE_CALENDAR (year d) (month d) (selected_day d));
     with_state "muted" (text_node (rect_new ch (box_h - 2 * ch) (box_w - 2 * ch) ch) "Left/Right:day  Up/Down:week  Enter:select  Esc:cancel" ALIGN_LEFT)]).

(** "%02d" *)
Definition pad2 (n : Z) : string :=
  if ((0 <=? n) && (n <? 10))%bool then "0" +:+ int_string n else int_string n.
Definition date_string (y m d : Z) : string := int_string y +:+ "-" +:+ pad2 m +:+ "-" +:+ pad2 d.

Definition calendar_handle_event (d : CalendarData) (ev : Event) : exec (CalendarData * EventResult) :=
  match Widget.type ev with
  | EVENT_KEY =>
      let dim := days_in_month (year d) (month d) in
      let day := selected_day d in
      match code ev with
      | KEY_ESC => Done (d, cancelled_response)
      | KEY_LEFT => Done (set_day (if 1 <? day then day - 1 else day) d, event_result_handled)
      | KEY_RIGHT => Done (set_day (if day <? dim then day + 1 else day) d, event_result_handled)
      | KEY_UP => Done (set_day (if 1 <=? day - 7 then day - 7 else 1) d, event_result_handled)
      | KEY_DOWN => Done (set_day (if day + 7 <=? dim then day + 7 else dim) d, event_result_handled)
      | KEY_ENTER => Done (d, answer (cJSON_CreateString (Some (strtake 15 (date_string (year d) (month d) day)))))
      | _ => Done (d, event_result_unhandled)
      end
  | _ => Done (d, event_result_unhandled)
  end.
(** The date comes from the clock. *)
Definition calendar_widget_new (t : string) (today : Z * Z * Z) : CalendarData :=
  let '(y, m, d) := today in mk (base_new false) t y m d.

#[global] Program Instance calendar_widget : Widget CalendarData := {|
  base := wb; set_base := with_base; render d := t ← calendar_render d; Done (d, t); handle_event := calendar_handle_event |}.
Solve Obligations with by destruct w.

Lemma days_in_month_range y m : 28 <= days_in_month y m <= 31.
Proof. unfold days_in_month. repeat case_match; lia. Qed.

Definition valid_date (y m d : Z) : Prop := 1 <= m <= 12 /\ 1 <= d <= days_in_month y m.

Lemma calendar_handles y m : handles (W := CalendarData)
  (fun c => year c = y /\ month c = m /\ 1 <= selected_day c <= days_in_month y m)
  (fun c r => r = mkResponse None true None \/ r = mkResponse (Some (string_item (strtake 15 (date_string y m (selected_day c))))) false None).
Proof.
  intros c ev (Hy & Hm & Hd). unfold handle_event, calendar_widget, calendar_handle_event. rewrite Hy, Hm.
  pose proof (days_in_month_range y m).
  destruct (Widget.type ev); [|destruct (code ev)|..]; eexists _, _; (split; [done|]); cbn [set_day year month selected_day];
    (split; [split; [done|]; split; [done|]; repeat case_match; simp_bool; lia|]); try done; [by right|by left].
Qed.

Lemma digits_length2 n : 10 <= n < 100 -> length (dec_chars n) = 2%nat.
Proof.
  intros H. unfold dec_chars. cbn [digits_of]. rewrite (proj2 (Z.ltb_ge n 10)) by lia.
  assert (n / 10 < 10) by (apply Z.div_lt_upper_bound; lia). by rewrite (proj2 (Z.ltb_lt (n / 10) 10)) by lia.
Qed.
Lemma digits_length1 n : 0 <= n < 10 -> length (dec_chars n) = 1%nat.
Proof. intros H. unfold dec_chars. cbn [digits_of]. by rewrite (proj2 (Z.ltb_lt n 10)) by lia. Qed.
Lemma digits_length4 n : 1000 <= n < 10000 -> length (dec_chars n) = 4%nat.
Proof.
  intros H. unfold dec_chars. cbn [digits_of]. rewrite (proj2 (Z.ltb_ge n 10)) by lia.
  assert (100 <= n / 10 < 1000) by (split; [apply Z.div_le_lower_bound|apply Z.div_lt_upper_bound]; lia).
  rewrite (proj2 (Z.ltb_ge (n / 10) 10)) by lia.
  assert (10 <= n / 10 / 10 < 100) by (split; [apply Z.div_le_lower_bound|apply Z.div_lt_upper_bound]; lia).
  rewrite (proj2 (Z.ltb_ge (n / 10 / 10) 10)) by lia.
  assert (n / 10 / 10 / 10 < 10) by (apply Z.div_lt_upper_bound; lia). by rewrite (proj2 (Z.ltb_lt (n / 10 / 10 / 10) 10)) by lia.
Qed.
Lemma length_int_string z : 0 <= z -> String.length (int_string z) = length (dec_chars z).
Proof.
  intros H. unfold int_string, int_chars. rewrite (proj2 (Z.ltb_ge _ _)) by lia.
  by rewrite <-length_chars, list_ascii_of_string_of_list_ascii.
Qed.
Lemma length_append s t : String.length (s +:+ t) = (String.length s + String.length t)%nat.
Proof. by rewrite <-!length_chars, chars_app, length_app. Qed.
Lemma length_pad2 n : 0 <= n < 100 -> String.length (pad2 n) = 2%nat.
Proof.
  intros H. unfold pad2. destruct (_ && _)%bool eqn:E.
  - simp_bool. rewrite length_append, length_int_string, digits_length1 by lia. done.
  - apply andb_false_iff in E as [E|E]; simp_bool; [lia|]. rewrite length_int_string, digits_length2 by lia. done.
Qed.
(** starting at a valid date, the calendar stays on a day of its month,
    and Enter answers with that date as ten characters, year first, none cut
    off by the buffer. *)
Theorem calendar_answers t y m d evs : valid_date y m d -> 1000 <= y < 10000 ->
  exists c r, run_events (calendar_widget_new t (y, m, d)) evs = Done (c, r) /\
    year c = y /\ month c = m /\ valid_date y m (selected_day c) /\
    match r with
    | None => True
    | Some r => r = mkResponse None true None \/
        (r = mkResponse (Some (string_item (date_string y m (selected_day c)))) false None /\
         String.length (date_string y m (selected_day c)) = 10%nat)
    end.
Proof.
  intros (Hm & Hd) Hy. destruct (run_events_handles _ _ (calendar_handles y m) evs (calendar_widget_new t (y, m, d)) (conj eq_refl (conj eq_refl Hd)))
    as (c & r & H & (Hcy & Hcm & Hcd) & Hr).
  exists c, r. split; [done|]. split; [done|]. split; [done|]. split; [done|]. destruct r as [r|]; [|done].
  assert (String.length (date_string y m (selected_day c)) = 10%nat) as Hlen.
  { pose proof (days_in_month_range y m). unfold date_string. rewrite !length_append, !length_pad2, length_int_string, digits_length4 by lia. done. }
  destruct Hr as [->| ->]; [by left|]. right. by rewrite strtake_all by lia.
Qed.

Lemma calendar_answers_witness : valid_date 2024 2 28 /\
  exists c, run_events (calendar_widget_new "When" (2024, 2, 28)) [key_event KEY_DOWN 0; key_event KEY_ENTER 0] =
    Done (c, Some (mkResponse (Some (string_item "2024-02-29")) false None)).
Proof.
  assert (valid_date 2024 2 28) as Hv by (unfold valid_date; split; [lia|vm_compute; split; discriminate]). split; [exact Hv|].
  destruct (calendar_answers "When" 2024 2 28 [key_event KEY_DOWN 0; key_event KEY_ENTER 0] Hv) as (c & r & H & _); [lia|].
  exists c. rewrite H. vm_compute in H. injection H as <- <-. reflexivity.
Defined.
End Calendar.

(** ** range_slider.c *)

Module RangeSlider.
Record RangeSliderData := mk { wb : WidgetBase; title : string; label : string; min : Z; max : Z; value : Z }.
Definition with_base (b : WidgetBase) (d : RangeSliderData) : RangeSliderData := mk b (title d) (label d) (min d) (max d) (value d).
Definition set_value (v : Z) (d : RangeSliderData) : RangeSliderData :=
  mk (base_set_dirty true (wb d)) (title d) (label d) (min d) (max d) v.

(** [(int)((float)(value - min) / range * k)] *)
Definition portion (d : RangeSliderData) (k : Z) : Z :=
  f_to_int (f_mul (f_div (f_of_Z (value d - min d)) (f_of_Z (max d - min d))) (f_of_Z k)).
(** The bar of [bar_w] characters and its terminator in [bar_w + 1] bytes. *)
Definition bar (bar_w pos : Z) : exec string :=
  if ((0 <=? pos) && (pos <=? bar_w))%bool
  then Done (of_chars (take (Z.to_nat bar_w) (replicate (Z.to_nat pos) "-"%char ++ "O"%char :: replicate (Z.to_nat (bar_w - pos - 1)) "-"%char)))
  else Fault OutOfBounds.

Definition rs_render (d : RangeSliderData) : exec RenderTree :=
  let area := render_area (wb d) in
  let box_w := at_most (rw area - 2) 50 in
  let box_h := at_most (rh area - 2) 7 in
  let range := max d - min d in
  let bar_w := at_least 3 (box_w - 4) in
  let pos := if range =? 0 then 0 else portion d (bar_w - 1) in
  b ← bar bar_w pos;
  let pct := if range =? 0 then 100 else portion d 100 in
  let text := strtake 127 (label d +:+ ": " +:+ int_string (value d) +:+ " (" +:+ int_string pct +:+ "%)") in
  Done (box (wb d) "range-slider" EmptyString (Some (title d)) box_w box_h
    [with_state "title" (text_node (rect_new 1 0 (box_w - 2) 1) (title d) ALIGN_LEFT);
     text_node (rect_new 1 2 (box_w - 2) 1) b ALIGN_LEFT;
     text_node (rect_new 1 4 (box_w - 2) 1) text ALIGN_LEFT;
     with_state "muted" (text_node (rect_new 1 (box_h - 2) (box_w - 2) 1) "Left/Right:adjust  Enter:confirm  Esc:cancel" ALIGN_LEFT)]).

Definition rs_handle_event (d : RangeSliderData) (ev : Event) : exec (RangeSliderData * EventResult) :=
  match Widget.type ev with
  | EVENT_KEY =>
      match code ev with
      | KEY_ESC => Done (d, cancelled_response)
      | KEY_LEFT => Done (set_value (if min d <=? value d - 1 then value d - 1 else min d) d, event_result_handled)
      | KEY_RIGHT => Done (set_value (if value d + 1 <=? max d then value d + 1 else max d) d, event_result_handled)
      | KEY_ENTER => Done (d, answer (Some (cJSON_CreateNumber (d_of_Z (value d)))))
      | _ => Done (d, event_result_unhandled)
      end
  | _ => Done (d, event_result_unhandled)
  end.
Definition range_slider_widget_new (t : string) (lo hi v : Z) (l : string) : RangeSliderData := mk (base_new false) t l lo hi v.

#[global] Program Instance range_slider_widget : Widget RangeSliderData := {|
  base := wb; set_base := with_base; render d := t ← rs_render d; Done (d, t); handle_event := rs_handle_event |}.
Solve Obligations with by destruct w.

(** The constructor does not clamp the value: the bar is then drawn outside its bytes. *)
Example value_above_max : rs_render (with_base (mkBase true false (mkRect 0 0 80 24) (-1)) (range_slider_widget_new "Volume" 0 10 100 "vol")) = Fault OutOfBounds.
Proof. vm_compute. reflexivity. Qed.
Example value_inside : no_fault (rs_render (with_base (mkBase true false (mkRect 0 0 80 24) (-1)) (range_slider_widget_new "Volume" 0 10 10 "vol"))).
Proof. vm_compute. exact I. Qed.
End RangeSlider.

(** ** table.c *)

Module Table.
Record TableData := mk { wb : WidgetBase; title : string; headers : list string; rows : list (list string); selected_row : Z; selected_col : Z }.
Definition with_base (b : WidgetBase) (d : TableData) : TableData := mk b (title d) (headers d) (rows d) (selected_row d) (selected_col d).
Definition move (r c : Z) (d : TableData) : TableData := mk (base_set_dirty true (wb d)) (title d) (headers d) (rows d) r c.

Definition table_render (d : TableData) : RenderTree :=
  let area := render_area (wb d) in
  let box_w := at_most (rw area - 2) (scale_int (rw area) 9 1) in
  let box_h := at_most (rh area - 2) (scale_int (rh area) 8 1) in
  box (wb d) "table" EmptyString (Some (title d)) box_w box_h
    [with_state "title" (text_node (rect_new 1 0 (box_w - 2) 1) (title d) ALIGN_LEFT);
     child_node "table" (rect_new 1 1 (box_w - 2) (box_h - 3)) (RNODE_TABLE (headers d) (rows d) (selected_row d) (selected_col d));
     with_state "muted" (text_node (rect_new 1 (box_h - 2) (box_w - 2) 1) "Up/Down:row  Left/Right:col  Enter:select  Esc:cancel" ALIGN_LEFT)].

Definition table_handle_event (d : TableData) (ev : Event) : exec (TableData * EventResult) :=
  match Widget.type ev with
  | EVENT_KEY =>
      let r := selected_row d in let c := selected_col d in
      let row_count := Z.of_nat (length (rows d)) in let header_count := Z.of_nat (length (headers d)) in
      match code ev with
      | KEY_ESC => Done (d, cancelled_response)
      | KEY_UP => Done (move (if 0 <? r then r - 1 else r) c d, event_result_handled)
      | KEY_DOWN => Done (move (if r + 1 <? row_count then r + 1 else r) c d, event_result_handled)
      | KEY_LEFT => Done (move r (if 0 <? c then c - 1 else c) d, event_result_handled)
      | KEY_RIGHT => Done (move r (if c + 1 <? header_count then c + 1 else c) d, event_result_handled)
      | KEY_ENTER =>
          if ((r <? row_count) && (c <? header_count))%bool then
            row ← at_index (rows d !! Z.to_nat r);
            s ← at_index (row !! Z.to_nat c);
            Done (d, answer (cJSON_CreateString (Some s)))
          else Done (d, event_result_handled)
      | _ => Done (d, event_result_unhandled)
      end
  | _ => Done (d, event_result_unhandled)
  end.
Definition table_widget_new (t : string) (hs : list string) (rs : list (list string)) : TableData := mk widget_base_init t hs rs 0 0.

#[global] Program Instance table_widget : Widget TableData := {|
  base := wb; set_base := with_base; render d := Done (d, table_render d); handle_event := table_handle_event |}.
Solve Obligations with by destruct w.
End Table.

(** ** At concrete inputs *)

Definition any_pattern (_ : string) : bool := true.
(** A pattern matches what equals it. *)
Definition equals_pattern (p s : string) : bool := bool_decide (p = s).
Definition typed (s : string) : list Event := map (fun c => key_event KEY_CHAR (uchar c)) (chars s).

Lemma input_edits_witness : exists d : Input.InputData,
  run_events (H := Input.input_widget equals_pattern) (Input.input_widget_new any_pattern None None (Some "ac") None (Some "abc"))
    ([key_event KEY_ENTER 0; key_event KEY_LEFT 0] ++ typed "b" ++ [key_event KEY_ENTER 0]) =
  Done (d, Some (mkResponse (Some (string_item "abc")) false None)).
Proof.
  destruct (Input.input_edits any_pattern equals_pattern None None "ac" None (Some "abc")
    ([key_event KEY_ENTER 0; key_event KEY_LEFT 0] ++ typed "b" ++ [key_event KEY_ENTER 0])) as (d & l & r & H & _).
  - unfold c_string. cbn. not_in_literal.
  - repeat constructor; intros _; vm_compute; congruence.
  - exists d. rewrite H. vm_compute in H. injection H as <- <-. reflexivity.
Defined.

Lemma input_nul_faults_witness : c_string "hi" /\
  run_events (H := Input.input_widget equals_pattern) (Input.input_widget_new any_pattern None None (Some "hi") None None)
    [key_event KEY_CHAR 0; key_event KEY_CHAR 97] = Fault OutOfBounds.
Proof.
  assert (c_string "hi") as Hc by (unfold c_string; cbn; not_in_literal). split; [exact Hc|].
  apply (Input.input_nul_faults any_pattern equals_pattern None None "hi" None None 97 Hc).
Defined.
