(* ===== verification/TextEditor.v ===== *)
(** The text editor: src/src/core/widgets/text_editor.c.

    A line is the characters of its C string. The files the editor reads and
    writes are those of the C library: what [fopen] answers is a parameter,
    and every write is recorded in [written]. *)

From S2P Require Import Prelude Double CJson Protocol Widget RenderTree Boxes.

Definition LF : ascii := "010".
Definition line : Type := list ascii.

(** ** fgets *)

(** The characters of a line with its line feed, at most [n] of them, and the rest. *)
Fixpoint fgets (n : nat) (l : list ascii) : list ascii * list ascii :=
  match n, l with
  | O, _ => ([], l)
  | _, [] => ([], [])
  | S n', c :: l' => if Ascii.eqb c LF then ([c], l') else let '(a, b) := fgets n' l' in (c :: a, b)
  end.
(** What [strlen] and the string functions see of a buffer. *)
Fixpoint before_nul (l : list ascii) : list ascii :=
  match l with [] => [] | c :: l' => if Ascii.eqb c NUL then [] else c :: before_nul l' end.
Definition drop_lf (l : line) : line :=
  match list.last l with Some c => if Ascii.eqb c LF then removelast l else l | None => l end.
Fixpoint read_lines (fuel : nat) (l : list ascii) : list line :=
  match fuel, l with
  | S f, _ :: _ => let '(buf, rest) := fgets 4095 l in drop_lf (before_nul buf) :: read_lines f rest
  | _, _ => []
  end.

(** The loop over [content]: [s] is the line since the last line feed. *)
Fixpoint split_content (p s : list ascii) (lines : list line) : list line :=
  match p with
  | [] => match s, lines with [], _ :: _ => lines | _, _ => lines ++ [s] end
  | c :: p' => if Ascii.eqb c LF then split_content p' [] (lines ++ [s]) else split_content p' (s ++ [c]) lines
  end.

(** ** The data *)

Record TextEditorData := mk {
  wb : WidgetBase; title : string; file_path : option string; lines : list line; row : Z; col : Z; scroll : Z; visible_h : Z;
  written : list (string * list ascii)
}.
Definition with_base (b : WidgetBase) (d : TextEditorData) : TextEditorData :=
  mk b (title d) (file_path d) (lines d) (row d) (col d) (scroll d) (visible_h d) (written d).
Definition set_lines (l : list line) (d : TextEditorData) : TextEditorData :=
  mk (wb d) (title d) (file_path d) l (row d) (col d) (scroll d) (visible_h d) (written d).
Definition set_cursor (r c : Z) (d : TextEditorData) : TextEditorData :=
  mk (wb d) (title d) (file_path d) (lines d) r c (scroll d) (visible_h d) (written d).
Definition set_scroll (s v : Z) (d : TextEditorData) : TextEditorData :=
  mk (wb d) (title d) (file_path d) (lines d) (row d) (col d) s v (written d).
Definition set_written (w : list (string * list ascii)) (d : TextEditorData) : TextEditorData :=
  mk (wb d) (title d) (file_path d) (lines d) (row d) (col d) (scroll d) (visible_h d) w.
Definition touch (d : TextEditorData) : TextEditorData := with_base (base_set_dirty true (wb d)) d.

Definition count (d : TextEditorData) : Z := Z.of_nat (length (lines d)).
Definition len (l : line) : Z := Z.of_nat (length l).
(** [d->lines[i]] *)
Definition line_at (d : TextEditorData) (i : Z) : exec line := if i <? 0 then Fault OutOfBounds else at_index (lines d !! Z.to_nat i).
(** The two parts of a line at the cursor; a cursor outside the line is an
    access outside its buffer. *)
Definition cut (l : line) (c : Z) : exec (line * line) :=
  if (0 <=? c) && (c <=? len l) then Done (take (Z.to_nat c) l, drop (Z.to_nat c) l) else Fault OutOfBounds.
Definition set_line (d : TextEditorData) (i : Z) (l : line) : TextEditorData := set_lines (<[Z.to_nat i := l]> (lines d)) d.
(** [memmove] over line [i], and one line less. *)
Definition remove_line (d : TextEditorData) (i : Z) : TextEditorData := set_lines (delete (Z.to_nat i) (lines d)) d.

Definition te_clamp_cursor (d : TextEditorData) : exec TextEditorData :=
  let d := match lines d with [] => set_lines [[]] d | _ => d end in
  let r := at_least 0 (if count d <=? row d then count d - 1 else row d) in
  l ← line_at d r;
  let c := at_least 0 (at_most (len l) (col d)) in
  let s := if r <? scroll d then r else scroll d in
  let s := if s + visible_h d <=? r then r - visible_h d + 1 else s in
  Done (set_scroll (at_least 0 s) (visible_h d) (set_cursor r c d)).

Definition file_text (l : list line) : list ascii := concat (map (fun x => x ++ [LF]) l).

Section text_editor.
(** Whether [fopen(path, "w")] succeeds, and the text [fopen(path, "r")] opens. *)
Context (can_write : string -> bool) (file_at : string -> option (list ascii)).

Definition te_save (d : TextEditorData) : TextEditorData :=
  match file_path d with
  | Some p => if can_write p then set_written (written d ++ [(p, file_text (lines d))]) d else d
  | None => d
  end.

(** The visible lines with a line feed between them, [strcat]ed into [size] bytes. *)
Definition joined (ls : list line) : list ascii := match ls with [] => [] | _ => removelast (file_text ls) end.
Definition display (size : Z) (ls : list line) : exec (list ascii) :=
  if Z.of_nat (length (joined ls)) <? size then Done (joined ls) else Fault OutOfBounds.
Definition title_line (d : TextEditorData) : string :=
  strtake 511 (title d +:+ " - " +:+ default EmptyString (file_path d) +:+ "  Ln " +:+ int_string (row d + 1) +:+ ", Col " +:+ int_string (col d + 1)).
Definition text_editor_render (d : TextEditorData) : exec (TextEditorData * RenderTree) :=
  let area := render_area (wb d) in
  d ← te_clamp_cursor (set_scroll (scroll d) (at_least 1 (scale_int (rh area) 9 1 - 4)) d);
  let box_w := at_most (rw area - 2) (scale_int (rw area) 9 1) in
  let box_h := at_most (rh area - 2) (scale_int (rh area) 9 1) in
  s ← display (visible_h d * (box_w + 2)) (take (Z.to_nat (visible_h d)) (drop (Z.to_nat (scroll d)) (lines d)));
  Done (d, box (wb d) "text-editor" "text-editor" (Some (title d)) box_w box_h
    [with_state "title" (text_node (rect_new 1 0 (box_w - 2) 1) (title_line d) ALIGN_LEFT);
     text_node (rect_new 1 1 (box_w - 2) (visible_h d)) (of_chars s) ALIGN_LEFT;
     with_state "muted" (text_node (rect_new 1 (box_h - 3) (box_w - 2) 1) "^S:save  ^D:delete line  Esc:done  Arrows:move" ALIGN_LEFT);
     mkTree (set_rect (rect_new 1 1 1 1) info_zero) (RNODE_CURSOR (col d) (row d - scroll d));
     mkTree (set_rect (rect_new 1 (box_h - 2) (box_w - 2) 1) info_zero) (RNODE_TEXT (Some EmptyString) ALIGN_LEFT)]).

(** ** Keys *)

Definition moved (d : TextEditorData) : exec (TextEditorData * EventResult) := d ← te_clamp_cursor d; Done (touch d, event_result_handled).
Definition on_char (d : TextEditorData) (c : Z) : exec (TextEditorData * EventResult) :=
  if c =? 19 then Done (touch (te_save d), event_result_handled)
  else if c =? 4 then
    if 1 <? count d then
      _ ← line_at d (row d);
      let d := remove_line d (row d) in
      Done (touch (set_cursor (if count d <=? row d then count d - 1 else row d) 0 d), event_result_handled)
    else Done (d, event_result_handled)
  else if (32 <=? c) || (c =? 9) then
    l ← line_at d (row d); '(a, b) ← cut l (col d);
    Done (touch (set_cursor (row d) (col d + 1) (set_line d (row d) (a ++ ascii_of_N (Z.to_N (u8 c)) :: b))), event_result_handled)
  else Done (d, event_result_handled).
Definition text_editor_handle_event (d : TextEditorData) (ev : Event) : exec (TextEditorData * EventResult) :=
  match Widget.type ev with
  | EVENT_KEY =>
      match code ev with
      | KEY_ESC => Done (d, answer (cJSON_CreateString (Some (of_chars (file_text (lines d))))))
      | KEY_UP => moved (if 0 <? row d then set_cursor (row d - 1) (col d) d else d)
      | KEY_DOWN => moved (if row d + 1 <? count d then set_cursor (row d + 1) (col d) d else d)
      | KEY_LEFT =>
          if 0 <? col d then moved (set_cursor (row d) (col d - 1) d)
          else if 0 <? row d then l ← line_at d (row d - 1); moved (set_cursor (row d - 1) (len l) d)
          else moved d
      | KEY_RIGHT =>
          l ← line_at d (row d);
          if col d <? len l then moved (set_cursor (row d) (col d + 1) d)
          else if row d + 1 <? count d then moved (set_cursor (row d + 1) 0 d)
          else moved d
      | KEY_HOME => Done (touch (set_cursor (row d) 0 d), event_result_handled)
      | KEY_END => l ← line_at d (row d); Done (touch (set_cursor (row d) (len l) d), event_result_handled)
      | KEY_PAGEUP => moved (set_cursor (at_least 0 (row d - visible_h d)) (col d) d)
      | KEY_PAGEDOWN => moved (set_cursor (at_most (count d - 1) (row d + visible_h d)) (col d) d)
      | KEY_DELETE =>
          l ← line_at d (row d);
          if col d <? len l then
            '(a, b) ← cut l (col d);
            Done (touch (set_line d (row d) (a ++ drop 1 b)), event_result_handled)
          else if row d + 1 <? count d then
            l2 ← line_at d (row d + 1);
            Done (touch (remove_line (set_line d (row d) (l ++ l2)) (row d + 1)), event_result_handled)
          else Done (d, event_result_handled)
      | KEY_ENTER =>
          l ← line_at d (row d); '(a, b) ← cut l (col d);
          let r := Z.to_nat (row d) in
          Done (touch (set_cursor (row d + 1) 0 (set_lines (take r (lines d) ++ a :: b :: drop (S r) (lines d)) d)), event_result_handled)
      | KEY_BACKSPACE =>
          if 0 <? col d then
            l ← line_at d (row d); '(a, b) ← cut l (col d);
            Done (touch (set_cursor (row d) (col d - 1) (set_line d (row d) (removelast a ++ b))), event_result_handled)
          else if 0 <? row d then
            l0 ← line_at d (row d - 1); l ← line_at d (row d);
            Done (touch (set_cursor (row d - 1) (len l0) (remove_line (set_line d (row d - 1) (l0 ++ l)) (row d))), event_result_handled)
          else Done (touch d, event_result_handled)
      | KEY_CHAR => on_char d (ch ev)
      | _ => Done (d, event_result_unhandled)
      end
  | _ => Done (d, event_result_unhandled)
  end.

Definition text_editor_widget_new (t : string) (path : option string) (content : option string) : TextEditorData :=
  let from_file := match path ≫= file_at with Some f => read_lines (length f) f | None => [] end in
  let ls := match from_file, content with [], Some c => split_content (chars c) [] [] | l, _ => l end in
  let ls := match ls with [] => [[]] | l => l end in
  mk (base_new true) t path ls 0 (len (default [] (head ls))) 0 20 [].

#[global] Program Instance text_editor_widget : Widget TextEditorData := {|
  base := wb; set_base := with_base; render := text_editor_render; handle_event := text_editor_handle_event |}.
Solve Obligations with by destruct w.


(** ** The specification: one text with a cursor

    The lines, each ended with a line feed, are one text; the cursor splits
    it. The final line feed always stays behind the cursor. *)

Definition flat : Type := list ascii * list ascii.
Definition text (s : flat) : list ascii := s.1 ++ s.2.
(** Up to the first line feed, and from there. *)
Fixpoint upto_lf (l : list ascii) : list ascii * list ascii :=
  match l with
  | [] => ([], [])
  | c :: l' => if Ascii.eqb c LF then ([], l) else let '(a, b) := upto_lf l' in (c :: a, b)
  end.
Definition clean (l : line) : Prop := (LF ∉ l) /\ (NUL ∉ l).
(** The lines of a text are counted by its line feeds. The cursor is in the
    line behind the line feeds before it, as many characters in as there are
    behind the last of them. *)
Definition lfs (l : list ascii) : Z := Z.of_nat (count_occ ascii_dec l LF).
Definition line_count (s : flat) : Z := lfs (text s).
Definition cursor_row (s : flat) : Z := lfs s.1.
Definition cursor_col (s : flat) : Z := Z.of_nat (length (upto_lf (rev s.1)).1).
Definition line_length (s : flat) : Z := cursor_col s + Z.of_nat (length (upto_lf s.2).1).
(** The cursor goes to line [r], or to the nearest there is, and stays in its
    column, or in the last of a shorter line. *)
Definition line_move (r : Z) (s s' : flat) : Prop :=
  text s' = text s /\ cursor_row s' = Z.max 0 (Z.min r (line_count s - 1)) /\ cursor_col s' = Z.min (cursor_col s) (line_length s').
(** The line of the cursor goes, unless it is the only one: what is above it and
    what is below it stay, and the cursor is at the start of the line that takes
    its place, or of the last one. *)
Definition line_gone (s s' : flat) : Prop :=
  if line_count s =? 1 then s' = s
  else text s' = rev (upto_lf (rev s.1)).2 ++ drop 1 (upto_lf s.2).2 /\
       cursor_row s' = Z.min (cursor_row s) (line_count s - 2) /\ cursor_col s' = 0.
Definition edit_char (c : Z) (s s' : flat) : Prop :=
  if c =? 19 then s' = s
  else if c =? 4 then line_gone s s'
  else if (32 <=? c) || (c =? 9) then s' = (s.1 ++ [ascii_of_N (Z.to_N (u8 c))], s.2)
  else s' = s.
(** The lines a page has before the first drawing. *)
Definition PAGE : Z := 20.
Definition edit (k : KeyCode) (c : Z) (s s' : flat) : Prop :=
  match k with
  | KEY_CHAR => edit_char c s s'
  | KEY_ENTER => s' = (s.1 ++ [LF], s.2)
  | KEY_BACKSPACE => s' = (removelast s.1, s.2)
  | KEY_DELETE => s' = (s.1, match s.2 with _ :: (_ :: _) as r => r | a => a end)
  | KEY_LEFT => s' = match list.last s.1 with Some x => (removelast s.1, x :: s.2) | None => s end
  | KEY_RIGHT => s' = match s.2 with x :: (_ :: _) as r => (s.1 ++ [x], r) | _ => s end
  | KEY_HOME => s' = let '(x, y) := upto_lf (rev s.1) in (rev y, rev x ++ s.2)
  | KEY_END => s' = let '(x, y) := upto_lf s.2 in (s.1 ++ x, y)
  | KEY_UP => line_move (cursor_row s - 1) s s'
  | KEY_DOWN => line_move (cursor_row s + 1) s s'
  | KEY_PAGEUP => line_move (cursor_row s - PAGE) s s'
  | KEY_PAGEDOWN => line_move (cursor_row s + PAGE) s s'
  | _ => s' = s
  end.

Record cursor_at (d : TextEditorData) (pre : list line) (l1 l2 : line) (post : list line) : Prop := mkAt {
  at_lines : lines d = pre ++ (l1 ++ l2) :: post; at_row : row d = Z.of_nat (length pre); at_col : col d = len l1
}.
Definition reps (d : TextEditorData) (s : flat) : Prop :=
  Forall clean (lines d) /\
  exists pre l1 l2 post, cursor_at d pre l1 l2 post /\ s = (file_text pre ++ l1, l2 ++ LF :: file_text post).

Lemma file_text_app a b : file_text (a ++ b) = file_text a ++ file_text b.
Proof. unfold file_text. by rewrite map_app, concat_app. Qed.
Lemma file_text_cons l ls : file_text (l :: ls) = l ++ LF :: file_text ls.
Proof. unfold file_text. cbn. by rewrite <-app_assoc. Qed.
Lemma file_text_snoc ls l : file_text (ls ++ [l]) = file_text ls ++ l ++ [LF].
Proof. by rewrite file_text_app, file_text_cons. Qed.
Lemma reps_text d s : reps d s -> text s = file_text (lines d).
Proof.
  intros (_ & pre & l1 & l2 & post & [-> _ _] & ->). unfold text. cbn. rewrite file_text_app, file_text_cons, <-!app_assoc. done.
Qed.

(** ** The cursor *)

Definition valid (d : TextEditorData) : Prop :=
  exists l, 0 <= row d /\ lines d !! Z.to_nat (row d) = Some l /\ 0 <= col d <= len l.
Lemma valid_reps d : Forall clean (lines d) -> valid d -> exists s, reps d s.
Proof.
  intros Hc (l & Hr & Hl & Hcol). eexists. split; [done|].
  exists (take (Z.to_nat (row d)) (lines d)), (take (Z.to_nat (col d)) l), (drop (Z.to_nat (col d)) l), (drop (S (Z.to_nat (row d))) (lines d)).
  unfold len in Hcol. pose proof (lookup_lt_Some _ _ _ Hl). split; [|reflexivity]. constructor.
  - rewrite take_drop. symmetry. by apply take_drop_middle.
  - rewrite length_take. lia.
  - unfold len. rewrite length_take. lia.
Qed.
Lemma cursor_line d pre l1 l2 post : cursor_at d pre l1 l2 post -> line_at d (row d) = Done (l1 ++ l2).
Proof.
  intros [Hl Hr _]. unfold line_at. rewrite Hr, (proj2 (Z.ltb_ge _ 0)), Nat2Z.id, Hl, list_lookup_middle by (done || lia). done.
Qed.
Lemma cursor_cut d pre l1 l2 post : cursor_at d pre l1 l2 post -> cut (l1 ++ l2) (col d) = Done (l1, l2).
Proof.
  intros [_ _ Hc]. unfold cut, len in *. rewrite Hc, length_app. rewrite !(proj2 (Z.leb_le _ _)) by lia. cbn [andb].
  by rewrite Nat2Z.id, take_app_length, drop_app_length.
Qed.
Lemma cursor_count d pre l1 l2 post : cursor_at d pre l1 l2 post -> count d = Z.of_nat (length pre) + 1 + Z.of_nat (length post).
Proof. intros [Hl _ _]. unfold count. rewrite Hl, length_app. cbn. lia. Qed.

(** Clamping leaves a cursor that is in the text, and brings it into view. *)
Definition in_view (d : TextEditorData) : Prop := 0 <= scroll d <= row d /\ row d < scroll d + visible_h d.
Lemma clamp_spec d : lines d <> [] -> exists d', te_clamp_cursor d = Done d' /\ lines d' = lines d /\ valid d' /\
  visible_h d' = visible_h d /\ wb d' = wb d /\ title d' = title d /\ file_path d' = file_path d /\ written d' = written d /\
  (0 < visible_h d -> in_view d') /\ (valid d -> row d' = row d /\ col d' = col d).
Proof.
  intros Hne. unfold te_clamp_cursor. assert (match lines d with [] => set_lines [[]] d | _ => d end = d) as -> by (by destruct (lines d)).
  set (r := at_least 0 (if count d <=? row d then count d - 1 else row d)).
  assert (0 <= r < count d) as Hr.
  { subst r. unfold at_least, count in *. destruct (lines d); [done|]. cbn [length]. repeat case_match; simp_bool; lia. }
  assert (valid d -> r = row d) as Hvr.
  { intros (l & Hv & Hl & _). apply lookup_lt_Some in Hl. subst r. unfold at_least, count in *. repeat case_match; simp_bool; lia. }
  unfold count in Hr. destruct (lines d !! Z.to_nat r) as [l|] eqn:El; [|apply lookup_ge_None in El; lia].
  unfold line_at. rewrite (proj2 (Z.ltb_ge r 0)), El by lia. cbn [at_index mbind exec_bind]. eexists. split; [reflexivity|]. split_and!; try done.
  - exists l. cbn. split_and!; [lia|done| |]; unfold at_least, at_most, len; repeat case_match; simp_bool; lia.
  - intros Hh. unfold in_view, at_least. cbn. repeat case_match; simp_bool; lia.
  - intros Hv. rewrite (Hvr Hv). cbn. split; [done|]. destruct Hv as (l' & Hv & Hl' & Hc). rewrite <-(Hvr (ex_intro _ l' (conj Hv (conj Hl' Hc)))) in Hl'.
    assert (l' = l) as -> by congruence. unfold at_least, at_most. repeat case_match; simp_bool; lia.
Qed.
Lemma reps_valid d s : reps d s -> valid d.
Proof.
  intros (_ & pre & l1 & l2 & post & [Hl Hr Hc] & _). exists (l1 ++ l2). rewrite Hr, Hc, Hl, Nat2Z.id. unfold len. rewrite length_app.
  split_and!; [lia|by rewrite list_lookup_middle|lia|lia].
Qed.
Lemma reps_lines d s : reps d s -> lines d <> [].
Proof. intros (_ & pre & l1 & l2 & post & [Hl _ _] & _) H. rewrite Hl in H. by destruct pre. Qed.

Lemma reps_ext d d' s : lines d' = lines d -> row d' = row d -> col d' = col d -> reps d s -> reps d' s.
Proof.
  intros E1 E2 E3 (Hc & pre & l1 & l2 & post & [H1 H2 H3] & ->). split; [by rewrite E1|]. exists pre, l1, l2, post.
  split; [|done]. constructor; congruence.
Qed.

(** One that moves it to a place in the text arrives there. *)
Lemma moved_reps d s : reps d s -> exists d', moved d = Done (d', event_result_handled) /\ reps d' s.
Proof.
  intros H. destruct (clamp_spec d (reps_lines _ _ H)) as (d' & Hd & Hl & _ & _ & _ & _ & _ & _ & _ & Hk).
  destruct (Hk (reps_valid _ _ H)) as [Hr Hcol]. exists (touch d'). unfold moved. rewrite Hd. split; [reflexivity|].
  by apply (reps_ext d).
Qed.

(** ** Every key *)

Lemma upto_lf_app l1 l2 : LF ∉ l1 -> upto_lf (l1 ++ LF :: l2) = (l1, LF :: l2).
Proof.
  induction l1 as [|c l1 IH]; intros H; [done|]. apply not_elem_of_cons in H as [Hc H]. cbn [app upto_lf].
  destruct (Ascii.eqb_spec c LF); [by subst|]. by rewrite IH.
Qed.
Lemma upto_lf_all l : LF ∉ l -> upto_lf l = (l, []).
Proof.
  induction l as [|c l IH]; intros H; [done|]. apply not_elem_of_cons in H as [Hc H]. cbn [upto_lf].
  destruct (Ascii.eqb_spec c LF); [by subst|]. by rewrite IH.
Qed.
Lemma upto_lf_start pre l1 : LF ∉ l1 -> upto_lf (rev (file_text pre ++ l1)) = (rev l1, rev (file_text pre)).
Proof.
  intros H. assert (LF ∉ rev l1) as Hr by (by rewrite list_elem_of_In, <-in_rev, <-list_elem_of_In). rewrite rev_app_distr.
  destruct pre as [|l pre] using rev_ind; [cbn; rewrite app_nil_r; by apply upto_lf_all|].
  rewrite file_text_snoc, !rev_app_distr. cbn [rev app]. by apply upto_lf_app.
Qed.

(** What the specification sees of a cursor in the lines. *)
Lemma lfs_app a b : lfs (a ++ b) = lfs a + lfs b.
Proof. unfold lfs. rewrite count_occ_app. lia. Qed.
Lemma lfs_clean l : LF ∉ l -> lfs l = 0.
Proof. intros H. unfold lfs. rewrite (proj1 (count_occ_not_In ascii_dec l LF)); [done|]. by rewrite <-list_elem_of_In. Qed.
Lemma lfs_file ls : Forall clean ls -> lfs (file_text ls) = Z.of_nat (length ls).
Proof.
  induction 1 as [|l ls [Hl _] _ IH]; [done|]. rewrite file_text_cons, lfs_app, (lfs_clean l Hl). change (LF :: file_text ls) with ([LF] ++ file_text ls).
  rewrite lfs_app, IH. change (lfs [LF]) with 1. cbn [length]. lia.
Qed.
Lemma reps_cursor d s : reps d s -> cursor_row s = row d /\ cursor_col s = col d /\ line_count s = count d /\
  (forall l, line_at d (row d) = Done l -> line_length s = len l).
Proof.
  intros H. pose proof (reps_text _ _ H) as Ht. destruct H as (Hc & pre & l1 & l2 & post & Hat & ->). pose proof Hat as [Hl Hr Hcol].
  unfold cursor_row, line_count, line_length, cursor_col. rewrite Ht, lfs_file by done. cbn [fst snd].
  rewrite Hl in Hc. apply list.Forall_app in Hc as [Hp [[H1 _] _]%list.Forall_cons]. apply not_elem_of_app in H1 as [H1 H2].
  rewrite lfs_app, (lfs_file pre Hp), (lfs_clean l1 H1), upto_lf_start, upto_lf_app by done. cbn [fst]. rewrite length_rev.
  split_and!; [lia|by rewrite Hcol|done|]. intros l. rewrite (cursor_line _ _ _ _ _ Hat). intros [= <-]. unfold len. rewrite length_app. lia.
Qed.
Lemma clamp_exact d : lines d <> [] -> 0 <= col d -> exists d' l, te_clamp_cursor d = Done d' /\ lines d' = lines d /\ valid d' /\
  row d' = Z.max 0 (Z.min (row d) (count d - 1)) /\ line_at d' (row d') = Done l /\ col d' = Z.min (col d) (len l).
Proof.
  intros Hne Hcol. destruct (clamp_spec d Hne) as (d' & Hd & Hl & Hv & _). pose proof Hv as (l & Hr0 & Hr & _). exists d', l.
  assert (line_at d' (row d') = Done l) as Hline by (unfold line_at; by rewrite (proj2 (Z.ltb_ge _ 0)), Hr by lia).
  split_and!; try done; unfold te_clamp_cursor in Hd; destruct (lines d) as [|l0 ls] eqn:E; try done;
    destruct (line_at d _) as [lr| |] eqn:Er; try discriminate; cbn [mbind exec_bind] in Hd; injection Hd as <-; cbn in Hline |- *.
  - unfold at_least. repeat case_match; simp_bool; lia.
  - unfold line_at in Er, Hline. cbn in Hline. rewrite Er in Hline. injection Hline as ->. unfold at_least, at_most, len. repeat case_match; simp_bool; lia.
Qed.
(** A key that only moves the cursor to line [r]. *)
Lemma text_moves d s r : reps d s -> exists d' s', moved (set_cursor r (col d) d) = Done (d', event_result_handled) /\ reps d' s' /\ line_move r s s'.
Proof.
  intros H. destruct (reps_cursor _ _ H) as (_ & Hcol & Hcnt & _). pose proof (reps_valid _ _ H) as (l0 & _ & _ & Hc0).
  destruct (clamp_exact (set_cursor r (col d) d)) as (d' & l & Hd & Hl & Hv & Hr & Hline & Hc); [exact (reps_lines _ _ H)|cbn; lia|].
  destruct (valid_reps d') as [s' Hs']; [rewrite Hl; apply H|done|]. exists (touch d'), s'. unfold moved. rewrite Hd.
  split; [reflexivity|]. split; [by apply (reps_ext d')|]. destruct (reps_cursor _ _ Hs') as (Hr' & Hc' & _ & Hlen).
  unfold line_move. split; [by rewrite (reps_text _ _ Hs'), Hl, (reps_text _ _ H)|]. split; [rewrite Hr', Hr, Hcnt; cbn; reflexivity|].
  by rewrite Hc', Hc, Hcol, (Hlen _ Hline).
Qed.

Lemma line_move_eq s s' r r' : Z.max 0 (Z.min r' (line_count s - 1)) = Z.max 0 (Z.min r (line_count s - 1)) -> line_move r s s' -> line_move r' s s'.
Proof. unfold line_move. by intros ->. Qed.

Lemma clean_app l1 l2 : clean (l1 ++ l2) <-> clean l1 /\ clean l2.
Proof. unfold clean. rewrite !not_elem_of_app. tauto. Qed.
Lemma clean_cons c l : clean (c :: l) <-> (c <> LF /\ c <> NUL) /\ clean l.
Proof. unfold clean. rewrite !not_elem_of_cons. split; intuition congruence. Qed.
Lemma clean_middle pre l1 l2 post : Forall clean (pre ++ (l1 ++ l2) :: post) <-> Forall clean pre /\ clean l1 /\ clean l2 /\ Forall clean post.
Proof. rewrite list.Forall_app, list.Forall_cons, clean_app. tauto. Qed.
Lemma clean_char c : (32 <=? c) || (c =? 9) = true -> -128 <= c <= 127 -> ascii_of_N (Z.to_N (u8 c)) <> LF /\ ascii_of_N (Z.to_N (u8 c)) <> NUL.
Proof.
  intros H Hc. assert (uchar (ascii_of_N (Z.to_N (u8 c))) = c) as E.
  { pose proof (u8_range c). rewrite uchar_ascii_of_N by lia. rewrite Z2N.id by lia. unfold u8. apply orb_true_iff in H. apply Z.mod_small.
    destruct H as [H|H]; simp_bool; lia. }
  apply orb_true_iff in H. split; intros Hx; rewrite Hx in E; vm_compute in E; subst c; destruct H as [H|H]; first [discriminate|simp_bool; lia].
Qed.

(** Changing the line at the cursor. *)
Lemma set_line_at d pre l1 l2 post l : cursor_at d pre l1 l2 post -> lines (set_line d (row d) l) = pre ++ l :: post.
Proof. intros [Hl Hr _]. unfold set_line. cbn. rewrite Hr, Nat2Z.id, Hl. by rewrite insert_app_r_alt, Nat.sub_diag by lia. Qed.
Lemma remove_line_at d (pre : list line) l post i : lines d = pre ++ l :: post -> i = Z.of_nat (length pre) -> lines (remove_line d i) = pre ++ post.
Proof. intros Hl ->. unfold remove_line. cbn. by rewrite Nat2Z.id, Hl, delete_middle. Qed.

Lemma remove_line_next d (pre : list line) l0 l post i : lines d = pre ++ l0 :: l :: post -> i = Z.of_nat (length pre) + 1 ->
  lines (remove_line d i) = pre ++ l0 :: post.
Proof.
  intros Hl Hi. rewrite (remove_line_at d (pre ++ [l0]) l post); [by rewrite <-app_assoc|by rewrite Hl, <-app_assoc|rewrite length_app; cbn; lia].
Qed.

Definition is_schar (c : Z) : Prop := -128 <= c <= 127.
Lemma text_char d s c : reps d s -> is_schar c -> exists d' s', on_char d c = Done (d', event_result_handled) /\ reps d' s' /\ edit_char c s s'.
Proof.
  intros H Hsc. unfold on_char, edit_char. destruct (c =? 19) eqn:E19.
  - exists (touch (te_save d)), s. split; [done|]. split; [|done]. apply (reps_ext d); try done; unfold te_save; repeat case_match; done.
  - destruct (c =? 4).
    + destruct (Z.ltb_spec 1 (count d)) as [Hn|Hn].
      * destruct H as (Hc & pre & l1 & l2 & post & Hat & ->). rewrite (cursor_line _ _ _ _ _ Hat). cbn [mbind exec_bind]. cbn zeta.
        pose proof (cursor_count _ _ _ _ _ Hat) as Hcnt. destruct Hat as [Hl Hr Hcol]. rewrite Hl in Hc. apply clean_middle in Hc as (Hp & H1 & H2 & Hq).
        assert (lines (remove_line d (row d)) = pre ++ post) as Hl' by (by eapply remove_line_at).
        match goal with |- exists d' s', Done (?x, _) = _ /\ _ => set (dx := x) end.
        assert (lines dx = pre ++ post) as Hlx by exact Hl'.
        assert (valid dx) as Hv.
        { assert (row dx = if Z.of_nat (length (pre ++ post)) <=? row d then Z.of_nat (length (pre ++ post)) - 1 else row d) as Hrow
            by (rewrite <-Hl'; reflexivity).
          assert (0 <= row dx < Z.of_nat (length (pre ++ post))) as Hrx by (rewrite Hrow, length_app; destruct (Z.leb_spec (Z.of_nat (length pre + length post)) (row d)); lia).
          unfold valid. rewrite Hlx. destruct ((pre ++ post) !! Z.to_nat (row dx)) as [l|] eqn:El; [|apply lookup_ge_None in El; lia].
          exists l. change (col dx) with 0. unfold len. split_and!; done || lia. }
        destruct (valid_reps dx) as [s' Hs']; [rewrite Hlx; by apply list.Forall_app|done|].
        exists dx, s'. split; [done|]. split; [done|]. destruct (reps_cursor _ _ Hs') as (Hr' & Hc' & _ & _).
        assert (reps d (file_text pre ++ l1, l2 ++ LF :: file_text post)) as H0.
        { split; [rewrite Hl; by apply clean_middle|]. exists pre, l1, l2, post. split; [by constructor|done]. }
        destruct (reps_cursor _ _ H0) as (Hr0 & _ & Hc0 & _). unfold line_gone. rewrite Hr0, Hc0, Hr', Hc', (proj2 (Z.eqb_neq (count d) 1)) by lia.
        cbn [fst snd]. rewrite upto_lf_start, upto_lf_app by apply H1 || apply H2. cbn [snd drop]. rewrite rev_involutive, drop_0.
        split; [by rewrite (reps_text _ _ Hs'), Hlx, file_text_app|]. split; [|done].
        assert (count (remove_line d (row d)) = count d - 1) as Hcr by (rewrite Hcnt; unfold count; rewrite Hl', length_app; lia).
        change (row dx) with (if count (remove_line d (row d)) <=? row d then count (remove_line d (row d)) - 1 else row d). rewrite Hcr.
        destruct (Z.leb_spec (count d - 1) (row d)); lia.
      * exists d, s. split; [done|]. split; [done|]. destruct (reps_cursor _ _ H) as (_ & _ & Hc0 & _). unfold line_gone. rewrite Hc0.
        assert (count d = 1) as -> by (pose proof (reps_lines _ _ H); unfold count in *; destruct (lines d); [done|]; cbn [length] in *; lia). done.
    + destruct ((32 <=? c) || (c =? 9)) eqn:Ec; [|by exists d, s].
      destruct H as (Hc & pre & l1 & l2 & post & Hat & ->). rewrite (cursor_line _ _ _ _ _ Hat). cbn [mbind exec_bind].
      rewrite (cursor_cut _ _ _ _ _ Hat). cbn [mbind exec_bind]. set (x := ascii_of_N (Z.to_N (u8 c))).
      eexists _, _. split; [reflexivity|]. split; [|done]. pose proof (set_line_at _ _ _ _ _ (l1 ++ x :: l2) Hat) as Hs. destruct Hat as [Hl Hr Hcol].
      rewrite Hl in Hc. apply clean_middle in Hc as (Hp & H1 & H2 & Hq). assert (clean [x]) as Hx.
      { apply clean_cons. split; [apply clean_char; [done|unfold is_schar in Hsc; lia]|split; apply not_elem_of_nil]. }
      split.
      * change (Forall clean (lines (set_line d (row d) (l1 ++ x :: l2)))). rewrite Hs. change (l1 ++ x :: l2) with (l1 ++ [x] ++ l2).
        apply clean_middle. rewrite (clean_app [x]). tauto.
      * exists pre, (l1 ++ [x]), l2, post. split; [constructor|].
        -- change (lines (set_line d (row d) (l1 ++ x :: l2)) = pre ++ ((l1 ++ [x]) ++ l2) :: post). rewrite Hs. by rewrite <-app_assoc.
        -- exact Hr.
        -- cbn. unfold len in *. rewrite length_app. cbn. lia.
        -- cbn. by rewrite <-app_assoc.
Qed.

Lemma text_backspace d s : reps d s ->
  exists d' , text_editor_handle_event d (key_event KEY_BACKSPACE 0) = Done (d', event_result_handled) /\ reps d' (removelast s.1, s.2).
Proof.
  intros (Hc & pre & l1 & l2 & post & Hat & ->). cbn [text_editor_handle_event Widget.type code key_event].
  pose proof (cursor_line _ _ _ _ _ Hat) as Hline. pose proof (cursor_cut _ _ _ _ _ Hat) as Hcut. pose proof (at_col _ _ _ _ _ Hat) as Hcol.
  rewrite (at_lines _ _ _ _ _ Hat) in Hc. apply clean_middle in Hc as (Hp & H1 & H2 & Hq). unfold len in Hcol.
  destruct l1 as [|x l1 _] using rev_ind.
  - rewrite (proj2 (Z.ltb_ge 0 (col d))) by (rewrite Hcol; done). destruct pre as [|l0 pre _] using rev_ind.
    + rewrite (proj2 (Z.ltb_ge 0 (row d))) by (rewrite (at_row _ _ _ _ _ Hat); done). exists (touch d). split; [done|].
      split; [cbn; rewrite (at_lines _ _ _ _ _ Hat); by constructor|]. exists [], [], l2, post. split; [|done]. destruct Hat. by constructor.
    + destruct Hat as [Hl Hr Hc]. rewrite length_app in Hr. cbn in Hr. rewrite (proj2 (Z.ltb_lt 0 (row d))) by lia.
      assert (cursor_at (set_cursor (row d - 1) (len l0) d) pre l0 [] (l2 :: post)) as Hat0.
      { constructor; cbn; [rewrite Hl, app_nil_r, <-app_assoc; done|lia|done]. }
      pose proof (cursor_line _ _ _ _ _ Hat0) as Hline0. rewrite app_nil_r in Hline0. change (line_at d (row d - 1) = Done l0) in Hline0.
      rewrite Hline0. cbn [mbind exec_bind]. rewrite Hline. cbn [mbind exec_bind]. eexists. split; [reflexivity|]. apply list.Forall_app in Hp as [Hp [H0 _]%Forall_cons_1].
      assert (lines (remove_line (set_line d (row d - 1) (l0 ++ [] ++ l2)) (row d)) = pre ++ (l0 ++ l2) :: post) as Hl'.
      { eapply remove_line_next; [|lia]. pose proof (set_line_at _ _ _ _ _ (l0 ++ [] ++ l2) Hat0) as Hs. exact Hs. }
      split; [cbn in Hl' |- *; rewrite Hl'; by apply clean_middle|]. exists pre, l0, l2, post. split; [constructor; [exact Hl'|cbn; lia|done]|].
      cbn [fst snd]. rewrite file_text_snoc, app_nil_r. f_equal. rewrite app_assoc. by rewrite removelast_last.
  - rewrite length_app in Hcol. cbn in Hcol. rewrite (proj2 (Z.ltb_lt 0 (col d))) by lia. rewrite Hline. cbn [mbind exec_bind]. rewrite Hcut. cbn [mbind exec_bind].
    rewrite removelast_last. eexists. split; [reflexivity|]. pose proof (set_line_at _ _ _ _ _ (l1 ++ l2) Hat) as Hs. apply clean_app in H1 as [H1 _].
    split; [cbn in Hs |- *; rewrite Hs; by apply clean_middle|]. exists pre, l1, l2, post. split.
    + constructor; [exact Hs|exact (at_row _ _ _ _ _ Hat)|cbn; unfold len; lia].
    + cbn [fst snd]. rewrite app_assoc. by rewrite removelast_last.
Qed.

Lemma text_delete d s : reps d s ->
  exists d', text_editor_handle_event d (key_event KEY_DELETE 0) = Done (d', event_result_handled) /\
    reps d' (s.1, match s.2 with _ :: (_ :: _) as r => r | a => a end).
Proof.
  intros H. pose proof H as (Hc & pre & l1 & l2 & post & Hat & ->). cbn [text_editor_handle_event Widget.type code key_event].
  rewrite (cursor_line _ _ _ _ _ Hat). cbn [mbind exec_bind]. pose proof (cursor_cut _ _ _ _ _ Hat) as Hcut. pose proof (at_col _ _ _ _ _ Hat) as Hcol.
  pose proof Hc as Hc'. rewrite (at_lines _ _ _ _ _ Hat) in Hc'. apply clean_middle in Hc' as (Hp & H1 & H2 & Hq). unfold len in *. rewrite length_app.
  destruct l2 as [|x l2].
  - rewrite (proj2 (Z.ltb_ge (col d) _)) by (cbn; lia). rewrite (cursor_count _ _ _ _ _ Hat), (at_row _ _ _ _ _ Hat). destruct post as [|l post].
    + rewrite (proj2 (Z.ltb_ge _ _)) by (cbn; lia). by exists d.
    + rewrite (proj2 (Z.ltb_lt _ _)) by (cbn; lia). pose proof (at_lines _ _ _ _ _ Hat) as Hl.
      assert (cursor_at (set_cursor (row d + 1) 0 d) (pre ++ [l1 ++ []]) [] l post) as Hat1.
      { constructor; cbn; [rewrite Hl, <-app_assoc; done|rewrite length_app, (at_row _ _ _ _ _ Hat); cbn; lia|done]. }
      pose proof (cursor_line _ _ _ _ _ Hat1) as Hline. cbn [row set_cursor app] in Hline. change (line_at d (row d + 1) = Done l) in Hline.
      rewrite <-(at_row _ _ _ _ _ Hat). rewrite Hline. cbn [mbind exec_bind]. eexists. split; [reflexivity|].
      apply list.Forall_cons in Hq as [Hq1 Hq].
      assert (lines (remove_line (set_line d (row d) ((l1 ++ []) ++ l)) (row d + 1)) = pre ++ (l1 ++ l) :: post) as Hl'.
      { eapply remove_line_next; [|rewrite (at_row _ _ _ _ _ Hat); lia]. rewrite app_nil_r. exact (set_line_at _ _ _ _ _ (l1 ++ l) Hat). }
      split; [cbn in Hl' |- *; rewrite Hl'; by apply clean_middle|]. exists pre, l1, l, post. split.
      * constructor; [exact Hl'|exact (at_row _ _ _ _ _ Hat)|exact (at_col _ _ _ _ _ Hat)].
      * cbn [fst snd app]. rewrite file_text_cons. f_equal. by destruct l.
  - rewrite (proj2 (Z.ltb_lt (col d) _)) by (cbn; lia). rewrite Hcut. cbn [mbind exec_bind drop]. eexists. split; [reflexivity|].
    pose proof (set_line_at _ _ _ _ _ (l1 ++ l2) Hat) as Hs. apply clean_cons in H2 as [_ H2].
    split; [cbn in Hs |- *; rewrite drop_0, Hs; by apply clean_middle|]. exists pre, l1, l2, post. split.
    + constructor; [cbn in Hs |- *; by rewrite drop_0|exact (at_row _ _ _ _ _ Hat)|exact (at_col _ _ _ _ _ Hat)].
    + cbn [fst snd app]. f_equal. by destruct l2.
Qed.

Lemma text_enter d s : reps d s ->
  exists d', text_editor_handle_event d (key_event KEY_ENTER 0) = Done (d', event_result_handled) /\ reps d' (s.1 ++ [LF], s.2).
Proof.
  intros (Hc & pre & l1 & l2 & post & Hat & ->). cbn [text_editor_handle_event Widget.type code key_event].
  rewrite (cursor_line _ _ _ _ _ Hat). cbn [mbind exec_bind]. rewrite (cursor_cut _ _ _ _ _ Hat). cbn [mbind exec_bind]. eexists. split; [reflexivity|].
  destruct Hat as [Hl Hr Hcol]. rewrite Hl in Hc. apply clean_middle in Hc as (Hp & H1 & H2 & Hq).
  match goal with |- reps ?x _ => set (d' := x) end. assert (lines d' = pre ++ l1 :: l2 :: post) as Hl'.
  { subst d'. cbn. rewrite Hr, Nat2Z.id, Hl, take_app_length. f_equal. f_equal. f_equal.
    replace (S (length pre)) with (length pre + 1)%nat by lia. by rewrite drop_app_add. }
  split; [rewrite Hl'; apply list.Forall_app; split; [done|]; by repeat (constructor; [done|])|]. exists (pre ++ [l1]), [], l2, post. split.
  - constructor; [rewrite Hl', <-app_assoc; done|subst d'; cbn; rewrite length_app; cbn; lia|done].
  - cbn [fst snd]. rewrite file_text_snoc, app_nil_r. by rewrite <-!app_assoc.
Qed.

Lemma reps_shift d pre l1 l2 post r c : cursor_at d pre (l1 ++ l2) [] post \/ lines d = pre ++ (l1 ++ l2) :: post ->
  Forall clean (lines d) -> r = Z.of_nat (length pre) -> c = len l1 -> reps (set_cursor r c d) (file_text pre ++ l1, l2 ++ LF :: file_text post).
Proof.
  intros Hl Hc -> ->. split; [done|]. exists pre, l1, l2, post. split; [|done]. constructor; [|done|done]. cbn.
  destruct Hl as [[Hl _ _]|Hl]; [by rewrite app_nil_r in Hl|done].
Qed.
Lemma text_home d s : reps d s -> exists d', text_editor_handle_event d (key_event KEY_HOME 0) = Done (d', event_result_handled) /\
  reps d' (let '(x, y) := upto_lf (rev s.1) in (rev y, rev x ++ s.2)).
Proof.
  intros (Hc & pre & l1 & l2 & post & Hat & ->). eexists. split; [reflexivity|]. destruct Hat as [Hl Hr Hcol]. cbn [fst snd].
  pose proof Hc as Hc'. rewrite Hl in Hc'. apply clean_middle in Hc' as (_ & [H1 _] & _). rewrite upto_lf_start by done. rewrite !rev_involutive, app_assoc.
  pose proof (reps_shift d pre [] (l1 ++ l2) post (row d) 0 (or_intror Hl) Hc Hr eq_refl) as Hs. rewrite app_nil_r in Hs.
  by apply (reps_ext (set_cursor (row d) 0 d)).
Qed.
Lemma text_end d s : reps d s -> exists d', text_editor_handle_event d (key_event KEY_END 0) = Done (d', event_result_handled) /\
  reps d' (let '(x, y) := upto_lf s.2 in (s.1 ++ x, y)).
Proof.
  intros (Hc & pre & l1 & l2 & post & Hat & ->). cbn [text_editor_handle_event Widget.type code key_event].
  rewrite (cursor_line _ _ _ _ _ Hat). cbn [mbind exec_bind]. eexists. split; [reflexivity|]. destruct Hat as [Hl Hr Hcol]. cbn [fst snd].
  pose proof Hc as Hc'. rewrite Hl in Hc'. apply clean_middle in Hc' as (_ & _ & [H2 _] & _). rewrite upto_lf_app by done. rewrite <-app_assoc.
  assert (lines d = pre ++ ((l1 ++ l2) ++ []) :: post) as Hl2 by (by rewrite app_nil_r).
  pose proof (reps_shift d pre (l1 ++ l2) [] post (row d) _ (or_intror Hl2) Hc Hr eq_refl) as Hs.
  by apply (reps_ext (set_cursor (row d) (len (l1 ++ l2)) d)).
Qed.
Lemma text_left d s : reps d s -> exists d', text_editor_handle_event d (key_event KEY_LEFT 0) = Done (d', event_result_handled) /\
  reps d' (match list.last s.1 with Some x => (removelast s.1, x :: s.2) | None => s end).
Proof.
  intros H. pose proof H as (Hc & pre & l1 & l2 & post & Hat & ->). cbn [text_editor_handle_event Widget.type code key_event fst snd].
  destruct Hat as [Hl Hr Hcol]. unfold len in Hcol. destruct l1 as [|x l1 _] using rev_ind.
  - rewrite (proj2 (Z.ltb_ge 0 (col d))) by (rewrite Hcol; done). destruct pre as [|l0 pre _] using rev_ind.
    + rewrite (proj2 (Z.ltb_ge 0 (row d))) by (rewrite Hr; done). by apply moved_reps.
    + rewrite length_app in Hr. cbn in Hr. rewrite (proj2 (Z.ltb_lt 0 (row d))) by lia.
      assert (lines d = pre ++ (l0 ++ []) :: l2 :: post) as Hl0 by (rewrite Hl, app_nil_r, <-app_assoc; done).
      assert (cursor_at (set_cursor (row d - 1) (len l0) d) pre l0 [] (l2 :: post)) as Hat0 by (constructor; cbn; [done|lia|done]).
      pose proof (cursor_line _ _ _ _ _ Hat0) as Hline0. rewrite app_nil_r in Hline0. change (line_at d (row d - 1) = Done l0) in Hline0.
      rewrite Hline0. cbn [mbind exec_bind]. rewrite file_text_snoc, app_nil_r, app_assoc, last_snoc, removelast_last. cbn [app].
      apply moved_reps. split; [done|]. exists pre, l0, [], (l2 :: post). split; [done|]. by rewrite file_text_cons.
  - rewrite length_app in Hcol. cbn in Hcol. rewrite (proj2 (Z.ltb_lt 0 (col d))) by lia. rewrite app_assoc, last_snoc, removelast_last.
    apply moved_reps. apply (reps_shift d pre l1 (x :: l2) post); [right; rewrite Hl, <-app_assoc; done|done|done|unfold len; lia].
Qed.
Lemma text_right d s : reps d s -> exists d', text_editor_handle_event d (key_event KEY_RIGHT 0) = Done (d', event_result_handled) /\
  reps d' (match s.2 with x :: (_ :: _) as r => (s.1 ++ [x], r) | _ => s end).
Proof.
  intros H. pose proof H as (Hc & pre & l1 & l2 & post & Hat & ->). cbn [text_editor_handle_event Widget.type code key_event fst snd].
  rewrite (cursor_line _ _ _ _ _ Hat). cbn [mbind exec_bind]. rewrite (cursor_count _ _ _ _ _ Hat). destruct Hat as [Hl Hr Hcol].
  unfold len in *. rewrite Hcol, length_app, Hr. destruct l2 as [|x l2].
  - rewrite (proj2 (Z.ltb_ge _ _)) by (cbn; lia). destruct post as [|l post].
    + rewrite (proj2 (Z.ltb_ge _ _)) by (cbn; lia). by apply moved_reps.
    + rewrite (proj2 (Z.ltb_lt _ _)) by (cbn; lia). cbn [app]. rewrite file_text_cons. destruct (l ++ LF :: file_text post) eqn:E; [by destruct l|]. rewrite <-E.
      apply moved_reps. pose proof (reps_shift d (pre ++ [l1]) [] l post (Z.of_nat (length pre) + 1) 0) as Hs.
      rewrite file_text_snoc, app_nil_r, app_assoc in Hs. cbn [app] in Hs. apply Hs; [right; rewrite Hl, app_nil_r, <-app_assoc; done|done|rewrite length_app; cbn; lia|done].
  - rewrite (proj2 (Z.ltb_lt _ _)) by (cbn; lia). cbn [app]. destruct (l2 ++ LF :: file_text post) eqn:E; [by destruct l2|]. rewrite <-E, <-app_assoc.
    apply moved_reps. apply (reps_shift d pre (l1 ++ [x]) l2 post); [right; rewrite Hl, <-app_assoc; done|done|done|unfold len; rewrite length_app; cbn; lia].
Qed.

(** No key changes the height of a page. *)
Lemma handle_visible d e d' r : text_editor_handle_event d e = Done (d', r) -> visible_h d' = visible_h d.
Proof.
  unfold text_editor_handle_event, on_char, moved, te_clamp_cursor, te_save. intros H.
  repeat match goal with
  | H : mbind _ ?m = Done _ |- _ => let E := fresh "E" in destruct m eqn:E; cbn [mbind exec_bind] in H; try discriminate H
  | H : context [match ?x with _ => _ end] |- _ => let E := fresh "E" in destruct x eqn:E; try discriminate H
  | H : Done _ = Done _ |- _ => injection H as H; subst
  end; reflexivity.
Qed.

Definition is_key (e : Event) : bool := bool_decide (Widget.type e = EVENT_KEY).
Lemma text_event d s e : reps d s -> visible_h d = PAGE -> is_schar (ch e) -> is_key e && bool_decide (code e = KEY_ESC) = false ->
  exists d' r s', text_editor_handle_event d e = Done (d', r) /\ (forall resp, r <> EVENT_RESULT_RESPONSE resp) /\ reps d' s' /\
    if is_key e then edit (code e) (ch e) s s' else s' = s.
Proof.
  intros H Hvis Hch Hesc. unfold is_key in *. assert (forall k c, code e = k -> ch e = c -> Widget.type e = EVENT_KEY ->
    text_editor_handle_event d e = text_editor_handle_event d (key_event k (ch e))) as Hev.
  { intros k c Hk _ Ht. unfold text_editor_handle_event. cbn. by rewrite Ht, Hk. }
  case_bool_decide as Ht; [|exists d, EVENT_RESULT_UNHANDLED, s; split_and!; [|done..]; unfold text_editor_handle_event; by destruct (Widget.type e)].
  destruct (code e) eqn:Ek; try discriminate Hesc; rewrite (Hev _ _ eq_refl eq_refl Ht);
    try (exists d, EVENT_RESULT_UNHANDLED, s; by split_and!);
    [destruct (text_backspace d s H) as (d' & Hd & Hr)|destruct (text_enter d s H) as (d' & Hd & Hr)|destruct (text_left d s H) as (d' & Hd & Hr)
    |destruct (text_right d s H) as (d' & Hd & Hr)| | |destruct (text_home d s H) as (d' & Hd & Hr)|destruct (text_end d s H) as (d' & Hd & Hr)| | 
    |destruct (text_delete d s H) as (d' & Hd & Hr)|];
    try (eexists d', _, _; split; [exact Hd|split; [done|split; [exact Hr|reflexivity]]]).
  1-4: destruct (reps_cursor _ _ H) as (Hrow & _ & Hcnt & _); pose proof (reps_valid _ _ H) as (l0 & Hr0 & Hl0 & _); apply lookup_lt_Some in Hl0;
    assert (row d < count d) as Hlt by (unfold count; lia).
  - destruct (text_moves d s (if 0 <? row d then row d - 1 else row d) H) as (d' & s' & Hm & Hr & Hmv). exists d', event_result_handled, s'.
    split_and!; [|done..|]; [rewrite <-Hm; cbn; destruct (0 <? row d); [done|by destruct d]|]. refine (line_move_eq _ _ _ _ _ Hmv). rewrite Hrow, Hcnt. case_match; simp_bool; lia.
  - destruct (text_moves d s (if row d + 1 <? count d then row d + 1 else row d) H) as (d' & s' & Hm & Hr & Hmv). exists d', event_result_handled, s'.
    split_and!; [|done..|]; [rewrite <-Hm; cbn; destruct (row d + 1 <? count d); [done|by destruct d]|]. refine (line_move_eq _ _ _ _ _ Hmv). rewrite Hrow, Hcnt. case_match; simp_bool; lia.
  - destruct (text_moves d s (at_least 0 (row d - visible_h d)) H) as (d' & s' & Hm & Hr & Hmv). exists d', event_result_handled, s'.
    split_and!; [done..|]. refine (line_move_eq _ _ _ _ _ Hmv). rewrite Hrow, Hcnt, Hvis. unfold at_least. case_match; simp_bool; lia.
  - destruct (text_moves d s (at_most (count d - 1) (row d + visible_h d)) H) as (d' & s' & Hm & Hr & Hmv). exists d', event_result_handled, s'.
    split_and!; [done..|]. refine (line_move_eq _ _ _ _ _ Hmv). rewrite Hrow, Hcnt, Hvis. unfold at_most. case_match; simp_bool; lia.
  - destruct (text_char d s (ch e) H Hch) as (d' & s' & Hd & Hr & He). by exists d', event_result_handled, s'.
Qed.

(** ** Sequences of events *)

Definition is_esc (e : Event) : bool := is_key e && bool_decide (code e = KEY_ESC).
(** The editing steps of the events, up to an Escape. *)
Inductive edits : flat -> list Event -> flat -> Prop :=
  | edits_nil s : edits s [] s
  | edits_esc s e es : is_esc e = true -> edits s (e :: es) s
  | edits_key s e es s1 s2 : is_esc e = false -> (if is_key e then edit (code e) (ch e) s s1 else s1 = s) -> edits s1 es s2 -> edits s (e :: es) s2.

Lemma text_events d s es : reps d s -> visible_h d = PAGE -> Forall (fun e => is_schar (ch e)) es ->
  exists d' r s', run_events d es = Done (d', r) /\ edits s es s' /\ reps d' s' /\
    (existsb is_esc es = true -> r = Some (mkResponse (cJSON_CreateString (Some (of_chars (text s')))) false None)) /\
    (existsb is_esc es = false -> r = None).
Proof.
  intros H Hvis Hes. revert d s H Hvis. induction Hes as [|e es Hch _ IH]; intros d s H Hvis; [exists d, None, s; by split_and!; [|constructor|..]|].
  cbn [run_events existsb]. destruct (is_esc e) eqn:Ee.
  - exists d, (Some (mkResponse (cJSON_CreateString (Some (of_chars (text s)))) false None)), s. split_and!; [|by constructor|done|done|done].
    unfold is_esc, is_key in Ee. apply andb_true_iff in Ee as [Ht%bool_decide_eq_true Hk%bool_decide_eq_true].
    cbn [handle_event text_editor_widget]. unfold text_editor_handle_event. rewrite Ht, Hk. cbn. by rewrite (reps_text _ _ H).
  - destruct (text_event d s e H Hvis Hch Ee) as (d1 & r1 & s1 & Hd & Hr & H1 & Hedit). cbn [handle_event text_editor_widget]. rewrite Hd. cbn [mbind exec_bind].
    destruct (IH d1 s1 H1 (eq_trans (handle_visible _ _ _ _ Hd) Hvis)) as (d' & r & s' & Hrun & Hed & Hreps & Hans). exists d', r, s'. split_and!; [|by eapply edits_key|done|apply Hans..].
    destruct r1 as [|resp|]; [exact Hrun|by destruct (Hr resp)|exact Hrun].
Qed.

(** ** A new editor *)

Definition with_lf (l : list ascii) : list ascii := match list.last l with Some c => if Ascii.eqb c LF then l else l ++ [LF] | None => [LF] end.
Lemma split_content_spec p s ls : Forall clean ls -> LF ∉ s -> NUL ∉ s ++ p -> (p = [] -> s = [] -> ls = []) \/ ls <> [] ->
  Forall clean (split_content p s ls) /\ split_content p s ls <> [] /\
  file_text (split_content p s ls) = file_text ls ++ match ls, s ++ p with _ :: _, [] => [] | _, l => with_lf l end.
Proof.
  revert s ls. induction p as [|c p IH]; intros s ls Hls Hs Hn Hor.
  - cbn [split_content]. rewrite app_nil_r in *. assert (Forall clean (ls ++ [s])) as Hc by (apply list.Forall_app; split; [done|]; constructor; [by split|constructor]).
    assert (s <> [] -> with_lf s = s ++ [LF]) as Hw.
    { intros Hne. unfold with_lf. destruct s as [|x s _] using rev_ind; [done|]. rewrite last_snoc. destruct (Ascii.eqb_spec x LF); [|done].
      subst. apply not_elem_of_app in Hs as [_ Hs]. by destruct Hs; left. }
    destruct s as [|x s]; [destruct ls as [|l ls]|].
    + split; [done|]. split; [done|]. done.
    + split; [done|]. split; [done|]. by rewrite app_nil_r.
    + split; [done|]. split; [by destruct ls|]. rewrite file_text_snoc. f_equal. rewrite <-Hw by done. by destruct ls.
  - cbn [split_content]. apply not_elem_of_app in Hn as [Hns [Hnc Hnp]%not_elem_of_cons]. destruct (Ascii.eqb_spec c LF) as [->|Hne].
    + destruct (IH [] (ls ++ [s])) as (H1 & H2 & H3); [apply list.Forall_app; split; [done|constructor; [by split|constructor]]|apply not_elem_of_nil|done|right; by destruct ls|].
      split; [done|]. split; [done|]. rewrite H3, file_text_snoc, <-app_assoc. f_equal. cbn [app].
      assert (match ls, s ++ LF :: p with _ :: _, [] => [] | _, l => with_lf l end = with_lf (s ++ LF :: p)) as -> by (destruct ls; [done|by destruct s]).
      assert (with_lf (s ++ LF :: p) = (s ++ [LF]) ++ match p with [] => [] | l => with_lf l end) as ->.
      { unfold with_lf. destruct p as [|x p _] using rev_ind; [rewrite last_snoc; cbn; by rewrite app_nil_r|].
        change (s ++ LF :: p ++ [x]) with (s ++ (LF :: p) ++ [x]). rewrite app_assoc, last_snoc. destruct (p ++ [x]) eqn:E; [by destruct p|]. rewrite <-E, last_snoc.
        destruct (Ascii.eqb x LF); by rewrite <-!app_assoc. }
      destruct (ls ++ [s]) eqn:E1; [by destruct ls|]. by destruct p.
    + destruct (IH (s ++ [c]) ls) as (H1 & H2 & H3); [done| | |left; intros _ Hx; by destruct s|].
      * apply not_elem_of_app. split; [done|]. apply not_elem_of_cons. split; [congruence|apply not_elem_of_nil].
      * rewrite <-app_assoc. apply not_elem_of_app. split; [done|]. by apply not_elem_of_cons.
      * split; [done|]. split; [done|]. by rewrite H3, <-app_assoc.
Qed.

(** A new editor stands behind the first line of its text. *)
Lemma first_line l ls : Forall clean (l :: ls) -> upto_lf (file_text (l :: ls)) = (l, LF :: file_text ls).
Proof. intros [[Hl _] _]%list.Forall_cons. rewrite file_text_cons. by apply upto_lf_app. Qed.
Lemma new_reps t path c : path ≫= file_at = None -> c_string c ->
  reps (text_editor_widget_new t path (Some c)) (upto_lf (with_lf (chars c))).
Proof.
  intros Hf Hc. destruct (split_content_spec (chars c) [] []) as (H1 & H2 & H3); [constructor|apply not_elem_of_nil|done|by left|].
  set (d := text_editor_widget_new t path (Some c)). assert (lines d = split_content (chars c) [] []) as Hl.
  { subst d. unfold text_editor_widget_new. rewrite Hf. cbn [lines]. by destruct (split_content (chars c) [] []). }
  assert (with_lf (chars c) = file_text (lines d)) as -> by (rewrite Hl, H3; cbn; by destruct (chars c)).
  rewrite <-Hl in H1, H2. split; [done|].
  assert (col d = len (default [] (head (lines d)))) as Hcol by (subst d; unfold text_editor_widget_new; rewrite Hf; reflexivity).
  destruct (lines d) as [|l ls] eqn:E; [done|]. exists [], l, [], ls. split; [|by apply first_line].
  constructor; [by rewrite E, app_nil_r|done|by rewrite Hcol].
Qed.

(** C5: an editor opened on a text without NUL (and no file that can be read)
    works on that text, each line of it ended with a line feed: it starts behind
    the first line; every key whose character fits a signed byte does to the
    text before and behind the cursor what the specification [edit] says, the
    line ^D removes and the line and column UP, DOWN and the page keys (twenty
    lines, while nothing has been drawn between the keys) go to included,
    without an access outside the lines; and Escape answers with the text of
    that moment. *)
Theorem text_editor_edits t path c es : path ≫= file_at = None -> c_string c -> Forall (fun e => is_schar (ch e)) es ->
  exists d r s, run_events (text_editor_widget_new t path (Some c)) es = Done (d, r) /\ edits (upto_lf (with_lf (chars c))) es s /\ reps d s /\
    (existsb is_esc es = true -> r = Some (mkResponse (cJSON_CreateString (Some (of_chars (text s)))) false None)) /\
    (existsb is_esc es = false -> r = None).
Proof.
  intros Hf Hc Hes. apply text_events; [by apply new_reps|unfold text_editor_widget_new; by rewrite Hf|done].
Qed.

(** ** Drawing *)

(** The visible lines, and the size of the buffer they are joined in. *)
Definition view_height (d : TextEditorData) : Z := at_least 1 (scale_int (rh (render_area (wb d))) 9 1 - 4).
Definition view_size (d : TextEditorData) : Z :=
  view_height d * (at_most (rw (render_area (wb d)) - 2) (scale_int (rw (render_area (wb d))) 9 1) + 2).
Definition view (d : TextEditorData) : list ascii :=
  joined (take (Z.to_nat (visible_h d)) (drop (Z.to_nat (scroll d)) (lines d))).

(** drawing keeps the text and the cursor and scrolls the cursor's line into
    view. The lines in view are joined in a buffer of (width + 2) bytes a line:
    when they do not fit, which one long line is enough for, the drawing
    writes behind the buffer. *)
Theorem text_editor_draws d s : reps d s -> exists d', reps d' s /\ 0 <= scroll d' <= row d' /\ row d' < scroll d' + view_height d /\
  (Z.of_nat (length (view d')) < view_size d -> exists i b p before after, text_editor_render d = Done (d', mkTree i (RNODE_CONTAINER None b p
     
       (before :: text_node (rect_new 1 1 (at_most (rw (render_area (wb d)) - 2) (scale_int (rw (render_area (wb d))) 9 1) - 2) (view_height d))
       (of_chars (view d')) ALIGN_LEFT :: after)))) /\
  (view_size d <= Z.of_nat (length (view d')) -> text_editor_render d = Fault OutOfBounds).
Proof.
  intros H. destruct (clamp_spec (set_scroll (scroll d) (view_height d) d) (reps_lines _ _ H)) as (d' & Hd & Hl & Hv & Hh & Hw & _ & _ & _ & Hin & Hk).
  assert (0 < view_height d) as Hpos by (unfold view_height, at_least; case_match; simp_bool; lia).
  destruct (Hin Hpos) as [Hs1 Hs2]. cbn in Hh, Hw. rewrite Hh in Hs2.
  assert (valid (set_scroll (scroll d) (view_height d) d)) as Hvd by exact (reps_valid _ _ H). destruct (Hk Hvd) as [Hr Hcol].
  exists d'. split; [by apply (reps_ext d)|]. split; [done|]. split; [done|].
  unfold view, view_size, text_editor_render. cbn zeta. fold (view_height d). rewrite Hd. cbn [mbind exec_bind]. unfold display. rewrite Hh.
  split; intros Hlen.
  - rewrite (proj2 (Z.ltb_lt _ _) Hlen). cbn [mbind exec_bind]. do 5 eexists. reflexivity.
  - by rewrite (proj2 (Z.ltb_ge _ _) Hlen).
Qed.
End text_editor.

(** ** A run *)

Definition type_text (s : string) : list Event := map (fun c => key_event (if Ascii.eqb c LF then KEY_ENTER else KEY_CHAR) (uchar c)) (chars s).
Definition session_keys : list Event :=
  [key_event KEY_CHAR 33; key_event KEY_ENTER 0; key_event KEY_CHAR 97; key_event KEY_BACKSPACE 0; key_event KEY_BACKSPACE 0; key_event KEY_DOWN 0;
   key_event KEY_HOME 0; key_event KEY_DELETE 0; key_event KEY_CHAR 4; key_event KEY_ESC 0].
Definition opened : TextEditorData := text_editor_widget_new (fun _ => None) "Notes" None (Some ("one" +:+ String LF ("two" +:+ String LF "three"))).
Lemma text_editor_edits_witness : exists d s,
  run_events (W := TextEditorData) (H := text_editor_widget (fun _ => true)) opened session_keys =
    Done (d, Some (mkResponse (cJSON_CreateString (Some (of_chars (text s)))) false None)) /\ text s = chars ("one!" +:+ String LF ("three" +:+ String LF EmptyString)).
Proof.
  destruct (text_editor_edits (fun _ => true) (fun _ => None) "Notes" None ("one" +:+ String LF ("two" +:+ String LF "three")) session_keys)
    as (d & r & s & Hrun & _ & _ & Hans & _); [reflexivity|apply (bool_decide_unpack _); reflexivity|
      apply (bool_decide_unpack (Forall (fun e => is_schar (ch e)) session_keys)); reflexivity|].
  rewrite (Hans eq_refl) in Hrun. exists d, s. split; [exact Hrun|]. vm_compute in Hrun. injection Hrun as _ Hs. vm_compute.
  apply (f_equal chars) in Hs. rewrite list_ascii_of_string_of_list_ascii in Hs. symmetry. exact Hs.
Defined.
Definition narrow : TextEditorData := with_base (mkBase true true (mkRect 0 0 3 8) 0) opened.
Lemma text_editor_draws_witness : let s := (chars "one", LF :: chars ("two" +:+ String LF ("three" +:+ String LF EmptyString))) in
  reps narrow s /\ exists d', reps d' s /\ 0 <= scroll d' <= row d' /\ (view_size narrow <= Z.of_nat (length (view d')) -> text_editor_render narrow = Fault OutOfBounds).
Proof.
  intros s. assert (reps narrow s) as H.
  { split; [apply (bool_decide_unpack _); reflexivity|]. exists [], (chars "one"), [], [chars "two"; chars "three"]. split; [constructor; reflexivity|reflexivity]. }
  split; [exact H|]. destruct (text_editor_draws narrow s H) as (d' & Hd & Hs & _ & _ & Hf). exists d'. exact (conj Hd (conj Hs Hf)).
Defined.
Example narrow_faults : text_editor_render narrow = Fault OutOfBounds.
Proof. vm_compute. reflexivity. Qed.
