(* ===== verification/Panels.v ===== *)
(** Widgets that show, type and hold: src/src/core/widgets/msg.c, password.c,
    filter.c, context_menu.c, form.c, tree.c and tabs.c. *)

From Stdlib Require Import SpecFloat.
From S2P Require Import Prelude Double CJson Protocol Widget RenderTree Boxes.

(** [realloc], the character, the terminator; and the terminator one earlier.
    A NUL character ends the string where it ended before. *)
Definition append_char (s : list ascii) (ch : Z) : list ascii :=
  if u8 ch =? 0 then s else s ++ [ascii_of_N (Z.to_N (u8 ch))].
Definition erase_char (s : list ascii) : list ascii := removelast s.

(** ** msg.c *)

Module Msg.
Record MsgData := mk { wb : WidgetBase; title : string; message : string }.
Definition with_base (b : WidgetBase) (d : MsgData) : MsgData := mk b (title d) (message d).
Definition count_lines (s : string) : Z := 1 + Z.of_nat (length (List.filter (Ascii.eqb "010"%char) (chars s))).
Definition msg_render (d : MsgData) : RenderTree :=
  let area := render_area (wb d) in
  let lines := count_lines (message d) in
  let gui := 200 <? rw area in
  let ch := if gui then 30 else 1 in
  let edge := if gui then 4 else 2 in
  let box_w := at_least 30 (at_most (rw area - edge) (scale_int (rw area) 6 1)) in
  let box_h := at_most (rh area) ((1 + lines + 1) * ch + edge) in
  let text cls_state r s := let t := text_node r s ALIGN_CENTER in match cls_state with Some st => with_state st t | None => t end in
  let i := set_access "message" (Some (title d)) (set_class "container" info_zero) in
  mkTree (set_rect (rect_new (cdiv (rw area - box_w) 2) (cdiv (rh area - box_h) 2) box_w box_h)
      (set_tab_index (if 0 <=? base_tab_index (wb d) then base_tab_index (wb d) else -1) i))
    (RNODE_CONTAINER None BORDER_SINGLE edgeinsets_zero
      [text (Some "title") (rect_new ch 0 (box_w - 2 * ch) ch) (title d);
       text None (rect_new ch ch (box_w - 2 * ch) (lines * ch)) (message d);
       text (Some "muted") (rect_new ch (ch * (1 + lines)) (box_w - 2 * ch) ch) "Any key to continue"])%string.
Definition msg_handle_event (d : MsgData) (ev : Event) : exec (MsgData * EventResult) :=
  match Widget.type ev with EVENT_KEY => Done (d, answer None) | _ => Done (d, event_result_unhandled) end.
Definition msg_widget_new (t m : string) : MsgData := mk (base_new false) t m.
#[global] Program Instance msg_widget : Widget MsgData := {|
  base := wb; set_base := with_base; render d := Done (d, msg_render d); handle_event := msg_handle_event |}.
Solve Obligations with by destruct w.
End Msg.

(** ** password.c *)

Module Password.
Record PasswordData := mk { wb : WidgetBase; title : option string; message : option string; text : list ascii; placeholder : string }.
Definition with_base (b : WidgetBase) (d : PasswordData) : PasswordData := mk b (title d) (message d) (text d) (placeholder d).
Definition set_text (t : list ascii) (d : PasswordData) : PasswordData := mk (base_set_dirty true (wb d)) (title d) (message d) t (placeholder d).
Definition password_render (d : PasswordData) : RenderTree :=
  let area := render_area (wb d) in
  let box_w := at_most (rw area - 2) 60 in
  let box_h := at_most (rh area - 2) 10 in
  let input_y := match message d with Some _ => 4 | None => 2 end in
  box (wb d) "password" "Password" (title d) box_w box_h
    (match shown (title d) with Some s => [with_state "title" (text_node (rect_new 1 0 (box_w - 2) 1) s ALIGN_LEFT)] | None => [] end ++
     match shown (message d) with Some s => [text_node (rect_new 1 1 (box_w - 2) 2) s ALIGN_LEFT] | None => [] end ++
     [child_node "input" (rect_new 1 input_y (box_w - 2) 1) (RNODE_INPUT (Some (of_chars (text d))) (Some (placeholder d)) 0 true);
      with_state "muted" (text_node (rect_new 1 (box_h - 2) (box_w - 2) 1) "Type + Enter:confirm  Esc:cancel" ALIGN_LEFT)]).
Definition password_handle_event (d : PasswordData) (ev : Event) : exec (PasswordData * EventResult) :=
  match Widget.type ev with
  | EVENT_KEY =>
      match code ev with
      | KEY_ESC => Done (d, cancelled_response)
      | KEY_ENTER => Done (d, answer (cJSON_CreateString (Some (of_chars (text d)))))
      | KEY_CHAR => Done (set_text (append_char (text d) (ch ev)) d, event_result_handled)
      | KEY_BACKSPACE => Done (match text d with [] => d | t => set_text (erase_char t) d end, event_result_handled)
      | _ => Done (d, event_result_unhandled)
      end
  | _ => Done (d, event_result_unhandled)
  end.
Definition password_widget_new (t m ph : option string) : PasswordData := mk (base_new true) t m [] (default EmptyString ph).
#[global] Program Instance password_widget : Widget PasswordData := {|
  base := wb; set_base := with_base; render d := Done (d, password_render d); handle_event := password_handle_event |}.
Solve Obligations with by destruct w.
End Password.

(** ** filter.c *)

Module Filter.
(** [filtered] holds the positions the last rendering showed. *)
Record FilterData := mk {
  wb : WidgetBase; title : option string; message : option string; choices : list string; query : list ascii; placeholder : string;
  selected : Z; filtered : list nat
}.
Definition with_base (b : WidgetBase) (d : FilterData) : FilterData :=
  mk b (title d) (message d) (choices d) (query d) (placeholder d) (selected d) (filtered d).
Definition select (s : Z) (d : FilterData) : FilterData :=
  mk (base_set_dirty true (wb d)) (title d) (message d) (choices d) (query d) (placeholder d) s (filtered d).
Definition set_query (q : list ascii) (d : FilterData) : FilterData :=
  mk (base_set_dirty true (wb d)) (title d) (message d) (choices d) q (placeholder d) 0 (filtered d).
Definition shown_count (d : FilterData) : Z := Z.of_nat (length (filtered d)).
Definition filter_update (d : FilterData) : FilterData :=
  let f := matching (choices d) (query d) in
  let n := Z.of_nat (length f) in
  mk (wb d) (title d) (message d) (choices d) (query d) (placeholder d)
    (if n <=? selected d then (if 0 <? n then n - 1 else 0) else selected d) f.
Definition filter_render (d0 : FilterData) : exec (FilterData * RenderTree) :=
  let d := filter_update d0 in
  let area := render_area (wb d) in
  let box_w := at_most (rw area - 2) (scale_int (rw area) 7 1) in
  let box_h := at_most (rh area - 2) (scale_int (rh area) 8 1) in
  let qb := strtake 511 ("> " +:+ of_chars (query d)) in
  let list_h := box_h - 3 in
  labels ← mapM (fun i => at_index (choices d !! i)) (filtered d);
  Done (d, box (wb d) "filter" "Filter" (title d) box_w box_h
    (match shown (title d) with Some s => [with_state "title" (text_node (rect_new 1 0 (box_w - 2) 1) s ALIGN_LEFT)] | None => [] end ++
     [child_node "input" (rect_new 1 1 (box_w - 2) 1) (RNODE_INPUT (Some qb) (Some (placeholder d)) (strlen qb) false);
      child_node "list" (rect_new 1 2 (box_w - 2) (if 0 <? list_h then list_h else 1)) (RNODE_LIST (list_items labels) (selected d));
      with_state "muted" (text_node (rect_new 1 (box_h - 2) (box_w - 2) 1) "Type:filter  Up/Down:move  Enter:select  Esc:cancel" ALIGN_LEFT)])).
Definition filter_handle_event (d : FilterData) (ev : Event) : exec (FilterData * EventResult) :=
  match Widget.type ev with
  | EVENT_KEY =>
      match code ev with
      | KEY_ESC => Done (d, cancelled_response)
      | KEY_UP => Done (if 0 <? selected d then select (selected d - 1) d else d, event_result_handled)
      | KEY_DOWN => Done (if selected d + 1 <? shown_count d then select (selected d + 1) d else d, event_result_handled)
      | KEY_ENTER =>
          if (0 <? shown_count d) && (selected d <? shown_count d) then
            i ← at_index (filtered d !! Z.to_nat (selected d)); c ← at_index (choices d !! i);
            Done (d, answer (cJSON_CreateString (Some c)))
          else Done (d, event_result_handled)
      | KEY_CHAR => Done (set_query (append_char (query d) (ch ev)) d, event_result_handled)
      | KEY_BACKSPACE => Done (match query d with [] => d | q => set_query (erase_char q) d end, event_result_handled)
      | _ => Done (d, event_result_unhandled)
      end
  | _ => Done (d, event_result_unhandled)
  end.
Definition filter_widget_new (t m : option string) (cs : list string) (ph : option string) : FilterData :=
  mk (base_new true) t m cs [] (default "Type to filter..." ph) 0 [].
#[global] Program Instance filter_widget : Widget FilterData := {|
  base := wb; set_base := with_base; render := filter_render; handle_event := filter_handle_event |}.
Solve Obligations with by destruct w.
End Filter.

(** ** context_menu.c *)

Module ContextMenu.
Record ContextMenuData := mk { wb : WidgetBase; items : list string; selected : Z }.
Definition with_base (b : WidgetBase) (d : ContextMenuData) : ContextMenuData := mk b (items d) (selected d).
Definition select (s : Z) (d : ContextMenuData) : ContextMenuData := mk (base_set_dirty true (wb d)) (items d) s.
Definition count (d : ContextMenuData) : Z := Z.of_nat (length (items d)).
Definition cm_render (d : ContextMenuData) : RenderTree :=
  let area := render_area (wb d) in
  let box_w := at_most (rw area - 4) 25 in
  let box_h := at_most (rh area - 2) (count d + 2) in
  box (wb d) "menu" "Context menu" None box_w box_h
    [child_node "context_menu" (rect_new 0 0 (box_w - 2) (box_h - 2)) (RNODE_CONTEXT_MENU (list_items (items d)) (selected d));
     with_state "muted" (text_node (rect_new 0 (box_h - 2) (box_w - 2) 1) "Up/Down:move  Enter:select  Esc:cancel" ALIGN_LEFT)].
Definition cm_handle_event (d : ContextMenuData) (ev : Event) : exec (ContextMenuData * EventResult) :=
  match Widget.type ev with
  | EVENT_KEY =>
      match code ev with
      | KEY_ESC => Done (d, cancelled_response)
      | KEY_UP => Done (if 0 <? selected d then select (selected d - 1) d else d, event_result_handled)
      | KEY_DOWN => Done (if selected d + 1 <? count d then select (selected d + 1) d else d, event_result_handled)
      | KEY_ENTER => c ← at_index (items d !! Z.to_nat (selected d)); Done (d, answer (cJSON_CreateString (Some c)))
      | _ => Done (d, event_result_unhandled)
      end
  | _ => Done (d, event_result_unhandled)
  end.
Definition context_menu_widget_new (its : list string) : ContextMenuData := mk (base_new false) its 0.
#[global] Program Instance cm_widget : Widget ContextMenuData := {|
  base := wb; set_base := with_base; render d := Done (d, cm_render d); handle_event := cm_handle_event |}.
Solve Obligations with by destruct w.
End ContextMenu.

(** ** form.c *)

Module Form.
Abbreviation FormField := RenderTree.FormField.
Abbreviation label := ff_label.
Abbreviation value := ff_value.
Definition set_value (v : list ascii) (f : FormField) : FormField := mkField (label f) (ff_type f) v (ff_placeholder f) (ff_choices f).
Record FormData := mk { wb : WidgetBase; title : string; submit_label : string; fields : list FormField; focused : Z }.
Definition with_base (b : WidgetBase) (d : FormData) : FormData := mk b (title d) (submit_label d) (fields d) (focused d).
Definition field_count (d : FormData) : Z := Z.of_nat (length (fields d)).
Definition set_fields (l : list FormField) (d : FormData) : FormData := mk (base_set_dirty true (wb d)) (title d) (submit_label d) l (focused d).
Definition focus (f : Z) (d : FormData) : FormData :=
  mk (mkBase true (f <? field_count d) (render_area (wb d)) (base_tab_index (wb d))) (title d) (submit_label d) (fields d) f.
Definition form_render (d : FormData) : RenderTree :=
  let area := render_area (wb d) in
  let box_w := at_most (rw area - 2) 60 in
  let box_h := at_most (rh area - 2) (4 + field_count d * 2 + 2) in
  box (wb d) "form" "form" (Some (title d)) box_w box_h
    [with_state "title" (text_node (rect_new 1 0 (box_w - 2) 1) (title d) ALIGN_LEFT);
     child_node "form" (rect_new 1 1 (box_w - 2) (box_h - 3)) (RNODE_FORM (fields d) (focused d) (Some (submit_label d)));
     with_state "muted" (text_node (rect_new 1 (box_h - 2) (box_w - 2) 1) "Tab:next  Enter:submit  Esc:cancel" ALIGN_LEFT)].
Definition form_object (l : list FormField) : cJSON :=
  foldl (fun o f => cJSON_AddStringToObject o (label f) (Some (of_chars (value f)))) cJSON_CreateObject l.
Definition form_handle_event (d : FormData) (ev : Event) : exec (FormData * EventResult) :=
  match Widget.type ev with
  | EVENT_KEY =>
      match code ev with
      | KEY_ESC => Done (d, cancelled_response)
      | KEY_TAB => Done (focus (cmod (focused d + 1) (field_count d + 1)) d, event_result_handled)
      | KEY_BACKTAB => Done (focus (if 0 <? focused d then focused d - 1 else field_count d) d, event_result_handled)
      | KEY_ENTER =>
          if focused d =? field_count d then Done (d, answer (Some (form_object (fields d)))) else Done (d, event_result_handled)
      | KEY_CHAR =>
          if focused d <? field_count d then
            f ← at_index (fields d !! Z.to_nat (focused d));
            Done (set_fields (<[Z.to_nat (focused d) := set_value (append_char (value f) (ch ev)) f]> (fields d)) d, event_result_handled)
          else Done (d, event_result_handled)
      | KEY_BACKSPACE =>
          if focused d <? field_count d then
            f ← at_index (fields d !! Z.to_nat (focused d));
            match value f with
            | [] => Done (d, event_result_handled)
            | v => Done (set_fields (<[Z.to_nat (focused d) := set_value (erase_char v) f]> (fields d)) d, event_result_handled)
            end
          else Done (d, event_result_handled)
      | _ => Done (d, event_result_unhandled)
      end
  | _ => Done (d, event_result_unhandled)
  end.
(** [widget_base_init] leaves a base that takes no text, with tab index 0; the
    constructor then sets [accepts_text_input] to true, with fields or without. *)
Definition form_widget_new (t : string) (l : list FormField) (submit : string) : FormData :=
  mk (mkBase true true (mkRect 0 0 0 0) 0) t submit l 0.
#[global] Program Instance form_widget : Widget FormData := {|
  base := wb; set_base := with_base; render d := Done (d, form_render d); handle_event := form_handle_event |}.
Solve Obligations with by destruct w.
End Form.

(** ** tree.c *)

Module Tree.
Abbreviation TreeNode := RenderTree.TreeNode.
Abbreviation mkNode := mkTreeNode.
Definition expanded (n : TreeNode) : bool := match n with mkTreeNode _ e _ => e end.
Definition children (n : TreeNode) : list TreeNode := match n with mkTreeNode _ _ c => c end.
Definition flip (n : TreeNode) : TreeNode := match n with mkTreeNode l e c => mkTreeNode l (negb e) c end.
Record TreeData := mk { wb : WidgetBase; title : string; nodes : list TreeNode; flat_indices : list nat; cursor : Z }.
Definition with_base (b : WidgetBase) (d : TreeData) : TreeData := mk b (title d) (nodes d) (flat_indices d) (cursor d).
Definition flat_count (d : TreeData) : Z := Z.of_nat (length (flat_indices d)).
Definition move (c : Z) (d : TreeData) : TreeData := mk (base_set_dirty true (wb d)) (title d) (nodes d) (flat_indices d) c.
(** The entries of a node: its index, and indices behind those of the nodes for its children. *)
Definition flat_entries (n : nat) (i : nat) (x : TreeNode) : list nat :=
  i :: (if expanded x then seq n (length (children x)) else []).
Definition flatten (l : list TreeNode) : list nat := concat (imap (flat_entries (length l)) l).
Definition tree_render (d0 : TreeData) : exec (TreeData * RenderTree) :=
  let flat := flatten (nodes d0) in
  (** the array has room for ten entries a node *)
  if (length (nodes d0) * 10 <? length flat)%nat then Fault OutOfBounds else
  let d := mk (wb d0) (title d0) (nodes d0) flat (cursor d0) in
  let area := render_area (wb d) in
  let box_w := at_most (rw area - 2) (scale_int (rw area) 7 1) in
  let box_h := at_most (rh area - 2) (scale_int (rh area) 8 1) in
  Done (d, box (wb d) "tree" "tree" (Some (title d)) box_w box_h
    [with_state "title" (text_node (rect_new 1 0 (box_w - 2) 1) (title d) ALIGN_LEFT);
     child_node "tree" (rect_new 1 1 (box_w - 2) (box_h - 3)) (RNODE_TREE (nodes d) None);
     with_state "muted" (text_node (rect_new 1 (box_h - 2) (box_w - 2) 1) "Up/Down:move  Enter/Space:expand  Esc:dismiss" ALIGN_LEFT)]).
Definition tree_handle_event (d : TreeData) (ev : Event) : exec (TreeData * EventResult) :=
  let toggle :=
    if cursor d <? flat_count d then
      idx ← at_index (flat_indices d !! Z.to_nat (cursor d));
      match nodes d !! idx with
      | Some n =>
          if (0 <? length (children n))%nat
          then Done (mk (base_set_dirty true (wb d)) (title d) (<[idx := flip n]> (nodes d)) (flat_indices d) (cursor d), event_result_handled)
          else Done (d, event_result_handled)
      | None => Done (d, event_result_handled)
      end
    else Done (d, event_result_handled) in
  match Widget.type ev with
  | EVENT_KEY =>
      match code ev with
      | KEY_ESC => Done (d, answer None)
      | KEY_UP => Done (move (if 0 <? cursor d then cursor d - 1 else cursor d) d, event_result_handled)
      | KEY_DOWN => Done (move (if cursor d + 1 <? flat_count d then cursor d + 1 else cursor d) d, event_result_handled)
      | KEY_ENTER => toggle
      | KEY_CHAR => if ch ev =? 32 then toggle else Done (d, event_result_unhandled)
      | _ => Done (d, event_result_unhandled)
      end
  | _ => Done (d, event_result_unhandled)
  end.
Definition tree_widget_new (t : string) (l : list TreeNode) : TreeData := mk widget_base_init t l [] 0.
#[global] Program Instance tree_widget : Widget TreeData := {|
  base := wb; set_base := with_base; render := tree_render; handle_event := tree_handle_event |}.
Solve Obligations with by destruct w.
End Tree.

(** ** tabs.c *)

Module Tabs.
Section tabs.
(** The widgets the tabs hold. *)
Context {W : Type} `{Widget W}.
Record TabsData := mk { wb : WidgetBase; title : string; tab_labels : list string; active : Z; panes : list W }.
Definition with_base (b : WidgetBase) (d : TabsData) : TabsData := mk b (title d) (tab_labels d) (active d) (panes d).
Definition activate (a : Z) (d : TabsData) : TabsData := mk (base_set_dirty true (wb d)) (title d) (tab_labels d) a (panes d).
Definition set_pane (i : nat) (w : W) (d : TabsData) : TabsData := mk (wb d) (title d) (tab_labels d) (active d) (<[i := w]> (panes d)).
Definition tabs_render (d : TabsData) : exec (TabsData * RenderTree) :=
  let i := set_tab_index (if 0 <=? base_tab_index (wb d) then base_tab_index (wb d) else 0)
    (set_class "tabs" (set_access "tabs" (Some (title d)) info_zero)) in
  match panes d !! Z.to_nat (active d) with
  | Some w => '(w, t) ← render w; Done (set_pane (Z.to_nat (active d)) w d, mkTree i (RNODE_TABS (tab_labels d) (active d) (Some t)))
  | None => Done (d, mkTree i (RNODE_TABS (tab_labels d) (active d) None))
  end.
Definition tabs_handle_event (d : TabsData) (ev : Event) : exec (TabsData * EventResult) :=
  let is_key := match Widget.type ev with EVENT_KEY => true | _ => false end in
  let goes_left := is_key && match code ev with KEY_LEFT => 0 <? active d | _ => false end in
  let goes_right := is_key && match code ev with KEY_RIGHT => active d + 1 <? Z.of_nat (length (tab_labels d)) | _ => false end in
  if goes_left then Done (activate (active d - 1) d, event_result_handled)
  else if goes_right then Done (activate (active d + 1) d, event_result_handled)
  else match panes d !! Z.to_nat (active d) with
    | Some w => '(w, r) ← handle_event w ev; Done (set_pane (Z.to_nat (active d)) w d, r)
    | None => Done (d, event_result_unhandled)
    end.
Definition tabs_widget_new (t : string) (labels : list string) (ws : list W) : TabsData := mk widget_base_init t labels 0 ws.
#[global] Program Instance tabs_widget : Widget TabsData := {|
  base := wb; set_base := with_base; render := tabs_render; handle_event := tabs_handle_event |}.
Solve Obligations with by destruct w.
End tabs.
Arguments TabsData : clear implicits.
End Tabs.

(** ** What the widgets promise *)

(** The filter between two drawings: the list shows the matches of the query
    of the last one. *)
Definition filter_inv (cs : list string) (q : list ascii) (d : Filter.FilterData) : Prop :=
  Filter.choices d = cs /\ 0 <= Filter.selected d /\ (Filter.filtered d = matching cs q \/ Filter.filtered d = []).
Definition picks_match (cs : list string) (q : list ascii) (r : WidgetResponse) : Prop :=
  exists c, c ∈ cs /\ contains q c = true /\ r = mkResponse (Some (string_item c)) false None.

Lemma filter_handles cs q : handles (filter_inv cs q) (fun _ r => cancelled_answer r \/ picks_match cs q r).
Proof.
  intros d ev Hi. pose proof Hi as (Hc & Hs & Hf). cbn [handle_event Filter.filter_widget]. unfold Filter.filter_handle_event, Filter.shown_count.
  assert (forall x, filter_inv cs q (Filter.set_query x d)) as Hq by (intros x; by split_and!).
  assert (forall y, 0 <= y -> filter_inv cs q (Filter.select y d)) as Hk by (intros y ?; by split_and!).
  key_cases ev; try (eexists _, _; split; [done|]; split; [exact Hi|]; by (done || left)).
  - eexists _, _. split; [done|]. split; [|done]. destruct (Filter.query d); [done|apply Hq].
  - destruct (_ && _) eqn:E; simp_bool; [|by exists d, event_result_handled].
    destruct (Filter.filtered d !! Z.to_nat (Filter.selected d)) as [i|] eqn:Ei; [|apply lookup_ge_None in Ei; lia].
    destruct Hf as [Hf|Hf]; rewrite Hf in Ei; [|by rewrite lookup_nil in Ei]. apply list_elem_of_lookup_2, matching_spec in Ei as (c & Hl & Hm).
    cbn [at_index mbind exec_bind]. rewrite Hc, Hl. cbn [at_index mbind exec_bind]. eexists _, _. split; [reflexivity|]. split; [exact Hi|]. right.
    exists c. split; [by eapply list_elem_of_lookup_2|]. by split.
  - eexists _, _. split; [done|]. split; [|done]. case_match; [simp_bool; apply Hk; lia|done].
  - eexists _, _. split; [done|]. split; [|done]. case_match; [simp_bool; apply Hk; lia|done].
  - eexists _, _. split; [done|]. split; [|done]. apply Hq.
Qed.

(** whatever is typed, the filter reads nothing outside its lists; it is
    dismissed or answers with a choice that contains, in any case of letters,
    the query of the last drawing (which is not yet the query on the screen
    when keys come faster than drawings); and a drawing shows exactly the
    matches of the query, with the selection among them. *)
Theorem filter_answers cs q d evs : filter_inv cs q d ->
  (exists d' r, run_events d evs = Done (d', r) /\ filter_inv cs q d' /\
     match r with Some resp => cancelled_answer resp \/ picks_match cs q resp | None => True end) /\
  (exists t, render d = Done (Filter.filter_update d, t) /\ filter_inv cs (Filter.query d) (Filter.filter_update d) /\
     (Filter.filtered (Filter.filter_update d) <> [] -> Filter.selected (Filter.filter_update d) < Filter.shown_count (Filter.filter_update d)) /\
     forall i, i ∈ Filter.filtered (Filter.filter_update d) <-> exists c, cs !! i = Some c /\ contains (Filter.query d) c = true).
Proof.
  intros Hi. split.
  - destruct (run_events_handles _ _ (filter_handles cs q) evs d Hi) as (d' & r & Hrun & Hi' & Hr). by exists d', r.
  - destruct Hi as (Hc & Hs & _). cbn [render Filter.filter_widget]. unfold Filter.filter_render. cbn zeta.
    assert (forall l, (forall i, i ∈ l -> i ∈ matching cs (Filter.query d)) -> exists ls, mapM (fun i => at_index (cs !! i)) l = Done ls) as Hl.
    { induction l as [|i l IH]; intros Hm; [by exists []|]. destruct (proj1 (matching_spec cs (Filter.query d) i)) as (c & Hl & _); [apply Hm; by left|].
      destruct IH as [ls Hls]; [intros j Hj; apply Hm; by right|]. exists (c :: ls). cbn [mapM]. rewrite Hl. cbn [at_index mbind exec_bind]. by rewrite Hls. }
    change (Filter.filtered (Filter.filter_update d)) with (matching (Filter.choices d) (Filter.query d)).
    change (Filter.choices (Filter.filter_update d)) with (Filter.choices d). rewrite Hc.
    destruct (Hl (matching cs (Filter.query d))) as [ls ->]; [done|].
    cbn [mbind exec_bind]. eexists. split; [reflexivity|]. unfold filter_inv, Filter.shown_count, Filter.filter_update. cbn. rewrite Hc. split_and!.
    + done.
    + repeat case_match; simp_bool; lia.
    + by left.
    + intros Hne. destruct (matching cs (Filter.query d)) as [|x l]; [done|]. cbn [length] in *. repeat case_match; simp_bool; lia.
    + intros i. apply matching_spec.
Qed.
Lemma filter_new_inv t m cs ph : filter_inv cs [] (Filter.filter_widget_new t m cs ph).
Proof. split_and!; [done|done|by right]. Qed.

(** ["a"] then ["b"] typed over a list, drawn only once in between. *)
Lemma filter_answers_witness :
  let cs := ["alpha"; "Beta"; "gamma"]%string in
  let d := Filter.set_query ["b"%char] (Filter.filter_update (Filter.set_query ["a"%char] (Filter.filter_widget_new None None cs None))) in
  Filter.filtered d = [0; 1; 2]%nat /\
  (exists d' r, run_events d [key_event KEY_ENTER 0] = Done (d', Some r) /\ result r = Some (string_item "alpha")) /\
  (exists t, render d = Done (Filter.filter_update d, t) /\ Filter.filtered (Filter.filter_update d) = [1%nat]).
Proof.
  intros cs d. split; [reflexivity|].
  destruct (filter_answers cs ["a"%char] d [key_event KEY_ENTER 0]) as [(d' & r & E & _ & _) (t & Et & _)]; [split_and!; [done|vm_compute; discriminate|by left]|].
  split; [|exists t; by rewrite Et]. vm_compute in E. injection E as <- <-. eexists _, _. by vm_compute.
Defined.

(** *** The form *)

Lemma u8_schar c : u8 (schar c) = uchar c.
Proof.
  pose proof (uchar_range c). unfold u8, schar, s8, swrap. change (2 ^ (8 - 1)) with 128. change (2 ^ 8) with 256.
  rewrite Zminus_mod, Zmod_mod, <-Zminus_mod, Z.add_simpl_r. apply Z.mod_small. lia.
Qed.
Lemma append_char_spec s c : c <> NUL -> append_char s (schar c) = s ++ [c].
Proof.
  intros Hc. unfold append_char. rewrite u8_schar. case_match; simp_bool.
  - destruct Hc. unfold uchar in *. rewrite <-(ascii_N_embedding c). by replace (N_of_ascii c) with 0%N by lia.
  - unfold uchar. by rewrite N2Z.id, ascii_N_embedding.
Qed.

Definition type_chars (s : list ascii) : list Event := map (fun c => key_event KEY_CHAR (schar c)) s.
(** Each text typed into its field, Tab after each, and Enter. *)
Definition fill_keys (texts : list (list ascii)) : list Event :=
  concat (map (fun s => type_chars s ++ [key_event KEY_TAB 0]) texts) ++ [key_event KEY_ENTER 0].
Definition add_text (s : list ascii) (f : Form.FormField) : Form.FormField := Form.set_value (Form.value f ++ s) f.

Lemma form_types s : forall d f rest, NUL ∉ s -> 0 <= Form.focused d -> Form.fields d !! Z.to_nat (Form.focused d) = Some f ->
  exists d', run_events d (type_chars s ++ rest) = run_events d' rest /\
    Form.fields d' = <[Z.to_nat (Form.focused d) := add_text s f]> (Form.fields d) /\ Form.focused d' = Form.focused d.
Proof.
  induction s as [|c s IH]; intros d f rest Hs H0 Hf.
  - exists d. split; [done|]. split; [|done]. rewrite list_insert_id; [done|]. rewrite Hf. unfold add_text. rewrite app_nil_r. by destruct f.
  - apply not_elem_of_cons in Hs as [Hc Hs]. cbn [type_chars map app run_events handle_event Form.form_widget].
    unfold Form.form_handle_event. cbn [Widget.type code ch key_event]. pose proof (lookup_lt_Some _ _ _ Hf). unfold Form.field_count.
    rewrite (proj2 (Z.ltb_lt _ _)) by lia. rewrite Hf. cbn [at_index mbind exec_bind]. rewrite append_char_spec by done.
    destruct (IH (Form.set_fields (<[Z.to_nat (Form.focused d) := Form.set_value (Form.value f ++ [c]) f]> (Form.fields d)) d)
      (Form.set_value (Form.value f ++ [c]) f) rest) as (d' & E & Ef & Eo); [done|done|by apply list_lookup_insert_eq|].
    exists d'. split; [exact E|]. split; [|exact Eo]. rewrite Ef. cbn [Form.fields Form.focused Form.set_fields].
    rewrite list_insert_insert_eq. unfold add_text. cbn. by rewrite <-(assoc_L (++)).
Qed.

Definition named_text (f : Form.FormField) : cJSON := set_key (Some (Form.label f)) (string_item (of_chars (Form.value f))).
Lemma form_object_spec l : Form.form_object l = set_child (map named_text l) cJSON_CreateObject.
Proof.
  unfold Form.form_object. assert (forall k, foldl (fun o f => cJSON_AddStringToObject o (Form.label f) (Some (of_chars (Form.value f)))) (set_child k cJSON_CreateObject) l
    = set_child (k ++ map named_text l) cJSON_CreateObject) as H; [|exact (H [])].
  induction l as [|f l IH]; intros k; cbn [foldl map]; [by rewrite app_nil_r|]. rewrite cons_middle, (assoc_L (++)). exact (IH (k ++ [named_text f])).
Qed.

(** filling in a form from the focused field on, Tab after each field, reaches
    the submit button behind the last field, where Enter answers with an object
    of one string per field, under its label, in the order of the fields: the
    text it held followed by the text typed. *)
Theorem form_fills texts : forall d k, Form.focused d = Z.of_nat k -> (k + length texts = length (Form.fields d))%nat ->
  Forall (fun s => NUL ∉ s) texts ->
  exists d', run_events d (fill_keys texts) = Done (d', Some (mkResponse (Some (set_child
    (map named_text (take k (Form.fields d) ++ zip_with add_text texts (drop k (Form.fields d)))) cJSON_CreateObject)) false None)).
Proof.
  induction texts as [|s texts IH]; intros d k Hk Hlen Ht.
  - exists d. cbn [length] in Hlen. rewrite zip_with_nil_l, app_nil_r, take_ge by lia. cbn. unfold Form.form_handle_event, Form.field_count. cbn [Widget.type code key_event].
    rewrite (proj2 (Z.eqb_eq _ _)) by lia. by rewrite form_object_spec.
  - apply Forall_cons_1 in Ht as [Hs Ht]. cbn [length] in Hlen. destruct (lookup_lt_is_Some_2 (Form.fields d) k) as [f Hf]; [lia|].
    unfold fill_keys. cbn [map concat]. rewrite <-!(assoc_L (++)).
    destruct (form_types s d f ([key_event KEY_TAB 0] ++ fill_keys texts)) as (d' & E & Ef & Eo); [done|lia|by rewrite Hk, Nat2Z.id|].
    unfold fill_keys in E. rewrite E. rewrite Hk, Nat2Z.id in Ef. cbn [app run_events handle_event Form.form_widget]. unfold Form.form_handle_event.
    cbn [Widget.type code key_event mbind exec_bind]. assert (Form.field_count d' = Z.of_nat (length (Form.fields d))) as Hc by (unfold Form.field_count; by rewrite Ef, length_insert).
    replace (cmod (Form.focused d' + 1) (Form.field_count d' + 1)) with (Z.of_nat (S k)) by (unfold cmod; rewrite Hc, Eo, Z.rem_small; lia).
    destruct (IH (Form.focus (Z.of_nat (S k)) d') (S k)) as (d2 & E2); [done|cbn; rewrite Ef, length_insert; lia|done|].
    exists d2. unfold event_result_handled. cbv iota beta. refine (eq_trans E2 _). cbn [Form.fields Form.focus]. rewrite Ef. do 6 f_equal.
    rewrite (take_S_r _ _ (add_text s f)) by (apply list_lookup_insert_eq; lia). rewrite take_insert_ge, drop_insert_lt by lia.
    rewrite (drop_S _ _ _ Hf). cbn [zip_with]. by rewrite <-(assoc_L (++)).
Qed.
Lemma form_fills_witness :
  let d := Form.form_widget_new "login" [mkField "user" "input" ["r"%char] "" []; mkField "host" "input" [] "" []] "ok" in
  exists d' o, run_events d (fill_keys [chars "oot"; chars "h"]) = Done (d', Some (mkResponse (Some o) false None)) /\
    cJSON_GetObjectItem (Some o) "user" ≫= valuestring = Some "root"%string /\ cJSON_GetObjectItem (Some o) "host" ≫= valuestring = Some "h"%string.
Proof.
  intros d. destruct (form_fills [chars "oot"; chars "h"] d 0) as (d' & E); [done|done|repeat constructor; not_in_literal|].
  eexists d', _. split; [exact E|]. by vm_compute.
Defined.

(** *** The tree *)

Lemma flatten_length l k : length (concat (imap (fun i => Tree.flat_entries k (i + 0)) l)) =
  sum_list (map (fun x => S (if Tree.expanded x then length (Tree.children x) else 0)) l).
Proof.
  generalize 0%nat at 1. induction l as [|x l IH]; intros n; [done|]. cbn [imap map sum_list concat]. rewrite length_app. f_equal.
  - unfold Tree.flat_entries, id. cbn [length]. f_equal. destruct (Tree.expanded x); [apply length_seq|done].
  - rewrite <-(IH (S n)). do 2 f_equal. apply imap_ext. intros i y _. cbn. f_equal. lia.
Qed.
Lemma tree_handles : handles (fun d : Tree.TreeData => 0 <= Tree.cursor d) (fun _ r => r = mkResponse None false None).
Proof.
  intros d ev Hi. cbn [handle_event Tree.tree_widget]. unfold Tree.tree_handle_event, Tree.flat_count.
  assert (forall x : exec (Tree.TreeData * EventResult), (if Tree.cursor d <? Z.of_nat (length (Tree.flat_indices d))
    then idx ← at_index (Tree.flat_indices d !! Z.to_nat (Tree.cursor d));
      match Tree.nodes d !! idx with
      | Some n => if (0 <? length (Tree.children n))%nat
          then Done (Tree.mk (base_set_dirty true (Tree.wb d)) (Tree.title d) (<[idx:=Tree.flip n]> (Tree.nodes d)) (Tree.flat_indices d) (Tree.cursor d), event_result_handled)
          else Done (d, event_result_handled)
      | None => Done (d, event_result_handled)
      end
    else Done (d, event_result_handled)) = x -> exists d', x = Done (d', event_result_handled) /\ 0 <= Tree.cursor d') as Ht.
  { intros x <-. case_match eqn:E; simp_bool; [|by exists d]. destruct (lookup_lt_is_Some_2 (Tree.flat_indices d) (Z.to_nat (Tree.cursor d))) as [idx ->]; [lia|].
    cbn [at_index mbind exec_bind]. repeat case_match; by eexists. }
  key_cases ev; try by (eexists _, _; split_and!).
  - destruct (Ht _ eq_refl) as (d' & -> & Hd). by exists d', event_result_handled.
  - eexists _, _. split; [done|]. split; [|done]. clear Ht. cbn [Tree.cursor Tree.move]. case_match; simp_bool; lia.
  - eexists _, _. split; [done|]. split; [|done]. clear Ht. cbn [Tree.cursor Tree.move]. case_match; simp_bool; lia.
  - destruct (_ =? 32); [|by eexists _, _; split_and!]. destruct (Ht _ eq_refl) as (d' & -> & Hd). by exists d', event_result_handled.
Qed.

(** a tree takes every event and is only ever dismissed; its drawing stays
    inside the index array, with its ten places a node, exactly when the nodes
    and the children of the open ones fit, so always when no node has more than
    nine children. *)
Theorem tree_draws d evs : 0 <= Tree.cursor d ->
  (exists d' r, run_events d evs = Done (d', r) /\ match r with Some resp => resp = mkResponse None false None | None => True end) /\
  (no_fault (render d) <-> (sum_list (map (fun x => S (if Tree.expanded x then length (Tree.children x) else 0)) (Tree.nodes d)) <= 10 * length (Tree.nodes d))%nat) /\
  (Forall (fun x => (length (Tree.children x) <= 9)%nat) (Tree.nodes d) -> no_fault (render d)).
Proof.
  intros Hc. split; [|assert (no_fault (render d) <-> (sum_list (map (fun x => S (if Tree.expanded x then length (Tree.children x) else 0)) (Tree.nodes d)) <= 10 * length (Tree.nodes d))%nat) as Hf; [|split; [exact Hf|]]].
  - destruct (run_events_handles _ _ tree_handles evs d Hc) as (d' & r & E & _ & Hr). by exists d', r.
  - rewrite <-(flatten_length (Tree.nodes d) (length (Tree.nodes d))). cbn [render Tree.tree_widget]. unfold Tree.tree_render, Tree.flatten.
    rewrite (imap_ext _ (fun i => Tree.flat_entries (length (Tree.nodes d)) (i + 0)) (Tree.nodes d)) by (intros i x _; by rewrite Nat.add_0_r).
    destruct (_ <? _)%nat eqn:E; [apply Nat.ltb_lt in E|apply Nat.ltb_ge in E]; cbn; split; try done; lia.
  - intros H9. apply Hf. clear Hf. induction H9 as [|x l Hx _ IH]; [done|]. cbn [map sum_list_with length id] in *. unfold id in *. destruct (Tree.expanded x); lia.
Qed.
(** One open node with nine children fits, with ten it does not. *)
Lemma tree_draws_witness :
  let leaf := Tree.mkNode "leaf" false [] in
  let t k := Tree.tree_widget_new "files" [Tree.mkNode "src" true (replicate k leaf)] in
  no_fault (render (t 9%nat)) /\ ~ no_fault (render (t 10%nat)).
Proof.
  intros leaf t. split.
  - destruct (tree_draws (t 9%nat) []) as (_ & _ & Hn); [done|]. apply Hn. cbn. apply Forall_cons_2; [cbn; lia|constructor].
  - destruct (tree_draws (t 10%nat) []) as (_ & Hi & _); [done|]. intros H. apply Hi in H. cbn in H. unfold id in H. lia.
Defined.

(** *** Tabs *)

Section lift.
Context {W : Type} `{Widget W} (I : W -> Prop) (R : W -> WidgetResponse -> Prop) (Hpane : handles I R).

Definition tabs_inv (d : Tabs.TabsData W) : Prop :=
  Forall I (Tabs.panes d) /\ 0 <= Tabs.active d /\ (Tabs.active d = 0 \/ Tabs.active d < Z.of_nat (length (Tabs.tab_labels d))).
Definition pane_answers (d : Tabs.TabsData W) (r : WidgetResponse) : Prop :=
  exists w, Tabs.panes d !! Z.to_nat (Tabs.active d) = Some w /\ R w r.

Lemma tabs_handles : handles tabs_inv pane_answers.
Proof using Hpane.
  intros d ev Hi. pose proof Hi as (Hp & H0 & Ha). cbn [handle_event Tabs.tabs_widget]. unfold Tabs.tabs_handle_event.
  cbn zeta. match goal with |- context [if ?l then _ else if ?r then _ else _] => destruct l eqn:E1; [|destruct r eqn:E2] end.
  - eexists _, _. split; [done|]. split; [|done]. destruct (code ev); simp_bool; try done. unfold tabs_inv. cbn. split_and!; [done|lia|]. lia.
  - eexists _, _. split; [done|]. split; [|done]. destruct (code ev); simp_bool; try done. unfold tabs_inv. cbn. split_and!; [done|lia|]. lia.
  - destruct (Tabs.panes d !! Z.to_nat (Tabs.active d)) as [w|] eqn:Ew; [|by exists d, event_result_unhandled].
    destruct (Hpane w ev) as (w' & r & -> & Hw & Hr); [by eapply (proj1 (list.Forall_lookup _ _) Hp)|]. cbn [mbind exec_bind].
    eexists _, r. split; [done|]. split; [split_and!; [by apply Forall_insert|done..]|]. destruct r; [done| |done].
    exists w'. split; [|done]. cbn. apply list_lookup_insert_eq. by eapply lookup_lt_Some.
Qed.

(** tabs promise what their panes promise: if each widget they hold takes
    every event, keeps its invariant and answers as it should, so do the tabs
    holding any number of them, whose answers are those of the active pane, and
    whose active tab stays among the labels. *)
Theorem tabs_lift d evs : tabs_inv d ->
  exists d' r, run_events d evs = Done (d', r) /\ tabs_inv d' /\ match r with Some resp => pane_answers d' resp | None => True end.
Proof using Hpane. intros Hd. exact (run_events_handles _ _ tabs_handles evs d Hd). Qed.
End lift.

(** A context menu with items. *)
Definition cm_inv (its : list string) (d : ContextMenu.ContextMenuData) : Prop :=
  ContextMenu.items d = its /\ 0 <= ContextMenu.selected d < Z.of_nat (length its).
Lemma cm_handles its : handles (cm_inv its) (fun d r => cancelled_answer r \/
  exists c, its !! Z.to_nat (ContextMenu.selected d) = Some c /\ r = mkResponse (Some (string_item c)) false None).
Proof.
  intros d ev Hi. pose proof Hi as (Hl & Hs). cbn [handle_event ContextMenu.cm_widget]. unfold ContextMenu.cm_handle_event, ContextMenu.count.
  assert (forall y, 0 <= y < Z.of_nat (length its) -> cm_inv its (ContextMenu.select y d)) as Hk by (intros y ?; by split).
  rewrite Hl. key_cases ev; try (eexists _, _; split; [done|]; split; [exact Hi|]; by (done || left)).
  - destruct (lookup_lt_is_Some_2 its (Z.to_nat (ContextMenu.selected d))) as [c Hc]; [lia|]. rewrite Hc. eexists _, _. split; [reflexivity|].
    split; [exact Hi|]. right. by exists c.
  - eexists _, _. split; [done|]. split; [|done]. case_match; [simp_bool; apply Hk; lia|done].
  - eexists _, _. split; [done|]. split; [|done]. case_match; [simp_bool; apply Hk; lia|done].
Qed.

(** Two context menus in tabs: the second is reached and answers. *)
Lemma tabs_lift_witness :
  let its := ["cut"; "copy"]%string in
  let d := Tabs.tabs_widget_new "menus" ["a"; "b"]%string [ContextMenu.context_menu_widget_new its; ContextMenu.context_menu_widget_new its] in
  exists d' r, run_events d [key_event KEY_RIGHT 0; key_event KEY_DOWN 0; key_event KEY_ENTER 0] = Done (d', Some r) /\
    Tabs.active d' = 1 /\ result r = Some (string_item "copy").
Proof.
  intros its d. destruct (tabs_lift _ _ (cm_handles its) d [key_event KEY_RIGHT 0; key_event KEY_DOWN 0; key_event KEY_ENTER 0]) as (d' & r & E & _ & _).
  - split_and!; [repeat constructor; cbn; lia|done|by left].
  - vm_compute in E. injection E as <- <-. eexists _, _. by vm_compute.
Defined.
