(* ===== verification/Runs.v ===== *)
(** Whole sessions: the event loop with the widgets of the library in it, and
    the theorems on the loop at concrete inputs. *)

From S2P Require Import Prelude Undo Protocol Widget RenderTree Layout Session Boxes Choice Forms.

Definition cfg : Config := mkConfig false false false.
Definition quiet : Event := mkEvent EVENT_NONE KEY_NULL 0 0 0 0 MOUSE_PRESS.
Definition input (e : Event) : Input := mkInput (80, 24) e None None 0.
Definition ask : YesNo.YesNoData := YesNo.yesno_widget_new (Some "Sure?") None false.

(** Keys through the default keymap: [h] moves, [i] confirms. *)
Definition keys (s : string) : list Input := map input (typed s).
Definition response (m : round (W := YesNo.YesNoData)) : option WidgetResponse := match m with Done (_, _, r) => r | _ => None end.
Definition frames (m : round (W := YesNo.YesNoData)) : nat := match m with Done (_, o, _) => length (filter (fun x => is_draw x = true) o) | _ => O end.
Example ask_yes : (response (session_run sort_keys cfg ask (80, 24) (keys "hi")), frames (session_run sort_keys cfg ask (80, 24) (keys "hi"))) =
  (Some (mkResponse (Some (CJson.cJSON_CreateBool true)) false None), 2%nat).
Proof. vm_compute. reflexivity. Qed.

Definition session_of {A B : Type} (d : A) (m : exec (A * B * option WidgetResponse)) : A := match m with Done (s, _, _) => s | _ => d end.

Lemma session_focus_dead_witness : exists s o r,
  session_run sort_keys cfg ask (80, 24) [input (key_event KEY_TAB 0); input (mkEvent EVENT_MOUSE_MOTION KEY_NULL 0 40 12 0 MOUSE_MOTION)] = Done (s, o, r) /\
  focused_widget_id s = None.
Proof.
  destruct (session_run sort_keys cfg ask (80, 24) [input (key_event KEY_TAB 0); input (mkEvent EVENT_MOUSE_MOTION KEY_NULL 0 40 12 0 MOUSE_MOTION)])
    as [[[s o] r]| |f] eqn:E.
  - exists s, o, r. split; [reflexivity|]. apply (session_focus_dead sort_keys cfg ask (80, 24) _ s o r E).
  - exfalso. vm_compute in E. discriminate E.
  - exfalso. vm_compute in E. discriminate E.
Defined.

Definition started : Session (W := YesNo.YesNoData) :=
  match session_start sort_keys cfg ask (80, 24) with Done (s, _) => s | _ => mkSession (mkWorld ∅ ask []) (undo_stack_new 100) [] None None None 0 (0, 0) 0 0 end.
Definition resized : Input := mkInput (100, 30) quiet None None 0.

Lemma iteration_draws_witness : exists s' o r, iteration sort_keys cfg started resized = Done (s', o, r) /\
  exists t, filter (fun x => is_draw x = true) o = [ODraw t].
Proof.
  destruct (iteration sort_keys cfg started resized) as [[[s' o] r]| |f] eqn:E.
  - exists s', o, r. split; [reflexivity|].
    destruct (iteration_draws sort_keys cfg started resized s' o r E) as (w' & tree & laid & H1 & H2 & H3).
    vm_compute in H1. injection H1 as <- <-. vm_compute in H2. injection H2 as <-. eexists. exact H3.
  - exfalso. vm_compute in E. discriminate E.
  - exfalso. vm_compute in E. discriminate E.
Defined.

Lemma yesno_renders (w : YesNo.YesNoData) : exists w' t, render w = Done (w', t).
Proof. by eexists _, _. Qed.

Lemma session_times_out_witness : exists s o,
  session_run sort_keys cfg ask (80, 24) (replicate 3 (input quiet)) = Done (s, o, None).
Proof.
  apply (session_times_out sort_keys sort_keys_perm yesno_renders cfg ask (80, 24) (replicate 3 (input quiet)));
    [reflexivity|repeat constructor].
Defined.
