(* ===== verification/Project.v ===== *)
(** The builder's project of src/src/builder/project.h and project.c: the data,
    the table of widget ports, the editing operations, and the project file
    written and read as JSON. Files are their contents; the undo stack of a
    project, which is always a new one, is left out. *)

From Stdlib Require Import SpecFloat.
From S2P Require Import Prelude Double CJson CJsonParse CJsonPrint CJsonRound RenderTree.

(** The enumerations are read from files as any integer. *)
Definition PORT_TRIGGER : Z := 0.
Definition PORT_STRING : Z := 1.
Definition PORT_BOOL : Z := 2.
Definition PORT_INT : Z := 3.
Definition NODE_WIDGET : Z := 0.
Definition NODE_STORE : Z := 1.
Definition NODE_FIL_BLOCK : Z := 2.
Definition NODE_CONDITIONAL : Z := 3.
Definition KB_SCOPE_GLOBAL : Z := 0.
Definition KB_SCOPE_WIDGET : Z := 1.

Record PortDef := mkPort { port_id : Z; port_name : string; port_type : Z; is_output : bool; port_description : option string }.
Record ConnectionEdge := mkEdge {
  from_node : Z; from_port : Z; to_node : Z; to_port : Z; condition : option string; transform : option string
}.
Record GraphNode := mkNode {
  node_id : Z; node_type : Z; label : string; widget_id : Z; store_key : option string; fil_script : option string; ports : list PortDef
}.
Record CanvasItem := mkItem {
  item_id : Z; widget_type : string; instance_name : string; item_rect : Rect; item_params : option cJSON;
  parent_id : Z; item_tab_index : Z; locked : bool; visible : bool
}.
Record KeymapEntry := mkKeymap { scope : Z; km_widget_id : Z; km_key : string; action : string }.
Record StoreVar := mkVar { var_key : string; initial_value : string; var_type : string }.
Record TuiConfig := mkTui { show_tui_overlay : bool; min_terminal_width : Z; min_terminal_height : Z; fallback_font : option string }.
Record BuilderProject := mkProject {
  project_name : string; file_path : option string; items : list CanvasItem; next_item_id : Z;
  root_width : Z; root_height : Z; nodes : list GraphNode; edges : list ConnectionEdge; keymaps : list KeymapEntry;
  store_vars : list StoreVar; tui : TuiConfig; filly_version : Z; author : option string; description : option string
}.

Definition set_items (l : list CanvasItem) (n : Z) (p : BuilderProject) : BuilderProject :=
  mkProject (project_name p) (file_path p) l n (root_width p) (root_height p) (nodes p) (edges p) (keymaps p)
    (store_vars p) (tui p) (filly_version p) (author p) (description p).
Definition set_nodes (l : list GraphNode) (p : BuilderProject) : BuilderProject :=
  mkProject (project_name p) (file_path p) (items p) (next_item_id p) (root_width p) (root_height p) l (edges p) (keymaps p)
    (store_vars p) (tui p) (filly_version p) (author p) (description p).
Definition set_edges (l : list ConnectionEdge) (p : BuilderProject) : BuilderProject :=
  mkProject (project_name p) (file_path p) (items p) (next_item_id p) (root_width p) (root_height p) (nodes p) l (keymaps p)
    (store_vars p) (tui p) (filly_version p) (author p) (description p).
Definition set_keymaps (l : list KeymapEntry) (p : BuilderProject) : BuilderProject :=
  mkProject (project_name p) (file_path p) (items p) (next_item_id p) (root_width p) (root_height p) (nodes p) (edges p) l
    (store_vars p) (tui p) (filly_version p) (author p) (description p).
Definition set_store_vars (l : list StoreVar) (p : BuilderProject) : BuilderProject :=
  mkProject (project_name p) (file_path p) (items p) (next_item_id p) (root_width p) (root_height p) (nodes p) (edges p) (keymaps p)
    l (tui p) (filly_version p) (author p) (description p).

(** ** The table of ports *)

Record WidgetPortInfo := mkPortInfo { info_type : string; outputs : list PortDef; inputs : list PortDef }.
Definition port_registry_first : list WidgetPortInfo := [
  mkPortInfo "input"
   [mkPort 0 "on_submit" PORT_TRIGGER true (Some "Emitted when Enter is pressed");
    mkPort 1 "on_change" PORT_TRIGGER true (Some "Emitted on each keystroke");
    mkPort 2 "value" PORT_STRING true (Some "Current text value");
    mkPort 3 "animation_end" PORT_TRIGGER true (Some "Fires when an animation completes")]
   [mkPort 0 "set_value" PORT_STRING false (Some "Set the input text");
    mkPort 1 "set_visible" PORT_BOOL false (Some "Show or hide this widget");
    mkPort 2 "play_animation" PORT_STRING false (Some "Play a named animation")];
  mkPortInfo "password"
   [mkPort 0 "on_submit" PORT_TRIGGER true (Some "Emitted when Enter is pressed");
    mkPort 1 "value" PORT_STRING true (Some "Current password value");
    mkPort 2 "animation_end" PORT_TRIGGER true (Some "Fires when an animation completes")]
   [mkPort 0 "set_visible" PORT_BOOL false (Some "Show or hide this widget");
    mkPort 1 "play_animation" PORT_STRING false (Some "Play a named animation")];
  mkPortInfo "toggle"
   [mkPort 0 "on_toggle" PORT_TRIGGER true (Some "Emitted when toggled");
    mkPort 1 "value" PORT_BOOL true (Some "Current on/off state");
    mkPort 2 "animation_end" PORT_TRIGGER true (Some "Fires when an animation completes")]
   [mkPort 0 "set_value" PORT_BOOL false (Some "Set toggle state");
    mkPort 1 "set_visible" PORT_BOOL false (Some "Show or hide this widget");
    mkPort 2 "play_animation" PORT_STRING false (Some "Play a named animation")];
  mkPortInfo "checkbox"
   [mkPort 0 "on_check" PORT_TRIGGER true (Some "Emitted when checked/unchecked");
    mkPort 1 "checked" PORT_BOOL true (Some "Current check state");
    mkPort 2 "animation_end" PORT_TRIGGER true (Some "Fires when an animation completes")]
   [mkPort 0 "set_checked" PORT_BOOL false (Some "Set check state");
    mkPort 1 "set_visible" PORT_BOOL false (Some "Show or hide this widget");
    mkPort 2 "play_animation" PORT_STRING false (Some "Play a named animation")];
  mkPortInfo "menu"
   [mkPort 0 "on_select" PORT_TRIGGER true (Some "Emitted on item selection");
    mkPort 1 "value" PORT_STRING true (Some "Label of selected item");
    mkPort 2 "index" PORT_INT true (Some "Index of selected item");
    mkPort 3 "animation_end" PORT_TRIGGER true (Some "Fires when an animation completes")]
   [mkPort 0 "set_visible" PORT_BOOL false (Some "Show or hide this widget");
    mkPort 1 "play_animation" PORT_STRING false (Some "Play a named animation")];
  mkPortInfo "checklist"
   [mkPort 0 "on_change" PORT_TRIGGER true (Some "Emitted when selection changes");
    mkPort 1 "selected" PORT_STRING true (Some "Comma-separated selected items");
    mkPort 2 "animation_end" PORT_TRIGGER true (Some "Fires when an animation completes")]
   [mkPort 0 "set_visible" PORT_BOOL false (Some "Show or hide this widget");
    mkPort 1 "play_animation" PORT_STRING false (Some "Play a named animation")];
  mkPortInfo "multiselect"
   [mkPort 0 "on_change" PORT_TRIGGER true (Some "Emitted when selection changes");
    mkPort 1 "selected" PORT_STRING true (Some "Comma-separated selected items");
    mkPort 2 "animation_end" PORT_TRIGGER true (Some "Fires when an animation completes")]
   [mkPort 0 "set_visible" PORT_BOOL false (Some "Show or hide this widget");
    mkPort 1 "play_animation" PORT_STRING false (Some "Play a named animation")];
  mkPortInfo "filter"
   [mkPort 0 "on_select" PORT_TRIGGER true (Some "Emitted on item selection");
    mkPort 1 "value" PORT_STRING true (Some "Label of selected item");
    mkPort 2 "animation_end" PORT_TRIGGER true (Some "Fires when an animation completes")]
   [mkPort 0 "set_visible" PORT_BOOL false (Some "Show or hide this widget");
    mkPort 1 "play_animation" PORT_STRING false (Some "Play a named animation")];
  mkPortInfo "radio_group"
   [mkPort 0 "on_select" PORT_TRIGGER true (Some "Emitted on item selection");
    mkPort 1 "value" PORT_STRING true (Some "Label of selected item");
    mkPort 2 "index" PORT_INT true (Some "Index of selected item");
    mkPort 3 "animation_end" PORT_TRIGGER true (Some "Fires when an animation completes")]
   [mkPort 0 "set_visible" PORT_BOOL false (Some "Show or hide this widget");
    mkPort 1 "play_animation" PORT_STRING false (Some "Play a named animation")];
  mkPortInfo "calendar"
   [mkPort 0 "on_select" PORT_TRIGGER true (Some "Emitted when a day is selected");
    mkPort 1 "date" PORT_STRING true (Some "Selected date as YYYY-MM-DD");
    mkPort 2 "animation_end" PORT_TRIGGER true (Some "Fires when an animation completes")]
   [mkPort 0 "set_visible" PORT_BOOL false (Some "Show or hide this widget");
    mkPort 1 "play_animation" PORT_STRING false (Some "Play a named animation")];
  mkPortInfo "color_picker"
   [mkPort 0 "on_select" PORT_TRIGGER true (Some "Emitted when a color is picked");
    mkPort 1 "color" PORT_STRING true (Some "Selected color as hex #RRGGBB");
    mkPort 2 "animation_end" PORT_TRIGGER true (Some "Fires when an animation completes")]
   [mkPort 0 "set_visible" PORT_BOOL false (Some "Show or hide this widget");
    mkPort 1 "play_animation" PORT_STRING false (Some "Play a named animation")];
  mkPortInfo "range_slider"
   [mkPort 0 "on_change" PORT_TRIGGER true (Some "Emitted when slider moves");
    mkPort 1 "value" PORT_INT true (Some "Current slider value");
    mkPort 2 "animation_end" PORT_TRIGGER true (Some "Fires when an animation completes")]
   [mkPort 0 "set_value" PORT_INT false (Some "Set slider value");
    mkPort 1 "set_visible" PORT_BOOL false (Some "Show or hide this widget");
    mkPort 2 "play_animation" PORT_STRING false (Some "Play a named animation")];
  mkPortInfo "file_picker"
   [mkPort 0 "on_select" PORT_TRIGGER true (Some "Emitted when a file is picked");
    mkPort 1 "path" PORT_STRING true (Some "Selected file path");
    mkPort 2 "animation_end" PORT_TRIGGER true (Some "Fires when an animation completes")]
   [mkPort 0 "set_visible" PORT_BOOL false (Some "Show or hide this widget");
    mkPort 1 "play_animation" PORT_STRING false (Some "Play a named animation")];
  mkPortInfo "text_editor"
   [mkPort 0 "on_save" PORT_TRIGGER true (Some "Emitted when Ctrl+S is pressed");
    mkPort 1 "content" PORT_STRING true (Some "Current text content");
    mkPort 2 "animation_end" PORT_TRIGGER true (Some "Fires when an animation completes")]
   [mkPort 0 "set_content" PORT_STRING false (Some "Set the editor content");
    mkPort 1 "set_visible" PORT_BOOL false (Some "Show or hide this widget");
    mkPort 2 "play_animation" PORT_STRING false (Some "Play a named animation")];
  mkPortInfo "form"
   [mkPort 0 "on_submit" PORT_TRIGGER true (Some "Emitted when form is submitted");
    mkPort 1 "values" PORT_STRING true (Some "JSON string of form values");
    mkPort 2 "animation_end" PORT_TRIGGER true (Some "Fires when an animation completes")]
   [mkPort 0 "set_visible" PORT_BOOL false (Some "Show or hide this widget");
    mkPort 1 "play_animation" PORT_STRING false (Some "Play a named animation")];
  mkPortInfo "progress"
   [mkPort 0 "on_complete" PORT_TRIGGER true (Some "Emitted when progress reaches 100%");
    mkPort 1 "percent" PORT_INT true (Some "Current progress percentage");
    mkPort 2 "animation_end" PORT_TRIGGER true (Some "Fires when an animation completes")]
   [mkPort 0 "set_visible" PORT_BOOL false (Some "Show or hide this widget");
    mkPort 1 "play_animation" PORT_STRING false (Some "Play a named animation")];
  mkPortInfo "tabs"
   [mkPort 0 "on_tab_change" PORT_TRIGGER true (Some "Emitted when active tab changes");
    mkPort 1 "active_tab" PORT_INT true (Some "Index of active tab");
    mkPort 2 "animation_end" PORT_TRIGGER true (Some "Fires when an animation completes")]
   [mkPort 0 "set_active_tab" PORT_INT false (Some "Switch to a tab by index");
    mkPort 1 "set_visible" PORT_BOOL false (Some "Show or hide this widget");
    mkPort 2 "play_animation" PORT_STRING false (Some "Play a named animation")];
  mkPortInfo "split_panes"
   [mkPort 0 "on_resize" PORT_TRIGGER true (Some "Emitted when split position changes");
    mkPort 1 "split_pos" PORT_INT true (Some "Current split position in pixels");
    mkPort 2 "animation_end" PORT_TRIGGER true (Some "Fires when an animation completes")]
   [mkPort 0 "set_visible" PORT_BOOL false (Some "Show or hide this widget");
    mkPort 1 "play_animation" PORT_STRING false (Some "Play a named animation")];
  mkPortInfo "table"
   [mkPort 0 "on_select" PORT_TRIGGER true (Some "Emitted when a cell is selected");
    mkPort 1 "value" PORT_STRING true (Some "Selected cell value");
    mkPort 2 "row" PORT_INT true (Some "Selected row index");
    mkPort 3 "col" PORT_INT true (Some "Selected column index");
    mkPort 4 "animation_end" PORT_TRIGGER true (Some "Fires when an animation completes")]
   [mkPort 0 "set_visible" PORT_BOOL false (Some "Show or hide this widget");
    mkPort 1 "play_animation" PORT_STRING false (Some "Play a named animation")];
  mkPortInfo "tree"
   [mkPort 0 "on_select" PORT_TRIGGER true (Some "Emitted when a node is selected");
    mkPort 1 "path" PORT_STRING true (Some "Selected node path");
    mkPort 2 "animation_end" PORT_TRIGGER true (Some "Fires when an animation completes")]
   [mkPort 0 "set_visible" PORT_BOOL false (Some "Show or hide this widget");
    mkPort 1 "play_animation" PORT_STRING false (Some "Play a named animation")]
].
Definition port_registry_second : list WidgetPortInfo := [
  mkPortInfo "gauge"
   [mkPort 0 "percent" PORT_INT true (Some "Current gauge percentage");
    mkPort 1 "animation_end" PORT_TRIGGER true (Some "Fires when an animation completes")]
   [mkPort 0 "set_value" PORT_INT false (Some "Set gauge percentage");
    mkPort 1 "set_visible" PORT_BOOL false (Some "Show or hide this widget");
    mkPort 2 "play_animation" PORT_STRING false (Some "Play a named animation")];
  mkPortInfo "spinner"
   [mkPort 0 "animation_end" PORT_TRIGGER true (Some "Fires when an animation completes")]
   [mkPort 0 "set_visible" PORT_BOOL false (Some "Show or hide this widget");
    mkPort 1 "play_animation" PORT_STRING false (Some "Play a named animation")];
  mkPortInfo "separator"
   [mkPort 0 "animation_end" PORT_TRIGGER true (Some "Fires when an animation completes")]
   [mkPort 0 "set_visible" PORT_BOOL false (Some "Show or hide this widget");
    mkPort 1 "play_animation" PORT_STRING false (Some "Play a named animation")];
  mkPortInfo "badge"
   [mkPort 0 "animation_end" PORT_TRIGGER true (Some "Fires when an animation completes")]
   [mkPort 0 "set_text" PORT_STRING false (Some "Set badge text");
    mkPort 1 "set_visible" PORT_BOOL false (Some "Show or hide this widget");
    mkPort 2 "play_animation" PORT_STRING false (Some "Play a named animation")];
  mkPortInfo "msg"
   [mkPort 0 "animation_end" PORT_TRIGGER true (Some "Fires when an animation completes")]
   [mkPort 0 "set_visible" PORT_BOOL false (Some "Show or hide this widget");
    mkPort 1 "play_animation" PORT_STRING false (Some "Play a named animation")];
  mkPortInfo "summary"
   [mkPort 0 "animation_end" PORT_TRIGGER true (Some "Fires when an animation completes")]
   [mkPort 0 "set_visible" PORT_BOOL false (Some "Show or hide this widget");
    mkPort 1 "play_animation" PORT_STRING false (Some "Play a named animation")];
  mkPortInfo "notification"
   [mkPort 0 "on_dismiss" PORT_TRIGGER true (Some "Emitted when notification is dismissed");
    mkPort 1 "animation_end" PORT_TRIGGER true (Some "Fires when an animation completes")]
   [mkPort 0 "set_visible" PORT_BOOL false (Some "Show or hide this widget");
    mkPort 1 "play_animation" PORT_STRING false (Some "Play a named animation")];
  mkPortInfo "tooltip"
   [mkPort 0 "animation_end" PORT_TRIGGER true (Some "Fires when an animation completes")]
   [mkPort 0 "set_text" PORT_STRING false (Some "Set tooltip text");
    mkPort 1 "set_visible" PORT_BOOL false (Some "Show or hide this widget");
    mkPort 2 "play_animation" PORT_STRING false (Some "Play a named animation")];
  mkPortInfo "rich_text"
   [mkPort 0 "animation_end" PORT_TRIGGER true (Some "Fires when an animation completes")]
   [mkPort 0 "set_content" PORT_STRING false (Some "Set the rich text content");
    mkPort 1 "set_visible" PORT_BOOL false (Some "Show or hide this widget");
    mkPort 2 "play_animation" PORT_STRING false (Some "Play a named animation")];
  mkPortInfo "context_menu"
   [mkPort 0 "on_select" PORT_TRIGGER true (Some "Emitted when an item is selected");
    mkPort 1 "value" PORT_STRING true (Some "Label of selected item");
    mkPort 2 "animation_end" PORT_TRIGGER true (Some "Fires when an animation completes")]
   [mkPort 0 "set_visible" PORT_BOOL false (Some "Show or hide this widget");
    mkPort 1 "play_animation" PORT_STRING false (Some "Play a named animation")];
  mkPortInfo "disk"
   [mkPort 0 "on_change" PORT_TRIGGER true (Some "Emitted when partitions change");
    mkPort 1 "partitions" PORT_STRING true (Some "JSON string of partition data");
    mkPort 2 "animation_end" PORT_TRIGGER true (Some "Fires when an animation completes")]
   [mkPort 0 "set_visible" PORT_BOOL false (Some "Show or hide this widget");
    mkPort 1 "play_animation" PORT_STRING false (Some "Play a named animation")];
  mkPortInfo "hub"
   [mkPort 0 "on_navigate" PORT_TRIGGER true (Some "Emitted when section changes");
    mkPort 1 "active_section" PORT_STRING true (Some "Name of active section");
    mkPort 2 "animation_end" PORT_TRIGGER true (Some "Fires when an animation completes")]
   [mkPort 0 "set_visible" PORT_BOOL false (Some "Show or hide this widget");
    mkPort 1 "play_animation" PORT_STRING false (Some "Play a named animation")];
  mkPortInfo "terminal_emulator"
   [mkPort 0 "on_exit" PORT_TRIGGER true (Some "Emitted when the child process exits");
    mkPort 1 "exit_code" PORT_INT true (Some "Exit code of the child process");
    mkPort 2 "animation_end" PORT_TRIGGER true (Some "Fires when an animation completes")]
   [mkPort 0 "set_visible" PORT_BOOL false (Some "Show or hide this widget");
    mkPort 1 "play_animation" PORT_STRING false (Some "Play a named animation")];
  mkPortInfo "widget_builder"
   [mkPort 0 "on_export" PORT_TRIGGER true (Some "Emitted when layout is exported");
    mkPort 1 "layout_json" PORT_STRING true (Some "JSON string of the composed layout");
    mkPort 2 "animation_end" PORT_TRIGGER true (Some "Fires when an animation completes")]
   [mkPort 0 "set_visible" PORT_BOOL false (Some "Show or hide this widget");
    mkPort 1 "play_animation" PORT_STRING false (Some "Play a named animation")];
  mkPortInfo "macro_recorder"
   [mkPort 0 "on_save" PORT_TRIGGER true (Some "Emitted when a recording is saved");
    mkPort 1 "recording_path" PORT_STRING true (Some "Path to the saved recording");
    mkPort 2 "animation_end" PORT_TRIGGER true (Some "Fires when an animation completes")]
   [mkPort 0 "set_visible" PORT_BOOL false (Some "Show or hide this widget");
    mkPort 1 "play_animation" PORT_STRING false (Some "Play a named animation")];
  mkPortInfo "yesno"
   [mkPort 0 "on_yes" PORT_TRIGGER true (Some "Emitted when Yes is selected");
    mkPort 1 "on_no" PORT_TRIGGER true (Some "Emitted when No is selected");
    mkPort 2 "choice" PORT_BOOL true (Some "True if Yes was chosen");
    mkPort 3 "animation_end" PORT_TRIGGER true (Some "Fires when an animation completes")]
   [mkPort 0 "set_visible" PORT_BOOL false (Some "Show or hide this widget");
    mkPort 1 "play_animation" PORT_STRING false (Some "Play a named animation")];
  mkPortInfo "button"
   [mkPort 0 "on_click" PORT_TRIGGER true (Some "Emitted when the button is clicked/pressed");
    mkPort 1 "animation_end" PORT_TRIGGER true (Some "Fires when an animation completes")]
   [mkPort 0 "set_visible" PORT_BOOL false (Some "Show or hide this widget");
    mkPort 1 "play_animation" PORT_STRING false (Some "Play a named animation")];
  mkPortInfo "list"
   [mkPort 0 "on_select" PORT_TRIGGER true (Some "Emitted on item selection");
    mkPort 1 "value" PORT_STRING true (Some "Label of selected item");
    mkPort 2 "index" PORT_INT true (Some "Index of selected item");
    mkPort 3 "animation_end" PORT_TRIGGER true (Some "Fires when an animation completes")]
   [mkPort 0 "set_visible" PORT_BOOL false (Some "Show or hide this widget");
    mkPort 1 "play_animation" PORT_STRING false (Some "Play a named animation")]
].
Definition port_registry : list WidgetPortInfo := port_registry_first ++ port_registry_second.

Definition set_is_output (b : bool) (q : PortDef) : PortDef := mkPort (port_id q) (port_name q) (port_type q) b (port_description q).
Fixpoint widget_ports (registry : list WidgetPortInfo) (wt : string) : list PortDef :=
  match registry with
  | [] => [mkPort 0 "set_visible" PORT_BOOL false (Some "Show or hide this widget")]
  | i :: registry' =>
      if decide (info_type i = wt) then map (set_is_output true) (outputs i) ++ map (set_is_output false) (inputs i)
      else widget_ports registry' wt
  end.
Definition project_get_widget_ports (wt : string) : list PortDef := widget_ports port_registry wt.

(** ** Editing *)

Definition project_new (name : option string) (root_w root_h : Z) : BuilderProject :=
  mkProject (default "untitled" name) None [] 1 (if 0 <? root_w then root_w else 800) (if 0 <? root_h then root_h else 600)
    [] [] [] [] (mkTui false 80 24 None) 1 None None.

Definition project_add_item (p : BuilderProject) (wt : string) (x y w h : Z) : BuilderProject * CanvasItem :=
  let id := next_item_id p in
  let it := mkItem id wt (strtake 63 (wt +:+ "_" +:+ int_string id)) (rect_new x y w h)
    (Some (cJSON_AddStringToObject cJSON_CreateObject "title" (Some wt))) (-1) 0 false true in
  (set_items (items p ++ [it]) (id + 1) p, it).

Fixpoint remove_first {A} (f : A -> bool) (l : list A) : list A :=
  match l with [] => [] | x :: l' => if f x then l' else x :: remove_first f l' end.
Fixpoint update_first {A} (f : A -> bool) (g : A -> A) (l : list A) : list A :=
  match l with [] => [] | x :: l' => if f x then g x :: l' else x :: update_first f g l' end.

Definition project_remove_item (p : BuilderProject) (id : Z) : BuilderProject :=
  set_items (remove_first (fun i => item_id i =? id) (items p)) (next_item_id p) p.
Definition project_find_item (p : BuilderProject) (id : Z) : option CanvasItem := List.find (fun i => item_id i =? id) (items p).
(** The item [project_find_item] returns is changed in place. *)
Definition change_item (p : BuilderProject) (id : Z) (g : CanvasItem -> CanvasItem) : BuilderProject :=
  set_items (update_first (fun i => item_id i =? id) g (items p)) (next_item_id p) p.
Definition with_rect (r : Rect) (i : CanvasItem) : CanvasItem :=
  mkItem (item_id i) (widget_type i) (instance_name i) r (item_params i) (parent_id i) (item_tab_index i) (locked i) (visible i).
Definition project_move_item (p : BuilderProject) (id x y : Z) : BuilderProject :=
  change_item p id (fun i => with_rect (mkRect x y (rw (item_rect i)) (rh (item_rect i))) i).
Definition project_resize_item (p : BuilderProject) (id w h : Z) : BuilderProject :=
  change_item p id (fun i => with_rect (mkRect (rx (item_rect i)) (ry (item_rect i)) w h) i).
Definition project_set_parent (p : BuilderProject) (id parent : Z) : BuilderProject :=
  change_item p id (fun i => mkItem (item_id i) (widget_type i) (instance_name i) (item_rect i) (item_params i) parent (item_tab_index i) (locked i) (visible i)).
Definition project_update_item_params (p : BuilderProject) (id : Z) (new_params : cJSON) : BuilderProject :=
  change_item p id (fun i => mkItem (item_id i) (widget_type i) (instance_name i) (item_rect i) (Some (cJSON_Duplicate new_params true))
    (parent_id i) (item_tab_index i) (locked i) (visible i)).

(** The id of a new node is the number of nodes. *)
Definition project_add_node (p : BuilderProject) (wid : Z) : BuilderProject * option GraphNode :=
  match project_find_item p wid with
  | None => (p, None)
  | Some it =>
      let n := mkNode (Z.of_nat (length (nodes p)) + 1) NODE_WIDGET (instance_name it) wid None None (project_get_widget_ports (widget_type it)) in
      (set_nodes (nodes p ++ [n]) p, Some n)
  end.
Definition project_add_store_var (p : BuilderProject) (k : string) (initial type : option string) : BuilderProject :=
  if existsb (fun v => bool_decide (var_key v = k)) (store_vars p) then p
  else set_store_vars (store_vars p ++ [mkVar k (default EmptyString initial) (default "string" type)]) p.
Definition project_add_store_node (p : BuilderProject) (k : string) (initial type : option string) : BuilderProject * GraphNode :=
  let n := mkNode (Z.of_nat (length (nodes p)) + 1) NODE_STORE (strtake 127 ("store." +:+ k)) 0 (Some k) None
    [mkPort 0 "value" PORT_STRING true (Some "Current value"); mkPort 1 "set" PORT_STRING false (Some "Set the value")] in
  (project_add_store_var (set_nodes (nodes p ++ [n]) p) k initial type, n).
Definition project_remove_node (p : BuilderProject) (id : Z) : BuilderProject :=
  set_nodes (remove_first (fun n => node_id n =? id) (nodes p)) p.
Definition project_add_edge (p : BuilderProject) (fn fp tn tp : Z) : BuilderProject :=
  set_edges (edges p ++ [mkEdge fn fp tn tp None None]) p.
(** [memmove] over the element at [idx], when there is one. *)
Definition remove_at {A} (idx : Z) (l : list A) : list A :=
  if ((idx <? 0) || (Z.of_nat (length l) <=? idx))%bool then l else take (Z.to_nat idx) l ++ drop (S (Z.to_nat idx)) l.
Definition project_remove_edge (p : BuilderProject) (idx : Z) : BuilderProject := set_edges (remove_at idx (edges p)) p.
Definition project_add_keymap (p : BuilderProject) (sc wid : Z) (k a : string) : BuilderProject :=
  set_keymaps (keymaps p ++ [mkKeymap sc wid k a]) p.
Definition project_remove_keymap (p : BuilderProject) (idx : Z) : BuilderProject := set_keymaps (remove_at idx (keymaps p)) p.

(** ** Saving *)

Definition json_array (l : list cJSON) : cJSON := foldl (fun a o => cJSON_AddItemToArray a (Some o)) cJSON_CreateArray l.
Definition AddStr (o : cJSON) (k s : string) : cJSON := cJSON_AddStringToObject o k (Some s).
(** [if (s) cJSON_AddStringToObject(o, k, s)] *)
Definition AddOptStr (o : cJSON) (k : string) (s : option string) : cJSON := match s with Some s => AddStr o k s | None => o end.
Definition AddObj (o : cJSON) (k : string) (i : cJSON) : cJSON := cJSON_AddItemToObject o k (Some i).

Definition item_json (it : CanvasItem) : cJSON :=
  let r := item_rect it in
  let o := AddInt cJSON_CreateObject "id" (item_id it) in
  let o := AddStr o "type" (widget_type it) in
  let o := AddStr o "name" (instance_name it) in
  let o := AddObj o "rect" (AddInt (AddInt (AddInt (AddInt cJSON_CreateObject "x" (rx r)) "y" (ry r)) "w" (rw r)) "h" (rh r)) in
  let o := match item_params it with Some q => AddObj o "params" (cJSON_Duplicate q true) | None => o end in
  let o := AddInt o "parent" (parent_id it) in
  let o := AddInt o "tab_index" (item_tab_index it) in
  let o := cJSON_AddBoolToObject o "locked" (locked it) in
  cJSON_AddBoolToObject o "visible" (visible it).
Definition port_json (q : PortDef) : cJSON :=
  let o := AddInt cJSON_CreateObject "id" (port_id q) in
  let o := AddStr o "name" (port_name q) in
  let o := AddInt o "type" (port_type q) in
  let o := cJSON_AddBoolToObject o "out" (is_output q) in
  AddOptStr o "desc" (port_description q).
Definition node_json (n : GraphNode) : cJSON :=
  let o := AddInt cJSON_CreateObject "id" (node_id n) in
  let o := AddInt o "type" (node_type n) in
  let o := AddStr o "label" (label n) in
  let o := if 0 <=? widget_id n then AddInt o "widget_id" (widget_id n) else o in
  let o := AddOptStr o "store_key" (store_key n) in
  let o := AddOptStr o "fil_script" (fil_script n) in
  AddObj o "ports" (json_array (map port_json (ports n))).
Definition edge_json (e : ConnectionEdge) : cJSON :=
  let o := AddInt cJSON_CreateObject "from_node" (from_node e) in
  let o := AddInt o "from_port" (from_port e) in
  let o := AddInt o "to_node" (to_node e) in
  let o := AddInt o "to_port" (to_port e) in
  AddOptStr (AddOptStr o "condition" (condition e)) "transform" (transform e).
Definition keymap_json (k : KeymapEntry) : cJSON :=
  AddStr (AddStr (AddInt (AddInt cJSON_CreateObject "scope" (scope k)) "widget_id" (km_widget_id k)) "key" (km_key k)) "action" (action k).
Definition var_json (v : StoreVar) : cJSON :=
  AddStr (AddStr (AddStr cJSON_CreateObject "key" (var_key v)) "initial" (initial_value v)) "type" (var_type v).
Definition tui_json (t : TuiConfig) : cJSON :=
  let o := cJSON_AddBoolToObject cJSON_CreateObject "show_tab_order" (show_tui_overlay t) in
  AddOptStr (AddInt (AddInt o "min_term_w" (min_terminal_width t)) "min_term_h" (min_terminal_height t)) "fallback_font" (fallback_font t).

Definition project_json (p : BuilderProject) : cJSON :=
  let root := AddInt cJSON_CreateObject "version" 1 in
  let root := AddInt root "filly_version" (filly_version p) in
  let root := AddStr root "name" (project_name p) in
  let root := AddStr root "author" (default EmptyString (author p)) in
  let root := AddStr root "description" (default EmptyString (description p)) in
  let root := AddObj root "root" (AddInt (AddInt cJSON_CreateObject "w" (root_width p)) "h" (root_height p)) in
  let root := AddObj root "items" (json_array (map item_json (items p))) in
  let root := AddObj root "nodes" (json_array (map node_json (nodes p))) in
  let root := AddObj root "edges" (json_array (map edge_json (edges p))) in
  let root := AddObj root "keymaps" (json_array (map keymap_json (keymaps p))) in
  let root := AddObj root "store_vars" (json_array (map var_json (store_vars p))) in
  AddObj root "tui" (tui_json (tui p)).

(** The file: [fprintf(f, "%s\n", json)]. *)
Definition project_save (p : BuilderProject) : exec string :=
  json ← cJSON_PrintUnformatted (project_json p); Done (json +:+ String LF EmptyString).

(** ** Loading *)

Section reading.
Variable o : cJSON.
(** [cJSON_GetObjectItem(o, k)->valueint] without a test for NULL *)
Definition need_int (k : string) : exec Z := i ← deref (cJSON_GetObjectItem (Some o) k); Done (valueint i).
(** [x ? x->valueint : d] *)
Definition int_or (k : string) (d : Z) : Z := match cJSON_GetObjectItem (Some o) k with Some i => valueint i | None => d end.
Definition bool_or (k : string) (d : bool) : bool :=
  match cJSON_GetObjectItem (Some o) k with Some i => negb (valueint i =? 0) | None => d end.
(** [x && x->valuestring ? x->valuestring : d] *)
Definition opt_string (k : string) : option string := cJSON_GetObjectItem (Some o) k ≫= valuestring.
Definition string_or (k d : string) : string := default d (opt_string k).
(** The loop over an array member: [if (arr && cJSON_IsArray(arr))]. *)
Definition array_of {A} (k : string) (f : cJSON -> exec A) : exec (list A) :=
  match cJSON_GetObjectItem (Some o) k with
  | Some a =>
      if cJSON_IsArray (Some a)
      then (fix go (l : list cJSON) : exec (list A) :=
              match l with [] => Done [] | x :: l' => y ← f x; r ← go l'; Done (y :: r) end) (child a)
      else Done []
  | None => Done []
  end.
End reading.

Definition load_item (o : cJSON) : exec CanvasItem :=
  id ← need_int o "id";
  r ← (match cJSON_GetObjectItem (Some o) "rect" with
       | Some r => x ← need_int r "x"; y ← need_int r "y"; w ← need_int r "w"; h ← need_int r "h"; Done (mkRect x y w h)
       | None => Done (mkRect 0 0 0 0)
       end : exec Rect);
  Done (mkItem id (string_or o "type" EmptyString) (string_or o "name" EmptyString) r
    (Some (match cJSON_GetObjectItem (Some o) "params" with Some q => cJSON_Duplicate q true | None => cJSON_CreateObject end))
    (int_or o "parent" (-1)) (int_or o "tab_index" 0) (bool_or o "locked" false) (bool_or o "visible" true)).
Definition load_port (o : cJSON) : exec PortDef :=
  id ← need_int o "id"; t ← need_int o "type"; b ← need_int o "out";
  Done (mkPort id (string_or o "name" EmptyString) t (negb (b =? 0)) None).
Definition load_node (o : cJSON) : exec GraphNode :=
  id ← need_int o "id"; t ← need_int o "type";
  ps ← array_of o "ports" load_port;
  Done (mkNode id t (string_or o "label" EmptyString) (int_or o "widget_id" (-1)) (opt_string o "store_key") (opt_string o "fil_script") ps).
Definition load_edge (o : cJSON) : exec ConnectionEdge :=
  a ← need_int o "from_node"; b ← need_int o "from_port"; c ← need_int o "to_node"; d ← need_int o "to_port";
  Done (mkEdge a b c d (opt_string o "condition") (opt_string o "transform")).
Definition load_keymap (o : cJSON) : exec KeymapEntry :=
  s ← need_int o "scope"; w ← need_int o "widget_id";
  Done (mkKeymap s w (string_or o "key" EmptyString) (string_or o "action" EmptyString)).
Definition load_var (o : cJSON) : exec StoreVar :=
  Done (mkVar (string_or o "key" EmptyString) (string_or o "initial" EmptyString) (string_or o "type" "string")).
Definition load_tui (root : cJSON) : exec TuiConfig :=
  match cJSON_GetObjectItem (Some root) "tui" with
  | Some t =>
      b ← need_int t "show_tab_order"; w ← need_int t "min_term_w"; h ← need_int t "min_term_h";
      Done (mkTui (negb (b =? 0)) w h (opt_string t "fallback_font"))
  | None => Done (mkTui false 0 0 None)
  end.

(** [if (item->id >= p->next_item_id) p->next_item_id = item->id + 1] from 0 *)
Definition next_id (l : list CanvasItem) : Z := foldl (fun n i => if n <=? item_id i then item_id i + 1 else n) 0 l.

Definition load_root (path : string) (root : cJSON) : exec BuilderProject :=
  let size := match cJSON_GetObjectItem (Some root) "root" with Some r => (int_or r "w" 800, int_or r "h" 600) | None => (0, 0) end in
  its ← array_of root "items" load_item;
  ns ← array_of root "nodes" load_node;
  es ← array_of root "edges" load_edge;
  ks ← array_of root "keymaps" load_keymap;
  vs ← array_of root "store_vars" load_var;
  t ← load_tui root;
  Done (mkProject (string_or root "name" "untitled") (Some path) its (next_id its) size.1 size.2 ns es ks vs t
    (int_or root "filly_version" 1) (opt_string root "author") (opt_string root "description")).
Definition project_load (path file : string) : exec BuilderProject :=
  root ← cJSON_Parse file; load_root path root.

(** ** The project file *)

Definition saved_item (it : CanvasItem) : CanvasItem :=
  mkItem (item_id it) (widget_type it) (instance_name it) (item_rect it)
    (Some (match item_params it with Some q => parsed_as (Some "params") q | None => cJSON_CreateObject end))
    (parent_id it) (item_tab_index it) (locked it) (visible it).
Definition saved_port (q : PortDef) : PortDef := mkPort (port_id q) (port_name q) (port_type q) (is_output q) None.
Definition saved_node (n : GraphNode) : GraphNode :=
  mkNode (node_id n) (node_type n) (label n) (if 0 <=? widget_id n then widget_id n else -1) (store_key n) (fil_script n)
    (map saved_port (ports n)).
(** What loading a saved project gives: the path, no port descriptions, no
    missing strings or parameters, and the next item id recomputed. *)
Definition saved (path : string) (p : BuilderProject) : BuilderProject :=
  mkProject (project_name p) (Some path) (map saved_item (items p)) (next_id (items p)) (root_width p) (root_height p)
    (map saved_node (nodes p)) (edges p) (keymaps p) (store_vars p) (tui p) (filly_version p)
    (Some (default EmptyString (author p))) (Some (default EmptyString (description p))).

(** Every integer of the project is an [int]. *)
Definition item_ints (it : CanvasItem) : list Z :=
  let r := item_rect it in [item_id it; rx r; ry r; rw r; rh r; parent_id it; item_tab_index it].
Definition node_ints (n : GraphNode) : list Z :=
  [node_id n; node_type n; widget_id n] ++ concat (map (fun q => [port_id q; port_type q]) (ports n)).
Definition edge_ints (e : ConnectionEdge) : list Z := [from_node e; from_port e; to_node e; to_port e].
Definition project_ints (p : BuilderProject) : list Z :=
  [filly_version p; root_width p; root_height p; min_terminal_width (tui p); min_terminal_height (tui p)] ++
  concat (map item_ints (items p)) ++ concat (map node_ints (nodes p)) ++ concat (map edge_ints (edges p)) ++
  concat (map (fun k => [scope k; km_widget_id k]) (keymaps p)).

Definition num (k : string) (n : Z) : cJSON := Item cJSON_Number None n (d_of_Z n) (Some k) [].
Lemma AddInt_num o k n : is_int n -> AddInt o k n = set_child (child o ++ [num k n]) o.
Proof. intros H. unfold AddInt, cJSON_AddNumberToObject, cJSON_CreateNumber. rewrite valueint_of_Z by done. done. Qed.
Lemma json_array_child l : json_array l = set_child l cJSON_CreateArray.
Proof.
  unfold json_array. assert (forall acc, foldl (fun a o => cJSON_AddItemToArray a (Some o)) (set_child acc cJSON_CreateArray) l = set_child (acc ++ l) cJSON_CreateArray) as H.
  { induction l as [|x l IH]; intros acc; [by rewrite app_nil_r|]. cbn [foldl]. etransitivity; [apply (IH (acc ++ [x]))|]. by rewrite <-(assoc_L (++)). }
  apply (H []).
Qed.

#[local] Opaque d_of_Z.

Ltac ints H := unfold item_ints, node_ints, edge_ints in H; simpl in H; repeat match type of H with Forall _ (_ :: _) =>
  let H1 := fresh "Hi" in apply list.Forall_cons in H as [H1 H] end.
Ltac load_fields := repeat first [rewrite AddInt_num by assumption]; cbn.

Lemma load_item_json it : Forall is_int (item_ints it) -> load_item (parsed_as None (item_json it)) = Done (saved_item it).
Proof.
  destruct it as [id wt nm [x y w h] q par ti lk vi]. unfold item_json. cbn [item_rect rx ry rw rh item_id widget_type instance_name item_params parent_id item_tab_index locked visible].
  intros H. ints H. repeat rewrite AddInt_num by assumption.
  destruct q as [[t vs vi' vd kq ch]|]; [|by destruct lk, vi].
  rewrite cJSON_Duplicate_id. set (q := Item t vs vi' vd kq ch).
  transitivity (Done (mkItem id wt nm (mkRect x y w h) (Some (cJSON_Duplicate (parsed_as (Some "params") q) true)) par ti lk vi)).
  - destruct t, lk, vi; reflexivity.
  - by rewrite cJSON_Duplicate_id.
Qed.
Lemma load_port_json q : is_int (port_id q) -> is_int (port_type q) -> load_port (parsed_as None (port_json q)) = Done (saved_port q).
Proof.
  destruct q as [id nm t b d]. unfold port_json. cbn [port_id port_type port_name is_output port_description]. intros H1 H2.
  repeat rewrite AddInt_num by assumption. unfold load_port, need_int, string_or, opt_string. destruct b, d; done.
Qed.

(** The loop over a saved array. *)
Lemma load_list {A B} (f : cJSON -> exec B) (j : A -> cJSON) (s : A -> B) l :
  (forall x, x ∈ l -> f (parsed_as None (j x)) = Done (s x)) ->
  (fix go (l : list cJSON) : exec (list B) := match l with [] => Done [] | x :: l' => y ← f x; r ← go l'; Done (y :: r) end)
    (map (parsed_as None) (map j l)) = Done (map s l).
Proof.
  induction l as [|x l IH]; intros H; [done|]. cbn [map]. rewrite H by left. cbn [mbind exec_bind].
  rewrite IH; [done|]. intros y Hy. apply H. by right.
Qed.
Definition saved_array {A} (k : string) (j : A -> cJSON) (l : list A) : cJSON :=
  Item cJSON_Array None 0 (S754_zero false) (Some k) (map (parsed_as None) (map j l)).
Lemma array_of_saved {A B} (o : cJSON) k (f : cJSON -> exec B) (j : A -> cJSON) (s : A -> B) l :
  cJSON_GetObjectItem (Some o) k = Some (saved_array k j l) ->
  (forall x, x ∈ l -> f (parsed_as None (j x)) = Done (s x)) -> array_of o k f = Done (map s l).
Proof. intros Hk Hf. unfold array_of. rewrite Hk. cbn. by apply load_list. Qed.

(** The array member is found by evaluation. *)
Ltac array_saved k f j s l H :=
  match goal with |- context [array_of ?o k f] => rewrite (array_of_saved o k f j s l eq_refl H); cbn [mbind exec_bind] end.

Lemma in_concat {A} (f : A -> list Z) l x : Forall is_int (concat (map f l)) -> x ∈ l -> Forall is_int (f x).
Proof.
  induction l as [|y l IH]; [intros _ ?%elem_of_nil; done|]. cbn [map concat]. intros [H1 H2]%list.Forall_app [->|Hx]%elem_of_cons; [done|by apply IH].
Qed.

Lemma load_node_json n : Forall is_int (node_ints n) -> load_node (parsed_as None (node_json n)) = Done (saved_node n).
Proof.
  destruct n as [id t lb wid sk fs ps]. unfold node_json. cbn [node_id node_type label widget_id store_key fil_script ports].
  intros H. ints H. repeat rewrite (AddInt_num _ "id") by assumption. rewrite (AddInt_num _ "type") by assumption.
  rewrite (AddInt_num _ "widget_id") by assumption.
  assert (forall q, q ∈ ps -> load_port (parsed_as None (port_json q)) = Done (saved_port q)) as Hps.
  { intros q Hq. apply (in_concat _ _ _ H) in Hq. apply load_port_json; [by inversion Hq|]. inversion Hq as [|? ? ? Hq']. by inversion Hq'. }
  unfold load_node. rewrite json_array_child.
  destruct (0 <=? wid) eqn:Hw, sk, fs;
    array_saved "ports"%string load_port port_json saved_port ps Hps; unfold saved_node; cbn [widget_id]; rewrite ?Hw; reflexivity.
Qed.

Lemma load_edge_json e : Forall is_int (edge_ints e) -> load_edge (parsed_as None (edge_json e)) = Done e.
Proof.
  destruct e as [a b c d co tr]. unfold edge_json. cbn [from_node from_port to_node to_port condition transform]. intros H. ints H.
  repeat rewrite AddInt_num by assumption. by destruct co, tr.
Qed.
Lemma load_keymap_json k : is_int (scope k) -> is_int (km_widget_id k) -> load_keymap (parsed_as None (keymap_json k)) = Done k.
Proof. destruct k. unfold keymap_json. cbn [scope km_widget_id]. intros H1 H2. by repeat rewrite AddInt_num by assumption. Qed.
Lemma load_var_json v : load_var (parsed_as None (var_json v)) = Done v.
Proof. by destruct v. Qed.

(** The project as JSON text the printer and the parser can carry. *)
Definition project_ok (p : BuilderProject) : Prop :=
  let i := project_json p in
  Forall is_int (project_ints p) /\ printable i = true /\ json_ok i = true /\ (nesting i <= 1000)%nat /\
  Z.of_nat (length (json_text i)) < INT_MAX.

Lemma next_id_saved l : next_id (map saved_item l) = next_id l.
Proof. unfold next_id. generalize 0. induction l as [|x l IH]; intros n; [done|]. cbn [map foldl]. apply IH. Qed.

Lemma load_project_json path p : Forall is_int (project_ints p) ->
  load_root path (parsed_as None (project_json p)) = Done (saved path p).
Proof.
  destruct p as [nm fp its ni rw rh ns es ks vs [ov tw th ff] fv au de]. unfold project_ints, project_json.
  cbn [project_name items root_width root_height nodes edges keymaps store_vars tui filly_version author description min_terminal_width min_terminal_height show_tui_overlay fallback_font].
  intros H. apply list.Forall_app in H as [H0 H]. apply list.Forall_app in H as [H1 H]. apply list.Forall_app in H as [H2 H]. apply list.Forall_app in H as [H3 H4].
  ints H0. assert (is_int 1) as Hone by (unfold is_int, INT_MIN, INT_MAX; lia).
  unfold tui_json. cbn [show_tui_overlay min_terminal_width min_terminal_height fallback_font].
  repeat rewrite AddInt_num by assumption. rewrite !json_array_child. unfold load_root.
  assert (forall x, x ∈ its -> load_item (parsed_as None (item_json x)) = Done (saved_item x)) as Hits
    by (intros x Hx; apply load_item_json; by eapply (in_concat item_ints)).
  assert (forall x, x ∈ ns -> load_node (parsed_as None (node_json x)) = Done (saved_node x)) as Hns
    by (intros x Hx; apply load_node_json; by eapply (in_concat node_ints)).
  assert (forall x, x ∈ es -> load_edge (parsed_as None (edge_json x)) = Done (id x)) as Hes
    by (intros x Hx; apply load_edge_json; by eapply (in_concat edge_ints)).
  assert (forall x, x ∈ ks -> load_keymap (parsed_as None (keymap_json x)) = Done (id x)) as Hks.
  { intros x Hx. apply (in_concat _ _ _ H4) in Hx. inversion Hx as [|? ? Ha Hb]. inversion Hb. by apply load_keymap_json. }
  assert (forall x, x ∈ vs -> load_var (parsed_as None (var_json x)) = Done (id x)) as Hvs by (intros x Hx; apply load_var_json).
  array_saved "items"%string load_item item_json saved_item its Hits.
  array_saved "nodes"%string load_node node_json saved_node ns Hns.
  array_saved "edges"%string load_edge edge_json (@id ConnectionEdge) es Hes.
  array_saved "keymaps"%string load_keymap keymap_json (@id KeymapEntry) ks Hks.
  array_saved "store_vars"%string load_var var_json (@id StoreVar) vs Hvs.
  rewrite !map_id.
  unfold saved. cbn [project_name items root_width root_height nodes edges keymaps store_vars tui filly_version author description].
  rewrite next_id_saved. destruct ov, ff; reflexivity.
Qed.

(** C21: a project that is saved and loaded again is the same project: every
    item, node, edge, keymap and variable comes back as it was, except that
    descriptions of ports are dropped, the next item id is recomputed from the
    items, an item without parameters gets an empty object (and parameters keep
    what JSON text carries of them), a negative widget id of a node becomes -1,
    and a missing author or description becomes an empty text. The project is one
    the JSON text can hold: its own integers fit an int, the parameters of its items
    have no numbers but integers, no string holds a NUL or a control character without a short escape,
    the nesting is at most 1000 levels, and the text is shorter than 2^31 - 1
    bytes. *)
Theorem project_roundtrip path p : project_ok p ->
  exists file, project_save p = Done file /\ project_load path file = Done (saved path p).
Proof.
  intros (Hi & Hp & Hok & Hn & Hl). exists (of_chars (json_text (project_json p)) +:+ String LF EmptyString).
  unfold project_save, project_load. rewrite print_text, parse_json_line by done. cbn [mbind exec_bind]. split; [done|].
  by apply load_project_json.
Qed.

(** ** The ids of items *)

Inductive edit : Type :=
| AddItem (wt : string) (x y w h : Z)
| RemoveItem (id : Z)
| MoveItem (id x y : Z)
| ResizeItem (id w h : Z)
| SetParent (id parent : Z)
| UpdateParams (id : Z) (q : cJSON).
Definition apply_edit (p : BuilderProject) (e : edit) : BuilderProject :=
  match e with
  | AddItem wt x y w h => (project_add_item p wt x y w h).1
  | RemoveItem id => project_remove_item p id
  | MoveItem id x y => project_move_item p id x y
  | ResizeItem id w h => project_resize_item p id w h
  | SetParent id parent => project_set_parent p id parent
  | UpdateParams id q => project_update_item_params p id q
  end.
Definition item_ids (p : BuilderProject) : list Z := map item_id (items p).
Definition ids_ok (p : BuilderProject) : Prop := NoDup (item_ids p) /\ Forall (fun i => 1 <= i < next_item_id p) (item_ids p).

Lemma remove_first_sublist {A} (f : A -> bool) (l : list A) : remove_first f l `sublist_of` l.
Proof. induction l as [|x l IH]; [done|]. cbn [remove_first]. destruct (f x); [by apply sublist_cons|by apply sublist_skip]. Qed.
Lemma map_sublist {A B} (f : A -> B) (l k : list A) : l `sublist_of` k -> map f l `sublist_of` map f k.
Proof. induction 1; [done|by apply sublist_skip|by apply sublist_cons]. Qed.
Lemma update_first_map {A B} (h : A -> B) f g (l : list A) : (forall x, h (g x) = h x) -> map h (update_first f g l) = map h l.
Proof. intros H. induction l as [|x l IH]; [done|]. cbn [update_first]. destruct (f x); cbn [map]; [by rewrite H|by rewrite IH]. Qed.

Lemma apply_edit_next p e : next_item_id p <= next_item_id (apply_edit p e) <= next_item_id p + 1.
Proof. destruct e; cbn; lia. Qed.
Lemma ids_ok_edit p e : 1 <= next_item_id p -> ids_ok p -> ids_ok (apply_edit p e).
Proof.
  intros Hn [Hd Hb]. assert (forall id g, (forall x, item_id (g x) = item_id x) -> ids_ok (change_item p id g)) as Hc.
  { intros id g Hg. unfold ids_ok, item_ids. cbn. by rewrite update_first_map. }
  destruct e as [wt x y w h|id|id x y|id w h|id par|id q]; cbn [apply_edit]; try by apply Hc.
  - unfold ids_ok, item_ids in *. cbn. rewrite map_app. cbn. split.
    + apply list.NoDup_app. split; [done|]. split; [|by apply NoDup_singleton].
      intros i Hi ->%list_elem_of_singleton. rewrite list.Forall_forall in Hb. specialize (Hb _ Hi). lia.
    + apply list.Forall_app. split; [|apply list.Forall_cons; split; [lia|done]].
      eapply list.Forall_impl; [exact Hb|]. cbn. lia.
  - assert (item_ids (project_remove_item p id) `sublist_of` item_ids p) as Hs by (apply map_sublist, remove_first_sublist).
    split; [by eapply sublist_NoDup|].
    rewrite list.Forall_forall in *. intros i Hi. apply Hb. by eapply elem_of_sublist.
Qed.

Lemma edits_ids_ok es p : 1 <= next_item_id p -> ids_ok p -> ids_ok (foldl apply_edit p es) /\
  next_item_id p <= next_item_id (foldl apply_edit p es) <= next_item_id p + Z.of_nat (length es).
Proof.
  revert p. induction es as [|e es IH]; intros p Hn Hok; [split; [done|cbn; lia]|]. cbn [foldl length].
  pose proof (apply_edit_next p e). destruct (IH (apply_edit p e)) as [H1 H2]; [lia|by apply ids_ok_edit|]. split; [done|lia].
Qed.

Lemma find_some_id l id it : List.find (fun i => item_id i =? id) l = Some it -> item_id it = id /\ it ∈ l.
Proof. intros [H1 H2]%find_some. split; [lia|by apply list_elem_of_In]. Qed.
Lemma find_id l it : NoDup (map item_id l) -> it ∈ l -> List.find (fun i => item_id i =? item_id it) l = Some it.
Proof.
  induction l as [|y l IH]; [intros _ ?%elem_of_nil; done|]. cbn [map List.find]. intros [Hy Hd]%list.NoDup_cons [->|Hi]%elem_of_cons; [by rewrite Z.eqb_refl|].
  destruct (Z.eqb_spec (item_id y) (item_id it)) as [He|]; [|by apply IH]. contradict Hy. rewrite He. by apply list_elem_of_fmap_2.
Qed.
Lemma remove_first_gone l id : NoDup (map item_id l) -> List.find (fun i => item_id i =? id) (remove_first (fun i => item_id i =? id) l) = None.
Proof.
  induction l as [|y l IH]; [done|]. cbn [map remove_first]. intros [Hy Hd]%list.NoDup_cons. destruct (Z.eqb_spec (item_id y) id) as [He|Hn].
  - destruct (List.find _ l) as [it|] eqn:Hf; [|done]. apply find_some_id in Hf as [H1 H2]. contradict Hy. rewrite He, <-H1. by apply list_elem_of_fmap_2.
  - cbn [List.find]. destruct (Z.eqb_spec (item_id y) id); [done|]. by apply IH.
Qed.

Lemma find_change_same p id f : (forall x, item_id (f x) = item_id x) -> project_find_item (change_item p id f) id = f <$> project_find_item p id.
Proof.
  intros Hf. unfold project_find_item, change_item. cbn [items set_items]. induction (items p) as [|x l IH]; [done|]. cbn [List.find update_first].
  destruct (item_id x =? id) eqn:E; cbn [List.find]; [by rewrite Hf, E|]. by rewrite E.
Qed.
Lemma find_change_other p id id' f : (forall x, item_id (f x) = item_id x) -> id' <> id -> project_find_item (change_item p id f) id' = project_find_item p id'.
Proof.
  intros Hf Hne. unfold project_find_item, change_item. cbn [items set_items]. induction (items p) as [|x l IH]; [done|]. cbn [List.find update_first].
  destruct (Z.eqb_spec (item_id x) id) as [E|E]; cbn [List.find].
  - by rewrite Hf, (proj2 (Z.eqb_neq (item_id x) id')) by congruence.
  - by rewrite IH.
Qed.

(** whatever a new project's items go through, as long as the counter of
    ids does not overflow, no two items have the same id, every id is below
    the next one to be given, an item is found by its id, and a removed item
    is not found any more. *)
Theorem project_item_ids_unique name w h es : Z.of_nat (length es) < INT_MAX ->
  let p := foldl apply_edit (project_new name w h) es in
  NoDup (item_ids p) /\ Forall (fun i => 1 <= i < next_item_id p) (item_ids p) /\ next_item_id p <= INT_MAX /\
  (forall it, it ∈ items p -> project_find_item p (item_id it) = Some it) /\
  (forall id, project_find_item (project_remove_item p id) id = None).
Proof.
  intros Hl p. destruct (edits_ids_ok es (project_new name w h)) as [[Hd Hb] Hn]; [cbn; lia|by split; constructor|].
  fold p in Hd, Hb, Hn. cbn [project_new next_item_id] in Hn. split_and!; [done|done|lia| |].
  - intros it. by apply find_id.
  - intros id. by apply remove_first_gone.
Qed.
Lemma project_item_ids_unique_witness :
  let es := [AddItem "menu" 0 0 10 5; AddItem "input" 3 4 10 1; RemoveItem 1; AddItem "table" 0 0 5 5; MoveItem 3 7 7] in
  Z.of_nat (length es) < INT_MAX /\ item_ids (foldl apply_edit (project_new None 80 24) es) = [2; 3] /\
  NoDup (item_ids (foldl apply_edit (project_new None 80 24) es)).
Proof. intros es. split; [unfold INT_MAX; cbn; lia|]. split; [reflexivity|]. apply (project_item_ids_unique None 80 24 es). unfold INT_MAX; cbn; lia. Defined.

(** ** The ids of graph nodes *)

Lemma remove_first_app {A} (f : A -> bool) l x r : f x = true ->
  exists l' , remove_first f (l ++ x :: r) = l' ++ r /\ length l' = length l.
Proof.
  intros Hx. induction l as [|y l (l' & IH & Hl)]; cbn [app remove_first].
  - rewrite Hx. by exists [].
  - destruct (f y); [exists (l ++ [x]); rewrite <-(assoc_L (++)); split; [done|rewrite length_app; cbn; lia]|].
    exists (y :: l'). rewrite IH. cbn. by rewrite Hl.
Qed.

(** a node's id is the number of nodes when it is added. Once a node that
    is not the last is removed, the next node gets the id of the last one, so
    two nodes have the same id; and the edges of the removed node stay. *)
Theorem project_node_ids_collide p l x r n k i t : nodes p = l ++ x :: r ++ [n] -> node_id n = Z.of_nat (length (nodes p)) ->
  let p' := project_remove_node p (node_id x) in
  let '(q, m) := project_add_store_node p' k i t in
  node_id m = node_id n /\ (exists a, nodes q = a ++ [n; m]) /\ edges q = edges p.
Proof.
  intros Hp Hn p'. assert (exists a, nodes p' = a ++ [n] /\ Z.of_nat (length a) = node_id n - 2) as (a & Ha & Hl).
  { destruct (remove_first_app (fun y => node_id y =? node_id x) l x (r ++ [n])) as (l' & Hr & Hl); [by rewrite Z.eqb_refl|].
    exists (l' ++ r). split; [cbn; by rewrite Hp, Hr, (assoc_L (++))|]. rewrite Hn, Hp, !length_app. cbn. rewrite length_app. cbn. lia. }
  assert (edges p' = edges p) as He by done. clearbody p'.
  unfold project_add_store_node. cbn [node_id fst snd]. split_and!.
  - rewrite Ha, length_app. cbn. lia.
  - exists a. unfold project_add_store_var. destruct (existsb _ _); cbn; by rewrite Ha, <-(assoc_L (++)).
  - unfold project_add_store_var. rewrite <-He. by destruct (existsb _ _).
Qed.
Definition sample_project : BuilderProject :=
  let p := (project_add_item (project_new (Some "demo") 80 24) "menu" 1 2 20 5).1 in
  let p := (project_add_item p "input" 1 8 20 1).1 in
  let p := (project_add_node p 1).1 in
  let p := (project_add_node p 2).1 in
  let p := (project_add_store_node p "name" (Some "x") None).1 in
  project_add_keymap (project_add_edge (project_add_edge p 1 1 3 1) 3 0 2 0) KB_SCOPE_WIDGET 2 "ctrl+s" "save".
Lemma project_node_ids_collide_witness :
  let l := nodes sample_project in
  exists x y n, l = [] ++ x :: [y] ++ [n] /\ node_id n = Z.of_nat (length (nodes sample_project)) /\
  node_id x = 1 /\ (project_add_store_node (project_remove_node sample_project 1) "b" None None).2 = 
    mkNode 3 NODE_STORE "store.b" 0 (Some "b") None [mkPort 0 "value" PORT_STRING true (Some "Current value"); mkPort 1 "set" PORT_STRING false (Some "Set the value")] /\
  exists a m, nodes (project_add_store_node (project_remove_node sample_project (node_id x)) "b" None None).1 = a ++ [n; m] /\ node_id m = node_id n.
Proof.
  intros l. eexists _, _, _. split; [reflexivity|]. split; [reflexivity|]. split; [reflexivity|]. split; [reflexivity|].
  destruct (project_node_ids_collide sample_project [] (nth 0 l (mkNode 0 0 EmptyString 0 None None [])) [nth 1 l (mkNode 0 0 EmptyString 0 None None [])]
    (nth 2 l (mkNode 0 0 EmptyString 0 None None [])) "b" None None eq_refl eq_refl) as (H1 & [a H2] & _).
  exists a, (project_add_store_node (project_remove_node sample_project 1) "b" None None).2. split; [exact H2|exact H1].
Defined.

Lemma project_roundtrip_witness : project_ok sample_project /\
  exists file, project_save sample_project = Done file /\ project_load "p.json" file = Done (saved "p.json" sample_project).
Proof.
  assert (project_ok sample_project) as H.
  { split.
    - unfold is_int. repeat (apply list.Forall_cons; split; [vm_compute; split; discriminate|]). by apply list.Forall_nil.
    - split_and!; [vm_compute; reflexivity|vm_compute; reflexivity|vm_compute; lia|vm_compute; reflexivity]. }
  split; [exact H|]. by apply project_roundtrip.
Defined.
