(* ===== verification/Recorder.v ===== *)
(** Recording and replaying sessions: src/src/core/recorder.c.

    The arrays of the global recorder have room for [MAX_SNAPSHOTS] frames and
    [MAX_EVENTS] events; the lists hold the slots that were filled. The file
    is its text, [None] when [fopen] fails; [time(NULL)] is an argument. *)

From Stdlib Require Import SpecFloat.
From S2P Require Import Prelude Double CJson CJsonParse CJsonPrint CJsonRound Protocol Project.

Definition MAX_SNAPSHOTS : Z := 1024.
Definition MAX_EVENTS : Z := 65536.

Record RecordedFrame := mkFrame {
  widget_type : option string; json_params : option string; response : WidgetResponse; timestamp_ms : Z; ansi_buffer : option (list ascii)
}.
(** The members of [Event] as integers: [type], [code], [ch], and the other
    ten in their order. *)
Record Event := mkEvent { type : Z; code : Z; ch : Z; others : list Z }.
Definition event_zero : Event := mkEvent 0 0 0 (replicate 10 0).
Record Recorder := mkRecorder {
  frames : list RecordedFrame; frame_count : Z; events : list Event; event_count : Z;
  recording : bool; replaying : bool; replay_pos : Z; start_time : Z
}.
Definition recorder_zero : Recorder := mkRecorder [] 0 [] 0 false false 0 0.

(** ** Recording *)

(** The recorded strings are freed one by one: a count above the size of the
    array is an access behind it. *)
Definition recorder_reset (r : Recorder) : exec Recorder :=
  if MAX_SNAPSHOTS <? frame_count r then Fault OutOfBounds else Done recorder_zero.
Definition recorder_start (now : Z) (r : Recorder) : exec Recorder :=
  r ← recorder_reset r;
  Done (mkRecorder (frames r) (frame_count r) (events r) (event_count r) true (replaying r) (replay_pos r) (now * 1000)).
Definition recorder_stop (r : Recorder) : Recorder :=
  mkRecorder (frames r) (frame_count r) (events r) (event_count r) false (replaying r) (replay_pos r) (start_time r).

Definition recorder_record_frame (now : Z) (wt params : option string) (resp : WidgetResponse) (ansi : option (list ascii)) (r : Recorder) : Recorder :=
  if negb (recording r) then r
  else if MAX_SNAPSHOTS <=? frame_count r then r
  else
    let resp := mkResponse (match result resp with Some j => Some (cJSON_Duplicate j true) | None => None end) (cancelled resp) (error resp) in
    let f := mkFrame wt params resp (now * 1000 - start_time r) (match ansi with Some [] => None | a => a end) in
    mkRecorder (frames r ++ [f]) (frame_count r + 1) (events r) (event_count r) (recording r) (replaying r) (replay_pos r) (start_time r).
Definition recorder_record_event (ev : Event) (r : Recorder) : Recorder :=
  if negb (recording r) then r
  else if MAX_EVENTS <=? event_count r then r
  else mkRecorder (frames r) (frame_count r) (events r ++ [ev]) (event_count r + 1) (recording r) (replaying r) (replay_pos r) (start_time r).

(** ** Saving *)

Definition frame_object (f : RecordedFrame) (resp : option string) : cJSON :=
  let o := cJSON_AddStringToObject cJSON_CreateObject "widget_type" (widget_type f) in
  let o := cJSON_AddStringToObject o "params" (json_params f) in
  let o := AddInt o "timestamp" (timestamp_ms f) in
  let o := match resp with Some s => AddStr o "response" s | None => o end in
  cJSON_AddBoolToObject o "cancelled" (cancelled (response f)).
Definition frame_json (f : RecordedFrame) : exec cJSON :=
  match result (response f) with
  | Some j => s ← cJSON_PrintUnformatted j; Done (frame_object f (Some s))
  | None => Done (frame_object f None)
  end.
Definition event_json (e : Event) : cJSON := AddInt (AddInt (AddInt cJSON_CreateObject "type" (type e)) "code" (code e)) "ch" (ch e).
Definition recorder_object (nf ne : Z) (fs es : list cJSON) : cJSON :=
  let root := AddInt (AddInt (AddInt cJSON_CreateObject "version" 1) "frame_count" nf) "event_count" ne in
  AddObj (AddObj root "frames" (json_array fs)) "events" (json_array es).
(** [a[i]] for every [i] below the count. *)
Definition below {A} (n : Z) (l : list A) : exec (list A) := mapM (fun i => at_index (l !! i)) (seq 0 (Z.to_nat n)).
(** [None] for the return value false; otherwise the text of the file. *)
Definition recorder_save (opens : bool) (r : Recorder) : exec (option string) :=
  if frame_count r =? 0 then Done None else
  fs ← below (frame_count r) (frames r);
  fs ← mapM frame_json fs;
  es ← below (event_count r) (events r);
  json ← cJSON_PrintUnformatted (recorder_object (frame_count r) (event_count r) fs (map event_json es));
  Done (if opens : bool then Some (json +:+ String LF EmptyString) else None).

(** ** Loading *)

Definition load_frame (f : cJSON) : exec RecordedFrame :=
  res ← (match opt_string f "response" with
    | Some s => match cJSON_Parse s with Done j => Done (Some j) | Fail => Done None | Fault e => Fault e end
    | None => Done None
    end : exec (option cJSON));
  Done (mkFrame (opt_string f "widget_type") (opt_string f "params") (mkResponse res (bool_or f "cancelled" false) None) 0 None).
Definition load_event (e : cJSON) : exec Event :=
  t ← need_int e "type"; c ← need_int e "code"; h ← need_int e "ch"; Done (mkEvent t c (s8 h) (replicate 10 0)).
(** The count is that of the array; the slots are filled up to the limit. *)
Definition load_array {A} (root : cJSON) (k : string) (limit : Z) (f : cJSON -> exec A) : exec (Z * list A) :=
  match cJSON_GetObjectItem (Some root) k with
  | Some a => l ← mapM f (take (Z.to_nat limit) (child a)); Done (cJSON_GetArraySize (Some a), l)
  | None => Done (0, [])
  end.
Definition recorder_load (file : option string) (r : Recorder) : exec (bool * Recorder) :=
  r ← recorder_reset r;
  match file with
  | None => Done (false, r)
  | Some text =>
      match cJSON_Parse text with
      | Done root =>
          '(nf, fs) ← load_array root "frames" MAX_SNAPSHOTS load_frame;
          '(ne, es) ← load_array root "events" MAX_EVENTS load_event;
          Done (true, mkRecorder fs nf es ne (recording r) true 0 (start_time r))
      | Fail => Done (false, r)
      | Fault e => Fault e
      end
  end.

(** ** Replaying *)

Definition recorder_has_events (r : Recorder) : bool := replaying r && (replay_pos r <? event_count r).
Definition recorder_next_event (r : Recorder) : exec (Event * Recorder) :=
  if recorder_has_events r then
    e ← at_index (events r !! Z.to_nat (replay_pos r));
    Done (e, mkRecorder (frames r) (frame_count r) (events r) (event_count r) (recording r) (replaying r) (replay_pos r + 1) (start_time r))
  else Done (event_zero, r).

(** ** Recording stays within the arrays *)

Inductive op := Start (now : Z) | Stop | RecordFrame (now : Z) (wt params : option string) (resp : WidgetResponse) (ansi : option (list ascii)) | RecordEvent (e : Event).
Definition run_op (r : Recorder) (o : op) : exec Recorder :=
  match o with
  | Start now => recorder_start now r
  | Stop => Done (recorder_stop r)
  | RecordFrame now wt ps resp ansi => Done (recorder_record_frame now wt ps resp ansi r)
  | RecordEvent e => Done (recorder_record_event e r)
  end.
Fixpoint run_ops (r : Recorder) (os : list op) : exec Recorder :=
  match os with [] => Done r | o :: os' => r ← run_op r o; run_ops r os' end.

Record in_bounds (r : Recorder) : Prop := mkBounds {
  frames_counted : frame_count r = Z.of_nat (length (frames r)); frames_fit : frame_count r <= MAX_SNAPSHOTS;
  events_counted : event_count r = Z.of_nat (length (events r)); events_fit : event_count r <= MAX_EVENTS
}.
Lemma run_op_bounds r o : in_bounds r -> returns (run_op r o) in_bounds.
Proof.
  intros [H1 H2 H3 H4]. destruct o as [now| |now wt ps resp ansi|e]; cbn [run_op].
  - unfold recorder_start, recorder_reset. rewrite (proj2 (Z.ltb_ge _ _)) by done. by constructor.
  - by constructor.
  - unfold recorder_record_frame. repeat case_match; cbn [returns]; first [by constructor|simp_bool; constructor; cbn; rewrite ?length_app; cbn; lia].
  - unfold recorder_record_event. repeat case_match; cbn [returns]; first [by constructor|simp_bool; constructor; cbn; rewrite ?length_app; cbn; lia].
Qed.
Lemma run_ops_bounds os r : in_bounds r -> returns (run_ops r os) in_bounds.
Proof.
  revert r. induction os as [|o os IH]; intros r H; [done|]. cbn [run_ops]. eapply returns_bind; [by apply run_op_bounds|]. exact IH.
Qed.

(** recording never leaves the arrays: after any calls the counts are those
    of the slots filled and within the limits, and the last of a full array
    is not overwritten. *)
Theorem recorder_bounds os : exists r, run_ops recorder_zero os = Done r /\ in_bounds r /\
  (forall e, event_count r = MAX_EVENTS -> recorder_record_event e r = r) /\
  (forall now wt ps resp ansi, frame_count r = MAX_SNAPSHOTS -> recorder_record_frame now wt ps resp ansi r = r).
Proof.
  assert (in_bounds recorder_zero) as H0 by (constructor; done). destruct (returns_Done _ _ (run_ops_bounds os _ H0)) as (r & Hr & H). exists r.
  split; [done|]. split; [done|]. split.
  - intros e He. unfold recorder_record_event. rewrite He, Z.leb_refl. by destruct (recording r).
  - intros now wt ps resp ansi He. unfold recorder_record_frame. rewrite He, Z.leb_refl. by destruct (recording r).
Qed.

(** ** The file *)

Definition result_text (f : RecordedFrame) : option string := match result (response f) with Some j => Some (of_chars (json_text j)) | None => None end.
Definition saved_object (r : Recorder) : cJSON :=
  recorder_object (frame_count r) (event_count r) (map (fun f => frame_object f (result_text f)) (frames r)) (map event_json (events r)).
Definition text_ok (i : cJSON) : Prop :=
  printable i = true /\ json_ok i = true /\ (nesting i <= 1000)%nat /\ Z.of_nat (length (json_text i)) < INT_MAX.
Definition frame_ok (f : RecordedFrame) : Prop :=
  is_int (timestamp_ms f) /\ match result (response f) with Some j => text_ok j | None => True end.
Definition event_ok (e : Event) : Prop := is_int (type e) /\ is_int (code e) /\ -128 <= ch e <= 127.
Definition recorder_ok (r : Recorder) : Prop :=
  in_bounds r /\ frames r <> [] /\ Forall frame_ok (frames r) /\ Forall event_ok (events r) /\ text_ok (saved_object r).

(** What a loaded frame and a loaded event keep. *)
Definition saved_frame (f : RecordedFrame) : RecordedFrame :=
  mkFrame (widget_type f) (json_params f)
    (mkResponse (match result (response f) with Some j => Some (parsed_as None j) | None => None end) (cancelled (response f)) None) 0 None.
Definition saved_event (e : Event) : Event := mkEvent (type e) (code e) (ch e) (replicate 10 0).

Lemma mapM_Done {A B} (f : A -> exec B) (g : A -> B) l : (forall x, x ∈ l -> f x = Done (g x)) -> mapM f l = Done (map g l).
Proof.
  induction l as [|x l IH]; intros H; [done|]. cbn [mapM map]. rewrite H by left. cbn [mbind exec_bind].
  rewrite IH; [done|]. intros y Hy. apply H. by right.
Qed.
Lemma below_all {A} (l : list A) n : n = Z.of_nat (length l) -> below n l = Done l.
Proof.
  intros ->. unfold below. rewrite Nat2Z.id.
  assert (forall k m, drop k m = l -> mapM (fun i => at_index (m !! i)) (seq k (length l)) = Done l) as H; [|by apply (H 0%nat)].
  induction l as [|x l IH]; intros k m Hm; [done|]. cbn [length seq mapM].
  assert (m !! k = Some x) as -> by (rewrite <-(Nat.add_0_r k), <-lookup_drop, Hm; done). cbn [at_index mbind exec_bind].
  rewrite (IH (S k) m); [done|]. by rewrite <-(drop_drop m k 1%nat), Nat.add_comm, Hm || (replace (S k) with (k + 1)%nat by lia; rewrite <-drop_drop, Hm).
Qed.

#[local] Opaque d_of_Z.
Lemma frame_json_text f : frame_ok f -> frame_json f = Done (frame_object f (result_text f)).
Proof.
  intros [_ H]. unfold frame_json, result_text. destruct (result (response f)) as [j|]; [|done]. destruct H as (Hp & _ & _ & Hl). by rewrite print_text.
Qed.
Lemma load_frame_json f : frame_ok f -> load_frame (parsed_as None (frame_object f (result_text f))) = Done (saved_frame f).
Proof.
  destruct f as [wt ps [res ca er] ts an]. unfold frame_ok, frame_object, result_text, saved_frame. cbn [widget_type json_params response timestamp_ms result cancelled].
  intros [Ht Hres]. repeat rewrite AddInt_num by assumption.
  destruct res as [j|]; [|destruct wt, ps, ca; reflexivity]. destruct Hres as (Hpr & Hok & Hn & _).
  pose proof (parse_json_text j Hpr Hok Hn) as Hj. set (s := of_chars (json_text j)) in *.
  assert (forall o, opt_string o "response" = Some s -> load_frame o =
    Done (mkFrame (opt_string o "widget_type") (opt_string o "params") (mkResponse (Some (parsed_as None j)) (bool_or o "cancelled" false) None) 0 None)) as Hl.
  { intros o Ho. unfold load_frame. by rewrite Ho, Hj. }
  rewrite Hl; destruct wt, ps, ca; reflexivity.
Qed.
Lemma load_event_json e : event_ok e -> load_event (parsed_as None (event_json e)) = Done (saved_event e).
Proof.
  destruct e as [t c h o]. unfold event_ok, event_json, saved_event. cbn [type code ch]. intros (H1 & H2 & H3).
  assert (is_int h) by (unfold is_int, INT_MIN, INT_MAX; lia). repeat rewrite AddInt_num by assumption.
  transitivity (Done (mkEvent t c (s8 h) (replicate 10 0))); [reflexivity|]. unfold s8. rewrite swrap_id by (cbn; lia). done.
Qed.
Lemma load_array_json {A B} root k limit (f : cJSON -> exec B) (j : A -> cJSON) (g : A -> B) l :
  cJSON_GetObjectItem (Some root) k = Some (saved_array k j l) -> Z.of_nat (length l) <= limit ->
  (forall x, x ∈ l -> f (parsed_as None (j x)) = Done (g x)) -> load_array root k limit f = Done (Z.of_nat (length l), map g l).
Proof.
  intros Hk Hl Hf. unfold load_array. rewrite Hk. unfold saved_array. cbn [child cJSON_GetArraySize]. rewrite take_ge by (rewrite !length_map; lia).
  rewrite map_map, !length_map.
  assert (mapM f (map (fun x => parsed_as None (j x)) l) = Done (map g l)) as ->; [|done].
  clear Hk Hl. induction l as [|x l IH]; [done|]. cbn [map mapM]. rewrite Hf by left. cbn [mbind exec_bind]. rewrite IH; [done|]. intros y Hy. apply Hf. by right.
Qed.

(** [n] calls of [recorder_next_event]. *)
Fixpoint replay (n : nat) (r : Recorder) : exec (list Event * Recorder) :=
  match n with
  | O => Done ([], r)
  | S n' => '(e, r) ← recorder_next_event r; '(l, r) ← replay n' r; Done (e :: l, r)
  end.
Lemma replay_rest pre post fs nf rec st : replay (length post) (mkRecorder fs nf (pre ++ post) (Z.of_nat (length (pre ++ post))) rec true (Z.of_nat (length pre)) st)
  = Done (post, mkRecorder fs nf (pre ++ post) (Z.of_nat (length (pre ++ post))) rec true (Z.of_nat (length (pre ++ post))) st).
Proof.
  revert pre. induction post as [|e post IH]; intros pre; [by rewrite app_nil_r|]. cbn [length replay].
  unfold recorder_next_event, recorder_has_events. cbn [replaying replay_pos event_count events frames frame_count recording start_time].
  rewrite (proj2 (Z.ltb_lt _ _)) by (rewrite length_app; cbn; lia). cbn [andb]. rewrite Nat2Z.id, list_lookup_middle by done. cbn [at_index mbind exec_bind].
  specialize (IH (pre ++ [e])). rewrite <-app_assoc in IH. cbn [app] in IH. rewrite (length_app pre [e]) in IH. cbn [length] in IH.
  replace (Z.of_nat (length pre) + 1) with (Z.of_nat (length pre + 1)) by lia. rewrite IH. done.
Qed.

(** C16: a recording that is saved and loaded again has the frames' widget
    types, parameters, results and cancelled flags; its replay then gives the
    type, code and character of every event in the order they were recorded, and
    after the last one reports that there are no more. The error of a response,
    the timestamps, the screens and the other members of an event (the place of a
    click) are not written and come back as NULL or 0. This is for a recording of
    at least one frame, within the limits of the arrays, whose timestamps and
    event codes fit an int and characters a signed byte, whose results have no
    numbers but integers and nest at most 1000 deep, and whose strings, those of
    the results included, hold no NUL and no control character without a short
    escape; the texts of a result and of the file are shorter than 2^31 - 1
    bytes, and the recorder loaded into holds at most 1024 frames. *)
Theorem recorder_roundtrip r r0 : recorder_ok r -> frame_count r0 <= MAX_SNAPSHOTS ->
  exists file r1 r2, recorder_save true r = Done (Some file) /\ recorder_load (Some file) r0 = Done (true, r1) /\
    frames r1 = map saved_frame (frames r) /\
    replay (length (events r)) r1 = Done (map saved_event (events r), r2) /\ recorder_has_events r2 = false /\ recorder_next_event r2 = Done (event_zero, r2).
Proof.
  intros ([Hfc Hff Hec Hef] & Hne & Hfs & Hes & (Hp & Hok & Hn & Hl)) H0.
  set (root := saved_object r) in *. exists (of_chars (json_text root) +:+ String LF EmptyString).
  rewrite list.Forall_forall in Hfs. rewrite list.Forall_forall in Hes.
  assert (recorder_save true r = Done (Some (of_chars (json_text root) +:+ String LF EmptyString))) as Hsave.
  { unfold recorder_save. rewrite (proj2 (Z.eqb_neq _ 0)) by (rewrite Hfc; destruct (frames r); [done|cbn; lia]).
    rewrite (below_all (frames r)) by done. cbn [mbind exec_bind].
    rewrite (mapM_Done frame_json (fun f => frame_object f (result_text f))) by (intros f Hf; apply frame_json_text; by apply Hfs). cbn [mbind exec_bind].
    rewrite (below_all (events r)) by done. cbn [mbind exec_bind]. change (recorder_object _ _ _ _) with root. by rewrite print_text. }
  assert (is_int (frame_count r) /\ is_int (event_count r) /\ is_int 1) as (Hi1 & Hi2 & Hi3)
    by (unfold is_int, INT_MIN, INT_MAX, MAX_SNAPSHOTS, MAX_EVENTS in *; lia).
  assert (load_array (parsed_as None root) "frames" MAX_SNAPSHOTS load_frame = Done (frame_count r, map saved_frame (frames r))) as Hlf.
  { rewrite Hfc. apply (load_array_json _ _ _ _ (fun f => frame_object f (result_text f))); [|by rewrite <-Hfc|intros; apply load_frame_json; auto].
    unfold root, saved_object, recorder_object. repeat rewrite AddInt_num by assumption. by rewrite !json_array_child. }
  assert (load_array (parsed_as None root) "events" MAX_EVENTS load_event = Done (event_count r, map saved_event (events r))) as Hle.
  { rewrite Hec. apply (load_array_json _ _ _ _ event_json); [|by rewrite <-Hec|intros; apply load_event_json; auto].
    unfold root, saved_object, recorder_object. repeat rewrite AddInt_num by assumption. by rewrite !json_array_child. }
  eexists _, _. split; [exact Hsave|]. unfold recorder_load, recorder_reset. rewrite (proj2 (Z.ltb_ge _ _)) by done. cbn [mbind exec_bind].
  rewrite parse_json_line by done. rewrite Hlf, Hle. cbn [mbind exec_bind]. split; [reflexivity|]. split; [done|].
  pose proof (replay_rest [] (map saved_event (events r)) (map saved_frame (frames r)) (frame_count r) false 0) as Hr.
  cbn [app length] in Hr. rewrite !length_map in Hr. rewrite <-Hec in Hr. cbn [recording start_time recorder_zero]. split; [exact Hr|].
  unfold recorder_next_event, recorder_has_events. cbn [replaying replay_pos event_count]. by rewrite Z.ltb_irrefl.
Qed.

(** A file with more frames than the array has slots is accepted: the count
    is above the limit, and the next reset, which every start and every load
    begins with, runs behind the array. *)
Lemma recorder_overrun text root fs r r' : cJSON_Parse text = Done root -> cJSON_GetObjectItem (Some root) "frames" = Some fs ->
  MAX_SNAPSHOTS < cJSON_GetArraySize (Some fs) -> recorder_load (Some text) r = Done (true, r') -> recorder_reset r' = Fault OutOfBounds.
Proof.
  intros Hp Hf Hn Hl. unfold recorder_load in Hl. apply exec_bind_Done in Hl as (r1 & _ & Hl). rewrite Hp in Hl.
  apply exec_bind_Done in Hl as ([nf fl] & Hlf & Hl). apply exec_bind_Done in Hl as ([ne el] & _ & Hl). injection Hl as <-.
  unfold load_array in Hlf. rewrite Hf in Hlf. apply exec_bind_Done in Hlf as (l & _ & [= <- _]). unfold recorder_reset. cbn [frame_count].
  by rewrite (proj2 (Z.ltb_lt _ _)).
Qed.

(** ** A recording *)

Definition session_ops : list op :=
  [Start 100; RecordEvent (mkEvent 1 26 97 (replicate 10 7));
   RecordFrame 101 (Some "menu"%string) (Some "x"%string) (mkResponse (Some (cJSON_AddStringToObject cJSON_CreateObject "choice" (Some "yes"%string))) false None) (Some [NUL]);
   RecordFrame 102 None None (mkResponse None true None) None; RecordEvent (mkEvent 1 1 (-1) []); Stop; RecordEvent event_zero].
Definition recorded : Recorder := match run_ops recorder_zero session_ops with Done r => r | _ => recorder_zero end.
Lemma recorder_roundtrip_witness : exists file r1 r2, recorder_save true recorded = Done (Some file) /\
  recorder_load (Some file) recorder_zero = Done (true, r1) /\ replay 2 r1 = Done ([mkEvent 1 26 97 (replicate 10 0); mkEvent 1 1 (-1) (replicate 10 0)], r2).
Proof.
  destruct (recorder_roundtrip recorded recorder_zero) as (file & r1 & r2 & Hs & Hl & _ & Hr & _).
  - split; [constructor; vm_compute; congruence|]. split; [vm_compute; congruence|].
    assert (text_ok (cJSON_AddStringToObject cJSON_CreateObject "choice" (Some "yes"%string))) as Hj
      by (split_and!; [vm_compute; reflexivity|vm_compute; reflexivity|vm_compute; lia|vm_compute; reflexivity]).
    split; [constructor; [split; [apply (bool_decide_unpack _); reflexivity|exact Hj]|constructor; [split; [apply (bool_decide_unpack _); reflexivity|exact I]|constructor]]|].
    split; [repeat constructor; vm_compute; congruence|]. split_and!; [vm_compute; reflexivity|vm_compute; reflexivity|vm_compute; lia|vm_compute; reflexivity].
  - vm_compute. congruence.
  - exists file, r1, r2. split; [exact Hs|]. split; [exact Hl|exact Hr].
Defined.
