(* ===== verification/Fil.v ===== *)
(** The FIL script language of src/src/script/fil.c: the tokens, the
    expressions over buffers of 256 bytes, the statements, and [fil_eval].
    The regular expressions of the C library are a parameter. The alarm that
    stops a script after a second is not modelled: every script ends by itself
    (see [fil_eval_total]). *)

From S2P Require Import Prelude CJson CJsonParse.

(** ** Tokens *)

Inductive TokenType :=
  | TOK_WHEN | TOK_THEN | TOK_ELSE | TOK_END | TOK_LET | TOK_SET | TOK_TO
  | TOK_REJECT | TOK_WITH | TOK_ACCEPT | TOK_SHOW | TOK_FOR | TOK_EACH
  | TOK_IN | TOK_DO | TOK_IS | TOK_NOT | TOK_MATCHES | TOK_AND | TOK_OR
  | TOK_EMPTY | TOK_OF | TOK_LESS | TOK_GREATER | TOK_THAN
  | TOK_STYLE | TOK_ANIMATE | TOK_STOP | TOK_PAUSE | TOK_RESUME
  | TOK_ANIMATION | TOK_ON | TOK_KEYMAP | TOK_KEY | TOK_LBRACE | TOK_RBRACE
  | TOK_IDENT | TOK_STRING | TOK_NUMBER | TOK_EOF.
#[global] Instance TokenType_eq_dec : EqDecision TokenType.
Proof. solve_decision. Defined.

Record Token := mkToken { type : TokenType; text : option string; num : Z }.
Record Parser := mkParser { src : list ascii; pos : nat; current : Token }.

(** The classes of <ctype.h> in the C locale. *)
Definition is_blank (c : ascii) : bool := let n := uchar c in (n =? 32) || (n =? 9) || (n =? 10) || (n =? 13).
Definition isalpha (c : ascii) : bool := let n := uchar c in ((65 <=? n) && (n <=? 90)) || ((97 <=? n) && (n <=? 122)).
Definition is_word_start (c : ascii) : bool := isalpha c || (uchar c =? 95).
Definition is_word (c : ascii) : bool := is_word_start c || isdigit c.

Definition keywords : list (string * TokenType) := [
  ("when", TOK_WHEN); ("then", TOK_THEN); ("else", TOK_ELSE); ("end", TOK_END); ("let", TOK_LET); ("set", TOK_SET);
  ("to", TOK_TO); ("reject", TOK_REJECT); ("with", TOK_WITH); ("accept", TOK_ACCEPT); ("show", TOK_SHOW);
  ("for", TOK_FOR); ("each", TOK_EACH); ("in", TOK_IN); ("do", TOK_DO); ("is", TOK_IS); ("not", TOK_NOT);
  ("matches", TOK_MATCHES); ("and", TOK_AND); ("or", TOK_OR); ("empty", TOK_EMPTY); ("of", TOK_OF);
  ("less", TOK_LESS); ("greater", TOK_GREATER); ("than", TOK_THAN); ("style", TOK_STYLE); ("animate", TOK_ANIMATE);
  ("stop", TOK_STOP); ("pause", TOK_PAUSE); ("resume", TOK_RESUME); ("animation", TOK_ANIMATION); ("on", TOK_ON);
  ("keymap", TOK_KEYMAP); ("key", TOK_KEY)]%string.
Fixpoint keyword_type (ks : list (string * TokenType)) (w : string) : TokenType :=
  match ks with
  | [] => TOK_IDENT
  | (k, t) :: ks' => if decide (w = k) then t else keyword_type ks' w
  end.
Definition make_token (t : TokenType) (s : option string) (n : Z) : Token := mkToken t s n.
Definition word_token (w : list ascii) : Token := make_token (keyword_type keywords (of_chars w)) (Some (of_chars w)) 0.

(** The token at the head of the rest of the source, behind blanks, and how
    many characters it ends after. An unknown character is an end of file. *)
Definition lex (l : list ascii) : Token * nat :=
  let w := length (span is_blank l) in
  match drop w l with
  | [] => (make_token TOK_EOF None 0, w)
  | c :: r =>
      if Ascii.eqb c "{" then (make_token TOK_LBRACE None 0, S w)
      else if Ascii.eqb c "}" then (make_token TOK_RBRACE None 0, S w)
      else if Ascii.eqb c DQUOTE then
        let s := span (fun d => negb (Ascii.eqb d DQUOTE)) r in
        (make_token TOK_STRING (Some (of_chars s)) 0, S w + length s + (if (length s <? length r)%nat then 1 else 0))%nat
      else if isdigit c then
        let s := span isdigit (c :: r) in (make_token TOK_NUMBER None (atoi s), w + length s)%nat
      else if is_word_start c then
        let s := span is_word (c :: r) in (word_token s, w + length s)%nat
      else (make_token TOK_EOF None 0, S w)
  end.
Definition next_token (p : Parser) : Parser :=
  let '(t, n) := lex (drop (pos p) (src p)) in mkParser (src p) (pos p + n) t.

Definition is_tok (t : TokenType) (p : Parser) : bool := bool_decide (type (current p) = t).
Definition token_match (p : Parser) (t : TokenType) : bool * Parser := if is_tok t p then (true, next_token p) else (false, p).
(** [p->pos -= n; next_token(p)] *)
Definition rewind (n : nat) (p : Parser) : exec Parser :=
  if (pos p <? n)%nat then Fault OutOfBounds else Done (next_token (mkParser (src p) (pos p - n) (current p))).

(** ** Expressions

    A value is the contents of a [char[256]] up to its terminator; 256
    characters are an array without one. *)
Definition maxlen : nat := 256.
Definition strncpy (s : string) : string := strtake maxlen s.
Definition terminated (v : string) : bool := (String.length v <? maxlen)%nat.
(** Reading a value up to its terminator. *)
Definition cstr (v : string) : exec string := if terminated v then Done v else Fault OutOfBounds.
(** [v[0]] *)
Definition truthy (v : string) : bool := match v with EmptyString => false | _ => true end.
Definition flag (b : bool) : string := if b then "1" else EmptyString.
(** [strcmp(a, b) == 0]: two equal arrays without terminator are compared past their end. *)
Definition same (a b : string) : exec bool := if decide (a = b) then _ ← cstr a; Done true else Done false.
(** [atoi] stops at the first character that is not of the number. *)
Definition number_prefix (l : list ascii) : nat :=
  let w := length (span isspace l) in
  match drop w l with
  | c :: l' =>
      if (uchar c =? 45) || (uchar c =? 43) then (w + 1 + length (span isdigit l'))%nat
      else (w + length (span isdigit (c :: l')))%nat
  | [] => w
  end.
Definition value_atoi (v : string) : exec Z :=
  if (number_prefix (chars v) <? maxlen)%nat then Done (atoi (chars v)) else Fault OutOfBounds.

Definition is_space (c : ascii) : bool := Ascii.eqb c " ".
Definition trim (l : list ascii) : list ascii :=
  let l := drop (length (span is_space l)) l in rev (drop (length (span is_space (rev l))) (rev l)).

Section fil.
(** [regcomp(&re, pattern, REG_EXTENDED | REG_NOSUB) == 0] and [regexec(&re, s, ...) == 0] *)
Context (regcomp : string -> bool) (regexec : string -> string -> bool).

(** The value, or [None] for the return value 0; and the parser. *)
Definition result : Type := exec (option string * Parser).
Definition no_value (p : Parser) : result := Done (None, p).
Definition value_is (v : string) (p : Parser) : result := Done (Some v, p).

Fixpoint eval_primary (fuel : nat) (p : Parser) : result :=
  match fuel with
  | O => Fault Diverges
  | S f =>
      let '(m, p) := token_match p TOK_EMPTY in
      if (m : bool) then value_is EmptyString p else
      let '(m, p) := token_match p TOK_NOT in
      if (m : bool) then
        '(inner, p) ← eval_primary f p;
        match inner with Some v => value_is (flag (negb (truthy v))) p | None => no_value p end
      else
      (** [next_token] frees the text [key] points to, and [strcmp(key, "value")] reads it *)
      if is_tok TOK_IDENT p then Fault UseAfterFree
      else if is_tok TOK_STRING p then t ← deref (text (current p)); value_is (strncpy t) (next_token p)
      else if is_tok TOK_NUMBER p then value_is (int_string (num (current p))) (next_token p)
      else
        match text (current p) with
        | Some (String c _) =>
            if isalpha c then
              let p := next_token p in
              if is_tok TOK_OF p then eval_function f p else no_value p
            else eval_function f p
        | _ => eval_function f p
        end
  end
with eval_function (fuel : nat) (p : Parser) : result :=
  match fuel with
  | O => Fault Diverges
  | S f =>
      t ← deref (text (current p));
      (** 63 bytes and no terminator are copied from a longer word *)
      if (63 <=? String.length t)%nat then Fault OutOfBounds else
      let func := t in
      let p := next_token p in
      let '(m, p) := token_match p TOK_OF in
      if negb m then no_value p else
      '(arg, p) ← eval_primary f p;
      match arg with
      | None => no_value p
      | Some arg =>
          if decide (func = "length"%string) then a ← cstr arg; value_is (int_string (Z.of_nat (String.length a))) p
          else if decide (func = "uppercase"%string) then a ← cstr arg; value_is (of_chars (map toupper (chars a))) p
          else if decide (func = "lowercase"%string) then a ← cstr arg; value_is (of_chars (map tolower (chars a))) p
          else if decide (func = "trim"%string) then a ← cstr arg; value_is (of_chars (trim (chars a))) p
          else if decide (func = "match"%string) then
            let '(m, p) := token_match p TOK_WITH in
            if negb m then no_value p else
            '(pattern, p) ← eval_primary f p;
            match pattern with
            | None => no_value p
            | Some pattern =>
                pat ← cstr pattern;
                if regcomp pat then a ← cstr arg; value_is (flag (regexec pat a)) p else no_value p
            end
          else no_value p
      end
  end.

Definition eval_comparison (fuel : nat) (p : Parser) : result :=
  '(lhs, p) ← eval_primary fuel p;
  match lhs with
  | None => no_value p
  | Some lhs =>
      let '(m, p) := token_match p TOK_IS in
      if (m : bool) then
        let '(negate, p) := token_match p TOK_NOT in
        let '(m, p) := token_match p TOK_EMPTY in
        if (m : bool) then value_is (flag (if negate then truthy lhs else negb (truthy lhs))) p else
        let '(less, p) := token_match p TOK_LESS in
        let '(greater, p) := if less then (false, p) else token_match p TOK_GREATER in
        let p := if (less || greater)%bool then (token_match p TOK_THAN).2 else p in
        '(rhs, p) ← eval_primary fuel p;
        match rhs with
        | None => no_value p
        | Some rhs =>
            if (less || greater)%bool then
              l ← value_atoi lhs; r ← value_atoi rhs;
              let holds := if less then l <? r else r <? l in
              value_is (flag (if negate then negb holds else holds)) p
            else eq ← same lhs rhs; value_is (flag (if negate then negb eq else eq)) p
        end
      else
        let '(m, p) := token_match p TOK_MATCHES in
        if (m : bool) then
          '(pattern, p) ← eval_primary fuel p;
          match pattern with
          | None => no_value p
          | Some pattern =>
              pat ← cstr pattern;
              if regcomp pat then a ← cstr lhs; value_is (flag (regexec pat a)) p else no_value p
          end
        else value_is lhs p
  end.

(** The operator token is consumed by the test of the loop; the body reads
    [is_or] from the token behind it and passes that token too. *)
Fixpoint eval_operators (fuel : nat) (lhs : string) (p : Parser) : result :=
  match fuel with
  | O => Fault Diverges
  | S f =>
      let '(m, p) := token_match p TOK_AND in
      let '(m', p) := if m then (false, p) else token_match p TOK_OR in
      if negb (m || m') then value_is lhs p else
      let is_or := is_tok TOK_OR p in
      let p := next_token p in
      '(rhs, p) ← eval_comparison f p;
      match rhs with
      | None => no_value p
      | Some rhs => eval_operators f (flag (if is_or then truthy lhs || truthy rhs else truthy lhs && truthy rhs)) p
      end
  end.
Definition eval_expression (fuel : nat) (p : Parser) : result :=
  '(lhs, p) ← eval_comparison fuel p;
  match lhs with Some lhs => eval_operators fuel lhs p | None => no_value p end.

(** ** Statements *)

(** The parallel arrays of the C structure are lists of pairs: keys and
    values, style entries and their properties, animation names and targets. *)
Record EvalState := mkState {
  sets : list (string * string); rejected : bool; error_msg : option string; show_widget : bool; loop_count : Z;
  styles : list (string * string); keymap_bindings : list string; animations : list (string * string)
}.
Definition add_set (k v : string) (s : EvalState) : EvalState :=
  mkState (sets s ++ [(k, v)]) (rejected s) (error_msg s) (show_widget s) (loop_count s) (styles s) (keymap_bindings s) (animations s).
Definition set_verdict (r : bool) (e : option string) (s : EvalState) : EvalState :=
  mkState (sets s) r e (show_widget s) (loop_count s) (styles s) (keymap_bindings s) (animations s).
Definition set_show (b : bool) (s : EvalState) : EvalState :=
  mkState (sets s) (rejected s) (error_msg s) b (loop_count s) (styles s) (keymap_bindings s) (animations s).
Definition count_loop (s : EvalState) : EvalState :=
  mkState (sets s) (rejected s) (error_msg s) (show_widget s) (loop_count s + 1) (styles s) (keymap_bindings s) (animations s).
Definition add_style (e prop : string) (s : EvalState) : EvalState :=
  mkState (sets s) (rejected s) (error_msg s) (show_widget s) (loop_count s) (styles s ++ [(e, prop)]) (keymap_bindings s) (animations s).
Definition add_keymap (e : string) (s : EvalState) : EvalState :=
  mkState (sets s) (rejected s) (error_msg s) (show_widget s) (loop_count s) (styles s) (keymap_bindings s ++ [e]) (animations s).
Definition add_animation (n target : string) (s : EvalState) : EvalState :=
  mkState (sets s) (rejected s) (error_msg s) (show_widget s) (loop_count s) (styles s) (keymap_bindings s) (animations s ++ [(n, target)]).

Definition outcome : Type := exec (bool * Parser * EvalState).
Definition stops (p : Parser) (s : EvalState) : outcome := Done (false, p, s).
Definition goes_on (p : Parser) (s : EvalState) : outcome := Done (true, p, s).

(** [match(p, t)] or [return false] *)
Definition expect (t : TokenType) (p : Parser) (s : EvalState) (k : Parser -> outcome) : outcome :=
  let '(m, p) := token_match p t in if (m : bool) then k p else stops p s.
(** The text of the current token when it has type [t], or [return false]. *)
Definition expect_text (t : TokenType) (p : Parser) (s : EvalState) (k : string -> Parser -> outcome) : outcome :=
  if is_tok t p then x ← deref (text (current p)); k x (next_token p) else stops p s.

Fixpoint style_properties (fuel : nat) (widget child : string) (p : Parser) (s : EvalState) : outcome :=
  match fuel with
  | O => Fault Diverges
  | S f =>
      if (is_tok TOK_RBRACE p || is_tok TOK_EOF p)%bool then goes_on (token_match p TOK_RBRACE).2 s else
      expect_text TOK_IDENT p s (fun prop p =>
      expect TOK_IS p s (fun p =>
      '(val, p) ← eval_expression f p;
      match val with
      | None => stops p s
      | Some val =>
          v ← cstr val;
          style_properties f widget child p (add_style (widget +:+ "|" +:+ child +:+ "|" +:+ prop +:+ "|" +:+ v) prop s)
      end))
  end.
Definition eval_style_block (fuel : nat) (p : Parser) (s : EvalState) : outcome :=
  expect TOK_STYLE p s (fun p =>
  expect_text TOK_IDENT p s (fun widget p =>
  let child := if is_tok TOK_IDENT p then text (current p) else None in
  let p := if is_tok TOK_IDENT p then next_token p else p in
  expect TOK_LBRACE p s (fun p => style_properties fuel widget (default EmptyString child) p s))).

Fixpoint keymap_entries (fuel : nat) (scope : string) (p : Parser) (s : EvalState) : outcome :=
  match fuel with
  | O => Fault Diverges
  | S f =>
      if (is_tok TOK_RBRACE p || is_tok TOK_EOF p)%bool then goes_on (token_match p TOK_RBRACE).2 s else
      expect TOK_WHEN p s (fun p => expect TOK_KEY p s (fun p => expect TOK_IS p s (fun p =>
      expect_text TOK_STRING p s (fun key p =>
      expect TOK_THEN p s (fun p =>
      expect_text TOK_STRING p s (fun action p =>
      expect TOK_END p s (fun p =>
      keymap_entries f scope p (add_keymap (scope +:+ "|" +:+ key +:+ "|" +:+ action) s))))))))
  end.
Definition eval_keymap_block (fuel : nat) (p : Parser) (s : EvalState) : outcome :=
  expect TOK_KEYMAP p s (fun p =>
  expect_text TOK_IDENT p s (fun scope p =>
  expect TOK_LBRACE p s (fun p => keymap_entries fuel scope p s))).

Definition eval_animate_statement (p : Parser) (s : EvalState) : outcome :=
  expect TOK_ANIMATE p s (fun p =>
  expect_text TOK_STRING p s (fun target p =>
  expect TOK_WITH p s (fun p =>
  expect_text TOK_STRING p s (fun name p => goes_on p (add_animation name target s))))).

Definition eval_animation_control (p : Parser) (s : EvalState) : outcome :=
  let rest action p :=
    expect TOK_ANIMATION p s (fun p => expect TOK_ON p s (fun p =>
    expect_text TOK_STRING p s (fun target p => goes_on p (add_animation action target s)))) in
  match type (current p) with
  | TOK_STOP => rest "stop"%string (next_token p)
  | TOK_PAUSE => rest "pause"%string (next_token p)
  | TOK_RESUME => rest "resume"%string (next_token p)
  | _ => stops p s
  end.

(** [while (the token is not one of ts) next_token(p)] *)
Fixpoint skip_to (fuel : nat) (ts : list TokenType) (p : Parser) : exec Parser :=
  if bool_decide (type (current p) ∈ ts) then Done p
  else match fuel with O => Fault Diverges | S f => skip_to f ts (next_token p) end.

(** The items of the array of a [for] loop. *)
Fixpoint each_item (var : string) (l : list cJSON) (s : EvalState) : EvalState :=
  match l with
  | [] => s
  | i :: l' =>
      if loop_count s <? 10000 then
        let s := count_loop s in
        each_item var l' (match valuestring i with Some v => add_set var v s | None => s end)
      else s
  end.
(** The array of the key, [cJSON_Parse]d. *)
Context (store_get : option (string -> option string)).
Definition for_items (var arr_key : string) (s : EvalState) : exec EvalState :=
  get ← deref store_get;
  match get arr_key with
  | Some (String "[" r) =>
      match cJSON_Parse (String "[" r) with
      | Done arr => Done (if decide (CJson.type arr = cJSON_Array) then each_item var (child arr) s else s)
      | Fail => Done s
      | Fault e => Fault e
      end
  | _ => Done s
  end.

Definition block_end : list TokenType := [TOK_END; TOK_ELSE; TOK_EOF].
Fixpoint eval_statement (fuel : nat) (p : Parser) (s : EvalState) : outcome :=
  match fuel with
  | O => Fault Diverges
  | S f =>
      if 10000 <? loop_count s then stops p s else
      match type (current p) with
      | TOK_ANIMATE => p ← rewind 7 (next_token p); eval_animate_statement p s
      | TOK_STOP => p ← rewind 4 (next_token p); eval_animation_control p s
      | TOK_PAUSE => p ← rewind 5 (next_token p); eval_animation_control p s
      | TOK_RESUME => p ← rewind 6 (next_token p); eval_animation_control p s
      | TOK_STYLE => p ← rewind 5 (next_token p); eval_style_block f p s
      | TOK_KEYMAP => p ← rewind 6 (next_token p); eval_keymap_block f p s
      | TOK_WHEN =>
          '(cond, p) ← eval_expression f (next_token p);
          match cond with
          | None => stops p s
          | Some cond =>
              if truthy cond then
                '(ok, p, s) ← eval_block f p s;
                if negb ok then stops p s else
                let '(m, p) := token_match p TOK_ELSE in
                p ← (if (m : bool) then skip_to f [TOK_END; TOK_EOF] p else Done p : exec Parser);
                goes_on (token_match p TOK_END).2 s
              else
                p ← skip_to f [TOK_THEN; TOK_EOF] p;
                '(ok, p, s) ← eval_while f (next_token p) s;
                if negb ok then stops p s else
                let '(m, p) := token_match p TOK_ELSE in
                '(_, p, s) ← (if (m : bool) then eval_block f p s else goes_on p s : outcome);
                goes_on (token_match p TOK_END).2 s
          end
      | TOK_LET | TOK_SET =>
          expect_text TOK_IDENT (next_token p) s (fun key p =>
          expect TOK_TO p s (fun p =>
          '(val, p) ← eval_expression f p;
          match val with None => stops p s | Some val => v ← cstr val; goes_on p (add_set key v s) end))
      | TOK_REJECT =>
          expect TOK_WITH (next_token p) s (fun p =>
          expect_text TOK_STRING p s (fun m p => goes_on p (set_verdict true (Some m) s)))
      | TOK_ACCEPT => goes_on (next_token p) (set_verdict false None s)
      | TOK_SHOW =>
          '(cond, p) ← eval_expression f (token_match (next_token p) TOK_WHEN).2;
          match cond with None => stops p s | Some cond => goes_on p (set_show (truthy cond) s) end
      | TOK_FOR =>
          expect_text TOK_IDENT (token_match (next_token p) TOK_EACH).2 s (fun var p =>
          expect TOK_IN p s (fun p =>
          expect_text TOK_IDENT p s (fun arr_key p =>
          expect TOK_DO p s (fun p =>
          s ← for_items var arr_key s;
          goes_on (token_match p TOK_END).2 s))))
      | _ => stops p s
      end
  end
(** The statements up to the end of a block. *)
with eval_while (fuel : nat) (p : Parser) (s : EvalState) : outcome :=
  match fuel with
  | O => Fault Diverges
  | S f =>
      if bool_decide (type (current p) ∈ block_end) then goes_on p s else
      '(ok, p, s) ← eval_statement f p s;
      if (ok : bool) then eval_while f p s else stops p s
  end
with eval_block (fuel : nat) (p : Parser) (s : EvalState) : outcome :=
  match fuel with
  | O => Fault Diverges
  | S f => eval_while f (token_match p TOK_THEN).2 s
  end.

(** The loop of [fil_eval]. *)
Fixpoint eval_script (fuel : nat) (p : Parser) (s : EvalState) : exec EvalState :=
  match fuel with
  | O => Fault Diverges
  | S f =>
      if is_tok TOK_EOF p then Done s else
      '(ok, p, s) ← eval_statement f p s;
      if (ok : bool) then eval_script f p s else Done s
  end.

Record FilResult := mkFilResult {
  accepted : bool; r_error_msg : option string; r_sets : list (string * string); r_show_widget : bool;
  r_styles : list (string * string); r_keymaps : list string; r_animations : list (string * string)
}.
Definition state0 : EvalState := mkState [] false None false 0 [] [] [].
Definition parser0 (script : string) : Parser := next_token (mkParser (chars script) 0 (make_token TOK_WHEN None 0)).
(** Each token costs at most three calls. *)
Definition fil_fuel (script : string) : nat := 3 * String.length script + 10.
Definition fil_eval (script : string) : exec FilResult :=
  s ← eval_script (fil_fuel script) (parser0 script) state0;
  Done (mkFilResult (negb (rejected s)) (error_msg s) (sets s) (show_widget s) (styles s) (keymap_bindings s) (animations s)).
End fil.

(** ** The lexer *)

Lemma span_split f l : exists r, l = span f l ++ r /\ match r with c :: _ => f c = false | [] => True end.
Proof.
  induction l as [|c l (r & Hl & Hr)]; [by exists []|]. cbn [span]. destruct (f c) eqn:E; [|by exists (c :: l)].
  exists r. split; [by rewrite Hl at 1|done].
Qed.
Lemma span_length f l : (length (span f l) <= length l)%nat.
Proof. destruct (span_split f l) as (r & Hl & _). apply (f_equal length) in Hl. rewrite length_app in Hl. lia. Qed.

Lemma keyword_type_in ks w : keyword_type ks w <> TOK_IDENT -> (w, keyword_type ks w) ∈ ks.
Proof.
  induction ks as [|[k t] ks IH]; [done|]. cbn [keyword_type]. case_decide as E; [subst; intros _; by left|]. intros H. right. by apply IH.
Qed.
Lemma keyword_type_inv w k t : (k, t) ∈ keywords -> keyword_type keywords w = t -> w = k.
Proof.
  intros Hk Ht. assert (t <> TOK_IDENT) as Hi.
  { intros ->. assert (forallb (fun kt => bool_decide (kt.2 <> TOK_IDENT)) keywords = true) as H by done.
    rewrite forallb_forall in H. apply list_elem_of_In, H in Hk. by apply bool_decide_eq_true in Hk. }
  assert ((w, t) ∈ keywords) as Hw by (rewrite <-Ht; apply keyword_type_in; by rewrite Ht).
  assert (NoDup keywords.*2) as Hd by (apply (bool_decide_unpack _); vm_compute; done).
  apply list_elem_of_lookup in Hk as [i Hi1], Hw as [j Hj]. assert (i = j) as ->.
  { apply (NoDup_lookup keywords.*2 i j t); [done|by rewrite list_lookup_fmap, Hi1|by rewrite list_lookup_fmap, Hj]. }
  congruence.
Qed.
(** Only words are keywords. *)
Definition is_keyword (t : TokenType) : bool := existsb (fun kt => bool_decide (kt.2 = t)) keywords.
Lemma keyword_in k t : (k, t) ∈ keywords -> is_keyword t = true.
Proof. intros H. apply existsb_exists. exists (k, t). split; [by apply list_elem_of_In|by apply bool_decide_eq_true]. Qed.

(** What [lex] promises: it moves on, inside the source; only an end of file
    has no length; and a keyword is spelled just before the new position. *)
Record lexed (l : list ascii) (t : Token) (n : nat) : Prop := mkLexed {
  lexed_inside : (n <= length l)%nat;
  lexed_moves : n = O -> l = [] /\ type t = TOK_EOF;
  lexed_eof : type t = TOK_EOF -> text t = None;
  lexed_word : forall k, (k, type t) ∈ keywords -> (String.length k <= n)%nat /\ take (String.length k) (drop (n - String.length k) l) = chars k
}.
Lemma lexed_plain l t n : (0 < n <= length l)%nat -> is_keyword (type t) = false -> (type t = TOK_EOF -> text t = None) -> lexed l t n.
Proof. intros H1 H2 H3. split; [lia|lia|done|]. intros k Hk%keyword_in. congruence. Qed.

Lemma keyword_type_not_eof w : keyword_type keywords w <> TOK_EOF.
Proof. unfold keywords. cbn [keyword_type]. repeat (case_decide; [done|]). done. Qed.

Lemma lex_spec l : lexed l (lex l).1 (lex l).2.
Proof.
  unfold lex. destruct (span_split is_blank l) as (r & Hl & _). pose proof (span_length is_blank l) as Hw.
  set (w := span is_blank l) in *. clearbody w. assert (drop (length w) l = r) as -> by (rewrite Hl; apply drop_app_length). destruct r as [|c r].
  { cbn [fst snd]. rewrite app_nil_r in Hl. split; [done|intros Hn; split; [by rewrite Hl; apply length_zero_iff_nil|done]|done|]. intros k Hk%keyword_in. done. }
  assert (length l = length w + S (length r))%nat as Hlen by (rewrite Hl, length_app; done).
  destruct (Ascii.eqb c "{"); [apply lexed_plain; [cbn; lia|done|done]|]. destruct (Ascii.eqb c "}"); [apply lexed_plain; [cbn; lia|done|done]|].
  destruct (Ascii.eqb c DQUOTE); [|destruct (isdigit c) eqn:Hdig; [|destruct (is_word_start c) eqn:Hc; [|apply lexed_plain; [cbn; lia|done|done]]]]; cbn [fst snd].
  - apply lexed_plain; [|done|done]. pose proof (span_length (fun d => negb (Ascii.eqb d DQUOTE)) r).
    match goal with |- context [if ?b then _ else _] => destruct b eqn:Hb end; [apply Nat.ltb_lt in Hb; lia|lia].
  - apply lexed_plain; [|done|done]. pose proof (span_length isdigit (c :: r)). cbn [span] in *. rewrite Hdig in *. cbn [length] in *. lia.
  - set (s := span is_word (c :: r)).
    destruct (span_split is_word (c :: r)) as (r' & Hr' & _). fold s in Hr'. pose proof (span_length is_word (c :: r)) as Hs. fold s in Hs.
    assert (0 < length s)%nat by (unfold s; cbn [span]; unfold is_word; rewrite Hc; cbn; lia). cbn [length] in Hs.
    split; [lia|lia|intros Hk; by apply keyword_type_not_eof in Hk|].
    intros k Hk. cbn [word_token make_token type] in Hk. apply (keyword_type_inv (of_chars s)) in Hk; [|done]. subst k.
    assert (String.length (of_chars s) = length s) as Hlk by (rewrite <-length_chars; by rewrite list_ascii_of_string_of_list_ascii).
    rewrite Hlk, list_ascii_of_string_of_list_ascii. split; [lia|].
    replace (length w + length s - length s)%nat with (length w) by lia. rewrite Hl, drop_app_length, Hr'. apply take_app_length.
Qed.

(** A word is not left before its end. *)
Lemma lex_reach a l : a <> [] -> Forall (fun c => isalpha c = true) a -> (length a <= (lex (a ++ l)).2)%nat.
Proof.
  intros Hn Ha. destruct a as [|c a]; [done|]. inversion Ha as [|? ? Hc Ha']. subst. unfold lex.
  assert (is_blank c = false /\ Ascii.eqb c "{" = false /\ Ascii.eqb c "}" = false /\ Ascii.eqb c DQUOTE = false /\ isdigit c = false) as (H1 & H2 & H3 & H4 & H5).
  { clear -Hc. destruct c as [[] [] [] [] [] [] [] []]; first [discriminate Hc|repeat split]. }
  cbn [app]. assert (span is_blank (c :: a ++ l) = []) as -> by (cbn [span]; by rewrite H1). cbn [length drop].
  rewrite H2, H3, H4, H5. unfold is_word_start. rewrite Hc. cbn [orb snd].
  change (c :: a ++ l) with ((c :: a) ++ l). rewrite span_app; [rewrite length_app; cbn [length]; lia|].
  eapply list.Forall_impl; [exact Ha|]. intros d Hd. unfold is_word, is_word_start. by rewrite Hd.
Qed.

(** ** Progress

    The source behind the position, and the current token. *)
Definition ahead (p : Parser) : nat := length (src p) - pos p + (if is_tok TOK_EOF p then 0 else 1).
Record parser_ok (p : Parser) : Prop := mkOk {
  ok_inside : (pos p <= length (src p))%nat;
  ok_eof : is_tok TOK_EOF p = true -> text (current p) = None;
  ok_word : forall k, (k, type (current p)) ∈ keywords ->
    (String.length k <= pos p)%nat /\ take (String.length k) (drop (pos p - String.length k) (src p)) = chars k
}.

Lemma is_tok_spec t p : is_tok t p = true <-> type (current p) = t.
Proof. unfold is_tok. apply bool_decide_eq_true. Qed.
Lemma is_tok_not t p : is_tok t p = false <-> type (current p) <> t.
Proof. unfold is_tok. apply bool_decide_eq_false. Qed.

Lemma next_token_ok p : (pos p <= length (src p))%nat -> parser_ok (next_token p) /\ (pos p <= pos (next_token p))%nat /\
  (ahead (next_token p) <= length (src p) - pos p)%nat.
Proof.
  intros Hp. unfold next_token. pose proof (lex_spec (drop (pos p) (src p))) as [H1 H2 H3 H4]. destruct (lex _) as [t n]. cbn [fst snd] in *.
  rewrite length_drop in H1. split; [split; cbn [src pos current]|]; [lia| | |].
  - intros He%is_tok_spec. by apply H3.
  - intros k Hk. destruct (H4 k Hk) as [H5 H6]. split; [lia|]. rewrite drop_drop in H6.
    by replace (pos p + n - String.length k)%nat with (pos p + (n - String.length k))%nat by lia.
  - split; [cbn; lia|]. unfold ahead. cbn [src pos]. destruct (decide (n = O)) as [->|Hn].
    + destruct (H2 eq_refl) as [_ He]. rewrite (proj2 (is_tok_spec TOK_EOF _)) by done. lia.
    + destruct (is_tok TOK_EOF _); lia.
Qed.
Lemma next_ok p : parser_ok p -> parser_ok (next_token p).
Proof. intros [H _ _]. by apply next_token_ok. Qed.
Lemma next_le p : parser_ok p -> (ahead (next_token p) <= ahead p)%nat.
Proof. intros [H _ _]. apply next_token_ok in H as (_ & _ & H). unfold ahead at 2. lia. Qed.
Lemma next_lt p : parser_ok p -> is_tok TOK_EOF p = false -> (ahead (next_token p) < ahead p)%nat.
Proof. intros [H _ _] He. apply next_token_ok in H as (_ & _ & H). unfold ahead at 2. rewrite He. lia. Qed.
Lemma tok_not_eof t p : t <> TOK_EOF -> is_tok t p = true -> is_tok TOK_EOF p = false.
Proof. intros Ht H%is_tok_spec. apply is_tok_not. congruence. Qed.

(** Going back by the length of the keyword just passed, from behind the token
    after it, reads a token that does not end before the keyword does. *)
Lemma rewind_ok p k t : parser_ok p -> is_tok t p = true -> (k, t) ∈ keywords -> k <> EmptyString ->
  Forall (fun c => isalpha c = true) (chars k) ->
  exists p', rewind (String.length k) (next_token p) = Done p' /\ parser_ok p' /\ (ahead p' <= ahead p)%nat.
Proof.
  intros Hok Ht Hk Hne Ha. assert (is_tok TOK_EOF p = false) as He.
  { apply (tok_not_eof t); [|done]. intros ->. by apply keyword_in in Hk. }
  pose proof (proj1 (is_tok_spec _ _) Ht) as Ht'. rewrite <-Ht' in Hk.
  destruct Hok as [Hin Hoe Hw]. destruct (Hw k Hk) as [Hk1 Hk2]. destruct (next_token_ok p Hin) as ([Hin1 Hoe1 Hw1] & Hp1 & _).
  assert (src (next_token p) = src p) as Hsrc by (unfold next_token; by destruct (lex _)). set (p1 := next_token p) in *. clearbody p1.
  unfold rewind. rewrite (proj2 (Nat.ltb_ge _ _)) by lia. eexists. split; [reflexivity|].
  set (q := mkParser (src p1) (pos p1 - String.length k) (current p1)).
  assert (pos q <= length (src q))%nat as Hq by (cbn; rewrite Hsrc in *; lia). destruct (next_token_ok q Hq) as (Hok2 & Hp2 & Ha2).
  assert (src (next_token q) = src p) as Hsrc2 by (unfold next_token; destruct (lex _); by rewrite <-Hsrc).
  assert (pos p <= pos (next_token q))%nat as Hreach.
  { destruct (decide (pos p <= pos q)%nat) as [|Hlt]; [lia|]. cbn [q pos] in Hlt.
    set (j := (pos p - pos q)%nat). assert (j = pos p - (pos p1 - String.length k))%nat as Hj by done.
    assert (exists r, drop (pos q) (src q) = drop (String.length k - j) (chars k) ++ r) as [r Hr].
    { cbn [q src pos]. rewrite Hsrc. exists (drop (pos p) (src p)). rewrite <-Hk2, skipn_firstn_comm, drop_drop.
      replace (String.length k - (String.length k - j))%nat with j by lia.
      replace (pos p - String.length k + (String.length k - j))%nat with (pos p1 - String.length k)%nat by lia.
      rewrite <-(take_drop j (drop (pos p1 - String.length k) (src p))) at 1. f_equal. rewrite drop_drop. f_equal. lia. }
    pose proof (lex_reach (drop (String.length k - j) (chars k)) r) as Hl. rewrite length_drop, length_chars in Hl.
    rewrite <-Hr in Hl. unfold next_token. destruct (lex _) as [t2 n2]. cbn [fst snd pos] in *.
    assert (String.length k - (String.length k - j) <= n2)%nat; [|lia]. apply Hl; [|by apply list.Forall_drop].
    intros H. apply (f_equal length) in H. rewrite length_drop, length_chars in H. cbn in H. lia. }
  split; [done|].
  unfold ahead at 2. rewrite He. unfold ahead. rewrite Hsrc2. destruct (is_tok TOK_EOF (next_token q)); lia.
Qed.

(** ** Every script ends *)

Section total.
Context (regcomp : string -> bool) (regexec : string -> string -> bool) (store_get : option (string -> option string)).

(** A value costs a token at least; the rest only never goes back. *)
Definition expr_post (n : nat) (r : result) : Prop :=
  match r with
  | Done (Some _, p) => parser_ok p /\ (ahead p < n)%nat
  | Done (None, p) => parser_ok p /\ (ahead p <= n)%nat
  | Fail => False
  | Fault e => e <> Diverges
  end.
Definition stmt_post (n : nat) (o : outcome) : Prop :=
  match o with
  | Done (true, p, _) => parser_ok p /\ (ahead p < n)%nat
  | Done (false, p, _) => parser_ok p /\ (ahead p <= n)%nat
  | Fail => False
  | Fault e => e <> Diverges
  end.
Lemma expr_post_mono n n' r : (n <= n')%nat -> expr_post n r -> expr_post n' r.
Proof. intros Hn. destruct r as [[[v|] p]| |e]; cbn; try tauto; intros [? ?]; (split; [done|lia]). Qed.
Lemma stmt_post_mono n n' o : (n <= n')%nat -> stmt_post n o -> stmt_post n' o.
Proof. intros Hn. destruct o as [[[[] p] s]| |e]; cbn; try tauto; intros [? ?]; (split; [done|lia]). Qed.

Lemma match_ok t p : parser_ok p -> parser_ok (token_match p t).2 /\ (ahead (token_match p t).2 <= ahead p)%nat.
Proof. intros H. unfold token_match. destruct (is_tok t p); [split; [by apply next_ok|by apply next_le]|done]. Qed.
Lemma match_lt t p : t <> TOK_EOF -> parser_ok p -> (token_match p t).1 = true -> (ahead (token_match p t).2 < ahead p)%nat.
Proof. intros Ht H. unfold token_match. destruct (is_tok t p) eqn:E; [intros _; apply next_lt; [done|by eapply tok_not_eof]|done]. Qed.

(** Steps over a test of the current token, keeping the facts on the parser. *)
Ltac step_match :=
  match goal with
  | |- context [token_match ?p ?t] =>
      let H := fresh "Hok" in let L := fresh "Hle" in let T := fresh "Hlt" in
      destruct (match_ok t p ltac:(assumption)) as [H L];
      assert (t <> TOK_EOF -> (token_match p t).1 = true -> (ahead (token_match p t).2 < ahead p)%nat) as T by (intros ?; by apply match_lt);
      specialize (T ltac:(discriminate)); destruct (token_match p t) as [? ?]; cbn [fst snd] in H, L, T
  end.

Lemma cstr_post v : cstr v = Done v \/ cstr v = Fault OutOfBounds.
Proof. unfold cstr. destruct (terminated v); tauto. Qed.
Ltac step_cstr := match goal with |- context [cstr ?v] => destruct (cstr_post v) as [-> | ->]; [cbn [mbind exec_bind]|done] end.

Lemma expr_bind {n n' r} (k : option string * Parser -> result) : expr_post n r ->
  (forall v p, parser_ok p -> (ahead p < n)%nat -> expr_post n' (k (Some v, p))) ->
  (forall p, parser_ok p -> (ahead p <= n)%nat -> expr_post n' (k (None, p))) -> expr_post n' (r ≫= k).
Proof. destruct r as [[[v|] p]| |e]; cbn [expr_post mbind exec_bind]; [intros [? ?] Hs _; by apply Hs|intros [? ?] _ Hn; by apply Hn|done|done]. Qed.
Lemma stmt_bind {n n' r} (k : option string * Parser -> outcome) : expr_post n r ->
  (forall v p, parser_ok p -> (ahead p < n)%nat -> stmt_post n' (k (Some v, p))) ->
  (forall p, parser_ok p -> (ahead p <= n)%nat -> stmt_post n' (k (None, p))) -> stmt_post n' (r ≫= k).
Proof. destruct r as [[[v|] p]| |e]; cbn [expr_post mbind exec_bind]; [intros [? ?] Hs _; by apply Hs|intros [? ?] _ Hn; by apply Hn|done|done]. Qed.

Lemma primary_post f : (forall p, parser_ok p -> (ahead p + 2 <= f)%nat -> expr_post (ahead p) (eval_primary regcomp regexec f p)) /\
  (forall p, parser_ok p -> (ahead p + 1 <= f)%nat -> expr_post (ahead p) (eval_function regcomp regexec f p)).
Proof.
  induction f as [|f [IHp IHf]]; [split; intros; lia|]. split; intros p Hok Hf; cbn [eval_primary eval_function].
  - step_match. destruct b; [split; [done|by apply Hlt]|]. step_match. destruct b.
    + specialize (Hlt0 eq_refl). eapply expr_bind; [apply IHp; [done|lia]| |]; intros; (split; [done|lia]).
    + clear Hlt Hlt0. rename p1 into q. assert (ahead q <= ahead p)%nat as Hq by lia.
      assert (is_tok TOK_EOF q = false -> parser_ok (next_token q) /\ (ahead (next_token q) < ahead p)%nat) as Hnext.
      { intros He. split; [by apply next_ok|]. apply next_lt in He; [lia|done]. }
      assert (expr_post (ahead p) (eval_function regcomp regexec f q)) as Hfun.
      { apply (expr_post_mono (ahead q)); [done|]. apply IHf; [done|]. lia. }
      destruct (is_tok TOK_IDENT q); [done|]. destruct (is_tok TOK_STRING q) eqn:Hs.
      { destruct (text (current q)); [cbn; apply Hnext; by apply (tok_not_eof TOK_STRING)|done]. }
      destruct (is_tok TOK_NUMBER q) eqn:Hnum; [cbn; apply Hnext; by apply (tok_not_eof TOK_NUMBER)|].
      destruct (text (current q)) as [[|c w]|] eqn:Ht; try done. destruct (isalpha c); [|done].
      destruct Hnext as [H1 H2].
      { destruct (is_tok TOK_EOF q) eqn:E; [|done]. apply (ok_eof _ Hok1) in E. congruence. }
      cbn zeta. destruct (is_tok TOK_OF (next_token q)); [|split; [done|lia]].
      eapply expr_post_mono; [|apply IHf; [done|lia]]. lia.
  - destruct (text (current p)) as [t|] eqn:Ht; [|done]. cbn [deref mbind exec_bind]. destruct (63 <=? _)%nat; [done|].
    assert (is_tok TOK_EOF p = false) as He. { destruct (is_tok TOK_EOF p) eqn:E; [|done]. apply (ok_eof _ Hok) in E. congruence. }
    pose proof (next_ok _ Hok) as Hok1. pose proof (next_lt _ Hok He) as Hlt1. set (p1 := next_token p) in *. clearbody p1.
    step_match. destruct b; cbn [negb]; [|split; [done|lia]]. specialize (Hlt eq_refl).
    eapply expr_bind; [apply IHp; [done|lia]| |]; [|intros; split; [done|lia]]. intros arg p2 Hok2 Hlt2. cbn beta iota.
    repeat (case_decide; [step_cstr; split; [done|lia]|]). case_decide; [|split; [done|lia]].
    step_match. destruct b; cbn [negb]; [|split; [done|lia]].
    eapply expr_bind; [apply IHp; [done|lia]| |]; [|intros; split; [done|lia]]. intros pat p4 Hok4 Hlt4. cbn beta iota.
    step_cstr. destruct (regcomp pat); [step_cstr|]; (split; [done|lia]).
Qed.

Lemma value_atoi_post v : (exists z, value_atoi v = Done z) \/ value_atoi v = Fault OutOfBounds.
Proof. unfold value_atoi. destruct (_ <? _)%nat; eauto. Qed.
Lemma same_post a b : (exists z, same a b = Done z) \/ same a b = Fault OutOfBounds.
Proof. unfold same. case_decide; [|eauto]. destruct (cstr_post a) as [-> | ->]; cbn; eauto. Qed.

Lemma comparison_post f p : parser_ok p -> (ahead p + 2 <= f)%nat -> expr_post (ahead p) (eval_comparison regcomp regexec f p).
Proof.
  intros Hok Hf. unfold eval_comparison. destruct (primary_post f) as [Hprim _].
  eapply expr_bind; [by apply Hprim| |]; [|intros; split; [done|lia]]. intros lhs p1 Hok1 Hlt1. cbn beta iota.
  step_match. destruct b.
  - specialize (Hlt eq_refl). step_match. step_match. destruct b0; [split; [done|lia]|]. step_match.
    match goal with |- context [let '(greater, p) := if ?b then (false, ?q) else token_match ?q ?t in _] =>
      assert (exists g q', (if b then (false, q) else token_match q t) = (g, q') /\ parser_ok q' /\ (ahead q' <= ahead q)%nat) as (g & q' & -> & Hq1 & Hq2);
      [destruct b; [by eexists _, _|step_match; eauto]|] end.
    assert (parser_ok (if (b0 || g)%bool then (token_match q' TOK_THAN).2 else q') /\ (ahead (if (b0 || g)%bool then (token_match q' TOK_THAN).2 else q') <= ahead q')%nat) as [Hr1 Hr2].
    { destruct (b0 || g)%bool; [by apply match_ok|done]. }
    cbn zeta. set (q2 := if (b0 || g)%bool then _ else _) in *. clearbody q2.
    eapply expr_bind; [apply Hprim; [done|lia]| |]; [|intros; split; [done|lia]]. intros rhs p5 Hok5 Hlt5. cbn beta iota.
    destruct (b0 || g)%bool.
    + destruct (value_atoi_post lhs) as [[l ->] | ->]; [|done]. cbn [mbind exec_bind].
      destruct (value_atoi_post rhs) as [[r ->] | ->]; [|done]. split; [done|lia].
    + destruct (same_post lhs rhs) as [[l ->] | ->]; [|done]. split; [done|lia].
  - step_match. destruct b; [|split; [done|lia]].
    eapply expr_bind; [apply Hprim; [done|lia]| |]; [|intros; split; [done|lia]]. intros pat p3 Hok3 Hlt3. cbn beta iota.
    step_cstr. destruct (regcomp pat); [step_cstr|]; (split; [done|lia]).
Qed.

Lemma operators_post f : forall lhs p n, parser_ok p -> (ahead p + 2 <= f)%nat -> (ahead p < n)%nat ->
  expr_post n (eval_operators regcomp regexec f lhs p).
Proof.
  induction f as [|f IH]; intros lhs p n Hok Hf Hn; [lia|]. cbn [eval_operators]. step_match.
  assert (exists m q, (if b then (false, p0) else token_match p0 TOK_OR) = (m, q) /\ parser_ok q /\ (ahead q <= ahead p)%nat /\
    ((b || m)%bool = true -> (ahead q < ahead p)%nat)) as (m & q & -> & Hq & Hle' & Hlt').
  { destruct b; [exists false, p0; split_and!; try done; intros _; by apply Hlt|]. step_match. exists b, p1. split_and!; try done; [lia|]. intros Hb. specialize (Hlt0 Hb). lia. }
  destruct (b || m)%bool; cbn [negb]; [|split; [done|lia]]. specialize (Hlt' eq_refl).
  pose proof (next_ok _ Hq) as Hok1. pose proof (next_le _ Hq) as Hle1. cbn zeta. set (p1 := next_token q) in *. clearbody p1.
  eapply expr_bind; [apply comparison_post; [done|lia]| |]; [|intros; split; [done|lia]]. intros rhs p2 Hok2 Hlt2. cbn beta iota.
  apply IH; [done|lia|lia].
Qed.
Lemma expression_post f p n : parser_ok p -> (ahead p + 2 <= f)%nat -> (ahead p <= n)%nat -> expr_post n (eval_expression regcomp regexec f p).
Proof.
  intros Hok Hf Hn. unfold eval_expression. eapply expr_bind; [by apply comparison_post| |]; [|intros; split; [done|lia]].
  intros v p1 Hok1 Hlt1. apply operators_post; [done|lia|lia].
Qed.

Lemma expect_post n t p s k : t <> TOK_EOF -> parser_ok p -> (ahead p <= n)%nat ->
  (forall p', parser_ok p' -> (ahead p' < ahead p)%nat -> stmt_post n (k p')) -> stmt_post n (expect t p s k).
Proof.
  intros Ht Hok Hn Hk. unfold expect. pose proof (match_ok t p Hok) as [H1 H2]. pose proof (match_lt t p Ht Hok) as H3.
  destruct (token_match p t) as [[] q]; cbn [fst snd] in *; [apply Hk; [done|by apply H3]|split; [done|lia]].
Qed.
Lemma expect_text_post n t p s k : t <> TOK_EOF -> parser_ok p -> (ahead p <= n)%nat ->
  (forall x p', parser_ok p' -> (ahead p' < ahead p)%nat -> stmt_post n (k x p')) -> stmt_post n (expect_text t p s k).
Proof.
  intros Ht Hok Hn Hk. unfold expect_text. destruct (is_tok t p) eqn:E; [|split; [done|lia]].
  destruct (text (current p)) as [x|]; [|done]. cbn [deref mbind exec_bind]. apply Hk; [by apply next_ok|].
  apply next_lt; [done|]. by eapply tok_not_eof.
Qed.
Ltac expecting := first [apply expect_post; [discriminate|assumption|lia|intros ? ? ?] | apply expect_text_post; [discriminate|assumption|lia|intros ? ? ? ?]].

Lemma style_post f : forall widget ch p s n, parser_ok p -> (ahead p + 2 <= f)%nat -> (ahead p < n)%nat ->
  stmt_post n (style_properties regcomp regexec f widget ch p s).
Proof.
  induction f as [|f IH]; intros widget ch p s n Hok Hf Hn; [lia|]. cbn [style_properties].
  destruct (_ || _)%bool; [destruct (match_ok TOK_RBRACE p Hok) as [H1 H2]; split; [done|lia]|].
  expecting. expecting. eapply stmt_bind; [eapply (expression_post _ _ (ahead p'0)); [done|lia|lia]| |]; [|intros; split; [done|lia]].
  intros v p1 Hok1 Hlt1. cbn beta iota. step_cstr. apply IH; [done|lia|lia].
Qed.
Lemma keymap_post f : forall sc p s n, parser_ok p -> (ahead p + 1 <= f)%nat -> (ahead p < n)%nat -> stmt_post n (keymap_entries f sc p s).
Proof.
  induction f as [|f IH]; intros sc p s n Hok Hf Hn; [lia|]. cbn [keymap_entries].
  destruct (_ || _)%bool; [destruct (match_ok TOK_RBRACE p Hok) as [H1 H2]; split; [done|lia]|].
  do 7 expecting. apply IH; [done|lia|lia].
Qed.

Lemma skip_post f : forall ts p, TOK_EOF ∈ ts -> parser_ok p -> (ahead p <= f)%nat ->
  exists q, skip_to f ts p = Done q /\ parser_ok q /\ (ahead q <= ahead p)%nat.
Proof.
  induction f as [|f IH]; intros ts p Hts Hok Hf; cbn [skip_to]; (case_bool_decide as Hin; [by exists p|]);
    (assert (is_tok TOK_EOF p = false) as He by (apply is_tok_not; intros E; apply Hin; by rewrite E)).
  - unfold ahead in Hf. rewrite He in Hf. lia.
  - pose proof (next_lt _ Hok He). destruct (IH ts (next_token p)) as (q & Hq & H1 & H2); [done|by apply next_ok|lia|]. exists q. split_and!; [done|done|lia].
Qed.
Lemma for_items_post var a s : (exists s', for_items store_get var a s = Done s') \/ for_items store_get var a s = Fault NullDeref.
Proof.
  unfold for_items. destruct store_get as [get|]; [|by right]. left. cbn [deref mbind exec_bind].
  destruct (get a) as [[|c r]|]; eauto. destruct c as [[] [] [] [] [] [] [] []]; eauto.
  pose proof (no_fault_parse (String "[" r)) as H. destruct (cJSON_Parse _); [eauto|eauto|done].
Qed.

(** A statement that goes back by the length of its keyword. *)
Lemma rewind_post k t p (body : Parser -> outcome) : parser_ok p -> type (current p) = t -> (k, t) ∈ keywords -> k <> EmptyString ->
  Forall (fun c => isalpha c = true) (chars k) ->
  (forall p', parser_ok p' -> (ahead p' <= ahead p)%nat -> stmt_post (ahead p) (body p')) ->
  stmt_post (ahead p) (p' ← rewind (String.length k) (next_token p); body p').
Proof.
  intros Hok Ht Hk Hne Ha Hb. destruct (rewind_ok p k t) as (p' & -> & Hok' & Hle); [done|by apply is_tok_spec|done|done|done|].
  by apply Hb.
Qed.
Lemma animate_post p s n : parser_ok p -> (ahead p <= n)%nat -> stmt_post n (eval_animate_statement p s).
Proof. intros Hok Hn. unfold eval_animate_statement. do 4 expecting. split; [done|lia]. Qed.
Lemma control_post p s n : parser_ok p -> (ahead p <= n)%nat -> stmt_post n (eval_animation_control p s).
Proof.
  intros Hok Hn. unfold eval_animation_control. pose proof (next_ok _ Hok). pose proof (next_le _ Hok). cbn zeta.
  destruct (type (current p)); try (split; [done|lia]); do 3 expecting; (split; [done|lia]).
Qed.

Definition block_post (n : nat) (o : outcome) : Prop :=
  match o with
  | Done (_, p, _) => parser_ok p /\ (ahead p <= n)%nat
  | Fail => False
  | Fault e => e <> Diverges
  end.
Lemma block_bind {n n' o} (k : bool * Parser * EvalState -> outcome) : block_post n o ->
  (forall b p s, parser_ok p -> (ahead p <= n)%nat -> stmt_post n' (k (b, p, s))) -> stmt_post n' (o ≫= k).
Proof. destruct o as [[[b p] s]| |e]; cbn [block_post mbind exec_bind]; [intros [? ?] Hk; by apply Hk|done|done]. Qed.
Lemma block_post_mono n n' o : (n <= n')%nat -> block_post n o -> block_post n' o.
Proof. intros Hn. destruct o as [[[b p] s]| |e]; cbn; try tauto. intros [? ?]. split; [done|lia]. Qed.

Abbreviation statement := (eval_statement regcomp regexec store_get).
Abbreviation while := (eval_while regcomp regexec store_get).
Abbreviation block := (eval_block regcomp regexec store_get).

Lemma while_unfold f p s : while (S f) p s =
  if bool_decide (type (current p) ∈ block_end) then goes_on p s
  else '(ok, p, s) ← statement f p s; if (ok : bool) then while f p s else stops p s.
Proof. reflexivity. Qed.

Lemma when_post f p s :
  (forall p s, parser_ok p -> (3 * ahead p + 5 <= f)%nat -> block_post (ahead p) (while f p s)) ->
  (forall p s, parser_ok p -> (3 * ahead p + 6 <= f)%nat -> block_post (ahead p) (block f p s)) ->
  parser_ok p -> (3 * ahead p + 4 <= S f)%nat -> type (current p) = TOK_WHEN ->
  stmt_post (ahead p) (statement (S f) p s).
Proof.
  intros Hw Hb Hok Hf Ht. cbn [eval_statement]. destruct (_ <? _); [split; [done|lia]|]. rewrite Ht.
  assert (is_tok TOK_EOF p = false) as He by (apply is_tok_not; congruence).
  pose proof (next_ok _ Hok) as Hok1. pose proof (next_lt _ Hok He) as Hlt1. set (p1 := next_token p) in *. clearbody p1.
  eapply stmt_bind; [apply (expression_post _ _ (ahead p1)); [done|lia|lia]| |]; [|intros; split; [done|lia]].
  intros c p2 Hok2 Hlt2. cbn beta iota. destruct (truthy c).
  - eapply block_bind; [apply Hb; [done|lia]|]. intros b p3 s3 Hok3 Hle3. cbn beta iota. destruct b; cbn [negb]; [|split; [done|lia]].
    step_match. assert (exists q, (if b then skip_to f [TOK_END; TOK_EOF] p0 else Done p0) = Done q /\ parser_ok q /\ (ahead q <= ahead p0)%nat) as (q & -> & Hq & Hlq).
    { destruct b; [apply skip_post; [set_solver|done|lia]|by exists p0]. }
    destruct (match_ok TOK_END q Hq). split; [done|lia].
  - destruct (skip_post f [TOK_THEN; TOK_EOF] p2) as (q & -> & Hq & Hlq); [set_solver|done|lia|]. cbn [mbind exec_bind].
    pose proof (next_ok _ Hq). pose proof (next_le _ Hq).
    eapply block_bind; [apply Hw; [done|lia]|]. intros b p3 s3 Hok3 Hle3. cbn beta iota. destruct b; cbn [negb]; [|split; [done|lia]].
    step_match. eapply (block_bind (n := ahead p0)); [destruct b; [apply Hb; [done|lia]|done]|].
    intros b' p4 s4 Hok4 Hle4. destruct (match_ok TOK_END p4 Hok4). split; [done|lia].
Qed.

Lemma statement_post f :
  (forall p s, parser_ok p -> (3 * ahead p + 4 <= f)%nat -> stmt_post (ahead p) (statement f p s)) /\
  (forall p s, parser_ok p -> (3 * ahead p + 5 <= f)%nat -> block_post (ahead p) (while f p s)) /\
  (forall p s, parser_ok p -> (3 * ahead p + 6 <= f)%nat -> block_post (ahead p) (block f p s)).
Proof.
  induction f as [|f (IHs & IHw & IHb)]; [split_and!; intros; lia|]. split_and!; intros p s Hok Hf.
  - destruct (decide (type (current p) = TOK_WHEN)) as [|Hnw]; [by apply when_post|].
    cbn [eval_statement]. destruct (_ <? _); [split; [done|lia]|].
    destruct (decide (type (current p) = TOK_EOF)) as [He|He]; [rewrite He; split; [done|lia]|].
    apply is_tok_not in He. pose proof (next_ok _ Hok) as Hok1. pose proof (next_lt _ Hok He) as Hlt1.
    destruct (type (current p)) eqn:Ht; try done; try (split; [done|lia]).
    + expecting. expecting. eapply stmt_bind; [eapply (expression_post _ _ (ahead p'0)); [done|lia|lia]| |]; [|intros; split; [done|lia]].
      intros. cbn beta iota. step_cstr. split; [done|lia].
    + expecting. expecting. eapply stmt_bind; [eapply (expression_post _ _ (ahead p'0)); [done|lia|lia]| |]; [|intros; split; [done|lia]].
      intros. cbn beta iota. step_cstr. split; [done|lia].
    + do 2 expecting. split; [done|lia].
    + destruct (match_ok TOK_WHEN _ Hok1). eapply stmt_bind; [eapply (expression_post _ _ (ahead (next_token p))); [done|lia|lia]| |]; intros; (split; [done|lia]).
    + destruct (match_ok TOK_EACH _ Hok1). do 4 expecting. destruct (for_items_post x x0 s) as [[s' ->] | ->]; [|done].
      cbn [mbind exec_bind]. destruct (match_ok TOK_END p'2); [done|]. split; [done|lia].
    + apply (rewind_post "style" TOK_STYLE); [done|done|by repeat (first [left|right])|done|by repeat constructor|].
      intros q Hq Hlq. unfold eval_style_block. do 2 expecting. pose proof (next_ok p'0) as Hn. pose proof (next_le p'0) as Hl.
      set (r := if is_tok TOK_IDENT p'0 then next_token p'0 else p'0). assert (parser_ok r /\ (ahead r <= ahead p'0)%nat) as [Hr1 Hr2] by (unfold r; destruct (is_tok TOK_IDENT p'0); auto).
      clearbody r. cbn zeta. expecting. apply style_post; [done|lia|lia].
    + apply (rewind_post "animate" TOK_ANIMATE); [done|done|by repeat (first [left|right])|done|by repeat constructor|]. intros; by apply animate_post.
    + apply (rewind_post "stop" TOK_STOP); [done|done|by repeat (first [left|right])|done|by repeat constructor|]. intros; by apply control_post.
    + apply (rewind_post "pause" TOK_PAUSE); [done|done|by repeat (first [left|right])|done|by repeat constructor|]. intros; by apply control_post.
    + apply (rewind_post "resume" TOK_RESUME); [done|done|by repeat (first [left|right])|done|by repeat constructor|]. intros; by apply control_post.
    + apply (rewind_post "keymap" TOK_KEYMAP); [done|done|by repeat (first [left|right])|done|by repeat constructor|].
      intros q Hq Hlq. unfold eval_keymap_block. do 3 expecting. apply keymap_post; [done|lia|lia].
  - rewrite while_unfold. case_bool_decide; [split; [done|lia]|]. specialize (IHs p s Hok ltac:(lia)).
    destruct (statement f p s) as [[[[] q] s']| |e]; cbn [mbind exec_bind stmt_post] in *; [|exact IHs|done|done].
    destruct IHs as [H1 H2]. eapply block_post_mono; [|apply IHw; [done|lia]]. lia.
  - cbn [eval_block]. destruct (match_ok TOK_THEN p Hok). eapply block_post_mono; [|apply IHw; [done|lia]]. lia.
Qed.

Lemma script_post f : forall p s, parser_ok p -> (3 * ahead p + 5 <= f)%nat ->
  match eval_script regcomp regexec store_get f p s with Done _ => True | Fail => False | Fault e => e <> Diverges end.
Proof.
  induction f as [|f IH]; intros p s Hok Hf; [lia|]. cbn [eval_script]. destruct (is_tok TOK_EOF p); [done|].
  pose proof (proj1 (statement_post f) p s Hok ltac:(lia)) as H.
  destruct (statement f p s) as [[[[] q] s']| |e]; cbn [mbind exec_bind stmt_post] in *; [|done|done|done].
  destruct H as [H1 H2]. apply IH; [done|lia].
Qed.
End total.

(** C31: every script ends by itself, whatever its text: the statements that
    step back in the source never step back before their own keyword, and
    [fil_eval] returns a result or goes wrong, within a number of steps that is
    linear in the length of the script. *)
Theorem fil_eval_total regcomp regexec store_get script :
  fil_eval regcomp regexec store_get script <> Fault Diverges /\ fil_eval regcomp regexec store_get script <> Fail.
Proof.
  unfold fil_eval. pose proof (next_token_ok (mkParser (chars script) 0 (make_token TOK_WHEN None 0))) as H. cbn [src pos] in H.
  destruct H as (Hok & _ & Ha); [lia|]. rewrite length_chars in Ha.
  assert (3 * ahead (parser0 script) + 5 <= fil_fuel script)%nat as Hf by (unfold fil_fuel, parser0; lia).
  pose proof (script_post regcomp regexec store_get (fil_fuel script) (parser0 script) state0 Hok Hf) as Hs.
  destruct (eval_script _ _ _ _ _ _); cbn [mbind exec_bind]; [done|done|]. split; [congruence|done].
Qed.

(** ** Scripts made of literals *)

Inductive simple := SetTo (k v : string) | Reject (m : string) | Accept | ShowWhen (v : string).
Inductive command := Simply (x : simple) | When (c : string) (th el : list simple).

(** A token as it is written. *)
Inductive tok := W (w : string) | L (s : string).
Definition tok_text (t : tok) : list ascii :=
  " "%char :: match t with W w => chars w | L s => DQUOTE :: chars s ++ [DQUOTE] end.
Definition tok_value (t : tok) : Token :=
  match t with W w => word_token (chars w) | L s => make_token TOK_STRING (Some s) 0 end.
Definition wordly (w : string) : bool :=
  match chars w with c :: l => is_word_start c && forallb is_word l | [] => false end.
Definition tok_ok (t : tok) : bool :=
  match t with W w => wordly w | L s => forallb (fun c => negb (Ascii.eqb c DQUOTE)) (chars s) end.

Definition simple_toks (x : simple) : list tok :=
  match x with
  | SetTo k v => [W "set"; W k; W "to"; L v]
  | Reject m => [W "reject"; W "with"; L m]
  | Accept => [W "accept"]
  | ShowWhen v => [W "show"; W "when"; L v]
  end.
Definition block_toks (l : list simple) : list tok := concat (map simple_toks l).
Definition command_toks (c : command) : list tok :=
  match c with
  | Simply x => simple_toks x
  | When c th el => [W "when"; L c; W "then"] ++ block_toks th ++ [W "else"] ++ block_toks el ++ [W "end"]
  end.
Definition script_toks (cs : list command) : list tok := concat (map command_toks cs).
Definition source (ts : list tok) : list ascii := concat (map tok_text ts).
(** The text of a script. *)
Definition script_text (cs : list command) : string := of_chars (source (script_toks cs)).

(** Names are words that are no keywords, strings fit a value and hold no quote. *)
Definition name_ok (k : string) : bool := wordly k && bool_decide (keyword_type keywords k = TOK_IDENT).
Definition literal_ok (v : string) : bool := tok_ok (L v) && terminated v.
Definition simple_ok (x : simple) : bool :=
  match x with SetTo k v => name_ok k && literal_ok v | Reject m => literal_ok m | Accept => true | ShowWhen v => literal_ok v end.
Definition command_ok (c : command) : bool :=
  match c with Simply x => simple_ok x | When c th el => literal_ok c && forallb simple_ok th && forallb simple_ok el end.

(** What a script does. A false condition does not skip the first block: it
    runs the first block and then the second. *)
Definition run_simple (s : EvalState) (x : simple) : EvalState :=
  match x with
  | SetTo k v => add_set k v s
  | Reject m => set_verdict true (Some m) s
  | Accept => set_verdict false None s
  | ShowWhen v => set_show (truthy v) s
  end.
Definition run_command (s : EvalState) (c : command) : EvalState :=
  match c with
  | Simply x => run_simple s x
  | When c th el => let s1 := foldl run_simple s th in if truthy c then s1 else foldl run_simple s1 el
  end.

(** The parser stands at the first of the tokens and the rest is to come. *)
Definition at_toks (p : Parser) (ts : list tok) : Prop :=
  forallb tok_ok ts = true /\
  match ts with
  | t :: ts' => current p = tok_value t /\ drop (pos p) (src p) = source ts'
  | [] => is_tok TOK_EOF p = true
  end.

Lemma source_head ts : match source ts with c :: _ => c = " "%char | [] => True end.
Proof. by destruct ts. Qed.
Lemma span_stop f (a l : list ascii) : Forall (fun c => f c = true) a -> match l with c :: _ => f c = false | [] => True end -> span f (a ++ l) = a.
Proof. intros Ha Hl. rewrite span_app by done. destruct l as [|c l]; cbn; [by rewrite app_nil_r|]. by rewrite Hl, app_nil_r. Qed.
Lemma word_start_class c : is_word_start c = true ->
  is_blank c = false /\ Ascii.eqb c "{" = false /\ Ascii.eqb c "}" = false /\ Ascii.eqb c DQUOTE = false /\ isdigit c = false /\ is_word c = true.
Proof. destruct c as [[] [] [] [] [] [] [] []]; intros H; first [discriminate H|repeat split]. Qed.

Lemma lex_tok t ts : tok_ok t = true -> lex (tok_text t ++ source ts) = (tok_value t, length (tok_text t)).
Proof.
  intros Hok. unfold lex, tok_text. destruct t as [w|s]; cbn [tok_ok tok_value] in *.
  - unfold wordly in Hok. destruct (chars w) as [|c l] eqn:Hw; [done|]. apply andb_true_iff in Hok as [Hc Hl].
    destruct (word_start_class c Hc) as (H1 & H2 & H3 & H4 & H5 & H6).
    assert (span is_blank ((" "%char :: c :: l) ++ source ts) = [" "%char]) as ->.
    { change (span is_blank (" "%char :: (c :: l) ++ source ts)) with (" "%char :: span is_blank ((c :: l) ++ source ts)). cbn [app span]. by rewrite H1. }
    cbn [length drop app]. rewrite H2, H3, H4, H5, Hc. change (c :: l ++ source ts) with ((c :: l) ++ source ts).
    rewrite span_stop; [done| |pose proof (source_head ts) as Hs; destruct (source ts); [done|by subst]].
    apply list.Forall_cons. split; [done|]. rewrite forallb_forall in Hl. rewrite list.Forall_forall. intros x Hx. apply Hl. by apply list_elem_of_In.
  - assert (span is_blank ((" "%char :: DQUOTE :: chars s ++ [DQUOTE]) ++ source ts) = [" "%char]) as -> by done.
    cbn [length drop app]. change (Ascii.eqb DQUOTE "{") with false. change (Ascii.eqb DQUOTE "}") with false. cbv iota. rewrite Ascii.eqb_refl.
    rewrite <-(assoc_L (++)). rewrite span_stop; [| |done].
    + rewrite string_of_list_ascii_of_string. f_equal. rewrite !length_app. cbn [length]. rewrite (proj2 (Nat.ltb_lt _ _)) by lia. lia.
    + rewrite forallb_forall in Hok. rewrite list.Forall_forall. intros x Hx. apply Hok. by apply list_elem_of_In.
Qed.

Lemma next_source p ts : forallb tok_ok ts = true -> drop (pos p) (src p) = source ts -> at_toks (next_token p) ts.
Proof.
  intros Hok Hd. unfold next_token. rewrite Hd. split; [done|]. destruct ts as [|u ts]; [done|].
  cbn [forallb] in Hok. apply andb_true_iff in Hok as [Hu _]. change (source (u :: ts)) with (tok_text u ++ source ts) in *. rewrite lex_tok by done.
  cbn [current pos src]. split; [done|]. rewrite <-drop_drop, Hd. apply drop_app_length.
Qed.
Lemma at_next t p ts : at_toks p (t :: ts) -> at_toks (next_token p) ts.
Proof. intros [Hok [_ Hd]]. apply andb_true_iff in Hok as [_ Hok]. by apply next_source. Qed.

Definition head_type (ts : list tok) : TokenType := match ts with t :: _ => type (tok_value t) | [] => TOK_EOF end.
Lemma at_head p ts : at_toks p ts -> type (current p) = head_type ts.
Proof. destruct ts as [|t ts]; intros [_ H]; [by apply is_tok_spec|]. destruct H as [-> _]. done. Qed.
Lemma match_yes t p u ts : at_toks p (u :: ts) -> type (tok_value u) = t -> token_match p t = (true, next_token p) /\ at_toks (next_token p) ts.
Proof.
  intros Hp Ht. split; [|by eapply at_next]. unfold token_match. rewrite (proj2 (is_tok_spec t p)); [done|]. by rewrite (at_head _ _ Hp).
Qed.
Lemma match_no t p ts : at_toks p ts -> head_type ts <> t -> token_match p t = (false, p).
Proof. intros Hp Ht. unfold token_match. rewrite (proj2 (is_tok_not t p)); [done|]. by rewrite (at_head _ _ Hp). Qed.

(** The tokens that come after a statement. *)
Definition after_statement (ts : list tok) : bool :=
  bool_decide (head_type ts ∈ [TOK_SET; TOK_REJECT; TOK_ACCEPT; TOK_SHOW; TOK_WHEN; TOK_THEN; TOK_ELSE; TOK_END; TOK_EOF]).
Lemma after_not ts t : after_statement ts = true -> t ∈ [TOK_IS; TOK_MATCHES; TOK_AND; TOK_OR] -> head_type ts <> t.
Proof.
  unfold after_statement. intros H H2 E. rewrite E in H. rewrite !elem_of_cons in H2.
  destruct H2 as [->|[->|[->|[->|H2]]]]; try (by vm_compute in H). by apply elem_of_nil in H2.
Qed.

Lemma literal_terminated v : literal_ok v = true -> terminated v = true /\ strncpy v = v.
Proof.
  intros [_ H]%andb_true_iff. split; [done|]. apply strtake_all. unfold terminated in H. apply Nat.ltb_lt in H. lia.
Qed.

Section meaning.
Context (regcomp : string -> bool) (regexec : string -> string -> bool) (store_get : option (string -> option string)).
Abbreviation statement := (eval_statement regcomp regexec store_get).
Abbreviation while := (eval_while regcomp regexec store_get).
Abbreviation block := (eval_block regcomp regexec store_get).

Lemma literal_expression f p v ts : at_toks p (L v :: ts) -> literal_ok v = true -> after_statement ts = true ->
  eval_expression regcomp regexec (S (S f)) p = Done (Some v, next_token p) /\ at_toks (next_token p) ts.
Proof.
  intros Hp Hv Ha. pose proof (at_next _ _ _ Hp) as Hn. split; [|done]. destruct (literal_terminated v Hv) as [_ Hs].
  unfold eval_expression, eval_comparison. cbn [eval_primary].
  rewrite (match_no TOK_EMPTY p (L v :: ts)), (match_no TOK_NOT p (L v :: ts)) by done.
  unfold is_tok. rewrite (at_head _ _ Hp). cbn [head_type tok_value make_token type].
  rewrite bool_decide_eq_false_2 by done. rewrite bool_decide_eq_true_2 by done.
  destruct Hp as [_ [-> _]]. cbn [tok_value make_token text deref mbind exec_bind value_is]. rewrite Hs.
  rewrite (match_no TOK_IS _ ts), (match_no TOK_MATCHES _ ts) by (first [done|apply after_not; [done|by repeat (first [left|right])]]).
  cbn [value_is mbind exec_bind eval_operators].
  rewrite (match_no TOK_AND _ ts), (match_no TOK_OR _ ts) by (first [done|apply after_not; [done|by repeat (first [left|right])]]). done.
Qed.

Lemma expect_yes t p u ts s k : at_toks p (u :: ts) -> type (tok_value u) = t -> expect t p s k = k (next_token p).
Proof. intros Hp Ht. unfold expect. by destruct (match_yes t p u ts Hp Ht) as [-> _]. Qed.
Lemma expect_text_yes t x p u ts s k : at_toks p (u :: ts) -> type (tok_value u) = t -> text (tok_value u) = Some x ->
  expect_text t p s k = k x (next_token p).
Proof.
  intros Hp Ht Hx. unfold expect_text. rewrite (proj2 (is_tok_spec t p)) by (by rewrite (at_head _ _ Hp)).
  destruct Hp as [_ [-> _]]. by rewrite Hx.
Qed.
Lemma name_token k : name_ok k = true -> tok_ok (W k) = true /\ type (tok_value (W k)) = TOK_IDENT /\ text (tok_value (W k)) = Some k.
Proof.
  intros [H1 H2%bool_decide_eq_true]%andb_true_iff. cbn [tok_value]. unfold word_token. rewrite string_of_list_ascii_of_string. done.
Qed.

Lemma run_simple_loop s x : loop_count (run_simple s x) = loop_count s.
Proof. by destruct x. Qed.

Lemma simple_statement f p s x ts : at_toks p (simple_toks x ++ ts) -> simple_ok x = true -> after_statement ts = true -> loop_count s = 0 ->
  exists p', statement (S (S (S f))) p s = Done (true, p', run_simple s x) /\ at_toks p' ts.
Proof.
  intros Hp Hx Ha Hl. pose proof (at_head _ _ Hp) as Hh. cbn [eval_statement]. rewrite Hl. change (10000 <? 0) with false. cbv iota.
  destruct x as [k v|m| |v]; cbn [simple_toks app simple_ok] in *; rewrite Hh; cbn [head_type tok_value].
  - change (type (word_token (chars "set"))) with TOK_SET. cbv iota. apply andb_true_iff in Hx as [Hk Hv].
    destruct (name_token k Hk) as (_ & Hk1 & Hk2). pose proof (at_next _ _ _ Hp) as Hp1. rewrite (expect_text_yes TOK_IDENT k _ _ _ _ _ Hp1) by done.
    pose proof (at_next _ _ _ Hp1) as Hp2. rewrite (expect_yes TOK_TO _ _ _ _ _ Hp2) by done. pose proof (at_next _ _ _ Hp2) as Hp3.
    destruct (literal_expression f _ _ _ Hp3 Hv Ha) as [-> Hp4]. cbn [mbind exec_bind]. unfold cstr. destruct (literal_terminated v Hv) as [-> _].
    eexists. split; [reflexivity|done].
  - change (type (word_token (chars "reject"))) with TOK_REJECT. cbv iota. pose proof (at_next _ _ _ Hp) as Hp1.
    rewrite (expect_yes TOK_WITH _ _ _ _ _ Hp1) by done. pose proof (at_next _ _ _ Hp1) as Hp2. rewrite (expect_text_yes TOK_STRING m _ _ _ _ _ Hp2) by done.
    eexists. split; [reflexivity|]. by eapply at_next.
  - change (type (word_token (chars "accept"))) with TOK_ACCEPT. cbv iota. eexists. split; [reflexivity|]. by eapply at_next.
  - change (type (word_token (chars "show"))) with TOK_SHOW. cbv iota. pose proof (at_next _ _ _ Hp) as Hp1.
    destruct (match_yes TOK_WHEN _ _ _ Hp1) as [-> Hp2]; [done|]. cbn [snd].
    destruct (literal_expression f _ _ _ Hp2 Hx Ha) as [-> Hp3]. cbn [mbind exec_bind]. eexists. split; [reflexivity|done].
Qed.

Lemma block_toks_cons x l : block_toks (x :: l) = simple_toks x ++ block_toks l.
Proof. done. Qed.
Lemma after_block l ts : after_statement ts = true -> after_statement (block_toks l ++ ts) = true.
Proof. intros H. destruct l as [|[] l]; done. Qed.
Lemma block_toks_length l : (length l <= length (block_toks l))%nat.
Proof.
  induction l as [|x l IH]; [done|]. rewrite block_toks_cons, length_app. cbn [length].
  assert (1 <= length (simple_toks x))%nat by (destruct x; cbn; lia). lia.
Qed.

Lemma while_simples l : forall f p s ts, at_toks p (block_toks l ++ ts) -> forallb simple_ok l = true -> head_type ts ∈ [TOK_END; TOK_ELSE] ->
  loop_count s = 0 -> (length l + 4 <= f)%nat -> exists p', while f p s = Done (true, p', foldl run_simple s l) /\ at_toks p' ts.
Proof.
  induction l as [|x l IH]; intros f p s ts Hp Hl Hts Hs Hf; (destruct f as [|f]; [lia|]); rewrite while_unfold.
  - rewrite (at_head _ _ Hp). rewrite bool_decide_eq_true_2; [by exists p|]. cbn [block_toks map concat app]. unfold block_end. set_solver.
  - cbn [forallb] in Hl. apply andb_true_iff in Hl as [Hx Hl]. rewrite block_toks_cons, <-(assoc_L (++)) in Hp. rewrite (at_head _ _ Hp).
    rewrite bool_decide_eq_false_2 by (destruct x; by apply (bool_decide_unpack _)).
    destruct f as [|[|[|f]]]; [cbn in Hf; lia..|]. cbn [length] in Hf.
    destruct (simple_statement f p s x (block_toks l ++ ts) Hp Hx) as (p1 & -> & Hp1); [|done|].
    { apply after_block. rewrite !elem_of_cons in Hts. unfold after_statement. destruct Hts as [->|[->|Ht]]; [done|done|by apply elem_of_nil in Ht]. }
    cbn [mbind exec_bind]. destruct (IH (S (S (S f))) p1 (run_simple s x) ts) as (p2 & Hw & Hp2); [done|done|done|by rewrite run_simple_loop|lia|].
    exists p2. rewrite Hw. done.
Qed.

Lemma skip_tokens us : forall f p ts stop, at_toks p (us ++ ts) -> Forall (fun t => type (tok_value t) ∉ stop) us -> head_type ts ∈ stop ->
  (length us <= f)%nat -> exists p', skip_to f stop p = Done p' /\ at_toks p' ts.
Proof.
  induction us as [|t us IH]; intros f p ts stop Hp Hu Hts Hf.
  - exists p. split; [|done]. destruct f; cbn [skip_to]; (rewrite bool_decide_eq_true_2; [done|by rewrite (at_head _ _ Hp)]).
  - apply list.Forall_cons in Hu as [Ht Hu]. destruct f as [|f]; [cbn in Hf; lia|]. cbn [skip_to]. rewrite (at_head _ _ Hp).
    rewrite bool_decide_eq_false_2 by done. apply IH; [by eapply at_next|done|done|cbn in Hf; lia].
Qed.
Lemma block_toks_types l : forallb simple_ok l = true -> Forall (fun t => type (tok_value t) ∉ [TOK_END; TOK_EOF]) (block_toks l).
Proof.
  induction l as [|x l IH]; [done|]. cbn [forallb]. intros [Hx Hl]%andb_true_iff. rewrite block_toks_cons. apply list.Forall_app. split; [|by apply IH].
  destruct x as [k v|m| |v]; cbn [simple_toks]; repeat (apply list.Forall_cons; split; [try by apply (bool_decide_unpack _)|]); try done.
  cbn [simple_ok] in Hx. apply andb_true_iff in Hx as [Hk _]. destruct (name_token k Hk) as (_ & -> & _). by apply (bool_decide_unpack _).
Qed.

Lemma block_simples l f p s ts : at_toks p (W "then" :: block_toks l ++ ts) -> forallb simple_ok l = true -> head_type ts ∈ [TOK_END; TOK_ELSE] ->
  loop_count s = 0 -> (length l + 5 <= f)%nat -> exists p', block f p s = Done (true, p', foldl run_simple s l) /\ at_toks p' ts.
Proof.
  intros Hp Hl Hts Hs Hf. destruct f as [|f]; [lia|]. cbn [eval_block]. destruct (match_yes TOK_THEN _ _ _ Hp) as [-> Hp1]; [done|].
  apply while_simples; [done|done|done|done|lia].
Qed.
Lemma else_simples l f p s ts : at_toks p (block_toks l ++ ts) -> forallb simple_ok l = true -> head_type ts ∈ [TOK_END; TOK_ELSE] ->
  loop_count s = 0 -> (length l + 5 <= f)%nat -> exists p', block f p s = Done (true, p', foldl run_simple s l) /\ at_toks p' ts.
Proof.
  intros Hp Hl Hts Hs Hf. destruct f as [|f]; [lia|]. cbn [eval_block].
  rewrite (match_no TOK_THEN _ _ Hp); [apply while_simples; [done|done|done|done|lia]|].
  destruct l as [|[] l]; [|done..]. cbn [block_toks map concat app]. intros E. rewrite E in Hts. rewrite !elem_of_cons in Hts.
  destruct Hts as [?|[?|Ht]]; [done|done|by apply elem_of_nil in Ht].
Qed.
Lemma run_simples_loop l s : loop_count (foldl run_simple s l) = loop_count s.
Proof. revert s. induction l as [|x l IH]; intros s; [done|]. cbn [foldl]. by rewrite IH, run_simple_loop. Qed.

Lemma statement_when f p s : loop_count s = 0 -> type (current p) = TOK_WHEN -> statement (S f) p s =
  ('(cond, p) ← eval_expression regcomp regexec f (next_token p);
   match cond with
   | None => stops p s
   | Some cond =>
       if truthy cond then
         '(ok, p, s) ← block f p s;
         if negb ok then stops p s else
         let '(m, p) := token_match p TOK_ELSE in
         p ← (if (m : bool) then skip_to f [TOK_END; TOK_EOF] p else Done p : exec Parser);
         goes_on (token_match p TOK_END).2 s
       else
         p ← skip_to f [TOK_THEN; TOK_EOF] p;
         '(ok, p, s) ← while f (next_token p) s;
         if negb ok then stops p s else
         let '(m, p) := token_match p TOK_ELSE in
         '(_, p, s) ← (if (m : bool) then block f p s else goes_on p s : outcome);
         goes_on (token_match p TOK_END).2 s
   end).
Proof. intros Hs Ht. cbn [eval_statement]. rewrite Hs, Ht. reflexivity. Qed.

Lemma when_statement f p s c th el ts : at_toks p (command_toks (When c th el) ++ ts) -> command_ok (When c th el) = true -> loop_count s = 0 ->
  (length (command_toks (When c th el)) + 4 <= f)%nat ->
  exists p', statement (S f) p s = Done (true, p', run_command s (When c th el)) /\ at_toks p' ts.
Proof.
  cbn [command_toks command_ok run_command app]. intros Hp Hok Hs Hf. apply andb_true_iff in Hok as [Hok Hel]. apply andb_true_iff in Hok as [Hc Hth].
  cbn [length] in Hf. rewrite !length_app in Hf. cbn [length] in Hf. rewrite length_app in Hf. cbn [length] in Hf.
  pose proof (block_toks_length th). pose proof (block_toks_length el).
  rewrite statement_when by (done || by rewrite (at_head _ _ Hp)). pose proof (at_next _ _ _ Hp) as Hp1.
  destruct f as [|[|f]]; [lia|lia|]. destruct (literal_expression f _ _ _ Hp1 Hc) as [-> Hp2]; [done|]. cbn [mbind exec_bind].
  set (p2 := next_token (next_token p)) in *. clearbody p2. rewrite <-!(assoc_L (++)) in Hp2. cbn [app] in Hp2. destruct (truthy c).
  - destruct (block_simples th (S (S f)) p2 s _ Hp2 Hth) as (p3 & -> & Hp3); [by right; left|done|lia|]. cbn [mbind exec_bind negb].
    destruct (match_yes TOK_ELSE _ _ _ Hp3) as [-> Hp4]; [done|]. cbv iota. rewrite <-(assoc_L (++)) in Hp4.
    destruct (skip_tokens (block_toks el) (S (S f)) _ _ [TOK_END; TOK_EOF] Hp4) as (p5 & -> & Hp5); [by apply block_toks_types|by left|lia|].
    cbn [mbind exec_bind]. destruct (match_yes TOK_END _ _ _ Hp5) as [-> Hp6]; [done|]. eexists. split; [reflexivity|done].
  - destruct (skip_tokens [] (S (S f)) p2 _ [TOK_THEN; TOK_EOF] Hp2) as (p3 & -> & Hp3); [done|by left|cbn; lia|]. cbn [mbind exec_bind].
    pose proof (at_next _ _ _ Hp3) as Hp4. destruct (while_simples th (S (S f)) _ s _ Hp4 Hth) as (p5 & -> & Hp5); [by right; left|done|lia|].
    cbn [mbind exec_bind negb]. destruct (match_yes TOK_ELSE _ _ _ Hp5) as [-> Hp6]; [done|]. cbv iota. rewrite <-(assoc_L (++)) in Hp6.
    destruct (else_simples el (S (S f)) _ (foldl run_simple s th) _ Hp6 Hel) as (p7 & -> & Hp7); [by left|by rewrite run_simples_loop|lia|].
    cbn [mbind exec_bind]. destruct (match_yes TOK_END _ _ _ Hp7) as [-> Hp8]; [done|]. eexists. split; [reflexivity|done].
Qed.

Lemma command_toks_pos c : (1 <= length (command_toks c))%nat.
Proof. destruct c as [[]|]; cbn; lia. Qed.
Lemma run_command_loop s c : loop_count (run_command s c) = loop_count s.
Proof. destruct c as [x|c th el]; cbn [run_command]; [apply run_simple_loop|]. destruct (truthy c); by rewrite !run_simples_loop. Qed.
Lemma after_script cs : after_statement (script_toks cs) = true.
Proof. by destruct cs as [|[[]|] cs]. Qed.

Lemma script_runs cs : forall f p s, at_toks p (script_toks cs) -> forallb command_ok cs = true -> loop_count s = 0 ->
  (length (script_toks cs) + 8 <= f)%nat -> eval_script regcomp regexec store_get f p s = Done (foldl run_command s cs).
Proof.
  induction cs as [|c cs IH]; intros f p s Hp Hok Hs Hf; (destruct f as [|f]; [lia|]); cbn [eval_script].
  - by destruct Hp as [_ ->].
  - cbn [forallb] in Hok. apply andb_true_iff in Hok as [Hc Hok]. change (script_toks (c :: cs)) with (command_toks c ++ script_toks cs) in *.
    rewrite length_app in Hf. pose proof (command_toks_pos c).
    assert (is_tok TOK_EOF p = false) as ->.
    { apply is_tok_not. rewrite (at_head _ _ Hp). by destruct c as [[]|]. }
    assert (exists p', statement f p s = Done (true, p', run_command s c) /\ at_toks p' (script_toks cs)) as (p' & -> & Hp').
    { destruct c as [x|c th el]; (destruct f as [|f]; [lia|]).
      - destruct f as [|[|f]]; [lia|lia|]. apply simple_statement; [done|done|apply after_script|done].
      - apply when_statement; [done|done|done|lia]. }
    cbn [mbind exec_bind]. apply IH; [done|done|by rewrite run_command_loop|lia].
Qed.

Lemma source_length ts : forallb tok_ok ts = true -> (2 * length ts <= length (source ts))%nat.
Proof.
  induction ts as [|t ts IH]; [done|]. cbn [forallb]. intros [Ht Hts]%andb_true_iff. change (source (t :: ts)) with (tok_text t ++ source ts).
  rewrite length_app. specialize (IH Hts). assert (2 <= length (tok_text t))%nat; [|cbn [length]; lia].
  destruct t as [w|v]; cbn [tok_text length]; [|rewrite length_app; cbn; lia]. cbn [tok_ok] in Ht. unfold wordly in Ht. destruct (chars w); [done|cbn; lia].
Qed.
Lemma script_toks_ok cs : forallb command_ok cs = true -> forallb tok_ok (script_toks cs) = true.
Proof.
  assert (forall x, simple_ok x = true -> forallb tok_ok (simple_toks x) = true) as Hx.
  { assert (forall v, literal_ok v = true -> tok_ok (L v) = true) as Hl by (intros v [? _]%andb_true_iff; done).
    intros [k v|m| |v] H; cbn [simple_ok simple_toks forallb] in *; [|by rewrite (Hl m H)|done|by rewrite (Hl v H)].
    apply andb_true_iff in H as [Hk Hv]. destruct (name_token k Hk) as [-> _]. by rewrite (Hl v Hv). }
  assert (forall l, forallb simple_ok l = true -> forallb tok_ok (block_toks l) = true) as Hb.
  { induction l as [|x l IH]; [done|]. cbn [forallb]. intros [H1 H2]%andb_true_iff. rewrite block_toks_cons, forallb_app, Hx, IH by done. done. }
  induction cs as [|c cs IH]; [done|]. cbn [forallb]. intros [Hc Hcs]%andb_true_iff. change (script_toks (c :: cs)) with (command_toks c ++ script_toks cs).
  rewrite forallb_app, IH by done. rewrite andb_true_r. destruct c as [x|c th el]; [by apply Hx|]. cbn [command_ok command_toks] in *.
  apply andb_true_iff in Hc as [Hc Hel]. apply andb_true_iff in Hc as [Hc Hth]. rewrite !forallb_app, !Hb by done. cbn [forallb].
  unfold literal_ok in Hc. apply andb_true_iff in Hc as [-> _]. done.
Qed.
Lemma parser0_source ts : forallb tok_ok ts = true -> at_toks (parser0 (of_chars (source ts))) ts.
Proof. intros H. apply next_source; [done|]. cbn [pos src drop]. by rewrite list_ascii_of_string_of_list_ascii. Qed.
Lemma fuel_source ts : forallb tok_ok ts = true -> (length ts + 8 <= fil_fuel (of_chars (source ts)))%nat.
Proof. intros H%source_length. unfold fil_fuel. rewrite <-length_chars, list_ascii_of_string_of_list_ascii. lia. Qed.

(** C4: a script of assignments, verdicts and conditions on literals does what it
    says, in order; except that [when] runs its first block whatever the
    condition is, so a rejection guarded by a false condition rejects. *)
Theorem fil_script_meaning cs : forallb command_ok cs = true ->
  let s := foldl run_command state0 cs in
  fil_eval regcomp regexec store_get (script_text cs) =
  Done (mkFilResult (negb (rejected s)) (error_msg s) (sets s) (show_widget s) (styles s) (keymap_bindings s) (animations s)).
Proof.
  intros Hok s. pose proof (script_toks_ok cs Hok) as Ht. unfold fil_eval, script_text.
  rewrite (script_runs cs); [done|by apply parser0_source|done|done|by apply fuel_source].
Qed.

Lemma statement_show f p s : loop_count s = 0 -> type (current p) = TOK_SHOW -> statement (S f) p s =
  ('(cond, p) ← eval_expression regcomp regexec f (token_match (next_token p) TOK_WHEN).2;
   match cond with None => stops p s | Some cond => goes_on p (set_show (truthy cond) s) end).
Proof. intros Hs Ht. cbn [eval_statement]. rewrite Hs, Ht. reflexivity. Qed.
Lemma statement_assign f p s : loop_count s = 0 -> type (current p) = TOK_SET \/ type (current p) = TOK_LET -> statement (S f) p s =
  expect_text TOK_IDENT (next_token p) s (fun key p =>
  expect TOK_TO p s (fun p =>
  '(val, p) ← eval_expression regcomp regexec f p;
  match val with None => stops p s | Some val => v ← cstr val; goes_on p (add_set key v s) end)).
Proof. intros Hs [Ht|Ht]; cbn [eval_statement]; rewrite Hs, Ht; reflexivity. Qed.

Lemma name_expression f p k ts : at_toks p (W k :: ts) -> name_ok k = true -> eval_expression regcomp regexec (S f) p = Fault UseAfterFree.
Proof.
  intros Hp Hk. destruct (name_token k Hk) as (_ & Ht & _). unfold eval_expression, eval_comparison. cbn [eval_primary].
  rewrite (match_no TOK_EMPTY p (W k :: ts)), (match_no TOK_NOT p (W k :: ts)) by (done || by cbn [head_type]; rewrite Ht).
  unfold is_tok. rewrite (at_head _ _ Hp). cbn [head_type]. rewrite Ht. by rewrite bool_decide_eq_true_2.
Qed.

(** an expression cannot use a name: in every script whose first statement
    tests, shows or assigns the value of a variable, the text of the name is
    freed before it is compared. *)
Theorem fil_name_faults k n ts : name_ok k = true -> name_ok n = true -> forallb tok_ok ts = true ->
  Forall (fun first => fil_eval regcomp regexec store_get (of_chars (source (first ++ W n :: ts))) = Fault UseAfterFree)
    [[W "when"]; [W "show"; W "when"]; [W "set"; W k; W "to"]; [W "let"; W k; W "to"]].
Proof.
  intros Hk Hn Hts. destruct (name_token k Hk) as (Hk0 & Hk1 & Hk2). destruct (name_token n Hn) as (Hn0 & _ & _).
  repeat (apply list.Forall_cons; split); [..|done];
    match goal with |- fil_eval _ _ _ (of_chars (source ?l)) = _ =>
      assert (forallb tok_ok l = true) as Hl by (cbn [app forallb]; rewrite ?Hk0, Hn0, Hts; done);
      pose proof (parser0_source l Hl) as Hp; pose proof (fuel_source l Hl) as Hf end;
    cbn [app] in *; unfold fil_eval; set (p := parser0 _) in *; clearbody p;
    (destruct (fil_fuel _) as [|[|[|f]]]; [lia|cbn [length] in Hf; lia|cbn [length] in Hf; lia|]); cbn [eval_script];
    unfold is_tok at 1; rewrite (at_head _ _ Hp); cbn [head_type]; (rewrite bool_decide_eq_false_2 by done); pose proof (at_next _ _ _ Hp) as Hp1.
  - rewrite statement_when by (done || by rewrite (at_head _ _ Hp)). by rewrite (name_expression _ _ _ _ Hp1 Hn).
  - rewrite statement_show by (done || by rewrite (at_head _ _ Hp)). destruct (match_yes TOK_WHEN _ _ _ Hp1) as [-> Hp2]; [done|]. cbn [snd].
    by rewrite (name_expression _ _ _ _ Hp2 Hn).
  - rewrite statement_assign by (done || by rewrite (at_head _ _ Hp); left). rewrite (expect_text_yes TOK_IDENT k _ _ _ _ _ Hp1) by done.
    pose proof (at_next _ _ _ Hp1) as Hp2. rewrite (expect_yes TOK_TO _ _ _ _ _ Hp2) by done.
    by rewrite (name_expression _ _ _ _ (at_next _ _ _ Hp2) Hn).
  - rewrite statement_assign by (done || by rewrite (at_head _ _ Hp); right). rewrite (expect_text_yes TOK_IDENT k _ _ _ _ _ Hp1) by done.
    pose proof (at_next _ _ _ Hp1) as Hp2. rewrite (expect_yes TOK_TO _ _ _ _ _ Hp2) by done.
    by rewrite (name_expression _ _ _ _ (at_next _ _ _ Hp2) Hn).
Qed.
End meaning.

Definition guarded_reject : list command := [When EmptyString [Reject "no"] []; Simply (SetTo "x" "1")].
Lemma fil_script_meaning_witness : forallb command_ok guarded_reject = true /\
  script_text guarded_reject = q " when '' then reject with 'no' else end set x to '1'" /\
  fil_eval (fun _ => true) (fun _ _ => true) None (script_text guarded_reject) =
  Done (mkFilResult false (Some "no"%string) [("x"%string, "1"%string)] false [] [] []).
Proof.
  split; [reflexivity|]. split; [reflexivity|]. by apply (fil_script_meaning (fun _ => true) (fun _ _ => true) None guarded_reject).
Defined.
Lemma fil_name_faults_witness : name_ok "x" = true /\ name_ok "value" = true /\
  Forall (fun first => fil_eval (fun _ => true) (fun _ _ => true) None (of_chars (source (first ++ [W "value"; W "then"]))) = Fault UseAfterFree)
    [[W "when"]; [W "show"; W "when"]; [W "set"; W "x"; W "to"]; [W "let"; W "x"; W "to"]].
Proof. split; [reflexivity|]. split; [reflexivity|]. by apply fil_name_faults. Defined.

(** ** The keys a script sets are words *)

Section names.
Context (regcomp : string -> bool) (regexec : string -> string -> bool) (store_get : option (string -> option string)).
Abbreviation statement := (eval_statement regcomp regexec store_get).
Abbreviation while := (eval_while regcomp regexec store_get).
Abbreviation block := (eval_block regcomp regexec store_get).

Definition is_name (k : string) : Prop := Forall (fun c => is_word c = true) (chars k).
Definition named (s : EvalState) : Prop := Forall (fun kv => is_name kv.1) (sets s).
(** Whatever state a run ends in has words for keys. *)
Definition keeps_names (o : outcome) : Prop := match o with Done (_, _, s) => named s | _ => True end.

Lemma span_Forall f l : Forall (fun c => f c = true) (span f l).
Proof. induction l as [|c l IH]; [constructor|]. cbn. destruct (f c) eqn:E; [by constructor|constructor]. Qed.
Lemma ident_name p x : is_tok TOK_IDENT (next_token p) = true -> text (current (next_token p)) = Some x -> is_name x.
Proof.
  rewrite is_tok_spec. unfold next_token, lex. cbn zeta. destruct (drop (length _) _) as [|c r]; [done|].
  destruct (Ascii.eqb c "{"); [done|]. destruct (Ascii.eqb c "}"); [done|]. destruct (Ascii.eqb c DQUOTE); [done|].
  destruct (isdigit c); [done|]. destruct (is_word_start c); [|done]. cbn [word_token make_token current type text].
  intros _ [= <-]. unfold is_name. rewrite list_ascii_of_string_of_list_ascii. exact (span_Forall is_word (c :: r)).
Qed.
Lemma add_set_named k v s : is_name k -> named s -> named (add_set k v s).
Proof. intros Hk Hs. unfold named. cbn. apply Forall_app. split; [done|by constructor]. Qed.
Lemma each_item_named v l : is_name v -> forall s, named s -> named (each_item v l s).
Proof.
  intros Hv. induction l as [|i l IH]; intros s Hs; [done|]. cbn [each_item]. destruct (_ <? _); [|done].
  apply IH. destruct (valuestring i); [by apply add_set_named|done].
Qed.

Lemma expect_names t p s k : named s -> (forall p', keeps_names (k p')) -> keeps_names (expect t p s k).
Proof. intros Hs Hk. unfold expect. destruct (token_match p t) as [[] q]; [apply Hk|done]. Qed.
Lemma expect_text_names t p s k : named s ->
  (forall x p', (t = TOK_IDENT -> (exists q, p = next_token q) -> is_name x) -> keeps_names (k x p')) -> keeps_names (expect_text t p s k).
Proof.
  intros Hs Hk. unfold expect_text. destruct (is_tok t p) eqn:Et; [|done]. destruct (text (current p)) as [x|] eqn:Ex; [|done].
  apply Hk. intros -> [q ->]. by apply (ident_name q).
Qed.
Lemma value_names (r : result) (k : option string * Parser -> outcome) : (forall v p, keeps_names (k (v, p))) -> keeps_names (r ≫= k).
Proof. intros Hk. destruct r as [[v p]| |]; [apply Hk|done..]. Qed.
Lemma exec_names {A} (r : exec A) (k : A -> outcome) : (forall a, keeps_names (k a)) -> keeps_names (r ≫= k).
Proof. intros Hk. destruct r as [a| |]; [apply Hk|done..]. Qed.
Lemma outcome_names (r : outcome) (k : bool * Parser * EvalState -> outcome) : keeps_names r -> (forall b p s, named s -> keeps_names (k (b, p, s))) -> keeps_names (r ≫= k).
Proof. intros Hr Hk. destruct r as [[[b p] s]| |]; [by apply Hk|done..]. Qed.
Ltac naming := first [apply expect_names; [done|intros ?] | apply expect_text_names; [done|intros ? ? ?] | apply value_names; intros ? ? | apply exec_names; intros ?].

Lemma style_names f : forall w c p s, named s -> keeps_names (style_properties regcomp regexec f w c p s).
Proof.
  induction f as [|f IH]; intros w c p s Hs; [done|]. cbn [style_properties]. destruct (_ || _)%bool; [done|].
  do 3 naming. cbn beta iota. case_match; [|done]. naming. by apply IH.
Qed.
Lemma keymap_names f : forall sc p s, named s -> keeps_names (keymap_entries f sc p s).
Proof. induction f as [|f IH]; intros sc p s Hs; [done|]. cbn [keymap_entries]. destruct (_ || _)%bool; [done|]. do 7 naming. by apply IH. Qed.
Lemma control_names p s : named s -> keeps_names (eval_animation_control p s).
Proof. intros Hs. unfold eval_animation_control. cbn zeta. destruct (type (current p)); try done; do 3 naming; done. Qed.

Lemma statement_names f : (forall p s, named s -> keeps_names (statement f p s)) /\ (forall p s, named s -> keeps_names (while f p s)) /\
  (forall p s, named s -> keeps_names (block f p s)).
Proof.
  induction f as [|f (IHs & IHw & IHb)]; [done|]. split_and!; intros p s Hs.
  - cbn [eval_statement]. destruct (_ <? _); [done|]. destruct (type (current p)); try done.
    + naming. cbn beta iota. case_match; [|done]. destruct (truthy _).
      * apply outcome_names; [by apply IHb|]. intros b q s' Hs'. cbn beta iota. destruct (negb b); [done|]. destruct (token_match q TOK_ELSE) as [m q']. naming. done.
      * naming. apply outcome_names; [by apply IHw|]. intros b q s' Hs'. cbn beta iota. destruct (negb b); [done|]. destruct (token_match q TOK_ELSE) as [m q'].
        apply outcome_names; [destruct m; [by apply IHb|done]|]. intros b2 q2 s2 Hs2. done.
    + do 3 naming. cbn beta iota. case_match; [|done]. naming. apply add_set_named; [|done]. eauto.
    + do 3 naming. cbn beta iota. case_match; [|done]. naming. apply add_set_named; [|done]. eauto.
    + do 2 naming. done.
    + naming. case_match; done.
    + apply expect_text_names; [done|]. intros x p' Hx. naming. naming. naming. destruct (for_items store_get x x0 s) as [s'| |] eqn:E; [|done..]. 
      assert (is_name x) as Hn by (apply Hx; [done|]; unfold token_match; case_match; eauto). clear -E Hn Hs. cbn.
      unfold for_items in E. destruct store_get as [get|]; [|done]. cbn in E. repeat (case_match; try done); injection E as <-; first [done | by apply each_item_named].
    + naming. unfold eval_style_block. do 2 naming. cbn zeta. naming. by apply style_names.
    + naming. unfold eval_animate_statement. do 4 naming. done.
    + naming. by apply control_names.
    + naming. by apply control_names.
    + naming. by apply control_names.
    + naming. unfold eval_keymap_block. do 3 naming. by apply keymap_names.
  - rewrite while_unfold. case_bool_decide; [done|]. apply outcome_names; [by apply IHs|]. intros b q s' Hs'. destruct b; [by apply IHw|done].
  - cbn [eval_block]. by apply IHw.
Qed.
Lemma script_names f : forall p s s', named s -> eval_script regcomp regexec store_get f p s = Done s' -> named s'.
Proof.
  induction f as [|f IH]; intros p s s' Hs; [done|]. cbn [eval_script]. destruct (is_tok TOK_EOF p); [by intros [= <-]|].
  pose proof (proj1 (statement_names f) p s Hs) as H. destruct (statement f p s) as [[[[] q] s1]| |]; cbn [mbind exec_bind keeps_names] in *; try done; [by apply IH|by intros [= <-]].
Qed.
Lemma fil_sets_named script r : fil_eval regcomp regexec store_get script = Done r -> Forall (fun kv => is_name kv.1) (r_sets r).
Proof.
  unfold fil_eval. destruct (eval_script _ _ _ _ _ _) as [s| |] eqn:E; [|done..]. intros [= <-]. cbn. eapply script_names; [|exact E]. constructor.
Qed.
End names.
