(* ===== verification/Tools.v ===== *)
(** Widgets that work on something: src/src/core/widgets/canvas.c, disk.c and
    macro_recorder.c.

    The canvas draws with [int] coordinates read from a script: where its
    arithmetic would leave the type the model stops with [Overflow], and where a
    coordinate was not given with [Indeterminate]. *)

From Stdlib Require Import SpecFloat.
From S2P Require Import Prelude Double CJson CJsonParse Recorder Fil Protocol RenderTree Widget Color Boxes Displays Panels.

(** ** canvas.c *)

Module Canvas.

(** A variable set by the scan, or never set. *)
Definition var (vs : list Z) (i : nat) : exec Z := match vs !! i with Some v => Done v | None => Fault Indeterminate end.
(** [0xFF000000 | (r & 0xFF) << 16 | ...] *)
Definition opaque (r g b : Z) : Z := pack 255 (Z.land r 255) (Z.land g 255) (Z.land b 255).

(** *** Drawing *)

Section drawing.
(** The size and the colour in use. *)
Context (cw ch color : Z).
(** [pixels[i] = color] *)
Definition set_pixel (i : Z) (px : list Z) : exec (list Z) :=
  if (0 <=? i) && (i <? Z.of_nat (length px)) then Done (<[Z.to_nat i := color]> px) else Fault OutOfBounds.
(** [n] columns of a row from [col], and [n] rows from [row]. *)
Fixpoint fill_row (n : nat) (row col : Z) (px : list Z) : exec (list Z) :=
  match n with
  | O => Done px
  | S n' =>
      px ← (if (0 <=? row) && (0 <=? col) then set_pixel (row * cw + col) px else Done px : exec (list Z));
      fill_row n' row (col + 1) px
  end.
Fixpoint fill_rows (n : nat) (row rx rw : Z) (px : list Z) : exec (list Z) :=
  match n with
  | O => Done px
  | S n' =>
      edge ← as_int (rx + rw);
      px ← fill_row (Z.to_nat (Z.min edge cw - rx)) row rx px;
      fill_rows n' (row + 1) rx rw px
  end.
Definition draw_rect (rx ry rw rh : Z) (px : list Z) : exec (list Z) :=
  if (0 <? rw) && (0 <? rh) then
    edge ← as_int (ry + rh);
    fill_rows (Z.to_nat (Z.min edge ch - ry)) ry rx rw px
  else Done px.

(** The loop of a line, with the steps [sx], [sy] and the error term. *)
Fixpoint line_loop (fuel : nat) (dx dy sx sy x2 y2 x1 y1 err : Z) (px : list Z) : exec (list Z) :=
  match fuel with
  | O => Fault Diverges
  | S f =>
      px ← (if (0 <=? x1) && (x1 <? cw) && (0 <=? y1) && (y1 <? ch) then set_pixel (y1 * cw + x1) px else Done px : exec (list Z));
      if (x1 =? x2) && (y1 =? y2) then Done px else
      e2 ← as_int (2 * err);
      '(err, x1) ← (if dy <=? e2 then err ← as_int (err + dy); x1 ← as_int (x1 + sx); Done (err, x1) else Done (err, x1) : exec (Z * Z));
      '(err, y1) ← (if e2 <=? dx then err ← as_int (err + dx); y1 ← as_int (y1 + sy); Done (err, y1) else Done (err, y1) : exec (Z * Z));
      line_loop f dx dy sx sy x2 y2 x1 y1 err px
  end.
Definition abs_int (z : Z) : exec Z := z ← as_int z; as_int (Z.abs z).
Definition draw_line (fuel : nat) (x1 y1 x2 y2 : Z) (px : list Z) : exec (list Z) :=
  dx ← (d ← as_int (x2 - x1); abs_int d : exec Z);
  ady ← (d ← as_int (y2 - y1); abs_int d : exec Z);
  let dy := - ady in
  line_loop fuel dx dy (if x1 <? x2 then 1 else -1) (if y1 <? y2 then 1 else -1) x2 y2 x1 y1 (dx + dy) px.
End drawing.

(** *** The commands of a script *)

(** The pixels, none when [calloc] was asked for a negative size. *)
Definition on_pixels (f : list Z -> exec (list Z)) (px : option (list Z)) : exec (option (list Z)) :=
  match px with Some l => l ← f l; Done (Some l) | None => Fault NullDeref end.
Definition line_fuel (x1 y1 x2 y2 : Z) : nat := S (Z.to_nat (Z.max (Z.abs (x2 - x1)) (Z.abs (y2 - y1)))).
Definition white : Z := 0xFFFFFFFF.
Definition rgb (vs : list Z) : Z := opaque (default 0 (vs !! 4%nat)) (default 0 (vs !! 5%nat)) (default 0 (vs !! 6%nat)).
Definition run_command (cw ch : Z) (cmd val : string) (px : option (list Z)) : exec (option (list Z)) :=
  if decide (cmd = "rect"%string) then
    let vs := scan_ints "," 7 (chars val) in
    rx ← var vs 0; ry ← var vs 1; rw ← var vs 2; rh ← var vs 3;
    on_pixels (draw_rect cw ch (rgb vs) rx ry rw rh) px
  else if decide (cmd = "line"%string) then
    let vs := scan_ints "," 7 (chars val) in
    x1 ← var vs 0; y1 ← var vs 1; x2 ← var vs 2; y2 ← var vs 3;
    on_pixels (draw_line cw ch (rgb vs) (line_fuel x1 y1 x2 y2) x1 y1 x2 y2) px
  else if decide (cmd = "clear"%string) then
    color ← (match val with
             | EmptyString => Done white
             | _ => let vs := scan_ints "," 3 (chars val) in r ← var vs 0; g ← var vs 1; b ← var vs 2; Done (opaque r g b)
             end : exec Z);
    on_pixels (fun l => Done (replicate (length l) color)) px
  else Done px.
(** [strncmp(key, "canvas.", 7) == 0], and the command behind it. *)
Definition command_of (key : string) : option string :=
  if has_prefix (chars "canvas.") (chars key) then Some (of_chars (drop 7 (chars key))) else None.
Fixpoint run_commands (cw ch : Z) (sets : list (string * string)) (px : option (list Z)) : exec (option (list Z)) :=
  match sets with
  | [] => Done px
  | (k, v) :: sets' =>
      px ← (match command_of k with Some cmd => run_command cw ch cmd v px | None => Done px end : exec (option (list Z)));
      run_commands cw ch sets' px
  end.

(** *** The widget *)

Section canvas.
Context (regcomp : string -> bool) (regexec : string -> string -> bool).
Record CanvasData := mk { wb : WidgetBase; script : string; width : Z; height : Z; pixels : option (list Z); drawn : bool }.
Definition with_base (b : WidgetBase) (d : CanvasData) : CanvasData := mk b (script d) (width d) (height d) (pixels d) (drawn d).
Definition blank (n : Z) : option (list Z) := if n <? 0 then None else Some (replicate (Z.to_nat n) white).
Definition draw (cw ch : Z) (d : CanvasData) : exec CanvasData :=
  px ← (match pixels d with Some l => Done (Some l) | None => n ← as_int (cw * ch); Done (blank n) end : exec (option (list Z)));
  fr ← fil_eval regcomp regexec None (script d);
  px ← (if accepted fr then run_commands cw ch (r_sets fr) px else Done px : exec (option (list Z)));
  Done (mk (wb d) (script d) (width d) (height d) px true).
Definition canvas_render (d : CanvasData) : exec (CanvasData * RenderTree) :=
  let area := render_area (wb d) in
  let cw := if 0 <? width d then width d else rw area in
  let ch := if 0 <? height d then height d else rh area in
  d ← (if negb (drawn d) && negb (bool_decide (script d = EmptyString)) then draw cw ch d else Done d : exec CanvasData);
  Done (d, shown_node "canvas" (wb d) "canvas" (Some "Drawing surface"%string) (rect_new 0 0 cw ch) (RNODE_LEAF (RNODE_CANVAS (Some (script d)) cw ch))).
Definition canvas_handle_event (d : CanvasData) (ev : Event) : exec (CanvasData * EventResult) :=
  match Widget.type ev with
  | EVENT_KEY => Done (d, answer None)
  | EVENT_MOUSE_BUTTON | EVENT_MOUSE_MOTION => Done (d, event_result_handled)
  | _ => Done (d, event_result_unhandled)
  end.
Definition canvas_widget_new (s : option string) (w h : Z) : CanvasData := mk (base_new false) (default EmptyString s) w h None false.
#[global] Program Instance canvas_widget : Widget CanvasData := {|
  base := wb; set_base := with_base; render := canvas_render; handle_event := canvas_handle_event |}.
Solve Obligations with by destruct w.
End canvas.
End Canvas.

(** ** disk.c *)

Module Disk.
Record Partition := mkPartition { number : Z; start : string; p_end : option string; size : string; ptype : string; fs_signature : option string }.
Record FreeSpace := mkFree { f_start : string; f_end : string; f_size : string }.
Inductive DiskMode := DMODE_MAIN | DMODE_CONFIRM | DMODE_RESIZE_INPUT | DMODE_NEW_PARTITION.
Record DiskData := mk {
  wb : WidgetBase; title : string; disk : string; input : option (list ascii); partitions : list Partition; free_space : list FreeSpace;
  selected : Z; readonly : bool; mode : DiskMode; editing_idx : Z
}.
Definition with_base (b : WidgetBase) (d : DiskData) : DiskData :=
  mk b (title d) (disk d) (input d) (partitions d) (free_space d) (selected d) (readonly d) (mode d) (editing_idx d).
Definition part_count (d : DiskData) : Z := Z.of_nat (length (partitions d)).
Definition free_count (d : DiskData) : Z := Z.of_nat (length (free_space d)).
(** [d->base.dirty = true] with other values. *)
Definition select (s : Z) (d : DiskData) : DiskData :=
  mk (base_set_dirty true (wb d)) (title d) (disk d) (input d) (partitions d) (free_space d) s (readonly d) (mode d) (editing_idx d).
Definition enter_mode (m : DiskMode) (i : option (list ascii)) (idx : Z) (d : DiskData) : DiskData :=
  mk (base_set_dirty true (wb d)) (title d) (disk d) i (partitions d) (free_space d) (selected d) (readonly d) m idx.
Definition set_input (i : option (list ascii)) (d : DiskData) : DiskData := enter_mode (mode d) i (editing_idx d) d.
Definition set_partitions (l : list Partition) (s : Z) (d : DiskData) : DiskData :=
  mk (base_set_dirty true (wb d)) (title d) (disk d) (input d) l (free_space d) s (readonly d) (mode d) (editing_idx d).

Fixpoint str_case_eq (a b : list ascii) : bool :=
  match a, b with
  | c :: a', d :: b' => Ascii.eqb (tolower c) (tolower d) && str_case_eq a' b'
  | [], [] => true
  | _, _ => false
  end.
(** [(long long)x]; a value with no integer part converts to the least one on x86. *)
Definition d_to_llong (x : double) : Z :=
  match sf_trunc x with Some z => if (- 2 ^ 63 <=? z) && (z <? 2 ^ 63) then z else - 2 ^ 63 | None => - 2 ^ 63 end.
Definition times (x : double) (k : nat) : double := Nat.iter k (fun y => SFmul d_prec d_emax y (d_of_Z 1024)) x.
Definition human_to_bytes (s : list ascii) : Z :=
  let buf := take 63 s in
  let num_end := drop (length (span (fun c => isdigit c || Ascii.eqb c "." || Ascii.eqb c "-") buf)) buf in
  let num := atof buf in
  let suffix := drop (length (span (Ascii.eqb " ") num_end)) num_end in
  let is_one names := existsb (fun n => str_case_eq suffix (chars n)) names in
  if is_one ["B"]%string then d_to_llong num
  else if is_one ["K"; "KB"; "KIB"]%string then d_to_llong (times num 1)
  else if is_one ["M"; "MB"; "MIB"]%string then d_to_llong (times num 2)
  else if is_one ["G"; "GB"; "GIB"]%string then d_to_llong (times num 3)
  else if is_one ["T"; "TB"; "TIB"]%string then d_to_llong (times num 4)
  else d_to_llong num.

(** "%8s" and "%-22s" *)
Definition pad_left (n : nat) (s : string) : string := of_chars (replicate (n - String.length s) " "%char) +:+ s.
Definition pad_right (n : nat) (s : string) : string := s +:+ of_chars (replicate (n - String.length s) " "%char).
Definition cursor_mark (d : DiskData) (i : Z) : string := if i =? selected d then ">" else " ".
Definition partition_label (d : DiskData) (i : nat) (p : Partition) : string :=
  strtake 255 (cursor_mark d (Z.of_nat i) +:+ pad_left 3 (int_string (number p)) +:+ "  " +:+ pad_left 8 (size p) +:+ "  " +:+ pad_right 22 (ptype p)).
Definition free_label (d : DiskData) (i : nat) (f : FreeSpace) : string :=
  strtake 255 (cursor_mark d (part_count d + Z.of_nat i) +:+ "     " +:+ pad_left 8 (f_size f) +:+ "  Free space").
Definition detail_text (p : Partition) : string :=
  strtake 255 ("Partition " +:+ int_string (number p) +:+ "  Type: " +:+ ptype p +:+ "  Size: " +:+ size p +:+ "  FS: " +:+ default "none"%string (fs_signature p)).
Definition is_main (d : DiskData) : bool := match mode d with DMODE_MAIN => true | _ => false end.
Definition disk_render (d : DiskData) : exec (DiskData * RenderTree) :=
  let labels := imap (partition_label d) (partitions d) ++ imap (free_label d) (free_space d) in
  detail ← (if (selected d <? part_count d) && is_main d then
              if selected d <? 0 then Fault OutOfBounds
              else p ← at_index (partitions d !! Z.to_nat (selected d)); Done (detail_text p)
            else Done EmptyString : exec string);
  let at_zero := mkRect 0 0 0 0 in
  let i := set_tab_index (if 0 <=? base_tab_index (wb d) then base_tab_index (wb d) else 0) (set_class "container" info_zero) in
  Done (d, mkTree (set_access "disk-partitioner" (Some (title d)) i)
    (framed [title_text at_zero (strtake 255 (title d +:+ " (" +:+ disk d +:+ ")"));
             child_node "list" at_zero (RNODE_LIST (list_items labels) (selected d));
             text_node at_zero detail ALIGN_LEFT;
             muted_text at_zero (if readonly d then "Up/Down:move  Q:quit  Esc:cancel" else "Up/Down:move  N:new  D:delete  R:resize  W:write  Q:quit  Esc:cancel")])).

(** The array of a confirmed answer. *)
Definition partition_json (p : Partition) : cJSON :=
  let o := AddInt cJSON_CreateObject "number" (number p) in
  let o := cJSON_AddStringToObject o "start" (Some (start p)) in
  let o := cJSON_AddStringToObject o "end" (p_end p) in
  let o := cJSON_AddStringToObject o "size" (Some (size p)) in
  cJSON_AddStringToObject o "type" (Some (ptype p)).
Definition partitions_json (l : list Partition) : cJSON :=
  foldl (fun a p => cJSON_AddItemToArray a (Some (partition_json p))) cJSON_CreateArray l.

(** Enter behind a size: a partition is added, or the edited one is resized. *)
Definition apply_input (s : list ascii) (d : DiskData) : exec DiskData :=
  if 0 <? human_to_bytes s then
    if editing_idx d <? 0 then Fault OutOfBounds else
    match mode d with
    | DMODE_NEW_PARTITION =>
        fs ← at_index (free_space d !! Z.to_nat (editing_idx d));
        let p := mkPartition (part_count d + 1) (f_start fs) None (of_chars s) "Linux filesystem" None in
        Done (set_partitions (partitions d ++ [p]) (part_count d) d)
    | _ =>
        p ← at_index (partitions d !! Z.to_nat (editing_idx d));
        let p := mkPartition (number p) (start p) (p_end p) (of_chars s) (ptype p) (fs_signature p) in
        Done (set_partitions (<[Z.to_nat (editing_idx d) := p]> (partitions d)) (selected d) d)
    end
  else Done d.
Definition leave_input (d : DiskData) : DiskData := enter_mode DMODE_MAIN None (editing_idx d) d.
Definition input_handle_event (d : DiskData) (ev : Event) : exec (DiskData * EventResult) :=
  match code ev with
  | KEY_ESC => Done (leave_input d, event_result_handled)
  | KEY_ENTER =>
      d ← match input d with Some (c :: s) => apply_input (c :: s) d | _ => Done d end;
      Done (leave_input d, event_result_handled)
  | KEY_BACKSPACE =>
      Done (set_input (match input d with Some (c :: s) => Some (erase_char (c :: s)) | i => i end) d, event_result_handled)
  | KEY_CHAR => Done (set_input (Some (append_char (default [] (input d)) (ch ev))) d, event_result_handled)
  | _ => Done (d, event_result_unhandled)
  end.
Definition confirm_handle_event (d : DiskData) (ev : Event) : exec (DiskData * EventResult) :=
  match code ev with
  | KEY_CHAR =>
      if (ch ev =? 121) || (ch ev =? 89) then Done (d, answer (Some (partitions_json (partitions d))))
      else Done (enter_mode DMODE_MAIN (input d) (editing_idx d) d, event_result_handled)
  | _ => Done (enter_mode DMODE_MAIN (input d) (editing_idx d) d, event_result_handled)
  end.
(** The letters q, n, d, r and w. *)
Definition letter_handle_event (d : DiskData) (c : Z) : DiskData * EventResult :=
  if c =? 113 then (d, cancelled_response)
  else if c =? 110 then
    (if part_count d <=? selected d then enter_mode DMODE_NEW_PARTITION (Some []) (selected d - part_count d) d else d, event_result_handled)
  else if c =? 100 then
    (if selected d <? part_count d then
       let l := delete (Z.to_nat (selected d)) (partitions d) in
       let s := if (part_count d - 1 <=? selected d) && (0 <? selected d) then selected d - 1 else selected d in
       set_partitions l s d
     else d, event_result_handled)
  else if c =? 114 then
    (if selected d <? part_count d then enter_mode DMODE_RESIZE_INPUT (Some []) (selected d) d else d, event_result_handled)
  else if c =? 119 then (enter_mode DMODE_CONFIRM (input d) (editing_idx d) d, event_result_handled)
  else (d, event_result_unhandled).
Definition main_handle_event (d : DiskData) (ev : Event) : exec (DiskData * EventResult) :=
  match code ev with
  | KEY_ESC => Done (d, cancelled_response)
  | KEY_UP => Done (select (if 0 <? selected d then selected d - 1 else selected d) d, event_result_handled)
  | KEY_DOWN => Done (select (if selected d + 1 <? part_count d + free_count d then selected d + 1 else selected d) d, event_result_handled)
  | KEY_CHAR => if readonly d then Done (d, event_result_unhandled) else Done (letter_handle_event d (ch ev))
  | _ => Done (d, event_result_unhandled)
  end.
Definition disk_handle_event (d : DiskData) (ev : Event) : exec (DiskData * EventResult) :=
  match Widget.type ev with
  | EVENT_KEY =>
      match mode d with
      | DMODE_CONFIRM => confirm_handle_event d ev
      | DMODE_RESIZE_INPUT | DMODE_NEW_PARTITION => input_handle_event d ev
      | DMODE_MAIN => main_handle_event d ev
      end
  | _ => Done (d, event_result_unhandled)
  end.

(** A member's string, or the default. *)
Definition text_or (dflt : string) (o : cJSON) (k : string) : string :=
  default dflt (cJSON_GetObjectItem (Some o) k ≫= valuestring).
Definition partition_of (i : nat) (o : cJSON) : Partition :=
  mkPartition (match cJSON_GetObjectItem (Some o) "number" with Some n => valueint n | None => Z.of_nat i + 1 end)
    (text_or "" o "start") (Some (text_or "" o "end")) (text_or "" o "size") (text_or "" o "type") None.
Definition free_of (o : cJSON) : FreeSpace := mkFree (text_or "0" o "start") (text_or "0" o "end") (text_or "0" o "size").
Definition array_items (j : option cJSON) : list cJSON := if cJSON_IsArray j then match j with Some a => child a | None => [] end else [].
Definition disk_widget_new (t dk : string) (parts free : option cJSON) (ro : bool) : DiskData :=
  mk widget_base_init t dk None (imap partition_of (array_items parts)) (map free_of (array_items free)) 0 ro DMODE_MAIN 0.
#[global] Program Instance disk_widget : Widget DiskData := {|
  base := wb; set_base := with_base; render := disk_render; handle_event := disk_handle_event |}.
Solve Obligations with by destruct w.
End Disk.

(** ** macro_recorder.c *)

Module MacroRecorder.
Inductive MacroRecorderMode := MR_BROWSING | MR_SAVE_INPUT.
Section macro.
(** What the n-th call of [time(NULL)] answers, the files that can be read,
    and the paths that can be opened for writing. *)
Context (time : nat -> Z) (files : string -> option string) (opens : string -> bool).
(** [global] is the recorder of recorder.c, [calls] the calls of [time] so far,
    [saved] the files written, the latest first. *)
Record MacroRecorderData := mk {
  wb : WidgetBase; is_recording : bool; save_path : list ascii; mode : MacroRecorderMode;
  global : Recorder.Recorder; calls : nat; saved : list (string * string)
}.
Definition with_base (b : WidgetBase) (d : MacroRecorderData) : MacroRecorderData :=
  mk b (is_recording d) (save_path d) (mode d) (global d) (calls d) (saved d).
Definition touch (d : MacroRecorderData) : MacroRecorderData := with_base (base_set_dirty true (wb d)) d.
Definition set_mode (m : MacroRecorderMode) (p : list ascii) (d : MacroRecorderData) : MacroRecorderData :=
  mk (wb d) (is_recording d) p m (global d) (calls d) (saved d).
Definition set_global (rec : bool) (r : Recorder.Recorder) (n : nat) (d : MacroRecorderData) : MacroRecorderData :=
  mk (wb d) rec (save_path d) (mode d) r n (saved d).
Definition mr_render (d : MacroRecorderData) : RenderTree :=
  let area := render_area (wb d) in
  let box_w := at_most (rw area - 2) 50 in
  let box_h := at_most (rh area - 2) 8 in
  let saving := match mode d with MR_SAVE_INPUT => true | MR_BROWSING => false end in
  let line y h s := text_node (rect_new 1 y (box_w - 2) h) s ALIGN_LEFT in
  let i := set_tab_index (if 0 <=? base_tab_index (wb d) then base_tab_index (wb d) else 0) (set_class "container" info_zero) in
  mkTree (set_rect (centred area box_w box_h) (set_access "macro-recorder" (Some "Macro Recorder"%string) i))
    (framed [title_text (rect_new 1 0 (box_w - 2) 1) "Macro Recorder";
             line 1 1 (if is_recording d then "Status: RECORDING" else "Status: STOPPED");
             line 3 2 (if saving then "Enter filename to save:" else "R:record  S:stop  P:play  L:load  W:save  Esc:quit");
             line 5 1 (if saving then strtake 255 ("> " +:+ of_chars (save_path d)) else EmptyString)])%string.
(** [recorder_save], its result ignored. *)
Definition save (d : MacroRecorderData) : exec MacroRecorderData :=
  match save_path d with
  | [] => Done d
  | p =>
      let path := of_chars p in
      text ← recorder_save (opens path) (global d);
      Done (mk (wb d) (is_recording d) (save_path d) (mode d) (global d) (calls d)
        (match text with Some t => (path, t) :: saved d | None => saved d end))
  end.
Definition save_handle_event (d : MacroRecorderData) (ev : Event) : exec (MacroRecorderData * EventResult) :=
  match code ev with
  | KEY_ESC => Done (touch (set_mode MR_BROWSING (save_path d) d), event_result_handled)
  | KEY_ENTER => d ← save d; Done (touch (set_mode MR_BROWSING (save_path d) d), event_result_handled)
  | KEY_BACKSPACE => Done (touch (set_mode (mode d) (erase_char (save_path d)) d), event_result_handled)
  | KEY_CHAR => Done (touch (if 32 <=? ch ev then set_mode (mode d) (append_char (save_path d) (ch ev)) d else d), event_result_handled)
  | _ => Done (d, event_result_unhandled)
  end.
Definition is_letter (lower : Z) (c : Z) : bool := (c =? lower) || (c =? lower - 32).
(** The letters r, s, w, l and p. *)
Definition letter (c : Z) (d : MacroRecorderData) : exec MacroRecorderData :=
  if is_letter 114 c then
    if is_recording d then Done d else r ← recorder_start (time (calls d)) (global d); Done (set_global true r (S (calls d)) d)
  else if is_letter 115 c then
    Done (if is_recording d then set_global false (recorder_stop (global d)) (calls d) d else d)
  else if is_letter 119 c then Done (set_mode MR_SAVE_INPUT [] d)
  else if is_letter 108 c then Done (set_mode MR_SAVE_INPUT [] d)
  else if is_letter 112 c then
    if is_recording d then Done d else '(_, r) ← recorder_load (files (of_chars (save_path d))) (global d); Done (set_global (is_recording d) r (calls d) d)
  else Done d.
Definition mr_handle_event (d : MacroRecorderData) (ev : Event) : exec (MacroRecorderData * EventResult) :=
  match Widget.type ev with
  | EVENT_KEY =>
      match mode d with
      | MR_SAVE_INPUT => save_handle_event d ev
      | MR_BROWSING =>
          match code ev with
          | KEY_ESC => Done (d, cancelled_response)
          | KEY_CHAR => d ← letter (ch ev) d; Done (touch d, event_result_handled)
          | _ => Done (d, event_result_unhandled)
          end
      end
  | _ => Done (d, event_result_unhandled)
  end.
Definition macro_recorder_widget_new (r : Recorder.Recorder) : MacroRecorderData := mk (base_new false) false [] MR_BROWSING r 0 [].
#[global] Program Instance macro_recorder_widget : Widget MacroRecorderData := {|
  base := wb; set_base := with_base; render d := Done (d, mr_render d); handle_event := mr_handle_event |}.
Solve Obligations with by destruct w.
End macro.
End MacroRecorder.

(** ** What the widgets promise *)

(** *** The canvas *)

Module CanvasFacts.
Import Canvas.

(** The keys a script can set have no dot in them, and every command has one. *)
Lemma name_no_command k : is_name k -> command_of k = None.
Proof.
  unfold is_name, command_of. intros Hk. destruct (has_prefix (chars "canvas.") (chars k)) eqn:E; [exfalso|done].
  assert (forall p s, has_prefix p s = true -> Forall (fun c => is_word c = true) s -> Forall (fun c => is_word c = true) p) as Hp.
  { clear. induction p as [|c p IH]; intros s H Hs; [constructor|]. destruct s as [|d s]; [done|]. cbn [has_prefix] in H. simp_bool.
    apply Ascii.eqb_eq in H as ->. inversion Hs. subst. constructor; [done|by apply (IH s)]. }
  specialize (Hp _ _ E Hk). rewrite list.Forall_forall in Hp. specialize (Hp "."%char). discriminate Hp. 
  apply list_elem_of_lookup. by exists 6%nat.
Qed.
Lemma no_commands cw ch sets px : Forall (fun kv => is_name kv.1) sets -> run_commands cw ch sets px = Done px.
Proof.
  intros Hs. induction Hs as [|[k v] sets Hk _ IH]; [done|]. cbn [run_commands]. rewrite (name_no_command k Hk). exact IH.
Qed.
Definition all_white (d : CanvasData) : Prop := match pixels d with Some px => Forall (fun p => p = white) px | None => True end.
Section blank.
Context (regcomp : string -> bool) (regexec : string -> string -> bool).
Lemma render_white d d' t : all_white d -> canvas_render regcomp regexec d = Done (d', t) -> all_white d'.
Proof.
  intros Hw. unfold canvas_render. cbv zeta. set (cw := if 0 <? width d then _ else _). set (ch := if 0 <? height d then _ else _). clearbody cw ch.
  intros H. apply exec_bind_Done in H as (d1 & H & [= <- _]). destruct (negb _ && negb _)%bool; [|by injection H as <-]. unfold draw in H.
  apply exec_bind_Done in H as (px & Hpx & H). apply exec_bind_Done in H as (fr & Hf & H). apply exec_bind_Done in H as (px' & Hpx' & [= <-]).
  apply fil_sets_named in Hf. rewrite no_commands in Hpx' by done.
  assert (px' = px) as -> by (destruct (accepted fr); congruence). clear Hpx' Hf. unfold all_white in *. cbn [pixels].
  destruct (pixels d) as [l|]; [by injection Hpx as <-|]. apply exec_bind_Done in Hpx as (n & _ & [= <-]).
  unfold Canvas.blank. destruct (n <? 0); [done|]. by apply Forall_replicate.
Qed.
Lemma event_white d ev d' r : all_white d -> canvas_handle_event d ev = Done (d', r) -> all_white d'.
Proof. intros Hw. unfold canvas_handle_event. destruct (Widget.type ev); by intros [= <- _]. Qed.

(** Drawings and events in any order. *)
Inductive moment := Draws (area : Rect) | Gets (ev : Event).
Definition moment_step (d : CanvasData) (m : moment) : exec CanvasData :=
  match m with
  | Draws a => '(d, _) ← canvas_render regcomp regexec (with_base (mkBase (dirty (wb d)) false a (base_tab_index (wb d))) d); Done d
  | Gets ev => '(d, _) ← canvas_handle_event d ev; Done d
  end.
Fixpoint moments (d : CanvasData) (ms : list moment) : exec CanvasData :=
  match ms with [] => Done d | m :: ms' => d ← moment_step d m; moments d ms' end.
Lemma moments_white ms : forall d d', all_white d -> moments d ms = Done d' -> all_white d'.
Proof.
  induction ms as [|m ms IH]; intros d d' Hw; [by intros [= <-]|]. cbn [moments]. intros (d1 & H & Hr)%exec_bind_Done. apply (IH d1); [|done].
  destruct m; apply exec_bind_Done in H as ([d2 x] & H & [= <-]); [eapply render_white; [|exact H]; done|by eapply event_white].
Qed.
End blank.
End CanvasFacts.

(** a canvas stays blank: the keys of a script are words without a dot, so
    no script ever issues one of the commands "canvas.rect", "canvas.line" or
    "canvas.clear", and after any drawings and events every pixel is white. *)
Theorem canvas_stays_blank regcomp regexec script w h ms d :
  CanvasFacts.moments regcomp regexec (Canvas.canvas_widget_new script w h) ms = Done d -> CanvasFacts.all_white d.
Proof. by apply CanvasFacts.moments_white. Qed.
Lemma canvas_stays_blank_witness :
  exists d, CanvasFacts.moments (fun _ => false) (fun _ _ => false) (Canvas.canvas_widget_new (Some "set canvas_rect to 5 set canvas.rect to 5"%string) 3 2)
    [CanvasFacts.Draws (mkRect 0 0 80 24); CanvasFacts.Gets (key_event KEY_UP 0)] = Done d /\ Canvas.pixels d = Some (replicate 6 Canvas.white) /\ CanvasFacts.all_white d.
Proof.
  eexists. split; [vm_compute; reflexivity|]. split; [vm_compute; reflexivity|].
  eapply (canvas_stays_blank (fun _ => false) (fun _ _ => false) (Some "set canvas_rect to 5 set canvas.rect to 5"%string) 3 2
    [CanvasFacts.Draws (mkRect 0 0 80 24); CanvasFacts.Gets (key_event KEY_UP 0)]). vm_compute. reflexivity.
Defined.

(** *** Drawing a rectangle and a line *)

Module Drawing.
Import Canvas.
(** Equality of two tests of coordinates. *)
Ltac same_test := apply eq_true_iff_eq; rewrite ?andb_true_iff, ?Z.leb_le, ?Z.ltb_lt, ?Z.eqb_eq; split; intros; first [discriminate | repeat split; lia | exfalso; lia].
Section drawing.
Context (cw ch color : Z).
Hypothesis (Hcw : 0 <= cw) (Hch : 0 <= ch).

Definition inside (x y : Z) : bool := (0 <=? x) && (x <? cw) && (0 <=? y) && (y <? ch).
(** The pixel at a place of the canvas. *)
Definition at_xy (px : list Z) (x y : Z) : option Z := px !! Z.to_nat (y * cw + x).
Definition canvas_px (px : list Z) : Prop := Z.of_nat (length px) = cw * ch.
(** The place takes the colour when it is on the canvas. *)
Definition plot (px : list Z) (p : Z * Z) : list Z := if inside p.1 p.2 then <[Z.to_nat (p.2 * cw + p.1) := color]> px else px.

Lemma inside_spec x y : inside x y = true <-> 0 <= x < cw /\ 0 <= y < ch.
Proof. unfold inside. rewrite !andb_true_iff, !Z.leb_le, !Z.ltb_lt. lia. Qed.
Lemma index_range x y : inside x y = true -> 0 <= y * cw + x < cw * ch.
Proof. rewrite inside_spec. nia. Qed.
Lemma index_inj x y x' y' : inside x y = true -> inside x' y' = true -> y * cw + x = y' * cw + x' -> x = x' /\ y = y'.
Proof. rewrite !inside_spec. intros Hx Hx' E. assert (y = y') by nia. subst. lia. Qed.
Lemma set_pixel_plot px x y : canvas_px px -> inside x y = true -> set_pixel color (y * cw + x) px = Done (plot px (x, y)).
Proof.
  intros Hp Hi. unfold set_pixel, plot. cbn [fst snd]. rewrite Hi. pose proof (index_range x y Hi). unfold canvas_px in Hp.
  by rewrite (proj2 (Z.leb_le _ _)), (proj2 (Z.ltb_lt _ _)) by lia.
Qed.
Lemma plot_px px p : canvas_px px -> canvas_px (plot px p).
Proof. unfold canvas_px, plot. case_match; by rewrite ?length_insert. Qed.
Lemma at_plot px p x y : canvas_px px -> inside x y = true -> at_xy (plot px p) x y = if decide (p = (x, y)) then Some color else at_xy px x y.
Proof.
  intros Hp Hi. unfold at_xy, plot. destruct p as [x' y']. cbn [fst snd]. pose proof (index_range x y Hi) as Hr. unfold canvas_px in Hp. case_decide as E.
  - injection E as -> ->. rewrite Hi. apply list_lookup_insert_eq. lia.
  - destruct (inside x' y') eqn:Hi'; [|done]. pose proof (index_range x' y' Hi'). apply list_lookup_insert_ne. intros Heq.
    apply E. assert (y' * cw + x' = y * cw + x) as H1 by lia. by destruct (index_inj x' y' x y Hi' Hi H1) as [-> ->].
Qed.

(** A change of the canvas: [P] holds of the places that took the colour. *)
Definition painted (P : Z -> Z -> bool) (px : list Z) (m : exec (list Z)) : Prop :=
  returns m (fun px' => canvas_px px' /\ forall x y, inside x y = true -> at_xy px' x y = if P x y then Some color else at_xy px x y).
Lemma fill_row_painted n : forall row col px, canvas_px px -> row < ch -> n = O \/ col + Z.of_nat n <= cw ->
  painted (fun x y => (y =? row) && (col <=? x) && (x <? col + Z.of_nat n)) px (fill_row cw color n row col px).
Proof.
  induction n as [|n IH]; intros row col px Hp Hr Hc.
  - split; [done|]. intros x y _. by replace ((y =? row) && (col <=? x) && (x <? col + Z.of_nat 0)) with false by same_test.
  - cbn [fill_row]. set (step := if _ : bool then _ else _).
    assert (step = Done (plot px (col, row))) as ->.
    { unfold step. destruct ((0 <=? row) && (0 <=? col)) eqn:E.
      - simp_bool. rewrite (set_pixel_plot px col row Hp); [done|]. rewrite inside_spec. lia.
      - unfold plot. cbn [fst snd]. destruct (inside col row) eqn:Ei; [|done]. apply inside_spec in Ei. exfalso. lia. }
    cbn [mbind exec_bind]. specialize (IH row (col + 1) (plot px (col, row)) (plot_px _ _ Hp) Hr ltac:(destruct n; [by left|right; lia])). unfold painted in *.
    eapply returns_mono; [exact IH|]. intros px' [H1 H2]. split; [done|]. intros x y Hi. rewrite (H2 x y Hi), at_plot by done.
    destruct (decide ((col, row) = (x, y))) as [[= -> ->]|Hne].
    + by replace ((y =? y) && (x <=? x) && (x <? x + Z.of_nat (S n))) with true by same_test; destruct (_ && _ && _).
    + assert (col <> x \/ row <> y) as Hd by (destruct (decide (col = x)) as [->|]; [right; congruence|by left]).
      by replace ((y =? row) && (col + 1 <=? x) && (x <? col + 1 + Z.of_nat n)) with ((y =? row) && (col <=? x) && (x <? col + Z.of_nat (S n))) by same_test.
Qed.
Lemma fill_rows_painted n : forall row rx rw px, canvas_px px -> is_int (rx + rw) -> row + Z.of_nat n <= ch ->
  painted (fun x y => (row <=? y) && (y <? row + Z.of_nat n) && (rx <=? x) && (x <? rx + rw)) px (fill_rows cw color n row rx rw px).
Proof.
  induction n as [|n IH]; intros row rx rw px Hp Hx Hr.
  - split; [done|]. intros x y _. by replace ((row <=? y) && (y <? row + Z.of_nat 0) && (rx <=? x) && (x <? rx + rw)) with false by same_test.
  - cbn [fill_rows]. unfold as_int. rewrite bool_decide_true by done. cbn [mbind exec_bind]. set (k := Z.to_nat _).
    eapply returns_bind; [apply (fill_row_painted k row rx px Hp); unfold k; lia|]. cbn beta. intros px1 [Hp1 H1].
    eapply returns_mono; [exact (IH (row + 1) rx rw px1 Hp1 Hx ltac:(lia))|]. intros px' [H2 H3]. split; [done|]. intros x y Hi.
    rewrite (H3 x y Hi), (H1 x y Hi). apply inside_spec in Hi.
    destruct (Z.eq_dec y row) as [->|].
    + replace ((row + 1 <=? row) && (row <? row + 1 + Z.of_nat n) && (rx <=? x) && (x <? rx + rw)) with false by same_test.
      by replace ((row =? row) && (rx <=? x) && (x <? rx + Z.of_nat k)) with ((row <=? row) && (row <? row + Z.of_nat (S n)) && (rx <=? x) && (x <? rx + rw)) by (unfold k; same_test).
    + replace ((y =? row) && (rx <=? x) && (x <? rx + Z.of_nat k)) with false by same_test.
      by replace ((row + 1 <=? y) && (y <? row + 1 + Z.of_nat n) && (rx <=? x) && (x <? rx + rw)) with ((row <=? y) && (y <? row + Z.of_nat (S n)) && (rx <=? x) && (x <? rx + rw)) by same_test.
Qed.
Lemma draw_rect_painted rx ry rw rh px : canvas_px px -> is_int (rx + rw) -> is_int (ry + rh) ->
  painted (fun x y => (rx <=? x) && (x <? rx + rw) && (ry <=? y) && (y <? ry + rh)) px (draw_rect cw ch color rx ry rw rh px).
Proof.
  intros Hp Hx Hy. unfold draw_rect. destruct ((0 <? rw) && (0 <? rh)) eqn:E.
  - simp_bool. unfold as_int. rewrite bool_decide_true by done. cbn [mbind exec_bind]. set (n := Z.to_nat _).
    assert (n = O \/ ry + Z.of_nat n = Z.min (ry + rh) ch) as [Hn|Hn] by (unfold n; lia).
    + unfold painted. rewrite Hn. split; [done|]. intros x y Hi. apply inside_spec in Hi. unfold n in Hn.
      by replace ((rx <=? x) && (x <? rx + rw) && (ry <=? y) && (y <? ry + rh)) with false by same_test.
    + eapply returns_mono; [apply (fill_rows_painted n ry rx rw px Hp Hx); lia|]. intros px' [H2 H3]. split; [done|]. intros x y Hi. rewrite (H3 x y Hi).
      apply inside_spec in Hi. by replace ((ry <=? y) && (y <? ry + Z.of_nat n) && (rx <=? x) && (x <? rx + rw)) with ((rx <=? x) && (x <? rx + rw) && (ry <=? y) && (y <? ry + rh)) by same_test.
  - split; [done|]. intros x y _. apply andb_false_iff in E as [E|E]; apply Z.ltb_ge in E;
    by replace ((rx <=? x) && (x <? rx + rw) && (ry <=? y) && (y <? ry + rh)) with false by same_test.
Qed.

(** A line from [(x1, y1)], [a] columns and [b] rows long in the directions
    [sx] and [sy]; [i] and [j] count the steps taken. *)
Section line.
Context (a b sx sy x1 y1 : Z).
Hypothesis (Ha : 0 <= a <= 2 ^ 29) (Hb : 0 <= b <= 2 ^ 29) (Hsx : sx = 1 \/ sx = -1) (Hsy : sy = 1 \/ sy = -1)
  (Hx1 : - 2 ^ 28 <= x1 <= 2 ^ 28) (Hy1 : - 2 ^ 28 <= y1 <= 2 ^ 28) (Hx2 : - 2 ^ 28 <= x1 + sx * a <= 2 ^ 28) (Hy2 : - 2 ^ 28 <= y1 + sy * b <= 2 ^ 28).

Definition major (p : Z * Z) : Z := if b <=? a then p.1 else p.2.
(** At most half a pixel away from the straight line, in the minor direction. *)
Definition near (p : Z * Z) : Prop := 0 <= p.1 <= a /\ 0 <= p.2 <= b /\ 2 * Z.abs (b * p.1 - a * p.2) <= Z.max a b.
Definition place (p : Z * Z) : Z * Z := (x1 + sx * p.1, y1 + sy * p.2).
(** One point for each step of the major direction from [k] on, up to the end. *)
Definition path (k : Z) (pts : list (Z * Z)) : Prop :=
  Forall near pts /\ list.last pts = Some (a, b) /\ forall n p, pts !! n = Some p -> major p = k + Z.of_nat n.

Lemma near_stop p : near p -> major p = Z.max a b -> p = (a, b).
Proof. unfold near, major. destruct p as [i j]. cbn [fst snd]. intros (Hi & Hj & Hd) Hm. destruct (Z.leb_spec b a); f_equal; nia. Qed.
(** One pass of the loop: the error term decides the next point. *)
Lemma near_step i j : near (i, j) -> (i, j) <> (a, b) ->
  let e2 := 2 * (a - b + a * j - b * i) in
  let i' := if - b <=? e2 then i + 1 else i in
  let j' := if e2 <=? a then j + 1 else j in
  near (i', j') /\ major (i', j') = major (i, j) + 1 /\ major (i, j) < Z.max a b.
Proof.
  unfold near, major. cbn [fst snd]. intros (Hi & Hj & Hd) Hne. cbv zeta. assert (i < a \/ j < b) as Hlt by (destruct (Z.eq_dec i a); [subst; right; destruct (Z.eq_dec j b); [subst; done|lia]|lia]).
  set (D := b * i - a * j) in *. replace (a - b + a * j - b * i) with (a - b - D) by lia.
  assert (b * (i + 1) - a * j = D + b /\ b * i - a * (j + 1) = D - a /\ b * (i + 1) - a * (j + 1) = D + b - a) as (E1 & E2 & E3) by (unfold D; lia).
  destruct (Z.leb_spec b a) as [Hba|Hba].
  - assert (i < a) as Hia. { destruct (Z.eq_dec i a) as [->|]; [|lia]. exfalso. assert (j < b) by lia. unfold D in Hd. nia. }
    rewrite (proj2 (Z.leb_le (- b) _)) by lia. destruct (Z.leb_spec (2 * (a - b - D)) a) as [Hy|Hy].
    + assert (j < b) as Hjb. { destruct (Z.eq_dec j b) as [->|]; [|lia]. exfalso. unfold D in Hy. nia. }
      rewrite E3. lia.
    + rewrite E1. lia.
  - assert (j < b) as Hjb. { destruct (Z.eq_dec j b) as [->|]; [|lia]. exfalso. assert (i < a) by lia. unfold D in Hd. nia. }
    rewrite (proj2 (Z.leb_le (2 * (a - b - D)) a)) by lia. destruct (Z.leb_spec (- b) (2 * (a - b - D))) as [Hx|Hx].
    + assert (i < a) as Hia. { destruct (Z.eq_dec i a) as [->|]; [|lia]. exfalso. unfold D in Hx. nia. }
      rewrite E3. lia.
    + rewrite E2. lia.
Qed.
Lemma as_int_small z : - 2 ^ 31 <= z < 2 ^ 31 -> as_int z = Done z.
Proof. intros H. unfold as_int. rewrite bool_decide_true; [done|]. unfold is_int, INT_MIN, INT_MAX. lia. Qed.

Lemma line_loop_draws m : forall i j px, canvas_px px -> near (i, j) -> Z.of_nat m = Z.max a b - major (i, j) ->
  exists pts, path (major (i, j)) pts /\ hd_error pts = Some (i, j) /\
    line_loop cw ch color (S m) a (- b) sx sy (x1 + sx * a) (y1 + sy * b) (x1 + sx * i) (y1 + sy * j) (a - b + a * j - b * i) px
    = Done (foldl plot px (map place pts)).
Proof.
  induction m as [|m IH]; intros i j px Hp Hn Hm; pose proof Hn as (Hi & Hj & Hd); cbn [fst snd] in *;
    (assert ((if inside (x1 + sx * i) (y1 + sy * j) then set_pixel color ((y1 + sy * j) * cw + (x1 + sx * i)) px else Done px) = Done (plot px (place (i, j)))) as Hpix
      by (unfold place; cbn [fst snd]; destruct (inside (x1 + sx * i) (y1 + sy * j)) eqn:E; [by apply set_pixel_plot|unfold plot; cbn [fst snd]; by rewrite E]));
    unfold inside in Hpix; cbn [line_loop]; rewrite Hpix; cbn [mbind exec_bind].
  - assert ((i, j) = (a, b)) as [= -> ->] by (apply near_stop; [done|lia]). rewrite !Z.eqb_refl. exists [(a, b)]. split_and!; try done.
    split_and!; [by constructor|done|]. intros [|n] p; [|done]. intros [= <-]. lia.
  - destruct (decide ((i, j) = (a, b))) as [[= -> ->]|Hne]; [exfalso; unfold major in Hm; cbn [fst snd] in Hm; case_match; simp_bool; lia|].
    assert ((x1 + sx * i =? x1 + sx * a) && (y1 + sy * j =? y1 + sy * b) = false) as ->.
    { apply andb_false_iff. rewrite !Z.eqb_neq. destruct (Z.eq_dec i a); [|left; nia]. destruct (Z.eq_dec j b); [subst; done|right; nia]. }
    pose proof (near_step i j Hn Hne) as (Hn' & Hk & _). cbv zeta in Hn', Hk.
    set (e := a - b + a * j - b * i) in *. assert (- 2 ^ 30 < e < 2 ^ 30) as He by (unfold e; lia).
    rewrite (as_int_small (2 * e)) by lia. cbn [mbind exec_bind].
    set (i' := if - b <=? 2 * e then i + 1 else i) in *. set (j' := if 2 * e <=? a then j + 1 else j) in *.
    assert (forall k : Z * Z -> exec (list Z), (('(err, x) ← (if - b <=? 2 * e then err ← as_int (e + - b); x ← as_int (x1 + sx * i + sx); Done (err, x) else Done (e, x1 + sx * i) : exec (Z * Z)); k (err, x)) : exec (list Z))
      = k (a - b + a * j - b * i', x1 + sx * i')) as Hx.
    { intros k. unfold i'. destruct (- b <=? 2 * e) eqn:E; [|done]. rewrite (as_int_small (e + - b)) by lia. cbn [mbind exec_bind].
      rewrite (as_int_small (x1 + sx * i + sx)) by nia. cbn [mbind exec_bind]. f_equal. f_equal; unfold e; lia. }
    rewrite (Hx (fun '(err, x) => '(err, y) ← (if 2 * e <=? a then err ← as_int (err + a); y ← as_int (y1 + sy * j + sy); Done (err, y) else Done (err, y1 + sy * j) : exec (Z * Z));
      line_loop cw ch color (S m) a (- b) sx sy (x1 + sx * a) (y1 + sy * b) x y err (plot px (place (i, j))))).
    assert (forall k : Z * Z -> exec (list Z), (('(err, y) ← (if 2 * e <=? a then err ← as_int (a - b + a * j - b * i' + a); y ← as_int (y1 + sy * j + sy); Done (err, y) else Done (a - b + a * j - b * i', y1 + sy * j) : exec (Z * Z)); k (err, y)) : exec (list Z))
      = k (a - b + a * j' - b * i', y1 + sy * j')) as Hy.
    { intros k. unfold j'. destruct (2 * e <=? a) eqn:E; [|done]. rewrite (as_int_small (a - b + a * j - b * i' + a)) by (unfold i', e in *; case_match; simp_bool; lia). cbn [mbind exec_bind].
      rewrite (as_int_small (y1 + sy * j + sy)) by nia. cbn [mbind exec_bind]. f_equal. f_equal; lia. }
    rewrite (Hy (fun '(err, y) => line_loop cw ch color (S m) a (- b) sx sy (x1 + sx * a) (y1 + sy * b) (x1 + sx * i') y err (plot px (place (i, j))))).
    destruct (IH i' j' (plot px (place (i, j)))) as (pts & (Hnear & Hlast & Hmaj) & Hhd & E); [by apply plot_px|exact Hn'|rewrite Hk; lia|].
    exists ((i, j) :: pts). split; [|split; [done|exact E]]. split_and!; [by constructor|destruct pts; [done|exact Hlast]|].
    intros [|n] p; [intros [= <-]; lia|]. intros Hl. rewrite (Hmaj n p Hl), Hk. lia.
Qed.
End line.
End drawing.
End Drawing.

(** A rectangle takes the colour exactly on its part of the canvas, and a
    rectangle that lies elsewhere changes nothing: drawing never writes outside
    the pixels, for any position whose far edges are numbers of type [int]. *)
Theorem rect_drawn cw ch color rx ry rw rh px : 0 <= cw -> 0 <= ch -> Drawing.canvas_px cw ch px -> is_int (rx + rw) -> is_int (ry + rh) ->
  exists px', Canvas.draw_rect cw ch color rx ry rw rh px = Done px' /\ Drawing.canvas_px cw ch px' /\
  forall x y, Drawing.inside cw ch x y = true ->
    Drawing.at_xy cw px' x y = if (rx <=? x) && (x <? rx + rw) && (ry <=? y) && (y <? ry + rh) then Some color else Drawing.at_xy cw px x y.
Proof.
  intros Hcw Hch Hp Hx Hy. pose proof (Drawing.draw_rect_painted cw ch color Hcw rx ry rw rh px Hp Hx Hy) as H.
  apply returns_Done in H as (px' & E & H). by exists px'.
Qed.
Lemma rect_drawn_witness : exists px', Canvas.draw_rect 3 2 7 1 (-5) 9 6 (replicate 6 0) = Done px' /\ px' = [0; 7; 7; 0; 0; 0].
Proof.
  destruct (rect_drawn 3 2 7 1 (-5) 9 6 (replicate 6 0)) as (px' & E & _); [lia|lia|done|by split|by split|]. exists px'. split; [exact E|]. vm_compute in E. congruence.
Defined.

(** a line is drawn by one pixel for each step of its longer direction, from
    its first point to its last, each at most half a pixel from the straight
    line; the loop ends after exactly that many steps, and pixels off the canvas
    are left out. *)
Theorem line_drawn cw ch color x1 y1 x2 y2 px : 0 <= cw -> 0 <= ch -> Drawing.canvas_px cw ch px ->
  - 2 ^ 28 <= x1 <= 2 ^ 28 -> - 2 ^ 28 <= y1 <= 2 ^ 28 -> - 2 ^ 28 <= x2 <= 2 ^ 28 -> - 2 ^ 28 <= y2 <= 2 ^ 28 ->
  let a := Z.abs (x2 - x1) in let b := Z.abs (y2 - y1) in
  let place := Drawing.place (if x1 <? x2 then 1 else -1) (if y1 <? y2 then 1 else -1) x1 y1 in
  exists pts, Drawing.path a b 0 pts /\ hd_error pts = Some (0, 0) /\ place (a, b) = (x2, y2) /\
    Canvas.draw_line cw ch color (Canvas.line_fuel x1 y1 x2 y2) x1 y1 x2 y2 px = Done (foldl (Drawing.plot cw ch color) px (map place pts)).
Proof.
  intros Hcw Hch Hp Hx1 Hy1 Hx2 Hy2 a b place. set (sx := if x1 <? x2 then 1 else -1) in *. set (sy := if y1 <? y2 then 1 else -1) in *.
  assert (x1 + sx * a = x2 /\ y1 + sy * b = y2) as [Ex Ey].
  { unfold sx, sy, a, b. destruct (Z.ltb_spec x1 x2), (Z.ltb_spec y1 y2); lia. }
  assert (forall d, - 2 ^ 29 <= d <= 2 ^ 29 -> (as_int d ≫= Canvas.abs_int) = Done (Z.abs d)) as Habs.
  { intros d Hd. rewrite Drawing.as_int_small by lia. cbn [mbind exec_bind]. unfold Canvas.abs_int. rewrite Drawing.as_int_small by lia. cbn [mbind exec_bind]. by rewrite Drawing.as_int_small by lia. }
  destruct (Drawing.line_loop_draws cw ch color Hcw a b sx sy x1 y1) with (m := Z.to_nat (Z.max a b)) (i := 0) (j := 0) (px := px) as (pts & Hpath & Hhd & E); try done; try lia.
  - unfold sx. destruct (x1 <? x2); [by left|by right].
  - unfold sy. destruct (y1 <? y2); [by left|by right].
  - unfold Drawing.near. cbn [fst snd]. lia.
  - unfold Drawing.major. cbn [fst snd]. destruct (b <=? a); lia.
  - exists pts. split; [|split; [done|]].
    { unfold Drawing.major in Hpath. cbn [fst snd] in Hpath. by destruct (b <=? a). }
    split; [unfold place, Drawing.place; cbn [fst snd]; by rewrite Ex, Ey|].
    unfold Canvas.draw_line. rewrite !Habs by lia. cbn [mbind exec_bind]. fold a b sx sy. rewrite Ex, Ey, !Z.mul_0_r, !Z.add_0_r, Z.sub_0_r in E.
    rewrite Z.add_opp_r. exact E.
Qed.
Lemma line_drawn_witness : exists px', Canvas.draw_line 4 3 7 (Canvas.line_fuel (-1) 0 3 2) (-1) 0 3 2 (replicate 12 0) = Done px' /\
  px' = [0; 0; 0; 0; 7; 7; 0; 0; 0; 0; 7; 7].
Proof.
  destruct (line_drawn 4 3 7 (-1) 0 3 2 (replicate 12 0)) as (pts & _ & _ & _ & E); [lia|lia|done|lia..|]. eexists. split; [exact E|].
  assert (Canvas.draw_line 4 3 7 (Canvas.line_fuel (-1) 0 3 2) (-1) 0 3 2 (replicate 12 0) = Done [0; 0; 0; 0; 7; 7; 0; 0; 0; 0; 7; 7]) as F by (vm_compute; reflexivity).
  rewrite F in E. apply Done_inj in E. by symmetry.
Defined.

(** *** The disk *)

Module Disks.
Import Disk.
(** With free space there is always an entry selected, and the one that is
    edited exists. *)
Definition disk_inv (d : DiskData) : Prop :=
  0 <= selected d < part_count d + free_count d /\ 0 < free_count d /\
  match mode d with
  | DMODE_NEW_PARTITION => 0 <= editing_idx d < free_count d
  | DMODE_RESIZE_INPUT => 0 <= editing_idx d < part_count d
  | _ => True
  end.
Definition disk_answer (d : DiskData) (r : WidgetResponse) : Prop :=
  cancelled_answer r \/ r = mkResponse (Some (partitions_json (partitions d))) false None.

Lemma leave_keeps d : disk_inv d -> disk_inv (leave_input d).
Proof. intros (Hs & Hf & _). split; [exact Hs|by split]. Qed.
Lemma apply_input_keeps s d : disk_inv d -> mode d = DMODE_NEW_PARTITION \/ mode d = DMODE_RESIZE_INPUT ->
  exists d', apply_input s d = Done d' /\ disk_inv (leave_input d').
Proof.
  intros Hd Hn. pose proof Hd as (Hs & Hf & Hm). unfold apply_input. destruct (0 <? _); [|exists d; split; [done|by apply leave_keeps]].
  unfold disk_inv, part_count, free_count in *. destruct Hn as [Hn|Hn]; rewrite Hn in *; rewrite (proj2 (Z.ltb_ge _ _)) by lia.
  - destruct (lookup_lt_is_Some_2 (free_space d) (Z.to_nat (editing_idx d))) as [fs ->]; [lia|]. eexists. split; [done|].
    cbn. rewrite length_app. cbn. split_and!; lia.
  - destruct (lookup_lt_is_Some_2 (partitions d) (Z.to_nat (editing_idx d))) as [p ->]; [lia|]. eexists. split; [done|].
    cbn. rewrite length_insert. split_and!; lia.
Qed.
Lemma input_keeps d ev : disk_inv d -> mode d = DMODE_NEW_PARTITION \/ mode d = DMODE_RESIZE_INPUT ->
  exists d' r, input_handle_event d ev = Done (d', r) /\ disk_inv d' /\ match r with EVENT_RESULT_RESPONSE _ => False | _ => True end.
Proof.
  intros Hd Hm. unfold input_handle_event. pose proof (leave_keeps d Hd) as Hl. assert (forall i, disk_inv (set_input i d)) as Hi by (intros i; exact Hd).
  destruct (code ev); try (by eexists _, _).
  destruct (input d) as [[|c s]|]; cbn [mbind exec_bind]; try (by eexists _, _).
  destruct (apply_input_keeps (c :: s) d Hd Hm) as (d' & -> & Hd'). eexists _, _. split; [done|]. by split.
Qed.
Lemma letter_keeps d c : disk_inv d -> mode d = DMODE_MAIN ->
  disk_inv (letter_handle_event d c).1 /\ match (letter_handle_event d c).2 with EVENT_RESULT_RESPONSE r => cancelled_answer r | _ => True end.
Proof.
  intros Hd Hm. pose proof Hd as (Hs & Hf & _). unfold letter_handle_event.
  destruct (c =? 113); [done|]. destruct (c =? 110).
  { split; [|done]. cbn [fst]. case_match; simp_bool; [|done]. split; [exact Hs|]. split; [exact Hf|]. cbn in *. unfold free_count, part_count in *. cbn. lia. }
  destruct (c =? 100).
  { split; [|done]. cbn [fst]. destruct (Z.ltb_spec (selected d) (part_count d)) as [Hl|Hl]; [|done]. unfold disk_inv, part_count, free_count in *. cbn. rewrite Hm.
    destruct (lookup_lt_is_Some_2 (partitions d) (Z.to_nat (selected d))) as [p Hp]; [lia|]. rewrite length_delete by (by eexists). destruct (Z.leb_spec (Z.of_nat (length (partitions d)) - 1) (selected d)), (Z.ltb_spec 0 (selected d)); cbn [andb]; split_and!; (done || lia). }
  destruct (c =? 114).
  { split; [|done]. cbn [fst]. case_match; simp_bool; [|done]. split; [exact Hs|]. split; [exact Hf|]. cbn in *. unfold free_count, part_count in *. cbn. lia. }
  by destruct (c =? 119).
Qed.
Lemma disk_handles : handles disk_inv disk_answer.
Proof.
  intros d ev Hd. pose proof Hd as (Hs & Hf & _). cbn [handle_event disk_widget]. unfold disk_handle_event.
  destruct (Widget.type ev); try (by eexists _, _). destruct (mode d) eqn:Hm.
  - unfold main_handle_event. destruct (code ev); try (by eexists _, _).
    + eexists _, _. split; [done|]. split; [|done]. unfold disk_inv, part_count, free_count in *. cbn. rewrite Hm. destruct (Z.ltb_spec 0 (selected d)); split_and!; (done || lia).
    + eexists _, _. split; [done|]. split; [|done]. unfold disk_inv, part_count, free_count in *. cbn. rewrite Hm. destruct (Z.ltb_spec (selected d + 1) (Z.of_nat (length (partitions d)) + Z.of_nat (length (free_space d)))); split_and!; (done || lia).
    + destruct (readonly d); [by eexists _, _|]. destruct (letter_keeps d (ch ev) Hd Hm) as [H1 H2]. destruct (letter_handle_event d (ch ev)) as [d' r].
      eexists _, _. split; [done|]. split; [done|]. destruct r; [done|by left|done].
    + eexists _, _. split; [done|]. split; [done|by left].
  - unfold confirm_handle_event. assert (disk_inv (enter_mode DMODE_MAIN (input d) (editing_idx d) d)) as He by (by split).
    destruct (code ev); try (by eexists _, _). destruct (_ || _)%bool; [|by eexists _, _]. eexists _, _. split; [done|]. split; [done|by right].
  - destruct (input_keeps d ev Hd) as (d' & r & -> & Hd' & Hr); [by right|]. exists d', r. split; [done|]. split; [done|]. by destruct r.
  - destruct (input_keeps d ev Hd) as (d' & r & -> & Hd' & Hr); [by left|]. exists d', r. split; [done|]. split; [done|]. by destruct r.
Qed.
Lemma disk_draws d : disk_inv d -> exists t, disk_render d = Done (d, t).
Proof.
  intros (Hs & _ & _). unfold disk_render. cbv zeta. destruct (_ && _) eqn:E; [|by eexists]. simp_bool. rewrite (proj2 (Z.ltb_ge (selected d) 0)) by lia.
  destruct (lookup_lt_is_Some_2 (partitions d) (Z.to_nat (selected d))) as [p ->]; [unfold part_count in *; lia|]. by eexists.
Qed.
End Disks.

(** the disk editor on a disk with free space: whatever the events, in any of
    its four modes, every access to a partition or to the free space is inside
    its array, the editor can be drawn, and the only answers are a cancellation
    and, after a confirmation, the array of the partitions. *)
Theorem disk_safe d evs : Disks.disk_inv d ->
  exists d' r, run_events d evs = Done (d', r) /\ no_fault (Disk.disk_render d') /\
    match r with Some resp => Disks.disk_answer d' resp | None => True end.
Proof.
  intros Hd. destruct (run_events_handles _ _ Disks.disk_handles evs d Hd) as (d' & r & E & Hd' & Hr). exists d', r. split; [done|].
  split; [|done]. by destruct (Disks.disk_draws d' Hd') as [t ->].
Qed.
Definition disk_example : Disk.DiskData :=
  Disk.mk widget_base_init "disks" "/dev/sda" None [Disk.mkPartition 1 "0" (Some "9"%string) "10M" "EFI" None] [Disk.mkFree "10" "99" "90M"] 0 false Disk.DMODE_MAIN 0.
(** Down to the free space, n, a size, Enter, w, y. *)
Definition disk_keys : list Event :=
  [key_event KEY_DOWN 0; key_event KEY_CHAR 110; key_event KEY_CHAR 53; key_event KEY_CHAR 77; key_event KEY_ENTER 0; key_event KEY_CHAR 119; key_event KEY_CHAR 121].
Definition disk_partitions : list Disk.Partition :=
  [Disk.mkPartition 1 "0" (Some "9"%string) "10M" "EFI" None; Disk.mkPartition 2 "10" None "5M" "Linux filesystem" None].
Definition disk_result : cJSON := Disk.partitions_json disk_partitions.
Lemma disk_safe_witness : exists d r, run_events disk_example disk_keys = Done (d, Some r) /\ no_fault (Disk.disk_render d) /\ result r = Some disk_result.
Proof.
  destruct (disk_safe disk_example disk_keys) as (d & r & E & Hn & _); [by repeat split|].
  assert (exists d0, run_events disk_example disk_keys = Done (d0, Some (mkResponse (Some disk_result) false None))) as [d0 F] by (eexists; vm_compute; reflexivity).
  rewrite F in E. apply Done_inj in E. pose proof (f_equal fst E) as E1. pose proof (f_equal snd E) as E2. cbn [fst snd] in E1, E2. subst d r.
  exists d0, (mkResponse (Some disk_result) false None). split; [exact F|]. split; [exact Hn|reflexivity].
Defined.

(** The answer read as the partitions of a new editor. *)
Module Answers.
Import Disk.
Definition closed (p : Partition) : Partition := mkPartition (number p) (start p) (Some (default EmptyString (p_end p))) (size p) (ptype p) None.
Lemma partitions_json_spec l : partitions_json l = set_child (map partition_json l) cJSON_CreateArray.
Proof.
  unfold partitions_json. assert (forall l ch, foldl (fun a p => cJSON_AddItemToArray a (Some (partition_json p))) (set_child ch cJSON_CreateArray) l = set_child (ch ++ map partition_json l) cJSON_CreateArray) as H.
  { clear l. induction l as [|p l IH]; intros ch; [by rewrite app_nil_r|]. cbn [foldl map]. 
    change (cJSON_AddItemToArray (set_child ch cJSON_CreateArray) (Some (partition_json p))) with (set_child (ch ++ [partition_json p]) cJSON_CreateArray).
    by rewrite IH, <-(assoc_L (++)). }
  exact (H l []).
Qed.
Lemma partition_of_json i p : is_int (number p) -> partition_of i (partition_json p) = closed p.
Proof.
  intros Hn. destruct p as [n s e z t f]. unfold closed. cbn [number start p_end size ptype] in *.
  assert (partition_of i (partition_json (mkPartition n s e z t f)) = mkPartition (d_to_valueint (d_of_Z n)) s (Some (default EmptyString e)) z t None) as -> by (destruct e; reflexivity).
  by rewrite valueint_of_Z.
Qed.
End Answers.

(** what the disk editor answers can be given to it again: the partitions of
    an answer, read by the constructor, are the ones that were edited, with an
    empty end where a new partition had none. *)
Theorem disk_reads_back l free t dk ro : Forall (fun p => is_int (Disk.number p)) l ->
  Disk.partitions (Disk.disk_widget_new t dk (Some (Disk.partitions_json l)) free ro) = map Answers.closed l.
Proof.
  intros Hl. rewrite Answers.partitions_json_spec. unfold Disk.disk_widget_new. cbn [Disk.partitions]. 
  change (Disk.array_items (Some (set_child (map Disk.partition_json l) cJSON_CreateArray))) with (map Disk.partition_json l).
  assert (forall k, imap (fun i => Disk.partition_of (k + i)) (map Disk.partition_json l) = map Answers.closed l) as H; [|exact (H O)].
  induction Hl as [|p l Hp _ IH]; intros k; [done|]. cbn [map imap]. rewrite Answers.partition_of_json by done. f_equal.
  rewrite <-(IH (S k)). apply imap_ext. intros i x _. cbn. f_equal. lia.
Qed.
Lemma disk_reads_back_witness : Disk.partitions (Disk.disk_widget_new "" "" (Some disk_result) None true) =
  [Disk.mkPartition 1 "0" (Some "9"%string) "10M" "EFI" None; Disk.mkPartition 2 "10" (Some EmptyString) "5M" "Linux filesystem" None].
Proof. apply (disk_reads_back disk_partitions None "" "" true). repeat constructor; by vm_compute. Defined.

(** Without free space the entry behind the last partition can still be taken
    for a new one; and a new partition takes the number of one that is left. *)
Lemma disk_new_faults :
  let d := Disk.mk widget_base_init "disks" "/dev/sda" None [] [] 0 false Disk.DMODE_MAIN 0 in
  run_events d [key_event KEY_CHAR 110; key_event KEY_CHAR 53; key_event KEY_ENTER 0] = Fault OutOfBounds.
Proof. by vm_compute. Qed.
Lemma disk_numbers_collide :
  let p n := Disk.mkPartition n "0" (Some "9"%string) "10M" "EFI" None in
  let d := Disk.mk widget_base_init "disks" "/dev/sda" None [p 1; p 2] [Disk.mkFree "10" "99" "90M"] 0 false Disk.DMODE_MAIN 0 in
  exists d', run_events d [key_event KEY_CHAR 100; key_event KEY_DOWN 0; key_event KEY_CHAR 110; key_event KEY_CHAR 53; key_event KEY_ENTER 0] = Done (d', None) /\
    map Disk.number (Disk.partitions d') = [2; 2].
Proof. eexists. split; [vm_compute; reflexivity|by vm_compute]. Qed.

(** *** The macro recorder *)

Section macros.
Import MacroRecorder.
Context (time : nat -> Z) (files : string -> option string) (opens : string -> bool).
#[local] Instance macro_at : Widget MacroRecorderData := macro_recorder_widget time files opens.

Definition file_name (s : list ascii) : Prop := s <> [] /\ Forall (fun c => 32 <= schar c) s.
Lemma types_path s : forall d rest, Forall (fun c => 32 <= schar c) s -> mode d = MR_SAVE_INPUT ->
  exists d', run_events d (type_chars s ++ rest) = run_events d' rest /\ mode d' = MR_SAVE_INPUT /\ save_path d' = save_path d ++ s /\
    global d' = global d /\ saved d' = saved d /\ is_recording d' = is_recording d.
Proof.
  induction s as [|c s IH]; intros d rest Hs Hm; [exists d; by rewrite app_nil_r|]. apply Forall_cons_1 in Hs as [Hc Hs].
  cbn [type_chars map app run_events handle_event macro_at macro_recorder_widget]. unfold mr_handle_event at 1. cbn [Widget.type key_event]. rewrite Hm.
  unfold save_handle_event. cbn [code ch key_event]. rewrite (proj2 (Z.leb_le _ _)) by done. cbn [mbind exec_bind event_result_handled].
  rewrite append_char_spec by (intros ->; by vm_compute in Hc).
  destruct (IH (touch (set_mode (mode d) (save_path d ++ [c]) d)) rest Hs Hm) as (d' & E & Hm' & Hp & Hg & Hsv & Hr).
  exists d'. split; [exact E|]. split_and!; try done. rewrite Hp. cbn. by rewrite <-(assoc_L (++)).
Qed.

(** [L] is offered as the key that loads a recording, but it opens the dialog
    of [W]: the name typed is written to, not read, and nothing is loaded. *)
Theorem macro_load_saves d s text : mode d = MR_BROWSING -> file_name s -> recorder_save (opens (of_chars s)) (global d) = Done (Some text) ->
  exists d', run_events d (key_event KEY_CHAR 108 :: type_chars s ++ [key_event KEY_ENTER 0]) = Done (d', None) /\
    global d' = global d /\ saved d' = (of_chars s, text) :: saved d /\ mode d' = MR_BROWSING.
Proof.
  intros Hm [Hn Hs] Hsave. destruct (types_path s (touch (set_mode MR_SAVE_INPUT [] d)) [key_event KEY_ENTER 0] Hs eq_refl) as (d' & E & Hm' & Hp & Hg & Hsv & _).
  assert (run_events d (key_event KEY_CHAR 108 :: type_chars s ++ [key_event KEY_ENTER 0]) = run_events d' [key_event KEY_ENTER 0]) as ->.
  { rewrite <-E. cbn [run_events handle_event macro_at macro_recorder_widget]. unfold mr_handle_event at 1. by rewrite Hm. }
  cbn [app save_path touch set_mode with_base] in Hp. cbn [run_events handle_event macro_at macro_recorder_widget]. unfold mr_handle_event. cbn [Widget.type key_event]. rewrite Hm'.
  unfold save_handle_event, save. cbn [code key_event]. rewrite Hp. destruct s as [|c s]; [done|].
  rewrite Hg. cbn [touch set_mode with_base global saved] in *. rewrite Hsave. eexists. split; [reflexivity|]. cbn. by rewrite Hsv.
Qed.
End macros.
Definition one_frame : Recorder.Recorder :=
  Recorder.mkRecorder [Recorder.mkFrame (Some "menu"%string) None (mkResponse None true None) 5 None] 1 [] 0 false false 0 0.
Lemma macro_load_saves_witness : exists d' text,
  @run_events _ (macro_at (fun _ => 0) (fun _ => None) (fun _ => true)) (MacroRecorder.macro_recorder_widget_new one_frame)
    (key_event KEY_CHAR 108 :: type_chars ["r"%char] ++ [key_event KEY_ENTER 0]) = Done (d', None) /\ MacroRecorder.saved d' = [("r"%string, text)].
Proof.
  assert (exists text, recorder_save true one_frame = Done (Some text)) as [text Ht] by (eexists; vm_compute; reflexivity).
  destruct (macro_load_saves (fun _ => 0) (fun _ => None) (fun _ => true) (MacroRecorder.macro_recorder_widget_new one_frame) ["r"%char] text) as (d' & E & _ & Hs & _).
  - done.
  - split; [done|]. repeat constructor. by vm_compute.
  - exact Ht.
  - exists d', text. by split.
Defined.
