(* ===== verification/Theme.v ===== *)
(** Themes: src/src/core/theme.c and theme.h, and the style pass
    [resolve_node_styles] of src/src/core/render.c.

    The files of the system are a parameter, from paths to contents; a theme's
    rules are its linked list in order, and the chain [next] of themes is a
    list. The registry of animations, which loading and freeing a theme change,
    is passed along. *)

From Stdlib Require Import SpecFloat.
From S2P Require Import Prelude Double CJson CJsonParse Fil RenderTree Color Animation.

Record StyleRule := mkRule { widget_class : option string; child_class : option string; r_state : option string; style : WidgetStyle }.
Record Theme := mkTheme { t_name : string; vars : list (string * string); rules : list StyleRule }.

(** ** Variables and colour functions *)

Fixpoint assoc (k : string) (l : list (string * string)) : option string :=
  match l with [] => None | (n, v) :: l' => if decide (n = k) then Some v else assoc k l' end.
(** [strchr]: the text before the character and behind it. *)
Fixpoint split_at (c : ascii) (l : list ascii) : option (list ascii * list ascii) :=
  match l with
  | [] => None
  | d :: l' => if Ascii.eqb c d then Some ([], l') else prod_map (cons d) id <$> split_at c l'
  end.

(** The argument of "$name(...)", when the value is of that form. *)
Definition call_of (f : string) (name : list ascii) : option (list ascii) :=
  if has_prefix (chars f) name then fst <$> split_at ")" (drop (String.length f) name) else None.
Definition mix_args (name : list ascii) : option (list ascii * list ascii * list ascii) :=
  if has_prefix (chars "mix(") name then
    '(a, r) ← split_at "," (drop 4 name); '(b, r) ← split_at "," r; '(c, _) ← split_at ")" r; Some (a, b, c)
  else None.

Section resolve.
Variable t_vars : list (string * string).

(** The nesting of calls is bounded by the length of the value. *)
Fixpoint resolve_var (fuel : nat) (value : string) : exec string :=
  match fuel with
  | O => Fault Diverges
  | S fuel' =>
      let apply_color_function (f : Z -> Z) (arg : list ascii) :=
        resolved ← resolve_var fuel' (of_chars arg); Done (color_to_hex (f (parse_color (Some resolved)))) in
      match chars value with
      | c :: name =>
          if negb (Ascii.eqb c "$") then Done value else
          match call_of "lighten(" name with
          | Some arg => apply_color_function (fun c => color_lighten c (f_lit 2 1)) arg
          | None =>
          match call_of "darken(" name with
          | Some arg => apply_color_function (fun c => color_darken c (f_lit 2 1)) arg
          | None =>
          match call_of "alpha(" name with
          | Some arg => apply_color_function (fun c => color_alpha c (f_lit 5 1)) arg
          | None =>
          match mix_args name with
          | Some (a, b, amt) =>
              c1 ← resolve_var fuel' (of_chars a); c2 ← resolve_var fuel' (of_chars b);
              Done (color_to_hex (color_mix (parse_color (Some c1)) (parse_color (Some c2)) (f_of_d (atof amt))))
          | None => Done (default value (assoc (of_chars name) t_vars))
          end end end end
      | [] => Done value
      end
  end.
Definition resolve (value : string) : exec string := resolve_var (S (String.length value)) value.
(** [parse_color(resolve_var(t, value))] *)
Definition resolve_color (value : string) : exec Z := v ← resolve value; Done (parse_color (Some v)).
End resolve.

(** ** Reading a style *)

Definition parse_int (o : cJSON) (k : string) (def : Z) : Z :=
  match member o k with Some i => if cJSON_IsNumber (Some i) then valueint i else def | None => def end.
Definition parse_float (o : cJSON) (k : string) (def : float) : float :=
  match member o k with Some i => if cJSON_IsNumber (Some i) then f_of_d (valuedouble i) else def | None => def end.
Definition parse_bool (o : cJSON) (k : string) (def : bool) : bool :=
  match member o k with Some i => if cJSON_IsBool (Some i) then cJSON_IsTrue (Some i) else def | None => def end.
Definition parse_align (s : string) : Alignment :=
  if decide (s = "center")%string then ALIGN_CENTER else if decide (s = "right")%string then ALIGN_RIGHT else ALIGN_LEFT.
Definition parse_border_style (s : string) : BorderStyle :=
  if decide (s = "none")%string then BORDER_NONE else if decide (s = "solid")%string then BORDER_SOLID
  else if decide (s = "dashed")%string then BORDER_DASHED else if decide (s = "dotted")%string then BORDER_DOTTED
  else if decide (s = "double")%string then BORDER_DOUBLE else if decide (s = "rounded")%string then BORDER_ROUNDED else BORDER_SOLID.
Definition parse_cursor_style (s : string) : CursorStyle :=
  if decide (s = "default")%string then CURSOR_DEFAULT else if decide (s = "pointer")%string then CURSOR_POINTER
  else if decide (s = "text")%string then CURSOR_TEXT else if decide (s = "move")%string then CURSOR_MOVE
  else if decide (s = "not-allowed")%string then CURSOR_NOT_ALLOWED else CURSOR_DEFAULT.

Section reading.
Variable t_vars : list (string * string).

Definition themed_color (o : cJSON) (k : string) : exec (option Z) :=
  match member_string o k with Some v => c ← resolve_color t_vars v; Done (Some c) | None => Done None end.

(** One element of the array "shadow". *)
Definition parse_shadow (sh : cJSON) : exec ShadowLayer :=
  c ← themed_color sh "color";
  Done (mkShadow (parse_int sh "offset_x" 0) (parse_int sh "offset_y" 2) (parse_int sh "blur" 4) (parse_int sh "spread" 0) (default (rgba 0 0 0 80) c)).
(** Without an array: one shadow, if it has a blur or a colour. *)
Definition parse_single_shadow (o : cJSON) : exec (list ShadowLayer) :=
  let blur := parse_int o "shadow_blur" 0 in
  c ← themed_color o "shadow_color";
  if (0 <? blur) || match c with Some _ => true | None => false end
  then Done [mkShadow (parse_int o "shadow_offset_x" 0) (parse_int o "shadow_offset_y" 0) blur (parse_int o "shadow_spread" 0) (default 0 c)]
  else Done [].
(** The layers that are written, from the first on. *)
Definition parse_shadow_array (o : cJSON) : exec (list ShadowLayer) :=
  match member o "shadow" with
  | Some a => if cJSON_IsArray (Some a) then mapM parse_shadow (take (Z.to_nat MAX_SHADOWS) (child a)) else parse_single_shadow o
  | None => parse_single_shadow o
  end.

Definition parse_stop (st : cJSON) : exec GradientStop :=
  c ← themed_color st "color"; Done (mkStop (parse_float st "offset" f_zero) (default 0 c)).
Definition parse_gradient (o : cJSON) (bg : Z) : exec Gradient :=
  match member o "bg_gradient" with
  | Some grad =>
      if cJSON_IsObject (Some grad) then
        let ty := if decide (member_string grad "type" = Some "radial"%string) then GRADIENT_RADIAL else GRADIENT_LINEAR in
        l ← (if cJSON_IsArray (member grad "stops")
             then mapM parse_stop (take (Z.to_nat MAX_GRADIENT_STOPS) (default [] (child <$> member grad "stops"))) else Done []);
        Done (mkGradient ty (parse_float grad "angle" (f_lit 180 0)) (parse_float grad "center_x" half) (parse_float grad "center_y" half)
          (set_front l (stops gradient_zero)) (Z.of_nat (length l)))
      else if parse_bool o "bg_gradient" false then
        c ← themed_color o "bg_gradient_to";
        Done (mkGradient GRADIENT_LINEAR (parse_float o "bg_gradient_direction" (f_lit 180 0)) f_zero f_zero
          (set_front [mkStop f_zero bg; mkStop f1 (default 0 c)] (stops gradient_zero)) 2)
      else Done gradient_zero
  | None => Done gradient_zero
  end.

(** An array of at least four, or one number for all four sides. *)
Definition parse_sides (o : cJSON) (k : string) (def : list Z) : list Z :=
  match member o k with
  | Some i =>
      if cJSON_IsArray (Some i) && (4 <=? length (child i))%nat then map valueint (take 4 (child i))
      else if cJSON_IsNumber (Some i) then replicate 4 (valueint i) else def
  | None => def
  end.

Definition parse_widget_style (o : cJSON) : exec WidgetStyle :=
  let s := widgetstyle_default in
  fg ← themed_color o "fg_color"; bg ← themed_color o "bg_color"; border ← themed_color o "border_color"; accent ← themed_color o "accent_color";
  let bg := default (bg_color s) bg in
  let border := default (border_color s) border in
  let width k := parse_int o k (parse_int o "border_width" 1) in
  let edge k := match member_string o k with Some v => parse_border_style v | None => BORDER_SOLID end in
  btc ← themed_color o "border_top_color"; bbc ← themed_color o "border_bottom_color";
  blc ← themed_color o "border_left_color"; brc ← themed_color o "border_right_color";
  sh ← parse_shadow_array o; gr ← parse_gradient o bg;
  ff ← match member_string o "font_family" with Some v => resolve t_vars v | None => Done "sans"%string end;
  Done {| fg_color := default (fg_color s) fg; bg_color := bg; border_color := border; accent_color := default (accent_color s) accent;
    border_width := parse_int o "border_width" (border_width s); border_radius := parse_int o "border_radius" (border_radius s);
    border_top_width := width "border_top_width"; border_bottom_width := width "border_bottom_width";
    border_left_width := width "border_left_width"; border_right_width := width "border_right_width";
    border_top_color := default border btc; border_bottom_color := default border bbc;
    border_left_color := default border blc; border_right_color := default border brc;
    border_top_style := edge "border_top_style"; border_bottom_style := edge "border_bottom_style";
    border_left_style := edge "border_left_style"; border_right_style := edge "border_right_style";
    padding := parse_sides o "padding" (padding s); margin := parse_sides o "margin" (margin s);
    min_width := parse_int o "min_width" (min_width s); min_height := parse_int o "min_height" (min_height s);
    max_width := parse_int o "max_width" (max_width s); max_height := parse_int o "max_height" (max_height s);
    font_family := Some ff; font_size := parse_int o "font_size" (font_size s); font_weight := parse_int o "font_weight" (font_weight s);
    font_italic := parse_bool o "font_italic" (font_italic s);
    text_align := match member_string o "text_align" with Some v => parse_align v | None => text_align s end;
    opacity := parse_float o "opacity" (opacity s); shadows := set_front sh (shadows s); shadow_count := Z.of_nat (length sh); gradient := gr;
    backdrop_blur := parse_int o "backdrop_blur" 0; letter_spacing := parse_float o "letter_spacing" f_zero;
    line_height := parse_float o "line_height" (f_lit 12 1); text_transform := parse_int o "text_transform" 0;
    transition_ms := parse_int o "transition_ms" (transition_ms s);
    scale_x := scale_x s; scale_y := scale_y s; rotation := rotation s; translate_x := translate_x s; translate_y := translate_y s;
    cursor_style := match member_string o "cursor" with Some v => parse_cursor_style v | None => cursor_style s end |}.

(** "class child:state"; each rule is put before the ones read earlier. *)
Definition parse_selector (selector : list ascii) : string * option string * option string :=
  let '(cls, st) := match split_at ":" selector with Some (a, b) => (a, Some (of_chars b)) | None => (selector, None) end in
  match split_at " " cls with
  | Some (a, b) => (of_chars a, Some (of_chars b), st)
  | None => (of_chars cls, None, st)
  end.
Definition parse_rule (c : cJSON) : exec StyleRule :=
  sel ← deref (key c);
  let '(cls, ch, st) := parse_selector (chars sel) in
  s ← parse_widget_style c;
  Done (mkRule (Some cls) ch st s).
Fixpoint parse_rules (l : list cJSON) (head : list StyleRule) : exec (list StyleRule) :=
  match l with [] => Done head | c :: l' => r ← parse_rule c; parse_rules l' (r :: head) end.
Definition parse_style_rules (o : cJSON) : exec (list StyleRule) :=
  if cJSON_IsObject (Some o) then parse_rules (child o) [] else Done [].
End reading.

(** ** Merging and resolving *)

Definition sides_differ (l d : list Z) : bool := negb (bool_decide (l = d)).
Definition merge_style (dst src : WidgetStyle) : WidgetStyle :=
  let int (get : WidgetStyle -> Z) unset := if get src =? unset then get dst else get src in
  let edge (get : WidgetStyle -> BorderStyle) := match get src with BORDER_SOLID => get dst | b => b end in
  {| fg_color := int fg_color 0xFF000000; bg_color := int bg_color 0;
    border_color := border_color src; accent_color := accent_color src;
    border_width := int border_width 1; border_radius := int border_radius 4;
    border_top_width := int border_top_width 1; border_bottom_width := int border_bottom_width 1;
    border_left_width := int border_left_width 1; border_right_width := int border_right_width 1;
    border_top_color := int border_top_color 0; border_bottom_color := int border_bottom_color 0;
    border_left_color := int border_left_color 0; border_right_color := int border_right_color 0;
    border_top_style := edge border_top_style; border_bottom_style := edge border_bottom_style;
    border_left_style := edge border_left_style; border_right_style := edge border_right_style;
    padding := if sides_differ (padding src) [8; 12; 8; 12] then padding src else padding dst;
    margin := if sides_differ (margin src) [0; 0; 0; 0] then margin src else margin dst;
    min_width := int min_width 0; min_height := int min_height 0; max_width := int max_width 99999; max_height := int max_height 99999;
    font_family := match font_family src with Some f => Some f | None => font_family dst end;
    font_size := int font_size 14; font_weight := int font_weight 400;
    font_italic := if font_italic src then true else font_italic dst;
    text_align := match text_align src with ALIGN_LEFT => text_align dst | a => a end;
    opacity := if SFeqb (opacity src) f1 then opacity dst else opacity src;
    shadows := if 0 <? shadow_count src then set_front (take (Z.to_nat (shadow_count src)) (shadows src)) (shadows dst) else shadows dst;
    shadow_count := if 0 <? shadow_count src then shadow_count src else shadow_count dst;
    gradient := match gradient_type (gradient src) with GRADIENT_NONE => gradient dst | _ => gradient src end;
    backdrop_blur := int backdrop_blur 0;
    letter_spacing := if SFeqb (letter_spacing src) f_zero then letter_spacing dst else letter_spacing src;
    line_height := if SFeqb (line_height src) (f_lit 12 1) then line_height dst else line_height src;
    text_transform := int text_transform 0; transition_ms := int transition_ms 150;
    scale_x := scale_x dst; scale_y := scale_y dst; rotation := rotation dst; translate_x := translate_x dst; translate_y := translate_y dst;
    cursor_style := match cursor_style src with CURSOR_DEFAULT => cursor_style dst | c => c end |}.

Definition matches_opt (pattern actual : option string) : bool :=
  match pattern with None => true | Some p => match actual with Some a => bool_decide (p = a) | None => false end end.
Definition rule_matches (cls : string) (ch st : option string) (r : StyleRule) : bool :=
  matches_opt (widget_class r) (Some cls) && matches_opt (child_class r) ch && matches_opt (r_state r) st.
Definition theme_resolve (t : option Theme) (cls : string) (ch st : option string) : WidgetStyle :=
  match t with
  | None => widgetstyle_default
  | Some t => foldl (fun acc r => if rule_matches cls ch st r then merge_style acc (style r) else acc) widgetstyle_default (rules t)
  end.

(** What a node keeps of a style: nothing in it stays zero. [context] is never
    set; [prev_resolved_style] is the pixel backend's. *)
Definition or_else (v d : Z) : Z := if v =? 0 then d else v.
Definition fill_style (s : WidgetStyle) : WidgetStyle := {|
  fg_color := or_else (fg_color s) (rgba 208 208 208 255); bg_color := or_else (bg_color s) (rgba 26 26 46 255);
  border_color := or_else (border_color s) (rgba 42 42 74 255); accent_color := or_else (accent_color s) (rgba 233 69 96 255);
  border_width := or_else (border_width s) 1; border_radius := border_radius s;
  border_top_width := border_top_width s; border_bottom_width := border_bottom_width s;
  border_left_width := border_left_width s; border_right_width := border_right_width s;
  border_top_color := border_top_color s; border_bottom_color := border_bottom_color s;
  border_left_color := border_left_color s; border_right_color := border_right_color s;
  border_top_style := border_top_style s; border_bottom_style := border_bottom_style s;
  border_left_style := border_left_style s; border_right_style := border_right_style s;
  padding := padding s; margin := margin s;
  min_width := min_width s; min_height := min_height s; max_width := max_width s; max_height := max_height s;
  font_family := font_family s; font_size := or_else (font_size s) 14; font_weight := font_weight s; font_italic := font_italic s;
  text_align := text_align s; opacity := opacity s; shadows := shadows s; shadow_count := shadow_count s; gradient := gradient s;
  backdrop_blur := backdrop_blur s; letter_spacing := letter_spacing s; line_height := line_height s; text_transform := text_transform s;
  transition_ms := transition_ms s; scale_x := scale_x s; scale_y := scale_y s; rotation := rotation s;
  translate_x := translate_x s; translate_y := translate_y s; cursor_style := cursor_style s |}.
Definition resolve_info (theme : option Theme) (i : NodeInfo) : NodeInfo :=
  let s := match style_class i with
    | Some (String c cls) =>
        let r := theme_resolve theme (String c cls) None (Some (default "normal"%string (state i))) in
        if font_size r =? 0 then resolved_style i else r
    | _ => resolved_style i
    end in
  set_style (fill_style s) i.
Fixpoint resolve_node_styles (theme : option Theme) (t : RenderTree) : RenderTree :=
  match t with mkTree i c => mkTree (resolve_info theme i) (content_map (resolve_node_styles theme) c) end.

(** ** Loading *)

Section files.
(** The contents of the files, up to their first NUL character. *)
Variable files : string -> option string.

Definition load_vars (o : cJSON) : exec (list (string * string)) :=
  mapM (fun v => n ← deref (key v); Done (n, default EmptyString (valuestring v))) (child o).
(** After the tree is deleted the item "extends" is looked at: a theme that
    has one reads freed memory there. *)
Definition theme_load (path : string) (r : Registry) : exec (option Theme * Registry) :=
  match files path with
  | None => Done (None, r)
  | Some buf =>
      match cJSON_Parse buf with
      | Fault f => Fault f
      | Fail => Done (None, r)
      | Done root =>
          let n := default "unnamed"%string (member_string root "name") in
          vs ← match member root "variables" with Some o => if cJSON_IsObject (Some o) then load_vars o else Done [] | None => Done [] end;
          rs ← match member root "widgets" with Some o => parse_style_rules vs o | None => Done [] end;
          r ← animation_registry_load_from_theme (member root "animations") r;
          match member root "extends" with Some _ => Fault UseAfterFree | None => Done (Some (mkTheme n vs rs), r) end
      end
  end.

Definition theme_default : Theme := mkTheme "default" [] [].
(** Memory aside, freeing a theme clears the animations of all of them. *)
Definition theme_free (t : Theme) (r : Registry) : Registry := animation_registry_clear r.

Definition is_json (n : string) : bool := (5 <? String.length n)%nat && bool_decide (drop (String.length n - 5) (chars n) = chars ".json").
(** [readdir] gives the names in some order. *)
Fixpoint load_entries (dir : string) (names : list string) (r : Registry) : exec (list Theme * Registry) :=
  match names with
  | [] => Done ([], r)
  | n :: names' =>
      if is_json n then
        '(t, r) ← theme_load (strtake 2047 (dir +:+ "/" +:+ n)) r; '(l, r) ← load_entries dir names' r; Done (opt_list t ++ l, r)
      else load_entries dir names' r
  end.
Definition theme_load_directory (dir : string) (names : option (list string)) (r : Registry) : exec (list Theme * Registry) :=
  match names with None => Done ([], r) | Some l => load_entries dir l r end.
(** Themes in a chain [next]: the base and those behind it. *)
Definition theme_add_plugin_overrides (base : list Theme) (dir : string) (names : option (list string)) (r : Registry) : exec (list Theme * Registry) :=
  '(l, r) ← theme_load_directory dir names r; Done (base ++ l, r).

(** The variables of the second list replace or follow those of the first. *)
Fixpoint set_var (n v : string) (l : list (string * string)) : list (string * string) :=
  match l with
  | [] => [(n, v)]
  | (m, w) :: l' => if decide (m = n) then (m, v) :: l' else (m, w) :: set_var n v l'
  end.
Definition merge_vars (base over : list (string * string)) : list (string * string) := foldl (fun l '(n, v) => set_var n v l) base over.
Definition merge_override (base over : Theme) : Theme := mkTheme (t_name base) (merge_vars (vars base) (vars over)) (rules base ++ rules over).
Definition merge_file (base : Theme) (path : string) (r : Registry) : exec (Theme * Registry) :=
  '(over, r) ← theme_load path r;
  match over with Some t => Done (merge_override base t, theme_free t r) | None => Done (base, r) end.
Definition theme_merge_app_override (base : Theme) (path : option string) (r : Registry) : exec (Theme * Registry) :=
  match path with Some p => merge_file base p r | None => Done (base, r) end.
Definition theme_merge_accessibility_profile (base : Theme) (profile : option string) (r : Registry) : exec (Theme * Registry) :=
  match profile with Some p => merge_file base (strtake 1023 ("themes/" +:+ p +:+ ".json")) r | None => Done (base, r) end.
Definition theme_merge_user_override (base : Theme) (home : option string) (r : Registry) : exec (Theme * Registry) :=
  match home with Some h => merge_file base (strtake 1023 (h +:+ "/.config/filly/theme-override.json")) r | None => Done (base, r) end.
End files.

(** ** Styles set by scripts *)

Definition fil_style (prop v : string) : WidgetStyle :=
  let s := widgetstyle_default in
  let c := parse_color (Some v) in
  let named p := bool_decide (prop = p) in
  {| fg_color := if named "fg"%string then c else fg_color s; bg_color := if named "bg"%string then c else bg_color s;
    border_color := border_color s; accent_color := if named "accent"%string then c else accent_color s;
    border_width := border_width s; border_radius := if named "border-radius"%string then atoi (chars v) else border_radius s;
    border_top_width := border_top_width s; border_bottom_width := border_bottom_width s;
    border_left_width := border_left_width s; border_right_width := border_right_width s;
    border_top_color := border_top_color s; border_bottom_color := border_bottom_color s;
    border_left_color := border_left_color s; border_right_color := border_right_color s;
    border_top_style := border_top_style s; border_bottom_style := border_bottom_style s;
    border_left_style := border_left_style s; border_right_style := border_right_style s;
    padding := padding s; margin := margin s;
    min_width := min_width s; min_height := min_height s; max_width := max_width s; max_height := max_height s;
    font_family := font_family s; font_size := if named "font-size"%string then atoi (chars v) else font_size s;
    font_weight := font_weight s; font_italic := font_italic s;
    text_align := text_align s; opacity := opacity s; shadows := shadows s; shadow_count := shadow_count s; gradient := gradient s;
    backdrop_blur := backdrop_blur s; letter_spacing := letter_spacing s; line_height := line_height s; text_transform := text_transform s;
    transition_ms := transition_ms s; scale_x := scale_x s; scale_y := scale_y s; rotation := rotation s;
    translate_x := translate_x s; translate_y := translate_y s; cursor_style := cursor_style s |}.
(** "class|child|property|value"; what is missing stays as [calloc] left it. *)
Definition fil_rule (entry : string) : StyleRule :=
  match split_at "|" (chars entry) with
  | None => mkRule None None None style_zero
  | Some (cls, l1) =>
      match split_at "|" l1 with
      | None => mkRule (Some (of_chars cls)) None None style_zero
      | Some (ch, l2) =>
          let ch := match ch with [] => None | _ => Some (of_chars ch) end in
          match split_at "|" l2 with
          | None => mkRule (Some (of_chars cls)) ch None style_zero
          | Some (prop, v) => mkRule (Some (of_chars cls)) ch None (fil_style (of_chars prop) (of_chars v))
          end
      end
  end.
Definition theme_apply_fil_styles (t : Theme) (fr : FilResult) : Theme :=
  mkTheme (t_name t) (vars t) (rev (map (fun e => fil_rule e.1) (r_styles fr)) ++ rules t).

(** ** Values *)

Lemma split_at_spec c l a b : split_at c l = Some (a, b) <-> l = a ++ c :: b /\ c ∉ a.
Proof.
  revert a. induction l as [|d l IH]; intros a; cbn [split_at].
  - split; [done|]. by intros [H _]; destruct a.
  - destruct (Ascii.eqb_spec c d) as [->|Hd].
    + split; [intros [= <- <-]; split; [done|apply not_elem_of_nil]|]. intros [E Hn]. destruct a as [|x a]; [by injection E as <-|].
      injection E as <- E. destruct Hn. by left.
    + destruct (split_at c l) as [[a' b']|] eqn:Es; cbn [fmap option_fmap option_map prod_map].
      * split.
        -- intros [= <- <-]. destruct (proj1 (IH a') eq_refl) as [-> Hn]. split; [done|]. by apply not_elem_of_cons.
        -- intros [E Hn]. destruct a as [|x a]; [by injection E|]. injection E as <- ->. apply not_elem_of_cons in Hn as [_ Hn].
           assert (Some (a', b') = Some (a, b)) as [= -> ->]; [|done]. apply IH. by split.
      * split; [done|]. intros [E Hn]. destruct a as [|x a]; [by injection E|]. injection E as <- ->. apply not_elem_of_cons in Hn as [_ Hn].
        assert (None = Some (a, b)); [|done]. apply IH. by split.
Qed.
Lemma split_at_length c l a b : split_at c l = Some (a, b) -> (length a < length l)%nat /\ (length b < length l)%nat.
Proof. intros [-> _]%split_at_spec. rewrite length_app. cbn. lia. Qed.
Lemma call_of_length f name arg : call_of f name = Some arg -> (length arg < length name)%nat.
Proof.
  unfold call_of. destruct (has_prefix _ _); [|done]. destruct (split_at _ _) as [[a b]|] eqn:E; [|done]. intros [= <-].
  apply split_at_length in E. rewrite length_drop in E. cbn. lia.
Qed.
Lemma mix_args_length name a b c : mix_args name = Some (a, b, c) -> (length a < length name)%nat /\ (length b < length name)%nat.
Proof.
  unfold mix_args. destruct (has_prefix _ _); [|done]. destruct (split_at _ (drop 4 name)) as [[a' r]|] eqn:E1; [|done]. cbn [mbind option_bind].
  destruct (split_at "," r) as [[b' r']|] eqn:E2; [|done]. cbn [mbind option_bind]. destruct (split_at ")" r') as [[c' r'']|] eqn:E3; [|done].
  intros [= <- <- _]. apply split_at_length in E1, E2. rewrite length_drop in E1. lia.
Qed.
Lemma length_of_chars l : String.length (of_chars l) = length l.
Proof. by rewrite <-length_chars, list_ascii_of_string_of_list_ascii. Qed.

(** Any fuel above the length gives the same, a value. *)
Lemma resolve_var_fuel vs v : forall f, (String.length v < f)%nat -> exists s, resolve_var vs f v = Done s /\ forall g, (String.length v < g)%nat -> resolve_var vs g v = Done s.
Proof.
  induction v as [v IH] using (induction_ltof1 _ String.length). unfold ltof in IH.
  assert (forall arg, (length arg < String.length v)%nat -> forall f, (String.length v <= f)%nat -> resolve_var vs f (of_chars arg) = resolve_var vs (String.length v) (of_chars arg)) as Harg.
  { intros arg Ha f Hf. destruct (IH (of_chars arg)) with (f := String.length v) as (s & Hs & Hg); [by rewrite length_of_chars|by rewrite length_of_chars|].
    rewrite Hs. apply Hg. rewrite length_of_chars. lia. }
  assert (forall arg, (length arg < String.length v)%nat -> exists s, resolve_var vs (String.length v) (of_chars arg) = Done s) as Hdone.
  { intros arg Ha. destruct (IH (of_chars arg)) with (f := String.length v) as (s & Hs & _); [by rewrite length_of_chars|by rewrite length_of_chars|by exists s]. }
  assert (exists s, forall g, (String.length v < g)%nat -> resolve_var vs g v = Done s) as [s Hs]; [|intros f Hf; exists s; by split; [apply Hs|]].
  destruct (chars v) as [|c name] eqn:Ev; [exists v; intros [|g] Hg; [lia|]; cbn [resolve_var]; by rewrite Ev|].
  assert (length name < String.length v)%nat as Hlen by (rewrite <-length_chars, Ev; cbn; lia).
  assert (forall (P : exec string -> Prop), (forall g, (String.length v <= g)%nat -> P (resolve_var vs (S g) v)) -> forall g, (String.length v < g)%nat -> P (resolve_var vs g v)) as Hshift.
  { intros P HP [|g] Hg; [lia|]. apply HP. lia. }
  enough (exists s, forall g, (String.length v <= g)%nat -> resolve_var vs (S g) v = Done s) as [s Hs] by (exists s; intros [|g] Hg; [lia|]; apply Hs; lia).
  cbn [resolve_var]. rewrite Ev. destruct (negb _); [by exists v|].
  destruct (call_of "lighten(" name) as [arg|] eqn:E1; [|destruct (call_of "darken(" name) as [arg|] eqn:E2; [|destruct (call_of "alpha(" name) as [arg|] eqn:E3;
    [|destruct (mix_args name) as [[[a b] amt]|] eqn:E4; [|by eexists]]]].
  1-3: match goal with H : call_of _ _ = Some _ |- _ => apply call_of_length in H end; destruct (Hdone arg) as [s Hs]; [lia|]; eexists; intros g Hg; rewrite (Harg arg) by lia; rewrite Hs; reflexivity.
  apply mix_args_length in E4 as [Ha Hb]. destruct (Hdone a) as [s Hs]; [lia|]. destruct (Hdone b) as [s' Hs']; [lia|].
  eexists. intros g Hg. rewrite (Harg a), (Harg b) by lia. rewrite Hs. cbn [mbind exec_bind]. rewrite Hs'. reflexivity.
Qed.
Lemma resolve_total vs v : exists s, resolve vs v = Done s.
Proof. destruct (resolve_var_fuel vs v (S (String.length v))) as (s & Hs & _); [lia|]. by exists s. Qed.
Lemma resolve_fuel vs v f : (String.length v < f)%nat -> resolve_var vs f v = resolve vs v.
Proof. intros Hf. destruct (resolve_var_fuel vs v f Hf) as (s & -> & Hg). unfold resolve. by rewrite Hg by lia. Qed.

Lemma has_prefix_app p l : has_prefix p (p ++ l) = true.
Proof. induction p as [|c p IH]; [by destruct l|]. cbn [app has_prefix]. by rewrite Ascii.eqb_refl. Qed.
Lemma has_prefix_elem p l c : has_prefix p l = true -> c ∈ p -> c ∈ l.
Proof.
  revert l. induction p as [|d p IH]; intros [|e l] H Hc; cbn [has_prefix] in H; try done; [by apply not_elem_of_nil in Hc..|].
  apply andb_true_iff in H as [->%Ascii.eqb_eq H]. apply elem_of_cons in Hc as [->|Hc]; [by left|right; by apply IH].
Qed.
Lemma call_of_app f arg rest : ")"%char ∉ arg -> call_of f (chars f ++ arg ++ ")"%char :: rest) = Some arg.
Proof.
  intros Ha. unfold call_of. rewrite has_prefix_app. rewrite drop_length_app by (by rewrite length_chars).
  by rewrite (proj2 (split_at_spec ")" (arg ++ ")"%char :: rest) arg rest)) by done.
Qed.
Lemma call_of_none f name : "("%char ∈ chars f -> "("%char ∉ name -> call_of f name = None.
Proof. intros Hf Hn. unfold call_of. destruct (has_prefix _ _) eqn:E; [|done]. destruct Hn. by eapply has_prefix_elem. Qed.

Lemma resolve_unfold vs c name : resolve vs (of_chars (c :: name)) =
  resolve_var vs (S (S (length name))) (of_chars (c :: name)).
Proof. unfold resolve. by rewrite length_of_chars. Qed.
(** The call of one of the functions of one argument. *)
Lemma resolve_color_call vs f g arg rest s :
  (f, g) ∈ [("lighten(", fun c => color_lighten c (f_lit 2 1)); ("darken(", fun c => color_darken c (f_lit 2 1)); ("alpha(", fun c => color_alpha c (f_lit 5 1))]%string ->
  ")"%char ∉ arg -> resolve vs (of_chars arg) = Done s ->
  resolve_color vs (of_chars ("$"%char :: chars f ++ arg ++ ")"%char :: rest)) = Done (rotated (g (parse_color (Some s)))).
Proof.
  intros Hf Ha Hs. unfold resolve_color. rewrite resolve_unfold.
  assert (resolve_var vs (S (length (chars f ++ arg ++ ")"%char :: rest))) (of_chars arg) = Done s) as Hr.
  { rewrite resolve_fuel; [done|]. rewrite length_of_chars, !length_app. lia. }
  revert Hr. generalize (S (length (chars f ++ arg ++ ")"%char :: rest))). intros F Hr.
  cbn [resolve_var]. rewrite list_ascii_of_string_of_list_ascii. change (negb (Ascii.eqb "$" "$")) with false. cbv iota.
  rewrite !elem_of_cons in Hf. destruct Hf as [Hf|[Hf|[Hf|Hf]]]; [injection Hf as -> ->..|by apply not_elem_of_nil in Hf].
  - rewrite call_of_app by done. rewrite Hr. cbn [mbind exec_bind]. rewrite color_hex_rotates. reflexivity.
  - replace (call_of "lighten(" _) with (@None (list ascii)) by done. rewrite call_of_app by done. rewrite Hr. cbn [mbind exec_bind]. rewrite color_hex_rotates. reflexivity.
  - replace (call_of "lighten(" _) with (@None (list ascii)) by done. replace (call_of "darken(" _) with (@None (list ascii)) by done.
    rewrite call_of_app by done. rewrite Hr. cbn [mbind exec_bind]. rewrite color_hex_rotates. reflexivity.
Qed.

(** the values of a theme: every value has a meaning, found in finitely many
    steps; what does not start with a dollar sign stands for itself and "$n"
    for the variable [n], or for itself when there is none; and "$lighten(x)",
    "$darken(x)" and "$alpha(x)" compute on the colour of [x] and give a colour
    whose four bytes are rotated, the blue in the place of the opacity, because
    the result is written with the opacity first and read with it last. *)
Theorem theme_values vs :
  (forall v, exists s, resolve vs v = Done s) /\
  (forall c l, c <> "$"%char -> resolve vs (of_chars (c :: l)) = Done (of_chars (c :: l))) /\
  (forall n, "("%char ∉ n -> resolve vs (of_chars ("$"%char :: n)) = Done (default (of_chars ("$"%char :: n)) (assoc (of_chars n) vs))) /\
  (forall f g arg rest s,
    (f, g) ∈ [("lighten(", fun c => color_lighten c (f_lit 2 1)); ("darken(", fun c => color_darken c (f_lit 2 1)); ("alpha(", fun c => color_alpha c (f_lit 5 1))]%string ->
    ")"%char ∉ arg -> resolve vs (of_chars arg) = Done s ->
    resolve_color vs (of_chars ("$"%char :: chars f ++ arg ++ ")"%char :: rest)) = Done (rotated (g (parse_color (Some s))))).
Proof.
  split_and!.
  - apply resolve_total.
  - intros c l Hc. rewrite resolve_unfold. cbn [resolve_var]. rewrite list_ascii_of_string_of_list_ascii. by rewrite (proj2 (Ascii.eqb_neq c "$")) by done.
  - intros n Hn. rewrite resolve_unfold. cbn [resolve_var]. rewrite list_ascii_of_string_of_list_ascii. change (negb (Ascii.eqb "$" "$")) with false. cbv iota.
    rewrite !call_of_none by (done || (cbn; repeat (first [by left|right]))). unfold mix_args. destruct (has_prefix (chars "mix(") n) eqn:E; [|done].
    destruct Hn. eapply has_prefix_elem; [exact E|]. cbn. repeat (first [by left|right]).
  - apply resolve_color_call.
Qed.
(** A lighter brand colour: opacity 0x94, not 0xff. *)
Lemma theme_values_witness : let vs := [("brand", "#e94560")]%string in
  resolve_color vs "$brand" = Done 0xFFE94560 /\ resolve_color vs "$lighten($brand)" = Done 0x93FFFF78 /\
  resolve_color vs (of_chars ("$"%char :: chars "lighten(" ++ chars "$brand" ++ [")"%char])) = Done (rotated (color_lighten 0xFFE94560 (f_lit 2 1))).
Proof.
  intros vs. split; [by vm_compute|]. split; [by vm_compute|]. destruct (theme_values vs) as (_ & _ & _ & H).
  apply (H "lighten(" (fun c => color_lighten c (f_lit 2 1)) (chars "$brand") [] "#e94560")%string; [by left|not_in_literal|by vm_compute].
Defined.

(** ** The cascade *)

(** The attributes of a style and the value that says nothing. *)
Inductive attribute : forall A : Type, (WidgetStyle -> A) -> (WidgetStyle -> bool) -> Prop :=
  | at_fg : attribute Z fg_color (fun s => fg_color s =? 0xFF000000)
  | at_bg : attribute Z bg_color (fun s => bg_color s =? 0)
  | at_border : attribute Z border_color (fun _ => false)
  | at_accent : attribute Z accent_color (fun _ => false)
  | at_width : attribute Z border_width (fun s => border_width s =? 1)
  | at_radius : attribute Z border_radius (fun s => border_radius s =? 4)
  | at_top_width : attribute Z border_top_width (fun s => border_top_width s =? 1)
  | at_bottom_width : attribute Z border_bottom_width (fun s => border_bottom_width s =? 1)
  | at_left_width : attribute Z border_left_width (fun s => border_left_width s =? 1)
  | at_right_width : attribute Z border_right_width (fun s => border_right_width s =? 1)
  | at_padding : attribute (list Z) padding (fun s => bool_decide (padding s = [8; 12; 8; 12]))
  | at_margin : attribute (list Z) margin (fun s => bool_decide (margin s = [0; 0; 0; 0]))
  | at_min_width : attribute Z min_width (fun s => min_width s =? 0)
  | at_min_height : attribute Z min_height (fun s => min_height s =? 0)
  | at_max_width : attribute Z max_width (fun s => max_width s =? 99999)
  | at_max_height : attribute Z max_height (fun s => max_height s =? 99999)
  | at_family : attribute (option string) font_family (fun s => bool_decide (font_family s = None))
  | at_size : attribute Z font_size (fun s => font_size s =? 14)
  | at_weight : attribute Z font_weight (fun s => font_weight s =? 400)
  | at_opacity : attribute float opacity (fun s => SFeqb (opacity s) f1)
  | at_shadows : attribute Z shadow_count (fun s => negb (0 <? shadow_count s))
  | at_gradient : attribute Gradient gradient (fun s => match gradient_type (gradient s) with GRADIENT_NONE => true | _ => false end)
  | at_spacing : attribute float letter_spacing (fun s => SFeqb (letter_spacing s) f_zero)
  | at_line : attribute float line_height (fun s => SFeqb (line_height s) (f_lit 12 1))
  | at_transition : attribute Z transition_ms (fun s => transition_ms s =? 150)
  | at_cursor : attribute CursorStyle cursor_style (fun s => match cursor_style s with CURSOR_DEFAULT => true | _ => false end).

Lemma merge_attribute A get unset : attribute A get unset -> forall d s, get (merge_style d s) = if unset s then get d else get s.
Proof.
  destruct 1; intros d s; cbn -[Z.eqb]; try done.
  - unfold sides_differ. by destruct (bool_decide _).
  - unfold sides_differ. by destruct (bool_decide _).
  - destruct (font_family s); [by rewrite bool_decide_false|by rewrite bool_decide_true].
  - by destruct (0 <? shadow_count s).
  - by destruct (gradient_type (gradient s)).
  - by destruct (cursor_style s).
Qed.

(** The last of the rules that match and say something about the attribute. *)
Definition says (unset : WidgetStyle -> bool) (cls : string) (ch st : option string) (r : StyleRule) : Prop :=
  rule_matches cls ch st r = true /\ unset (style r) = false.
#[global] Instance says_dec unset cls ch st r : Decision (says unset cls ch st r).
Proof. unfold says. apply _. Defined.

Lemma resolve_attribute A get unset cls ch st rs : attribute A get unset -> forall acc,
  get (foldl (fun acc r => if rule_matches cls ch st r then merge_style acc (style r) else acc) acc rs) =
  match list.last (filter (says unset cls ch st) rs) with Some r => get (style r) | None => get acc end.
Proof.
  intros Ha. induction rs as [|r rs IH] using rev_ind; intros acc; [done|]. rewrite foldl_app, list.filter_app. cbn [foldl].
  rewrite list.filter_cons, list.filter_nil. destruct (decide (says unset cls ch st r)) as [[Em Eu]|Hn].
  - by rewrite Em, (merge_attribute _ _ _ Ha), Eu, last_snoc.
  - rewrite app_nil_r. destruct (rule_matches cls ch st r) eqn:Em; [|apply IH]. rewrite (merge_attribute _ _ _ Ha).
    destruct (unset (style r)) eqn:Eu; [apply IH|]. by destruct Hn.
Qed.

(** ** The cascade, member by member

    Every member of a style, with the values of it that are passed over: a rule
    with one of these says nothing about the member. The colours of border and
    accent are always said; the transforms are never. *)
Definition layers (s : WidgetStyle) : list ShadowLayer := take (Z.to_nat (shadow_count s)) (shadows s).
Inductive style_member : forall A : Type, (WidgetStyle -> A) -> (A -> Prop) -> Prop :=
  | m_fg : style_member Z fg_color (fun v => v = 0xFF000000)
  | m_bg : style_member Z bg_color (fun v => v = 0)
  | m_border : style_member Z border_color (fun _ => False)
  | m_accent : style_member Z accent_color (fun _ => False)
  | m_width : style_member Z border_width (fun v => v = 1)
  | m_radius : style_member Z border_radius (fun v => v = 4)
  | m_top_width : style_member Z border_top_width (fun v => v = 1)
  | m_bottom_width : style_member Z border_bottom_width (fun v => v = 1)
  | m_left_width : style_member Z border_left_width (fun v => v = 1)
  | m_right_width : style_member Z border_right_width (fun v => v = 1)
  | m_top_color : style_member Z border_top_color (fun v => v = 0)
  | m_bottom_color : style_member Z border_bottom_color (fun v => v = 0)
  | m_left_color : style_member Z border_left_color (fun v => v = 0)
  | m_right_color : style_member Z border_right_color (fun v => v = 0)
  | m_top_style : style_member BorderStyle border_top_style (fun v => v = BORDER_SOLID)
  | m_bottom_style : style_member BorderStyle border_bottom_style (fun v => v = BORDER_SOLID)
  | m_left_style : style_member BorderStyle border_left_style (fun v => v = BORDER_SOLID)
  | m_right_style : style_member BorderStyle border_right_style (fun v => v = BORDER_SOLID)
  | m_padding : style_member (list Z) padding (fun v => v = [8; 12; 8; 12])
  | m_margin : style_member (list Z) margin (fun v => v = [0; 0; 0; 0])
  | m_min_width : style_member Z min_width (fun v => v = 0)
  | m_min_height : style_member Z min_height (fun v => v = 0)
  | m_max_width : style_member Z max_width (fun v => v = 99999)
  | m_max_height : style_member Z max_height (fun v => v = 99999)
  | m_family : style_member (option string) font_family (fun v => v = None)
  | m_size : style_member Z font_size (fun v => v = 14)
  | m_weight : style_member Z font_weight (fun v => v = 400)
  | m_italic : style_member bool font_italic (fun v => v = false)
  | m_align : style_member Alignment text_align (fun v => v = ALIGN_LEFT)
  | m_opacity : style_member float opacity (fun v => v = f1)
  | m_shadow_count : style_member Z shadow_count (fun v => v = 0)
  | m_shadows : style_member (list ShadowLayer) layers (fun v => v = [])
  | m_gradient : style_member Gradient gradient (fun v => gradient_type v = GRADIENT_NONE)
  | m_blur : style_member Z backdrop_blur (fun v => v = 0)
  | m_spacing : style_member float letter_spacing (fun v => exists sign, v = S754_zero sign)
  | m_line : style_member float line_height (fun v => v = f_lit 12 1)
  | m_transform : style_member Z text_transform (fun v => v = 0)
  | m_transition : style_member Z transition_ms (fun v => v = 150)
  | m_scale_x : style_member float scale_x (fun _ => True)
  | m_scale_y : style_member float scale_y (fun _ => True)
  | m_rotation : style_member float rotation (fun _ => True)
  | m_translate_x : style_member float translate_x (fun _ => True)
  | m_translate_y : style_member float translate_y (fun _ => True)
  | m_cursor : style_member CursorStyle cursor_style (fun v => v = CURSOR_DEFAULT).

(** The table is complete: a style is its members (and what lies behind the shadows that count). *)
Lemma style_members_all s1 s2 : (forall A get silent, style_member A get silent -> get s1 = get s2) -> shadows s1 = shadows s2 -> s1 = s2.
Proof.
  intros H Hs. pose proof (fun A get silent M => H A get silent M) as E. destruct s1, s2. cbn in Hs. subst. f_equal;
    first [exact (E _ _ _ m_fg)|exact (E _ _ _ m_bg)|exact (E _ _ _ m_border)|exact (E _ _ _ m_accent)|exact (E _ _ _ m_width)|exact (E _ _ _ m_radius)
    |exact (E _ _ _ m_top_width)|exact (E _ _ _ m_bottom_width)|exact (E _ _ _ m_left_width)|exact (E _ _ _ m_right_width)
    |exact (E _ _ _ m_top_color)|exact (E _ _ _ m_bottom_color)|exact (E _ _ _ m_left_color)|exact (E _ _ _ m_right_color)
    |exact (E _ _ _ m_top_style)|exact (E _ _ _ m_bottom_style)|exact (E _ _ _ m_left_style)|exact (E _ _ _ m_right_style)
    |exact (E _ _ _ m_padding)|exact (E _ _ _ m_margin)|exact (E _ _ _ m_min_width)|exact (E _ _ _ m_min_height)|exact (E _ _ _ m_max_width)|exact (E _ _ _ m_max_height)
    |exact (E _ _ _ m_family)|exact (E _ _ _ m_size)|exact (E _ _ _ m_weight)|exact (E _ _ _ m_italic)|exact (E _ _ _ m_align)|exact (E _ _ _ m_opacity)
    |exact (E _ _ _ m_shadow_count)|exact (E _ _ _ m_gradient)|exact (E _ _ _ m_blur)|exact (E _ _ _ m_spacing)|exact (E _ _ _ m_line)|exact (E _ _ _ m_transform)
    |exact (E _ _ _ m_transition)|exact (E _ _ _ m_scale_x)|exact (E _ _ _ m_scale_y)|exact (E _ _ _ m_rotation)|exact (E _ _ _ m_translate_x)|exact (E _ _ _ m_translate_y)|exact (E _ _ _ m_cursor)].
Qed.

Lemma SFeqb_finite x s m e : SFeqb x (S754_finite s m e) = true <-> x = S754_finite s m e.
Proof.
  unfold SFeqb, SFcompare. split.
  - destruct x as [[]|[]| |t m' e']; try done; try (by destruct s). destruct t, s; try done;
      (destruct (Z.compare_spec e' e) as [->| |]; try done); change (Pos.compare_cont Eq m' m) with (m' ?= m)%positive; destruct (Pos.compare_spec m' m) as [->| |]; done.
  - intros ->. destruct s; rewrite Z.compare_refl; change (Pos.compare_cont Eq m m) with (m ?= m)%positive; by rewrite Pos.compare_refl.
Qed.
Lemma SFeqb_zero x : SFeqb x f_zero = true <-> exists s, x = S754_zero s.
Proof.
  unfold f_zero. split; [|by intros [[] ->]]. destruct x as [s|[]| |[] m e]; try done. by exists s.
Qed.
Lemma layers_merged d s : style_wf s -> layers (merge_style d s) = if 0 <? shadow_count s then layers s else layers d.
Proof.
  intros (Hl & Hc & _). unfold layers. cbn [shadows shadow_count merge_style]. destruct (0 <? shadow_count s); [|done]. unfold set_front.
  rewrite take_app_le, take_take, Nat.min_id; [done|]. rewrite length_take. lia.
Qed.
(** Merging a style takes over the members it says something about. *)
Lemma merge_member A get silent : style_member A get silent -> forall d s, style_wf s ->
  (silent (get s) /\ get (merge_style d s) = get d) \/ (~ silent (get s) /\ get (merge_style d s) = get s).
Proof.
  destruct 1; intros d s Hw; first [
    match goal with |- context [layers (merge_style d s)] => rewrite (layers_merged d s Hw) end|cbn -[Z.eqb sides_differ SFeqb f_lit f1 f_zero]].
  all: try (by left); try (by right; split; [intros []|]).
  all: try (match goal with |- context [if ?x =? ?y then _ else _] => destruct (Z.eqb_spec x y); [by left|by right] end).
  all: try (match goal with |- context [match ?x with BORDER_SOLID => _ | _ => _ end] => destruct x; first [by left|by right] end).
  all: try (match goal with |- context [sides_differ ?x ?y] => unfold sides_differ; destruct (bool_decide_reflect (x = y)); [by left|by right] end).
  - destruct (font_family s); [by right|by left].
  - destruct (font_italic s); [by right|by left].
  - destruct (text_align s); first [by left|by right].
  - let v := eval vm_compute in f1 in change f1 with v. destruct (SFeqb (opacity s) _) eqn:E; [left; split; [by apply SFeqb_finite|done]|right; split; [|done]].
    intros H%SFeqb_finite. congruence.
  - destruct Hw as (_ & Hc & _). destruct (Z.ltb_spec 0 (shadow_count s)); [right; split; [lia|done]|left; split; [lia|done]].
  - destruct Hw as (Hl & Hc & _). unfold layers. destruct (Z.ltb_spec 0 (shadow_count s)); [right|left].
    + split; [|done]. intros E. apply (f_equal length) in E. rewrite length_take in E. cbn in E. lia.
    + split; [|done]. by replace (Z.to_nat (shadow_count s)) with 0%nat by lia.
  - destruct (gradient_type (gradient s)); first [by left|by right].
  - destruct (SFeqb (letter_spacing s) f_zero) eqn:E; [left; split; [by apply SFeqb_zero|done]|right; split; [|done]]. intros H%SFeqb_zero. congruence.
  - let v := eval vm_compute in (f_lit 12 1) in change (f_lit 12 1) with v. destruct (SFeqb (line_height s) _) eqn:E; [left; split; [by apply SFeqb_finite|done]|right; split; [|done]].
    intros H%SFeqb_finite. congruence.
  - destruct (cursor_style s); first [by left|by right].
Qed.

(** A rule applies to a widget when each of class, child and state that it names is the widget's. *)
Definition applies (cls : string) (ch st : option string) (r : StyleRule) : Prop :=
  (forall c, widget_class r = Some c -> cls = c) /\ (forall c, child_class r = Some c -> ch = Some c) /\ (forall x, r_state r = Some x -> st = Some x).
Lemma rule_matches_applies cls ch st r : rule_matches cls ch st r = true <-> applies cls ch st r.
Proof.
  assert (forall p a, matches_opt p a = true <-> forall x, p = Some x -> a = Some x) as Hm.
  { intros [p|] a; cbn; [|by split]. destruct a as [a|]; [|split; [done|by intros H; specialize (H p eq_refl)]].
    rewrite bool_decide_eq_true. split; [by intros -> ? [= ->]|intros H; specialize (H p eq_refl); congruence]. }
  unfold rule_matches, applies. rewrite !andb_true_iff, !Hm.
  split; [intros [[H1 H2] H3]; split_and!; [intros c Hc; by injection (H1 c Hc)|done|done]|intros (H1 & H2 & H3); split_and!; [intros c Hc; by rewrite (H1 c Hc)|done|done]].
Qed.

(** C28: a style is resolved member by member, for each of its members (the table
    [style_member] lists them all): the value is that of the last rule in the
    list that applies to the widget (whose class, child and state are the
    widget's wherever the rule names one) and says something about the member, and the default when there is
    none. What counts as saying nothing is in the table too: one value of most
    members, no value of the border and accent colours, and every value of the
    transforms, which no rule can set. The rules' shadows and stops fit their
    arrays, as those read from a file do. *)
Theorem theme_cascade t cls ch st A get silent : style_member A get silent -> Forall (fun r => style_wf (style r)) (rules t) ->
  (exists before r after, rules t = before ++ r :: after /\ applies cls ch st r /\ ~ silent (get (style r)) /\
     Forall (fun q => applies cls ch st q -> silent (get (style q))) after /\ get (theme_resolve (Some t) cls ch st) = get (style r)) \/
  Forall (fun q => applies cls ch st q -> silent (get (style q))) (rules t) /\ get (theme_resolve (Some t) cls ch st) = get widgetstyle_default.
Proof.
  intros Hm. cbn [theme_resolve]. generalize widgetstyle_default (rules t). intros d rs. induction rs as [|r rs IH] using rev_ind; intros Hw; [by right|].
  apply list.Forall_app in Hw as [Hw [Hr _]%list.Forall_cons]. rewrite foldl_app. cbn [foldl].
  destruct (rule_matches cls ch st r) eqn:Ea; [destruct (merge_member A get silent Hm (foldl (fun acc r => if rule_matches cls ch st r then merge_style acc (style r) else acc) d rs) (style r) Hr) as [[Hs ->]|[Hs ->]]|].
  2: { left. exists rs, r, []. split_and!; [done|by apply rule_matches_applies|done|constructor|done]. }
  all: assert (applies cls ch st r -> silent (get (style r))) as Hq by (first [done|intros H%rule_matches_applies; congruence]);
    (destruct (IH Hw) as [(b & q & a & -> & Hx & Hy & Hz & He)|[Hz He]];
      [left; exists b, q, (a ++ [r]); split_and!; [by rewrite <-app_assoc|done|done|apply list.Forall_app; split; [done|by constructor]|done]
      |right; split; [apply list.Forall_app; split; [done|by constructor]|done]]).
Qed.
Definition plain_rule (cls : string) (st : option string) (fg w : Z) : StyleRule := mkRule (Some cls) None st (styled
  (mkKeyframe f_zero EASE_LINEAR (Some fg) None None None (Some w) None None None None None None None None) style_zero).
(** A button in focus takes its width from the rule for buttons. *)
Lemma theme_cascade_witness :
  let t := mkTheme "t" [] [plain_rule "button" None 0xFF112233 2; plain_rule "button" (Some "focus") 0xFF445566 1; plain_rule "menu" None 0xFF778899 3]%string in
  border_width (theme_resolve (Some t) "button" None (Some "focus"%string)) = 2.
Proof.
  intros t. destruct (theme_cascade t "button" None (Some "focus"%string) _ _ _ m_width) as [(b & r & a & E & Ha & Hs & _ & ->)|[H _]].
  - repeat constructor; vm_compute; done || discriminate.
  - destruct b as [|r0 [|r1 [|r2 [|? ?]]]]; injection E; intros; subst; cbn in Hs; try done; destruct Ha as (Hc & _); by specialize (Hc _ eq_refl).
  - inversion H as [|? ? H1 _]. discriminate (H1 (proj1 (rule_matches_applies "button" None (Some "focus"%string) (plain_rule "button" None 4279312947 2)) eq_refl)).
Defined.

Lemma exec_bind_inv {A B} (m : exec A) (k : A -> exec B) b : m ≫= k = Done b -> exists a, m = Done a /\ k a = Done b.
Proof. apply exec_bind_Done. Qed.
(** Takes the binds of a run that ended apart. *)
Ltac unbind H :=
  repeat (let a := fresh "v" in let E := fresh "E" in apply exec_bind_inv in H as (a & E & H)).

Lemma parse_widget_style_says vs o s : parse_widget_style vs o = Done s ->
  (exists f, font_family s = Some f) /\ (member_string o "fg_color" = None -> fg_color s = fg_color widgetstyle_default) /\
  (member o "max_width" = None -> max_width s = 0).
Proof.
  unfold parse_widget_style. intros H. unbind H. injection H as <-. split; [by eexists|]. split.
  - intros Hn. cbn [fg_color]. unfold themed_color in *. rewrite Hn in *.
    match goal with E : Done None = Done v |- _ => by injection E as <- end.
  - intros Hn. cbn [max_width]. unfold parse_int. by rewrite Hn.
Qed.

Lemma parse_rules_rev vs l : forall head rs, parse_rules vs l head = Done rs -> exists ds, mapM (parse_rule vs) l = Done ds /\ rs = rev ds ++ head.
Proof.
  induction l as [|c l IH]; intros head rs H; cbn [parse_rules] in H; [exists []; by injection H as <-|].
  apply exec_bind_inv in H as (r & E & H). destruct (IH _ _ H) as (ds & Hds & ->). exists (r :: ds). cbn [mapM]. rewrite E. cbn [mbind exec_bind].
  rewrite Hds. cbn. split; [done|]. by rewrite <-(assoc_L (++)).
Qed.
Lemma last_says unset cls ch st ds r : List.find (rule_matches cls ch st) ds = Some r -> unset (style r) = false ->
  list.last (filter (says unset cls ch st) (rev ds)) = Some r.
Proof.
  induction ds as [|d ds IH]; [done|]. cbn [List.find rev]. destruct (rule_matches cls ch st d) eqn:Em; intros H Hu.
  - injection H as ->. rewrite list.filter_app, list.filter_cons, decide_True by done. by rewrite list.filter_nil, last_snoc.
  - rewrite list.filter_app, list.filter_cons, decide_False by (intros [? _]; congruence). rewrite list.filter_nil, app_nil_r. by apply IH.
Qed.

(** the rules of a file are resolved backwards: the list is built by putting
    every rule in front, so the first rule of the file that matches is the last
    to be merged, and its border, accent and font family win over those of all
    rules behind it, the more special ones included; so do its text colour and
    its greatest width even when it does not mention them, because the values a
    style starts with are not the ones that stand for "not set". *)
Theorem theme_first_rule_wins vs o rs n cls ch st : parse_style_rules vs o = Done rs -> cJSON_IsObject (Some o) = true ->
  exists ds, mapM (parse_rule vs) (child o) = Done ds /\ rs = rev ds /\
  forall r, List.find (rule_matches cls ch st) ds = Some r ->
  let s := theme_resolve (Some (mkTheme n vs rs)) cls ch st in
  border_color s = border_color (style r) /\ accent_color s = accent_color (style r) /\ font_family s = font_family (style r) /\
  forall c, c ∈ child o -> parse_rule vs c = Done r ->
    (member_string c "fg_color" = None -> fg_color s = 0xFFD0D0D0) /\ (member c "max_width" = None -> max_width s = 0).
Proof.
  unfold parse_style_rules. intros H Ho. rewrite Ho in H. apply parse_rules_rev in H as (ds & Hds & ->). rewrite app_nil_r. exists ds. split; [done|]. split; [done|].
  intros r Hr. set (s := theme_resolve _ _ _ _). assert (forall A get unset, attribute A get unset -> unset (style r) = false -> get s = get (style r)) as Hget.
  { intros A get unset Ha Hu. unfold s, theme_resolve. rewrite (resolve_attribute A get unset) by done. cbn [rules]. by rewrite (last_says unset cls ch st ds r). }
  assert (exists c, c ∈ child o /\ parse_rule vs c = Done r) as (c0 & _ & Hc0).
  { apply find_some in Hr as [Hr _]. apply list_elem_of_In in Hr. clear -Hds Hr. revert ds Hds Hr. generalize (child o). intros l. induction l as [|c l IH]; intros ds H Hr.
    - injection H as <-. by apply not_elem_of_nil in Hr.
    - cbn [mapM] in H. apply exec_bind_inv in H as (d & E & H). apply exec_bind_inv in H as (ds' & E' & H). injection H as <-.
      apply elem_of_cons in Hr as [->|Hr]; [exists c; split; [by left|done]|]. destruct (IH _ E' Hr) as (c' & ? & ?). exists c'. split; [by right|done]. }
  assert (forall c, parse_rule vs c = Done r -> parse_widget_style vs c = Done (style r)) as Hstyle.
  { intros c Hc. unfold parse_rule in Hc. apply exec_bind_inv in Hc as (sel & _ & Hc). destruct (parse_selector (chars sel)) as [[a b] d].
    apply exec_bind_inv in Hc as (w & Hw & Hc). by injection Hc as <-. }
  split; [by apply (Hget _ _ _ at_border)|]. split; [by apply (Hget _ _ _ at_accent)|]. split.
  - apply (Hget _ _ _ at_family). destruct (parse_widget_style_says vs c0 _ (Hstyle _ Hc0)) as ((f & Hf) & _). rewrite Hf. by apply bool_decide_false.
  - intros c _ Hc. destruct (parse_widget_style_says vs c _ (Hstyle _ Hc)) as (_ & Hfg & Hmax). split.
    + intros Hn. specialize (Hfg Hn). rewrite (Hget _ _ _ at_fg); rewrite Hfg; reflexivity.
    + intros Hn. specialize (Hmax Hn). rewrite (Hget _ _ _ at_max_width); rewrite Hmax; reflexivity.
Qed.
(** A file with a rule for buttons and one for buttons in focus. *)
Definition button_file : cJSON :=
  match cJSON_Parse (q "{'button': {'border_color': '#111111'}, 'button:focus': {'border_color': '#222222', 'fg_color': '#ffffff'}}") with
  | Done o => o | _ => cJSON_New_Item end.
Definition button_rules : list StyleRule := match mapM (parse_rule []) (child button_file) with Done ds => ds | _ => [] end.
Lemma theme_first_rule_wins_witness :
  let s := theme_resolve (Some (mkTheme "t" [] (rev button_rules))) "button" None (Some "focus"%string) in
  length button_rules = 2%nat /\ parse_style_rules [] button_file = Done (rev button_rules) /\ border_color s = 0xFF111111 /\ fg_color s = 0xFFD0D0D0.
Proof.
  intros s. split; [by vm_compute|]. assert (parse_style_rules [] button_file = Done (rev button_rules)) as Hp by (vm_compute; reflexivity). split; [exact Hp|].
  destruct (theme_first_rule_wins [] button_file (rev button_rules) "t" "button" None (Some "focus"%string) Hp) as (ds & Hds & _ & H); [vm_compute; reflexivity|].
  assert (mapM (parse_rule []) (child button_file) = Done button_rules) as Hd by (vm_compute; reflexivity). rewrite Hd in Hds. apply Done_inj in Hds as <-.
  destruct (H (default (plain_rule "" None 0 0) (head button_rules))) as (Hb & _ & _ & Hf); [vm_compute; reflexivity|]. split.
  - refine (eq_trans Hb _). vm_compute. reflexivity.
  - refine (proj1 (Hf (default cJSON_New_Item (head (child button_file))) _ _) _); [apply list_elem_of_lookup_2 with 0%nat; vm_compute; reflexivity|vm_compute; reflexivity|vm_compute; reflexivity].
Defined.

(** ** Overrides *)

Lemma assoc_app k l1 l2 : assoc k (l1 ++ l2) = match assoc k l1 with Some v => Some v | None => assoc k l2 end.
Proof. induction l1 as [|[n v] l1 IH]; [done|]. cbn. by case_decide. Qed.
Lemma assoc_set_var k n v l : assoc k (set_var n v l) = if decide (n = k) then Some v else assoc k l.
Proof.
  induction l as [|[m w] l IH]; cbn; [by case_decide|]. destruct (decide (m = n)) as [->|Hm]; cbn; [by case_decide|].
  rewrite IH. case_decide; [|done]. subst. by rewrite decide_False by congruence.
Qed.
Lemma assoc_merge k over : forall base, assoc k (merge_vars base over) = match assoc k (rev over) with Some v => Some v | None => assoc k base end.
Proof.
  unfold merge_vars. induction over as [|[n v] over IH]; intros base; [done|]. cbn [foldl rev]. rewrite IH, assoc_app, assoc_set_var. cbn [assoc].
  destruct (assoc k (rev over)); [done|]. by case_decide.
Qed.
Lemma clear_all r p : p ∈ registry r -> heap (animation_registry_clear r) !! p = None.
Proof.
  unfold animation_registry_clear. cbn [heap]. induction (registry r) as [|q l IH]; [by intros ?%not_elem_of_nil|]. cbn [foldr]. intros Hp.
  destruct (decide (q = p)) as [->|]; [by rewrite lookup_delete_eq|]. rewrite lookup_delete_ne by done. apply IH. by apply elem_of_cons in Hp as [->|].
Qed.

(** laying a theme over another: every variable has the value of the override
    where that defines it and its old value elsewhere, and an attribute of a
    style is the override's where one of its matching rules says something,
    and the base's otherwise; but freeing the override takes the animations of
    every theme with it: none is registered any more and their definitions are
    freed. A file that cannot be read changes nothing. *)
Theorem theme_override files base path r : forall over r', theme_load files path r = Done (over, r') ->
  match over with
  | None => merge_file files base path r = Done (base, r')
  | Some o => exists t r2, merge_file files base path r = Done (t, r2) /\
      (forall k, assoc k (vars t) = match assoc k (rev (vars o)) with Some v => Some v | None => assoc k (vars base) end) /\
      (forall A get unset cls ch st, attribute A get unset ->
        get (theme_resolve (Some t) cls ch st) =
        if decide (Exists (says unset cls ch st) (rules o)) then get (theme_resolve (Some o) cls ch st) else get (theme_resolve (Some base) cls ch st)) /\
      registry r2 = [] /\ forall p, p ∈ registry r' -> heap r2 !! p = None
  end.
Proof.
  intros over r' Hl. unfold merge_file. rewrite Hl. cbn [mbind exec_bind]. destruct over as [o|]; [|done].
  exists (merge_override base o), (animation_registry_clear r'). split; [done|]. split; [intros k; apply assoc_merge|]. split; [|split; [done|intros p; apply clear_all]].
  intros A get unset cls ch st Ha. unfold theme_resolve. rewrite !(resolve_attribute A get unset) by done. cbn [rules merge_override].
  rewrite list.filter_app, last_app. destruct (decide (Exists _ _)) as [He|He].
  - destruct (list.last (filter (says unset cls ch st) (rules o))) eqn:E; [done|]. exfalso. apply last_None in E.
    apply list.Exists_exists in He as (x & Hx & Hs). assert (x ∈ filter (says unset cls ch st) (rules o)) as Hin by (apply list_elem_of_filter; done).
    rewrite E in Hin. by apply not_elem_of_nil in Hin.
  - destruct (list.last (filter (says unset cls ch st) (rules o))) as [x|] eqn:E; [|done]. exfalso. apply He, list.Exists_exists.
    apply last_Some_elem_of, list_elem_of_filter in E as [Hs Hx]. by exists x.
Qed.
(** A user's file that makes buttons thick. *)
Definition user_file : string := q "{'variables': {'brand': '#123456'}, 'widgets': {'button': {'border_width': 7}}}".
Lemma theme_override_witness :
  let files p := if decide (p = "u.json"%string) then Some user_file else None in
  let base := mkTheme "base" [("brand", "#ffffff"); ("other", "x")]%string [plain_rule "button" None 0xFF112233 2] in
  exists t r2, merge_file files base "u.json" (animation_registry_register flash registry_init) = Done (t, r2) /\
    assoc "brand" (vars t) = Some "#123456"%string /\ assoc "other" (vars t) = Some "x"%string /\
    border_width (theme_resolve (Some t) "button" None None) = 7 /\ registry r2 = [].
Proof.
  intros files base. pose (r := animation_registry_register flash registry_init).
  pose (o := match theme_load files "u.json" r with Done (Some o, _) => o | _ => theme_default end).
  assert (theme_load files "u.json" r = Done (Some o, r)) as Hl by (vm_compute; reflexivity).
  destruct (theme_override files base "u.json" r (Some o) r Hl) as (t & r2 & Ht & Hv & Hs & Hr & _).
  exists t, r2. split; [exact Ht|]. split; [rewrite Hv; vm_compute; reflexivity|]. split; [rewrite Hv; vm_compute; reflexivity|]. split; [|exact Hr].
  rewrite (Hs _ _ _ "button"%string None None at_width). rewrite decide_True; [vm_compute; reflexivity|].
  assert (rules o = [default (plain_rule "" None 0 0) (head (rules o))]) as -> by (vm_compute; reflexivity). constructor. split; vm_compute; reflexivity.
Defined.

(** ** The style pass *)

Lemma content_map_ext {A B} (f g : A -> B) (c : Content A) : Forall (fun x => f x = g x) (kids c) -> content_map f c = content_map g c.
Proof.
  assert (forall l, Forall (fun x => f x = g x) l -> map f l = map g l) as Hl by (induction 1 as [|x l Hx _ IH]; [done|]; cbn; by rewrite Hx, IH).
  assert (forall o, Forall (fun x => f x = g x) (opt_list o) -> option_map f o = option_map g o) as Ho by (intros [x|] H; [|done]; apply Forall_cons_1 in H as [H _]; cbn; by rewrite H).
  destruct c; cbn [kids content_map]; intros H; try done; try (by rewrite Hl); [by rewrite Ho|].
  apply Forall_app in H as [H1 [H2 H3]%Forall_app]. by rewrite !Ho.
Qed.
Lemma content_map_map {A B C} (f : A -> B) (g : B -> C) (c : Content A) : content_map g (content_map f c) = content_map (fun x => g (f x)) c.
Proof. destruct c; cbn; rewrite ?map_map; try done; [by destruct child|]. by destruct first, second, third. Qed.
Lemma content_map_id {A} (f : A -> A) (c : Content A) : Forall (fun x => f x = x) (kids c) -> content_map f c = c.
Proof. intros H. rewrite (content_map_ext f id) by done. destruct c; cbn; rewrite ?map_id; try done; [by destruct child|]. by destruct first, second, third. Qed.

Inductive each_node (P : NodeInfo -> Prop) : RenderTree -> Prop :=
  | each_intro i c : P i -> Forall (each_node P) (kids c) -> each_node P (mkTree i c).
Fixpoint unstyled (t : RenderTree) : RenderTree :=
  match t with mkTree i c => mkTree (set_style style_zero i) (content_map unstyled c) end.
(** What the drawing relies on. *)
Definition filled (i : NodeInfo) : Prop :=
  let s := resolved_style i in
  fg_color s <> 0 /\ bg_color s <> 0 /\ border_color s <> 0 /\ accent_color s <> 0 /\ border_width s <> 0 /\ font_size s <> 0.

Lemma or_else_nonzero v d : d <> 0 -> or_else v d <> 0.
Proof. unfold or_else. by destruct (Z.eqb_spec v 0). Qed.
Lemma fill_style_filled s i : filled (set_style (fill_style s) i).
Proof. unfold filled. cbn -[or_else rgba]. split_and!; by apply or_else_nonzero. Qed.
Lemma fill_style_twice s : fill_style (fill_style s) = fill_style s.
Proof.
  assert (forall v d, d <> 0 -> or_else (or_else v d) d = or_else v d) as H.
  { intros v d Hd. unfold or_else. destruct (Z.eqb_spec v 0) as [|Hv]; [by rewrite (proj2 (Z.eqb_neq d 0))|by rewrite (proj2 (Z.eqb_neq v 0))]. }
  unfold fill_style. cbn -[or_else rgba]. rewrite !H; [done|vm_compute; discriminate..].
Qed.
Lemma resolve_info_twice th i : resolve_info th (resolve_info th i) = resolve_info th i.
Proof.
  unfold resolve_info. cbn [style_class state set_style resolved_style]. destruct (style_class i) as [[|c cls]|]; try by rewrite fill_style_twice.
  destruct (font_size _ =? 0); [by rewrite fill_style_twice|done].
Qed.

(** the style pass gives every node of the tree a drawable style, with
    colours, a border width and a font size that are not zero, changes nothing
    but styles, and is a fixed point: a second pass over the same tree leaves
    it as the first one did. *)
Theorem resolve_node_styles_spec th t :
  each_node filled (resolve_node_styles th t) /\ unstyled (resolve_node_styles th t) = unstyled t /\
  resolve_node_styles th (resolve_node_styles th t) = resolve_node_styles th t.
Proof.
  induction t as [i c IH] using RenderTree_ind'. cbn [resolve_node_styles unstyled].
  assert (Forall (fun t => each_node filled (resolve_node_styles th t)) (kids c)) as H1 by (eapply list.Forall_impl; [exact IH|intros x Hx; apply Hx]).
  assert (Forall (fun t => unstyled (resolve_node_styles th t) = unstyled t) (kids c)) as H2 by (eapply list.Forall_impl; [exact IH|intros x Hx; apply Hx]).
  assert (Forall (fun t => resolve_node_styles th (resolve_node_styles th t) = resolve_node_styles th t) (kids c)) as H3 by (eapply list.Forall_impl; [exact IH|intros x Hx; apply Hx]).
  split_and!.
  - constructor; [apply fill_style_filled|]. rewrite kids_map. apply Forall_map. exact H1.
  - f_equal. rewrite content_map_map. by apply content_map_ext.
  - rewrite resolve_info_twice. f_equal. rewrite content_map_map. by apply content_map_ext.
Qed.

(** ** Styles are well formed *)

Lemma mapM_length {A B} (f : A -> exec B) l k : mapM f l = Done k -> length k = length l.
Proof.
  revert k. induction l as [|x l IH]; intros k H; [by injection H as <-|]. cbn [mapM] in H. apply exec_bind_inv in H as (a & _ & H).
  apply exec_bind_inv in H as (b & E & H). injection H as <-. cbn. by rewrite (IH _ E).
Qed.
Lemma parse_shadow_array_length vs o l : parse_shadow_array vs o = Done l -> (length l <= 4)%nat.
Proof.
  assert (parse_single_shadow vs o = Done l -> (length l <= 4)%nat) as Hs.
  { unfold parse_single_shadow. intros H. apply exec_bind_inv in H as (c & _ & H). destruct (_ || _); injection H as <-; cbn; lia. }
  unfold parse_shadow_array. destruct (member o "shadow") as [a|]; [|exact Hs]. destruct (cJSON_IsArray _); [|exact Hs].
  intros H. apply mapM_length in H. rewrite H, length_take. unfold MAX_SHADOWS. lia.
Qed.
Lemma parse_gradient_wf vs o bg g : parse_gradient vs o bg = Done g -> length (stops g) = 8%nat /\ 0 <= stop_count g <= 8.
Proof.
  unfold parse_gradient. destruct (member o "bg_gradient") as [grad|]; [|by intros [= <-]]. destruct (cJSON_IsObject _).
  - intros H. apply exec_bind_inv in H as (l & E & H). injection H as <-. cbn [stops stop_count].
    assert (length l <= 8)%nat as Hl.
    { destruct (cJSON_IsArray _); [|by injection E as <-; cbn; lia]. apply mapM_length in E. rewrite E, length_take. unfold MAX_GRADIENT_STOPS. lia. }
    rewrite set_front_length by (cbn; lia). cbn. lia.
  - destruct (parse_bool _ _ _); [|by intros [= <-]]. intros H. apply exec_bind_inv in H as (c & _ & H). injection H as <-. done.
Qed.
Lemma parse_widget_style_wf vs o s : parse_widget_style vs o = Done s -> style_wf s.
Proof.
  unfold parse_widget_style. intros H. unbind H. injection H as <-. unfold style_wf. cbn [shadows shadow_count gradient].
  match goal with E : parse_shadow_array _ _ = Done ?l |- _ => pose proof (parse_shadow_array_length _ _ _ E) end.
  match goal with E : parse_gradient _ _ _ = Done ?l |- _ => pose proof (parse_gradient_wf _ _ _ _ E) end.
  rewrite set_front_length by (cbn; lia). split_and!; (done || lia || tauto).
Qed.
Lemma merge_style_wf d s : style_wf d -> style_wf s -> style_wf (merge_style d s).
Proof.
  intros (D1 & D2 & D3 & D4) (S1 & S2 & S3 & S4). unfold style_wf. cbn [shadows shadow_count gradient merge_style]. split_and!.
  - destruct (0 <? shadow_count s); [|done]. rewrite set_front_length; [done|]. rewrite length_take. lia.
  - destruct (0 <? shadow_count s); lia.
  - destruct (0 <? shadow_count s); lia.
  - by destruct (gradient_type (gradient s)).
  - destruct (gradient_type (gradient s)); lia.
  - destruct (gradient_type (gradient s)); lia.
Qed.
(** So the shadows and the stops of any resolved style stay inside their
    arrays, as the animations rely on. *)
Lemma theme_resolve_wf t cls ch st : Forall (fun r => style_wf (style r)) (rules t) -> style_wf (theme_resolve (Some t) cls ch st).
Proof.
  cbn [theme_resolve]. generalize (rules t). intros rs Hr. assert (style_wf widgetstyle_default) as Hd by (repeat split; vm_compute; (done || discriminate)).
  revert Hd. generalize widgetstyle_default. induction Hr as [|r rs Hr _ IH]; intros d Hd; [done|]. cbn [foldl]. apply IH.
  destruct (rule_matches cls ch st r); [by apply merge_style_wf|done].
Qed.

(** ** Styles of scripts *)

(** What [eval_style_block] of a script writes is read back here. *)
Lemma fil_rule_entry w ch prop v : "|"%char ∉ chars w -> "|"%char ∉ chars ch -> "|"%char ∉ chars prop ->
  fil_rule (w +:+ "|" +:+ ch +:+ "|" +:+ prop +:+ "|" +:+ v) =
  mkRule (Some w) (match ch with EmptyString => None | _ => Some ch end) None (fil_style prop v).
Proof.
  intros Hw Hc Hp. unfold fil_rule. rewrite !chars_app. change (chars "|") with ["|"%char]. cbn [app].
  rewrite (proj2 (split_at_spec "|" _ (chars w) _) (conj eq_refl Hw)). rewrite (proj2 (split_at_spec "|" _ (chars ch) _) (conj eq_refl Hc)).
  rewrite (proj2 (split_at_spec "|" _ (chars prop) _) (conj eq_refl Hp)). rewrite !string_of_list_ascii_of_string.
  destruct ch as [|c ch]; [done|]. cbn [chars]. by rewrite <-(string_of_list_ascii_of_string (String c ch)).
Qed.
