(* ===== verification/Validator.v ===== *)
(** The checks of a builder project: src/src/builder/validator.c. *)

From S2P Require Import Prelude CJson RenderTree Project Fil.

Inductive ValidationSeverity := V_ERROR | V_WARNING | V_INFO.
#[global] Instance ValidationSeverity_eq_dec : EqDecision ValidationSeverity.
Proof. solve_decision. Defined.
Record ValidationIssue := mkIssue {
  severity : ValidationSeverity; message : string; issue_item : Z; issue_node : Z; issue_edge : Z; issue_keymap : Z
}.
Definition ValidationReport : Type := list ValidationIssue.

(** An issue with its text cut to a [char[256]]. *)
Definition item_issue (sev : ValidationSeverity) (it : CanvasItem) (text : string) : ValidationIssue :=
  mkIssue sev (strtake 255 text) (item_id it) (-1) (-1) (-1).
Definition quoted (s : string) : string := "'" +:+ s +:+ "'".

Definition rects_overlap (a b : Rect) : bool :=
  negb ((rx a + rw a <=? rx b) || (rx b + rw b <=? rx a) || (ry a + rh a <=? ry b) || (ry b + rh b <=? ry a)).

(** ** Items *)

Definition overlap_issues (it : CanvasItem) (later : list CanvasItem) : ValidationReport :=
  omap (fun o =>
    if (parent_id it =? parent_id o) && rects_overlap (item_rect it) (item_rect o)
    then Some (item_issue V_WARNING it ("Widgets " +:+ quoted (instance_name it) +:+ " and " +:+ quoted (instance_name o) +:+ " overlap"))
    else None) later.
Definition when_issue (b : bool) (i : ValidationIssue) : ValidationReport := if b then [i] else [].
Definition own_issues (root_w root_h : Z) (it : CanvasItem) : ValidationReport :=
  let r := item_rect it in
  let name := "Widget " +:+ quoted (instance_name it) in
  when_issue (item_id it =? parent_id it) (item_issue V_ERROR it (name +:+ " is its own parent")) ++
  when_issue ((rw r <=? 0) || (rh r <=? 0))
    (item_issue V_ERROR it (name +:+ " has invalid dimensions (" +:+ int_string (rw r) +:+ "x" +:+ int_string (rh r) +:+ ")")) ++
  when_issue ((root_w <? rx r + rw r) || (root_h <? ry r + rh r)) (item_issue V_WARNING it (name +:+ " extends beyond root bounds")) ++
  when_issue (item_tab_index it =? 0) (item_issue V_INFO it (name +:+ " has no tab index set")).
Fixpoint item_issues (root_w root_h : Z) (l : list CanvasItem) : ValidationReport :=
  match l with
  | [] => []
  | it :: later => overlap_issues it later ++ own_issues root_w root_h it ++ item_issues root_w root_h later
  end.
Fixpoint duplicate_tabs (l : list CanvasItem) : ValidationReport :=
  match l with
  | [] => []
  | it :: later =>
      omap (fun o =>
        if (0 <? item_tab_index it) && (item_tab_index it =? item_tab_index o)
        then Some (item_issue V_WARNING it ("Duplicate tab index " +:+ int_string (item_tab_index it) +:+ " for " +:+
          quoted (instance_name it) +:+ " and " +:+ quoted (instance_name o)))
        else None) later ++ duplicate_tabs later
  end.
Definition interactive_types : list string := ["input"; "password"; "menu"; "checklist"; "toggle"; "checkbox"; "button"; "yesno"]%string.
Definition missing_tabs (it : CanvasItem) : ValidationReport :=
  when_issue (bool_decide (widget_type it ∈ interactive_types) && (item_tab_index it =? 0))
    (item_issue V_WARNING it ("Interactive widget " +:+ quoted (instance_name it) +:+ " needs a tab index")).

(** ** The graph *)

Definition unconnected (es : list ConnectionEdge) (i : nat) (n : GraphNode) : ValidationReport :=
  when_issue (existsb is_output (ports n) && negb (existsb (fun e => from_node e =? Z.of_nat i) es) && (node_type n =? NODE_WIDGET))
    (mkIssue V_INFO (strtake 255 ("Node " +:+ quoted (label n) +:+ " has unconnected output ports")) (-1) (Z.of_nat i) (-1) (-1)).
Fixpoint cycles (i : Z) (l : list ConnectionEdge) : ValidationReport :=
  match l with
  | [] => []
  | e :: later =>
      when_issue ((from_node e =? to_node e) || existsb (fun f => (from_node f =? to_node e) && (to_node f =? from_node e)) later)
        (mkIssue V_ERROR (strtake 255 ("Cycle detected involving edge " +:+ int_string i)) (-1) (-1) i (-1)) ++ cycles (i + 1) later
  end.

Section checks.
Context (regcomp : string -> bool) (regexec : string -> string -> bool).
(** A script is run without a store and without a value. *)
Definition run_script (s : string) : exec FilResult := fil_eval regcomp regexec None s.
Definition node_script (n : GraphNode) : option string := if node_type n =? NODE_FIL_BLOCK then fil_script n else None.
Fixpoint script_issues (i : Z) (l : list GraphNode) : exec ValidationReport :=
  match l with
  | [] => Done []
  | n :: l' =>
      issues ← (match node_script n with
        | Some s =>
            fr ← run_script s;
            Done (match r_error_msg fr with
              | Some m => [mkIssue V_ERROR (strtake 511 ("FIL error in node " +:+ quoted (label n) +:+ ": " +:+ m)) (-1) i (-1) (-1)]
              | None => []
              end)
        | None => Done []
        end : exec ValidationReport);
      rest ← script_issues (i + 1) l';
      Done (issues ++ rest)
  end.
Definition unused_var (ns : list GraphNode) (v : StoreVar) : ValidationReport :=
  when_issue (negb (existsb (fun n => bool_decide (store_key n = Some (var_key v))) ns))
    (mkIssue V_INFO (strtake 255 ("Store variable " +:+ quoted (var_key v) +:+ " is declared but never used")) (-1) (-1) (-1) (-1)).

Definition validator_check_all (p : BuilderProject) : exec ValidationReport :=
  scripts ← script_issues 0 (nodes p);
  Done (item_issues (root_width p) (root_height p) (items p) ++ duplicate_tabs (items p) ++ concat (map missing_tabs (items p)) ++
    concat (imap (unconnected (edges p)) (nodes p)) ++ cycles 0 (edges p) ++ scripts ++ concat (map (unused_var (nodes p)) (store_vars p)) ++
    when_issue (match keymaps p, items p with [], _ :: _ => true | _, _ => false end)
      (mkIssue V_WARNING "No keybindings defined" (-1) (-1) (-1) (-1))).
End checks.

(** ** What the report says *)

Definition no_error (i : ValidationIssue) : Prop := severity i <> V_ERROR.
Definition inside (r : Rect) (x y : Z) : Prop := rx r <= x < rx r + rw r /\ ry r <= y < ry r + rh r.

Lemma overlap_spec a b : 0 < rw a -> 0 < rh a -> 0 < rw b -> 0 < rh b ->
  rects_overlap a b = true <-> exists x y, inside a x y /\ inside b x y.
Proof.
  intros. unfold rects_overlap, inside. rewrite negb_true_iff, !orb_false_iff, !Z.leb_gt. split.
  - intros [[[? ?] ?] ?]. exists (Z.max (rx a) (rx b)), (Z.max (ry a) (ry b)). lia.
  - intros (x & y & ? & ?). lia.
Qed.

Lemma when_no_error b i : Forall no_error (when_issue b i) <-> (b = true -> no_error i).
Proof. destruct b; cbn; [rewrite list.Forall_singleton; tauto|]. split; [done|by constructor]. Qed.
Lemma when_warning b i : severity i <> V_ERROR -> Forall no_error (when_issue b i).
Proof. intros H. by apply when_no_error. Qed.
Lemma omap_warning {A} (f : A -> option ValidationIssue) l : (forall x i, f x = Some i -> severity i <> V_ERROR) -> Forall no_error (omap f l).
Proof. intros H. apply list.Forall_forall. intros i (x & _ & Hx)%list_elem_of_omap. by eapply H. Qed.

Definition item_sound (it : CanvasItem) : Prop := item_id it <> parent_id it /\ 0 < rw (item_rect it) /\ 0 < rh (item_rect it).
Lemma own_no_error w h it : Forall no_error (own_issues w h it) <-> item_sound it.
Proof.
  unfold own_issues. cbn zeta. rewrite !list.Forall_app, !when_no_error. unfold no_error, item_issue, item_sound. cbn [severity]. split.
  - intros (H1 & H2 & _). destruct (Z.eqb_spec (item_id it) (parent_id it)) as [|Hn]; [by destruct H1|]. split; [done|].
    destruct ((rw (item_rect it) <=? 0) || (rh (item_rect it) <=? 0)) eqn:E; [by destruct H2|]. apply orb_false_iff in E as [? ?]. lia.
  - intros (H1 & H2 & H3). split_and!; [intros ?%Z.eqb_eq; done|intros [?|?]%orb_true_iff; lia|done|done].
Qed.
Lemma items_no_error w h l : Forall no_error (item_issues w h l) <-> Forall item_sound l.
Proof.
  induction l as [|it l IH]; [by split; constructor|]. cbn [item_issues]. rewrite !list.Forall_app, own_no_error, IH, list.Forall_cons. split; [tauto|].
  intros [? ?]. split_and!; [|done|done]. apply omap_warning. intros o i. destruct (_ && _); [intros [= <-]; done|done].
Qed.
Lemma tabs_no_error l : Forall no_error (duplicate_tabs l).
Proof.
  induction l as [|it l IH]; [constructor|]. cbn [duplicate_tabs]. apply list.Forall_app. split; [|done].
  apply omap_warning. intros o i. destruct (_ && _); [intros [= <-]; done|done].
Qed.
Lemma concat_no_error {A} (f : A -> ValidationReport) l : (forall x, Forall no_error (f x)) -> Forall no_error (concat (map f l)).
Proof. intros H. induction l; [constructor|]. apply list.Forall_app. by split. Qed.
Lemma imap_no_error {A} (f : nat -> A -> ValidationReport) l : (forall i x, Forall no_error (f i x)) -> Forall no_error (concat (imap f l)).
Proof. revert f. induction l as [|x l IH]; intros f H; [constructor|]. rewrite imap_cons. apply list.Forall_app. split; [done|]. apply IH. intros. apply H. Qed.

(** No two edges (or one) lead back and forth between two nodes (or one). *)
Definition no_return (es : list ConnectionEdge) : Prop :=
  forall e f, e ∈ es -> f ∈ es -> ~ (from_node f = to_node e /\ to_node f = from_node e).
Lemma cycles_no_error l i : Forall no_error (cycles i l) <-> no_return l.
Proof.
  revert i. induction l as [|e l IH]; intros i; [split; [intros _ e f ?%elem_of_nil; done|constructor]|].
  cbn [cycles]. rewrite list.Forall_app, when_no_error, IH. unfold no_error. cbn [severity].
  assert ((from_node e =? to_node e) || existsb (fun f => (from_node f =? to_node e) && (to_node f =? from_node e)) l = true <->
    exists f, f ∈ e :: l /\ from_node f = to_node e /\ to_node f = from_node e) as Hc.
  { rewrite orb_true_iff, Z.eqb_eq, existsb_exists. split.
    - intros [He|(f & Hf & Hb)]; [exists e; split; [by left|split; lia]|]. exists f. apply andb_true_iff in Hb as [? ?]. split; [right; by apply list_elem_of_In|lia].
    - intros (f & Hf & H1 & H2). apply elem_of_cons in Hf as [->|Hf]; [by left; lia|]. right. exists f. split; [by apply list_elem_of_In|].
      apply andb_true_iff. lia. }
  split.
  - intros [H1 H2] a b Ha Hb [E1 E2].
    assert (forall f, f ∈ e :: l -> ~ (from_node f = to_node e /\ to_node f = from_node e)) as H3 by (intros f Hf Hx; exact (H1 (proj2 Hc (ex_intro _ f (conj Hf Hx))) eq_refl)).
    pose proof Ha as Ha'. pose proof Hb as Hb'. apply elem_of_cons in Ha' as [->|Ha']; [by apply (H3 b)|].
    apply elem_of_cons in Hb' as [->|Hb']; [by apply (H3 a)|]. by apply (H2 a b).
  - intros H. split; [|intros a b Ha Hb; apply H; by right]. intros (f & Hf & E)%Hc _. exact (H e f (list_elem_of_here e l) Hf E).
Qed.

Section reports.
Context (regcomp : string -> bool) (regexec : string -> string -> bool).
Abbreviation script := (run_script regcomp regexec).

Definition script_runs (s : string) : Prop := exists fr, script s = Done fr.
Definition script_passes (s : string) : Prop := exists fr, script s = Done fr /\ r_error_msg fr = None.

Lemma script_issues_spec l i : Forall script_runs (omap node_script l) ->
  exists r, script_issues regcomp regexec i l = Done r /\ (Forall no_error r <-> Forall script_passes (omap node_script l)).
Proof.
  revert i. induction l as [|n l IH]; intros i Hr; [exists []; split; [done|by split; constructor]|].
  cbn [omap list_omap script_issues] in *. destruct (node_script n) as [s|].
  - apply list.Forall_cons in Hr as [[fr Hs] Hr]. rewrite Hs. cbn [mbind exec_bind]. destruct (IH (i + 1) Hr) as (r & -> & Hp). cbn [mbind exec_bind].
    eexists. split; [reflexivity|]. rewrite list.Forall_app, list.Forall_cons, Hp. unfold script_passes at 2. destruct (r_error_msg fr) as [m|] eqn:Hm; split.
    + intros [[H _]%Forall_cons_1 _]. by destruct H.
    + intros [(fr' & Hs' & Hn) _]. congruence.
    + intros [_ H]. split; [by exists fr|done].
    + intros [_ H]. by split.
  - cbn [mbind exec_bind]. destruct (IH (i + 1) Hr) as (r & -> & Hp). by exists r.
Qed.

Lemma item_issues_overlap w h l i j a b : (i < j)%nat -> l !! i = Some a -> l !! j = Some b ->
  parent_id a = parent_id b -> rects_overlap (item_rect a) (item_rect b) = true ->
  exists text, item_issue V_WARNING a text ∈ item_issues w h l.
Proof.
  revert i j. induction l as [|x l IH]; intros i j Hij Ha Hb Hp Ho; [done|]. destruct j as [|j]; [lia|]. cbn [item_issues]. destruct i as [|i].
  - cbn in Ha, Hb. injection Ha as ->. eexists. apply elem_of_app. left. apply list_elem_of_omap. exists b. split; [by eapply list_elem_of_lookup_2|].
    rewrite Ho, (proj2 (Z.eqb_eq _ _) Hp). reflexivity.
  - destruct (IH i j) as [text Ht]; [lia|done|done|done|done|]. exists text. rewrite !elem_of_app. tauto.
Qed.

Lemma item_issues_bounds w h l a : a ∈ l -> w < rx (item_rect a) + rw (item_rect a) \/ h < ry (item_rect a) + rh (item_rect a) ->
  exists text, item_issue V_WARNING a text ∈ item_issues w h l.
Proof.
  intros Ha Hb. induction l as [|x l IH]; [by apply elem_of_nil in Ha|]. cbn [item_issues]. apply elem_of_cons in Ha as [<-|Ha].
  - eexists. apply elem_of_app. right. apply elem_of_app. left. unfold own_issues. cbn zeta. rewrite !elem_of_app. right. right. left.
    rewrite (proj2 (orb_true_iff _ _)) by (rewrite !Z.ltb_lt; tauto). by left.
  - destruct (IH Ha) as [text Ht]. exists text. rewrite !elem_of_app. tauto.
Qed.

(** C32: which errors the code reports. When the scripts of a project run, its
    report has no error exactly when every item is of positive size and not its
    own parent, no edge of the graph is answered by an edge back (longer cycles
    are not looked for), and no script ends rejected. When two siblings of
    positive size share a cell, the first of them is warned about, and so is
    every item that reaches out of the root. build-spec.md and spec.md ask for
    more errors than these: duplicate ids, items out of bounds, edges between
    types that do not convert, parameters against their schema, interactive
    widgets without a key and scripts that do not parse are errors there and not in the code. *)
Theorem validator_reports p : Forall script_runs (omap node_script (nodes p)) ->
  exists r, validator_check_all regcomp regexec p = Done r /\
  (Forall no_error r <-> Forall item_sound (items p) /\ no_return (edges p) /\ Forall script_passes (omap node_script (nodes p))) /\
  (forall i j a b x y, (i < j)%nat -> items p !! i = Some a -> items p !! j = Some b -> parent_id a = parent_id b ->
     item_sound a -> item_sound b -> inside (item_rect a) x y -> inside (item_rect b) x y ->
     exists text, item_issue V_WARNING a text ∈ r) /\
  (forall a, a ∈ items p -> root_width p < rx (item_rect a) + rw (item_rect a) \/ root_height p < ry (item_rect a) + rh (item_rect a) ->
     exists text, item_issue V_WARNING a text ∈ r).
Proof.
  intros Hs. unfold validator_check_all. destruct (script_issues_spec (nodes p) 0 Hs) as (r & -> & Hr). cbn [mbind exec_bind].
  eexists. split; [reflexivity|]. split; [|split].
  - rewrite !list.Forall_app, items_no_error, cycles_no_error, Hr. split; [tauto|]. intros (H1 & H2 & H3).
    split_and!; [done|apply tabs_no_error| | |done|done| |by apply when_warning].
    + apply concat_no_error. intros. by apply when_warning.
    + apply imap_no_error. intros. by apply when_warning.
    + apply concat_no_error. intros. by apply when_warning.
  - intros i j a b x y Hij Ha Hb Hp (_ & ? & ?) (_ & ? & ?) Hx Hy.
    destruct (item_issues_overlap (root_width p) (root_height p) (items p) i j a b) as [text Ht]; [done..|apply overlap_spec; eauto|].
    exists text. rewrite !elem_of_app. tauto.
  - intros a Ha Hb. destruct (item_issues_bounds _ _ _ a Ha Hb) as [text Ht]. exists text. rewrite !elem_of_app. tauto.
Qed.
End reports.

(** A project with what the documents call errors: two items with one id, the
    second out of the root and a gauge whose percentage is a text, no
    key for the button, a text connected to a truth value, and a script that
    is no script. The report has warnings and hints, and no error. *)
Definition unsound_project : BuilderProject :=
  let item t x := mkItem 1 t "b" (mkRect x 0 10 2) (Some (cJSON_AddStringToObject cJSON_CreateObject "percent" (Some "many"%string))) (-1) 1 false true in
  let script := mkNode 2 NODE_FIL_BLOCK "f" (-1) None (Some ") nonsense ("%string) [mkPort 0 "in" PORT_BOOL false None] in
  let source := mkNode 1 NODE_WIDGET "b" 1 None None [mkPort 0 "out" PORT_STRING true None] in
  let p := project_new None 80 24 in
  mkProject (project_name p) None [item "button"%string 0; item "gauge"%string 75] 3 80 24 [source; script] [mkEdge 0 0 1 0 None None] [] [] (tui p) (filly_version p) None None.
Example documented_errors_missed :
  (r ← validator_check_all (fun _ => true) (fun _ _ => true) unsound_project; Done (existsb (fun i => bool_decide (severity i = V_ERROR)) r)) = Done false.
Proof. vm_compute. reflexivity. Qed.

(** Three nodes in a ring: no error. *)
Definition ring_edges : list ConnectionEdge := [mkEdge 0 0 1 0 None None; mkEdge 1 0 2 0 None None; mkEdge 2 0 0 0 None None].
Definition ring : BuilderProject := set_edges ring_edges (project_new None 80 24).
Lemma validator_reports_witness : let all := fun _ : string => true in
  Forall (script_runs all (fun _ => all)) (omap node_script (nodes ring)) /\
  exists r, validator_check_all all (fun _ => all) ring = Done r /\ Forall no_error r.
Proof.
  intros all. assert (Forall (script_runs all (fun _ => all)) (omap node_script (nodes ring))) as H by constructor. split; [exact H|].
  destruct (validator_reports all (fun _ => all) ring H) as (r & Hr & [_ He] & _ & _). exists r. split; [exact Hr|]. apply He.
  split; [constructor|]. split; [|constructor]. intros e f He' Hf'. change (e ∈ ring_edges) in He'. change (f ∈ ring_edges) in Hf'. unfold ring_edges in *. rewrite !elem_of_cons in He', Hf'.
  destruct He' as [->|[->|[->|He']]]; [| | |by apply elem_of_nil in He'];
    (destruct Hf' as [->|[->|[->|Hf']]]; [| | |by apply elem_of_nil in Hf']); cbn; lia.
Defined.
