(* ===== verification/Graph.v ===== *)
(** The connection graph of the builder: src/src/builder/connection_graph.c.

    The structure [ConnectionGraph] is split in the groups of fields its
    handlers use together (places, wire, drag, edit). [node_count] and
    [total_ports] are the lengths of the arrays allocated with them, and
    [edit_buf] stands for its characters before the terminator, so that
    [edit_len] is its length. [int] arithmetic is taken not to overflow. *)

From Stdlib Require Import SpecFloat.
From S2P Require Import Prelude Double RenderTree Widget Boxes Project.

(** ** The structure *)

Definition NODE_WIDTH : Z := 200.
Definition NODE_PORT_HEIGHT : Z := 18.
Definition PORT_RADIUS : Z := 6.
Definition HEADER_HEIGHT : Z := 22.

Record Places := mkPlaces { node_x : list Z; node_y : list Z; port_x : list Z; port_y : list Z }.
Record Wire := mkWire { wire_start_node : Z; wire_start_port : Z; wire_end_x : Z; wire_end_y : Z }.
Record Drag := mkDrag {
  dragging_node : bool; drag_node_id : Z; drag_start_x : Z; drag_start_y : Z; drag_orig_x : Z; drag_orig_y : Z
}.
Record Edit := mkEditing { editing_edge : bool; editing_edge_idx : Z; edit_buf : string; edit_field : Z }.
Record ConnectionGraph := mkGraph {
  project : BuilderProject; places : Places; selected_node : Z; selected_edge : Z; hovered_port : Z;
  wire : Wire; drag : Drag; scroll_x : Z; scroll_y : Z; zoom : spec_float; editing : Edit
}.

Definition set_project (p : BuilderProject) (g : ConnectionGraph) : ConnectionGraph :=
  mkGraph p (places g) (selected_node g) (selected_edge g) (hovered_port g) (wire g) (drag g) (scroll_x g) (scroll_y g) (zoom g) (editing g).
Definition set_places (a : Places) (g : ConnectionGraph) : ConnectionGraph :=
  mkGraph (project g) a (selected_node g) (selected_edge g) (hovered_port g) (wire g) (drag g) (scroll_x g) (scroll_y g) (zoom g) (editing g).
Definition set_selected (n e : Z) (g : ConnectionGraph) : ConnectionGraph :=
  mkGraph (project g) (places g) n e (hovered_port g) (wire g) (drag g) (scroll_x g) (scroll_y g) (zoom g) (editing g).
Definition set_hovered (h : Z) (g : ConnectionGraph) : ConnectionGraph :=
  mkGraph (project g) (places g) (selected_node g) (selected_edge g) h (wire g) (drag g) (scroll_x g) (scroll_y g) (zoom g) (editing g).
Definition set_wire (w : Wire) (g : ConnectionGraph) : ConnectionGraph :=
  mkGraph (project g) (places g) (selected_node g) (selected_edge g) (hovered_port g) w (drag g) (scroll_x g) (scroll_y g) (zoom g) (editing g).
Definition set_drag (d : Drag) (g : ConnectionGraph) : ConnectionGraph :=
  mkGraph (project g) (places g) (selected_node g) (selected_edge g) (hovered_port g) (wire g) d (scroll_x g) (scroll_y g) (zoom g) (editing g).
Definition set_editing (e : Edit) (g : ConnectionGraph) : ConnectionGraph :=
  mkGraph (project g) (places g) (selected_node g) (selected_edge g) (hovered_port g) (wire g) (drag g) (scroll_x g) (scroll_y g) (zoom g) e.

Definition node_count (g : ConnectionGraph) : nat := length (node_x (places g)).
Definition total_ports (g : ConnectionGraph) : nat := length (port_x (places g)).
(** [g->project->nodes[i]] for [i < g->node_count], read when a loop gets there. *)
Definition graph_nodes (g : ConnectionGraph) : list (option GraphNode) :=
  map (fun i => nodes (project g) !! i) (seq 0 (node_count g)).

(** An access [a[i]] with an [int] index. *)
Definition get {A} (l : list A) (i : Z) : exec A := if i <? 0 then Fault OutOfBounds else at_index (l !! Z.to_nat i).
Definition put {A} (l : list A) (i : Z) (x : A) : exec (list A) := _ ← get l i; Done (<[Z.to_nat i := x]> l).

(** ** Layout of the nodes *)

Definition port_total (l : list GraphNode) : nat := list_sum (map (fun n => length (ports n)) l).
Definition graph_sync_nodes (g : ConnectionGraph) : ConnectionGraph :=
  let l := nodes (project g) in
  set_places (mkPlaces (replicate (length l) 0) (replicate (length l) 0) (replicate (port_total l) 0) (replicate (port_total l) 0)) g.
Definition graph_layout (g : ConnectionGraph) : ConnectionGraph :=
  let cols := Z.sqrt (Z.of_nat (node_count g)) + 1 in
  let place (f : Z -> Z) (step : Z) := map (fun i => 20 + f (Z.of_nat i) * step) (seq 0 (node_count g)) in
  set_places (mkPlaces (place (fun i => cmod i cols) (NODE_WIDTH + 60)) (place (fun i => cdiv i cols) 120)
    (port_x (places g)) (port_y (places g))) g.
Definition graph_new (p : BuilderProject) : ConnectionGraph :=
  graph_layout (graph_sync_nodes (mkGraph p (mkPlaces [] [] [] []) (-1) (-1) (-1) (mkWire (-1) (-1) 0 0)
    (mkDrag false 0 0 0 0 0) 0 0 (f_of_Z 1) (mkEditing false (-1) EmptyString 0))).

(** ** What lies under the pointer *)

(** [(int)(z * g->zoom)] *)
Definition zoomed (g : ConnectionGraph) (z : Z) : Z := f_to_int (f_mul (f_of_Z z) (zoom g)).

Fixpoint find_node_at (g : ConnectionGraph) (x y : Z) (n : nat) : exec Z :=
  match n with
  | O => Done (-1)
  | S i =>
      gx ← at_index (node_x (places g) !! i); gy ← at_index (node_y (places g) !! i);
      node ← at_index (nodes (project g) !! i);
      let nx := zoomed g (gx - scroll_x g) in
      let ny := zoomed g (gy - scroll_y g) in
      let nw := zoomed g NODE_WIDTH in
      let nh := zoomed g (HEADER_HEIGHT + Z.of_nat (length (ports node)) * NODE_PORT_HEIGHT) in
      if (nx <=? x) && (x <? nx + nw) && (ny <=? y) && (y <? ny + nh) then Done (Z.of_nat i)
      else find_node_at g x y i
  end.
Definition graph_find_node_at (g : ConnectionGraph) (x y : Z) : exec Z := find_node_at g x y (node_count g).

(** The radius a port is hit in, squared. *)
Definition hit_area (g : ConnectionGraph) : Z :=
  f_to_int (f_mul (f_mul (f_mul (f_mul (f_of_Z PORT_RADIUS) (zoom g)) (f_of_Z PORT_RADIUS)) (zoom g)) (f_of_Z 2)).
(** The ports of a node at [nx], [ny]: the index of the port hit or that of
    the next port, and the arrays, filled up to there. *)
Fixpoint find_in_ports (g : ConnectionGraph) (x y nx ny : Z) (l : list PortDef) (out_idx in_idx : Z) (port_idx : nat) (a : Places) :
    bool * nat * Places :=
  match l with
  | [] => (false, port_idx, a)
  | q :: l' =>
      let row idx := ny + zoomed g HEADER_HEIGHT + zoomed g 10 + idx * zoomed g NODE_PORT_HEIGHT in
      let px := if is_output q then nx + zoomed g NODE_WIDTH + zoomed g PORT_RADIUS else nx - zoomed g PORT_RADIUS in
      let py := row (if is_output q then out_idx else in_idx) in
      let a := mkPlaces (node_x a) (node_y a) (<[port_idx := px]> (port_x a)) (<[port_idx := py]> (port_y a)) in
      if (x - px) * (x - px) + (y - py) * (y - py) <=? hit_area g then (true, port_idx, a)
      else find_in_ports g x y nx ny l' (if is_output q then out_idx + 1 else out_idx) (if is_output q then in_idx else in_idx + 1) (S port_idx) a
  end.
Fixpoint find_in_nodes (g : ConnectionGraph) (x y : Z) (l : list (option GraphNode)) (ni port_idx : nat) (a : Places) : exec (Z * Places) :=
  match l with
  | [] => Done (-1, a)
  | o :: l' =>
      node ← at_index o;
      gx ← at_index (node_x a !! ni); gy ← at_index (node_y a !! ni);
      match find_in_ports g x y (zoomed g (gx - scroll_x g)) (zoomed g (gy - scroll_y g)) (ports node) 0 0 port_idx a with
      | (true, i, a) => Done (Z.of_nat i, a)
      | (false, i, a) => find_in_nodes g x y l' (S ni) i a
      end
  end.
Definition graph_find_port_at (g : ConnectionGraph) (x y : Z) : exec (Z * ConnectionGraph) :=
  '(i, a) ← find_in_nodes g x y (graph_nodes g) 0 0 (places g);
  Done (i, set_places a g).

(** The points of the curve an edge is drawn along. *)
Fixpoint curve (fuel : nat) (s : spec_float) : list spec_float :=
  match fuel with
  | O => []
  | S f => if SFleb s (f_of_Z 1) then s :: curve f (f_add s (f_lit 5 2)) else []
  end.
Definition curve_points : list spec_float := curve 30 (f_of_Z 0).
Definition edge_distance (x y fx fy tx ty : Z) : spec_float :=
  let cpx := f_add (f_of_Z fx) (f_mul (f_of_Z (tx - fx)) (f_lit 5 1)) in
  foldl (fun dist s =>
      let u := f_sub (f_of_Z 1) s in
      let at_s (a b : Z) :=
        f_add (f_add (f_mul (f_mul u u) (f_of_Z a)) (f_mul (f_mul (f_mul (f_of_Z 2) u) s) cpx)) (f_mul (f_mul s s) (f_of_Z b)) in
      let dx := f_sub (f_of_Z x) (at_s fx tx) in
      let dy := f_sub (f_of_Z y) (at_s fy ty) in
      let d := f_add (f_mul dx dx) (f_mul dy dy) in
      if SFltb d dist then d else dist)
    (f_of_Z 1000000000) curve_points.
(** The flat index of a port: the ports of the nodes before, and its own index. *)
Definition flat_port (g : ConnectionGraph) (node port : Z) : exec Z :=
  l ← mapM at_index (take (Z.to_nat node) (graph_nodes g));
  Done (Z.of_nat (port_total l) + port).
Fixpoint find_in_edges (g : ConnectionGraph) (x y : Z) (l : list ConnectionEdge) (i : Z) : exec Z :=
  match l with
  | [] => Done (-1)
  | e :: l' =>
      from ← flat_port g (from_node e) (from_port e);
      to ← flat_port g (to_node e) (to_port e);
      if (from <? Z.of_nat (total_ports g)) && (to <? Z.of_nat (total_ports g)) then
        fx ← get (port_x (places g)) from; fy ← get (port_y (places g)) from;
        tx ← get (port_x (places g)) to; ty ← get (port_y (places g)) to;
        if SFltb (edge_distance x y fx fy tx ty) (f_of_Z 100) then Done i else find_in_edges g x y l' (i + 1)
      else find_in_edges g x y l' (i + 1)
  end.
Definition graph_find_edge_at (g : ConnectionGraph) (x y : Z) : exec Z := find_in_edges g x y (edges (project g)) 0.

(** ** Mouse *)

Definition graph_ports_compatible (src dst : PortDef) : bool :=
  if negb (is_output src) then false
  else if is_output dst then false
  else if port_type src =? PORT_TRIGGER then true
  else if port_type src =? port_type dst then true
  else ((port_type src =? PORT_BOOL) || (port_type src =? PORT_INT)) && (port_type dst =? PORT_STRING).

(** The first port with flat index [target] that [f] accepts. *)
Fixpoint nth_port (f : PortDef -> bool) (target : Z) (l : list PortDef) (pi port_idx : nat) : option nat * nat :=
  match l with
  | [] => (None, port_idx)
  | q :: l' => if (Z.of_nat port_idx =? target) && f q then (Some pi, port_idx) else nth_port f target l' (S pi) (S port_idx)
  end.
Fixpoint nth_output (target : Z) (l : list (option GraphNode)) (ni port_idx : nat) : exec (option (nat * nat)) :=
  match l with
  | [] => Done None
  | o :: l' =>
      node ← at_index o;
      match nth_port is_output target (ports node) 0 port_idx with
      | (Some pi, _) => Done (Some (ni, pi))
      | (None, idx) => nth_output target l' (S ni) idx
      end
  end.

Definition graph_mouse_down (g : ConnectionGraph) (x y : Z) : exec (bool * ConnectionGraph) :=
  let e := editing g in
  if editing_edge e then Done (true, set_editing (mkEditing false (-1) (edit_buf e) (edit_field e)) g) else
  '(port, g) ← graph_find_port_at g x y;
  let g := set_hovered port g in
  if 0 <=? port then
    o ← nth_output port (graph_nodes g) 0 0;
    match o with
    | Some (ni, pi) => Done (true, set_wire (mkWire (Z.of_nat ni) (Z.of_nat pi) x y) g)
    | None => Done (false, set_hovered (-1) g)
    end
  else
    edge ← graph_find_edge_at g x y;
    if 0 <=? edge then Done (true, set_editing (mkEditing true edge EmptyString 0) (set_selected (-1) edge g)) else
    node ← graph_find_node_at g x y;
    if 0 <=? node then
      ox ← get (node_x (places g)) node; oy ← get (node_y (places g)) node;
      Done (true, set_drag (mkDrag true node x y ox oy) (set_selected node (-1) g))
    else Done (false, set_selected (-1) (-1) g).

Definition graph_mouse_move (g : ConnectionGraph) (x y : Z) : exec (bool * ConnectionGraph) :=
  let w := wire g in let d := drag g in let a := places g in
  if 0 <=? wire_start_node w then Done (true, set_wire (mkWire (wire_start_node w) (wire_start_port w) x y) g)
  else if dragging_node d && (0 <=? drag_node_id d) then
    xs ← put (node_x a) (drag_node_id d) (drag_orig_x d + (x - drag_start_x d));
    ys ← put (node_y a) (drag_node_id d) (drag_orig_y d + (y - drag_start_y d));
    Done (true, set_places (mkPlaces xs ys (port_x a) (port_y a)) g)
  else
    '(port, g) ← graph_find_port_at g x y;
    Done (0 <=? port, set_hovered port g).

(** The loop over the nodes that looks for the port the wire ends at: its
    [break] leaves only the loop over the ports of a node, with [port_idx]
    still at the target. *)
Fixpoint wire_nodes (w : Wire) (target : Z) (l : list (option GraphNode)) (ni port_idx : nat) (p : BuilderProject) : exec BuilderProject :=
  match l with
  | [] => Done p
  | o :: l' =>
      node ← at_index o;
      match nth_port (fun q => negb (is_output q)) target (ports node) 0 port_idx with
      | (None, idx) => wire_nodes w target l' (S ni) idx p
      | (Some pi, idx) =>
          src_node ← get (nodes p) (wire_start_node w);
          src_port ← get (ports src_node) (wire_start_port w);
          dst_port ← at_index (ports node !! pi);
          let p :=
            if graph_ports_compatible src_port dst_port
            then project_add_edge p (wire_start_node w) (wire_start_port w) (Z.of_nat ni) (Z.of_nat pi) else p in
          wire_nodes w target l' (S ni) idx p
      end
  end.
Definition graph_mouse_up (g : ConnectionGraph) (x y : Z) : exec (bool * ConnectionGraph) :=
  let d := drag g in
  if 0 <=? wire_start_node (wire g) then
    '(target, g) ← graph_find_port_at g x y;
    p ← (if 0 <=? target then wire_nodes (wire g) target (graph_nodes g) 0 0 (project g) else Done (project g) : exec BuilderProject);
    Done (true, set_wire (mkWire (-1) (-1) (wire_end_x (wire g)) (wire_end_y (wire g))) (set_project p g))
  else Done (true, set_drag (mkDrag false (drag_node_id d) (drag_start_x d) (drag_start_y d) (drag_orig_x d) (drag_orig_y d)) g).

(** ** Keys and editing *)

Definition graph_delete_selected (g : ConnectionGraph) : exec ConnectionGraph :=
  if 0 <=? selected_edge g then Done (set_selected (selected_node g) (-1) (set_project (project_remove_edge (project g) (selected_edge g)) g))
  else if 0 <=? selected_node g then
    n ← get (nodes (project g)) (selected_node g);
    Done (graph_layout (graph_sync_nodes (set_selected (-1) (selected_edge g) (set_project (project_remove_node (project g) (node_id n)) g))))
  else Done g.

Definition set_condition (c : option string) (e : ConnectionEdge) : ConnectionEdge :=
  mkEdge (from_node e) (from_port e) (to_node e) (to_port e) c (transform e).
Definition set_transform (t : option string) (e : ConnectionEdge) : ConnectionEdge :=
  mkEdge (from_node e) (from_port e) (to_node e) (to_port e) (condition e) t.
Definition graph_key (g : ConnectionGraph) (code : KeyCode) (ch : ascii) : exec ConnectionGraph :=
  let e := editing g in
  let p := project g in
  if editing_edge e && (0 <=? editing_edge_idx e) then
    match code with
    | KEY_ESC => Done (set_editing (mkEditing false (-1) (edit_buf e) (edit_field e)) g)
    | KEY_ENTER =>
        edge ← get (edges p) (editing_edge_idx e);
        let text := match edit_buf e with EmptyString => None | s => Some s end in
        if edit_field e =? 0 then
          es ← put (edges p) (editing_edge_idx e) (set_condition text edge);
          Done (set_editing (mkEditing true (editing_edge_idx e) EmptyString 1) (set_project (set_edges es p) g))
        else
          es ← put (edges p) (editing_edge_idx e) (set_transform text edge);
          Done (set_editing (mkEditing false (-1) (edit_buf e) (edit_field e)) (set_project (set_edges es p) g))
    | KEY_BACKSPACE =>
        Done (set_editing (mkEditing true (editing_edge_idx e) (strtake (String.length (edit_buf e) - 1) (edit_buf e)) (edit_field e)) g)
    | KEY_CHAR =>
        if (strlen (edit_buf e) <? 254) && (32 <=? schar ch) then
          Done (set_editing (mkEditing true (editing_edge_idx e) (edit_buf e +:+ String ch EmptyString) (edit_field e)) g)
        else Done g
    | _ => Done g
    end
  else match code with KEY_DELETE => graph_delete_selected g | _ => Done g end.

Definition graph_add_store_node (g : ConnectionGraph) (key : string) : ConnectionGraph :=
  graph_layout (graph_sync_nodes (set_project (project_add_store_node (project g) key (Some EmptyString) (Some "string"%string)).1 g)).

(** The first node with the id gets the port, when the loop reaches it. *)
Fixpoint add_port (id : Z) (name : string) (ty : Z) (out : bool) (l : list GraphNode) (n : nat) : exec (option (list GraphNode)) :=
  match n, l with
  | O, _ => Done None
  | S _, [] => Fault OutOfBounds
  | S n', x :: l' =>
      if node_id x =? id then
        let new := mkPort (Z.of_nat (length (ports x)) + 1) name ty out (Some "User-defined port"%string) in
        Done (Some (mkNode (node_id x) (node_type x) (label x) (widget_id x) (store_key x) (fil_script x) (ports x ++ [new]) :: l'))
      else o ← add_port id name ty out l' n'; Done (option_map (cons x) o)
  end.
Definition graph_add_custom_port (g : ConnectionGraph) (id : Z) (name : string) (ty : Z) (out : bool) : exec ConnectionGraph :=
  if id <? 0 then Done g else
  o ← add_port id name ty out (nodes (project g)) (node_count g);
  match o with
  | Some l => Done (graph_sync_nodes (set_project (set_nodes l (project g)) g))
  | None => Done g
  end.

(** ** Drawing *)

Definition LF : string := String "010" EmptyString.
Definition status_line (g : ConnectionGraph) (area : Rect) : list RenderTree :=
  let line h s := [child_node "accent" (rect_new 0 0 (rw area - 2) h) (RNODE_TEXT (Some s) ALIGN_LEFT)] in
  let w := wire g in let e := editing g in
  if 0 <=? wire_start_node w then
    line 1 (strtake 63 ("Drawing wire from node " +:+ int_string (wire_start_node w) +:+ " port " +:+ int_string (wire_start_port w) +:+ "... (Esc to cancel)"))
  else if editing_edge e && (0 <=? editing_edge_idx e) then
    line 2 (strtake 511 ("Editing " +:+ (if edit_field e =? 0 then "Condition" else "Transform") +:+ ": " +:+ edit_buf e +:+ "_" +:+ LF +:+
      "(Enter to confirm, Esc to cancel)"))
  else [].

Definition port_line (q : PortDef) : string :=
  let tname :=
    if port_type q =? PORT_TRIGGER then "trig" else if port_type q =? PORT_STRING then "str"
    else if port_type q =? PORT_BOOL then "bool" else "int" in
  "  " +:+ (if is_output q then "out" else "in ") +:+ " " +:+ tname +:+ ": " +:+ port_name q +:+ LF.
(** [off] counts what [snprintf] would have written; past the buffer its size
    argument [sizeof(buf) - off] wraps around and the text is written behind
    the buffer. *)
Fixpoint port_lines (l : list PortDef) (off : nat) (buf : string) : exec string :=
  match l with
  | [] => Done buf
  | q :: l' =>
      if (512 <? off)%nat then Fault OutOfBounds
      else port_lines l' (off + String.length (port_line q)) (buf +:+ strtake (512 - off - 1) (port_line q))
  end.
Definition node_text (node : GraphNode) : exec string :=
  let type_str :=
    if node_type node =? NODE_WIDGET then "Widget" else if node_type node =? NODE_STORE then "Store"
    else if node_type node =? NODE_FIL_BLOCK then "FIL" else "Cond" in
  let head := "[" +:+ type_str +:+ "] " +:+ label node +:+ LF in
  port_lines (ports node) (String.length head) (strtake 511 head).

Definition with_font_size (n : Z) (t : RenderTree) : RenderTree :=
  let i := info t in let s := resolved_style i in
  mkTree (mkInfo (rect i) (target_rect i) (has_target_rect i) (style_class i) (state i)
    (mkStyle (fg_color s) (bg_color s) (border_color s) (accent_color s) (border_width s) (border_radius s)
      (border_top_width s) (border_bottom_width s) (border_left_width s) (border_right_width s)
      (border_top_color s) (border_bottom_color s) (border_left_color s) (border_right_color s)
      (border_top_style s) (border_bottom_style s) (border_left_style s) (border_right_style s) (padding s) (margin s)
      (min_width s) (min_height s) (max_width s) (max_height s) (font_family s) n (font_weight s) (font_italic s)
      (text_align s) (opacity s) (shadows s) (shadow_count s) (gradient s) (backdrop_blur s) (letter_spacing s)
      (line_height s) (text_transform s) (transition_ms s) (scale_x s) (scale_y s) (rotation s)
      (translate_x s) (translate_y s) (cursor_style s))
    (RenderTree.dirty i) (z_index i) (anchor i) (anchor_dx i) (anchor_dy i) (relative_to i) (overflow i) (tooltip i) (tab_index i) (role i) (access_label i))
    (u t).
Definition node_box (g : ConnectionGraph) (i : nat) : exec RenderTree :=
  node ← at_index (nodes (project g) !! i);
  gx ← at_index (node_x (places g) !! i); gy ← at_index (node_y (places g) !! i);
  s ← node_text node;
  let r := rect_new (zoomed g (gx - scroll_x g)) (zoomed g (gy - scroll_y g)) (zoomed g NODE_WIDTH)
    (zoomed g (HEADER_HEIGHT + Z.of_nat (length (ports node)) * NODE_PORT_HEIGHT)) in
  Done (with_font_size 10 (child_node (if Z.of_nat i =? selected_node g then "selected" else "normal") r (RNODE_TEXT (Some s) ALIGN_LEFT))).
Definition graph_render (g : ConnectionGraph) (area : Rect) : exec RenderTree :=
  boxes ← mapM (node_box g) (seq 0 (node_count g));
  Done (mkTree (set_rect area info_zero) (RNODE_CONTAINER None BORDER_SINGLE edgeinsets_zero (status_line g area ++ boxes))).

Example curve_length : length curve_points = 20%nat.
Proof. vm_compute. reflexivity. Qed.

(** ** The invariant *)

(** The arrays have an entry for each node and each port. *)
Definition places_ok (p : BuilderProject) (a : Places) : Prop :=
  length (node_x a) = length (nodes p) /\ length (node_y a) = length (nodes p) /\
  length (port_x a) = port_total (nodes p) /\ length (port_y a) = port_total (nodes p).
Definition port_at (p : BuilderProject) (n i : Z) (q : PortDef) : Prop :=
  0 <= n /\ 0 <= i /\ exists node, nodes p !! Z.to_nat n = Some node /\ ports node !! Z.to_nat i = Some q.
Definition wire_ok (p : BuilderProject) (w : Wire) : Prop :=
  0 <= wire_start_node w -> exists q, port_at p (wire_start_node w) (wire_start_port w) q /\ is_output q = true.
Definition drag_ok (p : BuilderProject) (d : Drag) : Prop := dragging_node d = true -> drag_node_id d < Z.of_nat (length (nodes p)).
Definition edit_ok (p : BuilderProject) (e : Edit) : Prop := editing_edge e = true -> editing_edge_idx e < Z.of_nat (length (edges p)).
Definition ports_nonneg (e : ConnectionEdge) : Prop := 0 <= from_port e /\ 0 <= to_port e.
Definition idle (g : ConnectionGraph) : Prop := dragging_node (drag g) = false /\ wire_start_node (wire g) < 0.

Record graph_ok (g : ConnectionGraph) : Prop := mkGraphOk {
  ok_places : places_ok (project g) (places g);
  ok_edges : Forall ports_nonneg (edges (project g));
  ok_wire : wire_ok (project g) (wire g);
  ok_drag : drag_ok (project g) (drag g);
  ok_selected : selected_node g < Z.of_nat (length (nodes (project g)));
  ok_edit : edit_ok (project g) (editing g);
  ok_one : wire_start_node (wire g) < 0 \/ dragging_node (drag g) = false
}.

(** Lookups only write the coordinates of ports. *)
Definition same_shape (a b : Places) : Prop :=
  node_x b = node_x a /\ node_y b = node_y a /\ length (port_x b) = length (port_x a) /\ length (port_y b) = length (port_y a).
#[global] Instance same_shape_trans : PreOrder same_shape.
Proof. split; [done|]. intros a b c (? & ? & ? & ?) (? & ? & ? & ?). split_and!; congruence. Qed.
Lemma same_shape_ok p a b : same_shape a b -> places_ok p a -> places_ok p b.
Proof. intros (H1 & H2 & H3 & H4). unfold places_ok. by rewrite H1, H2, H3, H4. Qed.

Lemma lookup_seq_nodes {A} (l : list A) : map (fun i => l !! i) (seq 0 (length l)) = map Some l.
Proof.
  induction l as [|x l IH]; [done|]. cbn [length seq map]. f_equal. rewrite <-seq_shift, map_map. exact IH.
Qed.
Lemma graph_nodes_ok g : places_ok (project g) (places g) -> graph_nodes g = map Some (nodes (project g)).
Proof. intros (H & _). unfold graph_nodes, node_count. rewrite H. apply lookup_seq_nodes. Qed.

(** ** Lookups succeed *)

Lemma get_returns {A} (l : list A) i : 0 <= i < Z.of_nat (length l) -> returns (get l i) (fun x => l !! Z.to_nat i = Some x).
Proof. intros H. unfold get. rewrite (proj2 (Z.ltb_ge i 0)) by lia. apply returns_index. lia. Qed.
Lemma get_lookup {A} (l : list A) i x : 0 <= i -> l !! Z.to_nat i = Some x -> get l i = Done x.
Proof. intros H Hx. unfold get. rewrite (proj2 (Z.ltb_ge i 0)) by lia. by rewrite Hx. Qed.
Lemma put_returns {A} (l : list A) i x : 0 <= i < Z.of_nat (length l) -> returns (put l i x) (fun l' => l' = <[Z.to_nat i := x]> l).
Proof. intros H. eapply returns_bind; [by apply get_returns|]. done. Qed.

Lemma find_node_at_returns g x y n : places_ok (project g) (places g) -> (n <= node_count g)%nat ->
  returns (find_node_at g x y n) (fun i => i < Z.of_nat n).
Proof.
  intros (H1 & H2 & _). unfold node_count. induction n as [|i IH]; intros Hi; [cbn; lia|]. cbn [find_node_at].
  eapply returns_bind; [apply returns_index; lia|]. intros gx _. eapply returns_bind; [apply returns_index; lia|]. intros gy _.
  eapply returns_bind; [apply returns_index; lia|]. intros node _. cbn zeta. case_match; [cbn; lia|].
  eapply returns_mono; [apply IH; lia|]. intros ?; cbn beta; lia.
Qed.

Lemma find_in_ports_shape g x y nx ny l o i k a : same_shape a (find_in_ports g x y nx ny l o i k a).2.
Proof.
  revert o i k a. induction l as [|q l IH]; intros o i k a; [done|]. cbn [find_in_ports]. cbn zeta.
  match goal with |- same_shape a (if _ then (_, _, ?b) else _).2 => assert (same_shape a b) as Hs end.
  { split_and!; cbn; by rewrite ?length_insert. }
  destruct (_ <=? hit_area g); [exact Hs|]. etransitivity; [exact Hs|apply IH].
Qed.
Lemma find_in_nodes_returns g x y l ni k a : (ni + length l <= length (node_x a))%nat -> (ni + length l <= length (node_y a))%nat ->
  returns (find_in_nodes g x y (map Some l) ni k a) (fun r => same_shape a r.2).
Proof.
  revert ni k a. induction l as [|n l IH]; intros ni k a Hx Hy; [done|]. cbn [map find_in_nodes length] in *.
  eapply (returns_bind _ _ (fun m => m = n)); [done|]. intros ? ->.
  eapply returns_bind; [apply returns_index; lia|]. intros gx _. eapply returns_bind; [apply returns_index; lia|]. intros gy _.
  match goal with |- context [find_in_ports g x y ?u ?v ?w 0 0 k a] => pose proof (find_in_ports_shape g x y u v w 0 0 k a) as Hs;
    destruct (find_in_ports g x y u v w 0 0 k a) as [[[] k'] a'] end; [exact Hs|].
  destruct Hs as (E1 & E2 & Hs). cbn [snd] in *. eapply returns_mono; [apply IH; rewrite ?E1, ?E2; lia|].
  intros r Hr. etransitivity; [split; [exact E1|split; [exact E2|exact Hs]]|exact Hr].
Qed.
Lemma find_port_at_returns g x y : places_ok (project g) (places g) ->
  returns (graph_find_port_at g x y) (fun r => exists a, r.2 = set_places a g /\ places_ok (project g) a).
Proof.
  intros H. unfold graph_find_port_at. rewrite graph_nodes_ok by done. eapply returns_bind.
  - apply find_in_nodes_returns; destruct H as (? & ? & _); lia.
  - intros [i a] Ha. exists a. split; [done|]. by eapply same_shape_ok.
Qed.

Lemma mapM_Some {A} (l : list A) : mapM at_index (map Some l) = Done l.
Proof. induction l as [|x l IH]; [done|]. cbn. cbn in IH. by rewrite IH. Qed.
Lemma flat_port_returns g n i : places_ok (project g) (places g) -> returns (flat_port g n i) (fun k => i <= k).
Proof. intros H. unfold flat_port. rewrite graph_nodes_ok, firstn_map, mapM_Some by done. cbn. lia. Qed.
Lemma find_in_edges_returns g x y l i : places_ok (project g) (places g) -> Forall ports_nonneg l -> 0 <= i ->
  returns (find_in_edges g x y l i) (fun j => j < i + Z.of_nat (length l)).
Proof.
  intros H Hl. revert i. induction Hl as [|e l [Hf Ht] _ IH]; intros i Hi; [cbn; lia|]. cbn [find_in_edges length].
  assert (returns (find_in_edges g x y l (i + 1)) (fun j => j < i + Z.of_nat (S (length l)))) as Hrest
    by (eapply returns_mono; [apply IH; lia|intros ?; cbn beta; lia]).
  eapply returns_bind; [by apply flat_port_returns|]. intros from Hfrom. eapply returns_bind; [by apply flat_port_returns|]. intros to Hto.
  destruct ((from <? _) && (to <? _)) eqn:E; [|exact Hrest]. simp_bool. unfold total_ports in *. destruct H as (_ & _ & Hx & Hy).
  do 4 (eapply returns_bind; [apply get_returns; lia|]; intros ? _). case_match; [cbn; lia|exact Hrest].
Qed.
Lemma nth_output_returns t l ni k : returns (nth_output t (map Some l) ni k) (fun o => forall n i, o = Some (n, i) ->
  (ni <= n)%nat /\ exists node q, l !! (n - ni)%nat = Some node /\ ports node !! i = Some q /\ is_output q = true).
Proof.
  revert ni k. induction l as [|n l IH]; intros ni k; [done|]. cbn [map nth_output]. eapply (returns_bind _ _ (fun m => m = n)); [done|]. intros ? ->.
  assert (forall ps pi k i k', nth_port is_output t ps pi k = (Some i, k') -> (pi <= i)%nat /\ exists q, ps !! (i - pi)%nat = Some q /\ is_output q = true) as Hp.
  { induction ps as [|q ps IHp]; intros pi k1 i k' Hn; [done|]. cbn [nth_port] in Hn. destruct (_ && _) eqn:E.
    - injection Hn as <- <-. simp_bool. split; [lia|]. exists q. by rewrite Nat.sub_diag.
    - apply IHp in Hn as (Hi & q' & Hq & Ho). split; [lia|]. exists q'. replace (i - pi)%nat with (S (i - S pi)) by lia. done. }
  destruct (nth_port is_output t (ports n) 0 k) as [[i|] k'] eqn:E.
  - intros n' i' [= <- <-]. split; [lia|]. apply Hp in E as (_ & q & Hq & Ho). rewrite Nat.sub_0_r in Hq. exists n, q. by rewrite Nat.sub_diag.
  - eapply returns_mono; [apply IH|]. intros o Ho n' i' Hi. destruct (Ho n' i' Hi) as (Hle & node & q & Hn & Hq). split; [lia|].
    exists node, q. replace (n' - ni)%nat with (S (n' - S ni)) by lia. done.
Qed.

(** ** The end of a wire *)

Lemma set_edges_same p : set_edges (edges p) p = p.
Proof. by destruct p. Qed.
Lemma nth_port_spec f (t : nat) l pi k :
  nth_port f (Z.of_nat t) l pi k =
    match (if (k <=? t)%nat then l !! (t - k)%nat else None) with
    | Some q => if f q then (Some (pi + (t - k))%nat, t) else (None, (k + length l)%nat)
    | None => (None, (k + length l)%nat)
    end.
Proof.
  revert pi k. induction l as [|q l IH]; intros pi k; [rewrite lookup_nil; cbn; rewrite Nat.add_0_r; by destruct (k <=? t)%nat|]. cbn [nth_port length].
  destruct (Z.eqb_spec (Z.of_nat k) (Z.of_nat t)) as [E|E].
  - apply Nat2Z.inj in E as ->. rewrite Nat.leb_refl, Nat.sub_diag. cbn. destruct (f q); [by rewrite Nat.add_0_r|].
    rewrite IH, (proj2 (Nat.leb_gt (S t) t)) by lia. f_equal. lia.
  - cbn [andb]. rewrite IH. replace (k + S (length l))%nat with (S k + length l)%nat by lia. destruct (Nat.leb_spec (S k) t) as [Hk|Hk].
    + rewrite (proj2 (Nat.leb_le k t)) by lia. replace (t - k)%nat with (S (t - S k)) by lia. cbn [lookup list_lookup].
      replace (S pi + (t - S k))%nat with (pi + S (t - S k))%nat by lia. done.
    + by rewrite (proj2 (Nat.leb_gt k t)) by lia.
Qed.

Definition is_input (q : PortDef) : bool := negb (is_output q).
(** The ports the loop connects: node, port, and the port itself. *)
Fixpoint wire_targets (t : Z) (l : list GraphNode) (ni k : nat) : list (nat * nat * PortDef) :=
  match l with
  | [] => []
  | n :: l' =>
      match nth_port is_input t (ports n) 0 k with
      | (None, k') => wire_targets t l' (S ni) k'
      | (Some i, k') => match ports n !! i with Some q => [(ni, i, q)] | None => [] end ++ wire_targets t l' (S ni) k'
      end
  end.
Definition wire_edges (w : Wire) (src : PortDef) (ts : list (nat * nat * PortDef)) : list ConnectionEdge :=
  omap (fun '(n, i, q) =>
    if graph_ports_compatible src q then Some (mkEdge (wire_start_node w) (wire_start_port w) (Z.of_nat n) (Z.of_nat i) None None) else None) ts.

Lemma wire_nodes_spec w (t : nat) l ni k p src : port_at p (wire_start_node w) (wire_start_port w) src ->
  wire_nodes w (Z.of_nat t) (map Some l) ni k p = Done (set_edges (edges p ++ wire_edges w src (wire_targets (Z.of_nat t) l ni k)) p).
Proof.
  revert ni k p. induction l as [|n l IH]; intros ni k p Hp; [cbn; by rewrite app_nil_r, set_edges_same|].
  cbn [map wire_nodes wire_targets at_index mbind exec_bind].
  change (fun q => negb (is_output q)) with is_input. rewrite nth_port_spec.
  assert (forall k', wire_nodes w (Z.of_nat t) (map Some l) (S ni) k' p =
    Done (set_edges (edges p ++ wire_edges w src (wire_targets (Z.of_nat t) l (S ni) k')) p)) as Hskip by exact (fun k1 => IH (S ni) k1 p Hp).
  destruct (if (k <=? t)%nat then ports n !! (t - k)%nat else None) as [q|] eqn:Eq; [|apply Hskip].
  destruct (is_input q); [|apply Hskip]. destruct (k <=? t)%nat; [|done]. cbn [Nat.add]. rewrite Eq.
  destruct Hp as (H1 & H2 & node & Hn & Hq). rewrite (get_lookup _ _ _ H1 Hn). cbn [mbind exec_bind].
  rewrite (get_lookup _ _ _ H2 Hq). cbn [at_index app wire_edges omap list_omap mbind exec_bind].
  destruct (graph_ports_compatible src q); [|apply Hskip]. rewrite IH by (split; [done|split; [done|by exists node]]).
  unfold project_add_edge, set_edges. cbn. by rewrite <-app_assoc.
Qed.

Lemma wire_targets_at t l ni k n i q : (n, i, q) ∈ wire_targets (Z.of_nat t) l ni k ->
  (ni <= n)%nat /\ exists node, l !! (n - ni)%nat = Some node /\ ports node !! i = Some q.
Proof.
  revert ni k. induction l as [|m l IH]; intros ni k; [by intros ?%elem_of_nil|]. cbn [wire_targets].
  assert (forall k', (n, i, q) ∈ wire_targets (Z.of_nat t) l (S ni) k' -> (ni <= n)%nat /\ exists node, (m :: l) !! (n - ni)%nat = Some node /\ ports node !! i = Some q) as Hl.
  { intros k' (Hle & node & Hn)%IH. split; [lia|]. exists node. by replace (n - ni)%nat with (S (n - S ni)) by lia. }
  destruct (nth_port is_input (Z.of_nat t) (ports m) 0 k) as [[j|] k']; [|apply Hl]. rewrite elem_of_app. intros [H|H]; [|by eapply Hl].
  destruct (ports m !! j) as [q'|] eqn:E; [|by apply elem_of_nil in H]. apply list_elem_of_singleton in H as [= -> -> ->].
  split; [lia|]. exists m. by rewrite Nat.sub_diag.
Qed.

(** After the target the index stays at it: the nodes that follow are
    connected at their first port, up to one whose first port is an output. *)
Fixpoint first_inputs (l : list GraphNode) (ni : nat) : list (nat * nat * PortDef) :=
  match l with
  | [] => []
  | n :: l' =>
      match ports n with
      | [] => first_inputs l' (S ni)
      | q :: _ => if is_output q then [] else (ni, 0%nat, q) :: first_inputs l' (S ni)
      end
  end.
Lemma wire_targets_beyond (t : nat) l ni k : (t < k)%nat -> wire_targets (Z.of_nat t) l ni k = [].
Proof.
  revert ni k. induction l as [|n l IH]; intros ni k Hk; [done|]. cbn [wire_targets]. rewrite nth_port_spec, (proj2 (Nat.leb_gt k t)) by done.
  apply IH. lia.
Qed.
Lemma wire_targets_after (t : nat) l ni : wire_targets (Z.of_nat t) l ni t = first_inputs l ni.
Proof.
  revert ni. induction l as [|n l IH]; intros ni; [done|]. cbn [wire_targets first_inputs]. rewrite nth_port_spec, Nat.leb_refl, Nat.sub_diag.
  destruct (ports n) as [|q ps]; [rewrite lookup_nil, Nat.add_0_r; apply IH|]. cbn [length].
  change ((q :: ps) !! 0%nat) with (Some q). unfold is_input. cbn. destruct (is_output q); cbn [negb].
  - apply wire_targets_beyond. lia.
  - cbn. by rewrite IH.
Qed.
Lemma wire_targets_hit (t : nat) l ni k n i node q : (k + port_total (take n l) + i = t)%nat -> l !! n = Some node -> ports node !! i = Some q ->
  wire_targets (Z.of_nat t) l ni k = if is_output q then [] else ((ni + n)%nat, i, q) :: first_inputs (drop (S n) l) (S (ni + n)).
Proof.
  revert ni k n. induction l as [|m l IH]; intros ni k n Ht Hn Hq; [done|]. cbn [wire_targets]. rewrite nth_port_spec. destruct n as [|n].
  - injection Hn as ->. cbn in Ht. rewrite (proj2 (Nat.leb_le k t)) by lia. replace (t - k)%nat with i by lia. rewrite Hq. unfold is_input.
    destruct (is_output q); cbn [negb]; [apply wire_targets_beyond; apply lookup_lt_Some in Hq; lia|].
    cbn. rewrite Hq, Nat.add_0_r, wire_targets_after. done.
  - cbn [take port_total map list_sum foldr] in Ht. change (foldr Nat.add 0%nat (map (fun x => length (ports x)) (take n l))) with (port_total (take n l)) in Ht.
    assert ((if (k <=? t)%nat then ports m !! (t - k)%nat else None) = None) as -> by (destruct (k <=? t)%nat; [apply lookup_ge_None_2; lia|done]).
    rewrite (IH (S ni) (k + length (ports m))%nat n) by (done || lia). replace (S ni + n)%nat with (ni + S n)%nat by lia. done.
Qed.

(** ** Events *)

Inductive GraphEvent :=
  | MouseDown (x y : Z) | MouseMove (x y : Z) | MouseUp (x y : Z) | Key (code : KeyCode) (ch : ascii)
  | AddStoreNode (key : string) | AddCustomPort (id : Z) (name : string) (ty : Z) (out : bool).
Definition graph_step (g : ConnectionGraph) (e : GraphEvent) : exec ConnectionGraph :=
  match e with
  | MouseDown x y => snd <$> graph_mouse_down g x y
  | MouseMove x y => snd <$> graph_mouse_move g x y
  | MouseUp x y => snd <$> graph_mouse_up g x y
  | Key k c => graph_key g k c
  | AddStoreNode k => Done (graph_add_store_node g k)
  | AddCustomPort id n t o => graph_add_custom_port g id n t o
  end.
Fixpoint graph_run (g : ConnectionGraph) (es : list GraphEvent) : exec ConnectionGraph :=
  match es with [] => Done g | e :: es' => g ← graph_step g e; graph_run g es' end.

(** The button is pressed only when it is up, and Delete only then. *)
Fixpoint well_timed (pressed : bool) (es : list GraphEvent) : bool :=
  match es with
  | [] => true
  | MouseDown _ _ :: es' => negb pressed && well_timed true es'
  | MouseUp _ _ :: es' => well_timed false es'
  | Key KEY_DELETE _ :: es' => negb pressed && well_timed pressed es'
  | _ :: es' => well_timed pressed es'
  end.

(** What may be connected, the table of src/src/builder/build-spec.md: a port to one of its own type, a trigger to anything,
    a truth value or a number to a text; and always an output to an input. *)
Inductive converts : Z -> Z -> Prop :=
  | same_type t : converts t t
  | trigger_any t : converts PORT_TRIGGER t
  | bool_text : converts PORT_BOOL PORT_STRING
  | int_text : converts PORT_INT PORT_STRING.
Definition joins (src dst : PortDef) : Prop :=
  is_output src = true /\ is_output dst = false /\ converts (port_type src) (port_type dst).
Lemma graph_ports_compatible_spec src dst : graph_ports_compatible src dst = true <-> joins src dst.
Proof.
  unfold graph_ports_compatible, joins. destruct (is_output src), (is_output dst); cbn [negb]; try (split; [done|intros (?&?&_); done]).
  split.
  - intros H. split_and!; [done..|]. destruct (Z.eqb_spec (port_type src) PORT_TRIGGER) as [->|]; [constructor|].
    destruct (Z.eqb_spec (port_type src) (port_type dst)) as [->|]; [constructor|]. apply andb_true_iff in H as [H1 ->%Z.eqb_eq].
    apply orb_true_iff in H1 as [->%Z.eqb_eq| ->%Z.eqb_eq]; constructor.
  - intros (_ & _ & H). inversion H as [t E| | |]; [|done..]. rewrite Z.eqb_refl. by case_match.
Qed.
Definition edge_typed (p : BuilderProject) (e : ConnectionEdge) : Prop :=
  exists src dst, port_at p (from_node e) (from_port e) src /\ port_at p (to_node e) (to_port e) dst /\ joins src dst.
Definition edges_typed (p : BuilderProject) : Prop := Forall (edge_typed p) (edges p).

(** ** Every handler keeps the invariant *)

Lemma sync_places g : places_ok (project g) (places (graph_sync_nodes g)).
Proof. unfold places_ok. cbn. by rewrite !length_replicate. Qed.
Lemma layout_places g : places_ok (project g) (places g) -> places_ok (project g) (places (graph_layout g)).
Proof. unfold places_ok, node_count. cbn. unfold node_count. rewrite !length_map, !length_seq. tauto. Qed.
Lemma relayout_places g : places_ok (project g) (places (graph_layout (graph_sync_nodes g))).
Proof. exact (layout_places (graph_sync_nodes g) (sync_places g)). Qed.
Lemma graph_ok_set_places g a : graph_ok g -> places_ok (project g) a -> graph_ok (set_places a g).
Proof. intros [] ?. by constructor. Qed.
Lemma graph_ok_hovered g h : graph_ok g -> graph_ok (set_hovered h g).
Proof. intros []. by constructor. Qed.
Lemma graph_ok_editing g e : graph_ok g -> edit_ok (project g) e -> graph_ok (set_editing e g).
Proof. intros [] ?. by constructor. Qed.
Lemma graph_ok_selected g n e : graph_ok g -> n < Z.of_nat (length (nodes (project g))) -> graph_ok (set_selected n e g).
Proof. intros [] ?. by constructor. Qed.

Lemma find_port_at_ok g x y : graph_ok g ->
  returns (graph_find_port_at g x y) (fun r => exists a, r.2 = set_places a g /\ graph_ok (set_places a g)).
Proof.
  intros H. eapply returns_mono; [apply find_port_at_returns, H|]. intros r (a & -> & Ha). exists a. split; [done|]. by apply graph_ok_set_places.
Qed.

Lemma mouse_down_ok g x y : graph_ok g -> idle g ->
  returns (graph_mouse_down g x y) (fun r => project r.2 = project g /\ graph_ok r.2).
Proof.
  intros H [Hd Hw]. unfold graph_mouse_down. destruct (editing_edge (editing g)); [split; [done|]; by apply graph_ok_editing|].
  eapply returns_bind; [by apply find_port_at_ok|]. intros [port g1] (a & Hg1 & Ha). cbn [snd] in *. subst g1. cbn zeta.
  pose proof (graph_ok_hovered _ port Ha) as Hh. destruct (0 <=? port).
  - rewrite graph_nodes_ok by apply Ha. eapply returns_bind; [apply nth_output_returns|]. intros [[ni pi]|] Ho; [|split; [done|by apply graph_ok_hovered]].
    destruct (Ho ni pi eq_refl) as (_ & node & q & Hn & Hq & Hout). rewrite Nat.sub_0_r in Hn. split; [done|]. destruct Hh. constructor; try done; cbn.
    + intros _. exists q. split; [|done]. split_and!; cbn; [lia..|]. exists node. by rewrite !Nat2Z.id.
    + by right.
  - eapply returns_bind; [apply find_in_edges_returns; [apply Hh|apply Hh|lia]|]. intros edge Hedge. destruct (0 <=? edge).
    + split; [done|]. apply graph_ok_editing; [apply graph_ok_selected; [done|cbn; lia]|]. intros _. exact Hedge.
    + eapply returns_bind; [apply find_node_at_returns; [apply Hh|done]|]. intros node Hnode. destruct (Z.leb_spec 0 node).
      * destruct (ok_places _ Hh) as (Hx & Hy & _). unfold node_count in Hnode. cbn in Hnode, Hx, Hy.
        eapply returns_bind; [apply get_returns; cbn; lia|]. intros ox _. eapply returns_bind; [apply get_returns; cbn; lia|]. intros oy _.
        split; [done|]. destruct Hh. constructor; try done; cbn; [intros _; cbn; lia|lia|by left].
      * split; [done|]. apply graph_ok_selected; [done|cbn; lia].
Qed.

Lemma mouse_move_ok g x y : graph_ok g ->
  returns (graph_mouse_move g x y) (fun r => project r.2 = project g /\ graph_ok r.2 /\ (idle g -> idle r.2)).
Proof.
  intros H. unfold graph_mouse_move. cbn zeta. destruct (0 <=? wire_start_node (wire g)) eqn:Ew.
  - split_and!; [done| |done]. by destruct H; constructor.
  - destruct (dragging_node (drag g) && (0 <=? drag_node_id (drag g))) eqn:Ed.
    + simp_bool. destruct (ok_places _ H) as (Hx & Hy & Hp). pose proof (ok_drag _ H) as Hd. unfold drag_ok in Hd.
      eapply returns_bind; [apply put_returns; split; [done|rewrite Hx; auto]|]. intros xs ->.
      eapply returns_bind; [apply put_returns; split; [done|rewrite Hy; auto]|]. intros ys ->. split_and!; [done| |done].
      apply graph_ok_set_places; [done|]. split_and!; cbn; rewrite ?length_insert; tauto.
    + eapply returns_bind; [by apply find_port_at_ok|]. intros [port g1] (a & Hg1 & Ha). cbn [snd] in *. subst g1.
      split_and!; [done|by apply graph_ok_hovered|done].
Qed.

Lemma wire_targets_typed p w src t e : port_at p (wire_start_node w) (wire_start_port w) src ->
  e ∈ wire_edges w src (wire_targets (Z.of_nat t) (nodes p) 0 0) -> edge_typed p e /\ ports_nonneg e.
Proof.
  intros Hs ([[n i] q] & Hin & He)%list_elem_of_omap. destruct (graph_ports_compatible src q) eqn:E; [|done]. injection He as <-.
  apply wire_targets_at in Hin as (_ & node & Hn & Hq). rewrite Nat.sub_0_r in Hn. split.
  - exists src, q. apply graph_ports_compatible_spec in E. cbn. split_and!; [done| |done]. split_and!; [lia..|]. exists node. by rewrite !Nat2Z.id.
  - destruct Hs as (_ & Hs & _). split; cbn; lia.
Qed.
Lemma edges_typed_app p es : edges_typed p -> Forall (edge_typed p) es -> edges_typed (set_edges (edges p ++ es) p).
Proof. intros. apply list.Forall_app. by split. Qed.

Lemma mouse_up_ok g x y : graph_ok g ->
  returns (graph_mouse_up g x y) (fun r => graph_ok r.2 /\ idle r.2 /\ (edges_typed (project g) -> edges_typed (project r.2))).
Proof.
  intros H. unfold graph_mouse_up. cbn zeta. destruct (Z.leb_spec 0 (wire_start_node (wire g))) as [Hw|Hw].
  - destruct (ok_wire _ H Hw) as (src & Hsrc & _). destruct (ok_one _ H) as [?|Hd]; [lia|].
    eapply returns_bind; [by apply find_port_at_ok|]. intros [t g1] (a & Hg1 & Ha). cbn [snd] in *. subst g1. cbn [wire project set_places].
    assert (exists es, (if 0 <=? t then wire_nodes (wire g) t (graph_nodes (set_places a g)) 0 0 (project g) else Done (project g))
      = Done (set_edges (edges (project g) ++ es) (project g)) /\ forall e, e ∈ es -> edge_typed (project g) e /\ ports_nonneg e) as (es & -> & Hes).
    { destruct (Z.leb_spec 0 t); [|exists []; rewrite app_nil_r, set_edges_same; split; [done|by intros ? ?%elem_of_nil]].
      rewrite <-(Z2Nat.id t), graph_nodes_ok by (done || apply Ha). eexists. split; [by apply wire_nodes_spec|]. intros. by eapply wire_targets_typed. }
    split_and!; [| |intros; apply edges_typed_app; [done|]; apply list.Forall_forall; intros; by apply Hes].
    + destruct Ha. constructor; try done.
      * apply list.Forall_app. split; [done|]. apply list.Forall_forall. intros. by apply Hes.
      * intros Hn. cbn in Hn. lia.
      * intros He. pose proof (ok_edit0 He). cbn in *. rewrite length_app. lia.
      * by left.
    + split; [exact Hd|cbn; lia].
  - split_and!; [|by split|done]. destruct H. constructor; done || by right.
Qed.

Lemma edit_text_ok g text e : graph_ok g -> editing_edge_idx e < Z.of_nat (length (edges (project g))) -> 0 <= editing_edge_idx e ->
  (forall x : ConnectionEdge, from_node (text x) = from_node x /\ from_port (text x) = from_port x /\ to_node (text x) = to_node x /\ to_port (text x) = to_port x) ->
  returns (edge ← get (edges (project g)) (editing_edge_idx e); put (edges (project g)) (editing_edge_idx e) (text edge))
    (fun es => graph_ok (set_project (set_edges es (project g)) g) /\ (edges_typed (project g) -> edges_typed (set_edges es (project g)))
      /\ length es = length (edges (project g))).
Proof.
  intros H Hi H0 Ht. eapply returns_bind; [by apply get_returns|]. intros edge Hedge. eapply returns_mono; [by apply put_returns|].
  intros es ->. destruct (Ht edge) as (E1 & E2 & E3 & E4). pose proof (list.Forall_lookup_1 _ _ _ _ (ok_edges _ H) Hedge) as Hn. split_and!.
  - destruct H. constructor; try done.
    + apply Forall_insert; [done|]. unfold ports_nonneg. by rewrite E2, E4.
    + intros He. pose proof (ok_edit0 He). cbn. by rewrite length_insert.
  - intros Hty. apply Forall_insert; [done|]. pose proof (list.Forall_lookup_1 _ _ _ _ Hty Hedge) as (s & d & Hs & Hd & Hc).
    exists s, d. by rewrite E1, E2, E3, E4.
  - apply length_insert.
Qed.

(** Nodes and ports are only added. *)
Definition grows (p p' : BuilderProject) : Prop :=
  edges p' = edges p /\ (length (nodes p) <= length (nodes p'))%nat /\ forall n i q, port_at p n i q -> port_at p' n i q.
Lemma grows_typed p p' : grows p p' -> edges_typed p -> edges_typed p'.
Proof.
  intros (He & _ & Hp) H. unfold edges_typed. rewrite He. eapply list.Forall_impl; [exact H|]. intros e (s & d & ? & ? & ?). exists s, d. auto.
Qed.
Lemma grows_ok g p' a : graph_ok g -> grows (project g) p' -> places_ok p' a -> graph_ok (set_places a (set_project p' g)).
Proof.
  intros [] (He & Hn & Hp) Ha. constructor; try done; cbn.
  - by rewrite He.
  - intros H. destruct (ok_wire0 H) as (q & Hq & Ho). exists q. auto.
  - intros H. pose proof (ok_drag0 H). lia.
  - lia.
  - intros H. rewrite He. auto.
Qed.
Lemma add_port_returns id name ty out l n : (n <= length l)%nat -> returns (add_port id name ty out l n) (fun o => forall l', o = Some l' ->
  length l' = length l /\ forall k node, l !! k = Some node -> exists node', l' !! k = Some node' /\ ports node `prefix_of` ports node').
Proof.
  revert n. induction l as [|x l IH]; intros n Hn; destruct n as [|n]; try done; [cbn in Hn; lia|]. cbn [add_port]. destruct (node_id x =? id).
  - intros l' [= <-]. split; [done|]. intros [|k] node Hk; [injection Hk as <-; eexists; split; [done|by eexists]|]. exists node. by split; [|eexists [];rewrite app_nil_r].
  - cbn in Hn. eapply returns_bind; [apply (IH n); lia|]. intros [l1|] Ho; [|done]. intros l' [= <-]. destruct (Ho l1 eq_refl) as (Hlen & Hk).
    split; [cbn; by rewrite Hlen|]. intros [|k] node Hnode; [|by apply Hk]. injection Hnode as <-. exists x. split; [done|by exists []; rewrite app_nil_r].
Qed.

Lemma delete_ok g : graph_ok g -> idle g -> (editing_edge (editing g) && (0 <=? editing_edge_idx (editing g))) = false ->
  returns (graph_delete_selected g) (fun g' => graph_ok g' /\ idle g').
Proof.
  intros H [Hd Hw] He. unfold graph_delete_selected.
  assert (forall p : BuilderProject, edit_ok p (editing g)) as Hedit.
  { intros p Hx. rewrite Hx in He. simp_bool. cbn in He. simp_bool. lia. }
  destruct (0 <=? selected_edge g).
  - split; [|by split]. destruct H. constructor; try done. cbn. unfold remove_at. case_match; [done|].
    apply list.Forall_app; split; [by apply Forall_take|by apply Forall_drop].
  - destruct (Z.leb_spec 0 (selected_node g)) as [Hs|Hs]; [|done].
    eapply returns_bind; [apply get_returns; split; [done|apply H]|]. intros n _. split; [|by split]. constructor.
    + apply (relayout_places (set_selected _ _ (set_project (project_remove_node (project g) (node_id n)) g))).
    + apply H.
    + intros Hx. cbn in Hx. lia.
    + intros Hx. cbn in Hx. by rewrite Hd in Hx.
    + cbn. lia.
    + apply Hedit.
    + by left.
Qed.

Lemma key_ok g code ch : graph_ok g -> (code = KEY_DELETE -> idle g) ->
  returns (graph_key g code ch) (fun g' => graph_ok g' /\ (idle g -> idle g') /\ (code <> KEY_DELETE -> edges_typed (project g) -> edges_typed (project g'))).
Proof.
  intros H Hidle. unfold graph_key. cbn zeta. destruct (_ && _) eqn:Ee.
  - simp_bool. pose proof (ok_edit _ H ltac:(done)) as Hi.
    assert (forall e : Edit, (editing_edge e = true -> editing_edge_idx e = editing_edge_idx (editing g)) -> graph_ok (set_editing e g)) as Hset.
    { intros e He. apply graph_ok_editing; [done|]. intros Hx. by rewrite (He Hx). }
    destruct code; try done; try (split_and!; [by apply Hset|done|done]).
    + destruct (edit_field (editing g) =? 0).
      * pose proof (edit_text_ok g (set_condition (match edit_buf (editing g) with EmptyString => None | s => Some s end)) (editing g) H Hi ltac:(done) ltac:(done)) as Hr.
        destruct (get _ _) as [edge| |]; [|done..]. cbn [mbind exec_bind] in *. eapply returns_bind; [exact Hr|]. intros es (Hok & Hty & Hlen).
        split_and!; [|done|done]. apply graph_ok_editing; [done|]. intros _. cbn. by rewrite Hlen.
      * pose proof (edit_text_ok g (set_transform (match edit_buf (editing g) with EmptyString => None | s => Some s end)) (editing g) H Hi ltac:(done) ltac:(done)) as Hr.
        destruct (get _ _) as [edge| |]; [|done..]. cbn [mbind exec_bind] in *. eapply returns_bind; [exact Hr|]. intros es (Hok & Hty & Hlen).
        split_and!; [|done|done]. by apply graph_ok_editing.
    + case_match; split_and!; try done. by apply Hset.
  - destruct code; try done. eapply returns_mono; [apply delete_ok; auto|]. intros g' []. by split_and!.
Qed.

Lemma store_node_grows p k : grows p (project_add_store_node p k (Some EmptyString) (Some "string"%string)).1.
Proof.
  unfold project_add_store_node, project_add_store_var. case_match; (split; [done|]; split; [cbn; rewrite length_app; lia|]);
    intros n i q (? & ? & node & Hn & Hq); (split_and!; [done..|exists node; cbn; by rewrite (lookup_app_l_Some _ _ _ _ Hn)]).
Qed.
Lemma custom_port_ok g id name ty out : graph_ok g ->
  returns (graph_add_custom_port g id name ty out) (fun g' => graph_ok g' /\ (idle g -> idle g') /\ (edges_typed (project g) -> edges_typed (project g'))).
Proof.
  intros H. unfold graph_add_custom_port. case_match; [done|]. destruct (ok_places _ H) as (Hx & _).
  eapply returns_bind; [apply add_port_returns; unfold node_count; by rewrite Hx|]. intros [l|] Ho; [|done]. destruct (Ho l eq_refl) as (Hlen & Hk).
  assert (grows (project g) (set_nodes l (project g))) as Hg.
  { split; [done|]. split; [cbn; by rewrite Hlen|]. intros n i q (? & ? & node & Hn & Hq). destruct (Hk _ _ Hn) as (node' & Hn' & Hpre).
    split_and!; [done..|]. exists node'. split; [done|]. by eapply prefix_lookup_Some. }
  split_and!; [|done|by apply grows_typed]. apply grows_ok; [done|done|]. apply (sync_places (set_project (set_nodes l (project g)) g)).
Qed.

Definition is_down (e : GraphEvent) : bool := match e with MouseDown _ _ => true | _ => false end.
Definition is_delete (e : GraphEvent) : bool := match e with Key KEY_DELETE _ => true | _ => false end.
Lemma step_ok g e : graph_ok g -> (is_down e = true \/ is_delete e = true -> idle g) ->
  returns (graph_step g e) (fun g' => graph_ok g' /\ (is_down e = false -> idle g -> idle g') /\
    (match e with MouseUp _ _ => True | _ => False end -> idle g') /\ (is_delete e = false -> edges_typed (project g) -> edges_typed (project g'))).
Proof.
  intros H Hi. destruct e as [x y|x y|x y|code ch|key|id name ty out]; cbn [graph_step is_down is_delete] in *.
  - pose proof (mouse_down_ok g x y H (Hi (or_introl eq_refl))) as Hr. destruct (graph_mouse_down g x y) as [[b g']| |]; [|done..].
    destruct Hr as [Hp Hok]. cbn in *. split_and!; [done..|by rewrite Hp].
  - pose proof (mouse_move_ok g x y H) as Hr. destruct (graph_mouse_move g x y) as [[b g']| |]; [|done..].
    destruct Hr as (Hp & Hok & Hid). cbn in *. split_and!; [done|done|done|by rewrite Hp].
  - pose proof (mouse_up_ok g x y H) as Hr. destruct (graph_mouse_up g x y) as [[b g']| |]; [|done..]. destruct Hr as (Hok & Hid & Ht). by split_and!.
  - eapply returns_mono; [apply key_ok; [done|]|].
    + intros ->. apply Hi. by right.
    + intros g' (Hok & Hid & Ht). split_and!; [done|done|done|]. intros Hd. apply Ht. by intros ->.
  - pose proof (store_node_grows (project g) key) as Hg. split_and!; [|done|done|intros _; by apply grows_typed].
    apply (grows_ok g (project_add_store_node (project g) key (Some EmptyString) (Some "string"%string)).1); [done|done|].
    apply (relayout_places (set_project (project_add_store_node (project g) key (Some EmptyString) (Some "string"%string)).1 g)).
  - eapply returns_mono; [by apply custom_port_ok|]. intros g' (? & ? & ?). by split_and!.
Qed.
Lemma run_ok es pressed g : graph_ok g -> (pressed = false -> idle g) -> well_timed pressed es = true ->
  returns (graph_run g es) (fun g' => graph_ok g' /\ (forallb (fun e => negb (is_delete e)) es = true -> edges_typed (project g) -> edges_typed (project g'))).
Proof.
  revert pressed g. induction es as [|e es IH]; intros pressed g H Hp Hw; [done|]. cbn [graph_run forallb].
  eapply returns_bind; [apply step_ok; [done|]|].
  - intros Hx. apply Hp. destruct e as [| | |[]| |]; cbn in Hx, Hw; destruct Hx; try done; by destruct pressed.
  - intros g' (Hok & Hid & Hup & Ht).
    assert (exists pr, well_timed pr es = true /\ (pr = false -> idle g')) as (pr & Hpr & Hidle).
    { destruct e as [| | |[]| |]; cbn in Hw; simp_bool; eauto; by exists true. }
    eapply returns_mono; [exact (IH pr g' Hok Hidle Hpr)|]. intros g2 (Hok2 & Ht2). split; [done|]. intros [Hd Hds]%andb_true_iff Hty.
    apply Ht2; [done|]. apply Ht; [|done]. by destruct (is_delete e).
Qed.
Lemma new_ok p : Forall ports_nonneg (edges p) -> graph_ok (graph_new p) /\ idle (graph_new p).
Proof.
  intros H. split; [|done]. constructor; try done; cbn [selected_node graph_new graph_layout graph_sync_nodes set_places]; [|by intros ?|lia|by left].
  exact (relayout_places (mkGraph p _ _ _ _ _ _ _ _ _ _)).
Qed.

(** C17: from a project whose edges have port numbers from 0 on, any sequence of
    mouse events, keys and additions runs without an access outside an array
    and keeps the invariant: the coordinate arrays fit the nodes and ports,
    and the wire, the drag, the selection and the edited edge point into the
    project. The two conditions are that the button is pressed only when it
    is up, and that Delete is not pressed while it is down. *)
Theorem graph_events_safe p es : Forall ports_nonneg (edges p) -> well_timed false es = true ->
  exists g, graph_run (graph_new p) es = Done g /\ graph_ok g.
Proof.
  intros Hp Hw. destruct (new_ok p Hp) as [Hok Hid]. destruct (returns_Done _ _ (run_ok es false _ Hok (fun _ => Hid) Hw)) as (g & Hg & H & _).
  by exists g.
Qed.

(** C18: every edge joins an existing output to an existing input of its type or
    of one it converts to (a trigger to anything, a truth value or a number to a
    text), and keeps doing so through any sequence of mouse events, keys and
    additions in which Delete is not pressed and the button is pressed only when
    it is up, from a project whose edges do and have port numbers from 0 on. *)
Theorem graph_edges_typed p es g : Forall ports_nonneg (edges p) -> edges_typed p -> well_timed false es = true ->
  forallb (fun e => negb (is_delete e)) es = true -> graph_run (graph_new p) es = Done g -> edges_typed (project g).
Proof.
  intros Hp Ht Hw Hd Hg. destruct (new_ok p Hp) as [Hok Hid]. destruct (returns_Done _ _ (run_ok es false _ Hok (fun _ => Hid) Hw)) as (g' & Hg' & _ & H).
  assert (g' = g) as -> by congruence. by apply H.
Qed.

(** a wire dropped on port [i] of node [n] is connected to it when it is an
    input of a fitting type, and also, which nobody asked for, to the first
    port of each node after [n], up to the first one that starts with an
    output. *)
Theorem graph_mouse_up_wires g x y g1 n i node q src : graph_ok g ->
  port_at (project g) (wire_start_node (wire g)) (wire_start_port (wire g)) src ->
  nodes (project g) !! n = Some node -> ports node !! i = Some q ->
  graph_find_port_at g x y = Done (Z.of_nat (port_total (take n (nodes (project g))) + i), g1) ->
  exists g', graph_mouse_up g x y = Done (true, g') /\ wire_start_node (wire g') = -1 /\ nodes (project g') = nodes (project g) /\
    edges (project g') = edges (project g) ++ wire_edges (wire g) src
      (if is_output q then [] else (n, i, q) :: first_inputs (drop (S n) (nodes (project g))) (S n)).
Proof.
  intros H Hsrc Hn Hq Hf. pose proof (find_port_at_ok g x y H) as Hr. rewrite Hf in Hr. destruct Hr as (a & Hg1 & Ha). cbn in Hg1. subst g1.
  unfold graph_mouse_up. cbn zeta. rewrite (proj2 (Z.leb_le 0 _)) by apply Hsrc. rewrite Hf. cbn [mbind exec_bind wire project set_places].
  rewrite (proj2 (Z.leb_le 0 (Z.of_nat _))) by lia. rewrite (graph_nodes_ok _ (ok_places _ Ha)).
  rewrite (wire_nodes_spec _ _ _ _ _ _ src Hsrc). rewrite (wire_targets_hit _ _ _ _ n i node q) by done. eexists. split; [reflexivity|]. by split_and!.
Qed.

(** Delete while the last node is dragged removes the node and leaves the
    drag: the next move of the mouse writes behind the arrays of coordinates. *)
Theorem graph_delete_drag_faults g c : graph_ok g -> editing_edge (editing g) = false -> selected_edge g < 0 -> wire_start_node (wire g) < 0 ->
  dragging_node (drag g) = true -> drag_node_id (drag g) = selected_node g -> 0 <= selected_node g -> selected_node g = Z.of_nat (length (nodes (project g))) - 1 ->
  exists g', graph_key g KEY_DELETE c = Done g' /\ forall x y, graph_mouse_move g' x y = Fault OutOfBounds.
Proof.
  intros H He Hse Hw Hd Hdn Hs0 Hs. unfold graph_key. cbn zeta. rewrite He. cbn [andb]. unfold graph_delete_selected.
  rewrite (proj2 (Z.leb_gt 0 (selected_edge g))), (proj2 (Z.leb_le 0 (selected_node g))) by lia.
  destruct (nodes (project g) !! Z.to_nat (selected_node g)) as [node|] eqn:En; [|apply lookup_ge_None in En; lia].
  rewrite (get_lookup _ _ _ Hs0 En). cbn [mbind exec_bind]. eexists. split; [reflexivity|]. intros x y. unfold graph_mouse_move. cbn zeta.
  cbn [wire drag graph_layout graph_sync_nodes set_places set_selected set_project]. rewrite (proj2 (Z.leb_gt 0 (wire_start_node _))), Hd by done. cbn [andb].
  rewrite Hdn, (proj2 (Z.leb_le 0 (selected_node g))) by done.
  assert (length (remove_first (fun m => node_id m =? node_id node) (nodes (project g))) = Z.to_nat (selected_node g)) as Hlen.
  { assert (forall l : list GraphNode, node ∈ l -> S (length (remove_first (fun m => node_id m =? node_id node) l)) = length l) as Hr.
    { induction l as [|m l IH]; [by intros ?%elem_of_nil|]. cbn [remove_first length]. destruct (Z.eqb_spec (node_id m) (node_id node)) as [|Hne]; [done|].
      intros [->|Hl]%elem_of_cons; [done|]. cbn [length]. by rewrite IH. }
    specialize (Hr _ (list_elem_of_lookup_2 _ _ _ En)). lia. }
  unfold put, get. rewrite (proj2 (Z.ltb_ge (selected_node g) 0)) by done. cbn [places graph_layout set_places node_x].
  match goal with |- context [at_index ?o] => assert (o = None) as ->; [|done] end.
  apply lookup_ge_None_2. rewrite length_map, length_seq. unfold node_count. cbn. by rewrite length_replicate, Hlen.
Qed.

(** ** A run *)

Definition one_port (id : Z) (ty : Z) (out : bool) : GraphNode :=
  mkNode id NODE_CONDITIONAL "n" 0 None None [mkPort 0 "p" ty out None].
Definition three_nodes : BuilderProject :=
  set_nodes [one_port 1 PORT_TRIGGER true; one_port 2 PORT_STRING false; one_port 3 PORT_BOOL false] (project_new None 80 24).
(** A wire is drawn from the first node to the second, its condition is
    edited, and the third node is dragged. *)
Definition drawing : list GraphEvent :=
  [MouseDown 226 52; MouseMove 250 50; MouseUp 274 52; MouseDown 250 151; MouseUp 250 151; Key KEY_CHAR "a"; Key KEY_ENTER NUL; Key KEY_ESC NUL;
   MouseDown 100 145; MouseMove 110 150; MouseUp 110 150; AddStoreNode "k"; AddCustomPort 2 "extra" PORT_INT true].
Lemma graph_events_safe_witness : exists g, graph_run (graph_new three_nodes) (drawing ++ [Key KEY_DELETE NUL]) = Done g /\ graph_ok g.
Proof. apply graph_events_safe; [constructor|vm_compute; reflexivity]. Defined.
Lemma graph_edges_typed_witness : exists g, graph_run (graph_new three_nodes) drawing = Done g /\ length (edges (project g)) = 2%nat /\ edges_typed (project g).
Proof.
  eexists. split; [vm_compute; reflexivity|]. split; [vm_compute; reflexivity|].
  eapply (graph_edges_typed three_nodes drawing); [constructor|constructor|vm_compute; reflexivity|vm_compute; reflexivity|vm_compute; reflexivity].
Defined.

Definition run_or (g : ConnectionGraph) (es : list GraphEvent) : ConnectionGraph := match graph_run g es with Done g' => g' | _ => g end.
Lemma run_or_ok p es : Forall ports_nonneg (edges p) -> well_timed false es = true -> graph_ok (run_or (graph_new p) es).
Proof.
  intros Hp Hw. destruct (new_ok p Hp) as [Hok Hid]. pose proof (run_ok es false _ Hok (fun _ => Hid) Hw) as H. unfold run_or.
  destruct (graph_run (graph_new p) es); [apply H|done..].
Qed.
Lemma graph_mouse_up_wires_witness :
  let g := run_or (graph_new three_nodes) [MouseDown 226 52] in
  exists g', graph_mouse_up g 274 52 = Done (true, g') /\ map to_node (edges (project g')) = [1; 2].
Proof.
  intros g. assert (exists g1, graph_find_port_at g 274 52 = Done (1, g1)) as [g1 Hf] by (eexists; vm_compute; reflexivity).
  destruct (graph_mouse_up_wires g 274 52 g1 1 0 (one_port 2 PORT_STRING false) (mkPort 0 "p" PORT_STRING false None)
    (mkPort 0 "p" PORT_TRIGGER true None)) as (g' & Hg' & _ & _ & He); [apply run_or_ok; [constructor|reflexivity]| |vm_compute; reflexivity|reflexivity|exact Hf|].
  - split; [vm_compute; discriminate|]. split; [vm_compute; discriminate|]. eexists. split; [vm_compute; reflexivity|reflexivity].
  - exists g'. split; [exact Hg'|]. rewrite He. vm_compute. reflexivity.
Defined.
Lemma graph_delete_drag_faults_witness : graph_run (graph_new three_nodes) [MouseDown 100 145; Key KEY_DELETE NUL; MouseMove 101 145] = Fault OutOfBounds.
Proof.
  set (g := run_or (graph_new three_nodes) [MouseDown 100 145]).
  assert (graph_ok g) as Hok by (apply run_or_ok; [constructor|reflexivity]).
  destruct (graph_delete_drag_faults g NUL Hok ltac:(vm_compute; reflexivity) ltac:(vm_compute; reflexivity) ltac:(vm_compute; reflexivity)
    ltac:(vm_compute; reflexivity) ltac:(vm_compute; reflexivity) ltac:(vm_compute; congruence) ltac:(vm_compute; reflexivity)) as (g' & Hk & Hm).
  assert (graph_step (graph_new three_nodes) (MouseDown 100 145) = Done g) as Hg by (vm_compute; reflexivity).
  cbn [graph_run]. rewrite Hg. cbn [mbind exec_bind graph_step]. rewrite Hk. cbn [mbind exec_bind]. by rewrite Hm.
Defined.
