(* ===== verification/Terminal.v ===== *)
(** The terminal backend: src/src/backend/terminal/terminal.c.

    [Keys] turns the bytes of a keyboard into events: a run of
    [read_byte_timeout] is a list of its results, a byte or none in time.
    [Clipboard] is the escape sequence that sets the clipboard, in base64.
    [Tty] is the state of the line: its attributes, whose flag bits are those
    of the system, and what was sent. The drawing is in TermDraw.v. *)

From S2P Require Import Prelude RenderTree Widget Color.

(** ** Events from bytes *)

Module Keys.

(** What the next calls of [read_byte_timeout] find; when the list ends, no
    more bytes come. *)
Abbreviation tape := (list (option Z)).
Definition read_byte_timeout (s : tape) : Z * tape :=
  match s with Some c :: s' => (c, s') | None :: s' => (-1, s') | [] => (-1, []) end.

(** [Event ev = { .type = EVENT_NONE }] *)
Definition no_event : Event := mkEvent EVENT_NONE KEY_BACKSPACE 0 0 0 0 MOUSE_PRESS.
Definition key (o : option KeyCode) : Event := match o with Some k => key_event k 0 | None => no_event end.
Definition chr (c : Z) : ascii := ascii_of_N (Z.to_N c).
(** A write at the end of what an array of [size] characters holds. *)
Definition put (size : nat) (l : list ascii) (c : ascii) : exec (list ascii) :=
  if (length l <? size)%nat then Done (l ++ [c]) else Fault OutOfBounds.

(** *** Mouse reports *)

(** The loop that fills [mouse_buf], with the last byte read; [room] is 30 - mi. *)
Fixpoint mouse_bytes (room : nat) (buf : list ascii) (s : tape) : exec (list ascii * Z * tape) :=
  let '(c4, s) := read_byte_timeout s in
  if c4 <=? 0 then Done (buf, c4, s) else
  match room with
  | O => Done (buf, c4, s)
  | S room' =>
      buf ← put 32 buf (chr c4);
      if (c4 =? 77) || (c4 =? 109) then Done (buf, c4, s) else mouse_bytes room' buf s
  end.
Definition mouse_event (buf : list ascii) (c4 : Z) : Event :=
  let v := scan_ints ";" 3 buf in
  let btn := default 0 (v !! 0%nat) in
  mkEvent EVENT_MOUSE_BUTTON KEY_BACKSPACE 0 (default 0 (v !! 1%nat) - 1) (default 0 (v !! 2%nat) - 1) (Z.land btn 3)
    (if Z.land btn 32 =? 0 then if c4 =? 77 then MOUSE_PRESS else MOUSE_RELEASE else MOUSE_MOTION).
Definition mouse (s : tape) : exec (Event * tape) :=
  '(buf, c4, s) ← mouse_bytes 30 [] s;
  _ ← put 32 buf NUL;
  Done (mouse_event buf c4, s).

(** *** Keys sent as escape sequences *)

Definition letter_key (c3 : Z) : option KeyCode :=
  if c3 =? 65 then Some KEY_UP else if c3 =? 66 then Some KEY_DOWN
  else if c3 =? 67 then Some KEY_RIGHT else if c3 =? 68 then Some KEY_LEFT
  else if c3 =? 72 then Some KEY_HOME else if c3 =? 70 then Some KEY_END
  else if c3 =? 90 then Some KEY_BACKTAB else None.
Definition number_key (p1 : Z) : option KeyCode :=
  if (p1 =? 1) || (p1 =? 7) then Some KEY_HOME
  else if p1 =? 2 then Some KEY_INSERT else if p1 =? 3 then Some KEY_DELETE
  else if (p1 =? 4) || (p1 =? 8) then Some KEY_END
  else if p1 =? 5 then Some KEY_PAGEUP else if p1 =? 6 then Some KEY_PAGEDOWN
  else if p1 =? 11 then Some KEY_F1 else if p1 =? 12 then Some KEY_F2 else if p1 =? 13 then Some KEY_F3
  else if p1 =? 14 then Some KEY_F4 else if p1 =? 15 then Some KEY_F5 else if p1 =? 17 then Some KEY_F6
  else if p1 =? 18 then Some KEY_F7 else if p1 =? 19 then Some KEY_F8 else if p1 =? 20 then Some KEY_F9
  else if p1 =? 21 then Some KEY_F10 else if p1 =? 23 then Some KEY_F11 else if p1 =? 24 then Some KEY_F12
  else None.
Definition csi_final (params : list ascii) (c3 : Z) : Event :=
  match params with
  | [] => key (letter_key c3)
  | _ =>
      let p1 := atoi (span (fun c => negb (Ascii.eqb c ";")) params) in
      if c3 =? 126 then key (number_key p1) else no_event
  end.
Definition is_param (c3 : Z) : bool := ((48 <=? c3) && (c3 <=? 57)) || (c3 =? 59).
Definition is_final (c3 : Z) : bool := ((65 <=? c3) && (c3 <=? 90)) || ((97 <=? c3) && (c3 <=? 122)) || (c3 =? 126).
(** The loop behind "ESC [": [c3] is the byte read last. *)
Fixpoint csi (params : list ascii) (c3 : Z) (s : tape) : exec (Event * tape) :=
  if (15 <=? length params)%nat then Done (no_event, s)
  else if is_final c3 then (_ ← put 16 params NUL; Done (csi_final params c3, s))
  else
    params ← (if is_param c3 then put 16 params (chr c3) else Done params : exec (list ascii));
    match s with
    | Some c :: s' => csi params c s'
    | None :: s' => Done (no_event, s')
    | [] => Done (no_event, [])
    end.
(** "ESC O": the keys F1 to F4. *)
Definition ss3 (c3 : Z) : option KeyCode :=
  if c3 =? 80 then Some KEY_F1 else if c3 =? 81 then Some KEY_F2 else if c3 =? 82 then Some KEY_F3
  else if c3 =? 83 then Some KEY_F4 else None.

Definition term_next_event (s : tape) : exec (Event * tape) :=
  let '(c, s) := read_byte_timeout s in
  if c <? 0 then Done (no_event, s) else
  if negb (c =? 27) then
    (if c =? 9 then Done (key_event KEY_TAB 0, s)
     else if (c =? 13) || (c =? 10) then Done (key_event KEY_ENTER 0, s)
     else if c =? 127 then Done (key_event KEY_BACKSPACE 0, s)
     else Done (key_event KEY_CHAR (s8 c), s))
  else
  let '(c2, s) := read_byte_timeout s in
  if c2 <? 0 then Done (key_event KEY_ESC 0, s) else
  if c2 =? 91 then
    let '(c3, s) := read_byte_timeout s in
    if c3 <? 0 then Done (key_event KEY_ESC 0, s)
    else if c3 =? 60 then mouse s
    else csi [] c3 s
  else if c2 =? 79 then
    let '(c3, s) := read_byte_timeout s in
    if c3 <? 0 then Done (key_event KEY_ESC 0, s) else Done (key (ss3 c3), s)
  else Done (key_event KEY_ESC 0, s).

(** [n] calls of [next_event]. *)
Fixpoint polls (n : nat) (s : tape) : exec (list Event * tape) :=
  match n with
  | O => Done ([], s)
  | S n' => '(e, s) ← term_next_event s; '(es, s) ← polls n' s; Done (e :: es, s)
  end.
End Keys.

(** ** The clipboard *)

Module Clipboard.

Definition b64_table : list ascii := chars "ABCDEFGHIJKLMNOPQRSTUVWXYZabcdefghijklmnopqrstuvwxyz0123456789+/".
(** [b64_table\[(v >> k) & 0x3F\]] *)
Definition sextet (v k : Z) : ascii := default NUL (b64_table !! Z.to_nat (Z.land (Z.shiftr v k) 0x3F)).
Definition word (a b c : Z) : Z := Z.lor (Z.lor (Z.shiftl a 16) (Z.shiftl b 8)) c.
Fixpoint base64_encode (src : list Z) : list ascii :=
  match src with
  | [] => []
  | [a] => let v := word a 0 0 in [sextet v 18; sextet v 12; "="%char; "="%char]
  | [a; b] => let v := word a b 0 in [sextet v 18; sextet v 12; sextet v 6; "="%char]
  | a :: b :: c :: l => let v := word a b c in sextet v 18 :: sextet v 12 :: sextet v 6 :: sextet v 0 :: base64_encode l
  end.
(** What is sent to the terminal, from a buffer of [len * 2 + 16] bytes. *)
Definition term_copy_to_clipboard (text : option string) : exec (list ascii) :=
  match text with
  | None | Some EmptyString => Done []
  | Some s =>
      let b64 := base64_encode (map uchar (chars s)) in
      if Z.of_nat (length b64) + 1 <=? strlen s * 2 + 16
      then Done ("027"%char :: chars "]52;c;" ++ b64 ++ ["007"%char])
      else Fault OutOfBounds
  end.
Definition term_paste_from_clipboard : option string := None.
End Clipboard.

(** ** The line *)

Module Tty.

(** [termios], and the flags the code clears and sets. *)
Record termios := mkTermios { c_iflag : Z; c_oflag : Z; c_cflag : Z; c_lflag : Z; vmin : Z; vtime : Z }.
Record Device := mkDevice { attrs : termios; sent : list ascii }.
Record TerminalBackend := mk { orig_flags : Z; raw_mode : bool; session_active : bool }.
Definition terminal_backend_init : TerminalBackend := mk 0 false false.

(** [write_all]: [outs] is what [write] returns, call after call. The result,
    how much was taken, and the calls left. *)
Fixpoint write_all (outs : list Z) (len written : Z) : exec (Z * Z * list Z) :=
  if written <? len then
    match outs with
    | n :: outs' => if n <? 0 then Done (-1, written, outs') else write_all outs' len (written + n)
    | [] => Fault Diverges
    end
  else Done (written, written, outs).
(** A literal sent whole, for the length the code gives with it. *)
Definition send (s : list ascii) (len : Z) (d : Device) : exec Device :=
  if len <=? Z.of_nat (length s) + 1 then Done (mkDevice (attrs d) (sent d ++ take (Z.to_nat len) s)) else Fault OutOfBounds.

(** A sequence behind ESC. *)
Definition esc (s : string) : list ascii := "027"%char :: chars s.

Section system.
Variables ECHO ICANON IEXTEN ISIG IXON ICRNL BRKINT INPCK ISTRIP CS8 OPOST : Z.
Variable TERM : option string.

Definition no_mouse : bool :=
  match TERM with
  | Some t => has_prefix (chars "linux") (chars t) || bool_decide (t = "vt100"%string) || bool_decide (t = "vt102"%string)
  | None => false
  end.
Definition lflags : Z := Z.lor (Z.lor (Z.lor ECHO ICANON) IEXTEN) ISIG.
Definition iflags : Z := Z.lor (Z.lor (Z.lor (Z.lor IXON ICRNL) BRKINT) INPCK) ISTRIP.
Definition raw_attrs (a : termios) : termios :=
  mkTermios (Z.land (c_iflag a) (Z.lnot iflags)) (Z.land (c_oflag a) (Z.lnot OPOST)) (Z.lor (c_cflag a) CS8)
    (Z.land (c_lflag a) (Z.lnot lflags)) 0 1.
Definition term_setup (t : TerminalBackend) (d : Device) : exec (TerminalBackend * Device) :=
  if session_active t then Done (t, d) else
  let t1 := mk (c_lflag (attrs d)) true true in
  d1 ← send (esc "[?2026h" ++ esc "[?25l") 12 (mkDevice (raw_attrs (attrs d)) (sent d));
  d2 ← (if no_mouse then Done d1 else send (esc "[?1000h" ++ esc "[?1006h") 16 d1 : exec Device);
  Done (t1, d2).
Definition restored (t : TerminalBackend) (a : termios) : termios :=
  mkTermios (c_iflag a) (c_oflag a) (c_cflag a) (orig_flags t) (vmin a) (vtime a).
Definition farewell : list ascii := esc "[0m" ++ esc "[?2026l" ++ esc "[2J" ++ esc "[H" ++ esc "[?25h".
Definition term_teardown (t : TerminalBackend) (d : Device) : exec (TerminalBackend * Device) :=
  if negb (session_active t) then Done (t, d) else
  let d1 := if raw_mode t then mkDevice (restored t (attrs d)) (sent d) else d in
  d2 ← (if no_mouse then send farewell 23 d1 else send (farewell ++ esc "[?1000l" ++ esc "[?1006l") 37 d1 : exec Device);
  Done (mk (orig_flags t) false false, d2).
End system.

(** The size of the window when the terminal tells it. *)
Definition term_get_size (winsize : option (Z * Z)) : Z * Z := default (80, 24) winsize.
End Tty.

(** ** Keyboards that are understood *)

Module Keyboard.
Import Keys.

(** What a user does, and the bytes an xterm sends for it. A report of the mouse
    numbers its button (3 for none), and adds 4, 8 and 16 for the keys that
    are held, 32 when the mouse moved and 64 for the wheel, which is left out. *)
Record Hand := mkHand { held : Z; shift : bool; meta : bool; ctrl : bool }.
Inductive Input :=
  | Key (k : KeyCode)
  | Char (c : Z)
  | Mouse (h : Hand) (x y : Z) (what : MouseState).
Definition key_bytes (k : KeyCode) : list ascii :=
  match k with
  | KEY_BACKSPACE => ["127"%char] | KEY_ENTER => ["013"%char] | KEY_TAB => ["009"%char] | KEY_ESC => Tty.esc ""
  | KEY_UP => Tty.esc "[A" | KEY_DOWN => Tty.esc "[B" | KEY_RIGHT => Tty.esc "[C" | KEY_LEFT => Tty.esc "[D"
  | KEY_HOME => Tty.esc "[H" | KEY_END => Tty.esc "[F" | KEY_BACKTAB => Tty.esc "[Z"
  | KEY_INSERT => Tty.esc "[2~" | KEY_DELETE => Tty.esc "[3~" | KEY_PAGEUP => Tty.esc "[5~" | KEY_PAGEDOWN => Tty.esc "[6~"
  | KEY_F1 => Tty.esc "OP" | KEY_F2 => Tty.esc "OQ" | KEY_F3 => Tty.esc "OR" | KEY_F4 => Tty.esc "OS"
  | KEY_F5 => Tty.esc "[15~" | KEY_F6 => Tty.esc "[17~" | KEY_F7 => Tty.esc "[18~" | KEY_F8 => Tty.esc "[19~"
  | KEY_F9 => Tty.esc "[20~" | KEY_F10 => Tty.esc "[21~" | KEY_F11 => Tty.esc "[23~" | KEY_F12 => Tty.esc "[24~"
  | KEY_CHAR | KEY_NULL => []
  end.
Definition report (b x y : Z) (pressed : bool) : list ascii :=
  Tty.esc "[<" ++ dec_chars b ++ ";"%char :: dec_chars x ++ ";"%char :: dec_chars y ++ [if pressed then "M"%char else "m"%char].
Definition flag (b : bool) (n : Z) : Z := if b then n else 0.
Definition code (h : Hand) (what : MouseState) : Z :=
  held h + flag (shift h) 4 + flag (meta h) 8 + flag (ctrl h) 16 + flag (bool_decide (what = MOUSE_MOTION)) 32.
Definition on_tape (l : list ascii) : tape := map (fun c => Some (uchar c)) l.
(** After a lone ESC nothing comes in time. *)
Definition typed (i : Input) : tape :=
  match i with
  | Key k => on_tape (key_bytes k) ++ (if decide (k = KEY_ESC) then [None] else [])
  | Char c => [Some c]
  | Mouse h x y what => on_tape (report (code h what) x y (bool_decide (what <> MOUSE_RELEASE)))
  end.
Definition event_of (i : Input) : Event :=
  match i with
  | Key k => key_event k 0
  | Char c => key_event KEY_CHAR (s8 c)
  | Mouse h x y what => mkEvent EVENT_MOUSE_BUTTON KEY_BACKSPACE 0 (x - 1) (y - 1) (held h) what
  end.
Definition sendable (i : Input) : Prop :=
  match i with
  | Key k => k <> KEY_CHAR /\ k <> KEY_NULL
  | Char c => 0 <= c < 256 /\ c ∉ [9; 10; 13; 27; 127]
  | Mouse h x y what => 0 <= held h <= 3 /\ 1 <= x <= INT_MAX /\ 1 <= y <= INT_MAX /\ what <> MOUSE_SCROLL_UP /\ what <> MOUSE_SCROLL_DOWN
  end.

Lemma chr_uchar c : chr (uchar c) = c.
Proof. unfold chr, uchar. by rewrite N2Z.id, ascii_N_embedding. Qed.

Definition quiet (c : ascii) : Prop := 0 < uchar c /\ uchar c <> 77 /\ uchar c <> 109.
Lemma mouse_bytes_stop D m rest : (uchar m = 77 \/ uchar m = 109) -> Forall quiet D ->
  forall room buf, (length D < room)%nat -> (length buf + room <= 30)%nat ->
  mouse_bytes room buf (on_tape (D ++ [m]) ++ rest) = Done (buf ++ D ++ [m], uchar m, rest).
Proof.
  intros Hm. assert (((uchar m =? 77) || (uchar m =? 109)) = true /\ (uchar m <=? 0) = false) as [Em E0] by (destruct Hm as [-> | ->]; done).
  assert (forall room buf c, (length buf + S room <= 30)%nat -> put 32 buf (chr (uchar c)) = Done (buf ++ [c])) as Hput.
  { intros room buf c Hl. unfold put. rewrite chr_uchar. destruct (Nat.ltb_spec (length buf) 32); [done|lia]. }
  induction 1 as [|c D (Hc0 & Hc1 & Hc2) _ IH]; intros [|room] buf HD Hl; cbn [length] in HD; try lia; cbn [on_tape map app mouse_bytes read_byte_timeout].
  - by rewrite E0, (Hput room), Em.
  - assert ((uchar c <=? 0) = false /\ (uchar c =? 77) || (uchar c =? 109) = false) as [-> Ec].
    { split; [by apply Z.leb_gt|]. apply orb_false_iff. by split; apply Z.eqb_neq. }
    rewrite (Hput room) by done. cbn [mbind exec_bind]. rewrite Ec.
    change (map (fun c0 => Some (uchar c0)) (D ++ [m])) with (on_tape (D ++ [m])). rewrite IH; [by rewrite <-app_assoc|lia|].
    rewrite length_app. cbn. lia.
Qed.

(** The digits end where [l] begins. *)
Definition no_digit_next (l : list ascii) : Prop := match l with c :: _ => isdigit c = false | [] => True end.
Lemma span_digits D l : Forall is_dec D -> no_digit_next l -> span isdigit (D ++ l) = D.
Proof. intros HD Hl. rewrite span_app by exact HD. destruct l as [|c l]; cbn; [by rewrite app_nil_r|]. cbn in Hl. by rewrite Hl, app_nil_r. Qed.
Lemma scan_d_dec n l : 0 <= n <= INT_MAX -> no_digit_next l -> scan_d (dec_chars n ++ l) = Some (n, l).
Proof.
  intros Hn Hc. destruct (dec_chars_value n) as (Hall & Hlen & Hv & _); [unfold INT_MAX in Hn; lia|]. pose proof Hall as Hall'.
  destruct (dec_chars n) as [|d D] eqn:ED; [cbn in Hlen; lia|]. inversion_clear Hall as [|? ? Hd HD].
  assert (isspace d = false /\ (Ascii.eqb d "-" || Ascii.eqb d "+") = false /\ (uchar d =? 45) = false /\ (uchar d =? 43) = false) as (E1 & E2 & E3 & E4).
  { unfold is_dec, isdigit in Hd. simp_bool. unfold isspace. split; [|split].
    - apply orb_false_iff. split; [apply Z.eqb_neq; lia|]. apply andb_false_iff. right. apply Z.leb_gt. lia.
    - assert (uchar "-" = 45 /\ uchar "+" = 43) as [] by done. apply orb_false_iff. split; apply Ascii.eqb_neq; intros ->; lia.
    - split; apply Z.eqb_neq; lia. }
  unfold scan_d. change ((d :: D) ++ l) with (d :: D ++ l). cbn [span]. rewrite E1. cbn [length drop]. rewrite E2.
  change (d :: D ++ l) with ((d :: D) ++ l). rewrite (span_digits (d :: D) l Hall' Hc).
  cbn [length Nat.add]. change (S (length D)) with (length (d :: D)). rewrite take_app_length, drop_app_length.
  f_equal. f_equal. unfold atoi. cbn [span]. rewrite E1. cbn [length drop]. rewrite E3, E4.
  pose proof (span_digits (d :: D) [] Hall' I) as Es. rewrite app_nil_r in Es.
  change (if isdigit d then d :: span isdigit D else []) with (span isdigit (d :: D)).
  rewrite Es, Hv. rewrite Z.min_l by (unfold INT_MAX in Hn; lia). apply swrap_id; [lia|]. unfold INT_MAX in Hn. lia.
Qed.

Lemma dec_quiet n : 0 <= n <= INT_MAX -> Forall quiet (dec_chars n).
Proof.
  intros Hn. destruct (dec_chars_value n) as (Hall & _); [unfold INT_MAX in Hn; lia|]. refine (List.Forall_impl _ _ Hall).
  intros c Hc. unfold is_dec, isdigit in Hc. simp_bool. unfold quiet. lia.
Qed.
Lemma dec_short n k : 0 <= n < 10 ^ Z.of_nat k -> (0 < k <= 20)%nat -> (length (dec_chars n) <= k)%nat.
Proof.
  intros Hn Hk. assert (10 ^ Z.of_nat k <= 10 ^ 20) by (apply Z.pow_le_mono_r; lia).
  destruct (dec_chars_value n) as (_ & _ & _ & H'); [lia|]. apply H'; lia.
Qed.

(** How any report is read. *)
Lemma report_decodes b x y (p : bool) rest : 0 <= b < 1000 -> 1 <= x <= INT_MAX -> 1 <= y <= INT_MAX ->
  term_next_event (on_tape (report b x y p) ++ rest) =
  Done (mkEvent EVENT_MOUSE_BUTTON KEY_BACKSPACE 0 (x - 1) (y - 1) (Z.land b 3)
          (if Z.land b 32 =? 0 then if p then MOUSE_PRESS else MOUSE_RELEASE else MOUSE_MOTION), rest).
Proof.
  intros Hb Hx Hy. set (m := if p then "M"%char else "m"%char).
  set (D := dec_chars b ++ ";"%char :: dec_chars x ++ ";"%char :: dec_chars y).
  assert (on_tape (report b x y p) = on_tape (Tty.esc "[<") ++ on_tape (D ++ [m])) as ->.
  { unfold report, on_tape, D. fold m. rewrite <-map_app. f_equal. repeat (rewrite <-app_assoc; cbn [app]). done. }
  rewrite <-app_assoc. change (term_next_event (on_tape (Tty.esc "[<") ++ on_tape (D ++ [m]) ++ rest)) with (mouse (on_tape (D ++ [m]) ++ rest)).
  assert (length D <= 25)%nat as HD.
  { unfold D. rewrite length_app. cbn [length]. rewrite length_app. cbn [length]. unfold INT_MAX in *.
    pose proof (dec_short b 3 ltac:(lia) ltac:(lia)). pose proof (dec_short x 10 ltac:(lia) ltac:(lia)). pose proof (dec_short y 10 ltac:(lia) ltac:(lia)). lia. }
  unfold mouse. rewrite mouse_bytes_stop; cycle 1; [by unfold m; destruct p; [left|right]| |lia|cbn; lia|].
  { assert (quiet ";"%char) as Hq by (vm_compute; repeat split; done). assert (b <= INT_MAX) by (unfold INT_MAX; lia).
    unfold D. apply Forall_app. split; [apply dec_quiet; lia|]. apply List.Forall_cons; [done|].
    apply Forall_app. split; [apply dec_quiet; lia|]. apply List.Forall_cons; [done|]. apply dec_quiet; lia. }
  cbn [mbind exec_bind app]. unfold put. rewrite length_app. cbn [length]. destruct (Nat.ltb_spec (length D + 1) 32); [|lia].
  cbn [mbind exec_bind]. f_equal. f_equal. unfold mouse_event.
  assert (isdigit m = false /\ Ascii.eqb m ";" = false /\ (uchar m =? 77) = p) as (Em1 & Em2 & Em3) by (unfold m; by destruct p).
  assert (scan_ints ";" 3 (D ++ [m]) = [b; x; y]) as ->.
  { unfold D. rewrite <-app_assoc. cbn [app]. rewrite <-app_assoc. cbn [app scan_ints].
    rewrite scan_d_dec by (done || (unfold INT_MAX in *; lia)). cbn [scan_ints]. rewrite Ascii.eqb_refl. f_equal.
    rewrite scan_d_dec by (done || (unfold INT_MAX in *; lia)). cbn [scan_ints]. rewrite Ascii.eqb_refl. f_equal.
    rewrite scan_d_dec by (done || (unfold INT_MAX in *; lia)). by rewrite Em2. }
  cbn [default lookup list_lookup]. rewrite Em3. done.
Qed.
Lemma mouse_decodes h x y what rest : sendable (Mouse h x y what) ->
  term_next_event (typed (Mouse h x y what) ++ rest) = Done (event_of (Mouse h x y what), rest).
Proof.
  intros (Hh & Hx & Hy & Hu & Hd). destruct h as [b sh al ct]. cbn [held typed event_of] in *.
  assert (b = 0 \/ b = 1 \/ b = 2 \/ b = 3) as Hb by lia. rewrite report_decodes; [|unfold code, flag; cbn [held shift meta ctrl]; destruct sh, al, ct, (bool_decide _); lia|done|done].
  f_equal. f_equal. by destruct Hb as [->|[->|[->| ->]]], sh, al, ct, what.
Qed.

Lemma typed_decodes i rest : sendable i -> term_next_event (typed i ++ rest) = Done (event_of i, rest).
Proof.
  destruct i as [k|c|h x y what]; [| |apply mouse_decodes].
  - intros [H1 H2]. destruct k; try done; destruct rest as [|[] ?]; reflexivity.
  - intros [Hc Hn]. unfold typed, event_of, term_next_event. cbn [app read_byte_timeout].
    assert (forall n, n ∈ [9; 10; 13; 27; 127] -> (c =? n) = false) as He.
    { intros n Hin. apply Z.eqb_neq. intros ->. done. }
    rewrite (He 27), (He 9), (He 13), (He 10), (He 127) by set_solver. by destruct (Z.ltb_spec c 0); [lia|].
Qed.
End Keyboard.

(** C37: what is typed arrives: keys, characters and mouse reports, sent one after
    another as an xterm sends them, are read as those events, in order, and
    nothing else is read. A key is a KeyCode other than KEY_CHAR and KEY_NULL, after
    ESC no byte comes within the time limit, and a character is any byte that is
    no key (9, 10, 13, 27, 127), read as a signed char. A report of the mouse, which
    tells a button or none, pressed, released or moved, keys that are held and a
    position from 1 to INT_MAX, becomes a button event, a move too, with the
    button, the kind and the position from 0; the keys held are not told. Reports of
    the wheel are excluded: they are read as presses ([terminal_wheel_presses]). *)
Theorem terminal_reads_input ins rest : Forall Keyboard.sendable ins ->
  Keys.polls (length ins) (concat (map Keyboard.typed ins) ++ rest) = Done (map Keyboard.event_of ins, rest).
Proof.
  induction 1 as [|i ins Hi _ IH]; [done|]. cbn [length map concat Keys.polls]. rewrite <-app_assoc, Keyboard.typed_decodes by done.
  cbn [mbind exec_bind]. by rewrite IH.
Qed.
Lemma terminal_reads_input_witness :
  Keys.polls 4 (Keyboard.on_tape (Tty.esc "[A" ++ Tty.esc "[<0;80;24M") ++ [Some 195; Some 27; None; Some 120]) =
  Done ([key_event KEY_UP 0; mkEvent EVENT_MOUSE_BUTTON KEY_BACKSPACE 0 79 23 0 MOUSE_PRESS; key_event KEY_CHAR (-61); key_event KEY_ESC 0], [Some 120]).
Proof.
  apply (terminal_reads_input [Keyboard.Key KEY_UP; Keyboard.Mouse (Keyboard.mkHand 0 false false false) 80 24 MOUSE_PRESS; Keyboard.Char 195; Keyboard.Key KEY_ESC] [Some 120]).
  apply List.Forall_cons; [done|]. apply List.Forall_cons; [by repeat split|]. apply List.Forall_cons; [|by repeat constructor].
  split; [done|]. apply (bool_decide_unpack _). reflexivity.
Defined.

(** *** Any bytes *)

Module AnyInput.
Import Keys.

(** A reader that returns, having used up something unless nothing was left. *)
Definition reads (s : tape) (m : exec (Event * tape)) : Prop := returns m (fun '(_, s') => suffix s' s /\ (length s' <= length s - 1)%nat).
Definition reads_more (s : tape) (m : exec (Event * tape)) : Prop := returns m (fun '(_, s') => suffix s' s).

Lemma read_byte_cases s : let '(c, s') := read_byte_timeout s in suffix s' s /\ (length s' <= length s - 1)%nat /\ (s = [] -> c = -1).
Proof.
  destruct s as [|[c|] s]; cbn; (split; [|split; [lia|done]]); [done| |]; by apply suffix_cons_r.
Qed.
Lemma mouse_bytes_fits room : forall buf s, (length buf + room <= 30)%nat ->
  returns (mouse_bytes room buf s) (fun '(buf', _, s') => (length buf' <= 30)%nat /\ suffix s' s).
Proof.
  induction room as [|room IH]; intros buf s Hl; cbn [mouse_bytes]; pose proof (read_byte_cases s) as Hr;
    destruct (read_byte_timeout s) as [c4 s1]; destruct Hr as (Hs & _ & _); destruct (c4 <=? 0); cbn [returns]; try (split; [lia|done]).
  unfold put. destruct (Nat.ltb_spec (length buf) 32); [|lia]. cbn [mbind exec_bind].
  assert (length (buf ++ [chr c4]) = S (length buf)) as E by (rewrite length_app; cbn; lia).
  destruct ((c4 =? 77) || (c4 =? 109)); cbn [returns]; [split; [lia|done]|].
  eapply returns_mono; [apply IH; lia|]. intros [[b c] s2] [? ?]. split; [done|]. by etrans.
Qed.
Lemma mouse_reads s : reads_more s (mouse s).
Proof.
  unfold mouse, reads_more. eapply returns_bind; [apply (mouse_bytes_fits 30 [] s); cbn; lia|].
  intros [[buf c4] s'] [Hl Hs]. unfold put. destruct (Nat.ltb_spec (length buf) 32); [|lia]. done.
Qed.
Lemma csi_reads s : forall params c3, reads_more s (csi params c3 s).
Proof.
  assert (forall params c, (15 <=? length params)%nat = false -> put 16 params c = Done (params ++ [c])) as Hput.
  { intros params c H. apply Nat.leb_gt in H. unfold put. destruct (Nat.ltb_spec (length params) 16); [done|lia]. }
  assert (forall s0 s1 e, suffix s1 s0 -> reads_more s0 (Done (e, s1))) as Hd by done.
  induction s as [|o s IH]; intros params c3; cbn [csi]; (destruct (15 <=? length params)%nat eqn:El; [by apply Hd|]).
  all: destruct (is_final c3); [rewrite Hput by done; by apply Hd|].
  all: destruct (is_param c3); rewrite ?Hput by done; cbn [mbind exec_bind]; try (by apply Hd).
  all: destruct o as [c|]; [|by apply Hd, suffix_cons_r].
  all: eapply returns_mono; [apply IH|]; intros [e s'] ?; by apply suffix_cons_r.
Qed.
Lemma next_event_reads s : reads s (term_next_event s).
Proof.
  assert (forall s1 m, suffix s1 s -> (length s1 <= length s - 1)%nat -> reads_more s1 m -> reads s m) as Hlift.
  { intros s1 m H1 H2 Hm. unfold reads, reads_more in *. eapply returns_mono; [exact Hm|]. intros [e s'] Hs.
    split; [by etrans|]. apply suffix_length in Hs. lia. }
  unfold term_next_event. pose proof (read_byte_cases s) as H1. destruct (read_byte_timeout s) as [c s1]. destruct H1 as (H1 & L1 & _).
  assert (forall e, reads s (Done (e, s1))) as Hd by (intros e; by split). 
  destruct (c <? 0); [apply Hd|]. destruct (negb (c =? 27)).
  { repeat (match goal with |- context [if ?b then _ else _] => destruct b end; try apply Hd). }
  pose proof (read_byte_cases s1) as H2. destruct (read_byte_timeout s1) as [c2 s2]. destruct H2 as (H2 & L2 & _).
  assert (suffix s2 s) as H2' by (by etrans). assert (length s2 <= length s - 1)%nat as L2' by lia.
  pose proof (read_byte_cases s2) as H3. destruct (read_byte_timeout s2) as [c3 s3]. destruct H3 as (H3 & L3 & _).
  assert (suffix s3 s) as H3' by (by etrans). assert (length s3 <= length s - 1)%nat as L3' by lia.
  destruct (c2 <? 0); [by split|]. destruct (c2 =? 91); [|destruct (c2 =? 79); [|by split]]; (destruct (c3 <? 0); [by split|]); [|by split].
  destruct (c3 =? 60); apply (Hlift s3); (done || apply mouse_reads || apply csi_reads).
Qed.
End AnyInput.

(** C38: any bytes can be read: whatever comes, and wherever it stops, every poll
    returns an event, the reports and the parameters stay inside their arrays,
    and each poll uses up a part of the front of what came, so that input that
    stops is read to its end. *)
Theorem terminal_input_safe n s :
  exists es s', Keys.polls n s = Done (es, s') /\ length es = n /\ suffix s' s /\ (length s' <= length s - n)%nat.
Proof.
  revert s. induction n as [|n IH]; intros s; [exists [], s; repeat split; (done || lia)|]. cbn [Keys.polls].
  destruct (returns_Done _ _ (AnyInput.next_event_reads s)) as ([e s1] & -> & Hs & Hl).
  destruct (IH s1) as (es & s2 & E & Hn & Hs2 & Hl2). cbn [mbind exec_bind]. rewrite E. exists (e :: es), s2.
  split; [done|]. split; [cbn; lia|]. split; [by etrans|lia].
Qed.

(** A sequence with more than fifteen characters of parameters is given up in
    the middle: its end is read as text. *)
Lemma terminal_long_sequence : Keys.polls 3 (Keyboard.on_tape (Tty.esc "[1234567890;12345~")) =
  Done ([Keys.no_event; key_event KEY_CHAR 126; Keys.no_event], []).
Proof. reflexivity. Qed.
(** The wheel is read as a press of the left button. *)
Lemma terminal_wheel_presses x y : 1 <= x <= INT_MAX -> 1 <= y <= INT_MAX ->
  Keys.polls 1 (Keyboard.on_tape (Keyboard.report 64 x y true)) = Done ([mkEvent EVENT_MOUSE_BUTTON KEY_BACKSPACE 0 (x - 1) (y - 1) 0 MOUSE_PRESS], []).
Proof.
  intros Hx Hy. cbn [Keys.polls]. pose proof (Keyboard.report_decodes 64 x y true [] ltac:(lia) Hx Hy) as H.
  rewrite app_nil_r in H. by rewrite H.
Qed.

(** ** The clipboard *)

Module Base64.
Import Clipboard.

(** The reading of base64: four characters are three bytes, [=] is no byte. *)
Definition value_of (c : ascii) : option Z := (fun p => Z.of_nat (fst p)) <$> list_find (fun d => d = c) b64_table.
Definition value3 (s0 s1 s2 s3 : Z) : Z := s0 * 262144 + s1 * 4096 + s2 * 64 + s3.
Definition bytes3 (v : Z) : list Z := [v / 65536; v / 256 mod 256; v mod 256].
Definition pad : ascii := "="%char.
Definition quad (a b c d : ascii) : option (list Z) :=
  s0 ← value_of a; s1 ← value_of b;
  if decide (c = pad /\ d = pad) then Some (take 1 (bytes3 (value3 s0 s1 0 0)))
  else
    s2 ← value_of c;
    if decide (d = pad) then Some (take 2 (bytes3 (value3 s0 s1 s2 0)))
    else s3 ← value_of d; Some (bytes3 (value3 s0 s1 s2 s3)).
Fixpoint base64_decode (l : list ascii) : option (list Z) :=
  match l with
  | [] => Some []
  | a :: b :: c :: d :: l' => x ← quad a b c d; y ← base64_decode l'; Some (x ++ y)
  | _ => None
  end.

Definition six (v k : Z) : Z := v / 2 ^ k mod 64.
Lemma table_value n : 0 <= n < 64 -> let c := default NUL (b64_table !! Z.to_nat n) in value_of c = Some n /\ c <> pad /\ c <> "007"%char.
Proof.
  intros Hn. assert (forallb (fun i => let c := default NUL (b64_table !! i) in
    bool_decide (value_of c = Some (Z.of_nat i)) && negb (Ascii.eqb c pad) && negb (Ascii.eqb c "007"%char)) (seq 0 64) = true) as H by (vm_compute; reflexivity).
  rewrite forallb_forall in H. specialize (H (Z.to_nat n)). rewrite Z2Nat.id in H by lia.
  specialize (H ltac:(apply in_seq; lia)). cbv zeta in H. simp_bool. cbv zeta. split; [by apply bool_decide_eq_true in H|]. by split; apply Ascii.eqb_neq.
Qed.
Lemma sextet_value v k : 0 <= v -> 0 <= k -> value_of (sextet v k) = Some (six v k) /\ sextet v k <> pad /\ sextet v k <> "007"%char.
Proof.
  intros Hv Hk. unfold sextet. change 63 with (Z.ones 6). rewrite Z.land_ones, Z.shiftr_div_pow2 by lia. apply table_value.
  apply Z.mod_pos_bound. lia.
Qed.
Definition is_byte (b : Z) : Prop := 0 <= b < 256.
Lemma word_value a b c : is_byte a -> is_byte b -> is_byte c -> word a b c = a * 65536 + b * 256 + c.
Proof.
  intros Ha Hb Hc. unfold is_byte in *. unfold word. assert (Z.shiftl b 8 = b * 256) as E by (rewrite Z.shiftl_mul_pow2; lia).
  rewrite E, (lor_shift_bytes a (b * 256) 16) by lia. change (2 ^ 16) with (256 * 256).
  replace (a * (256 * 256) + b * 256) with (Z.shiftl (a * 256 + b) 8) by (rewrite Z.shiftl_mul_pow2; lia).
  rewrite lor_shift_bytes by lia. change (2 ^ 8) with 256. lia.
Qed.
Lemma six_value v : 0 <= v < 16777216 -> value3 (six v 18) (six v 12) (six v 6) (six v 0) = v.
Proof. intros Hv. unfold value3, six. change (2 ^ 18) with 262144. change (2 ^ 12) with 4096. change (2 ^ 6) with 64. change (2 ^ 0) with 1. Z.to_euclidean_division_equations. lia. Qed.

Lemma bytes3_word a b c : is_byte a -> is_byte b -> is_byte c -> bytes3 (word a b c) = [a; b; c].
Proof. intros Ha Hb Hc. rewrite word_value by done. unfold is_byte in *. unfold bytes3. repeat f_equal; Z.to_euclidean_division_equations; lia. Qed.
Lemma word_range a b c : is_byte a -> is_byte b -> is_byte c -> 0 <= word a b c < 16777216.
Proof. intros Ha Hb Hc. rewrite word_value by done. unfold is_byte in *. lia. Qed.
(** The low bits of a last word are zero. *)
Lemma six_low a b : is_byte a -> is_byte b -> six (word a b 0) 0 = 0 /\ six (word a 0 0) 6 = 0.
Proof.
  intros Ha Hb. rewrite !word_value by done. unfold is_byte in *. unfold six. change (2 ^ 0) with 1. change (2 ^ 6) with 64.
  split; Z.to_euclidean_division_equations; lia.
Qed.

Lemma quad_word a b c : is_byte a -> is_byte b -> is_byte c ->
  let s k := sextet (word a b c) k in
  quad (s 18) (s 12) (s 6) (s 0) = Some [a; b; c] /\
  (c = 0 -> quad (s 18) (s 12) (s 6) pad = Some [a; b]) /\
  (b = 0 -> c = 0 -> quad (s 18) (s 12) pad pad = Some [a]).
Proof.
  intros Ha Hb Hc s. pose proof (word_range a b c Ha Hb Hc) as Hr. pose proof (bytes3_word a b c Ha Hb Hc) as Hw.
  assert (forall k, 0 <= k -> value_of (s k) = Some (six (word a b c) k) /\ s k <> pad) as Hs.
  { intros k Hk. destruct (sextet_value (word a b c) k ltac:(lia) Hk) as (? & ? & _). done. }
  destruct (Hs 18 ltac:(lia)) as [E1 _], (Hs 12 ltac:(lia)) as [E2 _], (Hs 6 ltac:(lia)) as [E3 N3], (Hs 0 ltac:(lia)) as [E4 N4].
  pose proof (six_value (word a b c) Hr) as Hv.
  unfold quad. rewrite E1, E2. cbn [mbind option_bind]. split; [|split].
  - rewrite decide_False by (intros [? _]; done). rewrite E3. cbn [mbind option_bind]. rewrite decide_False by done. rewrite E4. cbn [mbind option_bind].
    by rewrite Hv, Hw.
  - intros ->. rewrite decide_False by (intros [? _]; done). rewrite E3. cbn [mbind option_bind]. rewrite decide_True by done.
    destruct (six_low a b Ha Hb) as [H0 _]. rewrite H0 in Hv. by rewrite Hv, Hw.
  - intros -> ->. rewrite decide_True by done. destruct (six_low a 0 Ha Hc) as [H0 H6]. rewrite H0, H6 in Hv. by rewrite Hv, Hw.
Qed.

Lemma base64_decodes n : forall l, (length l < n)%nat -> Forall is_byte l -> base64_decode (base64_encode l) = Some l.
Proof.
  induction n as [|n IH]; intros l Hn Hl; [lia|]. assert (is_byte 0) as H0 by (unfold is_byte; lia).
  destruct l as [|a [|b [|c l]]]; [done| | |].
  - inversion_clear Hl as [|? ? Ha _]. destruct (quad_word a 0 0 Ha H0 H0) as (_ & _ & E). cbn [base64_encode base64_decode]. change "="%char with pad. by rewrite E.
  - inversion_clear Hl as [|? ? Ha Hl']. inversion_clear Hl' as [|? ? Hb _]. destruct (quad_word a b 0 Ha Hb H0) as (_ & E & _).
    cbn [base64_encode base64_decode]. change "="%char with pad. by rewrite E.
  - inversion_clear Hl as [|? ? Ha Hl']. inversion_clear Hl' as [|? ? Hb Hl2]. inversion_clear Hl2 as [|? ? Hc Hl3].
    destruct (quad_word a b c Ha Hb Hc) as (E & _). cbn [base64_encode base64_decode]. rewrite E. cbn [mbind option_bind].
    rewrite IH; [done|cbn [length] in Hn; lia|done].
Qed.
Lemma base64_length n : forall l, (length l < n)%nat -> (length (base64_encode l) <= 2 * length l + 2)%nat.
Proof.
  induction n as [|n IH]; intros l Hn; [lia|]. destruct l as [|a [|b [|c l]]]; try (cbn; lia).
  cbn [base64_encode length] in *. specialize (IH l). lia.
Qed.
Lemma base64_no_bell n : forall l, (length l < n)%nat -> Forall is_byte l -> "007"%char ∉ base64_encode l.
Proof.
  assert (forall a b c k, is_byte a -> is_byte b -> is_byte c -> 0 <= k -> "007"%char <> sextet (word a b c) k) as Hs.
  { intros a b c k Ha Hb Hc Hk E. pose proof (word_range a b c Ha Hb Hc). by destruct (sextet_value (word a b c) k ltac:(lia) Hk) as (_ & _ & ?). }
  assert (is_byte 0) as H0 by (unfold is_byte; lia).
  induction n as [|n IH]; intros l Hn Hl; [lia|]. destruct l as [|a [|b [|c l]]]; cbn [base64_encode]; [apply not_elem_of_nil|..].
  - inversion_clear Hl as [|? ? Ha _]. cbv zeta. rewrite !not_elem_of_cons. repeat split; try (by apply Hs); try done; apply not_elem_of_nil.
  - inversion_clear Hl as [|? ? Ha Hl']. inversion_clear Hl' as [|? ? Hb _]. cbv zeta. rewrite !not_elem_of_cons. repeat split; try (by apply Hs); try done; apply not_elem_of_nil.
  - inversion_clear Hl as [|? ? Ha Hl']. inversion_clear Hl' as [|? ? Hb Hl2]. inversion_clear Hl2 as [|? ? Hc Hl3].
    cbv zeta. rewrite !not_elem_of_cons. repeat split; try (by apply Hs). apply IH; [cbn [length] in Hn; lia|done].
Qed.
Lemma uchar_bytes s : Forall is_byte (map uchar s).
Proof. induction s as [|c s IH]; constructor; [apply uchar_range|done]. Qed.
End Base64.

(** what is copied can be pasted: a text is sent as one sequence that sets
    the clipboard, its base64 fits the buffer, holds nothing that ends the
    sequence early, and is read back as the bytes of the text. *)
Theorem clipboard_roundtrip s : s <> EmptyString ->
  exists b64, Clipboard.term_copy_to_clipboard (Some s) = Done (Tty.esc "]52;c;" ++ b64 ++ ["007"%char]) /\
    "007"%char ∉ b64 /\ Base64.base64_decode b64 = Some (map uchar (chars s)).
Proof.
  intros Hs. set (l := map uchar (chars s)). exists (Clipboard.base64_encode l). pose proof (Base64.uchar_bytes (chars s)) as Hb. fold l in Hb.
  split; [|split; [by apply (Base64.base64_no_bell (S (length l))); [lia|]|by apply (Base64.base64_decodes (S (length l))); [lia|]]].
  unfold Clipboard.term_copy_to_clipboard. destruct s as [|c s]; [done|]. fold l.
  pose proof (Base64.base64_length (S (length l)) l ltac:(lia)) as Hl.
  assert (length l = String.length (String c s)) as El by (unfold l; by rewrite length_map, length_chars).
  destruct (Z.leb_spec (Z.of_nat (length (Clipboard.base64_encode l)) + 1) (strlen (String c s) * 2 + 16)); [done|].
  unfold strlen in *. lia.
Qed.
Lemma clipboard_roundtrip_witness : exists b64, Clipboard.term_copy_to_clipboard (Some "filly"%string) = Done (Tty.esc "]52;c;" ++ b64 ++ ["007"%char]) /\
  b64 = chars "ZmlsbHk=" /\ Base64.base64_decode b64 = Some [102; 105; 108; 108; 121].
Proof.
  destruct (clipboard_roundtrip "filly") as (b & E & _ & D); [done|]. exists b. split; [exact E|]. split; [|exact D].
  assert (Clipboard.term_copy_to_clipboard (Some "filly"%string) = Done (Tty.esc "]52;c;" ++ chars "ZmlsbHk=" ++ ["007"%char])) as F by reflexivity.
  rewrite F in E. apply Done_inj in E. symmetry. by apply app_inv_head, app_inv_tail in E.
Defined.

(** ** The line *)

(** [write_all] ends when every call takes something, and then everything was
    taken. *)
Lemma write_all_ends outs : forall len written, Forall (fun n => 0 < n) outs -> len - written <= Z.of_nat (length outs) ->
  exists w outs', Tty.write_all outs len written = Done (w, w, outs') /\ len <= w.
Proof.
  induction outs as [|n outs IH]; intros len written Hp Hl; cbn [Tty.write_all length] in *; destruct (Z.ltb_spec written len); try lia; try (by exists written; eexists).
  inversion_clear Hp as [|? ? Hn Hp']. destruct (Z.ltb_spec n 0); [lia|]. apply IH; [done|lia].
Qed.

(** The terminal is left in raw mode: after a session the local flags are the
    ones it began with, but the input and the output flags that were cleared
    for it stay cleared and a read still does not wait for a byte; the sequence
    that hides the cursor is cut short, so is the one that shows it where there
    is no mouse, and the mouse reports asked for are not switched off. *)
Theorem terminal_left_raw (ECHO ICANON IEXTEN ISIG IXON ICRNL BRKINT INPCK ISTRIP CS8 OPOST : Z) TERM a :
  let setup := Tty.term_setup ECHO ICANON IEXTEN ISIG IXON ICRNL BRKINT INPCK ISTRIP CS8 OPOST TERM in
  exists t1 d1 d2, setup Tty.terminal_backend_init (Tty.mkDevice a []) = Done (t1, d1) /\
    setup t1 d1 = Done (t1, d1) /\
    Tty.term_teardown TERM t1 d1 = Done (Tty.mk (Tty.c_lflag a) false false, d2) /\
    Tty.attrs d2 = Tty.mkTermios (Z.land (Tty.c_iflag a) (Z.lnot (Tty.iflags IXON ICRNL BRKINT INPCK ISTRIP)))
      (Z.land (Tty.c_oflag a) (Z.lnot OPOST)) (Z.lor (Tty.c_cflag a) CS8) (Tty.c_lflag a) 0 1 /\
    strstr (Tty.sent d1) (Tty.esc "[?25l") = false /\ strstr (Tty.sent d2) (Tty.esc "[?25h") = negb (Tty.no_mouse TERM) /\
    strstr (Tty.sent d2) (Tty.esc "[?1006l") = false.
Proof.
  intros setup. unfold setup, Tty.term_setup, Tty.term_teardown. cbn [Tty.session_active Tty.terminal_backend_init].
  destruct (Tty.no_mouse TERM); do 3 eexists; (split; [reflexivity|]); (split; [reflexivity|]); (split; [reflexivity|]); repeat split; vm_compute; reflexivity.
Qed.
