(* ===== verification/TermDraw.v ===== *)
(** Drawing on a terminal: src/src/backend/terminal/renderer.c.

    The code prints piece after piece to a buffer with [buf_printf]; as the
    pieces are only appended, a function of the model gives the text it prints,
    and [render_tree_to_buf] is what of the whole fits the buffer
    ([buf_printf_app]). The animations of a node are found by its path in the
    tree. A NULL string that is printed is a fault. [Screen] is what a terminal
    makes of the text. *)

From Stdlib Require Import SpecFloat.
From S2P Require Import Prelude Double Float RenderTree Animation Terminal.

(** ** Text *)

(** [strlen(buf)] characters are there; [vsnprintf] writes what fits. *)
Definition buf_printf (buf_sz : Z) (s buf : list ascii) : list ascii :=
  let len := Z.of_nat (length buf) in
  if buf_sz - 1 <=? len then buf else buf ++ take (Z.to_nat (buf_sz - len - 1)) s.

Definition csi_seq (params : list ascii) (final : ascii) : list ascii := Tty.esc "[" ++ params ++ [final].
(** "\033[%d;%dH" *)
Definition goto (row col : Z) : list ascii := csi_seq (int_chars row ++ ";"%char :: int_chars col) "H".
Definition spaces (n : Z) : list ascii := replicate (Z.to_nat n) " "%char.
Definition times (n : Z) (s : list ascii) : list ascii := concat (replicate (Z.to_nat n) s).
Definition reset : list ascii := csi_seq (chars "0") "m".
(** [(c >> 16) & 0xFF] and the bytes below it, as "%d;%d;%d". *)
Definition byte_at (c k : Z) : Z := Z.land (Z.shiftr c k) 0xFF.
Definition rgb_params (r g b : Z) : list ascii := int_chars r ++ ";"%char :: int_chars g ++ ";"%char :: int_chars b.
Definition color_params (c : Z) : list ascii := rgb_params (byte_at c 16) (byte_at c 8) (byte_at c 0).

Definition set_style (ws : option WidgetStyle) : list ascii :=
  match ws with
  | None => reset
  | Some ws =>
      if fg_color ws =? 0 then reset else
      Tty.esc "[0" ++ (if 700 <=? font_weight ws then chars ";1" else []) ++ (if font_italic ws then chars ";3" else []) ++
      chars ";38;2;" ++ color_params (fg_color ws) ++
      (if bg_color ws =? 0 then [] else chars ";48;2;" ++ color_params (bg_color ws)) ++ chars "m"
  end.
(** [(uint8_t)(channel * amount)] *)
Definition dimmed (c k : Z) (amount : float) : Z := u8 (f_to_int (f_mul (f_of_Z (byte_at c k)) amount)).
Definition dim_params (c : Z) (amount : float) : list ascii := rgb_params (dimmed c 16 amount) (dimmed c 8 amount) (dimmed c 0 amount).
Definition set_dim_style (ws : WidgetStyle) (amount : float) : list ascii :=
  if fg_color ws =? 0 then reset else
  Tty.esc "[0" ++ (if 700 <=? font_weight ws then chars ";1" else []) ++ chars ";38;2;" ++ dim_params (fg_color ws) amount ++
  (if bg_color ws =? 0 then [] else chars ";48;2;" ++ dim_params (bg_color ws) amount) ++ chars "m".
(** The colours of a selected row. *)
Definition accent (ws : WidgetStyle) : list ascii :=
  csi_seq (chars "48;2;" ++ color_params (accent_color ws)) "m" ++ csi_seq (chars "38;2;255;255;255") "m".

(** ** Boxes *)

(** The corners, and the horizontal and the vertical line. *)
Definition border_glyphs (b : BorderStyle) : option (string * string * string * string * string * string) :=
  match b with
  | BORDER_SINGLE => Some ("┌", "┐", "└", "┘", "─", "│")
  | BORDER_DOUBLE => Some ("╔", "╗", "╚", "╝", "═", "║")
  | BORDER_ROUNDED => Some ("╭", "╮", "╰", "╯", "─", "│")
  | BORDER_DASHED => Some ("┌", "┐", "└", "┘", "╌", "╎")
  | BORDER_DOTTED => Some ("┌", "┐", "└", "┘", "┈", "┊")
  | BORDER_NONE | BORDER_SOLID => None
  end%string.
(** Rows [from], [from + 1], ... *)
Definition rows (from n : Z) (f : Z -> list ascii) : list ascii :=
  concat (map (fun i => f (from + Z.of_nat i)) (seq 0 (Z.to_nat n))).
Definition draw_box (x y w h : Z) (border : BorderStyle) (ws : WidgetStyle) : list ascii :=
  if (w <? 2) || (h <? 2) then [] else
  match border_glyphs border with
  | None => []
  | Some (tl, tr, bl, br, h_line, v_line) =>
      set_style (Some ws) ++
      goto (y + 1) (x + 1) ++ chars tl ++ times (w - 2) (chars h_line) ++ chars tr ++
      rows 1 (h - 2) (fun i => goto (y + i + 1) (x + 1) ++ chars v_line ++ goto (y + i + 1) (x + w) ++ chars v_line) ++
      goto (y + h) (x + 1) ++ chars bl ++ times (w - 2) (chars h_line) ++ chars br ++
      set_style None
  end.
Definition fill_rect (x y w h : Z) : list ascii :=
  reset ++ rows 0 h (fun iy => goto (y + 1 + iy) (x + 1) ++ spaces w).

(** ** Wrapped text *)

Definition newline : ascii := "010"%char.
Definition not_newline (c : ascii) : bool := negb (Ascii.eqb c newline).
(** [while (space > p && *space != ' ') space--] from the [k]-th character. *)
Fixpoint last_space (k : nat) (p : list ascii) : nat :=
  match k with
  | O => O
  | S k' => match p !! k with Some c => if Ascii.eqb c " " then k else last_space k' p | None => last_space k' p end
  end.
(** The characters of the next line: [col] of them. *)
Definition line_length (w left : Z) (p : list ascii) : nat :=
  let col := length (take (Z.to_nat (Z.min w left)) (span not_newline p)) in
  match p !! col with
  | Some c =>
      if (Z.of_nat col =? w) && not_newline c then
        let space := last_space col p in if (0 <? space)%nat then space else col
      else col
  | None => col
  end.
(** The lines of a text, at most [room] of them. *)
Fixpoint wrap (room : nat) (w left : Z) (p : list ascii) : list (list ascii) :=
  match room, p with
  | O, _ | _, [] => []
  | S room', _ =>
      if left <=? 0 then [] else
      let col := line_length w left p in
      let rest := drop col p in
      take col p :: wrap room' w (left - Z.of_nat col) (match rest with c :: rest' => if not_newline c then rest else rest' | [] => [] end)
  end.
Definition padding_left (a : Alignment) (w col : Z) : Z :=
  let pad := match a with ALIGN_CENTER => cdiv (w - col) 2 | ALIGN_RIGHT => w - col | ALIGN_LEFT => 0 end in
  if pad <? 0 then 0 else pad.
(** A line with the spaces before and behind it. *)
Definition padded (a : Alignment) (w : Z) (l : list ascii) : list ascii :=
  let col := Z.of_nat (length l) in
  let pad := padding_left a w col in
  spaces pad ++ l ++ spaces (w - (pad + col)).
Definition text_rows (a : Alignment) (w h left : Z) (p : list ascii) : list (list ascii) :=
  let ls := wrap (Z.to_nat h) w left p in
  map (padded a w) ls ++ replicate (Z.to_nat h - length ls) (spaces w).
Definition draw_text_wrapped (x y w h : Z) (text : option string) (a : Alignment) (ws : WidgetStyle) (visible_chars : Z) : list ascii :=
  match text with
  | None => []
  | Some s =>
      if (w <=? 0) || (h <=? 0) || (visible_chars =? 0) then [] else
      let left := if visible_chars <? 0 then 999999 else visible_chars in
      set_style (Some ws) ++
      concat (imap (fun i r => goto (y + 1 + Z.of_nat i) (x + 1) ++ r) (text_rows a w h left (chars s))) ++
      set_style None
  end.

(** ** Lists *)

(** "%.*s": a negative precision is none. *)
Definition precision (n : Z) (s : list ascii) : list ascii := if n <? 0 then s else take (Z.to_nat n) s.
Definition at_z {A} (l : list A) (i : Z) : exec A := if i <? 0 then Fault OutOfBounds else at_index (l !! Z.to_nat i).
Definition list_row (x y w : Z) (items : list ListItem) (selected scroll : Z) (ws : WidgetStyle) (i : Z) : exec (list ascii) :=
  row ← (if i + scroll <? Z.of_nat (length items) then
           let idx := i + scroll in
           it ← at_z items idx;
           label ← deref (li_label it);
           let len := Z.min (strlen label) (w - 2) in
           Done ((if idx =? selected then accent ws else set_style (Some ws)) ++ " "%char :: precision len (chars label) ++ spaces (w - (len + 1)))
         else Done (set_style (Some ws) ++ spaces w) : exec (list ascii));
  Done (goto (y + 1 + i) (x + 1) ++ row ++ set_style None).
Definition scroll_of (selected h : Z) : Z :=
  let scroll := if h <=? selected then selected - h + 1 else 0 in
  if selected <? scroll then selected else scroll.
(** The texts of a list of runs, in order. *)
Fixpoint all_of {A} (f : A -> exec (list ascii)) (l : list A) : exec (list ascii) :=
  match l with [] => Done [] | a :: l' => s ← f a; t ← all_of f l'; Done (s ++ t) end.
Definition counted (n : Z) : list Z := map Z.of_nat (seq 0 (Z.to_nat n)).
Definition draw_list (x y w h : Z) (items : list ListItem) (selected : Z) (ws : WidgetStyle) : exec (list ascii) :=
  if (h <=? 0) || (w <=? 0) then Done [] else
  all_of (list_row x y w items selected (scroll_of selected h) ws) (counted h).

(** ** The calendar *)

Definition months : list string := ["Jan"; "Feb"; "Mar"; "Apr"; "May"; "Jun"; "Jul"; "Aug"; "Sep"; "Oct"; "Nov"; "Dec"]%string.
Definition days_in_month (year month : Z) : Z :=
  if (month =? 4) || (month =? 6) || (month =? 9) || (month =? 11) then 30
  else if month =? 2 then
    (if (cmod year 4 =? 0) && (negb (cmod year 100 =? 0) || (cmod year 400 =? 0)) then 29 else 28)
  else 31.
Definition first_dow (year month : Z) : Z :=
  let m := if month <? 3 then month + 12 else month in
  let y_adj := if month <? 3 then year - 1 else year in
  let h := cmod (1 + cdiv (13 * (m + 1)) 5 + y_adj + cdiv y_adj 4 - cdiv y_adj 100 + cdiv y_adj 400) 7 in
  cmod (h + 6) 7.
(** "%2d" *)
Definition two_wide (n : Z) : list ascii := let s := int_chars n in spaces (2 - Z.of_nat (length s)) ++ s.
Definition not_negative (n : Z) : Z := if n <? 0 then 0 else n.
Definition calendar_day (x y dow_pad first selected_day : Z) (ws : WidgetStyle) (day : Z) : list ascii :=
  let n := first + day - 1 in
  let row := 2 + cdiv n 7 in
  let col := 1 + dow_pad + cmod n 7 * 3 in
  goto (y + row + 1) (x + col) ++ (if day =? selected_day then accent ws else []) ++ two_wide day ++ set_style None.
Definition draw_calendar (x y w year month selected_day : Z) (ws : WidgetStyle) : exec (list ascii) :=
  name ← at_z months (month - 1);
  (** [char title\[32\]] *)
  let title := take 31 (chars name ++ " "%char :: int_chars year) in
  let dow := chars "Su Mo Tu We Th Fr Sa" in
  let dow_pad := not_negative (cdiv (w - Z.of_nat (length dow)) 2) in
  Done (goto (y + 1) (x + 1) ++ set_style (Some ws) ++
    spaces (not_negative (cdiv (w - Z.of_nat (length title)) 2)) ++ title ++ set_style None ++
    goto (y + 2) (x + 1) ++ spaces dow_pad ++ dow ++
    concat (map (fun i => calendar_day x y dow_pad (first_dow year month) selected_day ws (i + 1)) (counted (days_in_month year month)))).

(** ** Trees *)

(** [Flat flat\[256\]]. The children of an open node are an array of pointers,
    which the recursive call takes for an array of nodes: it reads behind it. *)
Fixpoint flatten2 (n : list TreeNode) (depth : Z) (flat : list (Z * TreeNode)) : exec (list (Z * TreeNode)) :=
  match n with
  | [] => Done flat
  | x :: n' =>
      if (256 <=? length flat)%nat then Fault OutOfBounds else
      match x with
      | mkTreeNode _ true (_ :: _) => Fault OutOfBounds
      | _ => flatten2 n' depth (flat ++ [(depth, x)])
      end
  end.
Definition tree_row (x y : Z) (ws : WidgetStyle) (i : Z) (f : Z * TreeNode) : list ascii :=
  let '(depth, mkTreeNode label expanded children) := f in
  goto (y + 1 + i) (x + 1) ++ set_style (Some ws) ++ spaces (depth * 2) ++
  chars (if (0 <? length children)%nat then if expanded then "▼ " else "▶ " else "  ")%string ++ chars label ++ set_style None.
Definition draw_tree (x y h : Z) (nodes : list TreeNode) (selected_path : option Z) (ws : WidgetStyle) : exec (list ascii) :=
  flat ← flatten2 nodes 0 [];
  let s := default 0 selected_path in
  let scroll := if h <=? s then s - h + 1 else 0 in
  all_of (fun i => f ← at_z flat (i + scroll); Done (tree_row x y ws i f))
    (counted (Z.min h (Z.of_nat (length flat) - scroll))).

(** ** Nodes that print one line *)

(** "%-20s" *)
Definition cell20 (s : string) : list ascii := chars s ++ spaces (20 - strlen s).
Definition spinner_frames : list string := ["⠋"; "⠙"; "⠹"; "⠸"; "⠼"; "⠴"; "⠦"; "⠧"; "⠇"; "⠏"]%string.
Definition text_of (o : option string) : string := default EmptyString o.
Definition styled_line (x y : Z) (ws : WidgetStyle) (s : list ascii) : list ascii :=
  set_style (Some ws) ++ goto (y + 1) (x + 1) ++ s ++ set_style None.
Definition input_line (w : Z) (text placeholder : option string) (masked : bool) : list ascii :=
  if masked then
    let len := strlen (text_of text) in
    replicate (Z.to_nat (Z.min len (w - 2))) "*"%char ++ (if len =? 0 then chars (text_of placeholder) else [])
  else
    let t := if decide (text_of text = EmptyString) then text_of placeholder else text_of text in
    chars "> " ++ precision (w - 4) (chars t).
Definition draw_separator (x y w h : Z) (o : Orientation) : list ascii :=
  match o with
  | ORIENT_HORIZONTAL => rows 0 w (fun i => goto (y + 1) (x + i + 1) ++ chars "─")
  | ORIENT_VERTICAL => rows 0 h (fun i => goto (y + i + 1) (x + 1) ++ chars "│")
  end.
Definition left_aligned (content : option string) (x y w h : Z) (ws : WidgetStyle) : list ascii :=
  match content with
  | None | Some EmptyString => []
  | Some s => draw_text_wrapped x y w h (Some s) ALIGN_LEFT ws (-1)
  end.
Definition draw_leaf (x y w h : Z) (ws : WidgetStyle) (l : Leaf) : exec (list ascii) :=
  match l with
  | RNODE_SPINNER message frame =>
      f ← at_z spinner_frames (cmod frame 10); m ← deref message;
      Done (styled_line x y ws (chars f ++ " "%char :: chars m))
  | RNODE_SEPARATOR o => Done (draw_separator x y w h o)
  | RNODE_BADGE text => t ← deref text; Done (styled_line x y ws (chars t))
  | RNODE_TOAST message =>
      m ← deref message;
      Done (goto (y + h - 1) (x + 1) ++ set_style (Some ws) ++ " "%char :: chars m ++ [" "%char] ++ set_style None)
  | RNODE_VECTOR path _ _ _ => Done (styled_line x y ws (chars "[Vector: " ++ chars (text_of path) ++ chars "]"))
  | RNODE_RICH_TEXT spans => Done (left_aligned spans x y w h ws)
  | RNODE_IMAGE source _ _ _ => Done (styled_line x y ws (chars "[Image: " ++ chars (text_of source) ++ chars "]"))
  | RNODE_CANVAS _ _ _ => Done (styled_line x y ws (chars "[Canvas]"))
  | RNODE_MARKDOWN content => Done (left_aligned content x y w h ws)
  | RNODE_PLOT ty _ _ => Done (styled_line x y ws (chars "[Plot: " ++ chars (default "line"%string ty) ++ chars "]"))
  | RNODE_VIDEO _ _ => Done (styled_line x y ws (chars "[Video]"))
  end.

(** ** Tables, gauges, forms, tabs *)

Definition table_row (x y : Z) (columns : nat) (selected_row : Z) (ws : WidgetStyle) (rws : list (list string)) (r : Z) : exec (list ascii) :=
  cells ← at_z rws r;
  line ← all_of (fun c => s ← at_z cells c; Done (cell20 s)) (counted (Z.of_nat columns));
  Done (goto (y + r + 2) (x + 1) ++ (if selected_row =? r then accent ws else []) ++ line ++ set_style None).
Definition draw_table (x y h : Z) (headers : list string) (rws : list (list string)) (selected_row : Z) (ws : WidgetStyle) : exec (list ascii) :=
  body ← all_of (table_row x y (length headers) selected_row ws rws) (counted (Z.min (Z.of_nat (length rws)) (h - 1)));
  Done (goto (y + 1) (x + 1) ++ set_style (Some ws) ++ concat (map cell20 headers) ++ set_style None ++ body).
Definition draw_gauge (x y w percent : Z) (label : option string) (ws : WidgetStyle) : exec (list ascii) :=
  l ← deref label;
  let f := cdiv (w * percent) 100 in
  Done (set_style (Some ws) ++ goto (y + 1) (x + 1) ++ chars l ++ " "%char :: int_chars percent ++ chars "%" ++
    goto (y + 2) (x + 1) ++ replicate (Z.to_nat f) "="%char ++ replicate (Z.to_nat (w - f)) "-"%char ++ set_style None).
Definition form_row (x y : Z) (ws : WidgetStyle) (i : nat) (f : FormField) : list ascii :=
  goto (y + 1 + Z.of_nat i) (x + 1) ++ set_style (Some ws) ++ chars (ff_label f) ++ chars ": " ++ ff_value f ++ set_style None.
Definition draw_form (x y h : Z) (fields : list FormField) (submit_label : option string) (ws : WidgetStyle) : exec (list ascii) :=
  let n := Z.of_nat (length fields) in
  submit ← (if n <? h then
              s ← deref submit_label;
              Done (goto (y + n + 1) (x + 1) ++ set_style (Some ws) ++ chars "[ " ++ chars s ++ chars " ]" ++ set_style None)
            else Done [] : exec (list ascii));
  Done (concat (imap (form_row x y ws) (take (Z.to_nat h) fields)) ++ submit).
Fixpoint draw_tab_labels (x y lw i active : Z) (labels : list string) (ws : WidgetStyle) : list ascii :=
  match labels with
  | [] => []
  | l :: labels' =>
      goto (y + 1) (x + 1 + lw) ++ set_style (Some ws) ++
      (if i =? active then chars "[ " ++ chars l ++ chars " ]" else chars "  " ++ chars l ++ chars "  ") ++ set_style None ++
      draw_tab_labels x y (lw + strlen l + 4) (i + 1) active labels' ws
  end.
Definition context_row (x y : Z) (ws : WidgetStyle) (i : Z) (it : ListItem) : exec (list ascii) :=
  l ← deref (li_label it);
  Done (goto (y + 1 + i) (x + 1) ++ set_style (Some ws) ++ " "%char :: chars l ++ [" "%char] ++ set_style None).
Definition draw_context_menu (x y h : Z) (items : list ListItem) (ws : WidgetStyle) : exec (list ascii) :=
  all_of (fun i => it ← at_z items i; context_row x y ws i it) (counted (Z.min (Z.of_nat (length items)) h)).

(** ** Animations on a terminal *)

Section render.
Variable reg : Registry.
(** The running animations of the node at a path, and the time. *)
Variable anims : list nat -> list AnimInstance.
Variable now_ms : Z.

(** The first animation in the list that plays and is of the kind. *)
Fixpoint playing_as (k : TuiAnimType -> bool) (l : list AnimInstance) : exec (option (AnimInstance * AnimationDef)) :=
  match l with
  | [] => Done None
  | inst :: l' =>
      if negb (playing inst) || paused inst then playing_as k l' else
      d ← def_at reg (def inst);
      if k (tui_type d) then Done (Some (inst, d)) else playing_as k l'
  end.
Definition is_kind (k t : TuiAnimType) : bool := bool_decide (k = t).
Definition has_tui_animation (l : list AnimInstance) : exec bool :=
  o ← playing_as (fun t => negb (is_kind TUI_ANIM_NONE t)) l; Done (match o with Some _ => true | None => false end).
Definition tui_progress (inst : AnimInstance) (d : AnimationDef) : float :=
  let p := f_div (f_of_Z (now_ms - start_time inst)) (f_of_Z (duration_ms d)) in
  let p := if SFltb p f_zero then f_zero else p in
  if SFltb f1 p then f1 else p.
(** [easing_apply(EASE_OUT, progress)] is [ease_out_quad]. *)
Definition slide_by (origin : AnimInstance -> Z) (l : list AnimInstance) : exec Z :=
  o ← playing_as (is_kind TUI_ANIM_SLIDE_IN) l;
  Done (match o with
    | Some (inst, d) => f_to_int (f_mul (f_of_Z (origin inst)) (f_sub f1 (ease_out_quad (tui_progress inst d))))
    | None => 0
    end).
Definition get_slide_offset_x : list AnimInstance -> exec Z := slide_by slide_origin_x.
Definition get_slide_offset_y : list AnimInstance -> exec Z := slide_by slide_origin_y.
Definition get_fade_amount (l : list AnimInstance) : exec float :=
  o ← playing_as (is_kind TUI_ANIM_FADE) l;
  Done (match o with Some (inst, d) => tui_progress inst d | None => f1 end).
Definition get_typewriter_chars (l : list AnimInstance) : exec Z :=
  o ← playing_as (is_kind TUI_ANIM_TYPEWRITER) l;
  Done (match o with Some (inst, _) => typewriter_pos inst | None => -1 end).

(** ** The walk over the tree *)

(** What a node with nothing below it prints. *)
Definition draw_content {T} (x y w h : Z) (ws : WidgetStyle) (fade : float) (typewriter : Z) (c : Content T) : exec (list ascii) :=
  match c with
  | RNODE_TEXT content _ =>
      Done ((if SFltb fade f1 then set_dim_style ws fade else []) ++ draw_text_wrapped x y w h content (text_align ws) ws typewriter)
  | RNODE_LIST items selected => draw_list x y w h items selected ws
  | RNODE_INPUT text placeholder _ masked =>
      Done (set_style (Some ws) ++ goto (y + 1) (x + 1) ++ spaces w ++ goto (y + 1) (x + 1) ++
        input_line w text placeholder masked ++ set_style None)
  | RNODE_CHECKBOX label checked _ =>
      l ← deref label; Done (styled_line x y ws ((if checked then chars "[x]" else chars "[ ]") ++ " "%char :: chars l))
  | RNODE_TOGGLE label value _ =>
      l ← deref label; Done (styled_line x y ws (chars "[ " ++ (if value then chars "ON" else chars "OFF") ++ chars " ] " ++ chars l))
  | RNODE_CURSOR cx cy => Done (goto (y + cy + 1) (x + cx + 1) ++ csi_seq (chars "7") "m" ++ " "%char :: reset)
  | RNODE_TABLE headers rws selected_row _ => draw_table x y h headers rws selected_row ws
  | RNODE_TREE nodes selected_path => draw_tree x y h nodes selected_path ws
  | RNODE_GAUGE percent label => draw_gauge x y w percent label ws
  | RNODE_CALENDAR year month selected_day => draw_calendar x y w year month selected_day ws
  | RNODE_FORM fields _ submit_label => draw_form x y h fields submit_label ws
  | RNODE_CONTEXT_MENU items _ => draw_context_menu x y h items ws
  | RNODE_LEAF l => draw_leaf x y w h ws l
  | RNODE_CONTAINER _ _ _ _ | RNODE_TABS _ _ _ | RNODE_SPLIT_PANES _ _ _ _ _ _ | RNODE_FLEX _ _ _ _ _ | RNODE_GRID _ _ _ => Done []
  end.
(** The border of a container, and its inside cleared. *)
Definition draw_frame (x y w h : Z) (border : BorderStyle) (ws : WidgetStyle) : list ascii :=
  match border with
  | BORDER_NONE => []
  | b => draw_box x y w h b ws ++ fill_rect (x + 1) (y + 1) (w - 2) (h - 2)
  end.
Definition split_at (o : Orientation) (split_position w h : Z) : Z :=
  if 0 <? split_position then split_position else match o with ORIENT_HORIZONTAL => cdiv w 2 | ORIENT_VERTICAL => cdiv h 2 end.

Fixpoint render_node (path : list nat) (t : RenderTree) (off_x off_y max_w max_h : Z) (parent_dirty : bool) {struct t} :
    exec (RenderTree * list ascii) :=
  let all := fix all (k : nat) (l : list RenderTree) (x y w h : Z) (d : bool) : exec (list RenderTree * list ascii) :=
    match l with
    | [] => Done ([], [])
    | c :: l' =>
        '(c', s) ← render_node (path ++ [k]) c x y w h d;
        '(l'', s') ← all (S k) l' x y w h d;
        Done (c' :: l'', s ++ s')
    end in
  let one (k : nat) (o : option RenderTree) (x y w h : Z) (d : bool) : exec (option RenderTree * list ascii) :=
    match o with
    | Some c => '(c', s) ← render_node (path ++ [k]) c x y w h d; Done (Some c', s)
    | None => Done (None, [])
    end in
  match t with
  | mkTree i c =>
      if (rw (rect i) <=? 0) || (rh (rect i) <=? 0) then Done (mkTree i c, []) else
      shown ← (if dirty i || parent_dirty then Done true else has_tui_animation (anims path) : exec bool);
      if negb shown then Done (mkTree i c, []) else
      let self_dirty := dirty i in
      let i := set_dirty false i in
      slide_x ← get_slide_offset_x (anims path);
      slide_y ← get_slide_offset_y (anims path);
      fade ← get_fade_amount (anims path);
      typewriter ← get_typewriter_chars (anims path);
      let x := off_x + rx (rect i) + slide_x in
      let y := off_y + ry (rect i) + slide_y in
      let w := Z.min (rw (rect i)) (max_w - rx (rect i)) in
      let h := Z.min (rh (rect i)) (max_h - ry (rect i)) in
      if (w <=? 0) || (h <=? 0) then Done (mkTree i c, []) else
      let ws := resolved_style i in
      if SFltb fade (f_lit 5 2) then Done (mkTree i c, []) else
      let d := self_dirty || parent_dirty in
      match c with
      | RNODE_CONTAINER bg border p ch =>
          '(ch', s) ← all 0%nat ch (x + left p) (y + top p) (w - left p - right p) (h - top p - bottom p) d;
          Done (mkTree i (RNODE_CONTAINER bg border p ch'), draw_frame x y w h border ws ++ s)
      | RNODE_FLEX dir wr j a ch => '(ch', s) ← all 0%nat ch x y w h d; Done (mkTree i (RNODE_FLEX dir wr j a ch'), s)
      | RNODE_GRID cs rs ch => '(ch', s) ← all 0%nat ch x y w h d; Done (mkTree i (RNODE_GRID cs rs ch'), s)
      | RNODE_TABS labels active child =>
          '(child', s) ← (if 1 <? h then one 0%nat child x (y + 1) w (h - 1) d else Done (child, []) : exec (option RenderTree * list ascii));
          Done (mkTree i (RNODE_TABS labels active child'), draw_tab_labels x y 0 0 active labels ws ++ s)
      | RNODE_SPLIT_PANES ORIENT_HORIZONTAL s1 s2 first second third =>
          let sp := split_at ORIENT_HORIZONTAL s1 w h in
          '(first', s) ← one 0%nat first x y sp h d;
          '(second', s') ← one 1%nat second (x + sp + 1) y (w - sp - 1) h d;
          Done (mkTree i (RNODE_SPLIT_PANES ORIENT_HORIZONTAL s1 s2 first' second' third),
            s ++ rows 0 h (fun iy => goto (y + 1 + iy) (x + sp + 1) ++ chars "│") ++ s')
      | RNODE_SPLIT_PANES ORIENT_VERTICAL s1 s2 first second third =>
          let sp := split_at ORIENT_VERTICAL s1 w h in
          '(first', s) ← one 0%nat first x y w sp d;
          '(second', s') ← one 1%nat second x (y + sp + 1) w (h - sp - 1) d;
          Done (mkTree i (RNODE_SPLIT_PANES ORIENT_VERTICAL s1 s2 first' second' third),
            s ++ goto (y + sp + 1) (x + 1) ++ times w (chars "─") ++ s')
      | c => s ← draw_content x y w h ws fade typewriter c; Done (mkTree i c, s)
      end
  end.

Definition render_tree_to_buf (tree : option RenderTree) (off_x off_y max_w max_h buf_sz : Z) : exec (option RenderTree * list ascii) :=
  if buf_sz <=? 0 then Fault OutOfBounds else
  match tree with
  | None => Done (None, [])
  | Some t =>
      '(t', s) ← render_node [] t off_x off_y max_w max_h true;
      Done (Some t', buf_printf buf_sz (csi_seq (chars "2") "J" ++ Tty.esc "[H" ++ s ++ reset) [])
  end.
End render.

(** [term_draw]: the buffer has half a megabyte; the screen is cleared once more
    before the text is sent. *)
Definition term_draw (reg : Registry) (anims : list nat -> list AnimInstance) (now_ms : Z) (winsize : option (Z * Z)) (tree : option RenderTree) :
    exec (option RenderTree * list ascii) :=
  let '(w, h) := Tty.term_get_size winsize in
  '(t, buf) ← render_tree_to_buf reg anims now_ms tree 0 0 w h 524288;
  Done (t, csi_seq (chars "2") "J" ++ Tty.esc "[H" ++ buf).

(** ** What a terminal shows

    A terminal as the text addresses it: rows and columns count from 1, every
    character takes a cell, attributes last until the next reset, and nothing
    scrolls or wraps. Bytes above 127 are UTF-8. *)

Module Screen.

Inductive mode := Ground | Escape | Control (params : list ascii) | Multi (left : nat) (bytes : list ascii).
(** A cell: its character and its attributes. *)
Abbreviation cell := (list ascii * list ascii)%type.
Record screen := mk { state_of : mode; row : Z; col : Z; attr : list ascii; cells : gmap (Z * Z) cell }.
Definition blank : screen := mk Ground 1 1 [] ∅.

Definition set_mode (m : mode) (s : screen) : screen := mk m (row s) (col s) (attr s) (cells s).
Definition put (g : list ascii) (s : screen) : screen :=
  mk Ground (row s) (col s + 1) (attr s) (<[(row s, col s) := (g, attr s)]> (cells s)).
Definition sgr (params old : list ascii) : list ascii :=
  match params with "0"%char :: _ => params | _ => old ++ ";"%char :: params end.
Definition control (params : list ascii) (final : ascii) (s : screen) : screen :=
  if Ascii.eqb final "H" then
    let v := scan_ints ";" 2 params in mk Ground (default 1 (v !! 0%nat)) (default 1 (v !! 1%nat)) (attr s) (cells s)
  else if Ascii.eqb final "J" then mk Ground (row s) (col s) (attr s) ∅
  else if Ascii.eqb final "m" then mk Ground (row s) (col s) (sgr params (attr s)) (cells s)
  else set_mode Ground s.
Definition is_final_byte (c : ascii) : bool := (64 <=? uchar c) && (uchar c <=? 126).
(** How many bytes follow the first one of a character. *)
Definition follow (c : ascii) : nat :=
  let n := uchar c in if n <? 192 then 0 else if n <? 224 then 1 else if n <? 240 then 2 else 3.
Definition step (s : screen) (c : ascii) : screen :=
  match state_of s with
  | Ground =>
      if uchar c =? 27 then set_mode Escape s
      else if uchar c <? 32 then s
      else if uchar c <? 127 then put [c] s
      else match follow c with O => s | n => set_mode (Multi n [c]) s end
  | Escape => if Ascii.eqb c "[" then set_mode (Control []) s else set_mode Ground s
  | Control params => if is_final_byte c then control params c s else set_mode (Control (params ++ [c])) s
  | Multi n bytes =>
      match n with
      | S (S n') => set_mode (Multi (S n') (bytes ++ [c])) s
      | _ => put (bytes ++ [c]) s
      end
  end.
Definition run (s : screen) (text : list ascii) : screen := foldl step s text.

Lemma run_app s a b : run s (a ++ b) = run (run s a) b.
Proof. apply foldl_app. Qed.

(** *** Sequences *)

Definition param (c : ascii) : Prop := is_final_byte c = false.
Lemma run_params ps : forall acc s, Forall param ps -> run (set_mode (Control acc) s) ps = set_mode (Control (acc ++ ps)) s.
Proof.
  induction ps as [|c ps IH]; intros acc s Hp; [by rewrite app_nil_r|]. inversion_clear Hp as [|? ? Hc Hps].
  change (run (step (set_mode (Control acc) s) c) ps = set_mode (Control (acc ++ c :: ps)) s). cbn [step state_of set_mode].
  rewrite Hc. change (mk (Control (acc ++ [c])) (row s) (col s) (attr s) (cells s)) with (set_mode (Control (acc ++ [c])) s).
  rewrite IH by done. by rewrite <-app_assoc.
Qed.
Lemma run_csi s ps final : state_of s = Ground -> Forall param ps -> is_final_byte final = true ->
  run s (csi_seq ps final) = control ps final s.
Proof.
  intros Hs Hp Hf. unfold csi_seq, Tty.esc. cbn [app]. change ("027"%char :: chars "[" ++ ps ++ [final]) with (["027"%char; "["%char] ++ ps ++ [final]).
  rewrite !run_app. assert (run s ["027"%char; "["%char] = set_mode (Control []) s) as -> by (destruct s; cbn in Hs; subst; reflexivity).
  rewrite run_params by done. cbn [app]. unfold run. cbn [foldl step state_of set_mode]. rewrite Hf. by destruct s.
Qed.

Lemma dec_params n : Forall is_dec (dec_chars n) -> Forall param (dec_chars n).
Proof.
  intros H. refine (List.Forall_impl _ _ H). intros c Hc. unfold is_dec, isdigit in Hc. simp_bool. unfold param, is_final_byte.
  apply andb_false_iff. left. apply Z.leb_gt. lia.
Qed.
Definition coord (z : Z) : Prop := 0 <= z <= INT_MAX.
Lemma coord_digits z : coord z -> Forall is_dec (dec_chars z).
Proof. intros Hz. unfold coord, INT_MAX in Hz. destruct (dec_chars_value z) as (H & _); [lia|done]. Qed.
Lemma int_chars_coord z : coord z -> int_chars z = dec_chars z.
Proof. intros [Hz _]. unfold int_chars. destruct (Z.ltb_spec z 0); [lia|done]. Qed.
Lemma int_params z : coord z -> Forall param (int_chars z).
Proof. intros Hz. rewrite int_chars_coord by done. by apply dec_params, coord_digits. Qed.
Lemma param_semicolon : param ";"%char.
Proof. reflexivity. Qed.

(** A text that leaves the cursor where it was put, and only there: it moves to
    [(r, c)]. *)
Lemma run_goto s r c : state_of s = Ground -> coord r -> coord c -> run s (goto r c) = mk Ground r c (attr s) (cells s).
Proof.
  intros Hs Hr Hc. unfold goto. rewrite run_csi; [|done| |done].
  - unfold control. cbn [Ascii.eqb Bool.eqb]. rewrite !int_chars_coord by done. cbn [scan_ints].
    rewrite Keyboard.scan_d_dec by done. rewrite Ascii.eqb_refl. cbn [scan_ints].
    assert (scan_d (dec_chars c) = Some (c, [])) as ->. { rewrite <-(app_nil_r (dec_chars c)). by apply Keyboard.scan_d_dec. }
    done.
  - apply Forall_app. split; [by apply int_params|]. apply List.Forall_cons; [exact param_semicolon|by apply int_params].
Qed.

(** *** Texts that print in their line *)

(** No beginning of the text shows anything. *)
Definition quiet (text : list ascii) : Prop := forall s k, state_of s = Ground -> (k < length text)%nat -> cells (run s (take k text)) = cells s.
Lemma quiet_csi ps final : Forall param ps -> quiet (csi_seq ps final).
Proof.
  intros Hp s k Hs Hk. unfold csi_seq, Tty.esc in *. cbn [app chars] in *. change (chars "[") with ["["%char] in *. cbn [app length] in Hk. rewrite length_app in Hk. cbn [length] in Hk.
  destruct k as [|[|k]]; [done|destruct s; cbn in Hs; by subst|]. cbn [take app]. rewrite take_app_le by lia.
  change (run s (?a :: ?b :: ?l)) with (run (run s [a; b]) l).
  assert (run s ["027"%char; "["%char] = set_mode (Control []) s) as -> by (destruct s; cbn in Hs; subst; reflexivity).
  by rewrite run_params by (by apply Forall_take).
Qed.

(** While the text is read, [n] cells from the cursor on may be new; after it the
    cursor is behind them. *)
Definition prints (n : Z) (text : list ascii) : Prop :=
  0 <= n /\ forall s, state_of s = Ground ->
  state_of (run s text) = Ground /\ row (run s text) = row s /\ col (run s text) = col s + n /\
  forall k r c, ~ (r = row s /\ col s <= c < col s + n) -> cells (run s (take k text)) !! (r, c) = cells s !! (r, c).

Lemma run_take s k text : (length text <= k)%nat -> run s (take k text) = run s text.
Proof. intros H. by rewrite take_ge. Qed.
(** The beginnings of two texts. *)
Lemma run_take_app (P : screen -> Prop) s k a b : P (run s (take k a)) -> (forall j, P (run (run s a) (take j b))) -> P (run s (take k (a ++ b))).
Proof.
  intros Ha Hb. rewrite take_app, run_app. destruct (Nat.le_gt_cases k (length a)).
  - replace (k - length a)%nat with O by lia. exact Ha.
  - rewrite (run_take s k a) by lia. apply Hb.
Qed.

Lemma prints_nil : prints 0 [].
Proof. split; [lia|]. intros s Hs. cbn. split; [done|]. split; [done|]. split; [lia|]. intros [|k]; done. Qed.
Lemma prints_app n m a b : prints n a -> prints m b -> prints (n + m) (a ++ b).
Proof.
  intros [Hn Ha] [Hm Hb]. split; [lia|]. intros s Hs. rewrite run_app. destruct (Ha s Hs) as (A1 & A2 & A3 & A4).
  destruct (Hb _ A1) as (B1 & B2 & B3 & B4). rewrite B2, B3, A2, A3. split; [done|]. split; [done|]. split; [lia|].
  intros k r c Hrc. apply (run_take_app (fun t => cells t !! (r, c) = _)); [apply A4; lia|]. intros j. rewrite B4 by (rewrite A2, A3; lia).
  rewrite <-(run_take s (length a) a) by lia. apply A4. lia.
Qed.
(** A sequence that shows nothing before its end. *)
Lemma quiet_prefix (P : screen -> Prop) s text k : quiet text -> state_of s = Ground -> (forall t, cells t = cells s -> P t) -> P (run s text) -> P (run s (take k text)).
Proof.
  intros Hq Hs HP H. destruct (Nat.lt_ge_cases k (length text)); [apply HP, Hq; done|by rewrite run_take].
Qed.
Lemma prints_style ps : Forall param ps -> prints 0 (csi_seq ps "m").
Proof.
  intros Hp. split; [lia|]. intros s Hs. pose proof (run_csi s ps "m" Hs Hp eq_refl) as E. split; [by rewrite E|]. split; [by rewrite E|]. split; [rewrite E; cbn; lia|].
  intros k r c _. apply (quiet_prefix (fun t => cells t !! (r, c) = _)); [by apply quiet_csi|done|by intros t ->|]. by rewrite E.
Qed.
Lemma prints_put n text : quiet text -> (forall s, state_of s = Ground -> exists g, run s text = put g s) -> n = 1 -> prints n text.
Proof.
  intros Hq H ->. split; [lia|]. intros s Hs. destruct (H s Hs) as [g E]. split; [by rewrite E|]. split; [by rewrite E|]. split; [by rewrite E|].
  intros k r c Hrc. apply (quiet_prefix (fun t => cells t !! (r, c) = _)); [done|done|by intros t ->|]. rewrite E.
  apply lookup_insert_ne. intros [= <- <-]. lia.
Qed.
Definition printable (c : ascii) : Prop := 32 <= uchar c <= 126.
Lemma printable_step s c : state_of s = Ground -> printable c -> step s c = put [c] s.
Proof.
  intros Hs Hc. unfold printable in Hc. unfold step. rewrite Hs. destruct (Z.eqb_spec (uchar c) 27); [lia|].
  destruct (Z.ltb_spec (uchar c) 32); [lia|]. destruct (Z.ltb_spec (uchar c) 127); [done|lia].
Qed.
Lemma prints_char c : printable c -> prints 1 [c].
Proof. intros Hc. apply prints_put; [intros s [|k] Hs Hk; [done|cbn in Hk; lia]| |done]. intros s Hs. exists [c]. cbn. by apply printable_step. Qed.
Lemma prints_text l : Forall printable l -> prints (Z.of_nat (length l)) l.
Proof.
  induction 1 as [|c l Hc _ IH]; [exact prints_nil|]. replace (Z.of_nat (length (c :: l))) with (1 + Z.of_nat (length l)) by (cbn [length]; lia).
  apply (prints_app 1 _ [c] l); [by apply prints_char|done].
Qed.
Lemma prints_replicate n c : printable c -> prints (Z.of_nat n) (replicate n c).
Proof. intros Hc. rewrite <-(length_replicate n c) at 1. apply prints_text. by apply list.Forall_replicate. Qed.
Lemma prints_spaces n : prints (Z.max 0 n) (spaces n).
Proof. replace (Z.max 0 n) with (Z.of_nat (Z.to_nat n)) by lia. by apply prints_replicate. Qed.
Lemma prints_times n k s : prints k s -> 0 <= n -> prints (n * k) (times n s).
Proof.
  intros Hs Hn. unfold times. rewrite <-(Z2Nat.id n Hn) at 1. induction (Z.to_nat n) as [|m IH]; [exact prints_nil|].
  cbn [replicate concat]. replace (Z.of_nat (S m) * k) with (k + Z.of_nat m * k) by lia. by apply prints_app.
Qed.
(** The lines and corners of borders, the dots of a spinner. *)
Definition wide_glyph (s : string) : Prop :=
  match chars s with [a; b; c] => 224 <= uchar a < 240 | _ => False end.
Lemma prints_glyph s : wide_glyph s -> prints 1 (chars s).
Proof.
  unfold wide_glyph. intros Hs. destruct (chars s) as [|a [|b [|c [|]]]]; try done.
  assert (forall t, state_of t = Ground -> step t a = set_mode (Multi 2 [a]) t) as Ha; [|apply prints_put; [|intros t Ht; exists [a; b; c]; cbn; by rewrite Ha|done]].
  2: { intros t [|[|[|k]]] Ht Hk; [done|cbn; by rewrite Ha|cbn; by rewrite Ha|cbn in Hk; lia]. }
  intros t Ht. unfold step. rewrite Ht.
  destruct (Z.eqb_spec (uchar a) 27); [lia|]. destruct (Z.ltb_spec (uchar a) 32); [lia|]. destruct (Z.ltb_spec (uchar a) 127); [lia|].
  assert (follow a = 2%nat) as ->.
  { unfold follow. destruct (Z.ltb_spec (uchar a) 192); [lia|]. destruct (Z.ltb_spec (uchar a) 224); [lia|]. destruct (Z.ltb_spec (uchar a) 240); [done|lia]. }
  reflexivity.
Qed.

Lemma cells_goto s r c k : state_of s = Ground -> coord r -> coord c -> cells (run s (take k (goto r c))) = cells s.
Proof.
  intros Hs Hr Hc. apply (quiet_prefix (fun t => cells t = cells s)); [|done|done|by rewrite run_goto]. apply quiet_csi.
  apply Forall_app. split; [by apply int_params|]. apply List.Forall_cons; [exact param_semicolon|by apply int_params].
Qed.

(** *** Texts that stay in a region *)

Definition region : Type := Z -> Z -> Prop.
Definition confined (R : region) (text : list ascii) : Prop :=
  forall s, state_of s = Ground -> state_of (run s text) = Ground /\
    forall k r c, ~ R r c -> cells (run s (take k text)) !! (r, c) = cells s !! (r, c).
Lemma confined_cells R text s : confined R text -> state_of s = Ground -> forall r c, ~ R r c -> cells (run s text) !! (r, c) = cells s !! (r, c).
Proof. intros H Hs r c Hrc. rewrite <-(run_take s (length text) text) by lia. by apply H. Qed.

Lemma confined_nil R : confined R [].
Proof. intros s Hs. by split; [|intros [|k]]. Qed.
Lemma confined_app R a b : confined R a -> confined R b -> confined R (a ++ b).
Proof.
  intros Ha Hb s Hs. rewrite run_app. destruct (Ha s Hs) as [A1 A2]. destruct (Hb _ A1) as [B1 B2]. split; [done|].
  intros k r c Hrc. apply (run_take_app (fun t => cells t !! (r, c) = _)); [by apply A2|]. intros j. rewrite B2 by done. by apply (confined_cells R).
Qed.
Lemma confined_mono (R S : region) a : (forall r c, R r c -> S r c) -> confined R a -> confined S a.
Proof. intros HRS Ha s Hs. destruct (Ha s Hs) as [A1 A2]. split; [done|]. intros k r c Hrc. apply A2. by intros ?%HRS. Qed.
Lemma confined_concat R ls : Forall (confined R) ls -> confined R (concat ls).
Proof. induction 1 as [|a ls Ha _ IH]; [apply confined_nil|]. by apply confined_app. Qed.
Lemma confined_style R a : prints 0 a -> confined R a.
Proof. intros [_ H] s Hs. destruct (H s Hs) as (H1 & _ & _ & H4). split; [done|]. intros k r c _. apply H4. lia. Qed.
Lemma confined_at (R : region) r c n a : coord r -> coord c -> prints n a -> (forall k, c <= k < c + n -> R r k) -> confined R (goto r c ++ a).
Proof.
  intros Hr Hc [Hn Ha] HR s Hs. rewrite run_app, run_goto by done. destruct (Ha (mk Ground r c (attr s) (cells s)) eq_refl) as (A1 & A2 & A3 & A4).
  split; [done|]. intros k r' c' Hrc. apply (run_take_app (fun t => cells t !! (r', c') = _)); [by rewrite cells_goto|]. intros j. rewrite run_goto by done. rewrite A4; [done|]. cbn. intros [-> Hk]. apply Hrc. by apply HR.
Qed.
End Screen.

(** ** What the drawings print *)

Module Drawn.
Import Screen.

Lemma byte_coord c k : coord (byte_at c k).
Proof. unfold coord, byte_at, INT_MAX. change 255 with (Z.ones 8). rewrite Z.land_ones by lia. pose proof (Z.mod_pos_bound (Z.shiftr c k) (2 ^ 8)). lia. Qed.
Lemma rgb_param r g b : coord r -> coord g -> coord b -> Forall param (rgb_params r g b).
Proof.
  intros Hr Hg Hb. unfold rgb_params. apply Forall_app. split; [by apply int_params|]. apply List.Forall_cons; [exact param_semicolon|].
  apply Forall_app. split; [by apply int_params|]. apply List.Forall_cons; [exact param_semicolon|by apply int_params].
Qed.
Lemma color_param c : Forall param (color_params c).
Proof. apply rgb_param; apply byte_coord. Qed.
Lemma literal_param s : forallb (fun c => negb (is_final_byte c)) (chars s) = true -> Forall param (chars s).
Proof. rewrite forallb_forall. intros H. apply List.Forall_forall. intros c Hc. unfold param. by apply negb_true_iff, H. Qed.

Lemma prints_reset : prints 0 reset.
Proof. apply prints_style. by apply literal_param. Qed.
(** A style is one sequence that begins with a reset. *)
Definition style_seq (text : list ascii) : Prop := exists ps, Forall param ps /\ text = csi_seq ("0"%char :: ps) "m".
Lemma reset_seq : style_seq reset.
Proof. by exists []. Qed.
Lemma style_seq_intro ps : Forall param ps -> style_seq (Tty.esc "[0" ++ ps ++ chars "m").
Proof. intros Hp. by exists ps. Qed.
Lemma weight_param (b : bool) : Forall param (if b then chars ";1" else []).
Proof. destruct b; [by apply literal_param|constructor]. Qed.
Lemma set_style_seq ws : style_seq (set_style ws).
Proof.
  destruct ws as [ws|]; [|exact reset_seq]. unfold set_style. destruct (fg_color ws =? 0); [exact reset_seq|].
  pose proof (weight_param (700 <=? font_weight ws)) as HA. set (A := if 700 <=? font_weight ws then _ else _) in *.
  set (B := if font_italic ws then chars ";3" else []).
  set (E := if bg_color ws =? 0 then [] else chars ";48;2;" ++ color_params (bg_color ws)).
  replace (A ++ B ++ _) with ((A ++ B ++ chars ";38;2;" ++ color_params (fg_color ws) ++ E) ++ chars "m") by (by rewrite <-!app_assoc).
  assert (Forall param B) by (unfold B; destruct (font_italic ws); [by apply literal_param|constructor]).
  assert (Forall param E).
  { unfold E. destruct (bg_color ws =? 0); [constructor|]. apply Forall_app. split; [by apply literal_param|apply color_param]. }
  apply style_seq_intro. do 2 (apply Forall_app; split; [done|]). apply Forall_app. split; [by apply literal_param|].
  apply Forall_app. split; [apply color_param|done].
Qed.
Lemma dim_param c amount : Forall param (dim_params c amount).
Proof.
  assert (forall k, coord (dimmed c k amount)) as H by (intros k; unfold dimmed, coord, INT_MAX; pose proof (u8_range (f_to_int (f_mul (f_of_Z (byte_at c k)) amount))); lia).
  by apply rgb_param.
Qed.
Lemma set_dim_style_seq ws amount : style_seq (set_dim_style ws amount).
Proof.
  unfold set_dim_style. destruct (fg_color ws =? 0); [exact reset_seq|].
  pose proof (weight_param (700 <=? font_weight ws)) as HA. set (A := if 700 <=? font_weight ws then _ else _) in *.
  set (E := if bg_color ws =? 0 then [] else chars ";48;2;" ++ dim_params (bg_color ws) amount).
  replace (A ++ _) with ((A ++ chars ";38;2;" ++ dim_params (fg_color ws) amount ++ E) ++ chars "m") by (by rewrite <-!app_assoc).
  assert (Forall param E).
  { unfold E. destruct (bg_color ws =? 0); [constructor|]. apply Forall_app. split; [by apply literal_param|apply dim_param]. }
  apply style_seq_intro. apply Forall_app; split; [done|]. apply Forall_app. split; [by apply literal_param|].
  apply Forall_app. split; [apply dim_param|done].
Qed.
(** It sets the attributes to its own, whatever they were. *)
Lemma run_style text : style_seq text -> exists a, forall s, state_of s = Ground -> run s text = mk Ground (row s) (col s) a (cells s).
Proof.
  intros (ps & Hp & ->). exists ("0"%char :: ps). intros s Hs. rewrite run_csi; [done|done| |done]. by apply List.Forall_cons.
Qed.
Lemma prints_style_seq text : style_seq text -> prints 0 text.
Proof. intros (ps & Hp & ->). apply prints_style. by apply List.Forall_cons. Qed.
Lemma prints_set_style ws : prints 0 (set_style ws).
Proof. apply prints_style_seq, set_style_seq. Qed.
Lemma prints_accent ws : prints 0 (accent ws).
Proof.
  unfold accent. apply (prints_app 0 0); apply prints_style; [|by apply literal_param].
  apply Forall_app. split; [by apply literal_param|apply color_param].
Qed.

(** Rows [y + 1] to [y + h] and columns [x + 1] to [x + w]. *)
Definition area (x y w h : Z) : region := fun r c => y + 1 <= r <= y + h /\ x + 1 <= c <= x + w.
Definition on_screen (x y w h : Z) : Prop := 0 <= x /\ 0 <= y /\ x + w < INT_MAX /\ y + h < INT_MAX.
Lemma confined_line x y w h r c n a : on_screen x y w h -> prints n a -> y + 1 <= r <= y + h -> x + 1 <= c -> c + n <= x + w + 1 -> 0 < w ->
  confined (area x y w h) (goto r c ++ a).
Proof.
  intros (Hx & Hy & Hw & Hh) Ha Hr Hc Hn Hpos. pose proof Ha as [Hn0 _].
  apply (confined_at _ r c n a); [unfold coord; lia|unfold coord; lia|done|]. intros k Hk. unfold area. lia.
Qed.
Lemma area_mono x y w h x' y' w' h' r c : x <= x' -> y <= y' -> x' + w' <= x + w -> y' + h' <= y + h -> area x' y' w' h' r c -> area x y w h r c.
Proof. unfold area. lia. Qed.

(** *** Boxes *)

Lemma confined_rows R from n f : (forall i, from <= i < from + n -> confined R (f i)) -> confined R (rows from n f).
Proof.
  intros Hf. unfold rows. apply confined_concat. apply List.Forall_map, List.Forall_forall. intros i Hi%in_seq. apply Hf. lia.
Qed.
Lemma border_wide b tl tr bl br hl vl : border_glyphs b = Some (tl, tr, bl, br, hl, vl) -> Forall wide_glyph [tl; tr; bl; br; hl; vl].
Proof. destruct b; intros [= <- <- <- <- <- <-]; repeat (apply List.Forall_cons || apply List.Forall_nil); vm_compute; by split. Qed.
Lemma confined_set_style R ws : confined R (set_style ws).
Proof. apply confined_style, prints_set_style. Qed.
Lemma draw_box_confined x y w h b ws : on_screen x y w h -> confined (area x y w h) (draw_box x y w h b ws).
Proof.
  intros Hs. unfold draw_box. destruct (Z.ltb_spec w 2); [apply confined_nil|]. destruct (Z.ltb_spec h 2); [apply confined_nil|].
  cbn [orb]. destruct (border_glyphs b) as [[[[[[tl tr] bl] br] hl] vl]|] eqn:Eb; [|apply confined_nil].
  apply border_wide in Eb. repeat (apply List.Forall_cons_iff in Eb as [?%prints_glyph Eb]).
  assert (forall l r, prints 1 l -> prints 1 r -> prints w (l ++ times (w - 2) (chars hl) ++ r)) as Hline.
  { intros l r Hl Hr. replace w with (1 + ((w - 2) * 1 + 1)) at 1 by lia. apply prints_app; [done|]. apply prints_app; [|done]. apply prints_times; [done|lia]. }
  apply confined_app; [apply confined_set_style|].
  rewrite (app_assoc (chars tl)), (app_assoc (chars tl ++ _)), <-(app_assoc (chars tl)), (app_assoc (goto _ _)).
  apply confined_app; [apply (confined_line _ _ _ _ _ _ w); try done; try lia; by apply Hline|].
  apply confined_app.
  - apply confined_rows. intros i Hi. rewrite app_assoc. apply confined_app; apply (confined_line _ _ _ _ _ _ 1); try done; lia.
  - rewrite (app_assoc (chars bl)), (app_assoc (chars bl ++ _)), <-(app_assoc (chars bl)), (app_assoc (goto _ _)).
    apply confined_app; [apply (confined_line _ _ _ _ _ _ w); try done; try lia; by apply Hline|apply confined_set_style].
Qed.
Lemma confined_goto R r c : coord r -> coord c -> confined R (goto r c).
Proof. intros Hr Hc s Hs. split; [by rewrite run_goto|]. intros k r' c' _. by rewrite cells_goto. Qed.
Lemma fill_rect_confined x y w h : on_screen x y w h -> 0 < w -> confined (area x y w h) (fill_rect (x + 1) (y + 1) (w - 2) (h - 2)).
Proof.
  intros Hs Hw. pose proof Hs as (Hx & Hy & Hxw & Hyh). unfold fill_rect. apply confined_app; [apply confined_style, prints_reset|].
  apply confined_rows. intros i Hi. destruct (Z.le_gt_cases (w - 2) 0).
  - unfold spaces. replace (Z.to_nat (w - 2)) with O by lia. cbn [replicate]. rewrite app_nil_r. apply confined_goto; unfold coord; lia.
  - apply (confined_line _ _ _ _ _ _ (Z.max 0 (w - 2))); try done; try lia. apply prints_spaces.
Qed.

(** *** Wrapped text *)

Definition text_char (c : ascii) : Prop := printable c \/ c = newline.
Lemma take_span f k p : (k <= length (span f p))%nat -> Forall (fun c => f c = true) (take k p) /\ (length (take k p) = k)%nat.
Proof.
  revert k. induction p as [|c p IH]; intros [|k] Hk; [by split|cbn in Hk; lia|by split|]. cbn [span take length] in *.
  destruct (f c) eqn:E; cbn [length] in Hk; [|lia]. destruct (IH k) as [H1 H2]; [lia|]. split; [by apply List.Forall_cons|by rewrite H2].
Qed.
Lemma last_space_le k p : (last_space k p <= k)%nat.
Proof. induction k as [|k IH]; cbn [last_space]; [lia|]. destruct (p !! S k) as [c|]; [destruct (Ascii.eqb c " "); lia|lia]. Qed.
Lemma line_length_le w left p : 0 < w -> 0 < left ->
  (line_length w left p <= length (span not_newline p))%nat /\ Z.of_nat (line_length w left p) <= Z.min w left.
Proof.
  intros Hw Hl. unfold line_length. rewrite length_take. set (col := Nat.min _ _).
  assert ((col <= length (span not_newline p))%nat /\ Z.of_nat col <= Z.min w left) as [H1 H2] by lia.
  destruct (p !! col) as [c|]; [|lia]. destruct ((Z.of_nat col =? w) && not_newline c); [|lia].
  pose proof (last_space_le col p). destruct (0 <? last_space col p)%nat; lia.
Qed.
(** The lines of a wrapped text are at most as wide, and as many, as there is
    room for, and made of characters of the text. *)
Lemma wrap_spec room w : 0 < w -> forall left p, Forall text_char p ->
  Forall (fun l => Z.of_nat (length l) <= w /\ Forall printable l) (wrap room w left p) /\ (length (wrap room w left p) <= room)%nat.
Proof.
  intros Hw. induction room as [|room IH]; intros left p Hp; [by split|]. destruct p as [|c0 p0]; [split; [constructor|cbn; lia]|].
  cbn [wrap]. set (p := c0 :: p0) in *. clearbody p. destruct (Z.leb_spec left 0); [split; [constructor|cbn; lia]|].
  cbv zeta. destruct (line_length_le w left p Hw ltac:(lia)) as [H1 H2]. set (col := line_length w left p) in *.
  destruct (take_span not_newline col p H1) as [Hn Hl]. pose proof (Forall_take _ col _ Hp) as Ht. pose proof (Forall_drop _ col _ Hp) as Hd.
  assert (Forall printable (take col p)) as Hpr.
  { apply List.Forall_forall. intros c Hc. rewrite List.Forall_forall in Hn, Ht. destruct (Ht c Hc) as [|E]; [done|]. subst c.
    specialize (Hn _ Hc). done. }
  destruct (IH (left - Z.of_nat col) (match drop col p with c :: rest' => if not_newline c then drop col p else rest' | [] => [] end)) as [I1 I2].
  { destruct (drop col p) as [|c l]; [done|]. destruct (not_newline c); [done|]. by inversion Hd. }
  split; [|cbn [length]; lia]. apply List.Forall_cons; [|done]. rewrite Hl. split; [lia|done].
Qed.
Lemma padded_spec a w l : Z.of_nat (length l) <= w -> Forall printable l -> Z.of_nat (length (padded a w l)) = w /\ Forall printable (padded a w l).
Proof.
  intros Hl Hp. unfold padded. cbv zeta. set (pad := padding_left a w _).
  assert (0 <= pad /\ pad + Z.of_nat (length l) <= w) as [H1 H2].
  { unfold pad, padding_left, cdiv. cbv zeta. destruct a; rewrite ?Z.quot_div_nonneg by lia; case_match; simp_bool; try lia;
      Z.to_euclidean_division_equations; lia. }
  assert (forall n, Forall printable (spaces n)) as Hsp by (intros n; apply list.Forall_replicate; vm_compute; by split).
  split; [|by repeat (apply Forall_app; split)]. rewrite !length_app. unfold spaces. rewrite !length_replicate. lia.
Qed.
Lemma text_rows_spec a w h left p : 0 < w -> Forall text_char p ->
  Forall (fun r => Z.of_nat (length r) = w /\ Forall printable r) (text_rows a w h left p) /\ length (text_rows a w h left p) = Z.to_nat h.
Proof.
  intros Hw Hp. unfold text_rows. cbv zeta. destruct (wrap_spec (Z.to_nat h) w Hw left p Hp) as [H1 H2].
  split; [|rewrite length_app, length_map, length_replicate; lia].
  apply Forall_app. split; [|apply list.Forall_replicate; unfold spaces; rewrite length_replicate; split; [lia|]; apply list.Forall_replicate; vm_compute; by split].
  apply List.Forall_map. refine (List.Forall_impl _ _ H1). intros l [Hl Hpr]. by apply padded_spec.
Qed.
Lemma confined_imap {A} R (f : nat -> A -> list ascii) l : (forall i x, l !! i = Some x -> confined R (f i x)) -> confined R (concat (imap f l)).
Proof.
  revert f. induction l as [|x l IH]; intros f Hf; [apply confined_nil|]. cbn [imap concat]. apply confined_app; [by apply (Hf 0%nat)|].
  apply IH. intros i y Hy. by apply (Hf (S i)).
Qed.
Lemma draw_text_confined x y w h text a ws vis : on_screen x y w h -> match text with Some s => Forall text_char (chars s) | None => True end ->
  confined (area x y w h) (draw_text_wrapped x y w h text a ws vis).
Proof.
  intros Hs Ht. unfold draw_text_wrapped. destruct text as [s|]; [|apply confined_nil].
  destruct (Z.leb_spec w 0); [apply confined_nil|]. destruct (Z.leb_spec h 0); [apply confined_nil|]. cbn [orb].
  destruct (vis =? 0); [apply confined_nil|]. cbv zeta. set (left := if vis <? 0 then _ else _).
  destruct (text_rows_spec a w h left (chars s) ltac:(lia) Ht) as [Hr Hl].
  apply confined_app; [apply confined_set_style|]. apply confined_app; [|apply confined_set_style].
  apply confined_imap. intros i r Hi. rewrite list.Forall_lookup in Hr. destruct (Hr i r Hi) as [Hw' Hp]. apply lookup_lt_Some in Hi.
  apply (confined_line _ _ _ _ _ _ w); try done; try lia. rewrite <-Hw'. by apply prints_text.
Qed.

(** *** Lines *)

(** A text of one line that [w] columns have room for. *)
Definition line_fits (w : Z) (s : list ascii) : Prop := Forall printable s /\ Z.of_nat (length s) <= w.
Lemma prints_join n m k a b : prints n a -> prints m b -> k = n + m -> prints k (a ++ b).
Proof. intros Ha Hb ->. by apply prints_app. Qed.
Lemma prints_cons k c a m : printable c -> prints m a -> k = 1 + m -> prints k (c :: a).
Proof. intros Hc Ha ->. apply (prints_app 1 m [c] a); [by apply prints_char|done]. Qed.
(** A style, a text and the reset. *)
Lemma prints_styled n sty s ws : prints 0 sty -> prints n s -> prints n (sty ++ s ++ set_style ws).
Proof. intros Hs Hn. eapply prints_join; [exact Hs| |]; [eapply prints_join; [exact Hn|apply prints_set_style|reflexivity]|lia]. Qed.
Lemma styled_line_confined x y w h ws s : on_screen x y w h -> 0 < w -> 0 < h -> line_fits w s -> confined (area x y w h) (styled_line x y ws s).
Proof.
  intros Hs Hw Hh [Hp Hl]. unfold styled_line. apply confined_app; [apply confined_set_style|].
  apply (confined_line _ _ _ _ _ _ (Z.of_nat (length s))); try done; try lia.
  eapply prints_join; [by apply prints_text|apply prints_set_style|lia].
Qed.

(** " %s " in a style. *)
Lemma prints_framed sty l ws : prints 0 sty -> Forall printable l ->
  prints (2 + Z.of_nat (length l)) (sty ++ " "%char :: l ++ [" "%char] ++ set_style ws).
Proof.
  intros Hs Hl. assert (printable " "%char) as Hsp by (vm_compute; by split).
  apply (prints_join 0 (2 + Z.of_nat (length l))); [done| |lia]. apply (prints_cons _ _ _ (1 + Z.of_nat (length l))); [done| |lia].
  apply (prints_join (Z.of_nat (length l)) 1); [by apply prints_text| |lia]. apply (prints_join 1 0); [by apply prints_char|apply prints_set_style|lia].
Qed.

(** The runs of a loop that stay in a region. *)
Lemma all_of_confined {A} R (f : A -> exec (list ascii)) l : (forall a, a ∈ l -> returns (f a) (confined R)) -> returns (all_of f l) (confined R).
Proof.
  induction l as [|a l IH]; intros Hf; [exact (confined_nil R)|]. cbn [all_of].
  eapply returns_bind; [apply Hf; left|]. intros s Hs. eapply returns_bind; [apply IH; intros b Hb; apply Hf; by right|]. intros t Ht.
  by apply confined_app.
Qed.
Lemma counted_range n i : i ∈ counted n -> 0 <= i < n.
Proof.
  unfold counted. intros Hi. apply list_elem_of_In, in_map_iff in Hi as (k & <- & Hk%in_seq). lia.
Qed.
Lemma at_z_returns {A} (l : list A) i (P : A -> Prop) : 0 <= i < Z.of_nat (length l) -> Forall P l -> returns (at_z l i) P.
Proof.
  intros Hi HP. unfold at_z. destruct (Z.ltb_spec i 0); [lia|]. eapply returns_mono; [apply returns_index; lia|]. intros x Hx.
  rewrite list.Forall_lookup in HP. exact (HP _ _ Hx).
Qed.

Definition label_fits (w : Z) (it : ListItem) : Prop := match li_label it with Some l => line_fits w (chars l) | None => False end.
Definition printable_label (it : ListItem) : Prop := match li_label it with Some l => Forall printable (chars l) | None => False end.
Lemma scroll_row selected h i : 0 <= selected -> 0 <= i < h -> 0 <= i + scroll_of selected h.
Proof. intros Hs Hi. unfold scroll_of. destruct (Z.leb_spec h selected); cbv zeta; [destruct (Z.ltb_spec selected (selected - h + 1))|destruct (Z.ltb_spec selected 0)]; lia. Qed.
Lemma draw_list_confined x y w h items selected ws : on_screen x y w h -> 2 <= w -> 0 <= selected -> Forall printable_label items ->
  returns (draw_list x y w h items selected ws) (confined (area x y w h)).
Proof.
  intros Hs Hw Hsel Hit. unfold draw_list. destruct (Z.leb_spec h 0); [apply confined_nil|]. destruct (Z.leb_spec w 0); [lia|]. cbn [orb].
  apply all_of_confined. intros i Hi%counted_range. unfold list_row. set (scroll := scroll_of selected h).
  assert (forall sty s, prints 0 sty -> prints w s -> confined (area x y w h) (goto (y + 1 + i) (x + 1) ++ (sty ++ s) ++ set_style None)) as Hrow.
  { intros sty s Hsty Hps. rewrite <-app_assoc. apply (confined_line _ _ _ _ _ _ w); try done; try lia. by apply prints_styled. }
  destruct (Z.ltb_spec (i + scroll) (Z.of_nat (length items))) as [Hlt|].
  - pose proof (scroll_row selected h i Hsel Hi). fold scroll in H0. cbv zeta.
    assert (exists it, at_z items (i + scroll) = Done it /\ printable_label it) as (it & -> & Hp).
    { apply returns_Done. apply at_z_returns; [lia|done]. }
    unfold printable_label in Hp. cbn [mbind exec_bind]. destruct (li_label it) as [l|]; [|done]. cbn [deref mbind exec_bind returns].
    apply Hrow; [destruct (_ =? _); [apply prints_accent|apply prints_set_style]|].
    set (len := Z.min (strlen l) (w - 2)). assert (0 <= len <= Z.of_nat (length (chars l))) as Hlen.
    { unfold len. rewrite length_chars. unfold strlen. lia. }
    assert (precision len (chars l) = take (Z.to_nat len) (chars l)) as -> by (unfold precision; destruct (Z.ltb_spec len 0); [lia|done]).
    apply (prints_cons w " "%char _ (w - 1)); [vm_compute; by split| |lia].
    eapply prints_join; [apply prints_text; by apply Forall_take|apply prints_spaces|]. rewrite length_take. unfold len in *. lia.
  - cbn [mbind exec_bind returns]. apply Hrow; [apply prints_set_style|]. replace w with (Z.max 0 w) at 1 by lia. apply prints_spaces.
Qed.

(** *** The input line and the separator *)

Definition fits_opt (P : string -> Prop) (o : option string) : Prop := match o with Some s => P s | None => True end.
Definition input_fits (w : Z) (text placeholder : option string) (masked : bool) : Prop :=
  4 <= w /\ fits_opt (fun s => Forall printable (chars s)) text /\ fits_opt (fun s => Forall printable (chars s)) placeholder /\
  (masked = true -> fits_opt (fun s => line_fits w (chars s)) placeholder).
Lemma fits_text_of P o : fits_opt P o -> P EmptyString -> P (text_of o).
Proof. by destruct o. Qed.
Lemma input_line_prints w text placeholder masked : input_fits w text placeholder masked ->
  exists n, prints n (input_line w text placeholder masked) /\ n <= w.
Proof.
  intros (Hw & Ht & Hp & Hm). unfold input_line. destruct masked.
  - specialize (Hm eq_refl). destruct (Z.eqb_spec (strlen (text_of text)) 0) as [E|E].
    + rewrite E. replace (Z.to_nat (Z.min 0 (w - 2))) with O by lia. cbn [replicate app].
      assert (line_fits w (chars (text_of placeholder))) as [H1 H2]. { apply (fits_text_of (fun s => line_fits w (chars s))); [done|]. split; [constructor|cbn; lia]. }
      eexists. split; [by apply prints_text|done].
    + rewrite app_nil_r. eexists. split; [apply prints_replicate; vm_compute; by split|]. lia.
  - set (t := if decide _ then _ else _).
    assert (Forall printable (chars t)) as Htp. { unfold t. case_decide; apply (fits_text_of (fun s => Forall printable (chars s))); try done; constructor. }
    assert (Forall printable (chars "> ")) as Hg by (repeat (apply List.Forall_cons || apply List.Forall_nil); vm_compute; by split).
    cbv zeta. exists (2 + Z.of_nat (length (precision (w - 4) (chars t)))). split.
    + eapply prints_join; [by apply prints_text| |reflexivity]. apply prints_text. unfold precision. destruct (w - 4 <? 0); [done|by apply Forall_take].
    + unfold precision. destruct (Z.ltb_spec (w - 4) 0); [lia|]. rewrite length_take. lia.
Qed.
Lemma separator_confined x y w h o : on_screen x y w h -> 0 < w -> 0 < h -> confined (area x y w h) (draw_separator x y w h o).
Proof.
  intros Hs Hw Hh. unfold draw_separator.
  destruct o; apply confined_rows; intros i Hi; (apply (confined_line _ _ _ _ _ _ 1); [done|by apply prints_glyph|lia..]).
Qed.

(** *** The contents that stay in their place *)

Definition text_ok (o : option string) : Prop := fits_opt (fun s => Forall text_char (chars s)) o.
Definition leaf_fits (w h : Z) (l : Leaf) : Prop :=
  match l with
  | RNODE_SPINNER message frame => 0 <= frame /\ match message with Some m => line_fits (w - 2) (chars m) | None => False end
  | RNODE_SEPARATOR _ => True
  | RNODE_BADGE text => match text with Some t => line_fits w (chars t) | None => False end
  | RNODE_TOAST message => 2 <= h /\ match message with Some m => line_fits (w - 2) (chars m) | None => False end
  | RNODE_VECTOR path _ _ _ => line_fits w (chars "[Vector: " ++ chars (text_of path) ++ chars "]")
  | RNODE_IMAGE source _ _ _ => line_fits w (chars "[Image: " ++ chars (text_of source) ++ chars "]")
  | RNODE_CANVAS _ _ _ => 8 <= w
  | RNODE_PLOT ty _ _ => line_fits w (chars "[Plot: " ++ chars (default "line"%string ty) ++ chars "]")
  | RNODE_VIDEO _ _ => 7 <= w
  | RNODE_RICH_TEXT t | RNODE_MARKDOWN t => text_ok t
  end.
Definition content_fits {T} (w h : Z) (c : Content T) : Prop :=
  match c with
  | RNODE_TEXT content _ => text_ok content
  | RNODE_LIST items selected => 2 <= w /\ 0 <= selected /\ Forall printable_label items
  | RNODE_INPUT text placeholder _ masked => input_fits w text placeholder masked
  | RNODE_CHECKBOX label checked _ => match label with Some l => line_fits (w - 4) (chars l) | None => False end
  | RNODE_TOGGLE label value _ => match label with Some l => line_fits (w - 8) (chars l) | None => False end
  | RNODE_CURSOR cx cy => 0 <= cx < w /\ 0 <= cy < h
  | RNODE_CONTEXT_MENU items _ => Forall (label_fits (w - 2)) items
  | RNODE_CALENDAR year month _ => 20 <= w /\ 8 <= h /\ 1 <= month <= 12 /\ 0 <= year < 10000
  | RNODE_LEAF l => leaf_fits w h l
  | _ => False
  end.

Lemma printable_literal s : forallb (fun c => (32 <=? uchar c) && (uchar c <=? 126)) (chars s) = true -> Forall printable (chars s).
Proof. rewrite forallb_forall. intros H. apply List.Forall_forall. intros c Hc. specialize (H c Hc). simp_bool. unfold printable. lia. Qed.
Lemma text_literal s : forallb (fun c => (32 <=? uchar c) && (uchar c <=? 126)) (chars s) = true -> Forall text_char (chars s).
Proof. intros H. refine (List.Forall_impl _ _ (printable_literal s H)). by left. Qed.
Lemma left_aligned_confined x y w h t ws : on_screen x y w h -> text_ok t -> confined (area x y w h) (left_aligned t x y w h ws).
Proof. intros Hs Ht. unfold left_aligned. destruct t as [[|c s]|]; try apply confined_nil. by apply draw_text_confined. Qed.
Lemma draw_leaf_confined x y w h ws l : on_screen x y w h -> 0 < w -> 0 < h -> leaf_fits w h l ->
  returns (draw_leaf x y w h ws l) (confined (area x y w h)).
Proof.
  intros Hs Hw Hh Hl. assert (printable " "%char) as Hsp by (vm_compute; by split). destruct l; cbn [leaf_fits draw_leaf] in *; cbn [returns].
  - destruct Hl as [Hf Hm]. assert (Forall wide_glyph spinner_frames) as Hsf by (repeat (apply List.Forall_cons || apply List.Forall_nil); vm_compute; by split).
    destruct (returns_Done _ _ (at_z_returns spinner_frames (cmod frame 10) wide_glyph ltac:(unfold cmod; rewrite Z.rem_mod_nonneg by lia; pose proof (Z.mod_pos_bound frame 10); cbn; lia) Hsf)) as (g & -> & Hg).
    cbn [mbind exec_bind]. destruct message as [m|]; [|done]. destruct Hm as [Hp Hlen]. cbn [deref mbind exec_bind returns].
    unfold styled_line. apply confined_app; [apply confined_set_style|].
    apply (confined_line _ _ _ _ _ _ (2 + Z.of_nat (length (chars m)))); try done; try lia. rewrite <-app_assoc.
    apply (prints_join 1 (1 + Z.of_nat (length (chars m)))); [by apply prints_glyph| |lia].
    eapply prints_cons; [done| |reflexivity]. eapply prints_join; [by apply prints_text|apply prints_set_style|lia].
  - by apply separator_confined.
  - destruct badge_text as [t|]; [|done]. by apply styled_line_confined.
  - destruct Hl as [Hh2 Hm]. destruct toast_message as [m|]; [|done]. destruct Hm as [Hp Hlen]. cbn [deref mbind exec_bind returns].
    apply (confined_line _ _ _ _ _ _ (2 + Z.of_nat (length (chars m)))); try done; try lia. 
    apply prints_framed; [apply prints_set_style|done].
  - by apply styled_line_confined.
  - by apply left_aligned_confined.
  - by apply styled_line_confined.
  - apply styled_line_confined; try done. split; [by apply printable_literal|cbn; lia].
  - by apply left_aligned_confined.
  - by apply styled_line_confined.
  - apply styled_line_confined; try done. split; [by apply printable_literal|cbn; lia].
Qed.

Lemma days_range year month : 1 <= days_in_month year month <= 31.
Proof. unfold days_in_month. repeat case_match; lia. Qed.
Lemma first_dow_range year month : 0 <= year -> 1 <= month <= 12 -> 0 <= first_dow year month < 7.
Proof.
  intros Hy Hm. unfold first_dow. cbv zeta. unfold cmod. set (e := 1 + _ + _ + _ - _ + _). pose proof (Z.rem_bound_abs e 7 ltac:(lia)).
  rewrite (Z.rem_mod_nonneg (_ + 6)) by lia. apply Z.mod_pos_bound. lia.
Qed.
Lemma calendar_confined {T} x y w h year month day ws : on_screen x y w h -> content_fits w h (RNODE_CALENDAR (T := T) year month day) ->
  returns (draw_calendar x y w year month day ws) (confined (area x y w h)).
Proof.
  intros Hs (Hw & Hh & Hm & Hy). unfold draw_calendar. set (fit name := Forall printable (chars name) /\ length (chars name) = 3%nat).
  assert (Forall fit months) as Hfit by (repeat (apply List.Forall_cons || apply List.Forall_nil); (split; [by apply printable_literal|done])).
  destruct (returns_Done _ _ (at_z_returns months (month - 1) fit ltac:(cbn; lia) Hfit)) as (name & -> & Hn & Hl). cbn [mbind exec_bind returns]. cbv zeta.
  set (title := take 31 _).
  assert (Forall printable title /\ Z.of_nat (length title) <= 20) as [Ht Htl].
  { unfold title. assert (0 <= year <= 10 ^ 20 - 1 /\ coord year) as [Hy2 Hc] by (unfold coord, INT_MAX; lia). rewrite int_chars_coord by done.
    pose proof (Keyboard.dec_short year 4 ltac:(lia) ltac:(lia)). split.
    - apply Forall_take, Forall_app. split; [done|]. apply List.Forall_cons; [vm_compute; by split|].
      refine (List.Forall_impl _ _ (coord_digits year Hc)). intros c Hd. unfold is_dec, isdigit in Hd. simp_bool. unfold printable. lia.
    - rewrite length_take, length_app. cbn [length]. lia. }
  set (tpad := not_negative _). set (dpad := not_negative _).
  assert (0 <= tpad /\ tpad + Z.of_nat (length title) <= w) as [Hp1 Hp2].
  { unfold tpad, not_negative, cdiv. rewrite Z.quot_div_nonneg by lia. case_match; simp_bool; Z.to_euclidean_division_equations; lia. }
  assert (0 <= dpad /\ dpad + 20 <= w) as [Hd1 Hd2].
  { unfold dpad, not_negative, cdiv. change (Z.of_nat (length _)) with 20. rewrite Z.quot_div_nonneg by lia. case_match; simp_bool; Z.to_euclidean_division_equations; lia. }
  rewrite (app_assoc (spaces tpad)), (app_assoc (set_style (Some ws))), (app_assoc (set_style (Some ws) ++ _)), <-(app_assoc (set_style (Some ws))), (app_assoc (goto _ _)).
  apply confined_app.
  { apply (confined_line _ _ _ _ _ _ (tpad + Z.of_nat (length title))); try done; try lia. apply prints_styled; [apply prints_set_style|].
    eapply prints_join; [apply prints_spaces|by apply prints_text|lia]. }
  rewrite (app_assoc (spaces dpad)), (app_assoc (goto _ _)). apply confined_app.
  { apply (confined_line _ _ _ _ _ _ (dpad + 20)); try done; try lia. apply (prints_join (Z.max 0 dpad) 20); [apply prints_spaces|apply (prints_text (chars "Su Mo Tu We Th Fr Sa")); by apply printable_literal|lia]. }
  apply confined_concat, List.Forall_map, List.Forall_forall. intros i Hi. apply list_elem_of_In, counted_range in Hi.
  pose proof (days_range year month). pose proof (first_dow_range year month ltac:(lia) Hm).
  unfold calendar_day, cdiv, cmod. cbv zeta. rewrite Z.quot_div_nonneg, Z.rem_mod_nonneg by lia. set (n := _ - 1).
  assert (0 <= n / 7 <= 5 /\ 0 <= n mod 7 <= 6) by (unfold n; split; Z.to_euclidean_division_equations; lia).
  assert (prints 2 (two_wide (i + 1))) as Htw.
  { unfold two_wide. cbv zeta. assert (coord (i + 1)) as Hc by (unfold coord, INT_MAX; lia). rewrite int_chars_coord by done.
    pose proof (Keyboard.dec_short (i + 1) 2 ltac:(lia) ltac:(lia)). eapply prints_join; [apply prints_spaces|apply prints_text|lia].
    refine (List.Forall_impl _ _ (coord_digits _ Hc)). intros c Hd. unfold is_dec, isdigit in Hd. simp_bool. unfold printable. lia. }
  apply (confined_line _ _ _ _ _ _ 2); try done; try lia. apply prints_styled; [|done]. destruct (_ =? day); [apply prints_accent|apply prints_nil].
Qed.

Lemma draw_content_confined {T} x y w h ws fade tw (c : Content T) : on_screen x y w h -> 0 < w -> 0 < h -> content_fits w h c -> SFltb fade f1 = false ->
  returns (draw_content x y w h ws fade tw c) (confined (area x y w h)).
Proof.
  intros Hs Hw Hh Hc Hfade. assert (printable " "%char) as Hsp by (vm_compute; by split). destruct c; cbn [draw_content]; try done.
  - rewrite Hfade. cbn [app returns]. by apply draw_text_confined.
  - destruct Hc as (? & ? & ?). by apply draw_list_confined.
  - destruct (input_line_prints _ _ _ _ Hc) as (n & Hn & Hle). cbn [returns]. apply confined_app; [apply confined_set_style|].
    rewrite (app_assoc (goto _ _) (spaces w)). apply confined_app.
    + apply (confined_line _ _ _ _ _ _ (Z.max 0 w)); try done; try lia. apply prints_spaces.
    + apply (confined_line _ _ _ _ _ _ n); try done; try lia. eapply prints_join; [done|apply prints_set_style|lia].
  - cbn [content_fits] in Hc. destruct label as [l|]; [|done]. destruct Hc as [Hp Hl]. cbn [deref mbind exec_bind returns].
    apply styled_line_confined; try done. destruct checked; (split; [apply Forall_app; split; [by apply printable_literal|by apply List.Forall_cons]|rewrite length_app; cbn [length]; cbn; lia]).
  - cbn [content_fits] in Hc. destruct label as [l|]; [|done]. destruct Hc as [Hp Hl]. cbn [deref mbind exec_bind returns].
    apply styled_line_confined; try done. destruct value; (split; [repeat (apply Forall_app; split); try done; by apply printable_literal|rewrite !length_app; cbn [length chars]; lia]).
  - by apply (calendar_confined (T := T)).
  - destruct Hc as [H1 H2]. cbn [returns]. apply (confined_line _ _ _ _ _ _ 1); try done; try lia.
    apply (prints_join 0 1); [apply prints_style; by apply literal_param| |lia]. apply (prints_cons _ _ _ 0); [done|exact prints_reset|lia].
  - unfold draw_context_menu. apply all_of_confined. intros i Hi%counted_range.
    destruct (returns_Done _ _ (at_z_returns items i (label_fits (w - 2)) ltac:(lia) Hc)) as (it & -> & Hf). cbn [mbind exec_bind].
    unfold context_row, label_fits in *. destruct (li_label it) as [l|]; [|done]. destruct Hf as [Hp Hl]. cbn [deref mbind exec_bind returns].
    apply (confined_line _ _ _ _ _ _ (2 + Z.of_nat (length (chars l)))); try done; try lia. apply prints_framed; [apply prints_set_style|done].
  - by apply draw_leaf_confined.
Qed.

(** *** Trees *)

(** The labels of tabs, side by side. *)
Definition tabs_width (labels : list string) : Z := foldr (fun l n => strlen l + 4 + n) 0 labels.
Lemma tab_labels_confined x y w h ws active : on_screen x y w h -> 0 < h ->
  forall labels i lw, 0 <= lw -> lw + tabs_width labels <= w -> Forall (fun l => Forall printable (chars l)) labels ->
  confined (area x y w h) (draw_tab_labels x y lw i active labels ws).
Proof.
  intros Hs Hh. induction labels as [|l labels IH]; intros i lw Hlw Hw Hp; [apply confined_nil|]. cbn [draw_tab_labels].
  cbn [tabs_width foldr] in Hw. fold (tabs_width labels) in Hw. inversion_clear Hp as [|? ? Hl Hls].
  assert (0 <= tabs_width labels) as Hpos. { clear. induction labels as [|l labels IH]; [done|]. cbn [tabs_width foldr]. fold (tabs_width labels). unfold strlen. lia. }
  assert (Z.of_nat (length (chars l)) = strlen l) as El by (rewrite length_chars; done). unfold strlen in *.
  set (s := if i =? active then chars "[ " ++ chars l ++ chars " ]" else chars "  " ++ chars l ++ chars "  ").
  assert (prints (strlen l + 4) s) as Hps.
  { assert (Forall printable s /\ Z.of_nat (length s) = strlen l + 4) as [H1 <-]; [|by apply prints_text]. unfold strlen.
    unfold s. destruct (i =? active); (split; [repeat (apply Forall_app; split); try done; by apply printable_literal|rewrite !length_app, Nat2Z.inj_add, Nat2Z.inj_add, El; cbn [length chars]; lia]). }
  unfold strlen in Hps. rewrite (app_assoc s), (app_assoc (set_style (Some ws))), (app_assoc (goto _ _)). apply confined_app.
  - apply (confined_line _ _ _ _ _ _ (strlen l + 4)); unfold strlen; try done; try lia. by apply prints_styled; [apply prints_set_style|].
  - apply IH; [lia|lia|done].
Qed.

Fixpoint fits (max_w max_h : Z) (t : RenderTree) : Prop :=
  let all := fix all (w h : Z) (l : list RenderTree) : Prop := match l with [] => True | c :: l' => fits w h c /\ all w h l' end in
  let one (w h : Z) (o : option RenderTree) : Prop := match o with Some c => fits w h c | None => True end in
  match t with
  | mkTree i c =>
      let w := Z.min (rw (rect i)) (max_w - rx (rect i)) in
      let h := Z.min (rh (rect i)) (max_h - ry (rect i)) in
      0 <= rx (rect i) /\ 0 <= ry (rect i) /\
      (0 < w -> 0 < h ->
       match c with
       | RNODE_CONTAINER _ _ p ch =>
           0 <= left p /\ 0 <= right p /\ 0 <= top p /\ 0 <= bottom p /\ all (w - left p - right p) (h - top p - bottom p) ch
       | RNODE_FLEX _ _ _ _ ch => all w h ch
       | RNODE_GRID _ _ ch => all w h ch
       | RNODE_TABS labels _ child => tabs_width labels <= w /\ Forall (fun l => Forall printable (chars l)) labels /\ one w (h - 1) child
       | RNODE_SPLIT_PANES ORIENT_HORIZONTAL s1 _ first second _ =>
           let sp := split_at ORIENT_HORIZONTAL s1 w h in sp < w /\ one sp h first /\ one (w - sp - 1) h second
       | RNODE_SPLIT_PANES ORIENT_VERTICAL s1 _ first second _ =>
           let sp := split_at ORIENT_VERTICAL s1 w h in sp < h /\ one w sp first /\ one w (h - sp - 1) second
       | c => content_fits w h c
       end)
  end.

Section drawing.
Context (reg : Registry) (anims : list nat -> list AnimInstance) (now_ms : Z).
Hypothesis still : forall p, anims p = [].

Definition room (off_x off_y max_w max_h : Z) : Prop := 0 <= off_x /\ 0 <= off_y /\ off_x + max_w < INT_MAX /\ off_y + max_h < INT_MAX.
Definition stays (off_x off_y max_w max_h : Z) {A} (m : exec (A * list ascii)) : Prop :=
  returns m (fun '(_, s) => confined (area off_x off_y max_w max_h) s).
Definition node_stays (t : RenderTree) : Prop := forall path off_x off_y max_w max_h d,
  room off_x off_y max_w max_h -> fits max_w max_h t -> stays off_x off_y max_w max_h (render_node reg anims now_ms path t off_x off_y max_w max_h d).

Definition fits_all : Z -> Z -> list RenderTree -> Prop :=
  fix all (w h : Z) (l : list RenderTree) : Prop := match l with [] => True | c :: l' => fits w h c /\ all w h l' end.
Definition fits_one (w h : Z) (o : option RenderTree) : Prop := match o with Some c => fits w h c | None => True end.
Definition render_all (path : list nat) : nat -> list RenderTree -> Z -> Z -> Z -> Z -> bool -> exec (list RenderTree * list ascii) :=
  fix all (k : nat) (l : list RenderTree) (x y w h : Z) (d : bool) : exec (list RenderTree * list ascii) :=
    match l with
    | [] => Done ([], [])
    | c :: l' =>
        '(c', s) ← render_node reg anims now_ms (path ++ [k]) c x y w h d;
        '(l'', s') ← all (S k) l' x y w h d;
        Done (c' :: l'', s ++ s')
    end.
Definition render_one (path : list nat) (k : nat) (o : option RenderTree) (x y w h : Z) (d : bool) : exec (option RenderTree * list ascii) :=
  match o with
  | Some c => '(c', s) ← render_node reg anims now_ms (path ++ [k]) c x y w h d; Done (Some c', s)
  | None => Done (None, [])
  end.

Lemma render_all_stays path x y w h d l : forall k, room x y w h -> fits_all w h l -> Forall node_stays l -> stays x y w h (render_all path k l x y w h d).
Proof.
  induction l as [|c l IH]; intros k Hr Hf HP; [exact (confined_nil _)|]. cbn [render_all]. destruct Hf as [Hc Hl]. inversion_clear HP as [|? ? Pc Pl].
  unfold stays in *. eapply returns_bind; [by apply Pc|]. intros [c' s] Hs. eapply returns_bind; [by apply (IH (S k))|]. intros [l' s'] Hs'.
  by apply confined_app.
Qed.
Lemma render_one_stays path x y w h d o k : room x y w h -> fits_one w h o -> Forall node_stays (opt_list o) -> stays x y w h (render_one path k o x y w h d).
Proof.
  intros Hr Hf HP. destruct o as [c|]; [|exact (confined_nil _)]. cbn [render_one fits_one opt_list] in *. inversion_clear HP as [|? ? Pc _].
  unfold stays in *. eapply returns_bind; [by apply Pc|]. intros [c' s] Hs. done.
Qed.
Lemma stays_mono {A} x y w h x' y' w' h' (m : exec (A * list ascii)) : x <= x' -> y <= y' -> x' + w' <= x + w -> y' + h' <= y + h ->
  stays x' y' w' h' m -> stays x y w h m.
Proof. intros H1 H2 H3 H4. unfold stays. intros Hm. eapply returns_mono; [exact Hm|]. intros [a s]. apply confined_mono. intros r c. by apply area_mono. Qed.
Lemma frame_confined x y w h b ws : on_screen x y w h -> 0 < w -> confined (area x y w h) (draw_frame x y w h b ws).
Proof.
  intros Hs Hw. unfold draw_frame. destruct b; try apply confined_nil; (apply confined_app; [by apply draw_box_confined|by apply fill_rect_confined]).
Qed.
(** Without animations a node that is drawn is drawn where it is. *)
Lemma still_offsets p : get_slide_offset_x reg now_ms (anims p) = Done 0 /\ get_slide_offset_y reg now_ms (anims p) = Done 0 /\
  get_fade_amount reg now_ms (anims p) = Done f1 /\ get_typewriter_chars reg (anims p) = Done (-1) /\ has_tui_animation reg (anims p) = Done false.
Proof. by rewrite still. Qed.

Lemma render_node_stays t : node_stays t.
Proof.
  induction t as [i c IH] using RenderTree_ind'. intros path off_x off_y max_w max_h d Hr Hf.
  assert (forall a : RenderTree, stays off_x off_y max_w max_h (Done (a, []))) as Hnone by (intros a; exact (confined_nil _)).
  cbn [render_node]. destruct (Z.leb_spec (rw (rect i)) 0) as [|Hrw]; [apply Hnone|]. destruct (Z.leb_spec (rh (rect i)) 0) as [|Hrh]; [apply Hnone|]. cbn [orb].
  destruct (still_offsets path) as (-> & -> & -> & -> & ->).
  assert (exists b, (if dirty i || d then Done true else Done false : exec bool) = Done b) as [b ->] by (destruct (dirty i || d); by eexists).
  cbn [mbind exec_bind]. destruct b; [|apply Hnone]. cbn [negb]. cbv zeta. cbn [set_dirty rect resolved_style].
  change (SFltb f1 (f_lit 5 2)) with false. cbv iota.
  destruct Hf as (Hx & Hy & Hf). destruct Hr as (Hox & Hoy & Hmw & Hmh).
  set (x := off_x + rx (rect i) + 0). set (y := off_y + ry (rect i) + 0).
  set (w := Z.min (rw (rect i)) (max_w - rx (rect i))) in *. set (h := Z.min (rh (rect i)) (max_h - ry (rect i))) in *.
  destruct (Z.leb_spec w 0) as [|Hw]; [apply Hnone|]. destruct (Z.leb_spec h 0) as [|Hh]; [apply Hnone|]. cbn [orb]. specialize (Hf Hw Hh).
  assert (on_screen x y w h) as Hs by (unfold on_screen; lia).
  apply (stays_mono off_x off_y max_w max_h x y w h); [lia|lia|lia|lia|]. clearbody x y w h.
  set (ws := resolved_style i). set (b := dirty i || d).
  assert (forall n, content_fits w h n -> stays x y w h (s ← draw_content x y w h ws f1 (-1) n; Done (mkTree (set_dirty false i) n, s))) as Hleaf.
  { intros n Hn. unfold stays. eapply returns_bind; [by apply (draw_content_confined x y w h ws f1 (-1) n)|]. by intros s Hst. }
  destruct c as [bg border p ch|? ?|? ?|? ? ? ?|? ? ?|? ? ?|? ? ? ?|? ?|? ?|? ? ?|? ? ?|labels active child|o s1 s2 first second third|? ? ? ? ch|? ? ch|? ?|? ?|l];
    try (apply Hleaf, Hf).
  - destruct Hf as (Hl & Hrt & Ht & Hb & Hall). unfold stays.
    apply (returns_bind _ _ (fun '(_, s) => confined (area x y w h) s)).
    { apply (stays_mono x y w h (x + left p) (y + top p) (w - left p - right p) (h - top p - bottom p)); [lia..|].
      apply (render_all_stays path); [unfold room, on_screen in *; lia|exact Hall|exact IH]. }
    intros [ch' s] Hst. cbn [returns]. apply confined_app; [by apply frame_confined|exact Hst].
  - destruct Hf as (Hlen & Hpl & Hone). unfold stays.
    apply (returns_bind _ _ (fun '(_, s) => confined (area x y w h) s)).
    + destruct (Z.ltb_spec 1 h); [|exact (confined_nil _)].
      apply (stays_mono x y w h x (y + 1) w (h - 1)); [lia..|]. apply (render_one_stays path); [unfold room, on_screen in *; lia|exact Hone|exact IH].
    + intros [child' s] Hst. cbn [returns]. apply confined_app; [|exact Hst]. apply tab_labels_confined; [done|lia|lia|lia|done].
  - cbn [kids] in IH. apply Forall_app in IH as [IH1 [IH2 IH3]%Forall_app].
    assert (forall o, 0 <= split_at o s1 w h) as Hsp.
    { intros o'. unfold split_at, cdiv. destruct (Z.ltb_spec 0 s1); [lia|]. destruct o'; rewrite Z.quot_div_nonneg by lia; apply Z.div_pos; lia. }
    destruct o; destruct Hf as (Hlt & Hone & Htwo); cbv zeta; [specialize (Hsp ORIENT_HORIZONTAL)|specialize (Hsp ORIENT_VERTICAL)]; set (sp := split_at _ s1 w h) in *; clearbody sp; unfold stays.
    + apply (returns_bind _ _ (fun '(_, s) => confined (area x y w h) s)).
      { apply (stays_mono x y w h x y sp h); [lia..|]. apply (render_one_stays path); [unfold room, on_screen in *; lia|exact Hone|exact IH1]. }
      intros [first' s] H1. apply (returns_bind _ _ (fun '(_, s) => confined (area x y w h) s)).
      { apply (stays_mono x y w h (x + sp + 1) y (w - sp - 1) h); [lia..|]. apply (render_one_stays path); [unfold room, on_screen in *; lia|exact Htwo|exact IH2]. }
      intros [second' s'] H2. cbn [returns]. apply confined_app; [exact H1|]. apply confined_app; [|exact H2].
      apply confined_rows. intros k Hk. apply (confined_line _ _ _ _ _ _ 1); [done|by apply prints_glyph|lia..].
    + apply (returns_bind _ _ (fun '(_, s) => confined (area x y w h) s)).
      { apply (stays_mono x y w h x y w sp); [lia..|]. apply (render_one_stays path); [unfold room, on_screen in *; lia|exact Hone|exact IH1]. }
      intros [first' s] H1. apply (returns_bind _ _ (fun '(_, s) => confined (area x y w h) s)).
      { apply (stays_mono x y w h x (y + sp + 1) w (h - sp - 1)); [lia..|]. apply (render_one_stays path); [unfold room, on_screen in *; lia|exact Htwo|exact IH2]. }
      intros [second' s'] H2. cbn [returns]. apply confined_app; [exact H1|]. rewrite app_assoc. apply confined_app; [|exact H2].
      apply (confined_line _ _ _ _ _ _ (w * 1)); [done| |lia..]. apply prints_times; [by apply prints_glyph|lia].
  - unfold stays. eapply returns_bind; [apply (render_all_stays path x y w h b ch 0); [unfold room, on_screen in *; lia|exact Hf|exact IH]|]. by intros [ch' s] Hst.
  - unfold stays. eapply returns_bind; [apply (render_all_stays path x y w h b ch 0); [unfold room, on_screen in *; lia|exact Hf|exact IH]|]. by intros [ch' s] Hst.
Qed.
End drawing.

(** *** What a text shows *)

(** Printed characters are in their cells, with the attributes of the moment. *)
Lemma run_text l : forall s, state_of s = Ground -> Forall printable l ->
  let s' := run s l in
  state_of s' = Ground /\ attr s' = attr s /\
  forall r c, cells s' !! (r, c) =
    if decide (r = row s /\ col s <= c < col s + Z.of_nat (length l)) then (fun ch => ([ch], attr s)) <$> l !! Z.to_nat (c - col s) else cells s !! (r, c).
Proof.
  induction l as [|ch l IH]; intros s Hs Hp s'.
  { split; [done|]. split; [done|]. intros r c. by rewrite decide_False by (cbn [length]; lia). }
  inversion_clear Hp as [|? ? Hc Hl]. assert (s' = run (put [ch] s) l) as E by (unfold s'; cbn; by rewrite printable_step).
  clearbody s'. subst s'. destruct (IH (put [ch] s) eq_refl Hl) as (I1 & I2 & I3). split; [done|]. split; [done|]. intros r c. rewrite I3. cbn [put row col attr cells length].
  destruct (decide (r = row s /\ col s + 1 <= c < col s + 1 + Z.of_nat (length l))) as [[-> H]|H].
  - rewrite decide_True by lia. replace (Z.to_nat (c - col s)) with (S (Z.to_nat (c - (col s + 1)))) by lia. done.
  - destruct (decide (r = row s /\ c = col s)) as [[-> ->]|Hne].
    + rewrite lookup_insert, decide_True by done. rewrite decide_True by lia. by rewrite Z.sub_diag.
    + rewrite lookup_insert_ne by (intros [= ? ?]; apply Hne; lia). rewrite decide_False; [done|]. intros [-> ?]. apply H. split; [done|]. destruct (decide (c = col s)); [|lia]. exfalso. by apply Hne.
Qed.
(** Rows below each other, the first one the [k]-th. *)
Definition show_rows (x y : Z) (k : nat) (rws : list (list ascii)) : list ascii :=
  concat (imap (fun i r => goto (y + 1 + Z.of_nat (k + i)) (x + 1) ++ r) rws).
Definition row_ok (w : Z) (r : list ascii) : Prop := Z.of_nat (length r) = w /\ Forall printable r.
Lemma run_rows x y w rws : forall k s, 0 <= x -> 0 <= y -> x + w < INT_MAX -> y + Z.of_nat (k + length rws) < INT_MAX -> 0 < w -> state_of s = Ground -> Forall (row_ok w) rws ->
  let s' := run s (show_rows x y k rws) in
  state_of s' = Ground /\ attr s' = attr s /\
  forall i j, 0 <= j < w -> (i < length rws)%nat -> cells s' !! (y + 1 + Z.of_nat (k + i), x + 1 + j) =
    (fun ch => ([ch], attr s)) <$> (rws !! i ≫= (fun r => r !! Z.to_nat j)).
Proof.
  induction rws as [|r rws IH]; intros k s Hx Hy Hxw Hyk Hw Hs Hr s'; [split; [done|]; split; [done|]; cbn; lia|].
  inversion_clear Hr as [|? ? [Hlen Hp] Hrs]. cbn [length] in Hyk.
  set (s1 := mk Ground (y + 1 + Z.of_nat k) (x + 1) (attr s) (cells s)). destruct (run_text r s1 eq_refl Hp) as (T1 & T2 & T3).
  assert (s' = run (run s1 r) (show_rows x y (S k) rws)) as E.
  { unfold s', show_rows. cbn [imap concat]. rewrite !run_app, run_goto by (done || (unfold coord; lia)). rewrite Nat.add_0_r. fold s1.
    apply (f_equal (fun l => run (run s1 r) (concat l))). apply imap_ext. intros i r' _. unfold compose.
    by replace (k + S i)%nat with (S k + i)%nat by lia. }
  clearbody s'. subst s'.
  destruct (IH (S k) (run s1 r) ltac:(done) ltac:(done) ltac:(done) ltac:(lia) Hw T1 Hrs) as (I1 & I2 & I3). split; [done|]. split; [by rewrite I2|].
  intros [|i] j Hj Hi.
  - assert (confined (fun r' _ => y + 1 + Z.of_nat k < r') (show_rows x y (S k) rws)) as Hc.
    { unfold show_rows. apply confined_imap. intros i' r' Hi'. rewrite list.Forall_lookup in Hrs. destruct (Hrs _ _ Hi') as [Hl' Hp']. apply lookup_lt_Some in Hi'.
      apply (confined_at _ _ _ w); [unfold coord; lia|unfold coord; lia|rewrite <-Hl'; by apply prints_text|]. intros k' Hk'. lia. }
    rewrite (confined_cells _ _ _ Hc T1) by lia. rewrite T3. unfold s1. cbn [row col attr].
    rewrite decide_True by lia. replace (x + 1 + j - (x + 1)) with j by lia. done.
  - cbn [length] in Hi. replace (y + 1 + Z.of_nat (k + S i)) with (y + 1 + Z.of_nat (S k + i)) by lia. rewrite (I3 i j Hj ltac:(lia)), T2. done.
Qed.

Lemma filter_all {A} (f : A -> bool) l : Forall (fun x => f x = true) l -> List.filter f l = l.
Proof. induction 1 as [|x l Hx _ IH]; [done|]. cbn. by rewrite Hx, IH. Qed.
(** *** Frames *)

(** The tree with no node marked as changed. *)
Fixpoint undirty (t : RenderTree) : RenderTree := match t with mkTree i c => mkTree (set_dirty false i) (content_map undirty c) end.
Definition same_text {A B} (m : exec (A * list ascii)) (m' : exec (B * list ascii)) : Prop := snd <$> m = snd <$> m'.
Lemma same_text_bind {A B C D} (m : exec (A * list ascii)) (m' : exec (B * list ascii)) (k : A * list ascii -> exec (C * list ascii)) (k' : B * list ascii -> exec (D * list ascii)) :
  same_text m m' -> (forall a b s, same_text (k (a, s)) (k' (b, s))) -> same_text (m ≫= k) (m' ≫= k').
Proof.
  unfold same_text. intros Hm Hk. destruct m as [[a s]| |], m' as [[b s']| |]; cbn in Hm; try discriminate Hm; try done.
  injection Hm as <-. apply Hk.
Qed.
Lemma leaf_same {A B} (m : exec (list ascii)) (a : A) (b : B) : same_text (s ← m; Done (a, s)) (s ← m; Done (b, s)).
Proof. by destruct m. Qed.
Section frames.
Context (reg : Registry) (anims : list nat -> list AnimInstance) (now_ms : Z).
Definition full (t : RenderTree) : Prop := forall path x y w h,
  same_text (render_node reg anims now_ms path t x y w h true) (render_node reg anims now_ms path (undirty t) x y w h true).
Lemma render_all_full path x y w h l : forall k, Forall full l -> same_text (render_all reg anims now_ms path k l x y w h true) (render_all reg anims now_ms path k (map undirty l) x y w h true).
Proof.
  induction l as [|c l IH]; intros k HP; [done|]. inversion_clear HP as [|? ? Pc Pl]. cbn [render_all map].
  apply same_text_bind; [apply Pc|]. intros a b s. apply same_text_bind; [by apply IH|]. done.
Qed.
Lemma render_one_full path x y w h o k : Forall full (opt_list o) ->
  same_text (render_one reg anims now_ms path k o x y w h true) (render_one reg anims now_ms path k (option_map undirty o) x y w h true).
Proof.
  intros HP. destruct o as [c|]; [|done]. cbn [opt_list option_map render_one] in *. inversion_clear HP as [|? ? Pc _]. apply same_text_bind; [apply Pc|]. done.
Qed.
Lemma render_node_full t : full t.
Proof.
  induction t as [i c IH] using RenderTree_ind'. intros path off_x off_y max_w max_h. cbn [undirty render_node set_dirty rect dirty].
  destruct (_ || _); [done|]. rewrite !orb_true_r. cbn [mbind exec_bind negb].
  destruct (get_slide_offset_x reg now_ms (anims path)) as [sx| |]; try done. cbn [mbind exec_bind].
  destruct (get_slide_offset_y reg now_ms (anims path)) as [sy| |]; try done. cbn [mbind exec_bind].
  destruct (get_fade_amount reg now_ms (anims path)) as [fade| |]; try done. cbn [mbind exec_bind].
  destruct (get_typewriter_chars reg (anims path)) as [tw| |]; try done. cbn [mbind exec_bind]. cbv zeta.
  destruct (_ || _); [done|]. destruct (SFltb fade _); [done|].
  set (x := off_x + _ + sx). set (y := off_y + _ + sy). set (w := Z.min _ _). set (h := Z.min _ (max_h - _)). clearbody x y w h.
  destruct c as [bg border p ch|? ?|? ?|? ? ? ?|? ? ?|? ? ?|? ? ? ?|? ?|? ?|? ? ?|? ? ?|labels active child|o s1 s2 first second third|? ? ? ? ch|? ? ch|? ?|? ?|l];
    cbn [content_map kids] in *; try apply leaf_same.
  - apply same_text_bind; [by apply (render_all_full path)|]. done.
  - apply same_text_bind; [|done]. destruct (1 <? h); [by apply (render_one_full path)|done].
  - apply Forall_app in IH as [IH1 [IH2 IH3]%Forall_app]. destruct o; cbv zeta.
    all: apply same_text_bind; [by apply (render_one_full path)|]; intros a b s.
    all: apply same_text_bind; [by apply (render_one_full path)|]; done.
  - apply same_text_bind; [by apply (render_all_full path)|]. done.
  - apply same_text_bind; [by apply (render_all_full path)|]. done.
Qed.
End frames.

(** ** The lines of a text

    The lines of a text in a place of [w] columns: a line ends at a newline,
    which is not shown, or at the end of the text; a longer one is broken before
    the last space that leaves it room, or in the middle of a word when there is
    none. The space begins the next line. *)
Definition break_at (w k : nat) (p : list ascii) : Prop :=
  (0 < k <= w)%nat /\ (forall j, (k < j <= w)%nat -> p !! j <> Some " "%char) /\
  (p !! k = Some " "%char \/ k = w /\ p !! k <> Some " "%char).
Inductive wrapped (w : nat) : list ascii -> list (list ascii) -> Prop :=
  | wrapped_end : wrapped w [] []
  | wrapped_last l : l <> [] -> (length l <= w)%nat -> newline ∉ l -> wrapped w l [l]
  | wrapped_line l p ls : (length l <= w)%nat -> newline ∉ l -> wrapped w p ls -> wrapped w (l ++ newline :: p) (l :: ls)
  | wrapped_long p k ls : (w < length p)%nat -> newline ∉ take (S w) p -> break_at w k p -> wrapped w (drop k p) ls -> wrapped w p (take k p :: ls).
(** The line with the spaces around it. *)
Definition aligned (a : Alignment) (w : Z) (l r : list ascii) : Prop :=
  exists before after, 0 <= before /\ 0 <= after /\ before + Z.of_nat (length l) + after = w /\ r = spaces before ++ l ++ spaces after /\
    match a with ALIGN_LEFT => before = 0 | ALIGN_RIGHT => after = 0 | ALIGN_CENTER => before <= after <= before + 1 end.

Lemma last_space_spec k p : (last_space k p <= k)%nat /\ (forall j, (last_space k p < j <= k)%nat -> p !! j <> Some " "%char) /\
  ((0 < last_space k p)%nat -> p !! last_space k p = Some " "%char).
Proof.
  induction k as [|k (I1 & I2 & I3)]; cbn [last_space]; [split; [lia|split; [intros; lia|lia]]|].
  destruct (p !! S k) as [c|] eqn:E; [destruct (Ascii.eqb_spec c " ") as [->|Hc]|]; split; try lia; split; try lia; try done.
  - intros j Hj. destruct (decide (j = S k)) as [->|]; [congruence|apply I2; lia].
  - intros j Hj. destruct (decide (j = S k)) as [->|]; [congruence|apply I2; lia].
Qed.
Lemma span_no_newline p : exists rest, p = span not_newline p ++ rest /\ newline ∉ span not_newline p /\ (rest = [] \/ exists p', rest = newline :: p').
Proof.
  induction p as [|c p (rest & E & Hn & Hr)]; [exists []; split; [done|]; split; [by apply not_elem_of_nil|by left]|]. cbn [span]. destruct (not_newline c) eqn:Ec.
  - exists rest. split; [by cbn; rewrite <-E|]. split; [|done]. apply not_elem_of_cons. split; [by intros <-|done].
  - exists (c :: p). split; [done|]. split; [by apply not_elem_of_nil|]. right. exists p. unfold not_newline in Ec. apply negb_false_iff, Ascii.eqb_eq in Ec. by subst.
Qed.
(** How a line is taken from a text. *)
Lemma line_length_first w left p : 0 < w -> p <> [] -> Z.of_nat (length p) <= left ->
  let col := line_length w left p in let n := Z.to_nat w in
  (exists rest, p = take col p ++ rest /\ drop col p = rest /\ (col <= n)%nat /\ newline ∉ take col p /\ (rest = [] \/ exists p', rest = newline :: p')) \/
  ((n < length p)%nat /\ newline ∉ take (S n) p /\ break_at n col p /\ exists c p', drop col p = c :: p' /\ not_newline c = true).
Proof.
  intros Hw Hne Hl col n. destruct (span_no_newline p) as (rest & E & Hn & Hr). set (l := span not_newline p) in *.
  assert (length p = length l + length rest)%nat as Elen by (by rewrite <-length_app, <-E).
  unfold col, line_length. fold l. rewrite length_take. destruct (Nat.le_gt_cases (length l) n) as [Hle|Hgt].
  - left. exists rest. replace (Nat.min _ _) with (length l) by lia.
    assert (take (length l) p = l /\ drop (length l) p = rest) as [E1 E2].
    { rewrite E. by rewrite take_app_length, drop_app_length. }
    assert (forall X, match p !! length l with Some c => if ((Z.of_nat (length l) =? w) && not_newline c)%bool then X else length l | None => length l end = length l) as Hcol.
    2: { cbv zeta. rewrite Hcol, E1, E2. by split_and!. }
    intros X. destruct (p !! length l) as [c|] eqn:Ec; [|done]. rewrite E, lookup_app_r, Nat.sub_diag in Ec by lia.
    destruct Hr as [->|[p' ->]]; [done|]. injection Ec as <-. by rewrite andb_false_r.
  - right. replace (Nat.min _ _) with n by lia.
    assert (newline ∉ take (S n) p) as Hnl. { rewrite E, take_app_le by lia. intros Hin. apply Hn. eapply elem_of_take in Hin as (i & Hi & _). by eapply list_elem_of_lookup_2. }
    destruct (lookup_lt_is_Some_2 p n) as [c Ec]; [lia|]. rewrite Ec.
    assert (forall d k, p !! k = Some d -> (k <= n)%nat -> not_newline d = true) as Hd.
    { intros d k Hk Hkn. unfold not_newline. destruct (Ascii.eqb_spec d newline) as [->|]; [|done]. exfalso. apply Hnl. apply list_elem_of_lookup. exists k. rewrite lookup_take_lt by lia. done. }
    rewrite (Hd c n Ec ltac:(lia)). replace (Z.of_nat n =? w) with true by (symmetry; apply Z.eqb_eq; lia). cbn [andb]. cbv zeta.
    destruct (last_space_spec n p) as (L1 & L2 & L3). set (k := last_space n p) in *.
    assert (break_at n (if (0 <? k)%nat then k else n) p) as Hb.
    { unfold break_at. destruct (Nat.ltb_spec 0 k); [split_and!; [lia|lia|done|left; by apply L3]|].
      split_and!; [lia|lia|intros; lia|right; split; [done|apply L2; lia]]. }
    split_and!; [lia|done|done|]. set (m := if (0 <? k)%nat then k else n) in *.
    assert (m <= n)%nat by (unfold m; destruct (0 <? k)%nat; lia). destruct (lookup_lt_is_Some_2 p m) as [d Ed]; [lia|].
    exists d, (drop (S m) p). split; [by rewrite (drop_S _ _ _ Ed)|by eapply Hd].
Qed.
Lemma wrap_wrapped w : 0 < w -> forall p left, Z.of_nat (length p) <= left ->
  exists ls, wrapped (Z.to_nat w) p ls /\ forall room, wrap room w left p = take room ls.
Proof.
  intros Hw p. induction p as [p IH] using (induction_ltof1 _ (@length ascii)). unfold ltof in IH. intros left Hl.
  destruct p as [|c0 p0]; [exists []; split; [constructor|by intros [|]]|]. set (p := c0 :: p0) in *. assert (p <> []) as Hne by done.
  assert (0 < length p)%nat as Hpos by (cbn; lia).
  assert (forall room, wrap (S room) w left p = let col := line_length w left p in let rest := drop col p in
    take col p :: wrap room w (left - Z.of_nat col) (match rest with c :: rest' => if not_newline c then rest else rest' | [] => [] end)) as Ew.
  { intros room. cbn [wrap p]. destruct (Z.leb_spec left 0); [lia|done]. }
  clearbody p. cbv zeta in Ew. set (col := line_length w left p) in *.
  pose proof (line_length_first w left p Hw Hne Hl) as HF. cbv zeta in HF. fold col in HF.
  destruct HF as [(rest & E & Er & Hc & Hn & Hr)|(Hlong & Hn & Hb & c & p' & Ed & Hcn)].
  - rewrite Er in Ew. destruct Hr as [->|[p' ->]].
    + rewrite app_nil_r in E. exists [p]. rewrite <-E in Hn, Ew. split.
      * apply wrapped_last; [done| |done]. apply (f_equal length) in E. rewrite length_take in E. lia.
      * intros [|room]; [done|]. rewrite Ew. cbn. by destruct room.
    + assert (length p = length (take col p) + S (length p'))%nat as El by (by rewrite E at 1; rewrite length_app).
      rewrite length_take in El. destruct (IH p' ltac:(lia) (left - Z.of_nat col) ltac:(lia)) as (ls & Hls & Hwr). exists (take col p :: ls). split.
      * rewrite E at 1. apply wrapped_line; [rewrite length_take; lia|done|done].
      * intros [|room]; [done|]. rewrite Ew. cbn [take]. by rewrite <-Hwr.
  - rewrite Ed, Hcn, <-Ed in Ew. destruct Hb as (Hk & Hb). destruct (IH (drop col p) ltac:(rewrite length_drop; lia) (left - Z.of_nat col) ltac:(rewrite length_drop; lia)) as (ls & Hls & Hwr).
    exists (take col p :: ls). split; [by apply wrapped_long|]. intros [|room]; [done|]. rewrite Ew. cbn [take]. by rewrite <-Hwr.
Qed.
Lemma filter_no_newline l : newline ∉ l -> List.filter not_newline l = l.
Proof.
  intros Hl. apply filter_all. apply List.Forall_forall. intros c Hc. unfold not_newline. destruct (Ascii.eqb_spec c newline) as [->|]; [|done].
  exfalso. by apply Hl, list_elem_of_In.
Qed.
Lemma wrapped_whole w p ls : wrapped w p ls -> concat ls = List.filter not_newline p.
Proof.
  induction 1 as [|l _ _ Hn|l p ls _ Hn _ IH|p k ls Hl Hn [Hk _] _ IH]; [done|cbn; by rewrite app_nil_r, filter_no_newline|..]; cbn [concat]; rewrite IH.
  - rewrite List.filter_app, (filter_no_newline l) by done. reflexivity.
  - rewrite <-(take_drop k p) at 3. rewrite List.filter_app. f_equal. symmetry. apply filter_no_newline. intros Hin. apply Hn.
    replace (take k p) with (take k (take (S w) p)) in Hin by (rewrite take_take; f_equal; lia). eapply elem_of_take in Hin as (i & Hi & _). by eapply list_elem_of_lookup_2.
Qed.
Lemma wrapped_fits w p ls : wrapped w p ls -> Forall (fun l => (length l <= w)%nat) ls.
Proof. induction 1 as [| | |p k ls _ _ [Hk _] _ IH]; repeat (apply List.Forall_cons || constructor); try done. rewrite length_take. lia. Qed.
Lemma padded_aligned a w l : Z.of_nat (length l) <= w -> aligned a w l (padded a w l).
Proof.
  intros Hl. unfold padded, aligned. cbv zeta. set (pad := padding_left a w _).
  assert (0 <= pad /\ pad + Z.of_nat (length l) <= w /\ match a with ALIGN_LEFT => pad = 0 | ALIGN_RIGHT => w - (pad + Z.of_nat (length l)) = 0 | ALIGN_CENTER => pad <= w - (pad + Z.of_nat (length l)) <= pad + 1 end) as (H1 & H2 & H3).
  { unfold pad, padding_left, cdiv. cbv zeta. destruct a; rewrite ?Z.quot_div_nonneg by lia; case_match; simp_bool; try lia; Z.to_euclidean_division_equations; lia. }
  exists pad, (w - (pad + Z.of_nat (length l))). split_and!; [lia|lia|lia|done|done].
Qed.
(** Row [i] of a text that has all its characters shown. *)
Lemma text_rows_aligned a w h t : 0 < w -> Z.of_nat (length t) <= 999999 ->
  exists ls, wrapped (Z.to_nat w) t ls /\ forall i r, text_rows a w h 999999 t !! i = Some r -> aligned a w (default [] (ls !! i)) r.
Proof.
  intros Hw Ht. destruct (wrap_wrapped w Hw t 999999 Ht) as (ls & Hls & Hwr). exists ls. split; [done|].
  intros i r Hr. unfold text_rows in Hr. cbv zeta in Hr. rewrite Hwr in Hr. apply wrapped_fits in Hls.
  apply lookup_app_Some in Hr as [Hr|[Hlen Hr]].
  - apply list_lookup_fmap_Some in Hr as (l & -> & Hl). rewrite lookup_take_Some in Hl. destruct Hl as [Hl _]. rewrite Hl. apply padded_aligned.
    rewrite list.Forall_lookup in Hls. specialize (Hls _ _ Hl). cbn in Hls. lia.
  - pose proof (lookup_lt_Some _ _ _ Hr) as Hi. rewrite length_map, length_take in Hlen, Hi. rewrite length_replicate in Hi.
    apply lookup_replicate in Hr as [-> _]. rewrite lookup_ge_None_2 by lia. cbn [default].
    replace (spaces w) with (padded a w []); [by apply padded_aligned; cbn; lia|]. unfold padded. cbv zeta. cbn [length app].
    set (pad := padding_left _ _ _). assert (0 <= pad <= w).
    { unfold pad, padding_left, cdiv. cbv zeta. destruct a; rewrite ?Z.quot_div_nonneg by lia; case_match; simp_bool; try lia; Z.to_euclidean_division_equations; lia. }
    unfold spaces. rewrite <-replicate_add. f_equal. lia.
Qed.
End Drawn.

(** ** The buffer *)

(** Printing two pieces is printing them together. *)
Lemma buf_printf_app buf_sz s t buf : buf_printf buf_sz t (buf_printf buf_sz s buf) = buf_printf buf_sz (s ++ t) buf.
Proof.
  unfold buf_printf at 2 3. destruct (Z.leb_spec (buf_sz - 1) (Z.of_nat (length buf))) as [H|H].
  { unfold buf_printf. by destruct (Z.leb_spec (buf_sz - 1) (Z.of_nat (length buf))); [|lia]. }
  unfold buf_printf. rewrite length_app, length_take. set (n := Z.to_nat (buf_sz - Z.of_nat (length buf) - 1)).
  rewrite take_app. destruct (Z.leb_spec (buf_sz - 1) (Z.of_nat (length buf + Nat.min n (length s)))).
  - replace (n - length s)%nat with O by lia. by rewrite app_nil_r.
  - rewrite <-app_assoc. do 2 f_equal. f_equal. lia.
Qed.
Lemma buf_printf_empty buf_sz s : 0 < buf_sz -> buf_printf buf_sz s [] = take (Z.to_nat (buf_sz - 1)) s.
Proof.
  intros H. unfold buf_printf. cbn [length]. destruct (Z.leb_spec (buf_sz - 1) (Z.of_nat 0)).
  - by replace (Z.to_nat (buf_sz - 1)) with O by lia.
  - cbn [app]. f_equal. lia.
Qed.

(** ** Properties *)

(** C35: nothing is drawn outside its place: a tree that [Drawn.fits] the window is
    drawn without a fault, the buffer takes as much of the text as there is room
    for, and wherever the text is cut off, and whatever the terminal showed
    before, no cell outside the window shows anything once the four bytes that
    clear the terminal have been read, however the nodes overlap or reach out of
    their parents. A tree fits when its nodes lie to the right of and below
    their parents, with paddings that are not negative; when its texts are printable
    ASCII, wrapped texts having newlines too, and its lines as long as there is
    room for; when no list is without a selection and no required text missing;
    and when it has no table, tree, gauge or form, which are drawn without regard
    to the width of their place or, the gauge, to its height. The window is smaller than INT_MAX,
    and no node is animated, for an animation moves what it draws. *)
Theorem terminal_draws_inside reg anims now_ms t w h : (forall p, anims p = []) -> 0 <= w < INT_MAX -> 0 <= h < INT_MAX ->
  Drawn.fits w h t ->
  exists t' text,
    (forall buf_sz, 0 < buf_sz -> render_tree_to_buf reg anims now_ms (Some t) 0 0 w h buf_sz = Done (Some t', take (Z.to_nat (buf_sz - 1)) text)) /\
    forall s n r c, Screen.state_of s = Screen.Ground -> (4 <= n)%nat -> ~ (1 <= r <= h /\ 1 <= c <= w) ->
      Screen.cells (Screen.run s (take n text)) !! (r, c) = None.
Proof.
  intros Hst Hw Hh Hf.
  destruct (returns_Done _ _ (Drawn.render_node_stays reg anims now_ms Hst t [] 0 0 w h true ltac:(unfold Drawn.room; lia) Hf)) as ([t' s] & E & Hs).
  set (home := Tty.esc "[H"). exists t', (csi_seq (chars "2") "J" ++ home ++ s ++ reset). split.
  { intros buf_sz Hsz. unfold render_tree_to_buf. destruct (Z.leb_spec buf_sz 0); [lia|]. rewrite E. cbn [mbind exec_bind]. by rewrite buf_printf_empty. }
  intros s0 n r c Hg Hn Hrc. set (clear := csi_seq (chars "2") "J").
  assert (Screen.run s0 clear = Screen.mk Screen.Ground (Screen.row s0) (Screen.col s0) (Screen.attr s0) ∅) as Ec.
  { apply Screen.run_csi; [done|by apply Drawn.literal_param|done]. }
  rewrite take_app, Screen.run_app, (Screen.run_take s0 n clear) by (cbn; lia). rewrite Ec.
  assert (Screen.confined (Drawn.area 0 0 w h) (home ++ s ++ reset)) as Hc.
  { apply Screen.confined_app; [|apply Screen.confined_app; [exact Hs|apply Screen.confined_style, Drawn.prints_reset]].
    intros s1 Hs1. unfold home. change (Tty.esc "[H") with (csi_seq [] "H"). split; [by rewrite Screen.run_csi|].
    intros k r' c' _. apply (Screen.quiet_prefix (fun t => Screen.cells t !! (r', c') = _)); [by apply Screen.quiet_csi|done|by intros ? ->|]. by rewrite Screen.run_csi. }
  set (s1 := Screen.mk _ _ _ _ _). destruct (Hc s1 eq_refl) as [_ ->]; [done|]. unfold Drawn.area. lia.
Qed.
(** A framed text in a window of ten columns and four rows. *)
Definition styled_info (r : Rect) : NodeInfo := Animation.set_style widgetstyle_default (set_rect r info_zero).
Definition drawing_example : RenderTree :=
  mkTree (styled_info (mkRect 0 0 20 4)) (RNODE_CONTAINER None BORDER_ROUNDED edgeinsets_zero
    [mkTree (styled_info (mkRect 1 1 30 2)) (RNODE_TEXT (Some "hello wide world"%string) ALIGN_LEFT)]).
Definition text_drawn (m : exec (option RenderTree * list ascii)) : list ascii := match m with Done (_, s) => s | _ => [] end.
Lemma take_whole {A} n (l k : list A) : (length k < n)%nat -> k = take n l -> l = k.
Proof. intros Hk ->. rewrite length_take in Hk. symmetry. apply take_ge. lia. Qed.
Lemma terminal_draws_inside_witness :
  exists t' text, render_tree_to_buf registry_init (fun _ => []) 0 (Some drawing_example) 0 0 10 4 4096 = Done (Some t', take 4095 text) /\
    Screen.cells (Screen.run Screen.blank text) !! (2, 2) <> None /\
    forall s n r c, Screen.state_of s = Screen.Ground -> (4 <= n)%nat -> ~ (1 <= r <= 4 /\ 1 <= c <= 10) ->
      Screen.cells (Screen.run s (take n text)) !! (r, c) = None.
Proof.
  destruct (terminal_draws_inside registry_init (fun _ => []) 0 drawing_example 10 4) as (t' & text & E & H); [done|unfold INT_MAX; lia|unfold INT_MAX; lia| |].
  { cbn -[Z.sub]. repeat split; try lia.
    intros _ _. by apply (Drawn.text_literal "hello wide world"). }
  exists t', text. specialize (E 4096 ltac:(lia)). split; [exact E|]. split; [|exact H].
  apply (f_equal text_drawn) in E. cbn [text_drawn] in E. apply take_whole in E; [|apply Nat.ltb_lt; vm_compute; reflexivity].
  rewrite E. apply (bool_decide_unpack _). vm_compute. done.
Defined.


(** every frame is drawn in full: the marks of changed nodes, by which a node
    that did not change could be passed over, never matter, for the root is
    drawn as the child of a changed node and hands that on. *)
Theorem terminal_frames_complete reg anims now_ms t x y w h buf_sz :
  snd <$> render_tree_to_buf reg anims now_ms (Some t) x y w h buf_sz = snd <$> render_tree_to_buf reg anims now_ms (Some (Drawn.undirty t)) x y w h buf_sz.
Proof.
  unfold render_tree_to_buf. destruct (buf_sz <=? 0); [done|].
  apply Drawn.same_text_bind; [apply Drawn.render_node_full|]. done.
Qed.

(** A text that fades is shown as one that does not: the dimmed style is
    replaced before the first character. *)
Lemma terminal_fade_unseen x y w h t a ws fade tw s : 0 < w -> 0 < h -> tw <> 0 -> Screen.state_of s = Screen.Ground ->
  Screen.run s (set_dim_style ws fade ++ draw_text_wrapped x y w h (Some t) a ws tw) = Screen.run s (draw_text_wrapped x y w h (Some t) a ws tw).
Proof.
  intros Hw Hh Htw Hs. unfold draw_text_wrapped. destruct (Z.leb_spec w 0); [lia|]. destruct (Z.leb_spec h 0); [lia|]. destruct (Z.eqb_spec tw 0); [done|].
  cbn [orb]. cbv zeta. rewrite !Screen.run_app. do 2 f_equal.
  destruct (Drawn.run_style _ (Drawn.set_dim_style_seq ws fade)) as [a1 ->]; [|done]. destruct (Drawn.run_style _ (Drawn.set_style_seq (Some ws))) as [a2 R]. by rewrite !R.
Qed.
(** A list of one column shows whole labels; a list without a selection reads
    before its first item; an open node of a tree is read as something else. *)
Lemma terminal_narrow_list : match draw_list 0 0 1 1 [listitem_new (Some "label"%string)] 0 widgetstyle_default with
  | Done out => fst <$> Screen.cells (Screen.run Screen.blank out) !! (1, 6) = Some (chars "l")
  | _ => False end.
Proof. vm_compute. reflexivity. Qed.
Lemma terminal_unselected_list ws x y w h items : 0 < w -> 0 < h -> items <> [] -> draw_list x y w h items (-1) ws = Fault OutOfBounds.
Proof.
  intros Hw Hh Hi. unfold draw_list. destruct (Z.leb_spec h 0); [lia|]. destruct (Z.leb_spec w 0); [lia|]. cbn [orb].
  assert (scroll_of (-1) h = -1) as -> by (unfold scroll_of; destruct (Z.leb_spec h (-1)); [lia|done]).
  unfold counted. destruct (Z.to_nat h) as [|n] eqn:E; [lia|]. cbn [seq map all_of]. unfold list_row at 1. cbv zeta.
  destruct items; [done|]. change (Z.of_nat 0 + -1) with (-1). destruct (Z.ltb_spec (-1) (Z.of_nat (length (l :: items)))); [done|lia].
Qed.
Lemma terminal_open_node ws x y h l c cs sel rest : draw_tree x y h (mkTreeNode l true (c :: cs) :: rest) sel ws = Fault OutOfBounds.
Proof. done. Qed.
