(* ===== verification/Headless.v ===== *)
(** The headless backend: src/src/backend/headless/headless.c.

    Events are injected into a ring of 128 slots and polled from it; a slot that
    is used again keeps what the new event does not set. Frames are drawn into a
    buffer made for the size of the first one; drawing pixels is not modelled. *)

From S2P Require Import Prelude RenderTree Widget Animation TermDraw.

(** ** The backend *)

(** An [Event] with the fields that only this backend sets. *)
Record Slot := mkSlot { event : Event; ev_w : Z; ev_h : Z; ev_drag_dx : Z; ev_drag_dy : Z }.
Definition no_event : Event := mkEvent EVENT_NONE KEY_BACKSPACE 0 0 0 0 MOUSE_PRESS.
Definition slot_zero : Slot := mkSlot no_event 0 0 0 0.
(** [buffer] is the text drawn last, when there is a buffer. *)
Record HeadlessBackend := mk {
  buffer : option (list ascii); buf_size : Z; term_w : Z; term_h : Z;
  event_queue : list Slot; queue_head : Z; queue_tail : Z; queue_capacity : Z;
  events_injected : bool; auto_eof_sent : bool
}.
Definition headless_backend_init (w height : Z) : HeadlessBackend :=
  mk None 0 w height (replicate 128 slot_zero) 0 0 128 false false.
Definition hl_get_size (hl : HeadlessBackend) : Z * Z := (term_w hl, term_h hl).
Definition headless_get_buffer (hl : HeadlessBackend) : list ascii := default [] (buffer hl).

(** *** Events *)

Definition slot_at (hl : HeadlessBackend) (i : Z) : exec Slot :=
  if (i <? 0) then Fault OutOfBounds else at_index (event_queue hl !! Z.to_nat i).
Definition set_queue (q : list Slot) (head tail : Z) (injected eof : bool) (hl : HeadlessBackend) : HeadlessBackend :=
  mk (buffer hl) (buf_size hl) (term_w hl) (term_h hl) q head tail (queue_capacity hl) injected eof.
(** [f] sets the fields of the slot at the tail; a full queue drops the event. *)
Definition inject (f : Slot -> Slot) (hl : HeadlessBackend) : exec HeadlessBackend :=
  let next := cmod (queue_tail hl + 1) (queue_capacity hl) in
  if next =? queue_head hl then Done hl else
  s ← slot_at hl (queue_tail hl);
  Done (set_queue (<[Z.to_nat (queue_tail hl) := f s]> (event_queue hl)) (queue_head hl) next (events_injected hl) (auto_eof_sent hl) hl).
Definition headless_inject_key (code : KeyCode) (ch : Z) : HeadlessBackend -> exec HeadlessBackend :=
  inject (fun s => let e := event s in
    mkSlot (mkEvent EVENT_KEY code ch (ex e) (ey e) (button e) (mouse_state e)) (ev_w s) (ev_h s) (ev_drag_dx s) (ev_drag_dy s)).
Definition mouse_state_for (ty : EventType) (old : MouseState) : MouseState :=
  match ty with
  | EVENT_MOUSE_BUTTON => MOUSE_PRESS
  | EVENT_MOUSE_MOTION | EVENT_MOUSE_DRAG_START | EVENT_MOUSE_DRAG_MOVE => MOUSE_MOTION
  | _ => old
  end.
Definition is_drag (ty : EventType) : bool := match ty with EVENT_MOUSE_DRAG_START | EVENT_MOUSE_DRAG_MOVE => true | _ => false end.
Definition headless_inject_mouse (ty : EventType) (x y btn : Z) : HeadlessBackend -> exec HeadlessBackend :=
  inject (fun s => let e := event s in
    mkSlot (mkEvent ty (code e) (ch e) x y btn (mouse_state_for ty (mouse_state e))) (ev_w s) (ev_h s)
      (if is_drag ty then x else ev_drag_dx s) (if is_drag ty then y else ev_drag_dy s)).
Definition headless_inject_resize (w height : Z) (hl : HeadlessBackend) : exec HeadlessBackend :=
  inject (fun s => let e := event s in
    mkSlot (mkEvent EVENT_RESIZE (code e) (ch e) (ex e) (ey e) (button e) (mouse_state e)) w height (ev_drag_dx s) (ev_drag_dy s))
    (mk (buffer hl) (buf_size hl) w height (event_queue hl) (queue_head hl) (queue_tail hl) (queue_capacity hl) (events_injected hl) (auto_eof_sent hl)).

(** A script of events ends with one Escape, and then nothing comes. *)
Definition eof_slot : Slot := mkSlot (key_event KEY_ESC 0) 0 0 0 0.
Definition hl_next_event (hl : HeadlessBackend) : exec (Slot * HeadlessBackend) :=
  if queue_head hl =? queue_tail hl then
    (if events_injected hl && negb (auto_eof_sent hl)
     then Done (eof_slot, set_queue (event_queue hl) (queue_head hl) (queue_tail hl) (events_injected hl) true hl)
     else Done (slot_zero, hl))
  else
    s ← slot_at hl (queue_head hl);
    Done (s, set_queue (event_queue hl) (cmod (queue_head hl + 1) (queue_capacity hl)) (queue_tail hl) true (auto_eof_sent hl) hl).

(** *** Drawing *)

Definition set_buffer (b : list ascii) (sz : Z) (hl : HeadlessBackend) : HeadlessBackend :=
  mk (Some b) sz (term_w hl) (term_h hl) (event_queue hl) (queue_head hl) (queue_tail hl) (queue_capacity hl) (events_injected hl) (auto_eof_sent hl).
Definition hl_draw (reg : Registry) (anims : list nat -> list AnimInstance) (now_ms : Z) (tree : option RenderTree) (hl : HeadlessBackend) :
    exec (option RenderTree * HeadlessBackend) :=
  sz ← match buffer hl with Some _ => Done (buf_size hl) | None => as_int (term_w hl * term_h hl * 32) end;
  '(t, s) ← render_tree_to_buf reg anims now_ms tree 0 0 (term_w hl) (term_h hl) sz;
  Done (t, set_buffer s sz hl).

(** ** The queue it is meant to be *)

Module Queue.

Inductive Injected :=
  | Key (code : KeyCode) (ch : Z)
  | Mouse (ty : EventType) (x y btn : Z)
  | Resize (w h : Z).
(** What a poll gives: an event that was injected, the end, or nothing. *)
Inductive Polled := Event_of (i : Injected) | Eof | Nothing.
Inductive op := Inject (i : Injected) | Poll.

(** The events waiting, whether one was polled, and whether the end was told. *)
Record queue := mkQ { waiting : list Injected; seen : bool; told : bool }.
Definition empty : queue := mkQ [] false false.
Definition inject_q (i : Injected) (q : queue) : queue :=
  if (length (waiting q) <? 127)%nat then mkQ (waiting q ++ [i]) (seen q) (told q) else q.
Definition poll_q (q : queue) : Polled * queue :=
  match waiting q with
  | i :: l => (Event_of i, mkQ l true (told q))
  | [] => if seen q && negb (told q) then (Eof, mkQ [] (seen q) true) else (Nothing, q)
  end.
Fixpoint run_q (ops : list op) (q : queue) : list Polled * queue :=
  match ops with
  | [] => ([], q)
  | Inject i :: ops' => run_q ops' (inject_q i q)
  | Poll :: ops' => let '(p, q) := poll_q q in let '(ps, q) := run_q ops' q in (p :: ps, q)
  end.

Definition inject_op (i : Injected) : HeadlessBackend -> exec HeadlessBackend :=
  match i with
  | Key c ch => headless_inject_key c ch
  | Mouse ty x y b => headless_inject_mouse ty x y b
  | Resize w h => headless_inject_resize w h
  end.
Fixpoint run_hl (ops : list op) (hl : HeadlessBackend) : exec (list Slot * HeadlessBackend) :=
  match ops with
  | [] => Done ([], hl)
  | Inject i :: ops' => hl ← inject_op i hl; run_hl ops' hl
  | Poll :: ops' => '(s, hl) ← hl_next_event hl; '(ss, hl) ← run_hl ops' hl; Done (s :: ss, hl)
  end.

(** A slot carries an event when the fields the event sets are there; the others
    are left from an earlier event. *)
Definition carries (i : Injected) (s : Slot) : Prop :=
  let e := event s in
  match i with
  | Key c k => type e = EVENT_KEY /\ code e = c /\ ch e = k
  | Mouse ty x y b => type e = ty /\ ex e = x /\ ey e = y /\ button e = b /\
      match ty with
      | EVENT_MOUSE_BUTTON => mouse_state e = MOUSE_PRESS
      | EVENT_MOUSE_MOTION => mouse_state e = MOUSE_MOTION
      | EVENT_MOUSE_DRAG_START | EVENT_MOUSE_DRAG_MOVE => mouse_state e = MOUSE_MOTION /\ ev_drag_dx s = x /\ ev_drag_dy s = y
      | _ => True
      end
  | Resize w h => type e = EVENT_RESIZE /\ ev_w s = w /\ ev_h s = h
  end.
Definition gives (p : Polled) (s : Slot) : Prop :=
  match p with Event_of i => carries i s | Eof => s = eof_slot | Nothing => s = slot_zero end.

(** The ring: the slots from the head on carry the waiting events, and there is
    always a slot between the last of them and the head. *)
Definition ring (hl : HeadlessBackend) (q : queue) : Prop :=
  length (event_queue hl) = 128%nat /\ queue_capacity hl = 128 /\ 0 <= queue_head hl < 128 /\ (length (waiting q) <= 127)%nat /\
  queue_tail hl = (queue_head hl + Z.of_nat (length (waiting q))) mod 128 /\
  events_injected hl = seen q /\ auto_eof_sent hl = told q /\
  forall k i, waiting q !! k = Some i ->
    exists s, event_queue hl !! Z.to_nat ((queue_head hl + Z.of_nat k) mod 128) = Some s /\ carries i s.

Lemma ring_init w h : ring (headless_backend_init w h) empty.
Proof. unfold ring. cbn. repeat split; try done; lia. Qed.

Lemma inject_ring f i hl q : ring hl q -> (forall s, carries i (f s)) -> returns (inject f hl) (fun hl' => ring hl' (inject_q i q)).
Proof.
  intros Hr Hf. pose proof Hr as (Hl & Hc & Hh & Hn & Ht & Hs & He & Hw). unfold inject, inject_q, cmod. rewrite Hc.
  assert (0 <= queue_tail hl < 128) as Htr by (rewrite Ht; apply Z.mod_pos_bound; lia).
  rewrite Z.rem_mod_nonneg by lia. set (n := Z.of_nat (length (waiting q))) in *.
  assert ((queue_tail hl + 1) mod 128 = (queue_head hl + n + 1) mod 128) as En by (rewrite Ht, Zplus_mod_idemp_l; done). rewrite En.
  destruct (Z.eqb_spec ((queue_head hl + n + 1) mod 128) (queue_head hl)) as [E|E].
  - destruct (Nat.ltb_spec (length (waiting q)) 127) as [Hlt|_]; [|exact Hr]. exfalso. unfold n in E. Z.to_euclidean_division_equations. lia.
  - destruct (Nat.ltb_spec (length (waiting q)) 127) as [Hlt|Hge].
    2: { exfalso. apply E. unfold n. replace (length (waiting q)) with 127%nat by lia. change (Z.of_nat 127) with 127.
         replace (queue_head hl + 127 + 1) with (queue_head hl + 1 * 128) by lia. rewrite Z.mod_add by lia. by apply Z.mod_small. }
    unfold slot_at. destruct (Z.ltb_spec (queue_tail hl) 0); [lia|].
    destruct (lookup_lt_is_Some_2 (event_queue hl) (Z.to_nat (queue_tail hl))) as [s Es]; [lia|]. rewrite Es. cbn [at_index mbind exec_bind returns].
    unfold ring, set_queue. cbn. rewrite length_insert, length_app. cbn [length]. repeat split; try done; try lia.
    + f_equal. unfold n. lia.
    + intros k j Hk. destruct (decide (k = length (waiting q))) as [->|Hne].
      * rewrite lookup_app_r, Nat.sub_diag in Hk by lia. injection Hk as <-. fold n. rewrite <-Ht. exists (f s).
        split; [|apply Hf]. apply list_lookup_insert_eq. lia.
      * apply lookup_app_Some in Hk as [Hk|[Hge Hk]].
        -- destruct (Hw k j Hk) as (s' & Es' & Hcs). exists s'. split; [|done]. rewrite list_lookup_insert_ne; [done|]. apply lookup_lt_Some in Hk.
           intros Heq. apply Z2Nat.inj in Heq; [|lia|apply Z.mod_pos_bound; lia]. rewrite Ht in Heq. unfold n in Heq. Z.to_euclidean_division_equations. lia.
        -- apply lookup_lt_Some in Hk. cbn in Hk. lia.
Qed.
Lemma inject_op_ring i hl q : ring hl q -> returns (inject_op i hl) (fun hl' => ring hl' (inject_q i q)).
Proof.
  intros Hr. destruct i as [c k|ty x y b|w h]; cbn [inject_op]; (eapply inject_ring; [|intros s]); try done.
  - cbn. repeat split; try done. by destruct ty. all: by destruct ty.
Qed.
Lemma poll_ring hl q : ring hl q -> returns (hl_next_event hl) (fun '(s, hl') => let '(p, q') := poll_q q in gives p s /\ ring hl' q').
Proof.
  intros Hr. pose proof Hr as (Hl & Hc & Hh & Hn & Ht & Hs & He & Hw). unfold hl_next_event, poll_q.
  destruct (waiting q) as [|i l] eqn:Eq.
  - cbn [length] in Ht. assert (queue_head hl = queue_tail hl) as E by (rewrite Ht, Z.add_0_r, Z.mod_small; lia).
    rewrite (proj2 (Z.eqb_eq _ _) E), Hs, He. destruct (seen q && negb (told q)) eqn:Es; cbn [returns].
    + split; [done|]. unfold ring. cbn. repeat split; try done; lia.
    + split; [done|]. by rewrite <-Eq in *.
  - destruct (Z.eqb_spec (queue_head hl) (queue_tail hl)) as [E|E].
    { exfalso. rewrite Ht in E. cbn [length] in *. Z.to_euclidean_division_equations. lia. }
    destruct (Hw 0%nat i eq_refl) as (s & Es & Hcs). unfold slot_at. destruct (Z.ltb_spec (queue_head hl) 0); [lia|].
    rewrite Z.add_0_r, Z.mod_small in Es by lia. rewrite Es. cbn [at_index mbind exec_bind returns]. split; [done|].
    unfold ring, set_queue, cmod. cbn. rewrite Hc, Z.rem_mod_nonneg by lia. cbn [length] in *. repeat split; try done; try lia.
    + apply Z.mod_pos_bound. lia.
    + apply Z.mod_pos_bound. lia.
    + rewrite Zplus_mod_idemp_l, Ht. f_equal. lia.
    + intros k j Hk. destruct (Hw (S k) j Hk) as (s' & Es' & Hcs'). exists s'. split; [|done]. rewrite Zplus_mod_idemp_l. rewrite <-Es'. do 3 f_equal. lia.
Qed.
End Queue.

(** C39: the ring of the headless backend is a queue: for any sequence of injected
    keys, mouse events and new sizes and of polls, the polls give the injected
    events, first in first out, each with what it was injected with, where a
    queue with 127 waiting drops the next; when nothing waits, a poll gives an
    empty event, or, once, and only after some event was polled, an Escape;
    no access leaves the ring. What an event does not set, the state of
    a wheel event, say, is left from the one that had its slot before
    ([headless_stale_fields]). *)
Theorem headless_refines w h ops : exists ss hl, Queue.run_hl ops (headless_backend_init w h) = Done (ss, hl) /\
  Forall2 Queue.gives (fst (Queue.run_q ops Queue.empty)) ss.
Proof.
  assert (forall hl q, Queue.ring hl q -> exists ss hl', Queue.run_hl ops hl = Done (ss, hl') /\ Forall2 Queue.gives (fst (Queue.run_q ops q)) ss) as H;
    [|by apply H, Queue.ring_init].
  induction ops as [|[i|] ops IH]; intros hl q Hr; [by exists [], hl| |]; cbn [Queue.run_hl Queue.run_q].
  - destruct (returns_Done _ _ (Queue.inject_op_ring i hl q Hr)) as (hl1 & -> & H1). by apply (IH hl1).
  - destruct (returns_Done _ _ (Queue.poll_ring hl q Hr)) as ([s hl1] & -> & H1). destruct (Queue.poll_q q) as [p q1]. destruct H1 as [Hp H1].
    destruct (IH hl1 q1 H1) as (ss & hl2 & E & Hg). cbn [mbind exec_bind]. rewrite E. cbn [mbind exec_bind].
    exists (s :: ss), hl2. split; [done|]. destruct (Queue.run_q ops q1) as [ps q2]. by constructor.
Qed.

(** The slot of an event that is taken again keeps its other fields: a wheel
    event has the state of the press before it. *)
Definition stale_run : list Queue.op :=
  Queue.Inject (Queue.Mouse EVENT_MOUSE_MOTION 1 1 0) :: Queue.Poll :: concat (replicate 127 [Queue.Inject (Queue.Key KEY_UP 0); Queue.Poll]) ++
  [Queue.Inject (Queue.Mouse EVENT_MOUSE_SCROLL 2 2 1); Queue.Poll].
Lemma headless_stale_fields : exists ss hl, Queue.run_hl stale_run (headless_backend_init 80 24) = Done (ss, hl) /\
  match ss with _ :: _ => type (event (List.last ss slot_zero)) = EVENT_MOUSE_SCROLL /\ mouse_state (event (List.last ss slot_zero)) = MOUSE_MOTION | [] => False end.
Proof. do 2 eexists. split; [vm_compute; reflexivity|]. vm_compute. by split. Qed.

(** A frame fits the buffer made for the first one, whatever the size is now. *)
Lemma headless_draw_fits reg anims now t hl t' hl' : hl_draw reg anims now t hl = Done (t', hl') ->
  Z.of_nat (length (headless_get_buffer hl')) < buf_size hl' /\ (buffer hl <> None -> buf_size hl' = buf_size hl).
Proof.
  unfold hl_draw, render_tree_to_buf. intros (sz & Hsz & H)%exec_bind_Done. apply exec_bind_Done in H as ([t1 s] & H1 & [= <- <-]).
  destruct (Z.leb_spec sz 0); [done|]. cbn. split.
  - destruct t as [t|]; [|injection H1 as <- <-; cbn; lia]. apply exec_bind_Done in H1 as ([t2 s2] & _ & [= _ <-]). cbn [default].
    rewrite buf_printf_empty by lia. rewrite length_take. lia.
  - intros Hb. destruct (buffer hl); [by injection Hsz as <-|done].
Qed.
