(* ===== verification/Factories.v ===== *)
(** Widgets from requests: src/src/core/widget_factories.c.

    A factory takes its parameters out of the request by a table of
    descriptions, into an array of untyped words, and hands them to the
    constructor of its widget. A widget is then a table of functions and its data
    behind it: [Any]. The constructors of the widgets this development does not
    model, and what the other ones take from the system, are arguments. *)

From Stdlib Require Import SpecFloat.
From S2P Require Import Prelude Double CJson Arena Recorder Fil Protocol RenderTree Widget Boxes Displays Choice Forms TextEditor Panels Tools.

(** ** A widget behind its table *)

Inductive AnyWidget := Any (W : Type) (vtable : Widget W) (data : W).
Arguments Any {W} vtable data.
Definition any_base (a : AnyWidget) : WidgetBase := match a with Any i w => base w end.
Definition any_set_base (b : WidgetBase) (a : AnyWidget) : AnyWidget := match a with Any i w => Any i (set_base b w) end.
Definition any_render (a : AnyWidget) : exec (AnyWidget * RenderTree) := match a with Any i w => '(w', t) ← render w; Done (Any i w', t) end.
Definition any_handle_event (a : AnyWidget) (e : Event) : exec (AnyWidget * EventResult) :=
  match a with Any i w => '(w', r) ← handle_event w e; Done (Any i w', r) end.
#[global] Program Instance any_widget : Widget AnyWidget := {|
  base := any_base; set_base := any_set_base; render := any_render; handle_event := any_handle_event |}.
Next Obligation. intros b [W i w]. apply base_set_base. Qed.
Next Obligation. intros [W i w]. cbn. by rewrite set_base_base. Qed.
Next Obligation. intros b b' [W i w]. cbn. by rewrite set_base_twice. Qed.

(** ** Parameters *)

Inductive ParamType := P_STR | P_INT | P_BOOL | P_JSON | P_STRS.
Record ParamDesc := mkParam { p_name : string; p_type : ParamType; def_str : option string; def_int : Z }.
(** What is stored in a word of the array. *)
Inductive word := AStr (s : option string) | AInt (z : Z) | AJson (j : option cJSON) | AStrs (l : option (list string)).
Definition item_text (v : cJSON) : string := default EmptyString (valuestring v).
Definition extract_param (params : option cJSON) (p : ParamDesc) : word :=
  let v := cJSON_GetObjectItem params (p_name p) in
  match p_type p with
  | P_STR => AStr (match v ≫= valuestring with Some s => Some s | None => def_str p end)
  | P_INT | P_BOOL => AInt (match v with Some v => valueint v | None => def_int p end)
  | P_JSON => AJson v
  | P_STRS => AStrs ((fun v => map item_text (child v)) <$> v)
  end.
(** [void *args\[16\] = {0}] *)
Definition args_of (params : option cJSON) (l : list ParamDesc) : list word :=
  let ws := map (extract_param params) (take 16 l) in ws ++ replicate (16 - length ws) (AInt 0).
(** The word as the constructor takes it; another use of it is not defined. *)
Definition str (a : list word) (i : nat) : option string := match a !! i with Some (AStr s) => s | _ => None end.
Definition int (a : list word) (i : nat) : Z := match a !! i with Some (AInt z) => z | _ => 0 end.
Definition json (a : list word) (i : nat) : option cJSON := match a !! i with Some (AJson j) => j | _ => None end.
Definition strs (a : list word) (i : nat) : list string := match a !! i with Some (AStrs (Some l)) => l | _ => [] end.
(** [(bool)(int)(intptr_t)a\[i\]] *)
Definition flag (a : list word) (i : nat) : bool := negb (int a i =? 0).
(** A string every table gives a default for. *)
Definition text (a : list word) (i : nat) : string := default EmptyString (str a i).

(** ** Constructors *)

Definition desc (n : string) (t : ParamType) (s : option string) (i : Z) : ParamDesc := mkParam n t s i.
Definition S_ (n : string) : ParamDesc := desc n P_STR (Some EmptyString) 0.
Definition J_ (n : string) : ParamDesc := desc n P_JSON None 0.
Definition I_ (n : string) : ParamDesc := desc n P_INT None 0.
Definition L_ (n : string) : ParamDesc := desc n P_STRS None 0.
Definition N_ (n : string) : ParamDesc := desc n P_STR None 0.

(** What the widgets take from the system: patterns, files, the clock,
    pictures, the date, the recording. *)
Record System := mkSystem {
  regcomp : string -> bool; regexec : string -> string -> bool; can_write : string -> bool; file_at : string -> option (list ascii);
  time : nat -> Z; stbi_load : string -> option (Z * Z); today : Z * Z * Z; macro_files : string -> option string; recording : Recorder.Recorder
}.
(** The constructors that are not modelled. *)
Record Others := mkOthers {
  file_picker_widget_new : string -> string -> option string -> AnyWidget;
  progress_widget_new : string -> list string -> option string -> AnyWidget;
  hub_widget_new : string -> option cJSON -> option cJSON -> AnyWidget;
  terminal_emulator_widget_new : string -> list string -> AnyWidget;
  widget_builder_new : AnyWidget;
  input_widget_set_validation_script : Input.InputData -> string -> AnyWidget
}.

Section factories.
Variable sys : System.
Variable others : Others.

Definition ctor : Type := list word -> exec AnyWidget.

(** The position of the first choice that is the default. *)
Definition index_of (s : string) (l : list string) : Z :=
  match list_find (fun c => c = s) l with Some (i, _) => Z.of_nat i | None => 0 end.
Definition menu_ctor : ctor := fun a =>
  let choices := strs a 2 in
  Done (Any Menu.menu_widget (Menu.menu_widget_new (str a 0) (str a 1) choices (match str a 4 with Some d => index_of d choices | None => 0 end))).
Definition menu_params := [S_ "title"; S_ "message"; L_ "choices"; I_ "count"; S_ "default"].
Definition yesno_ctor : ctor := fun a => Done (Any YesNo.yesno_widget (YesNo.yesno_widget_new (str a 0) (str a 1) (flag a 2))).
Definition yesno_params := [S_ "title"; S_ "message"; desc "default" P_BOOL None 1].
Definition input_ctor : ctor := fun a =>
  let w := Input.input_widget_new (regcomp sys) (str a 0) (str a 1) (str a 2) (str a 3) (str a 4) in
  Done (match str a 5 with
    | None | Some EmptyString => Any (Input.input_widget (regexec sys)) w
    | Some vs => input_widget_set_validation_script others w vs
    end).
Definition input_params := [S_ "title"; S_ "message"; S_ "default"; S_ "placeholder"; N_ "validation"; N_ "validation_script"].
Definition password_ctor : ctor := fun a => Done (Any Password.password_widget (Password.password_widget_new (str a 0) (str a 1) (str a 2))).
Definition password_params := [S_ "title"; S_ "message"; S_ "placeholder"].
Definition checklist_ctor : ctor := fun a =>
  Done (Any Checklist.checklist_widget (Checklist.checklist_widget_new (str a 0) (str a 1) (strs a 2) (int a 4) (int a 5) (strs a 6))).
Definition checklist_params :=
  [S_ "title"; S_ "message"; L_ "choices"; I_ "count"; I_ "min"; I_ "max"; L_ "default"; I_ "default_count"].
Definition msg_ctor : ctor := fun a => Done (Any Msg.msg_widget (Msg.msg_widget_new (text a 0) (text a 1))).
Definition msg_params := [S_ "title"; S_ "message"].
Definition filter_ctor : ctor := fun a => Done (Any Filter.filter_widget (Filter.filter_widget_new (str a 0) (str a 1) (strs a 2) (str a 4))).
Definition filter_params := [S_ "title"; S_ "message"; L_ "choices"; I_ "count"; N_ "placeholder"].
Definition multiselect_ctor : ctor := fun a =>
  Done (Any Multiselect.multiselect_widget (Multiselect.multiselect_widget_new (str a 0) (str a 1) (strs a 2) (str a 4) (int a 5) (int a 6))).
Definition multiselect_params := [S_ "title"; S_ "message"; L_ "choices"; I_ "count"; N_ "placeholder"; I_ "min_sel"; I_ "max_sel"].
Definition file_picker_ctor : ctor := fun a => Done (file_picker_widget_new others (text a 0) (text a 1) (str a 2)).
Definition file_picker_params := [S_ "title"; desc "start_dir" P_STR (Some "/") 0; N_ "filter_ext"].
Definition text_editor_ctor : ctor := fun a =>
  Done (Any (text_editor_widget (can_write sys)) (text_editor_widget_new (file_at sys) (text a 0) (str a 1) (str a 2))).
Definition text_editor_params := [S_ "title"; N_ "file_path"; N_ "content"].
Definition summary_ctor : ctor := fun a => Done (Any Summary.summary_widget (Summary.summary_widget_new (file_at sys) (text a 0) (str a 1) (str a 2))).
Definition summary_params := [S_ "title"; S_ "message"; N_ "file_path"].
Definition progress_ctor : ctor := fun a => Done (progress_widget_new others (text a 0) (strs a 1) (str a 3)).
Definition progress_params := [S_ "title"; L_ "command"; I_ "cmd_count"; N_ "logfile"].
Definition toggle_ctor : ctor := fun a => Done (Any Toggle.toggle_widget (Toggle.toggle_widget_new (str a 0) (text a 1) (flag a 2))).
Definition toggle_params := [S_ "title"; S_ "label"; desc "default" P_BOOL None 0].
Definition spinner_ctor : ctor := fun a => Done (Any Spinner.spinner_widget (Spinner.spinner_widget_new (text a 0))).
Definition spinner_params := [S_ "message"].
Definition orientation_of (o : option string) : Orientation := if decide (o = Some "vertical"%string) then ORIENT_VERTICAL else ORIENT_HORIZONTAL.
Definition separator_ctor : ctor := fun a => Done (Any Separator.separator_widget (Separator.separator_widget_new (orientation_of (str a 0)))).
Definition separator_params := [desc "orientation" P_STR (Some "horizontal") 0].
Definition disk_ctor : ctor := fun a => Done (Any Disk.disk_widget (Disk.disk_widget_new (text a 0) (text a 1) (json a 2) (json a 3) (flag a 4))).
Definition disk_params := [S_ "title"; S_ "disk"; J_ "partitions"; J_ "free_space"; desc "readonly" P_BOOL None 0].
(** A cell that is missing is empty. *)
Definition cell_text (row : cJSON) (j : nat) : string := match cJSON_GetArrayItem (Some row) (Z.of_nat j) with Some c => item_text c | None => EmptyString end.
Definition items_of (j : option cJSON) : list cJSON := match j with Some j => child j | None => [] end.
Definition table_ctor : ctor := fun a =>
  let headers := strs a 1 in
  Done (Any Table.table_widget (Table.table_widget_new (text a 0) headers (map (fun row => map (cell_text row) (seq 0 (length headers))) (items_of (json a 3))))).
Definition table_params := [S_ "title"; L_ "headers"; I_ "header_count"; J_ "rows"; I_ "row_count"].
Definition member_text (def : string) (o : cJSON) (k : string) : string := default def (cJSON_GetObjectItem (Some o) k ≫= valuestring).
Definition node_of (n : cJSON) : TreeNode :=
  mkTreeNode (member_text "" n "label") (match cJSON_GetObjectItem (Some n) "expanded" with Some e => negb (valueint e =? 0) | None => false end) [].
Definition tree_ctor : ctor := fun a => Done (Any Tree.tree_widget (Tree.tree_widget_new (text a 0) (map node_of (items_of (json a 1))))).
Definition tree_params := [S_ "title"; J_ "nodes"; I_ "node_count"].
Definition gauge_ctor : ctor := fun a => Done (Any Gauge.gauge_widget (Gauge.gauge_widget_new (text a 0) (int a 1) (text a 2))).
Definition gauge_params := [S_ "title"; I_ "percent"; S_ "label"].
Definition calendar_ctor : ctor := fun a => Done (Any Calendar.calendar_widget (Calendar.calendar_widget_new (text a 0) (today sys))).
Definition calendar_params := [S_ "title"].
Definition field_of (f : cJSON) : FormField :=
  mkField (member_text "" f "label") (member_text "input" f "widget_type") (chars (member_text "" f "value")) (member_text "" f "placeholder") [].
Definition form_ctor : ctor := fun a => Done (Any Form.form_widget (Form.form_widget_new (text a 0) (map field_of (items_of (json a 1))) (text a 3))).
Definition form_params := [S_ "title"; J_ "fields"; I_ "field_count"; desc "submit_label" P_STR (Some "Submit") 0].
Definition tabs_ctor : ctor := fun a =>
  let labels := strs a 1 in
  Done (Any (Tabs.tabs_widget (H := Msg.msg_widget)) (Tabs.tabs_widget_new (text a 0) labels (map (fun l => Msg.msg_widget_new l "") labels))).
Definition tabs_params := [S_ "title"; L_ "tab_labels"; I_ "tab_count"; J_ "children"; I_ "child_count"].
Definition split_panes_ctor : ctor := fun a =>
  Done (Any (SplitPanes.split_panes_widget (H := Msg.msg_widget))
    (SplitPanes.split_panes_widget_new (orientation_of (str a 0)) (Msg.msg_widget_new "Pane 1" "") (Msg.msg_widget_new "Pane 2" ""))).
Definition split_panes_params := [desc "orientation" P_STR (Some "horizontal") 0; J_ "first"; J_ "second"].
Definition context_menu_ctor : ctor := fun a => Done (Any ContextMenu.cm_widget (ContextMenu.context_menu_widget_new (strs a 0))).
Definition context_menu_params := [L_ "items"; I_ "count"].
Definition notification_ctor : ctor := fun a =>
  Done (Any (Notification.notification_widget (time sys)) (Notification.notification_widget_new (time sys) (text a 0) (int a 1) 0)).
Definition notification_params := [S_ "message"; I_ "duration"].
Definition radio_group_ctor : ctor := fun a =>
  Done (Any RadioGroup.radio_widget (RadioGroup.radio_group_widget_new (str a 0) (str a 1) (strs a 2) (int a 4))).
Definition radio_group_params := [S_ "title"; S_ "message"; L_ "choices"; I_ "count"; I_ "default"].
Definition range_slider_ctor : ctor := fun a =>
  Done (Any RangeSlider.range_slider_widget (RangeSlider.range_slider_widget_new (text a 0) (int a 1) (int a 2) (int a 3) (text a 4))).
Definition range_slider_params := [S_ "title"; I_ "min"; I_ "max"; I_ "value"; S_ "label"].
Definition color_picker_ctor : ctor := fun a => Done (Any ColorPicker.color_picker_widget (ColorPicker.color_picker_widget_new (text a 0))).
Definition color_picker_params := [S_ "title"; L_ "colors"; I_ "color_count"].
Definition badge_ctor : ctor := fun a => Done (Any Badge.badge_widget (Badge.badge_widget_new (text a 0))).
Definition badge_params := [S_ "text"].
Definition rich_text_ctor : ctor := fun a => Done (Any RichText.rich_text_widget (RichText.rich_text_widget_new (text a 0))).
Definition rich_text_params := [S_ "content"].
Definition tooltip_ctor : ctor := fun a => Done (Any Tooltip.tooltip_widget (Tooltip.tooltip_widget_new (text a 0))).
Definition tooltip_params := [S_ "text"].
Definition hub_ctor : ctor := fun a => Done (hub_widget_new others (text a 0) (json a 1) (json a 2)).
Definition hub_params := [S_ "title"; J_ "categories"; J_ "actions"].
Definition terminal_emulator_ctor : ctor := fun a => Done (terminal_emulator_widget_new others (text a 0) (strs a 1)).
Definition terminal_emulator_params := [S_ "title"; L_ "command"; I_ "cmd_count"].
Definition widget_builder_ctor : ctor := fun _ => Done (widget_builder_new others).
Definition macro_recorder_ctor : ctor := fun _ =>
  Done (Any (MacroRecorder.macro_recorder_widget (time sys) (macro_files sys) (can_write sys)) (MacroRecorder.macro_recorder_widget_new (recording sys))).
Definition image_ctor : ctor := fun a => Done (Any (Image.image_widget (stbi_load sys)) (Image.image_widget_new (str a 0) (str a 1) (int a 2) (int a 3))).
Definition image_params := [S_ "source"; desc "fit" P_STR (Some "contain") 0; I_ "width"; I_ "height"].
Definition canvas_ctor : ctor := fun a => Done (Any (Canvas.canvas_widget (regcomp sys) (regexec sys)) (Canvas.canvas_widget_new (str a 0) (int a 1) (int a 2))).
Definition canvas_params := [S_ "script"; I_ "width"; I_ "height"].
Definition markdown_ctor : ctor := fun a => Done (Any Markdown.markdown_widget (Markdown.markdown_widget_new (str a 0))).
Definition markdown_params := [S_ "content"].
(** The JSON item is taken for an array of doubles: there is no saying what the
    numbers are. *)
Definition plot_ctor : ctor := fun a =>
  if (0 <? int a 2) && bool_decide (json a 1 <> None) then Fault Indeterminate else
  d ← Plot.plot_widget_new (str a 0) [] (int a 2) (match a !! 3%nat with Some (AStrs l) => l | _ => None end) (int a 4);
  Done (Any Plot.plot_widget d).
Definition plot_params := [desc "type" P_STR (Some "line") 0; J_ "data"; I_ "data_count"; L_ "labels"; I_ "label_count"].
Definition video_ctor : ctor := fun a => Done (Any Video.video_widget (Video.video_widget_new (str a 0) (flag a 1))).
Definition video_params := [S_ "source"; desc "loop" P_BOOL None 0].

(** ** The registry *)

Definition generic_factory (c : ctor) (l : list ParamDesc) : WidgetFactory (W := AnyWidget) :=
  fun req => w ← c (args_of (params req) l); Done (Some w).
(** The factories, in the order they are registered in. *)
Definition builtins : list (string * (ctor * list ParamDesc)) :=
  [("menu", (menu_ctor, menu_params)); ("yesno", (yesno_ctor, yesno_params)); ("input", (input_ctor, input_params));
   ("password", (password_ctor, password_params)); ("checklist", (checklist_ctor, checklist_params)); ("msg", (msg_ctor, msg_params));
   ("filter", (filter_ctor, filter_params)); ("multiselect", (multiselect_ctor, multiselect_params));
   ("file_picker", (file_picker_ctor, file_picker_params)); ("text_editor", (text_editor_ctor, text_editor_params));
   ("summary", (summary_ctor, summary_params)); ("progress", (progress_ctor, progress_params)); ("toggle", (toggle_ctor, toggle_params));
   ("spinner", (spinner_ctor, spinner_params)); ("separator", (separator_ctor, separator_params)); ("disk", (disk_ctor, disk_params));
   ("table", (table_ctor, table_params)); ("tree", (tree_ctor, tree_params)); ("gauge", (gauge_ctor, gauge_params));
   ("calendar", (calendar_ctor, calendar_params)); ("form", (form_ctor, form_params)); ("tabs", (tabs_ctor, tabs_params));
   ("text", (text_editor_ctor, text_editor_params)); ("split_panes", (split_panes_ctor, split_panes_params));
   ("context_menu", (context_menu_ctor, context_menu_params)); ("notification", (notification_ctor, notification_params));
   ("radio_group", (radio_group_ctor, radio_group_params)); ("range_slider", (range_slider_ctor, range_slider_params));
   ("color_picker", (color_picker_ctor, color_picker_params)); ("badge", (badge_ctor, badge_params));
   ("rich_text", (rich_text_ctor, rich_text_params)); ("tooltip", (tooltip_ctor, tooltip_params)); ("hub", (hub_ctor, hub_params));
   ("terminal_emulator", (terminal_emulator_ctor, terminal_emulator_params)); ("widget_builder", (widget_builder_ctor, []));
   ("macro_recorder", (macro_recorder_ctor, [])); ("image", (image_ctor, image_params)); ("canvas", (canvas_ctor, canvas_params));
   ("markdown", (markdown_ctor, markdown_params)); ("plot", (plot_ctor, plot_params)); ("video", (video_ctor, video_params))]%string.
Definition register_builtin_widgets (r : list RegistryEntry) : list RegistryEntry :=
  foldl (fun r '(n, (c, l)) => widget_registry_register r n (Some (generic_factory c l))) r builtins.
End factories.

(** The table of a widget type and, as its length, how many descriptions it
    has; the NULL tables of the builder and the recorder are empty. *)
Definition param_tables : list (string * list ParamDesc) :=
  [("menu", menu_params); ("yesno", yesno_params); ("input", input_params); ("password", password_params);
   ("checklist", checklist_params); ("msg", msg_params); ("filter", filter_params); ("multiselect", multiselect_params);
   ("file_picker", file_picker_params); ("text_editor", text_editor_params); ("summary", summary_params); ("progress", progress_params);
   ("toggle", toggle_params); ("spinner", spinner_params); ("separator", separator_params); ("disk", disk_params);
   ("table", table_params); ("tree", tree_params); ("gauge", gauge_params); ("calendar", calendar_params); ("form", form_params);
   ("tabs", tabs_params); ("split_panes", split_panes_params); ("context_menu", context_menu_params); ("notification", notification_params);
   ("radio_group", radio_group_params); ("range_slider", range_slider_params); ("color_picker", color_picker_params); ("badge", badge_params);
   ("rich_text", rich_text_params); ("tooltip", tooltip_params); ("hub", hub_params); ("terminal_emulator", terminal_emulator_params);
   ("widget_builder", []); ("macro_recorder", []); ("image", image_params); ("canvas", canvas_params); ("markdown", markdown_params);
   ("plot", plot_params); ("video", video_params)]%string.
Definition widget_get_params (widget_type : string) : option (list ParamDesc) :=
  snd <$> List.find (fun e => bool_decide (fst e = widget_type)) param_tables.

(** ** What a request is served with *)

Module Served.

(** Events, and drawings into a window of any size. *)
Inductive act := Takes (e : Event) | Draws (area : Rect).
Definition in_window (a : act) : Prop := match a with Draws r => 0 <= rw r < 2 ^ 24 | Takes _ => True end.
Definition with_area (r : Rect) (b : WidgetBase) : WidgetBase := mkBase (dirty b) (accepts_text_input b) r (base_tab_index b).
Fixpoint act_run {W} `{Widget W} (w : W) (l : list act) : exec (W * option WidgetResponse) :=
  match l with
  | [] => Done (w, None)
  | Takes e :: l' =>
      '(w', r) ← handle_event w e;
      match r with EVENT_RESULT_RESPONSE resp => Done (w', Some resp) | _ => act_run w' l' end
  | Draws area :: l' => '(w', _) ← render (set_base (with_area area (base w)) w); act_run w' l'
  end.

(** The same in a session, which draws every frame in the memory of its arena:
    [sizes] is what the drawing asks the arena for, in order. They depend on the
    sizes of the C structures, so they are part of the step. *)
Inductive step := Arrives (e : Event) | Frame (area : Rect) (sizes : list Z).
Definition act_of (s : step) : act := match s with Arrives e => Takes e | Frame area _ => Draws area end.
Section framed.
Context (available : Z -> bool).
Fixpoint frames_run {W} `{Widget W} (a : Arena) (w : W) (l : list step) : exec (W * option WidgetResponse) :=
  match l with
  | [] => Done (w, None)
  | Arrives e :: l' =>
      '(w', r) ← handle_event w e;
      match r with EVENT_RESULT_RESPONSE resp => Done (w', Some resp) | _ => frames_run a w' l' end
  | Frame area sizes :: l' =>
      a' ← arena_frame available a sizes;
      '(w', _) ← render (set_base (with_area area (base w)) w); frames_run a' w' l'
  end.
(** The window is one, and the arena need not grow. *)
Definition frame_fits (room_for : Z) (s : step) : Prop :=
  match s with Frame area sizes => 0 <= rw area < 2 ^ 24 /\ Forall (fun n => 0 <= n) sizes /\ room sizes <= room_for | Arrives _ => True end.
Lemma frames_run_acts {W} `{Widget W} : (forall n, available n = true -> n < 2 ^ 63) ->
  forall l a w, wf a -> Forall (frame_fits (capacity a)) l -> frames_run a w l = act_run w (map act_of l).
Proof.
  intros Hav l. induction l as [|[e|area sizes] l IH]; intros a w Hwf Hl; [done|..]; inversion_clear Hl as [|? ? Hs Hl']; cbn [frames_run act_run map act_of].
  - destruct (handle_event w e) as [[w' r]| |]; [|done..]. cbn [mbind exec_bind]. destruct r; by rewrite ?IH.
  - destruct Hs as (_ & Hpos & Hroom). destruct (arena_frame_fits available Hav a sizes Hwf Hpos Hroom) as (a' & -> & Hwf' & Hc). cbn [mbind exec_bind].
    destruct (render _) as [[w' t]| |]; [|done..]. cbn [mbind exec_bind]. apply IH; [done|by rewrite Hc].
Qed.
Lemma steps_in_window c l : Forall (frame_fits c) l -> Forall in_window (map act_of l).
Proof. induction 1 as [|[e|area sizes] l Hs _ IH]; [constructor|..]; constructor; try done. apply Hs. Qed.
End framed.

(** An invariant under which neither faults. *)
Definition safe {W} (i : Widget W) (I : W -> Prop) : Prop := forall w, I w ->
  (forall e, returns (handle_event w e) (fun '(w', _) => I w')) /\
  (forall r, 0 <= rw r < 2 ^ 24 -> returns (render (set_base (with_area r (base w)) w)) (fun '(w', _) => I w')).
Inductive sound : AnyWidget -> Prop :=
  | sound_intro (W : Type) (i : Widget W) (I : W -> Prop) (d : W) : safe i I -> I d -> sound (Any i d).

Lemma any_safe : safe any_widget sound.
Proof.
  intros a Ha. destruct Ha as [W i I d Hs Hd]. destruct (Hs d Hd) as [He Hr]. split.
  - intros e. cbn. specialize (He e). destruct (handle_event d e) as [[d' r]| |]; [|done..]. by apply (sound_intro W i I).
  - intros r Hw. cbn. specialize (Hr r Hw). destruct (render _) as [[d' t]| |]; [|done..]. by apply (sound_intro W i I).
Qed.
Lemma safe_runs {W} (i : Widget W) I acts : safe i I -> forall w, I w -> Forall in_window acts -> exists w' r, act_run w acts = Done (w', r).
Proof.
  intros Hs. induction acts as [|[e|area] acts IH]; intros w Hw Ha; cbn [act_run]; [by eexists _, _| |]; inversion_clear Ha as [|? ? Hin Hacts]; destruct (Hs w Hw) as [He Hr].
  - destruct (returns_Done _ _ (He e)) as ([w' r] & -> & Hw'). cbn [mbind exec_bind]. destruct r; try (by apply IH). by eexists _, _.
  - destruct (returns_Done _ _ (Hr area Hin)) as ([w' t] & -> & Hw'). by apply IH.
Qed.

(** A constructor that makes such a widget of any parameters. *)
Definition serves (c : ctor) : Prop := forall a, exists w, c a = Done w /\ sound w.
Lemma serves_by {W} (i : Widget W) (I : W -> Prop) (f : list word -> W) : safe i I -> (forall a, I (f a)) -> serves (fun a => Done (Any i (f a))).
Proof. intros Hs HI a. eexists. split; [done|]. by apply (sound_intro W i I). Qed.

(** Widgets whose events and drawings go through whatever their data are. *)
Definition always {W} (_ : W) : Prop := True.
Ltac safe_always i h := intros w _; split;
  [intros e; unfold handle_event, i, h, dismissed; repeat case_match; exact I | intros r _; unfold render, i; exact I].

Lemma yesno_safe : safe YesNo.yesno_widget always.
Proof. safe_always YesNo.yesno_widget YesNo.yesno_handle_event. Qed.
Lemma toggle_safe : safe Toggle.toggle_widget always.
Proof. safe_always Toggle.toggle_widget Toggle.toggle_handle_event. Qed.
Lemma msg_safe : safe Msg.msg_widget always.
Proof. safe_always Msg.msg_widget Msg.msg_handle_event. Qed.
Lemma password_safe : safe Password.password_widget always.
Proof. safe_always Password.password_widget Password.password_handle_event. Qed.
Lemma separator_safe : safe Separator.separator_widget always.
Proof. safe_always Separator.separator_widget Separator.separator_handle_event. Qed.
Lemma gauge_safe : safe Gauge.gauge_widget always.
Proof. safe_always Gauge.gauge_widget Gauge.gauge_handle_event. Qed.
Lemma rich_text_safe : safe RichText.rich_text_widget always.
Proof. safe_always RichText.rich_text_widget RichText.rich_text_handle_event. Qed.
Lemma tooltip_safe : safe Tooltip.tooltip_widget always.
Proof. safe_always Tooltip.tooltip_widget Tooltip.tooltip_handle_event. Qed.
Lemma badge_safe : safe Badge.badge_widget always.
Proof. safe_always Badge.badge_widget Badge.badge_handle_event. Qed.
Lemma video_safe : safe Video.video_widget always.
Proof. safe_always Video.video_widget Video.video_handle_event. Qed.
Lemma summary_safe : safe Summary.summary_widget always.
Proof. safe_always Summary.summary_widget Summary.summary_handle_event. Qed.
Lemma image_safe f : safe (Image.image_widget f) always.
Proof. safe_always Image.image_widget Image.image_handle_event. Qed.
Lemma notification_safe t : safe (Notification.notification_widget t) always.
Proof. safe_always Notification.notification_widget Notification.notification_handle_event. Qed.
Lemma plot_safe : safe Plot.plot_widget always.
Proof. safe_always Plot.plot_widget Plot.plot_handle_event. Qed.
Lemma menu_draws d : returns (render d) (fun '(d', _) => d' = d :> Menu.MenuData).
Proof. done. Qed.

(** Widgets with an invariant: what [handles] says of the events is kept. *)
Lemma safe_handles {W} (i : Widget W) I R : handles I R ->
  (forall w r, I w -> 0 <= rw r < 2 ^ 24 -> returns (render (set_base (with_area r (base w)) w)) (fun '(w', _) => I w')) -> safe i I.
Proof.
  intros Hh Hr w Hw. split; [|by intros r; apply Hr]. intros e. by destruct (Hh w e Hw) as (w' & r & -> & Hi & _).
Qed.
Definition some_query (d : Filter.FilterData) : Prop := exists cs q, filter_inv cs q d.
Lemma filter_safe : safe Filter.filter_widget some_query.
Proof.
  intros d (cs & q & Hq). split.
  - intros e. destruct (filter_handles _ _ d e Hq) as (d' & r & -> & Hi & _). by exists cs, q.
  - intros r _. destruct (proj2 (filter_answers cs q (Filter.with_base (with_area r (Filter.wb d)) d) [] Hq)) as (t & E & Hi & _).
    change (set_base _ d) with (Filter.with_base (with_area r (Filter.wb d)) d). rewrite E. by eexists _, _.
Qed.
Definition some_limits (d : Multiselect.MultiselectData) : Prop := exists cs lo hi, multiselect_inv cs lo hi d.
Lemma multiselect_keeps : safe Multiselect.multiselect_widget some_limits.
Proof.
  intros d (cs & lo & hi & Hd). split.
  - intros e. destruct (multiselect_handles _ _ _ d e Hd) as (d' & r & -> & Hi & _). by exists cs, lo, hi.
  - intros r _. change (set_base _ d) with (Multiselect.with_base (with_area r (Multiselect.wb d)) d).
    assert (multiselect_inv cs lo hi (Multiselect.with_base (with_area r (Multiselect.wb d)) d)) as Hb by exact Hd.
    cbn [render Multiselect.multiselect_widget]. apply ms_update_inv in Hb. unfold Multiselect.multiselect_render. cbv zeta. set (d1 := Multiselect.ms_update _) in *. clearbody d1.
    apply (returns_bind _ _ (fun _ => True)); [|intros ls _; by exists cs, lo, hi].
    destruct Hb as (Hc & Hl & _ & Hf & _). induction Hf as [|k l Hk _ IH]; [done|].
    destruct (lookup_lt_is_Some_2 (Multiselect.selected d1) k) as [b ->]; [lia|]. destruct (lookup_lt_is_Some_2 (Multiselect.choices d1) k) as [c ->]; [by rewrite Hc|].
    cbn [at_index mbind exec_bind]. by apply (returns_bind _ _ _ _ IH).
Qed.
Lemma spinner_safe : safe Spinner.spinner_widget (fun d => 0 <= Spinner.frame d < 10).
Proof. by apply (safe_handles _ _ _ spinner_handles). Qed.
Lemma tree_safe : safe Tree.tree_widget (fun d => 0 <= Tree.cursor d /\ Forall (fun n => Tree.children n = []) (Tree.nodes d)).
Proof.
  intros d [Hc Hn]. split.
  - intros e. cbn [handle_event Tree.tree_widget]. unfold Tree.tree_handle_event, Tree.flat_count. cbv zeta.
    match goal with |- context [if Tree.cursor d <? ?n then ?k else ?m] => assert (returns (if Tree.cursor d <? n then k else m) (fun '(d', _) => d' = d)) as Ht end.
    { case_match; simp_bool; [|done]. destruct (lookup_lt_is_Some_2 (Tree.flat_indices d) (Z.to_nat (Tree.cursor d))) as [idx ->]; [lia|].
      cbn [at_index mbind exec_bind]. destruct (Tree.nodes d !! idx) as [n|] eqn:E; [|done].
      rewrite list.Forall_lookup in Hn. by rewrite (Hn _ _ E). }
    key_cases e; try exact (conj Hc Hn).
    + apply (returns_mono _ _ _ Ht). by intros [d' r] ->.
    + clear Ht. split; [cbn; case_match; simp_bool; lia|exact Hn].
    + clear Ht. split; [cbn; case_match; simp_bool; lia|exact Hn].
    + destruct (_ =? 32); [|exact (conj Hc Hn)]. apply (returns_mono _ _ _ Ht). by intros [d' r] ->.
  - intros r _. destruct (tree_draws (Tree.with_base (with_area r (Tree.wb d)) d) [] Hc) as (_ & _ & Hf).
    assert (no_fault (render (Tree.with_base (with_area r (Tree.wb d)) d))) as H.
    { apply Hf. refine (List.Forall_impl _ _ Hn). intros n E. rewrite E. cbn. lia. }
    revert H. cbn [render set_base base Tree.tree_widget]. unfold Tree.tree_render. cbv zeta. case_match; [done|]. by intros _.
Qed.
Lemma color_picker_safe : safe ColorPicker.color_picker_widget Picker.in_range.
Proof.
  apply (safe_handles _ _ _ Picker.picker_handles). intros d r Hd Hr.
  destruct (Picker.picker_draws (ColorPicker.with_base (with_area r (ColorPicker.wb d)) d)) as [t E]; [done|done|].
  change (render _) with (ColorPicker.cp_render (ColorPicker.with_base (with_area r (ColorPicker.wb d)) d)). by rewrite E.
Qed.
Lemma markdown_safe : safe Markdown.markdown_widget always.
Proof.
  intros d _. split; [intros e; unfold handle_event, Markdown.markdown_widget, Markdown.markdown_handle_event, dismissed; repeat case_match; exact I|].
  intros r _. destruct (markdown_lines (set_base (with_area r (base d)) d)) as (t & h & w & ch & E & _). cbn [render Markdown.markdown_widget]. by rewrite E.
Qed.
Definition on_a_day (d : Calendar.CalendarData) : Prop := Calendar.valid_date (Calendar.year d) (Calendar.month d) (Calendar.selected_day d).
Lemma calendar_safe : safe Calendar.calendar_widget on_a_day.
Proof.
  intros d [Hm Hd]. split.
  - intros e. destruct (Calendar.calendar_handles (Calendar.year d) (Calendar.month d) d e) as (d' & r & -> & (Hy & Hm' & Hd') & _); [done|].
    cbn [returns]. unfold on_a_day. rewrite Hy, Hm'. by split.
  - intros r _. cbn [render set_base Calendar.calendar_widget]. unfold Calendar.calendar_render. cbv zeta.
    cbn [Calendar.month Calendar.with_base]. destruct (Z.ltb_spec (Calendar.month d) 1); [lia|].
    destruct (lookup_lt_is_Some_2 Calendar.months (Z.to_nat (Calendar.month d - 1))) as [m ->]; [cbn; lia|]. by split.
Qed.
Definition in_fields (d : Form.FormData) : Prop := 0 <= Form.focused d <= Form.field_count d.
Lemma form_safe : safe Form.form_widget in_fields.
Proof.
  intros d Hd. split; [|done]. intros e. cbn [handle_event Form.form_widget]. unfold Form.form_handle_event.
  assert (0 <= cmod (Form.focused d + 1) (Form.field_count d + 1) <= Form.field_count d) as Hm.
  { unfold cmod, in_fields in *. pose proof (Z.rem_bound_pos (Form.focused d + 1) (Form.field_count d + 1)). lia. }
  assert (forall g, in_fields (Form.set_fields (<[Z.to_nat (Form.focused d) := g]> (Form.fields d)) d)) as Hg.
  { intros g. unfold in_fields, Form.field_count, Form.set_fields in *. cbn. by rewrite length_insert. }
  unfold in_fields in *. key_cases e; try exact Hd.
  - case_match; simp_bool; [|exact Hd]. unfold Form.field_count in *. destruct (lookup_lt_is_Some_2 (Form.fields d) (Z.to_nat (Form.focused d))) as [f ->]; [lia|].
    cbn [at_index mbind exec_bind]. case_match; [exact Hd|apply Hg].
  - case_match; exact Hd.
  - exact Hm.
  - cbn. unfold Form.field_count, Form.focus in *. cbn. case_match; simp_bool; lia.
  - case_match; simp_bool; [|exact Hd]. unfold Form.field_count in *. destruct (lookup_lt_is_Some_2 (Form.fields d) (Z.to_nat (Form.focused d))) as [f ->]; [lia|].
    cbn [at_index mbind exec_bind]. apply Hg.
Qed.
Definition in_cells (d : Table.TableData) : Prop :=
  0 <= Table.selected_row d /\ 0 <= Table.selected_col d /\ Forall (fun r => length r = length (Table.headers d)) (Table.rows d).
Lemma table_safe : safe Table.table_widget in_cells.
Proof.
  intros d Hd. split; [|done]. intros e. pose proof Hd as (Hr & Hc & Hl). cbn [handle_event Table.table_widget]. unfold Table.table_handle_event. cbv zeta.
  key_cases e; try exact Hd; try (split_and!; cbn; repeat case_match; simp_bool; first [exact Hl|lia]).
  case_match; simp_bool; [|exact Hd]. destruct (lookup_lt_is_Some_2 (Table.rows d) (Z.to_nat (Table.selected_row d))) as [row Er]; [lia|]. rewrite Er.
  rewrite list.Forall_lookup in Hl. specialize (Hl _ _ Er). cbn [at_index mbind exec_bind].
  destruct (lookup_lt_is_Some_2 row (Z.to_nat (Table.selected_col d))) as [s ->]; [lia|]. exact Hd.
Qed.
Lemma menu_safe : safe Menu.menu_widget (fun d => 0 <= Menu.selected d < Menu.count d).
Proof.
  intros d Hd. split; [|done]. intros e. destruct (menu_handles (Menu.choices d) ltac:(intros E; unfold Menu.count in Hd; rewrite E in Hd; cbn in Hd; lia) d e) as (d' & r & -> & [Hc Hs] & _); [done|].
  cbn [returns]. unfold Menu.count. by rewrite Hc.
Qed.
Lemma context_menu_safe : safe ContextMenu.cm_widget (fun d => cm_inv (ContextMenu.items d) d).
Proof.
  intros d Hd. split; [|done]. intros e. destruct (cm_handles _ d e Hd) as (d' & r & -> & Hi & _). cbn [returns]. by rewrite (proj1 Hi).
Qed.
Definition in_boxes (d : Checklist.ChecklistData) : Prop :=
  length (Checklist.checked d) = length (Checklist.choices d) /\ 0 <= Checklist.selected d < Checklist.count d.
Lemma checklist_safe : safe Checklist.checklist_widget in_boxes.
Proof.
  intros d Hd. split; [|done]. intros e. pose proof Hd as [Hl Hs]. cbn [handle_event Checklist.checklist_widget]. unfold Checklist.checklist_handle_event. cbv zeta.
  unfold in_boxes, Checklist.count in *.
  key_cases e; try exact Hd; try (destruct (_ && _); exact Hd); try (case_match; simp_bool; cbn; try exact Hd; split; [exact Hl|lia]).
  destruct (ch e =? 32); [|exact Hd]. destruct (lookup_lt_is_Some_2 (Checklist.checked d) (Z.to_nat (Checklist.selected d))) as [k ->]; [lia|].
  cbn [at_index mbind exec_bind]. split; [|exact Hs]. cbn. repeat case_match; by rewrite ?length_insert.
Qed.

(** Containers of message boxes. *)
Lemma msg_handles : handles (H := Msg.msg_widget) always (fun _ _ => True).
Proof. intros d e _. destruct (returns_Done _ _ (proj1 (msg_safe d I) e)) as ([d' r] & -> & _). exists d', r. split; [done|]. split; [done|]. by destruct r. Qed.
Lemma tabs_safe : safe (Tabs.tabs_widget (H := Msg.msg_widget)) (tabs_inv always).
Proof.
  apply (safe_handles _ _ _ (tabs_handles always _ msg_handles)). intros d r Hd Hr.
  cbn [render set_base Tabs.tabs_widget]. unfold Tabs.tabs_render. cbv zeta. cbn [Tabs.panes Tabs.active Tabs.with_base].
  destruct (_ !! _) as [w|]; [|exact Hd]. destruct Hd as (_ & Ha). split; [|exact Ha]. by apply list.Forall_forall.
Qed.
Lemma split_panes_safe : safe (SplitPanes.split_panes_widget (H := Msg.msg_widget)) (panes_inv always).
Proof. by apply (safe_handles _ _ _ (panes_handles always _ msg_handles)). Qed.

(** *** The types *)

(** The widgets that are served whatever the parameters, and those that need
    something to choose from, with the place of it in their table. *)
Definition free_types : list string :=
  ["yesno"; "password"; "msg"; "filter"; "multiselect"; "summary"; "toggle"; "spinner"; "separator"; "table"; "tree"; "gauge"; "calendar";
   "form"; "tabs"; "split_panes"; "notification"; "color_picker"; "badge"; "rich_text"; "tooltip"; "image"; "markdown"; "video"]%string.
Definition choice_types : list (string * nat) := [("menu", 2%nat); ("checklist", 2%nat); ("context_menu", 0%nat)]%string.
Definition served (n : string) (a : list word) : Prop := n ∈ free_types \/ exists k, (n, k) ∈ choice_types /\ strs a k <> [].

Section served.
Variable sys : System.
Variable others : Others.
Hypothesis Htoday : let '(y, m, d) := today sys in Calendar.valid_date y m d.

Lemma calendar_serves : serves (calendar_ctor sys).
Proof using Htoday. apply (serves_by _ on_a_day _ calendar_safe). intros a. unfold on_a_day. by destruct (today sys) as [[y m] d]. Qed.
Lemma filter_serves : serves filter_ctor.
Proof. apply (serves_by _ some_query _ filter_safe). intros a. eexists _, _. apply filter_new_inv. Qed.
Lemma multiselect_serves : serves multiselect_ctor.
Proof.
  apply (serves_by _ some_limits _ multiselect_keeps). intros a. eexists _, _, _. apply multiselect_new_inv.
Qed.
Lemma table_serves : serves table_ctor.
Proof.
  apply (serves_by _ in_cells _ table_safe). intros a. split; [done|]. split; [done|]. cbn [Table.rows Table.headers Table.table_widget_new].
  apply list.Forall_forall. intros r Hr. apply list_elem_of_fmap in Hr as (row & -> & _). by rewrite length_map, length_seq.
Qed.
Lemma tree_serves : serves tree_ctor.
Proof.
  apply (serves_by _ _ _ tree_safe). intros a. split; [done|]. cbn [Tree.nodes Tree.tree_widget_new].
  apply list.Forall_forall. intros r Hr. by apply list_elem_of_fmap in Hr as (row & -> & _).
Qed.
Lemma form_serves : serves form_ctor.
Proof. apply (serves_by _ in_fields _ form_safe). intros a. unfold in_fields, Form.field_count. cbn. lia. Qed.
Lemma tabs_serves : serves tabs_ctor.
Proof. apply (serves_by _ _ _ tabs_safe). intros a. split; [by apply list.Forall_forall|]. cbn. lia. Qed.
Lemma color_picker_serves : serves color_picker_ctor.
Proof. apply (serves_by _ _ _ color_picker_safe). intros a. by repeat split. Qed.
Abbreviation the_registry := (register_builtin_widgets sys others []).
Ltac free S := apply (serves_by _ always _ S); done.
(** What is registered under a name: a constructor and the table it is listed with. *)
Definition made_by (n : string) (c : ctor) (l : list ParamDesc) : Prop :=
  lookup the_registry n = Some (mkEntry n (Some (generic_factory c l)) false) /\ widget_get_params n = Some l.
Lemma free_serve n : n ∈ free_types -> exists c l, made_by n c l /\ serves c.
Proof using Htoday.
  intros Hn. unfold free_types in Hn. repeat (apply list.elem_of_cons in Hn as [->|Hn]; [eexists _, _; split; [split; reflexivity|]|]); [..|by apply elem_of_nil in Hn].
  - free yesno_safe.
  - free password_safe.
  - free msg_safe.
  - exact filter_serves.
  - exact multiselect_serves.
  - free summary_safe.
  - free toggle_safe.
  - by apply (serves_by _ _ _ spinner_safe).
  - free separator_safe.
  - exact table_serves.
  - exact tree_serves.
  - free gauge_safe.
  - exact calendar_serves.
  - exact form_serves.
  - exact tabs_serves.
  - by apply (serves_by _ _ _ split_panes_safe).
  - free (notification_safe (time sys)).
  - exact color_picker_serves.
  - free badge_safe.
  - free rich_text_safe.
  - free tooltip_safe.
  - free (image_safe (stbi_load sys)).
  - free markdown_safe.
  - free video_safe.
Qed.

Lemma choice_serve n k : (n, k) ∈ choice_types -> exists c l, made_by n c l /\ forall a, strs a k <> [] -> exists w, c a = Done w /\ sound w.
Proof.
  intros Hn. unfold choice_types in Hn.
  repeat (apply list.elem_of_cons in Hn as [[= -> ->]|Hn]; [eexists _, _; split; [split; reflexivity|]; intros a Ha; eexists; split; [reflexivity|]|]); [..|by apply elem_of_nil in Hn].
  - apply (sound_intro _ _ _ _ menu_safe). unfold Menu.count. cbn. destruct (_ && _) eqn:E; simp_bool; [lia|]. destruct (strs a 2); cbn; [done|lia].
  - apply (sound_intro _ _ _ _ checklist_safe). split; [apply checklist_new_length|]. unfold Checklist.count. cbn. destruct (strs a 2); cbn; [done|lia].
  - apply (sound_intro _ _ _ _ context_menu_safe). split; [done|]. cbn. destruct (strs a 0); cbn; [done|lia].
Qed.
Lemma request_makes n req : widget req = Some n -> served n (args_of (params req) (default [] (widget_get_params n))) ->
  exists w, widget_registry_create the_registry req = Done (Some w) /\ sound w.
Proof using Htoday.
  intros Hn Hs. rewrite (create_lookup _ _ _ Hn).
  assert (exists c l w, made_by n c l /\ c (args_of (params req) l) = Done w /\ sound w) as (c & l & w & [-> _] & E & Hw).
  { destruct Hs as [Hf|(k & Hk & Ha)].
    - destruct (free_serve n Hf) as (c & l & Hm & Hc). destruct (Hc (args_of (params req) l)) as (w & E & Hw). by exists c, l, w.
    - destruct (choice_serve n k Hk) as (c & l & Hm & Hc). pose proof Hm as [_ El]. rewrite El in Ha. destruct (Hc _ Ha) as (w & E & Hw). by exists c, l, w. }
  exists w. unfold make, generic_factory. cbn [factory]. rewrite E. by split.
Qed.
End served.
End Served.

(** ** Properties *)

(** C40: requests are served: for every request that names a widget of
    [Served.free_types], or a menu, a checklist or a context menu with something
    to choose from, whatever its other parameters are and of whatever JSON types,
    the registry makes a widget, and that widget takes any events, drawn between
    them in windows less than 2^24 columns wide, without a fault until it answers.
    The drawings ask the session's arena for what they need; each of them must
    find room in the buffer the arena has (1 MiB in a session): when the arena grows,
    what was given out before is freed memory ([frame_grows]). The date of
    today is a valid one. *)
Theorem requests_served sys others n req available arena steps : (let '(y, m, d) := today sys in Calendar.valid_date y m d) ->
  widget req = Some n -> Served.served n (args_of (params req) (default [] (widget_get_params n))) ->
  (forall size, available size = true -> size < 2 ^ 63) -> wf arena -> Forall (Served.frame_fits (capacity arena)) steps ->
  exists w w' r, widget_registry_create (register_builtin_widgets sys others []) req = Done (Some w) /\
    Served.frames_run available arena w steps = Done (w', r).
Proof.
  intros Ht Hn Hs Hav Hwf Hf. destruct (Served.request_makes sys others Ht n req Hn Hs) as (w & E & Hw).
  destruct (Served.safe_runs any_widget _ _ Served.any_safe w Hw (Served.steps_in_window _ _ Hf)) as (w' & r & R).
  exists w, w', r. split; [done|]. by rewrite Served.frames_run_acts.
Qed.
(** A small arena. *)
Definition arena128 : Arena := mkArena 0 (replicate 128 None) 128 0.
Lemma arena128_wf : wf arena128.
Proof. unfold wf, arena128. cbn [capacity buffer offset]. change (2 ^ 63) with 9223372036854775808. repeat split; lia. Qed.
Definition no_system : System := mkSystem (fun _ => true) (fun _ _ => false) (fun _ => false) (fun _ => None) Z.of_nat (fun _ => None) (2024, 2, 29) (fun _ => None) Recorder.recorder_zero.
Definition placeholder : AnyWidget := Any Msg.msg_widget (Msg.msg_widget_new "" "").
Definition no_others : Others := mkOthers (fun _ _ _ => placeholder) (fun _ _ _ => placeholder) (fun _ _ _ => placeholder) (fun _ _ => placeholder) placeholder (fun _ _ => placeholder).
Definition menu_request : string := of_chars (quoted
  "{'widget': 'menu', 'params': {'title': 'Pick', 'choices': ['tea', 'coffee'], 'default': 7}}").
Definition window : Rect := mkRect 0 0 80 24.
Definition menu_steps : list Served.step :=
  [Served.Frame window [48; 20]; Served.Arrives (key_event KEY_DOWN 0); Served.Frame window [48; 20]; Served.Arrives (key_event KEY_ENTER 0)].
(** From the text of a request to the answer. *)
Definition serve sys others (text : string) (steps : list Served.step) : exec (option WidgetResponse) :=
  req ← widget_request_parse text; o ← widget_registry_create (register_builtin_widgets sys others []) req;
  w ← deref o; '(_, r) ← Served.frames_run some_memory arena128 w steps; Done r.
Lemma requests_served_witness : exists req w w' r, widget_request_parse menu_request = Done req /\
  widget_registry_create (register_builtin_widgets no_system no_others []) req = Done (Some w) /\
  Served.frames_run some_memory arena128 w menu_steps = Done (w', Some r) /\ result r = Some (string_item "coffee").
Proof.
  assert (exists req, widget_request_parse menu_request = Done req /\ widget req = Some "menu"%string /\
    strs (args_of (params req) menu_params) 2 = ["tea"; "coffee"]%string) as (req & E & Hn & Hc).
  { eexists. split; [vm_compute; reflexivity|]. by split. }
  destruct (requests_served no_system no_others "menu" req some_memory arena128 menu_steps) as (w & w' & r & Ew & Er).
  - split; [cbn; lia|vm_compute; split; discriminate].
  - exact Hn.
  - right. exists 2%nat. split; [by left|]. change (strs (args_of (params req) menu_params) 2 <> []). by rewrite Hc.
  - exact some_memory_max.
  - exact arena128_wf.
  - repeat constructor; cbn; lia.
  - assert (serve no_system no_others menu_request menu_steps = Done (Some (mkResponse (Some (string_item "coffee")) false None))) as F by (vm_compute; reflexivity).
    unfold serve in F. rewrite E in F. cbn [mbind exec_bind] in F. rewrite Ew in F. cbn [deref mbind exec_bind] in F. rewrite Er in F. injection F as ->.
    eexists req, w, w', _. repeat split; done.
Defined.
(** A drawing that makes the arena grow faults: the children it was given before
    are in the old buffer. *)
Lemma frame_grows {W} `{Widget W} (w : W) l : Served.frames_run some_memory arena128 w (Served.Frame window [48; 100] :: l) = Fault UseAfterFree.
Proof. cbn [Served.frames_run]. assert (arena_frame some_memory arena128 [48; 100] = Fault UseAfterFree) as -> by (vm_compute; reflexivity). done. Qed.

(** The tables a client is told are those the factories use, but "text", which
    is registered and not listed. *)
Lemma params_agree sys others : Forall (fun '(n, (_, l)) => widget_get_params n = Some l \/ (n = "text"%string /\ widget_get_params n = None)) (builtins sys others).
Proof. unfold builtins. repeat (apply List.Forall_cons; [first [by left|by right]|]). constructor. Qed.

(** A menu without choices, and a list of boxes without any, fault on Enter and
    on a space; a value beyond its range is drawn outside the bar. *)
Definition asked (n : string) (l : list (string * cJSON)) : WidgetRequest :=
  mkRequest (Some n) (Some (set_child (map (fun '(k, v) => set_key (Some k) v) l) cJSON_CreateObject)) 0 0 None None false false None 0 0 None 0 0 0 None None 0 false.
Definition first_act (n : string) (l : list (string * cJSON)) (a : Served.act) : exec (option WidgetResponse) :=
  o ← widget_registry_create (register_builtin_widgets no_system no_others []) (asked n l);
  w ← deref o; '(_, r) ← Served.act_run w [a]; Done r.
Lemma requests_fault :
  first_act "menu" [("title"%string, string_item "Pick")] (Served.Takes (key_event KEY_ENTER 0)) = Fault OutOfBounds /\
  first_act "checklist" [("title"%string, string_item "Pick")] (Served.Takes (key_event KEY_CHAR 32)) = Fault OutOfBounds /\
  first_act "range_slider" [("max"%string, cJSON_CreateNumber (d_of_Z 10)); ("value"%string, cJSON_CreateNumber (d_of_Z 100))] (Served.Draws (mkRect 0 0 80 24)) = Fault OutOfBounds.
Proof. split; [vm_compute; reflexivity|]. split; [vm_compute; reflexivity|]. vm_compute; reflexivity. Qed.
