(* ===== verification/Client.v ===== *)
(** The programs at the other end of the daemon's socket: the client,
    src/src/core/client.c, and the relay, src/src/core/relay.c, which shows on
    its terminal what the daemon draws and sends the keys of that terminal.

    The buffer of the client is the list of the bytes below [buf_len]; what a
    read hands over is decided by a list of the pieces in which the bytes
    arrive. *)

From Stdlib Require Import SpecFloat.
From S2P Require Import Prelude Double CJson CJsonParse CJsonPrint CJsonRound Protocol Widget Terminal.

(** ** Keys as numbers *)

Definition key_codes : list KeyCode :=
  [KEY_BACKSPACE; KEY_ENTER; KEY_LEFT; KEY_RIGHT; KEY_UP; KEY_DOWN; KEY_HOME; KEY_END; KEY_PAGEUP; KEY_PAGEDOWN; KEY_TAB; KEY_BACKTAB;
   KEY_DELETE; KEY_INSERT; KEY_F1; KEY_F2; KEY_F3; KEY_F4; KEY_F5; KEY_F6; KEY_F7; KEY_F8; KEY_F9; KEY_F10; KEY_F11; KEY_F12;
   KEY_CHAR; KEY_ESC; KEY_NULL].
Definition key_number (k : KeyCode) : Z := match list_find (fun c => c = k) key_codes with Some (i, _) => Z.of_nat i | None => 0 end.
(** A number that names no key stands for [KEY_NULL]: nothing tests for either. *)
Definition key_of (z : Z) : KeyCode := if z <? 0 then KEY_NULL else default KEY_NULL (key_codes !! Z.to_nat z).

(** ** A socket *)

(** The bytes in the pieces in which they arrive; an empty piece is the end of
    the connection. *)
Abbreviation stream := (list (list ascii)).
(** [read] of at most [n] bytes; [None]: nothing is there. *)
Definition sock_read (n : Z) (s : stream) : option (list ascii * stream) :=
  match s with
  | [] => None
  | c :: s' => if Z.of_nat (length c) <=? n then Some (c, s') else Some (take (Z.to_nat n) c, drop (Z.to_nat n) c :: s')
  end.
(** More than the number of reads there can be. *)
Definition reads_in (s : stream) : nat := S (length s + length (concat s)).

(** ** The client *)

Module Client.
Definition CLIENT_BUF_SIZE : Z := 524288.
Record FillyClient := mk {
  buf : list ascii; response_received : bool; response_result : option cJSON; response_cancelled : bool; draw_cb : bool
}.
Definition filly_client_connect : FillyClient := mk [] false None false false.
Definition filly_client_set_draw_callback (b : bool) (c : FillyClient) : FillyClient :=
  mk (buf c) (response_received c) (response_result c) (response_cancelled c) b.
Definition set_buf (b : list ascii) (c : FillyClient) : FillyClient :=
  mk b (response_received c) (response_result c) (response_cancelled c) (draw_cb c).
Definition received (msg : cJSON) (c : FillyClient) : FillyClient :=
  let '(r, msg) := cJSON_DetachItemFromObject msg "result" in
  let cancelled := match cJSON_GetObjectItem (Some msg) "cancelled" with
    | Some i => match CJson.type i with cJSON_True => true | cJSON_Number => negb (valueint i =? 0) | _ => false end
    | None => false
    end in
  mk (buf c) true r cancelled (draw_cb c).

(** *** Messages to the daemon *)

Definition filly_client_send_request (json : list ascii) : list ascii := json ++ [LF].
Definition key_message (keycode : Z) (ch : list ascii) : list ascii :=
  quoted "{'type':'key','code':" ++ int_chars keycode ++ quoted ",'ch':'" ++ ch ++ quoted "'}" ++ [LF].
Definition filly_client_send_key (keycode ch : Z) : list ascii :=
  key_message keycode
    (if ch =? 0 then []
     else if ch =? 34 then ["\"%char; DQUOTE]
     else if ch =? 92 then ["\"%char; "\"%char]
     else if (32 <=? ch) && (ch <=? 126) then [Keys.chr ch]
     else []).
Definition filly_client_send_quit : list ascii := quoted "{'type':'quit'}" ++ [LF].

(** *** The buffer *)

(** [memchr(p, '\n', ...)]: the line and what is behind it. *)
Fixpoint split_line (l : list ascii) : option (list ascii * list ascii) :=
  match l with
  | [] => None
  | c :: l' => if Ascii.eqb c LF then Some ([], l') else (fun '(a, b) => (c :: a, b)) <$> split_line l'
  end.
Definition skip_newline (l : list ascii) : list ascii := match l with c :: l' => if Ascii.eqb c LF then l' else l | [] => [] end.
Definition result : Type := exec (Z * FillyClient * list (list ascii)).
(** What a drawing adds to the ones behind it. *)
Definition drawn (c : FillyClient) (d : list ascii) (m : result) : result :=
  '(r, c', ds) ← m; Done (r, c', if draw_cb c then d :: ds else ds).

(** The loop: [kept] are the bytes before [p], lines that were read and not
    removed, each with its line feed overwritten; [rest] are the bytes from [p]. *)
Fixpoint process_lines (fuel : nat) (kept rest : list ascii) (c : FillyClient) : result :=
  match fuel with
  | O => Fault Diverges
  | S fuel' =>
      let stop : result := Done (0, set_buf (match rest with [] => kept | _ => rest end) c, []) in
      match split_line rest with
      | None => stop
      | Some (line, data) =>
          let next : result := match data with [] => Done (0, set_buf [] c, []) | _ => process_lines fuel' (kept ++ line ++ [NUL]) data c end in
          match cJSON_Parse (of_chars (until_nul line)) with
          | Fault f => Fault f
          | Fail => next
          | Done msg =>
              match cJSON_GetObjectItem (Some msg) "type" ≫= valuestring with
              | None => next
              | Some t =>
                  if decide (t = "draw"%string) then
                    let draw_len := default 0 (valueint <$> cJSON_GetObjectItem (Some msg) "len") in
                    if 0 <? draw_len then
                      needed ← as_int (draw_len + 1);
                      if needed <=? Z.of_nat (length data)
                      then drawn c (take (Z.to_nat draw_len) data) (process_lines fuel' kept (skip_newline (drop (Z.to_nat draw_len) data)) c)
                      else stop
                    else next
                  else if decide (t = "response"%string) then Done (1, received msg (set_buf (kept ++ data) c), [])
                  else next
              end
          end
      end
  end.
Definition client_process_buffer (c : FillyClient) : result := process_lines (S (length (buf c))) [] (buf c) c.

(** *** Reading *)

(** The reads until nothing is left: [None] when the connection has ended or the
    buffer is full. *)
Fixpoint fill (fuel : nat) (s : stream) (c : FillyClient) : exec (bool * FillyClient * stream) :=
  match fuel with
  | O => Fault Diverges
  | S fuel' =>
      match sock_read 65536 s with
      | None => Done (true, c, [])
      | Some ([], s') => Done (false, c, s')
      | Some (tmp, s') =>
          if CLIENT_BUF_SIZE <=? Z.of_nat (length (buf c) + length tmp) then Done (false, c, s')
          else fill fuel' s' (set_buf (buf c ++ tmp) c)
      end
  end.
Definition filly_client_process (s : stream) (c : FillyClient) : exec (Z * FillyClient * list (list ascii) * stream) :=
  '(ok, c, s) ← fill (reads_in s) s c;
  if negb ok then Done (-1, c, [], s) else '(r, c, ds) ← client_process_buffer c; Done (r, c, ds, s).

(** Polls until the response: with nothing to come the loop goes on. *)
Fixpoint response_loop (fuel : nat) (s : stream) (c : FillyClient) : exec (Z * FillyClient * list (list ascii) * stream) :=
  if response_received c then Done (0, c, [], s) else
  match fuel with
  | O => Fault Diverges
  | S fuel' =>
      let space := CLIENT_BUF_SIZE - Z.of_nat (length (buf c)) - 1 in
      match s with
      | [] => Fault Diverges
      | _ =>
          if space <=? 0 then Done (-1, c, [], s) else
          match sock_read space s with
          | None => Fault Diverges
          | Some ([], s') => Done (-1, c, [], s')
          | Some (tmp, s') =>
              '(r, c, ds) ← client_process_buffer (set_buf (buf c ++ tmp) c);
              if r <? 0 then Done (-1, c, ds, s') else
              '(r, c, ds', s') ← response_loop fuel' s' c; Done (r, c, ds ++ ds', s')
          end
      end
  end.
(** The result is handed over and leaves the client. *)
Definition filly_client_get_response (s : stream) (c : FillyClient) : exec (Z * option cJSON * bool * FillyClient * list (list ascii)) :=
  '(r, c, ds, _) ← response_loop (reads_in s) s c;
  if r <? 0 then Done (r, None, false, c, ds)
  else Done (0, response_result c, response_cancelled c, mk (buf c) (response_received c) None (response_cancelled c) (draw_cb c), ds).
End Client.

(** ** The relay *)

Module Relay.
Import Client.

(** *** The terminal *)

(** What the relay asks of its terminal, with the counts the code gives:
    the mouse is asked for where there is one and never switched off. *)
Definition greeting (no_mouse : bool) : list ascii :=
  if no_mouse then take 14 (Tty.esc "[?1049h" ++ Tty.esc "[?25l")
  else take 28 (Tty.esc "[?1049h" ++ Tty.esc "[?25l" ++ Tty.esc "[?1000h" ++ Tty.esc "[?1006h").
Definition farewell : list ascii := take 17 (Tty.esc "[0m" ++ Tty.esc "[?1049l" ++ Tty.esc "[?25h").

(** *** Keys *)

(** The number of a key that ends a sequence, or none. *)
Definition csi_code (params : list ascii) (c3 : Z) : option KeyCode :=
  match params with
  | [] => Keys.letter_key c3
  | _ => if c3 =? 126 then Keys.number_key (atoi params) else None
  end.
(** The loop behind "ESC [": [c3] is the byte read last. *)
Fixpoint csi (params : list ascii) (c3 : Z) (s : Keys.tape) : exec (option KeyCode * Keys.tape) :=
  if (15 <=? length params)%nat then Done (None, s)
  else if Keys.is_final c3 then (_ ← Keys.put 16 params NUL; Done (csi_code params c3, s))
  else
    params ← (if Keys.is_param c3 then Keys.put 16 params (Keys.chr c3) else Done params : exec (list ascii));
    match s with
    | Some c :: s' => csi params c s'
    | None :: s' => Done (None, s')
    | [] => Done (None, [])
    end.
(** [None]: the sequence is none of the keys; the code then is not set. *)
Definition parse_csi (s : Keys.tape) : exec (option KeyCode * Keys.tape) :=
  let '(c, s) := Keys.read_byte_timeout s in
  if c =? 91 then
    let '(c3, s) := Keys.read_byte_timeout s in if c3 <? 0 then Done (None, s) else csi [] c3 s
  else if c =? 79 then
    let '(c3, s) := Keys.read_byte_timeout s in if c3 <? 0 then Done (None, s) else Done (Keys.ss3 c3, s)
  else Done (None, s).

(** What one byte of the terminal, and those behind it, send. *)
Definition relay_key (s : Keys.tape) : exec (option (list ascii) * Keys.tape) :=
  match s with
  | Some c :: s =>
      if c =? 27 then
        '(o, s) ← parse_csi s; Done (Some (filly_client_send_key (key_number (default KEY_ESC o)) 0), s)
      else if c =? 9 then Done (Some (filly_client_send_key (key_number KEY_TAB) 0), s)
      else if (c =? 13) || (c =? 10) then Done (Some (filly_client_send_key (key_number KEY_ENTER) 0), s)
      else if c =? 127 then Done (Some (filly_client_send_key (key_number KEY_BACKSPACE) 0), s)
      else Done (Some (filly_client_send_key (key_number KEY_CHAR) (s8 c)), s)
  | None :: s => Done (None, s)
  | [] => Done (None, [])
  end.

(** *** The loop *)

(** What one [select] finds: bytes of the daemon, a key at the terminal, or both. *)
Record Turn := mkTurn { arrived : option stream; pressed : bool }.
(** What the relay does: bytes to its terminal, bytes to the daemon, the line it
    prints at the end. *)
Inductive Act := Shows (d : list ascii) | Sends (m : list ascii) | Prints (s : string).
(** The side of the daemon; the number is the exit code when the relay ends.
    Printing the result when there is none is not defined. *)
Definition from_daemon (s : stream) (c : FillyClient) : exec (option Z * FillyClient * list Act) :=
  '(r, c, ds, _) ← filly_client_process s c;
  let shown := map Shows ds in
  if r <? 0 then Done (Some 1, c, shown)
  else if response_received c then
    '(_, res, _, c, _) ← filly_client_get_response [] c;
    j ← deref res; out ← cJSON_PrintUnformatted j;
    Done (Some 0, c, shown ++ [Prints (out +:+ String LF EmptyString)])
  else Done (None, c, shown).
Definition turn (t : Turn) (k : Keys.tape) (c : FillyClient) : exec (option Z * Keys.tape * FillyClient * list Act) :=
  '(fin, c, acts) ← (match arrived t with Some s => from_daemon s c | None => Done (None, c, []) end : exec (option Z * FillyClient * list Act));
  match fin with
  | Some r => Done (Some r, k, c, acts)
  | None =>
      if pressed t then '(m, k) ← relay_key k; Done (None, k, c, acts ++ match m with Some m => [Sends m] | None => [] end)
      else Done (None, k, c, acts)
  end.
Fixpoint relay_loop (ts : list Turn) (k : Keys.tape) (c : FillyClient) : exec (option Z * list Act) :=
  match ts with
  | [] => Done (None, [])
  | t :: ts' =>
      '(fin, k, c, acts) ← turn t k c;
      match fin with
      | Some r => Done (Some r, acts)
      | None => '(fin, acts') ← relay_loop ts' k c; Done (fin, acts ++ acts')
      end
  end.
Definition relay_run (no_mouse : bool) (request : list ascii) (ts : list Turn) (k : Keys.tape) : exec (option Z * list Act) :=
  '(fin, acts) ← relay_loop ts k (filly_client_set_draw_callback true filly_client_connect);
  Done (fin, Shows (greeting no_mouse) :: Sends (filly_client_send_request request) :: acts ++ (match fin with Some _ => [Shows farewell] | None => [] end)).
End Relay.

(** ** The frames of the daemon *)

Module Frames.
Import Client.

(** *** Lines *)

Lemma split_line_none l : LF ∉ l -> split_line l = None.
Proof.
  induction l as [|c l IH]; [done|]. rewrite not_elem_of_cons. intros [Hc Hl]. cbn [split_line].
  destruct (Ascii.eqb_spec c LF); [by subst|]. by rewrite IH.
Qed.
Lemma split_line_app l k : LF ∉ l -> split_line (l ++ LF :: k) = Some (l, k).
Proof.
  induction l as [|c l IH]; [done|]. rewrite not_elem_of_cons. intros [Hc Hl]. cbn [app split_line].
  destruct (Ascii.eqb_spec c LF); [by subst|]. by rewrite IH.
Qed.
Lemma parse_plain i : printable i = true -> json_ok i = true -> (nesting i <= 1000)%nat -> cJSON_Parse (of_chars (until_nul (json_text i))) = Done (parsed_as None i).
Proof. intros Hpr Hok Hn. rewrite until_nul_id by (by apply (plain_not _ _ (json_text_plain i Hok))). by apply parse_json_text. Qed.

Lemma cut_at {A} (B R F N : list A) : B ++ R = F ++ N ->
  (length B < length F /\ exists l, l <> [] /\ B ++ l = F)%nat \/ exists B1, B = F ++ B1 /\ B1 ++ R = N.
Proof.
  intros H. apply app_eq_app in H as (z & [[-> He]|[-> He]]); [right; by exists z|].
  destruct z as [|z0 z]; [right; exists []; by rewrite !app_nil_r|]. left. split; [rewrite length_app; cbn; lia|by exists (z0 :: z)].
Qed.

(** A drawing of [d]: its line, its bytes, a line feed. *)
Definition draw_object (n : Z) : cJSON := AddInt (cJSON_AddStringToObject cJSON_CreateObject "type" (Some "draw"%string)) "len" n.
Definition draw_line (n : Z) : list ascii := quoted "{'type':'draw','len':" ++ int_chars n ++ quoted "}".
Definition frame (d : list ascii) : list ascii := draw_line (Z.of_nat (length d)) ++ LF :: d ++ [LF].
Definition drawable (d : list ascii) : Prop := 0 < Z.of_nat (length d) < INT_MAX.
#[local] Opaque d_of_Z.
Lemma draw_object_item n : is_int n -> draw_object n = set_child [Item cJSON_String (Some "draw"%string) 0 (S754_zero false) (Some "type"%string) []; Item cJSON_Number None n (d_of_Z n) (Some "len"%string) []] cJSON_CreateObject.
Proof.
  intros Hn. unfold draw_object, AddInt, cJSON_AddNumberToObject, cJSON_CreateNumber. rewrite valueint_of_Z by done. done.
Qed.
Lemma draw_line_text n : is_int n -> draw_line n = json_text (draw_object n).
Proof.
  intros Hn. rewrite draw_object_item by done. cbn -[int_chars number_chars]. rewrite number_chars_int, app_nil_r by done.
  by cbv [string_text escaped from_option chars].
Qed.
Lemma draw_object_ok n : is_int n -> printable (draw_object n) = true /\ json_ok (draw_object n) = true /\ (nesting (draw_object n) <= 1000)%nat.
Proof.
  intros Hn. rewrite draw_object_item by done. split; [done|]. split; [|cbn; lia]. cbn -[is_int]. rewrite (bool_decide_true (is_int n)) by done.
  by rewrite (bool_decide_true (d_of_Z n = d_of_Z n)).
Qed.

(** *** Drawings and a response, in pieces *)

Lemma draw_line_plain n : is_int n -> LF ∉ draw_line n.
Proof. intros Hn. rewrite draw_line_text by done. apply (plain_not LF _ (json_text_plain _ (proj1 (proj2 (draw_object_ok n Hn))))). done. Qed.
Lemma parse_draw_line n : is_int n -> cJSON_Parse (of_chars (until_nul (draw_line n))) = Done (parsed_as None (draw_object n)).
Proof. intros Hn. destruct (draw_object_ok n Hn) as (?&?&?). rewrite draw_line_text by done. by apply parse_plain. Qed.
Lemma draw_fields n : is_int n ->
  cJSON_GetObjectItem (Some (parsed_as None (draw_object n))) "type" ≫= valuestring = Some "draw"%string /\
  (valueint <$> cJSON_GetObjectItem (Some (parsed_as None (draw_object n))) "len") = Some n.
Proof. intros Hn. by rewrite draw_object_item by done. Qed.

(** A drawing's line: its bytes are shown when all of them and the line feed are
    there. *)
Lemma process_draw fuel d D c : drawable d ->
  let n := Z.of_nat (length d) in
  process_lines (S fuel) [] (draw_line n ++ LF :: D) c =
    (if n + 1 <=? Z.of_nat (length D)
     then drawn c (take (length d) D) (process_lines fuel [] (skip_newline (drop (length d) D)) c)
     else Done (0, set_buf (draw_line n ++ LF :: D) c, [])).
Proof.
  intros Hd n. unfold drawable in Hd. fold n in Hd. assert (is_int n) as Hn by (unfold is_int, INT_MIN, INT_MAX in *; lia).
  cbn [process_lines]. rewrite split_line_app by (by apply draw_line_plain). rewrite parse_draw_line by done.
  destruct (draw_fields n Hn) as [-> ->]. rewrite decide_True by done. cbn [default id from_option].
  rewrite (proj2 (Z.ltb_lt 0 n)) by lia. unfold as_int. rewrite bool_decide_true by (unfold is_int, INT_MIN, INT_MAX in *; lia). cbn [mbind exec_bind].
  unfold n at 2 3. rewrite Nat2Z.id. by destruct (draw_line n).
Qed.

Lemma response_loop_done fuel s msg c : response_loop fuel s (received msg c) = Done (0, received msg c, [], s).
Proof. unfold received. destruct (cJSON_DetachItemFromObject msg "result"). by destruct fuel. Qed.

(** A read takes a piece or its first part. *)
Lemma sock_read_piece n p s : 0 < n -> Forall (fun p => p <> []) (p :: s) ->
  exists t s', sock_read n (p :: s) = Some (t, s') /\ t <> [] /\ Forall (fun p => p <> []) s' /\ concat (p :: s) = t ++ concat s'.
Proof.
  intros Hn H. apply list.Forall_cons in H as [Hp Hs]. unfold sock_read. destruct (Z.of_nat (length p) <=? n) eqn:E.
  - by exists p, s.
  - apply Z.leb_gt in E. eexists _, _. split; [done|]. split.
    { destruct p; [done|]. destruct (Z.to_nat n) eqn:En; [lia|done]. }
    split.
    { apply List.Forall_cons; [|done]. intros Hd. apply (f_equal length) in Hd. rewrite length_drop in Hd. cbn in Hd. lia. }
    cbn [concat]. by rewrite app_assoc, take_drop.
Qed.

Section wire.
Context (line tail : list ascii) (msg : cJSON).
Hypothesis line_one : LF ∉ line.
Hypothesis line_parsed : cJSON_Parse (of_chars (until_nul line)) = Done msg.
Hypothesis line_response : cJSON_GetObjectItem (Some msg) "type" ≫= valuestring = Some "response"%string.

Definition wire (ds : list (list ascii)) : list ascii := concat (map frame ds) ++ line ++ LF :: tail.
(** What the client waits for next. *)
Definition awaited (ds : list (list ascii)) : list ascii := match ds with [] => line ++ [LF] | d :: _ => frame d end.
Lemma wire_awaited ds : wire ds = awaited ds ++ match ds with [] => tail | _ :: ds => wire ds end.
Proof. destruct ds; unfold wire; cbn; by rewrite <-app_assoc. Qed.

Lemma process_response fuel T c : process_lines (S fuel) [] (line ++ LF :: T) c = Done (1, received msg (set_buf T c), []).
Proof.
  cbn [process_lines app]. rewrite split_line_app by done. rewrite line_parsed, line_response. by rewrite decide_False, decide_True by done.
Qed.

(** Without all of the next item the buffer is kept as it is. *)
Lemma process_part fuel B l ds c : l <> [] -> Forall drawable ds -> (0 < fuel)%nat -> B ++ l = awaited ds ->
  process_lines fuel [] B c = Done (0, set_buf B c, []).
Proof.
  intros Hl Hds Hf HB. destruct fuel as [|fuel]; [lia|].
  assert (forall (m : list ascii) k, LF ∉ m -> B ++ l = m ++ LF :: k -> split_line B = None \/ exists D, B = m ++ LF :: D /\ D ++ l = k) as Hcut.
  { intros m k Hm He. apply app_eq_app in He as (z & [[-> He]|[-> He]]).
    - destruct z as [|z0 z]; [left; rewrite app_nil_r; by apply split_line_none|]. cbn in He. injection He as <- ->. right. by exists z.
    - left. apply split_line_none. intros Hin. apply Hm, elem_of_app. by left. }
  assert (split_line B = None -> process_lines (S fuel) [] B c = Done (0, set_buf B c, [])) as Hnone.
  { cbn [process_lines]. intros ->. by destruct B. }
  destruct ds as [|d ds].
  - destruct (Hcut line [] line_one HB) as [?|(D & -> & He)]; [auto|]. by apply app_eq_nil in He as [_ ->].
  - apply list.Forall_cons in Hds as [Hd _]. pose proof Hd as Hd'. unfold drawable in Hd'.
    destruct (Hcut (draw_line (Z.of_nat (length d))) (d ++ [LF])) as [?|(D & -> & He)]; [|done|auto|].
    { apply draw_line_plain. unfold is_int, INT_MIN, INT_MAX in *; lia. }
    rewrite process_draw by done. cbn zeta. rewrite (proj2 (Z.leb_gt _ _)); [done|].
    apply (f_equal length) in He. rewrite !length_app in He. cbn in He. assert (length l <> 0%nat) by (by destruct l). lia.
Qed.

Definition complete (c : FillyClient) (R : list ascii) (ds : list (list ascii)) (r : result) : Prop :=
  exists T, T ++ R = tail /\ r = Done (1, received msg (set_buf T c), ds).
Definition partial (c : FillyClient) (R : list ascii) (ds : list (list ascii)) (r : result) : Prop :=
  exists ds1 ds2 B, ds = ds1 ++ ds2 /\ B ++ R = wire ds2 /\ (length B < length (awaited ds2))%nat /\ r = Done (0, set_buf B c, ds1).

(** The buffer is a first part of the wire: the drawings in it are shown, and
    either the response is in it too or the rest waits for the next bytes. *)
Lemma process_wire ds : Forall drawable ds -> forall fuel B R c, draw_cb c = true -> (length B < fuel)%nat -> B ++ R = wire ds ->
  complete c R ds (process_lines fuel [] B c) \/ partial c R ds (process_lines fuel [] B c).
Proof.
  induction ds as [|d ds IH]; intros Hds fuel B R c Hcb Hf HB; pose proof HB as HB'; rewrite wire_awaited in HB';
    apply cut_at in HB' as [(Hlt & l & Hl & He)|(B1 & -> & He)].
  1, 3: right; eexists [], _, B; repeat split; [done|done|eapply (process_part fuel B l); [exact Hl|exact Hds|lia|exact He]].
  - left. destruct fuel as [|fuel]; [lia|]. exists B1. split; [done|]. cbn [awaited]. rewrite <-app_assoc. apply process_response.
  - apply list.Forall_cons in Hds as [Hd Hds]. destruct fuel as [|fuel]; [lia|]. cbn [awaited] in *. unfold frame in *.
    replace (process_lines (S fuel) [] _ c) with (drawn c d (process_lines fuel [] B1 c)).
    + rewrite !length_app in Hf. cbn [length] in Hf.
      destruct (IH Hds fuel B1 R c Hcb ltac:(lia) He) as [(T & HT & ->)|(ds1 & ds2 & B & -> & H1 & H2 & ->)]; unfold drawn; cbn; rewrite Hcb.
      * left. by exists T.
      * right. by exists (d :: ds1), ds2, B.
    + rewrite <-app_assoc. cbn [app]. rewrite process_draw by done. cbn zeta. rewrite <-app_assoc.
      rewrite (proj2 (Z.leb_le _ _)) by (rewrite length_app; cbn; lia). rewrite take_app_length, drop_app_length. done.
Qed.

(** The reads, whatever the pieces: each leaves less than one item behind. *)
Definition fits (d : list ascii) : Prop := drawable d /\ Z.of_nat (length (frame d)) < CLIENT_BUF_SIZE.
#[export] Instance fits_dec d : Decision (fits d) := ltac:(unfold fits, drawable; apply _).
Hypothesis line_fits : Z.of_nat (length line) + 1 < CLIENT_BUF_SIZE.
Lemma awaited_fits ds : Forall fits ds -> Z.of_nat (length (awaited ds)) < CLIENT_BUF_SIZE.
Proof. intros H. destruct ds; cbn [awaited]; [rewrite length_app; cbn; lia|]. by inversion H as [|?? []]. Qed.

Lemma response_loop_wire fuel : forall ds s c, response_received c = false -> draw_cb c = true -> Forall fits ds -> Forall (fun p => p <> []) s ->
  buf c ++ concat s = wire ds -> (length (buf c) < length (awaited ds))%nat -> (length (concat s) < fuel)%nat ->
  exists T s', T ++ concat s' = tail /\ response_loop fuel s c = Done (0, received msg (set_buf T c), ds, s').
Proof.
  induction fuel as [|fuel IH]; intros ds s c Hr Hcb Hds Hs Hw Hlt Hf; [lia|].
  cbn [response_loop]. rewrite Hr. destruct s as [|p s].
  { exfalso. rewrite wire_awaited in Hw. apply (f_equal length) in Hw. cbn [concat] in Hw. rewrite !length_app in Hw. cbn [length] in Hw. lia. }
  pose proof (awaited_fits ds Hds) as Hfit. rewrite (proj2 (Z.leb_gt _ _)) by lia.
  destruct (sock_read_piece (CLIENT_BUF_SIZE - Z.of_nat (length (buf c)) - 1) p s) as (tmp & s' & -> & Hne & Hs' & Hcat); [lia|done|].
  destruct tmp as [|t0 tmp]; [done|]. set (t := t0 :: tmp) in *. set (c1 := set_buf (buf c ++ t) c).
  assert (Forall drawable ds) as Hdr by (refine (List.Forall_impl _ _ Hds); by intros ? []).
  rewrite Hcat, app_assoc in Hw.
  destruct (process_wire ds Hdr (S (length (buf c1))) (buf c1) (concat s') c1 Hcb ltac:(lia) Hw) as [(T & HT & He)|(ds1 & ds2 & B & -> & HB & HlB & He)];
    unfold client_process_buffer; rewrite He; cbn [mbind exec_bind].
  - exists T, s'. split; [done|]. change (1 <? 0) with false. cbn iota. rewrite response_loop_done. cbn [mbind exec_bind]. by rewrite app_nil_r.
  - apply Forall_app in Hds as [_ Hds2]. apply (f_equal length) in Hcat. rewrite length_app in Hcat. unfold t in Hcat. cbn [length] in Hcat.
    destruct (IH ds2 s' (set_buf B c1) Hr Hcb Hds2 Hs' HB HlB ltac:(lia)) as (T & s2 & HT & He2).
    exists T, s2. split; [done|]. change (0 <? 0) with false. cbn iota. by rewrite He2.
Qed.
End wire.

(** What the client hands over of the answer. *)
Definition answer_of (resp : WidgetResponse) : cJSON :=
  match Protocol.result resp with Some r => parsed_as (Some "result"%string) r | None => set_key (Some "result"%string) cJSON_CreateNull end.
Definition response_line (resp : WidgetResponse) : list ascii := json_text (response_json resp).

Lemma received_answer resp c : response_received (received (parsed_as None (response_json resp)) c) = true /\
  response_result (received (parsed_as None (response_json resp)) c) = Some (answer_of resp) /\
  response_cancelled (received (parsed_as None (response_json resp)) c) = cancelled resp.
Proof.
  unfold response_json, answer_of. destruct (Protocol.result resp) as [r|], (error resp) as [e|], (cancelled resp); cbn;
    try rewrite cJSON_Duplicate_id; repeat split; try done; destruct r as [[] ? ? ? ? ?]; done.
Qed.

(** The daemon's drawings and its answer reach the client however the bytes
    are cut on their way: every drawing is handed to the callback, whole and in
    order, and then the result and the flag of the answer; nothing waits
    without end. *)
Theorem client_receives resp ds tail s c :
  response_ok resp -> Z.of_nat (length (response_line resp)) + 1 < CLIENT_BUF_SIZE -> Forall fits ds -> Forall (fun p => p <> []) s ->
  concat s = concat (map frame ds) ++ response_line resp ++ LF :: tail -> buf c = [] -> response_received c = false -> draw_cb c = true ->
  exists c', filly_client_get_response s c = Done (0, Some (answer_of resp), cancelled resp, c', ds).
Proof.
  intros (Hpr & Hok & Hn & _) Hl Hds Hs Hw Hb Hr Hcb. unfold filly_client_get_response.
  set (msg := parsed_as None (response_json resp)).
  destruct (response_loop_wire (response_line resp) tail msg) with (fuel := reads_in s) (ds := ds) (s := s) (c := c) as (T & s' & _ & ->);
    [apply (plain_not LF _ (json_text_plain _ Hok)); done|by apply parse_plain| |done..|by rewrite Hb|rewrite Hb| |].
  - unfold msg, response_json. by destruct (Protocol.result resp), (error resp).
  - destruct ds; cbn [awaited length]; [rewrite length_app; cbn; lia|unfold frame; rewrite length_app; cbn; lia].
  - unfold reads_in. lia.
  - destruct (received_answer resp (set_buf T c)) as (_ & H1 & H2). fold msg in H1, H2. cbn [mbind exec_bind]. rewrite H1, H2. by eexists.
Qed.
Definition sample_drawing : list ascii := chars "ab" ++ [LF] ++ chars "}cd".
Fixpoint pieces (n : nat) (l : list ascii) (fuel : nat) : stream :=
  match fuel, l with
  | O, _ | _, [] => []
  | S fuel, _ => take n l :: pieces n (drop n l) fuel
  end.
Lemma client_receives_witness :
  let s := pieces 7 (concat (map frame [sample_drawing; sample_drawing]) ++ response_line sample_response ++ [LF]) 100 in
  exists c', filly_client_get_response s (filly_client_set_draw_callback true filly_client_connect) =
    Done (0, Some (answer_of sample_response), false, c', [sample_drawing; sample_drawing]).
Proof.
  refine (client_receives sample_response [sample_drawing; sample_drawing] [] _ _ _ _ _ _ _ _ _ _).
  - unfold response_ok; repeat split; vm_compute; first [reflexivity|lia].
  - vm_compute; reflexivity.
  - repeat (apply List.Forall_cons; [unfold fits, drawable; split; vm_compute; first [reflexivity|split; reflexivity]|]). constructor.
  - vm_compute. repeat (apply List.Forall_cons; [discriminate|]). constructor.
  - vm_compute; reflexivity.
  - reflexivity.
  - reflexivity.
  - reflexivity.
Defined.

(** The streaming lines in front of a drawing stay at the front of the buffer
    with a NUL behind them: the response that comes next is not seen, and the
    client waits for ever. *)
Definition stream_line : list ascii := quoted "{'type':'stream_end','frame_id':1}" ++ [LF].
Lemma streaming_loses_response :
  filly_client_get_response [stream_line ++ frame sample_drawing; response_line sample_response ++ [LF]] (filly_client_set_draw_callback true filly_client_connect)
    = Fault Diverges /\
  exists c', filly_client_get_response [stream_line ++ frame sample_drawing ++ response_line sample_response ++ [LF]] (filly_client_set_draw_callback true filly_client_connect)
    = Done (0, Some (answer_of sample_response), false, c', [sample_drawing]).
Proof. split; [by vm_compute|]. eexists. vm_compute. reflexivity. Qed.

(** The daemon closes its end behind the response. When the relay reads both at
    once, what was read is thrown away with the connection. *)
Lemma closed_loses_response : exists c',
  filly_client_process [frame sample_drawing ++ response_line sample_response ++ [LF]; []] (filly_client_set_draw_callback true filly_client_connect) = Done (-1, c', [], []).
Proof. eexists. vm_compute. reflexivity. Qed.

(** A drawing said to be as long as an [int] can be overflows the count of the
    bytes it needs. *)
Lemma draw_length_overflows : client_process_buffer (set_buf (draw_line INT_MAX ++ [LF]) filly_client_connect) = Fault Overflow.
Proof. by vm_compute. Qed.
End Frames.

(** ** The relay's keys *)

Module RelayKeys.
Import Client Relay.
Definition tape_of (l : list ascii) : Keys.tape := map (fun c => Some (uchar c)) l.
(** A click of the mouse, which the relay asked its terminal to report, is sent
    as the key that cancels. *)
Lemma relay_click_cancels : relay_key (tape_of (Tty.esc "[<0;1;1M")) =
  Done (Some (filly_client_send_key (key_number KEY_ESC) 0), []).
Proof. by vm_compute. Qed.
End RelayKeys.
