(* ===== verification/Checkpoint.v ===== *)
(** The daemon's memory of its sessions across a restart,
    src/src/backend/daemon/checkpoint.c: the session record of checkpoint.h, the
    file that is written, and what is read back from it. *)

From Stdlib Require Import SpecFloat.
From S2P Require Import Prelude Double CJson CJsonParse CJsonPrint CJsonRound Protocol Store.

(** ** Sessions *)

(** An array of [char] as its bytes; [None] is a byte nothing was written to. *)
Abbreviation bytes := (list (option ascii)).
(** [strncpy]: the string and then zeros, [n] bytes in all. *)
Definition strncpy (n : nat) (s : string) (dst : bytes) : bytes :=
  map Some (take n (chars s ++ repeat NUL n)) ++ drop n dst.
(** The string in an array. *)
Fixpoint read_string (b : bytes) : exec string :=
  match b with
  | [] => Fault OutOfBounds
  | None :: _ => Fault Indeterminate
  | Some c :: b' => if Ascii.eqb c NUL then Done EmptyString else s ← read_string b'; Done (String c s)
  end.

Record Session := mkSession {
  id : string; store : Store; active : bool;
  widget_position_x : Z; widget_position_y : Z; widget_anchor : bytes; widget_relative_to : bytes; widget_z_index : Z
}.

(** ** Saving *)

Definition sensitive_words : list string := ["PASS"; "SECRET"; "LUKS"; "TOKEN"; "KEY"]%string.
Definition is_sensitive_key (key : string) : bool :=
  let upper := map toupper (chars key) in existsb (fun w => strstr upper (chars w)) sensitive_words.

(** The loop over [store_enum]. *)
Fixpoint save_entries (fuel : nat) (s : Store) (idx : Z) (store_json : cJSON) : exec cJSON :=
  match fuel with
  | O => Fault Diverges
  | S fuel' =>
      match store_enum (Some s) idx with
      | None => Done store_json
      | Some (key, val, idx') =>
          save_entries fuel' s idx' (if is_sensitive_key key then store_json else cJSON_AddStringToObject store_json key (Some val))
      end
  end.
Definition save_session (s : Session) : exec cJSON :=
  let obj := cJSON_AddStringToObject cJSON_CreateObject "id" (Some (id s)) in
  store_json ← save_entries (S (length (head (store s)))) (store s) 0 cJSON_CreateObject;
  Done (cJSON_AddItemToObject obj "store" (Some store_json)).
Fixpoint save_sessions (l : list Session) (arr : cJSON) : exec cJSON :=
  match l with
  | [] => Done arr
  | s :: l' => if active s then obj ← save_session s; save_sessions l' (cJSON_AddItemToArray arr (Some obj)) else save_sessions l' arr
  end.
(** The text of the file; [writable] says that the home directory is known and
    the file could be opened. *)
Definition checkpoint_save (writable : bool) (sessions : list Session) : exec (option string) :=
  if writable then
    let root := AddInt cJSON_CreateObject "version" 1 in
    arr ← save_sessions sessions cJSON_CreateArray;
    json ← cJSON_PrintUnformatted (cJSON_AddItemToObject root "sessions" (Some arr));
    Done (Some (json +:+ String LF EmptyString))
  else Done None.

(** ** Restoring *)

Fixpoint restore_entries (l : list cJSON) (s : Store) : exec Store :=
  match l with
  | [] => Done s
  | c :: l' =>
      match valuestring c with
      | Some v => k ← deref (key c); restore_entries l' (store_set s k v).1
      | None => restore_entries l' s
      end
  end.
Fixpoint restore_sessions (l : list cJSON) : exec (list Session) :=
  match l with
  | [] => Done []
  | obj :: l' =>
      match cJSON_GetObjectItem (Some obj) "id" ≫= valuestring with
      | None => restore_sessions l'
      | Some v =>
          let store_json := cJSON_GetObjectItem (Some obj) "store" in
          s ← restore_entries (match store_json with Some j => if cJSON_IsObject store_json then child j else [] | None => [] end) store_new;
          rest ← restore_sessions l';
          Done (mkSession (strtake 63 v) s true 0 0 (repeat (Some NUL) 32) (repeat (Some NUL) 64) 0 :: rest)
      end
  end.
(** The sessions of the file's text; the file is removed in every case. *)
Definition checkpoint_restore (file : option string) : exec (list Session) :=
  match file with
  | None | Some EmptyString => Done []
  | Some text =>
      match cJSON_Parse (of_chars (until_nul (chars text))) with
      | Fault f => Fault f
      | Fail => Done []
      | Done root =>
          let arr := cJSON_GetObjectItem (Some root) "sessions" in
          match arr with Some a => if cJSON_IsArray arr then restore_sessions (child a) else Done [] | None => Done [] end
      end
  end.

(** ** Which keys are kept back *)

Lemma has_prefix_spec p s : has_prefix p s = true <-> exists b, s = p ++ b.
Proof.
  revert s. induction p as [|c p IH]; intros s; cbn [has_prefix]; [split; [by exists s|done]|].
  destruct s as [|d s]; [split; [done|by intros [b ?]]|]. rewrite andb_true_iff, IH. split.
  - intros [->%Ascii.eqb_eq [b ->]]. by exists b.
  - intros [b [= -> ->]]. split; [apply Ascii.eqb_refl|by exists b].
Qed.
Lemma strstr_spec s p : strstr s p = true <-> exists a b, s = a ++ p ++ b.
Proof.
  induction s as [|c s IH]; cbn [strstr]; rewrite orb_true_iff, has_prefix_spec.
  - split; [intros [[b ->]|?]; [by exists [], b|done]|]. intros (a & b & H). left. exists b. by destruct a.
  - rewrite IH. split.
    + intros [[b ->]|(a & b & ->)]; [by exists [], b|by exists (c :: a), b].
    + intros ([|c' a] & b & H); [left; by exists b|]. injection H as -> ->. right. by exists a, b.
Qed.
(** A key is kept back when one of the words is in it, in whatever case. *)
Lemma is_sensitive_key_spec k : is_sensitive_key k = true <->
  exists w a m b, w ∈ sensitive_words /\ chars k = a ++ m ++ b /\ map toupper m = chars w.
Proof.
  unfold is_sensitive_key. rewrite existsb_exists. split.
  - intros (w & Hw & (a & b & H)%strstr_spec). apply map_eq_app in H as (a' & r & Hk & _ & H). apply map_eq_app in H as (m & b' & -> & Hm & _).
    exists w, a', m, b'. split; [by apply list_elem_of_In|done].
  - intros (w & a & m & b & Hw & Hk & Hm). exists w. split; [by apply list_elem_of_In|]. apply strstr_spec. exists (map toupper a), (map toupper b).
    by rewrite Hk, !map_app, Hm.
Qed.

(** ** What is written *)

Definition kept (e : Entry) : Prop := is_sensitive_key (ekey e) = false.
Definition entry_item (e : Entry) : cJSON := Item cJSON_String (Some (evalue e)) 0 (S754_zero false) (Some (ekey e)) [].
Definition kept_entries (s : Store) : list Entry := filter (fun e => is_sensitive_key (ekey e) = false) (head s).
Definition store_item (s : Store) : cJSON := set_key (Some "store"%string) (set_child (map entry_item (kept_entries s)) cJSON_CreateObject).
Definition id_item (s : Session) : cJSON := Item cJSON_String (Some (id s)) 0 (S754_zero false) (Some "id"%string) [].
Definition session_item (s : Session) : cJSON := set_child [id_item s; store_item (store s)] cJSON_CreateObject.
Definition actives (l : list Session) : list Session := filter (fun s => active s = true) l.
Definition checkpoint_item (l : list Session) : cJSON :=
  set_child [set_key (Some "version"%string) (cJSON_CreateNumber (d_of_Z 1)); set_key (Some "sessions"%string) (set_child (map session_item (actives l)) cJSON_CreateArray)] cJSON_CreateObject.

Lemma save_entries_from fuel s n ch : (n <= length (head s) < n + fuel)%nat ->
  save_entries fuel s (Z.of_nat n) (set_child ch cJSON_CreateObject) =
    Done (set_child (ch ++ map entry_item (filter (fun e => is_sensitive_key (ekey e) = false) (drop n (head s)))) cJSON_CreateObject).
Proof.
  revert n ch. induction fuel as [|fuel IH]; intros n ch Hn; [lia|]. cbn [save_entries store_enum].
  rewrite (proj2 (Z.ltb_ge _ _)) by lia. rewrite Nat2Z.id. destruct (head s !! n) as [e|] eqn:He.
  - rewrite (drop_S _ e n He), filter_cons. pose proof (lookup_lt_Some _ _ _ He). replace (Z.of_nat n + 1) with (Z.of_nat (S n)) by lia.
    destruct (is_sensitive_key (ekey e)); [rewrite decide_False by done|rewrite decide_True by done].
    + by rewrite IH by lia.
    + change (cJSON_AddStringToObject _ _ _) with (set_child (ch ++ [entry_item e]) cJSON_CreateObject). rewrite IH by lia.
      cbn [map]. by rewrite <-app_assoc.
  - apply lookup_ge_None in He. rewrite drop_ge by lia. cbn. by rewrite app_nil_r.
Qed.
Lemma save_session_item s : save_session s = Done (session_item s).
Proof.
  unfold save_session. change cJSON_CreateObject with (set_child [] cJSON_CreateObject) at 2. change 0 with (Z.of_nat 0).
  rewrite save_entries_from by lia. done.
Qed.
Lemma save_sessions_items l : forall ch, save_sessions l (set_child ch cJSON_CreateArray) = Done (set_child (ch ++ map session_item (actives l)) cJSON_CreateArray).
Proof.
  unfold actives. induction l as [|s l IH]; intros ch; cbn [save_sessions]; [by rewrite app_nil_r|]. rewrite filter_cons.
  destruct (active s); [rewrite decide_True by done|rewrite decide_False by done; apply IH].
  rewrite save_session_item. cbn [mbind exec_bind]. change (cJSON_AddItemToArray _ _) with (set_child (ch ++ [session_item s]) cJSON_CreateArray).
  rewrite IH. cbn [map]. by rewrite <-app_assoc.
Qed.

(** ** What comes back *)

(** A string that keeps its form through the file: no terminator inside and no
    character that needs an escape of the kind \u. *)
Definition plain_text (s : string) : bool := no_nul s && no_u_escape s.
Record savable (s : Session) : Prop := {
  savable_id : plain_text (id s) = true;
  savable_id_fits : (String.length (id s) <= 63)%nat;
  savable_keys : NoDup (keys (store s));
  savable_entries : Forall (fun e => plain_text (ekey e) = true /\ plain_text (evalue e) = true) (head (store s))
}.

Lemma entries_ok l : Forall (fun e => plain_text (ekey e) = true /\ plain_text (evalue e) = true) l ->
  forallb (fun c => no_u_escape_opt (key c) && printable c) (map entry_item l) = true /\
  forallb (fun c => c_string_ok (key c) && json_ok c) (map entry_item l) = true.
Proof.
  induction 1 as [|e l [[Hk1 Hk2]%andb_true_iff [Hv1 Hv2]%andb_true_iff] _ [IH1 IH2]]; [done|]. cbn in *.
  by rewrite Hk1, Hk2, Hv1, Hv2, IH1, IH2.
Qed.
Lemma kept_entries_ok s : savable s -> Forall (fun e => plain_text (ekey e) = true /\ plain_text (evalue e) = true) (kept_entries (store s)).
Proof. intros [_ _ _ H]. unfold kept_entries. rewrite list.Forall_forall in *. intros e [_ He]%list_elem_of_filter. by apply H. Qed.
Lemma session_item_ok s : savable s -> printable (session_item s) = true /\ json_ok (session_item s) = true /\ (nesting (session_item s) <= 3)%nat.
Proof.
  intros Hs. destruct (entries_ok _ (kept_entries_ok s Hs)) as [He1 He2]. destruct Hs as [[Hi1 Hi2]%andb_true_iff _ _ _].
  cbn. rewrite Hi1, Hi2, He1, He2. repeat split.
  assert (list_max (map nesting (map entry_item (kept_entries (store s)))) = 0%nat) as Hm; [|unfold list_max in Hm; rewrite Hm; lia].
  clear. by induction (kept_entries (store s)).
Qed.
Lemma checkpoint_item_ok l : Forall savable (actives l) ->
  printable (checkpoint_item l) = true /\ json_ok (checkpoint_item l) = true /\ (nesting (checkpoint_item l) <= 1000)%nat.
Proof.
  intros H. unfold checkpoint_item.
  assert (forallb printable (map session_item (actives l)) = true /\ forallb json_ok (map session_item (actives l)) = true /\
    (list_max (map nesting (map session_item (actives l))) <= 3)%nat) as (H1 & H2 & H3).
  { induction H as [|s ss Hs _ (IH1 & IH2 & IH3)]; [cbn; split_and!; [done|done|lia]|]. cbn [map forallb list_max foldr].
    destruct (session_item_ok s Hs) as (-> & -> & Hn). rewrite IH1, IH2. split_and!; [done|done|]. unfold list_max in IH3. lia. }
  cbn. unfold list_max in H3. rewrite H1, H2. split_and!; [done|done|lia].
Qed.

(** The restored store: the entries of the object, the last one of a name. *)
Definition restored_entries (l : list Entry) (s : Store) : Store := foldl (fun s e => (store_set s (ekey e) (evalue e)).1) s l.
Lemma store_get_set s k v k' : store_get (store_set s k v).1 k' = if decide (k = k') then Some v else store_get s k'.
Proof.
  pose proof (store_set_abs s k v) as H. apply (f_equal fst) in H. cbn [fst] in H. rewrite !store_get_abs, H. cbn [Spec.set fst Spec.vals].
  by rewrite lookup_insert.
Qed.
Lemma restored_entries_get l : forall s k, NoDup (ekey <$> l) ->
  store_get (restored_entries l s) k = match find_entry l k with Some e => Some (evalue e) | None => store_get s k end.
Proof.
  induction l as [|e l IH]; intros s k Hl; [done|]. apply list.NoDup_cons in Hl as [He Hl]. cbn [restored_entries foldl find_entry].
  fold (restored_entries l (store_set s (ekey e) (evalue e)).1). rewrite IH by done. rewrite store_get_set. case_decide as Hk; [|done].
  destruct (find_entry l k) eqn:E; [|done]. exfalso. apply He. rewrite Hk.
  assert (find_entry l k <> None) as Hf by (by rewrite E). clear -Hf. induction l as [|e l IH]; [done|]. cbn in *.
  apply list.elem_of_cons. case_decide; [by left|right; by apply IH].
Qed.
Lemma find_kept s k : find_entry (kept_entries s) k = if is_sensitive_key k then None else find_entry (head s) k.
Proof.
  unfold kept_entries. induction (head s) as [|e l IH]; [by destruct (is_sensitive_key k)|]. rewrite filter_cons.
  destruct (is_sensitive_key (ekey e)) eqn:E; [rewrite decide_False by done|rewrite decide_True by done]; cbn [find_entry]; rewrite IH;
    case_decide as Hk; try done; subst; by rewrite E.
Qed.
Lemma restore_entries_items l s : restore_entries (map (fun c => parsed_as (key c) c) (map entry_item l)) s = Done (restored_entries l s).
Proof. revert s. induction l as [|e l IH]; intros s; [done|]. cbn. apply IH. Qed.

Definition restored (s : Session) : Session :=
  mkSession (id s) (restored_entries (kept_entries (store s)) store_new) true 0 0 (repeat (Some NUL) 32) (repeat (Some NUL) 64) 0.
Lemma parsed_session s :
  cJSON_GetObjectItem (Some (parsed_as None (session_item s))) "id" ≫= valuestring = Some (id s) /\
  cJSON_GetObjectItem (Some (parsed_as None (session_item s))) "store" =
    Some (set_key (Some "store"%string) (set_child (map (fun c => parsed_as (key c) c) (map entry_item (kept_entries (store s)))) cJSON_CreateObject)).
Proof. done. Qed.
Lemma restore_sessions_items l : Forall savable l -> restore_sessions (map (parsed_as None) (map session_item l)) = Done (map restored l).
Proof.
  induction 1 as [|s l Hs _ IH]; [done|]. cbn [map]. cbn [restore_sessions]. destruct (parsed_session s) as [-> ->].
  change (child (set_key _ (set_child ?c _))) with c. change (cJSON_IsObject _) with true. cbn iota.
  rewrite restore_entries_items. cbn [mbind exec_bind]. rewrite IH. cbn [mbind exec_bind]. unfold restored at 2.
  by rewrite strtake_all by apply Hs.
Qed.
Lemma kept_nodup s : NoDup (keys s) -> NoDup (ekey <$> kept_entries s).
Proof.
  unfold keys, kept_entries. induction (head s) as [|e l IH]; [done|]. rewrite filter_cons, !fmap_cons. intros [He Hl]%list.NoDup_cons.
  case_decide; [|by apply IH]. rewrite fmap_cons. constructor; [|by apply IH].
  intros (x & Hx & [_ Hin]%list_elem_of_filter)%list_elem_of_fmap. apply He, list_elem_of_fmap. by exists x.
Qed.
Lemma restored_get s k : savable s -> store_get (store (restored s)) k = if is_sensitive_key k then None else store_get (store s) k.
Proof.
  intros Hs. cbn [restored store]. rewrite restored_entries_get.
  - rewrite find_kept. unfold store_get. destruct (is_sensitive_key k); [done|]. by destruct (find_entry (head (store s)) k).
  - destruct Hs as [_ _ H _]. by apply kept_nodup.
Qed.

(** ** The specification of a secret

    A key names a secret when one of five words stands in it, in capital
    letters, small letters or both. *)
Definition same_letter (c w : ascii) : Prop :=
  c = w \/ 97 <= uchar w <= 122 /\ uchar c = uchar w - 32.
Definition names_secret (k : string) : Prop :=
  exists w before found after, w ∈ ["pass"; "secret"; "luks"; "token"; "key"]%string /\
    chars k = before ++ found ++ after /\ Forall2 same_letter found (chars w).
(** The entries of a store that name no secret, in order. *)
Inductive public : list Entry -> list Entry -> Prop :=
  | public_nil : public [] []
  | public_secret e l p : names_secret (ekey e) -> public l p -> public (e :: l) p
  | public_kept e l p : ~ names_secret (ekey e) -> public l p -> public (e :: l) (e :: p).
(** Two sessions that differ in their secrets, if at all. *)
Definition same_public (s1 s2 : Session) : Prop :=
  id s1 = id s2 /\ active s1 = active s2 /\ exists p, public (head (store s1)) p /\ public (head (store s2)) p.

Lemma same_letter_spec c w : 97 <= uchar w <= 122 -> same_letter c w <-> toupper c = toupper w.
Proof.
  intros Hw. unfold same_letter, toupper.
  assert (uchar (ascii_of_N (N_of_ascii w - 32)) = uchar w - 32) as Hu.
  { pose proof (uchar_range w). rewrite uchar_ascii_of_N; unfold uchar in *; lia. }
  assert (forall x y : ascii, x = y <-> uchar x = uchar y) as Hinj.
  { intros x y. split; [by intros ->|]. unfold uchar. intros H. apply N2Z.inj in H. by rewrite <-(ascii_N_embedding x), H, ascii_N_embedding. }
  rewrite (proj2 (andb_true_iff (97 <=? uchar w) _)) by (split; apply Z.leb_le; lia). rewrite !(Hinj c), Hinj, Hu. clear Hinj.
  destruct ((97 <=? uchar c) && (uchar c <=? 122)) eqn:Ec; simp_bool.
  - assert (uchar (ascii_of_N (N_of_ascii c - 32)) = uchar c - 32) as ->; [|lia].
    pose proof (uchar_range c). rewrite uchar_ascii_of_N; unfold uchar in *; lia.
  - apply andb_false_iff in Ec. destruct Ec; simp_bool; lia.
Qed.
Lemma same_word m w : Forall (fun c => 97 <= uchar c <= 122) w -> Forall2 same_letter m w <-> map toupper m = map toupper w.
Proof.
  intros Hw. revert m. induction Hw as [|c w Hc _ IH]; intros [|d m]; cbn [map].
  1-3: by split; intros H; inversion H; constructor.
  rewrite list.Forall2_cons, IH, (same_letter_spec d c Hc). split; [by intros [-> ->]|by intros [= -> ->]].
Qed.
Lemma is_sensitive_names k : is_sensitive_key k = true <-> names_secret k.
Proof.
  rewrite is_sensitive_key_spec. unfold names_secret.
  assert (forall w m, w ∈ ["pass"; "secret"; "luks"; "token"; "key"]%string ->
    Forall2 same_letter m (chars w) <-> map toupper m = map toupper (chars w)) as Hm.
  { intros w m Hw. apply same_word. apply (list.Forall_forall (fun w => Forall (fun c => 97 <= uchar c <= 122) (chars w))
      ["pass"; "secret"; "luks"; "token"; "key"]%string); [|done]. by apply (bool_decide_unpack _). }
  split; intros (w & a & m & b & Hw & Hk & H).
  - assert (exists w', w' ∈ ["pass"; "secret"; "luks"; "token"; "key"]%string /\ chars w = map toupper (chars w')) as (w' & Hw' & Ew).
    { unfold sensitive_words in Hw. rewrite !list.elem_of_cons in Hw.
      destruct Hw as [->|[->|[->|[->|[->|[]%not_elem_of_nil]]]]];
      [exists "pass"%string|exists "secret"%string|exists "luks"%string|exists "token"%string|exists "key"%string]; (split; [by apply (bool_decide_unpack _)|done]). }
    exists w', a, m, b. split_and!; [done..|]. apply Hm; [done|]. by rewrite H, Ew.
  - apply Hm in H; [|done].
    assert (exists w', w' ∈ sensitive_words /\ map toupper (chars w) = chars w') as (w' & Hw' & Ew).
    { unfold sensitive_words. rewrite !list.elem_of_cons in Hw.
      destruct Hw as [->|[->|[->|[->|[->|[]%not_elem_of_nil]]]]];
      [exists "PASS"%string|exists "SECRET"%string|exists "LUKS"%string|exists "TOKEN"%string|exists "KEY"%string]; (split; [by apply (bool_decide_unpack _)|done]). }
    exists w', a, m, b. split_and!; [done..|]. by rewrite H, Ew.
Qed.
Lemma public_entries l p : public l p -> p = filter (fun e => is_sensitive_key (ekey e) = false) l.
Proof.
  induction 1 as [|e l p He _ ->|e l p He _ ->]; [done| |]; rewrite filter_cons; rewrite <-is_sensitive_names in He.
  - by rewrite He, decide_False.
  - rewrite decide_True; [done|]. by destruct (is_sensitive_key (ekey e)).
Qed.
Lemma same_public_items l1 l2 : Forall2 same_public l1 l2 -> map session_item (actives l1) = map session_item (actives l2).
Proof.
  unfold actives. induction 1 as [|s1 s2 l1 l2 (Hi & Ha & p & H1 & H2) _ IH]; [done|]. rewrite !filter_cons, Ha.
  case_decide; [|done]. cbn [map]. rewrite IH. f_equal. unfold session_item, store_item, id_item, kept_entries. rewrite Hi.
  by rewrite <-(public_entries _ _ H1), <-(public_entries _ _ H2).
Qed.
Lemma checkpoint_save_item l : checkpoint_save true l = json ← cJSON_PrintUnformatted (checkpoint_item l); Done (Some (json +:+ String LF EmptyString)).
Proof.
  unfold checkpoint_save. change cJSON_CreateArray with (set_child [] cJSON_CreateArray). rewrite save_sessions_items. cbn [mbind exec_bind app]. done.
Qed.

(** C8: a restart keeps the active sessions, in order and under their names, and
    of each store exactly the entries whose key names no secret: a key with
    pass, secret, luks, token or key in it, in whatever case, is not known
    afterwards. Nor is anything of it in the file: sessions that differ only in
    such entries are written as the same text. This is for sessions whose
    identifiers (up to 63 characters), keys and values hold no NUL and no
    control character but backspace, tab, line feed, form feed and carriage
    return, with distinct keys in a store, and a text shorter than 2^31 - 1
    bytes; where a widget stood is not kept. *)
Theorem checkpoint_keeps l : Forall savable (actives l) -> Z.of_nat (length (json_text (checkpoint_item l))) < INT_MAX ->
  exists text l', checkpoint_save true l = Done (Some text) /\ checkpoint_restore (Some text) = Done l' /\
    Forall2 (fun s s' => id s' = id s /\ active s' = true /\
      forall k, (names_secret k -> store_get (store s') k = None) /\ (~ names_secret k -> store_get (store s') k = store_get (store s) k)) (actives l) l' /\
    forall l2, Forall2 same_public l l2 -> checkpoint_save true l2 = Done (Some text).
Proof.
  intros Hs Hlen. destruct (checkpoint_item_ok l Hs) as (Hp & Hok & Hn).
  assert (checkpoint_save true l = Done (Some (of_chars (json_text (checkpoint_item l)) +:+ String LF EmptyString))) as Hsave.
  { rewrite checkpoint_save_item. by rewrite print_text. }
  exists (of_chars (json_text (checkpoint_item l)) +:+ String LF EmptyString), (map restored (actives l)). split_and!.
  - exact Hsave.
  - unfold checkpoint_restore. rewrite chars_app, list_ascii_of_string_of_list_ascii.
    assert (until_nul (json_text (checkpoint_item l) ++ chars (String LF EmptyString)) = json_text (checkpoint_item l) ++ [LF]) as ->.
    { apply until_nul_id. rewrite not_elem_of_app. split; [by apply plain_not; [apply json_text_plain|]|by intros ?%list_elem_of_singleton]. }
    replace (of_chars (json_text (checkpoint_item l) ++ [LF])) with (of_chars (json_text (checkpoint_item l)) +:+ String LF EmptyString)
      by (by rewrite <-(string_of_list_ascii_of_string (_ +:+ _)), chars_app, list_ascii_of_string_of_list_ascii).
    rewrite parse_json_line by done.
    destruct (of_chars (json_text (checkpoint_item l)) +:+ String LF EmptyString) eqn:Ht; [by destruct (json_text (checkpoint_item l))|].
    change (cJSON_GetObjectItem _ "sessions") with (Some (set_key (Some "sessions"%string) (set_child (map (parsed_as None) (map session_item (actives l))) cJSON_CreateArray))).
    change (cJSON_IsArray _) with true. cbn iota. by apply restore_sessions_items.
  - clear Hlen Hp Hok Hn Hsave. induction Hs as [|s ss H _ IH]; constructor; [|by apply IH]. split_and!; [done|done|]. intros k.
    rewrite restored_get, <-is_sensitive_names by done. by destruct (is_sensitive_key k).
  - intros l2 H2. rewrite <-Hsave, !checkpoint_save_item. unfold checkpoint_item. by rewrite (same_public_items _ _ H2).
Qed.

Definition sample_sessions : list Session :=
  let st := (store_set (store_set (store_set store_new "disk" "sda1").1 "api_Token" "s3").1 "user" "ann").1 in
  [mkSession "a1" st true (-1) (-1) [Some NUL] [Some NUL] 0; mkSession "b2" st false 0 0 [] [] 0].
(** The same sessions, with another token. *)
Definition other_sessions : list Session :=
  let st := (store_set (store_set (store_set store_new "disk" "sda1").1 "api_Token" "t4").1 "user" "ann").1 in
  [mkSession "a1" st true (-1) (-1) [Some NUL] [Some NUL] 0; mkSession "b2" st false 0 0 [] [] 0].
Lemma token_secret : names_secret "api_Token".
Proof.
  exists "token"%string, (chars "api_"), (chars "Token"), []. split; [by apply (bool_decide_unpack _)|]. split; [done|].
  constructor; [right; by split|]. repeat (constructor; [by left|]). constructor.
Qed.
Lemma not_secret k : is_sensitive_key k = false -> ~ names_secret k.
Proof. rewrite <-is_sensitive_names. by intros ->. Qed.
Lemma checkpoint_keeps_witness : exists text l', checkpoint_save true sample_sessions = Done (Some text) /\ checkpoint_restore (Some text) = Done l' /\
  map (fun s => (store_get (store s) "user", store_get (store s) "api_Token")) l' = [(Some "ann"%string, None)] /\
  checkpoint_save true other_sessions = Done (Some text).
Proof.
  destruct (checkpoint_keeps sample_sessions) as (text & l' & H1 & H2 & H3 & H4).
  - change (Forall savable (take 1 sample_sessions)). constructor; [|constructor]. split; [reflexivity|cbn; lia| |].
    + apply (bool_decide_unpack _). vm_compute. exact I.
    + repeat (apply List.Forall_cons; [split; reflexivity|]). constructor.
  - vm_compute. reflexivity.
  - exists text, l'. split; [exact H1|]. split; [exact H2|]. split.
    + change (actives sample_sessions) with (take 1 sample_sessions) in H3.
      inversion H3 as [|s s' ? ? (_ & _ & Hg) H5]. subst. inversion H5. cbn [map].
      rewrite (proj2 (Hg "user"%string) (not_secret "user" eq_refl)), (proj1 (Hg "api_Token"%string) token_secret). reflexivity.
    + apply H4. repeat constructor; exists (filter (fun e => is_sensitive_key (ekey e) = false) (head (store (mkSession "a1" (store_set (store_set store_new "disk" "sda1").1 "user" "ann").1 true 0 0 [] [] 0))));
        vm_compute; (split; repeat first [apply public_nil | apply public_secret; [exact token_secret|] | apply public_kept; [apply not_secret; reflexivity|]]).
Defined.
