(* ===== verification/Socket.v ===== *)
(** The backend of src/src/backend/daemon/daemon.c that draws into a socket and
    takes its events from it, and the keyboard of a relay that is read through it. *)

From Stdlib Require Import SpecFloat.
From S2P Require Import Prelude Double CJson CJsonParse CJsonPrint CJsonRound Protocol RenderTree Animation Widget Terminal TermDraw Client.

(** ** The socket as a backend *)

Module Sock.

Record SocketBackend := mk { term_w : Z; term_h : Z }.
Definition sock_get_size (s : SocketBackend) : Z * Z := (term_w s, term_h s).

(** *** Drawing *)

Definition stream_header (what : string) (frame_id : Z) : list ascii := quoted ("{'type':'" +:+ what +:+ "','frame_id':") ++ int_chars frame_id ++ quoted "}" ++ [LF].
Definition stream_nodes (w h : Z) : list ascii :=
  take 255 (quoted "{'type':'stream_frame','nodes':[{'id':'root','rect':{'x':0,'y':0,'w':" ++ int_chars w ++ quoted ",'h':" ++ int_chars h ++
    quoted "},'dirty':true}]}" ++ [LF]).
(** The bytes written for a frame; [frame_id] is the number of frames streamed
    so far. Without a tree the buffer is read although nothing wrote it. *)
Definition sock_draw (reg : Registry) (anims : list nat -> list AnimInstance) (now_ms : Z) (streaming : bool) (frame_id : Z)
    (tree : option RenderTree) (s : SocketBackend) : exec (option RenderTree * list ascii * Z) :=
  match tree with
  | None => Fault Indeterminate
  | Some _ =>
      '(t, buf) ← render_tree_to_buf reg anims now_ms tree 0 0 (term_w s) (term_h s) 524288;
      let text := until_nul buf in
      if streaming then
        let n := frame_id + 1 in
        Done (t, stream_header "stream_start" n ++ stream_nodes (term_w s) (term_h s) ++ stream_header "stream_end" n ++ Frames.frame text, n)
      else Done (t, Frames.frame text, frame_id)
  end.

(** *** Events *)

(** One line into 256 bytes; [None]: the connection ended. A line of 255 bytes or
    more is cut where it is, without its terminator. *)
Fixpoint read_line (n : nat) (fd : list ascii) : option (list ascii * bool * list ascii) :=
  match n with
  | O => Some ([], false, fd)
  | S n' =>
      match fd with
      | [] => None
      | c :: fd' => if Ascii.eqb c LF then Some ([], true, fd') else (fun '(l, ok, r) => (c :: l, ok, r)) <$> read_line n' fd'
      end
  end.
Definition no_event : Event := mkEvent EVENT_NONE KEY_BACKSPACE 0 0 0 0 MOUSE_PRESS.
Definition text_field (msg : cJSON) (k : string) : option string := cJSON_GetObjectItem (Some msg) k ≫= valuestring.
Definition sock_event (msg : cJSON) (s : SocketBackend) : Event * SocketBackend :=
  let item k := cJSON_GetObjectItem (Some msg) k in
  match text_field msg "type" with
  | None => (no_event, s)
  | Some t =>
      if decide (t = "key"%string) then
        match item "code" with
        | Some code =>
            let c := match text_field msg "ch" with Some (String c _) => schar c | _ => 0 end in
            (key_event (key_of (valueint code)) c, s)
        | None => (no_event, s)
        end
      else if decide (t = "size"%string) then
        match item "w", item "h" with
        | Some w, Some h => (mkEvent EVENT_RESIZE KEY_BACKSPACE 0 0 0 0 MOUSE_PRESS, mk (valueint w) (valueint h))
        | _, _ => (no_event, s)
        end
      else if decide (t = "mouse"%string) then
        match item "x", item "y" with
        | Some x, Some y =>
            let st := match text_field msg "state" with Some st => if decide (st = "release"%string) then MOUSE_RELEASE else MOUSE_PRESS | None => MOUSE_PRESS end in
            (mkEvent EVENT_MOUSE_BUTTON KEY_BACKSPACE 0 (valueint x) (valueint y) (default 0 (valueint <$> item "button")) st, s)
        | _, _ => (no_event, s)
        end
      else (no_event, s)
  end.
Definition sock_next_event (fd : list ascii) (s : SocketBackend) : exec (Event * list ascii * SocketBackend) :=
  match read_line 255 fd with
  | None => Done (no_event, [], s)
  | Some (_, false, _) => Fault Indeterminate
  | Some (line, true, fd') =>
      match cJSON_Parse (of_chars (until_nul line)) with
      | Fault f => Fault f
      | Fail => Done (no_event, fd', s)
      | Done msg => let '(e, s') := sock_event msg s in Done (e, fd', s')
      end
  end.
(** [n] events, each with the size at the time it is asked for. *)
Fixpoint sock_events (n : nat) (fd : list ascii) (s : SocketBackend) : exec (list (Z * Z * Event)) :=
  match n with
  | O => Done []
  | S n' => '(e, fd', s') ← sock_next_event fd s; l ← sock_events n' fd' s'; Done ((sock_get_size s, e) :: l)
  end.

(** *** Keys arrive *)

Definition printable_char (z : Z) : bool := (32 <=? z) && (z <=? 126).
Lemma read_line_app n l rest : LF ∉ l -> (length l < n)%nat -> read_line n (l ++ LF :: rest) = Some (l, true, rest).
Proof.
  revert n. induction l as [|c l IH]; intros [|n] Hl Hn; cbn in Hn; try lia; [done|]. apply not_elem_of_cons in Hl as [Hc Hl]. cbn [app read_line].
  destruct (Ascii.eqb_spec c LF); [by subst|]. by rewrite IH by (done || lia).
Qed.
#[global] Instance Event_eq_dec : EqDecision Event.
Proof. solve_decision. Defined.
#[global] Instance SocketBackend_eq_dec : EqDecision SocketBackend.
Proof. solve_decision. Defined.
(** What a key message is to the backend. *)
Definition key_arrives (k : KeyCode) (c : Z) : bool :=
  match read_line 255 (Client.filly_client_send_key (key_number k) c) with
  | Some (line, true, []) =>
      match cJSON_Parse (of_chars (until_nul line)) with
      | Done msg => bool_decide (sock_event msg (mk 0 0) = (key_event k (if printable_char c then c else 0), mk 0 0))
      | _ => false
      end
  | _ => false
  end.
Definition all_chars : list Z := map (fun n => Z.of_nat n - 128) (seq 0 256).
Lemma every_key_arrives : forallb (fun k => forallb (key_arrives k) all_chars) key_codes = true.
Proof. vm_compute. reflexivity. Qed.

Lemma read_line_more n l line rest : read_line n l = Some (line, true, []) -> read_line n (l ++ rest) = Some (line, true, rest).
Proof.
  revert l line. induction n as [|n IH]; intros l line H; [done|]. destruct l as [|c l]; [done|]. cbn [app read_line] in *.
  destruct (Ascii.eqb c LF); [by injection H as <- ->|].
  destruct (read_line n l) as [[[l' ok] r]|] eqn:E; [|done]. injection H as <- -> ->. by rewrite (IH _ _ E).
Qed.
Lemma sock_event_key msg k c : sock_event msg (mk 0 0) = (key_event k c, mk 0 0) -> forall s, sock_event msg s = (key_event k c, s).
Proof.
  intros H s. unfold sock_event in *. destruct (text_field msg "type") as [t|]; [|done]. repeat case_decide; try done.
  - destruct (cJSON_GetObjectItem (Some msg) "code"); [|done]. injection H as H1 H2. by rewrite <-H1, <-H2.
  - by destruct (cJSON_GetObjectItem (Some msg) "w"), (cJSON_GetObjectItem (Some msg) "h").
  - by destruct (cJSON_GetObjectItem (Some msg) "x"), (cJSON_GetObjectItem (Some msg) "y").
Qed.
(** A key that a client sends is the event of that key; a character that is not
    printable ASCII is lost on the way. *)
Lemma sent_key_arrives k c rest s : -128 <= c < 128 ->
  sock_next_event (Client.filly_client_send_key (key_number k) c ++ rest) s = Done (key_event k (if printable_char c then c else 0), rest, s).
Proof.
  intros Hc. assert (key_arrives k c = true) as H.
  { pose proof every_key_arrives as H. rewrite forallb_forall in H. specialize (H k ltac:(by destruct k; vm_compute; tauto)).
    rewrite forallb_forall in H. apply H. unfold all_chars. apply in_map_iff. exists (Z.to_nat (c + 128)). split; [lia|]. apply in_seq. lia. }
  unfold key_arrives in H. destruct (read_line 255 _) as [[[line []] [|]]|] eqn:E; try done. unfold sock_next_event. rewrite (read_line_more _ _ _ rest E).
  destruct (cJSON_Parse _) as [msg| |]; try done. apply bool_decide_eq_true in H. by rewrite (sock_event_key _ _ _ H s).
Qed.

(** *** The keyboard of a relay *)

Definition relayed (i : Keyboard.Input) : Prop :=
  Keyboard.sendable i /\ match i with Keyboard.Key _ => True | Keyboard.Char c => 32 <= c <= 126 | Keyboard.Mouse _ _ _ _ => False end.
Lemma relay_sends i rest : relayed i -> exists m, Relay.relay_key (Keyboard.typed i ++ rest) = Done (Some m, rest) /\
  forall r s, sock_next_event (m ++ r) s = Done (Keyboard.event_of i, r, s).
Proof.
  intros [Hs Hi]. destruct i as [k|c|]; [| |done].
  - exists (Client.filly_client_send_key (key_number k) 0). split.
    + destruct Hs as [H1 H2]. destruct k; try done; destruct rest as [|[] ?]; reflexivity.
    + intros r s. by rewrite sent_key_arrives.
  - exists (Client.filly_client_send_key (key_number KEY_CHAR) (s8 c)). destruct Hs as [Hc Hn]. assert (s8 c = c) as Es by (apply swrap_id; lia). split.
    + cbn [Keyboard.typed app Relay.relay_key].
      assert (forall n, n ∈ [9; 10; 13; 27; 127] -> (c =? n) = false) as He.
      { intros n Hin. apply Z.eqb_neq. intros ->. done. }
      by rewrite (He 27), (He 9), (He 13), (He 10), (He 127) by (apply (bool_decide_unpack _); reflexivity).
    + intros r s. rewrite Es, sent_key_arrives by lia. cbn [Keyboard.event_of]. rewrite Es. unfold printable_char.
      rewrite (proj2 (Z.leb_le _ _)), (proj2 (Z.leb_le _ _)) by lia. done.
Qed.
Definition sent (acts : list Relay.Act) : list ascii := concat (map (fun a => match a with Relay.Sends m => m | _ => [] end) acts).
End Sock.

(** C7: keys and printable characters typed at the terminal of a relay reach the
    session in the daemon as the very events its terminal backend would read from
    them, in order, with nothing between. *)
Theorem relay_is_transparent ins (s : Sock.SocketBackend) : Forall Sock.relayed ins ->
  exists acts evs, Relay.relay_loop (replicate (length ins) (Relay.mkTurn None true)) (concat (map Keyboard.typed ins)) Client.filly_client_connect = Done (None, acts) /\
    Keys.polls (length ins) (concat (map Keyboard.typed ins)) = Done (evs, []) /\
    Sock.sock_events (length ins) (Sock.sent acts) s = Done (map (fun e => (Sock.sock_get_size s, e)) evs).
Proof.
  intros H. assert (forall c, exists acts, Relay.relay_loop (replicate (length ins) (Relay.mkTurn None true)) (concat (map Keyboard.typed ins)) c = Done (None, acts) /\
    forall s, Sock.sock_events (length ins) (Sock.sent acts) s = Done (map (fun i => (Sock.sock_get_size s, Keyboard.event_of i)) ins)) as Hrelay.
  { induction H as [|i ins Hi _ IH]; intros c; [by exists []|]. cbn [length replicate map concat Relay.relay_loop].
    destruct (Sock.relay_sends i (concat (map Keyboard.typed ins)) Hi) as (m & Hm & Hs). destruct (IH c) as (acts & Hl & He).
    exists (Relay.Sends m :: acts). unfold Relay.turn. cbn [Relay.arrived Relay.pressed mbind exec_bind]. rewrite Hm. cbn [mbind exec_bind]. rewrite Hl. split; [done|].
    intros s'. cbn [Sock.sock_events]. change (Sock.sent (Relay.Sends m :: acts)) with (m ++ Sock.sent acts). rewrite Hs. cbn [mbind exec_bind]. by rewrite He. }
  destruct (Hrelay Client.filly_client_connect) as (acts & Ha & He). exists acts, (map Keyboard.event_of ins). split; [done|]. split; [|by rewrite He, map_map].
  clear -H. rewrite <-(app_nil_r (concat _)). induction H as [|i ins [Hi _] _ IH]; [done|]. cbn [length map concat Keys.polls]. rewrite <-app_assoc, Keyboard.typed_decodes by done.
  cbn [mbind exec_bind]. by rewrite IH.
Qed.
Lemma relay_is_transparent_witness : exists acts,
  Relay.relay_loop (replicate 3 (Relay.mkTurn None true)) (Keyboard.on_tape (Tty.esc "[B" ++ chars "y") ++ [Some 13]) Client.filly_client_connect = Done (None, acts) /\
  Sock.sock_events 3 (Sock.sent acts) (Sock.mk 80 24) = Done [((80, 24), key_event KEY_DOWN 0); ((80, 24), key_event KEY_CHAR 121); ((80, 24), key_event KEY_ENTER 0)].
Proof.
  destruct (relay_is_transparent [Keyboard.Key KEY_DOWN; Keyboard.Char 121; Keyboard.Key KEY_ENTER] (Sock.mk 80 24)) as (acts & evs & H1 & H2 & H3).
  - repeat (apply List.Forall_cons; [split; [|first [exact I|lia]]|]); [by split| |by split|constructor]. split; [lia|]. apply (bool_decide_unpack _). reflexivity.
  - exists acts. split; [exact H1|]. injection H2 as <-. exact H3.
Defined.
