(* ===== verification/Daemon.v ===== *)
(** The daemon, src/src/backend/daemon/daemon.c: the messages it answers, its
    table of sessions, and the life of one connection.

    Opening, accepting and closing sockets, threads, signals and the files under
    the plugins are arguments or are left out. *)

From Stdlib Require Import SpecFloat.
From S2P Require Import Prelude Double CJson CJsonParse CJsonPrint CJsonRound MsgPack Store Protocol Schema RenderTree Layout Animation Color Theme Widget Headless Session Forms Client Checkpoint Socket.

(** ** The daemon *)

Module Daemon.

(** What a handler does: bytes written to its connection, and a state or a fault
    after them. *)
Definition io (S A : Type) : Type := S -> list ascii * exec (A * S).
Section io.
Context {S : Type}.
#[export] Instance io_ret : MRet (io S) := fun A a s => ([], Done (a, s)).
#[export] Instance io_bind : MBind (io S) := fun A B f m s =>
  match m s with
  | (w, Done (a, s')) => let '(w', r) := f a s' in (w ++ w', r)
  | (w, Fail) => (w, Fail)
  | (w, Fault e) => (w, Fault e)
  end.
Definition get : io S S := fun s => ([], Done (s, s)).
Definition modify (f : S -> S) : io S unit := fun s => ([], Done (tt, f s)).
Definition write (l : list ascii) : io S unit := fun s => (l, Done (tt, s)).
Definition lift {A} (m : exec A) : io S A := fun s => ([], a ← m; Done (a, s)).
End io.
(** *** Replies *)

Definition error_message (msg : string) : list ascii :=
  take 511 (quoted "{'type':'response','result':null,'cancelled':true,'error':'" ++ chars msg ++ quoted "'}" ++ [LF]).
Definition ok_message : list ascii := take 52 (quoted "{'type':'response','result':null,'cancelled':false}" ++ [LF]).
Definition pong_message : list ascii := take 16 (quoted "{'type':'pong'}" ++ [LF]).
Definition session_message (id : string) : list ascii := quoted "{'type':'response','result':'" ++ chars id ++ quoted "','cancelled':false}" ++ [LF].

Definition str_bytes (s : string) : list Z := map uchar (chars s).
Definition put_str (w : MsgPackWriter) (s : string) : MsgPackWriter := msgpack_write_str w (str_bytes s) (strlen s).
(** The fields of a message in a buffer of [size] bytes. *)
Definition pack (size : nat) (root : cJSON) : exec (list ascii) :=
  let item k := cJSON_GetObjectItem (Some root) k in
  let w := msgpack_write_map_header (msgpack_writer_init size) 4 in
  let w := put_str (put_str w "type") (default EmptyString (item "type" ≫= valuestring)) in
  let w := put_str w "result" in
  w ← (match item "result" with Some r => rj ← cJSON_PrintUnformatted r; Done (put_str w rj) | None => Done (msgpack_write_nil w) end : exec MsgPackWriter);
  let w := put_str w "cancelled" in
  let w := msgpack_write_bool w (match item "cancelled" with Some c => bool_decide (CJson.type c = cJSON_True) || negb (valueint c =? 0) | None => false end) in
  let w := put_str w "error" in
  let w := match item "error" ≫= valuestring with Some e => put_str w e | None => msgpack_write_nil w end in
  Done (map (fun z => ascii_of_N (Z.to_N z)) (wbuf w)).
(** The bytes that stand for the text [json]. *)
Definition response_bytes (use_msgpack : bool) (json : string) : exec (list ascii) :=
  if negb use_msgpack then Done (chars json ++ [LF]) else
  match cJSON_Parse json with
  | Fault f => Fault f
  | Fail => Done []
  | Done root => pack (Z.to_nat 524288) root
  end.

(** *** The state *)

(** [sessions] is one block that grows: [moves] counts how often it was
    allocated anew, and a pointer is into one of those blocks. The active theme
    is a chain, empty when there is none; [frame_id] counts streamed frames. *)
Record State {W : Type} := mkState {
  sessions : list Checkpoint.Session; moves : nat; registry : list (RegistryEntry (W := W));
  g_active_theme : list Theme; animations : Registry; plugin_dir_path : option string;
  use_msgpack : bool; session_use_streaming : bool; frame_id : Z
}.
Arguments State : clear implicits.
Record pointer := mkPtr { block : nat; index : nat }.
(** What the system says: files and directories, the user's home, the options of
    the daemon, whether a plugin is signed, and what a plugin registers when it is
    loaded, if it can be. *)
Record Env {W : Type} := mkEnv {
  files : string -> option string; dir : string -> option (list string); home : option string;
  insecure_plugins : bool; use_sandbox : bool; verify_plugin_signature : string -> bool;
  dlopen : string -> option (list (string * option (WidgetFactory (W := W))))
}.
Arguments Env : clear implicits.

Section daemon.
Context {W : Type} (fd : Z).
Abbreviation state := (State W).
Definition set_sessions (l : list Checkpoint.Session) (s : state) : state :=
  mkState W l (moves s) (registry s) (g_active_theme s) (animations s) (plugin_dir_path s) (use_msgpack s) (session_use_streaming s) (frame_id s).
Definition set_flags (m st : bool) (s : state) : state :=
  mkState W (sessions s) (moves s) (registry s) (g_active_theme s) (animations s) (plugin_dir_path s) m st (frame_id s).
Definition set_theme (t : list Theme) (a : Registry) (s : state) : state :=
  mkState W (sessions s) (moves s) (registry s) t a (plugin_dir_path s) (use_msgpack s) (session_use_streaming s) (frame_id s).
Definition set_registry (r : list (RegistryEntry (W := W))) (d : option string) (s : state) : state :=
  mkState W (sessions s) (moves s) r (g_active_theme s) (animations s) d (use_msgpack s) (session_use_streaming s) (frame_id s).
Definition set_frame_id (n : Z) (s : state) : state :=
  mkState W (sessions s) (moves s) (registry s) (g_active_theme s) (animations s) (plugin_dir_path s) (use_msgpack s) (session_use_streaming s) n.

(** *** Sessions *)

Definition session_at (p : pointer) : io state Checkpoint.Session := fun s =>
  ([], if decide (block p = moves s) then x ← at_index (sessions s !! index p); Done (x, s) else Fault UseAfterFree).
Definition set_session (p : pointer) (x : Checkpoint.Session) : io state unit := modify (fun s => set_sessions (<[index p := x]> (sessions s)) s).
Definition session_find (wanted : string) : io state (option pointer) := fun s =>
  ([], Done ((fun '(i, _) => mkPtr (moves s) i) <$> list_find (fun x => id x = wanted /\ active x = true) (sessions s), s)).
(** [fresh] is the name made of the clock and the thread. *)
Definition session_new (fresh : string) : Checkpoint.Session :=
  mkSession fresh store_new true (-1) (-1) (Some NUL :: repeat None 31) (Some NUL :: repeat None 63) 0.
Definition session_create (fresh : string) : io state pointer := fun s =>
  ([], Done (mkPtr (S (moves s)) (length (sessions s)),
    mkState W (sessions s ++ [session_new fresh]) (S (moves s)) (registry s) (g_active_theme s) (animations s) (plugin_dir_path s)
      (use_msgpack s) (session_use_streaming s) (frame_id s))).

(** *** The handlers *)

Definition widget_schema : string := of_chars (quoted "{'type':'object','properties':{'widget':{'type':'string'},'params':{'type':'object'}}}").
Definition capabilities : list string :=
  ["animations"; "vectors"; "shadows"; "streaming"; "positioning"; "flexbox"; "grid"; "shaping"; "transforms"; "accessibility"]%string.
Definition strings_in (l : list cJSON) : list string := omap valuestring l.
Definition send_negotiated_capabilities (client_caps : cJSON) : io state unit :=
  let resp := AddInt (cJSON_AddStringToObject cJSON_CreateObject "type" (Some "handshake_ack"%string)) "version" 2 in
  let neg := if cJSON_IsArray (Some client_caps)
    then foldl (fun n c => cJSON_AddItemToArray n (cJSON_CreateString (Some c))) cJSON_CreateArray (filter (fun c => c ∈ capabilities) (strings_in (child client_caps)))
    else cJSON_CreateArray in
  out ← lift (cJSON_PrintUnformatted (cJSON_AddItemToObject resp "capabilities" (Some neg)));
  write (chars out ++ [LF]).

Definition send_response_msgpack (json : string) : io state unit := s ← get; b ← lift (response_bytes (use_msgpack s) json); write b.
Definition handle_query (json : cJSON) (p : pointer) : io state unit :=
  match cJSON_GetObjectItem (Some json) "widget_id" ≫= valuestring with
  | None => write (error_message "Missing widget_id")
  | Some i =>
      x ← session_at p;
      let resp := cJSON_AddStringToObject (cJSON_AddStringToObject cJSON_CreateObject "type" (Some "query_response"%string)) "widget_id" (Some i) in
      let resp := match store_get (store x) i with Some v => cJSON_AddStringToObject resp "value" (Some v) | None => cJSON_AddNullToObject resp "value" end in
      out ← lift (cJSON_PrintUnformatted resp); send_response_msgpack out
  end.

Definition number_or (json : cJSON) (k : string) (z : Z) : Z :=
  match cJSON_GetObjectItem (Some json) k with Some i => if decide (CJson.type i = cJSON_Number) then valueint i else z | None => z end.
Definition text_or (json : cJSON) (k : string) (n : nat) (b : bytes) : bytes :=
  match cJSON_GetObjectItem (Some json) k ≫= valuestring with Some v => strncpy n v b | None => b end.
Definition handle_position (json : cJSON) (p : pointer) : io state unit :=
  x ← session_at p;
  set_session p (mkSession (id x) (store x) (active x) (number_or json "x" (widget_position_x x)) (number_or json "y" (widget_position_y x))
    (text_or json "anchor" 31 (widget_anchor x)) (text_or json "relative_to" 63 (widget_relative_to x)) (number_or json "z_index" (widget_z_index x)));;
  write ok_message.

(** The messages of the store's subscribers go to their own connections. *)
Definition with_store (p : pointer) (f : Store -> Store) : io state unit :=
  x ← session_at p;
  set_session p (mkSession (id x) (f (store x)) (active x) (widget_position_x x) (widget_position_y x) (widget_anchor x) (widget_relative_to x) (widget_z_index x)).
Definition key_list (json : cJSON) : list string :=
  match cJSON_GetObjectItem (Some json) "keys" with Some k => if decide (CJson.type k = cJSON_Array) then strings_in (child k) else [] | None => [] end.

(** The place a "position" message left for the next request. *)
Definition first_char (b : bytes) : exec bool := c ← at_index (b !! 0%nat); c ← (match c with Some c => Done c | None => Fault Indeterminate end : exec ascii); Done (negb (Ascii.eqb c NUL)).
Definition clear_first (b : bytes) : bytes := <[0%nat := Some NUL]> b.
Definition take_text (b : bytes) (o : option string) : exec (option string * bytes) :=
  present ← first_char b; if (present : bool) then v ← read_string b; Done (Some v, clear_first b) else Done (o, b).
Definition take_position (p : pointer) (req : WidgetRequest) : io state WidgetRequest :=
  s ← session_at p;
  '(an, ab) ← lift (take_text (widget_anchor s) (Protocol.anchor req));
  '(rt, rb) ← lift (take_text (widget_relative_to s) (Protocol.relative_to req));
  set_session p (mkSession (id s) (store s) (active s) (if 0 <=? widget_position_x s then -1 else widget_position_x s) (if 0 <=? widget_position_y s then -1 else widget_position_y s) ab rb 0);;
  mret {| Protocol.widget := Protocol.widget req; Protocol.params := Protocol.params req; Protocol.step := Protocol.step req; Protocol.total := Protocol.total req; Protocol.session_id := Protocol.session_id req; Protocol.tty := Protocol.tty req;
    Protocol.relay := Protocol.relay req; Protocol.headless := Protocol.headless req; Protocol.anchor := an;
    Protocol.x := if 0 <=? widget_position_x s then widget_position_x s else Protocol.x req; Protocol.y := if 0 <=? widget_position_y s then widget_position_y s else Protocol.y req;
    Protocol.relative_to := rt; Protocol.dx := Protocol.dx req; Protocol.dy := Protocol.dy req; Protocol.z_index := if widget_z_index s =? 0 then Protocol.z_index req else widget_z_index s;
    Protocol.overflow := Protocol.overflow req; Protocol.tooltip := Protocol.tooltip req; Protocol.tab_index := Protocol.tab_index req; Protocol.draggable := Protocol.draggable req |}.

(** *** Plugins and themes *)

Definition is_plugin_file (n : string) : bool := (3 <? strlen n) && bool_decide (drop (String.length n - 3) (chars n) = chars ".so").
(** The loop over the directory. *)
Fixpoint load_plugin_files (env : Env W) (path : string) (names : list string) (r : list (RegistryEntry (W := W))) : list (RegistryEntry (W := W)) :=
  match names with
  | [] => r
  | n :: names' =>
      load_plugin_files env path names'
        (if is_plugin_file n then
           let full := strtake 2047 (path +:+ "/" +:+ n) in
           if negb (insecure_plugins env) && negb (verify_plugin_signature env full) then r
           else if use_sandbox env then r
           else match dlopen env full with
                | Some l => foldl (fun r '(n, f) => widget_registry_register_plugin r n f) r l
                | None => r
                end
         else r)
  end.
Definition add_plugin_overrides (env : Env W) (path : string) : io state unit :=
  s ← get;
  match g_active_theme s with
  | [] => mret tt
  | t => '(t, a) ← lift (theme_add_plugin_overrides (files env) t path (dir env path) (animations s)); modify (set_theme t a)
  end.
Definition load_plugins (env : Env W) : io state unit :=
  match home env with
  | None => mret tt
  | Some h =>
      let path := strtake 1023 (h +:+ "/.config/filly/plugins") in
      modify (fun s => set_registry (registry s) (Some path) s);;
      match dir env path with
      | None => mret tt
      | Some names => modify (fun s => set_registry (load_plugin_files env path names (registry s)) (plugin_dir_path s) s);; add_plugin_overrides env path
      end
  end.
Definition reload_plugins (env : Env W) : io state unit :=
  modify (fun s => set_registry (widget_registry_clear_plugins (registry s)) (plugin_dir_path s) s);; load_plugins env.

(** Freeing the theme frees the whole chain. *)
Definition load_theme (env : Env W) (a : Registry) : exec (list Theme * Registry) :=
  '(t, a) ← theme_load (files env) "themes/forge.json" a;
  match t with
  | Some t => Done ([t], a)
  | None =>
      '(l, a) ← theme_load_directory (files env) "themes" (dir env "themes") a;
      Done (match l with [] => [theme_default] | _ => l end, a)
  end.
Definition merge_head (m : Theme -> Registry -> exec (Theme * Registry)) (l : list Theme) (a : Registry) : exec (list Theme * Registry) :=
  match l with [] => Done ([], a) | t :: l' => '(t, a) ← m t a; Done (t :: l', a) end.
Definition reload_theme (env : Env W) : io state unit :=
  s ← get;
  let a := match g_active_theme s with [] => animations s | t :: _ => theme_free t (animations s) end in
  '(l, a) ← lift (load_theme env a);
  '(l, a) ← lift (merge_head (fun t => theme_merge_user_override (files env) t (home env)) l a);
  modify (set_theme l a);;
  match plugin_dir_path s with Some path => add_plugin_overrides env path | None => mret tt end.
Definition set_accessibility (env : Env W) (profile : option string) : io state unit :=
  match profile with
  | None => mret tt
  | Some p =>
      s ← get;
      '(l, a) ← lift (merge_head (fun t => theme_merge_accessibility_profile (files env) t (Some p)) (g_active_theme s) (animations s));
      modify (set_theme l a)
  end.

(** *** Messages *)


(** A session with a widget, on the socket when the request asks for a relay:
    from the bytes behind the request, what it writes for its frames and what it
    answers. *)
Context (run : list ascii -> option (Z * Z) -> W -> bool -> Z -> exec (list ascii * Z * WidgetResponse)).
Definition unknown_widget : WidgetResponse := mkResponse None true (Some "Unknown widget"%string).
Definition answer (fd_in : list ascii) (tty_size : option (Z * Z)) (req : WidgetRequest) : io state unit :=
  s ← get;
  w ← lift (widget_registry_create (registry s) req);
  resp ← (match w with
    | Some w =>
        '(drawn, n, r) ← lift (run fd_in tty_size w (session_use_streaming s) (frame_id s));
        modify (set_frame_id n);; write drawn;; mret r
    | None => mret unknown_widget
    end : io state WidgetResponse);
  out ← lift (widget_response_to_json resp);
  send_response_msgpack out.

Inductive Kind := KQuit | KPing | KSubscribe | KUnsubscribe | KQuery | KPosition | KReloadTheme | KReloadPlugins | KAccessibility | KSession.
#[export] Instance Kind_eq_dec : EqDecision Kind.
Proof. solve_decision. Defined.
Definition kinds : list (string * Kind) :=
  [("quit", KQuit); ("ping", KPing); ("subscribe", KSubscribe); ("unsubscribe", KUnsubscribe); ("query", KQuery); ("position", KPosition);
   ("reload_theme", KReloadTheme); ("reload_plugins", KReloadPlugins); ("set_accessibility", KAccessibility); ("session", KSession)]%string.
Definition kind_of (t : string) : option Kind := snd <$> List.find (fun '(n, _) => bool_decide (n = t)) kinds.
Definition text_of (json : cJSON) (k : string) : option string := cJSON_GetObjectItem (Some json) k ≫= valuestring.
Definition on_session (fresh : string) (json : cJSON) : io state unit :=
  match text_of json "action" with
  | Some a =>
      if decide (a = "create"%string) then q ← session_create fresh; x ← session_at q; write (session_message (id x))
      else if decide (a = "destroy"%string) then write ok_message else mret tt
  | None => mret tt
  end.
(** A message with a type the daemon knows. *)
Definition control (env : Env W) (fresh : string) (json : cJSON) (p : pointer) (k : Kind) : io state unit :=
  match k with
  | KQuit => write ok_message
  | KPing => write pong_message
  | KSubscribe => with_store p (fun st => foldl (fun st k => store_subscribe st k fd) st (key_list json))
  | KUnsubscribe => with_store p (fun st => foldl (fun st k => store_unsubscribe st k fd) st (key_list json));; write ok_message
  | KQuery => handle_query json p
  | KPosition => handle_position json p
  | KReloadTheme => reload_theme env;; write ok_message
  | KReloadPlugins => reload_plugins env;; write ok_message
  | KAccessibility => set_accessibility env (text_of json "profile");; write ok_message
  | KSession => on_session fresh json
  end.
Definition request_of_text (msg err : string) : io state (option WidgetRequest) :=
  match widget_request_parse msg with
  | Done req => mret (Some req)
  | Fail => write (error_message err);; mret None
  | Fault f => lift (Fault f)
  end.
(** The result tells whether the connection goes on. *)
Definition dispatch_message (env : Env W) (fresh msg : string) (p : pointer) : io state bool :=
  v ← lift (schema_validate msg widget_schema);
  match v with
  | Some schema_error => write (error_message schema_error);; mret true
  | None =>
      match cJSON_Parse msg with
      | Fault f => lift (Fault f)
      | Fail => mret true
      | Done json =>
          match text_of json "type" ≫= kind_of with
          | Some k => control env fresh json p k;; mret (bool_decide (k <> KQuit))
          | None =>
              o ← request_of_text msg "Invalid JSON";
              match o with None => mret true | Some req => req ← take_position p req; answer [] None req;; mret true end
          end
      end
  end.

(** *** A connection *)

(** What the terminal of a request is: not the user's, not to be opened, or one
    with a size or none. *)
Inductive Tty := Denied | Closed | Opened (winsize : option (Z * Z)).

(** A line of fewer than half a million bytes; [None] when the connection ends or
    is silent for too long. *)
Definition read_message (fd : list ascii) : option (list ascii * list ascii) :=
  match Sock.read_line (Z.to_nat 524287) fd with Some (l, true, fd') => Some (until_nul l, fd') | _ => None end.
Definition asks_for_streaming (caps : cJSON) : bool := existsb (fun c => bool_decide (c = "streaming"%string)) (strings_in (child caps)).
(** The first message: whether it was a handshake. *)
Definition handshake (msg : list ascii) : io state bool :=
  modify (set_flags false false);;
  match cJSON_Parse (of_chars msg) with
  | Fault f => lift (Fault f)
  | Fail => mret false
  | Done first =>
      if decide (text_of first "type" = Some "handshake"%string) then
        modify (set_flags (bool_decide (text_of first "encoding" = Some "msgpack"%string)) false);;
        match cJSON_GetObjectItem (Some first) "capabilities" with
        | Some caps => send_negotiated_capabilities caps;; modify (fun s => set_flags (use_msgpack s) (asks_for_streaming caps) s);; mret true
        | None => mret true
        end
      else mret false
  end.
(** A request to run a widget. After the answer the request is freed, and then
    its flag [relay] is looked at. *)
Definition serve (tty_of : string -> Tty) (fresh : string) (fd_in : list ascii) (req : WidgetRequest) : io state unit :=
  p ← session_create fresh;
  p ← (match Protocol.session_id req with Some i => o ← session_find i; mret (default p o) | None => mret p end : io state pointer);
  _ ← session_at p;
  if Protocol.relay req then
    match tty_of (default "/dev/tty"%string (Protocol.tty req)) with
    | Denied => write (error_message "Permission denied")
    | Closed => write (error_message "Cannot open /dev/tty")
    | Opened ws => answer fd_in (Some (default (80, 24) ws)) req;; lift (Fault UseAfterFree)
    end
  else answer fd_in None req;; lift (Fault UseAfterFree).
Definition handle_client (env : Env W) (tty_of : string -> Tty) (fresh fresh' : string) (fd_in : list ascii) : io state unit :=
  match read_message fd_in with
  | None => mret tt
  | Some (msg, fd_in) =>
      is_handshake ← handshake msg;
      match (if is_handshake : bool then read_message fd_in else Some (msg, fd_in)) with
      | None => mret tt
      | Some (widget_msg, fd_in) =>
          match cJSON_Parse (of_chars widget_msg) with
          | Fault f => lift (Fault f)
          | Fail => mret tt
          | Done json =>
              match text_of json "type", cJSON_GetObjectItem (Some json) "widget" with
              | Some _, None => p ← session_create fresh; _ ← dispatch_message env fresh' (of_chars widget_msg) p; mret tt
              | _, _ =>
                  o ← request_of_text (of_chars widget_msg) "Invalid widget request";
                  match o with None => mret tt | Some req => serve tty_of fresh fd_in req end
              end
          end
      end
  end.
End daemon.

(** *** A session on a connection *)

Section runs.
Context {W : Type} `{Widget W} (qsort : list Z -> list nat) (reg : Registry) (anims : list nat -> list AnimInstance).
Context (now_ms : Z) (store_version : option Z).

Fixpoint draw_all (outs : list Output) (streaming : bool) (frame_id : Z) (sb : Sock.SocketBackend) : exec (list ascii * Z) :=
  match outs with
  | [] => Done ([], frame_id)
  | ODraw t :: outs' =>
      '(_, b, n) ← Sock.sock_draw reg anims now_ms streaming frame_id (Some t) sb;
      '(b', n) ← draw_all outs' streaming n sb; Done (b ++ b', n)
  | _ :: outs' => draw_all outs' streaming frame_id sb
  end.
Definition socket_config : Config := mkConfig false true false.
Definition socket_input (sb : Sock.SocketBackend) (e : Event) : Input := mkInput (Sock.sock_get_size sb) e None store_version now_ms.
(** Rounds until the answer. At the end of the connection every event is none,
    and an interactive session then goes on without end. *)
Fixpoint socket_loop (fuel : nat) (fd : list ascii) (streaming : bool) (frame_id : Z) (sb : Sock.SocketBackend) (s : Session.Session (W := W)) :
    exec (list ascii * Z * WidgetResponse) :=
  match fuel with
  | O => Fault Diverges
  | S fuel' =>
      '(e, fd, sb') ← Sock.sock_next_event fd sb;
      '(s, outs, r) ← iteration qsort socket_config s (socket_input sb e);
      '(b, n) ← draw_all outs streaming frame_id sb;
      match r with
      | Some resp => Done (b, n, resp)
      | None => '(b', n, resp) ← socket_loop fuel' fd streaming n sb' s; Done (b ++ b', n, resp)
      end
  end.
Definition socket_session (fuel : nat) (fd : list ascii) (z : Z * Z) (w : W) (streaming : bool) (frame_id : Z) : exec (list ascii * Z * WidgetResponse) :=
  let sb := Sock.mk z.1 z.2 in
  '(s, outs) ← session_start qsort socket_config w z;
  '(b, n) ← draw_all outs streaming frame_id sb;
  '(b', n, resp) ← socket_loop fuel fd streaming n sb s;
  Done (b ++ b', n, resp).

(** Nothing injects an event into the backend of a request without a terminal. *)
Definition quiet : Event := mkEvent EVENT_NONE KEY_BACKSPACE 0 0 0 0 MOUSE_PRESS.
Fixpoint draw_text (outs : list Output) (hl : HeadlessBackend) : exec HeadlessBackend :=
  match outs with
  | [] => Done hl
  | ODraw t :: outs' => '(_, hl) ← hl_draw reg anims now_ms (Some t) hl; draw_text outs' hl
  | _ :: outs' => draw_text outs' hl
  end.
Definition headless_session (w : W) : exec WidgetResponse :=
  '(_, outs, r) ← session_run qsort (mkConfig false false false) w (80, 24) (repeat (mkInput (80, 24) quiet None store_version now_ms) (Z.to_nat 5001));
  _ ← draw_text outs (headless_backend_init 80 24);
  match r with Some resp => Done resp | None => Fault Diverges end.
Definition run_session (fuel : nat) (fd : list ascii) (tty_size : option (Z * Z)) (w : W) (streaming : bool) (frame_id : Z) :
    exec (list ascii * Z * WidgetResponse) :=
  match tty_size with
  | Some z => socket_session fuel fd z w streaming frame_id
  | None => resp ← headless_session w; Done ([], frame_id, resp)
  end.

(** Without streaming the bytes of a session are the frames of its drawings. *)
Definition framed (b : list ascii) : Prop := exists ds, b = concat (map Frames.frame ds).
Lemma framed_app a b : framed a -> framed b -> framed (a ++ b).
Proof. intros [x ->] [y ->]. exists (x ++ y). by rewrite map_app, concat_app. Qed.
Lemma draw_all_framed outs n sb b n' : draw_all outs false n sb = Done (b, n') -> framed b.
Proof.
  revert n b n'. induction outs as [|[t| |] outs IH]; intros n b n' Hd; cbn [draw_all] in Hd; [injection Hd as <- _; by exists []| |by eapply IH..].
  apply exec_bind_Done in Hd as ([[t1 b1] n1] & H1 & Hd). apply exec_bind_Done in Hd as ([b2 n2] & H2 & Hd). injection Hd as <- _.
  apply framed_app; [|by eapply IH]. unfold Sock.sock_draw in H1. apply exec_bind_Done in H1 as ([t2 buf] & _ & H1). injection H1 as _ <- _.
  eexists [_]. cbn. by rewrite app_nil_r.
Qed.
Lemma socket_loop_framed fuel : forall fd n sb s b n' r, socket_loop fuel fd false n sb s = Done (b, n', r) -> framed b.
Proof.
  induction fuel as [|fuel IH]; intros fd n sb s b n' r Hl; [done|]. cbn [socket_loop] in Hl.
  apply exec_bind_Done in Hl as ([[e fd'] sb'] & _ & Hl). apply exec_bind_Done in Hl as ([[s' outs] o] & _ & Hl).
  apply exec_bind_Done in Hl as ([b1 n1] & Hd & Hl). apply draw_all_framed in Hd. destruct o as [resp|]; [by injection Hl as <- _ _|].
  apply exec_bind_Done in Hl as ([[b2 n2] r2] & Hl & He). injection He as <- _ _. apply framed_app; [done|by eapply IH].
Qed.
Lemma socket_session_framed fuel fd z w n b n' r : socket_session fuel fd z w false n = Done (b, n', r) -> framed b.
Proof.
  intros Hl. unfold socket_session in Hl. apply exec_bind_Done in Hl as ([s outs] & _ & Hl). apply exec_bind_Done in Hl as ([b1 n1] & Hd & Hl).
  apply exec_bind_Done in Hl as ([[b2 n2] r2] & Hl & He). injection He as <- _ _.
  apply framed_app; [by eapply draw_all_framed|by eapply socket_loop_framed].
Qed.
End runs.
End Daemon.

(** *** From a request to its answer *)

Module Answered.
Import Daemon.
Section answered.
Context {W : Type} `{Widget W} (qsort : list Z -> list nat) (reg : Registry) (anims : list nat -> list AnimInstance).
Context (now_ms : Z) (store_version : option Z).

Lemma io_step {S A B} (m : io S A) (f : A -> io S B) s :
  (m ≫= f) s = match m s with
    | (w, Done (a, s')) => let '(w', r) := f a s' in (w ++ w', r)
    | (w, Fail) => (w, Fail)
    | (w, Fault e) => (w, Fault e)
    end.
Proof. done. Qed.
(** Runs the handler as far as its state is known. *)
Ltac io_run := unfold lift, get, modify, write, mret, io_ret; cbn [mbind exec_bind app]; repeat (rewrite io_step; cbn [mbind exec_bind app]).

Lemma read_message_line l rest : NUL ∉ l -> LF ∉ l -> Z.of_nat (length l) < 524287 -> read_message (l ++ LF :: rest) = Some (l, rest).
Proof. intros Hn Hl Hs. unfold read_message. rewrite Sock.read_line_app by (done || lia). by rewrite until_nul_id. Qed.

Lemma answer_writes (run : list ascii -> option (Z * Z) -> W -> bool -> Z -> exec (list ascii * Z * WidgetResponse)) fd tty req (s : State W) w b n resp :
  widget_registry_create (registry s) req = Done (Some w) -> run fd tty w (session_use_streaming s) (frame_id s) = Done (b, n, resp) -> response_ok resp ->
  use_msgpack s = false -> answer run fd tty req s = (b ++ Frames.response_line resp ++ [LF], Done (tt, set_frame_id n s)).
Proof.
  intros Hw Hr (Hp & _ & _ & Hl) Hm. unfold answer, send_response_msgpack, widget_response_to_json. io_run. rewrite Hw. io_run. rewrite Hr. io_run.
  rewrite print_text by done. io_run. cbn [set_frame_id use_msgpack]. rewrite Hm. cbn. rewrite list_ascii_of_string_of_list_ascii. by rewrite !app_nil_r.
Qed.

Lemma serve_writes (run : list ascii -> option (Z * Z) -> W -> bool -> Z -> exec (list ascii * Z * WidgetResponse)) tty_of fresh fd req (s : State W) ws w b n resp :
  Protocol.relay req = true -> tty_of (default "/dev/tty"%string (Protocol.tty req)) = Opened ws ->
  widget_registry_create (registry s) req = Done (Some w) -> run fd (Some (default (80, 24) ws)) w (session_use_streaming s) (frame_id s) = Done (b, n, resp) ->
  response_ok resp -> use_msgpack s = false ->
  serve run tty_of fresh fd req s = (b ++ Frames.response_line resp ++ [LF], Fault UseAfterFree).
Proof.
  intros Hr Ht Hw Hrun Hok Hm. unfold serve. rewrite io_step. unfold session_create at 1. cbn iota. set (s1 := mkState _ _ _ _ _ _ _ _ _ _).
  assert (exists p x, (match Protocol.session_id req with Some i => o ← session_find i; mret (default (mkPtr (S (moves s)) (length (sessions s))) o)
    | None => mret (mkPtr (S (moves s)) (length (sessions s))) end : io (State W) pointer) s1 = ([], Done (p, s1)) /\ session_at p s1 = ([], Done (x, s1))) as (p & x & Hp & Hx).
  { assert (forall i x, sessions s1 !! i = Some x -> session_at (mkPtr (moves s1) i) s1 = ([], Done (x, s1))) as Hat.
    { intros i x Hi. unfold session_at. cbn [block index]. by rewrite decide_True, Hi. }
    assert (sessions s1 !! length (sessions s) = Some (session_new fresh)) as Hnew by (by apply list_lookup_middle).
    destruct (Protocol.session_id req) as [i|]; [|by eexists _, _; split; [|by apply (Hat _ _ Hnew)]].
    rewrite io_step. unfold session_find. cbn iota. destruct (list_find _ (sessions s1)) as [[k y]|] eqn:E.
    - apply list_find_Some in E as (E & _). by eexists _, _; split; [|by apply (Hat _ _ E)].
    - by eexists _, _; split; [|by apply (Hat _ _ Hnew)]. }
  rewrite io_step, Hp. rewrite io_step, Hx. cbn iota. rewrite Hr, Ht. rewrite io_step.
  rewrite (answer_writes run fd _ req s1 w b n resp) by done. unfold lift. cbn. by rewrite app_nil_r.
Qed.
End answered.
End Answered.

(** C6: from a request to its answer. A request that is one line of JSON shorter
    than 524287 bytes, without a NUL and not a handshake, that asks for the relay
    with a terminal the daemon may use, and whose widget can be made and answers the keys
    behind it with a result that can be written (numbers that are integers, no
    NUL and no control character without a short escape in its strings, at most
    1000 levels, a text shorter than 2^31 - 1 bytes), makes the daemon write the frames of the
    session and the response. A client that draws, has nothing in its buffer and
    no response yet, however those bytes are cut on their way, is handed every
    drawing in order and then the result and the flag of the answer, when each
    frame and the line of the response fit its buffer of 524288 bytes. Behind
    the response the handler reads the request it has freed. *)
Theorem request_answered {W} `{Widget W} qsort reg anims now_ms store_version fuel env tty_of fresh fresh' msg keys (s : Daemon.State W) json ws w b n resp :
  let run := Daemon.run_session qsort reg anims now_ms store_version fuel in
  let conn := Daemon.handle_client 7 run env tty_of fresh fresh' (Client.filly_client_send_request msg ++ keys) s in
  NUL ∉ msg -> LF ∉ msg -> Z.of_nat (length msg) < 524287 -> cJSON_Parse (of_chars msg) = Done json ->
  Daemon.text_of json "type" <> Some "handshake"%string -> cJSON_GetObjectItem (Some json) "widget" <> None ->
  Protocol.relay (request_fields json) = true -> tty_of (default "/dev/tty"%string (Protocol.tty (request_fields json))) = Daemon.Opened ws ->
  widget_registry_create (Daemon.registry s) (request_fields json) = Done (Some w) ->
  Daemon.socket_session qsort reg anims now_ms store_version fuel keys (default (80, 24) ws) w false (Daemon.frame_id s) = Done (b, n, resp) ->
  response_ok resp ->
  (exists ds, b = concat (map Frames.frame ds)) /\ conn = (b ++ Frames.response_line resp ++ [LF], Fault UseAfterFree) /\
  forall ds, b = concat (map Frames.frame ds) -> Forall Frames.fits ds -> Z.of_nat (length (Frames.response_line resp)) + 1 < Client.CLIENT_BUF_SIZE ->
    forall pieces c, Forall (fun p => p <> []) pieces -> concat pieces = fst conn ->
      Client.buf c = [] -> Client.response_received c = false -> Client.draw_cb c = true ->
      exists c', Client.filly_client_get_response pieces c = Done (0, Some (Frames.answer_of resp), cancelled resp, c', ds).
Proof.
  intros run conn Hnul Hlf Hlen Hparse Htype Hwidget Hrelay Htty Hw Hrun Hok.
  pose proof Hrun as Hf. apply Daemon.socket_session_framed in Hf.
  assert (conn = (b ++ Frames.response_line resp ++ [LF], Fault UseAfterFree)) as Hconn.
  { unfold conn, Daemon.handle_client, Client.filly_client_send_request. rewrite <-app_assoc. cbn [app].
    rewrite (Answered.read_message_line msg keys) by done. rewrite Answered.io_step.
    assert (Daemon.handshake msg s = ([], Done (false, Daemon.set_flags false false s))) as ->.
    { unfold Daemon.handshake. rewrite Answered.io_step. unfold Daemon.modify. cbn iota. rewrite Hparse. by rewrite decide_False. }
    cbn iota. rewrite Hparse. destruct (cJSON_GetObjectItem (Some json) "widget"); [|done].
    assert (Daemon.request_of_text (of_chars msg) "Invalid widget request" = (fun s : Daemon.State W => ([], Done (Some (request_fields json), s)))) as Hreq.
    { unfold Daemon.request_of_text, widget_request_parse. by rewrite Hparse. }
    assert (Daemon.serve run tty_of fresh keys (request_fields json) (Daemon.set_flags false false s) =
      (b ++ Frames.response_line resp ++ [LF], Fault UseAfterFree)) as Hserve by (by eapply Answered.serve_writes).
    destruct (Daemon.text_of json "type"); rewrite Hreq, Answered.io_step; cbn iota; by rewrite Hserve. }
  split; [exact Hf|]. split; [done|]. intros ds -> Hds Hl pieces c Hp Hc Hb Hr Hcb. rewrite Hconn in Hc. cbn [fst] in Hc.
  by apply (Frames.client_receives resp ds [] pieces c).
Qed.

Definition yes_request : list ascii := quoted "{'widget':'yesno','relay':true,'params':{}}".
Definition yes_keys : list ascii := Client.filly_client_send_key (key_number KEY_LEFT) 0 ++ Client.filly_client_send_key (key_number KEY_ENTER) 0.
Definition yes_registry : list (RegistryEntry (W := YesNo.YesNoData)) :=
  [mkEntry "yesno" (Some (fun _ => Done (Some (YesNo.yesno_widget_new (Some "Sure?"%string) None false)))) false].
Definition yes_daemon : Daemon.State YesNo.YesNoData := Daemon.mkState _ [] 0 yes_registry [] registry_init None true true 0.
Definition no_env : Daemon.Env YesNo.YesNoData := Daemon.mkEnv _ (fun _ => None) (fun _ => None) None false false (fun _ => false) (fun _ => None).
Definition yes_answer : WidgetResponse := mkResponse (Some (cJSON_CreateBool true)) false None.
Definition yes_widget : YesNo.YesNoData := YesNo.yesno_widget_new (Some "Sure?"%string) None false.
Definition yes_frames : list ascii :=
  match Daemon.socket_session sort_keys registry_init (fun _ => []) 0 None 2 yes_keys (20, 6) yes_widget false 0 with Done (b, _, _) => b | _ => [] end.
Definition fresh_client : Client.FillyClient := Client.filly_client_set_draw_callback true Client.filly_client_connect.
Definition yes_drawings : list (list ascii) := match Client.client_process_buffer (Client.set_buf yes_frames fresh_client) with Done (_, _, ds) => ds | _ => [] end.
Lemma request_answered_witness :
  let conn := Daemon.handle_client 7 (Daemon.run_session sort_keys registry_init (fun _ => []) 0 None 2) no_env (fun _ => Daemon.Opened (Some (20, 6))) "1" "2"
    (Client.filly_client_send_request yes_request ++ yes_keys) yes_daemon in
  snd conn = Fault UseAfterFree /\ length yes_drawings = 2%nat /\
  exists c', Client.filly_client_get_response (Frames.pieces 100 (fst conn) 100) fresh_client = Done (0, Some (Frames.answer_of yes_answer), false, c', yes_drawings).
Proof.
  destruct (request_answered sort_keys registry_init (fun _ => []) 0 None 2 no_env (fun _ => Daemon.Opened (Some (20, 6))) "1" "2" yes_request yes_keys yes_daemon
    (match cJSON_Parse (of_chars yes_request) with Done j => j | _ => cJSON_New_Item end) (Some (20, 6)) yes_widget yes_frames 0 yes_answer) as (_ & E & Hd).
  - apply (bool_decide_unpack _). vm_compute. exact I.
  - apply (bool_decide_unpack _). vm_compute. exact I.
  - vm_compute. reflexivity.
  - vm_compute. reflexivity.
  - vm_compute. discriminate.
  - vm_compute. discriminate.
  - vm_compute. reflexivity.
  - reflexivity.
  - vm_compute. reflexivity.
  - vm_compute. reflexivity.
  - unfold response_ok. repeat split; vm_compute; first [reflexivity|lia].
  - intros conn. split; [unfold conn; rewrite E; reflexivity|]. split; [vm_compute; reflexivity|].
    apply Hd; [vm_compute; reflexivity| |vm_compute; reflexivity| | |reflexivity|reflexivity|reflexivity].
    + apply (bool_decide_unpack _). vm_compute. exact I.
    + unfold conn. rewrite E. apply (bool_decide_unpack _). vm_compute. exact I.
    + unfold conn. rewrite E. vm_compute. reflexivity.
Defined.

(** ** One message at a time *)

Module Messages.
Import Daemon.

(** *** Other sessions are spared *)

Section spares.
Context {W : Type}.
(** What a handler may do to the sessions, given the one it was called for. *)
Definition spared (i : nat) (s s' : State W) : Prop :=
  (length (sessions s) <= length (sessions s'))%nat /\
  (forall j x, j <> i -> sessions s !! j = Some x -> sessions s' !! j = Some x) /\
  (forall x, sessions s !! i = Some x -> exists y, sessions s' !! i = Some y /\ id y = id x /\ active y = active x).
Definition spares {A} (i : nat) (m : io (State W) A) : Prop := forall s w a s', m s = (w, Done (a, s')) -> spared i s s'.

Lemma spared_same i s s' : sessions s' = sessions s -> spared i s s'.
Proof. intros E. unfold spared. rewrite E. split; [done|]. split; [done|]. intros x Hx. by exists x. Qed.
Lemma spared_trans i s1 s2 s3 : spared i s1 s2 -> spared i s2 s3 -> spared i s1 s3.
Proof.
  intros (L1 & O1 & I1) (L2 & O2 & I2). split; [lia|]. split; [auto|]. intros x Hx. destruct (I1 x Hx) as (y & Hy & E1 & E2).
  destruct (I2 y Hy) as (z & Hz & E3 & E4). exists z. split; [done|]. by rewrite E3, E4.
Qed.
Lemma spares_bind {A B} i (m : io (State W) A) (f : A -> io (State W) B) : spares i m -> (forall a, spares i (f a)) -> spares i (m ≫= f).
Proof.
  intros Hm Hf s w b s' H. rewrite Answered.io_step in H. destruct (m s) as [w1 [[a s1]| |]] eqn:E; [|done..].
  destruct (f a s1) as [w2 r] eqn:E2. injection H as _ ->. apply (spared_trans i s s1); [by eapply Hm|by eapply Hf].
Qed.
Lemma spares_ret {A} i (a : A) : spares i (mret a : io (State W) A).
Proof. intros s w b s' H. injection H as _ _ <-. by apply spared_same. Qed.
Lemma spares_get i : spares i (get : io (State W) _).
Proof. intros s w b s' H. injection H as _ _ <-. by apply spared_same. Qed.
Lemma spares_write i l : spares i (write l : io (State W) _).
Proof. intros s w b s' H. injection H as _ _ <-. by apply spared_same. Qed.
Lemma spares_lift {A} i (m : exec A) : spares i (lift m : io (State W) A).
Proof. intros s w a s' H. unfold lift in H. destruct m; [|done..]. injection H as _ _ <-. by apply spared_same. Qed.
Lemma spares_modify i f : (forall s : State W, sessions (f s) = sessions s) -> spares i (modify f).
Proof. intros Hf s w a s' H. injection H as _ _ <-. by apply spared_same. Qed.
Lemma spares_at i p : spares i (session_at (W := W) p).
Proof.
  intros s w a s' H. unfold session_at in H. case_decide; [|done]. destruct (sessions s !! index p); [|done]. injection H as _ _ <-. by apply spared_same.
Qed.
Lemma spares_create i fresh : spares i (session_create (W := W) fresh).
Proof.
  intros s w a s' H. injection H as _ _ <-. unfold spared. cbn [sessions]. rewrite length_app. split; [lia|]. split.
  - intros j x _ Hj. by apply lookup_app_l_Some.
  - intros x Hx. exists x. split; [by apply lookup_app_l_Some|done].
Qed.
(** A session read and written back under its name. *)
Definition writes_back {A} (p : pointer) (x : Checkpoint.Session) (m : io (State W) A) : Prop :=
  forall s w a s', sessions s !! index p = Some x -> m s = (w, Done (a, s')) -> spared (index p) s s'.
Lemma spares_session {A} p (k : Checkpoint.Session -> io (State W) A) : (forall x, writes_back p x (k x)) -> spares (index p) (session_at p ≫= k).
Proof.
  intros Hk s w a s' H. rewrite Answered.io_step in H. unfold session_at in H. case_decide; [|done]. destruct (sessions s !! index p) as [x|] eqn:E; [|done].
  cbn [mbind exec_bind at_index] in H. destruct (k x s) as [w2 r] eqn:E2. injection H as _ ->. by eapply Hk.
Qed.
Lemma set_writes_back p x y : id y = id x -> active y = active x -> writes_back p x (set_session (W := W) p y).
Proof.
  intros H1 H2 s w a s' Hx H. injection H as _ _ <-. unfold spared. cbn [sessions set_sessions]. rewrite length_insert. split; [done|]. split.
  - intros j z Hj Hz. by rewrite list_lookup_insert_ne by done.
  - intros z Hz. exists y. rewrite list_lookup_insert_eq by (by eapply lookup_lt_Some). rewrite Hx in Hz. by injection Hz as <-.
Qed.
Lemma writes_back_then {A B} p x (m : io (State W) A) (f : A -> io (State W) B) : writes_back p x m -> (forall a, spares (index p) (f a)) -> writes_back p x (m ≫= f).
Proof.
  intros Hm Hf s w b s' Hx H. rewrite Answered.io_step in H. destruct (m s) as [w1 [[a s1]| |]] eqn:E; [|done..].
  destruct (f a s1) as [w2 r] eqn:E2. injection H as _ ->. apply (spared_trans (index p) s s1); [by eapply Hm|by eapply Hf].
Qed.
Lemma writes_back_lift {A B} p x (m : exec A) (f : A -> io (State W) B) : (forall a, writes_back p x (f a)) -> writes_back p x (lift m ≫= f).
Proof.
  intros Hf s w b s' Hx H. rewrite Answered.io_step in H. unfold lift in H. destruct m as [a| |]; [|done..]. cbn [mbind exec_bind] in H.
  destruct (f a s) as [w2 r] eqn:E2. injection H as _ ->. by eapply Hf.
Qed.
End spares.
Create HintDb spares.
#[export] Hint Resolve spares_ret spares_get spares_write spares_lift spares_at spares_create : spares.
#[export] Hint Extern 1 (spares _ (modify _)) => apply spares_modify; reflexivity : spares.
Ltac spare := repeat first [solve [auto 1 with spares] | apply spares_bind; [|intros ?] | case_match].

Section handlers.
Context {W : Type} (fd : Z) (run : list ascii -> option (Z * Z) -> W -> bool -> Z -> exec (list ascii * Z * WidgetResponse)) (env : Env W).
Lemma spares_store p f : spares (index p) (with_store (W := W) p f).
Proof. apply spares_session. intros x. by apply set_writes_back. Qed.
Lemma spares_position json p : spares (index p) (handle_position (W := W) json p).
Proof. apply spares_session. intros x. apply writes_back_then; [by apply set_writes_back|intros _; auto with spares]. Qed.
Lemma spares_take p req : spares (index p) (take_position (W := W) p req).
Proof.
  apply spares_session. intros x. apply writes_back_lift. intros [an ab]. apply writes_back_lift. intros [rt rb].
  apply writes_back_then; [by apply set_writes_back|intros _; auto with spares].
Qed.
Lemma spares_response i json : spares i (send_response_msgpack (W := W) json).
Proof. unfold send_response_msgpack. spare. Qed.
Lemma spares_overrides i path : spares i (add_plugin_overrides env path).
Proof. unfold add_plugin_overrides. spare. Qed.
Lemma spares_answer i fd_in tty req : spares i (answer run fd_in tty req).
Proof. unfold answer. spare; by apply spares_response. Qed.
#[local] Hint Resolve spares_store spares_position spares_take spares_response spares_overrides spares_answer : spares.
Lemma spares_query i json p : spares i (handle_query (W := W) json p).
Proof. unfold handle_query. spare. Qed.
Lemma spares_plugins i : spares i (reload_plugins env).
Proof. unfold reload_plugins, load_plugins. spare. Qed.
Lemma spares_theme i : spares i (reload_theme env).
Proof. unfold reload_theme. spare. Qed.
Lemma spares_accessibility i o : spares i (set_accessibility env o).
Proof. unfold set_accessibility. spare. Qed.
Lemma spares_on_session i fresh json : spares i (on_session (W := W) fresh json).
Proof. unfold on_session. spare. Qed.
#[local] Hint Resolve spares_query spares_plugins spares_theme spares_accessibility spares_on_session : spares.
Lemma spares_control fresh json p k : spares (index p) (control fd env fresh json p k).
Proof. destruct k; unfold control; spare. Qed.
#[local] Hint Resolve spares_control : spares.
Lemma spares_request i msg err : spares i (request_of_text (W := W) msg err).
Proof. unfold request_of_text. spare. Qed.
#[local] Hint Resolve spares_request : spares.
Lemma spares_dispatch fresh msg p : spares (index p) (dispatch_message fd run env fresh msg p).
Proof. unfold dispatch_message. spare. Qed.
End handlers.
End Messages.

#[local] Existing Instance Daemon.Kind_eq_dec.
Definition file_free : list Daemon.Kind := [Daemon.KQuit; Daemon.KPing; Daemon.KSubscribe; Daemon.KUnsubscribe; Daemon.KPosition; Daemon.KSession].
Lemma control_goes {W} fd env fresh json p k (s : Daemon.State W) x : Daemon.block p = Daemon.moves s -> Daemon.sessions s !! Daemon.index p = Some x ->
  k ∈ file_free -> exists w s', Daemon.control fd env fresh json p k s = (w, Done (tt, s')).
Proof.
  intros Hp Hx Hk. assert (Daemon.session_at p s = ([], Done (x, s))) as Hat by (unfold Daemon.session_at; by rewrite decide_True, Hx).
  repeat (apply list.elem_of_cons in Hk as [->|Hk]; [|]); [..|by apply elem_of_nil in Hk]; cbn [Daemon.control].
  - by eexists _, _.
  - by eexists _, _.
  - unfold Daemon.with_store. rewrite Answered.io_step, Hat. cbn. by eexists _, _.
  - unfold Daemon.with_store. rewrite Answered.io_step. rewrite Answered.io_step, Hat. cbn. by eexists _, _.
  - unfold Daemon.handle_position. rewrite Answered.io_step, Hat. cbn. by eexists _, _.
  - unfold Daemon.on_session. destruct (Daemon.text_of json "action"); [|by eexists _, _]. repeat case_decide; try by eexists _, _.
    rewrite Answered.io_step. unfold Daemon.session_create. cbn iota. set (s1 := Daemon.mkState _ _ _ _ _ _ _ _ _ _).
    assert (Daemon.session_at (Daemon.mkPtr (S (Daemon.moves s)) (length (Daemon.sessions s))) s1 = ([], Done (Daemon.session_new fresh, s1))) as Hnew.
    { unfold Daemon.session_at. cbn [Daemon.block Daemon.index s1 Daemon.moves Daemon.sessions]. rewrite decide_True by done. by rewrite list_lookup_middle. }
    rewrite Answered.io_step, Hnew. by eexists _, _.
Qed.
Lemma dispatch_control {W} fd run env fresh msg p json k (s : Daemon.State W) :
  schema_validate msg Daemon.widget_schema = Done None -> cJSON_Parse msg = Done json -> Daemon.text_of json "type" ≫= Daemon.kind_of = Some k ->
  Daemon.dispatch_message fd run env fresh msg p s =
    (let '(w, r) := Daemon.control fd env fresh json p k s in (w, '(_, s') ← r; Done (bool_decide (k <> Daemon.KQuit), s'))).
Proof.
  intros Hv Hj Hk. unfold Daemon.dispatch_message. rewrite Answered.io_step. unfold Daemon.lift at 1. rewrite Hv. cbn [mbind exec_bind]. rewrite Hj, Hk.
  rewrite Answered.io_step. destruct (Daemon.control fd env fresh json p k s) as [w [[[] s']| |]]; cbn; by rewrite ?app_nil_r.
Qed.

(** The answer to a query: the key and its value in the store, null when there is none. *)
Definition query_line (i : string) (v : option string) : list ascii :=
  quoted "{'type':'query_response','widget_id':" ++ string_text (Some i) ++ quoted ",'value':" ++
  (match v with Some t => string_text (Some t) | None => chars "null" end) ++ quoted "}" ++ [LF].
Lemma query_answers {W} json p (s : Daemon.State W) x i : Daemon.block p = Daemon.moves s -> Daemon.sessions s !! Daemon.index p = Some x ->
  Daemon.use_msgpack s = false -> Daemon.text_of json "widget_id" = Some i -> no_u_escape i = true -> no_u_escape_opt (store_get (store x) i) = true ->
  Z.of_nat (length (query_line i (store_get (store x) i))) < INT_MAX ->
  Daemon.handle_query json p s = (query_line i (store_get (store x) i), Done (tt, s)).
Proof.
  intros Hp Hx Hm Hi H1 H2 Hl. unfold Daemon.handle_query. unfold Daemon.text_of in Hi. rewrite Hi. rewrite Answered.io_step.
  assert (Daemon.session_at p s = ([], Done (x, s))) as -> by (unfold Daemon.session_at; by rewrite decide_True, Hx). cbn iota.
  set (resp := match store_get (store x) i with Some v => _ | None => _ end). set (v := store_get (store x) i) in *.
  assert (json_text resp ++ [LF] = query_line i v) as Ht.
  { unfold resp, query_line. destruct v as [t|]; cbn -[string_text];
      change (string_text (Some "type"%string)) with (quoted "'type'"); change (string_text (Some "query_response"%string)) with (quoted "'query_response'");
      change (string_text (Some "widget_id"%string)) with (quoted "'widget_id'"); change (string_text (Some "value"%string)) with (quoted "'value'");
      generalize (string_text (Some i)); [generalize (string_text (Some t))|]; intros; cbn; rewrite <-?app_assoc; cbn; rewrite <-?app_assoc; cbn; rewrite <-?app_assoc; reflexivity. }
  assert (printable resp = true) as Hpr by (unfold resp; destruct v; cbn in *; by rewrite H1, ?H2).
  assert (cJSON_PrintUnformatted resp = Done (of_chars (json_text resp))) as Hprint.
  { apply print_text; [done|]. rewrite <-Ht, length_app in Hl. cbn in Hl. lia. }
  rewrite Answered.io_step. unfold Daemon.lift. rewrite Hprint. cbn [mbind exec_bind app]. unfold Daemon.send_response_msgpack, Daemon.get, Daemon.write, Daemon.lift, Daemon.response_bytes.
  rewrite !Answered.io_step. cbn -[json_text]. rewrite Hm. cbn -[json_text]. rewrite list_ascii_of_string_of_list_ascii, ?app_nil_r. by rewrite Ht.
Qed.

(** C9: a message dispatched to a session is for that session: whatever it says
    and whatever it leads to, if it is carried out, every other session stays as
    it is, and that one keeps its name and stays active. When the session is
    there, a message that passes the schema and is a quit, ping, subscribe,
    unsubscribe, position or session message is always carried out, and the
    connection goes on unless it was quit; a query without a key is answered by an
    error; and one for a key is answered by that key and its value in the
    session's own store (null when it has none), which changes nothing: on a
    connection without MessagePack, for texts without control characters that
    have no short escape, and shorter than 2^31 - 1 bytes in all. *)
Theorem messages_isolated {W} fd run env fresh msg p (s : Daemon.State W) x :
  Daemon.block p = Daemon.moves s -> Daemon.sessions s !! Daemon.index p = Some x ->
  (forall w go s', Daemon.dispatch_message fd run env fresh msg p s = (w, Done (go, s')) ->
    (forall j y, j <> Daemon.index p -> Daemon.sessions s !! j = Some y -> Daemon.sessions s' !! j = Some y) /\
    exists y, Daemon.sessions s' !! Daemon.index p = Some y /\ id y = id x /\ active y = active x) /\
  (forall json k, schema_validate msg Daemon.widget_schema = Done None -> cJSON_Parse msg = Done json ->
    Daemon.text_of json "type" ≫= Daemon.kind_of = Some k ->
    (k ∈ [Daemon.KQuit; Daemon.KPing; Daemon.KSubscribe; Daemon.KUnsubscribe; Daemon.KPosition; Daemon.KSession] ->
      exists w s', Daemon.dispatch_message fd run env fresh msg p s = (w, Done (bool_decide (k <> Daemon.KQuit), s'))) /\
    (k = Daemon.KQuery -> Daemon.text_of json "widget_id" = None ->
      Daemon.dispatch_message fd run env fresh msg p s = (Daemon.error_message "Missing widget_id", Done (true, s))) /\
    (k = Daemon.KQuery -> Daemon.use_msgpack s = false -> forall i, Daemon.text_of json "widget_id" = Some i ->
      no_u_escape i = true -> no_u_escape_opt (store_get (store x) i) = true -> Z.of_nat (length (query_line i (store_get (store x) i))) < INT_MAX ->
      Daemon.dispatch_message fd run env fresh msg p s = (query_line i (store_get (store x) i), Done (true, s)))).
Proof.
  intros Hp Hx. split.
  - intros w go s' H. destruct (Messages.spares_dispatch fd run env fresh msg p s w go s' H) as (_ & Ho & Hi). split; [done|]. by apply Hi.
  - intros json k Hv Hj Hk. rewrite (dispatch_control fd run env fresh msg p json k s Hv Hj Hk). split_and!.
    + intros Hin. destruct (control_goes fd env fresh json p k s x Hp Hx Hin) as (w & s' & ->). by exists w, s'.
    + intros -> Hi. unfold Daemon.text_of in Hi. cbn [Daemon.control]. unfold Daemon.handle_query. by rewrite Hi.
    + intros -> Hm i Hi H1 H2 Hl. cbn [Daemon.control]. by rewrite (query_answers json p s x i).
Qed.
Definition two_sessions : Daemon.State YesNo.YesNoData :=
  Daemon.mkState _ [Daemon.session_new "a"; Daemon.session_new "b"] 2 yes_registry [] registry_init None false false 0.
Definition place_message : string := of_chars (quoted "{'type':'position','x':3,'anchor':'top'}").
Definition query_message : string := of_chars (quoted "{'type':'query','widget_id':'user'}").
Lemma messages_isolated_witness : (exists w s',
  Daemon.dispatch_message 7 (Daemon.run_session sort_keys registry_init (fun _ => []) 0 None 2) no_env "c" place_message (Daemon.mkPtr 2 0) two_sessions = (w, Done (true, s')) /\
  Daemon.sessions s' !! 1%nat = Some (Daemon.session_new "b")) /\
  Daemon.dispatch_message 7 (Daemon.run_session sort_keys registry_init (fun _ => []) 0 None 2) no_env "c" query_message (Daemon.mkPtr 2 0) two_sessions =
    (quoted "{'type':'query_response','widget_id':'user','value':null}" ++ [LF], Done (true, two_sessions)).
Proof.
  destruct (messages_isolated 7 (Daemon.run_session sort_keys registry_init (fun _ => []) 0 None 2) no_env "c" place_message (Daemon.mkPtr 2 0) two_sessions (Daemon.session_new "a")) as [H H2]; [reflexivity|reflexivity|].
  split.
  - destruct (H2 (match cJSON_Parse place_message with Done j => j | _ => cJSON_New_Item end) Daemon.KPosition) as ((w & s' & E) & _ & _);
      [vm_compute; reflexivity|vm_compute; reflexivity|vm_compute; reflexivity|apply (bool_decide_unpack _); vm_compute; exact I|].
    exists w, s'. split; [exact E|]. destruct (H w true s' E) as [Ho _]. apply (Ho 1%nat); [discriminate|reflexivity].
  - destruct (messages_isolated 7 (Daemon.run_session sort_keys registry_init (fun _ => []) 0 None 2) no_env "c" query_message (Daemon.mkPtr 2 0) two_sessions (Daemon.session_new "a")) as [_ H3]; [reflexivity|reflexivity|].
    destruct (H3 (match cJSON_Parse query_message with Done j => j | _ => cJSON_New_Item end) Daemon.KQuery) as (_ & _ & Hq);
      [vm_compute; reflexivity|vm_compute; reflexivity|vm_compute; reflexivity|].
    apply (Hq eq_refl eq_refl "user"%string); [vm_compute; reflexivity|vm_compute; reflexivity|vm_compute; reflexivity|vm_compute; reflexivity].
Defined.

(** ** Places *)

Module Place.
Import Daemon.
Lemma read_string_text a rest : NUL ∉ chars a -> read_string (map Some (chars a) ++ Some NUL :: rest) = Done a.
Proof.
  induction a as [|c a IH]; [done|]. intros H. change (chars (String c a)) with (c :: chars a) in *. apply not_elem_of_cons in H as [Hc Ha]. cbn [map app read_string].
  destruct (Ascii.eqb_spec c NUL); [by subst|]. by rewrite IH.
Qed.
Lemma strncpy_text n a dst : (String.length a < n)%nat -> exists rest, strncpy n a dst = map Some (chars a) ++ Some NUL :: rest.
Proof.
  intros Hl. unfold strncpy. rewrite take_app, length_chars. destruct (n - String.length a)%nat eqn:E; [lia|]. rewrite take_ge by (rewrite length_chars; lia).
  destruct n; [lia|]. cbn [repeat take]. rewrite map_app, <-app_assoc. by eexists.
Qed.
(** A string that fits an array of [n] bytes that is never terminated there. *)
Definition fits_in (n : nat) (o : option string) : Prop := match o with Some a => (NUL ∉ chars a) /\ (String.length a < n)%nat | None => True end.
Definition text_place (o : option string) (was : option string) : option string := match o with Some EmptyString | None => was | Some a => Some a end.
Lemma take_text_some c b v was : read_string (Some c :: b) = Done v -> c <> NUL ->
  take_text (Some c :: b) was = Done (Some v, Some NUL :: b).
Proof.
  intros Hr Hc. unfold take_text. assert (first_char (Some c :: b) = Done true) as ->.
  { unfold first_char. cbn. by destruct (Ascii.eqb_spec c NUL). }
  cbn [mbind exec_bind]. by rewrite Hr.
Qed.
Lemma take_text_place json k n b was : fits_in n (text_of json k) -> b !! 0%nat = Some (Some NUL) ->
  exists b', take_text (text_or json k n b) was = Done (text_place (text_of json k) was, b') /\ b' !! 0%nat = Some (Some NUL).
Proof.
  unfold text_or, text_of. destruct (cJSON_GetObjectItem (Some json) k ≫= valuestring) as [a|]; intros Hf Hb.
  - destruct Hf as [Hn Hl]. destruct (strncpy_text n a b Hl) as (rest & ->).
    destruct a as [|c a]; [by eexists|]. pose proof (read_string_text _ rest Hn) as Hread. 
    assert (c <> NUL) as Hc by (intros ->; apply Hn; by left).
    pose proof (take_text_some c (map Some (chars a) ++ Some NUL :: rest) _ was Hread Hc) as Ht. eexists. split; [exact Ht|done].
  - unfold take_text, first_char. rewrite Hb. by eexists.
Qed.
Lemma take_text_none b was : b !! 0%nat = Some (Some NUL) -> take_text b was = Done (was, b).
Proof. intros Hb. unfold take_text, first_char. by rewrite Hb. Qed.

(** A session nobody placed a widget in. *)
Definition no_place (x : Checkpoint.Session) : Prop :=
  widget_position_x x < 0 /\ widget_position_y x < 0 /\ widget_anchor x !! 0%nat = Some (Some NUL) /\ widget_relative_to x !! 0%nat = Some (Some NUL) /\ widget_z_index x = 0.
Definition number_place (json : cJSON) (k : string) (was : Z) : Z := let v := number_or json k (-1) in if 0 <=? v then v else was.
(** The request with the place of the message. *)
Definition placed (json : cJSON) (req : WidgetRequest) : WidgetRequest :=
  {| Protocol.widget := Protocol.widget req; Protocol.params := Protocol.params req; Protocol.step := Protocol.step req; Protocol.total := Protocol.total req;
    Protocol.session_id := Protocol.session_id req; Protocol.tty := Protocol.tty req; Protocol.relay := Protocol.relay req; Protocol.headless := Protocol.headless req;
    Protocol.anchor := text_place (text_of json "anchor") (Protocol.anchor req); Protocol.x := number_place json "x" (Protocol.x req); Protocol.y := number_place json "y" (Protocol.y req);
    Protocol.relative_to := text_place (text_of json "relative_to") (Protocol.relative_to req); Protocol.dx := Protocol.dx req; Protocol.dy := Protocol.dy req;
    Protocol.z_index := (let z := number_or json "z_index" 0 in if z =? 0 then Protocol.z_index req else z);
    Protocol.overflow := Protocol.overflow req; Protocol.tooltip := Protocol.tooltip req; Protocol.tab_index := Protocol.tab_index req; Protocol.draggable := Protocol.draggable req |}.
Lemma number_place_or json k v was : v < 0 -> (if 0 <=? number_or json k v then number_or json k v else was) = number_place json k was.
Proof.
  intros Hv. unfold number_place, number_or. destruct (cJSON_GetObjectItem (Some json) k); [|by rewrite (proj2 (Z.leb_gt _ _) Hv)].
  case_decide; [done|]. by rewrite (proj2 (Z.leb_gt _ _) Hv).
Qed.
Lemma taken v : (if 0 <=? v then -1 else v) < 0.
Proof. case_match; simp_bool; lia. Qed.
Lemma take_nothing {W} p (s : State W) x req : block p = moves s -> sessions s !! index p = Some x -> no_place x ->
  exists x', take_position p req s = ([], Done (req, set_sessions (<[index p := x']> (sessions s)) s)) /\ no_place x'.
Proof.
  intros Hp Hx (H1 & H2 & H3 & H4 & H5). unfold take_position. rewrite Answered.io_step. unfold session_at. rewrite decide_True, Hx by done. cbn [mbind exec_bind at_index].
  rewrite (take_text_none _ _ H3), (take_text_none _ _ H4). rewrite (proj2 (Z.leb_gt _ _) H1), (proj2 (Z.leb_gt _ _) H2), H5.
  eexists. split; [destruct req; cbn; reflexivity|]. by repeat split.
Qed.
(** A place, and then two requests. *)
Definition place_then {W} json p (req req' : WidgetRequest) : io (State W) (WidgetRequest * WidgetRequest) :=
  handle_position json p;; r ← take_position p req; r' ← take_position p req'; mret (r, r').
End Place.

(** A "position" message places the next request and only that one: its
    coordinates, its anchor, the widget it is relative to and its depth replace
    those of the request, as far as the message gives them, and the request
    behind that one is taken as it was sent. *)
Theorem position_applies_once {W} p (s : Daemon.State W) x json req req' :
  Daemon.block p = Daemon.moves s -> Daemon.sessions s !! Daemon.index p = Some x -> Place.no_place x ->
  Place.fits_in 31 (Daemon.text_of json "anchor") -> Place.fits_in 63 (Daemon.text_of json "relative_to") ->
  exists s', Place.place_then json p req req' s =
    (Daemon.ok_message, Done ((Place.placed json req, req'), s')).
Proof.
  intros Hp Hx Hn Ha Hr. pose proof Hn as (H1 & H2 & H3 & H4 & H5).
  set (x1 := mkSession (id x) (store x) (active x) (Daemon.number_or json "x" (widget_position_x x)) (Daemon.number_or json "y" (widget_position_y x))
    (Daemon.text_or json "anchor" 31 (widget_anchor x)) (Daemon.text_or json "relative_to" 63 (widget_relative_to x)) (Daemon.number_or json "z_index" (widget_z_index x))).
  set (s1 := Daemon.set_sessions (<[Daemon.index p := x1]> (Daemon.sessions s)) s).
  assert (Daemon.handle_position json p s = (Daemon.ok_message, Done (tt, s1))) as E1.
  { unfold Daemon.handle_position. rewrite Answered.io_step. unfold Daemon.session_at. by rewrite decide_True, Hx. }
  assert (forall (s : Daemon.State W) y, (Daemon.index p < length (Daemon.sessions s))%nat ->
    Daemon.sessions (Daemon.set_sessions (<[Daemon.index p := y]> (Daemon.sessions s)) s) !! Daemon.index p = Some y) as Hins.
  { intros s0 y Hl. by apply list_lookup_insert_eq. }
  pose proof (lookup_lt_Some _ _ _ Hx) as Hlen. pose proof (Hins s x1 Hlen) as Hx1. fold s1 in Hx1.
  assert (exists x2, Daemon.take_position p req s1 = ([], Done (Place.placed json req, Daemon.set_sessions (<[Daemon.index p := x2]> (Daemon.sessions s1)) s1)) /\ Place.no_place x2) as (x2 & E2 & Hn2).
  { unfold Daemon.take_position. rewrite Answered.io_step. unfold Daemon.session_at. rewrite decide_True, Hx1 by done. cbn [mbind exec_bind at_index].
    unfold x1. cbn [widget_anchor widget_relative_to widget_position_x widget_position_y widget_z_index id store active].
    destruct (Place.take_text_place json "anchor" 31 (widget_anchor x) (Protocol.anchor req) Ha H3) as (ab & -> & Hab).
    destruct (Place.take_text_place json "relative_to" 63 (widget_relative_to x) (Protocol.relative_to req) Hr H4) as (rb & -> & Hrb).
    rewrite H5. eexists. split; [|].
    - unfold Place.placed. rewrite <-(Place.number_place_or json "x" (widget_position_x x)), <-(Place.number_place_or json "y" (widget_position_y x)) by done. cbn. reflexivity.
    - split_and!; cbn; [by apply Place.taken|by apply Place.taken|done|done|done]. }
  set (s2 := Daemon.set_sessions (<[Daemon.index p := x2]> (Daemon.sessions s1)) s1) in *.
  assert (Daemon.sessions s2 !! Daemon.index p = Some x2) as Hx2.
  { apply Hins. unfold s1. cbn [Daemon.sessions Daemon.set_sessions]. by rewrite length_insert. }
  destruct (Place.take_nothing p s2 x2 req' Hp Hx2 Hn2) as (x3 & E3 & _).
  unfold Place.place_then. rewrite Answered.io_step, E1. rewrite Answered.io_step, E2. rewrite Answered.io_step, E3. eexists. cbn. reflexivity.
Qed.
Definition place_json : cJSON := match cJSON_Parse place_message with Done j => j | _ => cJSON_New_Item end.
Definition plain_request : WidgetRequest := request_fields (match cJSON_Parse (of_chars yes_request) with Done j => j | _ => cJSON_New_Item end).
Lemma position_applies_once_witness : exists r s', Place.place_then place_json (Daemon.mkPtr 2 0) plain_request plain_request two_sessions = (Daemon.ok_message, Done ((r, plain_request), s')) /\
  Protocol.x r = 3 /\ Protocol.anchor r = Some "top"%string /\ Protocol.x plain_request = 0.
Proof.
  destruct (position_applies_once (Daemon.mkPtr 2 0) two_sessions (Daemon.session_new "a") place_json plain_request plain_request) as (s' & E); [reflexivity|reflexivity|repeat split| |vm_compute; exact I|].
  - assert (Daemon.text_of place_json "anchor" = Some "top"%string) as -> by (vm_compute; reflexivity). split; [apply (bool_decide_unpack _); reflexivity|cbn; lia].
  - eexists _, s'. split; [exact E|]. repeat split; vm_compute; reflexivity.
Defined.

(** ** The packed form of an answer *)

Module Packed.
Import Daemon.
(** The writer calls for a response. *)
Definition response_ops (resp : WidgetResponse) : list write_op :=
  [OpMap 4; OpStr (str_bytes "type"); OpStr (str_bytes "response"); OpStr (str_bytes "result"); OpStr (map uchar (json_text (Frames.answer_of resp)));
   OpStr (str_bytes "cancelled"); OpBool (cancelled resp); OpStr (str_bytes "error"); match Protocol.error resp with Some e => OpStr (str_bytes e) | None => OpNil end].
Definition byte_char (z : Z) : ascii := ascii_of_N (Z.to_N z).
Lemma put_str_op w s : put_str w s = run_op w (OpStr (str_bytes s)).
Proof. unfold put_str, str_bytes, run_op, strlen. by rewrite length_map, length_chars. Qed.
Lemma write_bool_op w b : msgpack_write_bool w b = run_op w (OpBool b).
Proof. done. Qed.
Lemma write_nil_op w : msgpack_write_nil w = run_op w OpNil.
Proof. done. Qed.
Lemma parsed_response_fields resp :
  cJSON_GetObjectItem (Some (parsed_as None (response_json resp))) "type" ≫= valuestring = Some "response"%string /\
  cJSON_GetObjectItem (Some (parsed_as None (response_json resp))) "result" = Some (Frames.answer_of resp) /\
  (exists c, cJSON_GetObjectItem (Some (parsed_as None (response_json resp))) "cancelled" = Some c /\ bool_decide (CJson.type c = cJSON_True) || negb (valueint c =? 0) = cancelled resp) /\
  cJSON_GetObjectItem (Some (parsed_as None (response_json resp))) "error" ≫= valuestring = Protocol.error resp.
Proof.
  unfold response_json, Frames.answer_of. destruct (Protocol.result resp) as [r|], (Protocol.error resp) as [e|], (cancelled resp); cbn;
    try rewrite cJSON_Duplicate_id; try destruct r as [[] ? ? ? ? ?]; (split; [done|]); (split; [done|]); (split; [by eexists|done]).
Qed.
Lemma pack_response size resp : printable (Frames.answer_of resp) = true -> Z.of_nat (length (json_text (Frames.answer_of resp))) < INT_MAX ->
  pack size (parsed_as None (response_json resp)) = Done (map byte_char (take size (mjoin (map enc_op (response_ops resp))))).
Proof.
  intros Hpr Hlr. unfold pack. cbv zeta.
  destruct (parsed_response_fields resp) as (Et & Er & (c & Ec & Eb) & Ee). rewrite Et, Er, Ec, Ee. rewrite print_text by done. cbn [mbind exec_bind default from_option id].
  rewrite Eb. f_equal. f_equal.
  pose proof (run_ops_push (response_ops resp) (msgpack_writer_init size) ltac:(unfold writer_ok; cbn; lia)) as Hops.
  unfold push in Hops. cbn [wbuf wsize msgpack_writer_init app] in Hops. apply (f_equal wbuf) in Hops. cbn [wbuf] in Hops. rewrite <-Hops. clear.
  unfold run_ops, response_ops. cbn [foldl]. rewrite !put_str_op. generalize (msgpack_writer_init size) as w0. intros w0.
  change (msgpack_write_map_header w0 4) with (run_op w0 (OpMap 4)). rewrite write_bool_op. change (Datatypes.id "response"%string) with "response"%string.
  assert (str_bytes (of_chars (json_text (Frames.answer_of resp))) = map uchar (json_text (Frames.answer_of resp))) as ->.
  { unfold str_bytes. by rewrite list_ascii_of_string_of_list_ascii. }
  destruct (Protocol.error resp) as [e|]; [by rewrite put_str_op|by rewrite write_nil_op].
Qed.
End Packed.

(** Packed answers: with MessagePack agreed on, the daemon writes a response as
    the MessagePack map of its four fields, the result as its JSON text, and of
    that what half a megabyte holds. *)
Theorem packed_response resp : response_ok resp -> printable (Frames.answer_of resp) = true -> Z.of_nat (length (json_text (Frames.answer_of resp))) < INT_MAX ->
  exists text, widget_response_to_json resp = Done text /\
    Daemon.response_bytes true text = Done (map Packed.byte_char (take (Z.to_nat 524288) (mjoin (map enc_op (Packed.response_ops resp))))).
Proof.
  intros (Hp & Hok & Hn & Hl) Hpr Hlr. exists (of_chars (json_text (response_json resp))). split; [by apply print_text|].
  unfold Daemon.response_bytes. cbn [negb]. rewrite parse_json_text by done. by apply Packed.pack_response.
Qed.
Lemma packed_response_witness : exists text, widget_response_to_json yes_answer = Done text /\
  Daemon.response_bytes true text = Done (map Packed.byte_char (mjoin (map enc_op (Packed.response_ops yes_answer)))).
Proof.
  destruct (packed_response yes_answer) as (text & H1 & H2).
  - unfold response_ok. repeat split; vm_compute; first [reflexivity|lia].
  - reflexivity.
  - vm_compute. reflexivity.
  - exists text. split; [exact H1|]. rewrite H2. vm_compute. reflexivity.
Defined.


(** ** The handshake *)

Module Negotiated.
Import Daemon.
Definition common (caps : cJSON) : list string := filter (fun c => c ∈ capabilities) (strings_in (child caps)).
Definition string_items (l : list string) : list cJSON := map (fun c => set_string (Some c) (set_type cJSON_String cJSON_New_Item)) l.
Definition ack (l : list string) : cJSON :=
  cJSON_AddItemToObject (AddInt (cJSON_AddStringToObject cJSON_CreateObject "type" (Some "handshake_ack"%string)) "version" 2) "capabilities"
    (Some (set_child (string_items l) cJSON_CreateArray)).
Lemma add_strings l ch : foldl (fun n c => cJSON_AddItemToArray n (cJSON_CreateString (Some c))) (set_child ch cJSON_CreateArray) l = set_child (ch ++ string_items l) cJSON_CreateArray.
Proof.
  revert ch. induction l as [|c l IH]; intros ch; [by rewrite app_nil_r|]. cbn [foldl].
  change (cJSON_AddItemToArray (set_child ch cJSON_CreateArray) (cJSON_CreateString (Some c))) with (set_child (ch ++ string_items [c]) cJSON_CreateArray). rewrite IH. by rewrite <-app_assoc.
Qed.
Lemma known_printable l : Forall (fun c => c ∈ capabilities) l -> forallb printable (string_items l) = true /\ forallb json_ok (string_items l) = true.
Proof.
  assert (Forall (fun c => no_u_escape c = true /\ no_nul c = true) capabilities) as Hc by (repeat (apply List.Forall_cons; [split; reflexivity|]); constructor).
  rewrite list.Forall_forall in Hc. induction 1 as [|c l Hin _ [IH1 IH2]]; [done|]. destruct (Hc c Hin) as [H1 H2]. unfold string_items in *. cbn. by rewrite H1, H2, IH1, IH2.
Qed.
Lemma common_known caps : Forall (fun c => c ∈ capabilities) (common caps).
Proof. apply list.Forall_forall. by intros c [Hc _]%list_elem_of_filter. Qed.
Lemma ack_ok l : Forall (fun c => c ∈ capabilities) l -> printable (ack l) = true /\ json_ok (ack l) = true /\ (nesting (ack l) <= 1000)%nat.
Proof.
  intros H. destruct (known_printable l H) as [H1 H2]. assert (list_max (map nesting (string_items l)) = 0%nat) as H3 by (clear; by induction l).
  split_and!.
  - change (forallb printable (string_items l) && true = true). by rewrite H1.
  - change (forallb json_ok (string_items l) && true = true). by rewrite H2.
  - change (S (Nat.max (S (list_max (map nesting (string_items l)))) 0) <= 1000)%nat. rewrite H3. cbn. lia.
Qed.
Lemma ack_read l : strings_in (from_option child [] (cJSON_GetObjectItem (Some (parsed_as None (ack l))) "capabilities")) = l.
Proof.
  change (omap valuestring (map (parsed_as None) (string_items l)) = l). induction l as [|c l IH]; [done|].
  change (omap valuestring (map (parsed_as None) (string_items (c :: l)))) with (c :: omap valuestring (map (parsed_as None) (string_items l))). by rewrite IH.
Qed.
Lemma asks_spec caps : asks_for_streaming caps = bool_decide ("streaming"%string ∈ strings_in (child caps)).
Proof.
  apply eq_true_iff_eq. unfold asks_for_streaming. rewrite existsb_exists, bool_decide_eq_true. split.
  - intros (c & Hc & Hs). apply bool_decide_eq_true in Hs. subst c. by apply list_elem_of_In.
  - intros Hc. exists "streaming"%string. split; [by apply list_elem_of_In|by apply bool_decide_eq_true].
Qed.
End Negotiated.

(** A handshake settles on what both sides know: of the capabilities the client
    lists, those of the daemon are named back, in the client's order, in a line
    the client reads them from, and the encoding and the streaming of the
    connection are what was asked for. *)
Theorem handshake_settles {W} msg json caps (s : Daemon.State W) :
  cJSON_Parse (of_chars msg) = Done json -> Daemon.text_of json "type" = Some "handshake"%string -> cJSON_GetObjectItem (Some json) "capabilities" = Some caps ->
  CJson.type caps = cJSON_Array -> Z.of_nat (length (json_text (Negotiated.ack (Negotiated.common caps)))) < INT_MAX ->
  exists line i, Daemon.handshake msg s = (chars line ++ [LF], Done (true,
      Daemon.set_flags (bool_decide (Daemon.text_of json "encoding" = Some "msgpack"%string)) (bool_decide ("streaming"%string ∈ Daemon.strings_in (child caps))) s)) /\
    cJSON_Parse line = Done i /\
    Daemon.strings_in (from_option child [] (cJSON_GetObjectItem (Some i) "capabilities")) = filter (fun c => c ∈ Daemon.capabilities) (Daemon.strings_in (child caps)).
Proof.
  intros Hparse Htype Hcaps Harr Hlen. destruct (Negotiated.ack_ok _ (Negotiated.common_known caps)) as (Hp & Hok & Hn).
  exists (of_chars (json_text (Negotiated.ack (Negotiated.common caps)))), (parsed_as None (Negotiated.ack (Negotiated.common caps))).
  split; [|split; [by apply parse_json_text|by apply Negotiated.ack_read]].
  unfold Daemon.handshake. rewrite Answered.io_step. unfold Daemon.modify at 1. cbn iota. rewrite Hparse, decide_True by done.
  rewrite Answered.io_step. unfold Daemon.modify at 1. cbn iota. rewrite Hcaps. rewrite Answered.io_step.
  unfold Daemon.send_negotiated_capabilities. unfold cJSON_IsArray, type_is. rewrite bool_decide_true by done.
  change cJSON_CreateArray with (set_child [] cJSON_CreateArray). rewrite Negotiated.add_strings. cbn [app]. fold (Negotiated.common caps).
  rewrite Answered.io_step. unfold Daemon.lift. change (cJSON_AddItemToObject _ "capabilities" _) with (Negotiated.ack (Negotiated.common caps)).
  rewrite print_text by done. rewrite <-Negotiated.asks_spec. generalize (of_chars (json_text (Negotiated.ack (Negotiated.common caps)))) as line. intros line.
  cbn. rewrite Answered.io_step. cbn. by rewrite app_nil_r.
Qed.
Definition hello : list ascii := quoted "{'type':'handshake','encoding':'msgpack','capabilities':['streaming','teleport','grid']}".
Lemma handshake_settles_witness : exists line, fst (Daemon.handshake hello two_sessions) = chars line ++ [LF] /\
  (match cJSON_Parse line with Done i => Daemon.strings_in (from_option child [] (cJSON_GetObjectItem (Some i) "capabilities")) | _ => [] end) = ["streaming"; "grid"]%string.
Proof.
  destruct (handshake_settles hello (match cJSON_Parse (of_chars hello) with Done j => j | _ => cJSON_New_Item end)
    (match cJSON_Parse (of_chars hello) with Done j => default cJSON_New_Item (cJSON_GetObjectItem (Some j) "capabilities") | _ => cJSON_New_Item end) two_sessions) as (line & i & E & Hi & Hs).
  - vm_compute. reflexivity.
  - vm_compute. reflexivity.
  - vm_compute. reflexivity.
  - vm_compute. reflexivity.
  - vm_compute. reflexivity.
  - exists line. split; [by rewrite E|]. rewrite Hi, Hs. vm_compute. reflexivity.
Defined.

(** ** What goes wrong *)

(** A message with a type the daemon does not know, and no widget: its name is
    compared with that of the first factory, through NULL. *)
Definition yes_run := Daemon.run_session sort_keys registry_init (fun _ => []) 0 None 2 (W := YesNo.YesNoData).
Lemma unknown_type_faults :
  snd (Daemon.handle_client 7 yes_run no_env (fun _ => Daemon.Opened None) "1" "2" (quoted "{'type':'hello'}" ++ [LF]) yes_daemon) = Fault NullDeref.
Proof. vm_compute. reflexivity. Qed.
(** Each connection sets the flags of all: one that asked for packed answers is
    answered in JSON once another has come. *)
Definition packs_after (msgs : list (list ascii)) : option bool :=
  (fix go msgs s := match msgs with
    | [] => Some (Daemon.use_msgpack s)
    | m :: msgs' => match snd (Daemon.handshake m s) with Done (_, s') => go msgs' s' | _ => None end
    end) msgs two_sessions.
Lemma encoding_is_shared : packs_after [hello] = Some true /\ packs_after [hello; yes_request] = Some false.
Proof. split; vm_compute; reflexivity. Qed.
(** Thirty-one characters leave the last byte of the anchor unwritten, and it is read. *)
Definition long_place : cJSON := cJSON_AddStringToObject cJSON_CreateObject "anchor" (Some (of_chars (repeat "a"%char 31))).
Lemma long_anchor_faults : snd (Place.place_then long_place (Daemon.mkPtr 2 0) plain_request plain_request two_sessions) = Fault Indeterminate.
Proof. vm_compute. reflexivity. Qed.
(** A session made by a message moves the table: the pointer the connection keeps
    for its next message is then into freed memory. *)
Definition create_message : string := of_chars (quoted "{'type':'session','action':'create'}").
Definition twice (p : Daemon.pointer) : Daemon.io (Daemon.State YesNo.YesNoData) bool :=
  fun s => match Daemon.dispatch_message 7 yes_run no_env "c" create_message p s with
    | (_, Done (_, s')) => Daemon.dispatch_message 7 yes_run no_env "d" place_message p s'
    | (w, Fail) => (w, Fail)
    | (w, Fault f) => (w, Fault f)
    end.
Lemma create_moves_sessions : snd (twice (Daemon.mkPtr 2 0) two_sessions) = Fault UseAfterFree.
Proof. vm_compute. reflexivity. Qed.

(** ** Accepting connections *)

Module Accept.

Inductive DeviceProfile := PROFILE_SSH | PROFILE_LOCAL_TTY | PROFILE_WAYLAND | PROFILE_X11 | PROFILE_HEADLESS.
(** From what the environment names and whether both ends are a terminal. *)
Definition detect_device_profile (getenv : string -> option string) (stdin_tty stdout_tty : bool) : DeviceProfile :=
  let set v := match getenv v with Some _ => true | None => false end in
  if set "SSH_TTY"%string || set "SSH_CLIENT"%string || set "SSH_CONNECTION"%string then PROFILE_SSH
  else if set "WAYLAND_DISPLAY"%string then PROFILE_WAYLAND
  else if set "DISPLAY"%string then PROFILE_X11
  else if stdin_tty && stdout_tty then PROFILE_LOCAL_TTY
  else PROFILE_HEADLESS.

Record Loop := mkLoop { conn_count_this_second : Z; last_second : Z; conn_count : Z }.
Definition loop_start (now : Z) : Loop := mkLoop 0 now 0.
Definition max_conn (configured : Z) : Z := if 0 <? configured then configured else 10.
(** What a round of the loop does with the connection that is waiting: it sleeps
    and leaves it waiting, refuses it because it is another user's, or serves it,
    and after every tenth one writes the checkpoint. *)
Inductive Action := Sleeps | Refuses (m : list ascii) | Serves (checkpoint : bool).
Definition round (limit : Z) (now : Z) (same_user : bool) (l : Loop) : Action * Loop :=
  let l := if now =? last_second l then l else mkLoop 0 now (conn_count l) in
  if limit <=? conn_count_this_second l then (Sleeps, l) else
  let n := conn_count_this_second l + 1 in
  if same_user then
    let c := conn_count l + 1 in (Serves (cmod c 10 =? 0), mkLoop n (last_second l) c)
  else (Refuses (Daemon.error_message "Permission denied: UID mismatch"), mkLoop n (last_second l) (conn_count l)).
Fixpoint rounds (limit : Z) (ins : list (Z * bool)) (l : Loop) : list Action * Loop :=
  match ins with
  | [] => ([], l)
  | (now, u) :: ins' => let '(a, l) := round limit now u l in let '(al, l) := rounds limit ins' l in (a :: al, l)
  end.
Definition accepted (a : Action) : bool := match a with Sleeps => false | _ => true end.
Definition count_accepted (al : list Action) : Z := Z.of_nat (length (filter (fun a => accepted a = true) al)).

Lemma rounds_second limit t : 0 < limit -> forall us l, last_second l = t -> 0 <= conn_count_this_second l ->
  let '(al, l') := rounds limit (map (fun u => (t, u)) us) l in
  conn_count_this_second l' = conn_count_this_second l + count_accepted al /\ count_accepted al <= Z.max 0 (limit - conn_count_this_second l) /\ last_second l' = t.
Proof.
  intros Hm. unfold count_accepted. induction us as [|u us IH]; intros l Ht Hc; cbn [map rounds]; [cbn; lia|].
  unfold round. rewrite (proj2 (Z.eqb_eq t (last_second l))) by done. destruct (limit <=? conn_count_this_second l) eqn:E; simp_bool.
  - specialize (IH l Ht Hc). destruct (rounds _ _ l) as [al l']. by rewrite filter_cons, decide_False by done.
  - set (l1 := mkLoop (conn_count_this_second l + 1) (last_second l) (if u then conn_count l + 1 else conn_count l)).
    specialize (IH l1 Ht ltac:(cbn; lia)). assert (forall (a : Action), accepted a = true ->
      let '(al, l') := (let '(al, l2) := rounds limit (map (fun u0 => (t, u0)) us) l1 in (a :: al, l2)) in
      conn_count_this_second l' = conn_count_this_second l + Z.of_nat (length (filter (fun a => accepted a = true) al)) /\
      Z.of_nat (length (filter (fun a => accepted a = true) al)) <= Z.max 0 (limit - conn_count_this_second l) /\ last_second l' = t) as Hstep.
    { intros a Ha. destruct (rounds _ _ l1) as [al l']. rewrite filter_cons, decide_True by done. cbn [length]. cbn [conn_count_this_second l1] in IH. lia. }
    destruct u; cbn [l1] in Hstep; by apply Hstep.
Qed.
End Accept.

(** However many connections come, in one second the daemon takes no more of
    them than it is configured to, ten when it is not, whoever they are from and
    whatever it did before. *)
Theorem connections_limited configured t us l : 0 <= Accept.conn_count_this_second l ->
  Accept.count_accepted (fst (Accept.rounds (Accept.max_conn configured) (map (fun u => (t, u)) us) l)) <= Accept.max_conn configured.
Proof.
  intros Hc. assert (0 < Accept.max_conn configured) as Hm by (unfold Accept.max_conn; case_match; simp_bool; lia).
  destruct us as [|u us]; [unfold Accept.count_accepted; cbn; lia|].
  set (l0 := if t =? Accept.last_second l then l else Accept.mkLoop 0 t (Accept.conn_count l)).
  assert (Accept.last_second l0 = t /\ 0 <= Accept.conn_count_this_second l0) as [H1 H2].
  { unfold l0. destruct (t =? Accept.last_second l) eqn:E; simp_bool; cbn; split; (done || lia). }
  assert (Accept.rounds (Accept.max_conn configured) (map (fun u => (t, u)) (u :: us)) l = Accept.rounds (Accept.max_conn configured) (map (fun u => (t, u)) (u :: us)) l0) as ->.
  { cbn [map Accept.rounds]. assert (Accept.round (Accept.max_conn configured) t u l = Accept.round (Accept.max_conn configured) t u l0) as ->; [|done].
    unfold Accept.round. fold l0. by rewrite (proj2 (Z.eqb_eq t (Accept.last_second l0))). }
  pose proof (Accept.rounds_second (Accept.max_conn configured) t Hm (u :: us) l0 H1 H2) as H.
  destruct (Accept.rounds _ _ l0) as [al l']. cbn [fst]. lia.
Qed.
Lemma connections_limited_witness : Accept.count_accepted (fst (Accept.rounds (Accept.max_conn 0) (map (fun u => (5, u)) (repeat true 25)) (Accept.loop_start 4))) <= 10.
Proof. apply (connections_limited 0 5 (repeat true 25) (Accept.loop_start 4)). vm_compute. discriminate. Defined.
