(* ===== verification/Codegen.v ===== *)
(** The code generator of src/src/builder/codegen.c: the script in the language
    FIL that the edges of a project stand for, its check by running it, and the
    C file and the Makefile of a plugin.

    The buffer of the script is its capacity and the bytes in it; sizes are
    unbounded integers. Which files can be opened is an argument; what is written
    is the list of files with their contents. *)

From S2P Require Import Prelude RenderTree Project Fil.

(** ** Results *)

Module Codegen.

Definition LF : ascii := "010".
Definition TAB : ascii := "009".
Record CodegenResult := mkResult { errors : list string; warnings : list string }.
Definition no_result : CodegenResult := mkResult [] [].
Definition add_error (r : CodegenResult) (msg : string) : CodegenResult := mkResult (errors r ++ [msg]) (warnings r).
Definition add_warning (r : CodegenResult) (msg : string) : CodegenResult := mkResult (errors r) (warnings r ++ [msg]).

(** ** The script *)

(** [l[i]] after the test [i < 0 || i >= count]. *)
Definition in_range {A} (l : list A) (i : Z) : option A := if i <? 0 then None else l !! Z.to_nat i.
(** Lines and their ends. *)
Definition lines (l : list (list ascii)) : list ascii := concat (map (fun s => s ++ [LF]) l).

Record Wire := mkWire { source : GraphNode; source_port : PortDef; target : GraphNode; target_port : PortDef }.
(** The ends of an edge, unless it is skipped. *)
Definition wire (p : BuilderProject) (e : ConnectionEdge) : option Wire :=
  src ← in_range (nodes p) (from_node e);
  dst ← in_range (nodes p) (to_node e);
  src_port ← in_range (ports src) (from_port e);
  dst_port ← in_range (ports dst) (to_port e);
  if (negb (is_output src_port) || is_output dst_port)%bool then None else Some (mkWire src src_port dst dst_port).

Definition key_name (n : GraphNode) : string := default "unknown"%string (store_key n).
Definition is_node (t : Z) (n : GraphNode) : bool := node_type n =? t.
Definition named (s : string) (p : PortDef) : bool := bool_decide (port_name p = s).
Definition when_widget (w : Wire) (body : list ascii) : list ascii :=
  lines [chars ("when widget." +:+ label (source w) +:+ "." +:+ port_name (source_port w) +:+ " then"); body; chars "end"; []].
Definition when_store (w : Wire) (body : list ascii) : list ascii :=
  lines [chars ("when store." +:+ key_name (source w) +:+ " changes then"); body; chars "end"; []].
Definition when_animated (w : Wire) (body : list ascii) : list ascii :=
  lines [chars ("when widget." +:+ label (source w) +:+ ".animation_end then"); body; chars "end"; []].
Definition connected (w : Wire) : list ascii := chars ("  -- connected to " +:+ label (target w) +:+ "." +:+ port_name (target_port w)).

Definition block (w : Wire) : list ascii :=
  let '(mkWire src src_port dst dst_port) := w in
  if is_node NODE_WIDGET src && (port_type src_port =? PORT_TRIGGER) then
    if is_node NODE_STORE dst && named "set" dst_port then
      when_widget w (chars ("  set store." +:+ key_name dst +:+ " to value of " +:+ label src))
    else if is_node NODE_WIDGET dst && named "set_visible" dst_port then
      when_widget w (chars ("  show widget." +:+ label dst))
    else if is_node NODE_WIDGET dst && named "play_animation" dst_port then
      when_widget w (quoted "  animate '" ++ chars (label dst) ++ quoted "' with 'fadeIn'")
    else when_widget w (connected w)
  else if is_node NODE_STORE src && named "value" src_port then
    if is_node NODE_WIDGET dst && named "set_value" dst_port then
      when_store w (chars ("  set value of " +:+ label dst +:+ " to store." +:+ key_name src))
    else when_store w (connected w)
  else if is_node NODE_WIDGET src && named "animation_end" src_port then
    if is_node NODE_STORE dst && named "set" dst_port then
      when_animated w (chars ("  set store." +:+ key_name dst +:+ " to ") ++ quoted "'1'")
    else when_animated w (connected w)
  else lines [chars ("-- Edge: " +:+ label src +:+ "." +:+ port_name src_port +:+ " -> " +:+ label dst +:+ "." +:+ port_name dst_port); []].

(** *** The growing buffer *)

Record Out := mkOut { cap : Z; out : list ascii }.
Definition len (o : Out) : Z := Z.of_nat (length (out o)).
Definition reserve (n extra : Z) (o : Out) : Out := if cap o <? len o + n + extra then mkOut (cap o * 2 + n) (out o) else o.
(** The bytes and a terminator behind them. *)
Definition put (l : list ascii) (o : Out) : exec Out :=
  if len o + Z.of_nat (length l) + 1 <=? cap o then Done (mkOut (cap o) (out o ++ l)) else Fault OutOfBounds.

(** [snprintf] into a block of 1024 bytes; a longer text is dropped. *)
Definition fits (b : list ascii) : bool := (0 <? length b)%nat && (Z.of_nat (length b) <? 1024).
Definition emit_edge (p : BuilderProject) (e : ConnectionEdge) (o : Out) : exec Out :=
  match wire p e with
  | None => Done o
  | Some w =>
      let b := block w in
      if fits b then put b (reserve (Z.of_nat (length b)) 1 o) else Done o
  end.
Fixpoint emit_edges (p : BuilderProject) (l : list ConnectionEdge) (o : Out) : exec Out :=
  match l with [] => Done o | e :: l' => o ← emit_edge p e o; emit_edges p l' o end.

Definition script_of (n : GraphNode) : option string := if is_node NODE_FIL_BLOCK n then fil_script n else None.
Definition emit_script (s : string) (o : Out) : exec Out :=
  o ← put (chars s) (reserve (strlen s) 3 o);
  c ← at_index (in_range (out o) (len o - 1));
  o ← (if Ascii.eqb c LF then Done o else put [LF] o : exec Out);
  put [LF] o.
Fixpoint emit_scripts (l : list GraphNode) (o : Out) : exec Out :=
  match l with
  | [] => Done o
  | n :: l' => o ← match script_of n with Some s => emit_script s o | None => Done o end; emit_scripts l' o
  end.
Definition codegen_fil_script (p : option BuilderProject) : exec (list ascii) :=
  match p with
  | None => Done []
  | Some p => o ← emit_edges p (edges p) (mkOut 4096 []); o ← emit_scripts (nodes p) o; Done (out o)
  end.

(** ** The check *)

Section validate.
Context (regcomp : string -> bool) (regexec : string -> string -> bool).
Definition run_script (s : list ascii) : exec FilResult := fil_eval regcomp regexec None (of_chars s).
Definition codegen_validate (p : option BuilderProject) : exec CodegenResult :=
  match p with
  | None => Done (add_error no_result "Project is NULL")
  | Some q =>
      let r := match items q with [] => add_warning no_result "Project has no widgets" | _ => no_result end in
      fil ← codegen_fil_script p;
      match fil with
      | [] => Done r
      | _ => fr ← run_script fil; Done (match r_error_msg fr with Some m => add_error r m | None => r end)
      end
  end.
End validate.
(** ** The plugin *)

Record Generated := mkGenerated { result : CodegenResult; directory : option string; files : list (string * list ascii) }.

Definition src_line (s : string) : list ascii := quoted s ++ [LF].
Definition name_line (before name after : string) : list ascii := quoted before ++ chars name ++ quoted after ++ [LF].

Definition includes : list ascii := concat (map src_line [
  "#include 'core/widget.h'"; "#include 'core/widget_base.h'"; "#include 'core/render.h'"; "#include 'core/session.h'";
  "#include 'core/store.h'"; "#include 'core/arena.h'"; "#include 'core/theme.h'"; "#include 'core/animation.h'"; "#include 'script/fil.h'";
  "#include <stdlib.h>"; "#include <string.h>"; ""]%string).
Definition script_literal (fil : list ascii) : list ascii :=
  src_line "static const char *fil_script =" ++ quoted "    '" ++ fil ++ quoted "';" ++ [LF; LF].
Definition data_type (name : string) : list ascii := concat (map src_line [
  "typedef struct {"; "    WidgetBase base;"; "    RenderTree *layout;"; "    Arena *arena;"; "    Theme *theme;"; "    Store *store;"]%string)
  ++ name_line "} " name "Data;" ++ [LF].

Definition child_text (idx : Z) (item : CanvasItem) : list ascii :=
  let child := chars "    children[" ++ int_chars idx in
  let r := item_rect item in
  child ++ src_line "].type = RNODE_TEXT;" ++
  child ++ src_line ("].rect = rect_new(" +:+ int_string (rx r) +:+ ", " +:+ int_string (ry r) +:+ ", " +:+ int_string (rw r) +:+ ", " +:+ int_string (rh r) +:+ ");") ++
  child ++ src_line "].resolved_style = widgetstyle_default();" ++
  child ++ src_line "].resolved_style.font_size = 14;" ++
  child ++ quoted "].text.content = arena_strdup(arena, '" ++ chars (instance_name item) ++ src_line "');".
(** The loop over the items, with the number of children so far. *)
Fixpoint children_text (idx : Z) (l : list CanvasItem) : list ascii :=
  match l with
  | [] => []
  | item :: l' => if parent_id item =? -1 then child_text idx item ++ children_text (idx + 1) l' else children_text idx l'
  end.
Definition top_level (l : list CanvasItem) : Z := Z.of_nat (length (filter (fun i => parent_id i = -1) l)).
Definition build_layout (p : BuilderProject) : list ascii :=
  concat (map src_line [
    "static RenderTree *build_layout(Arena *arena, Theme *theme) {";
    "    RenderTree *root = arena_alloc(arena, sizeof(RenderTree));";
    "    memset(root, 0, sizeof(*root));";
    "    root->type = RNODE_CONTAINER;";
    "    root->rect = rect_new(0, 0, " +:+ int_string (root_width p) +:+ ", " +:+ int_string (root_height p) +:+ ");";
    "    root->resolved_style = widgetstyle_default();";
    "    root->container.padding = edgeinsets_zero();"; "";
    "    RenderTree *children = arena_alloc(arena, " +:+ int_string (top_level (items p)) +:+ " * sizeof(RenderTree));"]%string) ++
  children_text 0 (items p) ++
  concat (map src_line [
    "    root->container.children = children;";
    "    root->container.child_count = " +:+ int_string (top_level (items p)) +:+ ";";
    "    return root;"; "}"; ""]%string).
Definition render_function (name : string) : list ascii :=
  name_line "static void " name "_render(Widget *self, Rect area, RenderTree *out) {" ++
  quoted "    " ++ chars name ++ name_line "Data *d = (" name "Data *)(self + 1);" ++
  concat (map src_line [
    "    arena_reset(d->arena);";
    "    RenderTree *layout = build_layout(d->arena, d->theme);";
    "    resolve_node_styles(layout, d->theme);";
    "    *out = *layout;"; "}"; ""]%string).
Definition handle_function (name : string) : list ascii :=
  name_line "static EventResult " name "_handle_event(Widget *self, Event *ev, Backend *backend) {" ++
  quoted "    " ++ chars name ++ name_line "Data *d = (" name "Data *)(self + 1);" ++
  concat (map src_line [
    "    if (ev->type == EVENT_KEY && ev->code == KEY_ESC)";
    "        return event_result_response((WidgetResponse){NULL, true});";
    "    FilResult *fr = fil_eval(fil_script, store_get_safe, NULL);";
    "    if (fr && !fr->accepted) {";
    "        EventResult er = event_result_response((WidgetResponse){NULL, true, fr->error_msg});";
    "        fil_result_free(fr);";
    "        return er;";
    "    }";
    "    if (fr) fil_result_free(fr);";
    "    return event_result_unhandled();"; "}"; ""]%string).
Definition destroy_function (name : string) : list ascii :=
  name_line "static void " name "_destroy(Widget *self) {" ++
  quoted "    " ++ chars name ++ name_line "Data *d = (" name "Data *)(self + 1);" ++
  concat (map src_line [
    "    if (d->arena) arena_free(d->arena);";
    "    if (d->theme) theme_free(d->theme);";
    "    if (d->store) store_free(d->store);"; "}"; ""]%string).
Definition new_function (name : string) : list ascii :=
  name_line "Widget *" name "_new(void) {" ++
  name_line "    Widget *w = calloc(1, sizeof(Widget) + sizeof(" name "Data));" ++
  quoted "    " ++ chars name ++ name_line "Data *d = (" name "Data *)(w + 1);" ++
  concat (map src_line [
    "    d->base.dirty = true;";
    "    d->arena = arena_new(1024 * 1024);";
    "    d->theme = theme_default();";
    "    d->store = store_new();"]%string) ++
  quoted "    widget_base_init(w, d, sizeof(" ++ chars name ++ quoted "Data), " ++ chars name ++ quoted "_render, " ++ chars name ++
    name_line "_handle_event, " name "_destroy);" ++
  concat (map src_line ["    return w;"; "}"; ""]%string).
Definition register_function (name : string) : list ascii :=
  src_line "void register_plugins(void (*reg)(const char *, WidgetFactory)) {" ++
  quoted "    reg('" ++ chars name ++ name_line "', " name "_new);" ++ src_line "}".
Definition makefile (name : string) : list ascii :=
  concat (map src_line [
    "CC = gcc"; "CFLAGS = -std=c99 -Wall -O2 -fPIC -I$(FILLY_DIR)/src"; "LDFLAGS = -shared -lsodium -lm"]%string) ++
  name_line "OBJ = " name ".o" ++ [LF] ++ chars name ++ src_line ".so: $(OBJ)" ++
  concat (map (fun s => s ++ [LF]) [
    TAB :: chars "$(CC) $(CFLAGS) $(LDFLAGS) -o $@ $^"; []; chars "%.o: %.c"; TAB :: chars "$(CC) $(CFLAGS) -c $<"; []; chars "clean:"; TAB :: chars "rm -f *.o *.so"]).

Definition plugin_source (p : BuilderProject) (fil : list ascii) : list ascii :=
  let name := project_name p in
  includes ++ script_literal fil ++ data_type name ++ build_layout p ++ render_function name ++ handle_function name ++
  destroy_function name ++ new_function name ++ register_function name.

(** [snprintf] into 1024 bytes. *)
Definition path_of (dir file : string) : string := strtake 1023 (dir +:+ "/" +:+ file).
Definition codegen_c_plugin (fopen : string -> bool) (p : option BuilderProject) (output_dir : option string) : exec Generated :=
  match p, output_dir with
  | Some q, Some dir =>
      let path_c := path_of dir (project_name q +:+ ".c") in
      let path_make := path_of dir "Makefile" in
      if fopen path_c then
        fil ← codegen_fil_script p;
        Done (mkGenerated no_result (Some dir)
          ((path_c, plugin_source q fil) :: (if fopen path_make then [(path_make, makefile (project_name q))] else [])))
      else Done (mkGenerated (add_error no_result "Cannot create output C file") (Some dir) [])
  | _, _ => Done (mkGenerated (add_error no_result "Invalid project or output directory") None [])
  end.
End Codegen.
Import Codegen.

(** ** The buffer is large enough *)

Definition roomy (o : Out) : Prop := 4096 <= cap o /\ len o + 1 <= cap o.
(** The script is [l] then. *)
Definition holds (l : list ascii) (m : exec Out) : Prop := exists o, m = Done o /\ roomy o /\ out o = l.

Lemma put_fits l o : 4096 <= cap o -> len o + Z.of_nat (length l) + 1 <= cap o -> put l o = Done (mkOut (cap o) (out o ++ l)).
Proof. unfold put. intros _ H. by rewrite (proj2 (Z.leb_le _ _) H). Qed.
Lemma reserve_roomy n extra o : roomy o -> 0 <= n -> 1 <= extra <= 3 ->
  out (reserve n extra o) = out o /\ 4096 <= cap (reserve n extra o) /\ len o + n + extra <= cap (reserve n extra o).
Proof.
  unfold reserve, roomy, len. intros [? ?] ? ?. destruct (Z.ltb_spec (cap o) (Z.of_nat (length (out o)) + n + extra)); cbn [out cap]; repeat split; lia.
Qed.
Lemma reserve_put l extra o : roomy o -> 1 <= extra <= 3 ->
  exists c, put l (reserve (Z.of_nat (length l)) extra o) = Done (mkOut c (out o ++ l)) /\ 4096 <= c /\ len o + Z.of_nat (length l) + extra <= c.
Proof.
  intros Hr He. destruct (reserve_roomy (Z.of_nat (length l)) extra o Hr) as (Ho & Hm & Hc); [lia|done|]. exists (cap (reserve (Z.of_nat (length l)) extra o)).
  rewrite put_fits, Ho; [done|done|]. unfold len in *. rewrite Ho. lia.
Qed.

(** ** The text of the script *)

Definition kept_block (p : BuilderProject) (e : ConnectionEdge) : option (list ascii) :=
  w ← wire p e; if fits (block w) then Some (block w) else None.
Definition kept_blocks (p : BuilderProject) : list (list ascii) := omap (kept_block p) (edges p).
Definition ends_line (l : list ascii) : bool := match rev l with c :: _ => Ascii.eqb c LF | [] => true end.
Definition script_text (s : string) : list ascii := chars s ++ (if ends_line (chars s) then [] else [LF]) ++ [LF].
Definition project_scripts (p : BuilderProject) : list string := omap script_of (nodes p).

Lemma emit_edge_kept p e o : emit_edge p e o = match kept_block p e with Some b => put b (reserve (Z.of_nat (length b)) 1 o) | None => Done o end.
Proof. unfold emit_edge, kept_block. destruct (wire p e) as [w|]; [|done]. cbn [mbind option_bind]. by destruct (fits (block w)). Qed.
Lemma emit_edges_text p l o : roomy o -> holds (out o ++ concat (omap (kept_block p) l)) (emit_edges p l o).
Proof.
  revert o. induction l as [|e l IH]; intros o Hr; [exists o; cbn; by rewrite app_nil_r|].
  cbn [emit_edges omap list_omap]. rewrite emit_edge_kept. destruct (kept_block p e) as [b|]; cbn [mbind exec_bind]; [|by apply IH].
  destruct (reserve_put b 1 o) as (c & -> & H1 & H2); [done|lia|]. cbn [mbind exec_bind concat]. rewrite app_assoc. apply (IH (mkOut c _)).
  unfold roomy, len in *. cbn [out cap]. rewrite length_app. lia.
Qed.

Lemma ends_line_app a b : (b <> [] -> ends_line b = true) -> ends_line a = true -> ends_line (a ++ b) = true.
Proof.
  unfold ends_line. rewrite rev_app_distr. destruct (rev b) eqn:E; [done|]. intros Hb _. apply Hb. by intros ->.
Qed.
Lemma ends_line_chars l s : ends_line l = true -> ends_line (l ++ chars s) = ends_line (chars s).
Proof. unfold ends_line. rewrite rev_app_distr. by destruct (rev (chars s)). Qed.
Lemma last_char (l : list ascii) : l <> [] -> exists c, in_range l (Z.of_nat (length l) - 1) = Some c /\ Ascii.eqb c LF = ends_line l.
Proof.
  induction l as [|c l _] using rev_ind; [done|]. intros _. exists c. unfold ends_line, in_range. rewrite rev_app_distr, length_app. cbn [rev app length]. split; [|done].
  rewrite (proj2 (Z.ltb_ge _ _)) by lia. apply lookup_length_app. lia.
Qed.

(** The first byte of the buffer is preceded by none. *)
Lemma emit_empty c : 4096 <= c -> emit_script EmptyString (mkOut c []) = Fault OutOfBounds.
Proof.
  intros Hc. destruct (reserve_put [] 3 (mkOut c [])) as (c' & E & _); [unfold roomy, len; cbn; lia|lia|]. unfold emit_script.
  change (chars EmptyString) with (@nil ascii). change (strlen EmptyString) with (Z.of_nat (length (@nil ascii))). by rewrite E.
Qed.
Lemma emit_script_text s o : roomy o -> ends_line (out o) = true -> out o ++ chars s <> [] -> holds (out o ++ script_text s) (emit_script s o).
Proof.
  intros Hr Hl Hn. unfold emit_script, strlen. rewrite <-length_chars.
  destruct (reserve_put (chars s) 3 o) as (c & -> & H1 & H2); [done|lia|]. cbn [mbind exec_bind out].
  destruct (last_char _ Hn) as (x & Hx & Hc). unfold len in *. cbn [out]. rewrite Hx. cbn [at_index mbind exec_bind]. rewrite Hc, ends_line_chars by done.
  unfold script_text, holds. destruct (ends_line (chars s)); cbn [mbind exec_bind app].
  - eexists. rewrite put_fits; cbn [out cap]; [|done|unfold len; cbn [out]; rewrite length_app; cbn [length]; lia].
    split; [done|]. unfold roomy, len. cbn [out cap]. rewrite !length_app, <-app_assoc. cbn [length]. split; [lia|done].
  - eexists. rewrite put_fits; cbn [out cap mbind exec_bind]; [|done|unfold len; cbn [out]; rewrite length_app; cbn [length]; lia].
    rewrite put_fits; cbn [out cap]; [|done|unfold len; cbn [out]; rewrite !length_app; cbn [length]; lia].
    split; [done|]. unfold roomy, len. cbn [out cap]. rewrite !length_app, <-!app_assoc. cbn [length]. split; [lia|done].
Qed.
Lemma script_text_line s : ends_line (script_text s) = true.
Proof. unfold script_text, ends_line. by rewrite app_assoc, rev_app_distr. Qed.
Lemma script_text_some s : script_text s <> [].
Proof. unfold script_text. destruct (chars s); [done|]. done. Qed.

Lemma emit_scripts_more l o : roomy o -> ends_line (out o) = true -> out o <> [] ->
  holds (out o ++ concat (map script_text (omap script_of l))) (emit_scripts l o).
Proof.
  revert o. induction l as [|n l IH]; intros o Hr Hl Hn; [exists o; cbn; by rewrite app_nil_r|].
  cbn [emit_scripts omap list_omap]. destruct (script_of n) as [s|]; cbn [mbind exec_bind]; [|by apply IH].
  destruct (emit_script_text s o) as (o' & -> & Hr' & Ho'); [done|done|by destruct (out o)|]. cbn [mbind exec_bind map concat]. rewrite app_assoc, <-Ho'.
  apply IH; [done| |]; rewrite Ho'; [apply ends_line_app; [intros _; apply script_text_line|done]|]. by destruct (out o).
Qed.
(** An empty script at the beginning of the text. *)
Definition starts_empty (blocks : list (list ascii)) (scripts : list string) : bool :=
  match blocks, scripts with [], EmptyString :: _ => true | _, _ => false end.
Lemma emit_scripts_first l c : 4096 <= c ->
  if starts_empty [] (omap script_of l) then emit_scripts l (mkOut c []) = Fault OutOfBounds
  else holds (concat (map script_text (omap script_of l))) (emit_scripts l (mkOut c [])).
Proof.
  intros Hc. assert (roomy (mkOut c [])) as Hr by (unfold roomy, len; cbn; lia).
  induction l as [|n l IH]; [by exists (mkOut c [])|]. cbn [emit_scripts omap list_omap]. destruct (script_of n) as [s|]; [|exact IH].
  cbn [starts_empty]. destruct s as [|b s]; [by rewrite emit_empty|].
  destruct (emit_script_text (String b s) (mkOut c [])) as (o' & -> & Hr' & Ho'); [done|done|done|]. cbn [mbind exec_bind map concat out app] in *.
  rewrite <-Ho'. apply emit_scripts_more; [done| |]; rewrite Ho'; [apply script_text_line|apply script_text_some].
Qed.

Lemma lines_end l : ends_line (lines l) = true.
Proof.
  induction l as [|x l IH]; [done|]. unfold lines in *. cbn [map concat]. apply ends_line_app; [done|]. unfold ends_line. by rewrite rev_app_distr.
Qed.
Lemma block_end w : ends_line (block w) = true.
Proof. destruct w. unfold block, when_widget, when_store, when_animated. repeat case_match; apply lines_end. Qed.
Lemma kept_blocks_end p : Forall (fun b => ends_line b = true /\ b <> []) (kept_blocks p).
Proof.
  apply list.Forall_forall. intros b (e & _ & H)%list_elem_of_omap. unfold kept_block in H. destruct (wire p e) as [w|]; [|done]. cbn [mbind option_bind] in H.
  destruct (fits (block w)) eqn:Hf; [|done]. injection H as <-. split; [apply block_end|]. intros Hn. by rewrite Hn in Hf.
Qed.
Lemma blocks_end bs : Forall (fun b => ends_line b = true /\ b <> []) bs -> ends_line (concat bs) = true.
Proof. induction 1 as [|b bs [Hb _] _ IH]; [done|]. apply ends_line_app; done. Qed.

(** The script is the texts of the edges that are not skipped and fit into a
    block, then the scripts of the FIL nodes, each with its line ended and an
    empty line; nothing else is written, and the buffer is always large enough.
    Only a FIL node with an empty script in front of which nothing stands makes
    the function read the byte before the buffer. *)
Lemma codegen_fil_text p :
  codegen_fil_script (Some p) =
  if starts_empty (kept_blocks p) (project_scripts p) then Fault OutOfBounds
  else Done (concat (kept_blocks p) ++ concat (map script_text (project_scripts p))).
Proof.
  cbn [codegen_fil_script]. destruct (emit_edges_text p (edges p) (mkOut 4096 [])) as (o & -> & Hr & Ho); [unfold roomy, len; cbn; lia|].
  cbn [mbind exec_bind out app] in *. pose proof (kept_blocks_end p) as Hk. fold (kept_blocks p) in Ho. destruct (kept_blocks p) as [|b bs].
  - destruct o as [c l]. cbn [out concat] in Ho. subst l. pose proof (emit_scripts_first (nodes p) c (proj1 Hr)) as H. fold (project_scripts p) in H.
    destruct (starts_empty [] (project_scripts p)); [by rewrite H|]. destruct H as (o' & -> & _ & H). cbn [mbind exec_bind]. by rewrite H.
  - cbn [starts_empty]. destruct (emit_scripts_more (nodes p) o) as (o' & -> & _ & H); [done|rewrite Ho; by apply blocks_end| |cbn [mbind exec_bind]; by rewrite H, Ho].
    rewrite Ho. apply Forall_inv in Hk as [_ Hb]. cbn [concat]. by destruct b.
Qed.

(** ** What the check finds *)

(** The edges that begin a block; the others are written as a comment. *)
Definition watches (w : Wire) : bool :=
  (is_node NODE_WIDGET (source w) && (port_type (source_port w) =? PORT_TRIGGER)) || (is_node NODE_STORE (source w) && named "value" (source_port w)) ||
  (is_node NODE_WIDGET (source w) && named "animation_end" (source_port w)).
Definition when_text (l : list ascii) : Prop := exists r, l = chars "when widget." ++ r \/ l = chars "when store." ++ r.
Definition comment_text (l : list ascii) : Prop := exists r, l = chars "-- " ++ r.
Lemma block_watches w : if watches w then when_text (block w) else comment_text (block w).
Proof.
  destruct w as [s sp d dp]. unfold watches, block, when_text, comment_text, when_widget, when_store, when_animated, lines. cbn [source source_port map concat].
  destruct (is_node NODE_WIDGET s && (port_type sp =? PORT_TRIGGER)); cbn [orb].
  { repeat case_match; eexists; left; rewrite !chars_app, <-!app_assoc; reflexivity. }
  destruct (is_node NODE_STORE s && named "value" sp); cbn [orb].
  { repeat case_match; eexists; right; rewrite !chars_app, <-!app_assoc; reflexivity. }
  destruct (is_node NODE_WIDGET s && named "animation_end" sp).
  { repeat case_match; eexists; left; rewrite !chars_app, <-!app_assoc; reflexivity. }
  eexists. rewrite !chars_app, <-!app_assoc. reflexivity.
Qed.

(** The edges the script has a text for. *)
Definition kept_wire (p : BuilderProject) (e : ConnectionEdge) : option Wire := w ← wire p e; if fits (block w) then Some w else None.
Definition kept_wires (p : BuilderProject) : list Wire := omap (kept_wire p) (edges p).
Lemma kept_blocks_wires p : kept_blocks p = map block (kept_wires p).
Proof.
  unfold kept_blocks, kept_wires. induction (edges p) as [|e l IH]; [done|]. cbn [omap list_omap]. unfold kept_block at 1, kept_wire at 1.
  destruct (wire p e) as [w|]; cbn [mbind option_bind]; [|exact IH]. destruct (fits (block w)); [|exact IH]. cbn [map]. by f_equal.
Qed.

Section checks.
Context (regcomp : string -> bool) (regexec : string -> string -> bool).
Abbreviation run := (run_script regcomp regexec).

Lemma fil_fuel_more s : exists f, fil_fuel s = S (S (S (S (S f)))).
Proof. exists (3 * String.length s + 5)%nat. unfold fil_fuel. lia. Qed.
Lemma when_faults l : when_text l -> run l = Fault UseAfterFree.
Proof.
  unfold run_script, fil_eval, parser0. intros [r H]. destruct (fil_fuel_more (of_chars l)) as [f ->]. rewrite list_ascii_of_string_of_list_ascii.
  destruct H as [-> | ->]; reflexivity.
Qed.
Lemma comment_ends l : comment_text l -> exists fr, run l = Done fr /\ r_error_msg fr = None.
Proof.
  unfold run_script, fil_eval, parser0. intros [r ->]. destruct (fil_fuel_more (of_chars (chars "-- " ++ r))) as [f ->]. rewrite list_ascii_of_string_of_list_ascii.
  eexists. split; reflexivity.
Qed.

(** C10: checking a project by running its script says nothing about its edges.
    When the first edge that is written becomes a block, the run uses a freed
    name; when it becomes a comment, the interpreter takes the comment for the
    end of the script, and no FIL node is run, whatever its script is. The
    scripts are run only in a project without written edges, and there a first
    script that is empty reads the byte before the buffer. *)
Theorem validate_verdict p :
  codegen_validate regcomp regexec (Some p) =
  let r := mkResult [] (match items p with [] => ["Project has no widgets"%string] | _ => [] end) in
  match kept_wires p, project_scripts p with
  | w :: _, _ => if watches w then Fault UseAfterFree else Done r
  | [], [] => Done r
  | [], EmptyString :: _ => Fault OutOfBounds
  | [], scripts => fr ← run (concat (map script_text scripts)); Done (match r_error_msg fr with Some m => add_error r m | None => r end)
  end.
Proof.
  unfold codegen_validate. rewrite codegen_fil_text, kept_blocks_wires.
  replace (match items p with [] => add_warning no_result "Project has no widgets" | _ => no_result end)
    with (mkResult [] (match items p with [] => ["Project has no widgets"%string] | _ => [] end)) by (by destruct (items p)).
  set (r := mkResult [] _). cbv zeta. destruct (kept_wires p) as [|w ws]; cbn [map].
  - destruct (project_scripts p) as [|[|b s] ss]; [done|done|]. reflexivity.
  - cbn [starts_empty concat mbind exec_bind]. rewrite <-app_assoc. pose proof (block_watches w) as Hb. revert Hb.
    generalize (concat (map block ws) ++ concat (map script_text (project_scripts p))). intros rest. destruct (watches w).
    + intros [x Hx]. assert (when_text (block w ++ rest)) as Hw by (exists (x ++ rest); destruct Hx as [-> | ->]; [left|right]; by rewrite app_assoc).
      rewrite (when_faults _ Hw). destruct Hx as [-> | ->]; reflexivity.
    + intros [x Hx]. assert (comment_text (block w ++ rest)) as Hw by (exists (x ++ rest); by rewrite Hx, app_assoc).
      destruct (comment_ends _ Hw) as (fr & -> & Hm). cbn [mbind exec_bind]. rewrite Hm, Hx. reflexivity.
Qed.
End checks.

(** ** The plugin *)

(** The children are numbered from 0, and there are as many as are allocated. *)
Lemma children_numbered idx l :
  children_text idx l = concat (imap (fun i => child_text (idx + Z.of_nat i)) (filter (fun i => parent_id i = -1) l)).
Proof.
  revert idx. induction l as [|item l IH]; intros idx; [done|]. cbn [children_text]. rewrite filter_cons. destruct (Z.eqb_spec (parent_id item) (-1)) as [E|E].
  - rewrite decide_True by done. rewrite imap_cons, IH. cbn [concat]. apply (f_equal2 app); [by rewrite Z.add_0_r|].
    apply (f_equal (@concat ascii)), imap_ext. intros i x _. unfold compose. by replace (idx + 1 + Z.of_nat i) with (idx + Z.of_nat (S i)) by lia.
  - by rewrite decide_False by done.
Qed.
(** The script is put between the quotes as it is: a script of which anything is
    written ends its line inside of the string literal. *)
Lemma literal_broken p l : codegen_fil_script (Some p) = Done l -> l = [] \/ exists a, script_literal l = a ++ [LF; DQUOTE; ";"%char; LF; LF].
Proof.
  rewrite codegen_fil_text. destruct (starts_empty _ _); [done|]. intros [= H].
  assert (ends_line l = true) as Hl.
  { rewrite <-H. clear H. apply ends_line_app; [|apply blocks_end, kept_blocks_end]. intros _. induction (project_scripts p) as [|s ss IH]; [done|].
    cbn [map concat]. apply ends_line_app; [by intros _|apply script_text_line]. }
  destruct l as [|c l _] using rev_ind; [by left|]. right. unfold ends_line in Hl. rewrite rev_app_distr in Hl. cbn [rev app] in Hl. apply Ascii.eqb_eq in Hl as ->.
  exists (src_line "static const char *fil_script =" ++ quoted "    '" ++ l). unfold script_literal. rewrite <-!app_assoc. reflexivity.
Qed.
(** A plugin is written with the script its project has, or with nothing. *)
Lemma plugin_written fopen p dir g : codegen_c_plugin fopen (Some p) (Some dir) = Done g ->
  if fopen (path_of dir (project_name p +:+ ".c")) then
    errors (result g) = [] /\ exists l, codegen_fil_script (Some p) = Done l /\ (path_of dir (project_name p +:+ ".c"), plugin_source p l) ∈ files g
  else errors (result g) = ["Cannot create output C file"%string] /\ files g = [].
Proof.
  cbn [codegen_c_plugin]. destruct (fopen (path_of dir _)); [|by intros [= <-]]. intros (l & Hl & [= <-])%exec_bind_Done. split; [done|]. exists l. split; [done|]. by left.
Qed.

(** ** Examples *)

Definition sample_trigger : PortDef := mkPort 1 "on_change" PORT_TRIGGER true None.
Definition sample_store_set : PortDef := mkPort 0 "set" PORT_STRING false None.
Definition sample_widget : GraphNode := mkNode 0 NODE_WIDGET "name" 1 None None [mkPort 0 "value" PORT_STRING true None; sample_trigger].
Definition sample_store : GraphNode := mkNode 1 NODE_STORE "store" (-1) (Some "user"%string) None [sample_store_set].
Definition sample_script (s : string) : GraphNode := mkNode 2 NODE_FIL_BLOCK "fil" (-1) None (Some s) [].
Definition sample_tui : TuiConfig := mkTui false 80 24 None.
Definition sample_project (ns : list GraphNode) (es : list ConnectionEdge) : BuilderProject :=
  mkProject "demo" None [mkItem 1 "input" "name" (mkRect 1 2 30 3) None (-1) 0 false true] 2 80 24 ns es [] [] sample_tui 2 None None.
Definition sample_edge (port : Z) : ConnectionEdge := mkEdge 0 port 1 0 None None.

Example trigger_text : codegen_fil_script (Some (sample_project [sample_widget; sample_store] [sample_edge 1])) =
  Done (lines [chars "when widget.name.on_change then"; chars "  set store.user to value of name"; chars "end"; []]).
Proof. reflexivity. Qed.
Example value_text : codegen_fil_script (Some (sample_project [sample_widget; sample_store] [sample_edge 0])) =
  Done (lines [chars "-- Edge: name.value -> store.set"; []]).
Proof. reflexivity. Qed.
(** The same script is refused alone and passes behind a comment. *)
Example script_refused : codegen_validate (fun _ => true) (fun _ _ => true)
    (Some (sample_project [sample_widget; sample_store; sample_script (of_chars (quoted "reject with 'no'"))] [])) = Done (mkResult ["no"%string] []).
Proof. reflexivity. Qed.
Example script_hidden : codegen_validate (fun _ => true) (fun _ _ => true)
    (Some (sample_project [sample_widget; sample_store; sample_script (of_chars (quoted "reject with 'no'"))] [sample_edge 0])) = Done no_result.
Proof. reflexivity. Qed.
Example trigger_faults : codegen_validate (fun _ => true) (fun _ _ => true)
    (Some (sample_project [sample_widget; sample_store] [sample_edge 1])) = Fault UseAfterFree.
Proof. reflexivity. Qed.
