(* ===== verification/Canvas.v ===== *)
(** The canvas of the builder, src/src/builder/canvas.c and canvas.h: the items of
    the project under the pointer and under the keys, the selection, zoom and
    scrolling in binary32, and the preview.

    The project the canvas points to is passed along. A selection of NULL is the
    empty list. [int] arithmetic is taken not to overflow; a float with no [int]
    becomes [INT_MIN], as in Double.v. The drawing of a tree into pixels
    (src/src/backend/gcore/renderer.c) is an argument. *)

From Stdlib Require Import SpecFloat.
From S2P Require Import Prelude Double CJson Widget RenderTree Animation Theme Boxes Project.

Module Canvas.

(** ** State *)

Inductive CanvasAction :=
  | CANVAS_ACTION_NONE | CANVAS_ACTION_MOVE | CANVAS_ACTION_RESIZE_N | CANVAS_ACTION_RESIZE_S | CANVAS_ACTION_RESIZE_E | CANVAS_ACTION_RESIZE_W
  | CANVAS_ACTION_RESIZE_NE | CANVAS_ACTION_RESIZE_NW | CANVAS_ACTION_RESIZE_SE | CANVAS_ACTION_RESIZE_SW
  | CANVAS_ACTION_RUBBER_BAND | CANVAS_ACTION_PAN.
#[global] Instance CanvasAction_eq_dec : EqDecision CanvasAction.
Proof. solve_decision. Defined.

Record View := mkView { zoom : float; scroll_x : Z; scroll_y : Z }.
Record Drag := mkDrag { action : CanvasAction; dragging : bool; drag_start_x : Z; drag_start_y : Z; drag_orig : Rect; rubber_x : Z; rubber_y : Z }.
Record Selection := mkSelection { selected_item : Z; selected_items : list Z }.
Record Grid := mkGrid { show_grid : bool; grid_size : Z; show_tab_order : bool }.
Record Menu := mkMenu { context_menu_open : bool; context_menu_x : Z; context_menu_y : Z; context_menu_target : Z }.
Record Preview := mkPreview { pixels : option (list Z); preview_w : Z; preview_h : Z }.
Record Canvas := mk {
  canvas_w : Z; canvas_h : Z; view : View; drag : Drag; selection : Selection; hovered_item : Z; grid : Grid; menu : Menu; preview : Preview
}.
Definition set_view (v : View) (c : Canvas) : Canvas := mk (canvas_w c) (canvas_h c) v (drag c) (selection c) (hovered_item c) (grid c) (menu c) (preview c).
Definition set_drag (d : Drag) (c : Canvas) : Canvas := mk (canvas_w c) (canvas_h c) (view c) d (selection c) (hovered_item c) (grid c) (menu c) (preview c).
Definition set_selection (s : Selection) (c : Canvas) : Canvas := mk (canvas_w c) (canvas_h c) (view c) (drag c) s (hovered_item c) (grid c) (menu c) (preview c).
Definition set_hovered (h : Z) (c : Canvas) : Canvas := mk (canvas_w c) (canvas_h c) (view c) (drag c) (selection c) h (grid c) (menu c) (preview c).
Definition set_grid (g : Grid) (c : Canvas) : Canvas := mk (canvas_w c) (canvas_h c) (view c) (drag c) (selection c) (hovered_item c) g (menu c) (preview c).
Definition set_menu (m : Menu) (c : Canvas) : Canvas := mk (canvas_w c) (canvas_h c) (view c) (drag c) (selection c) (hovered_item c) (grid c) m (preview c).
Definition set_preview (p : Preview) (c : Canvas) : Canvas := mk (canvas_w c) (canvas_h c) (view c) (drag c) (selection c) (hovered_item c) (grid c) (menu c) p.

Definition canvas_new (w h : Z) : Canvas :=
  let w := if 0 <? w then w else 800 in
  let h := if 0 <? h then h else 600 in
  mk w h (mkView (f_lit 1 0) 0 0) (mkDrag CANVAS_ACTION_NONE false 0 0 (mkRect 0 0 0 0) 0 0) (mkSelection (-1) []) (-1)
    (mkGrid true 8 false) (mkMenu false 0 0 0) (mkPreview None w h).

(** ** Coordinates *)

Definition snap_to_grid (v grid : Z) : Z := if grid <=? 0 then v else cdiv (v + cdiv grid 2) grid * grid.
(** [(int)(z * c->zoom)] *)
Definition zoomed (c : Canvas) (z : Z) : Z := f_to_int (f_mul (f_of_Z z) (zoom (view c))).
Definition canvas_to_screen_x (c : Canvas) (canvas_x : Z) : Z := zoomed c (canvas_x - scroll_x (view c)).
Definition canvas_to_screen_y (c : Canvas) (canvas_y : Z) : Z := zoomed c (canvas_y - scroll_y (view c)).
Definition screen_to_canvas_x (c : Canvas) (screen_x : Z) : Z := f_to_int (f_add (f_div (f_of_Z screen_x) (zoom (view c))) (f_of_Z (scroll_x (view c)))).
Definition screen_to_canvas_y (c : Canvas) (screen_y : Z) : Z := f_to_int (f_add (f_div (f_of_Z screen_y) (zoom (view c))) (f_of_Z (scroll_y (view c)))).
(** [(int)(d / c->zoom)] *)
Definition unzoomed (c : Canvas) (d : Z) : Z := f_to_int (f_div (f_of_Z d) (zoom (view c))).
(** Where an item is on the screen. *)
Definition screen_rect (c : Canvas) (r : Rect) : Rect := mkRect (canvas_to_screen_x c (rx r)) (canvas_to_screen_y c (ry r)) (zoomed c (rw r)) (zoomed c (rh r)).

Definition get_resize_handle (c : Canvas) (item : CanvasItem) (screen_x screen_y : Z) : CanvasAction :=
  let '(mkRect ix iy iw ih) := screen_rect c (item_rect item) in
  let margin := 8 in
  if (screen_x <? ix - margin) || (ix + iw + margin <? screen_x) then CANVAS_ACTION_NONE
  else if (screen_y <? iy - margin) || (iy + ih + margin <? screen_y) then CANVAS_ACTION_NONE
  else
    let left := screen_x <? ix + margin in
    let right := ix + iw - margin <? screen_x in
    let top := screen_y <? iy + margin in
    let bottom := iy + ih - margin <? screen_y in
    if top && left then CANVAS_ACTION_RESIZE_NW
    else if top && right then CANVAS_ACTION_RESIZE_NE
    else if bottom && left then CANVAS_ACTION_RESIZE_SW
    else if bottom && right then CANVAS_ACTION_RESIZE_SE
    else if top then CANVAS_ACTION_RESIZE_N
    else if bottom then CANVAS_ACTION_RESIZE_S
    else if left then CANVAS_ACTION_RESIZE_W
    else if right then CANVAS_ACTION_RESIZE_E
    else CANVAS_ACTION_MOVE.

(** ** Zoom *)

Definition clamp_zoom (z : float) : float :=
  let z := if SFltb z (f_lit 1 1) then f_lit 1 1 else z in if SFltb (f_lit 5 0) z then f_lit 5 0 else z.
Definition canvas_zoom_at (new_zoom : float) (cx cy : Z) (c : Canvas) : Canvas :=
  let new_zoom := clamp_zoom new_zoom in
  let ratio := f_div new_zoom (zoom (view c)) in
  let moved z s := f_to_int (f_sub (f_of_Z z) (f_mul ratio (f_of_Z (z - s)))) in
  set_view (mkView new_zoom (moved cx (scroll_x (view c))) (moved cy (scroll_y (view c)))) c.
Definition canvas_zoom_in (c : Canvas) : Canvas := canvas_zoom_at (f_mul (zoom (view c)) (f_lit 125 2)) (cdiv (canvas_w c) 2) (cdiv (canvas_h c) 2) c.
Definition canvas_zoom_out (c : Canvas) : Canvas := canvas_zoom_at (f_mul (zoom (view c)) (f_lit 8 1)) (cdiv (canvas_w c) 2) (cdiv (canvas_h c) 2) c.
Definition canvas_zoom_to_fit (p : BuilderProject) (c : Canvas) : Canvas :=
  if (root_width p <=? 0) || (root_height p <=? 0) then c
  else
    let zx := f_div (f_of_Z (canvas_w c)) (f_of_Z (root_width p)) in
    let zy := f_div (f_of_Z (canvas_h c)) (f_of_Z (root_height p)) in
    set_view (mkView (clamp_zoom (if SFltb zx zy then zx else zy)) 0 0) c.
Definition canvas_mouse_scroll (x y delta : Z) (c : Canvas) : Canvas :=
  canvas_zoom_at (f_mul (zoom (view c)) (if 0 <? delta then f_lit 11 1 else f_lit 9 1)) x y c.

(** ** Selection *)

Definition canvas_select_item (item_id : Z) : Canvas -> Canvas := set_selection (mkSelection item_id [item_id]).
Definition canvas_deselect_all : Canvas -> Canvas := set_selection (mkSelection (-1) []).
Definition canvas_select_all (p : BuilderProject) (c : Canvas) : Canvas :=
  let l := map item_id (items p) in
  set_selection (mkSelection (match l with i :: _ => i | [] => selected_item (selection c) end) l) c.
Definition is_selected (c : Canvas) (id : Z) : bool := existsb (fun i => i =? id) (selected_items (selection c)).
Definition last_or (d : Z) (l : list Z) : Z := match rev l with x :: _ => x | [] => d end.
Definition canvas_toggle_select (id : Z) (c : Canvas) : Canvas :=
  let l := selected_items (selection c) in
  if is_selected c id then
    let l := remove_first (fun i => i =? id) l in set_selection (mkSelection (last_or (-1) l) l) c
  else set_selection (mkSelection id (l ++ [id])) c.

Definition inside (r : Rect) (x y : Z) : bool := (rx r <=? x) && (x <? rx r + rw r) && (ry r <=? y) && (y <? ry r + rh r).
Definition can_hit (i : CanvasItem) : bool := negb (locked i) && visible i.
Definition canvas_hit_test (c : Canvas) (p : BuilderProject) (screen_x screen_y : Z) : Z :=
  match List.find (fun i => can_hit i && inside (screen_rect c (item_rect i)) screen_x screen_y) (rev (items p)) with
  | Some i => item_id i
  | None => -1
  end.

(** ** The mouse *)

Definition canvas_mouse_down (p : BuilderProject) (screen_x screen_y button : Z) (c : Canvas) : Canvas * bool :=
  let d := drag c in
  if context_menu_open (menu c) then
    (set_menu (mkMenu false (context_menu_x (menu c)) (context_menu_y (menu c)) (context_menu_target (menu c))) c, true)
  else if button =? 3 then (set_menu (mkMenu true screen_x screen_y (canvas_hit_test c p screen_x screen_y)) c, true)
  else if button =? 2 then (set_drag (mkDrag CANVAS_ACTION_PAN true screen_x screen_y (drag_orig d) (rubber_x d) (rubber_y d)) c, true)
  else
    let hit := canvas_hit_test c p screen_x screen_y in
    if 0 <=? hit then
      match project_find_item p hit with
      | None => (c, false)
      | Some item =>
          let c := if is_selected c hit then c else canvas_select_item hit (canvas_deselect_all c) in
          (set_drag (mkDrag (get_resize_handle c item screen_x screen_y) true screen_x screen_y (item_rect item) (rubber_x d) (rubber_y d)) c, true)
      end
    else (set_drag (mkDrag CANVAS_ACTION_RUBBER_BAND true screen_x screen_y (drag_orig d) screen_x screen_y) c, true).

Definition at_least_20 (r : Rect) : Rect := mkRect (rx r) (ry r) (at_least 20 (rw r)) (at_least 20 (rh r)).
(** The rectangle of an item that is dragged; [r] is the one it has. *)
Definition dragged (a : CanvasAction) (g : Grid) (o : Rect) (dx dy : Z) (r : Rect) : Rect :=
  let snap z := if show_grid g then snap_to_grid z (grid_size g) else z in
  let w_left := rw o - dx in
  let w_right := rw o + dx in
  let h_up := rh o - dy in
  let h_down := rh o + dy in
  at_least_20 match a with
  | CANVAS_ACTION_MOVE => mkRect (snap (rx o + dx)) (snap (ry o + dy)) (rw r) (rh r)
  | CANVAS_ACTION_RESIZE_N => mkRect (rx r) (ry o + dy) (rw r) h_up
  | CANVAS_ACTION_RESIZE_S => mkRect (rx r) (ry r) (rw r) h_down
  | CANVAS_ACTION_RESIZE_E => mkRect (rx r) (ry r) w_right (rh r)
  | CANVAS_ACTION_RESIZE_W => mkRect (rx o + dx) (ry r) w_left (rh r)
  | CANVAS_ACTION_RESIZE_NE => mkRect (rx r) (ry o + dy) w_right h_up
  | CANVAS_ACTION_RESIZE_NW => mkRect (rx o + dx) (ry o + dy) w_left h_up
  | CANVAS_ACTION_RESIZE_SE => mkRect (rx r) (ry r) w_right h_down
  | CANVAS_ACTION_RESIZE_SW => mkRect (rx o + dx) (ry r) w_left h_down
  | _ => r
  end.
Definition on_rect (f : Rect -> Rect) (i : CanvasItem) : CanvasItem := with_rect (f (item_rect i)) i.
(** The items of a list of identifiers, one after another. *)
Definition change_all (f : CanvasItem -> CanvasItem) (l : list Z) (p : BuilderProject) : BuilderProject := foldl (fun p id => change_item p id f) p l.
Definition canvas_mouse_move (screen_x screen_y : Z) (button_down : bool) (st : Canvas * BuilderProject) : Canvas * BuilderProject * bool :=
  let '(c, p) := st in
  let c := set_hovered (canvas_hit_test c p screen_x screen_y) c in
  let d := drag c in
  if negb (dragging d) then (c, p, 0 <=? hovered_item c)
  else if negb button_down then
    (set_drag (mkDrag CANVAS_ACTION_NONE false (drag_start_x d) (drag_start_y d) (drag_orig d) (rubber_x d) (rubber_y d)) c, p, false)
  else
    let dx := screen_x - drag_start_x d in
    let dy := screen_y - drag_start_y d in
    match action d with
    | CANVAS_ACTION_PAN =>
        (set_drag (mkDrag (action d) true screen_x screen_y (drag_orig d) (rubber_x d) (rubber_y d))
          (set_view (mkView (zoom (view c)) (scroll_x (view c) - dx) (scroll_y (view c) - dy)) c), p, true)
    | CANVAS_ACTION_RUBBER_BAND => (set_drag (mkDrag (action d) true (drag_start_x d) (drag_start_y d) (drag_orig d) screen_x screen_y) c, p, true)
    | a => (c, change_all (on_rect (dragged a (grid c) (drag_orig d) (unzoomed c dx) (unzoomed c dy))) (selected_items (selection c)) p, true)
    end.

(** The band between where the drag began and where the pointer is. *)
Definition rubber (d : Drag) : Rect :=
  mkRect (Z.min (rubber_x d) (drag_start_x d)) (Z.min (rubber_y d) (drag_start_y d)) (Z.abs (rubber_x d - drag_start_x d)) (Z.abs (rubber_y d - drag_start_y d)).
Definition touches (b i : Rect) : bool :=
  (rx b <=? rx i + rw i) && (rx i <=? rx b + rw b) && (ry b <=? ry i + rh i) && (ry i <=? ry b + rh b).
Definition select_banded (p : BuilderProject) (b : Rect) (c : Canvas) : Canvas :=
  foldl (fun c i => if can_hit i && touches b (screen_rect c (item_rect i)) then canvas_toggle_select (item_id i) c else c) c (items p).
Definition canvas_mouse_up (p : BuilderProject) (c : Canvas) : Canvas :=
  let d := drag c in
  let c :=
    if (bool_decide (action d = CANVAS_ACTION_RUBBER_BAND) && dragging d)%bool then
      let b := rubber d in
      if (4 <? rw b) || (4 <? rh b) then select_banded p b (canvas_deselect_all c) else canvas_deselect_all c
    else c in
  set_drag (mkDrag CANVAS_ACTION_NONE false (drag_start_x d) (drag_start_y d) (drag_orig d) (rubber_x d) (rubber_y d)) c.

(** ** Keys and menu entries *)

Definition snapped (g : Grid) (r : Rect) : Rect :=
  if show_grid g then mkRect (snap_to_grid (rx r) (grid_size g)) (snap_to_grid (ry r) (grid_size g)) (rw r) (rh r) else r.
Definition unless_locked (f : Rect -> Rect) (i : CanvasItem) : CanvasItem := if locked i then i else on_rect f i.
Definition canvas_key_move (dx dy : Z) (c : Canvas) (p : BuilderProject) : BuilderProject :=
  change_all (unless_locked (fun r => snapped (grid c) (mkRect (rx r + dx) (ry r + dy) (rw r) (rh r)))) (selected_items (selection c)) p.
Definition canvas_key_resize (dw dh : Z) (c : Canvas) (p : BuilderProject) : BuilderProject :=
  change_all (unless_locked (fun r => at_least_20 (mkRect (rx r) (ry r) (rw r + dw) (rh r + dh)))) (selected_items (selection c)) p.
Definition canvas_delete_selected (st : Canvas * BuilderProject) : Canvas * BuilderProject :=
  let '(c, p) := st in (canvas_deselect_all c, foldl project_remove_item p (selected_items (selection c))).
Definition canvas_add_widget (widget_type : string) (screen_x screen_y : Z) (c : Canvas) (p : BuilderProject) : BuilderProject :=
  let '(q, item) := project_add_item p widget_type (screen_to_canvas_x c screen_x) (screen_to_canvas_y c screen_y) 200 120 in
  set_items (items p ++ [on_rect (snapped (grid c)) item]) (next_item_id q) q.
Definition canvas_toggle_tab_order (c : Canvas) : Canvas := set_grid (mkGrid (show_grid (grid c)) (grid_size (grid c)) (negb (show_tab_order (grid c)))) c.
Definition canvas_toggle_grid (c : Canvas) : Canvas := set_grid (mkGrid (negb (show_grid (grid c))) (grid_size (grid c)) (show_tab_order (grid c))) c.
Definition canvas_align_to_grid (id : Z) (c : Canvas) (p : BuilderProject) : BuilderProject :=
  if grid_size (grid c) <=? 0 then p
  else change_item p id (on_rect (fun r => mkRect (snap_to_grid (rx r) (grid_size (grid c))) (snap_to_grid (ry r) (grid_size (grid c))) (rw r) (rh r))).
Definition canvas_bring_to_front (id : Z) (p : BuilderProject) : BuilderProject :=
  match project_find_item p id with
  | Some i => set_items (remove_first (fun i => item_id i =? id) (items p) ++ [i]) (next_item_id p) p
  | None => p
  end.
Definition canvas_send_to_back (id : Z) (p : BuilderProject) : BuilderProject :=
  match items p with
  | x :: l =>
      match List.find (fun i => item_id i =? id) l with
      | Some i => set_items (i :: x :: remove_first (fun i => item_id i =? id) l) (next_item_id p) p
      | None => p
      end
  | [] => p
  end.
Definition set_locked (b : bool) (i : CanvasItem) : CanvasItem :=
  mkItem (item_id i) (widget_type i) (instance_name i) (item_rect i) (item_params i) (parent_id i) (item_tab_index i) b (visible i).
Definition canvas_lock_item (id : Z) (p : BuilderProject) : BuilderProject := change_item p id (set_locked true).
Definition canvas_unlock_item (id : Z) (p : BuilderProject) : BuilderProject := change_item p id (set_locked false).

(** ** The preview as a tree *)

Definition gcore_rgba (r g b a : Z) : Z := rgba r g b a.
Definition item_look (fg bg border bw : Z) : WidgetStyle := let s := widgetstyle_default in {|
  fg_color := fg; bg_color := bg; border_color := border; accent_color := gcore_rgba 233 69 96 255; border_width := bw;
  border_radius := 4; border_top_width := border_top_width s; border_bottom_width := border_bottom_width s;
  border_left_width := border_left_width s; border_right_width := border_right_width s;
  border_top_color := border_top_color s; border_bottom_color := border_bottom_color s;
  border_left_color := border_left_color s; border_right_color := border_right_color s;
  border_top_style := border_top_style s; border_bottom_style := border_bottom_style s;
  border_left_style := border_left_style s; border_right_style := border_right_style s; padding := padding s;
  margin := margin s; min_width := min_width s; min_height := min_height s; max_width := max_width s;
  max_height := max_height s; font_family := font_family s; font_size := 14; font_weight := font_weight s;
  font_italic := font_italic s; text_align := text_align s; opacity := opacity s; shadows := shadows s;
  shadow_count := shadow_count s; gradient := gradient s; backdrop_blur := backdrop_blur s;
  letter_spacing := letter_spacing s; line_height := line_height s; text_transform := text_transform s;
  transition_ms := transition_ms s; scale_x := scale_x s; scale_y := scale_y s; rotation := rotation s;
  translate_x := translate_x s; translate_y := translate_y s; cursor_style := cursor_style s |}.

(** [params[k] && params[k]->valuestring ? ... : d] and [params[k] ? params[k]->valueint : d] *)
Definition string_param (i : CanvasItem) (k d : string) : string := default d (cJSON_GetObjectItem (item_params i) k ≫= valuestring).
Definition int_param (i : CanvasItem) (k : string) (d : Z) : Z := match cJSON_GetObjectItem (item_params i) k with Some v => valueint v | None => d end.
Definition list_of (i : CanvasItem) : list ListItem :=
  match cJSON_GetObjectItem (item_params i) "choices" with
  | Some a => if cJSON_IsArray (Some a) then map (fun v => listitem_new (Some (default EmptyString (valuestring v)))) (child a) else [listitem_new (Some "No items"%string)]
  | None => [listitem_new (Some "No items"%string)]
  end.
(** Eight bullets in UTF-8. *)
Definition bullets : string := of_chars (concat (replicate 8 [ascii_of_N 226; ascii_of_N 128; ascii_of_N 162])).
Definition item_content (i : CanvasItem) : Content RenderTree :=
  let t := widget_type i in
  let str k d := Some (string_param i k d) in
  let kind s := bool_decide (t = s) in
  if kind "input"%string then RNODE_INPUT (str "default" "")%string (str "placeholder" "")%string 0 false
  else if kind "password"%string then RNODE_INPUT (str "default" "")%string (Some bullets) 0 true
  else if kind "toggle"%string then RNODE_TOGGLE (str "label" "")%string (negb (int_param i "default" 0 =? 0)) false
  else if kind "checkbox"%string then RNODE_CHECKBOX (str "label" "")%string (negb (int_param i "default" 0 =? 0)) false
  else if kind "menu"%string then RNODE_LIST (list_of i) 0
  else if kind "msg"%string then RNODE_TEXT (Some (strtake 511 (string_param i "title" "" +:+ String "010" (string_param i "message" "")))) ALIGN_LEFT
  else if kind "button"%string then RNODE_TEXT (str "title" "Button")%string ALIGN_LEFT
  else if kind "progress"%string then RNODE_GAUGE (int_param i "percent" 50) (str "title" "")%string
  else if kind "separator"%string then RNODE_LEAF (RNODE_SEPARATOR ORIENT_HORIZONTAL)
  else if kind "spinner"%string then RNODE_LEAF (RNODE_SPINNER (str "message" "Loading...")%string 0)
  else if kind "badge"%string then RNODE_LEAF (RNODE_BADGE (str "text" "")%string)
  else if kind "calendar"%string then RNODE_CALENDAR 0 0 0
  else if kind "gauge"%string then RNODE_GAUGE (int_param i "percent" 0) (str "label" "")%string
  else if kind "notification"%string then RNODE_LEAF (RNODE_TOAST (str "message" "")%string)
  else RNODE_TEXT (Some (instance_name i)) ALIGN_LEFT.
(** A text written into [child->text.content], the first word of the union: other
    nodes keep a string there, too, or an array, which is then a string that is
    too short; or bits of an address are read as numbers. *)
Definition overlay (s : string) (u : Content RenderTree) : exec (Content RenderTree) :=
  match u with
  | RNODE_TEXT _ a => Done (RNODE_TEXT (Some s) a)
  | RNODE_INPUT _ ph k m => Done (RNODE_INPUT (Some s) ph k m)
  | RNODE_TOGGLE _ v f => Done (RNODE_TOGGLE (Some s) v f)
  | RNODE_CHECKBOX _ v f => Done (RNODE_CHECKBOX (Some s) v f)
  | RNODE_LEAF (RNODE_SPINNER _ f) => Done (RNODE_LEAF (RNODE_SPINNER (Some s) f))
  | RNODE_LEAF (RNODE_BADGE _) => Done (RNODE_LEAF (RNODE_BADGE (Some s)))
  | RNODE_LEAF (RNODE_TOAST _) => Done (RNODE_LEAF (RNODE_TOAST (Some s)))
  | RNODE_LIST [] k => Done (RNODE_LIST [] k)
  | RNODE_LIST _ _ => Fault OutOfBounds
  | _ => Fault Indeterminate
  end.
Definition canvas_child (c : Canvas) (i : CanvasItem) : exec RenderTree :=
  let chosen := is_selected c (item_id i) in
  let red := gcore_rgba 233 69 96 255 in
  let button := bool_decide (widget_type i = "button"%string) in
  let tab := (show_tab_order (grid c) && (0 <? item_tab_index i))%bool in
  u ← (if tab then overlay (strtake 15 (int_string (item_tab_index i))) (item_content i) else Done (item_content i) : exec (Content RenderTree));
  let fg := if tab then red else if button then gcore_rgba 255 255 255 255 else gcore_rgba 208 208 208 255 in
  let bg := if button then red else gcore_rgba 26 26 46 255 in
  Done (mkTree (set_style (item_look fg bg (if chosen then red else gcore_rgba 42 42 74 255) (if chosen then 2 else 1)) (set_rect (item_rect i) info_zero)) u).
Fixpoint canvas_children (c : Canvas) (l : list CanvasItem) : exec (list RenderTree) :=
  match l with
  | [] => Done []
  | i :: l' =>
      if ((parent_id i =? -1) && visible i)%bool then t ← canvas_child c i; r ← canvas_children c l'; Done (t :: r)
      else canvas_children c l'
  end.
Definition canvas_tree (c : Canvas) (p : BuilderProject) : exec RenderTree :=
  children ← canvas_children c (items p);
  Done (mkTree (set_style widgetstyle_default (set_rect (rect_new 0 0 (root_width p) (root_height p)) info_zero)) (RNODE_CONTAINER None BORDER_NONE edgeinsets_zero children)).

(** ** The preview in pixels *)

(** [pixels[i] = color] for the indices of a list. *)
Fixpoint set_pixels (color : Z) (l : list Z) (px : list Z) : exec (list Z) :=
  match l with
  | [] => Done px
  | i :: l' =>
      if (i <? 0) || (Z.of_nat (length px) <=? i) then Fault OutOfBounds else set_pixels color l' (<[Z.to_nat i := color]> px)
  end.
(** [for (x = 0; x < n; x += step)] *)
Definition every (step n : Z) : list Z := map (fun i => Z.of_nat i * step) (seq 0 (Z.to_nat ((n + step - 1) / step))).
Definition grid_lines (w h step : Z) : list Z :=
  concat (map (fun x => map (fun row => row * w + x) (seqZ 0 h)) (every step w)) ++
  concat (map (fun y => map (fun col => y * w + col) (seqZ 0 w)) (every step h)).
Definition band_frame (w h : Z) (b : Rect) : list Z :=
  concat (map (fun row => map (fun col => row * w + col)
    (filter (fun col => (row = ry b \/ row = ry b + rh b - 1) \/ (col = rx b \/ col = rx b + rw b - 1)) (seqZ (rx b) (Z.min (rx b + rw b) w - rx b))))
    (seqZ (ry b) (Z.min (ry b + rh b) h - ry b))).

Section preview.
(** [gcore_render_tree_to_pixels], on a buffer of a width and a height. *)
Context (paint : option Theme -> RenderTree -> Z -> Z -> list Z -> exec (list Z)) (theme : option Theme).
Definition canvas_render (p : BuilderProject) (c : Canvas) : exec Canvas :=
  let w := at_least 1 (zoomed c (canvas_w c)) in
  let h := at_least 1 (zoomed c (canvas_h c)) in
  tree ← canvas_tree c p;
  let tree := match theme with Some _ => resolve_node_styles theme tree | None => tree end in
  px ← paint theme tree w h (replicate (Z.to_nat (w * h)) (gcore_rgba 26 26 46 255));
  px ← (if show_grid (grid c) then set_pixels (gcore_rgba 42 42 74 40) (grid_lines w h (at_least 2 (zoomed c (grid_size (grid c))))) px else Done px : exec (list Z));
  px ← (if (bool_decide (action (drag c) = CANVAS_ACTION_RUBBER_BAND) && dragging (drag c))%bool
        then set_pixels (gcore_rgba 233 69 96 255) (band_frame w h (rubber (drag c))) px else Done px : exec (list Z));
  Done (set_preview (mkPreview (Some px) w h) c).

Definition shade (px : Z) : ascii :=
  let gray := ((Z.land (Z.shiftr px 16) 255) + (Z.land (Z.shiftr px 8) 255) + Z.land px 255) / 3 in
  if gray <? 32 then " " else if gray <? 64 then "." else if gray <? 96 then ":" else if gray <? 128 then "="
  else if gray <? 160 then "+" else if gray <? 192 then "*" else if gray <? 224 then "#" else "@".
Fixpoint shades (px : list Z) (l : list Z) : exec (list ascii) :=
  match l with
  | [] => Done []
  | i :: l' => if i <? 0 then Fault OutOfBounds else x ← at_index (px !! Z.to_nat i); r ← shades px l'; Done (shade x :: r)
  end.
Fixpoint preview_lines (px : list Z) (stride w : Z) (rows : list Z) : exec (list RenderTree) :=
  match rows with
  | [] => Done []
  | row :: rows' =>
      t ← shades px (map (fun col => row * stride + col) (seqZ 0 w));
      r ← preview_lines px stride w rows';
      Done (mkTree (set_rect (rect_new 1 (row + 1) w 1) info_zero) (RNODE_TEXT (Some (of_chars t)) ALIGN_LEFT) :: r)
  end.
Definition canvas_draw_to_tree (p : BuilderProject) (off_x off_y : Z) (c : Canvas) : exec (Canvas * RenderTree) :=
  c ← canvas_render p c;
  let h := Z.min (preview_h (preview c)) (canvas_h c) in
  let w := Z.min (preview_w (preview c)) (canvas_w c) in
  px ← deref (pixels (preview c));
  lines ← preview_lines px (preview_w (preview c)) w (seqZ 0 (at_least 1 h));
  Done (c, mkTree (set_rect (rect_new off_x off_y (canvas_w c) (canvas_h c)) info_zero) (RNODE_CONTAINER None BORDER_SINGLE edgeinsets_zero lines)).
End preview.

(** ** What can happen to a canvas *)

Inductive event :=
  | MouseDown (x y button : Z) | MouseMove (x y : Z) (down : bool) | MouseUp | Scroll (x y delta : Z)
  | KeyMove (dx dy : Z) | KeyResize (dw dh : Z) | DeleteSelected | AddWidget (widget_type : string) (x y : Z)
  | SelectAll | DeselectAll | ToggleTabOrder | ToggleGrid | ZoomIn | ZoomOut | ZoomToFit
  | AlignToGrid (id : Z) | BringToFront (id : Z) | SendToBack (id : Z) | Lock (id : Z) | Unlock (id : Z).
Definition step (e : event) (st : Canvas * BuilderProject) : Canvas * BuilderProject :=
  let '(c, p) := st in
  match e with
  | MouseDown x y b => ((canvas_mouse_down p x y b c).1, p)
  | MouseMove x y d => (canvas_mouse_move x y d (c, p)).1
  | MouseUp => (canvas_mouse_up p c, p)
  | Scroll x y d => (canvas_mouse_scroll x y d c, p)
  | KeyMove dx dy => (c, canvas_key_move dx dy c p)
  | KeyResize dw dh => (c, canvas_key_resize dw dh c p)
  | DeleteSelected => canvas_delete_selected (c, p)
  | AddWidget t x y => (c, canvas_add_widget t x y c p)
  | SelectAll => (canvas_select_all p c, p)
  | DeselectAll => (canvas_deselect_all c, p)
  | ToggleTabOrder => (canvas_toggle_tab_order c, p)
  | ToggleGrid => (canvas_toggle_grid c, p)
  | ZoomIn => (canvas_zoom_in c, p)
  | ZoomOut => (canvas_zoom_out c, p)
  | ZoomToFit => (canvas_zoom_to_fit p c, p)
  | AlignToGrid id => (c, canvas_align_to_grid id c p)
  | BringToFront id => (c, canvas_bring_to_front id p)
  | SendToBack id => (c, canvas_send_to_back id p)
  | Lock id => (c, canvas_lock_item id p)
  | Unlock id => (c, canvas_unlock_item id p)
  end.
End Canvas.
Import Canvas.

(** ** Items and selections are kept *)

(** What an event may change. *)
Definition targets (e : event) (c : Canvas) : list Z :=
  match e with
  | MouseMove _ _ _ | KeyMove _ _ | KeyResize _ _ | DeleteSelected => selected_items (selection c)
  | AlignToGrid id | Lock id | Unlock id => [id]
  | _ => []
  end.
Definition selection_ok (s : Selection) (p : BuilderProject) : Prop :=
  NoDup (selected_items s) /\ (forall id, id ∈ selected_items s -> id ∈ item_ids p) /\
  match selected_items s with [] => selected_item s = -1 | _ => selected_item s ∈ selected_items s end.
Definition zoom_ok (c : Canvas) : Prop := SFltb (zoom (view c)) (f_lit 1 1) = false /\ SFltb (f_lit 5 0) (zoom (view c)) = false.
Definition canvas_ok (st : Canvas * BuilderProject) : Prop := ids_ok st.2 /\ 1 <= next_item_id st.2 /\ selection_ok (selection st.1) st.2 /\ zoom_ok st.1.

Lemma update_first_in {A} (f : A -> bool) g (l : list A) x : x ∈ l -> f x = false -> x ∈ update_first f g l.
Proof.
  induction l as [|y l IH]; [done|]. intros [->|H]%elem_of_cons Hf; cbn [update_first].
  - rewrite Hf. by left.
  - destruct (f y); right; [done|by apply IH].
Qed.
Lemma remove_first_in {A} (f : A -> bool) (l : list A) x : x ∈ l -> f x = false -> x ∈ remove_first f l.
Proof.
  induction l as [|y l IH]; [done|]. intros [->|H]%elem_of_cons Hf; cbn [remove_first].
  - rewrite Hf. by left.
  - destruct (f y); [done|]. right. by apply IH.
Qed.
Lemma remove_first_perm (l : list CanvasItem) id i : List.find (fun i => item_id i =? id) l = Some i -> i :: remove_first (fun i => item_id i =? id) l ≡ₚ l.
Proof.
  induction l as [|y l IH]; cbn [List.find remove_first]; [done|]. destruct (item_id y =? id); [by intros [= ->]|]. intros H. rewrite Permutation_swap. by rewrite IH.
Qed.
Lemma change_item_in p id f i : i ∈ items p -> item_id i <> id -> i ∈ items (change_item p id f).
Proof. intros Hi Hn. apply update_first_in; [done|]. by apply Z.eqb_neq. Qed.
Lemma change_all_in f l p i : i ∈ items p -> item_id i ∉ l -> i ∈ items (change_all f l p).
Proof.
  unfold change_all. revert p. induction l as [|id l IH]; intros p Hi Hn; [done|]. apply list.not_elem_of_cons in Hn as [H1 H2]. cbn [foldl].
  apply IH; [|done]. by apply change_item_in.
Qed.
Lemma remove_all_in l p i : i ∈ items p -> item_id i ∉ l -> i ∈ items (foldl project_remove_item p l).
Proof.
  revert p. induction l as [|id l IH]; intros p Hi Hn; [done|]. apply list.not_elem_of_cons in Hn as [H1 H2]. cbn [foldl].
  apply IH; [|done]. apply remove_first_in; [done|]. by apply Z.eqb_neq.
Qed.
Lemma change_all_ids f l p : (forall x, item_id (f x) = item_id x) -> item_ids (change_all f l p) = item_ids p /\ next_item_id (change_all f l p) = next_item_id p.
Proof.
  intros Hf. unfold change_all. revert p. induction l as [|id l IH]; intros p; [done|]. cbn [foldl]. destruct (IH (change_item p id f)) as [-> ->].
  split; [|done]. unfold item_ids. cbn. by apply update_first_map.
Qed.
Lemma remove_all_ids l p : item_ids (foldl project_remove_item p l) `sublist_of` item_ids p /\ next_item_id (foldl project_remove_item p l) = next_item_id p.
Proof.
  revert p. induction l as [|id l IH]; intros p; [done|]. cbn [foldl]. destruct (IH (project_remove_item p id)) as [H ->]. split; [|done].
  etrans; [exact H|]. apply map_sublist, remove_first_sublist.
Qed.

(** The project after an event that gives no new items, or one. *)
Lemma ids_ok_perm p q : item_ids q ≡ₚ item_ids p -> next_item_id q = next_item_id p -> ids_ok p -> ids_ok q.
Proof. unfold ids_ok. intros Hp Hn [Hd Hb]. rewrite Hp, Hn. done. Qed.
Lemma selection_ok_perm s p q : item_ids q ≡ₚ item_ids p -> selection_ok s p -> selection_ok s q.
Proof. unfold selection_ok. intros Hp (Hd & Hi & Hs). split_and!; [done| |done]. intros id H. rewrite Hp. by apply Hi. Qed.
Lemma canvas_ok_perm c c' p q : item_ids q ≡ₚ item_ids p -> next_item_id q = next_item_id p -> selection c' = selection c -> (zoom_ok c -> zoom_ok c') ->
  canvas_ok (c, p) -> canvas_ok (c', q).
Proof.
  intros Hp Hn Hs Hz (H1 & H2 & H3 & H4). unfold canvas_ok in *. cbn [fst snd] in *. rewrite Hs, Hn.
  split_and!; [by eapply ids_ok_perm|done|by eapply selection_ok_perm|by apply Hz].
Qed.
Lemma clamp_ok z : SFltb (clamp_zoom z) (f_lit 1 1) = false /\ SFltb (f_lit 5 0) (clamp_zoom z) = false.
Proof.
  unfold clamp_zoom. destruct (SFltb z (f_lit 1 1)) eqn:E1.
  - destruct (SFltb (f_lit 5 0) (f_lit 1 1)) eqn:E; vm_compute in E; [done|]. by vm_compute.
  - destruct (SFltb (f_lit 5 0) z) eqn:E2; [by vm_compute|]. done.
Qed.
Lemma no_selection_ok p : selection_ok (mkSelection (-1) []) p.
Proof. split_and!; [constructor|by intros id ?%elem_of_nil|done]. Qed.
Lemma last_or_in d x l : last_or d (x :: l) ∈ x :: l.
Proof.
  unfold last_or. destruct (rev (x :: l)) as [|y r] eqn:E; [by apply (f_equal (@length _)) in E; rewrite length_rev in E|].
  rewrite list_elem_of_In, in_rev, E. by left.
Qed.
Lemma toggle_ok id c p : id ∈ item_ids p -> selection_ok (selection c) p -> selection_ok (selection (canvas_toggle_select id c)) p.
Proof.
  intros Hid (Hd & Hi & Hs). unfold canvas_toggle_select, is_selected. destruct (existsb _ _) eqn:E; cbn [selection set_selection]; unfold selection_ok; cbn [selected_items selected_item].
  - pose proof (remove_first_sublist (fun i => i =? id) (selected_items (selection c))) as Hl. split_and!; [by eapply sublist_NoDup|intros j Hj; apply Hi; by eapply elem_of_sublist|].
    destruct (remove_first _ _) as [|x l]; [done|]. apply last_or_in.
  - split_and!.
    + apply list.NoDup_app. split; [done|]. split; [|by apply NoDup_singleton]. intros x Hx ->%list_elem_of_singleton.
      assert (existsb (fun i => i =? id) (selected_items (selection c)) = true) as H by (apply existsb_exists; exists id; split; [by apply list_elem_of_In|apply Z.eqb_refl]).
      by rewrite H in E.
    + intros j [Hj| ->%list_elem_of_singleton]%elem_of_app; [by apply Hi|done].
    + destruct (selected_items (selection c) ++ [id]) eqn:F; [by destruct (selected_items (selection c))|]. rewrite <-F. apply elem_of_app. right. by left.
Qed.
Lemma toggle_keeps id c : view (canvas_toggle_select id c) = view c.
Proof. unfold canvas_toggle_select. by destruct (is_selected c id). Qed.
Lemma banded_ok l p b c : (forall i, i ∈ l -> item_id i ∈ item_ids p) -> selection_ok (selection c) p ->
  let c' := foldl (fun c i => if can_hit i && touches b (screen_rect c (item_rect i)) then canvas_toggle_select (item_id i) c else c) c l in
  selection_ok (selection c') p /\ view c' = view c.
Proof.
  revert c. induction l as [|i l IH]; intros c Hl Hc; [done|]. cbn [foldl].
  assert (forall j, j ∈ l -> item_id j ∈ item_ids p) as Hl' by (intros j Hj; apply Hl; by right).
  destruct (_ && _); [|by apply IH]. destruct (IH (canvas_toggle_select (item_id i) c) Hl') as [H1 H2]; [apply toggle_ok; [apply Hl; by left|done]|].
  split; [done|]. by rewrite H2, toggle_keeps.
Qed.
Lemma hit_item c p x y : canvas_hit_test c p x y = -1 \/ canvas_hit_test c p x y ∈ item_ids p.
Proof.
  unfold canvas_hit_test. destruct (List.find _ _) as [i|] eqn:E; [|by left]. right. apply find_some in E as [H _]. apply in_rev in H.
  apply list_elem_of_fmap_2. by apply list_elem_of_In.
Qed.

(** Only the selection of a canvas changes. *)
Lemma canvas_ok_select c c' p : zoom (view c') = zoom (view c) -> selection_ok (selection c') p -> canvas_ok (c, p) -> canvas_ok (c', p).
Proof. unfold canvas_ok, zoom_ok. cbn [fst snd]. intros -> Hs (H1 & H2 & _ & H4). done. Qed.
Lemma down_ok p x y b c : canvas_ok (c, p) -> canvas_ok ((canvas_mouse_down p x y b c).1, p).
Proof.
  intros H. unfold canvas_mouse_down. destruct (context_menu_open (menu c)); [exact H|]. destruct (b =? 3); [exact H|]. destruct (b =? 2); [exact H|].
  destruct (0 <=? canvas_hit_test c p x y) eqn:E; [|exact H]. destruct (project_find_item p _) as [i|]; [|exact H]. destruct (is_selected c _); [exact H|].
  refine (canvas_ok_select c _ p _ _ H); [done|]. destruct (hit_item c p x y) as [Hn|Hi]; [rewrite Hn in E; done|].
  split_and!; [by apply NoDup_singleton|by intros id ->%list_elem_of_singleton|by left].
Qed.
Lemma change_all_ok f l c c' p : (forall x, item_id (f x) = item_id x) -> selection c' = selection c -> zoom (view c') = zoom (view c) ->
  canvas_ok (c, p) -> canvas_ok (c', change_all f l p).
Proof.
  intros Hf Hs Hz. destruct (change_all_ids f l p Hf) as [H1 H2]. apply canvas_ok_perm; [by rewrite H1|done|done|]. unfold zoom_ok. by rewrite Hz.
Qed.
Lemma change_item_ok id f c p : (forall x, item_id (f x) = item_id x) -> canvas_ok (c, p) -> canvas_ok (c, change_item p id f).
Proof. intros Hf. by apply (change_all_ok f [id]). Qed.
Lemma move_ok x y d st : canvas_ok st -> canvas_ok (canvas_mouse_move x y d st).1.
Proof.
  destruct st as [c p]. intros H. unfold canvas_mouse_move. destruct (negb _); [exact H|]. destruct (negb d); [exact H|].
  cbn [drag set_hovered]. destruct (action (drag c)); try exact H; by apply (change_all_ok _ _ c).
Qed.
Lemma unless_locked_id f x : item_id (unless_locked f x) = item_id x.
Proof. unfold unless_locked. by destruct (locked x). Qed.
Lemma up_ok p c : canvas_ok (c, p) -> canvas_ok (canvas_mouse_up p c, p).
Proof.
  intros H. unfold canvas_mouse_up. match goal with |- canvas_ok (set_drag _ ?x, _) => enough (canvas_ok (x, p)) as H1 by exact H1 end.
  destruct (_ && _); [|exact H]. destruct (_ || _).
  - destruct (banded_ok (items p) p (rubber (drag c)) (canvas_deselect_all c)) as [H1 H2]; [intros i; apply list_elem_of_fmap_2|apply no_selection_ok|].
    refine (canvas_ok_select c _ p _ H1 H). unfold select_banded. by rewrite H2.
  - refine (canvas_ok_select c _ p _ _ H); [done|apply no_selection_ok].
Qed.
Lemma select_all_ok p c : canvas_ok (c, p) -> canvas_ok (canvas_select_all p c, p).
Proof.
  intros H. pose proof H as ([Hd _] & _ & (_ & Hi & Hs) & _). refine (canvas_ok_select c _ p _ _ H); [done|]. cbn [fst snd] in *. unfold selection_ok, canvas_select_all.
  cbn [selection set_selection selected_items selected_item]. fold (item_ids p). split_and!; [done|done|]. destruct (item_ids p) as [|id l]; [|by left].
  destruct (selected_items (selection c)) as [|x l]; [done|]. destruct (elem_of_nil x) as [Hn _]. destruct (Hn (Hi x (list_elem_of_here x l))).
Qed.
Lemma add_ok t x y c p : canvas_ok (c, p) -> canvas_ok (c, canvas_add_widget t x y c p).
Proof.
  intros (Hi & Hn & (Hd & Hin & Hs) & Hz). cbn [fst snd] in *.
  pose proof (ids_ok_edit p (AddItem t (screen_to_canvas_x c x) (screen_to_canvas_y c y) 200 120) Hn Hi) as Ha.
  assert (item_ids (canvas_add_widget t x y c p) = item_ids p ++ [next_item_id p]) as E.
  { unfold canvas_add_widget, project_add_item. cbv zeta. unfold item_ids. cbn [items set_items]. rewrite map_app. reflexivity. }
  assert (next_item_id (canvas_add_widget t x y c p) = next_item_id p + 1) as F by reflexivity.
  unfold canvas_ok. cbn [fst snd]. rewrite F. split_and!; [|lia| |done].
  - revert Ha. apply ids_ok_perm; [|exact F]. rewrite E. unfold item_ids. cbn. by rewrite map_app.
  - split_and!; [done| |done]. intros id H. rewrite E. apply elem_of_app. left. by apply Hin.
Qed.
Lemma canvas_delete_ok st : canvas_ok st -> canvas_ok (canvas_delete_selected st).
Proof.
  destruct st as [c p]. intros ([Hd Hb] & Hn & _ & Hz). cbn [fst snd] in *. destruct (remove_all_ids (selected_items (selection c)) p) as [H1 H2].
  unfold canvas_ok, canvas_delete_selected. cbn [fst snd]. unfold ids_ok. rewrite H2. split_and!; [by eapply sublist_NoDup| |done|apply no_selection_ok|exact Hz].
  rewrite list.Forall_forall in *. intros i Hi. apply Hb. by eapply elem_of_sublist.
Qed.
Lemma order_ok id c p : canvas_ok (c, p) -> canvas_ok (c, canvas_bring_to_front id p) /\ canvas_ok (c, canvas_send_to_back id p).
Proof.
  intros H. unfold canvas_bring_to_front, canvas_send_to_back, project_find_item. split.
  - destruct (List.find _ (items p)) as [i|] eqn:E; [|exact H]. refine (canvas_ok_perm c _ p _ _ _ eq_refl (fun z => z) H); [|done].
    unfold item_ids. cbn [items set_items]. rewrite map_app, Permutation_app_comm. cbn [map app]. change (item_id i :: map item_id ?l) with (map item_id (i :: l)).
    apply Permutation_map. by apply remove_first_perm.
  - destruct (items p) as [|x l] eqn:E; [exact H|]. destruct (List.find _ l) as [i|] eqn:F; [|exact H]. refine (canvas_ok_perm c _ p _ _ _ eq_refl (fun z => z) H); [|done].
    unfold item_ids. cbn [items set_items]. rewrite E. apply Permutation_map. rewrite Permutation_swap. by rewrite remove_first_perm.
Qed.
Lemma clamped_ok z x y c p : canvas_ok (c, p) -> canvas_ok (set_view (mkView (clamp_zoom z) x y) c, p).
Proof. intros (H1 & H2 & H3 & _). unfold canvas_ok. cbn [fst snd]. split_and!; [done|done|done|apply clamp_ok]. Qed.
Lemma canvas_step_ok e st : canvas_ok st -> canvas_ok (step e st).
Proof.
  destruct st as [c p]. intros H. destruct e; cbn [step].
  - by apply down_ok.
  - by apply move_ok.
  - by apply up_ok.
  - by apply clamped_ok, H.
  - apply (change_all_ok _ _ c); [by intros; apply unless_locked_id|done..].
  - apply (change_all_ok _ _ c); [by intros; apply unless_locked_id|done..].
  - by apply canvas_delete_ok.
  - by apply add_ok.
  - by apply select_all_ok.
  - refine (canvas_ok_select c _ p _ _ H); [done|apply no_selection_ok].
  - exact H.
  - exact H.
  - by apply clamped_ok, H.
  - by apply clamped_ok, H.
  - unfold canvas_zoom_to_fit. destruct (_ || _); [exact H|]. by apply clamped_ok.
  - unfold canvas_align_to_grid. destruct (_ <=? 0); [exact H|by apply change_item_ok].
  - by apply order_ok.
  - by apply order_ok.
  - by apply change_item_ok.
  - by apply change_item_ok.
Qed.
Lemma step_frame e c p i : i ∈ items p -> item_id i ∉ targets e c -> i ∈ items (step e (c, p)).2.
Proof.
  intros Hi Hn. destruct e; cbn [step targets] in *; try exact Hi.
  - unfold canvas_mouse_move. destruct (negb _); [exact Hi|]. destruct (negb down); [exact Hi|]. cbn [drag set_hovered].
    destruct (action (drag c)); try exact Hi; by apply change_all_in.
  - by apply change_all_in.
  - by apply change_all_in.
  - by apply remove_all_in.
  - unfold canvas_add_widget, project_add_item. cbn. apply elem_of_app. by left.
  - unfold canvas_align_to_grid. destruct (_ <=? 0); [exact Hi|]. apply change_item_in; [done|]. by apply list.not_elem_of_cons in Hn as [? _].
  - unfold canvas_bring_to_front, project_find_item. destruct (List.find _ _) as [j|] eqn:E; [|exact Hi]. cbn [items set_items snd].
    rewrite Permutation_app_comm. cbn [app]. by rewrite (remove_first_perm _ _ _ E).
  - unfold canvas_send_to_back. destruct (items p) as [|x l] eqn:E; [cbn; by rewrite E|]. destruct (List.find _ l) as [j|] eqn:F; [|cbn; by rewrite E].
    cbn [items set_items snd]. rewrite Permutation_swap. by rewrite (remove_first_perm _ _ _ F).
  - apply change_item_in; [done|]. by apply list.not_elem_of_cons in Hn as [? _].
  - apply change_item_in; [done|]. by apply list.not_elem_of_cons in Hn as [? _].
Qed.

(** C11: whatever is done to a canvas, the items keep distinct identifiers, the
    selection is a list of distinct items of the project with [selected_item] in
    it, the zoom stays between a tenth and five, and an event leaves every item
    as it is but the selected ones, for the keys, the drag and the deletion, or the
    one it names. *)
Theorem canvas_keeps es w h p : ids_ok p -> 1 <= next_item_id p ->
  let st := foldl (fun st e => step e st) (canvas_new w h, p) es in
  ids_ok st.2 /\ selection_ok (selection st.1) st.2 /\ zoom_ok st.1 /\
  forall e i, i ∈ items st.2 -> item_id i ∉ targets e st.1 -> i ∈ items (step e st).2.
Proof.
  intros Hi Hn st. assert (canvas_ok st) as Hst.
  { subst st. assert (canvas_ok (canvas_new w h, p)) as H0 by (split; [exact Hi|]; split; [exact Hn|]; split; [apply no_selection_ok|split; by vm_compute]).
    revert H0. generalize (canvas_new w h, p). induction es as [|e es IH]; intros st H; [done|]. apply IH. by apply canvas_step_ok. }
  destruct Hst as (H1 & _ & H2 & H3). split; [exact H1|]. split; [exact H2|]. split; [exact H3|]. intros e i. destruct st as [c q]. apply step_frame.
Qed.
Definition three_items : BuilderProject :=
  foldl apply_edit (project_new None 800 600) [AddItem "input" 0 0 200 120; AddItem "menu" 240 0 200 120; AddItem "gauge" 0 160 200 120].
Definition busy_hour : list event :=
  [MouseDown 300 50 1; MouseMove 340 90 true; MouseUp; KeyMove 8 0; SelectAll; DeleteSelected; AddWidget "table" 400 300; ZoomIn; MouseDown 5 5 1; MouseMove 790 590 true; MouseUp].
Lemma canvas_keeps_witness : ids_ok three_items /\
  let st := foldl (fun st e => step e st) (canvas_new 800 600, three_items) busy_hour in selected_items (selection st.1) = [4] /\ selection_ok (selection st.1) st.2.
Proof.
  assert (ids_ok three_items) as H.
  { split; [apply (bool_decide_unpack _); vm_compute; exact I|]. apply (bool_decide_unpack _). vm_compute. exact I. }
  split; [exact H|]. split; [vm_compute; reflexivity|].
  destruct (canvas_keeps busy_hour 800 600 three_items H) as (_ & H2 & _); [apply (bool_decide_unpack _); vm_compute; exact I|]. exact H2.
Defined.

(** ** Hit testing *)

(** The item hit is the last one in the list under the pointer. *)
Lemma hit_test_last c p x y :
  let under i := can_hit i = true /\ inside (screen_rect c (item_rect i)) x y = true in
  (canvas_hit_test c p x y = -1 /\ Forall (fun i => ~ under i) (items p)) \/
  exists below i above, items p = below ++ i :: above /\ canvas_hit_test c p x y = item_id i /\ under i /\ Forall (fun j => ~ under j) above.
Proof.
  intros under. unfold canvas_hit_test. set (f := fun i => can_hit i && inside (screen_rect c (item_rect i)) x y).
  assert (forall i, ~ under i <-> f i = false) as Hf by (intros i; unfold under, f; rewrite <-not_true_iff_false, andb_true_iff; done).
  generalize (items p). intros l. induction l as [|i l IH] using rev_ind; [by left|]. rewrite rev_app_distr. cbn [rev app List.find].
  destruct (f i) eqn:E.
  - right. exists l, i, []. split; [done|]. split; [done|]. split; [by apply andb_true_iff in E|constructor].
  - destruct IH as [[H1 H2]|(a & j & b & -> & H1 & H2 & H3)].
    + left. split; [done|]. apply list.Forall_app. split; [done|]. apply list.Forall_singleton. by apply Hf.
    + right. exists a, j, (b ++ [i]). split; [by rewrite <-app_assoc|]. split; [exact H1|]. split; [exact H2|]. apply list.Forall_app. split; [done|]. apply list.Forall_singleton. by apply Hf.
Qed.

(** ** The grid *)

Lemma snap_near v g : 0 < g -> 0 <= v -> exists q, snap_to_grid v g = q * g /\ 2 * Z.abs (snap_to_grid v g - v) <= g.
Proof.
  intros Hg Hv. unfold snap_to_grid, cdiv. rewrite (proj2 (Z.leb_gt _ _) Hg). exists (Z.quot (v + Z.quot g 2) g). split; [done|].
  rewrite (Z.quot_div_nonneg g 2) by lia. assert (0 <= g / 2) by (apply Z.div_pos; lia). rewrite Z.quot_div_nonneg by lia. Z.div_mod_to_equations. nia.
Qed.
Lemma snap_stuck v g d : 3 <= g -> 0 <= v -> (g | v) -> -1 <= d <= 1 -> snap_to_grid (v + d) g = v.
Proof.
  intros Hg Hv [q ->] Hd. unfold snap_to_grid, cdiv. rewrite (proj2 (Z.leb_gt _ _)) by lia. rewrite (Z.quot_div_nonneg g 2) by lia.
  assert (1 <= g / 2 /\ 2 * (g / 2) <= g) as [H1 H2] by (Z.div_mod_to_equations; lia). rewrite Z.quot_div_nonneg by lia.
  replace (q * g + d + g / 2) with (d + g / 2 + q * g) by lia. rewrite Z.div_add by lia. rewrite Z.div_small by (Z.div_mod_to_equations; lia). lia.
Qed.
(** Below zero the nearest line is missed, and a place on the grid is left. *)
Example snap_below_zero : map (fun v => snap_to_grid v 8) [-4; -8; -11; -16; -20] = [0; 0; 0; -8; -16].
Proof. reflexivity. Qed.

(** The items of a project, each replaced by what a function makes of it. *)
Lemma change_item_same p id f : (forall i, i ∈ items p -> f i = i) -> change_item p id f = p.
Proof.
  intros Hf. assert (update_first (fun i => item_id i =? id) f (items p) = items p) as H.
  { revert Hf. induction (items p) as [|i l IH]; intros Hf; [done|]. cbn [update_first]. destruct (item_id i =? id); [by rewrite (Hf i) by by left|].
    f_equal. apply IH. intros j Hj. apply Hf. by right. }
  unfold change_item. rewrite H. by destruct p.
Qed.
Lemma change_all_same p l f : (forall i, i ∈ items p -> f i = i) -> change_all f l p = p.
Proof. intros Hf. unfold change_all. induction l as [|id l IH]; [done|]. cbn [foldl]. by rewrite change_item_same. Qed.
Definition on_grid (g : Z) (i : CanvasItem) : Prop := 0 <= rx (item_rect i) /\ (g | rx (item_rect i)) /\ 0 <= ry (item_rect i) /\ (g | ry (item_rect i)).
(** While the grid is shown, an arrow key moves nothing that is on it: the step of
    one is rounded back. *)
Lemma arrow_keys_stuck c p dx dy : show_grid (grid c) = true -> 3 <= grid_size (grid c) -> -1 <= dx <= 1 -> -1 <= dy <= 1 ->
  Forall (on_grid (grid_size (grid c))) (items p) -> canvas_key_move dx dy c p = p.
Proof.
  intros Hs Hg Hx Hy Hi. unfold canvas_key_move. apply change_all_same. intros i Hin. rewrite list.Forall_forall in Hi. destruct (Hi i Hin) as (H1 & H2 & H3 & H4).
  unfold unless_locked, on_rect, with_rect, snapped. rewrite Hs. cbn [rx ry rw rh]. rewrite !snap_stuck by done. destruct (locked i) eqn:E; [done|]. destruct i as [? ? ? [] ? ? ? ? ?]. cbn in *. by rewrite E.
Qed.

(** ** Dragging *)

Lemma find_all_changed f l p id : (forall x, item_id (f x) = item_id x) -> NoDup l ->
  project_find_item (change_all f l p) id = (if decide (id ∈ l) then f <$> project_find_item p id else project_find_item p id).
Proof.
  intros Hf. unfold change_all. revert p. induction l as [|k l IH]; intros p Hd; [done|]. apply list.NoDup_cons in Hd as [Hk Hd]. cbn [foldl]. rewrite IH by done.
  destruct (decide (id = k)) as [->|Hne].
  - rewrite (decide_False (P := k ∈ l)), (decide_True (P := k ∈ k :: l)) by (done || by left). by apply find_change_same.
  - rewrite find_change_other by done. destruct (decide (id ∈ l)); [by rewrite decide_True by by right|]. rewrite decide_False; [done|]. by intros [?|?]%elem_of_cons.
Qed.
(** Every item of a selection that is moved is put where the one under the pointer goes. *)
Lemma drag_stacks x y c p : action (drag c) = CANVAS_ACTION_MOVE -> dragging (drag c) = true -> NoDup (selected_items (selection c)) ->
  exists a b, forall id i, id ∈ selected_items (selection c) -> project_find_item (canvas_mouse_move x y true (c, p)).1.2 id = Some i ->
    rx (item_rect i) = a /\ ry (item_rect i) = b.
Proof.
  intros Ha Hd Hs. unfold canvas_mouse_move. cbn [drag set_hovered]. rewrite Ha, Hd. cbn [negb fst snd selection grid set_hovered].
  eexists _, _. intros id i Hid. rewrite find_all_changed, decide_True by done. destruct (project_find_item p id) as [j|]; [|done]. intros [= <-].
  unfold on_rect, with_rect, dragged, at_least_20. cbn [item_rect rx ry]. split; reflexivity.
Qed.
(** Resizing moves the side that is held and, unless the item gets too small, no other. *)
Lemma resize_keeps g o dx dy a : a <> CANVAS_ACTION_MOVE ->
  let r := dragged a g o dx dy o in
  20 <= rw r /\ 20 <= rh r /\ (rx r = rx o \/ rx r = rx o + dx) /\ (ry r = ry o \/ ry r = ry o + dy) /\
  (20 <= rw o - dx -> 20 <= rw o -> rx r = rx o \/ rx r + rw r = rx o + rw o) /\ (20 <= rh o - dy -> 20 <= rh o -> ry r = ry o \/ ry r + rh r = ry o + rh o).
Proof.
  intros Ha r. subst r. unfold dragged, at_least_20, at_least.
  destruct a; try done; cbn [rx ry rw rh]; repeat match goal with |- context [?p <? ?q] => destruct (Z.ltb_spec p q) end; lia.
Qed.

(** ** The preview *)

Definition in_buffer (w h i : Z) : Prop := 0 <= i < w * h.
Lemma set_pixels_in color l px n : Z.of_nat (length px) = n -> Forall (fun i => 0 <= i < n) l ->
  exists px', set_pixels color l px = Done px' /\ length px' = length px.
Proof.
  intros <- H. revert px H. induction l as [|i l IH]; intros px H; [by exists px|]. apply list.Forall_cons in H as [Hi Hl]. cbn [set_pixels].
  rewrite (proj2 (Z.ltb_ge _ _)), (proj2 (Z.leb_gt _ _)) by lia. cbn [orb]. destruct (IH (<[Z.to_nat i := color]> px)) as (px' & -> & Hp); [by rewrite length_insert|].
  exists px'. by rewrite Hp, length_insert.
Qed.
Lemma every_below step n : 0 < step -> 0 <= n -> Forall (fun x => 0 <= x < n) (every step n).
Proof.
  intros Hs Hn. unfold every. apply list.Forall_forall. intros x (i & -> & Hi)%list_elem_of_fmap. apply elem_of_seq in Hi.
  assert (Z.of_nat i < (n + step - 1) / step) as H by lia. assert (0 <= Z.of_nat i) by lia. revert H. generalize (Z.of_nat i) H0. intros k Hk H. Z.div_mod_to_equations. nia.
Qed.
Lemma row_in w h row col : 0 <= row < h -> 0 <= col < w -> in_buffer w h (row * w + col).
Proof. unfold in_buffer. nia. Qed.
Lemma table_in {A} (f : A -> Z -> Z) (rows : list A) (cols : A -> list Z) w h :
  (forall r c, r ∈ rows -> c ∈ cols r -> in_buffer w h (f r c)) -> Forall (in_buffer w h) (concat (map (fun r => map (f r) (cols r)) rows)).
Proof.
  intros H. induction rows as [|r rows IH]; [constructor|]. cbn [map concat]. apply list.Forall_app. split.
  - apply list.Forall_forall. intros x (c & -> & Hc)%list_elem_of_fmap. apply H; [by left|done].
  - apply IH. intros r' c Hr Hc. apply H; [by right|done].
Qed.
Lemma grid_lines_in w h step : 0 < step -> 0 <= w -> 0 <= h -> Forall (in_buffer w h) (grid_lines w h step).
Proof.
  intros Hs Hw Hh. unfold grid_lines. apply list.Forall_app. pose proof (every_below step w Hs Hw) as Hx. pose proof (every_below step h Hs Hh) as Hy.
  rewrite list.Forall_forall in Hx, Hy. split.
  - apply (table_in (fun x row => row * w + x) _ (fun _ => seqZ 0 h)). intros x row H1 H2%elem_of_seqZ. apply row_in; [lia|by apply Hx].
  - apply (table_in (fun y col => y * w + col) _ (fun _ => seqZ 0 w)). intros y col H1 H2%elem_of_seqZ. apply row_in; [by apply Hy|lia].
Qed.
Lemma band_frame_in w h b : 0 <= rx b -> 0 <= ry b -> Forall (in_buffer w h) (band_frame w h b).
Proof.
  intros Hx Hy. unfold band_frame.
  apply (table_in (fun row col => row * w + col) _ (fun row => filter (fun col => (row = ry b \/ row = ry b + rh b - 1) \/ (col = rx b \/ col = rx b + rw b - 1)) (seqZ (rx b) (Z.min (rx b + rw b) w - rx b)))).
  intros row col H1%elem_of_seqZ [_ H2%elem_of_seqZ]%list_elem_of_filter. apply row_in; lia.
Qed.
Lemma shades_in px l n : Z.of_nat (length px) = n -> Forall (fun i => 0 <= i < n) l -> exists t, shades px l = Done t /\ length t = length l.
Proof.
  intros <- H. induction l as [|i l IH]; [by exists []|]. apply list.Forall_cons in H as [Hi Hl]. destruct (IH Hl) as (t & E & Ht). cbn [shades].
  rewrite (proj2 (Z.ltb_ge _ _)) by lia. destruct (lookup_lt_is_Some_2 px (Z.to_nat i)) as [x Hx]; [lia|]. rewrite Hx, E. cbn [at_index mbind exec_bind].
  eexists. split; [done|]. cbn [length]. by rewrite Ht.
Qed.
(** A line of the preview: its place and how many characters it has. *)
Definition line_of (w row : Z) (t : RenderTree) : Prop :=
  rect (info t) = rect_new 1 (row + 1) w 1 /\ exists s, u t = RNODE_TEXT (Some s) ALIGN_LEFT /\ strlen s = w.
Lemma preview_lines_in px stride h w rows : Z.of_nat (length px) = stride * h -> 0 <= w <= stride -> Forall (fun r => 0 <= r < h) rows ->
  exists l, preview_lines px stride w rows = Done l /\ Forall2 (line_of w) rows l.
Proof.
  intros Hl Hw H. induction H as [|r rows Hr _ IH]; [by exists []|]. destruct IH as (l & E & H). cbn [preview_lines].
  destruct (shades_in px (map (fun col => r * stride + col) (seqZ 0 w)) _ Hl) as (t & -> & Ht).
  { apply list.Forall_forall. intros i (c & -> & Hc%elem_of_seqZ)%list_elem_of_fmap. nia. }
  rewrite E. cbn [mbind exec_bind]. eexists. split; [done|]. constructor; [|done]. split; [done|]. eexists. split; [reflexivity|].
  unfold strlen. rewrite <-length_chars, list_ascii_of_string_of_list_ascii, Ht, length_map, length_seqZ. lia.
Qed.
Lemma canvas_children_plain c l : show_tab_order (grid c) = false -> exists r, canvas_children c l = Done r.
Proof.
  intros Ht. induction l as [|i l [r IH]]; [by exists []|]. cbn [canvas_children]. rewrite IH. destruct (_ && _); [|by exists r].
  unfold canvas_child. rewrite Ht. cbn. by eexists.
Qed.

Section shown.
Context (paint : option Theme -> RenderTree -> Z -> Z -> list Z -> exec (list Z)) (theme : option Theme).
(** Drawing a tree fills a buffer of [w * h] pixels and writes nothing else. *)
Hypothesis paints : forall th t w h px, Z.of_nat (length px) = w * h -> exists px', paint th t w h px = Done px' /\ length px' = length px.

Lemma canvas_render_ok p c : show_tab_order (grid c) = false ->
  (action (drag c) = CANVAS_ACTION_RUBBER_BAND -> dragging (drag c) = true -> 0 <= rx (rubber (drag c)) /\ 0 <= ry (rubber (drag c))) ->
  exists px w h, canvas_render paint theme p c = Done (set_preview (mkPreview (Some px) w h) c) /\ 1 <= w /\ 1 <= h /\ Z.of_nat (length px) = w * h.
Proof using paints.
  intros Ht Hb. unfold canvas_render, canvas_tree. destruct (canvas_children_plain c (items p) Ht) as [ch ->]. cbn [mbind exec_bind].
  assert (forall z, 1 <= at_least 1 z) as Hal by (intros z; unfold at_least; destruct (Z.ltb_spec z 1); lia).
  set (w := at_least 1 (zoomed c (canvas_w c))). set (h := at_least 1 (zoomed c (canvas_h c))). pose proof (Hal (zoomed c (canvas_w c)) : 1 <= w) as Hw. pose proof (Hal (zoomed c (canvas_h c)) : 1 <= h) as Hh.
  set (tree := match theme with Some _ => _ | None => _ end). clearbody w h tree. pose proof (Z.mul_nonneg_nonneg w h) as Hwh.
  destruct (paints theme tree w h (replicate (Z.to_nat (w * h)) (gcore_rgba 26 26 46 255))) as (px & -> & Hpx); [rewrite length_replicate; lia|].
  rewrite length_replicate in Hpx. assert (Z.of_nat (length px) = w * h) as Hn by lia. clear Hpx. cbn [mbind exec_bind].
  assert (0 < at_least 2 (zoomed c (grid_size (grid c)))) as Hg by (unfold at_least; destruct (Z.ltb_spec (zoomed c (grid_size (grid c))) 2); lia).
  assert (exists px2, (if show_grid (grid c) then set_pixels (gcore_rgba 42 42 74 40) (grid_lines w h (at_least 2 (zoomed c (grid_size (grid c))))) px else Done px : exec (list Z)) = Done px2
    /\ length px2 = length px) as (px2 & -> & H2).
  { destruct (show_grid (grid c)); [|by exists px]. apply (set_pixels_in _ _ _ _ Hn). apply (grid_lines_in w h); lia. }
  cbn [mbind exec_bind]. assert (Z.of_nat (length px2) = w * h) as Hn2 by lia.
  destruct (bool_decide (action (drag c) = CANVAS_ACTION_RUBBER_BAND) && dragging (drag c)) eqn:E.
  - apply andb_true_iff in E as [Ea%bool_decide_eq_true Ed]. destruct (Hb Ea Ed) as [Hx Hy].
    destruct (set_pixels_in (gcore_rgba 233 69 96 255) (band_frame w h (rubber (drag c))) px2 _ Hn2) as (px3 & -> & H3); [by apply band_frame_in|].
    exists px3, w, h. split_and!; [done|done|done|lia].
  - exists px2, w, h. split_and!; [done|done|done|lia].
Qed.

(** The preview is drawn in the memory it has, one line of text for each row,
    unless the tab order is shown or a band is drawn beyond the left or the upper
    edge. *)
Lemma preview_shown p c x y : show_tab_order (grid c) = false -> 0 <= canvas_w c ->
  (action (drag c) = CANVAS_ACTION_RUBBER_BAND -> dragging (drag c) = true -> 0 <= rx (rubber (drag c)) /\ 0 <= ry (rubber (drag c))) ->
  exists c' i w l, canvas_draw_to_tree paint theme p x y c = Done (c', mkTree i (RNODE_CONTAINER None BORDER_SINGLE edgeinsets_zero l)) /\
    Forall2 (line_of w) (seqZ 0 (at_least 1 (Z.min (preview_h (preview c')) (canvas_h c)))) l.
Proof using paints.
  intros Ht Hw Hb. unfold canvas_draw_to_tree. destruct (canvas_render_ok p c Ht Hb) as (px & w & h & -> & Hw1 & Hh1 & Hn). cbn [mbind exec_bind preview set_preview pixels deref preview_w preview_h canvas_w canvas_h].
  destruct (preview_lines_in px w h (Z.min w (canvas_w c)) (seqZ 0 (at_least 1 (Z.min h (canvas_h c)))) Hn) as (l & -> & Hl); [lia| |].
  - apply list.Forall_forall. intros r Hr%elem_of_seqZ. unfold at_least in Hr. destruct (Z.ltb_spec (Z.min h (canvas_h c)) 1); lia.
  - cbn [mbind exec_bind]. eexists _, _, (Z.min w (canvas_w c)), l. split; [reflexivity|]. exact Hl.
Qed.
End shown.

(** A band pulled beyond the edge is drawn in front of the buffer, and the number
    of a menu in the tab order is written over the list of its entries. *)
Definition no_paint (_ : option Theme) (_ : RenderTree) (_ _ : Z) (px : list Z) : exec (list Z) := Done px.
Definition band_at (x y : Z) : Canvas := ((canvas_mouse_move x y true ((canvas_mouse_down (project_new None 8 8) 3 3 1 (canvas_new 8 8)).1, project_new None 8 8)).1).1.
Example band_before_buffer : canvas_render no_paint None (project_new None 8 8) (band_at 6 (-1)) = Fault OutOfBounds /\
  no_fault (canvas_render no_paint None (project_new None 8 8) (band_at 6 7)).
Proof. split; [vm_compute; reflexivity|]. vm_compute. exact I. Qed.
Definition tabbed (t : string) : CanvasItem := mkItem 1 t "item" (mkRect 0 0 20 20) None (-1) 2 false true.
Example tab_order_breaks_list : canvas_child (canvas_toggle_tab_order (canvas_new 8 8)) (tabbed "menu") = Fault OutOfBounds /\
  canvas_child (canvas_toggle_tab_order (canvas_new 8 8)) (tabbed "calendar") = Fault Indeterminate /\
  no_fault (canvas_child (canvas_toggle_tab_order (canvas_new 8 8)) (tabbed "input")).
Proof. split; [vm_compute; reflexivity|]. split; vm_compute; [reflexivity|exact I]. Qed.
