(* ===== verification/PropEditor.v ===== *)
(** The property editor of the builder, src/src/builder/property_editor.c and
    property_editor.h: the fields of the selected item, and the parameter that is
    typed in.

    [field_buf] is the list of its bytes, [field_len] the length of the list: the
    code sets both together. The project the editor points to is passed along. *)

From Stdlib Require Import SpecFloat.
From S2P Require Import Prelude Double CJson CJsonPrint Widget RenderTree Boxes Project Factories.

Module PropEditor.

Record Field := mkField { field_label : string; field_key : string; field_type : Z }.
Record PropertyEditor := mk {
  editing_item_id : Z; field_buf : list ascii; active_field : Z; editing : bool; fields : list Field; scroll_offset : Z
}.
Definition field_len (pe : PropertyEditor) : Z := Z.of_nat (length (field_buf pe)).
Definition field_count (pe : PropertyEditor) : Z := Z.of_nat (length (fields pe)).

Definition prop_editor_new : PropertyEditor := mk (-1) [] 0 false [] 0.

Definition type_number (t : ParamType) : Z := match t with P_INT => 1 | P_BOOL => 2 | P_STR | P_JSON | P_STRS => 0 end.
Definition set_fields (l : list Field) (pe : PropertyEditor) : PropertyEditor :=
  mk (editing_item_id pe) (field_buf pe) (active_field pe) (editing pe) l (scroll_offset pe).
Definition prop_editor_load_fields (p : BuilderProject) (pe : PropertyEditor) : PropertyEditor :=
  let found :=
    if editing_item_id pe <? 0 then []
    else match project_find_item p (editing_item_id pe) with
      | None => []
      | Some item => default [] (widget_get_params (widget_type item))
      end in
  set_fields (map (fun d => mkField (p_name d) (p_name d) (type_number (p_type d))) found) pe.
Definition prop_editor_set_item (p : BuilderProject) (item_id : Z) (pe : PropertyEditor) : PropertyEditor :=
  prop_editor_load_fields p (mk item_id [] 0 false (fields pe) (scroll_offset pe)).

(** ** Drawing *)

(** [params[key]] *)
Definition param_of (item : CanvasItem) (k : string) : option cJSON := cJSON_GetObjectItem (item_params item) k.
Definition field_text (pe : PropertyEditor) (item : CanvasItem) (i : nat) (f : Field) : exec string :=
  let cut s := strtake 511 (field_label f +:+ ": " +:+ s) in
  if (editing pe && (Z.of_nat i =? active_field pe))%bool then Done (cut (of_chars (field_buf pe) +:+ "_"))
  else match param_of item (field_key f) with
    | None => Done (cut "(not set)")
    | Some val =>
        if decide (CJson.type val = cJSON_String) then s ← deref (valuestring val); Done (cut s)
        else if decide (CJson.type val = cJSON_Number) then Done (cut (int_string (valueint val)))
        else if decide (CJson.type val = cJSON_True) then Done (cut "true")
        else if decide (CJson.type val = cJSON_False) then Done (cut "false")
        else match cJSON_PrintUnformatted val with
          | Done js => Done (cut js)
          | Fail => Fault NullDeref
          | Fault e => Fault e
          end
    end.
(** The loop: [room] nodes are left in the array, the node drawn next has the
    index [idx]. *)
Fixpoint field_nodes (pe : PropertyEditor) (item : CanvasItem) (w : Z) (room : nat) (idx : Z) (i : nat) (l : list Field) : exec (list RenderTree) :=
  match room, l with
  | S room', f :: l' =>
      t ← field_text pe item i f;
      rest ← field_nodes pe item w room' (idx + 1) (S i) l';
      Done (child_node (if Z.of_nat i =? active_field pe then "selected" else "normal") (rect_new 0 (idx * 2) w 2) (RNODE_TEXT (Some t) ALIGN_LEFT) :: rest)
  | _, _ => Done []
  end.
Definition editor_box (area : Rect) (children : list RenderTree) : RenderTree :=
  mkTree (set_rect area info_zero) (RNODE_CONTAINER None BORDER_SINGLE (mkInsets 1 1 2 2) children).
Definition no_selection (area : Rect) : RenderTree :=
  mkTree (set_rect (rect_new 0 0 (rw area - 2) 2) info_zero) (RNODE_TEXT (Some "No widget selected"%string) ALIGN_CENTER).
Definition set_scroll (s : Z) (pe : PropertyEditor) : PropertyEditor :=
  mk (editing_item_id pe) (field_buf pe) (active_field pe) (editing pe) (fields pe) s.
Definition visible_rows (area : Rect) : Z := at_least 1 (rh area - 4).
Definition prop_editor_render (p : BuilderProject) (area : Rect) (pe : PropertyEditor) : exec (PropertyEditor * RenderTree) :=
  if editing_item_id pe <? 0 then Done (pe, editor_box area [no_selection area]) else
  match project_find_item p (editing_item_id pe) with
  | None => Done (pe, editor_box area [])
  | Some item =>
      let visible := visible_rows area in
      let total := field_count pe + 2 in
      let pe := set_scroll (at_least 0 (at_most (total - visible) (scroll_offset pe))) pe in
      let child_count := at_most (total + 1) (visible + 1) in
      let header := with_state "title" (child_node "text" (rect_new 0 0 (rw area - 4) 1) (RNODE_TEXT (Some (strtake 127 ("Properties: " +:+ instance_name item))) ALIGN_LEFT)) in
      nodes ← field_nodes pe item (rw area - 4) (Z.to_nat (child_count - 1)) 1 (Z.to_nat (scroll_offset pe)) (drop (Z.to_nat (scroll_offset pe)) (fields pe));
      Done (pe, editor_box area (header :: nodes))
  end.

(** ** Keys *)

Definition set_params (o : option cJSON) (i : CanvasItem) : CanvasItem :=
  mkItem (item_id i) (widget_type i) (instance_name i) (item_rect i) o (parent_id i) (item_tab_index i) (locked i) (visible i).
(** The field with the index [active_field], when it is below [field_count]. *)
Definition current_field (pe : PropertyEditor) : exec (option Field) :=
  if field_count pe <=? active_field pe then Done None
  else if active_field pe <? 0 then Fault OutOfBounds else f ← at_index (fields pe !! Z.to_nat (active_field pe)); Done (Some f).
Definition prop_editor_update_param (pe : PropertyEditor) (p : BuilderProject) : exec BuilderProject :=
  if editing_item_id pe <? 0 then Done p else
  f ← current_field pe;
  match f, project_find_item p (editing_item_id pe) with
  | Some f, Some item =>
      let k := field_key f in
      let o := match param_of item k with Some _ => (fun o => (cJSON_DetachItemFromObject o k).2) <$> item_params item | None => item_params item end in
      let o := if 0 <? field_len pe then (fun o => cJSON_AddStringToObject o k (Some (of_chars (field_buf pe)))) <$> o else o in
      Done (change_item p (editing_item_id pe) (set_params o))
  | _, _ => Done p
  end.

Definition stop_editing (pe : PropertyEditor) : PropertyEditor := mk (editing_item_id pe) (field_buf pe) (active_field pe) false (fields pe) (scroll_offset pe).
Definition set_buf (b : list ascii) (pe : PropertyEditor) : PropertyEditor := mk (editing_item_id pe) b (active_field pe) (editing pe) (fields pe) (scroll_offset pe).
Definition set_active (a : Z) (pe : PropertyEditor) : PropertyEditor := mk (editing_item_id pe) (field_buf pe) a (editing pe) (fields pe) (scroll_offset pe).
Definition start_editing (b : list ascii) (pe : PropertyEditor) : PropertyEditor := mk (editing_item_id pe) b (active_field pe) true (fields pe) (scroll_offset pe).
Definition drop_edit (pe : PropertyEditor) : PropertyEditor := set_buf [] (stop_editing pe).
Definition field_up (pe : PropertyEditor) : PropertyEditor := if 0 <? active_field pe then set_active (active_field pe - 1) pe else pe.
Definition field_down (pe : PropertyEditor) : PropertyEditor := if active_field pe <? field_count pe - 1 then set_active (active_field pe + 1) pe else pe.
(** The text of the parameter, up to 255 bytes of it. *)
Definition current_text (p : BuilderProject) (pe : PropertyEditor) : exec (list ascii) :=
  match project_find_item p (editing_item_id pe) with
  | None => Done []
  | Some item =>
      f ← current_field pe;
      Done (match f with
        | Some f => match param_of item (field_key f) ≫= valuestring with Some s => take 255 (chars s) | None => [] end
        | None => []
        end)
  end.
Definition prop_editor_key (code : KeyCode) (ch : ascii) (st : PropertyEditor * BuilderProject) : exec (PropertyEditor * BuilderProject) :=
  let '(pe, p) := st in
  if editing_item_id pe <? 0 then Done (pe, p)
  else if editing pe then
    match code with
    | KEY_ESC => Done (drop_edit pe, p)
    | KEY_ENTER => p ← prop_editor_update_param pe p; Done (stop_editing pe, p)
    | KEY_UP => Done (drop_edit (field_up pe), p)
    | KEY_DOWN => Done (drop_edit (field_down pe), p)
    | KEY_BACKSPACE => Done (set_buf (take (length (field_buf pe) - 1) (field_buf pe)) pe, p)
    | KEY_CHAR => Done (if (field_len pe <? 254) && (32 <=? schar ch) then (set_buf (field_buf pe ++ [ch]) pe, p) else (pe, p))
    | _ => Done (pe, p)
    end
  else
    match code with
    | KEY_ENTER => b ← current_text p pe; Done (start_editing b pe, p)
    | KEY_UP => Done (field_up pe, p)
    | KEY_DOWN => Done (field_down pe, p)
    | _ => Done (pe, p)
    end.
End PropEditor.
Import PropEditor.

(** ** The fields of an item *)

Definition in_fields (pe : PropertyEditor) : Prop := 0 <= active_field pe /\ (active_field pe < field_count pe \/ active_field pe = 0).
Lemma current_field_runs pe : 0 <= active_field pe -> current_field pe = Done (fields pe !! Z.to_nat (active_field pe)).
Proof.
  intros Ha. unfold current_field, field_count. destruct (Z.leb_spec (Z.of_nat (length (fields pe))) (active_field pe)) as [H|H].
  - by rewrite lookup_ge_None_2 by lia.
  - rewrite (proj2 (Z.ltb_ge _ _) Ha). destruct (lookup_lt_is_Some_2 (fields pe) (Z.to_nat (active_field pe))) as [f Hf]; [lia|]. by rewrite Hf.
Qed.

(** Keys never lead out of the fields, and no run of them goes wrong. *)
Definition key : Type := KeyCode * ascii.
Fixpoint keys (l : list key) (st : PropertyEditor * BuilderProject) : exec (PropertyEditor * BuilderProject) :=
  match l with [] => Done st | (c, ch) :: l' => st ← prop_editor_key c ch st; keys l' st end.
Lemma keys_app a b st : keys (a ++ b) st = (st ← keys a st; keys b st).
Proof.
  revert st. induction a as [|[c ch] a IH]; intros st; [done|]. cbn [keys app]. destruct (prop_editor_key c ch st); [|done..]. apply IH.
Qed.

(** ** Parameters *)

Definition distinct_keys (o : cJSON) : Prop := keyed (child o) /\ NoDup (map CJson.key (child o)).
Lemma found_in_children name l c : find_child name l = Some c -> Some name ∈ map CJson.key l.
Proof.
  induction l as [|x l IH]; cbn [find_child map]; [done|]. destruct (CJson.key x) as [k|] eqn:Hk; [|done].
  destruct (decide (name = k)) as [->|]; [by left|]. intros H. right. by apply IH.
Qed.
Lemma detach_child_gone name l x r : keyed l -> NoDup (map CJson.key l) -> detach_child name l = Some (x, r) -> find_child name r = None /\ keyed r.
Proof.
  intros Hl. revert r. induction Hl as [|c l [kc Hc] Hl IH]; intros r Hd H; cbn [detach_child map] in *; [done|].
  rewrite Hc in *. apply list.NoDup_cons in Hd as [Hn Hd]. destruct (decide (name = kc)) as [->|].
  - injection H as <- <-. split; [|done]. destruct (find_child kc l) eqn:E; [|done]. by apply found_in_children in E.
  - destruct (detach_child name l) as [[y r']|] eqn:E; [|done]. injection H as <- <-. destruct (IH r' Hd eq_refl) as [Hg Hk].
    cbn [find_child]. rewrite Hc, decide_False by done. split; [done|]. by apply List.Forall_cons.
Qed.

(** The object without its value for [k], and with a text for it. *)
Definition without (k : string) (o : cJSON) : cJSON :=
  match cJSON_GetObjectItem (Some o) k with Some _ => (cJSON_DetachItemFromObject o k).2 | None => o end.
Lemma without_spec k o : distinct_keys o ->
  cJSON_GetObjectItem (Some (without k o)) k = None /\ keyed (child (without k o)) /\
  forall k', k' <> k -> cJSON_GetObjectItem (Some (without k o)) k' = cJSON_GetObjectItem (Some o) k'.
Proof.
  unfold without, cJSON_GetObjectItem, get_object_item, cJSON_DetachItemFromObject. intros [Hk Hd]. destruct (find_child k (child o)) as [c|] eqn:E; [|done].
  destruct (detach_child k (child o)) as [[x r]|] eqn:F; [|by apply detach_child_None in F; rewrite F in E].
  destruct (detach_child_gone _ _ _ _ Hk Hd F) as [Hg Hr]. cbn [snd]. replace (child (set_child r o)) with r by (by destruct o). split_and!; [done|done|].
  intros k' Hne. by apply (detach_child_other k k' (child o) x r Hk (not_eq_sym Hne)).
Qed.
Definition text_param (k : string) (t : list ascii) (o : cJSON) : cJSON :=
  match t with [] => without k o | _ => cJSON_AddStringToObject (without k o) k (Some (of_chars t)) end.
(** A member that is a string. *)
Definition string_member (k : string) (t : list ascii) : cJSON := Item cJSON_String (Some (of_chars t)) 0 (S754_zero false) (Some k) [].
Lemma text_param_spec k t o : distinct_keys o ->
  cJSON_GetObjectItem (Some (text_param k t o)) k = match t with [] => None | _ => Some (string_member k t) end /\
  forall k', k' <> k -> cJSON_GetObjectItem (Some (text_param k t o)) k' = cJSON_GetObjectItem (Some o) k'.
Proof.
  intros Ho. destruct (without_spec k o Ho) as (Hn & Hk & Hs). destruct t as [|c t]; cbn [text_param]; [done|].
  set (i := string_member k (c :: t)).
  assert (cJSON_AddStringToObject (without k o) k (Some (of_chars (c :: t))) = set_child (child (without k o) ++ [i]) (without k o)) as -> by done.
  unfold cJSON_GetObjectItem, get_object_item in *. revert Hn Hk Hs. generalize (without k o). intros w Hn Hk Hs.
  replace (child (set_child (child w ++ [i]) w)) with (child w ++ [i]) by (by destruct w). split.
  - by rewrite (find_child_None_app k (child w) i Hk eq_refl Hn).
  - intros k' Hne. rewrite (find_child_app k' (child w) i k Hk eq_refl), Hs, decide_False by done. by destruct (find_child k' (child o)).
Qed.

(** ** Typing a parameter *)

Definition printable (c : ascii) : Prop := 32 <= schar c.
Definition type_in (l : list ascii) : list key := map (fun c => (KEY_CHAR, c)) l.
Lemma type_in_keys l pe p : editing pe = true -> 0 <= editing_item_id pe -> Forall printable l -> field_len pe + Z.of_nat (length l) <= 254 ->
  keys (type_in l) (pe, p) = Done (set_buf (field_buf pe ++ l) pe, p).
Proof.
  unfold type_in, field_len. intros He Hi Hl. revert pe He Hi. induction Hl as [|c l Hc _ IH]; intros pe He Hi Hn.
  - rewrite app_nil_r. by destruct pe.
  - cbn [map keys]. unfold prop_editor_key at 1. rewrite (proj2 (Z.ltb_ge _ _) Hi), He. unfold field_len.
    cbn [length] in Hn. rewrite (proj2 (Z.ltb_lt _ _)) by lia. unfold printable in Hc. rewrite (proj2 (Z.leb_le _ _) Hc). cbn [andb mbind exec_bind].
    rewrite IH; [|done|done|cbn [field_buf set_buf]; rewrite length_app; cbn [length]; lia]. cbn [field_buf set_buf]. by rewrite <-app_assoc.
Qed.
Lemma enter_edits pe p item f : editing pe = false -> 0 <= editing_item_id pe -> 0 <= active_field pe ->
  project_find_item p (editing_item_id pe) = Some item -> fields pe !! Z.to_nat (active_field pe) = Some f ->
  prop_editor_key KEY_ENTER NUL (pe, p) =
  Done (start_editing (match param_of item (field_key f) ≫= valuestring with Some s => take 255 (chars s) | None => [] end) pe, p).
Proof.
  intros He Hi Ha Hp Hf. unfold prop_editor_key, current_text. rewrite (proj2 (Z.ltb_ge _ _) Hi), He, Hp, current_field_runs, Hf by done. done.
Qed.
Lemma enter_stores pe p item f o : editing pe = true -> 0 <= editing_item_id pe -> 0 <= active_field pe ->
  project_find_item p (editing_item_id pe) = Some item -> fields pe !! Z.to_nat (active_field pe) = Some f -> item_params item = Some o ->
  prop_editor_key KEY_ENTER NUL (pe, p) =
  Done (stop_editing pe, change_item p (editing_item_id pe) (set_params (Some (text_param (field_key f) (field_buf pe) o)))).
Proof.
  intros He Hi Ha Hp Hf Ho. unfold prop_editor_key, prop_editor_update_param, param_of.
  rewrite (proj2 (Z.ltb_ge _ _) Hi), He, current_field_runs, Hf, Hp, Ho by done. cbn [mbind exec_bind]. unfold text_param, without, field_len.
  destruct (cJSON_GetObjectItem (Some o) (field_key f)); destruct (field_buf pe); reflexivity.
Qed.

(** C12: a parameter of an item is set by typing: Enter on a field shows the text
    it has (none for a number or a truth value), the characters typed are put behind
    it, and Enter replaces the parameter by a string with the result, or removes
    it when nothing is left. Every other parameter of the item and every other
    item stay as they were; Escape leaves the project alone. The item is there and its
    parameters are an object whose members have distinct names; the characters
    have the codes 32 to 127, for no others are taken (a letter outside ASCII cannot
    be typed); and at most 254 bytes are in the field in the end. *)
Theorem parameter_typed pe p item f o l :
  editing pe = false -> 0 <= editing_item_id pe -> 0 <= active_field pe -> fields pe !! Z.to_nat (active_field pe) = Some f ->
  project_find_item p (editing_item_id pe) = Some item -> item_params item = Some o -> distinct_keys o -> Forall printable l ->
  let old := match param_of item (field_key f) ≫= valuestring with Some s => take 255 (chars s) | None => [] end in
  Z.of_nat (length old + length l) <= 254 ->
  keys ((KEY_ENTER, NUL) :: type_in l ++ [(KEY_ESC, NUL)]) (pe, p) = Done (set_buf [] pe, p) /\
  exists p' o', keys ((KEY_ENTER, NUL) :: type_in l ++ [(KEY_ENTER, NUL)]) (pe, p) = Done (set_buf (old ++ l) pe, p') /\
    project_find_item p' (editing_item_id pe) = Some (set_params (Some o') item) /\
    (forall id, id <> editing_item_id pe -> project_find_item p' id = project_find_item p id) /\
    cJSON_GetObjectItem (Some o') (field_key f) = match old ++ l with [] => None | _ => Some (string_member (field_key f) (old ++ l)) end /\
    (forall k, k <> field_key f -> cJSON_GetObjectItem (Some o') k = cJSON_GetObjectItem (Some o) k).
Proof.
  intros He Hi Ha Hf Hp Ho Hd Hl old Hn. cbn [keys]. rewrite (enter_edits pe p item f He Hi Ha Hp Hf). fold old. cbn [mbind exec_bind].
  assert (keys (type_in l) (start_editing old pe, p) = Done (start_editing (old ++ l) pe, p)) as Ht.
  { rewrite (type_in_keys l (start_editing old pe) p eq_refl Hi Hl); [done|]. unfold field_len. cbn [field_buf start_editing]. lia. }
  rewrite !keys_app, Ht. cbn [mbind exec_bind keys]. split.
  { unfold prop_editor_key. cbn [editing editing_item_id start_editing]. rewrite (proj2 (Z.ltb_ge _ _) Hi). destruct pe. cbn in He. by subst. }
  rewrite (enter_stores (start_editing (old ++ l) pe) p item f o eq_refl Hi Ha Hp Hf Ho). cbn [mbind exec_bind field_buf editing_item_id start_editing].
  eexists _, (text_param (field_key f) (old ++ l) o). split; [destruct pe; cbn in He; by subst|].
  destruct (text_param_spec (field_key f) (old ++ l) o Hd) as [H3 H4]. split; [by rewrite find_change_same, Hp|]. split; [by intros; apply find_change_other|]. split; [exact H3|exact H4].
Qed.

(** The editor of an item whose type has descriptions, before any key. *)
Definition sample : BuilderProject * CanvasItem := project_add_item (project_new None 800 600) "input" 0 0 200 120.
Definition sample_editor : PropertyEditor := prop_editor_set_item sample.1 1 prop_editor_new.
Lemma parameter_typed_witness :
  editing sample_editor = false /\ fields sample_editor !! 0%nat = Some (mkField "title" "title" 0) /\
  exists p' o', keys ((KEY_ENTER, NUL) :: type_in (chars " two") ++ [(KEY_ENTER, NUL)]) (sample_editor, sample.1) = Done (set_buf (chars "input two") sample_editor, p') /\
    project_find_item p' 1 = Some (set_params (Some o') sample.2) /\ cJSON_GetObjectItem (Some o') "title" = Some (string_member "title" (chars "input two")).
Proof.
  split; [reflexivity|]. split; [reflexivity|].
  edestruct (parameter_typed sample_editor sample.1 sample.2 (mkField "title" "title" 0) (default cJSON_CreateObject (item_params sample.2)) (chars " two"))
    as [_ (p' & o' & H1 & H2 & _ & H3 & _)].
  - reflexivity.
  - done.
  - done.
  - reflexivity.
  - reflexivity.
  - reflexivity.
  - split; [apply (bool_decide_unpack _); vm_compute; exact I|]. apply (bool_decide_unpack _). vm_compute. exact I.
  - repeat constructor; by apply (bool_decide_unpack _).
  - apply (bool_decide_unpack _). vm_compute. exact I.
  - exists p', o'. split; [exact H1|]. split; [exact H2|exact H3].
Defined.

(** ** The box *)

Lemma field_nodes_length pe item w room idx i l r : field_nodes pe item w room idx i l = Done r -> (length r <= room)%nat /\ (length r <= length l)%nat.
Proof.
  revert idx i l r. induction room as [|room IH]; intros idx i l r H; [injection H as <-; split; [done|apply Nat.le_0_l]|].
  destruct l as [|f l]; [injection H as <-; split; [apply Nat.le_0_l|done]|].
  cbn [field_nodes] in H. apply exec_bind_Done in H as (t & _ & H). apply exec_bind_Done in H as (r' & Hr & H). injection H as <-.
  destruct (IH _ _ _ _ Hr). cbn [length]. lia.
Qed.
(** The nodes fit into the array allocated for them, whatever the size of the area. *)
Lemma editor_children_fit p area pe pe' t : prop_editor_render p area pe = Done (pe', t) ->
  match u t with RNODE_CONTAINER _ _ _ l => Z.of_nat (length l) <= Z.max 1 (at_most (field_count pe + 3) (visible_rows area + 1)) | _ => False end.
Proof.
  unfold prop_editor_render. destruct (editing_item_id pe <? 0); [intros [= <- <-]; cbn; lia|].
  destruct (project_find_item p (editing_item_id pe)) as [item|]; [|intros [= <- <-]; cbn; lia].
  intros (nodes & Hn & H)%exec_bind_Done. injection H as <- <-. apply field_nodes_length in Hn as [Hn _]. cbn [editor_box u length].
  change (field_count (set_scroll _ pe)) with (field_count pe) in Hn. replace (field_count pe + 2 + 1) with (field_count pe + 3) in Hn by lia. lia.
Qed.

(** A field takes two rows of the box and is counted as one: in a box of ten rows
    that is said to show six fields the last of them lies below the frame. And
    nothing but drawing moves [scroll_offset], which starts at the top: the
    field that is active can be one that is not shown. *)
Definition tall_box : exec (list Z) :=
  '(_, t) ← prop_editor_render sample.1 (mkRect 0 0 40 10) sample_editor;
  Done (match u t with RNODE_CONTAINER _ _ _ l => map (fun n => ry (rect (info n)) + rh (rect (info n))) l | _ => [] end).
Example fields_leave_box : tall_box = Done [1; 4; 6; 8; 10; 12; 14].
Proof. vm_compute. reflexivity. Qed.
Lemma keys_keep_scroll c ch pe p pe' p' : prop_editor_key c ch (pe, p) = Done (pe', p') -> scroll_offset pe' = scroll_offset pe.
Proof.
  unfold prop_editor_key. destruct (editing_item_id pe <? 0); [by intros [= <- <-]|].
  destruct (editing pe), c; try (by intros [= <- <-]); try (intros (x & _ & [= <- <-])%exec_bind_Done; done).
  - unfold drop_edit, field_up. destruct (0 <? active_field pe); by intros [= <- <-].
  - unfold drop_edit, field_down. destruct (active_field pe <? field_count pe - 1); by intros [= <- <-].
  - destruct (_ && _); by intros [= <- <-].
  - unfold field_up. destruct (0 <? active_field pe); by intros [= <- <-].
  - unfold field_down. destruct (active_field pe <? field_count pe - 1); by intros [= <- <-].
Qed.
