(* ===== verification/Builder.v ===== *)
(** The front end of the builder, src/src/builder/filly_build.c: the widget that
    puts the palette, the canvas, the connection graph and the property editor
    next to each other, and the program that exports a project.

    The project that all of them point to is the one in the graph. Which files can
    be opened is an argument, and what is written is kept in a list; the regular
    expressions of the validator and the drawing of pixels are arguments. *)

From Stdlib Require Import SpecFloat.
From S2P Require Import Prelude Double CJson Undo Protocol Widget RenderTree Layout Session Animation Theme Boxes Project Fil Validator Graph Factories Codegen Canvas PropEditor.

Module Builder.

(** ** State *)

Inductive BuilderMode := MODE_EDIT | MODE_WIRE | MODE_PREVIEW | MODE_TUI_PREVIEW.
#[global] Instance BuilderMode_eq_dec : EqDecision BuilderMode.
Proof. solve_decision. Defined.
Record Panes := mkPanes { mode : BuilderMode; active_pane : Z; palette_idx : Z; palette_types : list string }.
Record Checks := mkChecks { last_report : option ValidationReport; show_validation : bool; validation_scroll : Z }.
Record Disk := mkDisk { project_dirty : bool; file_path : option string; written : list (string * list ascii) }.
Record BuilderApp := mkApp {
  wb : WidgetBase; canvas : Canvas.Canvas; graph : ConnectionGraph; prop_editor : PropEditor.PropertyEditor;
  panes : Panes; checks : Checks; disk : Disk; status_message : option string; keymap_editing : bool
}.
Definition project (a : BuilderApp) : BuilderProject := Graph.project (graph a).
Definition set_wb (b : WidgetBase) (a : BuilderApp) : BuilderApp := mkApp b (canvas a) (graph a) (prop_editor a) (panes a) (checks a) (disk a) (status_message a) (keymap_editing a).
Definition set_canvas (c : Canvas.Canvas) (a : BuilderApp) : BuilderApp := mkApp (wb a) c (graph a) (prop_editor a) (panes a) (checks a) (disk a) (status_message a) (keymap_editing a).
Definition set_graph (g : ConnectionGraph) (a : BuilderApp) : BuilderApp := mkApp (wb a) (canvas a) g (prop_editor a) (panes a) (checks a) (disk a) (status_message a) (keymap_editing a).
Definition set_editor (e : PropEditor.PropertyEditor) (a : BuilderApp) : BuilderApp := mkApp (wb a) (canvas a) (graph a) e (panes a) (checks a) (disk a) (status_message a) (keymap_editing a).
Definition set_panes (p : Panes) (a : BuilderApp) : BuilderApp := mkApp (wb a) (canvas a) (graph a) (prop_editor a) p (checks a) (disk a) (status_message a) (keymap_editing a).
Definition set_checks (c : Checks) (a : BuilderApp) : BuilderApp := mkApp (wb a) (canvas a) (graph a) (prop_editor a) (panes a) c (disk a) (status_message a) (keymap_editing a).
Definition set_disk (d : Disk) (a : BuilderApp) : BuilderApp := mkApp (wb a) (canvas a) (graph a) (prop_editor a) (panes a) (checks a) d (status_message a) (keymap_editing a).
Definition set_status (s : option string) (a : BuilderApp) : BuilderApp := mkApp (wb a) (canvas a) (graph a) (prop_editor a) (panes a) (checks a) (disk a) s (keymap_editing a).
Definition set_keymap_editing (b : bool) (a : BuilderApp) : BuilderApp := mkApp (wb a) (canvas a) (graph a) (prop_editor a) (panes a) (checks a) (disk a) (status_message a) b.
Definition set_project (p : BuilderProject) (a : BuilderApp) : BuilderApp := set_graph (Graph.set_project p (graph a)) a.
(** [app->base.dirty = true] and [app->project_dirty = ...] *)
Definition redraw (a : BuilderApp) : BuilderApp := set_wb (base_set_dirty true (wb a)) a.
Definition set_dirty (d : bool) (a : BuilderApp) : BuilderApp := set_disk (mkDisk d (file_path (disk a)) (written (disk a))) a.
Definition set_mode (m : BuilderMode) (pane : Z) (a : BuilderApp) : BuilderApp := set_panes (mkPanes m pane (palette_idx (panes a)) (palette_types (panes a))) a.
Definition set_palette_idx (i : Z) (a : BuilderApp) : BuilderApp := set_panes (mkPanes (mode (panes a)) (active_pane (panes a)) i (palette_types (panes a))) a.
Definition set_scroll (s : Z) (a : BuilderApp) : BuilderApp := set_checks (mkChecks (last_report (checks a)) (show_validation (checks a)) s) a.

(** ** The palette *)

Definition widget_categories : list (list string) := [
  ["input"; "password"; "form"; "text_editor"; "file_picker"];
  ["menu"; "checklist"; "multiselect"; "filter"; "radio_group"; "calendar"; "color_picker"; "range_slider"];
  ["msg"; "summary"; "notification"; "badge"; "tooltip"; "rich_text"; "spinner"; "separator"; "gauge"];
  ["toggle"; "checkbox"; "yesno"; "button"];
  ["tabs"; "split_panes"; "hub"];
  ["progress"; "disk"; "table"; "tree"; "context_menu"; "terminal_emulator"; "widget_builder"; "macro_recorder"]]%string.
Definition is_in_categories (name : string) : bool := existsb (fun c => existsb (fun n => bool_decide (n = name)) c) widget_categories.
(** [names] is what [widget_registry_enum] gives, one after another; the array has
    one place for each of them. *)
Definition populate_palette (names : list string) : exec (list string) :=
  let known := filter (fun n => n ∈ names) (concat widget_categories) in
  let palette := known ++ filter (fun n => is_in_categories n = false) names in
  if (length palette <=? length names)%nat then Done palette else Fault OutOfBounds.

(** ** Status and validation *)

Definition severity_count (s : ValidationSeverity) (a : BuilderApp) : Z :=
  Z.of_nat (length (filter (fun i => severity i = s) (default [] (last_report (checks a))))).
Definition mode_name (m : BuilderMode) : string :=
  match m with MODE_EDIT => "Edit" | MODE_WIRE => "Wire" | MODE_PREVIEW => "Preview" | MODE_TUI_PREVIEW => "TUI" end.
Definition status_text (a : BuilderApp) : string :=
  let p := project a in
  let count {A} (l : list A) := int_string (Z.of_nat (length l)) in
  strtake 511 (project_name p +:+ " | " +:+ count (items p) +:+ " items | " +:+ count (nodes p) +:+ " nodes | " +:+ count (edges p) +:+ " edges | " +:+
    int_string (severity_count V_ERROR a) +:+ "E " +:+ int_string (severity_count V_WARNING a) +:+ "W " +:+ int_string (severity_count V_INFO a) +:+ "I | " +:+
    mode_name (mode (panes a)) +:+ " | " +:+ (if project_dirty (disk a) then "MODIFIED" else "saved")).
Definition update_status (a : BuilderApp) : BuilderApp := set_status (Some (status_text a)) a.

Section builder.
Context (regcomp : string -> bool) (regexec : string -> string -> bool) (fopen : string -> bool).
Context (paint : option Theme -> RenderTree -> Z -> Z -> list Z -> exec (list Z)) (g_active_theme : option Theme).

Definition run_validation (a : BuilderApp) : exec BuilderApp :=
  r ← validator_check_all regcomp regexec (project a);
  Done (set_checks (mkChecks (Some r) (show_validation (checks a)) (validation_scroll (checks a))) a).
(** [project_save], and a file that cannot be opened. *)
Definition save_to (path : string) (a : BuilderApp) : exec BuilderApp :=
  text ← project_save (project a);
  Done (if fopen path then set_disk (mkDisk (project_dirty (disk a)) (file_path (disk a)) (written (disk a) ++ [(path, chars text)])) a else a).
Definition untitled : string := "untitled.filly-project".
Definition export_to (dir : string) (a : BuilderApp) : exec BuilderApp :=
  g ← Codegen.codegen_c_plugin fopen (Some (project a)) (Some dir);
  Done (set_disk (mkDisk (project_dirty (disk a)) (file_path (disk a)) (written (disk a) ++ Codegen.files g)) a).

(** ** Keys of the panes *)

Definition handle_palette_key (code : KeyCode) (a : BuilderApp) : exec BuilderApp :=
  let i := palette_idx (panes a) in
  match code with
  | KEY_UP => Done (if 0 <? i then redraw (set_palette_idx (i - 1) a) else a)
  | KEY_DOWN => Done (if i <? Z.of_nat (length (palette_types (panes a))) - 1 then redraw (set_palette_idx (i + 1) a) else a)
  | KEY_ENTER =>
      t ← get (palette_types (panes a)) i;
      let c := canvas a in
      let p := Canvas.canvas_add_widget t (cdiv (Canvas.canvas_w c) 2) (cdiv (Canvas.canvas_h c) 2) c (project a) in
      item ← get (items p) (Z.of_nat (length (items p)) - 1);
      Done (redraw (set_dirty true (set_project (project_add_node p (item_id item)).1 a)))
  | _ => Done a
  end.

Definition move_selected (dx dy : Z) (a : BuilderApp) : BuilderApp :=
  set_dirty true (set_project (Canvas.canvas_key_move dx dy (canvas a) (project a)) a).
Definition delete_selected (a : BuilderApp) : BuilderApp :=
  let '(c, p) := Canvas.canvas_delete_selected (canvas a, project a) in set_dirty true (set_project p (set_canvas c a)).
Definition canvas_char (ch : Z) (p : BuilderProject) (c : Canvas.Canvas) : Canvas.Canvas :=
  let zoom := Canvas.zoom (Canvas.view c) in
  if ch =? 43 then if SFltb zoom (f_lit 5 0) then Canvas.canvas_zoom_in c else c
  else if ch =? 45 then if SFltb (f_lit 1 1) zoom then Canvas.canvas_zoom_out c else c
  else if ch =? 48 then Canvas.canvas_zoom_to_fit p c
  else if ch =? 103 then Canvas.canvas_toggle_grid c
  else if ch =? 116 then Canvas.canvas_toggle_tab_order c
  else if ch =? 97 then Canvas.canvas_select_all p c
  else c.
Definition handle_canvas_key (code : KeyCode) (ch : Z) (a : BuilderApp) : BuilderApp :=
  redraw match code with
    | KEY_UP => move_selected 0 (-1) a
    | KEY_DOWN => move_selected 0 1 a
    | KEY_LEFT => move_selected (-1) 0 a
    | KEY_RIGHT => move_selected 1 0 a
    | KEY_DELETE => delete_selected a
    | KEY_CHAR => set_canvas (canvas_char ch (project a) (canvas a)) a
    | _ => a
    end.
Definition char_of (ch : Z) : ascii := ascii_of_N (Z.to_N (u8 ch)).
Definition handle_prop_key (code : KeyCode) (ch : Z) (a : BuilderApp) : exec BuilderApp :=
  '(e, p) ← PropEditor.prop_editor_key code (char_of ch) (prop_editor a, project a);
  Done (redraw (set_dirty true (set_project p (set_editor e a)))).
Definition handle_graph_key (code : KeyCode) (ch : Z) (a : BuilderApp) : exec BuilderApp :=
  g ← graph_key (graph a) code (char_of ch);
  Done (redraw (set_dirty true (set_graph g a))).

(** ** Drawing *)

Definition toolbar_text : string :=
  "F1:Edit F2:Wire F3:Preview F4:TUI Tab:Cycle Ctrl+S:Save Ctrl+E:Export Ctrl+V:Validate Del:Delete +/-:Zoom Esc:Quit".
Definition NL : string := String "010" EmptyString.
Definition preview_text (m : BuilderMode) : string :=
  match m with
  | MODE_TUI_PREVIEW => "TUI Preview Mode" +:+ NL +:+ NL +:+ "This mode shows how your layout renders in a terminal." +:+ NL +:+ "Press F1 to return to edit mode."
  | _ => "Live Preview Mode" +:+ NL +:+ NL +:+ "This is how your interface will look to users." +:+ NL +:+ "Press F1 to return to edit mode."
  end.
Definition hint (a : BuilderApp) : string :=
  if (bool_decide (mode (panes a) = MODE_WIRE) && (0 <=? wire_start_node (wire (graph a))))%bool then "Drawing wire... click an input port to connect (Esc to cancel)"
  else if editing_edge (Graph.editing (graph a)) then of_chars (map ascii_of_nat [69; 100; 105; 116; 105; 110; 103; 32; 101; 100; 103; 101; 32; 226; 128; 148]%nat) +:+ " press Enter to confirm, Esc to cancel"
  else if keymap_editing a then "Press the key to bind, or Esc to cancel"
  else "Right-click items for context menu | Double-click edges to edit FIL".
Definition graph_bar (area : Rect) (a : BuilderApp) : RenderTree := child_node "muted" (rect_new 0 (rh area - 5) (rw area) 1) (RNODE_TEXT (Some (hint a)) ALIGN_LEFT).
(** The status line is written over a node: what is not set stays. *)
Definition status_over (area : Rect) (s : option string) (t : RenderTree) : RenderTree :=
  mkTree (set_state "muted" (set_class "text" (set_rect (rect_new 0 (rh area - 1) (rw area) 1) (info t)))) (RNODE_TEXT s ALIGN_LEFT).

Definition severity_name (s : ValidationSeverity) : string := match s with V_ERROR => "ERR" | V_WARNING => "WARN" | V_INFO => "INFO" end.
(** The messages of the validator have at most 511 characters, and two of them fit
    into the 2048 of the text. *)
Definition validation_text (r : ValidationReport) (scroll : Z) : string :=
  "Validation (" +:+ int_string (Z.of_nat (length r)) +:+ " issues):" +:+ NL +:+
  String.concat EmptyString (map (fun i => "  [" +:+ severity_name (severity i) +:+ "] " +:+ message i +:+ NL) (take 2 (drop (Z.to_nat scroll) r))).
Definition empty_node : RenderTree := mkTree info_zero (RNODE_CONTAINER None BORDER_NONE edgeinsets_zero []).
Definition validation_pane (area : Rect) (a : BuilderApp) : RenderTree :=
  match show_validation (checks a), last_report (checks a) with
  | true, Some (i :: r) => child_node "text" (rect_new 0 (rh area - 4) (rw area) 3) (RNODE_TEXT (Some (validation_text (i :: r) (validation_scroll (checks a)))) ALIGN_LEFT)
  | _, _ => empty_node
  end.

Definition render_center (w h : Z) (a : BuilderApp) : exec (BuilderApp * RenderTree) :=
  let text := Done (a, child_node "text" (rect_new 0 0 w h) (RNODE_TEXT (Some (preview_text (mode (panes a)))) ALIGN_CENTER)) in
  let edit := '(c, t) ← Canvas.canvas_draw_to_tree paint g_active_theme (project a) 0 0 (canvas a); Done (set_canvas c a, t) in
  match mode (panes a) with MODE_PREVIEW | MODE_TUI_PREVIEW => text | MODE_EDIT | MODE_WIRE => edit end.
Definition render_right (area : Rect) (a : BuilderApp) : exec (BuilderApp * RenderTree) :=
  match mode (panes a) with
  | MODE_WIRE => t ← graph_render (graph a) area; Done (a, t)
  | _ =>
      let e := PropEditor.prop_editor_set_item (project a) (Canvas.selected_item (Canvas.selection (canvas a))) (prop_editor a) in
      '(e, t) ← PropEditor.prop_editor_render (project a) area e;
      Done (set_editor e a, t)
  end.
Definition builder_render (area : Rect) (a : BuilderApp) : exec (BuilderApp * RenderTree) :=
  let toolbar := with_state "muted" (child_node "text" (rect_new 0 0 (rw area) 1) (RNODE_TEXT (Some toolbar_text) ALIGN_LEFT)) in
  let main_h := if show_validation (checks a) then rh area - 8 else rh area - 3 in
  let left_w := at_least 20 (cdiv (rw area * 20) 100) in
  let center_w := at_least 40 (cdiv (rw area * 55) 100) in
  let right_w := at_least 20 (rw area - left_w - center_w) in
  let left := child_node "list" (rect_new 0 0 left_w main_h) (RNODE_LIST (map (fun s => listitem_new (Some s)) (palette_types (panes a))) (palette_idx (panes a))) in
  '(a, center) ← render_center center_w main_h a;
  '(a, right) ← render_right (rect_new 0 0 right_w main_h) a;
  let main := mkTree (set_rect (rect_new 0 1 (rw area) main_h) info_zero)
    (RNODE_SPLIT_PANES ORIENT_HORIZONTAL left_w (left_w + center_w) (Some left) (Some center) (Some right)) in
  let bar := graph_bar area a in
  let pane := validation_pane area a in
  let a := update_status a in
  Done (a, mkTree (set_rect area info_zero) (RNODE_CONTAINER None BORDER_SINGLE edgeinsets_zero [toolbar; main; status_over area (status_message a) bar; pane])).

(** ** Events *)

Definition key_name (ev : Event) : string :=
  let code := Widget.code ev in
  match code with
  | KEY_ENTER => "Enter" | KEY_ESC => "Escape" | KEY_TAB => "Tab" | KEY_UP => "Up" | KEY_DOWN => "Down" | KEY_LEFT => "Left" | KEY_RIGHT => "Right"
  | KEY_BACKSPACE => "Backspace" | KEY_DELETE => "Delete"
  | KEY_F1 => "F1" | KEY_F2 => "F2" | KEY_F3 => "F3" | KEY_F4 => "F4" | KEY_F5 => "F5" | KEY_F6 => "F6" | KEY_F7 => "F7" | KEY_F8 => "F8" | KEY_F9 => "F9"
  | KEY_F10 => "F10" | KEY_F11 => "F11" | KEY_F12 => "F12"
  | KEY_CHAR => if 0 <? ch ev then String (char_of (ch ev)) EmptyString else EmptyString
  | _ => EmptyString
  end.
Definition answered (r : EventResult) (a : BuilderApp) : exec (BuilderApp * EventResult) := Done (a, r).
Definition handled (a : BuilderApp) : exec (BuilderApp * EventResult) := answered event_result_handled (redraw a).
Definition unhandled (a : BuilderApp) : exec (BuilderApp * EventResult) := answered event_result_unhandled a.

Definition handle_keymap (ev : Event) (a : BuilderApp) : exec (BuilderApp * EventResult) :=
  match Widget.type ev, Widget.code ev with
  | EVENT_KEY, KEY_ESC => handled (set_keymap_editing false a)
  | EVENT_KEY, _ =>
      let a := match key_name ev with
        | EmptyString => a
        | n => set_dirty true (set_project (project_add_keymap (project a) 0 (-1) n "custom") a)
        end in
      handled (set_keymap_editing false a)
  | _, _ => unhandled a
  end.

Definition handle_save (a : BuilderApp) : exec (BuilderApp * EventResult) :=
  let path := default untitled (file_path (disk a)) in
  let a := set_disk (mkDisk (project_dirty (disk a)) (Some path) (written (disk a))) a in
  a ← save_to path a;
  a ← run_validation (set_dirty false a);
  handled a.
Definition has_errors (r : ValidationReport) : bool := existsb (fun i => bool_decide (severity i = V_ERROR)) r.
Definition handle_export (a : BuilderApp) : exec (BuilderApp * EventResult) :=
  a ← run_validation a;
  a ← match last_report (checks a) with
    | Some r => if has_errors r then Done a else export_to (project_name (project a)) a
    | None => export_to (project_name (project a)) a
    end;
  handled a.
Definition handle_validate (a : BuilderApp) : exec (BuilderApp * EventResult) :=
  a ← run_validation a;
  handled (set_checks (mkChecks (last_report (checks a)) (negb (show_validation (checks a))) 0) a).
(** The commands, in every pane and every mode. *)
Definition command (ch : Z) : option (BuilderApp -> exec (BuilderApp * EventResult)) :=
  if (ch =? 115) || (ch =? 83) then Some handle_save
  else if (ch =? 101) || (ch =? 69) then Some handle_export
  else if (ch =? 118) || (ch =? 86) then Some handle_validate
  else if (ch =? 107) || (ch =? 75) then Some (fun a => handled (set_keymap_editing true a))
  else None.

Definition stop_wire (a : BuilderApp) : BuilderApp :=
  let w := wire (graph a) in set_graph (set_wire (mkWire (-1) (-1) (wire_end_x w) (wire_end_y w)) (graph a)) a.
Definition handle_escape (a : BuilderApp) : exec (BuilderApp * EventResult) :=
  if (bool_decide (mode (panes a) = MODE_WIRE) && (0 <=? wire_start_node (wire (graph a))))%bool then handled (stop_wire a)
  else if PropEditor.editing (prop_editor a) then handled (set_editor (PropEditor.drop_edit (prop_editor a)) a)
  else if show_validation (checks a) then handled (set_checks (mkChecks (last_report (checks a)) false (validation_scroll (checks a))) a)
  else
    a ← (if project_dirty (disk a) then save_to (default untitled (file_path (disk a))) a else Done a : exec BuilderApp);
    answered (event_result_response (mkResponse None true None)) a.
(** The keys that mean the same everywhere. *)
Definition global_key (code : KeyCode) (a : BuilderApp) : option (exec (BuilderApp * EventResult)) :=
  let c := checks a in
  match code with
  | KEY_F1 => Some (handled (set_mode MODE_EDIT 1 a))
  | KEY_F2 => Some (handled (set_graph (graph_sync_nodes (graph a)) (set_mode MODE_WIRE 2 a)))
  | KEY_F3 => Some (handled (set_mode MODE_PREVIEW (active_pane (panes a)) a))
  | KEY_F4 => Some (handled (set_mode MODE_TUI_PREVIEW (active_pane (panes a)) a))
  | KEY_ESC => Some (handle_escape a)
  | KEY_TAB => Some (handled (set_mode (mode (panes a)) (cmod (active_pane (panes a) + 1) 3) a))
  | KEY_UP => if show_validation c && (0 <? validation_scroll c) then Some (handled (set_scroll (validation_scroll c - 1) a)) else None
  | KEY_DOWN =>
      match last_report c with
      | Some r => if show_validation c && (validation_scroll c <? Z.of_nat (length r) - 1) then Some (handled (set_scroll (validation_scroll c + 1) a)) else None
      | None => None
      end
  | _ => None
  end.

Definition canvas_moved (ev : Event) (pressed : bool) (a : BuilderApp) : exec (BuilderApp * EventResult) :=
  let '(c, p, _) := Canvas.canvas_mouse_move (ex ev) (ey ev) pressed (canvas a, project a) in handled (set_project p (set_canvas c a)).
Definition canvas_event (ev : Event) (a : BuilderApp) : exec (BuilderApp * EventResult) :=
  let p := project a in
  let pressed := bool_decide (mouse_state ev = MOUSE_PRESS) in
  match Widget.type ev with
  | EVENT_KEY => unhandled (handle_canvas_key (Widget.code ev) (ch ev) a)
  | EVENT_MOUSE_BUTTON =>
      if pressed then
        let c := (Canvas.canvas_mouse_down p (ex ev) (ey ev) (button ev) (canvas a)).1 in
        let s := Canvas.selected_item (Canvas.selection c) in
        let a := set_canvas c a in
        handled (if 0 <=? s then set_editor (PropEditor.prop_editor_set_item p s (prop_editor a)) a else a)
      else if bool_decide (mouse_state ev = MOUSE_RELEASE) then handled (set_canvas (Canvas.canvas_mouse_up p (canvas a)) a)
      else unhandled a
  | EVENT_MOUSE_MOTION | EVENT_MOUSE_DRAG_MOVE => canvas_moved ev pressed a
  | EVENT_MOUSE_SCROLL =>
      handled (set_canvas (Canvas.canvas_mouse_scroll (ex ev) (ey ev) (if bool_decide (mouse_state ev = MOUSE_SCROLL_UP) then 1 else -1) (canvas a)) a)
  | _ => unhandled a
  end.
Definition wire_event (ev : Event) (a : BuilderApp) : exec (BuilderApp * EventResult) :=
  let mouse (m : exec (bool * ConnectionGraph)) := r ← m; handled (set_graph r.2 a) in
  match Widget.type ev with
  | EVENT_KEY => a ← handle_graph_key (Widget.code ev) (ch ev) a; unhandled a
  | EVENT_MOUSE_BUTTON =>
      if bool_decide (mouse_state ev = MOUSE_PRESS) then mouse (graph_mouse_down (graph a) (ex ev) (ey ev))
      else if bool_decide (mouse_state ev = MOUSE_RELEASE) then mouse (graph_mouse_up (graph a) (ex ev) (ey ev))
      else unhandled a
  | EVENT_MOUSE_MOTION => mouse (graph_mouse_move (graph a) (ex ev) (ey ev))
  | _ => unhandled a
  end.
Definition pane_event (ev : Event) (a : BuilderApp) : exec (BuilderApp * EventResult) :=
  let pane := active_pane (panes a) in
  let is_key := bool_decide (Widget.type ev = EVENT_KEY) in
  if pane =? 0 then if is_key then a ← handle_palette_key (Widget.code ev) a; unhandled a else unhandled a
  else if (pane =? 1) && bool_decide (mode (panes a) = MODE_EDIT) then canvas_event ev a
  else if pane =? 2 then
    if bool_decide (mode (panes a) = MODE_WIRE) then wire_event ev a
    else if is_key then a ← handle_prop_key (Widget.code ev) (ch ev) a; unhandled a else unhandled a
  else unhandled a.
Definition builder_handle_event (a : BuilderApp) (ev : Event) : exec (BuilderApp * EventResult) :=
  if keymap_editing a then handle_keymap ev a
  else
    match Widget.type ev, Widget.code ev with
    | EVENT_KEY, KEY_CHAR => match command (ch ev) with Some f => f a | None => pane_event ev a end
    | EVENT_KEY, c => match global_key c a with Some r => r | None => pane_event ev a end
    | _, _ => pane_event ev a
    end.

(** The renderer of filly_build.c takes the area as an argument of its own, and
    the slot of widget.h it is put in has none: no caller gives one. [area_of] is
    whatever the renderer finds there. *)
Context (area_of : BuilderApp -> Rect).
Program Definition builder_widget : Widget BuilderApp := {|
  base := wb; set_base := set_wb; render a := builder_render (area_of a) a; handle_event := builder_handle_event |}.
Solve Obligations with by destruct w.

(** ** The program *)

Fixpoint parse_args (argv : list string) (args : option string * option string) : option string * option string :=
  match argv with
  | a :: ((v :: rest) as tl) =>
      if decide (a = "--project"%string) then parse_args rest (Some v, snd args)
      else if decide (a = "--export"%string) then parse_args rest (fst args, Some v)
      else parse_args tl args
  | _ => args
  end.
(** [load] is what [project_load] gives for a path. *)
Definition new_project (load : string -> exec BuilderProject) (path : option string) : exec BuilderProject :=
  let fresh := Project.project_new (Some "untitled"%string) 800 600 in
  match path with
  | None => Done fresh
  | Some f => match load f with Done p => Done p | Fail => Done fresh | Fault e => Fault e end
  end.
(** [calloc], and what [main] fills in. *)
Definition builder_app (names : list string) (path : option string) (p : BuilderProject) : exec BuilderApp :=
  palette ← populate_palette names;
  run_validation (mkApp (mkBase false false (mkRect 0 0 0 0) 0) (Canvas.canvas_new 800 600) (graph_new p) PropEditor.prop_editor_new
    (mkPanes MODE_EDIT 1 0 palette) (mkChecks None false 0) (mkDisk false path []) None false).
(** With --export: the messages, the files and the exit code, which is computed
    from the result after [codegen_result_free] has cleared it. *)
Definition codegen_result_free (r : Codegen.CodegenResult) : Codegen.CodegenResult := Codegen.no_result.
Definition export_main (names : list string) (load : string -> exec BuilderProject) (argv : list string) : exec (option (list string * list (string * list ascii) * Z)) :=
  let '(path, output_dir) := parse_args argv (None, None) in
  p ← new_project load path;
  a ← builder_app names path p;
  match output_dir with
  | None => Done None
  | Some dir =>
      g ← Codegen.codegen_c_plugin fopen (Some (project a)) (Some dir);
      let r := Codegen.result g in
      let messages := map (fun s => "Error: " +:+ s +:+ NL) (Codegen.errors r) ++ map (fun s => "Warning: " +:+ s +:+ NL) (Codegen.warnings r) in
      let r := codegen_result_free r in
      Done (Some (messages, Codegen.files g, if (0 <? length (Codegen.errors r))%nat then 1 else 0))
  end.
End builder.
End Builder.
Import Builder.

(** ** The palette *)

Lemma categories_spec n : is_in_categories n = true <-> n ∈ concat widget_categories.
Proof.
  unfold is_in_categories. split.
  - intros (c & Hc & (m & Hm & E%bool_decide_eq_true)%existsb_exists)%existsb_exists. subst m. apply list_elem_of_In, List.in_concat. by exists c.
  - intros H. apply list_elem_of_In, List.in_concat in H as (c & Hc & Hn). apply existsb_exists. exists c. split; [done|]. apply existsb_exists. exists n. split; [done|].
    by apply bool_decide_eq_true.
Qed.
(** Every registered type is offered, once, and the array is large enough. *)
Lemma palette_complete names : NoDup names -> exists l, populate_palette names = Done l /\ l ≡ₚ names.
Proof.
  intros Hd. set (l := filter (fun n => n ∈ names) (concat widget_categories) ++ filter (fun n => is_in_categories n = false) names).
  assert (l ≡ₚ names) as Hp.
  { apply NoDup_Permutation.
    - apply list.NoDup_app. split; [apply list.NoDup_filter; apply (bool_decide_unpack _); vm_compute; exact I|]. split; [|by apply list.NoDup_filter].
      intros n [_ H1%categories_spec]%list_elem_of_filter [H2 _]%list_elem_of_filter. congruence.
    - done.
    - intros n. unfold l. rewrite elem_of_app, !list_elem_of_filter. split; [by intros [[H _]|[_ H]]|]. intros H.
      destruct (is_in_categories n) eqn:E; [left|by right]. split; [done|]. by apply categories_spec. }
  exists l. split; [|done]. unfold populate_palette. fold l. rewrite (proj2 (Nat.leb_le _ _)); [done|]. by rewrite Hp.
Qed.

(** ** What is kept of the items *)

(** An item without its place and its lock. *)
Definition face (i : CanvasItem) : CanvasItem := Canvas.set_locked false (with_rect (mkRect 0 0 0 0) i).
Definition faces (p : BuilderProject) : list CanvasItem := map face (items p).

Lemma faces_change f l p : (forall i, face (f i) = face i) -> faces (Canvas.change_all f l p) = faces p.
Proof.
  intros Hf. unfold Canvas.change_all. revert p. induction l as [|id l IH]; intros p; [done|]. cbn [foldl]. rewrite IH. unfold faces. cbn. by apply update_first_map.
Qed.
Lemma faces_move dx dy c p : faces (Canvas.canvas_key_move dx dy c p) = faces p.
Proof. apply faces_change. intros i. unfold Canvas.unless_locked. by destruct (locked i). Qed.
Lemma faces_drag x y d c p : faces (Canvas.canvas_mouse_move x y d (c, p)).1.2 = faces p.
Proof.
  unfold Canvas.canvas_mouse_move. destruct (negb _); [done|]. destruct (negb d); [done|]. cbn [Canvas.drag Canvas.set_hovered].
  destruct (Canvas.action (Canvas.drag c)); try done; by apply faces_change.
Qed.
Lemma faces_delete c p : faces (Canvas.canvas_delete_selected (c, p)).2 ⊆ faces p.
Proof.
  cbn [snd Canvas.canvas_delete_selected]. generalize (Canvas.selected_items (Canvas.selection c)). intros l. revert p. induction l as [|id l IH]; intros p; [done|].
  cbn [foldl]. etrans; [apply IH|]. unfold faces. cbn. intros x Hx. eapply elem_of_sublist; [exact Hx|]. apply map_sublist, remove_first_sublist.
Qed.

(** The graph has nothing to do with items. *)
Definition same_items (g g' : ConnectionGraph) : Prop := items (Graph.project g') = items (Graph.project g).
Lemma find_port_items g x y r : graph_find_port_at g x y = Done r -> same_items g r.2.
Proof. unfold graph_find_port_at. intros H. run_steps. done. Qed.
Lemma wire_nodes_items w t l : forall ni k p q, wire_nodes w t l ni k p = Done q -> items q = items p.
Proof.
  induction l as [|o l IH]; intros ni k p q H; [by injection H as ->|]. cbn [wire_nodes] in H. apply exec_bind_Done in H as (n & _ & H).
  destruct (nth_port _ _ _ _ _) as [[pi|] idx]; [|by eapply IH]. apply exec_bind_Done in H as (s & _ & H). apply exec_bind_Done in H as (sp & _ & H). apply exec_bind_Done in H as (dp & _ & H).
  rewrite (IH _ _ _ _ H). by destruct (graph_ports_compatible _ _).
Qed.
Lemma mouse_down_items g x y r : graph_mouse_down g x y = Done r -> same_items g r.2.
Proof.
  unfold graph_mouse_down. intros H. cbn zeta in H. destruct (editing_edge _); [by injection H as <-|]. apply exec_bind_Done in H as ([port g1] & Hp & H).
  apply find_port_items in Hp. cbn [snd] in Hp. destruct (0 <=? port).
  - apply exec_bind_Done in H as ([[ni pi]|] & _ & H); injection H as <-; exact Hp.
  - apply exec_bind_Done in H as (edge & _ & H). destruct (0 <=? edge); [injection H as <-; exact Hp|]. apply exec_bind_Done in H as (node & _ & H).
    destruct (0 <=? node); [|injection H as <-; exact Hp]. run_steps; exact Hp.
Qed.
Lemma mouse_move_items g x y r : graph_mouse_move g x y = Done r -> same_items g r.2.
Proof.
  unfold graph_mouse_move. intros H. cbn zeta in H. destruct (0 <=? _); [by injection H as <-|]. destruct (_ && _).
  - run_steps; done.
  - apply exec_bind_Done in H as ([port g1] & Hp & H). apply find_port_items in Hp. by injection H as <-.
Qed.
Lemma mouse_up_items g x y r : graph_mouse_up g x y = Done r -> same_items g r.2.
Proof.
  unfold graph_mouse_up. intros H. cbn zeta in H. destruct (0 <=? _); [|by injection H as <-]. apply exec_bind_Done in H as ([t g1] & Hp & H).
  apply find_port_items in Hp. apply exec_bind_Done in H as (p & Hw & H). injection H as <-. unfold same_items in *. cbn [Graph.project Graph.set_wire Graph.set_project snd] in *.
  destruct (0 <=? t); [|injection Hw as <-; exact Hp]. by rewrite (wire_nodes_items _ _ _ _ _ _ _ Hw).
Qed.
Lemma graph_key_items g c ch g' : graph_key g c ch = Done g' -> same_items g g'.
Proof.
  unfold graph_key. cbn zeta. intros H. destruct (_ && _).
  - destruct c; try (by injection H as <-).
    + apply exec_bind_Done in H as (e & _ & H). destruct (edit_field _ =? 0); apply exec_bind_Done in H as (es & _ & H); by injection H as <-.
    + destruct (_ && _); by injection H as <-.
  - destruct c; try (by injection H as <-). unfold graph_delete_selected in H. destruct (0 <=? _); [by injection H as <-|]. destruct (0 <=? _); [|by injection H as <-].
    apply exec_bind_Done in H as (n & _ & H). by injection H as <-.
Qed.

(** *** The property editor *)

Lemma not_editing c ch e p e' p' : PropEditor.editing e = false -> PropEditor.prop_editor_key c ch (e, p) = Done (e', p') ->
  p' = p /\ (c = KEY_CHAR -> PropEditor.editing e' = false).
Proof.
  intros He. unfold PropEditor.prop_editor_key. destruct (_ <? 0); [by intros [= <- <-]|]. rewrite He.
  destruct c; try (by intros [= <- <-]). by intros (b & _ & [= <- <-])%exec_bind_Done.
Qed.
Lemma editor_render_editing p area e e' t : PropEditor.prop_editor_render p area e = Done (e', t) -> PropEditor.editing e' = PropEditor.editing e.
Proof.
  unfold PropEditor.prop_editor_render. destruct (_ <? 0); [by intros [= <- _]|]. destruct (project_find_item _ _); [|by intros [= <- _]].
  intros (n & _ & H)%exec_bind_Done. by injection H as <- _.
Qed.

(** ** A session of the builder *)

Section sessions.
Context (regcomp : string -> bool) (regexec : string -> string -> bool) (fopen : string -> bool).
Context (paint : option Theme -> RenderTree -> Z -> Z -> list Z -> exec (list Z)) (g_active_theme : option Theme).
Abbreviation handle := (builder_handle_event regcomp regexec fopen).

Definition calm (a : BuilderApp) : Prop := PropEditor.editing (prop_editor a) = false.
(** Before a round, an edit that was begun waits to be drawn. *)
Definition resting (a : BuilderApp) : Prop := PropEditor.editing (prop_editor a) = true -> Widget.dirty (wb a) = true /\ mode (panes a) <> MODE_WIRE.
(** The palette is not the active pane, and the items are some of those of [p]. *)
Definition within (p : BuilderProject) (a : BuilderApp) : Prop := active_pane (panes a) <> 0 /\ faces (project a) ⊆ faces p.

Lemma calm_rests a : calm a -> resting a.
Proof. unfold calm, resting. congruence. Qed.

(** What the handlers leave alone: the project, the editor and the panes. *)
Definition quiet_step (a a' : BuilderApp) : Prop := project a' = project a /\ prop_editor a' = prop_editor a /\ panes a' = panes a.
Lemma validation_quiet a a' : run_validation regcomp regexec a = Done a' -> quiet_step a a'.
Proof. unfold run_validation. by intros (r & _ & [= <-])%exec_bind_Done. Qed.
Lemma save_quiet path a a' : save_to fopen path a = Done a' -> quiet_step a a'.
Proof. unfold save_to. intros (t & _ & H)%exec_bind_Done. injection H as <-. by destruct (fopen path). Qed.
Lemma export_quiet dir a a' : export_to fopen dir a = Done a' -> quiet_step a a'.
Proof. unfold export_to. by intros (g & _ & [= <-])%exec_bind_Done. Qed.
Lemma quiet_trans a b c : quiet_step a b -> quiet_step b c -> quiet_step a c.
Proof. unfold quiet_step. intros (H1 & H2 & H3) (H4 & H5 & H6). by rewrite H4, H5, H6. Qed.
Lemma command_quiet c f a a' r : command regcomp regexec fopen c = Some f -> f a = Done (a', r) -> quiet_step a a'.
Proof.
  unfold command. intros Hc H. repeat match type of Hc with (if ?x then _ else _) = _ => destruct x; [injection Hc as <-|] end; [..|done].
  - unfold handle_save in H. apply exec_bind_Done in H as (b & Ha & H). apply save_quiet in Ha. apply exec_bind_Done in H as (d & Hb & H). apply validation_quiet in Hb.
    injection H as <- _. exact (quiet_trans _ _ _ Ha Hb).
  - unfold handle_export in H. apply exec_bind_Done in H as (b & Ha & H). apply validation_quiet in Ha. apply exec_bind_Done in H as (d & Hb & H). injection H as <- _.
    enough (quiet_step b d) as Hbd by exact (quiet_trans _ _ _ Ha Hbd). destruct (last_report _) as [rp|]; [destruct (has_errors rp)|]; [by injection Hb as <-|by eapply export_quiet..].
  - unfold handle_validate in H. apply exec_bind_Done in H as (b & Ha & H). apply validation_quiet in Ha. by injection H as <- _.
  - by injection H as <- _.
Qed.
Lemma quiet_within p a a' : quiet_step a a' -> within p a -> calm a -> within p a' /\ calm a'.
Proof. unfold within, calm. by intros (-> & -> & ->). Qed.

Lemma escape_within p a a' r : handle_escape fopen a = Done (a', r) -> within p a -> calm a -> within p a' /\ calm a'.
Proof.
  unfold handle_escape. intros H Hw Hc. destruct (_ && _); [by injection H as <- _|]. destruct (PropEditor.editing _) eqn:E; [by rewrite Hc in E|].
  destruct (show_validation _); [by injection H as <- _|]. apply exec_bind_Done in H as (b & H1 & H). injection H as <- _.
  destruct (project_dirty _); [|by injection H1 as <-]. apply save_quiet in H1. by eapply quiet_within.
Qed.
Lemma global_within p c a m a' r : c <> KEY_TAB -> global_key fopen c a = Some m -> m = Done (a', r) -> within p a -> calm a -> within p a' /\ calm a'.
Proof.
  intros Ht Hm H Hw Hc. destruct c; cbn [global_key] in Hm; try done; try (injection Hm as <-; first [by eapply escape_within|injection H as <- _; done|injection H as <- _; destruct Hw; split; [split|]; done]).
  - destruct (_ && _); [|done]. injection Hm as <-. by injection H as <- _.
  - destruct (last_report _); [|done]. destruct (_ && _); [|done]. injection Hm as <-. by injection H as <- _.
Qed.

Lemma faces_moved dx dy a : faces (project (redraw (move_selected dx dy a))) = faces (project a).
Proof. apply faces_move. Qed.
Lemma canvas_within p ev a a' r : canvas_event ev a = Done (a', r) -> within p a -> calm a -> within p a' /\ calm a'.
Proof.
  intros H [Hp Hf] Hc. unfold canvas_event in H. cbn zeta in H.
  assert (forall pr, canvas_moved ev pr a = Done (a', r) -> within p a' /\ calm a') as Hm.
  { intros pr Hd. unfold canvas_moved in Hd. pose proof (faces_drag (ex ev) (ey ev) pr (canvas a) (project a)) as Hfd. destruct (Canvas.canvas_mouse_move _ _ _ _) as [[c q] b].
    injection Hd as <- _. cbn [fst snd] in Hfd. split; [split; [done|]|done]. change (faces q ⊆ faces p). by rewrite Hfd. }
  destruct (Widget.type ev); try (by injection H as <- _).
  - injection H as <- _. unfold handle_canvas_key. destruct (Widget.code ev); try done.
    1-4: split; [split; [done|by rewrite faces_moved]|done].
    unfold delete_selected. pose proof (faces_delete (canvas a) (project a)) as Hfd. destruct (Canvas.canvas_delete_selected _) as [c q]. split; [split; [done|]|done].
    change (faces q ⊆ faces p). by etrans.
  - eapply Hm; exact H.
  - destruct (bool_decide _).
    + injection H as <- _. destruct (0 <=? _); done.
    + destruct (bool_decide _); by injection H as <- _.
  - eapply Hm; exact H.
Qed.
Lemma wire_within p ev a a' r : wire_event ev a = Done (a', r) -> within p a -> calm a -> within p a' /\ calm a'.
Proof.
  intros H Hw Hc. unfold wire_event in H. cbn zeta in H.
  assert (forall m : exec (bool * ConnectionGraph), (forall q, m = Done q -> same_items (graph a) q.2) -> (q ← m; handled (set_graph q.2 a)) = Done (a', r) -> within p a' /\ calm a') as Hm.
  { intros m Hi Hd. apply exec_bind_Done in Hd as (q & Hq & Hd). injection Hd as <- _. specialize (Hi q Hq). destruct Hw as [H1 H2].
    split; [split; [done|]|done]. unfold faces, project in *. cbn. by rewrite Hi. }
  destruct (Widget.type ev); try (by injection H as <- _).
  - apply exec_bind_Done in H as (b & Hb & H). injection H as <- _. unfold handle_graph_key in Hb. apply exec_bind_Done in Hb as (g & Hg & Hb). injection Hb as <-.
    apply graph_key_items in Hg. destruct Hw as [H1 H2]. split; [split; [done|]|done]. unfold faces, project in *. cbn. by rewrite Hg.
  - eapply Hm; [|exact H]. apply mouse_move_items.
  - destruct (bool_decide _); [eapply Hm; [|exact H]; apply mouse_down_items|]. destruct (bool_decide _); [eapply Hm; [|exact H]; apply mouse_up_items|by injection H as <- _].
Qed.
Lemma pane_within p ev a a' r : pane_event ev a = Done (a', r) -> within p a -> calm a ->
  within p a' /\ resting a' /\ (Widget.code ev = KEY_CHAR -> calm a').
Proof.
  intros H Hw Hc. assert (within p a' /\ calm a' -> within p a' /\ resting a' /\ (Widget.code ev = KEY_CHAR -> calm a')) as Hdone.
  { intros [H1 H2]. split; [done|]. split; [by apply calm_rests|done]. }
  unfold pane_event in H. cbn zeta in H. pose proof Hw as [Hp Hf]. rewrite (proj2 (Z.eqb_neq _ _) Hp) in H.
  destruct (_ && _); [apply Hdone; by eapply canvas_within|]. destruct (_ =? 2); [|injection H as <- _; by apply Hdone].
  destruct (bool_decide (mode (panes a) = MODE_WIRE)) eqn:Em; [apply Hdone; by eapply wire_within|].
  destruct (bool_decide (Widget.type ev = EVENT_KEY)); [|unfold unhandled, answered in H; injection H as <- _; by apply Hdone]. apply exec_bind_Done in H as (b & Hb & H). unfold unhandled, answered in H. injection H as <- _.
  unfold handle_prop_key in Hb. apply exec_bind_Done in Hb as ([e q] & Hk & Hb). injection Hb as <-. apply not_editing in Hk as [-> Hk]; [|exact Hc].
  split; [exact Hw|]. split; [|exact Hk]. intros _. split; [done|]. by apply bool_decide_eq_false in Em.
Qed.
(** One event that is not the Tab key. *)
Lemma event_within p ev a a' r : (Widget.type ev = EVENT_KEY -> Widget.code ev <> KEY_TAB) -> handle a ev = Done (a', r) -> within p a -> calm a ->
  within p a' /\ resting a' /\ (Widget.code ev = KEY_CHAR -> calm a').
Proof.
  intros Ht H Hw Hc. assert (within p a' /\ calm a' -> within p a' /\ resting a' /\ (Widget.code ev = KEY_CHAR -> calm a')) as Hdone.
  { intros [H1 H2]. split; [done|]. split; [by apply calm_rests|done]. }
  unfold builder_handle_event in H. destruct (keymap_editing a).
  - apply Hdone. unfold handle_keymap in H. destruct (Widget.type ev); try (by injection H as <- _). cbn zeta in H.
    destruct (Widget.code ev); destruct (key_name ev); by injection H as <- _.
  - destruct (Widget.type ev) eqn:Et; try (by eapply pane_within).
    destruct (decide (Widget.code ev = KEY_CHAR)) as [Ec|Ec].
    + rewrite Ec in H. destruct (command regcomp regexec fopen (ch ev)) as [f|] eqn:Ef; [|by eapply pane_within].
      apply Hdone. eapply quiet_within; [by eapply command_quiet|done|done].
    + assert (match global_key fopen (Widget.code ev) a with Some m => m | None => pane_event ev a end = Done (a', r)) as H' by (revert H Ec; by destruct (Widget.code ev)).
      destruct (global_key fopen (Widget.code ev) a) as [m|] eqn:Em; [|by eapply pane_within]. apply Hdone. eapply global_within; [by apply Ht|exact Em|exact H'|done|done].
Qed.
Lemma render_within p area a a' t : builder_render paint g_active_theme area a = Done (a', t) -> within p a -> resting a -> within p a' /\ calm a' /\ wb a' = wb a.
Proof.
  intros H Hw Hr. unfold builder_render in H. cbn zeta in H. apply exec_bind_Done in H as ([b c] & H1 & H). apply exec_bind_Done in H as ([d q] & H2 & H). injection H as <- _.
  assert (project b = project a /\ prop_editor b = prop_editor a /\ panes b = panes a /\ wb b = wb a) as (Eb1 & Eb2 & Eb3 & Eb4).
  { unfold render_center in H1. destruct (mode (panes a)); try (by injection H1 as <- _); apply exec_bind_Done in H1 as ([? ?] & _ & H1); by injection H1 as <- _. }
  assert (project d = project b /\ panes d = panes b /\ wb d = wb b /\ calm d) as (Ed1 & Ed2 & Ed3 & Ed4).
  { unfold render_right in H2. destruct (mode (panes b)) eqn:Em.
    1,3,4: cbn zeta in H2; apply exec_bind_Done in H2 as ([e ?] & He & H2); injection H2 as <- _; apply editor_render_editing in He; by split_and!.
    apply exec_bind_Done in H2 as (? & _ & H2). injection H2 as <- _. split_and!; try done. unfold calm. rewrite Eb2. destruct (PropEditor.editing _) eqn:E; [|done].
    destruct (Hr E) as [_ Hn]. by rewrite <-Eb3, Em in Hn. }
  unfold within, calm in *. unfold project in *. cbn. rewrite Ed1, Eb1, Ed2, Eb3, Ed3, Eb4. done.
Qed.

(** *** The loop *)

Context (qsort : list Z -> list nat) (area_of : BuilderApp -> Rect).
#[local] Instance the_builder : Widget BuilderApp := builder_widget regcomp regexec fopen paint g_active_theme area_of.

(** No backend sends the tabulator as a character: the terminal and the graphics
    backend make the Tab key of it. *)
Definition no_tab_char (i : Input) : Prop := ~ (Widget.type (Session.ev i) = EVENT_KEY /\ Widget.code (Session.ev i) = KEY_CHAR /\ ch (Session.ev i) = 9).
Definition session_at (p : BuilderProject) (s : Session (W := BuilderApp)) : Prop :=
  within p (wgt s) /\ last_render_tree s = None /\ session_undo s = undo_stack_new 100 /\ keymap s = default_keymap.

Lemma paste_within p l a a' : paste a l = Done a' -> within p a -> calm a -> within p a' /\ calm a'.
Proof.
  revert a. induction l as [|c l IH]; intros a H Hw Hc; [by injection H as <-|]. cbn [paste] in H. apply exec_bind_Done in H as ([b r] & Hb & H).
  destruct (event_within p (key_event KEY_CHAR (schar c)) a b r) as (H1 & _ & H2); [done|exact Hb|done|done|]. by apply (IH b); [| |apply H2].
Qed.
Lemma after_round p s t w : session_at p s -> within p w -> resting w -> wgt t = w \/ wgt t = mark_dirty w ->
  last_render_tree t = last_render_tree s -> session_undo t = session_undo s -> keymap t = keymap s -> session_at p t /\ resting (wgt t).
Proof.
  intros (_ & H1 & H2 & H3) Hw Hr Ht E1 E2 E3. unfold session_at. rewrite E1, E2, E3. destruct Ht as [-> | ->]; split; try done. intros E. split; [done|]. by apply Hr.
Qed.
Lemma dispatch_within p s i e s' o r : dispatch s i e = Done (s', o, r) -> (Widget.type e = EVENT_KEY -> Widget.code e <> KEY_TAB) ->
  session_at p s -> calm (wgt s) -> session_at p s' /\ resting (wgt s').
Proof.
  intros H Ht (Hw & H1 & H2 & H3) Hc. unfold dispatch in H. apply exec_bind_Done in H as ([b q] & Hb & H).
  destruct (event_within p e (wgt s) b q) as (Hw' & Hr & _); [done|exact Hb|done|done|]. assert (session_at p s) as Hs by done.
  assert (forall t, wgt t = b \/ wgt t = mark_dirty b -> last_render_tree t = last_render_tree s -> session_undo t = session_undo s -> keymap t = keymap s ->
    session_at p t /\ resting (wgt t)) as Hd by (intros t; by apply (after_round p s)).
  destruct q; [|injection H as <- _ _; apply Hd; by try left|]; destruct (store_version i) as [v|]; try destruct (v =? _); injection H as <- _ _; apply Hd; first [by left|by right|done].
Qed.
Lemma translate_tab c k : c <> KEY_TAB -> ~ (c = KEY_CHAR /\ k = 9) -> (translate default_keymap c k).1 <> KEY_TAB.
Proof.
  intros Hc Hk. cbn. destruct (bool_decide_reflect (c = KEY_CHAR)) as [->|Hn]; cbn [andb]; [|done].
  repeat match goal with |- context [k =? ?v] => destruct (Z.eqb_spec k v); [|] end; try done. exfalso. apply Hk. split; [done|]. assumption.
Qed.

Lemma on_key_within p s i s' o r : on_key s i = Done (s', o, r) -> Widget.type (Session.ev i) = EVENT_KEY -> no_tab_char i ->
  session_at p s -> calm (wgt s) -> session_at p s' /\ resting (wgt s').
Proof.
  intros H Ht Hn Hs Hc. pose proof Hs as (Hw & H1 & H2 & H3). unfold on_key in H. destruct (decide _) as [E|E].
  - unfold on_tab in H. rewrite H1 in H. injection H as <- _ _. split; [done|by apply calm_rests].
  - refine (dispatch_within p s i _ s' o r H _ Hs Hc). destruct (accepts_text_input _); [by intros _|]. rewrite H3.
    destruct (translate default_keymap _ _) as [c k] eqn:Et. intros _. change (c <> KEY_TAB). replace c with (translate default_keymap (code (Session.ev i)) (ch (Session.ev i))).1 by by rewrite Et.
    apply translate_tab; [done|]. intros [E1 E2]. by apply Hn.
Qed.
Lemma on_char_within p cfg s i s' o r : on_char cfg s i = Done (s', o, r) -> Widget.type (Session.ev i) = EVENT_KEY -> no_tab_char i ->
  session_at p s -> calm (wgt s) -> session_at p s' /\ resting (wgt s').
Proof.
  intros H Ht Hn Hs Hc. pose proof Hs as (Hw & H1 & H2 & H3).
  assert (forall t, wgt t = wgt s \/ wgt t = mark_dirty (wgt s) -> last_render_tree t = last_render_tree s -> session_undo t = session_undo s -> keymap t = keymap s ->
    session_at p t /\ resting (wgt t)) as Hd by (intros t; apply (after_round p s); [done|done|by apply calm_rests]).
  unfold on_char in H. cbn zeta in H. destruct (_ =? 3); [injection H as <- _ _; apply Hd; by try left|].
  destruct (_ =? 22).
  { destruct (clipboard i) as [t|]; [|injection H as <- _ _; apply Hd; by try right]. destruct (is_printable_paste t); [|injection H as <- _ _; apply Hd; by try right].
    apply exec_bind_Done in H as (b & Hb & H). injection H as <- _ _. destruct (paste_within p _ _ _ Hb Hw Hc) as [Hw' Hc'].
    apply (after_round p s _ b); [done|done|by apply calm_rests|by right|done..]. }
  assert (on_key s i = Done (s', o, r)) as Hk.
  { rewrite H2 in H. destruct (_ =? 26); [exact H|]. destruct (_ =? 25); exact H. }
  by eapply on_key_within.
Qed.
Lemma on_event_within p cfg s i s' o r : on_event cfg s i = Done (s', o, r) -> no_tab_char i ->
  session_at p s -> calm (wgt s) -> session_at p s' /\ resting (wgt s').
Proof.
  intros H Hn Hs Hc. pose proof Hs as (Hw & H1 & H2 & H3).
  assert (forall t, wgt t = wgt s \/ wgt t = mark_dirty (wgt s) -> last_render_tree t = last_render_tree s -> session_undo t = session_undo s -> keymap t = keymap s ->
    session_at p t /\ resting (wgt t)) as Hd by (intros t; apply (after_round p s); [done|done|by apply calm_rests]).
  unfold on_event in H. cbn zeta in H. destruct (Widget.type (Session.ev i)) eqn:Et.
  - destruct (is_interactive cfg).
    + destruct (tooltip_target_id s); [destruct (500 <=? _)|]; injection H as <- _ _; apply Hd; first [by left|by right|done].
    + destruct (5000 <? _); injection H as <- _ _; apply Hd; first [by left|done].
  - destruct (decide _); [by eapply on_char_within|by eapply on_key_within].
  - injection H as <- _ _; apply Hd; first [by left|done].
  - cbn [last_render_tree set_tooltip] in H. rewrite H1 in H. cbn [hit_test_opt] in H. injection H as <- _ _; apply Hd; first [by right|done].
  - destruct (_ && _); [rewrite H1 in H; cbn [hit_test_opt] in H; injection H as <- _ _; apply Hd; first [by left|done]|]. eapply dispatch_within; [exact H|congruence|done|done].
  - eapply dispatch_within; [exact H|congruence|done|done].
  - injection H as <- _ _; apply Hd; first [by right|done].
  - injection H as <- _ _; apply Hd; first [by right|done].
  - injection H as <- _ _; apply Hd; first [by right|done].
Qed.
Lemma frame_within p cfg z s s' o : frame qsort cfg z s = Done (s', o) -> session_at p s -> resting (wgt s) -> session_at p s' /\ calm (wgt s').
Proof.
  intros H (Hw & H1 & H2 & H3) Hr. unfold frame in H. apply exec_bind_Done in H as ([a t] & Ha & H). apply exec_bind_Done in H as (l & _ & H). injection H as <- _.
  destruct (render_within p _ _ _ _ Ha Hw Hr) as (Hw' & Hc & _). split; [|exact Hc]. by repeat split; try apply Hw'.
Qed.
Lemma iteration_within p cfg s i s' o r : iteration qsort cfg s i = Done (s', o, r) -> no_tab_char i ->
  session_at p s -> resting (wgt s) -> session_at p s' /\ resting (wgt s').
Proof.
  intros H Hn Hs Hr. unfold iteration in H. cbn zeta in H. set (s1 := if decide _ then _ else _) in H.
  assert (session_at p s1 /\ resting (wgt s1)) as [Hs1 Hr1].
  { unfold s1. destruct (decide _); [done|]. split; [exact Hs|]. intros E. split; [done|]. by apply Hr. }
  clearbody s1. apply exec_bind_Done in H as ([s2 o2] & Hf & H). apply exec_bind_Done in H as ([[s3 o3] r3] & He & H). injection H as <- _ _.
  eapply on_event_within; [exact He|done|..]; destruct (widget_base_is_dirty (wgt s1)) eqn:Ed.
  - by eapply frame_within.
  - by injection Hf as <- _.
  - by eapply frame_within.
  - injection Hf as <- _. unfold calm. destruct (PropEditor.editing _) eqn:E; [|done]. destruct (Hr1 E) as [Hd _]. change (Widget.dirty (wb (wgt s1)) = false) in Ed. congruence.
Qed.

(** In a session nothing is ever added to a project and no parameter of it is
    changed, whatever the renderer takes for its area and whatever the events are,
    as long as none is the tabulator sent as a character: the palette is reached
    with the Tab key only, which the session keeps for itself, and a property
    editor that was opened is set to its first field again before the next key.
    Every item at the end is, up to its place and its lock, one of the items at
    the beginning. *)
Theorem builder_adds_nothing cfg a z ins s o r :
  active_pane (panes a) <> 0 -> PropEditor.editing (prop_editor a) = false -> Forall no_tab_char ins ->
  session_run qsort cfg a z ins = Done (s, o, r) ->
  forall i, i ∈ items (project (wgt s)) -> exists j, j ∈ items (project a) /\ item_id i = item_id j /\ widget_type i = widget_type j /\
    instance_name i = instance_name j /\ item_params i = item_params j /\ parent_id i = parent_id j /\ item_tab_index i = item_tab_index j.
Proof.
  intros Hp He Hn H. unfold session_run in H. apply exec_bind_Done in H as ([s0 o0] & H0 & H). apply exec_bind_Done in H as ([[s1 o1] r1] & Hl & H). injection H as <- _ _.
  assert (session_at (project a) s0 /\ resting (wgt s0)) as [Hs0 Hr0].
  { unfold session_start in H0. apply frame_within with (p := project a) in H0 as [H1 H2]; [split; [done|by apply calm_rests]| |by apply calm_rests]. by repeat split. }
  assert (session_at (project a) s1) as [[_ Hf] _].
  { clear H0. revert s0 o1 r1 Hs0 Hr0 Hl. induction Hn as [|i ins Hi _ IH]; intros s0 o1 r1 Hs0 Hr0 Hl; cbn [session_loop] in Hl; [by injection Hl as <- _ _|].
    apply exec_bind_Done in Hl as ([[s2 o2] r2] & Hi2 & Hl). apply iteration_within with (p := project a) in Hi2 as [Hs2 Hr2]; [|done..].
    destruct r2; [by injection Hl as <- _ _|]. apply exec_bind_Done in Hl as ([[s3 o3] r3] & Hl & E). injection E as <- _ _. by eapply IH. }
  intros i Hi. assert (face i ∈ faces (project a)) as (j & E & Hj)%list_elem_of_fmap by (apply Hf, list_elem_of_fmap_2, Hi).
  exists j. split; [done|]. destruct i, j. by injection E.
Qed.
End sessions.

(** The application [main] makes is such a one, with the items of its project. *)
Lemma builder_starts regcomp regexec names path p a : builder_app regcomp regexec names path p = Done a ->
  active_pane (panes a) = 1 /\ PropEditor.editing (prop_editor a) = false /\ project a = p /\ canvas a = Canvas.canvas_new 800 600.
Proof. unfold builder_app. intros (l & _ & H)%exec_bind_Done. unfold run_validation in H. apply exec_bind_Done in H as (r & _ & H). by injection H as <-. Qed.

(** The palette itself works: Enter puts an item of the chosen type and its node
    into the project. *)
Lemma palette_adds a t : palette_types (panes a) !! Z.to_nat (palette_idx (panes a)) = Some t -> 0 <= palette_idx (panes a) ->
  ids_ok (project a) ->
  exists a' i, handle_palette_key KEY_ENTER a = Done a' /\ items (project a') = items (project a) ++ [i] /\ widget_type i = t /\
    item_id i = next_item_id (project a) /\
    nodes (project a') = nodes (project a) ++ [mkNode (Z.of_nat (length (nodes (project a))) + 1) NODE_WIDGET (instance_name i) (item_id i) None None (project_get_widget_ports t)].
Proof.
  intros Ht Hi Hok. unfold handle_palette_key, get. rewrite (proj2 (Z.ltb_ge _ _) Hi), Ht. cbn [at_index mbind exec_bind].
  unfold Canvas.canvas_add_widget, project_add_item. cbv zeta. cbn [items set_items]. rewrite length_app. cbn [length].
  replace (Z.of_nat (length (items (project a)) + 1) - 1) with (Z.of_nat (length (items (project a)))) by lia. rewrite (proj2 (Z.ltb_ge _ _)) by lia. rewrite Nat2Z.id.
  rewrite lookup_length_app by done. cbn [at_index mbind exec_bind]. eexists _, _. split; [reflexivity|].
  unfold project_add_node, project_find_item. cbn [items set_items item_id Canvas.on_rect with_rect].
  assert (forall x l, Forall (fun j => item_id j <> item_id x) l -> List.find (fun i => item_id i =? item_id x) (l ++ [x]) = Some x) as Hf.
  { intros x l. induction 1 as [|j l Hj _ IH]; cbn [app List.find]; [by rewrite Z.eqb_refl|]. by rewrite (proj2 (Z.eqb_neq _ _) Hj). }
  match goal with |- context [List.find _ (_ ++ [?x])] => pose proof (Hf x (items (project a))) as Hx end. cbn [item_id Canvas.on_rect with_rect] in Hx. rewrite Hx; [done|].
  destruct Hok as [_ Hb]. rewrite list.Forall_forall in Hb. apply list.Forall_forall. intros j Hj E. specialize (Hb (item_id j)). unfold item_ids in Hb. specialize (Hb (list_elem_of_fmap_2 _ _ _ Hj)). lia.
Qed.
Lemma palette_adds_witness : let a := mkApp (mkBase true false (mkRect 0 0 0 0) 0) (Canvas.canvas_new 8 8) (graph_new Canvas.three_items) PropEditor.prop_editor_new
    (mkPanes MODE_EDIT 0 0 ["gauge"%string]) (mkChecks None false 0) (mkDisk false None []) None false in
  exists a' i, handle_palette_key KEY_ENTER a = Done a' /\ items (project a') = items Canvas.three_items ++ [i].
Proof.
  intros a. destruct (palette_adds a "gauge") as (a' & i & H1 & H2 & _); [reflexivity|done| |by exists a', i].
  split; [apply (bool_decide_unpack _); vm_compute; exact I|]. apply (bool_decide_unpack _). vm_compute. exact I.
Defined.

(** A project that is saved counts as saved also when the file cannot be opened. *)
Lemma save_marks regcomp regexec fopen a a' r : handle_save regcomp regexec fopen a = Done (a', r) ->
  let path := default untitled (file_path (disk a)) in
  project_dirty (disk a') = false /\ project a' = project a /\ exists text, project_save (project a) = Done text /\
    written (disk a') = written (disk a) ++ (if fopen path then [(path, chars text)] else []).
Proof.
  unfold handle_save, save_to. cbn zeta. intros H. apply exec_bind_Done in H as (b & Hb & H). apply exec_bind_Done in Hb as (text & Ht & Hb).
  apply exec_bind_Done in H as (c & Hc & H). unfold run_validation in Hc. apply exec_bind_Done in Hc as (rp & _ & Hc). injection Hc as <-. injection H as <- _. injection Hb as <-.
  destruct (fopen _); (split; [done|]); (split; [done|]); exists text; (split; [exact Ht|]); cbn; by rewrite ?app_nil_r.
Qed.
(** The program ends with 0 after an export that failed. *)
Lemma export_exit_code regcomp regexec fopen names load argv m f c : export_main regcomp regexec fopen names load argv = Done (Some (m, f, c)) -> c = 0.
Proof.
  unfold export_main. destruct (parse_args argv (None, None)) as [path [dir|]]; intros (p & _ & H)%exec_bind_Done; apply exec_bind_Done in H as (a & _ & H); [|done].
  by apply exec_bind_Done in H as (g & _ & [= _ _ <-]).
Qed.

Definition accepts_all (_ : string) : bool := true.
Definition small_app : BuilderApp :=
  mkApp (mkBase true false (mkRect 0 0 0 0) 0) (Canvas.canvas_new 8 8) (graph_new Canvas.three_items) PropEditor.prop_editor_new
    (mkPanes MODE_EDIT 1 0 ["gauge"%string]) (mkChecks None false 0) (mkDisk false None []) None false.
Definition pressed (k : KeyCode) : Input := mkInput (100, 40) (key_event k 0) None None 0.
Definition some_keys : list Input :=
  [mkInput (100, 40) (mkEvent EVENT_MOUSE_BUTTON KEY_NULL 0 5 5 1 MOUSE_PRESS) None None 0; pressed KEY_RIGHT; pressed KEY_F3; pressed KEY_TAB; pressed KEY_ENTER; pressed KEY_F2; pressed KEY_DELETE].
Abbreviation small_session := (session_run (W := BuilderApp) (H := the_builder accepts_all (fun _ _ => true) accepts_all Canvas.no_paint None (fun a => render_area (wb a))) sort_keys (mkConfig false false false) small_app (100, 40) some_keys).
Definition ids_after (m : round (W := BuilderApp)) : list Z := match m with Done (s, _, _) => map item_id (items (project (wgt s))) | _ => [] end.
Lemma builder_adds_nothing_witness : exists s o r, small_session = Done (s, o, r) /\ map item_id (items (project (wgt s))) = [1; 2; 3] /\
  forall i, i ∈ items (project (wgt s)) -> exists j, j ∈ items Canvas.three_items /\ item_id i = item_id j /\ item_params i = item_params j.
Proof.
  assert (ids_after small_session = [1; 2; 3]) as Hm by (vm_compute; reflexivity).
  assert (Forall no_tab_char some_keys) as Hn by (repeat constructor; intros (_ & H & _); discriminate H).
  assert (active_pane (panes small_app) <> 0) as Hp by (cbn; lia).
  assert (PropEditor.editing (prop_editor small_app) = false) as He by reflexivity.
  pose proof (fun s o r => builder_adds_nothing accepts_all (fun _ _ => true) accepts_all Canvas.no_paint None sort_keys (fun a => render_area (wb a)) (mkConfig false false false) small_app (100, 40) some_keys s o r Hp He Hn) as Hx.
  revert Hm Hx. generalize small_session. intros m Hm Hx. destruct m as [[[s o] r]| |f]; [|discriminate Hm|discriminate Hm].
  exists s, o, r. split; [reflexivity|]. split; [exact Hm|]. intros i Hi. destruct (Hx s o r eq_refl i Hi) as (j & H1 & H2 & _ & _ & H3 & _).
  exists j. split; [exact H1|]. split; [exact H2|exact H3].
Defined.
