(* ===== verification/Outside.v ===== *)
(** Widgets that look outside of the program: the file picker of
    src/src/core/widgets/file_picker.c, and the progress box of progress.c, which
    runs a command. What they find there (directories, paths, the output of the
    command) are arguments, the same for the whole life of a widget; what they do
    to it is a record of the data. *)

From Stdlib Require Import SpecFloat.
From S2P Require Import Prelude Double CJson Protocol RenderTree Widget Boxes Displays Factories.

(** [strrchr]: what is before and behind the last [c]. *)
Fixpoint strrchr (c : ascii) (l : list ascii) : option (list ascii * list ascii) :=
  match l with
  | [] => None
  | d :: l' =>
      match strrchr c l' with
      | Some (a, b) => Some (d :: a, b)
      | None => if Ascii.eqb d c then Some ([], l') else None
      end
  end.
(** [dir/name] *)
Definition join (dir name : string) : string := dir +:+ "/" +:+ name.

Module FilePicker.
Section file_picker.
(** The names [readdir] gives for a directory that can be opened, and whether a
    path that can be looked at is a directory. *)
Variable opendir : string -> option (list string).
Variable stat : string -> option bool.

Record FilePickerData := mk { wb : WidgetBase; title : string; current_dir : string; filter_ext : option string; entries : list (string * bool); selected : Z }.
Definition with_base (b : WidgetBase) (d : FilePickerData) : FilePickerData := mk b (title d) (current_dir d) (filter_ext d) (entries d) (selected d).
Definition entry_count (d : FilePickerData) : Z := Z.of_nat (length (entries d)).
Definition set_dirty (d : FilePickerData) : FilePickerData := with_base (base_set_dirty true (wb d)) d.
Definition set_selected (s : Z) (d : FilePickerData) : FilePickerData := mk (wb d) (title d) (current_dir d) (filter_ext d) (entries d) s.
Definition set_dir (s : string) (d : FilePickerData) : FilePickerData := mk (wb d) (title d) s (filter_ext d) (entries d) (selected d).
Definition set_entries (l : list (string * bool)) (d : FilePickerData) : FilePickerData := mk (wb d) (title d) (current_dir d) (filter_ext d) l (selected d).

(** The file has the extension, or there is none to have. *)
Definition passes (ext : option string) (name : string) : bool :=
  match shown ext with
  | None => true
  | Some e => match strrchr "." (chars name) with Some (_, b) => bool_decide (b = chars e) | None => false end
  end.
Definition entry_of (dir : string) (ext : option string) (name : string) : option (string * bool) :=
  if decide (name = "."%string) then None else
  isdir ← stat (strtake 4095 (join dir name));
  if (negb isdir && negb (passes ext name))%bool then None else Some (name, isdir).
Definition clip (d : FilePickerData) : FilePickerData :=
  if entry_count d <=? selected d then set_selected (if 0 <? entry_count d then entry_count d - 1 else 0) d else d.
Definition fp_populate (d : FilePickerData) : FilePickerData :=
  match opendir (current_dir d) with
  | None => set_entries [] d
  | Some names => clip (set_entries (omap (entry_of (current_dir d) (filter_ext d)) names) d)
  end.

Definition entry_label (e : string * bool) : string := strtake 511 ((if snd e then "[DIR]" else "     ") +:+ " " +:+ fst e).
Definition file_picker_render (d : FilePickerData) : RenderTree :=
  let area := render_area (wb d) in
  let box_w := at_most (rw area - 2) (scale_int (rw area) 7 1) in
  let box_h := at_most (rh area - 2) (scale_int (rh area) 75 2) in
  box (wb d) "file-picker" EmptyString (Some (title d)) box_w box_h
    [title_text (rect_new 1 0 (box_w - 2) 1) (strtake 511 (title d +:+ ": " +:+ current_dir d));
     child_node "list" (rect_new 1 1 (box_w - 2) (box_h - 3)) (RNODE_LIST (list_items (map entry_label (entries d))) (selected d));
     muted_text (rect_new 1 (box_h - 2) (box_w - 2) 1) "Up/Down:move  Enter:open/select  Backspace:parent  Esc:cancel"].

Definition go_to (dir : string) (d : FilePickerData) : FilePickerData := set_dirty (fp_populate (set_dir dir d)).
Definition file_picker_handle_event (d : FilePickerData) (ev : Event) : exec (FilePickerData * EventResult) :=
  match Widget.type ev with
  | EVENT_KEY =>
      match code ev with
      | KEY_ESC => Done (d, cancelled_response)
      | KEY_UP => Done (if 0 <? selected d then set_dirty (set_selected (selected d - 1) d) else d, event_result_handled)
      | KEY_DOWN => Done (if selected d + 1 <? entry_count d then set_dirty (set_selected (selected d + 1) d) else d, event_result_handled)
      | KEY_ENTER =>
          if selected d <? entry_count d then
            '(name, isdir) ← (if selected d <? 0 then Fault OutOfBounds else at_index (entries d !! Z.to_nat (selected d)));
            if (isdir : bool) then Done (go_to (join (current_dir d) name) d, event_result_handled)
            else Done (d, answer (cJSON_CreateString (Some (join (current_dir d) name))))
          else Done (d, event_result_handled)
      | KEY_BACKSPACE =>
          match strrchr "/" (chars (current_dir d)) with
          | Some ((_ :: _) as a, _) => Done (go_to (of_chars a) d, event_result_handled)
          | _ => Done (d, event_result_handled)
          end
      | _ => Done (d, event_result_unhandled)
      end
  | _ => Done (d, event_result_unhandled)
  end.

Definition file_picker_widget_new (t : string) (start_dir ext : option string) : FilePickerData :=
  fp_populate (mk widget_base_init t (default "/"%string start_dir) ext [] 0).

#[global] Program Instance file_picker_widget : Widget FilePickerData := {|
  base := wb; set_base := with_base; render d := Done (d, file_picker_render d); handle_event := file_picker_handle_event |}.
Solve Obligations with by destruct w.
End file_picker.
End FilePicker.
Import FilePicker.

(** *** What can be picked *)

Section picks.
Variable opendir : string -> option (list string).
Variable stat : string -> option bool.
Abbreviation handle := (file_picker_handle_event opendir stat).
#[local] Instance this_picker : Widget FilePickerData := file_picker_widget opendir stat.

(** A file that the directory lists, that is no directory, and that has the extension. *)
Definition is_file (ext : option string) (dir name : string) (isdir : bool) : Prop :=
  (exists names, opendir dir = Some names /\ name ∈ names) /\ name <> "."%string /\ stat (strtake 4095 (join dir name)) = Some isdir /\
  (isdir = true \/ passes ext name = true).
Definition picker_ok (ext : option string) (d : FilePickerData) : Prop :=
  filter_ext d = ext /\ 0 <= selected d /\ forall name isdir, (name, isdir) ∈ entries d -> is_file ext (current_dir d) name isdir.
Definition picked (ext : option string) (r : WidgetResponse) : Prop :=
  cancelled_answer r \/ exists dir name, result r = Some (string_item (join dir name)) /\ cancelled r = false /\ is_file ext dir name false.

Lemma entry_of_file ext dir names name n b : opendir dir = Some names -> name ∈ names -> entry_of stat dir ext name = Some (n, b) -> is_file ext dir n b.
Proof.
  intros Ho Hn. unfold entry_of. case_decide as Hd; [done|]. destruct (stat _) as [isdir|] eqn:Es; [|done]. cbn [mbind option_bind].
  destruct (negb isdir && negb (passes ext name)) eqn:E; [done|]. intros [= <- <-]. repeat split; [by exists names|done|done|].
  destruct isdir; [by left|right]. by apply negb_false_iff in E.
Qed.
Lemma clip_ok ext d : picker_ok ext d -> picker_ok ext (clip d).
Proof. intros (H1 & H2 & H3). unfold clip. destruct (_ <=? _); [|done]. split; [done|]. split; [|exact H3]. cbn. destruct (0 <? entry_count d) eqn:E; simp_bool; lia. Qed.
Lemma populate_ok d : 0 <= selected d -> picker_ok (filter_ext d) (fp_populate opendir stat d).
Proof.
  intros Hs. unfold fp_populate. destruct (opendir (current_dir d)) as [names|] eqn:Ho.
  - apply clip_ok. split; [done|]. split; [done|]. intros n b (name & Hn & He)%list_elem_of_omap. by eapply entry_of_file.
  - split; [done|]. split; [done|]. intros n b H. by apply not_elem_of_nil in H.
Qed.
Lemma go_to_ok ext dir d : picker_ok ext d -> picker_ok ext (go_to opendir stat dir d).
Proof. intros (<- & Hs & _). exact (populate_ok (set_dir dir d) Hs). Qed.

Lemma file_picker_handles ext : handles (picker_ok ext) (fun _ => picked ext).
Proof.
  intros d e Hd. pose proof Hd as (H1 & H2 & H3). cbn [handle_event this_picker file_picker_widget]. unfold file_picker_handle_event.
  assert (forall s, 0 <= s -> picker_ok ext (set_dirty (set_selected s d))) as Hs by (by intros s Hs; split; [|split]).
  key_cases e; try (by eexists _, _).
  - destruct (strrchr _ _) as [[[|c a] b]|]; try (by eexists _, _). eexists _, _. split; [done|]. split; [by apply go_to_ok|done].
  - destruct (Z.ltb_spec (selected d) (entry_count d)) as [H|H]; [|by eexists _, _]. rewrite (proj2 (Z.ltb_ge _ _)) by lia.
    destruct (lookup_lt_is_Some_2 (entries d) (Z.to_nat (selected d))) as [[name isdir] E]; [unfold entry_count in H; lia|]. rewrite E. cbn [at_index mbind exec_bind].
    destruct isdir.
    + eexists _, _. split; [done|]. split; [by apply go_to_ok|done].
    + eexists _, _. split; [done|]. split; [done|]. right. exists (current_dir d), name. split; [done|]. split; [done|]. by apply H3, list_elem_of_lookup_2 with (Z.to_nat (selected d)).
  - destruct (Z.ltb_spec 0 (selected d)); eexists _, _; (split; [done|]); (split; [|done]); [apply Hs; lia|done].
  - destruct (_ <? _); eexists _, _; (split; [done|]); (split; [|done]); [apply Hs; lia|done].
  - eexists _, _. split; [done|]. split; [done|]. by left.
Qed.

(** Whatever keys are typed, the file picker goes on or answers, and an answer
    is no path at all or the path of a file: its name is one that its directory
    lists, it is not a directory itself, and it has the extension asked for. *)
Theorem file_picked t start ext evs :
  exists d r, run_events (file_picker_widget_new opendir stat t start ext) evs = Done (d, r) /\ picker_ok ext d /\ match r with Some r => picked ext r | None => True end.
Proof. apply run_events_handles with (R := fun _ => picked ext); [apply file_picker_handles|]. by apply (populate_ok (mk _ _ _ ext _ _)). Qed.

(** *** Going into a directory and back *)

Lemma strrchr_last c a b : c ∉ b -> strrchr c (a ++ c :: b) = Some (a, b).
Proof.
  intros Hb. assert (strrchr c b = None) as H0.
  { clear a. induction b as [|d b IH]; [done|]. apply list.not_elem_of_cons in Hb as [H1 H2]. cbn [strrchr]. rewrite IH by done. by rewrite (proj2 (Ascii.eqb_neq _ _)). }
  induction a as [|d a IH]; cbn [app strrchr]; [by rewrite H0, Ascii.eqb_refl|]. by rewrite IH.
Qed.
(** Backspace leaves the directory Enter has gone to, whatever its name is: after
    ".." it goes back to where it came from, not up. *)
Lemma into_and_back d name : selected d < entry_count d -> 0 <= selected d -> entries d !! Z.to_nat (selected d) = Some (name, true) ->
  "/"%char ∉ chars name -> current_dir d <> EmptyString ->
  exists d1 d2, handle d (key_event KEY_ENTER 0) = Done (d1, event_result_handled) /\ current_dir d1 = join (current_dir d) name /\
    handle d1 (key_event KEY_BACKSPACE 0) = Done (d2, event_result_handled) /\ current_dir d2 = current_dir d.
Proof.
  intros Hs H0 He Hn Hd. assert (forall dir d, current_dir (go_to opendir stat dir d) = dir) as Hg.
  { intros dir d'. unfold go_to, fp_populate. destruct (opendir _); [|done]. unfold clip. by destruct (_ <=? _). }
  set (d1 := go_to opendir stat (join (current_dir d) name) d). exists d1, (go_to opendir stat (current_dir d) d1). split; [|split; [apply Hg|split; [|apply Hg]]].
  - unfold file_picker_handle_event. cbn [Widget.type code key_event]. by rewrite (proj2 (Z.ltb_lt _ _) Hs), (proj2 (Z.ltb_ge _ _) H0), He.
  - unfold file_picker_handle_event. cbn [Widget.type code key_event]. replace (current_dir d1) with (join (current_dir d) name) by (symmetry; apply Hg). unfold join. rewrite chars_app.
    change (chars ("/" +:+ name)) with ("/"%char :: chars name). rewrite strrchr_last by done.
    destruct (chars (current_dir d)) eqn:E; [by destruct (current_dir d)|]. by rewrite <-E, string_of_list_ascii_of_string.
Qed.
End picks.

(** From "/etc" there is no way to "/": the only slash is the first character. *)
Example root_unreachable : file_picker_handle_event (fun _ => Some []) (fun _ => Some true) (file_picker_widget_new (fun _ => Some []) (fun _ => Some true) "" (Some "/etc"%string) None) (key_event KEY_BACKSPACE 0)
  = Done (file_picker_widget_new (fun _ => Some []) (fun _ => Some true) "" (Some "/etc"%string) None, event_result_handled).
Proof. reflexivity. Qed.

(** ** progress.c *)

(** The tokens of [strtok] at one separator; [cur] is the token begun. *)
Fixpoint tokens_at (sep : ascii) (cur l : list ascii) : list (list ascii) :=
  let tok := match cur with [] => [] | _ => [cur] end in
  match l with
  | [] => tok
  | c :: l' => if Ascii.eqb c sep then tok ++ tokens_at sep [] l' else tokens_at sep (cur ++ [c]) l'
  end.
Definition strtok (sep : ascii) (s : string) : list string := map of_chars (tokens_at sep [] (chars s)).
(** The characters of a buffer before its terminator. *)
Definition text_of (l : list ascii) : list ascii := span (fun c => negb (Ascii.eqb c NUL)) l.

Module Progress.
(** What the system answers: [realpath], the environment, [pipe] and [fork], and
    at each look at a command what [read] gets and whether [waitpid] reports. *)
Record System := mkSystem { realpath : string -> option string; PATH : option string; pipe : bool; fork : Z; read : nat -> list ascii; waitpid : nat -> bool }.
(** What was done to the system. *)
Inductive Effect := Runs (argv : list string) (pid : Z) | Writes (fd : Z) (text : list ascii) | Kills (pid : Z).

Section progress.
Variable sys : System.

Record ProgressData := mk { wb : WidgetBase; title : string; command : list string; output : string; stage : string; logfile : option string;
  progress : Z; child_pid : Z; show_raw : bool; yield_fd : Z; last_yielded_progress : Z; looks : nat; effects : list Effect }.
Definition with_base (b : WidgetBase) (d : ProgressData) : ProgressData :=
  mk b (title d) (command d) (output d) (stage d) (logfile d) (progress d) (child_pid d) (show_raw d) (yield_fd d) (last_yielded_progress d) (looks d) (effects d).
Definition set_dirty (d : ProgressData) : ProgressData := with_base (base_set_dirty true (wb d)) d.
Definition set_output (s : string) (d : ProgressData) : ProgressData :=
  mk (wb d) (title d) (command d) s (stage d) (logfile d) (progress d) (child_pid d) (show_raw d) (yield_fd d) (last_yielded_progress d) (looks d) (effects d).
Definition set_stage (p : Z) (s : string) (d : ProgressData) : ProgressData :=
  mk (wb d) (title d) (command d) (output d) s (logfile d) p (child_pid d) (show_raw d) (yield_fd d) (last_yielded_progress d) (looks d) (effects d).
Definition set_pid (p : Z) (d : ProgressData) : ProgressData :=
  mk (wb d) (title d) (command d) (output d) (stage d) (logfile d) (progress d) p (show_raw d) (yield_fd d) (last_yielded_progress d) (looks d) (effects d).
Definition toggle_raw (d : ProgressData) : ProgressData :=
  mk (wb d) (title d) (command d) (output d) (stage d) (logfile d) (progress d) (child_pid d) (negb (show_raw d)) (yield_fd d) (last_yielded_progress d) (looks d) (effects d).
Definition set_yielded (p : Z) (d : ProgressData) : ProgressData :=
  mk (wb d) (title d) (command d) (output d) (stage d) (logfile d) (progress d) (child_pid d) (show_raw d) (yield_fd d) p (looks d) (effects d).
Definition looked (d : ProgressData) : ProgressData :=
  mk (wb d) (title d) (command d) (output d) (stage d) (logfile d) (progress d) (child_pid d) (show_raw d) (yield_fd d) (last_yielded_progress d) (S (looks d)) (effects d).
Definition does (e : Effect) (d : ProgressData) : ProgressData :=
  mk (wb d) (title d) (command d) (output d) (stage d) (logfile d) (progress d) (child_pid d) (show_raw d) (yield_fd d) (last_yielded_progress d) (looks d) (effects d ++ [e]).
Definition progress_widget_set_yield_fd (fd : Z) (d : ProgressData) : ProgressData :=
  mk (wb d) (title d) (command d) (output d) (stage d) (logfile d) (progress d) (child_pid d) (show_raw d) fd (last_yielded_progress d) (looks d) (effects d).

(** *** The command *)

Definition allowed : list string := ["/usr/bin/"; "/usr/sbin/"; "/bin/"; "/sbin/"]%string.
(** The prefix, and a slash or the end behind it. *)
Definition below (resolved prefix : string) : bool :=
  has_prefix (chars prefix) (chars resolved) &&
  match drop (length (chars prefix)) (chars resolved) with [] => true | c :: _ => Ascii.eqb c "/" end.
Fixpoint first_resolved (name : string) (dirs : list string) : option string :=
  match dirs with
  | [] => None
  | dir :: dirs' => match realpath sys (strtake 4095 (join dir name)) with Some r => Some r | None => first_resolved name dirs' end
  end.
Definition resolve (name : string) : option string :=
  match realpath sys name with
  | Some r => Some r
  | None => path ← PATH sys; first_resolved name (strtok ":" path)
  end.
Definition progress_command_allowed (cmd : list string) : bool :=
  match cmd with
  | [] => false
  | name :: _ => match resolve name with Some r => existsb (below r) allowed | None => false end
  end.

Definition yield_text (d : ProgressData) : list ascii :=
  quoted "{'type':'yield','progress':" ++ int_chars (progress d) ++ quoted ",'stage':'" ++ chars (stage d) ++ quoted "'}" ++ ["010"%char].
(** [write] takes as many bytes as the text has, out of a buffer of 256. *)
Definition progress_send_yield (d : ProgressData) : exec ProgressData :=
  if yield_fd d <? 0 then Done d
  else if (progress d =? last_yielded_progress d) && negb (progress d =? 100) then Done d
  else
    let text := yield_text d in
    if (256 <? length text)%nat then Fault OutOfBounds else Done (does (Writes (yield_fd d) (take (length text) (take 255 text ++ [NUL]))) (set_yielded (progress d) d)).

Definition progress_start (d : ProgressData) : exec ProgressData :=
  if progress_command_allowed (command d) then
    if pipe sys then Done (set_pid (fork sys) (if 0 <? fork sys then does (Runs (command d) (fork sys)) d else d)) else Done d
  else progress_send_yield (set_stage 100 "Error" (set_output ("Command not allowed" +:+ String "010" EmptyString) d)).

(** The words looked for, in order. *)
Definition stages : list (string * Z * string) :=
  [("Preflight", 5, "Preflight complete"); ("Mount", 20, "Storage configured"); ("Base system", 50, "Base installed");
   ("Bootloader", 78, "Bootloader configured"); ("Post-install", 90, "Post-install done"); ("Final", 100, "Finalizing")]%string.
Fixpoint stage_of (l : list (string * Z * string)) (buf : list ascii) (d : ProgressData) : ProgressData :=
  match l with
  | [] => d
  | (word, p, s) :: l' => if strstr buf (chars word) then set_stage p s d else stage_of l' buf d
  end.
Definition progress_update (d : ProgressData) : exec ProgressData :=
  if child_pid d =? 0 then Done d else
  let n := looks d in
  let d := looked d in
  d ← match take 4095 (read sys n) with
      | [] => Done d
      | l => let buf := text_of l in progress_send_yield (stage_of stages buf (set_output (output d +:+ of_chars buf) d))
      end;
  if waitpid sys n then progress_send_yield (set_pid 0 (set_stage 100 "Complete" d)) else Done d.

(** *** Drawing and keys *)

Definition silent (d : ProgressData) : bool := match output d with EmptyString => true | _ => false end.
Definition progress_tree (d : ProgressData) : RenderTree :=
  let area := render_area (wb d) in
  let box_w := at_most (rw area - 2) (scale_int (rw area) 8 1) in
  let box_h := at_most (rh area - 2) (scale_int (rh area) 8 1) in
  shown_node "container" (wb d) "progress" (Some (title d)) (centred area box_w box_h)
    (framed ([title_text (rect_new 1 0 (box_w - 2) 1) (title d)] ++
      (if show_raw d then [text_node (rect_new 1 1 (box_w - 2) (box_h - 3)) (output d) ALIGN_LEFT]
       else [child_node "gauge" (rect_new 1 1 (box_w - 2) 3) (RNODE_GAUGE (progress d) (Some (stage d)));
             text_node (rect_new 1 4 (box_w - 2) (box_h - 6)) (output d) ALIGN_LEFT]) ++
      [muted_text (rect_new 1 (box_h - 2) (box_w - 2) 1) "[Tab] toggle raw  [Esc] cancel"])).
Definition progress_render (d : ProgressData) : exec (ProgressData * RenderTree) :=
  d ← (if (child_pid d =? 0) && silent d then progress_start d else Done d);
  d ← (if 0 <? child_pid d then progress_update d else Done d);
  Done (d, progress_tree d).

Definition progress_handle_event (d : ProgressData) (ev : Event) : exec (ProgressData * EventResult) :=
  match Widget.type ev with
  | EVENT_KEY =>
      match code ev with
      | KEY_ESC =>
          let d := if 0 <? child_pid d then set_pid 0 (does (Kills (child_pid d)) d) else d in
          d ← progress_send_yield (set_stage 100 "Cancelled" d);
          Done (d, cancelled_response)
      | KEY_TAB => Done (set_dirty (toggle_raw d), event_result_handled)
      | _ => Done (set_dirty d, if (child_pid d =? 0) && negb (silent d) then answer (cJSON_CreateString (Some (output d))) else event_result_handled)
      end
  | _ => Done (d, event_result_handled)
  end.

Definition progress_widget_new (t : string) (cmd : list string) (log : option string) : ProgressData :=
  mk widget_base_init t cmd EmptyString "Starting..." log 0 0 false (-1) (-1) 0 [].

#[global] Program Instance progress_widget : Widget ProgressData := {|
  base := wb; set_base := with_base; render := progress_render; handle_event := progress_handle_event |}.
Solve Obligations with by destruct w.
End progress.
End Progress.
Import Progress.

(** *** No command is run *)

(** [realpath] gives the root, or names between single slashes: what POSIX says
    of an absolute path without dots and links. *)
Definition canonical (r : string) : Prop := r = "/"%string \/ (strstr (chars r) (chars "//") = false /\ forall a, chars r <> a ++ ["/"%char]).
Lemma strstr_inside a p b : strstr (a ++ p ++ b) p = true.
Proof.
  assert (forall l, has_prefix p (p ++ l) = true) as Hp by (intros l; induction p as [|c p IH]; [done|]; cbn; by rewrite Ascii.eqb_refl, IH).
  induction a as [|c a IH]; cbn [app].
  - destruct (p ++ b) as [|c l] eqn:E; cbn [strstr]; rewrite <-E, Hp; done.
  - cbn [strstr]. by rewrite IH, orb_true_r.
Qed.
Lemma prefix_split p l : has_prefix p l = true -> l = p ++ drop (length p) l.
Proof.
  revert l. induction p as [|c p IH]; intros [|d l]; try done. cbn [has_prefix]. intros [H%Ascii.eqb_eq Hl]%andb_true_iff. subst d. cbn [app length drop]. by rewrite <-(IH l Hl).
Qed.
(** The test wants a slash, or nothing, behind a prefix that ends in a slash. *)
Lemma below_never r prefix : canonical r -> prefix ∈ allowed -> below r prefix = false.
Proof.
  intros Hr Hp. destruct (below r prefix) eqn:E; [|done]. exfalso. unfold below in E. apply andb_true_iff in E as [H1 H2]. apply prefix_split in H1.
  assert (exists q x, chars prefix = (x :: q) ++ ["/"%char]) as (q & x & Eq).
  { exists (removelast (tail (chars prefix))), (hd NUL (chars prefix)). apply list_elem_of_In in Hp. cbn in Hp. by repeat (destruct Hp as [<- | Hp]; [reflexivity|]). }
  destruct Hr as [-> | [Hd He]].
  { rewrite Eq in H1. cbn in H1. injection H1 as _ H1. by destruct q. }
  destruct (drop _ _) as [|c l].
  - rewrite app_nil_r, Eq in H1. by apply (He (x :: q)).
  - apply Ascii.eqb_eq in H2 as ->. rewrite Eq, <-app_assoc in H1. change (["/"%char] ++ "/"%char :: l) with (chars "//" ++ l) in H1.
    rewrite H1, strstr_inside in Hd. done.
Qed.

Section idle.
Variable sys : System.
Hypothesis realpath_canonical : forall s r, realpath sys s = Some r -> canonical r.
#[local] Instance this_progress : Widget ProgressData := progress_widget sys.

Lemma resolve_canonical name r : resolve sys name = Some r -> canonical r.
Proof.
  unfold resolve. destruct (realpath sys name) eqn:E; [intros [= <-]; by eapply realpath_canonical|]. destruct (PATH sys) as [path|]; [|done]. cbn [mbind option_bind].
  generalize (strtok ":" path). intros dirs. induction dirs as [|dir dirs IH]; [done|]. cbn [first_resolved].
  destruct (realpath sys (strtake _ _)) eqn:E'; [intros [= <-]; by eapply realpath_canonical|exact IH].
Qed.
Lemma never_allowed cmd : progress_command_allowed sys cmd = false.
Proof.
  unfold progress_command_allowed. destruct cmd as [|name cmd]; [done|]. destruct (resolve sys name) as [r|] eqn:E; [|done]. apply resolve_canonical in E.
  destruct (existsb (below r) allowed) eqn:Ex; [|done]. apply existsb_exists in Ex as (p & Hp & Hb). apply list_elem_of_In in Hp. by rewrite below_never in Hb.
Qed.

Definition refusal : string := "Command not allowed" +:+ String "010" EmptyString.
(** Nothing was started, and the refusal is there as soon as anything is drawn. *)
Definition idle (d : ProgressData) : Prop :=
  child_pid d = 0 /\ (forall e, e ∈ effects d -> exists t, e = Writes (yield_fd d) t) /\ (output d = EmptyString \/ output d = refusal) /\
  (stage d ∈ ["Starting..."; "Error"; "Cancelled"]%string) /\ (progress d = 0 \/ progress d = 100).
Definition refused (d : ProgressData) : Prop := idle d /\ output d = refusal.

Lemma yield_idle d : idle d -> exists d', progress_send_yield d = Done d' /\ idle d' /\ output d' = output d.
Proof.
  intros (H1 & H2 & H3 & H4 & H5). unfold progress_send_yield. destruct (_ <? 0); [by exists d|]. destruct (_ && _); [by exists d|].
  assert (length (yield_text d) <= 256)%nat as Hl.
  { apply list_elem_of_In in H4. cbn in H4. unfold yield_text. destruct H5 as [-> | ->]; repeat (destruct H4 as [<- | H4]; [by apply Nat.leb_le|]); done. }
  rewrite (proj2 (Nat.ltb_ge _ _) Hl). eexists. split; [reflexivity|]. split; [|done]. split; [done|]. split; [|done]. cbn [effects does set_yielded yield_fd].
  intros e [He | ->%list_elem_of_singleton]%elem_of_app; [by apply H2|by eexists].
Qed.
Lemma render_idle d : idle d -> exists d', progress_render sys d = Done (d', progress_tree d') /\ refused d'.
Proof.
  intros Hd. pose proof Hd as (H1 & H2 & H3 & H4 & H5). unfold progress_render. rewrite H1. cbn [Z.eqb andb]. unfold silent.
  destruct H3 as [E | E]; rewrite E.
  - unfold progress_start. rewrite never_allowed.
    destruct (yield_idle (set_stage 100 "Error" (set_output refusal d))) as (d' & Hy & Hi & Ho).
    { split; [done|]. split; [done|]. split; [by right|]. split; [by right; left|by right]. }
    unfold refusal in Hy. rewrite Hy. cbn [mbind exec_bind]. destruct Hi as (Hp & Hi). rewrite Hp. cbn [mbind exec_bind]. eexists. split; [reflexivity|]. by split.
  - change (match refusal with EmptyString => true | _ => false end) with false. cbn [mbind exec_bind]. rewrite H1. cbn [mbind exec_bind]. eexists. by split.
Qed.
Lemma event_idle d e : idle d -> exists d' r, progress_handle_event d e = Done (d', r) /\ idle d' /\ output d' = output d /\
  match r with EVENT_RESULT_RESPONSE resp => cancelled_answer resp \/ result resp = Some (string_item refusal) /\ cancelled resp = false | _ => True end.
Proof.
  intros Hd. pose proof Hd as (H1 & H2 & H3 & H4 & H5). unfold progress_handle_event. rewrite H1. cbn [Z.eqb Z.ltb Z.compare andb]. unfold silent.
  assert (idle (set_dirty d)) as Hdirty by done. assert (idle (set_dirty (toggle_raw d))) as Hraw by done.
  destruct (yield_idle (set_stage 100 "Cancelled" d)) as (d' & Hy & Hi & Ho); [by repeat split; auto; right; right; left|].
  destruct H3 as [E | E]; rewrite E; key_cases e; try (by eexists _, _);
    try (rewrite Hy; eexists _, _; split; [reflexivity|]; split; [done|]; split; [by rewrite Ho|]; by left);
    (eexists _, _; split; [reflexivity|]; split; [exact Hdirty|]; split; [exact E|]; by right).
Qed.

Definition refuses (r : WidgetResponse) : Prop := cancelled_answer r \/ result r = Some (string_item refusal) /\ cancelled r = false.
Lemma acts_idle acts : forall d, idle d -> exists d' r, Served.act_run d acts = Done (d', r) /\ idle d' /\ match r with Some r => refuses r | None => True end.
Proof.
  induction acts as [|[e|area] acts IH]; intros d Hd; cbn [Served.act_run]; [by exists d, None| |].
  - change (handle_event d e) with (progress_handle_event d e). destruct (event_idle d e Hd) as (d' & r & -> & Hd' & _ & Hr). cbn [mbind exec_bind].
    destruct r; [by apply IH|by exists d', (Some response)|by apply IH].
  - change (render ?w) with (progress_render sys w). destruct (render_idle (set_base (Served.with_area area (base d)) d)) as (d' & -> & [Hd' _]); [done|]. by apply IH.
Qed.
Lemma refused_answers d k : refused d -> k <> KEY_ESC -> k <> KEY_TAB ->
  progress_handle_event d (key_event k 0) = Done (set_dirty d, answer (Some (string_item refusal))).
Proof.
  intros [(H1 & _) Ho] He Ht. unfold progress_handle_event. cbn [Widget.type code key_event]. rewrite H1. unfold silent. rewrite Ho. by destruct k.
Qed.

(** C14: whatever command a progress box is given, it runs none: the test of the
    path wants a slash behind a prefix that ends in one, and no resolved path has
    two. No process is started or signalled, whatever is typed and drawn, and the
    box answers that the command is not allowed, or that it was cancelled; after
    it was drawn once, any key but Escape and Tab gives the refusal. *)
Theorem progress_never_runs t cmd log fd acts :
  exists d r, Served.act_run (progress_widget_set_yield_fd fd (progress_widget_new t cmd log)) acts = Done (d, r) /\
    (forall e, e ∈ effects d -> exists text, e = Writes (yield_fd d) text) /\
    match r with Some r => refuses r | None => True end /\
    forall area k, k <> KEY_ESC -> k <> KEY_TAB ->
      exists d', Served.act_run d [Served.Draws area; Served.Takes (key_event k 0)] = Done (d', Some (mkResponse (Some (string_item refusal)) false None)).
Proof.
  assert (idle (progress_widget_set_yield_fd fd (progress_widget_new t cmd log))) as H0.
  { split; [done|]. split; [intros e H; by apply not_elem_of_nil in H|]. split; [by left|]. split; [by left|by left]. }
  destruct (acts_idle acts _ H0) as (d & r & -> & Hd & Hr). exists d, r. split; [done|]. split; [apply Hd|]. split; [done|].
  intros area k He Ht. cbn [Served.act_run]. change (render ?w) with (progress_render sys w).
  destruct (render_idle (set_base (Served.with_area area (base d)) d)) as (d' & -> & Hd'); [done|]. cbn [mbind exec_bind].
  change (handle_event d' ?e) with (progress_handle_event d' e). rewrite (refused_answers d' k Hd' He Ht). by eexists.
Qed.
End idle.

(** A system where every command is found, and is one of "/usr/bin". *)
Definition found (s : string) : option string := match chars s with [] => None | c :: _ => if Ascii.eqb c "/" then Some "/usr/bin/ls"%string else None end.
Definition sample_system : System := mkSystem found (Some "/usr/local/bin:/usr/bin"%string) true 42 (fun _ => []) (fun _ => false).
Lemma progress_never_runs_witness :
  resolve sample_system "ls" = Some "/usr/bin/ls"%string /\
  exists d, Served.act_run (H := progress_widget sample_system) (progress_widget_set_yield_fd 7 (progress_widget_new "Listing" ["ls"; "-l"]%string None)) [Served.Draws (mkRect 0 0 80 24)] = Done (d, None) /\
    (forall e, e ∈ effects d -> exists text, e = Writes (yield_fd d) text).
Proof.
  split; [vm_compute; reflexivity|].
  destruct (progress_never_runs sample_system) with (t := "Listing"%string) (cmd := ["ls"; "-l"]%string) (log := None : option string) (fd := 7) (acts := [Served.Draws (mkRect 0 0 80 24)])
    as (d & r & E & H & _ & _).
  - intros s r. cbn. unfold found. destruct (chars s) as [|c l]; [done|]. destruct (Ascii.eqb c "/"); [|done]. intros [= <-]. right. split; [reflexivity|].
    intros a E. apply (f_equal (fun l => hd NUL (rev l))) in E. rewrite rev_app_distr in E. vm_compute in E. discriminate E.
  - exists d. split; [|exact H]. revert E. vm_compute. intros [= <- <-]. reflexivity.
Defined.

(** Were the test passed, a command that prints nothing would be run again each
    time the box is drawn after its end. *)
Definition silent_system : System := mkSystem (fun _ => Some "/bin//true"%string) None true 42 (fun _ => []) (fun _ => true).
Definition effects_of (m : exec (ProgressData * RenderTree)) : list Effect := match m with Done (d, _) => effects d | _ => [] end.
Example silent_command_repeats :
  effects_of ('(d, _) ← progress_render silent_system (progress_widget_new "Wait" ["true"%string] None); progress_render silent_system d)
  = [Runs ["true"%string] 42; Runs ["true"%string] 42].
Proof. vm_compute. reflexivity. Qed.
