(* ===== verification/Hub.v ===== *)
(** The hub of src/src/core/widgets/hub.c: categories of items, each with a
    value that is edited by a widget of its own. The hub makes that widget through
    the registry and hands it every event until it answers; it is any widget with
    the operations of the class [Widget]. *)

From Stdlib Require Import SpecFloat.
From S2P Require Import Prelude Double CJson CJsonParse CJsonPrint Protocol RenderTree Widget Boxes Displays Forms Factories Outside.

Module Hub.
(** ** Data *)

Record HubItem := mkItem {
  id : string; label : string; value : string; widget : string; choices : list string; placeholder : string; message : string;
  display : option string; disk_picker : bool; visible_if : list (string * string)
}.
Record HubCategory := mkCategory { cat_id : string; cat_label : string; summary_template : string; items : list HubItem }.
Inductive HubMode := HUB_BROWSING | HUB_EDITING | HUB_CONFIRM_PROCEED | HUB_CONFIRM_QUIT.
#[global] Instance HubMode_eq_dec : EqDecision HubMode.
Proof. solve_decision. Defined.

Section hub.
Context {W : Type} `{Hw : Widget W}.
(** What the registry holds when an item is edited. *)
Variable reg : list (RegistryEntry (W := W)).

Record HubData := mk {
  wb : WidgetBase; title : string; categories : list HubCategory; actions : list string; cat_idx : Z; item_idx : Z;
  vals : list (string * string); mode : HubMode; sub_widget : option W
}.
Definition with_base (b : WidgetBase) (d : HubData) : HubData :=
  mk b (title d) (categories d) (actions d) (cat_idx d) (item_idx d) (vals d) (mode d) (sub_widget d).
Definition set_dirty (d : HubData) : HubData := with_base (base_set_dirty true (wb d)) d.
Definition set_text_input (t : bool) (d : HubData) : HubData := with_base (mkBase (Widget.dirty (wb d)) t (render_area (wb d)) (base_tab_index (wb d))) d.
Definition set_place (c i : Z) (d : HubData) : HubData := mk (wb d) (title d) (categories d) (actions d) c i (vals d) (mode d) (sub_widget d).
Definition set_vals (l : list (string * string)) (d : HubData) : HubData :=
  mk (wb d) (title d) (categories d) (actions d) (cat_idx d) (item_idx d) l (mode d) (sub_widget d).
Definition set_mode (m : HubMode) (d : HubData) : HubData :=
  mk (wb d) (title d) (categories d) (actions d) (cat_idx d) (item_idx d) (vals d) m (sub_widget d).
Definition set_sub (s : option W) (d : HubData) : HubData :=
  mk (wb d) (title d) (categories d) (actions d) (cat_idx d) (item_idx d) (vals d) (mode d) s.

(** ** Values *)

Fixpoint find_val (key : string) (l : list (string * string)) : option string :=
  match l with [] => None | (k, v) :: l' => if decide (k = key) then Some v else find_val key l' end.
Fixpoint store_val (key value : string) (l : list (string * string)) : list (string * string) :=
  match l with [] => [(key, value)] | (k, v) :: l' => if decide (k = key) then (k, value) :: l' else (k, v) :: store_val key value l' end.
Definition hub_get (d : HubData) (key : string) : option string := find_val key (vals d).
Definition hub_set (d : HubData) (key value : string) : HubData := set_vals (store_val key value (vals d)) d.

Definition skip_blanks (l : list ascii) : list ascii := drop (length (span (fun c => Ascii.eqb c " ") l)) l.
(** One of the values between the commas. *)
Definition matches (v cond : string) : bool := existsb (fun tok => bool_decide (chars v = skip_blanks (chars tok))) (strtok "," cond).
Definition hub_visible (d : HubData) (item : HubItem) : bool :=
  forallb (fun kv => match hub_get d (fst kv) with Some v => matches v (snd kv) | None => false end) (visible_if item).
Definition shown_items (d : HubData) (c : HubCategory) : list HubItem := filter (fun i => hub_visible d i = true) (items c).
Definition category (d : HubData) : exec HubCategory :=
  if cat_idx d <? 0 then Fault OutOfBounds else at_index (categories d !! Z.to_nat (cat_idx d)).
Definition hub_get_item (d : HubData) : exec (option HubItem) :=
  c ← category d; Done (if item_idx d <? 0 then None else shown_items d c !! Z.to_nat (item_idx d)).
Definition hub_visible_count (d : HubData) : exec Z := c ← category d; Done (Z.of_nat (length (shown_items d c))).

(** ** Drawing *)

Definition cursor (b : bool) : string := if b then ">" else " ".
Definition value_text (d : HubData) (item : HubItem) : string :=
  let val := hub_get d (id item) in
  let disp := default (value item) val in
  let disp := if decide (display item = Some "set/not set"%string) then (if is_shown val then "set" else "not set")%string else disp in
  match disp with EmptyString => "(none)" | s => s end.
Definition item_label (d : HubData) (vi : nat) (item : HubItem) : string :=
  strtake 511 (cursor (Z.of_nat vi =? item_idx d) +:+ " " +:+ label item +:+ ": " +:+ value_text d item).
Definition category_label (d : HubData) (i : nat) (c : HubCategory) : string := strtake 255 (cursor (Z.of_nat i =? cat_idx d) +:+ " " +:+ cat_label c).
Definition action_label (i : nat) (a : string) : string := strtake 31 ("F" +:+ int_string (Z.of_nat i + 1) +:+ ":" +:+ a +:+ "  ").
Definition footer_text (l : list string) : string := String.concat "" (imap action_label l) +:+ "Up/Down:items  Left/Right:categories  Enter:edit  Esc:quit".
(** The footer is put together in 512 bytes. *)
Definition footer (l : list string) : exec string := if 511 <? strlen (footer_text l) then Fault OutOfBounds else Done (footer_text l).

Definition confirm_tree (d : HubData) : RenderTree :=
  let area := render_area (wb d) in
  let box_w := at_most (rw area - 2) (scale_int (rw area) 95 2) in
  box (wb d) "hub" EmptyString (Some (title d)) box_w 7
    [title_text (rect_new 1 0 (box_w - 2) 1) (title d);
     text_node (rect_new 1 2 (box_w - 2) 1) (if decide (mode d = HUB_CONFIRM_PROCEED) then "Proceed?" else "Quit without saving?") ALIGN_LEFT;
     text_node (rect_new 1 4 (box_w - 2) 1) "[Y]es  [N]o" ALIGN_LEFT].
Definition browse_tree (d : HubData) : exec RenderTree :=
  let area := render_area (wb d) in
  let box_w := at_most (rw area - 2) (scale_int (rw area) 95 2) in
  let box_h := at_most (rh area - 2) (scale_int (rh area) 95 2) in
  let left_w := cdiv (box_w * 30) 100 in
  let right_x := left_w + 2 in
  l ← match categories d with [] => Done [] | _ => c ← category d; Done (imap (item_label d) (shown_items d c)) end;
  f ← footer (actions d);
  Done (box (wb d) "hub" EmptyString (Some (title d)) box_w box_h
    [title_text (rect_new 1 0 (box_w - 2) 1) (title d);
     child_node "list" (rect_new 1 1 left_w (box_h - 3)) (RNODE_LIST (list_items (imap (category_label d) (categories d))) (cat_idx d));
     child_node "list" (rect_new right_x 1 (box_w - right_x - 1) (box_h - 3)) (RNODE_LIST (list_items l) (item_idx d));
     muted_text (rect_new 1 (box_h - 2) (box_w - 2) 1) f]).
Definition hub_render (d : HubData) : exec (HubData * RenderTree) :=
  match mode d, sub_widget d with
  | HUB_EDITING, Some w => '(w, t) ← render w; Done (set_sub (Some w) d, t)
  | HUB_CONFIRM_PROCEED, _ | HUB_CONFIRM_QUIT, _ => Done (d, confirm_tree d)
  | _, _ => t ← browse_tree d; Done (d, t)
  end.

(** ** Events *)

Definition is_yes (ev : Event) : bool := bool_decide (code ev = KEY_CHAR) && ((ch ev =? 121) || (ch ev =? 89)).
Definition values_object (l : list (string * string)) : cJSON := foldl (fun o kv => cJSON_AddStringToObject o (fst kv) (Some (snd kv))) cJSON_CreateObject l.
(** The text an answer is stored as, if it is. *)
Definition answer_text (v : cJSON) : exec (option string) :=
  match valuestring v with
  | Some s => Done (Some s)
  | None =>
      match CJson.type v with
      | cJSON_True => Done (Some "yes"%string)
      | cJSON_False => Done (Some "no"%string)
      | cJSON_Array | cJSON_Object => match cJSON_PrintUnformatted v with Done j => Done (Some j) | Fail => Fault NullDeref | Fault e => Fault e end
      | _ => Done None
      end
  end.
Definition take_answer (r : WidgetResponse) (d : HubData) : exec HubData :=
  item ← hub_get_item d;
  match item, cancelled r, result r with
  | Some item, false, Some v => t ← answer_text v; Done (match t with Some t => hub_set d (id item) t | None => d end)
  | _, _, _ => Done d
  end.
Definition browsing (d : HubData) : HubData := set_dirty (set_mode HUB_BROWSING d).
Definition hub_editing (w : W) (ev : Event) (d : HubData) : exec (HubData * EventResult) :=
  '(w, r) ← handle_event w ev;
  let d := set_sub (Some w) d in
  match r with
  | EVENT_RESULT_RESPONSE resp => d ← take_answer resp d; Done (set_text_input false (browsing (set_sub None d)), event_result_handled)
  | _ => Done (d, event_result_handled)
  end.

(** The request for the widget of an item, with the value it has. *)
Definition add_text (k s : string) (o : cJSON) : cJSON := match s with EmptyString => o | _ => cJSON_AddStringToObject o k (Some s) end.
Definition item_request (d : HubData) (item : HubItem) : WidgetRequest :=
  let o := cJSON_AddStringToObject cJSON_CreateObject "title" (Some (label item)) in
  let o := add_text "message" (message item) o in
  let o := add_text "default" (default (value item) (hub_get d (id item))) o in
  let o := add_text "placeholder" (placeholder item) o in
  let o := match choices item with
    | [] => o
    | l => cJSON_AddItemToObject o "choices" (Some (foldl (fun a s => cJSON_AddItemToArray a (cJSON_CreateString (Some s))) cJSON_CreateArray l))
    end in
  mkRequest (Some (widget item)) (Some o) 0 0 None None false false None 0 0 None 0 0 0 None None 0 false.
Definition hub_open (d : HubData) : exec (HubData * EventResult) :=
  item ← hub_get_item d;
  match item with
  | None => Done (d, event_result_handled)
  | Some item =>
      w ← widget_registry_create reg (item_request d item);
      Done (match w with Some w => set_dirty (set_text_input true (set_mode HUB_EDITING (set_sub (Some w) d))) | None => set_sub None d end, event_result_handled)
  end.
Definition fkey (k : KeyCode) : option nat :=
  match k with
  | KEY_F1 => Some 0%nat | KEY_F2 => Some 1%nat | KEY_F3 => Some 2%nat | KEY_F4 => Some 3%nat | KEY_F5 => Some 4%nat | KEY_F6 => Some 5%nat
  | KEY_F7 => Some 6%nat | KEY_F8 => Some 7%nat | KEY_F9 => Some 8%nat | KEY_F10 => Some 9%nat | KEY_F11 => Some 10%nat | KEY_F12 => Some 11%nat
  | _ => None
  end.
Definition hub_browse (d : HubData) (ev : Event) : exec (HubData * EventResult) :=
  let n := Z.of_nat (length (categories d)) in
  let handled d := Done (set_dirty d, event_result_handled) in
  match code ev with
  | KEY_ESC => handled (set_mode HUB_CONFIRM_QUIT d)
  | KEY_UP => handled (if 0 <? item_idx d then set_place (cat_idx d) (item_idx d - 1) d else d)
  | KEY_DOWN => c ← hub_visible_count d; handled (if item_idx d + 1 <? c then set_place (cat_idx d) (item_idx d + 1) d else d)
  | KEY_LEFT => handled (set_place (if 0 <? cat_idx d then cat_idx d - 1 else n - 1) 0 d)
  | KEY_RIGHT | KEY_TAB => handled (set_place (if cat_idx d + 1 <? n then cat_idx d + 1 else 0) 0 d)
  | KEY_ENTER => hub_open d
  | k =>
      match fkey k ≫= fun f => actions d !! f with
      | Some a => if decide (a = "Proceed"%string) then handled (set_mode HUB_CONFIRM_PROCEED d) else Done (d, answer (cJSON_CreateString (Some a)))
      | None => Done (d, event_result_unhandled)
      end
  end.
Definition hub_handle_event (d : HubData) (ev : Event) : exec (HubData * EventResult) :=
  match Widget.type ev with
  | EVENT_KEY =>
      match mode d, sub_widget d with
      | HUB_CONFIRM_QUIT, _ => if is_yes ev then Done (set_text_input false d, cancelled_response) else Done (browsing d, event_result_handled)
      | HUB_CONFIRM_PROCEED, _ =>
          if is_yes ev then Done (set_text_input false d, answer (Some (values_object (vals d)))) else Done (browsing d, event_result_handled)
      | HUB_EDITING, Some w => hub_editing w ev d
      | _, _ => hub_browse d ev
      end
  | _ => Done (d, event_result_unhandled)
  end.

(** ** From JSON *)

Definition member (o : cJSON) (k : string) : option cJSON := cJSON_GetObjectItem (Some o) k.
Definition string_or (o : cJSON) (k def : string) : string := default def (member o k ≫= valuestring).
Definition condition (c : cJSON) : exec (string * string) := k ← deref (CJson.key c); Done (k, default EmptyString (valuestring c)).
Definition load_item (iv : cJSON) : exec HubItem :=
  cs ← mapM (fun c => deref (valuestring c)) (match member iv "choices" with Some ich => child ich | None => [] end);
  vi ← match member iv "visible_if" with
       | Some vi => if decide (CJson.type vi = cJSON_Object) then mapM condition (child vi) else Done []
       | None => Done []
       end;
  Done (mkItem (string_or iv "id" "") (string_or iv "label" "") (string_or iv "value" "") (string_or iv "widget" "menu") cs (string_or iv "placeholder" "")
    (string_or iv "message" "") (member iv "display" ≫= valuestring) (match member iv "disk_picker" with Some dp => negb (valueint dp =? 0) | None => false end) vi).
Definition load_category (cv : cJSON) : exec HubCategory :=
  l ← mapM load_item (match member cv "items" with Some i => child i | None => [] end);
  Done (mkCategory (string_or cv "id" "") (string_or cv "label" "") (string_or cv "summary_template" "") l).
Definition array_of (j : option cJSON) : list cJSON := match j with Some a => if cJSON_IsArray j then child a else [] | None => [] end.
Definition first_vals (l : list HubCategory) : list (string * string) :=
  foldl (fun vs i => store_val (id i) (value i) vs) [] (concat (map items l)).
Definition hub_widget_new (t : string) (categories_json actions_json : option cJSON) : exec HubData :=
  cs ← mapM load_category (array_of categories_json);
  acts ← mapM (fun a => deref (valuestring a)) (array_of actions_json);
  Done (mk widget_base_init t cs acts 0 0 (first_vals cs) HUB_BROWSING None).

#[global] Program Instance hub_widget : Widget HubData := {|
  base := wb; set_base := with_base; render := hub_render; handle_event := hub_handle_event |}.
Solve Obligations with by destruct w.
End hub.
End Hub.
Import Hub.

(** ** Values are kept under their keys *)

Lemma find_stored k v k' l : find_val k' (store_val k v l) = if decide (k' = k) then Some v else find_val k' l.
Proof.
  induction l as [|[a b] l IH]; cbn [store_val find_val].
  - repeat case_decide; congruence.
  - destruct (decide (a = k)) as [->|Hn]; cbn [find_val]; [repeat case_decide; congruence|]. rewrite IH. repeat case_decide; congruence.
Qed.
Lemma stored_keys k v l : map fst (store_val k v l) = if decide (k ∈ map fst l) then map fst l else map fst l ++ [k].
Proof.
  induction l as [|[a b] l IH]; cbn [store_val map fst].
  - by rewrite decide_False by apply not_elem_of_nil.
  - destruct (decide (a = k)) as [->|Hn]; cbn [map fst]; [by rewrite decide_True by left|]. rewrite IH.
    destruct (decide (k ∈ map fst l)) as [Hk|Hk]; [by rewrite decide_True by (by right)|]. rewrite decide_False; [done|]. rewrite list.elem_of_cons. by intros [->|?].
Qed.
Lemma stored_nodup k v l : NoDup (map fst l) -> NoDup (map fst (store_val k v l)).
Proof.
  intros Hl. rewrite stored_keys. case_decide as Hk; [done|]. apply list.NoDup_app. split; [done|]. split; [|apply list.NoDup_singleton].
  intros x Hx ->%list_elem_of_singleton. done.
Qed.
Lemma values_children l : child (values_object l) = map (fun kv => set_key (Some (fst kv)) (string_item (snd kv))) l /\ CJson.type (values_object l) = cJSON_Object.
Proof.
  unfold values_object. assert (forall o, child (foldl (fun o kv => cJSON_AddStringToObject o (fst kv) (Some (snd kv))) o l) = child o ++ map (fun kv => set_key (Some (fst kv)) (string_item (snd kv))) l
    /\ CJson.type (foldl (fun o kv => cJSON_AddStringToObject o (fst kv) (Some (snd kv))) o l) = CJson.type o) as Hx.
  { induction l as [|[k v] l IH]; intros o; cbn [foldl map fst snd]; [by rewrite app_nil_r|]. destruct (IH (cJSON_AddStringToObject o k (Some v))) as [-> ->]. split; [|done].
    symmetry. exact (app_assoc (child o) [set_key (Some k) (string_item v)] _). }
  exact (Hx cJSON_CreateObject).
Qed.
(** The identifiers of the items, and the keys they are stored under. *)
Definition ids (cs : list HubCategory) : list string := map id (concat (map items cs)).
Lemma first_vals_keys cs : NoDup (map fst (first_vals cs)) /\ forall k, k ∈ map fst (first_vals cs) <-> k ∈ ids cs.
Proof.
  unfold first_vals, ids. generalize (concat (map items cs)). intros l.
  assert (forall vs, NoDup (map fst vs) -> let r := foldl (fun vs i => store_val (id i) (value i) vs) vs l in
    NoDup (map fst r) /\ forall k, k ∈ map fst r <-> k ∈ map fst vs \/ k ∈ map id l) as Hx.
  { induction l as [|i l IH]; intros vs Hv; cbn [foldl map].
    - split; [done|]. intros k. split; [by left|]. intros [Hk|Hk]; [done|by apply not_elem_of_nil in Hk].
    - destruct (IH (store_val (id i) (value i) vs) (stored_nodup _ _ _ Hv)) as [H1 H2]. split; [done|]. intros k. rewrite H2, stored_keys, list.elem_of_cons.
      case_decide as Hk; [split; [intros [?|?]; tauto|intros [?|[->|?]]; tauto]|]. rewrite elem_of_app, list_elem_of_singleton. tauto. }
  destruct (Hx [] base.NoDup_nil_2) as [H1 H2]. split; [done|]. intros k. rewrite H2. split; [intros [Hk|?]; [by apply not_elem_of_nil in Hk|done]|by right].
Qed.

(** ** A hub whose items can be edited *)

Section answers.
Context {W : Type} `{Hw : Widget W}.
Variable reg : list (RegistryEntry (W := W)).
(** What is asked of the widgets of the registry: they are made of any request,
    and draw and handle events without a fault, and what they answer can be
    printed. *)
Variable I : W -> Prop.
Definition storable (r : WidgetResponse) : Prop := match result r with Some v => returns (answer_text v) (fun _ => True) | None => True end.
Hypothesis made : forall req, Protocol.widget req <> None -> returns (widget_registry_create reg req) (fun o => match o with Some w => I w | None => True end).
Hypothesis handled : forall w e, I w -> returns (handle_event w e) (fun '(w', r) => I w' /\ match r with EVENT_RESULT_RESPONSE resp => storable resp | _ => True end).
Hypothesis drawn : forall w, I w -> returns (render w) (fun '(w', _) => I w').
#[local] Instance this_hub : Widget (HubData (W := W)) := hub_widget reg.

(** The hub made of [cs] and [acts], somewhere. *)
Definition hub_ok (cs : list HubCategory) (acts : list string) (d : HubData (W := W)) : Prop :=
  categories d = cs /\ actions d = acts /\ 0 <= cat_idx d < Z.of_nat (length cs) /\ 0 <= item_idx d /\
  map fst (vals d) = map fst (first_vals cs) /\ match sub_widget d with Some w => I w | None => True end.
Definition completes (acts : list string) (d : HubData (W := W)) (r : WidgetResponse) : Prop :=
  cancelled_answer r \/ (exists a, a ∈ acts /\ a <> "Proceed"%string /\ r = mkResponse (Some (string_item a)) false None) \/
  r = mkResponse (Some (values_object (vals d))) false None.

Lemma category_ok cs acts d : hub_ok cs acts d -> exists c, category d = Done c /\ c ∈ cs.
Proof.
  intros (H1 & _ & H3 & _). unfold category. rewrite (proj2 (Z.ltb_ge _ _)) by lia. destruct (lookup_lt_is_Some_2 cs (Z.to_nat (cat_idx d))) as [c Hc]; [lia|].
  rewrite H1, Hc. exists c. split; [done|]. by eapply list_elem_of_lookup_2.
Qed.
Lemma hub_item_ok cs acts d : hub_ok cs acts d -> exists o, hub_get_item d = Done o /\ match o with Some i => id i ∈ ids cs | None => True end.
Proof.
  intros Hd. destruct (category_ok _ _ _ Hd) as (c & Hc & Hin). unfold hub_get_item. rewrite Hc. cbn [mbind exec_bind]. eexists. split; [reflexivity|].
  destruct (item_idx d <? 0); [done|]. destruct (shown_items d c !! _) as [i|] eqn:E; [|done]. apply list_elem_of_lookup_2, list_elem_of_filter in E as [_ E].
  apply list_elem_of_fmap. exists i. split; [done|]. apply list_elem_of_In, in_concat. exists (items c). split; [|by apply list_elem_of_In]. apply in_map. by apply list_elem_of_In.
Qed.
Lemma take_ok cs acts d r : hub_ok cs acts d -> storable r -> exists d', take_answer r d = Done d' /\ hub_ok cs acts d'.
Proof.
  intros Hd Hr. destruct (hub_item_ok _ _ _ Hd) as (o & Ho & Hi). unfold take_answer. rewrite Ho. cbn [mbind exec_bind].
  destruct o as [i|], (cancelled r), (result r) as [v|] eqn:Ev; try by exists d.
  unfold storable in Hr. rewrite Ev in Hr. destruct (answer_text v) as [[s|]| |]; [|by exists d|done..]. eexists. split; [reflexivity|].
  destruct Hd as (H1 & H2 & H3 & H4 & H5 & H6). repeat (split; [done|]). split; [|done]. cbn [vals hub_set set_vals]. rewrite stored_keys, decide_True; [done|].
  rewrite H5. by apply first_vals_keys.
Qed.
Lemma open_ok cs acts d : hub_ok cs acts d -> exists d', hub_open reg d = Done (d', event_result_handled) /\ hub_ok cs acts d'.
Proof.
  intros Hd. destruct (hub_item_ok _ _ _ Hd) as (o & Ho & _). unfold hub_open. rewrite Ho. cbn [mbind exec_bind]. destruct o as [i|]; [|by exists d].
  destruct (returns_Done _ _ (made (item_request d i) ltac:(done))) as (o & -> & Hi). cbn [mbind exec_bind]. eexists. split; [reflexivity|].
  destruct Hd as (H1 & H2 & H3 & H4 & H5 & H6). by destruct o.
Qed.
Lemma place_ok cs acts d c i : hub_ok cs acts d -> 0 <= c < Z.of_nat (length cs) -> 0 <= i -> hub_ok cs acts (set_dirty (set_place c i d)).
Proof. intros (H1 & H2 & H3 & H4 & H5 & H6) Hc Hi. by repeat (split; [done|]). Qed.
Lemma mode_ok cs acts d m : hub_ok cs acts d -> hub_ok cs acts (set_dirty (set_mode m d)).
Proof. done. Qed.

Lemma browse_ok cs acts d e : hub_ok cs acts d -> exists d' r, hub_browse reg d e = Done (d', r) /\ hub_ok cs acts d' /\
  match r with EVENT_RESULT_RESPONSE resp => completes acts d' resp | _ => True end.
Proof.
  intros Hd. pose proof Hd as (H1 & H2 & H3 & H4 & H5 & H6). unfold hub_browse. rewrite H1, H2.
  assert (forall k, exists d' r, match fkey k ≫= fun f => acts !! f with
      | Some a => if decide (a = "Proceed"%string) then Done (set_dirty (set_mode HUB_CONFIRM_PROCEED d), event_result_handled) else Done (d, answer (cJSON_CreateString (Some a)))
      | None => Done (d, event_result_unhandled)
      end = Done (d', r) /\ hub_ok cs acts d' /\ match r with EVENT_RESULT_RESPONSE resp => completes acts d' resp | _ => True end) as Hf.
  { intros k. destruct (fkey k ≫= _) as [a|] eqn:E; [|by eexists _, _]. case_decide as Ha; [by eexists _, _|]. eexists _, _. split; [done|]. split; [done|]. right. left. exists a.
    split; [|done]. destruct (fkey k); [|done]. by eapply list_elem_of_lookup_2. }
  destruct (code e); try apply Hf.
  - destruct (open_ok _ _ _ Hd) as (d' & -> & Hd'). by exists d', event_result_handled.
  - eexists _, _. split; [reflexivity|]. split; [|done]. apply place_ok; [done| |done]. destruct (Z.ltb_spec 0 (cat_idx d)); lia.
  - eexists _, _. split; [reflexivity|]. split; [|done]. apply place_ok; [done| |done]. destruct (Z.ltb_spec (cat_idx d + 1) (Z.of_nat (length cs))); lia.
  - eexists _, _. split; [reflexivity|]. split; [|done]. destruct (Z.ltb_spec 0 (item_idx d)); [apply place_ok; [done..|lia]|done].
  - unfold hub_visible_count. destruct (category_ok _ _ _ Hd) as (c & -> & _). cbn [mbind exec_bind]. eexists _, _. split; [reflexivity|]. split; [|done].
    destruct (_ <? _); [apply place_ok; [done..|lia]|done].
  - eexists _, _. split; [reflexivity|]. split; [|done]. apply place_ok; [done| |done]. destruct (Z.ltb_spec (cat_idx d + 1) (Z.of_nat (length cs))); lia.
  - by eexists _, _.
Qed.
Lemma hub_render_ok cs acts d : strlen (footer_text acts) <= 511 -> hub_ok cs acts d -> exists d' t, hub_render d = Done (d', t) /\ hub_ok cs acts d'.
Proof.
  intros Hl Hd. pose proof Hd as (H1 & H2 & H3 & H4 & H5 & H6).
  assert (exists t, browse_tree d = Done t) as [t Ht].
  { unfold browse_tree, footer. rewrite H2, (proj2 (Z.ltb_ge _ _)) by lia. destruct (categories d) as [|c0 cs0] eqn:E; [by eexists|].
    destruct (category_ok _ _ _ Hd) as (c & -> & _). by eexists. }
  unfold hub_render. rewrite Ht. destruct (mode d), (sub_widget d) as [w|] eqn:Es; try (by eexists _, _).
  destruct (returns_Done _ _ (drawn w H6)) as ([w' t'] & -> & Hw'). cbn [mbind exec_bind]. eexists _, _. split; [reflexivity|]. by repeat (split; [done|]).
Qed.
Lemma hub_event_ok cs acts d e : hub_ok cs acts d -> exists d' r, hub_handle_event reg d e = Done (d', r) /\ hub_ok cs acts d' /\
  match r with EVENT_RESULT_RESPONSE resp => completes acts d' resp | _ => True end.
Proof.
  intros Hd. unfold hub_handle_event. destruct (Widget.type e); try (by eexists _, _).
  destruct (mode d); [exact (browse_ok _ _ _ _ Hd)| | |].
  - destruct (sub_widget d) as [w|] eqn:Es; [|exact (browse_ok _ _ _ _ Hd)]. unfold hub_editing.
    pose proof Hd as (H1 & H2 & H3 & H4 & H5 & H6). rewrite Es in H6. destruct (returns_Done _ _ (handled w e H6)) as ([w' r] & -> & Hw' & Hr). cbn [mbind exec_bind].
    assert (hub_ok cs acts (set_sub (Some w') d)) as Hs by (by repeat (split; [done|])).
    destruct r; try (by eexists _, _). destruct (take_ok _ _ _ _ Hs Hr) as (d' & -> & Hd'). cbn [mbind exec_bind]. eexists _, _. split; [reflexivity|]. split; [|done].
    by destruct Hd' as (? & ? & ? & ? & ? & ?).
  - destruct (is_yes e); [|by eexists _, _]. eexists _, _. split; [reflexivity|]. split; [exact Hd|]. by right; right.
  - destruct (is_yes e); [|by eexists _, _]. eexists _, _. split; [reflexivity|]. split; [exact Hd|]. by left.
Qed.
Lemma hub_acts_ok cs acts l : strlen (footer_text acts) <= 511 -> forall d, hub_ok cs acts d ->
  exists d' r, Served.act_run d l = Done (d', r) /\ hub_ok cs acts d' /\ match r with Some r => completes acts d' r | None => True end.
Proof.
  intros Hl. induction l as [|[e|area] l IH]; intros d Hd; cbn [Served.act_run]; [by exists d, None| |].
  - change (handle_event d e) with (hub_handle_event reg d e). destruct (hub_event_ok _ _ _ e Hd) as (d' & r & -> & Hd' & Hr). cbn [mbind exec_bind].
    destruct r; [by apply IH|by exists d', (Some response)|by apply IH].
  - change (render ?w) with (hub_render w). destruct (hub_render_ok cs acts (set_base (Served.with_area area (base d)) d)) as (d' & t & -> & Hd'); [done|done|]. by apply IH.
Qed.

End answers.

(** An answer is stored for the item that was opened and for no other: nothing
    else is typed into the hub while its widget is there. *)
Lemma answer_stored {W} `{Hw : Widget W} (w : W) ev (d d' : HubData (W := W)) r item w' resp s :
  hub_get_item d = Done (Some item) -> handle_event w ev = Done (w', EVENT_RESULT_RESPONSE resp) ->
  cancelled resp = false -> result resp = Some s -> hub_editing w ev d = Done (d', r) ->
  exists t, answer_text s = Done t /\ mode d' = HUB_BROWSING /\ sub_widget d' = None /\
    forall k, hub_get d' k = match t with Some t => if decide (k = id item) then Some t else hub_get d k | None => hub_get d k end.
Proof.
  intros Hi Hh Hc Hs. unfold hub_editing. rewrite Hh. cbn [mbind exec_bind]. unfold take_answer.
  change (hub_get_item (set_sub (Some w') d)) with (hub_get_item d). rewrite Hi, Hc, Hs. cbn [mbind exec_bind].
  destruct (answer_text s) as [t| |]; [|done..]. cbn [mbind exec_bind]. intros [= <- _]. exists t. split; [done|]. split; [by destruct t|]. split; [by destruct t|].
  intros k. destruct t as [t|]; [|done]. exact (find_stored (id item) t k (vals d)).
Qed.

(** ** Examples *)

Definition toggles : list (RegistryEntry (W := Toggle.ToggleData)) :=
  [mkEntry "toggle" (Some (fun req => Done (Some (Toggle.toggle_widget_new (Some "Sure"%string) "yes" false)))) false].
Definition hub_json (text : string) : exec cJSON := CJsonParse.cJSON_Parse (of_chars (quoted text)).
Lemma toggles_made req : Protocol.widget req <> None -> returns (widget_registry_create toggles req) (fun o => match o with Some w => True | None => True end).
Proof. intros Hr. cbn. destruct (Protocol.widget req); [|by destruct Hr]. cbn. by case_decide. Qed.
Lemma toggles_handled (w : Toggle.ToggleData) e : True ->
  returns (handle_event w e) (fun '(w', r) => True /\ match r with EVENT_RESULT_RESPONSE resp => storable resp | _ => True end).
Proof. intros _. cbn. unfold Toggle.toggle_handle_event. destruct (Widget.type e); try done. destruct (code e); try done. cbn. unfold storable. cbn. by destruct (Toggle.value w). Qed.
Definition setup_text : string := of_chars (quoted
  "[{'id':'net','label':'Network','items':[{'id':'wifi','label':'Wireless','value':'no','widget':'toggle'},{'id':'key','label':'Key','visible_if':{'wifi':'yes, maybe'}}]}]").
Definition action_array (l : list string) : option cJSON := Some (set_child (map string_item l) cJSON_CreateArray).
Definition sample_hub (actions : list string) : exec (HubData (W := Toggle.ToggleData)) :=
  cats ← CJsonParse.cJSON_Parse setup_text; hub_widget_new "Setup" (Some cats) (action_array actions).
Definition key (k : KeyCode) (c : Z) : Served.act := Served.Takes (key_event k c).
Definition hub_run (m : exec (HubData (W := Toggle.ToggleData))) (l : list Served.act) : exec (HubData * option WidgetResponse) :=
  d ← m; Served.act_run (H := hub_widget toggles) d l.
(** Opens the first item, toggles it, takes it, and proceeds. *)
Definition setup_keys : list Served.act := [Served.Draws (mkRect 0 0 80 24); key KEY_ENTER 0; key KEY_CHAR 32; key KEY_ENTER 0; key KEY_DOWN 0; key KEY_F1 0; key KEY_CHAR 121].

(** The widget of an item is drawn in the area it was made with, which is empty:
    no one sets it. *)
Example editor_unseen : (r ← hub_run (sample_hub []) [Served.Draws (mkRect 0 0 80 24); key KEY_ENTER 0];
    '(_, t) ← hub_render (with_base (Served.with_area (mkRect 0 0 80 24) (wb (fst r))) (fst r)); Done (rect (info t))) = Done (rect_new 1 1 (-2) (-2)).
Proof. vm_compute. reflexivity. Qed.
(** A hub without categories: Left and Down, or Down alone. *)
Example empty_hub_faults : hub_run (hub_widget_new "Empty" None None) [key KEY_DOWN 0] = Fault OutOfBounds.
Proof. reflexivity. Qed.
(** Fourteen actions always fit. *)
Lemma strtake_short n s : (String.length (strtake n s) <= n)%nat.
Proof. revert s. induction n as [|n IH]; intros [|c s]; cbn; try lia. specialize (IH s). lia. Qed.
Lemma concat_short n l : Forall (fun s => (String.length s <= n)%nat) l -> (String.length (String.concat "" l) <= n * length l)%nat.
Proof.
  induction 1 as [|s l Hs Hl IH]; [cbn; lia|]. destruct l as [|s' l]; [cbn; lia|]. change (String.concat "" (s :: s' :: l)) with (s +:+ "" +:+ String.concat "" (s' :: l)).
  rewrite !Calendar.length_append. cbn [String.length length] in *. lia.
Qed.
Lemma footer_fits l : (length l <= 14)%nat -> strlen (footer_text l) <= 511.
Proof.
  intros Hl. unfold footer_text, strlen.
  rewrite Calendar.length_append. assert (String.length (String.concat "" (imap action_label l)) <= 31 * length l)%nat as Hc.
  { rewrite <-(length_imap action_label l). apply concat_short. apply list.Forall_forall. intros s (i & a & -> & _)%elem_of_lookup_imap_1. apply strtake_short. }
  change (String.length "Up/Down:items  Left/Right:categories  Enter:edit  Esc:quit") with 58%nat. lia.
Qed.
(** Fifteen actions with names of 26 characters are too many for the footer. *)
Example footer_overflows : hub_run (sample_hub (replicate 15 "ABCDEFGHIJKLMNOPQRSTUVWXYZ"%string)) [Served.Draws (mkRect 0 0 80 24)] = Fault OutOfBounds.
Proof. vm_compute. reflexivity. Qed.
