(* ===== verification/WidgetBuilder.v ===== *)
(** The widget builder of src/src/core/widgets/widget_builder.c: items of a
    type, a place and parameters, each with a live widget made of them through
    the registry, and the undo stack of Undo.v. *)

From Stdlib Require Import SpecFloat.
From S2P Require Import Prelude Double CJson CJsonPrint Undo Protocol RenderTree Animation Widget Boxes Displays Forms Factories Theme.

Module WidgetBuilder.
(** ** State *)

Inductive BuilderMode := BMODE_PALETTE | BMODE_CANVAS | BMODE_PROPERTIES | BMODE_LIVE_PREVIEW.
#[global] Instance BuilderMode_eq_dec : EqDecision BuilderMode.
Proof. solve_decision. Defined.
Record Drag := mkDrag { drag_item : Z; drag_start_x : Z; drag_start_y : Z; drag_orig_x : Z; drag_orig_y : Z; dragging : bool }.
Record Edit := mkEdit { prop_edit_buf : list ascii; prop_editing : bool }.
(** The undo stack and the actions it points to, which have no data. *)
Record History := mkHistory { stack : option UndoStack; world : World (D := unit) }.

Section builder.
Context {W : Type} `{Hw : Widget W}.
Variable reg : list (RegistryEntry (W := W)).
Variable g_active_theme : option Theme.

Record BuilderItem := mkItem { widget_type : string; item_title : string; item_params : cJSON; item_x : Z; item_y : Z; item_w : Z; item_h : Z; live_widget : option W }.
Record WidgetBuilderData := mk {
  wb : WidgetBase; items : list BuilderItem; selected_item : Z; mode : BuilderMode; palette_idx : Z; palette_types : list string;
  canvas_ox : Z; canvas_oy : Z; scale : float; drag : Drag; edit : Edit; history : History
}.
Definition with_base (b : WidgetBase) (d : WidgetBuilderData) : WidgetBuilderData :=
  mk b (items d) (selected_item d) (mode d) (palette_idx d) (palette_types d) (canvas_ox d) (canvas_oy d) (scale d) (drag d) (edit d) (history d).
Definition set_dirty (d : WidgetBuilderData) : WidgetBuilderData := with_base (base_set_dirty true (wb d)) d.
Definition set_items (l : list BuilderItem) (d : WidgetBuilderData) : WidgetBuilderData :=
  mk (wb d) l (selected_item d) (mode d) (palette_idx d) (palette_types d) (canvas_ox d) (canvas_oy d) (scale d) (drag d) (edit d) (history d).
Definition set_selected (s : Z) (d : WidgetBuilderData) : WidgetBuilderData :=
  mk (wb d) (items d) s (mode d) (palette_idx d) (palette_types d) (canvas_ox d) (canvas_oy d) (scale d) (drag d) (edit d) (history d).
Definition set_mode (m : BuilderMode) (d : WidgetBuilderData) : WidgetBuilderData :=
  mk (wb d) (items d) (selected_item d) m (palette_idx d) (palette_types d) (canvas_ox d) (canvas_oy d) (scale d) (drag d) (edit d) (history d).
Definition set_drag (g : Drag) (d : WidgetBuilderData) : WidgetBuilderData :=
  mk (wb d) (items d) (selected_item d) (mode d) (palette_idx d) (palette_types d) (canvas_ox d) (canvas_oy d) (scale d) g (edit d) (history d).
Definition set_edit (e : Edit) (d : WidgetBuilderData) : WidgetBuilderData :=
  mk (wb d) (items d) (selected_item d) (mode d) (palette_idx d) (palette_types d) (canvas_ox d) (canvas_oy d) (scale d) (drag d) e (history d).
Definition set_history (h : History) (d : WidgetBuilderData) : WidgetBuilderData :=
  mk (wb d) (items d) (selected_item d) (mode d) (palette_idx d) (palette_types d) (canvas_ox d) (canvas_oy d) (scale d) (drag d) (edit d) h.

Definition builtin_palette : list string :=
  ["menu"; "yesno"; "input"; "password"; "msg"; "filter"; "checklist"; "multiselect"; "toggle"; "range_slider"; "calendar"; "form"; "progress";
   "table"; "tree"; "gauge"; "separator"; "badge"; "spinner"; "rich_text"; "tooltip"; "notification"; "context_menu"; "file_picker"; "text_editor";
   "summary"; "disk"; "color_picker"; "radio_group"; "tabs"; "split_panes"; "hub"; "terminal_emulator"]%string.
Definition item_count (d : WidgetBuilderData) : Z := Z.of_nat (length (items d)).

(** ** Live widgets *)

(** A text that cannot be printed is NULL, and NULL is parsed to nothing. *)
Definition create_live_widget (type title : string) (params : cJSON) : exec (option W) :=
  let root := cJSON_AddStringToObject cJSON_CreateObject "widget" (Some type) in
  let p := cJSON_Duplicate params true in
  let p := match cJSON_GetObjectItem (Some p) "title" with Some _ => p | None => cJSON_AddStringToObject p "title" (Some title) end in
  let root := cJSON_AddItemToObject root "params" (Some p) in
  match cJSON_PrintUnformatted root with
  | Done json =>
      match widget_request_parse json with
      | Done req => widget_registry_create reg req
      | Fail => Done None
      | Fault e => Fault e
      end
  | Fail => Done None
  | Fault e => Fault e
  end.
Definition set_live (o : option W) (i : BuilderItem) : BuilderItem :=
  mkItem (widget_type i) (item_title i) (item_params i) (item_x i) (item_y i) (item_w i) (item_h i) o.
Definition set_params (p : cJSON) (i : BuilderItem) : BuilderItem :=
  mkItem (widget_type i) (item_title i) p (item_x i) (item_y i) (item_w i) (item_h i) (live_widget i).
Definition set_place (x y : Z) (i : BuilderItem) : BuilderItem :=
  mkItem (widget_type i) (item_title i) (item_params i) x y (item_w i) (item_h i) (live_widget i).
Definition rebuild_live_widget (i : BuilderItem) : exec BuilderItem :=
  w ← create_live_widget (widget_type i) (item_title i) (item_params i); Done (set_live w i).

(** ** Drawing *)

(** [(int)(v * scale)] *)
Definition scaled (s : float) (v : Z) : Z := f_to_int (f_mul (f_of_Z v) s).
Definition scale_style (k : float) (s : WidgetStyle) : WidgetStyle := {|
  fg_color := fg_color s; bg_color := bg_color s; border_color := border_color s; accent_color := accent_color s; border_width := scaled k (border_width s);
  border_radius := border_radius s; border_top_width := border_top_width s; border_bottom_width := border_bottom_width s;
  border_left_width := border_left_width s; border_right_width := border_right_width s;
  border_top_color := border_top_color s; border_bottom_color := border_bottom_color s;
  border_left_color := border_left_color s; border_right_color := border_right_color s;
  border_top_style := border_top_style s; border_bottom_style := border_bottom_style s;
  border_left_style := border_left_style s; border_right_style := border_right_style s; padding := map (scaled k) (padding s);
  margin := margin s; min_width := min_width s; min_height := min_height s; max_width := max_width s;
  max_height := max_height s; font_family := font_family s; font_size := at_least 6 (scaled k (font_size s)); font_weight := font_weight s;
  font_italic := font_italic s; text_align := text_align s; opacity := opacity s; shadows := shadows s;
  shadow_count := shadow_count s; gradient := gradient s; backdrop_blur := backdrop_blur s;
  letter_spacing := letter_spacing s; line_height := line_height s; text_transform := text_transform s;
  transition_ms := transition_ms s; scale_x := scale_x s; scale_y := scale_y s; rotation := rotation s;
  translate_x := translate_x s; translate_y := translate_y s; cursor_style := cursor_style s |}.
(** Only the children of containers are scaled with their parent. *)
Fixpoint render_scaled_tree (k : float) (ox oy : Z) (t : RenderTree) : RenderTree :=
  match t with
  | mkTree i c =>
      let r := rect i in
      let x := scaled k (rx r) + ox in
      let y := scaled k (ry r) + oy in
      mkTree (Animation.set_style (scale_style k (resolved_style i)) (set_rect (mkRect x y (scaled k (rw r)) (scaled k (rh r))) i))
        (match c with
         | RNODE_CONTAINER bg b p l => RNODE_CONTAINER bg b p (map (render_scaled_tree k (ox + scaled k (rx r)) (oy + scaled k (ry r))) l)
         | c => c
         end)
  end.

Definition item_rect (d : WidgetBuilderData) (i : BuilderItem) : Rect :=
  rect_new (scaled (scale d) (item_x i) + canvas_ox d) (scaled (scale d) (item_y i) + canvas_oy d) (scaled (scale d) (item_w i)) (scaled (scale d) (item_h i)).
Definition canvas_child (d : WidgetBuilderData) (n : nat) (i : BuilderItem) : exec (BuilderItem * RenderTree) :=
  let r := item_rect d i in
  match live_widget i with
  | None => Done (i, child_node (if Z.of_nat n =? selected_item d then "selected" else "normal") r (RNODE_CONTAINER None BORDER_SINGLE edgeinsets_zero []))
  | Some w => '(w, t) ← render w; Done (set_live (Some w) i, render_scaled_tree (scale d) (rx r) (ry r) t)
  end.
Fixpoint canvas_children (d : WidgetBuilderData) (n : nat) (l : list BuilderItem) : exec (list BuilderItem * list RenderTree) :=
  match l with
  | [] => Done ([], [])
  | i :: l' => '(i, t) ← canvas_child d n i; '(l', ts) ← canvas_children d (S n) l'; Done (i :: l', t :: ts)
  end.
Definition get_item (d : WidgetBuilderData) (i : Z) : option BuilderItem := if i <? 0 then None else items d !! Z.to_nat i.
Definition props_text (d : WidgetBuilderData) : exec string :=
  match get_item d (selected_item d) with
  | None => Done "Click palette to add, drag canvas items, F5 preview, S save, Ctrl+Z undo"%string
  | Some i =>
      if prop_editing (edit d) then Done (strtake 4095 ("Editing: " +:+ widget_type i +:+ " > " +:+ of_chars (prop_edit_buf (edit d)) +:+ "_"))
      else
        match cJSON_PrintUnformatted (item_params i) with
        | Done pj => Done (strtake 4095 (widget_type i +:+ " | " +:+ item_title i +:+ " | " +:+ int_string (item_x i) +:+ "," +:+ int_string (item_y i) +:+ " " +:+
            int_string (item_w i) +:+ "x" +:+ int_string (item_h i) +:+ " | " +:+ pj))
        | Fail => Fault NullDeref
        | Fault e => Fault e
        end
  end.
(** The node of the builder, before its kind is known. *)
Definition builder_node (d : WidgetBuilderData) (r : Rect) (c : Content RenderTree) : RenderTree :=
  mkTree (set_rect r (info (box (wb d) "widget-builder" "Widget Builder" None 0 0 []))) c.
Definition live_preview (d : WidgetBuilderData) (box_w box_h : Z) : exec (WidgetBuilderData * RenderTree) :=
  match get_item d (selected_item d) with
  | Some i =>
      match live_widget i with
      | Some w =>
          '(w, t) ← render w;
          Done (set_items (<[Z.to_nat (selected_item d) := set_live (Some w) i]> (items d)) d,
                match g_active_theme with Some _ => resolve_node_styles g_active_theme t | None => t end)
      | None => Done (d, builder_node d (rect_new 0 0 box_w box_h) (RNODE_TEXT (Some "No widget selected for preview"%string) ALIGN_LEFT))
      end
  | None => Done (d, builder_node d (rect_new 0 0 box_w box_h) (RNODE_TEXT (Some "No widget selected for preview"%string) ALIGN_LEFT))
  end.
Definition canvas_view (d : WidgetBuilderData) (box_w box_h : Z) : exec (WidgetBuilderData * RenderTree) :=
  let area := render_area (wb d) in
  let left_w := cdiv (box_w * 20) 100 in
  let center_x := left_w + 2 in
  let center_w := cdiv (box_w * 55) 100 in
  let right_x := center_x + center_w + 2 in
  '(l, ts) ← canvas_children d 0 (items d);
  let d := set_items l d in
  props ← props_text d;
  Done (d, builder_node d (rect_new 0 0 (rw area) (rh area)) (framed
    [title_text (rect_new 1 0 box_w 1) "FILLY Widget Builder";
     child_node "list" (rect_new 1 1 left_w (box_h - 3)) (RNODE_LIST (list_items (map widget_type l)) (selected_item d));
     child_node "canvas" (rect_new center_x 1 center_w (box_h - 3)) (framed ts);
     child_node "list" (rect_new right_x 1 (box_w - right_x - 1) (box_h - 3)) (RNODE_LIST (list_items (palette_types d)) (palette_idx d));
     text_node (rect_new 1 (box_h - 2) box_w 2) props ALIGN_LEFT;
     muted_text (rect_new 1 box_h box_w 1) "F1:tree F2:canvas F3:palette F4:props F5:preview S:save Del:remove Esc:quit"])).
Definition builder_render (d : WidgetBuilderData) : exec (WidgetBuilderData * RenderTree) :=
  let area := render_area (wb d) in
  let box_w := at_least 40 (rw area - 2) in
  let box_h := at_least 15 (rh area - 2) in
  if decide (mode d = BMODE_LIVE_PREVIEW) then live_preview d box_w box_h else canvas_view d box_w box_h.

(** ** Events *)

(** An action with a description and nothing else. *)
Definition plain_action (desc : string) : act (D := unit) := mkAct desc None None false.
Definition builder_push_undo (desc : string) (d : WidgetBuilderData) : exec WidgetBuilderData :=
  '(s, w, _) ← run_op (stack (history d)) (world (history d)) (OPush (plain_action desc)); Done (set_history (mkHistory s w) d).

Definition change_item (n : Z) (f : BuilderItem -> exec BuilderItem) (d : WidgetBuilderData) : exec WidgetBuilderData :=
  i ← at_index (get_item d n); i ← f i; Done (set_items (<[Z.to_nat n := i]> (items d)) d).
Definition handled (d : WidgetBuilderData) : exec (WidgetBuilderData * EventResult) := Done (set_dirty d, event_result_handled).

Definition edit_event (ev : Event) (d : WidgetBuilderData) : exec (WidgetBuilderData * EventResult) :=
  let buf := prop_edit_buf (edit d) in
  let n := Z.of_nat (length buf) in
  match Widget.type ev with
  | EVENT_KEY =>
      match code ev with
      | KEY_ESC => handled (set_edit (mkEdit buf false) d)
      | KEY_ENTER =>
          d ← match get_item d (selected_item d) with
              | Some _ => change_item (selected_item d) (fun i => rebuild_live_widget (set_params (cJSON_AddStringToObject (item_params i) "title" (Some (of_chars buf))) i)) d
              | None => Done d
              end;
          handled (set_edit (mkEdit buf false) d)
      | KEY_BACKSPACE => handled (set_edit (mkEdit (removelast buf) true) d)
      | KEY_CHAR => handled (if (n <? 254) && (32 <=? ch ev) then set_edit (mkEdit (buf ++ [ascii_of_N (Z.to_N (u8 (ch ev)))]) true) d else d)
      | _ => Done (d, event_result_unhandled)
      end
  | _ => Done (d, event_result_unhandled)
  end.

Definition holds (r : Rect) (mx my : Z) : bool := (rx r <=? mx) && (mx <? rx r + rw r) && (ry r <=? my) && (my <? ry r + rh r).
(** The last item under the pointer, with its index. *)
Definition item_under (d : WidgetBuilderData) (mx my : Z) : option (nat * BuilderItem) :=
  List.find (fun ni => holds (item_rect d (snd ni)) mx my) (rev (imap pair (items d))).
Definition drag_start (ev : Event) (d : WidgetBuilderData) : exec (WidgetBuilderData * EventResult) :=
  match item_under d (ex ev) (ey ev) with
  | Some (n, i) => handled (set_selected (Z.of_nat n) (set_drag (mkDrag (Z.of_nat n) (ex ev) (ey ev) (item_x i) (item_y i) true) d))
  | None => Done (d, event_result_unhandled)
  end.
Definition drag_move (ev : Event) (d : WidgetBuilderData) : exec (WidgetBuilderData * EventResult) :=
  let g := drag d in
  match get_item d (drag_item g) with
  | Some i =>
      d ← change_item (drag_item g) (fun i => Done (set_place (drag_orig_x g + f_to_int (f_div (f_of_Z (ex ev - drag_start_x g)) (scale d)))
                                                              (drag_orig_y g + f_to_int (f_div (f_of_Z (ey ev - drag_start_y g)) (scale d))) i)) d;
      handled d
  | None => Done (d, event_result_handled)
  end.
Definition drag_end (d : WidgetBuilderData) : exec (WidgetBuilderData * EventResult) :=
  let g := drag d in
  d ← builder_push_undo "move widget" (set_drag (mkDrag (-1) (drag_start_x g) (drag_start_y g) (drag_orig_x g) (drag_orig_y g) false) d);
  handled d.
Definition press (ev : Event) (d : WidgetBuilderData) : exec (WidgetBuilderData * EventResult) :=
  match item_under d (ex ev) (ey ev) with
  | Some (n, _) => handled (set_selected (Z.of_nat n) d)
  | None => Done (d, event_result_unhandled)
  end.

Definition start_edit (d : WidgetBuilderData) : WidgetBuilderData :=
  match get_item d (selected_item d) with
  | Some i => set_edit (mkEdit (match cJSON_GetObjectItem (Some (item_params i)) "title" ≫= valuestring with Some s => take 255 (chars s) | None => [] end) true) d
  | None => d
  end.
(** An arrow key moves the selected item in the canvas, or another way. *)
Definition arrow (dx dy : Z) (other : WidgetBuilderData -> WidgetBuilderData) (d : WidgetBuilderData) : exec (WidgetBuilderData * EventResult) :=
  d ← (if bool_decide (mode d = BMODE_CANVAS) && (0 <=? selected_item d)
       then change_item (selected_item d) (fun i => Done (set_place (item_x i + dx) (item_y i + dy) i)) d else Done (other d));
  handled d.
Definition new_item (d : WidgetBuilderData) (type : string) : exec BuilderItem :=
  let n := item_count d + 1 in
  let params := cJSON_AddStringToObject (cJSON_AddStringToObject cJSON_CreateObject "title" (Some type)) "message" (Some EmptyString) in
  w ← create_live_widget type type params;
  Done (mkItem type type params (10 + cmod n 5 * 60) (10 + cdiv n 5 * 60) 200 120 w).
Definition add_item (d : WidgetBuilderData) : exec (WidgetBuilderData * EventResult) :=
  if (0 <=? palette_idx d) && (palette_idx d <? Z.of_nat (length (palette_types d))) then
    type ← at_index (palette_types d !! Z.to_nat (palette_idx d));
    i ← new_item d type;
    d ← builder_push_undo "add widget" (set_selected (item_count d) (set_items (items d ++ [i]) d));
    handled d
  else handled d.
Definition delete_item (d : WidgetBuilderData) : exec (WidgetBuilderData * EventResult) :=
  match get_item d (selected_item d) with
  | Some _ =>
      let d := set_items (delete (Z.to_nat (selected_item d)) (items d)) d in
      d ← builder_push_undo "delete widget" (if item_count d <=? selected_item d then set_selected (item_count d - 1) d else d);
      handled d
  | None => handled d
  end.
Definition saved_item (i : BuilderItem) : cJSON :=
  let o := cJSON_AddStringToObject cJSON_CreateObject "widget" (Some (widget_type i)) in
  let o := cJSON_AddItemToObject o "params" (Some (cJSON_Duplicate (item_params i) true)) in
  let o := cJSON_AddNumberToObject o "x" (d_of_Z (item_x i)) in
  let o := cJSON_AddNumberToObject o "y" (d_of_Z (item_y i)) in
  let o := cJSON_AddNumberToObject o "w" (d_of_Z (item_w i)) in
  cJSON_AddNumberToObject o "h" (d_of_Z (item_h i)).
Definition saved (d : WidgetBuilderData) : cJSON :=
  cJSON_AddItemToObject cJSON_CreateObject "widgets" (Some (foldl (fun a i => cJSON_AddItemToArray a (Some (saved_item i))) cJSON_CreateArray (items d))).
Definition save (d : WidgetBuilderData) : exec (WidgetBuilderData * EventResult) :=
  match cJSON_PrintUnformatted (saved d) with
  | Done json => Done (d, answer (cJSON_CreateString (Some json)))
  | Fail => Done (d, answer (cJSON_CreateString None))
  | Fault e => Fault e
  end.
Definition travel (o : op (D := unit)) (d : WidgetBuilderData) : exec (WidgetBuilderData * EventResult) :=
  '(s, w, b) ← run_op (stack (history d)) (world (history d)) o;
  let d := set_history (mkHistory s w) d in
  Done (if (b : bool) then set_dirty d else d, event_result_handled).
Definition char_key (c : Z) (d : WidgetBuilderData) : exec (WidgetBuilderData * EventResult) :=
  if (c =? 115) || (c =? 83) then save d
  else if c =? 26 then travel OUndo d
  else if c =? 25 then travel ORedo d
  else Done (d, event_result_unhandled).
Definition key_pressed (ev : Event) (d : WidgetBuilderData) : exec (WidgetBuilderData * EventResult) :=
  let s := selected_item d in
  match code ev with
  | KEY_ESC => Done (d, cancelled_response)
  | KEY_F1 => handled (set_mode BMODE_PALETTE d)
  | KEY_F2 => handled (set_mode BMODE_CANVAS d)
  | KEY_F3 => handled (set_mode BMODE_PALETTE d)
  | KEY_F4 => handled (start_edit d)
  | KEY_F5 => handled (set_mode (if decide (mode d = BMODE_LIVE_PREVIEW) then BMODE_CANVAS else BMODE_LIVE_PREVIEW) d)
  | KEY_UP => arrow 0 (-5) (fun d => if 0 <? s then set_selected (s - 1) d else d) d
  | KEY_DOWN => arrow 0 5 (fun d => if s + 1 <? item_count d then set_selected (s + 1) d else d) d
  | KEY_LEFT => arrow (-5) 0 id d
  | KEY_RIGHT => arrow 5 0 id d
  | KEY_ENTER => add_item d
  | KEY_DELETE => delete_item d
  | KEY_CHAR => char_key (ch ev) d
  | _ => Done (d, event_result_unhandled)
  end.
Definition builder_handle_event (d : WidgetBuilderData) (ev : Event) : exec (WidgetBuilderData * EventResult) :=
  if prop_editing (edit d) then edit_event ev d
  else
    match Widget.type ev with
    | EVENT_MOUSE_DRAG_START => drag_start ev d
    | EVENT_MOUSE_DRAG_MOVE => if dragging (drag d) then drag_move ev d else Done (d, event_result_unhandled)
    | EVENT_MOUSE_DRAG_END => if dragging (drag d) then drag_end d else Done (d, event_result_unhandled)
    | EVENT_MOUSE_BUTTON => if decide (mouse_state ev = MOUSE_PRESS) then press ev d else Done (d, event_result_unhandled)
    | EVENT_KEY => key_pressed ev d
    | _ => Done (d, event_result_unhandled)
    end.

Definition widget_builder_new : WidgetBuilderData :=
  mk (base_new false) [] (-1) BMODE_CANVAS 0 builtin_palette 0 0 (f_lit 5 1) (mkDrag (-1) 0 0 0 0 false) (mkEdit [] false) (mkHistory (Some (undo_stack_new 200)) (mkWorld ∅ tt [])).
#[global] Program Instance builder_widget : Widget WidgetBuilderData := {|
  base := wb; set_base := with_base; render := builder_render; handle_event := builder_handle_event |}.
Solve Obligations with by destruct w.
End builder.
End WidgetBuilder.
Import WidgetBuilder.

(** ** Menus only *)

Section menus.
Context {W : Type} `{Hw : Widget W}.
Variable reg : list (RegistryEntry (W := W)).
Variable theme : option Theme.
#[local] Instance this_builder : Widget (WidgetBuilderData (W := W)) := builder_widget reg theme.
Abbreviation data := (WidgetBuilderData (W := W)).

(** The first palette entry, under its own name. *)
Definition is_menu (i : BuilderItem (W := W)) : Prop :=
  widget_type i = "menu"%string /\ item_title i = "menu"%string /\ keyed (child (item_params i)) /\
  (cJSON_GetObjectItem (Some (item_params i)) "title" ≫= valuestring) = Some "menu"%string.
(** A stack of actions that do nothing, with none of them undone. *)
Definition idle_history (h : History) : Prop :=
  exists s H l, stack h = Some s /\ reps 200 s (world h) H l /\ pos H = length (Undo.items H) /\ Forall (fun a => a_undo a = None /\ a_redo a = None) (Undo.items H).
Definition builder_ok (d : data) : Prop :=
  Forall is_menu (items d) /\ palette_idx d = 0 /\ palette_types d = builtin_palette /\ -1 <= selected_item d < item_count d /\ idle_history (history d).

Lemma push_idle h a : a_undo a = None -> a_redo a = None -> idle_history h ->
  exists s w b, run_op (stack h) (world h) (OPush a) = Done (s, w, b) /\ idle_history (mkHistory s w).
Proof.
  intros Hu Hr (s & H & l & E & Hre & Hp & Ha). rewrite E. pose proof (run_op_spec 200 s (world h) H l (OPush a) Hre) as Ho. cbn [spec_op] in Ho.
  assert (exists H', spec_push 200 H a = Some H' /\ pos H' = length (Undo.items H') /\ Forall (fun a => a_undo a = None /\ a_redo a = None) (Undo.items H')) as (H' & E' & Hp' & Ha').
  { unfold spec_push. rewrite Hp, firstn_all.
    assert (Forall (fun a => a_undo a = None /\ a_redo a = None) (Undo.items H ++ [a])) as Hn by (apply list.Forall_app; split; [done|by constructor]).
    destruct (Undo.items H) as [|b l'] eqn:El; cbn [length].
    - destruct (_ <? _); eexists; (split; [reflexivity|]); (split; [reflexivity|]); cbn; [exact Hn|constructor].
    - destruct (_ <? _); eexists; (split; [reflexivity|]); (split; [reflexivity|]); cbn [Undo.items]; [exact Hn|by inversion_clear Hn]. }
  rewrite E' in Ho. cbn [mbind option_bind] in Ho. destruct Ho as (s' & w' & l' & Ho & Hr'). exists (Some s'), w', true. split; [exact Ho|]. by exists s', H', l'.
Qed.
(** There is nothing to undo and nothing to redo. *)
Lemma travel_idle h o : idle_history h -> o = OUndo \/ o = ORedo -> run_op (stack h) (world h) o = Done (stack h, world h, false).
Proof.
  intros (s & H & l & E & Hre & Hp & Ha) Ho. rewrite E. destruct Ho as [-> | ->]; cbn [run_op].
  - unfold undo_stack_undo. rewrite (r_cur _ _ _ _ _ Hre). destruct (pos H) as [|k] eqn:Ep; [done|].
    destruct (lookup_lt_is_Some_2 (Undo.items H) k) as [a Hk]; [lia|]. destruct (reps_at _ _ _ _ _ _ _ Hre Hk) as (p & x & Hpk & Hx & <- & _).
    cbn [before]. rewrite Hpk, (read_Done _ _ _ Hx). cbn [mbind exec_bind]. pose proof (list.Forall_lookup_1 _ _ _ _ Ha Hk) as [Hu _]. cbn in Hu. by rewrite Hu.
  - unfold undo_stack_redo. rewrite (reps_redo_target _ _ _ _ _ Hre). cbn [mbind exec_bind]. rewrite lookup_ge_None_2; [done|].
    rewrite Hp. pose proof (Forall2_length (r_nodes _ _ _ _ _ Hre)) as ->. done.
Qed.

Lemma menus_push desc d d' : builder_push_undo desc d = Done d' -> builder_ok d -> builder_ok d'.
Proof.
  intros H (H1 & H2 & H3 & H4 & H5). unfold builder_push_undo in H. destruct (push_idle _ (plain_action desc) eq_refl eq_refl H5) as (s & w & b & E & Hi).
  rewrite E in H. injection H as <-. by repeat (split; [done|]).
Qed.
Lemma menus_change n f d d' : change_item n f d = Done d' -> (forall i i', f i = Done i' -> is_menu i -> is_menu i') -> builder_ok d -> builder_ok d'.
Proof.
  intros H Hf (H1 & H2 & H3 & H4 & H5). unfold change_item in H. apply exec_bind_Done in H as (i & Hi & H). apply exec_bind_Done in H as (i' & Hi' & H). injection H as <-.
  unfold get_item in Hi. destruct (n <? 0); [done|]. destruct (items d !! Z.to_nat n) as [j|] eqn:E; [|done]. injection Hi as ->.
  split; [|repeat (split; [done|])]; cbn [items set_items].
  - apply list.Forall_insert; [done|]. apply (Hf i); [done|]. by eapply list.Forall_lookup_1.
  - split; [|exact H5]. unfold item_count in *. cbn [items set_items selected_item]. by rewrite length_insert.
Qed.
Lemma menus_selected s d : builder_ok d -> -1 <= s < item_count d -> builder_ok (set_selected s d).
Proof. intros (H1 & H2 & H3 & H4 & H5) Hs. by repeat (split; [done|]). Qed.
Lemma edited_menu i i' s : rebuild_live_widget reg (set_params (cJSON_AddStringToObject (item_params i) "title" s) i) = Done i' -> is_menu i -> is_menu i'.
Proof.
  unfold rebuild_live_widget. intros (w & _ & [= <-])%exec_bind_Done (H1 & H2 & H3 & H4). split; [done|]. split; [done|]. cbn [item_params set_live set_params].
  destruct s as [s|]; [|done]. set (c := set_key (Some "title"%string) (string_item s)).
  change (cJSON_AddStringToObject (item_params i) "title" (Some s)) with (set_child (child (item_params i) ++ [c]) (item_params i)). split.
  - apply list.Forall_app. split; [done|]. constructor; [by eexists|constructor].
  - change (cJSON_GetObjectItem (Some (set_child ?l (item_params i))) "title") with (find_child "title" l).
    rewrite (find_child_app "title" (child (item_params i)) c "title" H3 eq_refl). change (cJSON_GetObjectItem (Some (item_params i)) "title") with (find_child "title" (child (item_params i))) in H4.
    by destruct (find_child "title" (child (item_params i))).
Qed.
Lemma menus_handled (d d' : data) r : handled d = Done (d', r) -> builder_ok d -> builder_ok d' /\ forall resp, r <> EVENT_RESULT_RESPONSE resp.
Proof. by intros [= <- <-]. Qed.
Lemma get_item_range (d : data) n i : get_item d n = Some i -> 0 <= n < item_count d.
Proof. unfold get_item, item_count. destruct (Z.ltb_spec n 0); [done|]. intros E%lookup_lt_Some. lia. Qed.
Lemma under_range (d : data) mx my n i : item_under d mx my = Some (n, i) -> -1 <= Z.of_nat n < item_count d.
Proof.
  unfold item_under. intros [H _]%find_some. apply in_rev, list_elem_of_In, elem_of_lookup_imap in H as (k & j & [= -> ->] & Hk%lookup_lt_Some). unfold item_count. lia.
Qed.
Lemma new_item_menu (d : data) i : new_item reg d "menu" = Done i -> is_menu i.
Proof.
  unfold new_item. intros (w & _ & [= <-])%exec_bind_Done. split; [done|]. split; [done|]. split; [|reflexivity]. repeat constructor; by eexists.
Qed.

Lemma menus_edit ev (d d' : data) r : edit_event reg ev d = Done (d', r) -> builder_ok d -> builder_ok d'.
Proof.
  intros H Hd. unfold edit_event in H. assert (forall b d, builder_ok d -> builder_ok (set_edit b d)) as He by done.
  destruct (Widget.type ev), (code ev); try (by injection H as <- _); try (by apply menus_handled in H as [H _]; [exact H|apply He]).
  - apply exec_bind_Done in H as (d1 & H1 & H). apply menus_handled in H as [H _]; [exact H|]. apply He. destruct (get_item d _); [|by injection H1 as <-].
    eapply menus_change; [exact H1| |exact Hd]. intros i i'. apply edited_menu.
  - apply menus_handled in H as [H _]; [exact H|]. by destruct (_ && _).
Qed.
Lemma menus_arrow dx dy other (d d' : data) r : arrow dx dy other d = Done (d', r) -> builder_ok d -> builder_ok (other d) -> builder_ok d'.
Proof.
  intros H Hd Ho. unfold arrow in H. apply exec_bind_Done in H as (d1 & H1 & H). apply menus_handled in H as [H _]; [exact H|].
  destruct (_ && _); [|by injection H1 as <-]. eapply menus_change; [exact H1| |exact Hd]. by intros i i' [= <-].
Qed.
Lemma menus_add d d' r : add_item reg d = Done (d', r) -> builder_ok d -> builder_ok d'.
Proof.
  intros H Hd. unfold add_item in H. destruct (_ && _); [|by apply menus_handled in H as [H _]].
  pose proof Hd as (H1 & H2 & H3 & H4 & H5). apply exec_bind_Done in H as (type & Ht & H). rewrite H2, H3 in Ht. injection Ht as <-.
  apply exec_bind_Done in H as (i & Hi & H). apply exec_bind_Done in H as (d1 & Hp & H). apply menus_handled in H as [H _]; [exact H|].
  eapply menus_push; [exact Hp|]. split; [|split; [done|split; [done|split; [|exact H5]]]]; cbn [items set_selected set_items].
  - apply list.Forall_app. split; [done|]. constructor; [by eapply new_item_menu|constructor].
  - unfold item_count in *. cbn [items set_selected set_items selected_item]. rewrite length_app. cbn [length]. lia.
Qed.
Lemma menus_delete d d' r : delete_item d = Done (d', r) -> builder_ok d -> builder_ok d'.
Proof.
  intros H Hd. unfold delete_item in H. destruct (get_item d (selected_item d)) as [i|] eqn:Ei; [|by apply menus_handled in H as [H _]].
  apply get_item_range in Ei. pose proof Hd as (H1 & H2 & H3 & H4 & H5).
  apply exec_bind_Done in H as (d1 & Hp & H). apply menus_handled in H as [H _]; [exact H|]. eapply menus_push; [exact Hp|].
  assert (item_count (set_items (delete (Z.to_nat (selected_item d)) (items d)) d) = item_count d - 1) as Hc.
  { unfold item_count in *. cbn [items set_items]. rewrite length_delete; [lia|]. apply lookup_lt_is_Some. lia. }
  rewrite Hc. cbn [selected_item set_items].
  assert (forall s, -1 <= s < item_count d - 1 -> builder_ok (set_selected s (set_items (delete (Z.to_nat (selected_item d)) (items d)) d))) as Hs.
  { intros s Hs. split; [|split; [done|split; [done|split; [|exact H5]]]]; cbn [items set_selected set_items].
    - by apply list.Forall_delete.
    - change (item_count (set_selected s ?x)) with (item_count x). rewrite Hc. exact Hs. }
  destruct (Z.leb_spec (item_count d - 1) (selected_item d)).
  - apply Hs. lia.
  - apply (Hs (selected_item d)). lia.
Qed.
Lemma travel_same o (d : data) : builder_ok d -> o = OUndo \/ o = ORedo -> travel o d = Done (d, event_result_handled).
Proof.
  intros (_ & _ & _ & _ & H5) Ho. unfold travel. rewrite (travel_idle _ _ H5 Ho). cbn [mbind exec_bind]. destruct d as [? ? ? ? ? ? ? ? ? ? ? [? ?]]. done.
Qed.
Lemma menus_save (d d' : data) r : save d = Done (d', r) -> d' = d.
Proof. unfold save. destruct (cJSON_PrintUnformatted _); by intros [= <- _]. Qed.
Lemma menus_key ev d d' r : key_pressed reg ev d = Done (d', r) -> builder_ok d -> builder_ok d'.
Proof.
  intros H Hd. pose proof Hd as (H1 & H2 & H3 & H4 & H5). unfold key_pressed in H.
  destruct (code ev); try (by injection H as <- _); try (by apply menus_handled in H as [H _]).
  - by eapply menus_add.
  - by eapply menus_arrow.
  - by eapply menus_arrow.
  - eapply menus_arrow; [exact H|exact Hd|]. destruct (Z.ltb_spec 0 (selected_item d)); [apply menus_selected; [done|lia]|done].
  - eapply menus_arrow; [exact H|exact Hd|]. cbv beta. destruct (Z.ltb_spec (selected_item d + 1) (item_count d)); [|exact Hd]. apply menus_selected; [exact Hd|lia].
  - by eapply menus_delete.
  - apply menus_handled in H as [H _]; [exact H|]. unfold start_edit. by destruct (get_item d _).
  - unfold char_key in H. destruct (_ || _); [by apply menus_save in H as ->|].
    destruct (ch ev =? 26); [rewrite (travel_same _ _ Hd (or_introl eq_refl)) in H; by injection H as <- _|].
    destruct (ch ev =? 25); [rewrite (travel_same _ _ Hd (or_intror eq_refl)) in H; by injection H as <- _|]. by injection H as <- _.
Qed.
Lemma menus_event d ev d' r : builder_handle_event reg d ev = Done (d', r) -> builder_ok d -> builder_ok d'.
Proof.
  intros H Hd. unfold builder_handle_event in H. destruct (prop_editing (edit d)); [by eapply menus_edit|].
  destruct (Widget.type ev); try (by injection H as <- _).
  - by eapply menus_key.
  - case_decide; [|by injection H as <- _]. unfold press in H. destruct (item_under d _ _) as [[n i]|] eqn:E; [|by injection H as <- _].
    apply menus_handled in H as [H _]; [exact H|]. apply menus_selected; [done|]. by eapply under_range.
  - unfold drag_start in H. destruct (item_under d _ _) as [[n i]|] eqn:E; [|by injection H as <- _].
    apply menus_handled in H as [H _]; [exact H|]. apply menus_selected; [done|]. by eapply under_range.
  - destruct (dragging (drag d)); [|by injection H as <- _]. unfold drag_move in H. destruct (get_item d _); [|by injection H as <- _].
    apply exec_bind_Done in H as (d1 & Hc & H). apply menus_handled in H as [H _]; [exact H|]. eapply menus_change; [exact Hc| |exact Hd]. by intros j j' [= <-].
  - destruct (dragging (drag d)); [|by injection H as <- _]. unfold drag_end in H. apply exec_bind_Done in H as (d1 & Hp & H).
    apply menus_handled in H as [H _]; [exact H|]. by eapply menus_push.
Qed.
Lemma menus_children d l n l' ts : canvas_children d n l = Done (l', ts) -> Forall is_menu l -> Forall is_menu l' /\ length l' = length l.
Proof.
  revert n l' ts. induction l as [|i l IH]; intros n l' ts H Hl; cbn [canvas_children] in H; [by injection H as <- _|].
  apply exec_bind_Done in H as ([i' t] & Hi & H). apply exec_bind_Done in H as ([l1 ts1] & Hr & H). injection H as <- _. inversion_clear Hl as [|? ? Hm Hms].
  destruct (IH _ _ _ Hr Hms) as [H1 H2]. split; [|cbn; by rewrite H2]. constructor; [|exact H1].
  unfold canvas_child in Hi. destruct (live_widget i); [|by injection Hi as <- _]. by apply exec_bind_Done in Hi as ([w' t'] & _ & [= <- _]).
Qed.
Lemma menus_draw d d' t : builder_render theme d = Done (d', t) -> builder_ok d -> builder_ok d'.
Proof.
  intros H Hd. pose proof Hd as (H1 & H2 & H3 & H4 & H5). unfold builder_render in H. case_decide.
  - unfold live_preview in H. destruct (get_item d (selected_item d)) as [i|] eqn:Ei; [|by injection H as <- _]. destruct (live_widget i) as [w|]; [|by injection H as <- _].
    apply exec_bind_Done in H as ([w' t'] & _ & [= <- _]). split; [|split; [done|split; [done|split; [|exact H5]]]]; cbn [items set_items].
    + apply list.Forall_insert; [done|]. unfold get_item in Ei. destruct (_ <? 0); [done|]. exact (list.Forall_lookup_1 _ _ _ _ H1 Ei).
    + unfold item_count in *. cbn [items set_items selected_item]. by rewrite length_insert.
  - unfold canvas_view in H. apply exec_bind_Done in H as ([l ts] & Hc & H). apply exec_bind_Done in H as (p & _ & [= <- _]).
    destruct (menus_children _ _ _ _ _ Hc H1) as [Hm Hl]. split; [exact Hm|]. split; [done|]. split; [done|]. split; [|exact H5].
    unfold item_count in *. cbn [items set_items selected_item]. by rewrite Hl.
Qed.
Lemma menus_acts l : forall (d d' : data) r, Served.act_run d l = Done (d', r) -> builder_ok d -> builder_ok d'.
Proof.
  induction l as [|[e|area] l IH]; intros d d' r H Hd; cbn [Served.act_run] in H; [by injection H as <- _| |].
  - apply exec_bind_Done in H as ([d1 r1] & He & H). pose proof (menus_event _ _ _ _ He Hd) as Hd1. destruct r1; [by eapply IH|by injection H as <- _|by eapply IH].
  - apply exec_bind_Done in H as ([d1 t] & He & H). eapply IH; [exact H|]. by eapply (menus_draw (set_base (Served.with_area area (base d)) d)).
Qed.
Lemma menus_new : builder_ok widget_builder_new.
Proof.
  split; [constructor|]. split; [done|]. split; [done|]. split; [by vm_compute|]. exists (undo_stack_new 200), (mkHist [] 0 0 tt), []. split; [done|].
  split; [exact (reps_new 200 tt)|]. by split.
Qed.

(** C15: the widget builder makes menus and nothing else: the entry of the palette
    that Enter adds is always the first, a title that is typed is stored behind
    the title that is there, which is still the one that is found, and undo and
    redo find no action that they could run. *)
Theorem builder_makes_menus l d r : Served.act_run (widget_builder_new : data) l = Done (d, r) ->
  (forall i, i ∈ items d -> widget_type i = "menu"%string /\ (cJSON_GetObjectItem (Some (item_params i)) "title" ≫= valuestring) = Some "menu"%string) /\
  -1 <= selected_item d < item_count d /\
  forall c, c = 26 \/ c = 25 -> prop_editing (edit d) = false -> builder_handle_event reg d (key_event KEY_CHAR c) = Done (d, event_result_handled).
Proof.
  intros H. apply menus_acts in H; [|exact menus_new]. pose proof H as (H1 & _ & _ & H4 & _). split; [|split; [exact H4|]].
  - intros i Hi. rewrite list.Forall_forall in H1. destruct (H1 i Hi) as (Ht & _ & _ & Hp). by split.
  - intros c Hc He. unfold builder_handle_event. rewrite He. cbn [Widget.type key_event]. unfold key_pressed. cbn [code ch key_event]. unfold char_key.
    destruct Hc as [-> | ->]; cbn [Z.eqb Pos.eqb orb]; [apply travel_same; [exact H|by left]|apply travel_same; [exact H|by right]].
Qed.
End menus.

(** A registry with one type, whose widget is a toggle. *)
Definition menu_registry : list (RegistryEntry (W := Toggle.ToggleData)) :=
  [mkEntry "menu" (Some (fun req => Done (Some (Toggle.toggle_widget_new (cJSON_GetObjectItem (params req) "title" ≫= valuestring) "on" false)))) false].
(** Adds an item, types " two" behind its title, adds another, moves it, and undoes. *)
Definition building : list Served.act :=
  [Served.Takes (key_event KEY_ENTER 0); Served.Takes (key_event KEY_F4 0); Served.Takes (key_event KEY_CHAR 32); Served.Takes (key_event KEY_CHAR 50);
   Served.Takes (key_event KEY_ENTER 0); Served.Draws (mkRect 0 0 80 24); Served.Takes (key_event KEY_ENTER 0); Served.Takes (key_event KEY_DOWN 0); Served.Takes (key_event KEY_CHAR 26)].
Lemma builder_makes_menus_witness : exists d,
  Served.act_run (H := builder_widget menu_registry None) (widget_builder_new : WidgetBuilderData (W := Toggle.ToggleData)) building = Done (d, None) /\
  map item_y (items d) = [10; 15] /\ map (fun i => length (child (item_params i))) (items d) = [3; 2]%nat /\
  (forall i, i ∈ items d -> widget_type i = "menu"%string) /\ selected_item d < item_count d.
Proof.
  assert (exists d, Served.act_run (H := builder_widget menu_registry None) (widget_builder_new : WidgetBuilderData (W := Toggle.ToggleData)) building = Done (d, None) /\
    map item_y (items d) = [10; 15] /\ map (fun i => length (child (item_params i))) (items d) = [3; 2]%nat) as (d & H & Hy & Hl).
  { eexists. split; [vm_compute; reflexivity|]. split; vm_compute; reflexivity. }
  exists d. split; [exact H|]. split; [exact Hy|]. split; [exact Hl|].
  destruct (builder_makes_menus menu_registry None building d None H) as (H1 & [_ H2] & _). split; [intros i Hi; apply (H1 i Hi)|exact H2].
Defined.

(** A live widget is drawn in the area it was made with, which is empty. *)
Definition live_rects (m : exec (WidgetBuilderData (W := Toggle.ToggleData) * option WidgetResponse)) : exec (list Rect) :=
  '(d, _) ← m; '(_, ts) ← canvas_children (with_base (Served.with_area (mkRect 0 0 80 24) (wb d)) d) 0 (items d); Done (map (fun t => rect (info t)) ts).
Example live_unseen : live_rects (Served.act_run (H := builder_widget menu_registry None) widget_builder_new [Served.Takes (key_event KEY_ENTER 0)])
  = Done [mkRect 35 5 (-1) (-1)].
Proof. vm_compute. reflexivity. Qed.
